(* ===== verification/_CoqProject ===== *)
-Q . S2P
Prelude.v
Defs.v
CLib.v
State.v
SimEnv.v
Config.v
Command.v
Sched.v
Alarm.v
Safety.v
CoapClient.v
Identity.v
AlertUtils.v
DataPlane.v
AtlasLib.v
Payload.v
Telemetry.v
Register.v
CoapServer.v
Endpoints.v
CommandExecute.v
Client.v
Double.v
GwDefs.v
GwBatch.v
GwXfer.v
GwFilter.v
GwBayes.v
GwStore.v
GwNetStore.v
GwDevice.v
GwServer.v
GwReputation.v
GwLifecycle.v
GwTrust.v
GwApprove.v
GwCommands.v
GwControl.v
GwClaim.v
GwPlugin.v
System.v
Trust.v
GwIo.v
GwCoap.v
GwCoapServer.v
GwLink.v
GwBroker.v
GwIdentity.v
GwHttp.v
Approved.v
