(* ===== verification/Prelude.v ===== *)
(** * The ATLAS client, its gateway and the gateway's broker plug-in

    This library models and verifies the parts of ATLAS that carry its protocol:

    - the client (src/atlas_client/src, C): a single-threaded process on the IoT
      device that registers to the gateway, keeps the registration alive, sends
      telemetry, runs approved commands and forwards the firewall policy of the
      device's application, all over CoAP and around one [select] loop;
    - the library the application links (src/atlas_client/src/data_plane), which
      talks to the client over a unix socket;
    - the gateway (src/atlas_gateway/src, C++): the CoAP end-points of the client's
      messages, the table of devices with their policies, features, statistics and
      reputation, the SQLite database behind them, the commands the cloud sends to
      devices and their approval, the claim of the gateway by its owner over HTTP,
      the event loop and alarms under all this, the gateway's own CoAP client and
      server, its connection to the cloud, its identity;
    - the gateway's Mosquitto plug-in (src/atlas_gateway/src/mosquitto_plugin) with
      its packet filter, which enforces the policies on publish-subscribe traffic and
      reports statistics.

    All of them exchange batches of type-length-value commands, written and read by
    two implementations of one format. Everywhere the model is a translation of the
    source: one definition per function, with its guards, its early returns and its
    calls; C enumerators and fields keep their names.

    ** How the code is represented

    Machine integers are [Z] with the wrap-around written out ([u8], [u16], [u32],
    [u64]); a value in memory goes through [st16]/[ld16] (and the 32-bit ones), whose
    byte order is the host's ([HostEndian]), so that [htons] and [ntohs] mean what
    they mean in C and nothing is proved for one byte order only. A buffer is the
    list of its bytes; [mem_load] and [mem_store] fault outside it. Undefined
    behaviour is a value: [res A] is a result or a [fault] (null dereference, access
    outside a block, use after free, read of something uninitialised, no fuel left).
    A theorem that says that something returns therefore also says that none of
    these happens on the way.

    The client is a state-passing monad [M] over [client], the statics of all its
    modules; the gateway a monad [G] over [gateway] and, with the modules that talk to
    the cloud, over [control]; the application library a monad [L] over [lib_state]. The
    end-points and alarms of the gateway are inputs of [handle] and [ct_handle], whose
    runs are [gw_run] and [ct_run]; GwIo.v, GwCoap.v, GwCoapServer.v, GwLink.v and
    GwHttp.v model what produces such inputs and carries their results, each as a
    state machine with runs of its own: GwCoapServer.v and GwHttp.v are proved to
    produce nothing but runs of the gateway, GwCoap.v and GwLink.v are built on the
    alarms of GwIo.v. A pointer to a list node that the code keeps is the key of the
    node; callbacks stored in tables are names ([alarm_cb], [coap_cb],
    [server_cb], [sched_cb]) that Client.v resolves, the way the C code follows the
    pointers. What is sent is recorded in the state ([cl_out], [gw_out], [sent_]): a
    record is a call with its arguments. [GwCloud] says that [updateDevice] is called,
    GwLink.v when this publishes something; what the agent and the filter write to each
    other is the bytes they give to [async_write], whose buffer the code frees too early.

    Code that is not the program's own is a parameter with the laws its documentation
    gives: the kernel, the file system, libcoap, libuuid and OpenSSL ([Env] with
    [EnvLaws], [LibEnv] with [LibLaws]), the database engine, which may fail at any
    call ([SqlEngine]), the clock, the order of [std::unordered_map] and the sending
    of CoAP requests by the gateway ([GwEnv], [HashOrder]; [Sends] says that none is
    refused as it is made), JSON, HMAC, base64 and MQTT ([CloudEnv]), libcoap and
    [getaddrinfo] under the gateway's client and server ([CoapHost]), Paho ([MqttEnv]),
    nghttp2 and the choice it makes among the registered paths ([HttpEnv]), the gateway's
    files, on which a write may fail or stop halfway ([IdentityEnv] with [FileStreams]).
    Boost.Asio is given by its documentation. The C++ [double] is IEEE-754 binary64 with every operation
    rounded on its own (no contraction into fused operations). SimEnv.v is an executable world that satisfies the client's laws
    and GwLifecycle.v has one for the gateway; every theorem with hypotheses is
    applied there at a concrete input.

    ** Files

    Shared: Prelude.v (this file: faults, machine integers, byte orders, memory,
    lists, the tactics [blia] and [blen_pos], the rewrite database [blen]); CLib.v
    (C strings); Defs.v (the enumerations of the client).

    The client:
    - State.v, SimEnv.v: the state, the outside world, its laws, a concrete world;
    - Config.v (utils/atlas_config.c), Identity.v (identity/atlas_identity.c);
    - Command.v (commands/atlas_command.c), the wire format, and AlertUtils.v
      (telemetry/atlas_alert_utils.c), two of its readers;
    - Sched.v (scheduler/atlas_scheduler.c), the event loop, and Alarm.v
      (alarm/atlas_alarm.c), timers on top of it;
    - Safety.v: the invariant of the process, [client_inv], and the judgement [okm]
      every operation is checked against, with its hint database;
    - CoapClient.v and CoapServer.v (coap/);
    - DataPlane.v (data_plane_connector/), AtlasLib.v (data_plane/atlas_client.c);
    - Payload.v, Telemetry.v, Endpoints.v (telemetry/);
    - Register.v (register/atlas_register.c), CommandExecute.v (commands_execute/);
    - Client.v (atlas_main.c): the command line, start-up and the whole loop.

    The gateway and its plug-in:
    - Double.v: [double] on the Standard Library's SpecFloat, and that quotients and
      products of numbers between 0 and 1 stay there;
    - GwDefs.v: its enumerations; GwBatch.v (commands/AtlasCommandBatch.cpp), its
      codec; GwXfer.v (commands/AtlasCommandXfer.cpp), commands out of a stream;
    - GwFilter.v (mosquitto_plugin/filter/): rules, rate limit, statistics;
    - GwBayes.v (reputation_impl/, device/reputation_feedback/): features, networks,
      the naive Bayes score, the feedback the gateway computes itself;
    - GwStore.v (sql/AtlasSQLite.cpp): the tables, the statements on them, every
      operation; GwNetStore.v: what it keeps of the reputation networks;
    - GwDevice.v (device/AtlasDevice.cpp, policy/AtlasFirewallPolicy.cpp, alerts of
      telemetry/, the writing side of pubsub_agent/AtlasPubSubAgent.cpp);
    - GwServer.v (device/AtlasDeviceManager.cpp, register/AtlasRegister.cpp,
      policy/AtlasPolicy.cpp, telemetry/AtlasTelemetry.cpp, the reading side of the
      agent), with the judgements for operations that visit all devices ([visits])
      or keep an invariant ([gpreserves]);
    - GwReputation.v (the reputation part of AtlasDeviceManager.cpp,
      reputation/AtlasFeatureReputation.cpp) and GwTrust.v, what it amounts to;
    - GwLifecycle.v: all inputs of the gateway as one handler and its runs;
    - GwApprove.v (claim_approve/AtlasApprove.cpp, the commands of
      device/AtlasDevice.cpp) and GwCommands.v, what it guarantees; the class
      [GwInv] is what an invariant has to tolerate of the rest of the gateway;
    - GwControl.v and GwClaim.v (claim_approve/AtlasClaim.cpp,
      device/AtlasGateway.cpp, cloud/): everything the cloud and the owner can do;
    - GwIo.v (alarm/AtlasAlarm.cpp, scheduler/): alarms and descriptors on the event
      loop, with their handlers that are already queued;
    - GwCoap.v (coap/AtlasCoapClient.cpp, AtlasCoapRequest.cpp), requests over GwIo.v;
    - GwCoapServer.v (coap/AtlasCoapServer.cpp, AtlasCoapResource.cpp, the start and
      stop of the end-points' modules): sessions, resources, dispatch;
    - GwLink.v (mqtt_client/, cloud/): the connection to the cloud over GwIo.v;
    - GwBroker.v (mosquitto_plugin/AtlasMosquittoPlugin.cpp): all that can happen to
      the plug-in;
    - GwIdentity.v (identity/AtlasIdentity.cpp); GwHttp.v (http/, the callback of
      claim_approve/AtlasClaim.cpp): the index page, the claims, the two threads;
    - GwPlugin.v: the gateway and the filter together;
    - System.v, Trust.v, Approved.v: the client and the gateway together.

    ** What the theorems show

    Safety. From a start with any command line, no turn of the client's event loop
    uses a freed object, whatever the network, the kernel and the application do
    ([Client.no_use_after_free]); in every such turn each pending request has its
    time-out alarm and each remembered alarm id is valid
    ([Client.pending_requests_armed], [Client.alarm_handles_valid]). The gateway
    handles every input in every reachable state ([GwLifecycle.gateway_safe]) and a
    request touches the authenticated device only ([GwLifecycle.requests_isolated]).
    The plug-in's state stays well-typed and every packet is judged
    ([GwBroker.plugin_typed]).

    The gateway's edges. Its alarms behave like deadlines, although a cancelled or
    destroyed one may have a handler queued ([GwIo.alarms_refine],
    [GwIo.alarm_punctual]); each request of its CoAP client ends in exactly one
    callback, its answer or its time-out ([GwCoap.requests_answered_once],
    [GwCoap.request_times_out], [GwCoap.response_delivered]); its CoAP server acts for
    authenticated devices only and answers every request as the end-point of its path
    and method does ([GwCoapServer.server_refines], [GwCoapServer.requests_routed]);
    its HTTP server lets claims through and answers what else nghttp2 hands to it by
    itself ([GwHttp.http_claims]); its
    link to the cloud reconnects, registers and synchronises
    ([GwLink.cloud_link_recovers], [GwLink.cloud_registered_connected],
    [GwLink.registration_synchronises]); it keeps its identity and key if what it
    writes reaches the files ([GwIdentity.gateway_identity_persists], which also says
    what becomes of them if not).

    The format. What is added to a batch is what is read back, the validator accepts
    exactly the encodings of lists of commands, the two implementations interoperate
    and agree on what they accept, and the stream reader does not depend on how the
    stream is cut ([Command.batch_roundtrip], [Command.set_raw_accepts_iff],
    [GwBatch.codecs_interoperate], [GwBatch.readers_agree],
    [GwXfer.stream_reassembled]).

    The loop. A turn asks [select] about exactly the live entries and dispatches every
    one it reports once, although callbacks change the list under it, and ends
    ([Client.event_loop_fair],
    [Client.event_loop_terminates]).

    Functional behaviour of the modules: requests and responses, identity, alarms,
    end-points, telemetry, retries, registration, expiry, the rate limit.

    Commands. A command the gateway acknowledged is in the database until the cloud
    has acknowledged its execution, through failures of the database and restarts;
    an old command, and for a claimed gateway one without the right HMAC, changes
    nothing ([GwControl.commands_durable],
    [GwControl.commands_survive_restart], [GwControl.old_or_forged_ignored]). The
    gateway is claimed once and only with its current code
    ([GwClaim.claim_permanent], [GwClaim.owner_needs_code]).

    Reputation. A score lies between 0 and 1, rounding included; a round scores all
    devices and leaves the best one trusted; feedback reaches the network it is
    about; networks survive a restart ([GwBayes.reputation_bounded],
    [GwTrust.reputation_round], [GwTrust.feedback_counted],
    [GwTrust.reputation_persists]).

    End to end. A registration, a keep-alive, a telemetry reading, an alert, a policy,
    an approved command, a request for the trusted device and a feedback sent by the
    one program have their effect in the other, down to the rule in the filter and the identity the
    application gets. A telemetry push, a keep-alive and a registration have it if their
    message goes out; the requests of an application go out whenever the CoAP client
    takes them; the answer to a command is followed through the CoAP layers of both
    programs. After a reconnection the filter has the rules of the gateway; statistics
    are moved and neither lost nor counted twice (System.v, Trust.v, Approved.v,
    GwPlugin.v).

    Flaws. Where the code does not do what it means to, the theorem states what it
    does, with the shortest input that shows it: batches over 65535 bytes, a second
    cancellation of a reused timer, a threshold alert without a threshold, a stream
    command longer than its buffer, a policy comparison that assigns, statistics of a
    client without a rule, executed commands that are all acknowledged, a resent
    command that reopens the window of sequence numbers, a feedback value longer
    than its variable, a repeated score, a default feedback truncated to 0, a request
    to an address that is refused ([GwLifecycle.refused_address_kills]), a refused
    reconnection ([GwLink.reconnect_gives_up]), a synchronisation that never stops
    ([GwLink.sync_never_stops]), an HTTP client that leaves before its answer, an
    identity whose file could not be written.

    ** Fuel

    Loops that are not structural take fuel. The scans of a batch get one unit more
    than its length, and each turn consumes at least four bytes, so they never run
    out. The walk of the scheduler is over a list its own callbacks append to; every
    callback that runs clears its descriptor from the finite set of the ready ones,
    and [Client.event_loop_terminates] shows that some number of steps suffices in
    every reachable state and that more give the same result. The loop of the client
    does not end; [main] takes the number of its turns, and theorems about reachable
    states hold for all of them. The retry loops of the application library end for
    every fuel above the number of failures the peer still has in it
    ([AtlasLib.retry_delivers]).

    ** Not modelled, and why

    Logging. The example application data_plane/atlas_data_plane.c (Paho MQTT). In the
    gateway: the parsing of its options, opening the database and its command line
    tool, the reputation tester and simulator (programs of their own), the log of
    what MQTT actions report, the disconnection and destructors at the exit of the
    process. In the plug-in: the Mosquitto entry points that return a constant or
    start the filter's thread. The Java cloud service and the Android application.
    Threads: the application library and the filter take a mutex around every access,
    the HTTP server and Paho only post to the event loop, and all are modelled as
    sequences of whole operations. An [int] that counts seconds or keep-alives of a
    device is not bounded; it would take decades to overflow. *)
From stdpp Require Export base tactics list numbers option strings gmap.
From Stdlib Require Export Strings.Byte.
From Stdlib Require Import NArith ZArith Lia.

Global Open Scope Z_scope.

(** [lia] with Euclidean division, for the wrap-around arithmetic below. *)
Ltac Zify.zify_post_hook ::= Z.to_euclidean_division_equations.

(** * Faults: the undefined behaviours the model makes observable *)

Inductive fault : Set :=
  | OutOfBounds     (* a read or a write outside the allocated block *)
  | NullDeref       (* a dereference of NULL *)
  | UseAfterFree    (* a read through a pointer to a freed block *)
  | Uninitialised   (* a read of a variable that was never assigned *)
  | SignedOverflow  (* an int computation outside 32 bits *)
  | Uncaught        (* a C++ exception no caller catches *)
  | OutOfFuel.      (* a loop bound of the model was too small *)

#[export] Instance fault_eq_dec : EqDecision fault.
Proof. solve_decision. Defined.

(** A computation either returns or hits undefined behaviour. *)
Inductive res (A : Type) : Type :=
  | Ok (a : A)
  | Fault (f : fault).
Arguments Ok {A} a.
Arguments Fault {A} f.

#[export] Instance res_ret : MRet res := fun A a => Ok a.
#[export] Instance res_bind : MBind res := fun A B k m =>
  match m with Ok a => k a | Fault f => Fault f end.
#[export] Instance res_fmap : FMap res := fun A B g m =>
  match m with Ok a => Ok (g a) | Fault f => Fault f end.
#[export] Instance res_eq_dec {A} `{EqDecision A} : EqDecision (res A).
Proof. solve_decision. Defined.

Lemma res_bind_ok {A B} (a : A) (k : A -> res B) : (Ok a ≫= k) = k a.
Proof. reflexivity. Qed.

Lemma res_bind_assoc {A B C} (m : res A) (k : A -> res B) (g : B -> res C) :
  ((m ≫= k) ≫= g) = (m ≫= (fun a => k a ≫= g)).
Proof. by destruct m. Qed.

Lemma res_bind_inv {A B} (m : res A) (k : A -> res B) b :
  (m ≫= k) = Ok b -> exists a, m = Ok a /\ k a = Ok b.
Proof. destruct m; cbn; eauto; discriminate. Qed.

(** * Machine integers *)

Definition u8 (z : Z) : Z := z mod 256.
Definition u16 (z : Z) : Z := z mod 65536.
Definition u32 (z : Z) : Z := z mod 4294967296.

Definition is_u8 (z : Z) : Prop := 0 <= z < 256.
Definition is_u16 (z : Z) : Prop := 0 <= z < 65536.
Definition is_u32 (z : Z) : Prop := 0 <= z < 4294967296.

Lemma u8_range z : is_u8 (u8 z).
Proof. unfold is_u8, u8. lia. Qed.
Lemma u16_range z : is_u16 (u16 z).
Proof. unfold is_u16, u16. lia. Qed.
Lemma u32_range z : is_u32 (u32 z).
Proof. unfold is_u32, u32. lia. Qed.
Lemma u8_small z : is_u8 z -> u8 z = z.
Proof. unfold is_u8, u8. lia. Qed.
Lemma u16_small z : is_u16 z -> u16 z = z.
Proof. unfold is_u16, u16. lia. Qed.

(** * Bytes *)

#[export] Instance byte_eq_decision : EqDecision byte := Byte.byte_eq_dec.

Definition b2z (b : byte) : Z := Z.of_N (Byte.to_N b).
Definition z2b (z : Z) : byte := default x00 (Byte.of_N (Z.to_N (u8 z))).

Lemma b2z_range b : is_u8 (b2z b).
Proof. unfold is_u8, b2z. pose proof (Byte.to_N_bounded b). lia. Qed.

Lemma b2z_z2b z : b2z (z2b z) = u8 z.
Proof.
  unfold b2z, z2b. pose proof (u8_range z) as Hr. unfold is_u8 in Hr.
  destruct (Byte.of_N (Z.to_N (u8 z))) as [b|] eqn:E.
  - apply Byte.to_of_N in E. cbn. rewrite E. lia.
  - apply Byte.of_N_None_iff in E. lia.
Qed.

Lemma z2b_b2z b : z2b (b2z b) = b.
Proof.
  unfold z2b. rewrite u8_small by apply b2z_range.
  unfold b2z. rewrite N2Z.id. by rewrite Byte.of_to_N.
Qed.

(** The byte order of the host, a parameter of every definition that stores an
    integer in memory in host order. *)
Class HostEndian := host_le : bool.

Section Host.
Context `{HostEndian}.

(** The two bytes of a [uint16_t] in memory, and back. *)
Definition st16 (z : Z) : list byte :=
  if host_le then [z2b z; z2b (z / 256)] else [z2b (z / 256); z2b z].
Definition ld16 (bs : list byte) : Z :=
  match bs with
  | [a; b] => if host_le then b2z a + 256 * b2z b else 256 * b2z a + b2z b
  | _ => 0
  end.

(** [htons]: the value whose host-order bytes are the big-endian bytes of [z];
    [ntohs] is the same byte swap. *)
Definition htons (z : Z) : Z := ld16 [z2b (z / 256); z2b z].
Definition ntohs (z : Z) : Z := htons z.

(** Big-endian (network order) reading and writing, independent of the host. *)
Definition be16 (z : Z) : list byte := [z2b (z / 256); z2b z].
Definition of_be16 (bs : list byte) : Z :=
  match bs with [a; b] => 256 * b2z a + b2z b | _ => 0 end.

Lemma ld16_range bs : is_u16 (ld16 bs).
Proof.
  unfold ld16, is_u16. destruct bs as [|a [|b [|]]]; try lia.
  pose proof (b2z_range a); pose proof (b2z_range b). unfold is_u8 in *.
  destruct host_le; lia.
Qed.

Lemma of_be16_be16 z : is_u16 z -> of_be16 (be16 z) = z.
Proof. unfold of_be16, be16, is_u16. rewrite !b2z_z2b. unfold u8. lia. Qed.

(** The four bytes of a [uint32_t] in memory. *)
Definition st32 (z : Z) : list byte :=
  let bs := [z2b z; z2b (z / 256); z2b (z / 65536); z2b (z / 16777216)] in
  if host_le then bs else reverse bs.

(** The [uint32_t] in four bytes of memory, network order, and [htonl]. *)
Definition ld32 (bs : list byte) : Z :=
  match (if host_le then bs else reverse bs) with
  | [a; b; c; d] => b2z a + 256 * b2z b + 65536 * b2z c + 16777216 * b2z d
  | _ => 0
  end.
Definition be32 (z : Z) : list byte :=
  [z2b (z / 16777216); z2b (z / 65536); z2b (z / 256); z2b z].
Definition htonl (z : Z) : Z := ld32 (be32 z).
Definition ntohl (z : Z) : Z := htonl z.

Lemma ld32_st32 z : is_u32 z -> ld32 (st32 z) = z.
Proof.
  unfold ld32, st32, is_u32.
  destruct host_le; cbn [reverse rev_append rev]; rewrite ?reverse_involutive; cbn;
    rewrite !b2z_z2b; unfold u8; lia.
Qed.

Lemma ld32_range bs : is_u32 (ld32 bs).
Proof.
  unfold ld32, is_u32. destruct (if host_le then bs else reverse bs) as [|a [|b [|c [|d [|]]]]]; try lia.
  pose proof (b2z_range a); pose proof (b2z_range b); pose proof (b2z_range c); pose proof (b2z_range d).
  unfold is_u8 in *. lia.
Qed.

Lemma b2z_inj a b : z2b a = z2b b -> u8 a = u8 b.
Proof. intros Hab. by rewrite <- !b2z_z2b, Hab. Qed.

Lemma st32_inj x y : is_u32 x -> is_u32 y -> st32 x = st32 y -> x = y.
Proof.
  unfold st32, is_u32. intros Hx Hy.
  assert (Hcore : forall bs bs' : list byte, (if host_le then bs else reverse bs) =
    (if host_le then bs' else reverse bs') -> bs = bs').
  { intros bs bs'. destruct host_le; [done|]. apply (inj reverse). }
  intros [= H0 H1 H2 H3]%Hcore. apply b2z_inj in H0, H1, H2, H3. unfold u8 in *. lia.
Qed.

Lemma be16_of_be16 a b : be16 (of_be16 [a; b]) = [a; b].
Proof.
  pose proof (b2z_range a); pose proof (b2z_range b). unfold is_u8 in *.
  unfold be16, of_be16.
  replace ((256 * b2z a + b2z b) / 256) with (b2z a) by lia.
  rewrite z2b_b2z. do 2 f_equal. rewrite <- (z2b_b2z b) at 2. unfold z2b, u8.
  do 3 f_equal. lia.
Qed.

Lemma of_be16_range bs : is_u16 (of_be16 bs).
Proof.
  unfold of_be16, is_u16. destruct bs as [|a [|b [|]]]; try lia.
  pose proof (b2z_range a); pose proof (b2z_range b). unfold is_u8 in *. lia.
Qed.

Lemma ld16_st16 z : is_u16 z -> ld16 (st16 z) = z.
Proof.
  unfold st16, ld16, is_u16.
  destruct host_le; rewrite !b2z_z2b; unfold u8; lia.
Qed.

Lemma st16_ld16 a b : st16 (ld16 [a; b]) = [a; b].
Proof.
  pose proof (b2z_range a); pose proof (b2z_range b). unfold is_u8 in *.
  unfold st16, ld16. destruct host_le.
  - replace ((b2z a + 256 * b2z b) / 256) with (b2z b) by lia.
    rewrite z2b_b2z. f_equal. rewrite <- (z2b_b2z a) at 2. unfold z2b, u8.
    do 3 f_equal. lia.
  - replace ((256 * b2z a + b2z b) / 256) with (b2z a) by lia.
    rewrite z2b_b2z. do 2 f_equal. rewrite <- (z2b_b2z b) at 2. unfold z2b, u8.
    do 3 f_equal. lia.
Qed.

Lemma st16_htons z : st16 (htons z) = be16 z.
Proof. unfold htons. apply st16_ld16. Qed.

Lemma ntohs_ld16 a b : ntohs (ld16 [a; b]) = of_be16 [a; b].
Proof.
  pose proof (b2z_range a); pose proof (b2z_range b). unfold is_u8 in *.
  unfold ntohs, htons, ld16, of_be16.
  destruct host_le; rewrite !b2z_z2b; unfold u8; lia.
Qed.

Lemma z2b_is x b : u8 x = b2z b -> z2b x = b.
Proof. intros Hx. rewrite <- (z2b_b2z b). unfold z2b. by rewrite Hx, (u8_small (b2z b)) by apply b2z_range. Qed.

Lemma st32_ld32 a b c d : st32 (ld32 [a; b; c; d]) = [a; b; c; d].
Proof.
  pose proof (b2z_range a); pose proof (b2z_range b); pose proof (b2z_range c); pose proof (b2z_range d).
  unfold is_u8, ld32, st32 in *.
  destruct host_le; cbn; repeat f_equal; apply z2b_is; unfold u8; lia.
Qed.

Lemma st32_htonl z : st32 (htonl z) = be32 z.
Proof. apply st32_ld32. Qed.

Lemma be32_st32 z : be32 z = if host_le then reverse (st32 z) else st32 z.
Proof. unfold be32, st32. by destruct host_le. Qed.

Lemma ntohl_ld32_be32 z : is_u32 z -> ntohl (ld32 (be32 z)) = z.
Proof.
  intros Hz. unfold ntohl, htonl. rewrite (be32_st32 (ld32 _)).
  change (be32 z) with [z2b (z / 16777216); z2b (z / 65536); z2b (z / 256); z2b z]. rewrite st32_ld32.
  change [z2b (z / 16777216); z2b (z / 65536); z2b (z / 256); z2b z] with (be32 z).
  rewrite (be32_st32 z). transitivity (ld32 (st32 z)); [|by apply ld32_st32].
  f_equal. destruct host_le; [|done]. apply reverse_involutive.
Qed.

Lemma length_st16 z : length (st16 z) = 2%nat.
Proof. unfold st16. by destruct host_le. Qed.

Lemma ntohs_ld16_be16 z : is_u16 z -> ntohs (ld16 (be16 z)) = z.
Proof. intros Hz. unfold be16. rewrite ntohs_ld16. by apply of_be16_be16. Qed.
End Host.

(** * Blocks of memory *)

(** [blen] is a block's size as a C integer. *)
Definition blen (bs : list byte) : Z := Z.of_nat (length bs).

(** [mem_load buf off n]: the [n] bytes at offset [off] of the block. *)
Definition mem_load (buf : list byte) (off n : Z) : res (list byte) :=
  if decide (n <= 0) then Ok []
  else if decide (0 <= off /\ off + n <= blen buf)
  then Ok (take (Z.to_nat n) (drop (Z.to_nat off) buf))
  else Fault OutOfBounds.

(** [mem_store buf off bs]: overwrite the block from offset [off] with [bs]. *)
Definition mem_store (buf : list byte) (off : Z) (bs : list byte) : res (list byte) :=
  match bs with
  | [] => Ok buf
  | _ =>
      if decide (0 <= off /\ off + blen bs <= blen buf)
      then Ok (take (Z.to_nat off) buf ++ bs ++ drop (Z.to_nat (off + blen bs)) buf)
      else Fault OutOfBounds
  end.

(** [realloc buf n]: the block resized to [n] bytes, its old prefix kept. The
    bytes a larger block gains are indeterminate; they are [x00] here, and the
    theorems on the callers show that every one of them is overwritten. *)
Definition realloc (buf : option (list byte)) (n : Z) : list byte :=
  let old := default [] buf in
  take (Z.to_nat n) old ++ replicate (Z.to_nat n - length old) x00.

#[global] Arguments blen : simpl never.
#[global] Arguments mem_load : simpl never.
#[global] Arguments mem_store : simpl never.
#[global] Arguments realloc : simpl never.
#[global] Arguments be16 : simpl never.
#[global] Arguments st16 : simpl never.
#[global] Arguments st32 : simpl never.
#[global] Arguments ld16 : simpl never.
#[global] Arguments ld32 : simpl never.
#[global] Arguments be32 : simpl never.
#[global] Arguments htonl : simpl never.
#[global] Arguments ntohl : simpl never.
#[global] Arguments htons : simpl never.
#[global] Arguments ntohs : simpl never.
#[global] Arguments u8 : simpl never.
#[global] Arguments u16 : simpl never.
#[global] Arguments u32 : simpl never.

Lemma blen_nonneg bs : 0 <= blen bs.
Proof. unfold blen. lia. Qed.
Lemma blen_nil : blen [] = 0.
Proof. reflexivity. Qed.
Lemma blen_cons b bs : blen (b :: bs) = 1 + blen bs.
Proof. unfold blen. cbn [length]. lia. Qed.
Lemma blen_app a b : blen (a ++ b) = blen a + blen b.
Proof. unfold blen. rewrite length_app. lia. Qed.
Lemma blen_be16 z : blen (be16 z) = 2.
Proof. reflexivity. Qed.
Lemma blen_be32 z : blen (be32 z) = 4.
Proof. reflexivity. Qed.
Lemma blen_st16 `{HostEndian} z : blen (st16 z) = 2.
Proof. unfold blen. by rewrite length_st16. Qed.
Lemma blen_replicate n b : blen (replicate n b) = Z.of_nat n.
Proof. unfold blen. by rewrite length_replicate. Qed.
Lemma blen_0_inv bs : blen bs = 0 -> bs = [].
Proof. destruct bs; [done|]. rewrite blen_cons. pose proof (blen_nonneg bs). lia. Qed.
Lemma to_nat_blen bs : Z.to_nat (blen bs) = length bs.
Proof. unfold blen. lia. Qed.

Create Rewrite HintDb blen.
#[export] Hint Rewrite blen_nil blen_cons blen_app blen_be16 blen_be32 @blen_st16 blen_replicate : blen.

(** [blia]: linear arithmetic over block sizes. *)
Ltac blen_pos :=
  repeat match goal with
    | |- context [blen ?b] =>
        lazymatch goal with
        | _ : 0 <= blen b |- _ => fail
        | _ => pose proof (blen_nonneg b)
        end
    | _ : context [blen ?b] |- _ =>
        lazymatch goal with
        | _ : 0 <= blen b |- _ => fail
        | _ => pose proof (blen_nonneg b)
        end
    end.
Ltac blia :=
  repeat (progress (autorewrite with blen in *; cbn [fst snd] in *)); blen_pos; lia.

(** The two access lemmas: an access that names exactly one piece of a block
    split in three. *)
Lemma mem_load_app pre v post off n :
  off = blen pre -> n = blen v -> mem_load (pre ++ v ++ post) off n = Ok v.
Proof.
  intros -> ->. unfold mem_load. case_decide as H0.
  - f_equal. symmetry. apply blen_0_inv. pose proof (blen_nonneg v). lia.
  - rewrite decide_True by blia.
    by rewrite !to_nat_blen, drop_app_length, take_app_length.
Qed.

Lemma mem_store_app pre old post off new :
  off = blen pre -> blen old = blen new ->
  mem_store (pre ++ old ++ post) off new = Ok (pre ++ new ++ post).
Proof.
  intros -> Hlen. unfold mem_store. destruct new as [|b new].
  - by apply blen_0_inv in Hlen as ->.
  - set (nw := b :: new) in *. rewrite decide_True by blia.
    f_equal. rewrite to_nat_blen, take_app_length. do 2 f_equal.
    rewrite <- Hlen, <- blen_app, to_nat_blen, app_assoc. apply drop_app_length.
Qed.

Lemma mem_load_prefix v post n : n = blen v -> mem_load (v ++ post) 0 n = Ok v.
Proof. intros ->. by apply (mem_load_app [] v post). Qed.

Lemma mem_load_all v n : n = blen v -> mem_load v 0 n = Ok v.
Proof. intros ->. rewrite <- (app_nil_r v) at 1. by apply mem_load_prefix. Qed.

Lemma mem_store_nil buf off : mem_store buf off [] = Ok buf.
Proof. reflexivity. Qed.

Lemma mem_load_oob buf off n :
  0 < n -> blen buf < off + n -> mem_load buf off n = Fault OutOfBounds.
Proof.
  intros. unfold mem_load. rewrite decide_False by lia. by rewrite decide_False by lia.
Qed.

Lemma mem_store_oob buf off bs :
  bs <> [] -> blen buf < off + blen bs -> mem_store buf off bs = Fault OutOfBounds.
Proof.
  intros Hne Hl. unfold mem_store. destruct bs; [done|]. by rewrite decide_False by lia.
Qed.

Lemma mem_load_inside buf off n :
  0 <= off -> off + n <= blen buf -> exists bs, mem_load buf off n = Ok bs.
Proof. intros. unfold mem_load. case_decide; [eauto|]. rewrite decide_True by lia. eauto. Qed.

Lemma mem_load_length buf off n bs :
  mem_load buf off n = Ok bs -> 0 <= n -> blen bs = n.
Proof.
  unfold mem_load. repeat case_decide; intros [= <-] ?; [rewrite blen_nil; lia|].
  unfold blen in *. rewrite length_take, length_drop. lia.
Qed.

Lemma realloc_grow bs n :
  realloc (Some bs) (blen bs + Z.of_nat n) = bs ++ replicate n x00.
Proof.
  unfold realloc. cbn. unfold blen.
  rewrite take_ge by lia. do 2 f_equal. lia.
Qed.

Lemma blen_realloc buf n : 0 <= n -> blen (realloc buf n) = n.
Proof.
  intros. unfold realloc, blen. rewrite length_app, length_take, length_replicate. lia.
Qed.

(** * List idioms of the singly linked lists of the program *)

Section ListIdioms.
Context {A : Type}.
Implicit Types (P : A -> bool) (l : list A).

(** [for (p = head; p; p = p->next) if (P p) { p := f p; break; }] *)
Fixpoint update_first P (f : A -> A) l : list A :=
  match l with
  | [] => []
  | x :: l => if P x then f x :: l else x :: update_first P f l
  end.

(** the same loop unlinking the first match *)
Fixpoint remove_first P l : list A :=
  match l with
  | [] => []
  | x :: l => if P x then l else x :: remove_first P l
  end.

(** the first match *)
Fixpoint find_first P l : option A :=
  match l with
  | [] => None
  | x :: l => if P x then Some x else find_first P l
  end.

Lemma find_first_Some P l x : find_first P l = Some x -> x ∈ l /\ P x = true.
Proof.
  induction l as [|y l IH]; cbn; [done|]. destruct (P y) eqn:E.
  - intros [= ->]. split; [apply elem_of_cons; auto | done].
  - intros [? ?]%IH. split; [apply elem_of_cons; auto | done].
Qed.

Lemma find_first_None P l : find_first P l = None <-> Forall (fun x => P x = false) l.
Proof.
  induction l as [|y l IH]; cbn; [by split|]. rewrite Forall_cons.
  destruct (P y); intuition discriminate.
Qed.

Lemma find_first_app P l1 l2 :
  find_first P (l1 ++ l2) =
  match find_first P l1 with Some x => Some x | None => find_first P l2 end.
Proof. induction l1 as [|y l IH]; cbn; [done|]. by destruct (P y). Qed.

Lemma remove_first_none P l : Forall (fun x => P x = false) l -> remove_first P l = l.
Proof. induction 1 as [|x l Hx _ IH]; cbn; [done|]. by rewrite Hx, IH. Qed.

Lemma remove_first_app_r P l1 l2 :
  Forall (fun x => P x = false) l1 -> remove_first P (l1 ++ l2) = l1 ++ remove_first P l2.
Proof. induction 1 as [|x l Hx _ IH]; cbn; [done|]. by rewrite Hx, IH. Qed.

Lemma update_first_none P f l : Forall (fun x => P x = false) l -> update_first P f l = l.
Proof. induction 1 as [|x l Hx _ IH]; cbn; [done|]. by rewrite Hx, IH. Qed.

Lemma update_first_app_r P f l1 l2 :
  Forall (fun x => P x = false) l1 ->
  update_first P f (l1 ++ l2) = l1 ++ update_first P f l2.
Proof. induction 1 as [|x l Hx _ IH]; cbn; [done|]. by rewrite Hx, IH. Qed.

Lemma remove_first_sublist P l : sublist (remove_first P l) l.
Proof.
  induction l as [|x l IH]; cbn; [constructor|].
  destruct (P x); [by constructor | by constructor].
Qed.

Lemma elem_of_remove_first P l x :
  P x = false -> x ∈ remove_first P l <-> x ∈ l.
Proof.
  intros Hx. induction l as [|y l IH]; cbn; [done|].
  destruct (P y) eqn:E; rewrite !elem_of_cons.
  - split; [auto|]. intros [->|]; [congruence | done].
  - by rewrite IH.
Qed.

Lemma split_first P l x :
  find_first P l = Some x ->
  exists l1 l2, l = l1 ++ x :: l2 /\ Forall (fun y => P y = false) l1 /\ P x = true.
Proof.
  induction l as [|y l IH]; cbn; [done|]. destruct (P y) eqn:E.
  - intros [= ->]. exists [], l. eauto.
  - intros (l1 & l2 & -> & ? & ?)%IH. exists (y :: l1), l2. eauto.
Qed.
End ListIdioms.

Lemma list_filter_all {A} (P : A -> Prop) `{!forall x, Decision (P x)} (l : list A) :
  (forall x, x ∈ l -> P x) -> filter P l = l.
Proof.
  induction l as [|x l IH]; intros Hall; [done|]. rewrite filter_cons, decide_True.
  - f_equal. apply IH. intros y Hy. apply Hall, elem_of_cons; auto.
  - apply Hall, elem_of_cons; auto.
Qed.

Lemma sublist_filter_mono {A} (P : A -> Prop) `{!forall x, Decision (P x)} (l k : list A) :
  sublist l k -> sublist (filter P l) (filter P k).
Proof.
  induction 1 as [|x l k _ IH|x l k _ IH]; [done| |]; rewrite ?filter_cons;
    case_decide; by repeat constructor.
Qed.

(** A key that is injective on a list leaves no second match behind. *)
Lemma remove_first_key {A} (key : A -> Z) (k : Z) (l : list A) :
  NoDup (key <$> l) ->
  remove_first (fun x => bool_decide (key x = k)) l = filter (fun x => key x <> k) l.
Proof.
  induction l as [|x l IH]; [done|]. rewrite fmap_cons, NoDup_cons. intros [Hx Hnd].
  cbn [remove_first]. rewrite filter_cons. case_bool_decide as E.
  - rewrite decide_False by auto. subst k. symmetry. apply list_filter_all.
    intros y Hy Heq. apply Hx. rewrite <- Heq. by apply list_elem_of_fmap_2.
  - rewrite decide_True by auto. by rewrite IH.
Qed.

(** * Automation *)

(** Case analysis on the first test or match of the goal, remembering it. *)
Ltac step_case :=
  match goal with
  | |- context [match ?x with _ => _ end] =>
      lazymatch x with
      | context [match _ with _ => _ end] => fail
      | _ => let E := fresh "E" in destruct x eqn:E
      end
  end.

(** Inversion of a chain of binds that returned. *)
Ltac inv_ok :=
  repeat match goal with
    | H : (_ ≫= _) = Ok _ |- _ =>
        let a := fresh "a" in let E := fresh "E" in
        apply res_bind_inv in H as (a & E & H); cbn beta in H
    | H : Ok _ = Ok _ |- _ => injection H as H; subst
    | H : Fault _ = Ok _ |- _ => discriminate H
    end.

(** Equality of two closed terms by evaluation, and a decidable closed
    proposition by evaluation of its decision. *)
Ltac eval_refl := match goal with |- @eq ?A _ ?b => vm_cast_no_check (@eq_refl A b) end.
Ltac eval_decide := apply (bool_decide_unpack _); apply Is_true_true; eval_refl.
