(* ===== verification/Defs.v ===== *)
(** The enumerations of the client's headers: status codes
    (utils/atlas_status.h), CoAP methods and responses (coap/atlas_coap_method.h,
    coap/atlas_coap_response.h), command types (commands/atlas_command_types.h)
    and executable commands (commands_execute/atlas_command_execute_types.h),
    with the integer each enumerator has in C. *)
From S2P Require Import Prelude.

(** * utils/atlas_status.h *)

Inductive atlas_status : Set :=
  | ATLAS_OK
  | ATLAS_GENERAL_ERR
  | ATLAS_INVALID_HOSTNAME
  | ATLAS_INVALID_PORT
  | ATLAS_COAP_SRV_DTLS_NOT_SUPPORTED
  | ATLAS_COAP_INVALID_URI
  | ATLAS_INVALID_CALLBACK
  | ATLAS_INVALID_DTLS_IDENTITY
  | ATLAS_INVALID_DTLS_PSK
  | ATLAS_IDENTITY_FILE_ERROR
  | ATLAS_PSK_FILE_ERROR
  | ATLAS_INVALID_INPUT
  | ATLAS_CORRUPTED_COMMAND
  | ATLAS_SOCKET_ERROR
  | ATLAS_CORRUPTED_COMMAND_EXECUTION_PAYLOAD
  | ATLAS_DEFERRED_COMMAND_EXECUTION.

#[export] Instance atlas_status_eq_dec : EqDecision atlas_status.
Proof. solve_decision. Defined.

(** * coap/atlas_coap_method.h *)

Inductive atlas_coap_method : Set :=
  | ATLAS_COAP_METHOD_GET
  | ATLAS_COAP_METHOD_POST
  | ATLAS_COAP_METHOD_PUT
  | ATLAS_COAP_METHOD_DELETE.

#[export] Instance atlas_coap_method_eq_dec : EqDecision atlas_coap_method.
Proof. solve_decision. Defined.

(** * coap/atlas_coap_response.h *)

Inductive atlas_coap_response : Set :=
  | ATLAS_COAP_RESP_OK
  | ATLAS_COAP_RESP_NOT_FOUND
  | ATLAS_COAP_RESP_NOT_ACCEPTABLE_HERE
  | ATLAS_COAP_RESP_TIMEOUT
  | ATLAS_COAP_RESP_RESET
  | ATLAS_COAP_RESP_UNKNOWN.

#[export] Instance atlas_coap_response_eq_dec : EqDecision atlas_coap_response.
Proof. solve_decision. Defined.

Definition coap_response_code (r : atlas_coap_response) : Z :=
  match r with
  | ATLAS_COAP_RESP_OK => 200
  | ATLAS_COAP_RESP_NOT_FOUND => 404
  | ATLAS_COAP_RESP_NOT_ACCEPTABLE_HERE => 406
  | ATLAS_COAP_RESP_TIMEOUT => 407
  | ATLAS_COAP_RESP_RESET => 408
  | ATLAS_COAP_RESP_UNKNOWN => 409
  end.

(** * commands/atlas_command_types.h *)

Inductive atlas_cmd_type : Set :=
  | ATLAS_CMD_REGISTER
  | ATLAS_CMD_KEEPALIVE
  | ATLAS_CMD_IDENTITY
  | ATLAS_CMD_IP_PORT
  | ATLAS_CMD_TELEMETRY_HOSTNAME
  | ATLAS_CMD_TELEMETRY_KERN_INFO
  | ATLAS_CMD_TELEMETRY_SYSINFO_UPTIME
  | ATLAS_CMD_TELEMETRY_SYSINFO_TOTALRAM
  | ATLAS_CMD_TELEMETRY_SYSINFO_FREERAM
  | ATLAS_CMD_TELEMETRY_SYSINFO_SHAREDRAM
  | ATLAS_CMD_TELEMETRY_SYSINFO_BUFFERRAM
  | ATLAS_CMD_TELEMETRY_SYSINFO_TOTALSWAP
  | ATLAS_CMD_TELEMETRY_SYSINFO_FREESWAP
  | ATLAS_CMD_TELEMETRY_SYSINFO_PROCS
  | ATLAS_CMD_TELEMETRY_SYSINFO_LOAD1
  | ATLAS_CMD_TELEMETRY_SYSINFO_LOAD5
  | ATLAS_CMD_TELEMETRY_SYSINFO_LOAD15
  | ATLAS_CMD_TELEMETRY_ALERT_EXT_PUSH_RATE
  | ATLAS_CMD_TELEMETRY_ALERT_INT_SCAN_RATE
  | ATLAS_CMD_TELEMETRY_ALERT_THRESHOLD
  | ATLAS_CMD_TELEMETRY_PACKETS_PER_MINUTE
  | ATLAS_CMD_TELEMETRY_PACKETS_AVG
  | ATLAS_CMD_DATA_PLANE_POLICY
  | ATLAS_CMD_DATA_PLANE_PACKETS_PER_MINUTE
  | ATLAS_CMD_DATA_PLANE_PACKETS_AVG
  | ATLAS_CMD_DATA_PLANE_GET_IDENTITY
  | ATLAS_CMD_DATA_PLANE_IDENTITY
  | ATLAS_CMD_DATA_PLANE_POLICY_QOS
  | ATLAS_CMD_DATA_PLANE_POLICY_PACKETS_PER_MINUTE
  | ATLAS_CMD_DATA_PLANE_POLICY_PACKETS_MAXLEN
  | ATLAS_CMD_DATA_PLANE_FEATURE_REPUTATION
  | ATLAS_CMD_DATA_PLANE_FEEDBACK
  | ATLAS_CMD_DATA_PLANE_FEEDBACK_IDENTITY
  | ATLAS_CMD_DATA_PLANE_FEEDBACK_SENSOR_TYPE
  | ATLAS_CMD_DATA_PLANE_FEEDBACK_SENSOR
  | ATLAS_CMD_DATA_PLANE_FEEDBACK_RESPONSE_TIME
  | ATLAS_CMD_DATA_PLANE_FEATURE_ERROR.

(** The enumerator values: C numbers an enumerator one above the previous one
    unless it is given a value. *)
Definition cmd_code (t : atlas_cmd_type) : Z :=
  match t with
  | ATLAS_CMD_REGISTER => 0
  | ATLAS_CMD_KEEPALIVE => 1
  | ATLAS_CMD_IDENTITY => 2
  | ATLAS_CMD_IP_PORT => 3
  | ATLAS_CMD_TELEMETRY_HOSTNAME => 500
  | ATLAS_CMD_TELEMETRY_KERN_INFO => 501
  | ATLAS_CMD_TELEMETRY_SYSINFO_UPTIME => 502
  | ATLAS_CMD_TELEMETRY_SYSINFO_TOTALRAM => 503
  | ATLAS_CMD_TELEMETRY_SYSINFO_FREERAM => 504
  | ATLAS_CMD_TELEMETRY_SYSINFO_SHAREDRAM => 505
  | ATLAS_CMD_TELEMETRY_SYSINFO_BUFFERRAM => 506
  | ATLAS_CMD_TELEMETRY_SYSINFO_TOTALSWAP => 507
  | ATLAS_CMD_TELEMETRY_SYSINFO_FREESWAP => 508
  | ATLAS_CMD_TELEMETRY_SYSINFO_PROCS => 509
  | ATLAS_CMD_TELEMETRY_SYSINFO_LOAD1 => 510
  | ATLAS_CMD_TELEMETRY_SYSINFO_LOAD5 => 511
  | ATLAS_CMD_TELEMETRY_SYSINFO_LOAD15 => 512
  | ATLAS_CMD_TELEMETRY_ALERT_EXT_PUSH_RATE => 513
  | ATLAS_CMD_TELEMETRY_ALERT_INT_SCAN_RATE => 514
  | ATLAS_CMD_TELEMETRY_ALERT_THRESHOLD => 515
  | ATLAS_CMD_TELEMETRY_PACKETS_PER_MINUTE => 516
  | ATLAS_CMD_TELEMETRY_PACKETS_AVG => 517
  | ATLAS_CMD_DATA_PLANE_POLICY => 1000
  | ATLAS_CMD_DATA_PLANE_PACKETS_PER_MINUTE => 1001
  | ATLAS_CMD_DATA_PLANE_PACKETS_AVG => 1002
  | ATLAS_CMD_DATA_PLANE_GET_IDENTITY => 1003
  | ATLAS_CMD_DATA_PLANE_IDENTITY => 1004
  | ATLAS_CMD_DATA_PLANE_POLICY_QOS => 1100
  | ATLAS_CMD_DATA_PLANE_POLICY_PACKETS_PER_MINUTE => 1101
  | ATLAS_CMD_DATA_PLANE_POLICY_PACKETS_MAXLEN => 1102
  | ATLAS_CMD_DATA_PLANE_FEATURE_REPUTATION => 1500
  | ATLAS_CMD_DATA_PLANE_FEEDBACK => 1501
  | ATLAS_CMD_DATA_PLANE_FEEDBACK_IDENTITY => 1502
  | ATLAS_CMD_DATA_PLANE_FEEDBACK_SENSOR_TYPE => 1503
  | ATLAS_CMD_DATA_PLANE_FEEDBACK_SENSOR => 1504
  | ATLAS_CMD_DATA_PLANE_FEEDBACK_RESPONSE_TIME => 1505
  | ATLAS_CMD_DATA_PLANE_FEATURE_ERROR => 1506
  end.

(** * commands_execute/atlas_command_execute_types.h *)

Inductive atlas_cmd_exec_type : Set :=
  | ATLAS_CMD_DEVICE_RESTART
  | ATLAS_CMD_DEVICE_SHUTDOWN
  | ATLAS_CMD_DEVICE_UNKNOWN.

Definition exec_code (t : atlas_cmd_exec_type) : Z :=
  match t with
  | ATLAS_CMD_DEVICE_RESTART => 0
  | ATLAS_CMD_DEVICE_SHUTDOWN => 1
  | ATLAS_CMD_DEVICE_UNKNOWN => 2
  end.

Lemma cmd_code_u16 t : is_u16 (cmd_code t).
Proof. destruct t; unfold is_u16; cbn; lia. Qed.

Lemma cmd_code_inj t1 t2 : cmd_code t1 = cmd_code t2 -> t1 = t2.
Proof. destruct t1, t2; cbn; (reflexivity || discriminate). Qed.
