(* ===== verification/CLib.v ===== *)
(** The parts of the C library the client uses on strings: literals, [strlen] and
    [strcmp] through byte lists, [strstr], [strtol], [atoi], and the decimal
    conversions of [sprintf]. A C string is the list of its bytes before the
    terminating NUL. [int] is 32 bits and [long] 64 bits wide. *)
From S2P Require Import Prelude.

(** A string literal. *)
Definition cstr (s : string) : list byte := String.list_byte_of_string s.
#[global] Arguments cstr : simpl never.

(** The C string that starts a block: the bytes before the first NUL. *)
Fixpoint until_nul (bs : list byte) : list byte :=
  match bs with
  | [] => []
  | b :: bs => if decide (b = x00) then [] else b :: until_nul bs
  end.

Definition strlen (s : list byte) : Z := blen s.

(** [strstr(hay, needle) != NULL] *)
Fixpoint is_prefix (p s : list byte) : bool :=
  match p, s with
  | [], _ => true
  | a :: p, b :: s => bool_decide (a = b) && is_prefix p s
  | _, [] => false
  end.

Fixpoint strstr (hay needle : list byte) : bool :=
  is_prefix needle hay ||
  match hay with
  | [] => false
  | _ :: hay => strstr hay needle
  end.

(** * strtol, base 10 *)

Definition LONG_MAX : Z := 9223372036854775807.
Definition LONG_MIN : Z := -9223372036854775808.

Definition isspace (b : byte) : bool :=
  bool_decide (b = x20) || ((9 <=? b2z b) && (b2z b <=? 13)).

Definition digit (b : byte) : option Z :=
  if (48 <=? b2z b) && (b2z b <=? 57) then Some (b2z b - 48) else None.

Fixpoint skip_space (s : list byte) : list byte :=
  match s with
  | b :: s' => if isspace b then skip_space s' else s
  | [] => []
  end.

Fixpoint read_digits (acc : Z) (s : list byte) : Z :=
  match s with
  | b :: s' => match digit b with Some d => read_digits (acc * 10 + d) s' | None => acc end
  | [] => acc
  end.

(** The value and whether [errno] is set to [ERANGE]. *)
Definition strtol (s : list byte) : Z * bool :=
  let s := skip_space s in
  let v := match s with
           | x2d :: s' => - read_digits 0 s'
           | x2b :: s' => read_digits 0 s'
           | _ => read_digits 0 s
           end in
  if decide (v > LONG_MAX) then (LONG_MAX, true)
  else if decide (v < LONG_MIN) then (LONG_MIN, true)
  else (v, false).

(** Conversion of a [long] to a 32-bit [int]. *)
Definition i32 (z : Z) : Z := (z + 2147483648) mod 4294967296 - 2147483648.

Definition atoi (s : list byte) : Z := i32 (strtol s).1.

(** * sprintf of an unsigned integer ("%u", "%lu", and "%d" of a non-negative) *)

Fixpoint dec_digits (fuel : nat) (n : Z) (acc : list byte) : list byte :=
  match fuel with
  | O => acc
  | S fuel =>
      let acc := z2b (48 + n mod 10) :: acc in
      if decide (n < 10) then acc else dec_digits fuel (n / 10) acc
  end.

(** The fuel covers the decimal digits of [n]: there are at most as many as bits. *)
Definition dec (n : Z) : list byte := dec_digits (S (Z.to_nat (Z.log2 n))) n [].

(** ** Facts *)

Lemma digit_dec n : 0 <= n < 10 -> digit (z2b (48 + n)) = Some n.
Proof.
  intros. unfold digit. rewrite b2z_z2b. unfold u8.
  replace ((48 + n) mod 256) with (48 + n) by lia.
  rewrite (proj2 (Z.leb_le _ _)) by lia. rewrite (proj2 (Z.leb_le _ _)) by lia.
  cbn. f_equal. lia.
Qed.

Lemma read_digits_app acc s1 s2 :
  Forall (fun b => is_Some (digit b)) s1 ->
  read_digits acc (s1 ++ s2) = read_digits (read_digits acc s1) s2.
Proof.
  intros Hs. revert acc. induction Hs as [|b s1 [d Hd] _ IH]; intros acc; [done|].
  cbn. rewrite Hd. apply IH.
Qed.

Lemma dec_digits_spec fuel n acc :
  0 <= n < 2 ^ Z.of_nat fuel ->
  exists ds, dec_digits fuel n acc = ds ++ acc /\ read_digits 0 ds = n /\
    Forall (fun b => is_Some (digit b)) ds.
Proof.
  revert n acc. induction fuel as [|fuel IH]; intros n acc Hn.
  { exists []. cbn in Hn |- *. split; [done|]. split; [lia|done]. }
  rewrite Nat2Z.inj_succ, Z.pow_succ_r in Hn by lia. cbn [dec_digits].
  assert (Hd : digit (z2b (48 + n mod 10)) = Some (n mod 10)) by (apply digit_dec; lia).
  case_decide as Hsmall.
  - exists [z2b (48 + n mod 10)]. split; [done|]. split.
    + cbn. rewrite Hd. lia.
    + repeat constructor. by rewrite Hd.
  - destruct (IH (n / 10) (z2b (48 + n mod 10) :: acc)) as (ds & -> & Hr & Hall); [lia|].
    exists (ds ++ [z2b (48 + n mod 10)]). rewrite <- app_assoc. split; [done|]. split.
    + rewrite read_digits_app, Hr by done. cbn. rewrite Hd. lia.
    + apply Forall_app. split; [done|]. repeat constructor. by rewrite Hd.
Qed.

Lemma length_dec_digits fuel n acc (k : nat) :
  0 <= n < 10 ^ Z.of_nat (S k) -> (length (dec_digits fuel n acc) <= S k + length acc)%nat.
Proof.
  revert n acc k. induction fuel as [|fuel IH]; intros n acc k Hn; cbn [dec_digits]; [lia|].
  case_decide as Hs; [cbn; lia|].
  destruct k as [|k]; [cbn in Hn; lia|].
  rewrite Nat2Z.inj_succ, Z.pow_succ_r in Hn by lia.
  etrans; [apply (IH _ _ k); lia|]. cbn. lia.
Qed.

Lemma dec_fuel n : 0 <= n -> n < 2 ^ Z.of_nat (S (Z.to_nat (Z.log2 n))).
Proof.
  intros Hn. rewrite Nat2Z.inj_succ, Z2Nat.id by apply Z.log2_nonneg.
  destruct (decide (n = 0)) as [->|]; [done|]. apply Z.log2_spec. lia.
Qed.

Lemma dec_spec n :
  0 <= n -> read_digits 0 (dec n) = n /\ Forall (fun b => is_Some (digit b)) (dec n).
Proof.
  intros Hn. unfold dec.
  destruct (dec_digits_spec (S (Z.to_nat (Z.log2 n))) n []) as (ds & -> & ? & ?).
  - split; [done|]. by apply dec_fuel.
  - by rewrite app_nil_r.
Qed.

Lemma blen_dec n (k : nat) : 0 <= n < 10 ^ Z.of_nat (S k) -> blen (dec n) <= Z.of_nat (S k).
Proof.
  intros Hn. unfold blen, dec.
  pose proof (length_dec_digits (S (Z.to_nat (Z.log2 n))) n [] k Hn) as Hl. cbn [length] in Hl. lia.
Qed.

(** A digit string is read whole: it has no space or sign to skip. *)
Lemma digits_strtol s :
  Forall (fun b => is_Some (digit b)) s -> 0 <= read_digits 0 s <= LONG_MAX ->
  strtol s = (read_digits 0 s, false).
Proof.
  intros Hs Hr. unfold strtol.
  assert (Hk : skip_space s = s).
  { destruct s as [|b s]; [done|]. apply Forall_cons in Hs as [Hb _]. cbn.
    revert Hb. by destruct b; vm_compute; intros [? [=]]. }
  rewrite Hk.
  assert (Hsg : match s with
                | x2d :: s' => - read_digits 0 s'
                | x2b :: s' => read_digits 0 s'
                | _ => read_digits 0 s
                end = read_digits 0 s).
  { destruct s as [|b s]; [done|]. apply Forall_cons in Hs as [Hb _].
    revert Hb. destruct b; vm_compute; intros [? [=]]; done. }
  rewrite Hsg. unfold LONG_MAX, LONG_MIN in *.
  rewrite decide_False by lia. by rewrite decide_False by lia.
Qed.

(** Printing an unsigned integer and reading it back. *)
Lemma strtol_dec n : 0 <= n <= LONG_MAX -> strtol (dec n) = (n, false).
Proof.
  intros Hn. destruct (dec_spec n) as [Hr Hd]; [lia|].
  rewrite digits_strtol by (auto; rewrite Hr; lia). by rewrite Hr.
Qed.

Lemma atoi_dec n : 0 <= n < 2147483648 -> atoi (dec n) = n.
Proof.
  intros Hn. unfold atoi. rewrite strtol_dec by (unfold LONG_MAX; lia).
  unfold i32. cbn. lia.
Qed.

Lemma until_nul_id s : x00 ∉ s -> until_nul s = s.
Proof.
  induction s as [|b s IH]; cbn; [done|]. rewrite not_elem_of_cons. intros [? ?].
  rewrite decide_False by auto. by rewrite IH.
Qed.

Lemma until_nul_idem s : until_nul (until_nul s) = until_nul s.
Proof.
  induction s as [|b s IH]; [done|]. cbn. destruct (decide (b = x00)) as [->|Hb]; [done|].
  cbn. rewrite decide_False by done. by rewrite IH.
Qed.

Lemma blen_until_nul s : blen (until_nul s) <= blen s.
Proof. induction s as [|b s IH]; cbn; [done|]. case_decide; blia. Qed.

Lemma dec_no_nul n : 0 <= n -> x00 ∉ dec n.
Proof.
  intros Hn Hin. destruct (dec_spec n Hn) as [_ Hd]. rewrite Forall_forall in Hd.
  destruct (Hd _ Hin) as [d Hx]. done.
Qed.

Lemma is_prefix_app p s : is_prefix p (p ++ s) = true.
Proof. induction p as [|b p IH]; cbn; [done|]. by rewrite bool_decide_true. Qed.

Lemma strstr_app a p b : strstr (a ++ p ++ b) p = true.
Proof.
  induction a as [|x a IH]; cbn [app].
  - destruct (p ++ b) eqn:Hp; cbn [strstr]; rewrite <- Hp, is_prefix_app; done.
  - cbn [strstr]. rewrite IH. apply orb_true_r.
Qed.
