(* ===== verification/State.v ===== *)
(** The state of the client process and the outside world it runs in.

    [Env] is the interface to the code that is not the program's own: the kernel
    (timers, descriptors, sockets, files, system information), the allocator and
    libcoap. Each member is one call the program makes; [ext] is the state those
    calls act on. [EnvLaws] states the documented behaviour the theorems rely on.

    [client] collects every static variable of the process, one field per
    module, with the structures as the sources declare them; the callbacks, which
    are function pointers in C, are names ([sched_cb], [alarm_cb], ...), given
    their meaning where the functions are defined. [M] is the state and fault
    monad the operations are written in. *)
From S2P Require Import Prelude Defs.

(** * Names of the functions stored in the program's tables *)

(** Callbacks of the scheduler (atlas_sched_cb_t). *)
Inductive sched_cb : Set :=
  | cb_atlas_alarm_trigger
  | cb_coap_client_sched_callback
  | cb_atlas_coap_server_sched_callback
  | cb_atlas_data_plane_accept_cb
  | cb_atlas_data_plane_read_cb.

(** Callbacks of the alarms (atlas_alarm_cb_t). *)
Inductive alarm_cb : Set :=
  | cb_request_alarm_cb
  | cb_reg_alarm_callback
  | cb_keepalive_alarm_callback
  | cb_policy_alarm_callback
  | cb_push_alert_alarm_cb
  | cb_threshold_alert_alarm_cb
  | cb_command_execution_shutdown_alarm_callback
  | cb_command_execution_restart_alarm_callback.

(** Callbacks of CoAP requests (atlas_coap_client_cb_t). *)
Inductive coap_cb : Set :=
  | cb_reg_callback
  | cb_keepalive_callback
  | cb_policy_callback
  | cb_feature_reputation_callback
  | cb_feedback_callback
  | cb_telemetry_callback.

(** Payload producers of the telemetry features (atlas_telemetry_payload_cb). *)
Inductive payload_cb : Set :=
  | pl_hostname | pl_kern_info
  | pl_uptime | pl_totalram | pl_freeram | pl_sharedram | pl_bufferram
  | pl_totalswap | pl_freeswap | pl_procs | pl_load1 | pl_load5 | pl_load15
  | pl_packets_per_minute | pl_packets_avg.

(** Handlers of the CoAP server's resources (atlas_coap_server_cb_t). *)
Inductive server_cb : Set :=
  | srv_sysinfo_push_alert_cb
  | srv_sysinfo_threshold_alert_procs_cb
  | srv_packets_push_alert_cb
  | srv_execute_command_cb.

#[export] Instance sched_cb_eq_dec : EqDecision sched_cb.
Proof. solve_decision. Defined.
#[export] Instance alarm_cb_eq_dec : EqDecision alarm_cb.
Proof. solve_decision. Defined.
#[export] Instance coap_cb_eq_dec : EqDecision coap_cb.
Proof. solve_decision. Defined.
#[export] Instance payload_cb_eq_dec : EqDecision payload_cb.
Proof. solve_decision. Defined.
#[export] Instance server_cb_eq_dec : EqDecision server_cb.
Proof. solve_decision. Defined.

(** * The structures of the modules *)

(** struct itimerspec: interval and first expiry, seconds and nanoseconds. *)
Record itimerspec := mk_timerspec {
  it_interval_sec : Z; it_interval_nsec : Z;
  it_value_sec : Z; it_value_nsec : Z;
}.

(** atlas_sched_entry_t *)
Record sched_entry := mk_sched_entry {
  se_fd : Z;
  se_callback : sched_cb;
  se_dirty : bool;
}.

(** atlas_alarm_entry_t; the alarm id is the descriptor of its timer. *)
Record alarm_entry := mk_alarm_entry {
  al_id : Z;
  al_callback : alarm_cb;
  al_run_once : bool;
}.

(** atlas_coap_client_req_t; libcoap's context and session are opaque handles. *)
Record coap_req := mk_coap_req {
  rq_coap_fd : Z;
  rq_alarm_id : Z;
  rq_ctx : Z;
  rq_session : Z;
  rq_uri : list byte;
  rq_token : Z;
  rq_callback : coap_cb;
  rq_dirty : bool;
}.

(** atlas_coap_server_listener_t *)
Record listener := mk_listener {
  ls_resource : Z;
  ls_callback : server_cb;
  ls_uri_path : list byte;
}.

(** dtls_identity and dtls_key, what dtls_psk points to (atlas_coap_client.c) *)
Record dtls_info := mk_dtls {
  dtls_identity : list byte;
  dtls_key : list byte;
}.

(** The statics key, ctx and fd of atlas_coap_server.c *)
Record srv_state := mk_srv {
  srv_key : list byte;
  srv_ctx : option Z;
  srv_fd : Z;
}.

(** The statics of atlas_config.c; the strings are NULL until they are set. *)
Record config := mk_config {
  gw_hostname : option (list byte);
  gw_port : option (list byte);
  local_iface : option (list byte);
  local_port : Z;
}.

(** The statics of atlas_identity.c *)
Record identities := mk_identities {
  id_identity : list byte;
  id_psk : list byte;
}.

(** The statics of atlas_register.c *)
Record reg_state := mk_reg {
  registered : bool;
  ka_token : Z;
  ka_count : Z;
  ka_alarm_id : Z;
}.

(** atlas_telemetry_t *)
Record telemetry := mk_telemetry {
  tl_uri_path : list byte;
  tl_payload_cb : payload_cb;
  tl_push_id : Z;
  tl_threshold_id : Z;
}.

(** The statics of atlas_data_plane_connector.c *)
Record dp_state := mk_dp {
  connected_socket : Z;
  policy_qos : Z;
  policy_packets_per_min : Z;
  policy_packets_maxlen : Z;
  active_policy : bool;
  packets_per_min : Z;
  packets_avg : Z;
}.

(** struct sysinfo and struct utsname, the fields the program reads. *)
Record sysinfo_t := mk_sysinfo {
  si_uptime : Z; si_loads1 : Z; si_loads5 : Z; si_loads15 : Z;
  si_totalram : Z; si_freeram : Z; si_sharedram : Z; si_bufferram : Z;
  si_totalswap : Z; si_freeswap : Z; si_procs : Z;
}.

Record utsname_t := mk_utsname {
  un_sysname : list byte; un_nodename : list byte; un_release : list byte;
  un_version : list byte; un_machine : list byte;
}.

(** coap_uri_t: scheme (coaps or not), host, port, path and query. *)
Record coap_uri_t := mk_coap_uri {
  cu_coaps : bool;
  cu_host : list byte;
  cu_port : Z;
  cu_path : list byte;
  cu_query : list byte;
}.

(** Type of a CoAP message (COAP_MESSAGE_CON, NON, ACK, RST). *)
Inductive coap_msg_type : Set := MSG_CON | MSG_NON | MSG_ACK | MSG_RST.

#[export] Instance coap_msg_type_eq_dec : EqDecision coap_msg_type.
Proof. solve_decision. Defined.

(** A response PDU as [message_handler] reads it, with the arguments libcoap
    passes: the session, and whether it answers a PDU still known as sent. *)
Record coap_pdu := mk_pdu {
  pdu_session : Z;
  pdu_sent : bool;
  pdu_type : coap_msg_type;
  pdu_token : list byte;
  pdu_code : Z;
  pdu_data : option (list byte);
}.

(** A request PDU as the server's handler reads it. *)
Record coap_srv_req := mk_srv_req {
  sr_method : atlas_coap_method;
  sr_resource : Z;
  sr_uri_path : option (list byte);
  sr_payload : option (list byte);
}.

(** The outputs of the process. *)
Inductive event : Type :=
  | EvCoapSend (session : Z) (method : atlas_coap_method) (token : Z) (uri payload : list byte)
  | EvCoapRst (session : Z)
  | EvCoapRespond (resource : Z) (code : Z) (payload : list byte)
  | EvWrite (fd : Z) (data : list byte)
  | EvSystem (command : string).

(** * The outside world *)

Class Env := {
  ext : Type;
  (** kernel: timers, descriptors, sockets *)
  timerfd_create : ext -> Z * ext;
  timerfd_settime : Z -> itimerspec -> ext -> Z * ext;
  timer_read : Z -> ext -> ext;
  close_fd : Z -> ext -> ext;
  select : Z -> list Z -> ext -> (Z * list Z) * ext;
  sock_accept : Z -> ext -> Z * ext;
  sock_read : Z -> Z -> ext -> option (list byte) * ext;
  sock_write : Z -> list byte -> ext -> Z * ext;
  unix_socket : ext -> Z * ext;
  sock_bind : Z -> ext -> Z * ext;
  sock_listen : Z -> ext -> Z * ext;
  ioctl_ip : list byte -> ext -> option (list byte) * ext;
  (** kernel: files (None when open fails, the empty list when nothing was read)
      and system information *)
  file_read : string -> Z -> ext -> option (list byte) * ext;
  file_create : string -> ext -> bool * ext;
  file_write : string -> list byte -> ext -> ext;
  file_remove : string -> ext -> ext;
  sysinfo : ext -> option sysinfo_t * ext;
  uname : ext -> option utsname_t * ext;
  geteuid : ext -> Z;
  (** libuuid (uuid_generate and uuid_unparse_lower) and OpenSSL *)
  uuid_generate : ext -> list byte * ext;
  RAND_bytes : Z -> ext -> option (list byte) * ext;
  BIO_f_base64 : list byte -> list byte;
  (** libcoap, client side; getaddrinfo returns, per address, whether it is an
      IPv4 or IPv6 one and its length *)
  coap_split_uri : list byte -> option coap_uri_t;
  getaddrinfo : list byte -> ext -> option (list (bool * Z)) * ext;
  coap_new_context : ext -> option Z * ext;
  coap_new_client_session : Z -> bool -> ext -> option Z * ext;
  coap_new_pdu : Z -> ext -> bool * ext;
  coap_add_token : Z -> ext -> bool * ext;
  coap_context_get_coap_fd : Z -> ext -> Z;
  coap_session_release : Z -> ext -> ext;
  coap_free_context : Z -> ext -> ext;
  coap_io_process : Z -> ext -> list coap_pdu * ext;
  (** libcoap, server side *)
  coap_dtls_is_supported : bool;
  coap_new_endpoint : Z -> Z -> bool -> ext -> option Z * ext;
  coap_free_endpoint : option Z -> ext -> ext;
  coap_resource_init : list byte -> ext -> option Z * ext;
  coap_delete_resource : Z -> ext -> ext;
  coap_server_process : Z -> ext -> list coap_srv_req * ext;
  (** the allocator: the size of the block [malloc n] really returns *)
  malloc_usable : Z -> Z;
}.

(** The descriptors the program opens itself. *)
Inductive fd_kind : Set := FdTimer | FdSocket.

#[export] Instance fd_kind_eq_dec : EqDecision fd_kind.
Proof. solve_decision. Defined.

(** What the theorems rely on. [fds] are the open descriptors the program owns,
    [ctxs] libcoap's live contexts. A call that opens a descriptor fails with -1
    or returns one that was not open; [close] releases its argument only; a new
    context is none of the live ones; no other call opens or closes a descriptor
    of the program or a context; [read] returns at most what was asked; [malloc]
    returns at least what was asked. *)
Class EnvLaws (E : Env) := {
  fds : ext -> gmap Z fd_kind;
  ctxs : ext -> gset Z;
  framed (x x' : ext) : Prop := fds x' = fds x /\ ctxs x' = ctxs x;
  opens (kind : fd_kind) (r : Z * ext) (x : ext) : Prop :=
    ctxs r.2 = ctxs x /\
    ((r.1 = -1 /\ fds r.2 = fds x) \/
     (0 <= r.1 /\ fds x !! r.1 = None /\ fds r.2 = <[r.1 := kind]> (fds x)));
  timerfd_create_law x : opens FdTimer (timerfd_create x) x;
  sock_accept_law fd x : opens FdSocket (sock_accept fd x) x;
  unix_socket_law x : opens FdSocket (unix_socket x) x;
  close_fd_law fd x :
    fds (close_fd fd x) = delete fd (fds x) /\ ctxs (close_fd fd x) = ctxs x;
  coap_new_context_law x :
    fds (coap_new_context x).2 = fds x /\
    match (coap_new_context x).1 with
    | None => ctxs (coap_new_context x).2 = ctxs x
    | Some ctx => ctx ∉ ctxs x /\ ctxs (coap_new_context x).2 = {[ctx]} ∪ ctxs x
    end;
  coap_free_context_law ctx x :
    fds (coap_free_context ctx x) = fds x /\ ctxs (coap_free_context ctx x) = ctxs x ∖ {[ctx]};
  timerfd_settime_law fd spec x : framed x (timerfd_settime fd spec x).2;
  timer_read_law fd x : framed x (timer_read fd x);
  select_law n l x : framed x (select n l x).2;
  sock_read_law fd n x : framed x (sock_read fd n x).2;
  sock_write_law fd d x : framed x (sock_write fd d x).2;
  sock_bind_law fd x : framed x (sock_bind fd x).2;
  sock_listen_law fd x : framed x (sock_listen fd x).2;
  ioctl_ip_law i x : framed x (ioctl_ip i x).2;
  file_read_law p n x : framed x (file_read p n x).2;
  file_read_len p n x bytes : (file_read p n x).1 = Some bytes -> blen bytes <= Z.max 0 n;
  file_create_law p x : framed x (file_create p x).2;
  file_write_law p d x : framed x (file_write p d x);
  file_remove_law p x : framed x (file_remove p x);
  uuid_generate_law x : framed x (uuid_generate x).2;
  RAND_bytes_law n x : framed x (RAND_bytes n x).2;
  sysinfo_law x : framed x (sysinfo x).2;
  uname_law x : framed x (uname x).2;
  getaddrinfo_law h x : framed x (getaddrinfo h x).2;
  coap_new_client_session_law ctx d x : framed x (coap_new_client_session ctx d x).2;
  coap_new_pdu_law s x : framed x (coap_new_pdu s x).2;
  coap_add_token_law t x : framed x (coap_add_token t x).2;
  coap_session_release_law s x : framed x (coap_session_release s x);
  coap_io_process_law ctx x : framed x (coap_io_process ctx x).2;
  coap_new_endpoint_law ctx port d x : framed x (coap_new_endpoint ctx port d x).2;
  coap_free_endpoint_law ep x : framed x (coap_free_endpoint ep x);
  coap_resource_init_law p x : framed x (coap_resource_init p x).2;
  coap_delete_resource_law r x : framed x (coap_delete_resource r x);
  coap_server_process_law ctx x : framed x (coap_server_process ctx x).2;
  malloc_usable_law n : n <= malloc_usable n;
}.

(** * The state of the process *)

Section ClientState.
Context {E : Env}.

Record client := mk_client {
  cl_sched : list sched_entry;                          (* sched_entry (scheduler/atlas_scheduler.c) *)
  cl_alarms : list alarm_entry;                         (* alarm_entry (alarm/atlas_alarm.c) *)
  cl_reqs : list coap_req;                              (* req_entry (coap/atlas_coap_client.c) *)
  cl_token : Z;                                         (* the static token of get_new_token *)
  cl_dtls : dtls_info;                                  (* the DTLS identity and key of coap/atlas_coap_client.c *)
  cl_srv : srv_state;                                   (* key, ctx and fd (coap/atlas_coap_server.c) *)
  cl_listeners : atlas_coap_method -> list listener;    (* server_listeners (coap/atlas_coap_server.c) *)
  cl_cfg : config;                                      (* the statics of utils/atlas_config.c *)
  cl_ids : identities;                                  (* the statics of identity/atlas_identity.c *)
  cl_reg : reg_state;                                   (* the statics of register/atlas_register.c *)
  cl_features : list telemetry;                         (* features_ (telemetry/atlas_telemetry.c) *)
  cl_procs_threshold : Z;                               (* procs_threshold (telemetry/atlas_telemetry_sysinfo.c) *)
  cl_dp : dp_state;                                     (* the statics of data_plane_connector/ *)
  cl_exec : bool;                                       (* cmdInProgress (commands_execute/) *)
  cl_out : list event;                                  (* what the process has output, oldest first *)
  cl_ext : ext;                                         (* the state of the outside world *)
}.

Definition set_sched (x : list sched_entry) (c : client) : client :=
  mk_client x (cl_alarms c) (cl_reqs c) (cl_token c) (cl_dtls c) (cl_srv c) (cl_listeners c)
    (cl_cfg c) (cl_ids c) (cl_reg c) (cl_features c) (cl_procs_threshold c)
    (cl_dp c) (cl_exec c) (cl_out c) (cl_ext c).
Definition set_alarms (x : list alarm_entry) (c : client) : client :=
  mk_client (cl_sched c) x (cl_reqs c) (cl_token c) (cl_dtls c) (cl_srv c) (cl_listeners c)
    (cl_cfg c) (cl_ids c) (cl_reg c) (cl_features c) (cl_procs_threshold c)
    (cl_dp c) (cl_exec c) (cl_out c) (cl_ext c).
Definition set_reqs (x : list coap_req) (c : client) : client :=
  mk_client (cl_sched c) (cl_alarms c) x (cl_token c) (cl_dtls c) (cl_srv c)
    (cl_listeners c) (cl_cfg c) (cl_ids c) (cl_reg c) (cl_features c)
    (cl_procs_threshold c) (cl_dp c) (cl_exec c) (cl_out c) (cl_ext c).
Definition set_token (x : Z) (c : client) : client :=
  mk_client (cl_sched c) (cl_alarms c) (cl_reqs c) x (cl_dtls c) (cl_srv c) (cl_listeners c)
    (cl_cfg c) (cl_ids c) (cl_reg c) (cl_features c) (cl_procs_threshold c)
    (cl_dp c) (cl_exec c) (cl_out c) (cl_ext c).
Definition set_dtls (x : dtls_info) (c : client) : client :=
  mk_client (cl_sched c) (cl_alarms c) (cl_reqs c) (cl_token c) x (cl_srv c)
    (cl_listeners c) (cl_cfg c) (cl_ids c) (cl_reg c) (cl_features c)
    (cl_procs_threshold c) (cl_dp c) (cl_exec c) (cl_out c) (cl_ext c).
Definition set_srv (x : srv_state) (c : client) : client :=
  mk_client (cl_sched c) (cl_alarms c) (cl_reqs c) (cl_token c) (cl_dtls c) x
    (cl_listeners c) (cl_cfg c) (cl_ids c) (cl_reg c) (cl_features c)
    (cl_procs_threshold c) (cl_dp c) (cl_exec c) (cl_out c) (cl_ext c).
Definition set_listeners (x : atlas_coap_method -> list listener) (c : client) : client :=
  mk_client (cl_sched c) (cl_alarms c) (cl_reqs c) (cl_token c) (cl_dtls c) (cl_srv c) x
    (cl_cfg c) (cl_ids c) (cl_reg c) (cl_features c) (cl_procs_threshold c)
    (cl_dp c) (cl_exec c) (cl_out c) (cl_ext c).
Definition set_cfg (x : config) (c : client) : client :=
  mk_client (cl_sched c) (cl_alarms c) (cl_reqs c) (cl_token c) (cl_dtls c) (cl_srv c)
    (cl_listeners c) x (cl_ids c) (cl_reg c) (cl_features c) (cl_procs_threshold c)
    (cl_dp c) (cl_exec c) (cl_out c) (cl_ext c).
Definition set_ids (x : identities) (c : client) : client :=
  mk_client (cl_sched c) (cl_alarms c) (cl_reqs c) (cl_token c) (cl_dtls c) (cl_srv c)
    (cl_listeners c) (cl_cfg c) x (cl_reg c) (cl_features c) (cl_procs_threshold c)
    (cl_dp c) (cl_exec c) (cl_out c) (cl_ext c).
Definition set_reg (x : reg_state) (c : client) : client :=
  mk_client (cl_sched c) (cl_alarms c) (cl_reqs c) (cl_token c) (cl_dtls c) (cl_srv c)
    (cl_listeners c) (cl_cfg c) (cl_ids c) x (cl_features c) (cl_procs_threshold c)
    (cl_dp c) (cl_exec c) (cl_out c) (cl_ext c).
Definition set_features (x : list telemetry) (c : client) : client :=
  mk_client (cl_sched c) (cl_alarms c) (cl_reqs c) (cl_token c) (cl_dtls c) (cl_srv c)
    (cl_listeners c) (cl_cfg c) (cl_ids c) (cl_reg c) x (cl_procs_threshold c)
    (cl_dp c) (cl_exec c) (cl_out c) (cl_ext c).
Definition set_procs_threshold (x : Z) (c : client) : client :=
  mk_client (cl_sched c) (cl_alarms c) (cl_reqs c) (cl_token c) (cl_dtls c) (cl_srv c)
    (cl_listeners c) (cl_cfg c) (cl_ids c) (cl_reg c) (cl_features c) x (cl_dp c)
    (cl_exec c) (cl_out c) (cl_ext c).
Definition set_dp (x : dp_state) (c : client) : client :=
  mk_client (cl_sched c) (cl_alarms c) (cl_reqs c) (cl_token c) (cl_dtls c) (cl_srv c)
    (cl_listeners c) (cl_cfg c) (cl_ids c) (cl_reg c) (cl_features c)
    (cl_procs_threshold c) x (cl_exec c) (cl_out c) (cl_ext c).
Definition set_exec (x : bool) (c : client) : client :=
  mk_client (cl_sched c) (cl_alarms c) (cl_reqs c) (cl_token c) (cl_dtls c) (cl_srv c)
    (cl_listeners c) (cl_cfg c) (cl_ids c) (cl_reg c) (cl_features c)
    (cl_procs_threshold c) (cl_dp c) x (cl_out c) (cl_ext c).
Definition set_out (x : list event) (c : client) : client :=
  mk_client (cl_sched c) (cl_alarms c) (cl_reqs c) (cl_token c) (cl_dtls c) (cl_srv c)
    (cl_listeners c) (cl_cfg c) (cl_ids c) (cl_reg c) (cl_features c)
    (cl_procs_threshold c) (cl_dp c) (cl_exec c) x (cl_ext c).
Definition set_ext (x : ext) (c : client) : client :=
  mk_client (cl_sched c) (cl_alarms c) (cl_reqs c) (cl_token c) (cl_dtls c) (cl_srv c)
    (cl_listeners c) (cl_cfg c) (cl_ids c) (cl_reg c) (cl_features c)
    (cl_procs_threshold c) (cl_dp c) (cl_exec c) (cl_out c) x.

(** Operations change the state, return a value, or fault. *)
Definition M (A : Type) : Type := client -> res (A * client).

#[export] Instance M_ret : MRet M := fun A a c => Ok (a, c).
#[export] Instance M_bind : MBind M := fun A B k m c =>
  match m c with Ok (a, c) => k a c | Fault f => Fault f end.

Definition gets {A} (f : client -> A) : M A := fun c => Ok (f c, c).
Definition modify (f : client -> client) : M unit := fun c => Ok (tt, f c).
Definition fail {A} (f : fault) : M A := fun _ => Fault f.
Definition lift {A} (m : res A) : M A := fun c =>
  match m with Ok a => Ok (a, c) | Fault f => Fault f end.

(** A call of the outside world. *)
Definition call {A} (f : ext -> A * ext) : M A := fun c =>
  let '(a, x) := f (cl_ext c) in Ok (a, set_ext x c).
Definition call_ (f : ext -> ext) : M unit := modify (fun c => set_ext (f (cl_ext c)) c).

Definition emit (e : event) : M unit := modify (fun c => set_out (cl_out c ++ [e]) c).
Definition when (b : bool) (m : M unit) : M unit := if b then m else mret tt.

Lemma M_bind_run {A B} (m : M A) (k : A -> M B) c a c' :
  m c = Ok (a, c') -> (m ≫= k) c = k a c'.
Proof. intros Hm. unfold mbind, M_bind. by rewrite Hm. Qed.

Lemma M_bind_inv {A B} (m : M A) (k : A -> M B) c r :
  (m ≫= k) c = Ok r -> exists a c', m c = Ok (a, c') /\ k a c' = Ok r.
Proof. unfold mbind, M_bind. destruct (m c) as [[a c']|]; [eauto|discriminate]. Qed.
End ClientState.

#[global] Arguments M {E} A.
