(* ===== verification/SimEnv.v ===== *)
(** A concrete outside world, executable, for the witnesses: descriptors are
    handed out lowest first as POSIX prescribes, and the results of the other
    calls are read from scripts. It satisfies [EnvLaws], so the hypotheses of the
    theorems can hold. *)
From S2P Require Import Prelude Defs CLib State.

(** What a descriptor number of the simulated kernel stands for. *)
Inductive sim_kind : Set := SimStd | SimTimer | SimSocket | SimCtx.

#[export] Instance sim_kind_eq_dec : EqDecision sim_kind.
Proof. solve_decision. Defined.

Record sim := mk_sim {
  sim_open : list (Z * sim_kind);               (* the open descriptors *)
  sim_select : list (list Z);                   (* what each select reports *)
  sim_reads : list (option (list byte));        (* what each socket read returns *)
  sim_pdus : list (list coap_pdu);              (* what each client I/O step receives *)
  sim_requests : list (list coap_srv_req);      (* what each server I/O step receives *)
  sim_resolves : bool;                          (* whether host names resolve *)
  sim_files : list (string * list byte);        (* the files *)
}.

Definition sim0 : sim := mk_sim [(0, SimStd); (1, SimStd); (2, SimStd)] [] [] [] [] true
  [("/etc/hostname"%string, cstr "node")].

Definition sim_set_open (l : list (Z * sim_kind)) (x : sim) : sim :=
  mk_sim l (sim_select x) (sim_reads x) (sim_pdus x) (sim_requests x) (sim_resolves x) (sim_files x).
Definition sim_set_files (l : list (string * list byte)) (x : sim) : sim :=
  mk_sim (sim_open x) (sim_select x) (sim_reads x) (sim_pdus x) (sim_requests x) (sim_resolves x) l.

(** Size of the descriptor table. *)
Definition sim_fds : nat := 64.

(** The lowest descriptor that is not open, -1 when the table is full. *)
Fixpoint lowest_fd (fuel : nat) (fd : Z) (s : list Z) : Z :=
  match fuel with
  | O => -1
  | S fuel => if decide (fd ∈ s) then lowest_fd fuel (fd + 1) s else fd
  end.

Definition sim_alloc (k : sim_kind) (x : sim) : Z * sim :=
  let fd := lowest_fd sim_fds 0 (sim_open x).*1 in
  if decide (fd = -1) then (-1, x)
  else (fd, sim_set_open ((fd, k) :: sim_open x) x).

(** Contexts are freed by libcoap only. *)
Definition sim_close (fd : Z) (x : sim) : sim :=
  sim_set_open (filter (fun p => p.1 <> fd \/ p.2 = SimCtx) (sim_open x)) x.

Definition sim_free_context (ctx : Z) (x : sim) : sim :=
  sim_set_open (filter (fun p => p <> (ctx, SimCtx)) (sim_open x)) x.

Definition sim_new_context (x : sim) : option Z * sim :=
  let '(fd, x) := sim_alloc SimCtx x in (if decide (fd = -1) then None else Some fd, x).

Definition sim_file (p : string) (x : sim) : option (list byte) :=
  snd <$> find_first (fun f => bool_decide (f.1 = p)) (sim_files x).

Definition sim_remove (p : string) (x : sim) : sim :=
  sim_set_files (filter (fun f => f.1 <> p) (sim_files x)) x.

#[export] Instance sim_env : Env := {|
  ext := sim;
  timerfd_create := sim_alloc SimTimer;
  timerfd_settime := fun _ _ x => (0, x);
  timer_read := fun _ x => x;
  close_fd := sim_close;
  select := fun _ _ x =>
    match sim_select x with
    | [] => ((0, []), x)
    | r :: rs => ((Z.of_nat (length r), r),
                  mk_sim (sim_open x) rs (sim_reads x) (sim_pdus x) (sim_requests x)
                    (sim_resolves x) (sim_files x))
    end;
  sock_accept := fun _ => sim_alloc SimSocket;
  sock_read := fun _ _ x =>
    match sim_reads x with
    | [] => (None, x)
    | r :: rs => (r, mk_sim (sim_open x) (sim_select x) rs (sim_pdus x) (sim_requests x)
                       (sim_resolves x) (sim_files x))
    end;
  sock_write := fun _ data x => (blen data, x);
  unix_socket := sim_alloc SimSocket;
  sock_bind := fun _ x => (0, x);
  sock_listen := fun _ x => (0, x);
  ioctl_ip := fun _ x => (Some (cstr "10.0.0.7"), x);
  file_read := fun p n x => (take (Z.to_nat n) <$> sim_file p x, x);
  file_create := fun p x => (true, sim_set_files ((p, []) :: sim_files (sim_remove p x)) x);
  file_write := fun p data x =>
    sim_set_files ((p, default [] (sim_file p x) ++ data) :: sim_files (sim_remove p x)) x;
  file_remove := sim_remove;
  sysinfo := fun x => (Some (mk_sysinfo 60 1 2 3 1000 500 10 20 100 50 80), x);
  uname := fun x => (Some (mk_utsname (cstr "Linux") (cstr "node") (cstr "5.4") (cstr "1") (cstr "arm")), x);
  geteuid := fun _ => 0;
  uuid_generate := fun x => (cstr "01234567-89ab-cdef-0123-456789abcdef", x);
  RAND_bytes := fun n x => (Some (replicate (Z.to_nat n) x2a), x);
  BIO_f_base64 := fun bs => replicate (4 * ((length bs + 2) / 3)) x41;
  coap_split_uri := fun uri =>
    if is_prefix (cstr "coaps://") uri
    then Some (mk_coap_uri true (drop 8 uri) 5684 [] []) else None;
  getaddrinfo := fun _ x => (if sim_resolves x then Some [(true, 16)] else None, x);
  coap_new_context := sim_new_context;
  coap_new_client_session := fun ctx _ x => (Some ctx, x);
  coap_new_pdu := fun _ x => (true, x);
  coap_add_token := fun _ x => (true, x);
  coap_context_get_coap_fd := fun ctx _ => ctx;
  coap_session_release := fun _ x => x;
  coap_free_context := sim_free_context;
  coap_io_process := fun _ x =>
    match sim_pdus x with
    | [] => ([], x)
    | r :: rs => (r, mk_sim (sim_open x) (sim_select x) (sim_reads x) rs (sim_requests x)
                       (sim_resolves x) (sim_files x))
    end;
  coap_dtls_is_supported := true;
  coap_new_endpoint := fun ctx _ _ x => (Some ctx, x);
  coap_free_endpoint := fun _ x => x;
  coap_resource_init := fun path x => (Some (blen path), x);
  coap_delete_resource := fun _ x => x;
  coap_server_process := fun _ x =>
    match sim_requests x with
    | [] => ([], x)
    | r :: rs => (r, mk_sim (sim_open x) (sim_select x) (sim_reads x) (sim_pdus x) rs
                       (sim_resolves x) (sim_files x))
    end;
  malloc_usable := fun n => Z.max 24 ((n + 8 + 15) / 16 * 16 - 8);
|}.

(** ** The laws *)

Lemma lowest_fd_fresh fuel fd s :
  0 <= fd -> lowest_fd fuel fd s = -1 \/ (0 <= lowest_fd fuel fd s /\ lowest_fd fuel fd s ∉ s).
Proof.
  revert fd. induction fuel as [|fuel IH]; intros fd Hfd; cbn; [by left|].
  case_decide; [apply IH; lia|by right].
Qed.

Lemma sim_malloc_law n : n <= Z.max 24 ((n + 8 + 15) / 16 * 16 - 8).
Proof. lia. Qed.

Definition own_kind (p : Z * sim_kind) : option (Z * fd_kind) :=
  match p.2 with
  | SimTimer => Some (p.1, FdTimer)
  | SimSocket => Some (p.1, FdSocket)
  | _ => None
  end.

Definition sim_owned (l : list (Z * sim_kind)) : gmap Z fd_kind := list_to_map (omap own_kind l).
Definition sim_contexts (l : list (Z * sim_kind)) : gset Z :=
  list_to_set (filter (fun p => p.2 = SimCtx) l).*1.

Lemma sim_owned_cons p l :
  sim_owned (p :: l) =
  match own_kind p with Some q => <[q.1 := q.2]> (sim_owned l) | None => sim_owned l end.
Proof. unfold sim_owned. cbn. by destruct (own_kind p) as [[]|]. Qed.

Lemma sim_contexts_cons p l :
  sim_contexts (p :: l) =
  if decide (p.2 = SimCtx) then {[p.1]} ∪ sim_contexts l else sim_contexts l.
Proof. unfold sim_contexts. rewrite filter_cons. by case_decide. Qed.

Lemma sim_owned_fresh fd l : fd ∉ l.*1 -> sim_owned l !! fd = None.
Proof.
  induction l as [|[g k] l IH]; [done|]. rewrite fmap_cons, not_elem_of_cons. intros [Hne Hl].
  rewrite sim_owned_cons. cbn in Hne.
  destruct k; cbn; rewrite ?lookup_insert_ne by done; auto.
Qed.

Lemma sim_contexts_elem ctx l : ctx ∈ sim_contexts l <-> (ctx, SimCtx) ∈ l.
Proof.
  unfold sim_contexts. rewrite elem_of_list_to_set, list_elem_of_fmap. split.
  - intros ([g k] & -> & [Hk Hin]%list_elem_of_filter). cbn in *. by subst.
  - intros Hin. exists (ctx, SimCtx). split; [done|]. by apply list_elem_of_filter.
Qed.

Lemma sim_owned_close fd l :
  sim_owned (filter (fun p => p.1 <> fd \/ p.2 = SimCtx) l) = delete fd (sim_owned l).
Proof.
  induction l as [|[g k] l IH]; [done|]. rewrite filter_cons.
  case_decide as Hd; cbn in Hd; rewrite !sim_owned_cons.
  - destruct k; cbn [own_kind fst snd]; rewrite ?IH; try done; rewrite delete_insert_ne; naive_solver.
  - assert (g = fd) as -> by (destruct (decide (g = fd)); [done|exfalso; auto]).
    destruct k; cbn [own_kind fst snd]; rewrite ?IH; try done; try (exfalso; auto; fail). all: by rewrite delete_insert_eq.
Qed.

Lemma sim_contexts_close fd l :
  sim_contexts (filter (fun p => p.1 <> fd \/ p.2 = SimCtx) l) = sim_contexts l.
Proof.
  apply leibniz_equiv. intros y. rewrite !sim_contexts_elem, list_elem_of_filter. naive_solver.
Qed.

Lemma sim_owned_free ctx l :
  sim_owned (filter (fun p => p <> (ctx, SimCtx)) l) = sim_owned l.
Proof.
  induction l as [|p l IH]; [done|]. rewrite filter_cons. case_decide as Hd.
  - by rewrite !sim_owned_cons, IH.
  - rewrite Hd. by rewrite IH.
Qed.

Lemma sim_contexts_free ctx l :
  sim_contexts (filter (fun p => p <> (ctx, SimCtx)) l) = sim_contexts l ∖ {[ctx]}.
Proof.
  apply leibniz_equiv. intros y.
  rewrite elem_of_difference, elem_of_singleton, !sim_contexts_elem, list_elem_of_filter.
  split; [|intros [? Hne]; split; [congruence|done]]. intros [Hne Hin]. split; [done|]. congruence.
Qed.

Lemma sim_alloc_law k kind x :
  own_kind (0, k) = Some (0, kind) ->
  sim_contexts (sim_open (sim_alloc k x).2) = sim_contexts (sim_open x) /\
  (((sim_alloc k x).1 = -1 /\ sim_owned (sim_open (sim_alloc k x).2) = sim_owned (sim_open x)) \/
   (0 <= (sim_alloc k x).1 /\ sim_owned (sim_open x) !! (sim_alloc k x).1 = None /\
    sim_owned (sim_open (sim_alloc k x).2) = <[(sim_alloc k x).1 := kind]> (sim_owned (sim_open x)))).
Proof.
  intros Hk. unfold sim_alloc. generalize sim_fds. intros n.
  pose proof (lowest_fd_fresh n 0 (sim_open x).*1 ltac:(lia)) as Hl.
  revert Hl. generalize (lowest_fd n 0 (sim_open x).*1). intros fd Hl.
  case_decide as Hd; cbn [fst snd]; [by split; [|left]|].
  destruct Hl as [|[Hp Hf]]; [done|]. cbn [sim_set_open sim_open].
  rewrite sim_contexts_cons, sim_owned_cons. split.
  - destruct k; done.
  - right. split; [done|]. split; [by apply sim_owned_fresh|]. destruct k; cbn in *; congruence.
Qed.

Lemma sim_new_context_law x :
  sim_owned (sim_open (sim_new_context x).2) = sim_owned (sim_open x) /\
  match (sim_new_context x).1 with
  | None => sim_contexts (sim_open (sim_new_context x).2) = sim_contexts (sim_open x)
  | Some ctx => ctx ∉ sim_contexts (sim_open x) /\
      sim_contexts (sim_open (sim_new_context x).2) = {[ctx]} ∪ sim_contexts (sim_open x)
  end.
Proof.
  unfold sim_new_context, sim_alloc. generalize sim_fds. intros n.
  pose proof (lowest_fd_fresh n 0 (sim_open x).*1 ltac:(lia)) as Hl.
  revert Hl. generalize (lowest_fd n 0 (sim_open x).*1). intros fd Hl.
  destruct (decide (fd = -1)) as [->|Hd]; cbn [fst snd]; [done|].
  rewrite decide_False by done. destruct Hl as [|[Hp Hf]]; [done|].
  cbn [sim_set_open sim_open]. rewrite sim_contexts_cons, sim_owned_cons. split; [done|].
  split; [|done]. rewrite sim_contexts_elem. intros Hin. apply Hf.
  apply list_elem_of_fmap. by eexists (_, _).
Qed.

Lemma sim_file_read_law p n x bytes :
  take (Z.to_nat n) <$> sim_file p x = Some bytes -> blen bytes <= Z.max 0 n.
Proof.
  destruct (sim_file p x) as [f|]; [|done]. intros [= <-]. unfold blen. rewrite length_take. lia.
Qed.

#[export] Program Instance sim_laws : EnvLaws sim_env := {|
  fds := fun x : @ext sim_env => sim_owned (sim_open x);
  ctxs := fun x : @ext sim_env => sim_contexts (sim_open x);
  timerfd_create_law := fun x => sim_alloc_law SimTimer FdTimer x eq_refl;
  sock_accept_law := fun _ x => sim_alloc_law SimSocket FdSocket x eq_refl;
  unix_socket_law := fun x => sim_alloc_law SimSocket FdSocket x eq_refl;
  close_fd_law := fun fd x => conj (sim_owned_close fd (sim_open x)) (sim_contexts_close fd (sim_open x));
  coap_new_context_law := sim_new_context_law;
  coap_free_context_law := fun ctx x =>
    conj (sim_owned_free ctx (sim_open x)) (sim_contexts_free ctx (sim_open x));
  file_read_len := sim_file_read_law;
  malloc_usable_law := sim_malloc_law;
|}.
Solve All Obligations with (intros; cbn; repeat step_case; by split).

(** The process as it starts: every static is zero, NULL or its initialiser. *)
Definition boot `{E : Env} (x : ext) : client :=
  mk_client [] [] [] 0 (mk_dtls [] []) (mk_srv [] None 0) (fun _ => []) (mk_config None None None 0) (mk_identities [] [])
    (mk_reg false 0 0 0) [] 0 (mk_dp (-1) 0 0 0 false 0 0) false [] x.

Definition sim_boot (x : sim) : @client sim_env := @boot sim_env x.

(** The state after an operation that returns. *)
Definition exec `{E : Env} {A} (m : M A) (c : client) : client :=
  match m c with Ok (_, c') => c' | Fault _ => c end.

Definition returns `{E : Env} {A} (m : M A) (c : client) : bool :=
  match m c with Ok _ => true | Fault _ => false end.

Lemma exec_ok `{E : Env} (m : M unit) (c : client) : returns m c = true -> m c = Ok (tt, exec m c).
Proof. unfold returns, exec. by destruct (m c) as [[[] c']|]. Qed.

Definition result `{E : Env} {A} (m : M A) (c : client) : option A :=
  match m c with Ok (a, _) => Some a | Fault _ => None end.

Lemma result_ok `{E : Env} {A} (m : M A) (c : client) (a : A) :
  result m c = Some a -> m c = Ok (a, exec m c).
Proof. unfold result, exec. destruct (m c) as [[b c']|]; [|done]. by intros [= ->]. Qed.

Lemma sim_boot_ext x : cl_ext (sim_boot x) = x.
Proof. reflexivity. Qed.
