(* ===== verification/Config.v ===== *)
(** The client's configuration (utils/atlas_config.c): the gateway's host name
    and port, the local interface and port, and the URIs and addresses built from
    them in fixed-size buffers. *)
From S2P Require Import Prelude Defs CLib State SimEnv.

Definition ATLAS_PORT_MAX_LEN : Z := 6.
Definition ATLAS_IP_MAX_LEN : Z := 16.
Definition ATLAS_URI_MAX_LEN : Z := 256.
Definition ATLAS_URI_HOSTNAME_MAX_LEN : Z := 128.
Definition ATLAS_MAX_PORT_VAL : Z := 65535.
Definition IFNAMSIZ : Z := 16.
Definition ATLAS_COAPS_SCHEMA : list byte := cstr "coaps://".

(** A string and its NUL written to a buffer of [size] bytes. *)
Definition fits (size : Z) (s : list byte) : res (list byte) :=
  if decide (strlen s + 1 <= size) then Ok s else Fault OutOfBounds.

Section Config.
Context {E : Env}.

(** [p = malloc(strlen(s)); strcpy(p, s);] as the setters write it: the copy
    needs one byte more than was asked for, which is inside the block only if
    the allocator rounded the size up. *)
Definition malloc_strcpy (s : list byte) : res (list byte) :=
  fits (malloc_usable (strlen s)) s.

Definition atlas_cfg_set_hostname (hostname : option (list byte)) : M atlas_status :=
  match hostname with
  | None => mret ATLAS_INVALID_INPUT
  | Some hostname =>
      s ← lift (malloc_strcpy hostname);
      _ ← modify (fun c => let g := cl_cfg c in
            set_cfg (mk_config (Some s) (gw_port g) (local_iface g) (local_port g)) c);
      mret ATLAS_OK
  end.

Definition atlas_cfg_get_hostname : M (option (list byte)) := gets (fun c => gw_hostname (cl_cfg c)).

(** The check both port setters make. *)
Definition port_rejected (port_val : Z) : bool :=
  bool_decide (port_val <= 0) || bool_decide (port_val > ATLAS_MAX_PORT_VAL).

Definition atlas_cfg_set_port (port : option (list byte)) : M atlas_status :=
  match port with
  | None => mret ATLAS_INVALID_INPUT
  | Some port =>
      if port_rejected (atoi port) then mret ATLAS_INVALID_INPUT else
      s ← lift (malloc_strcpy port);
      _ ← modify (fun c => let g := cl_cfg c in
            set_cfg (mk_config (gw_hostname g) (Some s) (local_iface g) (local_port g)) c);
      mret ATLAS_OK
  end.

Definition atlas_cfg_get_port : M (option (list byte)) := gets (fun c => gw_port (cl_cfg c)).

Definition atlas_cfg_set_local_iface (iface : option (list byte)) : M atlas_status :=
  match iface with
  | None => mret ATLAS_INVALID_INPUT
  | Some iface =>
      s ← lift (malloc_strcpy iface);
      _ ← modify (fun c => let g := cl_cfg c in
            set_cfg (mk_config (gw_hostname g) (gw_port g) (Some s) (local_port g)) c);
      mret ATLAS_OK
  end.

Definition atlas_cfg_get_local_iface : M (option (list byte)) := gets (fun c => local_iface (cl_cfg c)).

(** The address of the local interface, in the caller's 16-byte buffer:
    [ioctl_ip] is the socket, the ioctl and inet_ntoa, None when there is no
    socket. *)
Definition atlas_cfg_get_local_ip : M (atlas_status * list byte) :=
  g ← gets cl_cfg;
  match local_iface g with
  | None => fail NullDeref
  | Some iface =>
      ip ← call (ioctl_ip (take (Z.to_nat (IFNAMSIZ - 1)) iface));
      match ip with
      | None => mret (ATLAS_GENERAL_ERR, [])
      | Some ip => ip ← lift (fits ATLAS_IP_MAX_LEN ip); mret (ATLAS_OK, ip)
      end
  end.

Definition atlas_cfg_set_local_port (port : option (list byte)) : M atlas_status :=
  match port with
  | None => mret ATLAS_INVALID_INPUT
  | Some port =>
      if port_rejected (atoi port) then mret ATLAS_INVALID_INPUT else
      _ ← modify (fun c => let g := cl_cfg c in
            set_cfg (mk_config (gw_hostname g) (gw_port g) (local_iface g) (u16 (atoi port))) c);
      mret ATLAS_OK
  end.

Definition atlas_cfg_get_local_port : M Z := gets (fun c => local_port (cl_cfg c)).

(** The URI of a path on the gateway, in the caller's buffer of
    ATLAS_URI_MAX_LEN bytes. *)
Definition atlas_cfg_coap_get_uri (path : list byte) : M (list byte) :=
  g ← gets cl_cfg;
  match gw_hostname g, gw_port g with
  | Some hostname, Some port =>
      lift (fits ATLAS_URI_MAX_LEN
              (ATLAS_COAPS_SCHEMA ++ hostname ++ cstr ":" ++ port ++ cstr "/" ++ path))
  | _, _ => fail NullDeref
  end.

(** "ip:port" of the local server, in the caller's zeroed buffer of
    ATLAS_IP_MAX_LEN + 6 bytes. *)
Definition atlas_cfg_get_local_ipPort : M (atlas_status * list byte) :=
  '(status, ip) ← atlas_cfg_get_local_ip;
  if decide (status <> ATLAS_OK) then mret (status, []) else
  lport ← atlas_cfg_get_local_port;
  let port := take (Z.to_nat (ATLAS_PORT_MAX_LEN - 1)) (dec lport) in
  s ← lift (fits (ATLAS_IP_MAX_LEN + 6) (ip ++ cstr ":" ++ port));
  mret (ATLAS_OK, s).
End Config.

(** * Theorems *)

Lemma fits_ok size s : strlen s + 1 <= size -> fits size s = Ok s.
Proof. intros. unfold fits. by rewrite decide_True. Qed.

Lemma blen_cstr_1 (a : Ascii.ascii) : blen (cstr (String.String a String.EmptyString)) = 1.
Proof. unfold cstr. by destruct a as [[] [] [] [] [] [] [] []]. Qed.

Lemma get_local_ip_bound `{E : Env} (c c' : client) st ip :
  atlas_cfg_get_local_ip c = Ok ((st, ip), c') -> blen ip <= 15 /\ (st <> ATLAS_OK -> ip = []).
Proof.
  unfold atlas_cfg_get_local_ip, mbind, M_bind, gets, call, lift, fits, strlen, ATLAS_IP_MAX_LEN.
  destruct (local_iface _); [|done]. destruct (ioctl_ip _ _) as [[i|] x].
  - cbn. case_decide; [|done]. intros [= <- <- _]. split; [lia|done].
  - intros [= <- <- _]. split; [|done]. by rewrite blen_nil.
Qed.

(** The "ip:port" string always fits its 22-byte buffer: the address needs at
    most 15 characters and the port is cut at 5. *)
Theorem local_ipPort_fits `{E : Env} (c c1 : client) (r : atlas_status * list byte) :
  atlas_cfg_get_local_ip c = Ok (r, c1) ->
  exists status s c', atlas_cfg_get_local_ipPort c = Ok ((status, s), c') /\ strlen s + 1 <= 22.
Proof.
  destruct r as [st ip]. intros Hip. destruct (get_local_ip_bound _ _ _ _ Hip) as [Hb _].
  unfold atlas_cfg_get_local_ipPort. rewrite (M_bind_run _ _ _ _ _ Hip).
  case_decide as Hst.
  - do 3 eexists. split; [done|]. done.
  - unfold mbind, M_bind, atlas_cfg_get_local_port, gets, lift.
    assert (Hfit : strlen (ip ++ cstr ":" ++ take (Z.to_nat (ATLAS_PORT_MAX_LEN - 1))
                     (dec (local_port (cl_cfg c1)))) + 1 <= ATLAS_IP_MAX_LEN + 6).
    { unfold strlen, ATLAS_PORT_MAX_LEN, ATLAS_IP_MAX_LEN. rewrite !blen_app, blen_cstr_1.
      assert (blen (take 5 (dec (local_port (cl_cfg c1)))) <= 5)
        by (unfold blen; rewrite length_take; lia).
      replace (Z.to_nat (6 - 1)) with 5%nat by lia. lia. }
    rewrite fits_ok by done. do 3 eexists. split; [done|]. exact Hfit.
Qed.

(** A URI on the gateway, for a configured gateway. *)
Lemma get_uri_run `{E : Env} (c : client) (hostname port path : list byte) :
  gw_hostname (cl_cfg c) = Some hostname -> gw_port (cl_cfg c) = Some port ->
  strlen hostname <= ATLAS_URI_HOSTNAME_MAX_LEN -> strlen port <= 5 -> strlen path <= 112 ->
  atlas_cfg_coap_get_uri path c =
  Ok (ATLAS_COAPS_SCHEMA ++ hostname ++ cstr ":" ++ port ++ cstr "/" ++ path, c).
Proof.
  unfold ATLAS_URI_HOSTNAME_MAX_LEN, strlen. intros Hh Hp Hlh Hlp Hlpath.
  unfold atlas_cfg_coap_get_uri, mbind, M_bind, gets. rewrite Hh, Hp.
  unfold lift. rewrite fits_ok; [done|].
  unfold strlen, ATLAS_URI_MAX_LEN. rewrite !blen_app, !blen_cstr_1.
  change (blen ATLAS_COAPS_SCHEMA) with 8. lia.
Qed.

(** With a host name within the 128 characters the command line enforces and a
    port written with at most 5, the URI of any path of up to 112 characters fits
    the 256-byte buffer of its callers. *)
Theorem coap_get_uri_fits `{E : Env} (c : client) (hostname port path : list byte) :
  gw_hostname (cl_cfg c) = Some hostname -> gw_port (cl_cfg c) = Some port ->
  strlen hostname <= ATLAS_URI_HOSTNAME_MAX_LEN -> strlen port <= 5 -> strlen path <= 112 ->
  atlas_cfg_coap_get_uri path c =
  Ok (ATLAS_COAPS_SCHEMA ++ hostname ++ cstr ":" ++ port ++ cstr "/" ++ path, c).
Proof. apply get_uri_run. Qed.

(** The 5-character bound is not enforced: the port setter looks at the number
    the string starts with only, so it accepts a string of any length, and the
    first URI built from it overflows the buffer. *)
Theorem set_port_unbounded `{E : Env} (c : client) (junk hostname path : list byte) :
  gw_hostname (cl_cfg c) = Some hostname -> 256 <= strlen junk ->
  strlen (cstr "80x" ++ junk) < malloc_usable (strlen (cstr "80x" ++ junk)) ->
  exists c', atlas_cfg_set_port (Some (cstr "80x" ++ junk)) c = Ok (ATLAS_OK, c') /\
    atlas_cfg_coap_get_uri path c' = Fault OutOfBounds.
Proof.
  intros Hh Hj Hm. unfold atlas_cfg_set_port.
  assert (Hat : atoi (cstr "80x" ++ junk) = 80) by reflexivity.
  rewrite Hat. cbn [port_rejected orb]. unfold mbind, M_bind, lift, malloc_strcpy.
  change (port_rejected 80) with false. cbv iota.
  rewrite fits_ok by lia. eexists. split; [done|].
  unfold atlas_cfg_coap_get_uri, mbind, M_bind, gets, lift. cbn [cl_cfg set_cfg gw_hostname gw_port modify].
  rewrite Hh. unfold fits. rewrite decide_False; [done|].
  unfold strlen, ATLAS_URI_MAX_LEN in *. rewrite !blen_app. blen_pos. lia.
Qed.

(** The host name setter copies one byte more than it allocates: with an
    allocator that returns exactly what is asked for, every host name overflows
    the block, and in general those for which the allocator does not round up. *)
Theorem set_hostname_overflow `{E : Env} (c : client) (h : list byte) :
  malloc_usable (strlen h) = strlen h ->
  atlas_cfg_set_hostname (Some h) c = Fault OutOfBounds.
Proof.
  intros Hm. unfold atlas_cfg_set_hostname, mbind, M_bind, lift, malloc_strcpy, fits.
  rewrite Hm. by rewrite decide_False by lia.
Qed.

(** ** Witnesses *)

Definition configured : @client sim_env :=
  set_cfg (mk_config (Some (cstr "192.168.0.1")) (Some (cstr "10100")) (Some (cstr "eth0")) 10001)
    (sim_boot sim0).

Lemma local_ipPort_fits_witness :
  exists status s c', atlas_cfg_get_local_ipPort configured = Ok ((status, s), c') /\ strlen s + 1 <= 22.
Proof.
  apply (local_ipPort_fits configured configured (ATLAS_OK, cstr "10.0.0.7")). eval_refl.
Defined.

Lemma coap_get_uri_fits_witness :
  atlas_cfg_coap_get_uri (cstr "gateway/register") configured =
  Ok (ATLAS_COAPS_SCHEMA ++ cstr "192.168.0.1" ++ cstr ":" ++ cstr "10100" ++ cstr "/" ++
      cstr "gateway/register", configured).
Proof. by apply (coap_get_uri_fits configured). Defined.

Lemma set_port_unbounded_witness :
  exists c', atlas_cfg_set_port (Some (cstr "80x" ++ replicate 260 x61)) configured = Ok (ATLAS_OK, c') /\
    atlas_cfg_coap_get_uri (cstr "gateway/register") c' = Fault OutOfBounds.
Proof. by apply (set_port_unbounded configured (replicate 260 x61) (cstr "192.168.0.1")). Defined.

Lemma set_hostname_overflow_witness :
  atlas_cfg_set_hostname (Some (cstr "gateway.atlas-iot.sample")) configured = Fault OutOfBounds.
Proof. by apply (set_hostname_overflow configured). Defined.
