(* ===== verification/Command.v ===== *)
(** The type-length-value command batch of commands/atlas_command.c: the
    program's wire format, written by every sender and read by every parser of
    the client.

    A batch is [atlas_cmd_batch_t]: a length and a pointer to one heap block. A
    pointer to a command inside the block ([const atlas_cmd_t *]) is an offset
    into it; [atlas_cmd_batch_get] swaps the header of the command it returns
    to host order in place, so it returns the changed batch too. *)
From S2P Require Import Prelude Defs.

(** * Data (commands/atlas_command.h) *)

Record cmd_batch := mk_batch {
  length_ : Z;                      (* uint16_t *)
  buf_ : option (list byte);        (* uint8_t *, NULL before the first add *)
}.

(** What a reader sees through a [const atlas_cmd_t *]: the two header fields,
    and the value pointer, which C does not bound by [length]: it is the rest of
    the block. *)
Record atlas_cmd := mk_cmd {
  cmd_type : Z;
  cmd_length : Z;
  cmd_value : list byte;
}.

Section Command.
Context `{HostEndian}.

(** * Operations (commands/atlas_command.c) *)

Definition atlas_cmd_batch_new : cmd_batch := mk_batch 0 None.

Definition atlas_cmd_batch_add (cmd_batch : option cmd_batch)
    (type length : Z) (value : option (list byte)) : res (option Command.cmd_batch) :=
  match cmd_batch with
  | None => Ok None
  | Some b =>
      (* Expand buffer: the sum is a size_t, stored in a uint16_t *)
      let new_len := u16 (length_ b + 2 * 2 + length) in
      let buf := realloc (buf_ b) new_len in
      let p := length_ b in
      (* Add value *)
      v ← match value with
          | Some src => mem_load src 0 length
          | None => if decide (0 < length) then Fault NullDeref else Ok []
          end;
      buf ← mem_store buf (p + 2 * 2) v;
      (* Add type *)
      buf ← mem_store buf p (st16 (htons type));
      (* Add length *)
      buf ← mem_store buf (p + 2) (st16 (htons length));
      Ok (Some (mk_batch new_len (Some buf)))
  end.

(** The out parameters [*buf] and [*len]; with a NULL batch they keep what the
    caller initialised them with. *)
Definition atlas_cmd_batch_get_buf (cmd_batch : option cmd_batch)
    (buf : option (list byte)) (len : Z) : option (list byte) * Z :=
  match cmd_batch with
  | None => (buf, len)
  | Some b => (buf_ b, length_ b)
  end.

(** The validation loop of [atlas_cmd_batch_set_raw]; [p] is the offset
    [p - buf], [tmp_len] the uint16_t countdown. *)
Fixpoint validate_loop (fuel : nat) (buf : list byte) (p tmp_len : Z) : res atlas_status :=
  match fuel with
  | O => Fault OutOfFuel
  | S fuel =>
      if decide (tmp_len > 0) then
        (* Validate type *)
        if decide (tmp_len < 2) then Ok ATLAS_CORRUPTED_COMMAND else
        let p := p + 2 in
        let tmp_len := u16 (tmp_len - 2) in
        (* Validate length *)
        if decide (tmp_len < 2) then Ok ATLAS_CORRUPTED_COMMAND else
        raw ← mem_load buf p 2;
        let cmd_len := ntohs (ld16 raw) in
        let p := p + 2 in
        let tmp_len := u16 (tmp_len - 2) in
        (* Validate value *)
        if decide (tmp_len < cmd_len) then Ok ATLAS_CORRUPTED_COMMAND else
        validate_loop fuel buf (p + cmd_len) (u16 (tmp_len - cmd_len))
      else Ok ATLAS_OK
  end.

(** [atlas_cmd_batch_set_raw]: on success the batch owns a copy of the raw
    bytes (a previous block is not freed: it leaks). Every turn of the loop
    consumes at least the four header bytes, so [len + 1] turns suffice. *)
Definition atlas_cmd_batch_set_raw (cmd_batch : option cmd_batch)
    (buf : option (list byte)) (len : Z) : res (atlas_status * option Command.cmd_batch) :=
  match cmd_batch, buf with
  | Some b, Some bytes =>
      if decide (len = 0) then Ok (ATLAS_INVALID_INPUT, cmd_batch) else
      st ← validate_loop (S (Z.to_nat len)) bytes 0 len;
      if decide (st = ATLAS_OK) then
        copy ← mem_load bytes 0 len;
        Ok (ATLAS_OK, Some (mk_batch len (Some copy)))
      else Ok (st, cmd_batch)
  | _, _ => Ok (ATLAS_INVALID_INPUT, cmd_batch)
  end.

(** The in-place byte swap of one uint16_t field at an offset. *)
Definition swap_field (buf : list byte) (off : Z) : res (list byte) :=
  raw ← mem_load buf off 2;
  mem_store buf off (st16 (ntohs (ld16 raw))).

(** [atlas_cmd_batch_get]: the next command's offset, and the batch with that
    command's header in host order. *)
Definition atlas_cmd_batch_get (cmd_batch : option cmd_batch) (current_cmd : option Z)
  : res (option Command.cmd_batch * option Z) :=
  match cmd_batch with
  | None => Ok (None, None)
  | Some b =>
      match buf_ b with
      | None =>
          (* the command pointer is buf_ itself, NULL, and is dereferenced *)
          Fault NullDeref
      | Some buf =>
          next ← match current_cmd with
                 | None => Ok (Some 0)
                 | Some p =>
                     (* Jump to next command *)
                     raw ← mem_load buf (p + 2) 2;
                     let p := p + 2 * 2 + ld16 raw in
                     (* If end of buffer is reached *)
                     if decide (p >= length_ b) then Ok None else Ok (Some p)
                 end;
          match next with
          | None => Ok (Some b, None)
          | Some p =>
              buf ← swap_field buf p;
              buf ← swap_field buf (p + 2);
              Ok (Some (mk_batch (length_ b) (Some buf)), Some p)
          end
      end
  end.

(** Reading [cmd->type], [cmd->length] and [cmd->value] through the pointer. *)
Definition read_cmd (cmd_batch : option cmd_batch) (p : Z) : res atlas_cmd :=
  match cmd_batch with
  | Some (mk_batch _ (Some buf)) =>
      t ← mem_load buf p 2;
      l ← mem_load buf (p + 2) 2;
      Ok (mk_cmd (ld16 t) (ld16 l) (drop (Z.to_nat (p + 4)) buf))
  | _ => Fault NullDeref
  end.

(** The loop every parser of the program runs over a batch:
    [cmd = atlas_cmd_batch_get(b, NULL); while (cmd) { body; cmd = atlas_cmd_batch_get(b, cmd); }]
    where [body] may leave the loop ([break] or [goto], the [true] flag). *)
Fixpoint cmd_while {S} (body : S -> atlas_cmd -> res (S * bool)) (fuel : nat)
    (cmd_batch : option cmd_batch) (cmd : option Z) (s : S) : res S :=
  match cmd with
  | None => Ok s
  | Some p =>
      match fuel with
      | O => Fault OutOfFuel
      | S fuel =>
          c ← read_cmd cmd_batch p;
          '(s, stop) ← body s c;
          if (stop : bool) then Ok s else
          '(cmd_batch, cmd) ← atlas_cmd_batch_get cmd_batch (Some p);
          cmd_while body fuel cmd_batch cmd s
      end
  end.

Definition cmd_loop {S} (body : S -> atlas_cmd -> res (S * bool))
    (cmd_batch : option cmd_batch) (s : S) : res S :=
  let fuel := match cmd_batch with Some b => Datatypes.S (Z.to_nat (length_ b)) | None => O end in
  '(cmd_batch, cmd) ← atlas_cmd_batch_get cmd_batch None;
  cmd_while body fuel cmd_batch cmd s.
End Command.

(** * Specification: a batch is the encoding of a list of commands *)

Abbreviation cmd := (Z * list byte)%type.

Definition wf_cmd (c : cmd) : Prop := is_u16 c.1 /\ blen c.2 < 65536.

(** One command on the wire: type and length in network order, then the value. *)
Definition encode1 (c : cmd) : list byte := be16 c.1 ++ be16 (blen c.2) ++ c.2.

Fixpoint encode (cs : list cmd) : list byte :=
  match cs with
  | [] => []
  | c :: cs => encode1 c ++ encode cs
  end.

(** [batch_repr b cs]: the batch holds exactly the commands [cs]. *)
Definition batch_repr (b : cmd_batch) (cs : list cmd) : Prop :=
  length_ b = blen (encode cs) /\ default [] (buf_ b) = encode cs.

(** What [cmd_loop] computes, on the list of commands: [body] sees each command
    with a value pointer that runs to the end of the block. *)
Fixpoint fold_cmds {S} (body : S -> atlas_cmd -> res (S * bool)) (s : S) (cs : list cmd) : res S :=
  match cs with
  | [] => Ok s
  | (t, v) :: cs =>
      '(s, stop) ← body s (mk_cmd t (blen v) (v ++ encode cs));
      if (stop : bool) then Ok s else fold_cmds body s cs
  end.

Lemma encode_app cs1 cs2 : encode (cs1 ++ cs2) = encode cs1 ++ encode cs2.
Proof. induction cs1 as [|c cs IH]; cbn; [done|]. by rewrite IH, <- app_assoc. Qed.

Lemma blen_encode1 c : blen (encode1 c) = 4 + blen c.2.
Proof. unfold encode1. blia. Qed.

Lemma blen_encode_cons c cs : blen (encode (c :: cs)) = 4 + blen c.2 + blen (encode cs).
Proof. cbn. rewrite blen_app, blen_encode1. lia. Qed.

Lemma blen_encode_nil : blen (encode []) = 0.
Proof. reflexivity. Qed.

#[export] Hint Rewrite blen_encode1 blen_encode_cons blen_encode_nil : blen.

Lemma encode_count cs : Z.of_nat (length cs) <= blen (encode cs).
Proof. induction cs as [|c cs IH]; [done|]. cbn [length]. blia. Qed.

(** Any four bytes are the header of some command. *)
Lemma header_split rest :
  4 <= blen rest ->
  exists t l tail, is_u16 t /\ is_u16 l /\ rest = be16 t ++ be16 l ++ tail.
Proof.
  destruct rest as [|a [|b [|c [|d tail]]]]; rewrite ?blen_cons, ?blen_nil; try lia.
  intros _. exists (of_be16 [a; b]), (of_be16 [c; d]), tail.
  rewrite !be16_of_be16. repeat split; try apply of_be16_range.
Qed.

(** A header determines the length of the value that follows it. *)
Lemma encode_header_inj t l x c y :
  is_u16 l -> wf_cmd c ->
  be16 t ++ be16 l ++ x = encode1 c ++ y -> l = blen c.2 /\ x = c.2 ++ y.
Proof.
  intros Hl [_ Hv] Heq. unfold encode1 in Heq. rewrite <- !app_assoc in Heq.
  apply app_inj_1 in Heq as [_ Heq]; [|done].
  apply app_inj_1 in Heq as [El Heq]; [|done].
  apply (f_equal of_be16) in El. rewrite !of_be16_be16 in El by (unfold is_u16 in *; blia).
  done.
Qed.

Lemma encode_inj cs1 cs2 :
  Forall wf_cmd cs1 -> Forall wf_cmd cs2 -> encode cs1 = encode cs2 -> cs1 = cs2.
Proof.
  intros H1. revert cs2.
  induction H1 as [|[t v] cs1 [Ht Hv] _ IH]; intros [|[t2 v2] cs2] H2 Heq; [done|..].
  1, 2: apply (f_equal blen) in Heq; rewrite blen_encode_cons in Heq; cbn in Heq; blia.
  apply Forall_cons in H2 as [[Ht2 Hv2] H2]. cbn in Ht, Hv, Ht2, Hv2.
  cbn [encode] in Heq. unfold encode1 in Heq. cbn [fst snd] in Heq.
  rewrite <- !app_assoc in Heq.
  apply app_inj_1 in Heq as [Et Heq]; [|done].
  apply app_inj_1 in Heq as [El Heq]; [|done].
  apply (f_equal of_be16) in Et, El.
  pose proof (blen_nonneg v); pose proof (blen_nonneg v2).
  rewrite !of_be16_be16 in Et, El by (unfold is_u16 in *; lia).
  apply app_inj_1 in Heq as [Ev Heq]; [|unfold blen in El; lia].
  subst. f_equal. by apply IH.
Qed.

Section CommandFacts.
Context `{HostEndian}.

Lemma batch_repr_new : batch_repr atlas_cmd_batch_new [].
Proof. done. Qed.

(** One [atlas_cmd_batch_add] whose total fits a uint16_t appends the command. *)
Lemma batch_add_ok b cs t v rest :
  batch_repr b cs -> is_u16 t ->
  blen (encode (cs ++ [(t, v)])) < 65536 ->
  exists b', atlas_cmd_batch_add (Some b) t (blen v) (Some (v ++ rest)) = Ok (Some b') /\
             batch_repr b' (cs ++ [(t, v)]).
Proof.
  intros [Hl Hb] Ht Hfit. rewrite encode_app, blen_app in Hfit. cbn in Hfit.
  unfold encode1 in Hfit. cbn [fst snd] in Hfit.
  unfold atlas_cmd_batch_add.
  assert (Hnew : u16 (length_ b + 2 * 2 + blen v) = blen (encode cs) + 4 + blen v).
  { rewrite u16_small; unfold is_u16; blia. }
  rewrite Hnew.
  assert (Hre : realloc (buf_ b) (blen (encode cs) + 4 + blen v) =
                encode cs ++ replicate 2 x00 ++ replicate 2 x00 ++ replicate (length v) x00 ++ []).
  { transitivity (realloc (Some (encode cs)) (blen (encode cs) + Z.of_nat (4 + length v))).
    - unfold realloc. cbn. rewrite Hb. unfold blen. do 2 f_equal; lia.
    - rewrite realloc_grow. f_equal. rewrite app_nil_r. by rewrite replicate_add. }
  rewrite Hre. rewrite mem_load_prefix by done.
  rewrite res_bind_ok, Hl.
  rewrite (app_assoc (replicate 2 x00) (replicate 2 x00)), app_assoc.
  rewrite (mem_store_app (encode cs ++ _) (replicate (length v) x00) []) by (unfold blen; cbn; rewrite ?length_app, ?length_replicate; cbn; lia).
  rewrite res_bind_ok, <- !app_assoc.
  rewrite st16_htons, (mem_store_app (encode cs) (replicate 2 x00)) by (cbn; blia).
  rewrite res_bind_ok, app_assoc.
  rewrite st16_htons, (mem_store_app (encode cs ++ be16 t) (replicate 2 x00)) by blia.
  rewrite res_bind_ok. eexists. split; [reflexivity|].
  assert (Henc : encode (cs ++ [(t, v)]) = encode cs ++ be16 t ++ be16 (blen v) ++ v).
  { rewrite encode_app. cbn. unfold encode1. by rewrite !app_nil_r. }
  split; cbn [length_ buf_ default]; rewrite Henc.
  - blia.
  - by rewrite app_nil_r, <- !app_assoc.
Qed.

(** An addition whose total does not fit writes outside the shrunk block. *)
Lemma batch_add_overflow b cs t v rest :
  batch_repr b cs -> is_u16 (blen v) -> blen (encode cs) < 65536 ->
  65536 <= blen (encode cs) + 4 + blen v ->
  atlas_cmd_batch_add (Some b) t (blen v) (Some (v ++ rest)) = Fault OutOfBounds.
Proof.
  intros [Hl Hb] Hv Henc Hbig. unfold atlas_cmd_batch_add. unfold is_u16 in Hv.
  set (n := u16 _). pose proof (u16_range (length_ b + 2 * 2 + blen v)) as Hn.
  fold n in Hn. unfold is_u16 in Hn. set (buf := realloc _ _).
  assert (Hlen : blen buf = n) by (unfold buf; rewrite blen_realloc; lia).
  rewrite mem_load_prefix by done. rewrite res_bind_ok.
  destruct (decide (v = [])) as [->|Hne].
  - rewrite mem_store_nil, res_bind_ok, mem_store_oob; [done| |].
    + rewrite st16_htons. done.
    + rewrite st16_htons. rewrite Hl, Hlen. unfold n, u16. rewrite Hl. blia.
  - rewrite mem_store_oob; [done|done|]. rewrite Hl, Hlen. lia.
Qed.

(** ** Validation *)

(** A header followed by a value that fits is consumed by one turn. *)
Lemma validate_step fuel pre t l tail post tmp :
  is_u16 t -> is_u16 l -> tmp = 4 + blen tail -> tmp < 65536 ->
  validate_loop (S fuel) (pre ++ (be16 t ++ be16 l ++ tail) ++ post) (blen pre) tmp =
  if decide (blen tail < l) then Ok ATLAS_CORRUPTED_COMMAND
  else validate_loop fuel (pre ++ (be16 t ++ be16 l ++ tail) ++ post) (blen pre + 4 + l)
         (blen tail - l).
Proof.
  intros Ht Hl -> Hsmall. cbn [validate_loop]. unfold is_u16 in *.
  rewrite decide_True by blia. rewrite decide_False by blia.
  rewrite decide_False by (unfold u16; blia).
  replace (pre ++ (be16 t ++ be16 l ++ tail) ++ post)
    with ((pre ++ be16 t) ++ be16 l ++ (tail ++ post)) by (by rewrite <- !app_assoc).
  rewrite mem_load_app by blia. rewrite res_bind_ok, ntohs_ld16_be16 by done.
  replace (u16 (u16 (4 + blen tail - 2) - 2)) with (blen tail) by (unfold u16; blia).
  case_decide; [done|]. f_equal; [lia|]. unfold u16. blia.
Qed.

Lemma validate_zero fuel buf p : validate_loop (S fuel) buf p 0 = Ok ATLAS_OK.
Proof. reflexivity. Qed.

Lemma validate_short fuel buf p tmp :
  0 < tmp < 4 -> validate_loop (S fuel) buf p tmp = Ok ATLAS_CORRUPTED_COMMAND.
Proof.
  intros. cbn [validate_loop]. rewrite decide_True by lia.
  case_decide; [done|]. rewrite decide_True by (unfold u16; lia). done.
Qed.

(** The loop ends, reads inside the block, and answers one of two statuses;
    it answers OK exactly on the encodings of lists of commands. *)
Lemma validate_loop_spec fuel pre rest post :
  blen rest < 65536 -> (Z.to_nat (blen rest) < fuel)%nat ->
  exists st, validate_loop fuel (pre ++ rest ++ post) (blen pre) (blen rest) = Ok st /\
    (st = ATLAS_OK \/ st = ATLAS_CORRUPTED_COMMAND) /\
    (st = ATLAS_OK <-> exists cs, Forall wf_cmd cs /\ rest = encode cs).
Proof.
  revert pre rest. induction fuel as [|fuel IH]; intros pre rest Hlt Hfuel; [lia|].
  destruct (decide (blen rest < 4)) as [Hshort|Hlong].
  { destruct (decide (blen rest = 0)) as [Hz|Hnz].
    - apply blen_0_inv in Hz as ->. exists ATLAS_OK. rewrite blen_nil, validate_zero.
      repeat split; auto. intros _. exists []. eauto.
    - exists ATLAS_CORRUPTED_COMMAND. pose proof (blen_nonneg rest).
      rewrite validate_short by lia. repeat split; auto; [discriminate|].
      intros ([|c cs] & _ & ->); [done|]. rewrite blen_encode_cons in Hshort.
      exfalso. blia. }
  destruct (header_split rest) as (t & l & tail & Ht & Hl & ->); [lia|].
  rewrite validate_step by (auto; blia).
  case_decide as Hfit.
  - exists ATLAS_CORRUPTED_COMMAND. repeat split; auto; [discriminate|].
    intros ([|c cs] & Hcs & Henc); [done|]. exfalso.
    apply Forall_cons in Hcs as [Hc _].
    apply encode_header_inj in Henc as [-> ->]; auto. blia.
  - (* split the value off the tail *)
    unfold is_u16 in Hl.
    set (v := take (Z.to_nat l) tail). set (r := drop (Z.to_nat l) tail).
    assert (Hv : blen v = l) by (unfold v, blen in *; rewrite length_take; lia).
    assert (Htail : tail = v ++ r) by (symmetry; apply take_drop).
    rewrite Htail in *.
    replace (pre ++ (be16 t ++ be16 l ++ v ++ r) ++ post)
      with ((pre ++ be16 t ++ be16 l ++ v) ++ r ++ post) by (by rewrite <- !app_assoc).
    replace (blen pre + 4 + l) with (blen (pre ++ be16 t ++ be16 l ++ v)) by blia.
    replace (blen (v ++ r) - l) with (blen r) by blia.
    destruct (IH (pre ++ be16 t ++ be16 l ++ v) r) as (st & -> & Hst & Hiff); [blia|blia|].
    exists st. split; [done|]. split; [done|]. rewrite Hiff.
    assert (Hhd : be16 t ++ be16 l ++ v ++ r = encode1 (t, v) ++ r)
      by (unfold encode1; cbn; by rewrite Hv, <- !app_assoc).
    rewrite Hhd. split.
    + intros (cs & Hcs & ->). exists ((t, v) :: cs). split; [|done].
      constructor; [|done]. split; cbn; [done|blia].
    + intros ([|c cs] & Hcs & Henc); [done|].
      apply Forall_cons in Hcs as [Hc Hcs]. exists cs. split; [done|].
      rewrite <- Hhd in Henc. apply encode_header_inj in Henc as [El Henc]; auto.
      apply app_inj_1 in Henc as [_ ->]; [done|]. unfold blen in *. lia.
Qed.

(** [atlas_cmd_batch_set_raw] on a block of [len] bytes (or more): it returns,
    accepts exactly the encodings, and on acceptance the batch holds them. *)
Lemma set_raw_spec b bytes rest :
  0 < blen bytes < 65536 ->
  exists st b', atlas_cmd_batch_set_raw (Some b) (Some (bytes ++ rest)) (blen bytes) =
                  Ok (st, Some b') /\
    (st = ATLAS_OK \/ st = ATLAS_CORRUPTED_COMMAND) /\
    (st = ATLAS_OK <-> exists cs, Forall wf_cmd cs /\ bytes = encode cs) /\
    b' = if decide (st = ATLAS_OK) then mk_batch (blen bytes) (Some bytes) else b.
Proof.
  intros Hlen. unfold atlas_cmd_batch_set_raw. rewrite decide_False by lia.
  destruct (validate_loop_spec (S (Z.to_nat (blen bytes))) [] bytes rest)
    as (st & Hv & Hst & Hiff); [lia|lia|]. cbn [app] in Hv. rewrite blen_nil in Hv.
  rewrite Hv, res_bind_ok. case_decide as Hok.
  - rewrite mem_load_prefix by done. rewrite res_bind_ok.
    exists ATLAS_OK, (mk_batch (blen bytes) (Some bytes)). rewrite Hok in *.
    rewrite decide_True by done. auto.
  - exists st, b. rewrite decide_False by done. auto.
Qed.

Lemma set_raw_encode b cs rest :
  Forall wf_cmd cs -> 0 < blen (encode cs) < 65536 ->
  atlas_cmd_batch_set_raw (Some b) (Some (encode cs ++ rest)) (blen (encode cs)) =
  Ok (ATLAS_OK, Some (mk_batch (blen (encode cs)) (Some (encode cs)))).
Proof.
  intros Hcs Hlen. destruct (set_raw_spec b (encode cs) rest Hlen) as (st & b' & -> & _ & Hiff & ->).
  assert (st = ATLAS_OK) as -> by (apply Hiff; eauto).
  by rewrite decide_True.
Qed.

(** Any [len] bytes of a block are rejected or are the encoding of commands, in
    which case the batch owns a copy of them. *)
Lemma set_raw_cases b bytes len :
  0 < len < 65536 -> len <= blen bytes ->
  (exists st, st <> ATLAS_OK /\
     atlas_cmd_batch_set_raw (Some b) (Some bytes) len = Ok (st, Some b)) \/
  (exists cs, Forall wf_cmd cs /\ cs <> [] /\ len = blen (encode cs) /\
     take (Z.to_nat len) bytes = encode cs /\
     atlas_cmd_batch_set_raw (Some b) (Some bytes) len =
     Ok (ATLAS_OK, Some (mk_batch (blen (encode cs)) (Some (encode cs))))).
Proof.
  intros Hlen Hle. set (hd := take (Z.to_nat len) bytes).
  assert (Hhd : blen hd = len) by (unfold hd, blen in *; rewrite length_take; lia).
  destruct (set_raw_spec b hd (drop (Z.to_nat len) bytes)) as (st & b' & Hs & _ & Hiff & Hb');
    [lia|]. unfold hd in Hs at 1. rewrite take_drop, Hhd in Hs. rewrite Hs.
  destruct (decide (st = ATLAS_OK)) as [->|Hst]; [right|left].
  - destruct (proj1 Hiff eq_refl) as (cs & Hcs & Henc). exists cs. rewrite <- Henc, Hhd.
    split; [done|]. split; [intros ->; rewrite Henc, blen_encode_nil in Hhd; lia|].
    split; [done|]. split; [done|]. by rewrite Hb', Hhd.
  - exists st. by subst b'.
Qed.

(** ** Iteration *)

(** A command whose header [atlas_cmd_batch_get] has put in host order. *)
Definition host1 (c : cmd) : list byte := st16 c.1 ++ st16 (blen c.2) ++ c.2.

Lemma blen_host1 c : blen (host1 c) = 4 + blen c.2.
Proof. unfold host1. blia. Qed.

Lemma swap_field_be pre z post :
  is_u16 z -> swap_field (pre ++ be16 z ++ post) (blen pre) = Ok (pre ++ st16 z ++ post).
Proof.
  intros. unfold swap_field. rewrite mem_load_app by blia. rewrite res_bind_ok.
  rewrite ntohs_ld16_be16 by done. apply mem_store_app; blia.
Qed.

(** The two swaps of [atlas_cmd_batch_get] on the command at the end of [pre]. *)
Lemma swap_header pre c post :
  wf_cmd c ->
  (buf ← swap_field (pre ++ encode1 c ++ post) (blen pre);
   swap_field buf (blen pre + 2)) = Ok (pre ++ host1 c ++ post).
Proof.
  intros [Ht Hv]. unfold encode1, host1. rewrite <- !app_assoc.
  rewrite swap_field_be by done. rewrite res_bind_ok.
  rewrite app_assoc. replace (blen pre + 2) with (blen (pre ++ st16 c.1)) by blia.
  rewrite swap_field_be by (unfold is_u16; blia). by rewrite <- app_assoc.
Qed.

Lemma get_swap (n : Z) pre c post :
  wf_cmd c ->
  (buf ← swap_field (pre ++ encode1 c ++ post) (blen pre);
   buf ← swap_field buf (blen pre + 2);
   Ok (Some (mk_batch n (Some buf)), Some (blen pre))) =
  Ok (Some (mk_batch n (Some (pre ++ host1 c ++ post))), Some (blen pre)).
Proof. intros Hc. by rewrite <- res_bind_assoc, swap_header. Qed.

Lemma get_first c cs :
  wf_cmd c ->
  atlas_cmd_batch_get (Some (mk_batch (blen (encode (c :: cs))) (Some (encode (c :: cs))))) None =
  Ok (Some (mk_batch (blen (encode (c :: cs))) (Some (host1 c ++ encode cs))), Some 0).
Proof. intros Hc. exact (get_swap _ [] c (encode cs) Hc). Qed.

Lemma get_next n pre c cs :
  wf_cmd c -> Forall wf_cmd cs -> n = blen pre + 4 + blen c.2 + blen (encode cs) ->
  atlas_cmd_batch_get (Some (mk_batch n (Some (pre ++ host1 c ++ encode cs)))) (Some (blen pre)) =
  match cs with
  | [] => Ok (Some (mk_batch n (Some (pre ++ host1 c ++ encode cs))), None)
  | c' :: cs' =>
      Ok (Some (mk_batch n (Some ((pre ++ host1 c) ++ host1 c' ++ encode cs'))),
          Some (blen (pre ++ host1 c)))
  end.
Proof.
  intros [Ht Hv] Hcs ->. cbn [atlas_cmd_batch_get buf_].
  assert (Hld : mem_load (pre ++ host1 c ++ encode cs) (blen pre + 2) 2 = Ok (st16 (blen c.2))).
  { unfold host1. rewrite <- !app_assoc, (app_assoc pre). apply mem_load_app; blia. }
  rewrite Hld, res_bind_ok, ld16_st16 by (unfold is_u16; blia).
  cbn [length_]. destruct cs as [|c' cs]; cbn [encode].
  - rewrite decide_True by blia. done.
  - apply Forall_cons in Hcs as [Hc' Hcs].
    rewrite decide_False by blia. rewrite res_bind_ok.
    replace (blen pre + 2 * 2 + blen c.2) with (blen (pre ++ host1 c))
      by (rewrite blen_app, blen_host1; lia).
    rewrite app_assoc. by apply get_swap.
Qed.

Lemma read_cmd_host n pre c post :
  wf_cmd c ->
  read_cmd (Some (mk_batch n (Some (pre ++ host1 c ++ post)))) (blen pre) =
  Ok (mk_cmd c.1 (blen c.2) (c.2 ++ post)).
Proof.
  intros [Ht Hv]. unfold read_cmd, host1. rewrite <- !app_assoc.
  rewrite (mem_load_app pre (st16 c.1) _ (blen pre) 2) by blia. rewrite res_bind_ok.
  rewrite (app_assoc pre), mem_load_app by blia. rewrite res_bind_ok.
  rewrite !ld16_st16 by (unfold is_u16 in *; blia). do 2 f_equal.
  rewrite (app_assoc (pre ++ _)).
  replace (blen pre + 4) with (blen ((pre ++ st16 c.1) ++ st16 (blen c.2))) by blia.
  rewrite to_nat_blen. apply drop_app_length.
Qed.

Lemma cmd_while_fold {S} (body : S -> atlas_cmd -> res (S * bool)) fuel n pre c cs s :
  Forall wf_cmd (c :: cs) -> (length cs < fuel)%nat ->
  n = blen pre + blen (encode (c :: cs)) ->
  cmd_while body fuel (Some (mk_batch n (Some (pre ++ host1 c ++ encode cs))))
    (Some (blen pre)) s = fold_cmds body s (c :: cs).
Proof.
  revert pre c cs s. induction fuel as [|fuel IH]; intros pre c cs s Hcs Hfuel Hn; [lia|].
  apply Forall_cons in Hcs as [Hc Hcs]. cbn [cmd_while].
  rewrite read_cmd_host by done. rewrite res_bind_ok.
  destruct c as [t v]. cbn [fold_cmds fst snd]. rewrite blen_encode_cons in Hn. cbn in Hn.
  destruct (body s _) as [[s' []]|f]; [done| |done]. cbn [mbind res_bind].
  rewrite get_next by (auto; cbn; lia).
  destruct cs as [|c' cs]; [by destruct fuel|].
  cbn [mbind res_bind]. apply IH; [done|cbn in Hfuel; lia|].
  rewrite blen_app, blen_host1. cbn [snd]. lia.
Qed.

(** The parsers' loop over a validated batch is a fold over its commands. *)
Lemma cmd_loop_fold {S} (body : S -> atlas_cmd -> res (S * bool)) cs s :
  Forall wf_cmd cs -> cs <> [] ->
  cmd_loop body (Some (mk_batch (blen (encode cs)) (Some (encode cs)))) s =
  fold_cmds body s cs.
Proof.
  intros Hcs Hne. destruct cs as [|c cs]; [done|]. unfold cmd_loop.
  rewrite get_first by (by apply Forall_cons in Hcs as [? _]).
  rewrite res_bind_ok. cbn [length_].
  apply (cmd_while_fold body _ _ []); [done| |by rewrite blen_nil].
  pose proof (encode_count (c :: cs)) as Hcount. cbn [length] in Hcount. lia.
Qed.
End CommandFacts.

(** * Theorems *)

(** A sender: one [atlas_cmd_batch_add] per command. *)
Fixpoint add_all `{HostEndian} (b : option cmd_batch) (cs : list cmd) : res (option cmd_batch) :=
  match cs with
  | [] => Ok b
  | (t, v) :: cs => b ← atlas_cmd_batch_add b t (blen v) (Some v); add_all b cs
  end.

(** A receiver: collect type and value of every command. *)
Definition collect (acc : list cmd) (c : atlas_cmd) : res (list cmd * bool) :=
  v ← mem_load (cmd_value c) 0 (cmd_length c);
  Ok (acc ++ [(cmd_type c, v)], false).

Lemma add_all_ok `{HostEndian} b cs0 cs :
  batch_repr b cs0 -> Forall wf_cmd cs -> blen (encode (cs0 ++ cs)) < 65536 ->
  exists b', add_all (Some b) cs = Ok (Some b') /\ batch_repr b' (cs0 ++ cs).
Proof.
  intros Hb Hcs. revert b cs0 Hb.
  induction Hcs as [|[t v] cs [Ht Hv] _ IH]; intros b cs0 Hb Hfit.
  - exists b. by rewrite app_nil_r.
  - rewrite cons_middle, app_assoc in Hfit. cbn [add_all].
    destruct (batch_add_ok b cs0 t v [] Hb Ht) as (b' & Hadd & Hb').
    { rewrite encode_app, blen_app in Hfit. blia. }
    rewrite app_nil_r in Hadd. rewrite Hadd, res_bind_ok.
    destruct (IH _ _ Hb' Hfit) as (b2 & -> & Hb2). exists b2. split; [done|].
    by rewrite cons_middle, app_assoc.
Qed.

Lemma fold_collect cs acc : fold_cmds collect acc cs = Ok (acc ++ cs).
Proof.
  revert acc. induction cs as [|[t v] cs IH]; intros acc; cbn [fold_cmds].
  - by rewrite app_nil_r.
  - assert (collect acc (mk_cmd t (blen v) (v ++ encode cs)) = Ok (acc ++ [(t, v)], false)) as ->.
    { unfold collect. cbn [cmd_value cmd_length cmd_type]. by rewrite mem_load_prefix. }
    rewrite res_bind_ok, IH. by rewrite <- app_assoc.
Qed.

(** C2: commands added one by one to a fresh batch by a sender, and parsed from
    the serialised buffer by a receiver, come back unchanged and in order, for
    any byte order of the sending and of the receiving host, whenever the total
    fits the batch's 16-bit length. *)
Theorem batch_roundtrip (sender receiver : HostEndian) (cs : list cmd) :
  Forall wf_cmd cs -> cs <> [] -> blen (encode cs) < 65536 ->
  exists b b',
    @add_all sender (Some atlas_cmd_batch_new) cs = Ok (Some b) /\
    (let '(buf, len) := atlas_cmd_batch_get_buf (Some b) None 0 in
     @atlas_cmd_batch_set_raw receiver (Some atlas_cmd_batch_new) buf len
       = Ok (ATLAS_OK, Some b')) /\
    @cmd_loop receiver _ collect (Some b') [] = Ok cs.
Proof.
  intros Hcs Hne Hfit.
  destruct (@add_all_ok sender _ [] cs batch_repr_new Hcs Hfit) as (b & Hadd & Hl & Hb).
  cbn [app] in Hl, Hb. exists b, (mk_batch (blen (encode cs)) (Some (encode cs))).
  split; [done|]. split.
  - destruct b as [len [buf|]]; cbn in Hl, Hb |- *; subst.
    + assert (Hpos : 0 < blen (encode cs) < 65536) by (destruct cs; [done | blia]).
      pose proof (@set_raw_encode receiver atlas_cmd_batch_new cs [] Hcs Hpos) as Hs.
      by rewrite app_nil_r in Hs.
    + destruct cs as [|[t v] cs]; done.
  - rewrite cmd_loop_fold by done. by rewrite fold_collect.
Qed.

Lemma batch_roundtrip_witness :
  exists b b',
    @add_all true (Some atlas_cmd_batch_new) [(2, [x41; x42]); (513, [x00; x0a])] = Ok (Some b) /\
    (let '(buf, len) := atlas_cmd_batch_get_buf (Some b) None 0 in
     @atlas_cmd_batch_set_raw false (Some atlas_cmd_batch_new) buf len
       = Ok (ATLAS_OK, Some b')) /\
    @cmd_loop false _ collect (Some b') [] = Ok [(2, [x41; x42]); (513, [x00; x0a])].
Proof.
  apply (batch_roundtrip true false [(2, [x41; x42]); (513, [x00; x0a])]).
  - repeat constructor; done.
  - done.
  - done.
Defined.

(** The validator of received buffers terminates without reading outside
    them, accepts a non-empty buffer exactly when it is the encoding of a list of
    commands, leaves the batch alone when it rejects, and holds exactly the
    received bytes when it accepts. *)
Theorem set_raw_accepts_iff `{HostEndian} (b : cmd_batch) (bytes : list byte) :
  0 < blen bytes < 65536 ->
  exists st b',
    atlas_cmd_batch_set_raw (Some b) (Some bytes) (blen bytes) = Ok (st, Some b') /\
    (st = ATLAS_OK \/ st = ATLAS_CORRUPTED_COMMAND) /\
    (st = ATLAS_OK <-> exists cs, Forall wf_cmd cs /\ bytes = encode cs) /\
    b' = if decide (st = ATLAS_OK) then mk_batch (blen bytes) (Some bytes) else b.
Proof.
  intros Hlen. pose proof (set_raw_spec b bytes [] Hlen) as Hs. by rewrite app_nil_r in Hs.
Qed.

Lemma set_raw_accepts_iff_witness :
  exists st b',
    @atlas_cmd_batch_set_raw true (Some atlas_cmd_batch_new) (Some [x00; x02; x00; x01; x41]) 5
      = Ok (st, Some b') /\
    (st = ATLAS_OK \/ st = ATLAS_CORRUPTED_COMMAND) /\
    (st = ATLAS_OK <-> exists cs, Forall wf_cmd cs /\ [x00; x02; x00; x01; x41] = encode cs) /\
    b' = if decide (st = ATLAS_OK) then mk_batch 5 (Some [x00; x02; x00; x01; x41])
         else atlas_cmd_batch_new.
Proof.
  exact (@set_raw_accepts_iff true atlas_cmd_batch_new [x00; x02; x00; x01; x41]
           (conj eq_refl eq_refl)).
Defined.

(** An addition that would make the batch longer than 65535 bytes wraps the
    16-bit length, shrinks the block and then writes outside it. *)
Theorem batch_add_wraps `{HostEndian} (b : cmd_batch) (cs : list cmd) (t : Z) (v : list byte) :
  batch_repr b cs -> blen (encode cs) < 65536 -> is_u16 (blen v) ->
  65536 <= blen (encode (cs ++ [(t, v)])) ->
  atlas_cmd_batch_add (Some b) t (blen v) (Some v) = Fault OutOfBounds.
Proof.
  intros Hb Hcs Hv Hbig.
  pose proof (batch_add_overflow b cs t v [] Hb Hv Hcs) as Hs. rewrite app_nil_r in Hs.
  apply Hs. rewrite encode_app in Hbig. blia.
Qed.

Lemma batch_add_wraps_witness :
  @atlas_cmd_batch_add true (Some (mk_batch 5 (Some [x00; x02; x00; x01; x41]))) 7
    (blen (replicate (Z.to_nat 65530) x41)) (Some (replicate (Z.to_nat 65530) x41)) = Fault OutOfBounds.
Proof.
  apply (@batch_add_wraps true _ [(2, [x41])]).
  - done.
  - done.
  - by rewrite blen_replicate.
  - rewrite encode_app. blia.
Defined.
