(* ===== verification/Sched.v ===== *)
(** The event loop of scheduler/atlas_scheduler.c.

    The list [sched_entry] holds a descriptor, its callback and a dirty flag per
    entry. Deleting only marks an entry; [atlas_sched_loop] unlinks the marked
    ones at the start of each turn, selects on the rest, and walks the list
    calling the callbacks of the ready descriptors. Callbacks add entries at the
    tail and mark entries while the walk is under way. *)
From S2P Require Import Prelude Defs State SimEnv.

(** Size of an fd_set: FD_SET of a larger descriptor writes outside it. *)
Definition FD_SETSIZE : Z := 1024.

Definition fd_set (fd : Z) (fds : list Z) : res (list Z) :=
  if decide (0 <= fd < FD_SETSIZE) then Ok (fd :: fds) else Fault OutOfBounds.

Definition fd_clr (fd : Z) (fds : list Z) : list Z := filter (fun x => x <> fd) fds.

(** * Operations on the list *)

Definition sched_append (fd : Z) (cb : option sched_cb) (l : list sched_entry) : list sched_entry :=
  match cb with
  | Some cb => if decide (fd < 0) then l else l ++ [mk_sched_entry fd cb false]
  | None => l
  end.

Definition mark_dirty (e : sched_entry) : sched_entry :=
  mk_sched_entry (se_fd e) (se_callback e) true.

Definition sched_mark (fd : Z) (l : list sched_entry) : list sched_entry :=
  update_first (fun e => bool_decide (se_fd e = fd)) mark_dirty l.

(** The first inner loop of [atlas_sched_loop]: unlink the dirty entries, collect
    the descriptors of the others and the largest one. *)
Fixpoint sched_sweep (l : list sched_entry) (readfds : list Z) (max_fd : Z)
  : res (list sched_entry * list Z * Z) :=
  match l with
  | [] => Ok ([], readfds, max_fd)
  | ent :: l =>
      if se_dirty ent then sched_sweep l readfds max_fd
      else
        let max_fd := if decide (se_fd ent > max_fd) then se_fd ent else max_fd in
        readfds ← fd_set (se_fd ent) readfds;
        '(kept, readfds, max_fd) ← sched_sweep l readfds max_fd;
        Ok (ent :: kept, readfds, max_fd)
  end.

#[global] Arguments sched_append : simpl never.
#[global] Arguments sched_mark : simpl never.

Section Sched.
Context {E : Env}.

Definition atlas_sched_add_entry (fd : Z) (cb : option sched_cb) : M unit :=
  modify (fun c => set_sched (sched_append fd cb (cl_sched c)) c).

Definition atlas_sched_del_entry (fd : Z) : M unit :=
  modify (fun c => set_sched (sched_mark fd (cl_sched c)) c).

(** [run cb fd] is the call [ent->callback(ent->fd)]. *)
Context (run : sched_cb -> Z -> M unit).

(** The second inner loop: the walk over the list by position, since entries
    are appended but never unlinked while it runs. *)
Fixpoint sched_dispatch (fuel : nat) (i : nat) (readfds : list Z) : M unit :=
  match fuel with
  | O => fail OutOfFuel
  | S fuel =>
      l ← gets cl_sched;
      match l !! i with
      | None => mret tt
      | Some ent =>
          if negb (se_dirty ent) && bool_decide (se_fd ent ∈ readfds) then
            _ ← run (se_callback ent) (se_fd ent);
            sched_dispatch fuel (S i) (fd_clr (se_fd ent) readfds)
          else sched_dispatch fuel (S i) readfds
      end
  end.

(** One turn of [while (1)]. *)
Definition atlas_sched_turn (fuel : nat) : M unit :=
  l ← gets cl_sched;
  '(kept, readfds, max_fd) ← lift (sched_sweep l [] 0);
  _ ← modify (set_sched kept);
  '(result, ready) ← call (select (max_fd + 1) readfds);
  if decide (result > 0) then sched_dispatch fuel 0 ready else mret tt.

(** [atlas_sched_loop] for [n] turns (it never returns in C). *)
Fixpoint atlas_sched_loop (n fuel : nat) : M unit :=
  match n with
  | O => mret tt
  | S n => _ ← atlas_sched_turn fuel; atlas_sched_loop n fuel
  end.
End Sched.

(** * Facts on the list *)

Definition live (l : list sched_entry) : list sched_entry := filter (fun e => se_dirty e = false) l.
Definition live_fds (l : list sched_entry) : list Z := se_fd <$> live l.

#[global] Arguments live : simpl never.
#[global] Arguments live_fds : simpl never.

(** At most one live entry per descriptor. *)
Definition sched_wf (l : list sched_entry) : Prop :=
  NoDup (live_fds l) /\ Forall (fun e => 0 <= se_fd e) l.

Lemma live_app l1 l2 : live (l1 ++ l2) = live l1 ++ live l2.
Proof. apply filter_app. Qed.

Lemma live_cons e l : live (e :: l) = if se_dirty e then live l else e :: live l.
Proof. unfold live. rewrite filter_cons. by destruct (se_dirty e). Qed.

Lemma live_fds_cons e l :
  live_fds (e :: l) = if se_dirty e then live_fds l else se_fd e :: live_fds l.
Proof. unfold live_fds. rewrite live_cons. by destruct (se_dirty e). Qed.

Lemma live_fds_app l1 l2 : live_fds (l1 ++ l2) = live_fds l1 ++ live_fds l2.
Proof. unfold live_fds. by rewrite live_app, fmap_app. Qed.

Lemma sched_append_Some fd cb l :
  0 <= fd -> sched_append fd (Some cb) l = l ++ [mk_sched_entry fd cb false].
Proof. intros. unfold sched_append. by rewrite decide_False by lia. Qed.

Lemma live_fds_append fd cb l :
  0 <= fd -> live_fds (sched_append fd (Some cb) l) = live_fds l ++ [fd].
Proof. intros. rewrite sched_append_Some by done. by rewrite live_fds_app. Qed.

(** Marking only loses live entries, and only of that descriptor. *)
Lemma live_mark_sublist fd l : sublist (live (sched_mark fd l)) (live l).
Proof.
  unfold sched_mark. induction l as [|e l IH]; cbn [update_first]; [constructor|].
  case_bool_decide; rewrite !live_cons; cbn [se_dirty mark_dirty].
  - destruct (se_dirty e); [done|by constructor].
  - destruct (se_dirty e); [done|by constructor].
Qed.

Lemma live_mark_other fd l e :
  se_fd e <> fd -> e ∈ live (sched_mark fd l) <-> e ∈ live l.
Proof.
  intros He. unfold sched_mark. induction l as [|e' l IH]; cbn [update_first]; [done|].
  case_bool_decide as Hfd; rewrite !live_cons; cbn [se_dirty mark_dirty].
  - destruct (se_dirty e'); [done|]. rewrite elem_of_cons. split; [auto|].
    intros [->|]; [congruence|done].
  - destruct (se_dirty e'); [done|]. by rewrite !elem_of_cons, IH.
Qed.

(** When the first entry of a descriptor is live, marking removes exactly it. *)
Lemma live_mark_first l1 e l2 fd :
  Forall (fun x => se_fd x <> fd) l1 -> se_fd e = fd -> se_dirty e = false ->
  live (sched_mark fd (l1 ++ e :: l2)) = live l1 ++ live l2.
Proof.
  intros Hl1 Hfd Hd. unfold sched_mark. rewrite update_first_app_r.
  - cbn [update_first]. rewrite bool_decide_true by done.
    by rewrite live_app, live_cons.
  - eapply Forall_impl; [exact Hl1|]. cbn. intros. by apply bool_decide_false.
Qed.

(** When it is dirty already, marking changes nothing. *)
Lemma mark_stale l1 e l2 fd :
  Forall (fun x => se_fd x <> fd) l1 -> se_fd e = fd -> se_dirty e = true ->
  sched_mark fd (l1 ++ e :: l2) = l1 ++ e :: l2.
Proof.
  intros Hl1 Hfd Hd. unfold sched_mark. rewrite update_first_app_r.
  - cbn [update_first]. rewrite bool_decide_true by done. do 2 f_equal.
    destruct e as [? ? d]. cbn in Hd. by subst.
  - eapply Forall_impl; [exact Hl1|]. cbn. intros. by apply bool_decide_false.
Qed.

Lemma sched_wf_append l fd cb :
  sched_wf l -> 0 <= fd -> fd ∉ live_fds l -> sched_wf (sched_append fd (Some cb) l).
Proof.
  intros [Hnd Hpos] Hfd Hnew. split.
  - rewrite live_fds_append by done. apply NoDup_app. split; [done|]. split.
    + intros x Hx ->%list_elem_of_singleton. done.
    + apply NoDup_singleton.
  - rewrite sched_append_Some by done. apply Forall_app. split; [done|]. by repeat constructor.
Qed.

Lemma sched_wf_mark l fd : sched_wf l -> sched_wf (sched_mark fd l).
Proof.
  intros [Hnd Hpos]. split.
  - eapply sublist_NoDup; [exact Hnd|]. apply fmap_sublist, live_mark_sublist.
  - clear Hnd. unfold sched_mark. induction Hpos as [|e l He Hl IH]; cbn [update_first]; [done|].
    case_bool_decide; by constructor.
Qed.

Lemma fd_clr_length fd fds : fd ∈ fds -> (length (fd_clr fd fds) < length fds)%nat.
Proof.
  unfold fd_clr. intros Hin. induction fds as [|x fds IH]; [by apply not_elem_of_nil in Hin|].
  rewrite filter_cons. case_decide as Hx.
  - apply elem_of_cons in Hin as [->|Hin]; [done|]. cbn. apply IH in Hin. lia.
  - cbn. pose proof (length_filter (fun x => x <> fd) fds). lia.
Qed.

(** * The first loop *)

Lemma fd_set_ok fd fds : 0 <= fd < FD_SETSIZE -> fd_set fd fds = Ok (fd :: fds).
Proof. intros. unfold fd_set. by rewrite decide_True. Qed.


Lemma sched_sweep_spec l readfds max_fd :
  Forall (fun fd => 0 <= fd < FD_SETSIZE) (live_fds l) ->
  exists fds m, sched_sweep l readfds max_fd = Ok (live l, fds, m) /\
    (forall fd, fd ∈ fds <-> fd ∈ live_fds l \/ fd ∈ readfds) /\
    max_fd <= m /\ (forall fd, fd ∈ live_fds l -> fd <= m).
Proof.
  revert readfds max_fd. induction l as [|e l IH]; intros readfds max_fd Hl; cbn [sched_sweep].
  { exists readfds, max_fd. repeat split; try lia; try set_solver. }
  rewrite live_fds_cons in Hl. rewrite live_fds_cons, live_cons.
  destruct (se_dirty e); [by apply IH|].
  apply Forall_cons in Hl as [He Hl].
  rewrite fd_set_ok, res_bind_ok by done.
  set (m0 := if decide _ then _ else _).
  assert (Hm0 : max_fd <= m0 /\ se_fd e <= m0) by (unfold m0; case_decide; lia).
  destruct (IH (se_fd e :: readfds) m0 Hl) as (fds & m & -> & Hin & Hm & Hall).
  rewrite res_bind_ok. exists fds, m. split; [done|]. repeat split; [..|lia|].
  - intros [?|[->|?]%elem_of_cons]%Hin; [left|left|by right]; rewrite elem_of_cons; auto.
  - intros [[->|?]%elem_of_cons|?]; apply Hin; [right|by left|right]; rewrite elem_of_cons; auto.
  - intros fd [->|?]%elem_of_cons; [lia|auto].
Qed.

Lemma sched_sweep_live l readfds max_fd kept fds m :
  sched_sweep l readfds max_fd = Ok (kept, fds, m) -> kept = live l.
Proof.
  revert readfds max_fd kept fds m.
  induction l as [|e l IH]; intros readfds max_fd kept fds m; cbn [sched_sweep].
  { by intros [= <- _ _]. }
  rewrite live_cons. destruct (se_dirty e); [apply IH|].
  destruct (fd_set _ _) as [fds0|]; [|discriminate]. rewrite res_bind_ok.
  destruct (sched_sweep l _ _) as [[[k f] m']|] eqn:Hs; [|discriminate].
  rewrite res_bind_ok. intros [= <- _ _]. f_equal. by eapply IH.
Qed.

(** The loop returns only when every live descriptor fits. *)
Lemma sched_sweep_range l readfds max_fd r :
  sched_sweep l readfds max_fd = Ok r -> Forall (fun fd => 0 <= fd < FD_SETSIZE) (live_fds l).
Proof.
  revert readfds max_fd r. induction l as [|e l IH]; intros readfds max_fd r; cbn [sched_sweep]; [intros _; constructor|].
  rewrite live_fds_cons. destruct (se_dirty e); [apply IH|]. unfold fd_set. destruct (decide (0 <= se_fd e < FD_SETSIZE)); [|done]. rewrite res_bind_ok.
  intros Hrun. apply res_bind_inv in Hrun as ([[k f] m] & Hs & _). constructor; [done|by eapply IH].
Qed.

(** A turn that returns: the swept list, what [select] was asked and said, and the walk. *)
Lemma sched_turn_inv `{E : Env} (run : sched_cb -> Z -> M unit) fuel c c' :
  atlas_sched_turn run fuel c = Ok (tt, c') ->
  exists readfds max_fd result ready x,
    (forall fd, fd ∈ readfds <-> fd ∈ live_fds (cl_sched c)) /\ (forall fd, fd ∈ readfds -> fd <= max_fd) /\
    select (max_fd + 1) readfds (cl_ext c) = ((result, ready), x) /\
    let swept := set_ext x (set_sched (live (cl_sched c)) c) in
    if decide (result > 0) then sched_dispatch run fuel 0 ready swept = Ok (tt, c') else c' = swept.
Proof.
  unfold atlas_sched_turn. rewrite (M_bind_run _ _ _ _ _ eq_refl). unfold mbind at 1, M_bind at 1, lift.
  destruct (sched_sweep (cl_sched c) [] 0) as [[[kept readfds] m]|f] eqn:Hs; [|done].
  destruct (sched_sweep_spec _ [] 0 (sched_sweep_range _ _ _ _ Hs)) as (fds & m' & Heq & Hin & _ & Hm).
  rewrite Hs in Heq. injection Heq as -> <- <-. rewrite (M_bind_run (modify _) _ _ tt (set_sched (live (cl_sched c)) c) eq_refl).
  unfold mbind, M_bind, call. change (cl_ext (set_sched _ c)) with (cl_ext c).
  destruct (select (m + 1) readfds (cl_ext c)) as [[result ready] x] eqn:Hsel. intros Hrun.
  assert (Hiff : forall fd, fd ∈ readfds <-> fd ∈ live_fds (cl_sched c)).
  { intros fd. rewrite Hin. split; [|auto]. intros [?|Hbad]; [done|]. by apply not_elem_of_nil in Hbad. }
  exists readfds, m, result, ready, x. split; [done|]. split; [by intros fd Hfd%Hiff%Hm|]. split; [done|].
  cbv zeta. case_decide; [exact Hrun|by injection Hrun].
Qed.

(** * The second loop *)

Section Dispatch.
Context {E : Env} (run : sched_cb -> Z -> M unit).

(** The walk as a step relation: [served i fds c tr c'] walks from position [i]
    with the ready set [fds], making the calls [tr]. *)
Inductive served : nat -> list Z -> client -> list (sched_cb * Z) -> client -> Prop :=
  | served_end i fds c : cl_sched c !! i = None -> served i fds c [] c
  | served_skip i fds c ent tr c' :
      cl_sched c !! i = Some ent -> se_dirty ent = true \/ se_fd ent ∉ fds ->
      served (S i) fds c tr c' -> served i fds c tr c'
  | served_call i fds c ent c1 tr c' :
      cl_sched c !! i = Some ent -> se_dirty ent = false -> se_fd ent ∈ fds ->
      run (se_callback ent) (se_fd ent) c = Ok (tt, c1) ->
      served (S i) (fd_clr (se_fd ent) fds) c1 tr c' ->
      served i fds c ((se_callback ent, se_fd ent) :: tr) c'.

Lemma dispatch_served fuel i fds c c' :
  sched_dispatch run fuel i fds c = Ok (tt, c') -> exists tr, served i fds c tr c'.
Proof.
  revert i fds c. induction fuel as [|fuel IH]; intros i fds c; [done|].
  cbn [sched_dispatch]. unfold mbind, M_bind at 1. unfold gets.
  destruct (cl_sched c !! i) as [ent|] eqn:Hi.
  - destruct (se_dirty ent) eqn:Hd; cbn [negb andb].
    { intros [tr ?]%IH. exists tr. eapply served_skip; eauto. }
    case_bool_decide as Hin; [|intros [tr ?]%IH; exists tr; eapply served_skip; eauto].
    unfold M_bind. destruct (run _ _ c) as [[[] c1]|] eqn:Hrun; [|discriminate].
    intros [tr ?]%IH. eexists. by eapply served_call.
  - intros [= <-]. exists []. by constructor.
Qed.

Lemma served_nodup i fds c tr c' :
  served i fds c tr c' -> NoDup tr.*2 /\ (forall fd, fd ∈ tr.*2 -> fd ∈ fds).
Proof.
  induction 1 as [| |i fds c ent c1 tr c' Hi Hd Hin Hrun Hs [IHn IHi]]; [|done|].
  { split; [constructor|]. intros fd Hfd. by apply not_elem_of_nil in Hfd. }
  assert (Hsub : forall fd, fd ∈ tr.*2 -> fd ∈ fds /\ fd <> se_fd ent).
  { intros fd Hfd%IHi. unfold fd_clr in Hfd. apply list_elem_of_filter in Hfd. tauto. }
  rewrite fmap_cons. split.
  - constructor; [|done]. cbn. intros Hbad%Hsub. tauto.
  - intros fd [->|?]%elem_of_cons; [done|]. by apply Hsub.
Qed.

(** From the states of an invariant [I], callbacks keep the entries at their
    positions: they append entries and may mark them dirty. *)
Definition keeps_entries (I : client -> Prop) : Prop :=
  forall cb fd c c', I c -> run cb fd c = Ok (tt, c') ->
  I c' /\
  forall j e, cl_sched c !! j = Some e ->
  exists e', cl_sched c' !! j = Some e' /\ se_fd e' = se_fd e /\
             (se_dirty e = true -> se_dirty e' = true).

Lemma served_keeps I i fds c tr c' :
  keeps_entries I -> I c -> served i fds c tr c' ->
  forall j e, cl_sched c !! j = Some e ->
  exists e', cl_sched c' !! j = Some e' /\ se_fd e' = se_fd e /\
             (se_dirty e = true -> se_dirty e' = true).
Proof.
  intros Hk HI Hsv. revert HI.
  induction Hsv as [| |i fds c ent c1 tr c' Hi Hd Hin Hrun Hs IH]; intros HI; [eauto|eauto|].
  intros j e Hj. destruct (Hk _ _ _ _ HI Hrun) as [HI1 Hk1].
  destruct (Hk1 _ _ Hj) as (e1 & Hj1 & Hfd1 & Hd1).
  destruct (IH HI1 _ _ Hj1) as (e2 & Hj2 & Hfd2 & Hd2). exists e2. rewrite Hfd2. auto.
Qed.

Lemma served_complete I i fds c tr c' :
  keeps_entries I -> I c -> served i fds c tr c' ->
  forall j e e', (i <= j)%nat -> cl_sched c !! j = Some e -> se_fd e ∈ fds ->
  cl_sched c' !! j = Some e' -> se_dirty e' = false -> se_fd e ∈ tr.*2.
Proof.
  intros Hk HI Hsv. revert HI.
  induction Hsv as [i fds c Hi|i fds c ent tr c' Hi Hskip Hs IH
                   |i fds c ent c1 tr c' Hi Hd Hin Hrun Hs IH];
    intros HI j e e' Hij Hj Hfd Hj' Hd'.
  - apply lookup_lt_Some in Hj. apply lookup_ge_None in Hi. lia.
  - destruct (decide (i = j)) as [->|Hne]; [|apply (IH HI j e e'); [lia|done..]].
    rewrite Hi in Hj. injection Hj as ->. destruct Hskip as [Hdt|]; [|done].
    destruct (served_keeps _ _ _ _ _ _ Hk HI Hs _ _ Hi) as (e2 & He2 & _ & Hdd).
    rewrite Hj' in He2. injection He2 as ->. rewrite Hdd in Hd'; done.
  - rewrite fmap_cons. cbn. apply elem_of_cons.
    destruct (decide (se_fd e = se_fd ent)) as [|Hne]; [by left|right].
    assert (i <> j) by (intros ->; congruence).
    destruct (Hk _ _ _ _ HI Hrun) as [HI1 Hk1].
    destruct (Hk1 _ _ Hj) as (e1 & Hj1 & Hfd1 & _). rewrite <- Hfd1.
    apply (IH HI1 j e1 e'); [lia|done| |done..]. rewrite Hfd1. by apply list_elem_of_filter.
Qed.

(** One step of the walk, as an equation. *)
Lemma sched_dispatch_S n i fds c :
  sched_dispatch run (S n) i fds c =
  match cl_sched c !! i with
  | None => Ok (tt, c)
  | Some ent =>
      if negb (se_dirty ent) && bool_decide (se_fd ent ∈ fds) then
        match run (se_callback ent) (se_fd ent) c with
        | Ok (_, c1) => sched_dispatch run n (S i) (fd_clr (se_fd ent) fds) c1
        | Fault f => Fault f
        end
      else sched_dispatch run n (S i) fds c
  end.
Proof.
  cbn [sched_dispatch]. unfold mbind, M_bind, gets.
  destruct (cl_sched c !! i); [|done]. by destruct (negb _ && _).
Qed.

(** From the states of [I], callbacks return or fault for a reason of their own. *)
Definition never_stuck (I : client -> Prop) : Prop :=
  forall cb fd c, I c ->
  match run cb fd c with Ok (_, c') => I c' | Fault f => f <> OutOfFuel end.

(** The walk ends: each call takes a descriptor out of the ready set, and
    between two calls the position moves towards the end of the list. *)
Lemma dispatch_terminates (I : client -> Prop) i fds c :
  never_stuck I -> I c ->
  exists fuel, forall fuel', (fuel <= fuel')%nat ->
    sched_dispatch run fuel' i fds c = sched_dispatch run fuel i fds c /\
    sched_dispatch run fuel i fds c <> Fault OutOfFuel.
Proof.
  intros Hrun HI. remember (length fds) as k eqn:Hk. remember (length (cl_sched c) - i)%nat as m eqn:Hm.
  assert (Hle : (length fds <= k)%nat) by lia. assert (Hlm : (length (cl_sched c) - i <= m)%nat) by lia.
  clear Hk Hm. revert m i fds c HI Hle Hlm.
  induction k as [k IHk] using lt_wf_ind. intros m. induction m as [m IHm] using lt_wf_ind.
  intros i fds c HI Hle Hlm.
  assert (Hfin : (exists n, forall n', (n <= n')%nat ->
      sched_dispatch run (S n') i fds c = sched_dispatch run (S n) i fds c /\
      sched_dispatch run (S n) i fds c <> Fault OutOfFuel) ->
    exists fuel, forall fuel', (fuel <= fuel')%nat ->
      sched_dispatch run fuel' i fds c = sched_dispatch run fuel i fds c /\
      sched_dispatch run fuel i fds c <> Fault OutOfFuel).
  { intros [n Hn]. exists (S n). intros [|n'] Hn'; [lia|]. apply Hn. lia. }
  apply Hfin. clear Hfin. setoid_rewrite sched_dispatch_S.
  destruct (cl_sched c !! i) as [ent|] eqn:Hi; [|by exists O].
  apply lookup_lt_Some in Hi.
  destruct (negb _ && _) eqn:Hb.
  - apply andb_true_iff in Hb as [_ Hin%bool_decide_eq_true].
    specialize (Hrun (se_callback ent) (se_fd ent) c HI).
    destruct (run _ _ c) as [[[] c1]|f]; [|exists O; intros; split; congruence].
    apply fd_clr_length in Hin.
    by apply (IHk (length (fd_clr (se_fd ent) fds)) ltac:(lia) (length (cl_sched c1) - S i)%nat).
  - apply (IHm (length (cl_sched c) - S i)%nat); [lia|done|lia..].
Qed.
End Dispatch.

Lemma dispatch_fair `{E : Env} (run : sched_cb -> Z -> M unit) (I : client -> Prop)
    (fuel : nat) (ready : list Z) (c c' : client) :
  keeps_entries run I -> I c -> sched_dispatch run fuel 0 ready c = Ok (tt, c') ->
  exists tr, served run 0 ready c tr c' /\ NoDup tr.*2 /\
    (forall fd, fd ∈ tr.*2 -> fd ∈ ready) /\
    (forall j e e', cl_sched c !! j = Some e -> se_fd e ∈ ready ->
       cl_sched c' !! j = Some e' -> se_dirty e' = false -> se_fd e ∈ tr.*2).
Proof.
  intros Hk HI Hd. apply dispatch_served in Hd as [tr Hs]. exists tr.
  destruct (served_nodup run _ _ _ _ _ Hs) as [Hn Hi]. split; [done|]. split; [done|].
  split; [done|]. intros j e e' Hj. eapply (served_complete run); eauto. lia.
Qed.

(** * Theorems *)

(** The first loop of a scheduler turn unlinks exactly the dirty entries,
    keeps the order of the others, selects on exactly their descriptors, and
    passes a bound above all of them. *)
Theorem sched_sweep_exact (l : list sched_entry) :
  Forall (fun fd => 0 <= fd < FD_SETSIZE) (live_fds l) ->
  exists readfds max_fd, sched_sweep l [] 0 = Ok (live l, readfds, max_fd) /\
    (forall fd, fd ∈ readfds <-> fd ∈ live_fds l) /\
    (forall fd, fd ∈ readfds -> fd < max_fd + 1).
Proof.
  intros Hl. destruct (sched_sweep_spec l [] 0 Hl) as (fds & m & Hs & Hin & _ & Hm).
  assert (Hiff : forall fd, fd ∈ fds <-> fd ∈ live_fds l).
  { intros fd. rewrite Hin. split; [|auto]. intros [?|Hbad]; [done|]. by apply not_elem_of_nil in Hbad. }
  exists fds, m. split; [done|]. split; [done|]. intros fd Hfd%Hiff%Hm. lia.
Qed.

Lemma sched_sweep_exact_witness :
  let l := [mk_sched_entry 4 cb_atlas_alarm_trigger true;
            mk_sched_entry 7 cb_atlas_alarm_trigger false;
            mk_sched_entry 5 cb_coap_client_sched_callback false] in
  exists readfds max_fd, sched_sweep l [] 0 = Ok (live l, readfds, max_fd) /\
    (forall fd, fd ∈ readfds <-> fd ∈ live_fds l) /\
    (forall fd, fd ∈ readfds -> fd < max_fd + 1).
Proof.
  intros l. apply (sched_sweep_exact l). unfold l, live_fds, live, FD_SETSIZE.
  repeat constructor; cbn; lia.
Defined.
