(* ===== verification/Alarm.v ===== *)
(** The alarms of alarm/atlas_alarm.c: timers by timerfd, each with a scheduler
    entry whose callback is [atlas_alarm_trigger]. *)
From S2P Require Import Prelude Defs State SimEnv Sched.

Definition ATLAS_1MS_TO_NS : Z := 1000000.
Definition ATLAS_1SEC_TO_MS : Z := 1000.

(** The timer programmed for [ms] milliseconds (a uint32_t). *)
Definition alarm_timerspec (ms : Z) (run_once : bool) : itimerspec :=
  let sec := ms / ATLAS_1SEC_TO_MS in
  let nsec := (ms mod ATLAS_1SEC_TO_MS) * ATLAS_1MS_TO_NS in
  mk_timerspec (if run_once then 0 else sec) (if run_once then 0 else nsec) sec nsec.

Definition has_alarm_id (id : Z) (a : alarm_entry) : bool := bool_decide (al_id a = id).

Section Alarm.
Context {E : Env}.

Definition atlas_alarm_set (ms : Z) (alarm_cb : State.alarm_cb) (run_once : bool) : M Z :=
  fd ← call timerfd_create;
  if decide (fd = -1) then mret (-1) else
  res ← call (timerfd_settime fd (alarm_timerspec ms run_once));
  if decide (res < 0) then _ ← call_ (close_fd fd); mret (-1) else
  (* Schedule alarm *)
  _ ← atlas_sched_add_entry fd (Some cb_atlas_alarm_trigger);
  _ ← modify (fun c => set_alarms (cl_alarms c ++ [mk_alarm_entry fd alarm_cb run_once]) c);
  mret fd.

Definition atlas_alarm_cancel (alarm_id : Z) : M unit :=
  l ← gets cl_alarms;
  match find_first (has_alarm_id alarm_id) l with
  | None => mret tt
  | Some p =>
      _ ← modify (set_alarms (remove_first (has_alarm_id alarm_id) l));
      _ ← atlas_sched_del_entry (al_id p);
      call_ (close_fd (al_id p))
  end.

(** [run cb id] is the call [p->callback(p->alarm_id)]. After it the program
    reads [p->run_once]: if the callback cancelled this very alarm, [p] has been
    freed. *)
Definition atlas_alarm_trigger (run : State.alarm_cb -> Z -> M unit) (fd : Z) : M unit :=
  l ← gets cl_alarms;
  match find_first (has_alarm_id fd) l with
  | None => mret tt
  | Some p =>
      _ ← call_ (timer_read fd);
      _ ← run (al_callback p) (al_id p);
      l ← gets cl_alarms;
      match find_first (has_alarm_id fd) l with
      | None => fail UseAfterFree
      | Some p => if al_run_once p then atlas_alarm_cancel (al_id p) else mret tt
      end
  end.
End Alarm.

(** * Invariant *)

Section AlarmFacts.
Context {E : Env} `{!EnvLaws E}.

(** Alarm ids are distinct open descriptors, each with a live scheduler entry
    that triggers it. *)
Definition alarm_inv (c : client) : Prop :=
  NoDup (al_id <$> cl_alarms c) /\
  forall a, a ∈ cl_alarms c ->
    0 <= al_id a /\ fds (cl_ext c) !! al_id a = Some FdTimer /\
    mk_sched_entry (al_id a) cb_atlas_alarm_trigger false ∈ live (cl_sched c).

Lemma alarm_set_cases ms cb once c :
  (exists x, atlas_alarm_set ms cb once c = Ok (-1, set_ext x c) /\ framed (cl_ext c) x) \/
  (exists fd x, 0 <= fd /\ fds (cl_ext c) !! fd = None /\
     fds x = <[fd := FdTimer]> (fds (cl_ext c)) /\ ctxs x = ctxs (cl_ext c) /\
     atlas_alarm_set ms cb once c =
     Ok (fd, set_alarms (cl_alarms c ++ [mk_alarm_entry fd cb once])
               (set_sched (sched_append fd (Some cb_atlas_alarm_trigger) (cl_sched c))
                  (set_ext x c)))).
Proof.
  unfold atlas_alarm_set, mbind, M_bind, call, call_, modify, atlas_sched_add_entry.
  pose proof (timerfd_create_law (cl_ext c)) as Hc.
  destruct (timerfd_create (cl_ext c)) as [fd x1]. unfold opens in Hc. cbn in Hc |- *.
  destruct Hc as [Hctx [[-> Hx]|(Hfd & Hnew & Hx)]].
  { left. exists x1. rewrite decide_True by done. by split. }
  rewrite decide_False by lia. cbn.
  pose proof (timerfd_settime_law fd (alarm_timerspec ms once) x1) as Hs.
  destruct (timerfd_settime fd (alarm_timerspec ms once) x1) as [r x2].
  destruct Hs as [Hs1 Hs2]. cbn in *.
  case_decide.
  - left. exists (close_fd fd x2). split; [done|]. destruct (close_fd_law fd x2) as [H1 H2].
    split; [|congruence]. rewrite H1, Hs1, Hx. by apply delete_insert_id.
  - right. exists fd, x2. rewrite Hs1, Hs2. auto.
Qed.

Lemma alarm_set_inv ms cb once c r c' :
  alarm_inv c -> atlas_alarm_set ms cb once c = Ok (r, c') -> alarm_inv c'.
Proof.
  intros [Hnd Ha]. destruct (alarm_set_cases ms cb once c)
    as [(x & -> & Hx & _)|(fd & x & Hfd & Hnew & Hx & _ & ->)]; intros [= <- <-].
  - split; [done|]. intros a Hin. destruct (Ha a Hin) as (? & ? & ?). cbn. by rewrite Hx.
  - split; cbn.
    + rewrite fmap_app. apply NoDup_app. split; [done|]. split; [|apply NoDup_singleton].
      intros id (a & -> & Hin)%list_elem_of_fmap Hbad%list_elem_of_singleton.
      cbn in Hbad. destruct (Ha a Hin) as (_ & ? & _). congruence.
    + rewrite sched_append_Some, live_app by done.
      intros a [Hin| ->%list_elem_of_singleton]%elem_of_app.
      * destruct (Ha a Hin) as (? & ? & ?). rewrite Hx.
        rewrite lookup_insert_ne by congruence. repeat split; [done|done|].
        apply elem_of_app. by left.
      * cbn. rewrite Hx, lookup_insert_eq. repeat split; [done|]. apply elem_of_app. right.
        apply list_elem_of_singleton. done.
Qed.

Lemma alarm_cancel_run id c :
  atlas_alarm_cancel id c =
  Ok (tt, if find_first (has_alarm_id id) (cl_alarms c)
          then set_ext (close_fd id (cl_ext c))
                 (set_sched (sched_mark id (cl_sched c))
                    (set_alarms (remove_first (has_alarm_id id) (cl_alarms c)) c))
          else c).
Proof.
  unfold atlas_alarm_cancel, mbind, M_bind, gets, modify, call_, atlas_sched_del_entry.
  destruct (find_first _ _) as [p|] eqn:Hf; [|done].
  apply find_first_Some in Hf as [_ Hid%bool_decide_eq_true]. cbn. by rewrite Hid.
Qed.

Lemma alarm_cancel_inv id c r c' :
  alarm_inv c -> atlas_alarm_cancel id c = Ok (r, c') -> alarm_inv c'.
Proof.
  intros [Hnd Ha]. rewrite alarm_cancel_run. intros [= <- <-].
  destruct (find_first _ _) as [p|]; [|done]. unfold has_alarm_id.
  rewrite remove_first_key by done. split; cbn.
  - eapply sublist_NoDup; [exact Hnd|]. apply fmap_sublist, sublist_filter.
  - intros a [Hne Hin]%list_elem_of_filter. destruct (Ha a Hin) as (? & ? & ?).
    rewrite (proj1 (close_fd_law _ _)), lookup_delete_ne by done.
    repeat split; [done..|]. by apply live_mark_other.
Qed.
End AlarmFacts.

(** ** Cancelling *)

Section CancelFacts.
Context {E : Env} `{!EnvLaws E}.

(** After a mark, the first entry of the descriptor, if any, is dirty. *)
Lemma sched_mark_first fd l :
  fd ∈ se_fd <$> l ->
  exists l1 e l2, sched_mark fd l = l1 ++ e :: l2 /\
    Forall (fun x => se_fd x <> fd) l1 /\ se_fd e = fd /\ se_dirty e = true.
Proof.
  unfold sched_mark. induction l as [|x l IH]; cbn [update_first fmap list_fmap].
  { intros Hbad. by apply not_elem_of_nil in Hbad. }
  case_bool_decide as Hx.
  - intros _. exists [], (mark_dirty x), l. repeat split; auto.
  - intros [->|(l1 & e & l2 & -> & ? & ? & ?)%IH]%elem_of_cons; [done|].
    exists (x :: l1), e, l2. repeat split; auto.
Qed.

(** With no stale entry for the descriptor, a mark leaves no live one. *)
Lemma sched_mark_clears fd l :
  sched_wf l -> Forall (fun e => se_fd e = fd -> se_dirty e = false) l ->
  fd ∉ live_fds (sched_mark fd l).
Proof.
  intros [Hnd _] Hfresh. unfold sched_mark.
  induction Hfresh as [|x l Hx _ IH]; cbn [update_first]; [by apply not_elem_of_nil|].
  rewrite live_fds_cons in Hnd. case_bool_decide as Hfd; rewrite live_fds_cons; cbn [se_dirty mark_dirty].
  - rewrite (Hx Hfd) in Hnd. apply NoDup_cons in Hnd as [Hn _]. by subst fd.
  - destruct (se_dirty x); [by apply IH|]. apply NoDup_cons in Hnd as [_ Hnd].
    rewrite not_elem_of_cons. auto.
Qed.

Lemma alarm_live_elem id (c : client) a :
  alarm_inv c -> a ∈ cl_alarms c -> al_id a = id -> id ∈ live_fds (cl_sched c).
Proof.
  intros [_ Ha] Hin <-. destruct (Ha a Hin) as (_ & _ & Hl). unfold live_fds.
  apply list_elem_of_fmap. eexists. split; [|exact Hl]. done.
Qed.

Lemma live_fds_elem fd l : fd ∈ live_fds l -> fd ∈ se_fd <$> l.
Proof.
  unfold live_fds, live. intros (e & -> & [_ He]%list_elem_of_filter)%list_elem_of_fmap.
  by apply list_elem_of_fmap_2.
Qed.

Lemma has_alarm_find id l : id ∈ al_id <$> l -> is_Some (find_first (has_alarm_id id) l).
Proof.
  intros (a & -> & Ha)%list_elem_of_fmap.
  destruct (find_first _ l) eqn:Hf; [by eexists|].
  rewrite find_first_None, Forall_forall in Hf. specialize (Hf a Ha).
  by apply bool_decide_eq_false in Hf.
Qed.
End CancelFacts.

(** * Theorems *)

Inductive alarm_op : Set :=
  | OpSet (ms : Z) (cb : alarm_cb) (run_once : bool)
  | OpCancel (id : Z).

Fixpoint run_alarm_ops `{E : Env} (ops : list alarm_op) : M unit :=
  match ops with
  | [] => mret tt
  | OpSet ms cb once :: ops => _ ← atlas_alarm_set ms cb once; run_alarm_ops ops
  | OpCancel id :: ops => _ ← atlas_alarm_cancel id; run_alarm_ops ops
  end.

(** Any sequence of alarm settings and cancellations runs without a fault and
    keeps alarm ids distinct, open, and each backed by a live scheduler entry
    that triggers it. *)
Theorem alarm_ops_invariant `{E : Env} `{!EnvLaws E} (ops : list alarm_op) (c : client) :
  alarm_inv c -> exists c', run_alarm_ops ops c = Ok (tt, c') /\ alarm_inv c'.
Proof.
  revert c. induction ops as [|[ms cb once|id] ops IH]; intros c Hc; cbn [run_alarm_ops].
  - by exists c.
  - assert (exists r c1, atlas_alarm_set ms cb once c = Ok (r, c1)) as (r & c1 & Hs).
    { destruct (alarm_set_cases ms cb once c) as [(x & -> & _)|(fd & x & _ & _ & _ & _ & ->)]; eauto. }
    rewrite (M_bind_run _ _ _ _ _ Hs). apply IH. by eapply alarm_set_inv.
  - pose proof (alarm_cancel_run id c) as Hs. rewrite (M_bind_run _ _ _ _ _ Hs).
    apply IH. by eapply alarm_cancel_inv.
Qed.

Lemma alarm_set_spec `{E : Env} `{!EnvLaws E} (ms : Z) (cb : alarm_cb) (once : bool) (c : client) :
  exists r c', atlas_alarm_set ms cb once c = Ok (r, c') /\
    ((r = -1 /\ cl_alarms c' = cl_alarms c /\ cl_sched c' = cl_sched c) \/
     (0 <= r /\ fds (cl_ext c) !! r = None /\ fds (cl_ext c') !! r = Some FdTimer /\
      cl_alarms c' = cl_alarms c ++ [mk_alarm_entry r cb once] /\
      cl_sched c' = cl_sched c ++ [mk_sched_entry r cb_atlas_alarm_trigger false])).
Proof.
  destruct (alarm_set_cases ms cb once c) as [(x & -> & Hx)|(fd & x & Hfd & Hnew & Hx & _ & ->)].
  - eexists _, _. split; [done|]. by left.
  - eexists _, _. split; [done|]. right. cbn. rewrite sched_append_Some by done.
    repeat split; auto. by rewrite Hx, lookup_insert_eq.
Qed.

(** Setting an alarm either fails, returning -1 and leaving the alarms and
    the scheduler as they were, or returns a descriptor that was not open, which
    becomes the id of the last alarm and the descriptor of the last scheduler
    entry. *)
Theorem alarm_set_effect `{E : Env} `{!EnvLaws E} (ms : Z) (cb : alarm_cb) (once : bool) (c : client) :
  exists r c', atlas_alarm_set ms cb once c = Ok (r, c') /\
    ((r = -1 /\ cl_alarms c' = cl_alarms c /\ cl_sched c' = cl_sched c) \/
     (0 <= r /\ fds (cl_ext c) !! r = None /\ fds (cl_ext c') !! r = Some FdTimer /\
      cl_alarms c' = cl_alarms c ++ [mk_alarm_entry r cb once] /\
      cl_sched c' = cl_sched c ++ [mk_sched_entry r cb_atlas_alarm_trigger false])).
Proof. apply alarm_set_spec. Qed.

(** Cancelling a set alarm removes it, closes its descriptor, leaves every
    other alarm in place, and, provided the scheduler holds no stale entry for
    that descriptor, leaves no entry that would still be selected on it. *)
Theorem alarm_cancel_stops `{E : Env} `{!EnvLaws E} (id : Z) (c : client) :
  alarm_inv c -> sched_wf (cl_sched c) -> id ∈ al_id <$> cl_alarms c ->
  Forall (fun e => se_fd e = id -> se_dirty e = false) (cl_sched c) ->
  exists c', atlas_alarm_cancel id c = Ok (tt, c') /\
    id ∉ al_id <$> cl_alarms c' /\ fds (cl_ext c') !! id = None /\
    id ∉ live_fds (cl_sched c') /\
    (forall a, al_id a <> id -> a ∈ cl_alarms c' <-> a ∈ cl_alarms c).
Proof.
  intros [Hnd Ha] Hwf Hid Hfresh. rewrite alarm_cancel_run.
  destruct (has_alarm_find _ _ Hid) as [p ->]. eexists. split; [done|]. cbn.
  assert (Hrm : remove_first (has_alarm_id id) (cl_alarms c) =
                filter (fun a => al_id a <> id) (cl_alarms c)) by (by apply remove_first_key).
  rewrite Hrm. repeat split.
  - intros (a & -> & [Hbad _]%list_elem_of_filter)%list_elem_of_fmap. done.
  - by rewrite (proj1 (close_fd_law _ _)), lookup_delete_eq.
  - by apply sched_mark_clears.
  - intros [_ Hin]%list_elem_of_filter. done.
  - intros Hin. by apply list_elem_of_filter.
Qed.

(** The proviso is needed. When an alarm is cancelled and set again before the
    scheduler's next turn and the kernel reuses the descriptor, cancelling it a
    second time marks the stale entry again: the live entry stays in the
    scheduler although its descriptor is closed and no alarm owns it. *)
Theorem alarm_recancel_orphan `{E : Env} `{!EnvLaws E}
    (id ms : Z) (cb : alarm_cb) (once : bool) (c c1 c2 c3 : client) :
  alarm_inv c -> id ∈ al_id <$> cl_alarms c ->
  atlas_alarm_cancel id c = Ok (tt, c1) ->
  atlas_alarm_set ms cb once c1 = Ok (id, c2) ->
  atlas_alarm_cancel id c2 = Ok (tt, c3) ->
  id ∈ live_fds (cl_sched c3) /\ fds (cl_ext c3) !! id = None /\ id ∉ al_id <$> cl_alarms c3.
Proof.
  intros Hinv Hid H1 H2 H3.
  assert (Hinv2 : alarm_inv c2) by eauto using alarm_cancel_inv, alarm_set_inv.
  rewrite alarm_cancel_run in H1. destruct (has_alarm_find _ _ Hid) as [p Hp].
  rewrite Hp in H1. injection H1 as <-.
  apply list_elem_of_fmap in Hid as (a & Haid & Hain).
  destruct (sched_mark_first id (cl_sched c)) as (l1 & e & l2 & Hm & Hl1 & Hefd & Hed).
  { eapply live_fds_elem, alarm_live_elem; eauto. }
  destruct (alarm_set_spec ms cb once
              (set_ext (close_fd id (cl_ext c)) (set_sched (sched_mark id (cl_sched c))
                 (set_alarms (remove_first (has_alarm_id id) (cl_alarms c)) c))))
    as (r & c2' & Hs & Hcase). rewrite Hs in H2. injection H2 as -> ->.
  destruct Hcase as [(-> & _)|(Hpos & _ & _ & Hal & Hsc)].
  { destruct Hinv as [_ Ha]. destruct (Ha a Hain) as (? & _). lia. }
  cbn in Hal, Hsc. rewrite Hm in Hsc.
  rewrite alarm_cancel_run in H3.
  destruct (has_alarm_find id (cl_alarms c2)) as [p2 Hp2].
  { rewrite Hal, fmap_app. apply elem_of_app. right. by apply list_elem_of_singleton. }
  rewrite Hp2 in H3. injection H3 as <-. cbn. repeat split.
  - rewrite Hsc, <- app_assoc. cbn [app]. rewrite mark_stale by done.
    rewrite live_fds_app, live_fds_cons, Hed, live_fds_app.
    apply elem_of_app. right. apply elem_of_app. right. by apply list_elem_of_singleton.
  - by rewrite (proj1 (close_fd_law _ _)), lookup_delete_eq.
  - destruct Hinv2 as [Hnd2 _]. unfold has_alarm_id. rewrite remove_first_key by done.
    intros (a2 & -> & [Hbad _]%list_elem_of_filter)%list_elem_of_fmap. done.
Qed.

(** The timer is programmed for exactly the requested number of milliseconds
    with a nanosecond part below one second, fires periodically with that period
    unless it runs once, and is never disarmed (zero) for a positive delay. *)
Theorem alarm_timerspec_exact (ms : Z) (once : bool) :
  0 <= ms ->
  let t := alarm_timerspec ms once in
  it_value_sec t * 1000 + it_value_nsec t / 1000000 = ms /\
  0 <= it_value_nsec t < 1000000000 /\ it_value_nsec t mod 1000000 = 0 /\
  (0 < ms -> 0 < it_value_sec t \/ 0 < it_value_nsec t) /\
  (it_interval_sec t, it_interval_nsec t) =
    (if once then (0, 0) else (it_value_sec t, it_value_nsec t)).
Proof.
  intros Hms. unfold alarm_timerspec, ATLAS_1SEC_TO_MS, ATLAS_1MS_TO_NS. cbn.
  repeat split; try lia. by destruct once.
Qed.

(** ** Witnesses *)

Lemma boot_alarm_inv `{E : Env} `{!EnvLaws E} x : alarm_inv (boot x).
Proof. split; [constructor|]. intros a Ha. by apply not_elem_of_nil in Ha. Qed.

(** The state after one alarm has been set on a fresh process. *)
Definition one_alarm : @client sim_env :=
  exec (atlas_alarm_set 1500 cb_reg_alarm_callback false) (sim_boot sim0).

Lemma one_alarm_inv : alarm_inv one_alarm.
Proof.
  apply (alarm_set_inv 1500 cb_reg_alarm_callback false (sim_boot sim0) 3); [apply boot_alarm_inv|].
  eval_refl.
Qed.

Lemma alarm_ops_invariant_witness :
  exists c', run_alarm_ops [OpSet 1500 cb_reg_alarm_callback true; OpCancel 3;
                            OpSet 20 cb_policy_alarm_callback false] (sim_boot sim0) = Ok (tt, c') /\
             alarm_inv c'.
Proof. apply (alarm_ops_invariant _ (sim_boot sim0)), boot_alarm_inv. Defined.

Lemma alarm_cancel_stops_witness :
  exists c', atlas_alarm_cancel 3 one_alarm = Ok (tt, c') /\
    3 ∉ al_id <$> cl_alarms c' /\ fds (cl_ext c') !! 3 = None /\
    3 ∉ live_fds (cl_sched c') /\
    (forall a, al_id a <> 3 -> a ∈ cl_alarms c' <-> a ∈ cl_alarms one_alarm).
Proof.
  apply (alarm_cancel_stops 3 one_alarm).
  - apply one_alarm_inv.
  - split; eval_decide.
  - eval_decide.
  - repeat constructor.
Defined.

Lemma alarm_recancel_orphan_witness :
  let c1 := exec (atlas_alarm_cancel 3) one_alarm in
  let c2 := exec (atlas_alarm_set 40 cb_reg_alarm_callback false) c1 in
  let c3 := exec (atlas_alarm_cancel 3) c2 in
  3 ∈ live_fds (cl_sched c3) /\ fds (cl_ext c3) !! 3 = None /\ 3 ∉ al_id <$> cl_alarms c3.
Proof.
  intros c1 c2 c3.
  apply (alarm_recancel_orphan 3 40 cb_reg_alarm_callback false one_alarm c1 c2 c3).
  - apply one_alarm_inv.
  - eval_decide.
  - eval_refl.
  - eval_refl.
  - eval_refl.
Defined.

Lemma alarm_timerspec_exact_witness :
  let t := alarm_timerspec 20 true in
  it_value_sec t * 1000 + it_value_nsec t / 1000000 = 20 /\
  0 <= it_value_nsec t < 1000000000 /\ it_value_nsec t mod 1000000 = 0 /\
  (0 < 20 -> 0 < it_value_sec t \/ 0 < it_value_nsec t) /\
  (it_interval_sec t, it_interval_nsec t) = (0, 0).
Proof. apply (alarm_timerspec_exact 20 true). lia. Defined.
