(* ===== verification/Safety.v ===== *)
(** The invariant of the whole process and the judgement its operations are
    checked against.

    [client_inv] ties the tables of the modules together: alarm ids are distinct
    open timers; every pending CoAP request owns a live context and its timeout
    alarm; the alarm ids the register and telemetry modules keep name alarms of
    theirs; the data-plane socket is a socket. [grows K] is what one operation may
    do to the tables the callers hold pointers into: requests are only appended,
    scheduler entries only appended or marked, and the alarms that disappear
    satisfy [K]. [okm K m] says that [m] keeps the invariant, stays within
    [grows K], and never reads freed memory or runs out of fuel. It composes along
    the monad, so each module proves it of its own functions. *)
From S2P Require Import Prelude Defs CLib State SimEnv Config Command Sched Alarm.

(** * Faults that are neither a use of freed memory nor a lack of fuel *)

Definition benign (f : fault) : Prop := f <> UseAfterFree /\ f <> OutOfFuel.
Definition benign_res {A} (m : res A) : Prop := forall f, m = Fault f -> benign f.

Lemma benign_ok {A} (a : A) : benign_res (Ok a).
Proof. by intros f. Qed.

Lemma benign_fault {A} f : benign f -> benign_res (A := A) (Fault f).
Proof. by intros Hf g [= <-]. Qed.

Lemma benign_bind {A B} (m : res A) (k : A -> res B) :
  benign_res m -> (forall a, benign_res (k a)) -> benign_res (m ≫= k).
Proof. intros Hm Hk f. destruct m as [a|g]; cbn; [apply Hk|]. intros [= <-]. by apply Hm. Qed.

Lemma benign_mem_load buf off n : benign_res (mem_load buf off n).
Proof. unfold mem_load. intros f. repeat case_decide; by intros [= <-]. Qed.

Lemma benign_mem_store buf off bs : benign_res (mem_store buf off bs).
Proof. unfold mem_store. intros f. destruct bs; [done|]. case_decide; by intros [= <-]. Qed.

Lemma benign_fits n s : benign_res (fits n s).
Proof. unfold fits. intros f. case_decide; by intros [= <-]. Qed.

Lemma benign_batch_add `{HostEndian} b t n v : benign_res (atlas_cmd_batch_add b t n v).
Proof.
  unfold atlas_cmd_batch_add. destruct b as [b|]; [|apply benign_ok].
  apply benign_bind; [|intros ?; repeat (apply benign_bind; [apply benign_mem_store|intros ?]);
                       apply benign_ok].
  destruct v; [apply benign_mem_load|]. case_decide; [|apply benign_ok]. by apply benign_fault.
Qed.

(** A batch read from [len] bytes, then walked by a loop with a benign body. *)
Lemma benign_set_raw `{HostEndian} b bytes len :
  0 < len < 65536 -> len <= blen bytes ->
  benign_res (atlas_cmd_batch_set_raw (Some b) (Some bytes) len).
Proof.
  intros Hlen Hle f. destruct (set_raw_cases b bytes len Hlen Hle)
    as [(st & _ & ->)|(cs & _ & _ & _ & _ & ->)]; done.
Qed.

Lemma benign_fold_cmds {S} (body : S -> atlas_cmd -> res (S * bool)) s cs :
  (forall s c, benign_res (body s c)) -> benign_res (fold_cmds body s cs).
Proof.
  intros Hb. revert s. induction cs as [|[t v] cs IH]; intros s; cbn; [apply benign_ok|].
  apply benign_bind; [apply Hb|]. intros [s' []]; [apply benign_ok|apply IH].
Qed.

(** Alarms with distinct ids. *)
Lemma alarm_id_inj l a b :
  NoDup (al_id <$> l) -> a ∈ l -> b ∈ l -> al_id a = al_id b -> a = b.
Proof.
  intros Hnd Ha Hb Hid. destruct (list_elem_of_lookup_1 _ _ Ha) as [i Hi].
  destruct (list_elem_of_lookup_1 _ _ Hb) as [j Hj].
  assert (i = j) as ->; [|congruence].
  eapply (NoDup_lookup (al_id <$> l)); [done|..];
    rewrite list_lookup_fmap; [by rewrite Hi|by rewrite Hj; cbn; rewrite Hid].
Qed.

(** Which alarms the program sets to run once. *)
Definition runs_once (cb : alarm_cb) : bool :=
  match cb with
  | cb_keepalive_alarm_callback | cb_push_alert_alarm_cb | cb_threshold_alert_alarm_cb => false
  | _ => true
  end.

(** * The invariant *)

Section Inv.
Context {E : Env} `{!EnvLaws E}.

Definition alarms_ok (c : client) : Prop :=
  NoDup (al_id <$> cl_alarms c) /\
  forall a, a ∈ cl_alarms c ->
    0 <= al_id a /\ fds (cl_ext c) !! al_id a = Some FdTimer /\
    al_run_once a = runs_once (al_callback a).

Definition reqs_ok (c : client) : Prop :=
  NoDup (rq_alarm_id <$> cl_reqs c) /\ NoDup (rq_ctx <$> cl_reqs c) /\
  forall r, r ∈ cl_reqs c ->
    rq_ctx r ∈ ctxs (cl_ext c) /\
    mk_alarm_entry (rq_alarm_id r) cb_request_alarm_cb true ∈ cl_alarms c.

(** Until the first registration completes [ka_alarm_id] is 0 and no keep-alive
    exists; afterwards it is -1 or the id of the keep-alive alarm. *)
Definition ka_ok (c : client) : Prop :=
  ka_alarm_id (cl_reg c) < 0 \/
  mk_alarm_entry (ka_alarm_id (cl_reg c)) cb_keepalive_alarm_callback false ∈ cl_alarms c \/
  ((forall a, a ∈ cl_alarms c -> al_callback a <> cb_keepalive_alarm_callback) /\
   (forall r, r ∈ cl_reqs c -> rq_callback r <> cb_keepalive_callback)).

(** The alarm ids of the telemetry features, through the accessor [get]. *)
Definition handles_ok (get : telemetry -> Z) (cb : alarm_cb) (c : client) : Prop :=
  (forall f, f ∈ cl_features c -> 0 <= get f ->
     mk_alarm_entry (get f) cb false ∈ cl_alarms c) /\
  NoDup (filter (fun id => 0 <= id) (get <$> cl_features c)).

Definition dp_ok (c : client) : Prop :=
  connected_socket (cl_dp c) = -1 \/
  fds (cl_ext c) !! connected_socket (cl_dp c) = Some FdSocket.

Record client_inv (c : client) : Prop := {
  inv_alarms : alarms_ok c;
  inv_reqs : reqs_ok c;
  inv_ka : ka_ok c;
  inv_push : handles_ok tl_push_id cb_push_alert_alarm_cb c;
  inv_threshold : handles_ok tl_threshold_id cb_threshold_alert_alarm_cb c;
  inv_dp : dp_ok c;
}.

(** * What an operation may change *)

Definition sched_keeps (l l' : list sched_entry) : Prop :=
  forall j e, l !! j = Some e ->
  exists e', l' !! j = Some e' /\ se_fd e' = se_fd e /\ (se_dirty e = true -> se_dirty e' = true).

Definition reqs_grow (l l' : list coap_req) : Prop :=
  exists new, l' = l ++ new /\ Forall (fun r => rq_dirty r = false) new.

Definition alarms_kept (K : alarm_cb -> bool) (l l' : list alarm_entry) : Prop :=
  forall a, a ∈ l -> K (al_callback a) = false -> a ∈ l'.

Record grows (K : alarm_cb -> bool) (c c' : client) : Prop := {
  grows_sched : sched_keeps (cl_sched c) (cl_sched c');
  grows_reqs : reqs_grow (cl_reqs c) (cl_reqs c');
  grows_alarms : alarms_kept K (cl_alarms c) (cl_alarms c');
}.

Definition okm (K : alarm_cb -> bool) {A} (m : M A) : Prop :=
  forall c, client_inv c ->
  match m c with
  | Ok (_, c') => client_inv c' /\ grows K c c'
  | Fault f => benign f
  end.

(** * The relation composes *)

Lemma sched_keeps_refl l : sched_keeps l l.
Proof. intros j e Hj. eauto. Qed.

Lemma sched_keeps_trans l1 l2 l3 : sched_keeps l1 l2 -> sched_keeps l2 l3 -> sched_keeps l1 l3.
Proof.
  intros H12 H23 j e Hj. destruct (H12 j e Hj) as (e2 & Hj2 & Hf2 & Hd2).
  destruct (H23 j e2 Hj2) as (e3 & Hj3 & Hf3 & Hd3). exists e3. rewrite Hf3. auto.
Qed.

Lemma sched_keeps_append l new : sched_keeps l (l ++ new).
Proof. intros j e Hj. exists e. rewrite lookup_app_l; [auto|]. by eapply lookup_lt_Some. Qed.

Lemma sched_keeps_add fd cb l : sched_keeps l (sched_append fd cb l).
Proof.
  unfold sched_append. destruct cb; [|apply sched_keeps_refl].
  case_decide; [apply sched_keeps_refl|apply sched_keeps_append].
Qed.

Lemma sched_keeps_mark fd l : sched_keeps l (sched_mark fd l).
Proof.
  unfold sched_mark. induction l as [|x l IH]; intros j e Hj; cbn; [done|].
  case_bool_decide; destruct j as [|j]; cbn in Hj |- *; eauto.
  injection Hj as ->. eauto.
Qed.

Lemma reqs_grow_refl l : reqs_grow l l.
Proof. exists []. by rewrite app_nil_r. Qed.

Lemma reqs_grow_trans l1 l2 l3 : reqs_grow l1 l2 -> reqs_grow l2 l3 -> reqs_grow l1 l3.
Proof.
  intros (n1 & -> & H1) (n2 & -> & H2). exists (n1 ++ n2). rewrite app_assoc.
  split; [done|]. by apply Forall_app.
Qed.

Lemma alarms_kept_trans K l1 l2 l3 :
  alarms_kept K l1 l2 -> alarms_kept K l2 l3 -> alarms_kept K l1 l3.
Proof. unfold alarms_kept. auto. Qed.

Lemma grows_refl K c : grows K c c.
Proof. split; [apply sched_keeps_refl|apply reqs_grow_refl|]. by intros a. Qed.

Lemma grows_trans K c1 c2 c3 : grows K c1 c2 -> grows K c2 c3 -> grows K c1 c3.
Proof.
  intros [] []. split; [by eapply sched_keeps_trans|by eapply reqs_grow_trans|].
  by eapply alarms_kept_trans.
Qed.

Lemma grows_weaken (K K' : alarm_cb -> bool) c c' :
  (forall cb, K' cb = false -> K cb = false) -> grows K c c' -> grows K' c c'.
Proof. intros HK [? ? Ha]. split; [done..|]. intros a Hin Hk. apply Ha; auto. Qed.

(** * Rules of the judgement *)

Lemma okm_weaken (K K' : alarm_cb -> bool) {A} (m : M A) :
  (forall cb, K' cb = false -> K cb = false) -> okm K m -> okm K' m.
Proof.
  intros HK Hm c Hc. specialize (Hm c Hc). destruct (m c) as [[a c']|f]; [|done].
  destruct Hm. split; [done|]. by eapply grows_weaken.
Qed.

Lemma okm_bind K {A B} (m : M A) (k : A -> M B) :
  okm K m -> (forall a, okm K (k a)) -> okm K (m ≫= k).
Proof.
  intros Hm Hk c Hc. unfold mbind, M_bind. specialize (Hm c Hc).
  destruct (m c) as [[a c1]|f]; [|done]. destruct Hm as [Hc1 H1]. specialize (Hk a c1 Hc1).
  destruct (k a c1) as [[b c2]|f]; [|done]. destruct Hk as [Hc2 H2]. split; [done|].
  by eapply grows_trans.
Qed.

(** A change of the fields the invariant does not read. *)
Definition same_tables (c c' : client) : Prop :=
  cl_sched c' = cl_sched c /\ cl_alarms c' = cl_alarms c /\ cl_reqs c' = cl_reqs c /\
  ka_alarm_id (cl_reg c') = ka_alarm_id (cl_reg c) /\ cl_features c' = cl_features c /\
  connected_socket (cl_dp c') = connected_socket (cl_dp c) /\ framed (cl_ext c) (cl_ext c').

(** The invariant does not read the scheduler's list. *)
Lemma inv_view c c' : same_tables (set_sched (cl_sched c') c) c' -> client_inv c -> client_inv c'.
Proof.
  intros (_ & Ha & Hr & Hk & Hf & Hd & Hfds & Hctx) [I1 I2 I3 I4 I5 I6]. cbn in *.
  unfold alarms_ok, reqs_ok, ka_ok, handles_ok, dp_ok in *.
  split; unfold alarms_ok, reqs_ok, ka_ok, handles_ok, dp_ok;
    by rewrite ?Ha, ?Hr, ?Hk, ?Hf, ?Hd, ?Hfds, ?Hctx.
Qed.

Lemma same_tables_inv c c' : same_tables c c' -> client_inv c -> client_inv c'.
Proof. intros (_ & Hs). apply inv_view. by split. Qed.

Lemma same_tables_grows K c c' : same_tables c c' -> grows K c c'.
Proof.
  intros (Hs & Ha & Hr & _). split; rewrite ?Hs, ?Ha, ?Hr;
    [apply sched_keeps_refl|apply reqs_grow_refl|]. by intros a.
Qed.

Lemma same_tables_refl c : same_tables c c.
Proof. repeat split. Qed.

Lemma same_tables_trans c1 c2 c3 : same_tables c1 c2 -> same_tables c2 c3 -> same_tables c1 c3.
Proof. unfold same_tables, framed. intros. destruct_and!. repeat split; congruence. Qed.

Lemma framed_refl x : framed x x.
Proof. by split. Qed.

(** [quiet m]: [m] leaves the tables alone. *)
Definition quiet {A} (m : M A) : Prop :=
  forall c, match m c with Ok (_, c') => same_tables c c' | Fault f => benign f end.

Lemma quiet_bind {A B} (m : M A) (k : A -> M B) :
  quiet m -> (forall a, quiet (k a)) -> quiet (m ≫= k).
Proof.
  intros Hm Hk c. unfold mbind, M_bind. specialize (Hm c).
  destruct (m c) as [[a c1]|f]; [|done]. specialize (Hk a c1).
  destruct (k a c1) as [[b c2]|f]; [|done]. by eapply same_tables_trans.
Qed.

Lemma quiet_ret {A} (a : A) : quiet (mret a).
Proof. intros c. apply same_tables_refl. Qed.

Lemma quiet_gets {A} (f : client -> A) : quiet (gets f).
Proof. intros c. apply same_tables_refl. Qed.

Lemma quiet_fail {A} f : benign f -> quiet (A := A) (fail f).
Proof. intros Hf c. done. Qed.

Lemma quiet_lift {A} (m : res A) : benign_res m -> quiet (lift m).
Proof. intros Hm c. unfold lift. destruct m; [apply same_tables_refl|by apply Hm]. Qed.

Lemma quiet_modify f : (forall c, same_tables c (f c)) -> quiet (modify f).
Proof. intros Hf c. apply Hf. Qed.

Lemma quiet_call {A} (f : ext -> A * ext) : (forall x, framed x (f x).2) -> quiet (call f).
Proof.
  intros Hf c. unfold call. specialize (Hf (cl_ext c)). destruct (f (cl_ext c)) as [a x].
  repeat split; apply Hf.
Qed.

Lemma quiet_call_ (f : ext -> ext) : (forall x, framed x (f x)) -> quiet (call_ f).
Proof. intros Hf. apply quiet_modify. intros c. repeat split; apply Hf. Qed.

Lemma quiet_emit e : quiet (emit e).
Proof. apply quiet_modify. intros c. repeat split. Qed.

Lemma okm_quiet K {A} (m : M A) : quiet m -> okm K m.
Proof.
  intros Hm c Hc. specialize (Hm c). destruct (m c) as [[a c']|f]; [|done].
  split; [by eapply same_tables_inv|by apply same_tables_grows].
Qed.

(** [okp P K m]: [okm] from the states that satisfy [P]. *)
Definition okp (P : client -> Prop) (K : alarm_cb -> bool) {A} (m : M A) : Prop :=
  forall c, client_inv c -> P c ->
  match m c with
  | Ok (_, c') => client_inv c' /\ grows K c c'
  | Fault f => benign f
  end.

Definition table_pred (P : client -> Prop) : Prop :=
  forall c c', same_tables c c' -> P c -> P c'.

Lemma okp_bind_quiet P K {A B} (m : M A) (k : A -> M B) :
  table_pred P -> quiet m -> (forall a, okp P K (k a)) -> okp P K (m ≫= k).
Proof.
  intros HP Hm Hk c Hc Hp. unfold mbind, M_bind. specialize (Hm c).
  destruct (m c) as [[a c1]|f]; [|done].
  specialize (Hk a c1 ltac:(by eapply same_tables_inv) ltac:(by eapply HP)).
  destruct (k a c1) as [[b c2]|f]; [|done]. destruct Hk as [Hc2 H2]. split; [done|].
  eapply grows_trans; [by apply same_tables_grows|done].
Qed.

Lemma okm_okp P K {A} (m : M A) : okm K m -> okp P K m.
Proof. intros Hm c Hc _. by apply Hm. Qed.

(** * The scheduler's and the alarms' operations *)

Definition no_cancel : alarm_cb -> bool := fun _ => false.

Lemma inv_set_sched l c : client_inv c -> client_inv (set_sched l c).
Proof. intros []. by split. Qed.

Lemma okm_sched_add fd cb : okm no_cancel (atlas_sched_add_entry fd cb).
Proof.
  intros c Hc. cbn. split; [by apply inv_set_sched|].
  split; [apply sched_keeps_add|apply reqs_grow_refl|]. by intros a.
Qed.

Lemma okm_sched_del fd : okm no_cancel (atlas_sched_del_entry fd).
Proof.
  intros c Hc. cbn. split; [by apply inv_set_sched|].
  split; [apply sched_keeps_mark|apply reqs_grow_refl|]. by intros a.
Qed.

Lemma inv_add_alarm_any c x fd cb once :
  client_inv c -> 0 <= fd -> fds (cl_ext c) !! fd = None ->
  fds x = <[fd := FdTimer]> (fds (cl_ext c)) -> ctxs (cl_ext c) ⊆ ctxs x ->
  ka_alarm_id (cl_reg c) < 0 \/ cb <> cb_keepalive_alarm_callback -> once = runs_once cb ->
  client_inv (set_alarms (cl_alarms c ++ [mk_alarm_entry fd cb once]) (set_ext x c)).
Proof.
  intros [[And Aa] [Rn [Rc Ra]] Ik [P1 P2] [T1 T2] Id] Hfd Hnew Hx Hctx Hcb Honce.
  split; unfold alarms_ok, reqs_ok, ka_ok, handles_ok, dp_ok; cbn; rewrite ?Hx.
  - split.
    + rewrite fmap_app. apply NoDup_app. split; [done|]. split; [|apply NoDup_singleton].
      intros id (a & -> & Hin)%list_elem_of_fmap Hbad%list_elem_of_singleton.
      cbn in Hbad. destruct (Aa a Hin) as (_ & ? & _). congruence.
    + intros a [Hin| ->%list_elem_of_singleton]%elem_of_app.
      * destruct (Aa a Hin) as (? & ? & ?). by rewrite lookup_insert_ne by congruence.
      * cbn. by rewrite lookup_insert_eq.
  - do 2 (split; [done|]). intros r Hr. destruct (Ra r Hr). split; [by apply Hctx|].
    apply elem_of_app. by left.
  - destruct Hcb as [?|Hcb]; [by left|].
    destruct Ik as [?|[?|[Ka Kr]]]; [by left|right; left; apply elem_of_app; by left|].
    right. right. split; [|done].
    intros a [Hin| ->%list_elem_of_singleton]%elem_of_app; [by apply Ka|done].
  - split; [|done]. intros f Hf Hp. apply elem_of_app. left. auto.
  - split; [|done]. intros f Hf Hp. apply elem_of_app. left. auto.
  - destruct Id as [?|Hs]; [by left|right]. by rewrite lookup_insert_ne by congruence.
Qed.

Lemma inv_add_alarm c x fd cb once :
  client_inv c -> 0 <= fd -> fds (cl_ext c) !! fd = None ->
  fds x = <[fd := FdTimer]> (fds (cl_ext c)) -> ctxs (cl_ext c) ⊆ ctxs x ->
  cb <> cb_keepalive_alarm_callback -> once = runs_once cb ->
  client_inv (set_alarms (cl_alarms c ++ [mk_alarm_entry fd cb once]) (set_ext x c)).
Proof. intros. apply inv_add_alarm_any; auto. Qed.

Lemma okm_alarm_set ms cb once :
  cb <> cb_keepalive_alarm_callback -> once = runs_once cb -> okm no_cancel (atlas_alarm_set ms cb once).
Proof.
  intros Hcb Honce c Hc. destruct (alarm_set_cases ms cb once c)
    as [(x & -> & Hx)|(fd & x & Hfd & Hnew & Hx & Hctx & ->)].
  - assert (same_tables c (set_ext x c)) by (repeat split; apply Hx).
    split; [by eapply same_tables_inv|by apply same_tables_grows].
  - split.
    + eapply (inv_set_sched _ (set_alarms _ (set_ext x c))), inv_add_alarm; eauto. by rewrite Hctx.
    + split; cbn; [apply sched_keeps_add|apply reqs_grow_refl|].
      intros a Ha _. apply elem_of_app. by left.
Qed.
End Inv.

#[global] Arguments okm : simpl never.
#[global] Arguments quiet : simpl never.
#[global] Arguments okp : simpl never.

(** * Automation: walk the monadic structure, use the modules' own lemmas at the
    calls. *)

Create HintDb okm.
#[export] Hint Resolve okm_sched_add okm_sched_del okm_quiet : okm.
#[export] Hint Resolve quiet_ret quiet_gets quiet_emit : okm.
#[export] Hint Extern 2 (okm _ (atlas_alarm_set _ _ _)) => apply okm_alarm_set; [discriminate|reflexivity] : okm.
#[export] Hint Resolve benign_ok benign_mem_load benign_mem_store benign_fits benign_batch_add : okm.
#[export] Hint Resolve timerfd_settime_law timer_read_law select_law sock_read_law sock_write_law
  sock_bind_law sock_listen_law ioctl_ip_law file_read_law sysinfo_law uname_law getaddrinfo_law
  file_create_law file_write_law file_remove_law uuid_generate_law RAND_bytes_law
  coap_new_endpoint_law coap_free_endpoint_law
  coap_new_client_session_law coap_new_pdu_law coap_add_token_law coap_session_release_law
  coap_io_process_law coap_resource_init_law coap_delete_resource_law coap_server_process_law : okm.

Ltac quiet_step :=
  lazymatch goal with
  | |- quiet (mbind _ _) => apply quiet_bind; [|intros ?]
  | |- quiet (match ?x with _ => _ end) => destruct x
  | |- quiet (modify _) => apply quiet_modify; intros ?; repeat split
  | |- quiet (call _) => apply quiet_call; intros ?
  | |- quiet (call_ _) => apply quiet_call_; intros ?
  | |- quiet (fail _) => apply quiet_fail; by split
  | |- quiet (lift _) => apply quiet_lift
  | |- benign_res (mbind _ _) => apply benign_bind; [|intros ?]
  | |- benign_res (match ?x with _ => _ end) => destruct x
  | |- benign_res (Fault _) => apply benign_fault; by split
  | |- _ => solve [auto with okm]
  end.
Ltac quiet_tac := repeat quiet_step.

Ltac okm_step :=
  match goal with
  | |- okm _ (mbind _ _) => apply okm_bind; [|intros ?]
  | |- okm _ (match ?x with _ => _ end) => destruct x
  | |- okm _ _ => solve [eauto 3 with okm]
  | |- okm _ _ => apply okm_quiet; solve [quiet_tac]
  end.
Ltac okm_tac := repeat okm_step.

(** ** The configuration *)

Section ConfigSafety.
Context {E : Env} `{!EnvLaws E}.

Lemma quiet_get_uri path : quiet (atlas_cfg_coap_get_uri path).
Proof. unfold atlas_cfg_coap_get_uri. quiet_tac. Qed.

Lemma quiet_get_local_ipPort : quiet atlas_cfg_get_local_ipPort.
Proof.
  unfold atlas_cfg_get_local_ipPort, atlas_cfg_get_local_ip, atlas_cfg_get_local_port. quiet_tac.
Qed.
End ConfigSafety.

#[export] Hint Resolve quiet_get_uri quiet_get_local_ipPort : okm.

(** * Frames: what an operation leaves unchanged *)

Section Frame.
Context {E : Env} `{!EnvLaws E}.

(** [preserves get m]: [m] does not change the field [get]. *)
Definition preserves {A B} (get : client -> B) (m : M A) : Prop :=
  forall c a c', m c = Ok (a, c') -> get c' = get c.

Context {X : Type} (get : client -> X).

Lemma preserves_bind {A B} (m : M A) (k : A -> M B) :
  preserves get m -> (forall a, preserves get (k a)) -> preserves get (m ≫= k).
Proof.
  intros Hm Hk c b c' Hrun. apply M_bind_inv in Hrun as (a & c1 & H1 & H2).
  by rewrite (Hk a c1 b c' H2), (Hm c a c1 H1).
Qed.

Lemma preserves_ret {A} (a : A) : preserves get (mret a).
Proof. by intros c a' c' [= _ <-]. Qed.

Lemma preserves_gets {A} (f : client -> A) : preserves get (gets f).
Proof. by intros c a' c' [= _ <-]. Qed.

Lemma preserves_fail {A} f : preserves (A := A) get (fail f).
Proof. by intros c a' c'. Qed.

Lemma preserves_lift {A} (m : res A) : preserves get (lift m).
Proof. intros c a c'. unfold lift. destruct m; [|done]. by intros [= _ <-]. Qed.

Lemma preserves_modify f : (forall c, get (f c) = get c) -> preserves get (modify f).
Proof. by intros Hf c a c' [= _ <-]. Qed.

Lemma preserves_call {A} (f : ext -> A * ext) :
  (forall c x, get (set_ext x c) = get c) -> preserves get (call f).
Proof. intros Hf c a c'. unfold call. destruct (f _). by intros [= _ <-]. Qed.

Lemma preserves_alarm_set ms cb once :
  (forall c a s x, get (set_alarms a (set_sched s (set_ext x c))) = get c) ->
  (forall c x, get (set_ext x c) = get c) -> preserves get (atlas_alarm_set ms cb once).
Proof.
  intros H1 H2 c a c' Hrun. destruct (alarm_set_cases ms cb once c)
    as [(x & Hr & _)|(fd & x & _ & _ & _ & _ & Hr)]; rewrite Hr in Hrun; by injection Hrun as _ <-.
Qed.
End Frame.

#[global] Arguments preserves : simpl never.

Create HintDb frame.

Ltac preserves_step :=
  lazymatch goal with
  | |- preserves _ (mbind _ _) => apply preserves_bind; [|intros ?]
  | |- preserves _ (match ?x with _ => _ end) => destruct x
  | |- preserves _ (mret _) => apply preserves_ret
  | |- preserves _ (gets _) => apply preserves_gets
  | |- preserves _ (fail _) => apply preserves_fail
  | |- preserves _ (lift _) => apply preserves_lift
  | |- preserves _ (modify _) => apply preserves_modify; reflexivity
  | |- preserves _ (call _) => apply preserves_call; reflexivity
  | |- preserves _ (atlas_alarm_set _ _ _) => apply preserves_alarm_set; reflexivity
  | |- _ => solve [auto with frame]
  end.
Ltac preserves_tac := repeat preserves_step.
