(* ===== verification/CoapClient.v ===== *)
(** The CoAP client of coap/atlas_coap_client.c: one libcoap context per request,
    a list of pending requests, a timeout alarm and a scheduler entry for each,
    and the handlers that complete a request by a response or by its timeout. *)
From S2P Require Import Prelude Defs CLib State SimEnv Sched Alarm Safety.

(** COAP_RESPONSE_CLASS of libcoap: the three high bits of a response code. *)
Definition COAP_RESPONSE_CLASS (code : Z) : Z := Z.land (Z.shiftr code 5) 255.

Definition rq_has_fd (fd : Z) (r : coap_req) : bool := bool_decide (rq_coap_fd r = fd).
Definition rq_has_alarm (id : Z) (r : coap_req) : bool := bool_decide (rq_alarm_id r = id).
Definition rq_has_session (ctx session : Z) (r : coap_req) : bool :=
  bool_decide (rq_ctx r = ctx /\ rq_session r = session).
Definition rq_mark (r : coap_req) : coap_req :=
  mk_coap_req (rq_coap_fd r) (rq_alarm_id r) (rq_ctx r) (rq_session r) (rq_uri r)
    (rq_token r) (rq_callback r) true.

Section CoapClient.
Context {E : Env} `{HostEndian}.

Definition get_new_token : M Z :=
  t ← gets cl_token;
  _ ← modify (set_token (u32 (t + 1)));
  mret t.

(** The loop of [resolve_address]: the length of the first IPv4 or IPv6 address. *)
Fixpoint first_inet (ainfo : list (bool * Z)) : option Z :=
  match ainfo with
  | [] => None
  | (inet, ai_addrlen) :: ainfo => if (inet : bool) then Some ai_addrlen else first_inet ainfo
  end.

(** [resolve_address]: the length of the address found, -1 when the name does
    not resolve; [len] stays unassigned when no address is IPv4 or IPv6. *)
Definition resolve_address (hostname : list byte) : M Z :=
  r ← call (getaddrinfo hostname);
  match r with
  | None => mret (-1)
  | Some res =>
      match first_inet res with
      | Some len => mret len
      | None => fail Uninitialised
      end
  end.

Definition get_session (ctx : Z) (dtls : bool) : M (option Z) :=
  call (coap_new_client_session ctx dtls).

(** [validate_token]: the token of the response is the request's four bytes. *)
Definition validate_token (received : coap_pdu) (token : Z) : bool :=
  bool_decide (blen (pdu_token received) = 4) && bool_decide (pdu_token received = st32 token).

Definition add_request (ctx session : Z) (uri : list byte) (token timeout : Z)
    (callback : coap_cb) : M atlas_status :=
  x ← gets cl_ext;
  (* Get CoAP request file descriptor *)
  let fd := coap_context_get_coap_fd ctx x in
  if decide (fd = -1) then mret ATLAS_GENERAL_ERR else
  (* Set alarm for the CoAP request *)
  alarm_id ← atlas_alarm_set timeout cb_request_alarm_cb true;
  if decide (alarm_id < 0) then mret ATLAS_GENERAL_ERR else
  (* Schedule CoAP response for this request *)
  _ ← atlas_sched_add_entry fd (Some cb_coap_client_sched_callback);
  _ ← modify (fun c => set_reqs
        (cl_reqs c ++ [mk_coap_req fd alarm_id ctx session uri token callback false]) c);
  mret ATLAS_OK.

(** The label ERR of [atlas_coap_client_request]. *)
Definition request_err (session : option Z) (ctx : Z) (status : atlas_status) : M atlas_status :=
  _ ← match session with Some s => call_ (coap_session_release s) | None => mret tt end;
  _ ← call_ (coap_free_context ctx);
  mret status.

Definition atlas_coap_client_request (uri : option (list byte)) (method : atlas_coap_method)
    (req_payload : option (list byte)) (timeout : Z) (cb : option coap_cb) : M atlas_status :=
  match uri, cb with
  | None, _ => mret ATLAS_COAP_INVALID_URI
  | _, None => mret ATLAS_INVALID_CALLBACK
  | Some uri, Some cb =>
      let timeout := u16 timeout in
      match coap_split_uri uri with
      | None => mret ATLAS_GENERAL_ERR
      | Some coap_uri =>
          (* Resolve CoAP hostname *)
          res ← resolve_address (cu_host coap_uri);
          if decide (res < 0) then mret ATLAS_GENERAL_ERR else
          (* Context init *)
          octx ← call coap_new_context;
          match octx with
          | None => mret ATLAS_GENERAL_ERR
          | Some ctx =>
              (* Get session *)
              osession ← get_session ctx (cu_coaps coap_uri);
              match osession with
              | None => request_err None ctx ATLAS_GENERAL_ERR
              | Some session =>
                  (* Create request PDU *)
                  pdu ← call (coap_new_pdu session);
                  if negb pdu then request_err (Some session) ctx ATLAS_GENERAL_ERR else
                  (* Add token *)
                  token ← get_new_token;
                  added ← call (coap_add_token token);
                  if negb added then request_err (Some session) ctx ATLAS_GENERAL_ERR else
                  (* Chain request *)
                  status ← add_request ctx session uri token timeout cb;
                  if decide (status <> ATLAS_OK) then request_err (Some session) ctx status else
                  (* Send request: method, token, URI options, payload *)
                  _ ← emit (EvCoapSend session method token uri (default [] req_payload));
                  mret ATLAS_OK
              end
          end
      end
  end.

(** [strncpy] into the zeroed statics of ATLAS_COAP_CLIENT_DTLS_*_LEN + 1 bytes. *)
Definition atlas_coap_client_set_dtls_info (identity psk : option (list byte)) : M atlas_status :=
  match identity, psk with
  | None, _ => mret ATLAS_INVALID_DTLS_IDENTITY
  | _, None => mret ATLAS_INVALID_DTLS_PSK
  | Some identity, Some psk =>
      _ ← modify (set_dtls (mk_dtls (take 64 identity) (take 64 psk)));
      mret ATLAS_OK
  end.

(** [run cb uri resp payload] is the call of the higher layer's callback. *)
Context (run : coap_cb -> list byte -> atlas_coap_response -> option (list byte) -> M unit).

Definition message_handler (ctx : Z) (received : coap_pdu) : M unit :=
  l ← gets cl_reqs;
  (* Find request entry *)
  match find_first (rq_has_session ctx (pdu_session received)) l with
  | None => mret tt
  | Some ent =>
      (* Validate token *)
      if negb (validate_token received (rq_token ent)) then
        when (bool_decide (pdu_type received = MSG_CON \/ pdu_type received = MSG_NON) &&
              negb (pdu_sent received))
          (emit (EvCoapRst (pdu_session received)))
      else
        (* If token is valid, then the request entry can be deleted *)
        _ ← modify (set_reqs (update_first (rq_has_session ctx (pdu_session received)) rq_mark l));
        if decide (pdu_type received = MSG_RST) then
          run (rq_callback ent) (rq_uri ent) ATLAS_COAP_RESP_RESET None
        else if decide (COAP_RESPONSE_CLASS (pdu_code received) = 2) then
          run (rq_callback ent) (rq_uri ent) ATLAS_COAP_RESP_OK (pdu_data received)
        else if decide (COAP_RESPONSE_CLASS (pdu_code received) = 4) then
          run (rq_callback ent) (rq_uri ent) ATLAS_COAP_RESP_NOT_FOUND None
        else
          run (rq_callback ent) (rq_uri ent) ATLAS_COAP_RESP_UNKNOWN None
  end.

(** libcoap delivers the received PDUs to the response handler one by one. *)
Fixpoint handle_messages (ctx : Z) (pdus : list coap_pdu) : M unit :=
  match pdus with
  | [] => mret tt
  | pdu :: pdus => _ ← message_handler ctx pdu; handle_messages ctx pdus
  end.

Definition coap_client_sched_callback (fd : Z) : M unit :=
  l ← gets cl_reqs;
  match find_first (rq_has_fd fd) l with
  | None => mret tt
  | Some p =>
      pdus ← call (coap_io_process (rq_ctx p));
      _ ← handle_messages (rq_ctx p) pdus;
      (* If entry is dirty, then it can be deleted *)
      l ← gets cl_reqs;
      match find_first (rq_has_fd fd) l with
      | None => fail UseAfterFree
      | Some p =>
          if rq_dirty p then
            _ ← modify (set_reqs (remove_first (rq_has_fd fd) l));
            _ ← atlas_sched_del_entry (rq_coap_fd p);
            _ ← atlas_alarm_cancel (rq_alarm_id p);
            _ ← call_ (coap_session_release (rq_session p));
            call_ (coap_free_context (rq_ctx p))
          else mret tt
      end
  end.

Definition request_alarm_cb (alarm_id : Z) : M unit :=
  l ← gets cl_reqs;
  match find_first (rq_has_alarm alarm_id) l with
  | None => mret tt
  | Some p =>
      _ ← run (rq_callback p) (rq_uri p) ATLAS_COAP_RESP_TIMEOUT None;
      l ← gets cl_reqs;
      match find_first (rq_has_alarm alarm_id) l with
      | None => fail UseAfterFree
      | Some p =>
          _ ← modify (set_reqs (remove_first (rq_has_alarm alarm_id) l));
          _ ← atlas_sched_del_entry (rq_coap_fd p);
          _ ← call_ (coap_session_release (rq_session p));
          call_ (coap_free_context (rq_ctx p))
      end
  end.
End CoapClient.

(** * Requests *)

Section RequestFacts.
Context {E : Env} `{!EnvLaws E} `{HostEndian}.

(** The state after a request has been sent. *)
Definition sent (c : client) (x : ext) (fd id ctx session : Z) (uri : list byte)
    (method : atlas_coap_method) (payload : option (list byte)) (cb : coap_cb) : client :=
  let c1 := set_alarms (cl_alarms c ++ [mk_alarm_entry id cb_request_alarm_cb true])
              (set_sched (sched_append fd (Some cb_coap_client_sched_callback)
                 (sched_append id (Some cb_atlas_alarm_trigger) (cl_sched c)))
                 (set_token (u32 (cl_token c + 1)) c)) in
  set_out (cl_out c ++ [EvCoapSend session method (cl_token c) uri (default [] payload)])
    (set_reqs (cl_reqs c ++ [mk_coap_req fd id ctx session uri (cl_token c) cb false])
       (set_ext x c1)).

Lemma add_request_cases ctx session uri token timeout cb c :
  (exists x, add_request ctx session uri token timeout cb c = Ok (ATLAS_GENERAL_ERR, set_ext x c) /\
     framed (cl_ext c) x) \/
  (exists fd id x, 0 <= id /\ fds (cl_ext c) !! id = None /\
     fds x = <[id := FdTimer]> (fds (cl_ext c)) /\ ctxs x = ctxs (cl_ext c) /\
     fd = coap_context_get_coap_fd ctx (cl_ext c) /\ fd <> -1 /\
     add_request ctx session uri token timeout cb c =
     Ok (ATLAS_OK,
         set_reqs (cl_reqs c ++ [mk_coap_req fd id ctx session uri token cb false])
           (set_sched (sched_append fd (Some cb_coap_client_sched_callback)
              (sched_append id (Some cb_atlas_alarm_trigger) (cl_sched c)))
              (set_alarms (cl_alarms c ++ [mk_alarm_entry id cb_request_alarm_cb true])
                 (set_ext x c))))).
Proof.
  unfold add_request. rewrite (M_bind_run _ _ _ _ _ eq_refl). cbv beta.
  case_decide as Hfd.
  { left. exists (cl_ext c). split; [by destruct c|apply framed_refl]. }
  destruct (alarm_set_cases timeout cb_request_alarm_cb true c)
    as [(x & Hs & Hx)|(id & x & Hid & Hnew & Hx & Hctx & Hs)];
    rewrite (M_bind_run _ _ _ _ _ Hs).
  - left. exists x. by rewrite decide_True.
  - right. rewrite decide_False by lia. exists (coap_context_get_coap_fd ctx (cl_ext c)), id, x.
    do 6 (split; [done|]). reflexivity.
Qed.

(** Every outcome of a request: it fails and has changed the token counter at
    most, it is sent, or host resolution read an unassigned variable. *)
Definition request_outcome (uri : option (list byte)) (method : atlas_coap_method)
    (payload : option (list byte)) (cb : option coap_cb) (c : client)
    (r : res (atlas_status * client)) : Prop :=
  (exists st t x, st <> ATLAS_OK /\ framed (cl_ext c) x /\ r = Ok (st, set_ext x (set_token t c))) \/
  (exists u k x fd id ctx session, uri = Some u /\ cb = Some k /\
     0 <= id /\ fds (cl_ext c) !! id = None /\
     fds x = <[id := FdTimer]> (fds (cl_ext c)) /\
     ctx ∉ ctxs (cl_ext c) /\ ctxs x = {[ctx]} ∪ ctxs (cl_ext c) /\
     r = Ok (ATLAS_OK, sent c x fd id ctx session u method payload k)) \/
  r = Fault Uninitialised.

Lemma request_fails uri method payload cb c st t x :
  st <> ATLAS_OK -> framed (cl_ext c) x ->
  request_outcome uri method payload cb c (Ok (st, set_ext x (set_token t c))).
Proof. intros. left. eauto 10. Qed.

Lemma request_cases uri method payload timeout cb c :
  request_outcome uri method payload cb c
    (atlas_coap_client_request uri method payload timeout cb c).
Proof.
  assert (Hstay : forall st, st <> ATLAS_OK ->
    request_outcome uri method payload cb c (Ok (st, c))).
  { intros st Hst. pose proof (request_fails uri method payload cb c st (cl_token c) _ Hst (framed_refl _)) as HH.
    by destruct c. }
  unfold atlas_coap_client_request.
  destruct uri as [u|]; [|by apply Hstay].
  destruct cb as [k|]; [|by apply Hstay].
  destruct (coap_split_uri u) as [cu|]; [|by apply Hstay].
  (* resolve *)
  unfold resolve_address, mbind, M_bind, call at 1.
  pose proof (getaddrinfo_law (cu_host cu) (cl_ext c)) as F1.
  destruct (getaddrinfo _ _) as [[res|] x1]; cbn in F1 |- *.
  2:{ rewrite decide_True by lia. by apply (request_fails _ _ _ _ c ATLAS_GENERAL_ERR (cl_token c) x1). }
  destruct (first_inet res) as [len|]; cbn; [|right; right; done].
  case_decide; [by apply (request_fails _ _ _ _ c ATLAS_GENERAL_ERR (cl_token c) x1)|].
  (* context *)
  pose proof (coap_new_context_law x1) as F2. unfold call at 1. cbn.
  destruct (coap_new_context x1) as [[ctx|] x2]; cbn in F2 |- *.
  2:{ apply (request_fails _ _ _ _ c ATLAS_GENERAL_ERR (cl_token c) x2); [done|].
      destruct F1, F2. split; congruence. }
  destruct F1 as [F1a F1b], F2 as (F2a & F2b & F2c). rewrite F1a in F2a. rewrite F1b in F2b, F2c.
  (* session, PDU, token *)
  pose proof (fun x => coap_free_context_law ctx x) as FC.
  assert (Hback : forall x, fds x = fds (cl_ext c) -> ctxs x = {[ctx]} ∪ ctxs (cl_ext c) ->
    framed (cl_ext c) (coap_free_context ctx x)).
  { intros x Ha Hb. destruct (FC x) as [Hc Hd]. split; [congruence|]. rewrite Hd, Hb.
    apply leibniz_equiv. set_solver. }
  unfold get_session, call. cbn.
  pose proof (coap_new_client_session_law ctx (cu_coaps cu) x2) as [F3a F3b].
  destruct (coap_new_client_session _ _ x2) as [[session|] x3]; cbn in F3a, F3b |- *.
  2:{ apply (request_fails _ _ _ _ c ATLAS_GENERAL_ERR (cl_token c) (coap_free_context ctx x3)); [done|].
      apply Hback; congruence. }
  pose proof (coap_new_pdu_law session x3) as [F4a F4b].
  destruct (coap_new_pdu session x3) as [[] x4]; cbn in F4a, F4b |- *.
  2:{ apply (request_fails _ _ _ _ c ATLAS_GENERAL_ERR (cl_token c)
        (coap_free_context ctx (coap_session_release session x4))); [done|].
      destruct (coap_session_release_law session x4). apply Hback; congruence. }
  unfold get_new_token, gets, modify, mbind, M_bind. cbn.
  pose proof (coap_add_token_law (cl_token c) x4) as [F5a F5b].
  destruct (coap_add_token (cl_token c) x4) as [[] x5]; cbn in F5a, F5b |- *.
  2:{ apply (request_fails _ _ _ _ c ATLAS_GENERAL_ERR (u32 (cl_token c + 1))
        (coap_free_context ctx (coap_session_release session x5))); [done|].
      destruct (coap_session_release_law session x5). apply Hback; congruence. }
  (* chain *)
  set (c5 := set_ext x5 _).
  destruct (add_request_cases ctx session u (cl_token c) (u16 timeout) k c5)
    as [(x6 & -> & [F6a F6b])|(fd & id & x6 & Hid & Hnew & F6a & F6b & _ & _ & ->)]; cbn in *.
  - apply (request_fails _ _ _ _ c ATLAS_GENERAL_ERR (u32 (cl_token c + 1))
      (coap_free_context ctx (coap_session_release session x6))); [done|].
    destruct (coap_session_release_law session x6). apply Hback; congruence.
  - right. left. exists u, k, x6, fd, id, ctx, session. repeat split; try congruence.
Qed.

(** What goes out: nothing, or the one message of the request. *)
Definition sends (method : atlas_coap_method) (uri payload : list byte) (c c' : client) : Prop :=
  cl_out c' = cl_out c \/
  exists session, cl_out c' = cl_out c ++ [EvCoapSend session method (cl_token c) uri payload].

(** A request leaves these parts of the process alone. *)
Definition same_modules (c c' : client) : Prop :=
  cl_reg c' = cl_reg c /\ cl_features c' = cl_features c /\ cl_dp c' = cl_dp c /\
  cl_cfg c' = cl_cfg c /\ cl_ids c' = cl_ids c.

Lemma request_sends uri method payload timeout cb c st c' :
  atlas_coap_client_request (Some uri) method payload timeout cb c = Ok (st, c') ->
  sends method uri (default [] payload) c c' /\ (st = ATLAS_OK -> cl_out c' <> cl_out c) /\
  same_modules c c' /\ (forall a, a ∈ cl_alarms c -> a ∈ cl_alarms c').
Proof.
  intros Hrun. destruct (request_cases (Some uri) method payload timeout cb c)
    as [(st' & t & x & Hst & _ & Hr)|[(u & k & x & fd & id & ctx & s & [= <-] & _ & _ & _ & _ & _ & _ & Hr)|Hr]];
    rewrite Hr in Hrun; [..|done]; injection Hrun as <- <-.
  - split; [by left|]. split; [done|]. by split.
  - split; [right; by exists s|]. split; [|split; [done|cbn; set_solver]]. cbn. intros _ Heq.
    apply (f_equal length) in Heq. rewrite length_app in Heq. cbn in Heq. lia.
Qed.
End RequestFacts.

(** * The invariant *)

Section RequestSafety.
Context {E : Env} `{!EnvLaws E} `{HostEndian}.

(** A keep-alive has been started. *)
Definition ka_live (c : client) : Prop :=
  ka_alarm_id (cl_reg c) < 0 \/
  mk_alarm_entry (ka_alarm_id (cl_reg c)) cb_keepalive_alarm_callback false ∈ cl_alarms c.

Lemma ka_live_table : table_pred ka_live.
Proof. intros c c' (_ & Ha & _ & Hk & _). unfold ka_live. by rewrite Ha, Hk. Qed.

Lemma inv_add_req c r :
  client_inv c -> rq_ctx r ∈ ctxs (cl_ext c) -> rq_ctx r ∉ rq_ctx <$> cl_reqs c ->
  rq_alarm_id r ∉ rq_alarm_id <$> cl_reqs c ->
  mk_alarm_entry (rq_alarm_id r) cb_request_alarm_cb true ∈ cl_alarms c ->
  (rq_callback r = cb_keepalive_callback -> ka_live c) ->
  client_inv (set_reqs (cl_reqs c ++ [r]) c).
Proof.
  intros [Ia (Rn & Rc & Ra) Ik Ip It Id] Hctx Hnc Hna Hal Hka.
  assert (Hsnoc : forall (f : coap_req -> Z), NoDup (f <$> cl_reqs c) -> f r ∉ f <$> cl_reqs c ->
    NoDup (f <$> cl_reqs c ++ [r])).
  { intros f Hnd Hn. rewrite fmap_app. apply NoDup_app. split; [done|].
    split; [|apply NoDup_singleton]. intros y Hy ->%list_elem_of_singleton. done. }
  split; [done| | |done..].
  - split; [by apply Hsnoc|]. split; [by apply Hsnoc|]. cbn.
    intros r' [Hr'| ->%list_elem_of_singleton]%elem_of_app; [by apply Ra|done].
  - unfold ka_ok. cbn. destruct Ik as [?|[?|[Ka Kr]]]; [auto..|].
    destruct (decide (rq_callback r = cb_keepalive_callback)) as [Hcb|Hcb].
    { destruct (Hka Hcb); auto. }
    right. right. split; [done|].
    intros r' [Hr'| ->%list_elem_of_singleton]%elem_of_app; [by apply Kr|done].
Qed.

Lemma inv_sent c x fd id ctx session u method payload k :
  client_inv c -> 0 <= id -> fds (cl_ext c) !! id = None ->
  fds x = <[id := FdTimer]> (fds (cl_ext c)) ->
  ctx ∉ ctxs (cl_ext c) -> ctxs x = {[ctx]} ∪ ctxs (cl_ext c) ->
  (k = cb_keepalive_callback -> ka_live c) ->
  client_inv (sent c x fd id ctx session u method payload k).
Proof.
  intros Hc Hid Hnew Hx Hctx Hctxs Hk.
  set (c1 := set_alarms (cl_alarms c ++ [mk_alarm_entry id cb_request_alarm_cb true]) (set_ext x c)).
  assert (Hc1 : client_inv c1).
  { apply inv_add_alarm; try done. rewrite Hctxs. set_solver. }
  destruct Hc as [[_ Aa] (_ & _ & Ra) _ _ _ _].
  eapply (inv_view (set_reqs (cl_reqs c ++ [mk_coap_req fd id ctx session u (cl_token c) k false]) c1)).
  { repeat split. }
  apply (inv_add_req c1); [done|..]; cbn.
  - rewrite Hctxs. set_solver.
  - intros (r & -> & Hr)%list_elem_of_fmap. by destruct (Ra r Hr).
  - intros (r & -> & Hr)%list_elem_of_fmap. destruct (Ra r Hr) as [_ Hal].
    destruct (Aa _ Hal) as (_ & Hf & _). cbn in Hf. congruence.
  - apply elem_of_app. right. by apply list_elem_of_singleton.
  - intros Hcb. destruct (Hk Hcb) as [?|?]; [by left|right]. cbn. apply elem_of_app. by left.
Qed.

Lemma okp_request uri method payload timeout cb :
  okp (fun c => cb = Some cb_keepalive_callback -> ka_live c) no_cancel
    (atlas_coap_client_request uri method payload timeout cb).
Proof.
  intros c Hc Hk. destruct (request_cases uri method payload timeout cb c)
    as [(st & t & x & _ & Hx & ->)|[(u & k & x & fd & id & ctx & s & _ & -> & Hr)| ->]].
  - assert (same_tables c (set_ext x (set_token t c))) by (repeat split; apply Hx).
    split; [by eapply same_tables_inv|by apply same_tables_grows].
  - destruct Hr as (? & ? & ? & ? & ? & ->). split.
    + apply inv_sent; auto. intros ->. auto.
    + split; cbn.
      * eapply sched_keeps_trans; apply sched_keeps_add.
      * eexists. split; [done|]. by repeat constructor.
      * intros a Ha _. apply elem_of_app. by left.
  - by split.
Qed.

Lemma okm_request uri method payload timeout cb :
  cb <> Some cb_keepalive_callback ->
  okm no_cancel (atlas_coap_client_request uri method payload timeout cb).
Proof. intros Hcb c Hc. by apply (okp_request uri method payload timeout cb c Hc). Qed.
End RequestSafety.

#[export] Hint Extern 2 (okm _ (atlas_coap_client_request _ _ _ _ _)) =>
  apply okm_request; discriminate : okm.

(** * Completion of requests *)

(** The same requests up to the dirty flags. *)
Definition same_reqs (l l' : list coap_req) : Prop := rq_mark <$> l' = rq_mark <$> l.

Lemma same_reqs_fmap {A} (f : coap_req -> A) l l' :
  (forall r, f (rq_mark r) = f r) -> same_reqs l l' -> f <$> l' = f <$> l.
Proof.
  intros Hf Hs. assert (Hall : forall k : list coap_req, f <$> k = f <$> (rq_mark <$> k)).
  { intros k. rewrite <- list_fmap_compose. apply list_fmap_ext. intros i r _. cbn. by rewrite Hf. }
  by rewrite Hall, Hs, <- Hall.
Qed.

Lemma same_reqs_elem l l' r' : same_reqs l l' -> r' ∈ l' -> exists r, r ∈ l /\ rq_mark r = rq_mark r'.
Proof.
  intros Hs Hr. apply (list_elem_of_fmap_2 rq_mark) in Hr. rewrite Hs in Hr.
  apply list_elem_of_fmap in Hr as (r & Heq & Hr). eauto.
Qed.

Lemma same_reqs_update P l : same_reqs l (update_first P rq_mark l).
Proof.
  unfold same_reqs. induction l as [|r l IH]; [done|]. cbn [update_first].
  destruct (P r); rewrite !fmap_cons; [by destruct r|]. by rewrite IH.
Qed.

(** What handling a message does to the list: some flags, and new requests. *)
Definition reqs_upd (l l' : list coap_req) : Prop :=
  exists l0 new, l' = l0 ++ new /\ same_reqs l l0.

Lemma reqs_upd_refl l : reqs_upd l l.
Proof. exists l, []. by rewrite app_nil_r. Qed.

Lemma reqs_upd_grow l l1 l2 : same_reqs l l1 -> reqs_grow l1 l2 -> reqs_upd l l2.
Proof. intros Hs (new & -> & _). by exists l1, new. Qed.

Lemma reqs_upd_trans l1 l2 l3 : reqs_upd l1 l2 -> reqs_upd l2 l3 -> reqs_upd l1 l3.
Proof.
  intros (k1 & n1 & -> & S1) (k2 & n2 & -> & S2). unfold same_reqs in S2.
  rewrite fmap_app in S2. apply fmap_app_inv in S2 as (k3 & k4 & S3 & S4 & ->).
  exists k3, (k4 ++ n2). rewrite <- app_assoc. split; [done|]. unfold same_reqs. by rewrite <- S3.
Qed.

(** The first request a test finds, when the test does not read the flag. *)
Lemma find_first_upd (P : coap_req -> bool) l l' r :
  (forall r, P (rq_mark r) = P r) -> reqs_upd l l' -> find_first P l = Some r ->
  exists l1 r' l2, l' = l1 ++ r' :: l2 /\ find_first P l' = Some r' /\
    remove_first P l' = l1 ++ l2 /\ rq_mark r' = rq_mark r.
Proof.
  intros HP (l0 & new & -> & Hs) Hf. apply split_first in Hf as (l1 & l2 & -> & Hl1 & Hr).
  unfold same_reqs in Hs. rewrite fmap_app, fmap_cons in Hs.
  apply fmap_app_inv in Hs as (k1 & k2 & E1 & E2 & ->).
  destruct k2 as [|r' k2]; [done|]. rewrite fmap_cons in E2.
  assert (Er : rq_mark r' = rq_mark r) by congruence.
  assert (Hk1 : Forall (fun x => P x = false) k1).
  { apply Forall_forall. intros x Hx. apply (same_reqs_elem l1) in Hx as (y & Hy & Em); [|done].
    rewrite Forall_forall in Hl1. by rewrite <- HP, <- Em, HP, Hl1. }
  assert (Hr' : P r' = true) by (by rewrite <- HP, Er, HP).
  exists k1, r', (k2 ++ new). rewrite <- app_assoc. cbn [app]. repeat split; [..|done].
  - rewrite find_first_app, (proj2 (find_first_None P k1) Hk1). cbn. by rewrite Hr'.
  - rewrite remove_first_app_r by done. cbn. by rewrite Hr'.
Qed.

Definition dirty_only (ctx : Z) (l : list coap_req) : Prop :=
  forall r, r ∈ l -> rq_dirty r = true -> rq_ctx r = ctx.

Lemma dirty_only_update ctx session l :
  dirty_only ctx l -> dirty_only ctx (update_first (rq_has_session ctx session) rq_mark l).
Proof.
  unfold dirty_only. induction l as [|x l IH]; intros Hl r; cbn [update_first]; [apply Hl|].
  destruct (rq_has_session ctx session x) eqn:Hx; intros [->|Hr]%elem_of_cons Hd.
  - by apply bool_decide_eq_true in Hx as [? _].
  - apply Hl; [|done]. apply elem_of_cons. auto.
  - apply Hl; [|done]. apply elem_of_cons. auto.
  - apply IH; [|done|done]. intros r0 Hr0. apply Hl, elem_of_cons. auto.
Qed.

Lemma dirty_only_grow ctx l l' : dirty_only ctx l -> reqs_grow l l' -> dirty_only ctx l'.
Proof.
  intros Hl (new & -> & Hn) r [Hr|Hr]%elem_of_app Hd; [by apply Hl|].
  rewrite Forall_forall in Hn. by rewrite Hn in Hd.
Qed.

Section Completion.
Context {E : Env} `{!EnvLaws E} `{HostEndian}.

Lemma inv_same_reqs l c : client_inv c -> same_reqs (cl_reqs c) l -> client_inv (set_reqs l c).
Proof.
  intros [Ia (Rn & Rc & Ra) Ik Ip It Id] Hl. split; [done| | |done..].
  - split; [by rewrite (same_reqs_fmap rq_alarm_id (cl_reqs c))|].
    split; [by rewrite (same_reqs_fmap rq_ctx (cl_reqs c))|].
    cbn. intros r' Hr'. apply (same_reqs_elem _ _ _ Hl) in Hr' as (r & Hr & Hm).
    destruct r, r'. injection Hm as -> -> -> -> -> -> ->. by destruct (Ra _ Hr).
  - destruct Ik as [?|[?|[Ka Kr]]]; [by left|right; by left|right; right]. split; [done|].
    cbn. intros r' Hr'. apply (same_reqs_elem _ _ _ Hl) in Hr' as (r & Hr & Hm).
    destruct r, r'. injection Hm as -> -> -> -> -> -> ->. by specialize (Kr _ Hr).
Qed.

Lemma inv_del_req l1 r l2 c :
  client_inv c -> cl_reqs c = l1 ++ r :: l2 -> client_inv (set_reqs (l1 ++ l2) c).
Proof.
  intros [Ia (Rn & Rc & Ra) Ik Ip It Id] Hl.
  assert (Hsub : sublist (l1 ++ l2) (cl_reqs c)).
  { rewrite Hl. apply sublist_app; [done|]. by apply sublist_cons. }
  split; [done| | |done..].
  - split; [by eapply sublist_NoDup, fmap_sublist|].
    split; [by eapply sublist_NoDup, fmap_sublist|].
    cbn. intros r' Hr'. apply Ra. by eapply elem_of_sublist.
  - destruct Ik as [?|[?|[Ka Kr]]]; [by left|right; by left|right; right]. split; [done|].
    cbn. intros r' Hr'. apply Kr. by eapply elem_of_sublist.
Qed.

(** An alarm nobody refers to any more can be cancelled. *)
Lemma inv_cancel a c :
  client_inv c -> a ∈ cl_alarms c ->
  (al_callback a = cb_request_alarm_cb -> al_id a ∉ rq_alarm_id <$> cl_reqs c) ->
  (al_callback a = cb_keepalive_alarm_callback -> ka_alarm_id (cl_reg c) <> al_id a) ->
  (al_callback a = cb_push_alert_alarm_cb -> al_id a ∉ tl_push_id <$> cl_features c) ->
  (al_callback a = cb_threshold_alert_alarm_cb -> al_id a ∉ tl_threshold_id <$> cl_features c) ->
  exists c', atlas_alarm_cancel (al_id a) c = Ok (tt, c') /\ client_inv c' /\
    cl_reqs c' = cl_reqs c /\ cl_features c' = cl_features c /\ cl_reg c' = cl_reg c /\
    ctxs (cl_ext c') = ctxs (cl_ext c) /\
    cl_sched c' = sched_mark (al_id a) (cl_sched c) /\
    cl_alarms c' = filter (fun b => al_id b <> al_id a) (cl_alarms c).
Proof.
  intros [[And Aa] (Rn & Rc & Ra) Ik [P1 P2] [T1 T2] Id] Ha Hrq Hka Hpu Hth.
  rewrite alarm_cancel_run.
  destruct (has_alarm_find (al_id a) (cl_alarms c)) as [p ->]; [by apply list_elem_of_fmap_2|].
  destruct (close_fd_law (al_id a) (cl_ext c)) as [Hfd Hctx].
  assert (Hrm : remove_first (has_alarm_id (al_id a)) (cl_alarms c) =
                filter (fun b => al_id b <> al_id a) (cl_alarms c)) by (by apply remove_first_key).
  eexists. split; [done|]. cbn. rewrite Hrm, Hctx. split; [|repeat split].
  (* an alarm of another callback has another id *)
  assert (Huniq : forall b, b ∈ cl_alarms c -> al_id b = al_id a -> b = a)
    by (intros b Hb; by apply (alarm_id_inj (cl_alarms c))).
  assert (Hkeep : forall b, b ∈ cl_alarms c ->
    (al_callback b = al_callback a -> al_id b <> al_id a) ->
    b ∈ filter (fun b => al_id b <> al_id a) (cl_alarms c)).
  { intros b Hb Hne. apply list_elem_of_filter. split; [|done]. intros Hid.
    rewrite (Huniq b Hb Hid) in Hne. by apply Hne. }
  split; unfold alarms_ok, reqs_ok, ka_ok, handles_ok, dp_ok; cbn; rewrite ?Hrm, ?Hfd, ?Hctx.
  - split.
    + eapply sublist_NoDup; [exact And|]. apply fmap_sublist, sublist_filter.
    + intros b [Hne Hb]%list_elem_of_filter. by rewrite lookup_delete_ne; auto.
  - do 2 (split; [done|]). intros r Hr. destruct (Ra r Hr) as [? Hal]. split; [done|].
    apply Hkeep; [done|]. cbn. intros Hcb Hid. apply Hrq; [done|]. rewrite <- Hid.
    by apply list_elem_of_fmap_2.
  - destruct Ik as [?|[?|[Ka Kr]]]; [by left|right; left|right; right].
    + apply Hkeep; [done|]. cbn. intros Hcb. by apply Hka.
    + split; [|done]. intros b [_ Hb]%list_elem_of_filter. auto.
  - split; [|done]. intros f Hf Hp. apply Hkeep; [by apply P1|]. cbn. intros Hcb Hid.
    apply Hpu; [done|]. rewrite <- Hid. by apply list_elem_of_fmap_2.
  - split; [|done]. intros f Hf Hp. apply Hkeep; [by apply T1|]. cbn. intros Hcb Hid.
    apply Hth; [done|]. rewrite <- Hid. by apply list_elem_of_fmap_2.
  - destruct Id as [?|Hs]; [by left|right]. rewrite lookup_delete_ne; [done|].
    intros Hid. destruct (Aa a Ha) as (_ & Hf & _). rewrite Hid in Hf. congruence.
Qed.

Lemma inv_free_context ctx c :
  client_inv c -> ctx ∉ rq_ctx <$> cl_reqs c ->
  client_inv (set_ext (coap_free_context ctx (cl_ext c)) c).
Proof.
  intros [Ia (Rn & Rc & Ra) Ik Ip It Id] Hctx.
  destruct (coap_free_context_law ctx (cl_ext c)) as [Hf Hc].
  split; [|split; [done|]; split; [done|]|done..|]; unfold alarms_ok, dp_ok in *; cbn; rewrite ?Hf, ?Hc;
    [done| |done].
  intros r Hr. destruct (Ra r Hr). split; [|done]. apply elem_of_difference. split; [done|].
  intros Heq%elem_of_singleton. apply Hctx. rewrite <- Heq. by apply list_elem_of_fmap_2.
Qed.

(** ** The handlers, for any callbacks that respect the invariant *)

Context (run : coap_cb -> list byte -> atlas_coap_response -> option (list byte) -> M unit).
Context (K : alarm_cb -> bool) (K_request : K cb_request_alarm_cb = false).
Context (run_ok : forall cb uri resp payload,
  okp (fun c => exists r, r ∈ cl_reqs c /\ rq_callback r = cb) K (run cb uri resp payload)).

(** After one message, or after several: the invariant, the flags, the alarms. *)
Definition handled (ctx : Z) (c c' : client) : Prop :=
  client_inv c' /\ reqs_upd (cl_reqs c) (cl_reqs c') /\
  (dirty_only ctx (cl_reqs c) -> dirty_only ctx (cl_reqs c')) /\
  alarms_kept K (cl_alarms c) (cl_alarms c') /\ sched_keeps (cl_sched c) (cl_sched c').

Lemma handled_refl ctx c : client_inv c -> handled ctx c c.
Proof.
  intros Hc. split; [done|]. split; [apply reqs_upd_refl|]. split; [done|].
  split; [by intros a|apply sched_keeps_refl].
Qed.

Lemma handled_trans ctx c1 c2 c3 : handled ctx c1 c2 -> handled ctx c2 c3 -> handled ctx c1 c3.
Proof.
  intros (_ & U1 & D1 & A1 & S1) (I2 & U2 & D2 & A2 & S2). split; [done|].
  split; [by eapply reqs_upd_trans|]. split; [auto|].
  split; [by eapply alarms_kept_trans|by eapply sched_keeps_trans].
Qed.

Lemma message_handler_ok ctx pdu c :
  client_inv c ->
  match message_handler run ctx pdu c with
  | Ok (_, c') => handled ctx c c'
  | Fault f => benign f
  end.
Proof.
  intros Hc. unfold message_handler. rewrite (M_bind_run _ _ _ _ _ eq_refl).
  destruct (find_first _ _) as [ent|] eqn:Hf; [|by apply handled_refl].
  destruct (negb _).
  { destruct (_ && _); [|by apply handled_refl]. cbn.
    assert (Hst : same_tables c (set_out (cl_out c ++ [EvCoapRst (pdu_session pdu)]) c))
      by (repeat split).
    split; [by eapply same_tables_inv|]. split; [apply reqs_upd_refl|]. split; [done|].
    split; [by intros a|apply sched_keeps_refl]. }
  set (P := rq_has_session ctx (pdu_session pdu)) in *.
  set (c1 := set_reqs (update_first P rq_mark (cl_reqs c)) c).
  assert (Hc1 : client_inv c1) by (apply inv_same_reqs; [done|apply same_reqs_update]).
  assert (Hin : exists r, r ∈ cl_reqs c1 /\ rq_callback r = rq_callback ent).
  { apply split_first in Hf as (l1 & l2 & Hl & Hl1 & Hp). exists (rq_mark ent). split; [|done].
    cbn. rewrite Hl, update_first_app_r by done. cbn. rewrite Hp. set_solver. }
  assert (Hrun : forall resp payload,
    match run (rq_callback ent) (rq_uri ent) resp payload c1 with
    | Ok (_, c') => handled ctx c c'
    | Fault f => benign f
    end).
  { intros resp payload. specialize (run_ok (rq_callback ent) (rq_uri ent) resp payload c1 Hc1 Hin).
    destruct (run _ _ _ _ c1) as [[[] c2]|f]; [|done]. destruct run_ok as [Hc2 [Gs Gr Ga]].
    split; [done|]. split; [by eapply reqs_upd_grow, Gr; apply same_reqs_update|].
    split; [|by split]. intros Hd. eapply dirty_only_grow; [|exact Gr]. by apply dirty_only_update. }
  rewrite (M_bind_run (modify _) _ _ tt c1 eq_refl). repeat case_decide; apply Hrun.
Qed.

Lemma handle_messages_ok ctx pdus c :
  client_inv c ->
  match handle_messages run ctx pdus c with
  | Ok (_, c') => handled ctx c c'
  | Fault f => benign f
  end.
Proof.
  revert c. induction pdus as [|pdu pdus IH]; intros c Hc; cbn [handle_messages].
  { by apply handled_refl. }
  pose proof (message_handler_ok ctx pdu c Hc) as Hm. unfold mbind, M_bind.
  destruct (message_handler run ctx pdu c) as [[[] c1]|f]; [|done].
  destruct Hm as [Hc1 Hm]. specialize (IH c1 Hc1).
  destruct (handle_messages run ctx pdus c1) as [[[] c2]|f]; [|done].
  eapply handled_trans; [|done]. by split.
Qed.

Definition clean (c : client) : Prop := forall r, r ∈ cl_reqs c -> rq_dirty r = false.

(** The entry [r] of a list with distinct contexts and alarms is the only one
    with its context and alarm. *)
Lemma req_unique l1 r l2 c :
  client_inv c -> cl_reqs c = l1 ++ r :: l2 ->
  rq_ctx r ∉ rq_ctx <$> l1 ++ l2 /\ rq_alarm_id r ∉ rq_alarm_id <$> l1 ++ l2.
Proof.
  intros [_ (Rn & Rc & _) _ _ _ _] Hl. rewrite Hl in Rn, Rc.
  assert (Hgen : forall f : coap_req -> Z, NoDup (f <$> l1 ++ r :: l2) -> f r ∉ f <$> l1 ++ l2).
  { intros f Hnd. rewrite fmap_app, fmap_cons in Hnd. rewrite fmap_app.
    apply NoDup_app in Hnd as (_ & Hd & [Hn _]%NoDup_cons).
    rewrite not_elem_of_app. split; [|done]. intros Hin. apply (Hd _ Hin). apply elem_of_cons. auto. }
  split; by apply Hgen.
Qed.

(** The deletion of a completed request. *)
Lemma delete_request_ok l1 r l2 c :
  client_inv c -> cl_reqs c = l1 ++ r :: l2 ->
  exists c',
    (_ ← modify (set_reqs (l1 ++ l2));
     _ ← atlas_sched_del_entry (rq_coap_fd r);
     _ ← atlas_alarm_cancel (rq_alarm_id r);
     _ ← call_ (coap_session_release (rq_session r));
     call_ (coap_free_context (rq_ctx r))) c = Ok (tt, c') /\
    client_inv c' /\ cl_reqs c' = l1 ++ l2 /\ sched_keeps (cl_sched c) (cl_sched c') /\
    cl_alarms c' = filter (fun b => al_id b <> rq_alarm_id r) (cl_alarms c) /\
    rq_ctx r ∉ ctxs (cl_ext c').
Proof.
  intros Hc Hl. destruct (req_unique _ _ _ _ Hc Hl) as [Hnctx Hnal].
  unfold atlas_sched_del_entry, modify, mbind, M_bind. cbn.
  set (c2 := set_sched (sched_mark (rq_coap_fd r) (cl_sched c)) (set_reqs (l1 ++ l2) c)).
  assert (Hc2 : client_inv c2) by (apply inv_set_sched; by eapply inv_del_req).
  destruct (inv_reqs c Hc) as (_ & _ & Ra).
  destruct (Ra r) as [_ Hal]; [rewrite Hl; set_solver|].
  destruct (inv_cancel (mk_alarm_entry (rq_alarm_id r) cb_request_alarm_cb true) c2)
    as (c3 & Hcc & Hc3 & Hr3 & _ & _ & Hx3 & Hs3 & Ha3); [done..|]. cbn in Hcc, Ha3. rewrite Hcc.
  destruct (coap_session_release_law (rq_session r) (cl_ext c3)) as [Hy1 Hy2].
  set (c4 := set_ext (coap_session_release (rq_session r) (cl_ext c3)) c3).
  assert (Hc4 : client_inv c4) by (eapply same_tables_inv; [|exact Hc3]; by repeat split).
  eexists. split; [reflexivity|].
  split; [apply (inv_free_context (rq_ctx r) c4 Hc4); cbn; by rewrite Hr3|]. cbn.
  split; [done|]. split; [|split; [done|]].
  - rewrite Hs3. eapply sched_keeps_trans; apply sched_keeps_mark.
  - destruct (coap_free_context_law (rq_ctx r) (coap_session_release (rq_session r) (cl_ext c3)))
      as [_ ->]. set_solver.
Qed.

Lemma sched_callback_ok fd c :
  client_inv c ->
  match coap_client_sched_callback run fd c with
  | Ok (_, c') => client_inv c' /\ sched_keeps (cl_sched c) (cl_sched c') /\ (clean c -> clean c')
  | Fault f => benign f
  end.
Proof.
  intros Hc. unfold coap_client_sched_callback. rewrite (M_bind_run _ _ _ _ _ eq_refl).
  destruct (find_first _ _) as [p|] eqn:Hf.
  2:{ split; [done|]. split; [apply sched_keeps_refl|done]. }
  unfold mbind at 1, M_bind at 1, call at 1.
  pose proof (coap_io_process_law (rq_ctx p) (cl_ext c)) as Hx.
  destruct (coap_io_process _ _) as [pdus x]. cbn in Hx |- *.
  set (c0 := set_ext x c).
  assert (Hc0 : client_inv c0) by (eapply same_tables_inv; [|exact Hc]; repeat split; apply Hx).
  pose proof (handle_messages_ok (rq_ctx p) pdus c0 Hc0) as Hm.
  unfold mbind at 1, M_bind at 1.
  destruct (handle_messages run _ _ c0) as [[[] c1]|f]; [|done].
  destruct Hm as (Hc1 & Hu & Hd & Ha & Hs).
  rewrite (M_bind_run _ _ _ _ _ eq_refl).
  destruct (find_first_upd (rq_has_fd fd) _ _ _ (fun _ => eq_refl) Hu Hf)
    as (l1 & r & l2 & Hl & Hr & Hrm & Hmark). rewrite Hr.
  destruct (req_unique _ _ _ _ Hc1 Hl) as [Hnctx _].
  assert (Hclean : clean c -> forall r', r' ∈ l1 ++ l2 -> rq_dirty r' = false).
  { intros Hcl r' Hr'. destruct (rq_dirty r') eqn:Hdr; [|done]. exfalso. apply Hnctx.
    assert (Hctx : rq_ctx r' = rq_ctx p).
    { apply Hd; [|rewrite Hl; set_solver|done]. intros y Hy Hyd. by rewrite Hcl in Hyd. }
    assert (rq_ctx r = rq_ctx p) as -> by (by destruct r, p; injection Hmark).
    rewrite <- Hctx. by apply list_elem_of_fmap_2. }
  destruct (rq_dirty r) eqn:Hdirty.
  - rewrite Hrm. destruct (delete_request_ok _ _ _ _ Hc1 Hl) as (c2 & -> & Hc2 & Hr2 & Hs2 & _).
    split; [done|]. split; [by eapply sched_keeps_trans|]. intros Hcl. unfold clean.
    rewrite Hr2. auto.
  - split; [done|]. split; [done|]. intros Hcl r'. rewrite Hl, cons_middle, !elem_of_app.
    rewrite list_elem_of_singleton. intros [?|[->|?]]; [|done|]; apply Hclean; set_solver.
Qed.

Lemma request_alarm_ok id c :
  client_inv c ->
  match request_alarm_cb run id c with
  | Ok (_, c') => client_inv c' /\ sched_keeps (cl_sched c) (cl_sched c') /\
      alarms_kept K (cl_alarms c) (cl_alarms c') /\ id ∉ rq_alarm_id <$> cl_reqs c' /\
      (clean c -> clean c')
  | Fault f => benign f
  end.
Proof.
  intros Hc. unfold request_alarm_cb. rewrite (M_bind_run _ _ _ _ _ eq_refl).
  destruct (find_first _ _) as [p|] eqn:Hf.
  2:{ split; [done|]. split; [apply sched_keeps_refl|]. split; [by intros a|]. split; [|done].
      intros (r & -> & Hr)%list_elem_of_fmap. rewrite find_first_None, Forall_forall in Hf.
      specialize (Hf r Hr). by apply bool_decide_eq_false in Hf. }
  destruct (find_first_Some _ _ _ Hf) as [Hin _].
  pose proof (run_ok (rq_callback p) (rq_uri p) ATLAS_COAP_RESP_TIMEOUT None c Hc
    (ex_intro _ p (conj Hin eq_refl))) as Hm.
  unfold mbind, M_bind. destruct (run _ _ _ _ c) as [[[] c1]|f]; [|done].
  destruct Hm as [Hc1 [Hs Hg Ha]]. cbn.
  destruct (find_first_upd (rq_has_alarm id) _ _ _ (fun _ => eq_refl)
              (reqs_upd_grow _ _ _ eq_refl Hg) Hf) as (l1 & r & l2 & Hl & Hr & Hrm & Hmark).
  rewrite Hr, Hrm. destruct (req_unique _ _ _ _ Hc1 Hl) as [Hnctx Hnal].
  apply find_first_Some in Hr as [_ Hid%bool_decide_eq_true].
  unfold atlas_sched_del_entry, call_, modify. cbn.
  set (c2 := set_sched (sched_mark (rq_coap_fd r) (cl_sched c1)) (set_reqs (l1 ++ l2) c1)).
  assert (Hc2 : client_inv c2) by (apply inv_set_sched; by eapply inv_del_req).
  destruct (coap_session_release_law (rq_session r) (cl_ext c2)) as [Hy1 Hy2].
  set (c4 := set_ext (coap_session_release (rq_session r) (cl_ext c2)) c2).
  assert (Hc4 : client_inv c4) by (eapply same_tables_inv; [|exact Hc2]; by repeat split).
  split; [by apply (inv_free_context (rq_ctx r) c4 Hc4)|].
  split; [eapply sched_keeps_trans; [exact Hs|apply sched_keeps_mark]|].
  split; [done|]. split; [by rewrite <- Hid|]. intros Hcl r' Hr'. cbn in Hr'.
  destruct Hg as (new & Hnew & Hcn). rewrite Forall_forall in Hcn.
  assert (Hr2 : r' ∈ cl_reqs c1) by (rewrite Hl; set_solver).
  rewrite Hnew in Hr2. apply elem_of_app in Hr2 as [?|?]; auto.
Qed.

(** ** A valid response completes its request *)

(** Some pending request of the context is marked for deletion. *)
Definition marked (ctx : Z) (l : list coap_req) : Prop :=
  exists r, r ∈ l /\ rq_ctx r = ctx /\ rq_dirty r = true.

Lemma marked_grow ctx l l' : marked ctx l -> reqs_grow l l' -> marked ctx l'.
Proof. intros (r & Hr & Hm) (new & -> & _). exists r. split; [apply elem_of_app; auto|done]. Qed.

Lemma marked_found ctx session l r :
  find_first (rq_has_session ctx session) l = Some r ->
  marked ctx (update_first (rq_has_session ctx session) rq_mark l).
Proof.
  intros (l1 & l2 & -> & Hl1 & Hr)%split_first. exists (rq_mark r).
  rewrite update_first_app_r by done. cbn [update_first]. rewrite Hr. split; [set_solver|].
  by apply bool_decide_eq_true in Hr as [? _].
Qed.

(** A message marks the request it matches, and never unmarks one. *)
Lemma message_marks ctx pdu c c' :
  client_inv c -> message_handler run ctx pdu c = Ok (tt, c') ->
  marked ctx (cl_reqs c) \/
  (exists r, find_first (rq_has_session ctx (pdu_session pdu)) (cl_reqs c) = Some r /\
     validate_token pdu (rq_token r) = true) ->
  marked ctx (cl_reqs c').
Proof.
  intros Hc. unfold message_handler. rewrite (M_bind_run _ _ _ _ _ eq_refl).
  destruct (find_first _ _) as [ent|] eqn:Hf.
  2:{ intros [= <-] [Hm|(r & ? & _)]; done. }
  destruct (validate_token pdu (rq_token ent)) eqn:Hv; cbn [negb].
  2:{ intros Hrun [Hm|(r & [= <-] & Hv')]; [|congruence].
      unfold when in Hrun. by destruct (_ && _); injection Hrun as <-. }
  set (P := rq_has_session ctx (pdu_session pdu)) in *.
  set (c1 := set_reqs (update_first P rq_mark (cl_reqs c)) c).
  rewrite (M_bind_run (modify _) _ _ tt c1 eq_refl).
  assert (Hc1 : client_inv c1) by (apply inv_same_reqs; [done|apply same_reqs_update]).
  assert (Hin : exists r, r ∈ cl_reqs c1 /\ rq_callback r = rq_callback ent).
  { apply split_first in Hf as (l1 & l2 & Hl & Hl1 & Hp). exists (rq_mark ent). split; [|done].
    cbn. rewrite Hl, update_first_app_r by done. cbn. rewrite Hp. set_solver. }
  intros Hrun _.
  assert (exists resp payload, run (rq_callback ent) (rq_uri ent) resp payload c1 = Ok (tt, c'))
    as (resp & payload & Hr) by (repeat case_decide; eauto).
  pose proof (run_ok (rq_callback ent) (rq_uri ent) resp payload c1 Hc1 Hin) as Hok.
  rewrite Hr in Hok. destruct Hok as [_ [_ Gr _]]. eapply marked_grow; [|exact Gr].
  cbn. by eapply marked_found.
Qed.

(** The request a message of its context, session and token finds. *)
Lemma find_session l1 r l2 c :
  client_inv c -> cl_reqs c = l1 ++ r :: l2 ->
  find_first (rq_has_session (rq_ctx r) (rq_session r)) (cl_reqs c) = Some r.
Proof.
  intros Hc Hl. destruct (req_unique _ _ _ _ Hc Hl) as [Hn _]. rewrite Hl, find_first_app.
  rewrite (proj2 (find_first_None _ l1)).
  - cbn. unfold rq_has_session at 1. by rewrite bool_decide_true.
  - apply Forall_forall. intros x Hx. apply bool_decide_eq_false. intros [Heq _]. apply Hn.
    rewrite <- Heq. apply list_elem_of_fmap_2, elem_of_app. by left.
Qed.

Lemma messages_mark ctx pdus c c' :
  client_inv c -> handle_messages run ctx pdus c = Ok (tt, c') ->
  marked ctx (cl_reqs c) \/
  (exists r pdu, r ∈ cl_reqs c /\ rq_ctx r = ctx /\ pdu ∈ pdus /\
     pdu_session pdu = rq_session r /\ pdu_token pdu = st32 (rq_token r)) ->
  marked ctx (cl_reqs c').
Proof.
  revert c. induction pdus as [|pdu pdus IH]; intros c Hc; cbn [handle_messages].
  { intros [= <-] [Hm|(r & p & _ & _ & Hp & _)]; [done|by apply not_elem_of_nil in Hp]. }
  intros Hrun Hcase. apply M_bind_inv in Hrun as ([] & c1 & Hm & Hrest).
  pose proof (message_handler_ok ctx pdu c Hc) as Hok. rewrite Hm in Hok.
  destruct Hok as (Hc1 & Hu & _). apply (IH c1); [done|done|].
  destruct Hcase as [Hmk|(r & p & Hr & Hctx & [->|Hp]%elem_of_cons & Hs & Ht)].
  - left. apply (message_marks ctx pdu c c1 Hc Hm). by left.
  - left. apply (message_marks ctx pdu c c1 Hc Hm). right. exists r. rewrite Hs, <- Hctx.
    apply list_elem_of_split in Hr as (l1 & l2 & Hl). split; [by eapply find_session|].
    unfold validate_token. rewrite Ht. apply andb_true_iff. split; apply bool_decide_eq_true; [|done].
    unfold st32. by destruct host_le.
  - right. destruct Hu as (l0 & new & Hl & Hsame).
    assert (Hr0 : rq_mark r ∈ rq_mark <$> l0) by (rewrite Hsame; by apply list_elem_of_fmap_2).
    apply list_elem_of_fmap in Hr0 as (r0 & Hmk & Hr0). exists r0, p. rewrite Hl.
    assert (rq_ctx r = rq_ctx r0 /\ rq_session r = rq_session r0 /\ rq_token r = rq_token r0)
      as (E1 & E2 & E3) by (destruct r, r0; injection Hmk; auto).
    split; [set_solver|]. rewrite <- E1, <- E2, <- E3. auto.
Qed.

(** After the scheduler callback of a request whose response has arrived, the
    request, its alarm and its context are gone. *)
Lemma response_deletes l1 r l2 pdus x pdu c c' :
  client_inv c -> cl_reqs c = l1 ++ r :: l2 -> Forall (fun q => rq_has_fd (rq_coap_fd r) q = false) l1 ->
  coap_io_process (rq_ctx r) (cl_ext c) = (pdus, x) -> pdu ∈ pdus ->
  pdu_session pdu = rq_session r -> pdu_token pdu = st32 (rq_token r) ->
  coap_client_sched_callback run (rq_coap_fd r) c = Ok (tt, c') ->
  rq_ctx r ∉ rq_ctx <$> cl_reqs c' /\ rq_alarm_id r ∉ rq_alarm_id <$> cl_reqs c' /\
  rq_alarm_id r ∉ al_id <$> cl_alarms c' /\ rq_ctx r ∉ ctxs (cl_ext c').
Proof.
  intros Hc Hl Hl1 Hio Hpdu Hs Ht. unfold coap_client_sched_callback.
  rewrite (M_bind_run _ _ _ _ _ eq_refl).
  assert (Hf : find_first (rq_has_fd (rq_coap_fd r)) (cl_reqs c) = Some r).
  { rewrite Hl, find_first_app, (proj2 (find_first_None _ l1) Hl1). cbn. unfold rq_has_fd at 1.
    by rewrite bool_decide_true. }
  rewrite Hf. set (c0 := set_ext x c). rewrite (M_bind_run (call _) _ _ pdus c0)
    by (unfold call; by rewrite Hio).
  assert (Hc0 : client_inv c0).
  { eapply same_tables_inv; [|exact Hc]. pose proof (coap_io_process_law (rq_ctx r) (cl_ext c)) as Hx.
    rewrite Hio in Hx. repeat split; apply Hx. }
  intros Hrun. apply M_bind_inv in Hrun as ([] & c1 & Hm & Hrest).
  pose proof (handle_messages_ok (rq_ctx r) pdus c0 Hc0) as Hok. rewrite Hm in Hok.
  destruct Hok as (Hc1 & Hu & _).
  destruct (messages_mark (rq_ctx r) pdus c0 c1 Hc0 Hm) as (m & Hmin & Hmctx & Hmd).
  { right. exists r, pdu. cbn. rewrite Hl. split; [set_solver|done]. }
  destruct (find_first_upd (rq_has_fd (rq_coap_fd r)) _ _ _ (fun _ => eq_refl) Hu Hf)
    as (k1 & r' & k2 & Hk & Hr' & Hrm & Hmark).
  assert (rq_ctx r' = rq_ctx r /\ rq_alarm_id r' = rq_alarm_id r) as [E1 E2]
    by (destruct r, r'; injection Hmark; auto).
  destruct (req_unique _ _ _ _ Hc1 Hk) as [Hnc Hna]. rewrite E1 in Hnc. rewrite E2 in Hna.
  assert (rq_dirty r' = true) as Hd.
  { rewrite Hk, cons_middle, !elem_of_app, list_elem_of_singleton in Hmin.
    destruct Hmin as [Hin|[->|Hin]]; [|done|]; destruct Hnc; rewrite <- Hmctx;
      apply list_elem_of_fmap_2; set_solver. }
  rewrite (M_bind_run _ _ _ _ _ eq_refl), Hr', Hd, Hrm in Hrest.
  destruct (delete_request_ok _ _ _ _ Hc1 Hk) as (c2 & Hdel & _ & Hr2 & _ & Ha2 & Hx2).
  rewrite Hdel in Hrest. injection Hrest as <-. rewrite Hr2, Ha2, E2. rewrite E1 in Hx2.
  repeat split; [done|done| |done]. intros (a & Hid & [Hne _]%list_elem_of_filter)%list_elem_of_fmap.
  congruence.
Qed.
End Completion.

(** * Theorems *)

(** A request either fails, and then the only trace it leaves in the process
    is the advanced token counter (no alarm, no scheduler entry, no pending
    request, no message), or it is sent, and then exactly one pending request, its
    run-once timeout alarm and the scheduler entries of the two have been appended,
    and one message with a fresh context and the old token has gone out. The one
    other outcome is a host name that resolves to no IPv4 or IPv6 address. *)
Theorem request_all_or_nothing `{E : Env} `{!EnvLaws E} `{HostEndian}
    (uri : option (list byte)) (method : atlas_coap_method) (payload : option (list byte))
    (timeout : Z) (cb : option coap_cb) (c : client) :
  request_outcome uri method payload cb c
    (atlas_coap_client_request uri method payload timeout cb c).
Proof. apply request_cases. Qed.

(** The response a PDU stands for, for the callback. *)
Definition pdu_response (pdu : coap_pdu) : atlas_coap_response :=
  if decide (pdu_type pdu = MSG_RST) then ATLAS_COAP_RESP_RESET
  else if decide (COAP_RESPONSE_CLASS (pdu_code pdu) = 2) then ATLAS_COAP_RESP_OK
  else if decide (COAP_RESPONSE_CLASS (pdu_code pdu) = 4) then ATLAS_COAP_RESP_NOT_FOUND
  else ATLAS_COAP_RESP_UNKNOWN.

(** A received message runs a callback exactly when its context and session
    are those of a pending request and its token is that request's four bytes; it
    then runs that request's callback once, on the state in which the request is
    marked for deletion, with the payload for a success and none otherwise. A
    message with another token changes nothing but may be answered with a reset. *)
Theorem response_matched `{E : Env} `{!EnvLaws E} `{HostEndian}
    (run : coap_cb -> list byte -> atlas_coap_response -> option (list byte) -> M unit)
    (pdu : coap_pdu) (c : client) (l1 l2 : list coap_req) (r : coap_req) :
  cl_reqs c = l1 ++ r :: l2 -> NoDup (rq_ctx <$> cl_reqs c) -> pdu_session pdu = rq_session r ->
  message_handler run (rq_ctx r) pdu c =
  if decide (pdu_token pdu = st32 (rq_token r)) then
    run (rq_callback r) (rq_uri r) (pdu_response pdu)
      (if decide (pdu_response pdu = ATLAS_COAP_RESP_OK) then pdu_data pdu else None)
      (set_reqs (l1 ++ rq_mark r :: l2) c)
  else
    Ok (tt, if bool_decide (pdu_type pdu = MSG_CON \/ pdu_type pdu = MSG_NON) && negb (pdu_sent pdu)
            then set_out (cl_out c ++ [EvCoapRst (pdu_session pdu)]) c else c).
Proof.
  intros Hl Hnd Hs. unfold message_handler. rewrite (M_bind_run _ _ _ _ _ eq_refl).
  set (P := rq_has_session (rq_ctx r) (pdu_session pdu)).
  assert (Hl1 : Forall (fun x => P x = false) l1).
  { apply Forall_forall. intros x Hx. apply bool_decide_eq_false. intros [Hc _].
    rewrite Hl, fmap_app, fmap_cons in Hnd. apply NoDup_app in Hnd as (_ & Hd & _).
    apply (Hd (rq_ctx x)); [by apply list_elem_of_fmap_2|]. rewrite Hc. apply elem_of_cons. auto. }
  assert (Hr : P r = true) by (by apply bool_decide_eq_true).
  assert (Hfind : find_first P (cl_reqs c) = Some r).
  { rewrite Hl, find_first_app, (proj2 (find_first_None P l1) Hl1). cbn. by rewrite Hr. }
  assert (Hupd : update_first P rq_mark (cl_reqs c) = l1 ++ rq_mark r :: l2).
  { rewrite Hl, update_first_app_r by done. cbn. by rewrite Hr. }
  rewrite Hfind, Hupd. unfold validate_token.
  destruct (decide (pdu_token pdu = st32 (rq_token r))) as [Htok|Htok].
  - assert (blen (st32 (rq_token r)) = 4) as Hlen by (unfold st32; by destruct host_le).
    rewrite Htok, (bool_decide_true (blen _ = 4)), (bool_decide_true (st32 _ = _)) by done.
    cbn [negb andb].
    rewrite (M_bind_run (modify _) _ _ tt (set_reqs (l1 ++ rq_mark r :: l2) c) eq_refl).
    unfold pdu_response. by repeat case_decide.
  - rewrite (bool_decide_false (_ = st32 _)) by done. rewrite andb_false_r. cbn [negb].
    by destruct (_ && _).
Qed.

(** A request that waits for its response, alone, and the response. *)
Definition waiting : @client sim_env :=
  set_reqs [mk_coap_req 3 4 3 3 (cstr "coaps://gw:10100/gateway/register") 7 cb_reg_callback false]
    (sim_boot sim0).

Lemma response_matched_witness :
  @message_handler sim_env true (fun _ _ _ _ => mret tt) 3
    (mk_pdu 3 true MSG_ACK [x07; x00; x00; x00] 69 None) waiting =
  Ok (tt, set_reqs (rq_mark <$> cl_reqs waiting) waiting).
Proof.
  rewrite (@response_matched sim_env sim_laws true (fun _ _ _ _ => mret tt)
    (mk_pdu 3 true MSG_ACK [x07; x00; x00; x00] 69 None) waiting [] []
    (mk_coap_req 3 4 3 3 (cstr "coaps://gw:10100/gateway/register") 7 cb_reg_callback false)).
  - by rewrite decide_True.
  - done.
  - apply NoDup_singleton.
  - done.
Defined.
