(* ===== verification/Identity.v ===== *)
(** The client's identity and pre-shared key (identity/atlas_identity.c): read
    from two files, or generated and stored there the first time. *)
From S2P Require Import Prelude Defs CLib State SimEnv Sched Alarm Safety.

Definition ATLAS_IDENTITY_FILE : string := "atlas_client.identity".
Definition ATLAS_PSK_FILE : string := "atlas_client.psk".
Definition ATLAS_IDENTITY_LEN : Z := 64.
Definition ATLAS_PSK_LEN : Z := 64.

Section Identity.
Context {E : Env}.

(** The statics are zeroed buffers one byte longer than what is read into them:
    their C strings are the bytes before the first NUL. *)
Definition set_identity (s : list byte) (c : client) : client :=
  set_ids (mk_identities (until_nul s) (id_psk (cl_ids c))) c.
Definition set_psk (s : list byte) (c : client) : client :=
  set_ids (mk_identities (id_identity (cl_ids c)) (until_nul s)) c.

Definition atlas_generate_identity : M atlas_status :=
  fd ← call (file_create ATLAS_IDENTITY_FILE);
  if negb fd then mret ATLAS_IDENTITY_FILE_ERROR else
  (* Generate identity *)
  uuid ← call uuid_generate;
  _ ← modify (set_identity uuid);
  identity ← gets (fun c => id_identity (cl_ids c));
  _ ← call_ (file_write ATLAS_IDENTITY_FILE identity);
  mret ATLAS_OK.

(** [to_base64]: the encoding, cut at the size of the output. *)
Definition to_base64 (in_ : list byte) (out_len : Z) : list byte :=
  take (Z.to_nat out_len) (BIO_f_base64 in_).

Definition atlas_generate_psk : M atlas_status :=
  fd ← call (file_create ATLAS_PSK_FILE);
  if negb fd then mret ATLAS_PSK_FILE_ERROR else
  (* Generate PSK *)
  rand ← call (RAND_bytes (ATLAS_PSK_LEN / 2));
  match rand with
  | None => mret ATLAS_PSK_FILE_ERROR
  | Some rand_bytes =>
      let out := to_base64 rand_bytes ATLAS_PSK_LEN in
      _ ← modify (set_psk out);
      (* write(fd, psk, sizeof(psk)): the whole zero-padded buffer *)
      _ ← call_ (file_write ATLAS_PSK_FILE
                   (out ++ replicate (Z.to_nat (ATLAS_PSK_LEN + 1) - length out) x00));
      mret ATLAS_OK
  end.

(** The label ERR. *)
Definition identity_err (status : atlas_status) : M atlas_status :=
  _ ← call_ (file_remove ATLAS_IDENTITY_FILE);
  _ ← call_ (file_remove ATLAS_PSK_FILE);
  mret status.

Definition atlas_identity_init : M atlas_status :=
  (* Get identity *)
  file ← call (file_read ATLAS_IDENTITY_FILE ATLAS_IDENTITY_LEN);
  status ← match file with
    | None =>
        status ← atlas_generate_identity;
        mret (if decide (status <> ATLAS_OK) then ATLAS_IDENTITY_FILE_ERROR else ATLAS_OK)
    | Some bytes =>
        _ ← modify (set_identity bytes);
        mret (if decide (blen bytes <= 0) then ATLAS_IDENTITY_FILE_ERROR else ATLAS_OK)
    end;
  if decide (status <> ATLAS_OK) then identity_err status else
  (* Get PSK *)
  file ← call (file_read ATLAS_PSK_FILE ATLAS_PSK_LEN);
  status ← match file with
    | None =>
        status ← atlas_generate_psk;
        mret (if decide (status <> ATLAS_OK) then ATLAS_PSK_FILE_ERROR else ATLAS_OK)
    | Some bytes =>
        _ ← modify (set_psk bytes);
        mret (if decide (blen bytes <= 0) then ATLAS_PSK_FILE_ERROR else ATLAS_OK)
    end;
  if decide (status <> ATLAS_OK) then identity_err status else
  mret ATLAS_OK.

Definition atlas_identity_get : M (list byte) := gets (fun c => id_identity (cl_ids c)).
Definition atlas_psk_get : M (list byte) := gets (fun c => id_psk (cl_ids c)).
End Identity.

(** * Theorems *)

(** What the files hold, and how the calls of this module act on them: a read gives
    the first bytes of the file if there is one, a creation empties it, a write
    appends, a removal deletes; a UUID is a non-empty text that fits the buffer. *)
Class FileLaws (E : Env) := {
  files : ext -> gmap string (list byte);
  file_read_files p n x :
    (file_read p n x).1 = take (Z.to_nat n) <$> files x !! p /\ files (file_read p n x).2 = files x;
  file_create_files p x :
    files (file_create p x).2 = if (file_create p x).1 then <[p := []]> (files x) else files x;
  file_write_files p d x :
    files (file_write p d x) = <[p := default [] (files x !! p) ++ d]> (files x);
  file_remove_files p x : files (file_remove p x) = delete p (files x);
  uuid_generate_files x : files (uuid_generate x).2 = files x;
  uuid_text x : 0 < blen (until_nul (uuid_generate x).1) <= ATLAS_IDENTITY_LEN;
  RAND_bytes_files n x : files (RAND_bytes n x).2 = files x;
}.

Lemma until_nul_zeros s n : until_nul (s ++ replicate n x00) = until_nul s.
Proof.
  induction s as [|b s IH]; [by destruct n|]. cbn. destruct (decide (b = x00)); [done|]. by rewrite IH.
Qed.

Section IdentityFacts.
Context {E : Env} `{!FileLaws E}.

(** A file whose first [n] bytes give the string [s]. *)
Definition holds (x : ext) (p : string) (n : Z) (s : list byte) : Prop :=
  exists bytes, files x !! p = Some bytes /\ 0 < blen (take (Z.to_nat n) bytes) /\
    until_nul (take (Z.to_nat n) bytes) = s.

(** What either half of [atlas_identity_init] does when it succeeds. *)
Definition stored (p : string) (get : client -> list byte) (c : client) : Prop :=
  holds (cl_ext c) p 64 (get c).

Lemma holds_files x x' p n s : files x' = files x -> holds x p n s -> holds x' p n s.
Proof. unfold holds. by intros ->. Qed.

Lemma generate_identity_ok c c' :
  atlas_generate_identity c = Ok (ATLAS_OK, c') ->
  stored ATLAS_IDENTITY_FILE (fun c => id_identity (cl_ids c)) c' /\
  id_psk (cl_ids c') = id_psk (cl_ids c) /\
  (forall p, p <> ATLAS_IDENTITY_FILE -> files (cl_ext c') !! p = files (cl_ext c) !! p).
Proof.
  unfold atlas_generate_identity. intros Hrun. apply M_bind_inv in Hrun as (fd & c1 & H1 & Hrun).
  unfold call in H1. pose proof (file_create_files ATLAS_IDENTITY_FILE (cl_ext c)) as Hf1.
  destruct (file_create _ _) as [b x1]. injection H1 as -> <-. destruct fd; cbn in Hf1, Hrun; [|done].
  apply M_bind_inv in Hrun as (uuid & c2 & H2 & Hrun). unfold call in H2. cbn in H2.
  pose proof (uuid_generate_files x1) as Hf2. pose proof (uuid_text x1) as Hu.
  destruct (uuid_generate x1) as [u x2]. injection H2 as -> <-. cbn in Hf2, Hu.
  injection Hrun as <-. unfold stored, holds. cbn.
  rewrite file_write_files, Hf2, Hf1, lookup_insert_eq. cbn [default from_option app].
  unfold ATLAS_IDENTITY_LEN in Hu. split; [|split; [done|]].
  - exists (until_nul uuid). split; [by rewrite lookup_insert_eq|].
    rewrite take_ge by (unfold blen in Hu; lia). split; [lia|]. apply until_nul_idem.
  - intros p Hp. by rewrite !lookup_insert_ne.
Qed.

Lemma generate_psk_ok c c' :
  atlas_generate_psk c = Ok (ATLAS_OK, c') ->
  stored ATLAS_PSK_FILE (fun c => id_psk (cl_ids c)) c' /\
  id_identity (cl_ids c') = id_identity (cl_ids c) /\
  (forall p, p <> ATLAS_PSK_FILE -> files (cl_ext c') !! p = files (cl_ext c) !! p).
Proof.
  unfold atlas_generate_psk. intros Hrun. apply M_bind_inv in Hrun as (fd & c1 & H1 & Hrun).
  unfold call in H1. pose proof (file_create_files ATLAS_PSK_FILE (cl_ext c)) as Hf1.
  destruct (file_create _ _) as [b x1]. injection H1 as -> <-. destruct fd; cbn in Hf1, Hrun; [|done].
  apply M_bind_inv in Hrun as (rand & c2 & H2 & Hrun). unfold call in H2. cbn in H2.
  pose proof (RAND_bytes_files (ATLAS_PSK_LEN / 2) x1) as Hf2.
  destruct (RAND_bytes _ x1) as [r x2]. injection H2 as -> <-. cbn in Hf2. destruct rand as [rb|]; [|done].
  assert (Hlen : (length (to_base64 rb ATLAS_PSK_LEN) <= 64)%nat).
  { unfold to_base64. rewrite length_take. change (Z.to_nat ATLAS_PSK_LEN) with 64%nat. lia. }
  cbv zeta in Hrun. revert Hrun Hlen. generalize (to_base64 rb ATLAS_PSK_LEN). intros out [= <-] Hlen.
  unfold stored, holds. cbn [cl_ext cl_ids set_ext set_ids set_psk id_psk id_identity].
  rewrite file_write_files, Hf2, Hf1, lookup_insert_eq. cbn [default from_option app].
  split; [|split; [done|]].
  - eexists. split; [by rewrite lookup_insert_eq|]. cbn [cl_ids].
    change (Z.to_nat (ATLAS_PSK_LEN + 1)) with 65%nat. change (Z.to_nat 64) with 64%nat.
    change (default [] (Some []) ++ ?l) with l. rewrite take_app, (take_ge out) by lia. rewrite take_replicate, until_nul_zeros. split; [|done].
    unfold blen. rewrite length_app, length_replicate. lia.
  - intros p Hp. by rewrite !lookup_insert_ne.
Qed.

Lemma read_string_ok p n x bytes x' :
  file_read p n x = (Some bytes, x') -> 0 < blen bytes -> holds x' p n (until_nul bytes).
Proof.
  intros Hr Hpos. destruct (file_read_files p n x) as [H1 H2]. rewrite Hr in H1, H2. cbn in H1, H2.
  destruct (files x !! p) as [f|] eqn:Hf; [|done]. injection H1 as ->. exists f. by rewrite H2.
Qed.

(** A successful start leaves both files holding what the process uses. *)
Lemma identity_init_stored c c' :
  atlas_identity_init c = Ok (ATLAS_OK, c') ->
  stored ATLAS_IDENTITY_FILE (fun c => id_identity (cl_ids c)) c' /\
  stored ATLAS_PSK_FILE (fun c => id_psk (cl_ids c)) c'.
Proof.
  unfold atlas_identity_init. intros Hrun. apply M_bind_inv in Hrun as (file & c1 & H1 & Hrun).
  unfold call in H1. destruct (file_read ATLAS_IDENTITY_FILE _ _) as [f x1] eqn:Hr1. injection H1 as -> <-.
  apply M_bind_inv in Hrun as (st & c2 & H2 & Hrun).
  destruct (decide (st <> ATLAS_OK)) as [Hst|Hst].
  { unfold identity_err in Hrun. injection Hrun as -> _. done. }
  assert (Hid : stored ATLAS_IDENTITY_FILE (fun c => id_identity (cl_ids c)) c2).
  { destruct file as [bytes|].
    - injection H2 as <- <-. destruct (decide (blen bytes <= 0)); [by destruct Hst|].
      cbn. apply (read_string_ok _ _ _ _ _ Hr1). lia.
    - apply M_bind_inv in H2 as (st' & c3 & H3 & [= <- <-]).
      destruct (decide (st' <> ATLAS_OK)); [by destruct Hst|].
      assert (st' = ATLAS_OK) as -> by (by destruct (decide (st' = ATLAS_OK))).
      by apply generate_identity_ok in H3 as [? _]. }
  apply M_bind_inv in Hrun as (file2 & c3 & H3 & Hrun). unfold call in H3.
  destruct (file_read ATLAS_PSK_FILE _ _) as [f2 x2] eqn:Hr2. injection H3 as -> <-.
  apply M_bind_inv in Hrun as (st2 & c4 & H4 & Hrun).
  destruct (decide (st2 <> ATLAS_OK)) as [Hst2|Hst2].
  { unfold identity_err in Hrun. injection Hrun as -> _. done. }
  injection Hrun as <-. pose proof (proj2 (file_read_files ATLAS_PSK_FILE ATLAS_PSK_LEN (cl_ext c2))) as Hf2.
  rewrite Hr2 in Hf2. cbn in Hf2.
  destruct file2 as [bytes|].
  - injection H4 as <- <-. destruct (decide (blen bytes <= 0)); [by destruct Hst2|]. split.
    + unfold stored in *. cbn. by eapply holds_files.
    + cbn. apply (read_string_ok _ _ _ _ _ Hr2). lia.
  - apply M_bind_inv in H4 as (st' & c5 & H5 & [= <- <-]).
    destruct (decide (st' <> ATLAS_OK)); [by destruct Hst2|].
    assert (st' = ATLAS_OK) as -> by (by destruct (decide (st' = ATLAS_OK))).
    apply generate_psk_ok in H5 as (Hpsk & Heq & Hother). split; [|done].
    destruct Hid as (bytes & Hb & Hpos & Hu). unfold stored. rewrite Heq. exists bytes.
    rewrite Hother by done. cbn. rewrite Hf2. done.
Qed.

(** A start with both files in place reads them. *)
Lemma identity_init_reads c s1 s2 :
  holds (cl_ext c) ATLAS_IDENTITY_FILE 64 s1 -> holds (cl_ext c) ATLAS_PSK_FILE 64 s2 ->
  exists c', atlas_identity_init c = Ok (ATLAS_OK, c') /\ cl_ids c' = mk_identities s1 s2 /\
    files (cl_ext c') = files (cl_ext c).
Proof.
  intros (b1 & Hb1 & Hp1 & Hu1) (b2 & Hb2 & Hp2 & Hu2). unfold atlas_identity_init, mbind, M_bind, call.
  destruct (file_read_files ATLAS_IDENTITY_FILE ATLAS_IDENTITY_LEN (cl_ext c)) as [F1 F2].
  destruct (file_read ATLAS_IDENTITY_FILE _ _) as [f1 x1]. cbn [fst snd] in F1, F2.
  rewrite Hb1 in F1. subst f1. cbn [fmap option_fmap option_map].
  change (Z.to_nat ATLAS_IDENTITY_LEN) with (Z.to_nat 64). unfold modify. cbn [mret M_ret].
  rewrite (decide_False (P := blen (take (Z.to_nat 64) b1) <= 0)) by lia.
  rewrite decide_False by auto. cbn [cl_ext set_ext set_identity set_ids].
  destruct (file_read_files ATLAS_PSK_FILE ATLAS_PSK_LEN x1) as [G1 G2].
  destruct (file_read ATLAS_PSK_FILE _ _) as [f2 x2]. cbn [fst snd] in G1, G2.
  rewrite F2, Hb2 in G1. subst f2. cbn [fmap option_fmap option_map].
  change (Z.to_nat ATLAS_PSK_LEN) with (Z.to_nat 64).
  cbn [mret M_ret]. rewrite (decide_False (P := blen (take (Z.to_nat 64) b2) <= 0)) by lia.
  rewrite decide_False by auto.
  eexists. split; [reflexivity|]. cbn. rewrite Hu1, Hu2, G2, F2. done.
Qed.
End IdentityFacts.

(** The identity and the key survive a restart: whatever the first start found
    (both files, one of them or none), if it succeeded then a process started
    afterwards on the same files succeeds too, has the same identity and the same
    key, and leaves the files as they are. *)
Theorem identity_persists `{E : Env} `{!FileLaws E} (c c1 : client) (c0 : client) :
  atlas_identity_init c = Ok (ATLAS_OK, c1) -> files (cl_ext c0) = files (cl_ext c1) ->
  exists c2, atlas_identity_init c0 = Ok (ATLAS_OK, c2) /\ cl_ids c2 = cl_ids c1 /\
    files (cl_ext c2) = files (cl_ext c1).
Proof.
  intros Hrun Hf. destruct (identity_init_stored c c1 Hrun) as [H1 H2].
  destruct (identity_init_reads c0 (id_identity (cl_ids c1)) (id_psk (cl_ids c1))) as (c2 & Hr & Hi & Hx).
  - by apply (holds_files (cl_ext c1)).
  - by apply (holds_files (cl_ext c1)).
  - exists c2. split; [done|]. rewrite Hi, Hx, Hf. by destruct (cl_ids c1).
Qed.

(** ** Witness: the simulated file system *)

Lemma sim_file_lookup p x : sim_file p x = (list_to_map (sim_files x) : gmap string (list byte)) !! p.
Proof.
  unfold sim_file. induction (sim_files x) as [|[q d] l IH]; [done|]. cbn [find_first list_to_map fst].
  destruct (decide (q = p)) as [->|Hne].
  - rewrite bool_decide_true by done. cbn. by rewrite lookup_insert_eq.
  - rewrite bool_decide_false by done. cbn. by rewrite lookup_insert_ne.
Qed.

Lemma sim_remove_map p l :
  list_to_map (filter (fun f : string * list byte => f.1 <> p) l) =
  delete p (list_to_map l : gmap string (list byte)).
Proof.
  induction l as [|[q d] l IH]; [symmetry; apply delete_empty|]. rewrite filter_cons. cbn [fst].
  destruct (decide (q = p)) as [->|Hne].
  - rewrite decide_False by auto. cbn. by rewrite delete_insert_eq.
  - rewrite decide_True by done. cbn. by rewrite delete_insert_ne, IH by done.
Qed.

#[export] Program Instance sim_file_laws : FileLaws sim_env := {|
  files := fun x : @ext sim_env => list_to_map (sim_files x)
|}.
Next Obligation. intros p n x. cbn. by rewrite sim_file_lookup. Qed.
Next Obligation. intros p x. cbn. by rewrite sim_remove_map, insert_delete_eq. Qed.
Next Obligation. intros p d x. cbn. by rewrite sim_remove_map, insert_delete_eq, sim_file_lookup. Qed.
Next Obligation. intros p x. apply sim_remove_map. Qed.
Next Obligation. done. Qed.
Next Obligation. done. Qed.
Next Obligation. done. Qed.

Definition started : @client sim_env :=
  exec (@atlas_identity_init sim_env) (sim_boot sim0).

Lemma identity_persists_witness :
  exists c2, @atlas_identity_init sim_env (sim_boot (cl_ext started)) = Ok (ATLAS_OK, c2) /\
    cl_ids c2 = cl_ids started.
Proof.
  destruct (@identity_persists sim_env sim_file_laws (sim_boot sim0) started (sim_boot (cl_ext started)))
    as (c2 & H1 & H2 & _).
  - unfold started. apply result_ok. eval_refl.
  - by rewrite sim_boot_ext.
  - by exists c2.
Defined.
