(* ===== verification/AlertUtils.v ===== *)
(** The parsers of telemetry alert commands (telemetry/atlas_alert_utils.c). The
    out parameters are values that the caller passes in and gets back. *)
From S2P Require Import Prelude Defs CLib Command.

Section AlertUtils.
Context `{HostEndian}.

(** The body of the loop of [atlas_alert_push_cmd_parse]: the push rate and
    [push_found]; the first match leaves the loop. *)
Definition push_body (s : Z * bool) (cmd : atlas_cmd) : res ((Z * bool) * bool) :=
  let '(push_rate, push_found) := s in
  if bool_decide (cmd_type cmd = cmd_code ATLAS_CMD_TELEMETRY_ALERT_EXT_PUSH_RATE) &&
     bool_decide (cmd_length cmd = 2)
  then
    raw ← mem_load (cmd_value cmd) 0 2;
    Ok ((ntohs (ld16 raw), true), true)
  else Ok ((push_rate, push_found), false).

Definition atlas_alert_push_cmd_parse (buf : option (list byte)) (buf_len : Z) (push_rate : Z)
  : res (atlas_status * Z) :=
  match buf with
  | None => Ok (ATLAS_INVALID_INPUT, push_rate)
  | Some bytes =>
      if decide (buf_len = 0) then Ok (ATLAS_INVALID_INPUT, push_rate) else
      '(status, cmd_batch) ← atlas_cmd_batch_set_raw (Some atlas_cmd_batch_new) buf buf_len;
      if decide (status <> ATLAS_OK) then Ok (ATLAS_CORRUPTED_COMMAND, push_rate) else
      '(push_rate, push_found) ← cmd_loop push_body cmd_batch (push_rate, false);
      Ok (if (push_found : bool) then ATLAS_OK else ATLAS_CORRUPTED_COMMAND, push_rate)
  end.

(** The body of the loop of [atlas_alert_threshold_cmd_parse]: scan rate,
    threshold string and [scan_found]; a threshold found before is leaked. *)
Definition threshold_body (s : Z * option (list byte) * bool) (cmd : atlas_cmd)
  : res ((Z * option (list byte) * bool) * bool) :=
  let '(scan_rate, threshold, scan_found) := s in
  if bool_decide (cmd_type cmd = cmd_code ATLAS_CMD_TELEMETRY_ALERT_INT_SCAN_RATE) &&
     bool_decide (cmd_length cmd = 2)
  then
    raw ← mem_load (cmd_value cmd) 0 2;
    Ok ((ntohs (ld16 raw), threshold, true), false)
  else if bool_decide (cmd_type cmd = cmd_code ATLAS_CMD_TELEMETRY_ALERT_THRESHOLD) &&
          bool_decide (cmd_length cmd > 0)
  then
    value ← mem_load (cmd_value cmd) 0 (cmd_length cmd);
    Ok ((scan_rate, Some value, scan_found), false)
  else Ok ((scan_rate, threshold, scan_found), false).

(** [threshold] is the address of the caller's pointer, never NULL: the test
    [!threshold] after the loop, meant for [*threshold], never fires. *)
Definition atlas_alert_threshold_cmd_parse (buf : option (list byte)) (buf_len : Z) (scan_rate : Z)
  : res (atlas_status * Z * option (list byte)) :=
  match buf with
  | None => Ok (ATLAS_INVALID_INPUT, scan_rate, None)
  | Some bytes =>
      if decide (buf_len = 0) then Ok (ATLAS_INVALID_INPUT, scan_rate, None) else
      '(status, cmd_batch) ← atlas_cmd_batch_set_raw (Some atlas_cmd_batch_new) buf buf_len;
      if decide (status <> ATLAS_OK) then Ok (ATLAS_CORRUPTED_COMMAND, scan_rate, None) else
      '(scan_rate, threshold, scan_found) ← cmd_loop threshold_body cmd_batch (scan_rate, None, false);
      if negb scan_found then Ok (ATLAS_CORRUPTED_COMMAND, scan_rate, None) else
      Ok (ATLAS_OK, scan_rate, threshold)
  end.
End AlertUtils.

(** * Specification *)

(** The rate of the first push-rate command with a two-byte value. *)
Fixpoint first_rate (cs : list cmd) : option Z :=
  match cs with
  | [] => None
  | (t, v) :: cs =>
      if decide (t = cmd_code ATLAS_CMD_TELEMETRY_ALERT_EXT_PUSH_RATE /\ blen v = 2)
      then Some (of_be16 v) else first_rate cs
  end.

(** The rate of the last scan-rate command with a two-byte value. *)
Fixpoint last_scan (cs : list cmd) : option Z :=
  match cs with
  | [] => None
  | (t, v) :: cs =>
      match last_scan cs with
      | Some r => Some r
      | None => if decide (t = cmd_code ATLAS_CMD_TELEMETRY_ALERT_INT_SCAN_RATE /\ blen v = 2)
                then Some (of_be16 v) else None
      end
  end.

(** The value of the last non-empty threshold command. *)
Fixpoint last_threshold (cs : list cmd) : option (list byte) :=
  match cs with
  | [] => None
  | (t, v) :: cs =>
      match last_threshold cs with
      | Some s => Some s
      | None => if decide (t = cmd_code ATLAS_CMD_TELEMETRY_ALERT_THRESHOLD /\ v <> [])
                then Some v else None
      end
  end.

Section AlertFacts.
Context `{HostEndian}.

Lemma load_rate v rest : blen v = 2 -> exists raw, mem_load (v ++ rest) 0 2 = Ok raw /\ ntohs (ld16 raw) = of_be16 v.
Proof.
  intros Hv. exists v. rewrite mem_load_prefix by done. split; [done|].
  destruct v as [|a [|b [|d v]]]; try done; [apply ntohs_ld16|].
  rewrite !blen_cons in Hv. blen_pos. lia.
Qed.

Lemma push_fold cs rate :
  fold_cmds push_body (rate, false) cs =
  Ok (match first_rate cs with Some r => (r, true) | None => (rate, false) end).
Proof.
  induction cs as [|[t v] cs IH]; [done|]. cbn [fold_cmds first_rate]. unfold push_body. cbn.
  destruct (decide _) as [[-> Hv]|Hn].
  - rewrite !bool_decide_true by done. cbn. destruct (load_rate v (encode cs) Hv) as (raw & -> & Hr). cbn. by rewrite Hr.
  - assert (bool_decide (t = _) && bool_decide (blen v = 2) = false) as ->.
    { apply andb_false_iff. rewrite !bool_decide_eq_false. destruct (decide (blen v = 2)); tauto. }
    apply IH.
Qed.

Lemma threshold_step rate thr found t v rest :
  threshold_body (rate, thr, found) (mk_cmd t (blen v) (v ++ rest)) =
  Ok (if decide (t = cmd_code ATLAS_CMD_TELEMETRY_ALERT_INT_SCAN_RATE /\ blen v = 2)
      then (of_be16 v, thr, true)
      else if decide (t = cmd_code ATLAS_CMD_TELEMETRY_ALERT_THRESHOLD /\ v <> [])
      then (rate, Some v, found) else (rate, thr, found), false).
Proof.
  unfold threshold_body. cbn [cmd_type cmd_length cmd_value].
  destruct (decide (t = _ /\ blen v = 2)) as [[-> Hv]|Hs].
  - rewrite !bool_decide_true by done. cbn [andb].
    destruct (load_rate v rest Hv) as (raw & -> & Hr). by rewrite res_bind_ok, Hr.
  - assert (bool_decide (t = _) && bool_decide (blen v = 2) = false) as ->.
    { apply andb_false_iff. rewrite !bool_decide_eq_false. destruct (decide (blen v = 2)); tauto. }
    destruct (decide (t = _ /\ v <> [])) as [[-> Hv]|Ht].
    + assert (blen v > 0) by (destruct v; [done|]; rewrite blen_cons; blen_pos; lia).
      rewrite !bool_decide_true by done. cbn [andb]. by rewrite mem_load_prefix.
    + assert (bool_decide (t = cmd_code ATLAS_CMD_TELEMETRY_ALERT_THRESHOLD) && bool_decide (blen v > 0) = false) as ->; [|done].
      apply andb_false_iff. rewrite !bool_decide_eq_false.
      destruct (decide (v = [])) as [->|]; [right; rewrite blen_nil; lia|tauto].
Qed.

Lemma threshold_fold cs rate thr found :
  fold_cmds threshold_body (rate, thr, found) cs =
  Ok (default rate (last_scan cs),
      match last_threshold cs with Some s => Some s | None => thr end,
      match last_scan cs with Some _ => true | None => found end).
Proof.
  revert rate thr found. induction cs as [|[t v] cs IH]; intros rate thr found; [done|].
  cbn [fold_cmds last_scan last_threshold]. rewrite threshold_step, res_bind_ok. cbn beta iota.
  destruct (decide (t = _ /\ blen v = 2)) as [[-> Hv]|Hs].
  - rewrite IH, (decide_False (P := _ /\ v <> [])) by (intros [? _]; done).
    by destruct (last_scan cs), (last_threshold cs).
  - destruct (decide (t = _ /\ v <> [])); rewrite IH; by destruct (last_scan cs), (last_threshold cs).
Qed.

Lemma push_parse_run cs rate :
  Forall wf_cmd cs -> cs <> [] -> blen (encode cs) < 65536 ->
  atlas_alert_push_cmd_parse (Some (encode cs)) (blen (encode cs)) rate =
  Ok (match first_rate cs with Some r => (ATLAS_OK, r) | None => (ATLAS_CORRUPTED_COMMAND, rate) end).
Proof.
  intros Hcs Hne Hlen. assert (0 < blen (encode cs)) by (destruct cs; [done|blia]).
  unfold atlas_alert_push_cmd_parse. rewrite decide_False by lia.
  pose proof (set_raw_encode atlas_cmd_batch_new cs [] Hcs ltac:(lia)) as Hs.
  rewrite app_nil_r in Hs. rewrite Hs, res_bind_ok. cbn beta iota. rewrite decide_False by auto.
  rewrite cmd_loop_fold, push_fold by done. by destruct (first_rate cs).
Qed.

Lemma threshold_parse_run cs rate :
  Forall wf_cmd cs -> cs <> [] -> blen (encode cs) < 65536 ->
  atlas_alert_threshold_cmd_parse (Some (encode cs)) (blen (encode cs)) rate =
  Ok (match last_scan cs with
      | Some r => (ATLAS_OK, r, last_threshold cs)
      | None => (ATLAS_CORRUPTED_COMMAND, rate, None)
      end).
Proof.
  intros Hcs Hne Hlen. assert (0 < blen (encode cs)) by (destruct cs; [done|blia]).
  unfold atlas_alert_threshold_cmd_parse. rewrite decide_False by lia.
  pose proof (set_raw_encode atlas_cmd_batch_new cs [] Hcs ltac:(lia)) as Hs.
  rewrite app_nil_r in Hs. rewrite Hs, res_bind_ok. cbn beta iota. rewrite decide_False by auto.
  rewrite cmd_loop_fold, threshold_fold by done. rewrite res_bind_ok. cbn beta iota.
  destruct (last_scan cs); cbn; [|done]. by destruct (last_threshold cs).
Qed.
End AlertFacts.

(** * Theorems *)

(** The push-alert parser returns for every payload. It accepts exactly the
    encodings of command lists that hold a push-rate command with a two-byte value,
    with the rate of the first one read in network order, and otherwise reports a
    corrupted command and leaves the caller's rate alone. *)
Theorem push_parse_exact `{HostEndian} (bytes : list byte) (rate : Z) :
  0 < blen bytes < 65536 ->
  exists st r, atlas_alert_push_cmd_parse (Some bytes) (blen bytes) rate = Ok (st, r) /\
    ((st = ATLAS_OK /\ exists cs, Forall wf_cmd cs /\ bytes = encode cs /\ first_rate cs = Some r) \/
     (st = ATLAS_CORRUPTED_COMMAND /\ r = rate /\
      forall cs, Forall wf_cmd cs -> bytes = encode cs -> first_rate cs = None)).
Proof.
  intros Hlen. destruct (set_raw_spec atlas_cmd_batch_new bytes [] Hlen) as (st & b & Hs & Hst & Hiff & Hb).
  rewrite app_nil_r in Hs. destruct (decide (st = ATLAS_OK)) as [->|Hn].
  - destruct (proj1 Hiff eq_refl) as (cs & Hcs & ->).
    assert (Hne : cs <> []) by (intros ->; rewrite blen_encode_nil in Hlen; lia).
    rewrite push_parse_run by (done || lia). destruct (first_rate cs) as [r|] eqn:Hf.
    + exists ATLAS_OK, r. split; [done|]. left. split; [done|]. by exists cs.
    + eexists _, _. split; [done|]. right. repeat split. intros cs' Hcs' Heq.
      apply encode_inj in Heq as <-; done.
  - unfold atlas_alert_push_cmd_parse. rewrite decide_False by lia. rewrite Hs, res_bind_ok. cbn beta iota.
    rewrite decide_True by done. eexists _, _. split; [done|]. right. repeat split.
    intros cs Hcs Heq. destruct Hn. apply Hiff. eauto.
Qed.

(** The threshold-alert parser accepts exactly the command lists with a
    two-byte scan rate, returning the last scan rate and the last non-empty
    threshold; a list without a threshold is accepted too, with a NULL string. *)
Theorem threshold_parse_exact `{HostEndian} (cs : list cmd) (rate : Z) :
  Forall wf_cmd cs -> cs <> [] -> blen (encode cs) < 65536 ->
  atlas_alert_threshold_cmd_parse (Some (encode cs)) (blen (encode cs)) rate =
  Ok (match last_scan cs with
      | Some r => (ATLAS_OK, r, last_threshold cs)
      | None => (ATLAS_CORRUPTED_COMMAND, rate, None)
      end).
Proof. apply threshold_parse_run. Qed.

Lemma push_parse_exact_witness :
  exists st r, @atlas_alert_push_cmd_parse true
      (Some (encode [(cmd_code ATLAS_CMD_TELEMETRY_ALERT_EXT_PUSH_RATE, [x00; x1e])])) 6 0 = Ok (st, r) /\
    ((st = ATLAS_OK /\ exists cs, Forall wf_cmd cs /\
        encode [(cmd_code ATLAS_CMD_TELEMETRY_ALERT_EXT_PUSH_RATE, [x00; x1e])] = encode cs /\
        first_rate cs = Some r) \/
     (st = ATLAS_CORRUPTED_COMMAND /\ r = 0 /\ forall cs, Forall wf_cmd cs ->
        encode [(cmd_code ATLAS_CMD_TELEMETRY_ALERT_EXT_PUSH_RATE, [x00; x1e])] = encode cs ->
        first_rate cs = None)).
Proof.
  apply (@push_parse_exact true
    (encode [(cmd_code ATLAS_CMD_TELEMETRY_ALERT_EXT_PUSH_RATE, [x00; x1e])]) 0). done.
Defined.

Lemma threshold_parse_exact_witness :
  @atlas_alert_threshold_cmd_parse true
    (Some (encode [(cmd_code ATLAS_CMD_TELEMETRY_ALERT_INT_SCAN_RATE, [x00; x05]);
                   (cmd_code ATLAS_CMD_TELEMETRY_ALERT_THRESHOLD, cstr "100")])) 13 0
  = Ok (ATLAS_OK, 5, Some (cstr "100")).
Proof.
  apply (@threshold_parse_exact true
    [(cmd_code ATLAS_CMD_TELEMETRY_ALERT_INT_SCAN_RATE, [x00; x05]);
     (cmd_code ATLAS_CMD_TELEMETRY_ALERT_THRESHOLD, cstr "100")] 0); [by repeat constructor|done|done].
Defined.
