(* ===== verification/DataPlane.v ===== *)
(** The data-plane connector (data_plane_connector/atlas_data_plane_connector.c):
    a unix socket on which the device's application registers its firewall policy,
    reports packet statistics, asks for reputations and sends feedback, and the
    CoAP requests that forward these to the gateway. *)
From S2P Require Import Prelude Defs CLib State SimEnv Config Command Sched Alarm Safety CoapClient Identity.

Definition ATLAS_CLIENT_DATA_PLANE_BUFFER_LEN : Z := 2048.
Definition ATLAS_CLIENT_POLICY_TIMEOUT_MS : Z := 5000.
Definition ATLAS_CLIENT_FEATURE_TIMEOUT_MS : Z := 5000.
Definition ATLAS_CLIENT_POLICY_COAP_PATH : list byte := cstr "gateway/policy".
Definition ATLAS_CLIENT_FEATURE_COAP_PATH : list byte := cstr "gateway/reputation/feature".
Definition ATLAS_CLIENT_FEEDBACK_COAP_PATH : list byte := cstr "gateway/reputation/feedback".

(** [atlas_cmd_batch_add(batch, type, length of v, v)]; the length is a uint16_t. *)
Definition add_cmd `{HostEndian} (b : option cmd_batch) (t : atlas_cmd_type) (v : list byte)
  : res (option cmd_batch) :=
  atlas_cmd_batch_add b (cmd_code t) (u16 (blen v)) (Some v).

(** What [atlas_cmd_batch_get_buf] gives for [uint8_t *cmd_buf = NULL] and
    [uint16_t cmd_len = 0], as the bytes the caller goes on to send. *)
Definition batch_bytes (b : option cmd_batch) : option (list byte) :=
  let '(buf, len) := atlas_cmd_batch_get_buf b None 0 in take (Z.to_nat len) <$> buf.

Section DataPlane.
Context {E : Env} `{HostEndian}.

(** The setters copy two bytes from the value, whatever its length. *)
Definition set_policy_qos (qos : list byte) (d : dp_state) : res dp_state :=
  raw ← mem_load qos 0 2;
  Ok (mk_dp (connected_socket d) (ld16 raw) (policy_packets_per_min d) (policy_packets_maxlen d)
        (active_policy d) (packets_per_min d) (packets_avg d)).

Definition set_policy_packets_per_min (ppm : list byte) (d : dp_state) : res dp_state :=
  raw ← mem_load ppm 0 2;
  Ok (mk_dp (connected_socket d) (policy_qos d) (ld16 raw) (policy_packets_maxlen d)
        (active_policy d) (packets_per_min d) (packets_avg d)).

Definition set_policy_packets_maxlen (pack_maxlen : list byte) (d : dp_state) : res dp_state :=
  raw ← mem_load pack_maxlen 0 2;
  Ok (mk_dp (connected_socket d) (policy_qos d) (policy_packets_per_min d) (ld16 raw)
        (active_policy d) (packets_per_min d) (packets_avg d)).

Definition set_packets_per_min (ppm : list byte) (d : dp_state) : res dp_state :=
  raw ← mem_load ppm 0 2;
  Ok (mk_dp (connected_socket d) (policy_qos d) (policy_packets_per_min d) (policy_packets_maxlen d)
        (active_policy d) (ld16 raw) (packets_avg d)).

Definition set_packets_avg (pack_avg : list byte) (d : dp_state) : res dp_state :=
  raw ← mem_load pack_avg 0 2;
  Ok (mk_dp (connected_socket d) (policy_qos d) (policy_packets_per_min d) (policy_packets_maxlen d)
        (active_policy d) (packets_per_min d) (ld16 raw)).

Definition get_packets_per_min : M Z := gets (fun c => packets_per_min (cl_dp c)).
Definition get_packets_avg : M Z := gets (fun c => packets_avg (cl_dp c)).

Definition set_active_policy (d : dp_state) : dp_state :=
  mk_dp (connected_socket d) (policy_qos d) (policy_packets_per_min d) (policy_packets_maxlen d)
    true (packets_per_min d) (packets_avg d).

Definition set_connected_socket (fd : Z) (d : dp_state) : dp_state :=
  mk_dp fd (policy_qos d) (policy_packets_per_min d) (policy_packets_maxlen d)
    (active_policy d) (packets_per_min d) (packets_avg d).

(** The batch of [send_policy_command]: the three values in network order. *)
Definition policy_batch (d : dp_state) : res (option cmd_batch) :=
  (* Add policy qos value *)
  b ← add_cmd (Some atlas_cmd_batch_new) ATLAS_CMD_DATA_PLANE_POLICY_QOS (st16 (htons (policy_qos d)));
  (* Add policy packets per minute value *)
  b ← add_cmd b ATLAS_CMD_DATA_PLANE_POLICY_PACKETS_PER_MINUTE
        (st16 (htons (policy_packets_per_min d)));
  (* Add policy packets maxlen value *)
  add_cmd b ATLAS_CMD_DATA_PLANE_POLICY_PACKETS_MAXLEN (st16 (htons (policy_packets_maxlen d))).

Definition send_policy_command : M unit :=
  d ← gets cl_dp;
  if negb (active_policy d) then mret tt else
  b ← lift (policy_batch d);
  uri ← atlas_cfg_coap_get_uri ATLAS_CLIENT_POLICY_COAP_PATH;
  _ ← atlas_coap_client_request (Some uri) ATLAS_COAP_METHOD_PUT (batch_bytes b)
        ATLAS_CLIENT_POLICY_TIMEOUT_MS (Some cb_policy_callback);
  mret tt.

Definition policy_alarm_callback : M unit := send_policy_command.

Definition policy_callback (resp_status : atlas_coap_response) : M unit :=
  if decide (resp_status <> ATLAS_COAP_RESP_OK) then
    (* Start sending policy timer *)
    _ ← atlas_alarm_set ATLAS_CLIENT_POLICY_TIMEOUT_MS cb_policy_alarm_callback true;
    mret tt
  else mret tt.

(** [write(connected_socket, cmd_buf, cmd_len)] *)
Definition write_to_data_plane (b : option cmd_batch) : M unit :=
  d ← gets cl_dp;
  let data := default [] (batch_bytes b) in
  _ ← call (sock_write (connected_socket d) data);
  emit (EvWrite (connected_socket d) data).

(** A loop over a batch whose body changes the process state. *)
Definition cmd_loop_M (body : atlas_cmd -> M unit) (b : option cmd_batch) : M unit := fun c =>
  c ← cmd_loop (fun c cmd => '(_, c) ← body cmd c; Ok (c, false)) b c;
  Ok (tt, c).

Definition reputation_body (cmd : atlas_cmd) : M unit :=
  if decide (cmd_type cmd = cmd_code ATLAS_CMD_DATA_PLANE_FEATURE_REPUTATION) then
    (* Add feature reputation value *)
    b ← lift (atlas_cmd_batch_add (Some atlas_cmd_batch_new)
                (cmd_code ATLAS_CMD_DATA_PLANE_FEATURE_REPUTATION) (cmd_length cmd)
                (Some (cmd_value cmd)));
    (* Send reputation value to data plane *)
    write_to_data_plane b
  else mret tt.

Definition atlas_reputation_resp_parse (buf : option (list byte)) (buf_len : Z) : M atlas_status :=
  match buf with
  | None => mret ATLAS_INVALID_INPUT
  | Some bytes =>
      if decide (buf_len = 0) then mret ATLAS_INVALID_INPUT else
      '(status, cmd_batch) ← lift (atlas_cmd_batch_set_raw (Some atlas_cmd_batch_new) buf buf_len);
      if decide (status <> ATLAS_OK) then mret ATLAS_CORRUPTED_COMMAND else
      _ ← cmd_loop_M reputation_body cmd_batch;
      mret ATLAS_OK
  end.

Definition feature_reputation_callback (resp_status : atlas_coap_response)
    (resp_payload : option (list byte)) : M unit :=
  if decide (resp_status <> ATLAS_COAP_RESP_OK) then
    (* Send feature reputation error to data plane *)
    b ← lift (atlas_cmd_batch_add (Some atlas_cmd_batch_new)
                (cmd_code ATLAS_CMD_DATA_PLANE_FEATURE_ERROR) 0 None);
    write_to_data_plane b
  else
    _ ← atlas_reputation_resp_parse resp_payload (u16 (blen (default [] resp_payload)));
    mret tt.

(** The identity and the [length] bytes of a feature or a feedback, sent to the
    gateway: what the two handlers below have in common. *)
Definition forward_request (t : atlas_cmd_type) (path value : list byte) (length : Z)
    (cb : coap_cb) : M unit :=
  identity ← atlas_identity_get;
  (* Add identity *)
  b ← lift (add_cmd (Some atlas_cmd_batch_new) ATLAS_CMD_IDENTITY identity);
  (* Add feature or feedback *)
  b ← lift (atlas_cmd_batch_add b (cmd_code t) length (Some value));
  uri ← atlas_cfg_coap_get_uri path;
  _ ← atlas_coap_client_request (Some uri) ATLAS_COAP_METHOD_PUT (batch_bytes b)
        ATLAS_CLIENT_FEATURE_TIMEOUT_MS (Some cb);
  mret tt.

Definition atlas_feature_reputation_handle (feature : list byte) (length : Z) : M unit :=
  if decide (length = 0) then mret tt else
  forward_request ATLAS_CMD_DATA_PLANE_FEATURE_REPUTATION ATLAS_CLIENT_FEATURE_COAP_PATH
    feature length cb_feature_reputation_callback.

Definition feedback_callback : M unit := mret tt.

Definition atlas_feature_feedback_handle (feedback : list byte) (length : Z) : M unit :=
  if decide (length = 0) then mret tt else
  forward_request ATLAS_CMD_DATA_PLANE_FEEDBACK ATLAS_CLIENT_FEEDBACK_COAP_PATH
    feedback length cb_feedback_callback.

(** Store a changed [dp_state], or fault with it. *)
Definition update_dp (f : dp_state -> res dp_state) : M unit :=
  d ← gets cl_dp;
  d ← lift (f d);
  modify (set_dp d).

Definition policy_body (d : dp_state) (cmd : atlas_cmd) : res (dp_state * bool) :=
  d ← (if decide (cmd_type cmd = cmd_code ATLAS_CMD_DATA_PLANE_POLICY_QOS) then
         set_policy_qos (cmd_value cmd) d
       else if decide (cmd_type cmd = cmd_code ATLAS_CMD_DATA_PLANE_POLICY_PACKETS_PER_MINUTE) then
         set_policy_packets_per_min (cmd_value cmd) d
       else if decide (cmd_type cmd = cmd_code ATLAS_CMD_DATA_PLANE_POLICY_PACKETS_MAXLEN) then
         set_policy_packets_maxlen (cmd_value cmd) d
       else Ok d);
  Ok (d, false).

Definition atlas_data_plane_parse_policy (buf : list byte) (buf_len : Z) : M unit :=
  if decide (buf_len = 0) then mret tt else
  '(status, cmd_batch) ← lift (atlas_cmd_batch_set_raw (Some atlas_cmd_batch_new) (Some buf) buf_len);
  if decide (status <> ATLAS_OK) then mret tt else
  _ ← update_dp (fun d => d ← cmd_loop policy_body cmd_batch d; Ok (set_active_policy d));
  send_policy_command.

Definition atlas_data_plane_identity : M unit :=
  identity ← atlas_identity_get;
  (* Add identity *)
  b ← lift (add_cmd (Some atlas_cmd_batch_new) ATLAS_CMD_DATA_PLANE_IDENTITY identity);
  (* Send identity to data plane *)
  write_to_data_plane b.

Definition read_body (cmd : atlas_cmd) : M unit :=
  if decide (cmd_type cmd = cmd_code ATLAS_CMD_DATA_PLANE_POLICY) then
    atlas_data_plane_parse_policy (cmd_value cmd) (cmd_length cmd)
  else if decide (cmd_type cmd = cmd_code ATLAS_CMD_DATA_PLANE_PACKETS_PER_MINUTE) then
    update_dp (set_packets_per_min (cmd_value cmd))
  else if decide (cmd_type cmd = cmd_code ATLAS_CMD_DATA_PLANE_PACKETS_AVG) then
    update_dp (set_packets_avg (cmd_value cmd))
  else if decide (cmd_type cmd = cmd_code ATLAS_CMD_DATA_PLANE_FEATURE_REPUTATION) then
    atlas_feature_reputation_handle (cmd_value cmd) (cmd_length cmd)
  else if decide (cmd_type cmd = cmd_code ATLAS_CMD_DATA_PLANE_FEEDBACK) then
    atlas_feature_feedback_handle (cmd_value cmd) (cmd_length cmd)
  else if decide (cmd_type cmd = cmd_code ATLAS_CMD_DATA_PLANE_GET_IDENTITY) then
    atlas_data_plane_identity
  else mret tt.

(** [sock_read] is [read] into the 2048-byte buffer: None for an error, the
    empty list at the end of the stream. *)
Definition atlas_data_plane_read_cb (fd : Z) : M unit :=
  rc ← call (sock_read fd ATLAS_CLIENT_DATA_PLANE_BUFFER_LEN);
  let buf := default [] rc in
  if decide (blen buf <= 0) then atlas_sched_del_entry fd else
  '(status, cmd_batch) ← lift (atlas_cmd_batch_set_raw (Some atlas_cmd_batch_new) (Some buf)
                                 (u16 (blen buf)));
  if decide (status <> ATLAS_OK) then mret tt else
  cmd_loop_M read_body cmd_batch.

Definition atlas_data_plane_accept_cb (fd : Z) : M unit :=
  d ← gets cl_dp;
  (* Allow only one connection *)
  _ ← (if decide (connected_socket d <> -1) then
         _ ← atlas_sched_del_entry (connected_socket d);
         call_ (close_fd (connected_socket d))
       else mret tt);
  s ← call (sock_accept fd);
  _ ← modify (fun c => set_dp (set_connected_socket s (cl_dp c)) c);
  if decide (s = -1) then mret tt else
  atlas_sched_add_entry s (Some cb_atlas_data_plane_read_cb).

Definition atlas_data_plane_connector_start : M atlas_status :=
  fd ← call unix_socket;
  if decide (fd = -1) then mret ATLAS_SOCKET_ERROR else
  rc ← call (sock_bind fd);
  if decide (rc = -1) then mret ATLAS_SOCKET_ERROR else
  rc ← call (sock_listen fd);
  if decide (rc = -1) then mret ATLAS_SOCKET_ERROR else
  _ ← atlas_sched_add_entry fd (Some cb_atlas_data_plane_accept_cb);
  mret ATLAS_OK.
End DataPlane.

(** * Safety *)

Lemma benign_add_cmd `{HostEndian} b t v : benign_res (add_cmd b t v).
Proof. apply benign_batch_add. Qed.
#[export] Hint Resolve benign_add_cmd : okm.

Section DataPlaneSafety.
Context {E : Env} `{!EnvLaws E} `{HostEndian}.

Lemma okm_send_policy : okm no_cancel send_policy_command.
Proof. unfold send_policy_command, policy_batch. okm_tac. Qed.

Lemma okm_policy_callback resp : okm no_cancel (policy_callback resp).
Proof. unfold policy_callback. okm_tac. Qed.

Lemma quiet_write b : quiet (write_to_data_plane b).
Proof. unfold write_to_data_plane. quiet_tac. Qed.

Lemma okm_forward t path v n cb :
  cb <> cb_keepalive_callback -> okm no_cancel (forward_request t path v n cb).
Proof.
  intros Hcb. unfold forward_request, atlas_identity_get.
  okm_step; [okm_tac|]. okm_step; [okm_tac|]. okm_step; [okm_tac|]. okm_step; [okm_tac|].
  okm_step; [|okm_tac]. apply okm_request. congruence.
Qed.
End DataPlaneSafety.

#[export] Hint Resolve okm_send_policy okm_policy_callback quiet_write : okm.
#[export] Hint Extern 2 (okm _ (forward_request _ _ _ _ _)) => apply okm_forward; discriminate : okm.

(** What a loop over a validated batch shows its body. *)
Definition cmd_view (c : atlas_cmd) : Prop :=
  0 <= cmd_length c < 65536 /\ cmd_length c <= blen (cmd_value c).

Section LoopSafety.
Context {E : Env} `{!EnvLaws E} `{HostEndian}.

(** A batch as [atlas_cmd_batch_set_raw] leaves it. *)
Definition raw_batch (cs : list cmd) : option cmd_batch :=
  Some (mk_batch (blen (encode cs)) (Some (encode cs))).

Lemma benign_cmd_loop {S} (body : S -> atlas_cmd -> res (S * bool)) cs s :
  Forall wf_cmd cs -> cs <> [] -> (forall s c, benign_res (body s c)) ->
  benign_res (cmd_loop body (raw_batch cs) s).
Proof.
  intros Hcs Hne Hb. unfold raw_batch. rewrite cmd_loop_fold by done. by apply benign_fold_cmds.
Qed.

Lemma okm_cmd_loop K body cs :
  Forall wf_cmd cs -> cs <> [] -> (forall c, cmd_view c -> okm K (body c)) ->
  okm K (cmd_loop_M body (raw_batch cs)).
Proof.
  intros Hcs Hne Hb c Hc. unfold cmd_loop_M, raw_batch. rewrite cmd_loop_fold by done.
  clear Hne. assert (Hg : grows K c c) by apply grows_refl.
  set (c0 := c) in Hg at 1. change (match (fold_cmds (fun c cmd => '(_, c) ← body cmd c; Ok (c, false)) c cs ≫= fun c => Ok (tt, c)) with Ok (_, c') => client_inv c' /\ grows K c0 c' | Fault f => benign f end).
  clearbody c0. revert c Hc Hg. induction Hcs as [|[t v] cs [Ht Hv] _ IH]; intros c Hc Hg; cbn.
  { done. }
  specialize (Hb (mk_cmd t (blen v) (v ++ encode cs))).
  assert (Hok : okm K (body (mk_cmd t (blen v) (v ++ encode cs)))).
  { apply Hb. split; cbn in *; [|rewrite blen_app]; blen_pos; lia. }
  specialize (Hok c Hc). destruct (body _ c) as [[[] c1]|f]; [|done].
  destruct Hok as [Hc1 Hg1]. cbn. apply IH; [done|]. by eapply grows_trans.
Qed.

(** The start of every parser. *)
Lemma okm_set_raw K bytes len {A} (k : atlas_status * option cmd_batch -> M A) :
  0 < len < 65536 -> len <= blen bytes ->
  (forall st, st <> ATLAS_OK -> okm K (k (st, Some atlas_cmd_batch_new))) ->
  (forall cs, Forall wf_cmd cs -> cs <> [] -> okm K (k (ATLAS_OK, raw_batch cs))) ->
  okm K (lift (atlas_cmd_batch_set_raw (Some atlas_cmd_batch_new) (Some bytes) len) ≫= k).
Proof.
  intros Hlen Hle Herr Hok c Hc. unfold mbind, M_bind, lift.
  destruct (set_raw_cases atlas_cmd_batch_new bytes len Hlen Hle)
    as [(st & Hst & ->)|(cs & Hcs & Hne & _ & _ & ->)]; [by apply Herr|by apply Hok].
Qed.

Lemma quiet_update_dp f :
  (forall d, benign_res (f d)) ->
  (forall d d', f d = Ok d' -> connected_socket d' = connected_socket d) ->
  quiet (update_dp f).
Proof.
  intros Hb Hs c. unfold update_dp, mbind, M_bind, gets, lift. cbn.
  destruct (f (cl_dp c)) as [d'|g] eqn:Hf; [|by eapply Hb]. cbn.
  repeat split. cbn. by apply Hs.
Qed.

Lemma policy_body_benign d cmd : benign_res (policy_body d cmd).
Proof.
  unfold policy_body, set_policy_qos, set_policy_packets_per_min, set_policy_packets_maxlen.
  quiet_tac.
Qed.

Lemma policy_body_socket d cmd d' b :
  policy_body d cmd = Ok (d', b) -> connected_socket d' = connected_socket d.
Proof.
  unfold policy_body, set_policy_qos, set_policy_packets_per_min, set_policy_packets_maxlen.
  intros Hp. inv_ok. repeat case_decide; inv_ok; done.
Qed.

Lemma policy_fold_socket cs d d' :
  fold_cmds policy_body d cs = Ok d' -> connected_socket d' = connected_socket d.
Proof.
  revert d. induction cs as [|[t v] cs IH]; intros d; cbn; [by intros [= ->]|].
  intros Hf. apply res_bind_inv in Hf as ([d1 b] & Hb & Hf). apply policy_body_socket in Hb.
  rewrite <- Hb. destruct b; [by injection Hf as ->|]. by apply IH.
Qed.

Lemma okm_parse_policy buf len :
  0 <= len < 65536 -> len <= blen buf -> okm no_cancel (atlas_data_plane_parse_policy buf len).
Proof.
  intros Hlen Hle. unfold atlas_data_plane_parse_policy. case_decide; [okm_tac|].
  apply okm_set_raw; [lia|done|..].
  - intros st Hst. rewrite decide_True by done. okm_tac.
  - intros cs Hcs Hne. rewrite decide_False by auto. okm_step; [|okm_tac].
    apply okm_quiet, quiet_update_dp.
    + intros d. apply benign_bind; [|intros ?; apply benign_ok].
      apply benign_cmd_loop; auto using policy_body_benign.
    + intros d d' Hd. inv_ok. unfold raw_batch in *. rewrite cmd_loop_fold in E0 by done.
      cbn. by eapply policy_fold_socket.
Qed.

Lemma okm_read_body cmd : cmd_view cmd -> okm no_cancel (read_body cmd).
Proof.
  intros [Hlen Hle]. unfold read_body, atlas_feature_reputation_handle,
    atlas_feature_feedback_handle, atlas_data_plane_identity, atlas_identity_get.
  repeat case_decide; okm_tac.
  - by apply okm_parse_policy.
  - apply okm_quiet, quiet_update_dp; unfold set_packets_per_min; [intros d; quiet_tac|].
    intros d d' Hd. by inv_ok.
  - apply okm_quiet, quiet_update_dp; unfold set_packets_avg; [intros d; quiet_tac|].
    intros d d' Hd. by inv_ok.
Qed.

Lemma okm_reputation_resp_parse buf len :
  0 <= len < 65536 -> (forall b, buf = Some b -> len <= blen b) ->
  okm no_cancel (atlas_reputation_resp_parse buf len).
Proof.
  intros Hlen Hle. unfold atlas_reputation_resp_parse. destruct buf as [b|]; [|okm_tac].
  case_decide; [okm_tac|]. apply okm_set_raw; [lia|by apply Hle|..].
  - intros st Hst. rewrite decide_True by done. okm_tac.
  - intros cs Hcs Hne. rewrite decide_False by auto. okm_step; [|okm_tac].
    apply okm_cmd_loop; [done..|]. intros c _. unfold reputation_body. okm_tac.
Qed.

Lemma okm_feature_reputation_callback resp payload :
  okm no_cancel (feature_reputation_callback resp payload).
Proof.
  unfold feature_reputation_callback. okm_tac. apply okm_reputation_resp_parse.
  - apply u16_range.
  - intros b ->. cbn. unfold u16. blen_pos. lia.
Qed.

Lemma okm_read_cb fd : okm no_cancel (atlas_data_plane_read_cb fd).
Proof.
  unfold atlas_data_plane_read_cb. okm_step; [okm_tac|]. case_decide; [okm_tac|].
  set (buf := default [] _) in *. pose proof (u16_range (blen buf)) as Hr. unfold is_u16 in Hr.
  destruct (decide (u16 (blen buf) = 0)) as [->|Hnz].
  { intros c Hc. cbn. by split; [|apply grows_refl]. }
  apply okm_set_raw; [lia|unfold u16; blen_pos; lia|..].
  - intros st Hst. rewrite decide_True by done. okm_tac.
  - intros cs Hcs Hne. rewrite decide_False by auto.
    apply okm_cmd_loop; auto using okm_read_body.
Qed.
End LoopSafety.

#[export] Hint Resolve okm_read_cb okm_feature_reputation_callback : okm.

Section SocketSafety.
Context {E : Env} `{!EnvLaws E} `{HostEndian}.

(** A new socket, which may become the connected one. *)
Lemma inv_add_socket c x s d :
  client_inv c -> ctxs x = ctxs (cl_ext c) ->
  (s = -1 /\ fds x = fds (cl_ext c)) \/
  (0 <= s /\ fds (cl_ext c) !! s = None /\ fds x = <[s := FdSocket]> (fds (cl_ext c))) ->
  connected_socket d = connected_socket (cl_dp c) \/ connected_socket d = s ->
  client_inv (set_dp d (set_ext x c)).
Proof.
  intros [[And Aa] (Rn & Rc & Ra) Ik Ip It Id] Hctx Hx Hd.
  assert (Hkeep : forall fd k, fds (cl_ext c) !! fd = Some k -> fds x !! fd = Some k).
  { intros fd k Hk. destruct Hx as [[_ ->]|(_ & Hn & ->)]; [done|].
    by rewrite lookup_insert_ne by congruence. }
  split; [|split; [done|split; [done|]]|done..|].
  - split; [done|]. cbn. intros a Ha. destruct (Aa a Ha) as (? & ? & ?). auto.
  - cbn. by rewrite Hctx.
  - unfold dp_ok. cbn. destruct Hd as [->| ->].
    + destruct Id as [?|?]; [by left|right; auto].
    + destruct Hx as [[-> _]|(_ & _ & ->)]; [by left|right]. by rewrite lookup_insert_eq.
Qed.

Lemma okm_connector_start : okm no_cancel atlas_data_plane_connector_start.
Proof.
  unfold atlas_data_plane_connector_start. okm_step; [|okm_tac].
  intros c Hc. unfold call. pose proof (unix_socket_law (cl_ext c)) as [Hctx Hx].
  destruct (unix_socket (cl_ext c)) as [s x]. cbn in Hctx, Hx |- *. split.
  - eapply (inv_view (set_dp (cl_dp c) (set_ext x c))); [by repeat split|].
    apply (inv_add_socket c x s); auto.
  - split; [apply sched_keeps_refl|apply reqs_grow_refl|]. by intros a.
Qed.

(** Closing the connected socket leaves the timers alone. *)
Lemma inv_close_connected c :
  client_inv c -> connected_socket (cl_dp c) <> -1 ->
  client_inv (set_dp (set_connected_socket (-1) (cl_dp c))
                (set_ext (close_fd (connected_socket (cl_dp c)) (cl_ext c)) c)).
Proof.
  intros [[And Aa] (Rn & Rc & Ra) Ik Ip It Id] Hne.
  destruct Id as [?|Hs]; [done|].
  destruct (close_fd_law (connected_socket (cl_dp c)) (cl_ext c)) as [Hfd Hctx].
  split; [|split; [done|split; [done|]]|done..|by left].
  - split; [done|]. cbn. intros a Ha. destruct (Aa a Ha) as (? & ? & ?). rewrite Hfd.
    by rewrite lookup_delete_ne by congruence.
  - cbn. by rewrite Hctx.
Qed.

Lemma okm_accept_cb fd : okm no_cancel (atlas_data_plane_accept_cb fd).
Proof.
  intros c Hc. unfold atlas_data_plane_accept_cb. rewrite (M_bind_run _ _ _ _ _ eq_refl).
  set (s0 := connected_socket (cl_dp c)).
  (* after the old connection has been closed *)
  assert (exists c1, (if decide (s0 <> -1) then _ ← atlas_sched_del_entry s0; call_ (close_fd s0)
                      else mret tt) c = Ok (tt, c1) /\
    client_inv (set_dp (set_connected_socket (-1) (cl_dp c1)) c1) /\ grows no_cancel c c1)
    as (c1 & Hrun & Hc1 & Hg).
  { case_decide as Hs.
    - eexists. split; [reflexivity|]. split.
      + eapply inv_view; [|apply (inv_close_connected c Hc Hs)]. by repeat split.
      + split; cbn; [apply sched_keeps_mark|apply reqs_grow_refl|]. by intros a.
    - exists c. split; [done|]. split; [|apply grows_refl].
      assert (s0 = -1) as Hs0 by (by destruct (decide (s0 = -1))).
      eapply same_tables_inv; [|exact Hc]. repeat split. cbn. done. }
  rewrite (M_bind_run _ _ _ _ _ Hrun). unfold mbind, M_bind, call.
  pose proof (sock_accept_law fd (cl_ext c1)) as [Hctx Hx].
  destruct (sock_accept fd (cl_ext c1)) as [s x]. cbn in Hctx, Hx |- *.
  set (c2 := set_dp (set_connected_socket s (cl_dp c1)) (set_ext x c1)).
  assert (Hc2 : client_inv c2).
  { eapply (inv_view (set_dp (set_connected_socket s (cl_dp c1))
               (set_ext x (set_dp (set_connected_socket (-1) (cl_dp c1)) c1)))); [by repeat split|].
    apply (inv_add_socket _ x s); cbn; auto. }
  clear Hrun. destruct (decide (s = -1)); cbn.
  - split; [done|]. destruct Hg. by split.
  - split; [by apply inv_set_sched|]. destruct Hg. split; cbn; [|done..].
    eapply sched_keeps_trans; [done|apply sched_keeps_add].
Qed.
End SocketSafety.

#[export] Hint Resolve okm_connector_start okm_accept_cb : okm.

(** * The messages on the wire *)

(** The commands [(type, value)] of a batch as the senders write them. *)
Definition wire (cs : list (atlas_cmd_type * list byte)) : list byte :=
  encode ((fun c => (cmd_code c.1, c.2)) <$> cs).

(** A sender: one [add_cmd] per command. *)
Fixpoint add_cmds `{HostEndian} (b : option cmd_batch) (cs : list (atlas_cmd_type * list byte))
  : res (option cmd_batch) :=
  match cs with
  | [] => Ok b
  | (t, v) :: cs => b ← add_cmd b t v; add_cmds b cs
  end.

Lemma add_cmd_ok `{HostEndian} b cs t v rest :
  batch_repr b cs -> blen (encode (cs ++ [(cmd_code t, v)])) < 65536 ->
  exists b', atlas_cmd_batch_add (Some b) (cmd_code t) (u16 (blen v)) (Some (v ++ rest)) = Ok (Some b') /\
    batch_repr b' (cs ++ [(cmd_code t, v)]).
Proof.
  intros Hb Hfit. rewrite u16_small; [by apply batch_add_ok, Hfit; auto using cmd_code_u16|].
  rewrite encode_app in Hfit. unfold is_u16. blia.
Qed.

Lemma batch_bytes_repr b cs : batch_repr b cs -> cs <> [] -> batch_bytes (Some b) = Some (encode cs).
Proof.
  intros [Hl Hb] Hne. unfold batch_bytes. cbn. rewrite Hl, to_nat_blen. destruct (buf_ b) as [buf|]; cbn in Hb.
  - subst buf. cbn. by rewrite take_ge.
  - destruct cs as [|[t v] cs]; [done|]. done.
Qed.

Lemma add_cmds_repr `{HostEndian} b cs0 cs :
  batch_repr b cs0 -> blen (encode cs0) + blen (wire cs) < 65536 ->
  exists b', add_cmds (Some b) cs = Ok (Some b') /\
    batch_repr b' (cs0 ++ ((fun c => (cmd_code c.1, c.2)) <$> cs)).
Proof.
  revert b cs0. induction cs as [|[t v] cs IH]; intros b cs0 Hb Hfit; cbn [add_cmds fmap].
  { exists b. by rewrite app_nil_r. }
  unfold wire in Hfit. rewrite fmap_cons, blen_encode_cons in Hfit. cbn [fst snd] in Hfit.
  destruct (add_cmd_ok b cs0 t v [] Hb) as (b1 & Hadd & Hb1).
  { rewrite encode_app. unfold wire in *. blia. }
  rewrite app_nil_r in Hadd. unfold add_cmd. rewrite Hadd, res_bind_ok.
  destruct (IH b1 _ Hb1) as (b2 & Hrun & Hb2).
  { rewrite encode_app. unfold wire in *. blia. }
  exists b2. split; [done|]. rewrite fmap_cons. by rewrite cons_middle, app_assoc.
Qed.

(** Commands added to a fresh batch are sent as their encoding. *)
Lemma add_cmds_wire `{HostEndian} cs :
  cs <> [] -> blen (wire cs) < 65536 ->
  exists b, add_cmds (Some atlas_cmd_batch_new) cs = Ok b /\ batch_bytes b = Some (wire cs).
Proof.
  intros Hne Hfit. destruct (add_cmds_repr atlas_cmd_batch_new [] cs batch_repr_new) as (b & Hrun & Hb).
  { rewrite blen_encode_nil. lia. }
  exists (Some b). split; [done|]. apply (batch_bytes_repr b _ Hb). by destruct cs.
Qed.

Lemma blen_wire_nil : blen (wire []) = 0.
Proof. done. Qed.
Lemma blen_wire_cons t v cs : blen (wire ((t, v) :: cs)) = 4 + blen v + blen (wire cs).
Proof. unfold wire. rewrite fmap_cons, blen_encode_cons. done. Qed.
#[export] Hint Rewrite blen_wire_nil blen_wire_cons : blen.

(** ** Sending a batch to the gateway *)

Definition gateway_uri (hostname port path : list byte) : list byte :=
  ATLAS_COAPS_SCHEMA ++ hostname ++ cstr ":" ++ port ++ cstr "/" ++ path.

(** The gateway is configured within the limits of the command line. *)
Definition gateway_set `{E : Env} (c : client) (hostname port : list byte) : Prop :=
  gw_hostname (cl_cfg c) = Some hostname /\ gw_port (cl_cfg c) = Some port /\
  strlen hostname <= ATLAS_URI_HOSTNAME_MAX_LEN /\ strlen port <= 5.

(** [m c] sends [cs] to a path of the gateway, or tries to: it returns, unless the
    host name resolves to no IPv4 or IPv6 address. *)
Definition posts `{E : Env} (m : M unit) (method : atlas_coap_method)
    (uri : list byte) (cs : list (atlas_cmd_type * list byte)) (c : client) : Prop :=
  m c = Fault Uninitialised \/
  exists c', m c = Ok (tt, c') /\ sends method uri (wire cs) c c'.

Section Sending.
Context {E : Env} `{!EnvLaws E} `{HostEndian}.

(** The last steps of every sender. *)
Definition send_batch (mb : res (option cmd_batch)) (method : atlas_coap_method) (path : list byte)
    (timeout : Z) (cb : coap_cb) : M unit :=
  b ← lift mb;
  uri ← atlas_cfg_coap_get_uri path;
  _ ← atlas_coap_client_request (Some uri) method (batch_bytes b) timeout (Some cb);
  mret tt.

Lemma send_batch_run mb bytes method path timeout cb hostname port c :
  (exists b, mb = Ok b /\ batch_bytes b = Some bytes) -> gateway_set c hostname port ->
  strlen path <= 112 ->
  send_batch mb method path timeout cb c =
  match atlas_coap_client_request (Some (gateway_uri hostname port path)) method (Some bytes)
          timeout (Some cb) c with
  | Ok (_, c') => Ok (tt, c')
  | Fault f => Fault f
  end.
Proof.
  intros (b & -> & Hb) (Hh & Hp & Hlh & Hlp) Hpath. unfold send_batch.
  rewrite (M_bind_run (lift (Ok b)) _ _ b c eq_refl).
  rewrite (M_bind_run _ _ _ _ _ (get_uri_run c hostname port path Hh Hp Hlh Hlp Hpath)), Hb.
  unfold gateway_uri, mbind, M_bind. by destruct (atlas_coap_client_request _ _ _ _ _ c) as [[]|].
Qed.

(** A batch of commands that is built goes out as their encoding. *)
Lemma send_batch_built cs mb method path timeout cb hostname port c :
  (exists b, mb = Ok b /\ batch_bytes b = Some (wire cs)) -> gateway_set c hostname port -> strlen path <= 112 ->
  posts (send_batch mb method path timeout cb) method (gateway_uri hostname port path) cs c.
Proof.
  intros Hb Hg Hpath. unfold posts. rewrite (send_batch_run _ (wire cs) _ _ _ _ _ _ _ Hb Hg Hpath).
  set (u := gateway_uri _ _ _).
  destruct (atlas_coap_client_request (Some u) method (Some (wire cs)) timeout (Some cb) c)
    as [[st c']|f] eqn:Hr.
  - right. exists c'. split; [done|]. by apply request_sends in Hr as [? _].
  - left. destruct (request_cases (Some u) method (Some (wire cs)) timeout (Some cb) c)
      as [(?&?&?&_&_&Hc)|[(?&?&?&?&?&?&?&_&_&_&_&_&_&_&Hc)|Hc]]; congruence.
Qed.

Lemma send_batch_posts cs mb method path timeout cb hostname port c :
  mb = add_cmds (Some atlas_cmd_batch_new) cs -> cs <> [] -> blen (wire cs) < 65536 ->
  gateway_set c hostname port -> strlen path <= 112 ->
  posts (send_batch mb method path timeout cb) method (gateway_uri hostname port path) cs c.
Proof. intros -> Hne Hfit. by apply send_batch_built, add_cmds_wire. Qed.
End Sending.
