(* ===== verification/AtlasLib.v ===== *)
(** The library the device's application links to talk to the client
    (data_plane/atlas_client.c): it registers the firewall policy, reports packet
    statistics, asks for reputations and sends feedback over the unix socket the
    data-plane connector listens on. It runs in the application's process, with its
    own statics ([lib_state]) and its own view of the kernel ([LibEnv]). *)
From S2P Require Import Prelude Defs CLib State SimEnv Config Command Sched Alarm Safety CoapClient Identity DataPlane.

Definition ATLAS_CLIENT_DATA_PLANE_FEEDBACKS_SCORE_MAX : Z := 100.

(** client_info_t *)
Record client_info := mk_info {
  ci_qos : Z;
  ci_packets_per_min : Z;
  ci_packets_maxlen : Z;
}.

(** atlas_feedback_t; the identity is a char array of ATLAS_IDENTITY_MAX_LEN. *)
Record atlas_feedback := mk_feedback {
  fb_identity : list byte;
  fb_sensor_type : Z;
  fb_sensor_score : Z;
  fb_time_score : Z;
}.

(** The socket calls the library makes. *)
Class LibEnv := {
  lext : Type;
  lib_close : Z -> lext -> lext;
  lib_socket : lext -> Z * lext;
  lib_connect : Z -> lext -> Z * lext;
  lib_write : Z -> list byte -> lext -> Z * lext;
  lib_read : Z -> Z -> lext -> option (list byte) * lext;
}.

(** int arithmetic: a result outside 32 bits is undefined. *)
Definition int32 (z : Z) : res Z :=
  if decide (-2147483648 <= z <= 2147483647) then Ok z else Fault SignedOverflow.

Section AtlasLib.
Context `{LE : LibEnv} `{HostEndian}.

Record lib_state := mk_lib {
  lb_fd : Z;
  lb_payload_samples : Z;
  lb_payload_total : Z;
  lb_payload_avg : Z;
  lb_client : client_info;
  lb_ext : lext;
}.

Definition L (A : Type) : Type := lib_state -> res (A * lib_state).

#[export] Instance L_ret : MRet L := fun A a s => Ok (a, s).
#[export] Instance L_bind : MBind L := fun A B k m s =>
  match m s with Ok (a, s) => k a s | Fault f => Fault f end.

Definition lgets {A} (f : lib_state -> A) : L A := fun s => Ok (f s, s).
Definition lput (f : lib_state -> lib_state) : L unit := fun s => Ok (tt, f s).
Definition llift {A} (m : res A) : L A := fun s =>
  match m with Ok a => Ok (a, s) | Fault f => Fault f end.
Definition lfail {A} (f : fault) : L A := fun _ => Fault f.
Definition lset_ext (x : lext) (s : lib_state) : lib_state :=
  mk_lib (lb_fd s) (lb_payload_samples s) (lb_payload_total s) (lb_payload_avg s) (lb_client s) x.
Definition lset_fd (fd : Z) (s : lib_state) : lib_state :=
  mk_lib fd (lb_payload_samples s) (lb_payload_total s) (lb_payload_avg s) (lb_client s) (lb_ext s).
Definition lset_stats (samples total avg : Z) (s : lib_state) : lib_state :=
  mk_lib (lb_fd s) samples total avg (lb_client s) (lb_ext s).
Definition lset_client (i : client_info) (s : lib_state) : lib_state :=
  mk_lib (lb_fd s) (lb_payload_samples s) (lb_payload_total s) (lb_payload_avg s) i (lb_ext s).
Definition lcall {A} (f : lext -> A * lext) : L A := fun s =>
  let '(a, x) := f (lb_ext s) in Ok (a, lset_ext x s).

(** * Messages *)

(** The payload of [send_registration_command]: the three policy values, as they
    lie in memory, inside one policy command. *)
Definition registration_batch (i : client_info) : res (option cmd_batch) :=
  (* Create policy payload *)
  inner ← add_cmd (Some atlas_cmd_batch_new) ATLAS_CMD_DATA_PLANE_POLICY_QOS (st16 (ci_qos i));
  inner ← add_cmd inner ATLAS_CMD_DATA_PLANE_POLICY_PACKETS_PER_MINUTE (st16 (ci_packets_per_min i));
  inner ← add_cmd inner ATLAS_CMD_DATA_PLANE_POLICY_PACKETS_MAXLEN (st16 (ci_packets_maxlen i));
  let '(cmd_buf_inner, cmd_inner_len) := atlas_cmd_batch_get_buf inner None 0 in
  (* Add inner command *)
  atlas_cmd_batch_add (Some atlas_cmd_batch_new) (cmd_code ATLAS_CMD_DATA_PLANE_POLICY)
    cmd_inner_len cmd_buf_inner.

(** The payload of [send_statistics_command]: two ints, four bytes each. *)
Definition statistics_batch (samples avg : Z) : res (option cmd_batch) :=
  b ← add_cmd (Some atlas_cmd_batch_new) ATLAS_CMD_DATA_PLANE_PACKETS_PER_MINUTE (st32 (u32 samples));
  add_cmd b ATLAS_CMD_DATA_PLANE_PACKETS_AVG (st32 (u32 avg)).

(** The payload of [send_feedback_command]: strlen stops at the NUL of the
    identity array. *)
Definition feedback_batch (feedback : atlas_feedback) : res (option cmd_batch) :=
  (* Add identity *)
  inner ← add_cmd (Some atlas_cmd_batch_new) ATLAS_CMD_DATA_PLANE_FEEDBACK_IDENTITY
            (until_nul (fb_identity feedback));
  (* Add sensor type *)
  inner ← add_cmd inner ATLAS_CMD_DATA_PLANE_FEEDBACK_SENSOR_TYPE
            (st16 (htons (u16 (fb_sensor_type feedback))));
  (* Add sensor feedback value *)
  inner ← add_cmd inner ATLAS_CMD_DATA_PLANE_FEEDBACK_SENSOR (st16 (htons (fb_sensor_score feedback)));
  (* Add response time feedback value *)
  inner ← add_cmd inner ATLAS_CMD_DATA_PLANE_FEEDBACK_RESPONSE_TIME
            (st16 (htons (fb_time_score feedback)));
  let '(cmd_buf_inner, cmd_inner_len) := atlas_cmd_batch_get_buf inner None 0 in
  atlas_cmd_batch_add (Some atlas_cmd_batch_new) (cmd_code ATLAS_CMD_DATA_PLANE_FEEDBACK)
    cmd_inner_len cmd_buf_inner.

(** * The socket *)

Definition write_to_socket (cmd_buf : list byte) : L Z :=
  fd ← lgets lb_fd;
  lcall (lib_write fd cmd_buf).

(** The loop [while (rc)] around connect. *)
Fixpoint connect_loop (fuel : nat) : L unit :=
  match fuel with
  | O => lfail OutOfFuel
  | S fuel =>
      fd ← lgets lb_fd;
      rc ← lcall (lib_connect fd);
      if decide (rc = 0) then mret tt else connect_loop fuel
  end.

(** [socket_connect], given the write-with-retry that registration uses. *)
Definition socket_connect_with (fuel : nat) (retry : list byte -> L unit) : L unit :=
  (* Init ATLAS client socket *)
  fd ← lgets lb_fd;
  _ ← lput (fun s => lset_ext (lib_close fd (lb_ext s)) s);
  fd ← lcall lib_socket;
  _ ← lput (lset_fd fd);
  if decide (fd = -1) then mret tt else
  _ ← connect_loop fuel;
  (* send_registration_command *)
  i ← lgets lb_client;
  b ← llift (registration_batch i);
  retry (default [] (batch_bytes b)).

(** [write_to_socket_retry]: write, and as long as the write is short reconnect
    (which registers again, itself with retries) and write again. *)
Fixpoint write_to_socket_retry (fuel : nat) (cmd_buf : list byte) : L unit :=
  match fuel with
  | O => lfail OutOfFuel
  | S fuel =>
      bytes ← write_to_socket cmd_buf;
      if decide (bytes = blen cmd_buf) then mret tt else
      _ ← socket_connect_with fuel (write_to_socket_retry fuel);
      write_to_socket_retry fuel cmd_buf
  end.

Definition socket_connect (fuel : nat) : L unit :=
  socket_connect_with fuel (write_to_socket_retry fuel).

Definition send_registration_command (fuel : nat) : L unit :=
  i ← lgets lb_client;
  b ← llift (registration_batch i);
  write_to_socket_retry fuel (default [] (batch_bytes b)).

(** The counters are read and reset under the mutex: one atomic step. *)
Definition send_statistics_command (fuel : nat) : L unit :=
  samples ← lgets lb_payload_samples;
  avg ← lgets lb_payload_avg;
  b ← llift (statistics_batch samples avg);
  (* Reset statistics *)
  _ ← lput (lset_stats 0 0 0);
  write_to_socket_retry fuel (default [] (batch_bytes b)).

(** [n] rounds of the background thread. *)
Fixpoint register_to_atlas_client (n fuel : nat) : L unit :=
  match n with
  | O => mret tt
  | S n => _ ← send_statistics_command fuel; register_to_atlas_client n fuel
  end.

(** Under the mutex too. *)
Definition atlas_pkt_received (payload_len : Z) : L unit := fun s =>
  samples ← int32 (lb_payload_samples s + 1);
  total ← int32 (lb_payload_total s + payload_len);
  Ok (tt, lset_stats samples total (Z.quot total samples) s).

(** The body of the loop of [send_identity_command]. *)
Definition identity_body (s : option (list byte)) (cmd : atlas_cmd)
  : res (option (list byte) * bool) :=
  if decide (cmd_type cmd = cmd_code ATLAS_CMD_DATA_PLANE_IDENTITY) then
    v ← mem_load (cmd_value cmd) 0 (cmd_length cmd);
    Ok (Some v, true)
  else Ok (s, false).

(** The status and [*identity], None when it is not assigned or NULL. *)
Definition send_identity_command (fuel : nat) : L (atlas_status * option (list byte)) :=
  (* Add client_id *)
  b ← llift (atlas_cmd_batch_add (Some atlas_cmd_batch_new)
               (cmd_code ATLAS_CMD_DATA_PLANE_GET_IDENTITY) 0 None);
  (* Send data to atlas_client *)
  _ ← write_to_socket_retry fuel (default [] (batch_bytes b));
  (* Read command from client *)
  fd ← lgets lb_fd;
  bytes ← lcall (lib_read fd ATLAS_CLIENT_DATA_PLANE_BUFFER_LEN);
  let buf := default [] bytes in
  if decide (blen buf <= 0) then mret (ATLAS_SOCKET_ERROR, None) else
  '(status, batch) ← llift (atlas_cmd_batch_set_raw (Some atlas_cmd_batch_new) (Some buf) (u16 (blen buf)));
  if decide (status <> ATLAS_OK) then mret (status, None) else
  identity ← llift (cmd_loop identity_body batch None);
  mret (ATLAS_OK, identity).

Definition send_feedback_command (feedback : atlas_feedback) : L atlas_status :=
  b ← llift (feedback_batch feedback);
  let data := default [] (batch_bytes b) in
  (* Send data to atlas_client *)
  bytes ← write_to_socket data;
  if decide (bytes <> blen data) then mret ATLAS_GENERAL_ERR else mret ATLAS_OK.

(** The loop of [atlas_reputation_feedback]: validation and sending alternate. *)
Fixpoint feedback_loop (feedback : list atlas_feedback) : L atlas_status :=
  match feedback with
  | [] => mret ATLAS_OK
  | f :: feedback =>
      if decide (fb_sensor_score f > ATLAS_CLIENT_DATA_PLANE_FEEDBACKS_SCORE_MAX)
      then mret ATLAS_INVALID_INPUT else
      if decide (fb_time_score f > ATLAS_CLIENT_DATA_PLANE_FEEDBACKS_SCORE_MAX)
      then mret ATLAS_INVALID_INPUT else
      (* Send feedback score *)
      _ ← send_feedback_command f;
      feedback_loop feedback
  end.

Definition atlas_reputation_feedback (feedback : option (list atlas_feedback)) : L atlas_status :=
  match feedback with
  | None | Some [] => mret ATLAS_INVALID_INPUT
  | Some feedback => feedback_loop feedback
  end.

(** The body of the loop of [atlas_reputation_request]: status and identity. *)
Definition reputation_reply_body (s : atlas_status * option (list byte)) (cmd : atlas_cmd)
  : res ((atlas_status * option (list byte)) * bool) :=
  if decide (cmd_type cmd = cmd_code ATLAS_CMD_DATA_PLANE_FEATURE_REPUTATION) then
    v ← mem_load (cmd_value cmd) 0 (cmd_length cmd);
    Ok ((s.1, Some v), true)
  else if decide (cmd_type cmd = cmd_code ATLAS_CMD_DATA_PLANE_FEATURE_ERROR) then
    Ok ((ATLAS_GENERAL_ERR, s.2), true)
  else Ok (s, false).

(** [identity] is the caller's pointer before the call. *)
Definition atlas_reputation_request (sensor_type : Z) (identity : option (list byte))
  : L (atlas_status * option (list byte)) :=
  (* Add feature *)
  b ← llift (add_cmd (Some atlas_cmd_batch_new) ATLAS_CMD_DATA_PLANE_FEATURE_REPUTATION
               (st16 (htons (u16 sensor_type))));
  let data := default [] (batch_bytes b) in
  bytes ← write_to_socket data;
  if decide (bytes <> blen data) then mret (ATLAS_SOCKET_ERROR, identity) else
  fd ← lgets lb_fd;
  bytes ← lcall (lib_read fd ATLAS_CLIENT_DATA_PLANE_BUFFER_LEN);
  let buf := default [] bytes in
  if decide (blen buf <= 0) then mret (ATLAS_SOCKET_ERROR, identity) else
  '(status, batch) ← llift (atlas_cmd_batch_set_raw (Some atlas_cmd_batch_new) (Some buf) (u16 (blen buf)));
  if decide (status <> ATLAS_OK) then mret (status, identity) else
  llift (cmd_loop reputation_reply_body batch (ATLAS_OK, identity)).

(** [atlas_init] up to the creation of the background thread. *)
Definition atlas_init (fuel : nat) (qos ppm pack_maxlen : Z) : L (atlas_status * option (list byte)) :=
  (* Set application data *)
  _ ← lput (lset_client (mk_info qos ppm pack_maxlen));
  (* Connect to atlas client *)
  _ ← socket_connect fuel;
  (* Get identity from atlas client *)
  send_identity_command fuel.
End AtlasLib.

(** * Facts on the messages *)

(** The three policy values as the library writes them, in host order. *)
Definition policy_wire `{HostEndian} (i : client_info) : list byte :=
  wire [(ATLAS_CMD_DATA_PLANE_POLICY_QOS, st16 (ci_qos i));
        (ATLAS_CMD_DATA_PLANE_POLICY_PACKETS_PER_MINUTE, st16 (ci_packets_per_min i));
        (ATLAS_CMD_DATA_PLANE_POLICY_PACKETS_MAXLEN, st16 (ci_packets_maxlen i))].

Section MessageFacts.
Context `{HostEndian}.

(** A batch that is the value of one command of another. *)
Lemma nested_wire t inner b :
  inner <> [] -> blen (wire inner) < 65000 -> add_cmds (Some atlas_cmd_batch_new) inner = Ok b ->
  exists b', (let '(cmd_buf_inner, cmd_inner_len) := atlas_cmd_batch_get_buf b None 0 in
              atlas_cmd_batch_add (Some atlas_cmd_batch_new) (cmd_code t) cmd_inner_len cmd_buf_inner) = Ok b' /\
    batch_bytes b' = Some (wire [(t, wire inner)]).
Proof.
  intros Hne Hfit Hadds.
  destruct (add_cmds_repr atlas_cmd_batch_new [] inner batch_repr_new) as (b1 & Hrun & Hl & Hb); [rewrite blen_encode_nil; blen_pos; lia|].
  rewrite Hadds in Hrun. injection Hrun as ->. cbn [atlas_cmd_batch_get_buf app] in *. fold (wire inner) in Hl, Hb.
  assert (Hpos : 0 < blen (wire inner)) by (destruct inner as [|[] ?]; [done|]; rewrite blen_wire_cons; blen_pos; lia).
  rewrite Hl. destruct (buf_ b1) as [buf|];
    [change (buf = wire inner) in Hb|change ([] = wire inner) in Hb; rewrite <- Hb in Hpos; done].
  subst buf. destruct (add_cmd_ok atlas_cmd_batch_new [] t (wire inner) [] batch_repr_new)
    as (b' & Hadd & Hb'); [rewrite encode_app; blia|].
  rewrite app_nil_r, u16_small in Hadd by (unfold is_u16; lia). rewrite Hadd. eexists. split; [done|].
  by apply batch_bytes_repr.
Qed.

Lemma registration_batch_wire i :
  exists b, registration_batch i = Ok b /\
    batch_bytes b = Some (wire [(ATLAS_CMD_DATA_PLANE_POLICY, policy_wire i)]).
Proof.
  set (inner := [(ATLAS_CMD_DATA_PLANE_POLICY_QOS, st16 (ci_qos i));
        (ATLAS_CMD_DATA_PLANE_POLICY_PACKETS_PER_MINUTE, st16 (ci_packets_per_min i));
        (ATLAS_CMD_DATA_PLANE_POLICY_PACKETS_MAXLEN, st16 (ci_packets_maxlen i))]).
  assert (Hlen : blen (wire inner) = 18).
  { unfold inner. rewrite !blen_wire_cons, blen_wire_nil, !blen_st16. done. }
  destruct (add_cmds_wire inner) as (b & Hrun & _); [done|lia|].
  destruct (nested_wire ATLAS_CMD_DATA_PLANE_POLICY inner b) as (b' & Hn & Hb); [done|lia|done|].
  exists b'. split; [|done]. rewrite <- Hn. unfold inner in Hrun. cbn [add_cmds] in Hrun. unfold registration_batch.
  destruct (add_cmd (Some atlas_cmd_batch_new) _ _) as [b1|]; [|done]. rewrite res_bind_ok in Hrun |- *.
  destruct (add_cmd b1 _ _) as [b2|]; [|done]. rewrite res_bind_ok in Hrun |- *.
  destruct (add_cmd b2 _ _) as [b3|]; [|done]. by injection Hrun as ->.
Qed.

Lemma load_st16 v rest : is_u16 v -> exists raw, mem_load (st16 v ++ rest) 0 2 = Ok raw /\ ld16 raw = v.
Proof.
  intros Hv. exists (st16 v). split; [|by apply ld16_st16]. apply mem_load_prefix. by rewrite blen_st16.
Qed.

(** One command of the policy, whatever follows it. *)
Lemma policy_step t v rest d (f : dp_state) :
  is_u16 v ->
  (t = ATLAS_CMD_DATA_PLANE_POLICY_QOS /\
   f = mk_dp (connected_socket d) v (policy_packets_per_min d) (policy_packets_maxlen d)
         (active_policy d) (packets_per_min d) (packets_avg d)) \/
  (t = ATLAS_CMD_DATA_PLANE_POLICY_PACKETS_PER_MINUTE /\
   f = mk_dp (connected_socket d) (policy_qos d) v (policy_packets_maxlen d)
         (active_policy d) (packets_per_min d) (packets_avg d)) \/
  (t = ATLAS_CMD_DATA_PLANE_POLICY_PACKETS_MAXLEN /\
   f = mk_dp (connected_socket d) (policy_qos d) (policy_packets_per_min d) v
         (active_policy d) (packets_per_min d) (packets_avg d)) ->
  policy_body d (mk_cmd (cmd_code t) (blen (st16 v)) (st16 v ++ rest)) = Ok (f, false).
Proof.
  intros Hv Hcase. destruct (load_st16 v rest Hv) as (raw & Hl & Hr).
  unfold policy_body, set_policy_qos, set_policy_packets_per_min, set_policy_packets_maxlen.
  cbn [cmd_type cmd_value]. rewrite Hl, !res_bind_ok, Hr.
  destruct Hcase as [[-> ->]|[[-> ->]|[-> ->]]]; done.
Qed.
End MessageFacts.

(** * The library and the connector together *)

(** The connector's state after a policy has been registered. *)
Definition policy_dp (i : client_info) (d : dp_state) : dp_state :=
  mk_dp (connected_socket d) (ci_qos i) (ci_packets_per_min i) (ci_packets_maxlen i) true
    (packets_per_min d) (packets_avg d).

Definition info_u16 (i : client_info) : Prop :=
  is_u16 (ci_qos i) /\ is_u16 (ci_packets_per_min i) /\ is_u16 (ci_packets_maxlen i).

(** The commands the gateway gets for a policy: network order. *)
Definition policy_cmds (d : dp_state) : list (atlas_cmd_type * list byte) :=
  [(ATLAS_CMD_DATA_PLANE_POLICY_QOS, be16 (policy_qos d));
   (ATLAS_CMD_DATA_PLANE_POLICY_PACKETS_PER_MINUTE, be16 (policy_packets_per_min d));
   (ATLAS_CMD_DATA_PLANE_POLICY_PACKETS_MAXLEN, be16 (policy_packets_maxlen d))].

Section Together.
Context {E : Env} `{!EnvLaws E} `{HostEndian}.

Lemma wire_wf cs : blen (wire cs) < 65536 -> Forall wf_cmd ((fun c => (cmd_code c.1, c.2)) <$> cs).
Proof.
  induction cs as [|[t v] cs IH]; intros Hlen; [constructor|]. rewrite blen_wire_cons in Hlen.
  rewrite fmap_cons. constructor.
  - split; [apply cmd_code_u16|]. cbn. blen_pos. lia.
  - apply IH. blen_pos. lia.
Qed.

(** The connector reads a message: a fold over its commands. *)
Lemma read_cb_run fd cs x c :
  cs <> [] -> blen (wire cs) < 65536 ->
  sock_read fd ATLAS_CLIENT_DATA_PLANE_BUFFER_LEN (cl_ext c) = (Some (wire cs), x) ->
  atlas_data_plane_read_cb fd c =
  (c' ← fold_cmds (fun c cmd => '(_, c) ← read_body cmd c; Ok (c, false)) (set_ext x c)
          ((fun c => (cmd_code c.1, c.2)) <$> cs);
   Ok (tt, c')).
Proof.
  intros Hne Hlen Hread.
  assert (Hpos : 0 < blen (wire cs)) by (destruct cs as [|[]]; [done|]; rewrite blen_wire_cons; blen_pos; lia).
  unfold atlas_data_plane_read_cb. rewrite (M_bind_run (call _) _ _ (Some (wire cs)) (set_ext x c))
    by (unfold call; by rewrite Hread).
  change (default [] (Some (wire cs))) with (wire cs). cbv zeta.
  rewrite decide_False by lia. rewrite u16_small by (unfold is_u16; lia).
  pose proof (set_raw_encode atlas_cmd_batch_new _ [] (wire_wf cs Hlen) ltac:(unfold wire in *; lia)) as Hs.
  rewrite app_nil_r in Hs. fold (wire cs) in Hs. rewrite Hs.
  rewrite (M_bind_run (lift (Ok _)) _ _ _ _ eq_refl). cbv beta iota. rewrite decide_False by auto.
  unfold cmd_loop_M, wire. by rewrite cmd_loop_fold by (by apply wire_wf || by destruct cs).
Qed.

Lemma policy_fold i d :
  info_u16 i ->
  fold_cmds policy_body d ((fun c => (cmd_code c.1, c.2)) <$>
    [(ATLAS_CMD_DATA_PLANE_POLICY_QOS, st16 (ci_qos i));
     (ATLAS_CMD_DATA_PLANE_POLICY_PACKETS_PER_MINUTE, st16 (ci_packets_per_min i));
     (ATLAS_CMD_DATA_PLANE_POLICY_PACKETS_MAXLEN, st16 (ci_packets_maxlen i))]) =
  Ok (mk_dp (connected_socket d) (ci_qos i) (ci_packets_per_min i) (ci_packets_maxlen i)
        (active_policy d) (packets_per_min d) (packets_avg d)).
Proof.
  intros (H1 & H2 & H3). cbn [fmap list_fmap fold_cmds fst snd].
  erewrite policy_step by (done || (left; done)). rewrite res_bind_ok. cbv beta iota.
  erewrite policy_step by (done || (right; left; done)). rewrite res_bind_ok. cbv beta iota.
  erewrite policy_step by (done || (right; right; done)). done.
Qed.

Lemma parse_policy_run i rest c :
  info_u16 i ->
  atlas_data_plane_parse_policy (policy_wire i ++ rest) (blen (policy_wire i)) c =
  send_policy_command (set_dp (policy_dp i (cl_dp c)) c).
Proof.
  intros Hi.
  assert (Hlen : blen (policy_wire i) = 18).
  { unfold policy_wire. rewrite !blen_wire_cons, blen_wire_nil, !blen_st16. done. }
  unfold atlas_data_plane_parse_policy. rewrite decide_False by lia. unfold policy_wire in *.
  set (cs := [(ATLAS_CMD_DATA_PLANE_POLICY_QOS, _); _; _]) in *.
  pose proof (set_raw_encode atlas_cmd_batch_new _ rest (wire_wf cs ltac:(lia)) ltac:(unfold wire in *; lia)) as Hs.
  fold (wire cs) in Hs. rewrite Hs. rewrite (M_bind_run (lift (Ok _)) _ _ _ _ eq_refl). cbv beta iota.
  rewrite decide_False by auto.
  assert (Hu : update_dp (fun d => d ← cmd_loop policy_body (Some (mk_batch (blen (wire cs)) (Some (wire cs)))) d;
                                   Ok (set_active_policy d)) c = Ok (tt, set_dp (policy_dp i (cl_dp c)) c)).
  { unfold update_dp. rewrite (M_bind_run _ _ _ _ _ eq_refl).
    pose proof (cmd_loop_fold policy_body _ (cl_dp c) (wire_wf cs ltac:(lia)) ltac:(done)) as Hf.
    fold (wire cs) in Hf. rewrite Hf. unfold cs. rewrite policy_fold by done. done. }
  by rewrite (M_bind_run _ _ _ _ _ Hu).
Qed.

Lemma send_policy_run c hostname port :
  gateway_set c hostname port -> active_policy (cl_dp c) = true ->
  send_policy_command c = Fault Uninitialised \/
  exists c', send_policy_command c = Ok (tt, c') /\ cl_dp c' = cl_dp c /\
    sends ATLAS_COAP_METHOD_PUT (gateway_uri hostname port ATLAS_CLIENT_POLICY_COAP_PATH)
      (wire (policy_cmds (cl_dp c))) c c'.
Proof.
  intros Hg Ha. unfold send_policy_command. rewrite (M_bind_run _ _ _ _ _ eq_refl), Ha. cbn [negb].
  assert (Hb : exists b, policy_batch (cl_dp c) = Ok b /\ batch_bytes b = Some (wire (policy_cmds (cl_dp c)))).
  { destruct (add_cmds_wire (policy_cmds (cl_dp c))) as (b & Hrun & Hb); [done| |].
    { unfold policy_cmds. rewrite !blen_wire_cons, blen_wire_nil, !blen_be16. lia. }
    exists b. split; [|done]. unfold policy_batch. rewrite !st16_htons. cbn [add_cmds policy_cmds] in Hrun.
    destruct (add_cmd (Some atlas_cmd_batch_new) _ _) as [b1|]; [|done]. rewrite res_bind_ok in Hrun |- *.
    destruct (add_cmd b1 _ _) as [b2|]; [|done]. rewrite res_bind_ok in Hrun |- *.
    by destruct (add_cmd b2 _ _). }
  pose proof (send_batch_run _ _ ATLAS_COAP_METHOD_PUT ATLAS_CLIENT_POLICY_COAP_PATH
    ATLAS_CLIENT_POLICY_TIMEOUT_MS cb_policy_callback hostname port c Hb Hg ltac:(done)) as Hs.
  unfold send_batch in Hs. rewrite Hs. set (u := gateway_uri _ _ _).
  set (bytes := wire _). destruct (request_cases (Some u) ATLAS_COAP_METHOD_PUT (Some bytes)
    ATLAS_CLIENT_POLICY_TIMEOUT_MS (Some cb_policy_callback) c) as [(?&?&?&_&_&Hc)|[(u'&?&?&?&?&?&?&Hu&_&_&_&_&_&_&Hc)|Hc]];
    rewrite Hc; [right|right|by left]; (eexists; split; [reflexivity|]; split; [done|]).
  - by left.
  - injection Hu as <-. right. by eexists.
Qed.
End Together.

(** The policy the application registers through the library is what the
    connector on the same host stores, and what it sends to the gateway: one PUT to
    gateway/policy with the three values in network order, whatever the host's own
    byte order. *)
Theorem policy_end_to_end `{E : Env} `{!EnvLaws E} `{HostEndian}
    (i : client_info) (b : option cmd_batch) (fd : Z) (x : ext) (c : client) (hostname port : list byte) :
  info_u16 i -> gateway_set c hostname port -> registration_batch i = Ok b ->
  sock_read fd ATLAS_CLIENT_DATA_PLANE_BUFFER_LEN (cl_ext c) = (batch_bytes b, x) ->
  atlas_data_plane_read_cb fd c = Fault Uninitialised \/
  exists c', atlas_data_plane_read_cb fd c = Ok (tt, c') /\ cl_dp c' = policy_dp i (cl_dp c) /\
    sends ATLAS_COAP_METHOD_PUT (gateway_uri hostname port ATLAS_CLIENT_POLICY_COAP_PATH)
      (wire [(ATLAS_CMD_DATA_PLANE_POLICY_QOS, be16 (ci_qos i));
             (ATLAS_CMD_DATA_PLANE_POLICY_PACKETS_PER_MINUTE, be16 (ci_packets_per_min i));
             (ATLAS_CMD_DATA_PLANE_POLICY_PACKETS_MAXLEN, be16 (ci_packets_maxlen i))]) c c'.
Proof.
  intros Hi Hg Hb Hread. destruct (registration_batch_wire i) as (b' & Hb' & Hbytes).
  rewrite Hb in Hb'. injection Hb' as <-. rewrite Hbytes in Hread.
  assert (Hlen : blen (policy_wire i) = 18).
  { unfold policy_wire. rewrite !blen_wire_cons, blen_wire_nil, !blen_st16. done. }
  rewrite (read_cb_run fd [(ATLAS_CMD_DATA_PLANE_POLICY, policy_wire i)] x c); [|done|blia|done].
  cbn [fmap list_fmap fold_cmds fst snd]. unfold read_body. cbn [cmd_type cmd_value cmd_length].
  rewrite decide_True by done. rewrite parse_policy_run by done.
  set (c1 := set_dp _ _).
  destruct (send_policy_run c1 hostname port Hg eq_refl) as [->|(c' & -> & Hd & Hs)]; [by left|right].
  exists c'. split; [done|]. split; [by rewrite Hd|exact Hs].
Qed.

(** * The retry loop *)

(** A peer that becomes available: [pending x] bounds how many more times a write
    or a connect can fail from [x] on. *)
Class LibLaws (LE : LibEnv) := {
  pending : lext -> nat;
  lib_write_pending fd data x :
    ((lib_write fd data x).1 = blen data /\ (pending (lib_write fd data x).2 <= pending x)%nat) \/
    (pending (lib_write fd data x).2 < pending x)%nat;
  lib_connect_pending fd x :
    ((lib_connect fd x).1 = 0 /\ (pending (lib_connect fd x).2 <= pending x)%nat) \/
    (pending (lib_connect fd x).2 < pending x)%nat;
  lib_close_pending fd x : (pending (lib_close fd x) <= pending x)%nat;
  lib_socket_pending x : (pending (lib_socket x).2 <= pending x)%nat;
}.

Lemma L_bind_run `{LE : LibEnv} {A B} (m : L A) (k : A -> L B) s a s' :
  m s = Ok (a, s') -> (m ≫= k) s = k a s'.
Proof. intros Hm. unfold mbind, L_bind. by rewrite Hm. Qed.

Section Retry.
Context `{LE : LibEnv} `{!LibLaws LE} `{HostEndian}.

(** The last thing that happened was one write of the whole message. *)
Definition written (buf : list byte) (s : lib_state) : Prop :=
  exists x, lib_write (lb_fd s) buf x = (blen buf, lb_ext s).

Lemma connect_loop_ends fuel s :
  (pending (lb_ext s) < fuel)%nat ->
  exists x, connect_loop fuel s = Ok (tt, lset_ext x s) /\ (pending x <= pending (lb_ext s))%nat.
Proof.
  revert s. induction fuel as [|fuel IH]; intros s Hf; [lia|]. cbn [connect_loop].
  rewrite (L_bind_run _ _ _ _ _ eq_refl). unfold mbind, L_bind, lcall.
  pose proof (lib_connect_pending (lb_fd s) (lb_ext s)) as Hc.
  destruct (lib_connect (lb_fd s) (lb_ext s)) as [rc x]. cbn in Hc |- *.
  destruct (decide (rc = 0)) as [->|Hrc].
  - exists x. split; [done|]. lia.
  - destruct Hc as [[? _]|Hc]; [done|]. destruct (IH (lset_ext x s)) as (x' & Hr & Hp); [cbn; lia|].
    exists x'. cbn in Hr, Hp. split; [by rewrite Hr|]. lia.
Qed.

Lemma retry_ends fuel buf s :
  (pending (lb_ext s) < fuel)%nat ->
  exists s', write_to_socket_retry fuel buf s = Ok (tt, s') /\ written buf s' /\
    (pending (lb_ext s') <= pending (lb_ext s))%nat /\ lb_client s' = lb_client s.
Proof.
  revert buf s. induction fuel as [|fuel IH]; intros buf s Hf; [lia|]. cbn [write_to_socket_retry].
  pose proof (lib_write_pending (lb_fd s) buf (lb_ext s)) as Hw.
  destruct (lib_write (lb_fd s) buf (lb_ext s)) as [n x] eqn:Hwr. cbn in Hw.
  assert (Hws : write_to_socket buf s = Ok (n, lset_ext x s)).
  { unfold write_to_socket, mbind, L_bind, lgets, lcall. by rewrite Hwr. }
  rewrite (L_bind_run _ _ _ _ _ Hws).
  destruct (decide (n = blen buf)) as [->|Hn].
  { eexists. split; [reflexivity|]. split; [by exists (lb_ext s)|]. cbn. split; [lia|done]. }
  destruct Hw as [[? _]|Hw]; [done|].
  (* reconnect, which registers again *)
  assert (exists s2, socket_connect_with fuel (write_to_socket_retry fuel) (lset_ext x s) = Ok (tt, s2) /\
    (pending (lb_ext s2) <= pending x)%nat /\ lb_client s2 = lb_client s) as (s2 & Hc & Hp2 & Hi2).
  { unfold socket_connect_with. rewrite (L_bind_run _ _ _ _ _ eq_refl). cbn [lb_fd lset_ext].
    rewrite (L_bind_run (lput _) _ _ tt _ eq_refl). cbn [lb_ext lset_ext].
    pose proof (lib_close_pending (lb_fd s) x) as Hcl.
    pose proof (lib_socket_pending (lib_close (lb_fd s) x)) as Hso.
    unfold mbind at 1, L_bind at 1, lcall at 1. cbn [lb_ext lset_ext].
    destruct (lib_socket (lib_close (lb_fd s) x)) as [fd x1]. cbn [fst snd] in Hso.
    rewrite (L_bind_run (lput _) _ _ tt _ eq_refl).
    destruct (decide (fd = -1)); [eexists; split; [reflexivity|]; cbn; split; [lia|done]|].
    set (s1 := lset_fd fd _).
    destruct (connect_loop_ends fuel s1) as (x2 & Hcon & Hp); [cbn; lia|].
    rewrite (L_bind_run _ _ _ _ _ Hcon), (L_bind_run _ _ _ _ _ eq_refl). cbn in Hp.
    destruct (registration_batch_wire (lb_client (lset_ext x2 s1))) as (b & -> & Hb).
    rewrite (L_bind_run (llift (Ok b)) _ _ b _ eq_refl).
    match goal with |- context [write_to_socket_retry fuel ?m ?s1] =>
      destruct (IH m s1) as (s3 & Hr3 & _ & Hp3 & Hi3); [cbn; lia|] end.
    exists s3. split; [exact Hr3|]. cbn in Hp3, Hi3. split; [lia|done]. }
  rewrite (L_bind_run _ _ _ _ _ Hc). destruct (IH buf s2) as (s3 & Hr & Hwn & Hp3 & Hi3); [lia|].
  exists s3. split; [done|]. split; [done|]. split; [lia|congruence].
Qed.
End Retry.

(** Against a peer that becomes available after finitely many failures, the
    write-and-reconnect loop of the library terminates, with every number of steps
    above that bound, and when it does the whole message has been written by its
    last write; the application's policy is unchanged. *)
Theorem retry_delivers `{LE : LibEnv} `{!LibLaws LE} `{HostEndian}
    (buf : list byte) (s : lib_state) (fuel : nat) :
  (pending (lb_ext s) < fuel)%nat ->
  exists s', write_to_socket_retry fuel buf s = Ok (tt, s') /\ written buf s' /\ lb_client s' = lb_client s.
Proof.
  intros Hf. destruct (retry_ends fuel buf s Hf) as (s' & H1 & H2 & _ & H3). by exists s'.
Qed.

(** * Statistics *)

Fixpoint receive_packets `{LE : LibEnv} (lens : list Z) : L unit :=
  match lens with
  | [] => mret tt
  | n :: lens => _ ← atlas_pkt_received n; receive_packets lens
  end.

Lemma receive_packets_run `{LE : LibEnv} (lens : list Z) (s : lib_state) :
  Forall (fun n => 0 <= n) lens -> 0 <= lb_payload_samples s -> 0 <= lb_payload_total s ->
  lb_payload_samples s + Z.of_nat (length lens) <= 2147483647 ->
  lb_payload_total s + foldr Z.add 0 lens <= 2147483647 ->
  exists s', receive_packets lens s = Ok (tt, s') /\ lb_ext s' = lb_ext s /\
    lb_payload_samples s' = lb_payload_samples s + Z.of_nat (length lens) /\
    lb_payload_total s' = lb_payload_total s + foldr Z.add 0 lens /\
    (lens <> [] -> lb_payload_avg s' = lb_payload_total s' / lb_payload_samples s').
Proof.
  intros Hl. revert s. induction Hl as [|n lens Hn Hl IH]; intros s H1 H2 H3 H4; cbn [receive_packets].
  { exists s. cbn. repeat split; [lia|lia|done]. }
  assert (Hpos : 0 <= foldr Z.add 0 lens) by (clear -Hl; induction Hl; cbn; lia).
  cbn [length foldr] in *.
  set (s1 := lset_stats (lb_payload_samples s + 1) (lb_payload_total s + n)
               (Z.quot (lb_payload_total s + n) (lb_payload_samples s + 1)) s).
  assert (Hstep : atlas_pkt_received n s = Ok (tt, s1)).
  { unfold atlas_pkt_received, int32. by rewrite !decide_True by lia. }
  rewrite (L_bind_run _ _ _ _ _ Hstep).
  destruct (IH s1) as (s' & Hr & Hx & Hs & Ht & Ha); [cbn; lia..|]. exists s'. split; [exact Hr|].
  split; [done|]. cbn in Hs, Ht. split; [lia|]. split; [lia|]. intros _.
  destruct lens as [|m lens]; [|by apply Ha]. cbn in Hr. injection Hr as <-. cbn.
  apply Z.quot_div_nonneg; lia.
Qed.

(** After any packets whose number and total length fit an int, the counters
    hold their number, their total length and the average rounded down. *)
Theorem packet_average `{LE : LibEnv} (lens : list Z) (s : lib_state) :
  lens <> [] -> Forall (fun n => 0 <= n) lens ->
  lb_payload_samples s = 0 -> lb_payload_total s = 0 ->
  Z.of_nat (length lens) <= 2147483647 -> foldr Z.add 0 lens <= 2147483647 ->
  exists s', receive_packets lens s = Ok (tt, s') /\
    lb_payload_samples s' = Z.of_nat (length lens) /\
    lb_payload_avg s' = foldr Z.add 0 lens / Z.of_nat (length lens).
Proof.
  intros Hne Hl Hs Ht H3 H4. destruct (receive_packets_run lens s Hl) as (s' & Hr & _ & H5 & H6 & H7); [lia..|].
  exists s'. rewrite H7, H5, H6, Hs, Ht, !Z.add_0_l by done. done.
Qed.

(** ** Witnesses *)

(** A peer that rejects the first writes and then takes everything. *)
#[export] Instance sim_lib : LibEnv := {|
  lext := nat * list (list byte);
  lib_close := fun _ x => x;
  lib_socket := fun x => (5, x);
  lib_connect := fun _ x => (0, x);
  lib_write := fun _ data x =>
    match x.1 with O => (blen data, (O, x.2 ++ [data])) | S n => (-1, (n, x.2)) end;
  lib_read := fun _ _ x => (None, x);
|}.

#[export] Program Instance sim_lib_laws : LibLaws sim_lib := {| pending := fst |}.
Next Obligation. intros fd data [[|n] l]; cbn; lia. Qed.
Next Obligation. intros fd [n l]; cbn; lia. Qed.
Next Obligation. intros fd [n l]; cbn; lia. Qed.
Next Obligation. intros [n l]; cbn; lia. Qed.

Definition lib0 : @lib_state sim_lib := mk_lib 3 0 0 0 (mk_info 1 60 256) (2%nat, []).

Lemma retry_delivers_witness :
  exists s', @write_to_socket_retry sim_lib true 3 (cstr "hello") lib0 = Ok (tt, s') /\
    written (cstr "hello") s' /\ lb_client s' = mk_info 1 60 256.
Proof. apply (@retry_delivers sim_lib sim_lib_laws true (cstr "hello") lib0 3). cbn. lia. Defined.

Lemma packet_average_witness :
  exists s', @receive_packets sim_lib [100; 50; 25] lib0 = Ok (tt, s') /\
    lb_payload_samples s' = 3 /\ lb_payload_avg s' = 58.
Proof.
  apply (@packet_average sim_lib [100; 50; 25] lib0); [done|by repeat constructor|done..].
Defined.

(** The connector's client, and the bytes of a registration waiting on its socket. *)
Definition policy_client : @client sim_env :=
  set_ext (mk_sim (sim_open sim0) [] [Some (wire [(ATLAS_CMD_DATA_PLANE_POLICY,
             @policy_wire true (mk_info 1 60 256))])] [] [] true [])
    (set_cfg (mk_config (Some (cstr "gw")) (Some (cstr "10100")) (Some (cstr "eth0")) 10001)
       (@boot sim_env sim0)).

Definition policy_msg : option cmd_batch :=
  match @registration_batch true (mk_info 1 60 256) with Ok b => b | Fault _ => None end.

Lemma policy_end_to_end_witness :
  @atlas_data_plane_read_cb sim_env true 5 policy_client = Fault Uninitialised \/
  exists c', @atlas_data_plane_read_cb sim_env true 5 policy_client = Ok (tt, c') /\
    cl_dp c' = mk_dp (-1) 1 60 256 true 0 0 /\
    sends ATLAS_COAP_METHOD_PUT (cstr "coaps://gw:10100/gateway/policy")
      (wire [(ATLAS_CMD_DATA_PLANE_POLICY_QOS, [x00; x01]);
             (ATLAS_CMD_DATA_PLANE_POLICY_PACKETS_PER_MINUTE, [x00; x3c]);
             (ATLAS_CMD_DATA_PLANE_POLICY_PACKETS_MAXLEN, [x01; x00])]) policy_client c'.
Proof.
  apply (@policy_end_to_end sim_env sim_laws true (mk_info 1 60 256) policy_msg 5
    (sock_read 5 2048 (cl_ext policy_client)).2 policy_client (cstr "gw") (cstr "10100")).
  - by repeat split.
  - by repeat split.
  - reflexivity.
  - reflexivity.
Defined.
