(* ===== verification/Payload.v ===== *)
(** The payloads of the telemetry features (telemetry/atlas_telemetry_hostname.c,
    atlas_telemetry_kern_info.c, atlas_telemetry_sysinfo.c and
    atlas_telemetry_packets_info.c). A payload producer leaves [*payload] NULL when
    it has nothing to send, the None here. *)
From S2P Require Import Prelude Defs CLib State SimEnv Config Command Sched Alarm Safety Identity DataPlane.

Definition ATLAS_HOSTNAME_FILE : string := "/etc/hostname".
Definition ATLAS_HOSTNAME_MAX_LEN : Z := 32.
Definition ATLAS_KERNEL_INFO_MAX_LEN : Z := 128.
Definition ATLAS_SYSINFO_FEATURE_MAX_LEN : Z := 32.
Definition ATLAS_PACKETS_INFO_FEATURE_MAX_LEN : Z := 32.

(** [sprintf(str, "%lu", v)] into a buffer of 33 bytes; [unsigned long] is 64 bits
    wide. *)
Definition u64 (z : Z) : Z := z mod 18446744073709551616.
Definition sprintf_lu (v : Z) : res (list byte) :=
  fits (ATLAS_SYSINFO_FEATURE_MAX_LEN + 1) (dec (u64 v)).
(** [sprintf(str, "%u", v)] of an unsigned short. *)
Definition sprintf_u16 (v : Z) : res (list byte) :=
  fits (ATLAS_SYSINFO_FEATURE_MAX_LEN + 1) (dec (u16 v)).

(** [strncat(dst, src, sizeof(dst) - strlen(dst) - 1)] for a buffer of [size]. *)
Definition strncat (size : Z) (dst src : list byte) : list byte :=
  dst ++ take (Z.to_nat (size - strlen dst - 1)) src.

(** The loop that removes the newline: from the last character down, the first
    newline ends the string. *)
Fixpoint newline_loop (i : nat) (hostname : list byte) : list byte :=
  match i with
  | O => hostname
  | S i => if decide (hostname !! i = Some x0a) then take i hostname else newline_loop i hostname
  end.

Section Payload.
Context {E : Env} `{HostEndian}.

(** The tail every producer ends with: the identity and one string value, in a
    batch that is copied to [*payload]. *)
Definition feature_payload (t : atlas_cmd_type) (str : list byte) : M (option (list byte)) :=
  identity ← atlas_identity_get;
  b ← lift (add_cmd (Some atlas_cmd_batch_new) ATLAS_CMD_IDENTITY identity);
  b ← lift (add_cmd b t str);
  mret (batch_bytes b).

Definition atlas_telemetry_payload_hostname (use_threshold : bool) : M (option (list byte)) :=
  if use_threshold then mret None else
  fd ← call (file_read ATLAS_HOSTNAME_FILE ATLAS_HOSTNAME_MAX_LEN);
  match fd with
  | None => mret None
  | Some bytes =>
      if decide (blen bytes <= 0) then mret None else
      (* Remove the newline from hostname *)
      let hostname := until_nul bytes in
      feature_payload ATLAS_CMD_TELEMETRY_HOSTNAME (newline_loop (length hostname) hostname)
  end.

Definition atlas_telemetry_payload_kern_info (use_threshold : bool) : M (option (list byte)) :=
  if use_threshold then mret None else
  u ← call uname;
  match u with
  | None => mret None
  | Some buffer =>
      let size := ATLAS_KERNEL_INFO_MAX_LEN + 1 in
      let kern_info := take (Z.to_nat (size - 1)) (un_sysname buffer) in
      let kern_info := strncat size kern_info (cstr " ") in
      let kern_info := strncat size kern_info (un_nodename buffer) in
      let kern_info := strncat size kern_info (cstr " ") in
      let kern_info := strncat size kern_info (un_release buffer) in
      let kern_info := strncat size kern_info (cstr " ") in
      let kern_info := strncat size kern_info (un_version buffer) in
      let kern_info := strncat size kern_info (cstr " ") in
      let kern_info := strncat size kern_info (un_machine buffer) in
      (* Add kernel info command *)
      feature_payload ATLAS_CMD_TELEMETRY_KERN_INFO kern_info
  end.

Definition atlas_telemetry_payload_uptime (use_threshold : bool) : M (option (list byte)) :=
  if use_threshold then mret None else
  i ← call sysinfo;
  match i with
  | None => mret None
  | Some info =>
      str ← lift (sprintf_lu (si_uptime info));
      feature_payload ATLAS_CMD_TELEMETRY_SYSINFO_UPTIME str
  end.

Definition atlas_telemetry_payload_totalram (use_threshold : bool) : M (option (list byte)) :=
  if use_threshold then mret None else
  i ← call sysinfo;
  match i with
  | None => mret None
  | Some info =>
      str ← lift (sprintf_lu (si_totalram info));
      feature_payload ATLAS_CMD_TELEMETRY_SYSINFO_TOTALRAM str
  end.

Definition atlas_telemetry_payload_freeram (use_threshold : bool) : M (option (list byte)) :=
  if use_threshold then mret None else
  i ← call sysinfo;
  match i with
  | None => mret None
  | Some info =>
      str ← lift (sprintf_lu (si_freeram info));
      feature_payload ATLAS_CMD_TELEMETRY_SYSINFO_FREERAM str
  end.

Definition atlas_telemetry_payload_sharedram (use_threshold : bool) : M (option (list byte)) :=
  if use_threshold then mret None else
  i ← call sysinfo;
  match i with
  | None => mret None
  | Some info =>
      str ← lift (sprintf_lu (si_sharedram info));
      feature_payload ATLAS_CMD_TELEMETRY_SYSINFO_SHAREDRAM str
  end.

Definition atlas_telemetry_payload_bufferram (use_threshold : bool) : M (option (list byte)) :=
  if use_threshold then mret None else
  i ← call sysinfo;
  match i with
  | None => mret None
  | Some info =>
      str ← lift (sprintf_lu (si_bufferram info));
      feature_payload ATLAS_CMD_TELEMETRY_SYSINFO_BUFFERRAM str
  end.

Definition atlas_telemetry_payload_totalswap (use_threshold : bool) : M (option (list byte)) :=
  if use_threshold then mret None else
  i ← call sysinfo;
  match i with
  | None => mret None
  | Some info =>
      str ← lift (sprintf_lu (si_totalswap info));
      feature_payload ATLAS_CMD_TELEMETRY_SYSINFO_TOTALSWAP str
  end.

Definition atlas_telemetry_payload_freeswap (use_threshold : bool) : M (option (list byte)) :=
  if use_threshold then mret None else
  i ← call sysinfo;
  match i with
  | None => mret None
  | Some info =>
      str ← lift (sprintf_lu (si_freeswap info));
      feature_payload ATLAS_CMD_TELEMETRY_SYSINFO_FREESWAP str
  end.

(** The one feature with a threshold: with [use_threshold] a number of processes
    below it is not reported. *)
Definition atlas_telemetry_payload_procs (use_threshold : bool) : M (option (list byte)) :=
  i ← call sysinfo;
  match i with
  | None => mret None
  | Some info =>
      threshold ← gets cl_procs_threshold;
      if use_threshold && bool_decide (si_procs info < threshold) then mret None else
      str ← lift (sprintf_u16 (si_procs info));
      feature_payload ATLAS_CMD_TELEMETRY_SYSINFO_PROCS str
  end.

Definition atlas_telemetry_payload_load1 (use_threshold : bool) : M (option (list byte)) :=
  if use_threshold then mret None else
  i ← call sysinfo;
  match i with
  | None => mret None
  | Some info =>
      str ← lift (sprintf_lu (si_loads1 info));
      feature_payload ATLAS_CMD_TELEMETRY_SYSINFO_LOAD1 str
  end.

Definition atlas_telemetry_payload_load5 (use_threshold : bool) : M (option (list byte)) :=
  if use_threshold then mret None else
  i ← call sysinfo;
  match i with
  | None => mret None
  | Some info =>
      str ← lift (sprintf_lu (si_loads5 info));
      feature_payload ATLAS_CMD_TELEMETRY_SYSINFO_LOAD5 str
  end.

Definition atlas_telemetry_payload_load15 (use_threshold : bool) : M (option (list byte)) :=
  if use_threshold then mret None else
  i ← call sysinfo;
  match i with
  | None => mret None
  | Some info =>
      str ← lift (sprintf_lu (si_loads15 info));
      feature_payload ATLAS_CMD_TELEMETRY_SYSINFO_LOAD15 str
  end.

Definition atlas_telemetry_payload_packets_per_minute (use_threshold : bool) : M (option (list byte)) :=
  ppm ← get_packets_per_min;
  str ← lift (sprintf_u16 ppm);
  feature_payload ATLAS_CMD_TELEMETRY_PACKETS_PER_MINUTE str.

Definition atlas_telemetry_payload_packets_avg (use_threshold : bool) : M (option (list byte)) :=
  pack_avg ← get_packets_avg;
  str ← lift (sprintf_u16 pack_avg);
  feature_payload ATLAS_CMD_TELEMETRY_PACKETS_AVG str.

(** The call [feature->payload_cb(&payload, &payload_len, use_threshold)]. *)
Definition run_payload (cb : payload_cb) (use_threshold : bool) : M (option (list byte)) :=
  match cb with
  | pl_hostname => atlas_telemetry_payload_hostname use_threshold
  | pl_kern_info => atlas_telemetry_payload_kern_info use_threshold
  | pl_uptime => atlas_telemetry_payload_uptime use_threshold
  | pl_totalram => atlas_telemetry_payload_totalram use_threshold
  | pl_freeram => atlas_telemetry_payload_freeram use_threshold
  | pl_sharedram => atlas_telemetry_payload_sharedram use_threshold
  | pl_bufferram => atlas_telemetry_payload_bufferram use_threshold
  | pl_totalswap => atlas_telemetry_payload_totalswap use_threshold
  | pl_freeswap => atlas_telemetry_payload_freeswap use_threshold
  | pl_procs => atlas_telemetry_payload_procs use_threshold
  | pl_load1 => atlas_telemetry_payload_load1 use_threshold
  | pl_load5 => atlas_telemetry_payload_load5 use_threshold
  | pl_load15 => atlas_telemetry_payload_load15 use_threshold
  | pl_packets_per_minute => atlas_telemetry_payload_packets_per_minute use_threshold
  | pl_packets_avg => atlas_telemetry_payload_packets_avg use_threshold
  end.
End Payload.

(** * Safety: a payload producer changes no table *)

Lemma benign_sprintf_lu v : benign_res (sprintf_lu v).
Proof. apply benign_fits. Qed.
Lemma benign_sprintf_u16 v : benign_res (sprintf_u16 v).
Proof. apply benign_fits. Qed.
#[export] Hint Resolve benign_sprintf_lu benign_sprintf_u16 : okm.

Section PayloadSafety.
Context {E : Env} `{!EnvLaws E} `{HostEndian}.

Lemma quiet_feature_payload t str : quiet (feature_payload t str).
Proof. unfold feature_payload, atlas_identity_get. quiet_tac. Qed.
Hint Resolve quiet_feature_payload : okm.

Lemma quiet_run_payload cb use_threshold : quiet (run_payload cb use_threshold).
Proof. destruct cb; cbv delta [run_payload] beta iota; unfold atlas_telemetry_payload_hostname,
  atlas_telemetry_payload_kern_info, atlas_telemetry_payload_uptime,
  atlas_telemetry_payload_totalram, atlas_telemetry_payload_freeram,
  atlas_telemetry_payload_sharedram, atlas_telemetry_payload_bufferram,
  atlas_telemetry_payload_totalswap, atlas_telemetry_payload_freeswap,
  atlas_telemetry_payload_procs, atlas_telemetry_payload_load1, atlas_telemetry_payload_load5,
  atlas_telemetry_payload_load15, atlas_telemetry_payload_packets_per_minute,
  atlas_telemetry_payload_packets_avg, get_packets_per_min, get_packets_avg; quiet_tac.
Qed.
End PayloadSafety.

#[export] Hint Resolve quiet_run_payload : okm.

(** * Specification: what a producer reports *)

(** The kernel's description, cut at the 128 characters of its buffer. *)
Definition kern_string (u : utsname_t) : list byte :=
  take (Z.to_nat ATLAS_KERNEL_INFO_MAX_LEN)
    (un_sysname u ++ cstr " " ++ un_nodename u ++ cstr " " ++ un_release u ++ cstr " " ++
     un_version u ++ cstr " " ++ un_machine u).

(** The type and the text a producer reports, None when it reports nothing. *)
Definition reading `{E : Env} (cb : payload_cb) (use_threshold : bool) (c : client)
  : option (atlas_cmd_type * list byte) :=
  let once {A} (o : option A) := if use_threshold then None else o in
  let sys (t : atlas_cmd_type) (f : sysinfo_t -> Z) :=
    once ((fun i => (t, dec (u64 (f i)))) <$> (sysinfo (cl_ext c)).1) in
  match cb with
  | pl_hostname => once
      match (file_read ATLAS_HOSTNAME_FILE ATLAS_HOSTNAME_MAX_LEN (cl_ext c)).1 with
      | Some (b :: bytes) =>
          Some (ATLAS_CMD_TELEMETRY_HOSTNAME,
                newline_loop (length (until_nul (b :: bytes))) (until_nul (b :: bytes)))
      | _ => None
      end
  | pl_kern_info => once ((fun u => (ATLAS_CMD_TELEMETRY_KERN_INFO, kern_string u)) <$> (uname (cl_ext c)).1)
  | pl_uptime => sys ATLAS_CMD_TELEMETRY_SYSINFO_UPTIME si_uptime
  | pl_totalram => sys ATLAS_CMD_TELEMETRY_SYSINFO_TOTALRAM si_totalram
  | pl_freeram => sys ATLAS_CMD_TELEMETRY_SYSINFO_FREERAM si_freeram
  | pl_sharedram => sys ATLAS_CMD_TELEMETRY_SYSINFO_SHAREDRAM si_sharedram
  | pl_bufferram => sys ATLAS_CMD_TELEMETRY_SYSINFO_BUFFERRAM si_bufferram
  | pl_totalswap => sys ATLAS_CMD_TELEMETRY_SYSINFO_TOTALSWAP si_totalswap
  | pl_freeswap => sys ATLAS_CMD_TELEMETRY_SYSINFO_FREESWAP si_freeswap
  | pl_load1 => sys ATLAS_CMD_TELEMETRY_SYSINFO_LOAD1 si_loads1
  | pl_load5 => sys ATLAS_CMD_TELEMETRY_SYSINFO_LOAD5 si_loads5
  | pl_load15 => sys ATLAS_CMD_TELEMETRY_SYSINFO_LOAD15 si_loads15
  | pl_procs =>
      match (sysinfo (cl_ext c)).1 with
      | Some i => if use_threshold && bool_decide (si_procs i < cl_procs_threshold c) then None
                  else Some (ATLAS_CMD_TELEMETRY_SYSINFO_PROCS, dec (u16 (si_procs i)))
      | None => None
      end
  | pl_packets_per_minute =>
      Some (ATLAS_CMD_TELEMETRY_PACKETS_PER_MINUTE, dec (u16 (packets_per_min (cl_dp c))))
  | pl_packets_avg => Some (ATLAS_CMD_TELEMETRY_PACKETS_AVG, dec (u16 (packets_avg (cl_dp c))))
  end.

(** [newline_loop] keeps what is before the last newline. *)
Lemma newline_loop_spec i s :
  (i <= length s)%nat -> (forall j, (i <= j)%nat -> s !! j <> Some x0a) ->
  (x0a ∉ s /\ newline_loop i s = s) \/
  (exists rest, s = newline_loop i s ++ x0a :: rest /\ x0a ∉ rest).
Proof.
  induction i as [|i IH]; intros Hi Hno; cbn [newline_loop].
  - left. split; [|done]. intros (j & Hj)%list_elem_of_lookup. apply (Hno j); [lia|done].
  - destruct (decide (s !! i = Some x0a)) as [Hx|Hx].
    + right. exists (drop (S i) s). split; [by rewrite take_drop_middle|].
      intros (j & Hj)%list_elem_of_lookup. rewrite lookup_drop in Hj. apply (Hno (S i + j)%nat); [lia|done].
    + apply IH; [lia|]. intros j Hj. destruct (decide (j = i)) as [->|]; [done|]. apply Hno. lia.
Qed.

Lemma length_newline_loop i s : (length (newline_loop i s) <= length s)%nat.
Proof.
  induction i as [|i IH]; cbn [newline_loop]; [done|].
  destruct (decide _); [rewrite length_take; lia|done].
Qed.

Lemma take_strncat n (a b : list byte) : take n (take n a ++ b) = take n (a ++ b).
Proof. rewrite !take_app, take_take, length_take. f_equal; f_equal; lia. Qed.

Lemma strncat_take n a src :
  strncat (Z.of_nat n + 1) (take n a) src = take n (a ++ src).
Proof.
  unfold strncat, strlen. rewrite <- (take_strncat n a src), (take_app (take n a) src n), take_take.
  rewrite Nat.min_id. do 2 f_equal. unfold blen. lia.
Qed.

Section PayloadFacts.
Context {E : Env} `{!EnvLaws E} `{HostEndian}.

Lemma sprintf_lu_ok v : sprintf_lu v = Ok (dec (u64 v)) /\ blen (dec (u64 v)) <= 20.
Proof.
  assert (Hb : blen (dec (u64 v)) <= 20) by (apply (blen_dec _ 19); unfold u64; lia).
  split; [|done]. apply fits_ok. unfold strlen, ATLAS_SYSINFO_FEATURE_MAX_LEN. lia.
Qed.

Lemma sprintf_u16_ok v : sprintf_u16 v = Ok (dec (u16 v)) /\ blen (dec (u16 v)) <= 5.
Proof.
  assert (Hb : blen (dec (u16 v)) <= 5) by (apply (blen_dec _ 4); unfold u16; lia).
  split; [|done]. apply fits_ok. unfold strlen, ATLAS_SYSINFO_FEATURE_MAX_LEN. lia.
Qed.

(** The wire form of a reading. *)
Definition reported (c : client) (r : atlas_cmd_type * list byte) : list byte :=
  wire [(ATLAS_CMD_IDENTITY, id_identity (cl_ids c)); r].

Lemma feature_payload_run t str c :
  blen (id_identity (cl_ids c)) <= ATLAS_IDENTITY_LEN -> blen str <= 128 ->
  feature_payload t str c = Ok (Some (reported c (t, str)), c).
Proof.
  unfold ATLAS_IDENTITY_LEN. intros Hid Hs.
  destruct (add_cmds_wire [(ATLAS_CMD_IDENTITY, id_identity (cl_ids c)); (t, str)]) as (b & Hrun & Hb);
    [done|blia|].
  cbn [add_cmds] in Hrun. unfold feature_payload. rewrite (M_bind_run _ _ _ _ _ eq_refl).
  destruct (add_cmd _ ATLAS_CMD_IDENTITY _) as [b1|]; [|done]. rewrite res_bind_ok in Hrun.
  rewrite (M_bind_run (lift (Ok b1)) _ _ b1 c eq_refl).
  destruct (add_cmd b1 t str) as [b2|]; [|done]. injection Hrun as ->.
  rewrite (M_bind_run (lift (Ok b)) _ _ b c eq_refl). unfold mret, M_ret, reported. by rewrite Hb.
Qed.

(** The producers that print one field of struct sysinfo. *)
Lemma sys_payload t (f : sysinfo_t -> Z) c :
  blen (id_identity (cl_ids c)) <= ATLAS_IDENTITY_LEN ->
  exists x,
    (i ← call sysinfo;
     match i with
     | None => mret None
     | Some info => str ← lift (sprintf_lu (f info)); feature_payload t str
     end) c =
    Ok (reported c <$> ((fun i => (t, dec (u64 (f i)))) <$> (sysinfo (cl_ext c)).1), set_ext x c).
Proof.
  intros Hid. exists (sysinfo (cl_ext c)).2. unfold mbind at 1, M_bind at 1, call.
  destruct (sysinfo (cl_ext c)) as [[info|] x]; cbn [fst snd fmap option_fmap option_map]; [|done].
  destruct (sprintf_lu_ok (f info)) as [-> Hb].
  rewrite (M_bind_run (lift (Ok _)) _ _ _ _ eq_refl). by rewrite feature_payload_run by (done || lia).
Qed.

Lemma set_ext_same (c : client) : set_ext (cl_ext c) c = c.
Proof. by destruct c. Qed.

Lemma run_payload_run cb use_threshold c :
  blen (id_identity (cl_ids c)) <= ATLAS_IDENTITY_LEN ->
  exists x, run_payload cb use_threshold c = Ok (reported c <$> reading cb use_threshold c, set_ext x c).
Proof.
  intros Hid.
  assert (Hsys : forall t f (m : M (option (list byte))),
    m = (i ← call sysinfo; match i with None => mret None
         | Some info => str ← lift (sprintf_lu (f info)); feature_payload t str end) ->
    exists x, (if use_threshold then mret None else m) c =
      Ok (reported c <$> (if use_threshold then None
            else (fun i => (t, dec (u64 (f i)))) <$> (sysinfo (cl_ext c)).1), set_ext x c)).
  { intros t f m ->. destruct use_threshold; [exists (cl_ext c); by rewrite set_ext_same|].
    by apply sys_payload. }
  destruct cb; cbv delta [run_payload reading] beta iota zeta; try (by apply Hsys).
  - (* hostname *)
    unfold atlas_telemetry_payload_hostname.
    destruct use_threshold; [exists (cl_ext c); by rewrite set_ext_same|].
    exists (file_read ATLAS_HOSTNAME_FILE ATLAS_HOSTNAME_MAX_LEN (cl_ext c)).2.
    pose proof (file_read_len ATLAS_HOSTNAME_FILE ATLAS_HOSTNAME_MAX_LEN (cl_ext c)) as Hlen.
    unfold mbind, M_bind, call. destruct (file_read _ _ _) as [[[|b bytes]|] x]; [done| |done].
    cbn [fst snd fmap option_fmap option_map]. specialize (Hlen _ eq_refl). cbv iota beta zeta.
    rewrite decide_False by (rewrite blen_cons; blen_pos; lia).
    rewrite feature_payload_run; [done|done|]. set (h := until_nul (b :: bytes)).
    pose proof (blen_until_nul (b :: bytes)) as Hu. fold h in Hu.
    pose proof (length_newline_loop (length h) h). unfold blen, ATLAS_HOSTNAME_MAX_LEN in *. lia.
  - (* kernel *)
    unfold atlas_telemetry_payload_kern_info.
    destruct use_threshold; [exists (cl_ext c); by rewrite set_ext_same|].
    exists (uname (cl_ext c)).2. unfold mbind, M_bind, call.
    destruct (uname _) as [[u|] x]; [|done]. cbn [fst snd fmap option_fmap option_map].
    change (ATLAS_KERNEL_INFO_MAX_LEN + 1) with (Z.of_nat 128 + 1).
    change (Z.to_nat (Z.of_nat 128 + 1 - 1)) with 128%nat. cbv zeta.
    rewrite !strncat_take, feature_payload_run; [|done|unfold blen; rewrite length_take; lia].
    unfold kern_string. by rewrite <- !app_assoc.
  - (* processes *)
    unfold atlas_telemetry_payload_procs. exists (sysinfo (cl_ext c)).2.
    unfold mbind at 1, M_bind at 1, call. destruct (sysinfo _) as [[i|] x]; [|done].
    cbn [fst snd]. rewrite (M_bind_run _ _ _ _ _ eq_refl). cbn [cl_procs_threshold set_ext].
    destruct (_ && _); [done|]. destruct (sprintf_u16_ok (si_procs i)) as [-> Hb].
    rewrite (M_bind_run (lift (Ok _)) _ _ _ _ eq_refl). by rewrite feature_payload_run by (done || lia).
  - unfold atlas_telemetry_payload_packets_per_minute. exists (cl_ext c). rewrite set_ext_same.
    rewrite (M_bind_run _ _ _ _ _ eq_refl). destruct (sprintf_u16_ok (packets_per_min (cl_dp c))) as [-> Hb].
    rewrite (M_bind_run (lift (Ok _)) _ _ _ _ eq_refl). by rewrite feature_payload_run by (done || lia).
  - unfold atlas_telemetry_payload_packets_avg. exists (cl_ext c). rewrite set_ext_same.
    rewrite (M_bind_run _ _ _ _ _ eq_refl). destruct (sprintf_u16_ok (packets_avg (cl_dp c))) as [-> Hb].
    rewrite (M_bind_run (lift (Ok _)) _ _ _ _ eq_refl). by rewrite feature_payload_run by (done || lia).
Qed.
End PayloadFacts.
