(* ===== verification/Telemetry.v ===== *)
(** The telemetry features (telemetry/atlas_telemetry.c): the list of features,
    pushing them to the gateway, and the alarms of periodic pushes and of
    threshold scans. *)
From S2P Require Import Prelude Defs CLib State SimEnv Config Command Sched Alarm Safety CoapClient Identity DataPlane Payload.

Definition ATLAS_CLIENT_TELEMETRY_FEATURE_TIMEOUT_MS : Z := 40000.

(** ATLAS_ALARM_SEC_TO_MS, in a uint32_t. *)
Definition ATLAS_ALARM_SEC_TO_MS (sec : Z) : Z := u32 (sec * 1000).

Definition tl_has_path (path : list byte) (f : telemetry) : bool := bool_decide (tl_uri_path f = path).
Definition tl_set_push (id : Z) (f : telemetry) : telemetry :=
  mk_telemetry (tl_uri_path f) (tl_payload_cb f) id (tl_threshold_id f).
Definition tl_set_threshold (id : Z) (f : telemetry) : telemetry :=
  mk_telemetry (tl_uri_path f) (tl_payload_cb f) (tl_push_id f) id.

Section Telemetry.
Context {E : Env} `{HostEndian}.

(** [atlas_is_registered] of register/atlas_register.c *)
Definition atlas_is_registered : M bool := gets (fun c => registered (cl_reg c)).

Definition atlas_telemetry_push (feature : telemetry) (use_threshold : bool) : M unit :=
  (* If the client is not registered to gateway, do not push the telemetry feature *)
  reg ← atlas_is_registered;
  if negb reg then mret tt else
  (* Get feature payload *)
  payload ← run_payload (tl_payload_cb feature) use_threshold;
  match payload with
  | None | Some [] => mret tt
  | Some bytes =>
      uri ← atlas_cfg_coap_get_uri (tl_uri_path feature);
      _ ← atlas_coap_client_request (Some uri) ATLAS_COAP_METHOD_PUT (Some bytes)
            ATLAS_CLIENT_TELEMETRY_FEATURE_TIMEOUT_MS (Some cb_telemetry_callback);
      mret tt
  end.

Definition push_alert_alarm_cb (alarm_id : Z) : M unit :=
  features ← gets cl_features;
  (* Send the push alarm *)
  match find_first (fun p => bool_decide (tl_push_id p = alarm_id)) features with
  | Some p => atlas_telemetry_push p false
  | None => mret tt
  end.

Definition threshold_alert_alarm_cb (alarm_id : Z) : M unit :=
  features ← gets cl_features;
  (* Send the threshold alarm *)
  match find_first (fun p => bool_decide (tl_threshold_id p = alarm_id)) features with
  | Some p => atlas_telemetry_push p true
  | None => mret tt
  end.

Definition telemetry_callback (uri : list byte) (resp_status : atlas_coap_response) : M unit :=
  if decide (resp_status = ATLAS_COAP_RESP_OK) then mret tt
  else if decide (resp_status <> ATLAS_COAP_RESP_TIMEOUT) then mret tt
  else
    features ← gets cl_features;
    (* Try to send the request again *)
    match find_first (fun p => strstr uri (tl_uri_path p)) features with
    | Some p => atlas_telemetry_push p false
    | None => mret tt
    end.

Definition atlas_telemetry_add (uri_path : option (list byte)) (payload_cb : option State.payload_cb)
  : M unit :=
  match uri_path, payload_cb with
  | Some uri_path, Some payload_cb =>
      modify (fun c => set_features
        (cl_features c ++ [mk_telemetry uri_path payload_cb (-1) (-1)]) c)
  | _, _ => mret tt
  end.

Definition atlas_telemetry_del (uri_path : option (list byte)) : M unit :=
  match uri_path with
  | None => mret tt
  | Some uri_path =>
      modify (fun c => set_features (remove_first (tl_has_path uri_path) (cl_features c)) c)
  end.

Fixpoint push_each (features : list telemetry) : M unit :=
  match features with
  | [] => mret tt
  | p :: features => _ ← atlas_telemetry_push p false; push_each features
  end.

Definition atlas_telemetry_push_all : M unit :=
  features ← gets cl_features;
  push_each features.

Definition atlas_telemetry_push_set (uri_path : option (list byte)) (push_rate : Z) : M unit :=
  match uri_path with
  | None => mret tt
  | Some uri_path =>
      features ← gets cl_features;
      match find_first (tl_has_path uri_path) features with
      | None => mret tt
      | Some p =>
          (* If push rate value is 0, then push the feature right away *)
          if decide (push_rate = 0) then atlas_telemetry_push p false else
          (* Schedule alarm for external push *)
          _ ← (if decide (tl_push_id p >= 0) then atlas_alarm_cancel (tl_push_id p) else mret tt);
          id ← atlas_alarm_set (ATLAS_ALARM_SEC_TO_MS push_rate) cb_push_alert_alarm_cb false;
          modify (fun c => set_features
            (update_first (tl_has_path uri_path) (tl_set_push id) (cl_features c)) c)
      end
  end.

Definition atlas_telemetry_threshold_set (uri_path : option (list byte)) (scan_rate : Z) : M unit :=
  match uri_path with
  | None => mret tt
  | Some uri_path =>
      if decide (scan_rate = 0) then mret tt else
      features ← gets cl_features;
      match find_first (tl_has_path uri_path) features with
      | None => mret tt
      | Some p =>
          (* Schedule alarm for internal scan *)
          _ ← (if decide (tl_threshold_id p >= 0) then atlas_alarm_cancel (tl_threshold_id p)
               else mret tt);
          id ← atlas_alarm_set (ATLAS_ALARM_SEC_TO_MS scan_rate) cb_threshold_alert_alarm_cb false;
          modify (fun c => set_features
            (update_first (tl_has_path uri_path) (tl_set_threshold id) (cl_features c)) c)
      end
  end.
End Telemetry.

(** * Safety *)

Section TelemetrySafety.
Context {E : Env} `{!EnvLaws E} `{HostEndian}.

Lemma okm_telemetry_push f b : okm no_cancel (atlas_telemetry_push f b).
Proof. unfold atlas_telemetry_push, atlas_is_registered. okm_tac. Qed.
Hint Resolve okm_telemetry_push : okm.

Lemma okm_push_alert_alarm id : okm no_cancel (push_alert_alarm_cb id).
Proof. unfold push_alert_alarm_cb. okm_tac. Qed.

Lemma okm_threshold_alert_alarm id : okm no_cancel (threshold_alert_alarm_cb id).
Proof. unfold threshold_alert_alarm_cb. okm_tac. Qed.

Lemma okm_telemetry_callback uri resp : okm no_cancel (telemetry_callback uri resp).
Proof. unfold telemetry_callback. okm_tac. Qed.

Lemma okm_push_all : okm no_cancel atlas_telemetry_push_all.
Proof.
  unfold atlas_telemetry_push_all. okm_step; [okm_tac|].
  match goal with |- okm _ (push_each ?l) => generalize l end.
  intros l. induction l as [|p l IH]; cbn [push_each]; okm_tac.
Qed.

(** ** The alarm handles of the features *)

(** A list of features whose handles are those of [l], or none. *)
Lemma handles_sub get cb l c :
  (forall f, f ∈ l -> 0 <= get f -> exists g, g ∈ cl_features c /\ get g = get f) ->
  sublist (filter (fun id => 0 <= id) (get <$> l)) (filter (fun id => 0 <= id) (get <$> cl_features c)) ->
  handles_ok get cb c -> handles_ok get cb (set_features l c).
Proof.
  intros Hl Hs [H1 H2]. split; cbn; [|by eapply sublist_NoDup].
  intros f Hf Hp. destruct (Hl f Hf Hp) as (g & Hg & Heq). rewrite <- Heq. apply H1; [done|]. lia.
Qed.

Lemma okm_telemetry_add path cb : okm no_cancel (atlas_telemetry_add path cb).
Proof.
  unfold atlas_telemetry_add. destruct path as [path|], cb as [cb|]; [|okm_tac..].
  intros c Hc. cbn. set (l := _ ++ _).
  assert (Hh : forall (get : telemetry -> Z) cb0,
    get (mk_telemetry path cb (-1) (-1)) = -1 -> handles_ok get cb0 c ->
    handles_ok get cb0 (set_features l c)).
  { intros get cb0 Hg. unfold l. apply handles_sub.
    - intros f [Hf| ->%list_elem_of_singleton]%elem_of_app Hp; [eauto|]. rewrite Hg in Hp. lia.
    - rewrite fmap_app, filter_app, fmap_cons, filter_cons_False by (rewrite Hg; lia).
      by rewrite app_nil_r. }
  destruct Hc as [? ? ? Ip It ?]. split; [by split; [..|apply Hh|apply Hh|]|].
  split; [apply sched_keeps_refl|apply reqs_grow_refl|]. by intros a.
Qed.

Lemma okm_telemetry_del path : okm no_cancel (atlas_telemetry_del path).
Proof.
  unfold atlas_telemetry_del. destruct path as [path|]; [|okm_tac].
  intros c Hc. cbn. set (l := remove_first _ _).
  assert (Hsub : sublist l (cl_features c)) by apply remove_first_sublist.
  assert (Hh : forall (get : telemetry -> Z) cb0, handles_ok get cb0 c ->
    handles_ok get cb0 (set_features l c)).
  { intros get cb0. apply handles_sub.
    - intros f Hf Hp. exists f. split; [by eapply elem_of_sublist|done].
    - by apply sublist_filter_mono, fmap_sublist. }
  destruct Hc as [? ? ? Ip It ?]. split; [by split; [..|apply Hh|apply Hh|]|].
  split; [apply sched_keeps_refl|apply reqs_grow_refl|]. by intros a.
Qed.
End TelemetrySafety.

(** ** Setting a periodic alarm for a feature *)

(** The alarms of the two alert kinds may be replaced. *)
Definition cancels_alerts (cb : alarm_cb) : bool :=
  bool_decide (cb = cb_push_alert_alarm_cb \/ cb = cb_threshold_alert_alarm_cb).

Section ArmSafety.
Context {E : Env} `{!EnvLaws E}.

(** What [atlas_telemetry_push_set] and [atlas_telemetry_threshold_set] do once
    they have found the feature. *)
Definition arm (get : telemetry -> Z) (put : Z -> telemetry -> telemetry) (cb : alarm_cb)
    (path : list byte) (p : telemetry) (ms : Z) : M unit :=
  _ ← (if decide (get p >= 0) then atlas_alarm_cancel (get p) else mret tt);
  id ← atlas_alarm_set ms cb false;
  modify (fun c => set_features (update_first (tl_has_path path) (put id) (cl_features c)) c).

(** An accessor and its setter; the other kind's is untouched. *)
Record handle_field (get other : telemetry -> Z) (put : Z -> telemetry -> telemetry) : Prop := {
  get_put : forall id f, get (put id f) = id;
  other_put : forall id f, other (put id f) = other f;
  path_put : forall id f, tl_uri_path (put id f) = tl_uri_path f;
  put_put : forall i j f, put i (put j f) = put i f;
}.

Context (get other : telemetry -> Z) (put : Z -> telemetry -> telemetry) (cb cb' : alarm_cb).
Context (Hfield : handle_field get other put).
Context (Hcb : cb <> cb_request_alarm_cb /\ cb <> cb_keepalive_alarm_callback /\ cb <> cb').

(** The same features with the handle of one of them replaced. *)
Lemma other_handles_put l1 f l2 id c :
  cl_features c = l1 ++ f :: l2 -> handles_ok other cb' c ->
  handles_ok other cb' (set_features (l1 ++ put id f :: l2) c).
Proof.
  intros Hl. apply handles_sub; rewrite Hl.
  - intros g Hg Hp. rewrite elem_of_app, elem_of_cons in Hg. destruct Hg as [?|[->|?]].
    + exists g. set_solver.
    + exists f. rewrite (other_put _ _ _ Hfield). set_solver.
    + exists g. set_solver.
  - rewrite !fmap_app, !fmap_cons, (other_put _ _ _ Hfield). done.
Qed.

Lemma handles_clear l1 f l2 c :
  cl_features c = l1 ++ f :: l2 -> handles_ok get cb c ->
  handles_ok get cb (set_features (l1 ++ put (-1) f :: l2) c).
Proof.
  intros Hl. apply handles_sub; rewrite Hl.
  - intros g Hg Hp. rewrite elem_of_app, elem_of_cons in Hg. destruct Hg as [?|[->|?]].
    + exists g. set_solver.
    + rewrite (get_put _ _ _ Hfield) in Hp. lia.
    + exists g. set_solver.
  - rewrite !fmap_app, !fmap_cons, (get_put _ _ _ Hfield), !filter_app.
    apply sublist_app; [done|]. rewrite filter_cons_False by lia. rewrite filter_cons.
    case_decide; [by apply sublist_cons|done].
Qed.

Lemma handles_install l1 f l2 id c :
  cl_features c = l1 ++ f :: l2 -> get f = -1 -> handles_ok get cb c ->
  (0 <= id -> mk_alarm_entry id cb false ∈ cl_alarms c /\ id ∉ get <$> l1 ++ l2) ->
  handles_ok get cb (set_features (l1 ++ put id f :: l2) c).
Proof.
  intros Hl Hf [H1 H2] Hid. rewrite Hl in H1, H2. split; cbn.
  - intros g Hg Hp. rewrite elem_of_app, elem_of_cons in Hg. destruct Hg as [?|[->|?]].
    + apply H1; [set_solver|done].
    + rewrite (get_put _ _ _ Hfield) in *. by apply Hid.
    + apply H1; [set_solver|done].
  - rewrite fmap_app, fmap_cons, filter_app in H2 |- *. rewrite Hf in H2.
    rewrite filter_cons_False in H2 by lia. rewrite (get_put _ _ _ Hfield), filter_cons.
    case_decide as Hp; [|done]. destruct (Hid Hp) as [_ Hn]. rewrite fmap_app, not_elem_of_app in Hn.
    apply NoDup_app in H2 as (N1 & Nd & N2). apply NoDup_app. split; [done|]. split.
    + intros x Hx [->|Hx2]%elem_of_cons; [|by apply (Nd x)].
      apply list_elem_of_filter in Hx as [_ Hx]. tauto.
    + constructor; [|done]. intros [_ Hx]%list_elem_of_filter. tauto.
Qed.

(** The alarms' operations do not look at the features. *)
Lemma alarm_cancel_features id l c :
  atlas_alarm_cancel id (set_features l c) =
  match atlas_alarm_cancel id c with
  | Ok (_, c1) => Ok (tt, set_features l c1)
  | Fault f => Fault f
  end.
Proof. rewrite !alarm_cancel_run. cbn. by destruct (find_first _ _). Qed.

Lemma alarm_set_features ms acb once l c :
  atlas_alarm_set ms acb once (set_features l c) =
  match atlas_alarm_set ms acb once c with
  | Ok (r, c1) => Ok (r, set_features l c1)
  | Fault f => Fault f
  end.
Proof.
  unfold atlas_alarm_set, mbind, M_bind, call. cbn.
  destruct (timerfd_create _) as [fd x]. cbn. case_decide; [done|].
  destruct (timerfd_settime _ _ _) as [r x2]. cbn. by case_decide.
Qed.

Lemma update_path l1 p l2 path id :
  Forall (fun f => tl_has_path path f = false) l1 -> tl_has_path path p = true ->
  update_first (tl_has_path path) (put id) (l1 ++ p :: l2) = l1 ++ put id p :: l2.
Proof. intros Hl1 Hp. rewrite update_first_app_r by done. cbn. by rewrite Hp. Qed.

(** The handle of one feature is no other feature's. *)
Lemma handle_unique l1 p l2 c :
  cl_features c = l1 ++ p :: l2 -> handles_ok get cb c -> 0 <= get p -> get p ∉ get <$> l1 ++ l2.
Proof.
  intros Hl [_ Hnd] Hp. rewrite Hl, fmap_app, fmap_cons, filter_app, filter_cons_True in Hnd by done.
  apply NoDup_app in Hnd as (_ & Hd & [Hn _]%NoDup_cons). rewrite fmap_app, not_elem_of_app. split.
  - intros Hin. apply (Hd (get p)); [by apply list_elem_of_filter|]. apply elem_of_cons. auto.
  - intros Hin. apply Hn. by apply list_elem_of_filter.
Qed.

Context (Hget : forall c, client_inv c -> handles_ok get cb c /\ handles_ok other cb' c).
Context (Hput : forall c l, client_inv c -> handles_ok get cb (set_features l c) ->
  handles_ok other cb' (set_features l c) -> client_inv (set_features l c)).
Context (Hcancel : forall a c, client_inv c -> a ∈ cl_alarms c -> al_callback a = cb ->
  al_id a ∉ get <$> cl_features c ->
  exists c', atlas_alarm_cancel (al_id a) c = Ok (tt, c') /\ client_inv c' /\
    cl_reqs c' = cl_reqs c /\ cl_sched c' = sched_mark (al_id a) (cl_sched c) /\
    cl_alarms c' = filter (fun b => al_id b <> al_id a) (cl_alarms c)).
Context (Kcb : cancels_alerts cb = true) (Honce : runs_once cb = false).

(** The first step: the old alarm, if any, is cancelled. *)
Lemma arm_cancel l1 p l2 c :
  client_inv c -> cl_features c = l1 ++ p :: l2 ->
  exists c1, (if decide (get p >= 0) then atlas_alarm_cancel (get p) else mret tt) c = Ok (tt, c1) /\
    client_inv (set_features (l1 ++ put (-1) p :: l2) c1) /\ grows cancels_alerts c c1 /\
    cl_features c1 = cl_features c.
Proof.
  intros Hc Hl. set (l0 := l1 ++ put (-1) p :: l2). destruct (Hget c Hc) as [Hg Ho].
  assert (Hc0 : client_inv (set_features l0 c))
    by (apply Hput; [done|by apply handles_clear|by apply other_handles_put]).
  case_decide as Hp; [|by exists c; split; [|split; [|split; [apply grows_refl|]]]].
  assert (Ha : mk_alarm_entry (get p) cb false ∈ cl_alarms c).
  { destruct Hg as [Hg _]. apply Hg; [rewrite Hl; set_solver|lia]. }
  destruct (Hcancel (mk_alarm_entry (get p) cb false) (set_features l0 c))
    as (c1 & Hrun & Hc1 & Hr & Hs & Hal); [done|done|done| |].
  { cbn. unfold l0. pose proof (handle_unique l1 p l2 c Hl Hg ltac:(lia)) as Hu.
    rewrite fmap_app in Hu |- *. rewrite fmap_cons, (get_put _ _ _ Hfield).
    rewrite not_elem_of_app in *. rewrite not_elem_of_cons. split; [tauto|]. split; [lia|tauto]. }
  cbn in Hrun. rewrite alarm_cancel_features in Hrun.
  destruct (atlas_alarm_cancel (get p) c) as [[[] c1']|] eqn:Hcc; [|done]. injection Hrun as <-.
  exists c1'. split; [done|]. split; [done|]. cbn in Hr, Hs, Hal. split; [split|].
  - rewrite Hs. apply sched_keeps_mark.
  - rewrite Hr. apply reqs_grow_refl.
  - intros a Hin Hk. rewrite Hal. apply list_elem_of_filter. split; [|done]. intros Hid.
    assert (a = mk_alarm_entry (get p) cb false) as ->; [|cbn in Hk; congruence].
    destruct (inv_alarms c Hc) as [Hnd _]. by eapply alarm_id_inj.
  - rewrite alarm_cancel_run in Hcc. injection Hcc as <-. by destruct (find_first _ _).
Qed.

Lemma okm_arm path l1 p l2 ms c :
  client_inv c -> cl_features c = l1 ++ p :: l2 ->
  Forall (fun f => tl_has_path path f = false) l1 -> tl_has_path path p = true ->
  match arm get put cb path p ms c with
  | Ok (_, c') => client_inv c' /\ grows cancels_alerts c c'
  | Fault f => benign f
  end.
Proof.
  intros Hc Hl Hl1 Hp. unfold arm.
  destruct (arm_cancel l1 p l2 c Hc Hl) as (c1 & Hrun & Hc1 & Hg1 & Hf1).
  rewrite (M_bind_run _ _ _ _ _ Hrun). set (l0 := l1 ++ put (-1) p :: l2) in *.
  pose proof (okm_alarm_set ms cb false ltac:(tauto) ltac:(done) _ Hc1) as Hset.
  pose proof (alarm_set_spec ms cb false (set_features l0 c1)) as (id & c2' & Hrun2 & Hspec).
  rewrite Hrun2 in Hset. destruct Hset as [Hc2 Hg2]. rewrite alarm_set_features in Hrun2.
  destruct (atlas_alarm_set ms cb false c1) as [[id' c2]|] eqn:Hrun3; [|done].
  injection Hrun2 as -> <-. rewrite (M_bind_run _ _ _ _ _ Hrun3). cbn.
  assert (Hf2 : cl_features c2 = l1 ++ p :: l2).
  { rewrite <- Hl, <- Hf1. clear -Hrun3 EnvLaws0. destruct (alarm_set_cases ms cb false c1)
      as [(x & Hr & _)|(fd & x & _ & _ & _ & _ & Hr)]; rewrite Hr in Hrun3; by injection Hrun3 as _ <-. }
  rewrite Hf2, (update_path l1 p l2 path id Hl1 Hp), <- (put_put _ _ _ Hfield id (-1)).
  split.
  - destruct (Hget _ Hc2) as [Hh Ho]. destruct (Hget _ Hc1) as [Hh1 _].
    apply (Hput (set_features l0 c2) (l1 ++ put id (put (-1) p) :: l2) Hc2).
    + apply handles_install; [done|by rewrite (get_put _ _ _ Hfield)|done|].
      intros Hid. destruct Hspec as [(-> & _)|(_ & Hnew & _ & Hal & _)]; [lia|]. cbn in Hal, Hnew |- *.
      split; [rewrite Hal; set_solver|]. intros (f & Hid' & Hin)%list_elem_of_fmap.
      destruct Hh1 as [Hh1 _]. specialize (Hh1 f). rewrite <- Hid' in Hh1. cbn in Hh1.
      destruct (inv_alarms _ Hc1) as [_ Aa]. destruct (Aa (mk_alarm_entry id cb false)) as (_ & Hfd & _).
      { apply Hh1; [unfold l0; set_solver|done]. }
      cbn in Hfd. congruence.
    + by apply other_handles_put.
  - eapply grows_trans; [exact Hg1|]. eapply (grows_weaken no_cancel); [done|].
    destruct Hg2 as [Gs Gr Ga]. by split.
Qed.
End ArmSafety.

Section AlertSafety.
Context {E : Env} `{!EnvLaws E} `{HostEndian}.

Lemma push_field : handle_field tl_push_id tl_threshold_id tl_set_push.
Proof. by split. Qed.
Lemma threshold_field : handle_field tl_threshold_id tl_push_id tl_set_threshold.
Proof. by split. Qed.

Lemma okm_push_set path rate : okm cancels_alerts (atlas_telemetry_push_set path rate).
Proof.
  unfold atlas_telemetry_push_set. destruct path as [path|]; [|okm_tac].
  intros c Hc. rewrite (M_bind_run _ _ _ _ _ eq_refl).
  destruct (find_first _ _) as [p|] eqn:Hf; [|by split; [|apply grows_refl]].
  case_decide.
  { by apply (okm_weaken no_cancel cancels_alerts _ (fun _ _ => eq_refl) (okm_telemetry_push p false)). }
  apply split_first in Hf as (l1 & l2 & Hl & Hl1 & Hp).
  apply (okm_arm tl_push_id tl_threshold_id tl_set_push cb_push_alert_alarm_cb
           cb_threshold_alert_alarm_cb push_field) with (l1 := l1) (l2 := l2); try done.
  - intros c1 [? ? ? Ip It ?]. done.
  - intros c1 l [? ? ? Ip It ?] Hg Ho. by split.
  - intros a c1 Hc1 Ha Hcb Hn. destruct (inv_cancel a c1) as (c2 & ? & ? & ? & _ & _ & _ & ? & ?);
      [done|done|congruence..|]. exists c2. auto.
Qed.

Lemma okm_threshold_set path rate : okm cancels_alerts (atlas_telemetry_threshold_set path rate).
Proof.
  unfold atlas_telemetry_threshold_set. destruct path as [path|]; [|okm_tac].
  case_decide; [okm_tac|]. intros c Hc. rewrite (M_bind_run _ _ _ _ _ eq_refl).
  destruct (find_first _ _) as [p|] eqn:Hf; [|by split; [|apply grows_refl]].
  apply split_first in Hf as (l1 & l2 & Hl & Hl1 & Hp).
  apply (okm_arm tl_threshold_id tl_push_id tl_set_threshold cb_threshold_alert_alarm_cb
           cb_push_alert_alarm_cb threshold_field) with (l1 := l1) (l2 := l2); try done.
  - intros c1 [? ? ? Ip It ?]. done.
  - intros c1 l [? ? ? Ip It ?] Hg Ho. by split.
  - intros a c1 Hc1 Ha Hcb Hn. destruct (inv_cancel a c1) as (c2 & ? & ? & ? & _ & _ & _ & ? & ?);
      [done|done|congruence..|]. exists c2. auto.
Qed.
End AlertSafety.

#[export] Hint Resolve okm_telemetry_push okm_push_alert_alarm okm_threshold_alert_alarm
  okm_telemetry_callback okm_push_all okm_telemetry_add okm_push_set okm_threshold_set : okm.

(** * Theorems *)

Lemma telemetry_push_run `{E : Env} `{!EnvLaws E} `{HostEndian}
    (feature : telemetry) (use_threshold : bool) (c : client) (hostname port : list byte) :
  gateway_set c hostname port -> blen (id_identity (cl_ids c)) <= ATLAS_IDENTITY_LEN ->
  strlen (tl_uri_path feature) <= 112 ->
  match registered (cl_reg c), reading (tl_payload_cb feature) use_threshold c with
  | true, Some r =>
      posts (atlas_telemetry_push feature use_threshold) ATLAS_COAP_METHOD_PUT
        (gateway_uri hostname port (tl_uri_path feature))
        [(ATLAS_CMD_IDENTITY, id_identity (cl_ids c)); r] c
  | _, _ => exists x, atlas_telemetry_push feature use_threshold c = Ok (tt, set_ext x c)
  end.
Proof.
  intros Hg Hid Hpath. unfold posts, atlas_telemetry_push, atlas_is_registered.
  rewrite (M_bind_run _ _ _ _ _ eq_refl). destruct (registered (cl_reg c)); cbn [negb].
  2:{ exists (cl_ext c). by rewrite set_ext_same. }
  destruct (run_payload_run (tl_payload_cb feature) use_threshold c Hid) as (x & Hrun).
  rewrite (M_bind_run _ _ _ _ _ Hrun).
  destruct (reading _ _ _) as [r|]; cbn [fmap option_fmap option_map]; [|by exists x].
  destruct (reported c r) as [|b bytes] eqn:Hr; [destruct r; by unfold reported, wire in Hr|].
  rewrite <- Hr.
  destruct Hg as (Hh & Hp & Hlh & Hlp).
  rewrite (M_bind_run _ _ _ _ _ (get_uri_run (set_ext x c) hostname port (tl_uri_path feature) Hh Hp Hlh Hlp Hpath)).
  unfold mbind, M_bind. fold (gateway_uri hostname port (tl_uri_path feature)).
  set (u := gateway_uri hostname port (tl_uri_path feature)).
  destruct (atlas_coap_client_request (Some u) ATLAS_COAP_METHOD_PUT (Some (reported c r))
    ATLAS_CLIENT_TELEMETRY_FEATURE_TIMEOUT_MS (Some cb_telemetry_callback) (set_ext x c)) as [[st c']|f] eqn:Hq.
  - right. exists c'. split; [done|]. by apply request_sends in Hq as [? _].
  - left. destruct (request_cases (Some u) ATLAS_COAP_METHOD_PUT (Some (reported c r))
      ATLAS_CLIENT_TELEMETRY_FEATURE_TIMEOUT_MS (Some cb_telemetry_callback) (set_ext x c))
      as [(?&?&?&_&_&Hc)|[(?&?&?&?&?&?&?&_&_&_&_&_&_&_&Hc)|Hc]]; congruence.
Qed.

(** Pushing a feature sends nothing while the client is not registered or the
    feature has nothing to report, and otherwise sends one PUT to the feature's
    path whose payload is the encoding of the identity and of exactly the reading
    the system gives now; it returns, unless the gateway's name resolves to no IPv4
    or IPv6 address. *)
Theorem telemetry_push_exact `{E : Env} `{!EnvLaws E} `{HostEndian}
    (feature : telemetry) (use_threshold : bool) (c : client) (hostname port : list byte) :
  gateway_set c hostname port -> blen (id_identity (cl_ids c)) <= ATLAS_IDENTITY_LEN ->
  strlen (tl_uri_path feature) <= 112 ->
  match registered (cl_reg c), reading (tl_payload_cb feature) use_threshold c with
  | true, Some r =>
      posts (atlas_telemetry_push feature use_threshold) ATLAS_COAP_METHOD_PUT
        (gateway_uri hostname port (tl_uri_path feature))
        [(ATLAS_CMD_IDENTITY, id_identity (cl_ids c)); r] c
  | _, _ => exists x, atlas_telemetry_push feature use_threshold c = Ok (tt, set_ext x c)
  end.
Proof. apply telemetry_push_run. Qed.

(** What arming an alert does to the alarms: the old one of the feature goes, a new
    periodic one comes last (when a timer can be set). *)
Definition rearmed (old id : Z) (cb : alarm_cb) (l l' : list alarm_entry) : Prop :=
  let kept := if decide (0 <= old) then filter (fun a => al_id a <> old) l else l in
  (id = -1 /\ l' = kept) \/ (0 <= id /\ l' = kept ++ [mk_alarm_entry id cb false]).

Section ArmFacts.
Context {E : Env} `{!EnvLaws E}.

Lemma arm_run get put cb path l1 p l2 ms c :
  NoDup (al_id <$> cl_alarms c) -> cl_features c = l1 ++ p :: l2 ->
  Forall (fun f => tl_has_path path f = false) l1 -> tl_has_path path p = true ->
  exists id c', arm get put cb path p ms c = Ok (tt, c') /\
    cl_features c' = l1 ++ put id p :: l2 /\ rearmed (get p) id cb (cl_alarms c) (cl_alarms c') /\
    cl_reqs c' = cl_reqs c /\ cl_out c' = cl_out c /\ cl_reg c' = cl_reg c.
Proof.
  intros Hnd Hl Hl1 Hp. unfold arm.
  assert (exists c1, (if decide (get p >= 0) then atlas_alarm_cancel (get p) else mret tt) c = Ok (tt, c1) /\
    cl_alarms c1 = (if decide (0 <= get p) then filter (fun a => al_id a <> get p) (cl_alarms c)
                    else cl_alarms c) /\
    cl_features c1 = cl_features c /\ cl_reqs c1 = cl_reqs c /\ cl_out c1 = cl_out c /\ cl_reg c1 = cl_reg c)
    as (c1 & Hrun & Ha1 & Hf1 & Hr1 & Ho1 & Hg1).
  { destruct (decide (get p >= 0)).
    - rewrite alarm_cancel_run, decide_True by lia. eexists. split; [reflexivity|].
      assert (remove_first (has_alarm_id (get p)) (cl_alarms c) =
              filter (fun a => al_id a <> get p) (cl_alarms c)) as Hrm by (by apply remove_first_key).
      destruct (find_first _ _) eqn:Hf; cbn; [done|]. split; [|done].
      rewrite <- Hrm. by apply find_first_None, remove_first_none in Hf as ->.
    - rewrite decide_False by lia. by exists c. }
  rewrite (M_bind_run _ _ _ _ _ Hrun). unfold rearmed. rewrite <- Ha1.
  destruct (alarm_set_cases ms cb false c1) as [(x & Hs & _)|(id & x & Hid & _ & _ & _ & Hs)];
    rewrite (M_bind_run _ _ _ _ _ Hs).
  - exists (-1). eexists. split; [reflexivity|]. cbn.
    rewrite Hf1, Hl, (update_path put l1 p l2 path _ Hl1 Hp). auto 10.
  - exists id. eexists. split; [reflexivity|]. cbn.
    rewrite Hf1, Hl, (update_path put l1 p l2 path _ Hl1 Hp). auto 10.
Qed.
End ArmFacts.

(** Setting a non-zero push rate for a feature always returns; it cancels the
    feature's previous push alarm, sets one periodic alarm, remembers its id in that
    feature only, and leaves every other alarm, every other feature, the pending
    requests and the registration alone. *)
Lemma push_set_run `{E : Env} `{!EnvLaws E} `{HostEndian}
    (c : client) (path : list byte) (rate : Z) (l1 l2 : list telemetry) (p : telemetry) :
  NoDup (al_id <$> cl_alarms c) -> cl_features c = l1 ++ p :: l2 ->
  Forall (fun f => tl_uri_path f <> path) l1 -> tl_uri_path p = path -> rate <> 0 ->
  exists id c', atlas_telemetry_push_set (Some path) rate c = Ok (tt, c') /\
    cl_features c' = l1 ++ tl_set_push id p :: l2 /\
    rearmed (tl_push_id p) id cb_push_alert_alarm_cb (cl_alarms c) (cl_alarms c') /\
    cl_reqs c' = cl_reqs c /\ cl_out c' = cl_out c /\ cl_reg c' = cl_reg c.
Proof.
  intros Hnd Hl Hl1 Hp Hr. unfold atlas_telemetry_push_set. rewrite (M_bind_run _ _ _ _ _ eq_refl).
  assert (Hl1' : Forall (fun f => tl_has_path path f = false) l1).
  { eapply Forall_impl; [exact Hl1|]. intros f Hf. by apply bool_decide_eq_false. }
  assert (Hp' : tl_has_path path p = true) by (by apply bool_decide_eq_true).
  rewrite Hl, find_first_app, (proj2 (find_first_None _ l1) Hl1'). cbn [find_first]. rewrite Hp'.
  rewrite decide_False by done. by apply (arm_run tl_push_id tl_set_push).
Qed.

(** ** Witnesses *)

Definition uptime_feature (push_id : Z) : telemetry :=
  mk_telemetry (cstr "gateway/telemetry/sysinfo/uptime") pl_uptime push_id (-1).

(** A registered client with one feature whose push alarm is number 5. *)
Definition pushing_client : @client sim_env :=
  set_features [uptime_feature 5]
    (set_alarms [mk_alarm_entry 5 cb_push_alert_alarm_cb false; mk_alarm_entry 6 cb_keepalive_alarm_callback false]
       (set_reg (mk_reg true 0 3 6) (set_ids (mk_identities (cstr "node-1") [])
          (set_cfg (mk_config (Some (cstr "gw")) (Some (cstr "10100")) (Some (cstr "eth0")) 10001)
             (@boot sim_env sim0))))).

Lemma telemetry_push_exact_witness :
  posts (@atlas_telemetry_push sim_env true (uptime_feature 5) false) ATLAS_COAP_METHOD_PUT
    (cstr "coaps://gw:10100/gateway/telemetry/sysinfo/uptime")
    [(ATLAS_CMD_IDENTITY, cstr "node-1"); (ATLAS_CMD_TELEMETRY_SYSINFO_UPTIME, cstr "60")] pushing_client.
Proof.
  apply (@telemetry_push_exact sim_env sim_laws true (uptime_feature 5) false pushing_client
    (cstr "gw") (cstr "10100")); [by split|done|done].
Defined.
