(* ===== verification/Register.v ===== *)
(** Registration and keep-alive (register/atlas_register.c): the client registers
    to the gateway, then sends a keep-alive every 20 seconds, and registers again
    when too many of them fail. *)
From S2P Require Import Prelude Defs CLib State SimEnv Config Command Sched Alarm Safety CoapClient Identity DataPlane Payload Telemetry.

Definition ATLAS_CLIENT_REGISTER_TIMEOUT_MS : Z := 5000.
Definition ATLAS_CLIENT_KEEPALIVE_TIMEOUT_MS : Z := 20000.
Definition ATLAS_CLIENT_KEEPALIVE_COUNT : Z := 3.
Definition ATLAS_CLIENT_REGISTER_COAP_PATH : list byte := cstr "gateway/register".
Definition ATLAS_CLIENT_KEEPALIVE_COAP_PATH : list byte := cstr "gateway/keepalive".

Definition reg_set_registered (v : bool) (g : reg_state) : reg_state :=
  mk_reg v (ka_token g) (ka_count g) (ka_alarm_id g).
Definition reg_set_token (v : Z) (g : reg_state) : reg_state :=
  mk_reg (registered g) v (ka_count g) (ka_alarm_id g).
Definition reg_set_count (v : Z) (g : reg_state) : reg_state :=
  mk_reg (registered g) (ka_token g) v (ka_alarm_id g).
Definition reg_set_alarm (v : Z) (g : reg_state) : reg_state :=
  mk_reg (registered g) (ka_token g) (ka_count g) v.

Section Register.
Context {E : Env} `{HostEndian}.

Definition modify_reg (f : reg_state -> reg_state) : M unit :=
  modify (fun c => set_reg (f (cl_reg c)) c).

(** The batch of a keep-alive: identity, token (in host order), address. *)
Definition keepalive_batch (identity : list byte) (token : Z) (ipPort : list byte)
  : res (option cmd_batch) :=
  (* Add identity *)
  b ← add_cmd (Some atlas_cmd_batch_new) ATLAS_CMD_IDENTITY identity;
  (* Add keep-alive token *)
  b ← add_cmd b ATLAS_CMD_KEEPALIVE (st16 token);
  (* Add ip address *)
  add_cmd b ATLAS_CMD_IP_PORT ipPort.

Definition send_keepalive_command : M unit :=
  identity ← atlas_identity_get;
  '(status, ipPort) ← atlas_cfg_get_local_ipPort;
  _ ← modify_reg (fun g => reg_set_token (u16 (ka_token g + 1)) g);
  token ← gets (fun c => ka_token (cl_reg c));
  b ← lift (keepalive_batch identity token ipPort);
  uri ← atlas_cfg_coap_get_uri ATLAS_CLIENT_KEEPALIVE_COAP_PATH;
  _ ← atlas_coap_client_request (Some uri) ATLAS_COAP_METHOD_PUT (batch_bytes b)
        ATLAS_CLIENT_REGISTER_TIMEOUT_MS (Some cb_keepalive_callback);
  mret tt.

(** The batch of a registration: identity and address. *)
Definition register_batch (identity ipPort : list byte) : res (option cmd_batch) :=
  b ← add_cmd (Some atlas_cmd_batch_new) ATLAS_CMD_REGISTER identity;
  (* Add ip address *)
  add_cmd b ATLAS_CMD_IP_PORT ipPort.

Definition send_register_command : M unit :=
  identity ← atlas_identity_get;
  '(status, ipPort) ← atlas_cfg_get_local_ipPort;
  b ← lift (register_batch identity ipPort);
  uri ← atlas_cfg_coap_get_uri ATLAS_CLIENT_REGISTER_COAP_PATH;
  _ ← atlas_coap_client_request (Some uri) ATLAS_COAP_METHOD_POST (batch_bytes b)
        ATLAS_CLIENT_REGISTER_TIMEOUT_MS (Some cb_reg_callback);
  mret tt.

Definition keepalive_alarm_callback (reg_alarm_id : Z) : M unit := send_keepalive_command.
Definition reg_alarm_callback (reg_alarm_id : Z) : M unit := send_register_command.

(** The label ERR of [keepalive_callback]; [ka_count] is a uint8_t. *)
Definition keepalive_err : M unit :=
  _ ← modify_reg (fun g => reg_set_count (u8 (ka_count g - 1)) g);
  g ← gets cl_reg;
  if decide (ka_count g = 0) then
    _ ← modify_reg (reg_set_registered false);
    _ ← atlas_alarm_cancel (ka_alarm_id g);
    _ ← modify_reg (reg_set_alarm (-1));
    send_register_command
  else mret tt.

Definition keepalive_callback (resp_status : atlas_coap_response)
    (resp_payload : option (list byte)) : M unit :=
  if decide (resp_status <> ATLAS_COAP_RESP_OK) then
    (* Force registration immediately *)
    _ ← (if decide (resp_status = ATLAS_COAP_RESP_NOT_FOUND \/
                    resp_status = ATLAS_COAP_RESP_NOT_ACCEPTABLE_HERE)
         then modify_reg (reg_set_count 1) else mret tt);
    keepalive_err
  else
    (* Validate token *)
    match resp_payload with
    | None => keepalive_err
    | Some payload =>
        if decide (blen payload < 2) then keepalive_err else
        raw ← lift (mem_load payload 0 2);
        g ← gets cl_reg;
        if decide (ka_token g <> ld16 raw) then keepalive_err else
        (* Start keep-alive timer *)
        modify_reg (reg_set_count ATLAS_CLIENT_KEEPALIVE_COUNT)
    end.

Definition reg_callback (resp_status : atlas_coap_response) : M unit :=
  if decide (resp_status <> ATLAS_COAP_RESP_OK) then
    (* Start register timer *)
    _ ← atlas_alarm_set ATLAS_CLIENT_REGISTER_TIMEOUT_MS cb_reg_alarm_callback true;
    mret tt
  else
    reg ← gets (fun c => registered (cl_reg c));
    _ ← (if negb reg then send_policy_command else mret tt);
    _ ← modify_reg (reg_set_registered true);
    (* Push all telemetry features to gateway *)
    _ ← atlas_telemetry_push_all;
    (* Start keep-alive timer *)
    id ← atlas_alarm_set ATLAS_CLIENT_KEEPALIVE_TIMEOUT_MS cb_keepalive_alarm_callback false;
    modify_reg (reg_set_alarm id).

Definition atlas_register_start : M unit := send_register_command.
End Register.

(** * Safety *)

(** The keep-alive alarm may be cancelled. *)
Definition cancels_ka (cb : alarm_cb) : bool := bool_decide (cb = cb_keepalive_alarm_callback).

Section RegisterSafety.
Context {E : Env} `{!EnvLaws E} `{HostEndian}.

Lemma quiet_modify_reg f : (forall g, ka_alarm_id (f g) = ka_alarm_id g) -> quiet (modify_reg f).
Proof. intros Hf. apply quiet_modify. intros c. repeat split. cbn. apply Hf. Qed.

Lemma quiet_identity : quiet atlas_identity_get.
Proof. apply quiet_gets. Qed.
Hint Resolve quiet_identity : okm.

Lemma okm_send_register : okm no_cancel send_register_command.
Proof. unfold send_register_command, register_batch. okm_tac. Qed.

(** A keep-alive is sent only after a registration completed. *)
Lemma okp_send_keepalive : okp ka_live no_cancel send_keepalive_command.
Proof.
  unfold send_keepalive_command, keepalive_batch.
  repeat first
    [ lazymatch goal with
      | |- okp _ _ (mbind _ (atlas_coap_client_request _ _ _ _ _)) => fail
      | |- _ => apply okp_bind_quiet; [apply ka_live_table| |intros ?]
      end
    | match goal with |- okp _ _ (match ?x with _ => _ end) => destruct x end
    | match goal with |- quiet (modify_reg _) => by apply quiet_modify_reg end
    | match goal with |- quiet _ => solve [quiet_tac] end ].
  intros c Hc Hka. unfold mbind, M_bind.
  match goal with |- context [atlas_coap_client_request ?u ?m ?p ?t ?cb] =>
    pose proof (okp_request u m p t cb c Hc (fun _ => Hka)) as Hr end.
  destruct (atlas_coap_client_request _ _ _ _ _ c) as [[st c']|f]; [|done]. exact Hr.
Qed.

Lemma okm_reg_callback resp : okm no_cancel (reg_callback resp).
Proof.
  unfold reg_callback. case_decide; [okm_tac|].
  okm_step; [okm_tac|]. okm_step; [okm_tac|].
  okm_step; [by apply okm_quiet, quiet_modify_reg|]. okm_step; [okm_tac|].
  (* the keep-alive alarm and its id *)
  intros c Hc. destruct (alarm_set_cases ATLAS_CLIENT_KEEPALIVE_TIMEOUT_MS
                           cb_keepalive_alarm_callback false c)
    as [(x & Hs & Hx)|(fd & x & Hfd & Hnew & Hx & Hctx & Hs)];
    rewrite (M_bind_run _ _ _ _ _ Hs); cbn.
  - assert (Hc1 : client_inv (set_ext x c))
      by (eapply same_tables_inv; [|exact Hc]; repeat split; apply Hx).
    destruct Hc1 as [? ? Ik ? ? ?]. split; [split; try done; left; cbn; lia|].
    split; [apply sched_keeps_refl|apply reqs_grow_refl|]. by intros b.
  - split.
    + set (c0 := set_reg (reg_set_alarm (-1) (cl_reg c)) c).
      assert (Hc0 : client_inv c0) by (destruct Hc; split; try done; left; cbn; lia).
      destruct (inv_add_alarm_any c0 x fd cb_keepalive_alarm_callback false)
        as [I1 I2 _ I4 I5 I6]; [done..|by rewrite Hctx|by left|done|].
      split; try done. right. left. cbn. apply elem_of_app. right. by apply list_elem_of_singleton.
    + split; cbn; [apply sched_keeps_add|apply reqs_grow_refl|].
      intros b Hb _. apply elem_of_app. by left.
Qed.

Lemma alarm_cancel_reg id g c :
  atlas_alarm_cancel id (set_reg g c) =
  match atlas_alarm_cancel id c with
  | Ok (_, c1) => Ok (tt, set_reg g c1)
  | Fault f => Fault f
  end.
Proof. rewrite !alarm_cancel_run. cbn. by destruct (find_first _ _). Qed.

(** Forgetting the keep-alive alarm. *)
Lemma cancel_ka c :
  client_inv c -> ka_live c ->
  exists c1, atlas_alarm_cancel (ka_alarm_id (cl_reg c)) c = Ok (tt, c1) /\
    client_inv (set_reg (reg_set_alarm (-1) (cl_reg c1)) c1) /\ grows cancels_ka c c1.
Proof.
  intros Hc Hka. set (id := ka_alarm_id (cl_reg c)).
  set (g := reg_set_alarm (-1) (cl_reg c)).
  assert (Hc0 : client_inv (set_reg g c)) by (destruct Hc; split; try done; left; cbn; lia).
  destruct (inv_alarms c Hc) as [And Aa].
  destruct Hka as [Hneg|Hal].
  - exists c. rewrite alarm_cancel_run. destruct (find_first _ _) as [p|] eqn:Hf.
    { apply find_first_Some in Hf as [Hin Hid%bool_decide_eq_true]. destruct (Aa p Hin). lia. }
    split; [done|]. split; [done|apply grows_refl].
  - destruct (Aa _ Hal) as [Hpos _]. cbn in Hpos.
    destruct (inv_cancel (mk_alarm_entry id cb_keepalive_alarm_callback false) (set_reg g c))
      as (c1 & Hrun & Hc1 & Hr & _ & Hreg & _ & Hs & Hal1); [done..| |done|done|]; [cbn; unfold id; lia|].
    cbn in Hrun. rewrite alarm_cancel_reg in Hrun.
    destruct (atlas_alarm_cancel id c) as [[[] c1']|] eqn:Hcc; [|done]. injection Hrun as <-.
    assert (Hreg1 : cl_reg c1' = cl_reg c).
    { rewrite alarm_cancel_run in Hcc. injection Hcc as <-. by destruct (find_first _ _). }
    exists c1'. split; [done|]. rewrite Hreg1. split; [done|]. cbn in Hr, Hs, Hal1. split.
    + rewrite Hs. apply sched_keeps_mark.
    + rewrite Hr. apply reqs_grow_refl.
    + intros a Hin Hk. rewrite Hal1. apply list_elem_of_filter. split; [|done]. intros Hid.
      assert (a = mk_alarm_entry id cb_keepalive_alarm_callback false) as ->; [|done].
      by eapply alarm_id_inj.
Qed.

Lemma okp_keepalive_err : okp ka_live cancels_ka keepalive_err.
Proof.
  unfold keepalive_err.
  apply okp_bind_quiet; [apply ka_live_table|by apply quiet_modify_reg|intros _].
  intros c Hc Hka. rewrite (M_bind_run _ _ _ _ _ eq_refl). case_decide; [|by split; [|apply grows_refl]].
  set (c1 := set_reg (reg_set_registered false (cl_reg c)) c).
  rewrite (M_bind_run (modify_reg _) _ _ tt c1 eq_refl).
  assert (Hst : same_tables c c1) by (by repeat split).
  destruct (cancel_ka c1) as (c2 & Hrun & Hc2 & Hg); [by eapply same_tables_inv|by eapply ka_live_table|].
  rewrite (M_bind_run _ _ _ _ _ Hrun).
  set (c3 := set_reg (reg_set_alarm (-1) (cl_reg c2)) c2) in *.
  rewrite (M_bind_run (modify_reg _) _ _ tt c3 eq_refl).
  pose proof (okm_send_register c3 Hc2) as Hs.
  destruct (send_register_command c3) as [[[] c4]|f]; [|done]. destruct Hs as [Hc4 Hg4].
  split; [done|]. eapply grows_trans; [by apply (same_tables_grows cancels_ka c c1)|].
  eapply grows_trans; [exact Hg|]. eapply (grows_weaken no_cancel); [done|].
  destruct Hg4 as [? ? ?]. by split.
Qed.

Lemma okp_keepalive_callback resp payload :
  okp ka_live cancels_ka (keepalive_callback resp payload).
Proof.
  unfold keepalive_callback. case_decide.
  { apply okp_bind_quiet; [apply ka_live_table| |intros _; apply okp_keepalive_err].
    case_decide; [by apply quiet_modify_reg|apply quiet_ret]. }
  destruct payload as [payload|]; [|apply okp_keepalive_err].
  case_decide; [apply okp_keepalive_err|].
  apply okp_bind_quiet; [apply ka_live_table|quiet_tac|intros raw].
  apply okp_bind_quiet; [apply ka_live_table|quiet_tac|intros g].
  case_decide; [apply okp_keepalive_err|]. by apply okm_okp, okm_quiet, quiet_modify_reg.
Qed.
End RegisterSafety.

#[export] Hint Resolve okm_send_register okm_reg_callback : okm.

(** * Theorems *)

Section RegisterFacts.
Context {E : Env} `{!EnvLaws E} `{HostEndian}.

Lemma register_batch_cmds identity ipPort :
  register_batch identity ipPort =
  add_cmds (Some atlas_cmd_batch_new) [(ATLAS_CMD_REGISTER, identity); (ATLAS_CMD_IP_PORT, ipPort)].
Proof.
  unfold register_batch. cbn [add_cmds]. destruct (add_cmd _ _ identity) as [b|]; [|done].
  rewrite !res_bind_ok. by destruct (add_cmd b _ _).
Qed.

Lemma keepalive_batch_cmds identity token ipPort :
  keepalive_batch identity token ipPort =
  add_cmds (Some atlas_cmd_batch_new)
    [(ATLAS_CMD_IDENTITY, identity); (ATLAS_CMD_KEEPALIVE, st16 token); (ATLAS_CMD_IP_PORT, ipPort)].
Proof.
  unfold keepalive_batch. cbn [add_cmds]. destruct (add_cmd _ _ identity) as [b|]; [|done].
  rewrite !res_bind_ok. destruct (add_cmd b _ _) as [b2|]; [|done].
  rewrite !res_bind_ok. by destruct (add_cmd b2 _ _).
Qed.

Lemma local_ipPort_run c st ipPort c1 :
  atlas_cfg_get_local_ipPort c = Ok ((st, ipPort), c1) ->
  blen ipPort <= 21 /\ exists x, c1 = set_ext x c.
Proof.
  intros Hrun. unfold atlas_cfg_get_local_ipPort in Hrun.
  apply M_bind_inv in Hrun as ([st1 ip] & c2 & Hip & Hrun).
  assert (exists x, c2 = set_ext x c) as Hx.
  { unfold atlas_cfg_get_local_ip, mbind, M_bind, gets, call, lift, fits in Hip.
    destruct (local_iface _); [|done]. destruct (ioctl_ip _ _) as [[i|] x]; [|by injection Hip; eauto].
    cbn in Hip. destruct (decide (_ <= _)); [|done]. by injection Hip; eauto. }
  cbn beta iota in Hrun. destruct (decide (st1 <> ATLAS_OK)).
  { injection Hrun as <- <- <-. by rewrite blen_nil. }
  apply M_bind_inv in Hrun as (lport & c3 & [= <- <-] & Hrun).
  apply M_bind_inv in Hrun as (s & c4 & Hl & [= <- <- <-]). unfold lift, fits, strlen in Hl.
  destruct (decide (_ <= ATLAS_IP_MAX_LEN + 6)) as [Hfit|]; [|done]. injection Hl as <- <-.
  split; [|done]. unfold ATLAS_IP_MAX_LEN in Hfit.
  rewrite !blen_app, blen_cstr_1 in Hfit. rewrite blen_app, blen_cons. lia.
Qed.
End RegisterFacts.

(** A registration is one POST to gateway/register on the configured gateway
    whose payload is the encoding of the client's identity and its address. *)
Lemma register_posts `{E : Env} `{!EnvLaws E} `{HostEndian}
    (c c1 : client) (hostname port ipPort : list byte) (st : atlas_status) :
  gateway_set c hostname port -> blen (id_identity (cl_ids c)) <= ATLAS_IDENTITY_LEN ->
  atlas_cfg_get_local_ipPort c = Ok ((st, ipPort), c1) ->
  posts send_register_command ATLAS_COAP_METHOD_POST
    (gateway_uri hostname port ATLAS_CLIENT_REGISTER_COAP_PATH)
    [(ATLAS_CMD_REGISTER, id_identity (cl_ids c)); (ATLAS_CMD_IP_PORT, ipPort)] c.
Proof.
  unfold ATLAS_IDENTITY_LEN. intros Hg Hid Hip. unfold posts, send_register_command.
  rewrite (M_bind_run _ _ _ _ _ eq_refl), (M_bind_run _ _ _ _ _ Hip).
  destruct (local_ipPort_run _ _ _ _ Hip) as (Hlen & x & ->).
  apply (send_batch_posts [_; _] _ _ _ _ _ hostname port (set_ext x c)); [|done|blia|done|done].
  apply register_batch_cmds.
Qed.

(** A keep-alive is one PUT to gateway/keepalive whose payload is the encoding
    of the identity, the advanced 16-bit token and the address. *)
Lemma keepalive_posts `{E : Env} `{!EnvLaws E} `{HostEndian}
    (c c1 : client) (hostname port ipPort : list byte) (st : atlas_status) :
  gateway_set c hostname port -> blen (id_identity (cl_ids c)) <= ATLAS_IDENTITY_LEN ->
  atlas_cfg_get_local_ipPort c = Ok ((st, ipPort), c1) ->
  posts send_keepalive_command ATLAS_COAP_METHOD_PUT
    (gateway_uri hostname port ATLAS_CLIENT_KEEPALIVE_COAP_PATH)
    [(ATLAS_CMD_IDENTITY, id_identity (cl_ids c));
     (ATLAS_CMD_KEEPALIVE, st16 (u16 (ka_token (cl_reg c) + 1))); (ATLAS_CMD_IP_PORT, ipPort)] c.
Proof.
  unfold ATLAS_IDENTITY_LEN. intros Hg Hid Hip. unfold posts, send_keepalive_command.
  rewrite (M_bind_run _ _ _ _ _ eq_refl), (M_bind_run _ _ _ _ _ Hip).
  destruct (local_ipPort_run _ _ _ _ Hip) as (Hlen & x & ->).
  set (c2 := set_reg (reg_set_token (u16 (ka_token (cl_reg c) + 1)) (cl_reg c)) (set_ext x c)).
  rewrite (M_bind_run (modify_reg (fun g => reg_set_token (u16 (ka_token g + 1)) g)) _ _ tt c2 eq_refl).
  rewrite (M_bind_run _ _ _ _ _ eq_refl).
  apply (send_batch_posts [_; _; _] _ _ _ _ _ hostname port c2); [|done| |done|done].
  - apply keepalive_batch_cmds.
  - rewrite !blen_wire_cons, blen_wire_nil, blen_st16. lia.
Qed.

(** A keep-alive succeeds exactly when the gateway answers with at least the two
    bytes of the last token sent. *)
Lemma keepalive_echo_run `{E : Env} `{HostEndian} (c : client) (payload : list byte) :
  is_u16 (ka_token (cl_reg c)) ->
  keepalive_callback ATLAS_COAP_RESP_OK (Some payload) c =
  if decide (take 2 payload = st16 (ka_token (cl_reg c)))
  then Ok (tt, set_reg (reg_set_count ATLAS_CLIENT_KEEPALIVE_COUNT (cl_reg c)) c)
  else keepalive_err c.
Proof.
  intros Hu. unfold keepalive_callback. rewrite decide_False by auto.
  destruct payload as [|a [|b rest]].
  1,2: rewrite decide_True by done; rewrite decide_False; [done|];
    intros Heq; apply (f_equal length) in Heq; by rewrite length_st16 in Heq.
  rewrite decide_False by (rewrite !blen_cons; blen_pos; lia).
  assert (mem_load (a :: b :: rest) 0 2 = Ok [a; b]) as -> by (by apply (mem_load_prefix [a; b])).
  rewrite (M_bind_run (lift (Ok [a; b])) _ _ [a; b] c eq_refl), (M_bind_run _ _ _ _ _ eq_refl).
  change (take 2 (a :: b :: rest)) with [a; b].
  destruct (decide ([a; b] = st16 (ka_token (cl_reg c)))) as [->|Hne].
  - rewrite decide_False; [done|]. rewrite ld16_st16 by done. auto.
  - rewrite decide_True; [done|]. intros Heq. apply Hne. by rewrite Heq, st16_ld16.
Qed.

(** A failure that does not force a registration at once. *)
Definition transient (resp : atlas_coap_response) : Prop :=
  resp <> ATLAS_COAP_RESP_OK /\ resp <> ATLAS_COAP_RESP_NOT_FOUND /\
  resp <> ATLAS_COAP_RESP_NOT_ACCEPTABLE_HERE.

(** A failure that does: the gateway does not know the client. *)
Definition forcing (resp : atlas_coap_response) : Prop :=
  resp = ATLAS_COAP_RESP_NOT_FOUND \/ resp = ATLAS_COAP_RESP_NOT_ACCEPTABLE_HERE.

(** The keep-alive responses that arrive one after the other. *)
Fixpoint keepalive_responses `{E : Env} `{HostEndian}
    (resps : list (atlas_coap_response * option (list byte))) : M unit :=
  match resps with
  | [] => mret tt
  | (resp, payload) :: resps => _ ← keepalive_callback resp payload; keepalive_responses resps
  end.

Lemma transient_run `{E : Env} `{HostEndian} resp payload c :
  transient resp -> keepalive_callback resp payload c = keepalive_err c.
Proof.
  intros (H1 & H2 & H3). unfold keepalive_callback. rewrite decide_True by done.
  rewrite decide_False by tauto. done.
Qed.

Lemma keepalive_err_counts `{E : Env} `{HostEndian} c :
  u8 (ka_count (cl_reg c) - 1) <> 0 ->
  keepalive_err c = Ok (tt, set_reg (reg_set_count (u8 (ka_count (cl_reg c) - 1)) (cl_reg c)) c).
Proof.
  intros Hnz. unfold keepalive_err.
  rewrite (M_bind_run (modify_reg (fun g => reg_set_count (u8 (ka_count g - 1)) g)) _ _ tt _ eq_refl).
  rewrite (M_bind_run _ _ _ _ _ eq_refl). by rewrite decide_False.
Qed.

(** What remains of a count after [n] failures, and how many failures it survives:
    the count is a uint8_t that is decremented before it is tested. *)
Definition ka_survives (count : Z) : Z := if decide (count = 0) then 255 else count - 1.

Lemma keepalive_countdown_run `{E : Env} `{HostEndian} resps c :
  Forall transient resps.*1 -> is_u8 (ka_count (cl_reg c)) ->
  Z.of_nat (length resps) <= ka_survives (ka_count (cl_reg c)) ->
  keepalive_responses resps c =
  Ok (tt, set_reg (reg_set_count (u8 (ka_count (cl_reg c) - Z.of_nat (length resps))) (cl_reg c)) c).
Proof.
  revert c. induction resps as [|[resp payload] resps IH]; intros c Ht Hu Hn; cbn [keepalive_responses].
  - cbn. rewrite Z.sub_0_r, u8_small by done. by destruct c as [? ? ? ? ? ? ? ? ? []].
  - cbn [length fmap list_fmap] in *. apply Forall_cons in Ht as [Hr Ht].
    set (n := ka_count (cl_reg c)) in *. unfold ka_survives, is_u8 in *.
    assert (Hnz : u8 (n - 1) <> 0) by (unfold u8; case_decide; lia).
    rewrite (M_bind_run _ _ _ _ _ (eq_trans (transient_run resp payload c Hr) (keepalive_err_counts c Hnz))).
    rewrite IH; [|done|apply u8_range|].
    + cbn [cl_reg set_reg reg_set_count ka_count]. fold n.
      replace (u8 (u8 (n - 1) - Z.of_nat (length resps))) with (u8 (n - Z.of_nat (S (length resps))))
        by (unfold u8; lia). done.
    + cbn. fold n. unfold u8. repeat case_decide; lia.
Qed.

(** Transient failures of keep-alives only count down: fewer of them than the
    count leave the client registered, with its keep-alive alarm and everything
    else untouched. *)
Theorem keepalive_countdown `{E : Env} `{HostEndian}
    (resps : list (atlas_coap_response * option (list byte))) (c : client) :
  Forall transient resps.*1 -> 0 < ka_count (cl_reg c) < 256 ->
  Z.of_nat (length resps) < ka_count (cl_reg c) ->
  keepalive_responses resps c =
  Ok (tt, set_reg (reg_set_count (ka_count (cl_reg c) - Z.of_nat (length resps)) (cl_reg c)) c).
Proof.
  intros Ht Hu Hn. rewrite keepalive_countdown_run; [|done|unfold is_u8; lia|].
  - by rewrite u8_small by (unfold is_u8; lia).
  - unfold ka_survives. rewrite decide_False; lia.
Qed.

(** The count is not set when a registration completes: from its initial zero
    it wraps to 255, so a newly registered client stays registered through 255
    failed keep-alives in a row instead of 3. *)
Theorem keepalive_count_unset `{E : Env} `{HostEndian}
    (resps : list (atlas_coap_response * option (list byte))) (c : client) :
  Forall transient resps.*1 -> ka_count (cl_reg c) = 0 -> (length resps <= 255)%nat ->
  exists c', keepalive_responses resps c = Ok (tt, c') /\
    registered (cl_reg c') = registered (cl_reg c) /\ cl_alarms c' = cl_alarms c /\
    cl_out c' = cl_out c.
Proof.
  intros Ht Hz Hn. eexists. split; [apply keepalive_countdown_run|]; rewrite ?Hz; [done|done| |done].
  unfold ka_survives. rewrite decide_True by done. lia.
Qed.

(** When the count is exhausted, or at once when the gateway does not know the
    client, the client is marked as not registered, its keep-alive alarm is
    cancelled and forgotten while every other alarm stays, and a registration is
    sent from that state. *)
Theorem keepalive_exhausted `{E : Env} `{!EnvLaws E} `{HostEndian}
    (resp : atlas_coap_response) (payload : option (list byte)) (c : client) :
  (transient resp /\ ka_count (cl_reg c) = 1) \/ forcing resp ->
  NoDup (al_id <$> cl_alarms c) ->
  exists c1, keepalive_callback resp payload c = send_register_command c1 /\
    cl_reg c1 = mk_reg false (ka_token (cl_reg c)) 0 (-1) /\
    (forall a, a ∈ cl_alarms c1 <-> a ∈ cl_alarms c /\ al_id a <> ka_alarm_id (cl_reg c)) /\
    cl_reqs c1 = cl_reqs c /\ cl_features c1 = cl_features c /\ cl_out c1 = cl_out c.
Proof.
  intros Hcase Hnd. set (c0 := set_reg (reg_set_count 1 (cl_reg c)) c).
  assert (keepalive_callback resp payload c = keepalive_err c0) as ->.
  { destruct Hcase as [[Ht H1]|Hf].
    - rewrite transient_run by done. f_equal. unfold c0, reg_set_count. rewrite <- H1.
      by destruct c as [? ? ? ? ? ? ? ? ? []].
    - unfold keepalive_callback. rewrite decide_True by (destruct Hf; congruence).
      by rewrite decide_True. }
  set (c2 := set_reg (mk_reg false (ka_token (cl_reg c)) 0 (ka_alarm_id (cl_reg c))) c).
  unfold keepalive_err, mbind, M_bind, modify_reg, modify, gets. cbn.
  rewrite decide_True by done. fold c2. rewrite alarm_cancel_run. eexists. split; [reflexivity|].
  destruct (find_first _ _) as [p|] eqn:Hf; cbn.
  - split; [done|]. split; [|done]. intros a.
    assert (remove_first (has_alarm_id (ka_alarm_id (cl_reg c))) (cl_alarms c) =
            filter (fun b => al_id b <> ka_alarm_id (cl_reg c)) (cl_alarms c)) as -> by (by apply remove_first_key).
    rewrite list_elem_of_filter. tauto.
  - split; [done|]. split; [|done]. intros a. split; [|tauto]. intros Ha. split; [done|].
    rewrite find_first_None, Forall_forall in Hf. specialize (Hf a Ha).
    by apply bool_decide_eq_false in Hf.
Qed.

(** ** Completion of a registration *)

Section RegisterFrame.
Context {E : Env} `{!EnvLaws E} `{HostEndian}.

Lemma preserves_request {X} (get : client -> X) uri method payload timeout cb :
  (forall c x fd id ctx s u m p k, get (sent c x fd id ctx s u m p k) = get c) ->
  (forall c x t, get (set_ext x (set_token t c)) = get c) ->
  preserves get (atlas_coap_client_request uri method payload timeout cb).
Proof.
  intros H1 H2 c a c' Hrun. destruct (request_cases uri method payload timeout cb c)
    as [(?&?&?&_&_&Hc)|[(?&?&?&?&?&?&?&_&_&_&_&_&_&_&Hc)|Hc]]; rewrite Hc in Hrun; [..|done];
    injection Hrun as _ <-; [apply H2|apply H1].
Qed.

Lemma preserves_reg_payload cb b : preserves cl_reg (run_payload cb b).
Proof.
  destruct cb; cbv delta [run_payload] beta iota; unfold atlas_telemetry_payload_hostname,
    atlas_telemetry_payload_kern_info, atlas_telemetry_payload_uptime,
    atlas_telemetry_payload_totalram, atlas_telemetry_payload_freeram,
    atlas_telemetry_payload_sharedram, atlas_telemetry_payload_bufferram,
    atlas_telemetry_payload_totalswap, atlas_telemetry_payload_freeswap,
    atlas_telemetry_payload_procs, atlas_telemetry_payload_load1, atlas_telemetry_payload_load5,
    atlas_telemetry_payload_load15, atlas_telemetry_payload_packets_per_minute,
    atlas_telemetry_payload_packets_avg, get_packets_per_min, get_packets_avg, feature_payload,
    atlas_identity_get; preserves_tac.
Qed.

Lemma preserves_reg_push f b : preserves cl_reg (atlas_telemetry_push f b).
Proof.
  unfold atlas_telemetry_push, atlas_is_registered, atlas_cfg_coap_get_uri.
  repeat first [apply preserves_reg_payload | preserves_step
               | apply preserves_request; reflexivity].
Qed.

Lemma preserves_reg_push_all : preserves cl_reg atlas_telemetry_push_all.
Proof.
  unfold atlas_telemetry_push_all. apply preserves_bind; [apply preserves_gets|].
  intros l. induction l as [|p l IH]; cbn [push_each]; [apply preserves_ret|].
  apply preserves_bind; [apply preserves_reg_push|done].
Qed.

Lemma preserves_reg_policy : preserves cl_reg send_policy_command.
Proof.
  unfold send_policy_command, atlas_cfg_coap_get_uri.
  repeat first [preserves_step | apply preserves_request; reflexivity].
Qed.
End RegisterFrame.

(** A confirmed registration leaves the client registered with the token and
    the count it had, and a new periodic keep-alive alarm whose id is the one it
    remembers (or -1 when no timer could be set). *)
Theorem registration_confirmed `{E : Env} `{!EnvLaws E} `{HostEndian} (c c' : client) :
  reg_callback ATLAS_COAP_RESP_OK c = Ok (tt, c') ->
  exists id, cl_reg c' = mk_reg true (ka_token (cl_reg c)) (ka_count (cl_reg c)) id /\
    (id = -1 \/
     (0 <= id /\ fds (cl_ext c') !! id = Some FdTimer /\
      last (cl_alarms c') = Some (mk_alarm_entry id cb_keepalive_alarm_callback false))).
Proof.
  unfold reg_callback. rewrite decide_False by auto.
  rewrite (M_bind_run _ _ _ _ _ eq_refl). intros Hrun.
  apply M_bind_inv in Hrun as ([] & c1 & H1 & Hrun).
  assert (Hr1 : cl_reg c1 = cl_reg c).
  { destruct (negb _); [by apply (preserves_reg_policy c tt c1)|by injection H1 as <-]. }
  apply M_bind_inv in Hrun as ([] & c2 & [= <-] & Hrun).
  apply M_bind_inv in Hrun as ([] & c3 & H3 & Hrun). apply preserves_reg_push_all in H3.
  apply M_bind_inv in Hrun as (id & c4 & H4 & [= <-]).
  destruct (alarm_set_spec ATLAS_CLIENT_KEEPALIVE_TIMEOUT_MS cb_keepalive_alarm_callback false c3)
    as (r & c5 & Hs & Hcase). rewrite Hs in H4. injection H4 as -> ->. exists id. cbn.
  assert (Hr4 : cl_reg c4 = cl_reg c3)
    by (eapply (preserves_alarm_set cl_reg); [reflexivity..|exact Hs]).
  rewrite Hr4, H3. cbn. rewrite Hr1. split; [done|].
  destruct Hcase as [(-> & _)|(Hid & _ & Hfd & -> & _)]; [by left|right].
  split; [done|]. split; [done|]. by rewrite last_snoc.
Qed.

(** A registration that fails or times out changes nothing of the registration
    state and sends nothing: it sets a one-shot alarm that registers again (if a
    timer can be set). *)
Theorem registration_retried `{E : Env} `{!EnvLaws E} `{HostEndian}
    (resp : atlas_coap_response) (c : client) :
  resp <> ATLAS_COAP_RESP_OK ->
  exists c', reg_callback resp c = Ok (tt, c') /\ cl_reg c' = cl_reg c /\ cl_out c' = cl_out c /\
    (cl_alarms c' = cl_alarms c \/
     exists id, cl_alarms c' = cl_alarms c ++ [mk_alarm_entry id cb_reg_alarm_callback true]).
Proof.
  intros Hr. unfold reg_callback. rewrite decide_True by done.
  destruct (alarm_set_cases ATLAS_CLIENT_REGISTER_TIMEOUT_MS cb_reg_alarm_callback true c)
    as [(x & Hs & _)|(fd & x & _ & _ & _ & _ & Hs)]; rewrite (M_bind_run _ _ _ _ _ Hs).
  - eexists. split; [reflexivity|]. auto.
  - eexists. split; [reflexivity|]. cbn. eauto.
Qed.

(** A registration message that cannot be sent because the gateway's name does
    not resolve is dropped: no request waits, no alarm is set, and nothing is left
    that would try again. *)
Theorem register_unsent_lost `{E : Env} `{!EnvLaws E} `{HostEndian}
    (c c1 : client) (hostname port ipPort : list byte) (st : atlas_status) (uri : coap_uri_t) :
  gateway_set c hostname port -> blen (id_identity (cl_ids c)) <= ATLAS_IDENTITY_LEN ->
  atlas_cfg_get_local_ipPort c = Ok ((st, ipPort), c1) ->
  coap_split_uri (gateway_uri hostname port ATLAS_CLIENT_REGISTER_COAP_PATH) = Some uri ->
  (getaddrinfo (cu_host uri) (cl_ext c1)).1 = None ->
  exists x, send_register_command c = Ok (tt, set_ext x c).
Proof.
  unfold ATLAS_IDENTITY_LEN. intros Hg Hid Hip Huri Hdns. unfold send_register_command.
  rewrite (M_bind_run _ _ _ _ _ eq_refl), (M_bind_run _ _ _ _ _ Hip).
  destruct (local_ipPort_run _ _ _ _ Hip) as (Hlen & x & ->). cbn in Hdns. cbv beta iota.
  set (cs := [(ATLAS_CMD_REGISTER, id_identity (cl_ids c)); (ATLAS_CMD_IP_PORT, ipPort)]).
  assert (Hw : exists b, register_batch (id_identity (cl_ids c)) ipPort = Ok b /\
                         batch_bytes b = Some (wire cs)).
  { rewrite register_batch_cmds. apply add_cmds_wire; [done|]. unfold cs. blia. }
  pose proof (send_batch_run _ _ ATLAS_COAP_METHOD_POST ATLAS_CLIENT_REGISTER_COAP_PATH
    ATLAS_CLIENT_REGISTER_TIMEOUT_MS cb_reg_callback hostname port (set_ext x c) Hw Hg ltac:(done)) as Hs.
  unfold send_batch in Hs. rewrite Hs.
  unfold atlas_coap_client_request. rewrite Huri. unfold resolve_address, mbind, M_bind, call. cbn.
  destruct (getaddrinfo _ _) as [[|] x2]; [done|]. cbn. eauto.
Qed.

(** ** Witnesses *)

(** A configured client; the registered one has a keep-alive alarm. *)
Definition reg_client (g : reg_state) : @client sim_env :=
  set_reg g (set_ids (mk_identities (cstr "node-1") (cstr "psk"))
    (set_cfg (mk_config (Some (cstr "gw")) (Some (cstr "10100")) (Some (cstr "eth0")) 10001)
       (@boot sim_env sim0))).

Definition ka_client (count : Z) : @client sim_env :=
  set_alarms [mk_alarm_entry 9 cb_keepalive_alarm_callback false;
              mk_alarm_entry 11 cb_push_alert_alarm_cb false]
    (reg_client (mk_reg true 7 count 9)).

Lemma reg_client_gateway g : gateway_set (reg_client g) (cstr "gw") (cstr "10100").
Proof. by split. Qed.

Lemma reg_client_ipPort g :
  atlas_cfg_get_local_ipPort (reg_client g) = Ok ((ATLAS_OK, cstr "10.0.0.7:10001"), reg_client g).
Proof. reflexivity. Qed.

Definition reg_idle : reg_state := mk_reg false 0 0 0.

Definition two_failures : list (atlas_coap_response * option (list byte)) :=
  [(ATLAS_COAP_RESP_TIMEOUT, None); (ATLAS_COAP_RESP_UNKNOWN, None)].

Lemma two_failures_transient : Forall transient two_failures.*1.
Proof. by repeat constructor. Qed.

Lemma keepalive_countdown_witness :
  @keepalive_responses sim_env true two_failures (ka_client 3) = Ok (tt, ka_client 1).
Proof.
  by rewrite (@keepalive_countdown sim_env true two_failures (ka_client 3) two_failures_transient).
Defined.

Lemma keepalive_count_unset_witness :
  exists c', @keepalive_responses sim_env true (replicate 100 (ATLAS_COAP_RESP_TIMEOUT, None)) (ka_client 0)
             = Ok (tt, c') /\ registered (cl_reg c') = true.
Proof.
  destruct (@keepalive_count_unset sim_env true (replicate 100 (ATLAS_COAP_RESP_TIMEOUT, None)) (ka_client 0))
    as (c' & H1 & H2 & _).
  - apply Forall_forall. intros r (p & -> & ->%elem_of_replicate_inv)%list_elem_of_fmap. by split.
  - done.
  - rewrite length_replicate. lia.
  - exists c'. by split.
Defined.

Lemma keepalive_exhausted_witness :
  exists c1, @keepalive_callback sim_env true ATLAS_COAP_RESP_TIMEOUT None (ka_client 1)
             = @send_register_command sim_env true c1 /\ cl_reg c1 = mk_reg false 7 0 (-1).
Proof.
  destruct (@keepalive_exhausted sim_env sim_laws true ATLAS_COAP_RESP_TIMEOUT None (ka_client 1))
    as (c1 & H1 & H2 & _).
  - by left.
  - eval_decide.
  - by exists c1.
Defined.

Definition registered_client : @client sim_env :=
  exec (@reg_callback sim_env true ATLAS_COAP_RESP_OK) (reg_client reg_idle).

Lemma registration_confirmed_witness :
  exists id, cl_reg registered_client = mk_reg true 0 0 id /\
    (id = -1 \/ (0 <= id /\ fds (cl_ext registered_client) !! id = Some FdTimer /\
      last (cl_alarms registered_client) = Some (mk_alarm_entry id cb_keepalive_alarm_callback false))).
Proof.
  apply (@registration_confirmed sim_env sim_laws true (reg_client reg_idle) registered_client).
  unfold registered_client. apply exec_ok. eval_refl.
Defined.

Lemma registration_retried_witness :
  exists c', @reg_callback sim_env true ATLAS_COAP_RESP_TIMEOUT (reg_client reg_idle) = Ok (tt, c') /\
    cl_reg c' = reg_idle.
Proof.
  destruct (@registration_retried sim_env sim_laws true ATLAS_COAP_RESP_TIMEOUT (reg_client reg_idle))
    as (c' & H1 & H2 & _); [done|by exists c'].
Defined.

(** The same client where names do not resolve. *)
Definition unresolved_client : @client sim_env :=
  set_ext (mk_sim (sim_open sim0) [] [] [] [] false []) (reg_client reg_idle).

Lemma register_unsent_lost_witness :
  exists x, @send_register_command sim_env true unresolved_client = Ok (tt, set_ext x unresolved_client).
Proof.
  apply (@register_unsent_lost sim_env sim_laws true unresolved_client unresolved_client (cstr "gw") (cstr "10100")
    (cstr "10.0.0.7:10001") ATLAS_OK
    (mk_coap_uri true (cstr "gw:10100/gateway/register") 5684 [] [])); done.
Defined.
