(* ===== verification/CoapServer.v ===== *)
(** The CoAP server (coap/atlas_coap_server.c): the server's libcoap context, the
    listeners per method, and the handler libcoap calls for a request. *)
From S2P Require Import Prelude Defs CLib State SimEnv Sched Alarm Safety.

Definition ATLAS_MAX_PSK_KEY_BYTES : Z := 64.

(** atlas_coap_server_mode_t: bit 0 is UDP, bit 1 is DTLS with PSK. *)
Definition ATLAS_COAP_SERVER_MODE_UDP : Z := Z.shiftl 1 0.
Definition ATLAS_COAP_SERVER_MODE_DTLS_PSK : Z := Z.shiftl 1 1.
Definition ATLAS_COAP_SERVER_MODE_BOTH : Z :=
  Z.lor ATLAS_COAP_SERVER_MODE_UDP ATLAS_COAP_SERVER_MODE_DTLS_PSK.
Definition ATLAS_COAP_SERVER_IS_UDP (mode : Z) : bool :=
  negb (bool_decide (Z.land mode ATLAS_COAP_SERVER_MODE_UDP = 0)).
Definition ATLAS_COAP_SERVER_IS_DTLS (mode : Z) : bool :=
  negb (bool_decide (Z.land mode ATLAS_COAP_SERVER_MODE_DTLS_PSK = 0)).

(** COAP_REQUEST_* of libcoap. *)
Definition atlas_coap_get_method (method : atlas_coap_method) : Z :=
  match method with
  | ATLAS_COAP_METHOD_GET => 1
  | ATLAS_COAP_METHOD_POST => 2
  | ATLAS_COAP_METHOD_PUT => 3
  | ATLAS_COAP_METHOD_DELETE => 4
  end.

(** COAP_RESPONSE_CODE(N) of libcoap, in the uint8_t code of the PDU. *)
Definition COAP_RESPONSE_CODE (n : Z) : Z := u8 (Z.lor (Z.shiftl (n / 100) 5) (n mod 100)).

Definition ls_has_resource (resource : Z) (l : listener) : bool := bool_decide (ls_resource l = resource).
Definition ls_has_path (path : list byte) (l : listener) : bool := bool_decide (ls_uri_path l = path).

Definition update_listeners (method : atlas_coap_method) (f : list listener -> list listener)
    (t : atlas_coap_method -> list listener) : atlas_coap_method -> list listener :=
  fun m => if decide (m = method) then f (t m) else t m.

Section CoapServer.
Context {E : Env} `{HostEndian}.

(** [set_dtls_psk]: [strncpy] of the key into the static buffer. *)
Definition set_dtls_psk (psk_val : list byte) : M atlas_status :=
  if negb coap_dtls_is_supported then mret ATLAS_COAP_SRV_DTLS_NOT_SUPPORTED else
  _ ← modify (fun c => set_srv (mk_srv (take (Z.to_nat ATLAS_MAX_PSK_KEY_BYTES) psk_val)
                                   (srv_ctx (cl_srv c)) (srv_fd (cl_srv c))) c);
  mret ATLAS_OK.

(** The label ERROR of [get_context]. *)
Definition context_err (ep eps : option Z) (ctx : Z) : M (option Z) :=
  _ ← call_ (coap_free_endpoint ep);
  _ ← call_ (coap_free_endpoint eps);
  _ ← call_ (coap_free_context ctx);
  mret None.

Definition get_context (port server_mode : Z) (psk : list byte) : M (option Z) :=
  octx ← call coap_new_context;
  match octx with
  | None => mret None
  | Some ctx =>
      (* Set DTLS PSK *)
      _ ← (if ATLAS_COAP_SERVER_IS_DTLS server_mode
           then _ ← set_dtls_psk psk; mret tt else mret tt);
      let ports := if ATLAS_COAP_SERVER_IS_UDP server_mode && ATLAS_COAP_SERVER_IS_DTLS server_mode
                   then u16 (port + 1) else port in
      ep ← (if ATLAS_COAP_SERVER_IS_UDP server_mode
            then call (coap_new_endpoint ctx port false) else mret None);
      if ATLAS_COAP_SERVER_IS_UDP server_mode && bool_decide (ep = None)
      then context_err ep None ctx else
      eps ← (if ATLAS_COAP_SERVER_IS_DTLS server_mode
             then call (coap_new_endpoint ctx ports true) else mret None);
      if ATLAS_COAP_SERVER_IS_DTLS server_mode && bool_decide (eps = None)
      then context_err ep eps ctx else
      mret (Some ctx)
  end.

(** The default resource; libcoap answers requests for it with a constant text. *)
Definition init_default_resources (ctx : Z) : M unit :=
  _ ← call (coap_resource_init []);
  mret tt.

Definition set_srv_ctx (ctx : option Z) : M unit :=
  modify (fun c => set_srv (mk_srv (srv_key (cl_srv c)) ctx (srv_fd (cl_srv c))) c).
Definition set_srv_fd (fd : Z) : M unit :=
  modify (fun c => set_srv (mk_srv (srv_key (cl_srv c)) (srv_ctx (cl_srv c)) fd) c).

Definition atlas_coap_server_start (port server_mode : Z) (psk : list byte) : M atlas_status :=
  if decide (port = 0) then mret ATLAS_INVALID_PORT else
  octx ← get_context port server_mode psk;
  _ ← set_srv_ctx octx;
  match octx with
  | None => mret ATLAS_GENERAL_ERR
  | Some ctx =>
      _ ← init_default_resources ctx;
      x ← gets cl_ext;
      let fd := coap_context_get_coap_fd ctx x in
      _ ← set_srv_fd fd;
      if decide (fd = -1) then
        _ ← call_ (coap_free_context ctx);
        _ ← set_srv_ctx None;
        mret ATLAS_GENERAL_ERR
      else
        (* Schedule CoAP server *)
        _ ← atlas_sched_add_entry fd (Some cb_atlas_coap_server_sched_callback);
        mret ATLAS_OK
  end.

Definition atlas_coap_server_add_resource (uri_path : option (list byte))
    (method : atlas_coap_method) (cb : option server_cb) : M atlas_status :=
  match uri_path, cb with
  | None, _ => mret ATLAS_COAP_INVALID_URI
  | _, None => mret ATLAS_INVALID_CALLBACK
  | Some uri_path, Some cb =>
      oresource ← call (coap_resource_init uri_path);
      match oresource with
      | None => mret ATLAS_GENERAL_ERR
      | Some resource =>
          _ ← modify (fun c => set_listeners
                (update_listeners method (fun l => l ++ [mk_listener resource cb uri_path])
                   (cl_listeners c)) c);
          mret ATLAS_OK
      end
  end.

(** The loop of [atlas_coap_server_del_resource] has no break: after the first
    match is freed, the loop's increment reads [p->next] of the freed entry. *)
Definition atlas_coap_server_del_resource (uri_path : list byte) (method : atlas_coap_method) : M unit :=
  t ← gets cl_listeners;
  match find_first (ls_has_path uri_path) (t method) with
  | None => mret tt
  | Some p =>
      _ ← modify (set_listeners
            (update_listeners method (remove_first (ls_has_path uri_path)) t));
      _ ← call_ (coap_delete_resource (ls_resource p));
      fail UseAfterFree
  end.

(** [run cb uri_path payload] is the call of the listener's callback: the
    response code and the response payload. *)
Context (run : server_cb -> list byte -> option (list byte) -> M (atlas_coap_response * option (list byte))).

Definition process_request_handler (resource : Z) (request : coap_srv_req)
    (listeners : list listener) : M unit :=
  match sr_uri_path request with
  | None => mret tt
  | Some path =>
      (* the copy is a C string *)
      let uri_path := until_nul path in
      match find_first (ls_has_resource resource) listeners with
      | None => mret tt
      | Some listener =>
          '(resp_code, resp_payload) ← run (ls_callback listener) uri_path (sr_payload request);
          emit (EvCoapRespond resource (COAP_RESPONSE_CODE (coap_response_code resp_code))
                  (if decide (resp_code = ATLAS_COAP_RESP_OK) then default [] resp_payload else []))
      end
  end.

Definition get_handler (request : coap_srv_req) : M unit :=
  t ← gets cl_listeners;
  process_request_handler (sr_resource request) request (t ATLAS_COAP_METHOD_GET).
Definition post_handler (request : coap_srv_req) : M unit :=
  t ← gets cl_listeners;
  process_request_handler (sr_resource request) request (t ATLAS_COAP_METHOD_POST).
Definition put_handler (request : coap_srv_req) : M unit :=
  t ← gets cl_listeners;
  process_request_handler (sr_resource request) request (t ATLAS_COAP_METHOD_PUT).
Definition delete_handler (request : coap_srv_req) : M unit :=
  t ← gets cl_listeners;
  process_request_handler (sr_resource request) request (t ATLAS_COAP_METHOD_DELETE).

(** libcoap calls the handler registered for the request's method. *)
Definition serve_request (request : coap_srv_req) : M unit :=
  match sr_method request with
  | ATLAS_COAP_METHOD_GET => get_handler request
  | ATLAS_COAP_METHOD_POST => post_handler request
  | ATLAS_COAP_METHOD_PUT => put_handler request
  | ATLAS_COAP_METHOD_DELETE => delete_handler request
  end.

Fixpoint serve_requests (requests : list coap_srv_req) : M unit :=
  match requests with
  | [] => mret tt
  | r :: requests => _ ← serve_request r; serve_requests requests
  end.

Definition atlas_coap_server_sched_callback (fd : Z) : M unit :=
  s ← gets cl_srv;
  match srv_ctx s with
  | None => fail NullDeref
  | Some ctx =>
      requests ← call (coap_server_process ctx);
      serve_requests requests
  end.
End CoapServer.

(** * Safety *)

Section ServerSafety.
Context {E : Env} `{!EnvLaws E} `{HostEndian}.

Lemma quiet_add_resource path method cb : quiet (atlas_coap_server_add_resource path method cb).
Proof. unfold atlas_coap_server_add_resource. quiet_tac. Qed.

Context (K : alarm_cb -> bool)
  (run : server_cb -> list byte -> option (list byte) -> M (atlas_coap_response * option (list byte)))
  (run_ok : forall cb path payload, okm K (run cb path payload)).

Lemma okm_process_request resource request ls :
  okm K (process_request_handler run resource request ls).
Proof. unfold process_request_handler. okm_tac; auto. Qed.

Lemma okm_serve_request request : okm K (serve_request run request).
Proof.
  unfold serve_request, get_handler, post_handler, put_handler, delete_handler.
  destruct (sr_method request); (okm_step; [okm_tac|apply okm_process_request]).
Qed.

Lemma okm_serve_requests requests : okm K (serve_requests run requests).
Proof.
  induction requests as [|r rs IH]; cbn [serve_requests]; [okm_tac|].
  okm_step; [apply okm_serve_request|done].
Qed.

Lemma okm_server_sched_callback fd : okm K (atlas_coap_server_sched_callback run fd).
Proof.
  unfold atlas_coap_server_sched_callback. okm_step; [okm_tac|].
  destruct (srv_ctx _); [|okm_tac]. okm_step; [okm_tac|apply okm_serve_requests].
Qed.
End ServerSafety.

#[export] Hint Resolve quiet_add_resource : okm.

(** ** Starting the server *)

Section StartSafety.
Context {E : Env} `{!EnvLaws E} `{HostEndian}.

(** No pending request uses the context. *)
Definition unused_ctx (ctx : Z) (c : client) : Prop := ctx ∉ rq_ctx <$> cl_reqs c.

Lemma unused_ctx_table ctx : table_pred (unused_ctx ctx).
Proof. intros c c' (_ & _ & Hr & _). unfold unused_ctx. by rewrite Hr. Qed.

Lemma okp_free_context ctx : okp (unused_ctx ctx) no_cancel (call_ (coap_free_context ctx)).
Proof.
  intros c Hc Hu. cbn. split.
  - destruct Hc as [Ia (Rn & Rc & Ra) Ik Ip It Id].
    destruct (coap_free_context_law ctx (cl_ext c)) as [Hf Hx].
    split; [|split; [done|]; split; [done|]|done..|]; unfold alarms_ok, dp_ok in *; cbn;
      rewrite ?Hf, ?Hx; [done| |done].
    intros r Hr. destruct (Ra r Hr). split; [|done]. apply elem_of_difference. split; [done|].
    intros Heq%elem_of_singleton. apply Hu. rewrite <- Heq. by apply list_elem_of_fmap_2.
  - split; [apply sched_keeps_refl|apply reqs_grow_refl|]. by intros a.
Qed.

(** A judgement with a postcondition. *)
Definition okq (P : client -> Prop) {A} (m : M A) (Q : A -> client -> Prop) : Prop :=
  forall c, client_inv c -> P c ->
  match m c with
  | Ok (a, c') => client_inv c' /\ grows no_cancel c c' /\ Q a c'
  | Fault f => benign f
  end.

Lemma okq_bind P {A B} (m : M A) (k : A -> M B) R Q :
  okq P m R -> (forall a, okq (R a) (k a) Q) -> okq P (m ≫= k) Q.
Proof.
  intros Hm Hk c Hc HP. unfold mbind, M_bind. specialize (Hm c Hc HP).
  destruct (m c) as [[a c1]|f]; [|done]. destruct Hm as (Hc1 & H1 & HR). specialize (Hk a c1 Hc1 HR).
  destruct (k a c1) as [[b c2]|f]; [|done]. destruct Hk as (Hc2 & H2 & HQ). split; [done|].
  split; [by eapply grows_trans|done].
Qed.

Lemma okq_quiet P {A} (m : M A) : table_pred P -> quiet m -> okq P m (fun _ => P).
Proof.
  intros HP Hm c Hc Hp. specialize (Hm c). destruct (m c) as [[a c']|f]; [|done].
  split; [by eapply same_tables_inv|]. split; [by apply same_tables_grows|by eapply HP].
Qed.

Lemma okq_ret (P : client -> Prop) {A} (a : A) (Q : A -> client -> Prop) :
  (forall c, P c -> Q a c) -> okq P (mret a) Q.
Proof. intros HQ c Hc HP. split; [done|]. split; [apply grows_refl|auto]. Qed.

Lemma okq_okp P {A} (m : M A) : okp P no_cancel m -> okq P m (fun _ _ => True).
Proof. intros Hm c Hc HP. specialize (Hm c Hc HP). destruct (m c) as [[a c']|f]; [|done]. naive_solver. Qed.

Lemma okq_new_context :
  okq (fun _ => True) (call coap_new_context)
    (fun o => match o with Some ctx => unused_ctx ctx | None => fun _ => True end).
Proof.
  intros c Hc _. unfold call. pose proof (coap_new_context_law (cl_ext c)) as [Hf Hx].
  destruct (coap_new_context (cl_ext c)) as [octx x]. cbn in Hf, Hx |- *.
  destruct Hc as [Ia (Rn & Rc & Ra) Ik Ip It Id].
  assert (Hsub : ctxs (cl_ext c) ⊆ ctxs x) by (destruct octx as [ctx|]; [destruct Hx as [_ ->]|rewrite Hx]; set_solver).
  split; [|split].
  - split; [|split; [done|]; split; [done|]|done..|]; unfold alarms_ok, dp_ok in *; cbn;
      rewrite ?Hf; [done| |done]. intros r Hr. destruct (Ra r Hr). split; [by apply Hsub|done].
  - split; [apply sched_keeps_refl|apply reqs_grow_refl|]. by intros a.
  - destruct octx as [ctx|]; [|done]. destruct Hx as [Hn _].
    intros (r & -> & Hr)%list_elem_of_fmap. by destruct (Ra r Hr).
Qed.

Ltac okq_step :=
  eapply okq_bind; [apply okq_quiet; [apply unused_ctx_table|quiet_tac]|intros ?; cbv beta].

Lemma okq_context_err ctx ep eps :
  okq (unused_ctx ctx) (context_err ep eps ctx)
    (fun o => match o with Some ctx => unused_ctx ctx | None => fun _ => True end).
Proof.
  unfold context_err.
  okq_step.
  okq_step.
  eapply okq_bind; [apply okq_okp, okp_free_context|intros ?; cbv beta]. by apply okq_ret.
Qed.

Lemma okq_get_context port mode psk :
  okq (fun _ => True) (get_context port mode psk)
    (fun o => match o with Some ctx => unused_ctx ctx | None => fun _ => True end).
Proof.
  unfold get_context. eapply okq_bind; [apply okq_new_context|].
  intros [ctx|]; [|by apply okq_ret].
  unfold set_dtls_psk. okq_step.
  okq_step.
  destruct (_ && _); [apply okq_context_err|].
  okq_step.
  destruct (_ && _); [apply okq_context_err|]. by apply okq_ret.
Qed.

Lemma okm_server_start port mode psk : okm no_cancel (atlas_coap_server_start port mode psk).
Proof.
  assert (Hq : okq (fun _ => True) (atlas_coap_server_start port mode psk) (fun _ _ => True)).
  { unfold atlas_coap_server_start, set_srv_ctx, set_srv_fd, init_default_resources.
    case_decide; [by apply okq_ret|].
    eapply okq_bind; [apply okq_get_context|]. intros [ctx|].
    - okq_step.
      okq_step.
      okq_step.
      okq_step.
      case_decide.
      + eapply okq_bind; [apply okq_okp, okp_free_context|intros ?; cbv beta].
        apply okq_okp, okm_okp. okm_tac.
      + apply okq_okp, okm_okp. okm_tac.
    - apply okq_okp, okm_okp. okm_tac. }
  intros c Hc. specialize (Hq c Hc I). destruct (atlas_coap_server_start port mode psk c) as [[st c']|f];
    [|done]. naive_solver.
Qed.
End StartSafety.

#[export] Hint Resolve okm_server_start : okm.

(** * Theorems *)

(** The answer to a request, from what the listener's callback returned. *)
Definition respond `{E : Env} (resource : Z) (r : atlas_coap_response * option (list byte)) : M unit :=
  emit (EvCoapRespond resource (COAP_RESPONSE_CODE (coap_response_code r.1))
          (if decide (r.1 = ATLAS_COAP_RESP_OK) then default [] r.2 else [])).

Lemma serve_request_run `{E : Env} run req c :
  serve_request run req c = process_request_handler run (sr_resource req) req (cl_listeners c (sr_method req)) c.
Proof. destruct req as [[] r p b]; reflexivity. Qed.

(** A resource added for a method is served: a later request with that method
    for the handle libcoap gave it runs the callback it was added with, on the path
    and the payload of the request, and is answered with that callback's code, with
    its payload only when the code is a success; requests of every other method find
    the listeners they found before. *)
Theorem resource_served `{E : Env} `{HostEndian}
    (run : server_cb -> list byte -> option (list byte) -> M (atlas_coap_response * option (list byte)))
    (c : client) (path uri : list byte) (method : atlas_coap_method) (cb : server_cb) (r : Z) (x : ext)
    (payload : option (list byte)) :
  coap_resource_init path (cl_ext c) = (Some r, x) -> r ∉ ls_resource <$> cl_listeners c method ->
  exists c1, atlas_coap_server_add_resource (Some path) method (Some cb) c = Ok (ATLAS_OK, c1) /\
    serve_request run (mk_srv_req method r (Some uri) payload) c1 =
      (run cb (until_nul uri) payload ≫= respond r) c1 /\
    (forall m, m <> method -> cl_listeners c1 m = cl_listeners c m).
Proof.
  intros Hr Hnew. unfold atlas_coap_server_add_resource.
  rewrite (M_bind_run (call _) _ _ (Some r) (set_ext x c)) by (unfold call; by rewrite Hr).
  eexists. split; [reflexivity|]. split.
  - rewrite serve_request_run. cbn [sr_method sr_resource cl_listeners set_listeners set_ext].
    unfold update_listeners. rewrite decide_True by done.
    unfold process_request_handler. cbn [sr_uri_path sr_payload].
    rewrite find_first_app, (proj2 (find_first_None _ _)).
    + cbn [find_first]. unfold ls_has_resource at 1. rewrite bool_decide_true by done. cbn [ls_callback].
      unfold mbind, M_bind, respond. destruct (run cb _ _ _) as [[[code body] c2]|]; done.
    + apply Forall_forall. intros l Hl. apply bool_decide_eq_false. intros Heq. apply Hnew.
      rewrite <- Heq. by apply list_elem_of_fmap_2.
  - intros m Hm. cbn. unfold update_listeners. by rewrite decide_False.
Qed.

(** Deleting a resource that exists reads freed memory: the loop goes on from
    the entry it has just freed. *)
Theorem del_resource_use_after_free `{E : Env} (c : client) (path : list byte) (method : atlas_coap_method) :
  path ∈ ls_uri_path <$> cl_listeners c method ->
  atlas_coap_server_del_resource path method c = Fault UseAfterFree.
Proof.
  intros (l & -> & Hl)%list_elem_of_fmap. unfold atlas_coap_server_del_resource.
  rewrite (M_bind_run _ _ _ _ _ eq_refl). destruct (find_first _ _) as [p|] eqn:Hf; [done|].
  rewrite find_first_None, Forall_forall in Hf. specialize (Hf l Hl). by apply bool_decide_eq_false in Hf.
Qed.

(** ** Witnesses *)

Lemma resource_served_witness :
  exists c1, @atlas_coap_server_add_resource sim_env (Some (cstr "client/x")) ATLAS_COAP_METHOD_PUT
               (Some srv_execute_command_cb) (sim_boot sim0) = Ok (ATLAS_OK, c1) /\
    cl_out (exec (@serve_request sim_env (fun _ _ _ => mret (ATLAS_COAP_RESP_OK, None))
                    (mk_srv_req ATLAS_COAP_METHOD_PUT 8 (Some (cstr "client/x")) None)) c1)
    = [EvCoapRespond 8 64 []].
Proof.
  destruct (@resource_served sim_env true (fun _ _ _ => mret (ATLAS_COAP_RESP_OK, None)) (sim_boot sim0)
    (cstr "client/x") (cstr "client/x") ATLAS_COAP_METHOD_PUT srv_execute_command_cb 8 sim0 None)
    as (c1 & H1 & H2 & _).
  - reflexivity.
  - apply not_elem_of_nil.
  - exists c1. split; [done|]. unfold exec. rewrite H2. injection H1 as <-. reflexivity.
Defined.

Lemma del_resource_use_after_free_witness :
  @atlas_coap_server_del_resource sim_env (cstr "client/x") ATLAS_COAP_METHOD_PUT
    (set_listeners (fun _ => [mk_listener 8 srv_execute_command_cb (cstr "client/x")]) (sim_boot sim0))
  = Fault UseAfterFree.
Proof. apply (@del_resource_use_after_free sim_env). apply list_elem_of_here. Defined.
