(* ===== verification/Endpoints.v ===== *)
(** The telemetry features the client installs and the CoAP end-points that
    configure their alerts: the set-up functions and server callbacks of
    telemetry/atlas_telemetry_sysinfo.c, atlas_telemetry_packets_info.c,
    atlas_telemetry_hostname.c, atlas_telemetry_kern_info.c and
    atlas_telemetry_features.c. *)
From S2P Require Import Prelude Defs CLib State SimEnv Config Command Sched Alarm Safety CoapClient Identity AlertUtils DataPlane Payload Telemetry CoapServer.

Definition ATLAS_HOSTNAME_PATH : list byte := cstr "gateway/telemetry/hostname".
Definition ATLAS_KERNEL_INFO_PATH : list byte := cstr "gateway/telemetry/kernel_info".
Definition ATLAS_PACKETS_INFO_PACKETS_PER_MINUTE : list byte :=
  cstr "gateway/telemetry/packets_per_minute".
Definition ATLAS_PACKETS_INFO_PACKETS_AVG : list byte := cstr "gateway/telemetry/packets_avg".
Definition ATLAS_PUSH_ALERT_DATA_PLANE_PPM_PATH : list byte :=
  cstr "client/telemetry/packets_info/packets_per_min/alerts/push".
Definition ATLAS_PUSH_ALERT_DATA_PLANE_PKT_AVG_PATH : list byte :=
  cstr "client/telemetry/packets_info/packets_avg/alerts/push".
Definition ATLAS_SYSINFO_UPTIME_PATH : list byte := cstr "gateway/telemetry/sysinfo/uptime".
Definition ATLAS_SYSINFO_TOTALRAM_PATH : list byte := cstr "gateway/telemetry/sysinfo/totalram".
Definition ATLAS_SYSINFO_FREERAM_PATH : list byte := cstr "gateway/telemetry/sysinfo/freeram".
Definition ATLAS_SYSINFO_SHAREDRAM_PATH : list byte := cstr "gateway/telemetry/sysinfo/sharedram".
Definition ATLAS_SYSINFO_BUFFERRAM_PATH : list byte := cstr "gateway/telemetry/sysinfo/bufferram".
Definition ATLAS_SYSINFO_TOTALSWAP_PATH : list byte := cstr "gateway/telemetry/sysinfo/totalswap".
Definition ATLAS_SYSINFO_FREESWAP_PATH : list byte := cstr "gateway/telemetry/sysinfo/freeswap".
Definition ATLAS_SYSINFO_PROCS_PATH : list byte := cstr "gateway/telemetry/sysinfo/procs".
Definition ATLAS_SYSINFO_LOAD1_PATH : list byte := cstr "gateway/telemetry/sysinfo/load1".
Definition ATLAS_SYSINFO_LOAD5_PATH : list byte := cstr "gateway/telemetry/sysinfo/load5".
Definition ATLAS_SYSINFO_LOAD15_PATH : list byte := cstr "gateway/telemetry/sysinfo/load15".
Definition ATLAS_PUSH_ALERT_SYSINFO_PROCS_PATH : list byte :=
  cstr "client/telemetry/sysinfo/procs/alerts/push".
Definition ATLAS_PUSH_ALERT_SYSINFO_UPTIME_PATH : list byte :=
  cstr "client/telemetry/sysinfo/uptime/alerts/push".
Definition ATLAS_PUSH_ALERT_SYSINFO_FREERAM_PATH : list byte :=
  cstr "client/telemetry/sysinfo/freeram/alerts/push".
Definition ATLAS_PUSH_ALERT_SYSINFO_SHAREDRAM_PATH : list byte :=
  cstr "client/telemetry/sysinfo/sharedram/alerts/push".
Definition ATLAS_PUSH_ALERT_SYSINFO_BUFFERRAM_PATH : list byte :=
  cstr "client/telemetry/sysinfo/bufferram/alerts/push".
Definition ATLAS_PUSH_ALERT_SYSINFO_TOTALSWAP_PATH : list byte :=
  cstr "client/telemetry/sysinfo/totalswap/alerts/push".
Definition ATLAS_PUSH_ALERT_SYSINFO_FREESWAP_PATH : list byte :=
  cstr "client/telemetry/sysinfo/freeswap/alerts/push".
Definition ATLAS_PUSH_ALERT_SYSINFO_LOAD1_PATH : list byte :=
  cstr "client/telemetry/sysinfo/load1/alerts/push".
Definition ATLAS_PUSH_ALERT_SYSINFO_LOAD5_PATH : list byte :=
  cstr "client/telemetry/sysinfo/load5/alerts/push".
Definition ATLAS_PUSH_ALERT_SYSINFO_LOAD15_PATH : list byte :=
  cstr "client/telemetry/sysinfo/load15/alerts/push".
Definition ATLAS_THRESHOLD_ALERT_SYSINFO_PROCS_PATH : list byte :=
  cstr "client/telemetry/sysinfo/procs/alerts/threshold".

(** The if-else chain of an end-point: the feature a path configures. *)
Fixpoint strcmp_chain (table : list (list byte * list byte)) (uri_path : list byte) : option (list byte) :=
  match table with
  | [] => None
  | (alert_path, feature_path) :: table =>
      if decide (uri_path = alert_path) then Some feature_path else strcmp_chain table uri_path
  end.

Definition sysinfo_push_table : list (list byte * list byte) := [
  (ATLAS_PUSH_ALERT_SYSINFO_PROCS_PATH, ATLAS_SYSINFO_PROCS_PATH);
  (ATLAS_PUSH_ALERT_SYSINFO_UPTIME_PATH, ATLAS_SYSINFO_UPTIME_PATH);
  (ATLAS_PUSH_ALERT_SYSINFO_FREERAM_PATH, ATLAS_SYSINFO_FREERAM_PATH);
  (ATLAS_PUSH_ALERT_SYSINFO_SHAREDRAM_PATH, ATLAS_SYSINFO_SHAREDRAM_PATH);
  (ATLAS_PUSH_ALERT_SYSINFO_BUFFERRAM_PATH, ATLAS_SYSINFO_BUFFERRAM_PATH);
  (ATLAS_PUSH_ALERT_SYSINFO_TOTALSWAP_PATH, ATLAS_SYSINFO_TOTALSWAP_PATH);
  (ATLAS_PUSH_ALERT_SYSINFO_FREESWAP_PATH, ATLAS_SYSINFO_FREESWAP_PATH);
  (ATLAS_PUSH_ALERT_SYSINFO_LOAD1_PATH, ATLAS_SYSINFO_LOAD1_PATH);
  (ATLAS_PUSH_ALERT_SYSINFO_LOAD5_PATH, ATLAS_SYSINFO_LOAD5_PATH);
  (ATLAS_PUSH_ALERT_SYSINFO_LOAD15_PATH, ATLAS_SYSINFO_LOAD15_PATH)
].

Definition packets_push_table : list (list byte * list byte) := [
  (ATLAS_PUSH_ALERT_DATA_PLANE_PPM_PATH, ATLAS_PACKETS_INFO_PACKETS_PER_MINUTE);
  (ATLAS_PUSH_ALERT_DATA_PLANE_PKT_AVG_PATH, ATLAS_PACKETS_INFO_PACKETS_AVG)
].

Section Endpoints.
Context {E : Env} `{HostEndian}.

(** What the two functions named [atlas_push_alert_cb] do, for their own table;
    [req_payload_len] is cut to the uint16_t of the parser. *)
Definition push_alert (table : list (list byte * list byte)) (uri_path : list byte)
    (req_payload : option (list byte)) : M (atlas_coap_response * option (list byte)) :=
  '(status, push_rate) ← lift (atlas_alert_push_cmd_parse req_payload
                                 (u16 (blen (default [] req_payload))) 0);
  if decide (status <> ATLAS_OK) then mret (ATLAS_COAP_RESP_NOT_ACCEPTABLE_HERE, None) else
  _ ← match strcmp_chain table uri_path with
      | Some path => atlas_telemetry_push_set (Some path) push_rate
      | None => mret tt
      end;
  mret (ATLAS_COAP_RESP_OK, None).

(** [atlas_push_alert_cb] of atlas_telemetry_sysinfo.c *)
Definition sysinfo_push_alert_cb := push_alert sysinfo_push_table.
(** [atlas_push_alert_cb] of atlas_telemetry_packets_info.c *)
Definition packets_push_alert_cb := push_alert packets_push_table.

(** [strtol(NULL)] dereferences NULL; the value is stored in the uint16_t
    [procs_threshold] before it is compared with LONG_MAX and LONG_MIN. *)
Definition atlas_threshold_alert_procs_cb (uri_path : list byte) (req_payload : option (list byte))
  : M (atlas_coap_response * option (list byte)) :=
  '(status, scan_rate, threshold) ← lift (atlas_alert_threshold_cmd_parse req_payload
                                            (u16 (blen (default [] req_payload))) 0);
  if decide (status <> ATLAS_OK) then mret (ATLAS_COAP_RESP_NOT_ACCEPTABLE_HERE, None) else
  match threshold with
  | None => fail NullDeref
  | Some threshold =>
      let '(value, erange) := strtol (until_nul threshold) in
      _ ← modify (set_procs_threshold (u16 value));
      procs_threshold ← gets cl_procs_threshold;
      (* Check for various possible errors *)
      if (erange && (bool_decide (procs_threshold = LONG_MAX) || bool_decide (procs_threshold = LONG_MIN)))
         || (erange && bool_decide (procs_threshold = 0))
      then mret (ATLAS_COAP_RESP_NOT_ACCEPTABLE_HERE, None) else
      _ ← atlas_telemetry_threshold_set (Some ATLAS_SYSINFO_PROCS_PATH) scan_rate;
      mret (ATLAS_COAP_RESP_OK, None)
  end.

(** Install end-points one by one, stopping at the first that fails. *)
Fixpoint add_resources (rs : list (list byte * server_cb)) : M unit :=
  match rs with
  | [] => mret tt
  | (path, cb) :: rs =>
      status ← atlas_coap_server_add_resource (Some path) ATLAS_COAP_METHOD_PUT (Some cb);
      if decide (status <> ATLAS_OK) then mret tt else add_resources rs
  end.

Definition atlas_telemetry_add_sysinfo : M unit :=
  (* Add sysinfo telemetry features *)
  _ ← atlas_telemetry_add (Some ATLAS_SYSINFO_UPTIME_PATH) (Some pl_uptime);
  _ ← atlas_telemetry_add (Some ATLAS_SYSINFO_TOTALRAM_PATH) (Some pl_totalram);
  _ ← atlas_telemetry_add (Some ATLAS_SYSINFO_FREERAM_PATH) (Some pl_freeram);
  _ ← atlas_telemetry_add (Some ATLAS_SYSINFO_SHAREDRAM_PATH) (Some pl_sharedram);
  _ ← atlas_telemetry_add (Some ATLAS_SYSINFO_BUFFERRAM_PATH) (Some pl_bufferram);
  _ ← atlas_telemetry_add (Some ATLAS_SYSINFO_TOTALSWAP_PATH) (Some pl_totalswap);
  _ ← atlas_telemetry_add (Some ATLAS_SYSINFO_FREESWAP_PATH) (Some pl_freeswap);
  _ ← atlas_telemetry_add (Some ATLAS_SYSINFO_PROCS_PATH) (Some pl_procs);
  _ ← atlas_telemetry_add (Some ATLAS_SYSINFO_LOAD1_PATH) (Some pl_load1);
  _ ← atlas_telemetry_add (Some ATLAS_SYSINFO_LOAD5_PATH) (Some pl_load5);
  _ ← atlas_telemetry_add (Some ATLAS_SYSINFO_LOAD15_PATH) (Some pl_load15);
  (* Add sysinfo telemetry push alerts, then the threshold alert *)
  add_resources [
    (ATLAS_PUSH_ALERT_SYSINFO_PROCS_PATH, srv_sysinfo_push_alert_cb);
    (ATLAS_PUSH_ALERT_SYSINFO_UPTIME_PATH, srv_sysinfo_push_alert_cb);
    (ATLAS_PUSH_ALERT_SYSINFO_FREERAM_PATH, srv_sysinfo_push_alert_cb);
    (ATLAS_PUSH_ALERT_SYSINFO_SHAREDRAM_PATH, srv_sysinfo_push_alert_cb);
    (ATLAS_PUSH_ALERT_SYSINFO_BUFFERRAM_PATH, srv_sysinfo_push_alert_cb);
    (ATLAS_PUSH_ALERT_SYSINFO_TOTALSWAP_PATH, srv_sysinfo_push_alert_cb);
    (ATLAS_PUSH_ALERT_SYSINFO_FREESWAP_PATH, srv_sysinfo_push_alert_cb);
    (ATLAS_PUSH_ALERT_SYSINFO_LOAD1_PATH, srv_sysinfo_push_alert_cb);
    (ATLAS_PUSH_ALERT_SYSINFO_LOAD5_PATH, srv_sysinfo_push_alert_cb);
    (ATLAS_PUSH_ALERT_SYSINFO_LOAD15_PATH, srv_sysinfo_push_alert_cb);
    (ATLAS_THRESHOLD_ALERT_SYSINFO_PROCS_PATH, srv_sysinfo_threshold_alert_procs_cb)
  ].

Definition atlas_telemetry_add_packets_info : M unit :=
  (* Add packets_info telemetry features *)
  _ ← atlas_telemetry_add (Some ATLAS_PACKETS_INFO_PACKETS_PER_MINUTE) (Some pl_packets_per_minute);
  _ ← atlas_telemetry_add (Some ATLAS_PACKETS_INFO_PACKETS_AVG) (Some pl_packets_avg);
  (* Add data plane push alerts *)
  add_resources [
    (ATLAS_PUSH_ALERT_DATA_PLANE_PPM_PATH, srv_packets_push_alert_cb);
    (ATLAS_PUSH_ALERT_DATA_PLANE_PKT_AVG_PATH, srv_packets_push_alert_cb)
  ].

Definition atlas_telemetry_add_hostname : M unit :=
  atlas_telemetry_add (Some ATLAS_HOSTNAME_PATH) (Some pl_hostname).

Definition atlas_telemetry_add_kern_info : M unit :=
  atlas_telemetry_add (Some ATLAS_KERNEL_INFO_PATH) (Some pl_kern_info).

Definition atlas_telemetry_features_init : M unit :=
  (* Add hostname feature *)
  _ ← atlas_telemetry_add_hostname;
  (* Add kernel info feature *)
  _ ← atlas_telemetry_add_kern_info;
  (* Add sysinfo feature *)
  _ ← atlas_telemetry_add_sysinfo;
  (* Add packets_info feature *)
  atlas_telemetry_add_packets_info.
End Endpoints.

(** * Safety *)

Section EndpointSafety.
Context {E : Env} `{!EnvLaws E} `{HostEndian}.

Lemma push_body_benign s cmd : benign_res (push_body s cmd).
Proof. unfold push_body. quiet_tac. Qed.

Lemma threshold_body_benign s cmd : benign_res (threshold_body s cmd).
Proof. unfold threshold_body. quiet_tac. Qed.

(** A request payload and its length as the parsers get them. *)
Lemma payload_len_ok (b : list byte) : u16 (blen b) <> 0 -> 0 < u16 (blen b) < 65536 /\ u16 (blen b) <= blen b.
Proof. pose proof (u16_range (blen b)). unfold is_u16, u16 in *. blen_pos. lia. Qed.

Lemma benign_push_parse payload rate :
  benign_res (atlas_alert_push_cmd_parse payload (u16 (blen (default [] payload))) rate).
Proof.
  unfold atlas_alert_push_cmd_parse. destruct payload as [b|]; [|quiet_tac]. change (default [] (Some b)) with b.
  case_decide as Hz; [quiet_tac|]. destruct (payload_len_ok b Hz) as [H1 H2].
  destruct (set_raw_cases atlas_cmd_batch_new b _ H1 H2) as [(st & Hst & ->)|(cs & Hcs & Hne & _ & _ & ->)];
    rewrite res_bind_ok; cbv iota beta.
  - rewrite decide_True by done. quiet_tac.
  - rewrite decide_False by auto. apply benign_bind; [|intros []; quiet_tac].
    apply benign_cmd_loop; auto using push_body_benign.
Qed.

Lemma benign_threshold_parse payload rate :
  benign_res (atlas_alert_threshold_cmd_parse payload (u16 (blen (default [] payload))) rate).
Proof.
  unfold atlas_alert_threshold_cmd_parse. destruct payload as [b|]; [|quiet_tac]. change (default [] (Some b)) with b.
  case_decide as Hz; [quiet_tac|]. destruct (payload_len_ok b Hz) as [H1 H2].
  destruct (set_raw_cases atlas_cmd_batch_new b _ H1 H2) as [(st & Hst & ->)|(cs & Hcs & Hne & _ & _ & ->)];
    rewrite res_bind_ok; cbv iota beta.
  - rewrite decide_True by done. quiet_tac.
  - rewrite decide_False by auto. apply benign_bind; [|intros [[] []]; quiet_tac].
    apply benign_cmd_loop; auto using threshold_body_benign.
Qed.
Hint Resolve benign_push_parse benign_threshold_parse : okm.

Lemma okm_push_alert table path payload : okm cancels_alerts (push_alert table path payload).
Proof. unfold push_alert. okm_tac. Qed.

Lemma okm_threshold_alert path payload :
  okm cancels_alerts (atlas_threshold_alert_procs_cb path payload).
Proof. unfold atlas_threshold_alert_procs_cb. okm_tac. Qed.

Lemma quiet_add_resources rs : quiet (add_resources rs).
Proof. induction rs as [|[path cb] rs IH]; cbn [add_resources]; quiet_tac; done. Qed.
Hint Resolve quiet_add_resources : okm.

Lemma okm_features_init : okm no_cancel atlas_telemetry_features_init.
Proof.
  unfold atlas_telemetry_features_init, atlas_telemetry_add_hostname, atlas_telemetry_add_kern_info,
    atlas_telemetry_add_sysinfo, atlas_telemetry_add_packets_info. okm_tac.
Qed.
End EndpointSafety.

#[export] Hint Resolve okm_push_alert okm_threshold_alert okm_features_init : okm.

(** * Theorems *)

Section EndpointFacts.
Context {E : Env} `{!EnvLaws E} `{HostEndian}.

Lemma payload_u16 cs : blen (encode cs) < 65536 -> u16 (blen (default [] (Some (encode cs)))) = blen (encode cs).
Proof. intros Hlen. apply u16_small. unfold is_u16. change (default [] (Some (encode cs))) with (encode cs). blen_pos. lia. Qed.

Lemma threshold_set_returns path rate c :
  exists c', atlas_telemetry_threshold_set path rate c = Ok (tt, c') /\
    cl_procs_threshold c' = cl_procs_threshold c.
Proof.
  unfold atlas_telemetry_threshold_set. destruct path as [path|]; [|eauto]. case_decide; [eauto|].
  rewrite (M_bind_run _ _ _ _ _ eq_refl). destruct (find_first _ _) as [p|]; [|eauto].
  assert (exists c1, (if decide (tl_threshold_id p >= 0) then atlas_alarm_cancel (tl_threshold_id p)
                      else mret tt) c = Ok (tt, c1) /\ cl_procs_threshold c1 = cl_procs_threshold c)
    as (c1 & Hrun & Hp1).
  { case_decide; [|eauto]. rewrite alarm_cancel_run. eexists. split; [reflexivity|].
    by destruct (find_first _ _). }
  rewrite (M_bind_run _ _ _ _ _ Hrun).
  destruct (alarm_set_cases (ATLAS_ALARM_SEC_TO_MS rate) cb_threshold_alert_alarm_cb false c1)
    as [(x & Hs & _)|(fd & x & _ & _ & _ & _ & Hs)]; rewrite (M_bind_run _ _ _ _ _ Hs); eauto.
Qed.
End EndpointFacts.

(** A push-alert request that names a feature of its table and carries a rate is
    answered with success, and then exactly that feature has a periodic push alarm
    (when a timer can be set). *)
Lemma push_alert_run `{E : Env} `{!EnvLaws E} `{HostEndian}
    (table : list (list byte * list byte)) (uri_path path : list byte) (cs : list cmd) (rate : Z)
    (c : client) (l1 l2 : list telemetry) (p : telemetry) :
  Forall wf_cmd cs -> cs <> [] -> blen (encode cs) < 65536 -> first_rate cs = Some rate -> rate <> 0 ->
  strcmp_chain table uri_path = Some path ->
  NoDup (al_id <$> cl_alarms c) -> cl_features c = l1 ++ p :: l2 ->
  Forall (fun f => tl_uri_path f <> path) l1 -> tl_uri_path p = path ->
  exists id c', push_alert table uri_path (Some (encode cs)) c = Ok ((ATLAS_COAP_RESP_OK, None), c') /\
    cl_features c' = l1 ++ tl_set_push id p :: l2 /\
    rearmed (tl_push_id p) id cb_push_alert_alarm_cb (cl_alarms c) (cl_alarms c').
Proof.
  intros Hcs Hne Hlen Hrate Hnz Hpath Hnd Hl Hl1 Hp. unfold push_alert.
  rewrite payload_u16, push_parse_run, Hrate by done.
  rewrite (M_bind_run (lift (Ok _)) _ _ _ _ eq_refl). cbv beta iota. rewrite decide_False by auto.
  rewrite Hpath. destruct (push_set_run c path rate l1 l2 p Hnd Hl Hl1 Hp Hnz) as (id & c' & Hrun & Hf & Ha & _).
  rewrite (M_bind_run _ _ _ _ _ Hrun). by exists id, c'.
Qed.

(** A threshold-alert request with a scan rate but no threshold value makes the
    handler dereference NULL: one well-formed message stops the process. *)
Theorem threshold_missing_crash `{E : Env} `{HostEndian}
    (uri_path : list byte) (cs : list cmd) (rate : Z) (c : client) :
  Forall wf_cmd cs -> blen (encode cs) < 65536 ->
  last_scan cs = Some rate -> last_threshold cs = None ->
  atlas_threshold_alert_procs_cb uri_path (Some (encode cs)) c = Fault NullDeref.
Proof.
  intros Hcs Hlen Hs Ht. unfold atlas_threshold_alert_procs_cb.
  rewrite payload_u16, threshold_parse_run, Hs, Ht by (done || by destruct cs). done.
Qed.

(** A threshold written in decimal is stored modulo 65536 and the request is
    answered with success, whatever its size: the range check that follows compares
    the 16-bit value with LONG_MAX and LONG_MIN. *)
Theorem threshold_stored_mod `{E : Env} `{!EnvLaws E} `{HostEndian}
    (uri_path : list byte) (cs : list cmd) (rate n : Z) (c : client) :
  Forall wf_cmd cs -> blen (encode cs) < 65536 ->
  last_scan cs = Some rate -> last_threshold cs = Some (dec n) -> 0 <= n <= LONG_MAX ->
  exists c', atlas_threshold_alert_procs_cb uri_path (Some (encode cs)) c = Ok ((ATLAS_COAP_RESP_OK, None), c') /\
    cl_procs_threshold c' = n mod 65536.
Proof.
  intros Hcs Hlen Hs Ht Hn. unfold atlas_threshold_alert_procs_cb.
  rewrite payload_u16, threshold_parse_run, Hs, Ht by (done || by destruct cs).
  rewrite (M_bind_run (lift (Ok _)) _ _ _ _ eq_refl). cbv beta iota. rewrite decide_False by auto.
  rewrite until_nul_id, strtol_dec by (done || by apply dec_no_nul; lia).
  set (c1 := set_procs_threshold (u16 n) c).
  rewrite (M_bind_run (modify _) _ _ tt c1 eq_refl), (M_bind_run _ _ _ _ _ eq_refl). cbn [andb orb].
  destruct (threshold_set_returns (Some ATLAS_SYSINFO_PROCS_PATH) rate c1) as (c2 & Hrun & Hp).
  rewrite (M_bind_run _ _ _ _ _ Hrun). by exists c2.
Qed.

(** The features in the order the client installs them. *)
Definition installed_features : list telemetry :=
  (fun f => mk_telemetry f.1 f.2 (-1) (-1)) <$> [
    (ATLAS_HOSTNAME_PATH, pl_hostname); (ATLAS_KERNEL_INFO_PATH, pl_kern_info);
    (ATLAS_SYSINFO_UPTIME_PATH, pl_uptime); (ATLAS_SYSINFO_TOTALRAM_PATH, pl_totalram);
    (ATLAS_SYSINFO_FREERAM_PATH, pl_freeram); (ATLAS_SYSINFO_SHAREDRAM_PATH, pl_sharedram);
    (ATLAS_SYSINFO_BUFFERRAM_PATH, pl_bufferram); (ATLAS_SYSINFO_TOTALSWAP_PATH, pl_totalswap);
    (ATLAS_SYSINFO_FREESWAP_PATH, pl_freeswap); (ATLAS_SYSINFO_PROCS_PATH, pl_procs);
    (ATLAS_SYSINFO_LOAD1_PATH, pl_load1); (ATLAS_SYSINFO_LOAD5_PATH, pl_load5);
    (ATLAS_SYSINFO_LOAD15_PATH, pl_load15);
    (ATLAS_PACKETS_INFO_PACKETS_PER_MINUTE, pl_packets_per_minute);
    (ATLAS_PACKETS_INFO_PACKETS_AVG, pl_packets_avg)].

Lemma add_resources_features `{E : Env} `{HostEndian} rs c :
  exists c', add_resources rs c = Ok (tt, c') /\ cl_features c' = cl_features c.
Proof.
  revert c. induction rs as [|[path cb] rs IH]; intros c; cbn [add_resources]; [eauto|].
  unfold atlas_coap_server_add_resource, mbind, M_bind, call.
  destruct (coap_resource_init path (cl_ext c)) as [[r|] x]; cbn; [|eauto].
  destruct (IH (set_listeners (update_listeners ATLAS_COAP_METHOD_PUT
    (fun l => l ++ [mk_listener r cb path]) (cl_listeners c)) (set_ext x c))) as (c' & Hr & Hf).
  exists c'. split; [exact Hr|exact Hf].
Qed.

(** Set-up always returns and installs exactly the fifteen features, in that
    order, whether or not the end-points for their alerts could be added. *)
Theorem features_installed `{E : Env} `{HostEndian} (c : client) :
  exists c', atlas_telemetry_features_init c = Ok (tt, c') /\
    cl_features c' = cl_features c ++ installed_features.
Proof.
  unfold atlas_telemetry_features_init, atlas_telemetry_add_hostname, atlas_telemetry_add_kern_info,
    atlas_telemetry_add_sysinfo, atlas_telemetry_add_packets_info, atlas_telemetry_add.
  set (rs := [_; _; _; _; _; _; _; _; _; _; _]).
  set (rs2 := [_; _]). unfold mbind, M_bind, modify. cbn [mret].
  match goal with |- context [add_resources rs ?c1] =>
    destruct (add_resources_features rs c1) as (c2 & -> & H2) end.
  cbn beta iota.
  match goal with |- context [add_resources rs2 ?c3] =>
    destruct (add_resources_features rs2 c3) as (c4 & -> & H4) end.
  exists c4. split; [done|]. rewrite H4. cbn in H2 |- *. rewrite H2. by rewrite <- !app_assoc.
Qed.

(** The resend after a timeout looks for a feature whose path occurs anywhere in
    the URI: the timeout of the 15-minute load resends the 1-minute load, because
    its path begins the other's, and the 15-minute load is never resent. *)
Theorem load15_resends_load1 `{E : Env} `{HostEndian}
    (c : client) (hostname port : list byte) (l1 l2 : list telemetry) (f : telemetry) :
  cl_features c = l1 ++ f :: l2 -> tl_uri_path f = ATLAS_SYSINFO_LOAD1_PATH ->
  Forall (fun g => strstr (gateway_uri hostname port ATLAS_SYSINFO_LOAD15_PATH) (tl_uri_path g) = false) l1 ->
  telemetry_callback (gateway_uri hostname port ATLAS_SYSINFO_LOAD15_PATH) ATLAS_COAP_RESP_TIMEOUT c =
  atlas_telemetry_push f false c.
Proof.
  intros Hl Hf Hl1. unfold telemetry_callback. rewrite decide_False by done. rewrite decide_False by auto.
  rewrite (M_bind_run _ _ _ _ _ eq_refl). rewrite Hl, find_first_app, (proj2 (find_first_None _ l1) Hl1).
  cbn [find_first]. rewrite Hf.
  assert (Hs : strstr (gateway_uri hostname port ATLAS_SYSINFO_LOAD15_PATH) ATLAS_SYSINFO_LOAD1_PATH = true).
  { unfold gateway_uri. change ATLAS_SYSINFO_LOAD15_PATH with (ATLAS_SYSINFO_LOAD1_PATH ++ cstr "5").
    rewrite !app_assoc. rewrite <- app_assoc. apply strstr_app. }
  by rewrite Hs.
Qed.

(** ** Witnesses *)

(** A client with all features installed, the first three alarms set. *)
Definition alert_client : @client sim_env :=
  set_features installed_features
    (set_alarms [mk_alarm_entry 6 cb_keepalive_alarm_callback false] pushing_client).

Definition rate_cmds : list cmd := [(cmd_code ATLAS_CMD_TELEMETRY_ALERT_EXT_PUSH_RATE, [x00; x1e])].
Definition scan_cmds : list cmd := [(cmd_code ATLAS_CMD_TELEMETRY_ALERT_INT_SCAN_RATE, [x00; x05])].
Definition big_cmds : list cmd :=
  scan_cmds ++ [(cmd_code ATLAS_CMD_TELEMETRY_ALERT_THRESHOLD, dec 65636)].

Lemma threshold_missing_crash_witness :
  @atlas_threshold_alert_procs_cb sim_env true ATLAS_THRESHOLD_ALERT_SYSINFO_PROCS_PATH
    (Some (encode scan_cmds)) alert_client = Fault NullDeref.
Proof.
  apply (@threshold_missing_crash sim_env true _ scan_cmds 5); [by repeat constructor|done|done|done].
Defined.

Lemma threshold_stored_mod_witness :
  exists c', @atlas_threshold_alert_procs_cb sim_env true ATLAS_THRESHOLD_ALERT_SYSINFO_PROCS_PATH
               (Some (encode big_cmds)) alert_client = Ok ((ATLAS_COAP_RESP_OK, None), c') /\
    cl_procs_threshold c' = 100.
Proof.
  apply (@threshold_stored_mod sim_env sim_laws true _ big_cmds 5 65636);
    [by repeat constructor|done|done|done|done].
Defined.

Lemma load15_resends_load1_witness :
  @telemetry_callback sim_env true (gateway_uri (cstr "gw") (cstr "10100") ATLAS_SYSINFO_LOAD15_PATH)
    ATLAS_COAP_RESP_TIMEOUT alert_client =
  @atlas_telemetry_push sim_env true (mk_telemetry ATLAS_SYSINFO_LOAD1_PATH pl_load1 (-1) (-1)) false alert_client.
Proof.
  apply (@load15_resends_load1 sim_env true alert_client (cstr "gw") (cstr "10100")
    (take 10 installed_features) (drop 11 installed_features)); [done|done|by repeat constructor].
Defined.
