(* ===== verification/CommandExecute.v ===== *)
(** Execution of approved commands (commands_execute/): the CoAP end-point that
    schedules a restart or a shutdown, and the alarms that run it. *)
From S2P Require Import Prelude Defs CLib State SimEnv Config Command Sched Alarm Safety CoapClient DataPlane CoapServer.

Definition ATLAS_CLIENT_COMMAND_EXECUTE_TIMEOUT_MS : Z := 10.
Definition ATLAS_COMMAND_EXECUTE_PATH : list byte := cstr "client/approved/command/push".

Section CommandExecute.
Context {E : Env} `{HostEndian}.

Definition atlas_command_execute_shutdown : M unit := emit (EvSystem "systemctl poweroff").
Definition atlas_command_execute_restart : M unit := emit (EvSystem "systemctl reboot").

Definition command_execution_shutdown_alarm_callback : M unit := atlas_command_execute_shutdown.
Definition command_execution_restart_alarm_callback : M unit := atlas_command_execute_restart.

(** One case of the switch that schedules an alarm. *)
Definition schedule_execution (cb : alarm_cb) : M unit :=
  id ← atlas_alarm_set ATLAS_CLIENT_COMMAND_EXECUTE_TIMEOUT_MS cb true;
  if decide (id < 0) then mret tt else modify (set_exec true).

Definition execution_body (cmd : atlas_cmd) : M unit :=
  if decide (cmd_type cmd = exec_code ATLAS_CMD_DEVICE_RESTART) then
    schedule_execution cb_command_execution_restart_alarm_callback
  else if decide (cmd_type cmd = exec_code ATLAS_CMD_DEVICE_SHUTDOWN) then
    schedule_execution cb_command_execution_shutdown_alarm_callback
  else mret tt.

Definition atlas_alert_command_execution_parse (buf : option (list byte)) (buf_len : Z)
  : M atlas_status :=
  cmdInProgress ← gets cl_exec;
  if (cmdInProgress : bool) then mret ATLAS_DEFERRED_COMMAND_EXECUTION else
  match buf with
  | None => mret ATLAS_INVALID_INPUT
  | Some bytes =>
      if decide (buf_len = 0) then mret ATLAS_INVALID_INPUT else
      '(status, cmd_batch) ← lift (atlas_cmd_batch_set_raw (Some atlas_cmd_batch_new) buf buf_len);
      if decide (status <> ATLAS_OK) then mret ATLAS_CORRUPTED_COMMAND_EXECUTION_PAYLOAD else
      _ ← cmd_loop_M execution_body cmd_batch;
      mret ATLAS_OK
  end.

Definition atlas_execute_command_cb (uri_path : list byte) (req_payload : option (list byte))
  : M (atlas_coap_response * option (list byte)) :=
  status ← atlas_alert_command_execution_parse req_payload (u16 (blen (default [] req_payload)));
  if decide (status <> ATLAS_OK) then
    if decide (status = ATLAS_DEFERRED_COMMAND_EXECUTION)
    then mret (ATLAS_COAP_RESP_UNKNOWN, None)
    else mret (ATLAS_COAP_RESP_NOT_ACCEPTABLE_HERE, None)
  else mret (ATLAS_COAP_RESP_OK, None).

Definition atlas_command_execute_init : M bool :=
  status ← atlas_coap_server_add_resource (Some ATLAS_COMMAND_EXECUTE_PATH) ATLAS_COAP_METHOD_PUT
             (Some srv_execute_command_cb);
  mret (bool_decide (status = ATLAS_OK)).
End CommandExecute.

(** * Safety *)

Section ExecuteSafety.
Context {E : Env} `{!EnvLaws E} `{HostEndian}.

Lemma okm_schedule_execution cb :
  cb <> cb_keepalive_alarm_callback -> runs_once cb = true -> okm no_cancel (schedule_execution cb).
Proof.
  intros Hcb Honce. unfold schedule_execution. okm_step; [by apply okm_alarm_set|]. okm_tac.
Qed.

Lemma okm_execution_body cmd : okm no_cancel (execution_body cmd).
Proof.
  unfold execution_body. repeat case_decide; try (apply okm_schedule_execution; [discriminate|reflexivity]).
  okm_tac.
Qed.

Lemma okm_execute_command path payload : okm no_cancel (atlas_execute_command_cb path payload).
Proof.
  unfold atlas_execute_command_cb, atlas_alert_command_execution_parse.
  okm_step; [|okm_tac]. okm_step; [okm_tac|]. okm_step; [okm_tac|].
  destruct payload as [b|]; [|okm_tac]. change (default [] (Some b)) with b. case_decide as Hz; [okm_tac|].
  pose proof (u16_range (blen b)). unfold is_u16 in *.
  apply okm_set_raw; [lia|unfold u16 in *; blen_pos; lia|..].
  - intros st Hst. rewrite decide_True by done. okm_tac.
  - intros cs Hcs Hne. rewrite decide_False by auto. okm_step; [|okm_tac].
    apply okm_cmd_loop; auto using okm_execution_body.
Qed.
End ExecuteSafety.

#[export] Hint Resolve okm_execute_command : okm.

(** * Theorems *)

(** The alarm a command schedules. *)
Definition exec_cb (c : cmd) : option alarm_cb :=
  if decide (c.1 = exec_code ATLAS_CMD_DEVICE_RESTART) then Some cb_command_execution_restart_alarm_callback
  else if decide (c.1 = exec_code ATLAS_CMD_DEVICE_SHUTDOWN) then Some cb_command_execution_shutdown_alarm_callback
  else None.

(** [new] are alarms for some of the commands [cs], in order. *)
Definition scheduled `{E : Env} (cs : list cmd) (c c' : client) : Prop :=
  exists new, cl_alarms c' = cl_alarms c ++ new /\
    sublist (al_callback <$> new) (omap exec_cb cs) /\ Forall (fun a => al_run_once a = true) new /\
    cl_exec c' = cl_exec c || negb (bool_decide (new = [])) /\ cl_out c' = cl_out c.

Section ExecuteFacts.
Context {E : Env} `{!EnvLaws E} `{HostEndian}.

Lemma execution_body_run t v rest c :
  exists c', execution_body (mk_cmd t (blen v) (v ++ rest)) c = Ok (tt, c') /\ scheduled [(t, v)] c c'.
Proof.
  assert (Hs : forall cb, exists c', schedule_execution cb c = Ok (tt, c') /\
    ((cl_alarms c' = cl_alarms c /\ cl_exec c' = cl_exec c /\ cl_out c' = cl_out c) \/
     (exists id, cl_alarms c' = cl_alarms c ++ [mk_alarm_entry id cb true] /\ cl_exec c' = true /\
        cl_out c' = cl_out c))).
  { intros cb. unfold schedule_execution.
    destruct (alarm_set_cases ATLAS_CLIENT_COMMAND_EXECUTE_TIMEOUT_MS cb true c)
      as [(x & Hr & _)|(id & x & Hid & _ & _ & _ & Hr)]; rewrite (M_bind_run _ _ _ _ _ Hr).
    - eexists. split; [reflexivity|]. by left.
    - rewrite decide_False by lia. eexists. split; [reflexivity|]. right. by exists id. }
  assert (Hq : forall cb, exec_cb (t, v) = Some cb ->
    exists c', schedule_execution cb c = Ok (tt, c') /\ scheduled [(t, v)] c c').
  { intros cb Hcb. destruct (Hs cb) as (c' & Hr & Hcase). exists c'. split; [done|].
    unfold scheduled. cbn [omap list_omap]. rewrite Hcb.
    destruct Hcase as [(Ha & He & Ho)|(id & Ha & He & Ho)].
    - exists []. rewrite app_nil_r, orb_false_r. split; [done|]. by split; [apply sublist_nil_l|].
    - eexists. split; [exact Ha|]. rewrite He, orb_true_r. split; [done|]. by split; [constructor|]. }
  unfold execution_body. cbn [cmd_type]. unfold exec_cb in Hq. cbn [fst] in Hq.
  destruct (decide (t = exec_code ATLAS_CMD_DEVICE_RESTART)); [by apply Hq|].
  destruct (decide (t = exec_code ATLAS_CMD_DEVICE_SHUTDOWN)); [by apply Hq|].
  exists c. split; [done|]. exists []. rewrite app_nil_r, orb_false_r.
  split; [done|]. by split; [apply sublist_nil_l|].
Qed.

Lemma scheduled_trans x cs c1 c2 c3 :
  scheduled [x] c1 c2 -> scheduled cs c2 c3 -> scheduled (x :: cs) c1 c3.
Proof.
  intros (n1 & A1 & S1 & O1 & E1 & U1) (n2 & A2 & S2 & O2 & E2 & U2). exists (n1 ++ n2).
  rewrite A2, A1, <- app_assoc. split; [done|]. split.
  - rewrite fmap_app. change (x :: cs) with ([x] ++ cs). rewrite omap_app. by apply sublist_app.
  - split; [by apply Forall_app|]. rewrite E2, E1, U2, U1. split; [|done].
    destruct n1, n2; cbn; by destruct (cl_exec c1).
Qed.

Lemma execution_fold cs c :
  exists c', fold_cmds (fun c cmd => '(_, c) ← execution_body cmd c; Ok (c, false)) c cs = Ok c' /\
    scheduled cs c c'.
Proof.
  revert c. induction cs as [|[t v] cs IH]; intros c; cbn [fold_cmds].
  { exists c. split; [done|]. exists []. rewrite app_nil_r, orb_false_r.
    split; [done|]. by split; [apply sublist_nil_l|]. }
  destruct (execution_body_run t v (encode cs) c) as (c1 & -> & H1). cbn.
  destruct (IH c1) as (c2 & Hr & H2). exists c2. split; [exact Hr|].
  by eapply scheduled_trans.
Qed.
End ExecuteFacts.

(** While a command is in progress every request is deferred and changes
    nothing. Otherwise a well-formed batch is answered with success and schedules,
    in order, one-shot alarms for its restart and shutdown commands and for nothing
    else (all of them that a timer can be set for), and the execution is in progress
    exactly when one was scheduled; no command runs at once. *)
Theorem execute_batch `{E : Env} `{!EnvLaws E} `{HostEndian}
    (uri_path : list byte) (cs : list cmd) (c : client) :
  Forall wf_cmd cs -> cs <> [] -> blen (encode cs) < 65536 ->
  if cl_exec c
  then atlas_execute_command_cb uri_path (Some (encode cs)) c = Ok ((ATLAS_COAP_RESP_UNKNOWN, None), c)
  else exists c', atlas_execute_command_cb uri_path (Some (encode cs)) c = Ok ((ATLAS_COAP_RESP_OK, None), c') /\
         scheduled cs c c'.
Proof.
  intros Hcs Hne Hlen. assert (0 < blen (encode cs)) by (destruct cs; [done|blia]).
  unfold atlas_execute_command_cb, atlas_alert_command_execution_parse.
  change (default [] (Some (encode cs))) with (encode cs).
  rewrite u16_small by (unfold is_u16; lia).
  destruct (cl_exec c) eqn:He.
  { unfold mbind, M_bind, gets. rewrite He. done. }
  pose proof (set_raw_encode atlas_cmd_batch_new cs [] Hcs ltac:(lia)) as Hs. rewrite app_nil_r in Hs.
  destruct (execution_fold cs c) as (c' & Hf & Hsch). exists c'. split; [|done].
  unfold mbind at 1 2, M_bind at 1 2, gets. rewrite He. cbv iota beta.
  rewrite decide_False by lia. rewrite Hs.
  rewrite (M_bind_run (lift (Ok _)) _ _ _ _ eq_refl). cbv beta iota. rewrite decide_False by auto.
  unfold mbind at 1, M_bind at 1, cmd_loop_M. rewrite cmd_loop_fold by done. by rewrite Hf.
Qed.

Definition restart_shutdown : list cmd :=
  [(exec_code ATLAS_CMD_DEVICE_RESTART, []); (exec_code ATLAS_CMD_DEVICE_SHUTDOWN, [])].

Lemma execute_batch_witness :
  exists c', @atlas_execute_command_cb sim_env true ATLAS_COMMAND_EXECUTE_PATH (Some (encode restart_shutdown))
               (@boot sim_env sim0) = Ok ((ATLAS_COAP_RESP_OK, None), c') /\
    scheduled restart_shutdown (@boot sim_env sim0) c'.
Proof.
  apply (@execute_batch sim_env sim_laws true ATLAS_COMMAND_EXECUTE_PATH restart_shutdown (@boot sim_env sim0));
    [by repeat constructor|done|done].
Defined.
