(* ===== verification/Client.v ===== *)
(** The client process as a whole: the functions behind the names stored in the
    tables of the modules, the command line and [main] (atlas_main.c), and the
    safety of every turn of the event loop. *)
From S2P Require Import Prelude Defs CLib State SimEnv Config Command Sched Alarm Safety CoapClient Identity AlertUtils DataPlane Payload Telemetry Register CoapServer Endpoints CommandExecute.

Section Client.
Context {E : Env} `{HostEndian}.

(** * The functions the tables hold *)

Definition run_coap_cb (cb : coap_cb) (uri : list byte) (resp_status : atlas_coap_response)
    (resp_payload : option (list byte)) : M unit :=
  match cb with
  | cb_reg_callback => reg_callback resp_status
  | cb_keepalive_callback => keepalive_callback resp_status resp_payload
  | cb_policy_callback => policy_callback resp_status
  | cb_feature_reputation_callback => feature_reputation_callback resp_status resp_payload
  | cb_feedback_callback => feedback_callback
  | cb_telemetry_callback => telemetry_callback uri resp_status
  end.

Definition run_alarm_cb (cb : alarm_cb) (alarm_id : Z) : M unit :=
  match cb with
  | cb_request_alarm_cb => request_alarm_cb run_coap_cb alarm_id
  | cb_reg_alarm_callback => reg_alarm_callback alarm_id
  | cb_keepalive_alarm_callback => keepalive_alarm_callback alarm_id
  | cb_policy_alarm_callback => policy_alarm_callback
  | cb_push_alert_alarm_cb => push_alert_alarm_cb alarm_id
  | cb_threshold_alert_alarm_cb => threshold_alert_alarm_cb alarm_id
  | cb_command_execution_shutdown_alarm_callback => command_execution_shutdown_alarm_callback
  | cb_command_execution_restart_alarm_callback => command_execution_restart_alarm_callback
  end.

Definition run_server_cb (cb : server_cb) (uri_path : list byte) (req_payload : option (list byte))
  : M (atlas_coap_response * option (list byte)) :=
  match cb with
  | srv_sysinfo_push_alert_cb => sysinfo_push_alert_cb uri_path req_payload
  | srv_sysinfo_threshold_alert_procs_cb => atlas_threshold_alert_procs_cb uri_path req_payload
  | srv_packets_push_alert_cb => packets_push_alert_cb uri_path req_payload
  | srv_execute_command_cb => atlas_execute_command_cb uri_path req_payload
  end.

Definition run_sched_cb (cb : sched_cb) (fd : Z) : M unit :=
  match cb with
  | cb_atlas_alarm_trigger => atlas_alarm_trigger run_alarm_cb fd
  | cb_coap_client_sched_callback => coap_client_sched_callback run_coap_cb fd
  | cb_atlas_coap_server_sched_callback => atlas_coap_server_sched_callback run_server_cb fd
  | cb_atlas_data_plane_accept_cb => atlas_data_plane_accept_cb fd
  | cb_atlas_data_plane_read_cb => atlas_data_plane_read_cb fd
  end.

(** * The command line *)

(** One result of [getopt(argc, argv, ":h:p:i:l:")]: an option with its argument,
    or one that is unknown or lacks it. *)
Inductive getopt_result : Type :=
  | Opt (opt : byte) (optarg : list byte)
  | OptError (opt : byte).

Record opts_seen := mk_seen {
  hostname_opt : bool; gw_port_opt : bool; iface_opt : bool; local_port_opt : bool;
}.

(** None is [exit(1)]. *)
Fixpoint parse_options_loop (args : list getopt_result) (seen : opts_seen) : M (option opts_seen) :=
  match args with
  | [] => mret (Some seen)
  | OptError _ :: _ => mret None
  | Opt opt optarg :: args =>
      let next (status : atlas_status) (seen : opts_seen) : M (option opts_seen) :=
        if decide (status <> ATLAS_OK) then mret None else parse_options_loop args seen in
      if decide (opt = x68 (* h *)) then
        if decide (strlen optarg > ATLAS_URI_HOSTNAME_MAX_LEN) then mret None else
        status ← atlas_cfg_set_hostname (Some optarg);
        next status (mk_seen true (gw_port_opt seen) (iface_opt seen) (local_port_opt seen))
      else if decide (opt = x70 (* p *)) then
        status ← atlas_cfg_set_port (Some optarg);
        next status (mk_seen (hostname_opt seen) true (iface_opt seen) (local_port_opt seen))
      else if decide (opt = x69 (* i *)) then
        status ← atlas_cfg_set_local_iface (Some optarg);
        next status (mk_seen (hostname_opt seen) (gw_port_opt seen) true (local_port_opt seen))
      else if decide (opt = x6c (* l *)) then
        status ← atlas_cfg_set_local_port (Some optarg);
        next status (mk_seen (hostname_opt seen) (gw_port_opt seen) (iface_opt seen) true)
      else mret None
  end.

(** Whether the process goes on. *)
Definition parse_options (args : list getopt_result) : M bool :=
  seen ← parse_options_loop args (mk_seen false false false false);
  mret match seen with
       | None => false
       | Some seen => hostname_opt seen && gw_port_opt seen && iface_opt seen && local_port_opt seen
       end.

(** * main *)

(** [main] up to the event loop: whether it gets there. *)
Definition main_init (args : list getopt_result) : M bool :=
  go ← parse_options args;
  if negb go then mret false else
  x ← gets cl_ext;
  (* Atlas client must be root in order to execute commands *)
  if decide (geteuid x <> 0) then mret false else
  (* Init or generate identity *)
  status ← atlas_identity_init;
  if decide (status <> ATLAS_OK) then mret false else
  (* Set identity info for the CoAP client *)
  identity ← atlas_identity_get;
  psk ← atlas_psk_get;
  status ← atlas_coap_client_set_dtls_info (Some identity) (Some psk);
  if decide (status <> ATLAS_OK) then mret false else
  (* Init registration and keepalive *)
  _ ← atlas_register_start;
  (* Start server *)
  local_port ← atlas_cfg_get_local_port;
  psk ← atlas_psk_get;
  status ← atlas_coap_server_start local_port ATLAS_COAP_SERVER_MODE_DTLS_PSK psk;
  if decide (status <> ATLAS_OK) then mret false else
  (* Init commands receiver modules *)
  status ← atlas_data_plane_connector_start;
  if decide (status <> ATLAS_OK) then mret false else
  (* Init telemetry features *)
  _ ← atlas_telemetry_features_init;
  (* Init command execution engine *)
  _ ← atlas_command_execute_init;
  mret true.

(** [main], with the event loop cut after [n] turns. *)
Definition main (args : list getopt_result) (n fuel : nat) : M unit :=
  go ← main_init args;
  if (go : bool) then atlas_sched_loop run_sched_cb n fuel else mret tt.
End Client.

(** * Safety of the callbacks *)

Section ClientSafety.
Context {E : Env} `{!EnvLaws E} `{HostEndian}.

Lemma run_coap_cb_ok cb uri resp payload :
  okp (fun c => exists r, r ∈ cl_reqs c /\ rq_callback r = cb) cancels_ka
    (run_coap_cb cb uri resp payload).
Proof.
  assert (Hq : forall (m : M unit), okm no_cancel m ->
    okp (fun c => exists r, r ∈ cl_reqs c /\ rq_callback r = cb) cancels_ka m).
  { intros m Hm. apply okm_okp. by apply (okm_weaken no_cancel). }
  destruct cb; cbn [run_coap_cb].
  - apply Hq, okm_reg_callback.
  - intros c Hc (r & Hr & Hcb). apply okp_keepalive_callback; [done|].
    destruct (inv_ka c Hc) as [?|[?|[_ Hno]]]; [by left|by right|]. by destruct (Hno r Hr).
  - apply Hq, okm_policy_callback.
  - apply Hq, okm_feature_reputation_callback.
  - apply Hq. unfold feedback_callback. okm_tac.
  - apply Hq, okm_telemetry_callback.
Qed.

(** What a callback of the event loop may do. *)
Definition stepped (c c' : client) : Prop :=
  client_inv c' /\ sched_keeps (cl_sched c) (cl_sched c') /\ (clean c -> clean c').

Lemma stepped_grows K c c' : client_inv c' -> grows K c c' -> stepped c c'.
Proof.
  intros Hc [Gs (new & Hr & Hn) _]. split; [done|]. split; [done|]. intros Hcl r.
  rewrite Hr, Forall_forall in *. intros [?|?]%elem_of_app; auto.
Qed.

Lemma stepped_trans c1 c2 c3 : stepped c1 c2 -> stepped c2 c3 -> stepped c1 c3.
Proof.
  intros (_ & S1 & C1) (I2 & S2 & C2). split; [done|]. split; [by eapply sched_keeps_trans|auto].
Qed.

(** The callback of an alarm leaves that alarm set, and when it is a request's
    timeout, the request is gone. *)
Lemma run_alarm_cb_ok a c :
  client_inv c -> a ∈ cl_alarms c ->
  match run_alarm_cb (al_callback a) (al_id a) c with
  | Ok (_, c') => stepped c c' /\ a ∈ cl_alarms c' /\
      (al_callback a = cb_request_alarm_cb -> al_id a ∉ rq_alarm_id <$> cl_reqs c')
  | Fault f => benign f
  end.
Proof.
  intros Hc Ha.
  assert (Hq : forall (P : client -> Prop) (m : M unit), okp P no_cancel m -> P c ->
    al_callback a <> cb_request_alarm_cb ->
    match m c with
    | Ok (_, c') => stepped c c' /\ a ∈ cl_alarms c' /\
        (al_callback a = cb_request_alarm_cb -> al_id a ∉ rq_alarm_id <$> cl_reqs c')
    | Fault f => benign f
    end).
  { intros P m Hm HP Hcb. specialize (Hm c Hc HP). destruct (m c) as [[[] c']|f]; [|done].
    destruct Hm as [Hc' Hg]. split; [by eapply stepped_grows|]. split; [|done].
    by apply (grows_alarms _ _ _ Hg). }
  assert (Hany : forall m : M unit, okm no_cancel m -> okp (fun _ => True) no_cancel m)
    by (intros; by apply okm_okp).
  destruct (al_callback a) eqn:Hcb; cbn [run_alarm_cb].
  { pose proof (request_alarm_ok run_coap_cb cancels_ka eq_refl run_coap_cb_ok (al_id a) c Hc) as Hr.
    destruct (request_alarm_cb run_coap_cb (al_id a) c) as [[[] c']|f]; [|done].
    destruct Hr as (Hc' & Hs & Hk & Hn & Hcl). split; [done|]. split; [|done].
    apply Hk; [done|]. by rewrite Hcb. }
  2:{ eapply Hq; [apply okp_send_keepalive| |done].
      destruct (inv_ka c Hc) as [?|[?|[Hno _]]]; [by left|by right|]. by destruct (Hno a Ha). }
  all: eapply Hq; [apply Hany|done|done].
  all: unfold reg_alarm_callback, policy_alarm_callback, command_execution_shutdown_alarm_callback,
    command_execution_restart_alarm_callback, atlas_command_execute_shutdown,
    atlas_command_execute_restart; okm_tac.
Qed.

Lemma alarm_trigger_ok fd c :
  client_inv c ->
  match atlas_alarm_trigger run_alarm_cb fd c with
  | Ok (_, c') => stepped c c'
  | Fault f => benign f
  end.
Proof.
  intros Hc. unfold atlas_alarm_trigger. rewrite (M_bind_run _ _ _ _ _ eq_refl).
  destruct (find_first _ _) as [p|] eqn:Hf; [|by apply (stepped_grows no_cancel), grows_refl].
  apply find_first_Some in Hf as [Hp Hid%bool_decide_eq_true].
  set (c0 := set_ext (timer_read fd (cl_ext c)) c).
  assert (Hst : same_tables c c0) by (repeat split; apply timer_read_law).
  assert (Hc0 : client_inv c0) by (by eapply same_tables_inv).
  rewrite (M_bind_run (call_ _) _ _ tt c0 eq_refl).
  pose proof (run_alarm_cb_ok p c0 Hc0 Hp) as Hrun. unfold mbind at 1, M_bind at 1.
  destruct (run_alarm_cb (al_callback p) (al_id p) c0) as [[[] c1]|f]; [|done].
  destruct Hrun as (Hs & Hp1 & Hrq). destruct (inv_alarms c1 (proj1 Hs)) as [And Aa].
  assert (Hstep : stepped c c1).
  { eapply stepped_trans; [|exact Hs]. by eapply (stepped_grows no_cancel), same_tables_grows. }
  rewrite (M_bind_run _ _ _ _ _ eq_refl).
  destruct (find_first (has_alarm_id fd) (cl_alarms c1)) as [p'|] eqn:Hf1.
  2:{ rewrite find_first_None, Forall_forall in Hf1. specialize (Hf1 p Hp1).
      by apply bool_decide_eq_false in Hf1. }
  apply find_first_Some in Hf1 as [Hin' Hid'%bool_decide_eq_true].
  assert (p' = p) as -> by (eapply alarm_id_inj; [exact And|done|done|congruence]).
  destruct (al_run_once p) eqn:Honce; [|done].
  destruct (Aa p Hp1) as (_ & _ & Hro). rewrite Honce in Hro.
  destruct (inv_cancel p c1 (proj1 Hs) Hp1) as (c2 & -> & Hc2 & Hr2 & _ & _ & _ & Hs2 & _);
    [done|by intros Hcb; rewrite Hcb in Hro..|].
  eapply stepped_trans; [exact Hstep|]. split; [done|]. unfold clean. rewrite Hs2, Hr2.
  split; [apply sched_keeps_mark|done].
Qed.

Lemma run_server_cb_ok cb path payload : okm cancels_alerts (run_server_cb cb path payload).
Proof.
  destruct cb; cbn [run_server_cb]; [apply okm_push_alert|apply okm_threshold_alert|apply okm_push_alert|].
  by apply (okm_weaken no_cancel), okm_execute_command.
Qed.

Lemma run_sched_cb_ok cb fd c :
  client_inv c ->
  match run_sched_cb cb fd c with
  | Ok (_, c') => stepped c c'
  | Fault f => benign f
  end.
Proof.
  intros Hc.
  assert (Hq : forall K (m : M unit), okm K m ->
    match m c with Ok (_, c') => stepped c c' | Fault f => benign f end).
  { intros K m Hm. specialize (Hm c Hc). destruct (m c) as [[[] c']|f]; [|done].
    destruct Hm. by eapply stepped_grows. }
  destruct cb; cbn [run_sched_cb].
  - by apply alarm_trigger_ok.
  - by apply (sched_callback_ok run_coap_cb cancels_ka eq_refl run_coap_cb_ok).
  - apply (Hq cancels_alerts), okm_server_sched_callback, run_server_cb_ok.
  - apply (Hq no_cancel), okm_accept_cb.
  - apply (Hq no_cancel), okm_read_cb.
Qed.

(** ** Start-up *)

Lemma quiet_modify_cfg (f : config -> config) : quiet (modify (fun c => set_cfg (f (cl_cfg c)) c)).
Proof. quiet_tac. Qed.

Lemma quiet_parse_options args : quiet (parse_options args).
Proof.
  unfold parse_options. apply quiet_bind; [|intros ?; apply quiet_ret].
  generalize (mk_seen false false false false).
  induction args as [|[opt optarg|opt] args IH]; intros seen; cbn [parse_options_loop]; [quiet_tac| |quiet_tac].
  unfold atlas_cfg_set_hostname, atlas_cfg_set_port, atlas_cfg_set_local_iface,
    atlas_cfg_set_local_port, malloc_strcpy.
  quiet_tac; done.
Qed.

Lemma quiet_identity_init : quiet atlas_identity_init.
Proof.
  unfold atlas_identity_init, identity_err, atlas_generate_identity, atlas_generate_psk,
    set_identity, set_psk. quiet_tac.
Qed.

Lemma okm_main_init args : okm no_cancel (main_init args).
Proof.
  unfold main_init, atlas_psk_get, atlas_identity_get, atlas_coap_client_set_dtls_info,
    atlas_register_start, atlas_cfg_get_local_port, atlas_command_execute_init.
  okm_step; [apply okm_quiet, quiet_parse_options|]. okm_step; [okm_tac|].
  okm_step; [okm_tac|]. okm_step; [okm_tac|].
  okm_step; [apply okm_quiet, quiet_identity_init|]. okm_tac.
Qed.

Lemma boot_inv x : client_inv (boot x).
Proof.
  split; unfold alarms_ok, reqs_ok, ka_ok, handles_ok, dp_ok; cbn.
  - split; [constructor|]. intros a Ha. by apply not_elem_of_nil in Ha.
  - split; [constructor|]. split; [constructor|]. intros r Hr. by apply not_elem_of_nil in Hr.
  - right. right. split; intros y Hy; by apply not_elem_of_nil in Hy.
  - split; [|constructor]. intros f Hf. by apply not_elem_of_nil in Hf.
  - split; [|constructor]. intros f Hf. by apply not_elem_of_nil in Hf.
  - by left.
Qed.

(** ** The event loop *)

Definition safe_state (c : client) : Prop := client_inv c /\ clean c.

Lemma dispatch_safe fuel i ready c :
  safe_state c ->
  match sched_dispatch run_sched_cb fuel i ready c with
  | Ok (_, c') => safe_state c'
  | Fault f => f <> UseAfterFree
  end.
Proof.
  revert i ready c. induction fuel as [|fuel IH]; intros i ready c [Hc Hcl]; [done|].
  rewrite sched_dispatch_S. destruct (cl_sched c !! i) as [ent|]; [|done].
  destruct (_ && _); [|by apply IH].
  pose proof (run_sched_cb_ok (se_callback ent) (se_fd ent) c Hc) as Hr.
  destruct (run_sched_cb _ _ c) as [[[] c1]|f]; [|by destruct Hr].
  destruct Hr as (Hc1 & _ & Hcl1). apply IH. split; auto.
Qed.

Lemma sweep_fault l readfds m f : sched_sweep l readfds m = Fault f -> f = OutOfBounds.
Proof.
  revert readfds m. induction l as [|e l IH]; intros readfds m; cbn [sched_sweep]; [done|].
  destruct (se_dirty e); [apply IH|]. unfold fd_set.
  destruct (decide (0 <= se_fd e < FD_SETSIZE)); [|by intros [= <-]].
  rewrite res_bind_ok. destruct (sched_sweep l _ _) as [[[k r] m']|g] eqn:Hs; [done|].
  intros [= <-]. by eapply IH.
Qed.

Lemma inv_swept kept x c c' :
  c' = set_ext x (set_sched kept c) -> framed (cl_ext c) x -> client_inv c -> client_inv c'.
Proof. intros -> Hx Hc. eapply inv_view; [|exact Hc]. repeat split; apply Hx. Qed.

Lemma turn_safe fuel c :
  safe_state c ->
  match atlas_sched_turn run_sched_cb fuel c with
  | Ok (_, c') => safe_state c'
  | Fault f => f <> UseAfterFree
  end.
Proof.
  intros [Hc Hcl]. unfold atlas_sched_turn. rewrite (M_bind_run _ _ _ _ _ eq_refl).
  unfold mbind at 1, M_bind at 1, lift. destruct (sched_sweep _ _ _) as [[[kept readfds] m]|f] eqn:Hs.
  2:{ apply sweep_fault in Hs as ->. done. }
  set (c1 := set_sched kept c). rewrite (M_bind_run (modify _) _ _ tt c1 eq_refl).
  unfold mbind, M_bind, call. pose proof (select_law (m + 1) readfds (cl_ext c1)) as Hx.
  destruct (select _ _ _) as [[result ready] x]. cbn in Hx |- *.
  assert (Hsafe : safe_state (set_ext x c1)) by (split; [by eapply inv_swept|done]).
  case_decide; [by apply dispatch_safe|done].
Qed.

Lemma loop_safe n fuel c :
  safe_state c ->
  match atlas_sched_loop run_sched_cb n fuel c with
  | Ok (_, c') => safe_state c'
  | Fault f => f <> UseAfterFree
  end.
Proof.
  revert c. induction n as [|n IH]; intros c Hc; cbn [atlas_sched_loop]; [done|].
  pose proof (turn_safe fuel c Hc) as Ht. unfold mbind, M_bind.
  destruct (atlas_sched_turn _ _ c) as [[[] c1]|f]; [|done]. by apply IH.
Qed.

Lemma main_safe args n fuel x :
  match main args n fuel (boot x) with
  | Ok (_, c') => safe_state c'
  | Fault f => f <> UseAfterFree
  end.
Proof.
  pose proof (okm_main_init args (boot x) (boot_inv x)) as Hi.
  unfold main, mbind, M_bind. destruct (main_init args (boot x)) as [[go c]|f]; [|by destruct Hi].
  destruct Hi as [Hc Hg].
  assert (Hsafe : safe_state c).
  { split; [done|]. apply (stepped_grows no_cancel (boot x) c Hc Hg). intros r Hr.
    by apply not_elem_of_nil in Hr. }
  destruct go; [by apply loop_safe|done].
Qed.
End ClientSafety.

(** * Theorems *)

(** C1: whatever the command line, the kernel, libcoap and the peers do, the
    process never reads freed memory: no callback deletes the alarm being
    triggered, the request being completed or the scheduler entry being served. *)
Theorem no_use_after_free `{E : Env} `{!EnvLaws E} `{HostEndian}
    (args : list getopt_result) (turns fuel : nat) (x : ext) :
  main args turns fuel (boot x) <> Fault UseAfterFree.
Proof.
  pose proof (main_safe args turns fuel x) as Hm. intros Hf. by rewrite Hf in Hm.
Qed.

(** C8: after any number of turns of the event loop every pending request is
    waiting (not marked for deletion), owns a libcoap context that no other request
    owns and that has not been freed, and has its own run-once timeout alarm set. *)
Theorem pending_requests_armed `{E : Env} `{!EnvLaws E} `{HostEndian}
    (args : list getopt_result) (turns fuel : nat) (x : ext) (c : client) :
  main args turns fuel (boot x) = Ok (tt, c) ->
  NoDup (rq_ctx <$> cl_reqs c) /\ NoDup (rq_alarm_id <$> cl_reqs c) /\
  forall r, r ∈ cl_reqs c ->
    rq_dirty r = false /\ rq_ctx r ∈ ctxs (cl_ext c) /\
    mk_alarm_entry (rq_alarm_id r) cb_request_alarm_cb true ∈ cl_alarms c /\
    fds (cl_ext c) !! rq_alarm_id r = Some FdTimer.
Proof.
  intros Hrun. pose proof (main_safe args turns fuel x) as Hm. rewrite Hrun in Hm.
  destruct Hm as [[[_ Aa] (Rn & Rc & Ra) _ _ _ _] Hcl]. split; [done|]. split; [done|].
  intros r Hr. destruct (Ra r Hr) as [Hctx Hal]. destruct (Aa _ Hal) as (_ & Hfd & _).
  split; [by apply Hcl|done].
Qed.

(** The alarm ids the modules keep are never stale: after any number of turns
    the keep-alive id is negative or names the periodic keep-alive alarm unless
    nothing of the keep-alive exists yet, a non-negative push or threshold id of a
    feature names a periodic alarm of that kind which is no other feature's, and
    all alarm ids are distinct open timers. *)
Theorem alarm_handles_valid `{E : Env} `{!EnvLaws E} `{HostEndian}
    (args : list getopt_result) (turns fuel : nat) (x : ext) (c : client) :
  main args turns fuel (boot x) = Ok (tt, c) ->
  alarms_ok c /\ ka_ok c /\
  handles_ok tl_push_id cb_push_alert_alarm_cb c /\
  handles_ok tl_threshold_id cb_threshold_alert_alarm_cb c.
Proof.
  intros Hrun. pose proof (main_safe args turns fuel x) as Hm. rewrite Hrun in Hm.
  by destruct Hm as [[] _].
Qed.

Lemma sched_cb_keeps `{E : Env} `{!EnvLaws E} `{HostEndian} : keeps_entries run_sched_cb client_inv.
Proof.
  intros cb fd c c' Hc Hrun. pose proof (run_sched_cb_ok cb fd c Hc) as Hs. rewrite Hrun in Hs.
  destruct Hs as (Hc' & Hk & _). by split.
Qed.

Lemma sched_cb_never_stuck `{E : Env} `{!EnvLaws E} `{HostEndian} : never_stuck run_sched_cb client_inv.
Proof.
  intros cb fd c Hc. pose proof (run_sched_cb_ok cb fd c Hc) as Hs.
  destruct (run_sched_cb cb fd c) as [[[] c']|f]; [by destruct Hs|by destruct Hs].
Qed.

(** C37: a turn of the client's event loop that returns, from the end of any earlier turn,
    has dropped the deleted entries and asked [select] about exactly the descriptors of
    the others. When [select] reports none, no callback has run. Otherwise the turn has
    called callbacks of descriptors that [select] reported as ready only, at most one
    per descriptor, and has called one for every ready descriptor whose entry was in the
    list when the walk began and was not deleted during it, although the callbacks
    append and delete entries. *)
Theorem event_loop_fair `{E : Env} `{!EnvLaws E} `{HostEndian}
    (args : list getopt_result) (turns fuel fuel' : nat) (x : ext) (c c' : client) :
  main args turns fuel (boot x) = Ok (tt, c) ->
  atlas_sched_turn run_sched_cb fuel' c = Ok (tt, c') ->
  exists readfds max_fd result ready x',
    (forall fd, fd ∈ readfds <-> fd ∈ live_fds (cl_sched c)) /\ (forall fd, fd ∈ readfds -> fd <= max_fd) /\
    select (max_fd + 1) readfds (cl_ext c) = ((result, ready), x') /\
    let swept := set_ext x' (set_sched (live (cl_sched c)) c) in
    if decide (result > 0) then
      exists tr, served run_sched_cb 0 ready swept tr c' /\ NoDup tr.*2 /\
        (forall fd, fd ∈ tr.*2 -> fd ∈ ready) /\
        (forall j e e', cl_sched swept !! j = Some e -> se_fd e ∈ ready ->
           cl_sched c' !! j = Some e' -> se_dirty e' = false -> se_fd e ∈ tr.*2)
    else c' = swept.
Proof.
  intros Hrun Hturn. pose proof (main_safe args turns fuel x) as Hm. rewrite Hrun in Hm.
  destruct (sched_turn_inv _ _ _ _ Hturn) as (readfds & m & result & ready & x' & Hin & Hmax & Hsel & Hres).
  exists readfds, m, result, ready, x'. split; [done|]. split; [done|]. split; [done|]. cbv zeta in Hres |- *.
  case_decide; [|done]. apply (dispatch_fair run_sched_cb client_inv) in Hres; [exact Hres|apply sched_cb_keeps|].
  pose proof (select_law (m + 1) readfds (cl_ext c)) as Hx. rewrite Hsel in Hx.
  eapply inv_swept; [reflexivity|exact Hx|apply Hm].
Qed.

(** C38: the walk of a turn terminates, although callbacks append entries to the
    list being walked: some number of steps suffices, every larger one gives the
    same result, and that result is never a lack of steps. *)
Theorem event_loop_terminates `{E : Env} `{!EnvLaws E} `{HostEndian}
    (args : list getopt_result) (turns fuel : nat) (x : ext) (ready : list Z) (c : client) :
  main args turns fuel (boot x) = Ok (tt, c) ->
  exists steps, forall steps', (steps <= steps')%nat ->
    sched_dispatch run_sched_cb steps' 0 ready c = sched_dispatch run_sched_cb steps 0 ready c /\
    sched_dispatch run_sched_cb steps 0 ready c <> Fault OutOfFuel.
Proof.
  intros Hrun. pose proof (main_safe args turns fuel x) as Hm. rewrite Hrun in Hm.
  apply (dispatch_terminates run_sched_cb client_inv); [apply sched_cb_never_stuck|apply Hm].
Qed.

(** When libcoap delivers, among others, a message of a pending request's
    session that carries its token, the callback of that request's descriptor, if it
    returns, leaves no pending request with its context or its alarm, the timeout
    alarm cancelled and the context freed, although the callback of the request may
    send requests and set alarms of its own. *)
Theorem response_completes `{E : Env} `{!EnvLaws E} `{HostEndian}
    (args : list getopt_result) (turns fuel : nat) (x x1 : ext) (c c' : client)
    (l1 l2 : list coap_req) (r : coap_req) (pdus : list coap_pdu) (pdu : coap_pdu) :
  main args turns fuel (boot x) = Ok (tt, c) ->
  cl_reqs c = l1 ++ r :: l2 -> Forall (fun q => rq_coap_fd q <> rq_coap_fd r) l1 ->
  coap_io_process (rq_ctx r) (cl_ext c) = (pdus, x1) -> pdu ∈ pdus ->
  pdu_session pdu = rq_session r -> pdu_token pdu = st32 (rq_token r) ->
  run_sched_cb cb_coap_client_sched_callback (rq_coap_fd r) c = Ok (tt, c') ->
  rq_ctx r ∉ rq_ctx <$> cl_reqs c' /\ rq_alarm_id r ∉ rq_alarm_id <$> cl_reqs c' /\
  rq_alarm_id r ∉ al_id <$> cl_alarms c' /\ rq_ctx r ∉ ctxs (cl_ext c').
Proof.
  intros Hrun Hl Hl1 Hio Hin Hs Ht Hcb. pose proof (main_safe args turns fuel x) as Hm.
  rewrite Hrun in Hm. eapply (response_deletes run_coap_cb cancels_ka eq_refl run_coap_cb_ok);
    [apply Hm|exact Hl| |exact Hio|exact Hin|done..].
  eapply Forall_impl; [exact Hl1|]. intros q Hq. by apply bool_decide_eq_false.
Qed.

(** ** Witnesses: a run in which the registration request is answered *)

Definition args0 : list getopt_result :=
  [Opt x68 (cstr "gateway.local"); Opt x70 (cstr "10100"); Opt x69 (cstr "eth0"); Opt x6c (cstr "10001")].

(** The first select reports the registration's descriptor, and libcoap delivers a
    2.05 response with its token. *)
Definition sim_registered : sim :=
  mk_sim (sim_open sim0) [[3]] [] [[mk_pdu 3 true MSG_ACK [x00; x00; x00; x00] 69 None]] [] true
    (sim_files sim0).

Definition state0 : @client sim_env :=
  exec (@main sim_env true args0 1 100) (@boot sim_env sim_registered).

Lemma run0_ok : @main sim_env true args0 1 100 (@boot sim_env sim_registered) = Ok (tt, state0).
Proof. unfold state0. apply exec_ok. eval_refl. Qed.

Lemma pending_requests_armed_witness :
  (length (cl_reqs state0) = 15)%nat /\ NoDup (rq_ctx <$> cl_reqs state0) /\
  forall r, r ∈ cl_reqs state0 ->
    mk_alarm_entry (rq_alarm_id r) cb_request_alarm_cb true ∈ cl_alarms state0.
Proof.
  split; [eval_refl|].
  destruct (@pending_requests_armed sim_env sim_laws true args0 1 100 sim_registered state0 run0_ok)
    as (Hc & _ & Hr). split; [exact Hc|]. intros r Hin. apply (Hr r Hin).
Defined.

Lemma alarm_handles_valid_witness : ka_alarm_id (cl_reg state0) = 37 /\ ka_ok state0.
Proof.
  split; [eval_refl|].
  apply (@alarm_handles_valid sim_env sim_laws true args0 1 100 sim_registered state0 run0_ok).
Defined.

(** The next turn, in which [select] reports the keep-alive timer. *)
Definition state_due : @client sim_env :=
  exec (@main sim_env true args0 1 100) (@boot sim_env (mk_sim (sim_open sim0) [[3]; [37]] [] [[mk_pdu 3 true MSG_ACK [x00; x00; x00; x00] 69 None]] [] true (sim_files sim0))).
Definition state1 : @client sim_env := exec (@atlas_sched_turn sim_env (@run_sched_cb sim_env true) 100) state_due.

Lemma state_due_ok : @main sim_env true args0 1 100
  (@boot sim_env (mk_sim (sim_open sim0) [[3]; [37]] [] [[mk_pdu 3 true MSG_ACK [x00; x00; x00; x00] 69 None]] [] true (sim_files sim0))) =
  Ok (tt, state_due).
Proof. unfold state_due. apply exec_ok. eval_refl. Qed.

Lemma sim_select_same n l n' l' x : @select sim_env n l x = @select sim_env n' l' x.
Proof. reflexivity. Qed.

Lemma event_loop_fair_witness :
  exists x' tr, served (@run_sched_cb sim_env true) 0 [37] (set_ext x' (set_sched (live (cl_sched state_due)) state_due)) tr state1 /\
    NoDup tr.*2 /\ forall fd, fd ∈ tr.*2 -> fd ∈ [37].
Proof.
  destruct (@event_loop_fair sim_env sim_laws true args0 1 100 100 _ state_due state1 state_due_ok)
    as (readfds & m & result & ready & x' & _ & _ & Hsel & Hres); [unfold state1; apply exec_ok; eval_refl|].
  assert (Hs : (@select sim_env 0 [] (cl_ext state_due)).1 = (1, [37])) by eval_refl.
  rewrite (sim_select_same (m + 1) readfds 0 []) in Hsel. rewrite Hsel in Hs. cbn [fst] in Hs. injection Hs as -> ->. destruct (decide (1 > 0)) as [_|Hno]; [|destruct Hno; reflexivity].
  destruct Hres as (tr & H1 & H2 & H3 & _). exists x', tr. split; [exact H1|]. split; [exact H2|exact H3].
Defined.

Lemma event_loop_terminates_witness :
  exists steps, forall steps', (steps <= steps')%nat ->
    sched_dispatch (@run_sched_cb sim_env true) steps' 0 [37; 5] state0 =
    sched_dispatch (@run_sched_cb sim_env true) steps 0 [37; 5] state0 /\
    sched_dispatch (@run_sched_cb sim_env true) steps 0 [37; 5] state0 <> Fault OutOfFuel.
Proof.
  apply (@event_loop_terminates sim_env sim_laws true args0 1 100 sim_registered [37; 5] state0 run0_ok).
Defined.

(** The state in which the registration has just been sent, and the one after its
    response. *)
Definition state_sent : @client sim_env :=
  exec (@main sim_env true args0 0 100) (@boot sim_env sim_registered).
Definition state_answered : @client sim_env :=
  exec (@run_sched_cb sim_env true cb_coap_client_sched_callback 3) state_sent.

Lemma state_sent_ok : @main sim_env true args0 0 100 (@boot sim_env sim_registered) = Ok (tt, state_sent).
Proof. unfold state_sent. apply exec_ok. eval_refl. Qed.

Definition first_req : coap_req :=
  mk_coap_req 3 4 3 3 (cstr "coaps://gateway.local:10100/gateway/register") 0 cb_reg_callback false.

Lemma state_sent_reqs : cl_reqs state_sent = [first_req].
Proof. eval_refl. Qed.

Lemma pair_fst {A B} (p : A * B) a : p.1 = a -> p = (a, p.2).
Proof. by destruct p; intros <-. Qed.

Lemma state_sent_io :
  (coap_io_process 3 (cl_ext state_sent)).1 = [mk_pdu 3 true MSG_ACK [x00; x00; x00; x00] 69 None].
Proof. eval_refl. Qed.

Lemma response_completes_witness :
  (4 ∈ al_id <$> cl_alarms state_sent) /\ 4 ∉ al_id <$> cl_alarms state_answered.
Proof.
  split; [eval_decide|].
  apply (@response_completes sim_env sim_laws true args0 0 100 sim_registered
    (snd (coap_io_process 3 (cl_ext state_sent))) state_sent state_answered [] [] first_req
    [mk_pdu 3 true MSG_ACK [x00; x00; x00; x00] 69 None]
    (mk_pdu 3 true MSG_ACK [x00; x00; x00; x00] 69 None) state_sent_ok state_sent_reqs).
  - constructor.
  - exact (pair_fst _ _ state_sent_io).
  - apply list_elem_of_singleton. reflexivity.
  - reflexivity.
  - reflexivity.
  - unfold state_answered. apply exec_ok. eval_refl.
Defined.
