(* ===== verification/Double.v ===== *)
(** The C++ type [double], for the reputation of devices: IEEE-754 binary64 with
    rounding to nearest even, as the Standard Library specifies it (SpecFloat,
    precision 53, exponents up to 1024), and [std::to_string] of it.

    Facts: the order is transitive; a quotient of two integers [0 <= a <= b] and a
    product of two numbers between 0 and 1 lie between 0 and 1, rounding included. *)
From Stdlib Require Import SpecFloat.
From S2P Require Import Prelude CLib.

Definition double : Set := spec_float.

Definition dadd : double -> double -> double := SFadd 53 1024.
Definition dmul : double -> double -> double := SFmul 53 1024.
Definition ddiv : double -> double -> double := SFdiv 53 1024.

(** [a >= b] and [a > b]. *)
Definition dge (a b : double) : bool := SFleb b a.
Definition dgt (a b : double) : bool := SFltb b a.

(** The conversion of an [int] or a [uint32_t], which is exact. *)
Definition double_of_int (n : Z) : double := binary_normalize 53 1024 n 0 false.

(** The literal whose decimal value is [n / 10]: both are the double nearest to it. *)
Definition tenths (n : Z) : double := ddiv (double_of_int n) (double_of_int 10).

#[export] Instance double_eq_dec : EqDecision double.
Proof. unfold double. intros x y. unfold Decision. decide equality; apply _ || apply Z.eq_dec || decide equality. Defined.

(** [std::to_string]: the format [%f], six digits after the point, rounded to
    nearest even. *)
Definition micros (m e : Z) : Z :=
  let n := m * 1000000 in
  if decide (0 <= e) then n * 2 ^ e else
  let d := 2 ^ (- e) in
  let q := n / d in
  match Z.compare (2 * (n mod d)) d with Lt => q | Gt => q + 1 | Eq => if Z.even q then q else q + 1 end.

Definition pad6 (n : Z) : list byte := let s := dec n in replicate (6 - length s) x30 ++ s.

Definition fixed6 (sign : bool) (n : Z) : list byte :=
  (if sign then cstr "-" else []) ++ dec (n / 1000000) ++ cstr "." ++ pad6 (n mod 1000000).

Definition to_string (x : double) : list byte :=
  match x with
  | S754_zero s => fixed6 s 0
  | S754_infinity s => (if s then cstr "-" else []) ++ cstr "inf"
  | S754_nan => cstr "nan"
  | S754_finite s m e => fixed6 s (micros (Zpos m) e)
  end.

Definition d0 : double := S754_zero false.
Definition d1 : double := double_of_int 1.

Example tenths_3 : tenths 3 = S754_finite false 5404319552844595 (-54).
Proof. reflexivity. Qed.
Example to_string_third : to_string (ddiv d1 (double_of_int 3)) = cstr "0.333333".
Proof. vm_compute. reflexivity. Qed.
Example to_string_small : to_string (ddiv (double_of_int 25) (double_of_int 8)) = cstr "3.125000".
Proof. vm_compute. reflexivity. Qed.

(** * The order *)

Lemma dgt_trans a b c : dgt a b = true -> dgt b c = true -> dgt a c = true.
Proof.
  unfold dgt, SFltb, SFcompare.
  destruct a as [[]|[]| |[] m1 e1], b as [[]|[]| |[] m2 e2], c as [[]|[]| |[] m3 e3]; try done.
  all: change (Pos.compare_cont Eq) with Pos.compare.
  all: destruct (Z.compare_spec e2 e1), (Z.compare_spec e3 e2), (Z.compare_spec e3 e1); try lia; try done.
  all: destruct (Pos.compare_spec m2 m1), (Pos.compare_spec m3 m2), (Pos.compare_spec m3 m1); try lia; done.
Qed.

Lemma dgt_irrefl a : dgt a a = false.
Proof.
  unfold dgt, SFltb, SFcompare. destruct a as [[]|[]| |[] m e]; try done.
  all: by rewrite Z.compare_refl; change (Pos.compare_cont Eq) with Pos.compare; rewrite Pos.compare_refl.
Qed.

(** * Rounding *)

(** ** Shifts *)

Lemma iter_pos_iter {A} (f : A -> A) p x : SpecFloat.iter_pos f p x = Pos.iter f x p.
Proof.
  revert x. induction p as [p IH|p IH|]; intros x; cbn; rewrite ?IH; [|done|done].
  by rewrite <- !Pos.iter_swap.
Qed.

Lemma shr_1_m mrs : 0 <= shr_m mrs -> shr_m (shr_1 mrs) = shr_m mrs / 2 /\ 0 <= shr_m (shr_1 mrs).
Proof. destruct mrs as [[|[p|p|]|p] r s]; cbn; lia. Qed.

Lemma shr_iter_m p mrs : 0 <= shr_m mrs ->
  shr_m (Pos.iter shr_1 mrs p) = shr_m mrs / 2 ^ Zpos p /\ 0 <= shr_m (Pos.iter shr_1 mrs p).
Proof.
  intros Hm. induction p as [|p [IH Hp]] using Pos.peano_ind; [by apply shr_1_m|].
  rewrite Pos.iter_succ. destruct (shr_1_m _ Hp) as [-> Hs]. split; [|done]. rewrite IH, Pos2Z.inj_succ.
  rewrite Z.pow_succ_r, (Z.mul_comm 2), Z.div_div by lia. done.
Qed.

(** A power of two is shifted without a remainder. *)
Lemma shr_1_pow k : 0 < k -> shr_1 (Build_shr_record (2 ^ k) false false) = Build_shr_record (2 ^ (k - 1)) false false.
Proof.
  intros Hk. replace k with (Z.succ (k - 1)) at 1 by lia. rewrite Z.pow_succ_r by lia.
  assert (0 < 2 ^ (k - 1)) by (apply Z.pow_pos_nonneg; lia). by destruct (2 ^ (k - 1)).
Qed.

Lemma shr_iter_pow k p : Zpos p <= k ->
  Pos.iter shr_1 (Build_shr_record (2 ^ k) false false) p = Build_shr_record (2 ^ (k - Zpos p)) false false.
Proof.
  induction p as [|p IH] using Pos.peano_ind; intros Hk; [apply shr_1_pow; lia|].
  rewrite Pos.iter_succ, IH, shr_1_pow by lia. do 2 f_equal. lia.
Qed.

Lemma Zdigits2_log2 m : 0 < m -> Zdigits2 m = Z.log2 m + 1.
Proof.
  destruct m as [|p|p]; [lia| |lia]. intros _. cbn [Zdigits2].
  induction p as [p IH|p IH|]; cbn [digits2_pos]; [| |done].
  - rewrite Pos2Z.inj_succ, IH, Pos2Z.inj_xI, Z.log2_succ_double by lia. lia.
  - rewrite Pos2Z.inj_succ, IH, Pos2Z.inj_xO, Z.log2_double by lia. lia.
Qed.

Lemma digits_bounds m : 0 < m -> 2 ^ (Zdigits2 m - 1) <= m < 2 ^ Zdigits2 m /\ 0 < Zdigits2 m.
Proof.
  intros Hm. rewrite Zdigits2_log2 by done. pose proof (Z.log2_spec m Hm). pose proof (Z.log2_nonneg m).
  replace (Z.log2 m + 1 - 1) with (Z.log2 m) by lia. replace (Z.log2 m + 1) with (Z.succ (Z.log2 m)) by lia. lia.
Qed.

Lemma digits_unique m k : 2 ^ (k - 1) <= m < 2 ^ k -> 0 < k -> Zdigits2 m = k.
Proof.
  intros Hm Hk. assert (0 < 2 ^ (k - 1)) by (apply Z.pow_pos_nonneg; lia).
  rewrite Zdigits2_log2 by lia. rewrite (Z.log2_unique m (k - 1)) by (rewrite <- ?Z.add_1_r; replace (k - 1 + 1) with k by lia; lia). lia.
Qed.

Lemma digits_le m k : 0 <= m < 2 ^ k -> 0 <= k -> Zdigits2 m <= k.
Proof.
  intros [Hm Hk] Hk0. destruct (decide (m = 0)) as [->|Hne]; [done|].
  destruct (digits_bounds m) as [[Hd _] Hp]; [lia|].
  destruct (decide (Zdigits2 m <= k)); [done|]. exfalso.
  assert (2 ^ k <= 2 ^ (Zdigits2 m - 1)) by (apply Z.pow_le_mono_r; lia). lia.
Qed.

(** ** Numbers between 0 and 1 *)

(** In the representation: 0, a finite number below 1, or 1. *)
Definition unit_double (x : double) : Prop :=
  match x with
  | S754_zero false => True
  | S754_finite false m e =>
      -1074 <= e /\ Zpos m < 2 ^ 53 /\ (2 ^ 52 <= Zpos m \/ e = -1074) /\ (e < -52 \/ (e = -52 /\ Zpos m = 2 ^ 52))
  | _ => False
  end.

Lemma d1_eq : d1 = S754_finite false 4503599627370496 (-52).
Proof. vm_compute. reflexivity. Qed.

Lemma dge_finite m1 e1 m2 e2 : dge (S754_finite false m1 e1) (S754_finite false m2 e2) =
  match (e2 ?= e1) with Lt => true | Gt => false | Eq => (Zpos m2 <=? Zpos m1) end.
Proof.
  unfold dge, SFleb, SFcompare, Z.leb. cbn [Z.compare]. change (Pos.compare_cont Eq) with Pos.compare.
  by destruct (e2 ?= e1), (m2 ?= m1)%positive.
Qed.

Lemma unit_double_bounds x : unit_double x -> dge x d0 = true /\ dge d1 x = true.
Proof.
  destruct x as [[]|[]| |[] m e]; try (by intros []).
  intros (_ & _ & _ & Hup). split; [done|]. rewrite d1_eq, dge_finite. destruct Hup as [He|[-> Hm]].
  - by rewrite (proj2 (Z.compare_lt_iff e (-52))) by done.
  - rewrite Z.compare_refl, Hm. done.
Qed.

Lemma fexp64 k : fexp 53 1024 k = Z.max (k - 53) (-1074).
Proof. done. Qed.

Lemma shr_record_m m l : shr_m (shr_record_of_loc m l) = m.
Proof. by destruct l as [|[]]. Qed.

Lemma shr_fexp_up m e l : 0 <= m -> e <= fexp 53 1024 (Zdigits2 m + e) ->
  exists mrs, shr_fexp 53 1024 m e l = (mrs, fexp 53 1024 (Zdigits2 m + e)) /\
    shr_m mrs = m / 2 ^ (fexp 53 1024 (Zdigits2 m + e) - e).
Proof.
  intros Hm Hle. unfold shr_fexp, shr. set (k := fexp 53 1024 (Zdigits2 m + e)) in *.
  destruct (k - e) as [|p|p] eqn:Hk; [| |lia].
  - eexists. split; [f_equal; lia|]. by rewrite shr_record_m, Z.pow_0_r, Z.div_1_r.
  - eexists. split; [f_equal; lia|]. rewrite iter_pos_iter.
    destruct (shr_iter_m p (shr_record_of_loc m l)) as [Hs _]; rewrite shr_record_m in *; [done|]. by rewrite Hs.
Qed.

Lemma shr_fexp_down m e l : fexp 53 1024 (Zdigits2 m + e) <= e -> shr_fexp 53 1024 m e l = (shr_record_of_loc m l, e).
Proof. intros Hle. unfold shr_fexp, shr. destruct (_ - e) as [|p|p] eqn:Hk; [done|lia|done]. Qed.

Lemma round_near m l : m <= round_nearest_even m l <= m + 1.
Proof. destruct l as [|[]]; cbn; try lia. destruct (Z.even m); lia. Qed.

(** The second half of a rounding, on a mantissa of at most 53 bits and one. *)
Lemma finish_unit m e s :
  0 <= m <= 2 ^ 53 -> m <= 2 ^ (- e) -> -1074 <= e <= -53 -> 2 ^ 52 <= m \/ e = -1074 \/ m = 0 ->
  unit_double (let '(mrs, e') := shr_fexp 53 1024 m e loc_Exact in
    match shr_m mrs with
    | Z0 => S754_zero false
    | Zpos p => if e' <=? 1024 - 53 then S754_finite false p e' else S754_infinity s
    | Zneg _ => S754_nan
    end).
Proof.
  intros Hm Hup He Hnorm. destruct (decide (m = 2 ^ 53)) as [->|Hne].
  - assert (Hf : fexp 53 1024 (Zdigits2 (2 ^ 53) + e) = e + 1).
    { rewrite (digits_unique _ 54), fexp64 by (cbn; lia). lia. }
    destruct (shr_fexp_up (2 ^ 53) e loc_Exact) as (mrs & -> & Hs); rewrite ?Hf in *; [lia|lia|].
    replace (e + 1 - e) with 1 in Hs by lia. change (2 ^ 53 / 2 ^ 1) with 4503599627370496 in Hs. rewrite Hs.
    rewrite (proj2 (Z.leb_le _ _)) by lia. cbn. lia.
  - assert (Hd : Zdigits2 m <= 53) by (apply digits_le; lia).
    rewrite shr_fexp_down by (rewrite fexp64; lia). cbn [shr_record_of_loc shr_m].
    destruct m as [|p|p]; [done| |lia]. rewrite (proj2 (Z.leb_le _ _)) by lia. cbn. lia.
Qed.

Lemma unit_one s :
  unit_double (let '(mrs, e') := shr_fexp 53 1024 (round_nearest_even (2 ^ 52) loc_Exact) (-52) loc_Exact in
    match shr_m mrs with
    | Z0 => S754_zero false
    | Zpos p => if e' <=? 1024 - 53 then S754_finite false p e' else S754_infinity s
    | Zneg _ => S754_nan
    end).
Proof. vm_compute. intuition discriminate. Qed.

Lemma round_unit m e l :
  0 <= m -> e <= 0 -> e <= fexp 53 1024 (Zdigits2 m + e) -> m <= 2 ^ (- e) -> (m = 2 ^ (- e) -> l = loc_Exact) ->
  unit_double (binary_round_aux 53 1024 false m e l).
Proof.
  intros Hm He Hfe Hup Hex. unfold binary_round_aux. set (k := fexp 53 1024 (Zdigits2 m + e)) in *.
  destruct (shr_fexp_up m e l Hm Hfe) as (mrs & Heq & Hs). fold k in Heq, Hs.
  destruct (decide (m = 2 ^ (- e))) as [Hone|Hlt].
  - (* exactly 1 *)
    assert (Hd : Zdigits2 m = - e + 1).
    { apply digits_unique; [|lia]. rewrite Hone. replace (- e + 1 - 1) with (- e) by lia.
      split; [done|]. apply Z.pow_lt_mono_r; lia. }
    assert (Hk : k = -52) by (unfold k; rewrite Hd, fexp64; lia).
    rewrite Hex by done. unfold shr_fexp at 1, shr at 1. fold k. rewrite Hk.
    destruct (-52 - e) as [|p|p] eqn:Hn; [| |lia].
    + replace e with (-52) in * by lia. rewrite Hone. apply unit_one.
    + cbn [shr_record_of_loc]. rewrite iter_pos_iter, Hone, shr_iter_pow by lia.
      replace (- e - Z.pos p) with 52 by lia. replace (e + Z.pos p) with (-52) by lia. apply unit_one.
  - (* below 1 *)
    rewrite Heq. assert (Hpe : 0 < 2 ^ (k - e)) by (apply Z.pow_pos_nonneg; lia).
    assert (Hde : Zdigits2 m + e <= 0) by (pose proof (digits_le m (- e)); lia).
    assert (Hk : -1074 <= k <= -53) by (unfold k; rewrite fexp64; lia).
    assert (Hpow : 2 ^ (- e) = 2 ^ (- k) * 2 ^ (k - e)) by (rewrite <- Z.pow_add_r by lia; f_equal; lia).
    set (m1 := shr_m mrs) in *.
    assert (Hm1 : 0 <= m1) by (rewrite Hs; apply Z.div_pos; lia).
    assert (Hm1k : m1 < 2 ^ (- k)) by (rewrite Hs; apply Z.div_lt_upper_bound; [done|]; rewrite Z.mul_comm; lia).
    assert (Hm1m : m1 < 2 ^ 53).
    { rewrite Hs. apply Z.div_lt_upper_bound; [done|]. rewrite <- Z.pow_add_r by lia.
      destruct (decide (m = 0)) as [->|?]; [apply Z.pow_pos_nonneg; lia|].
      destruct (digits_bounds m) as [[_ Hd] Hp]; [lia|]. eapply Z.lt_le_trans; [exact Hd|].
      apply Z.pow_le_mono_r; [lia|]. unfold k. rewrite fexp64. lia. }
    assert (Hnorm : 2 ^ 52 <= m1 \/ k = -1074).
    { destruct (decide (k = -1074)) as [|Hk']; [by right|left].
      assert (Hkd : k = Zdigits2 m + e - 53) by (unfold k in *; rewrite fexp64 in *; lia).
      destruct (decide (m = 0)) as [->|?]; [cbn in Hkd; lia|].
      destruct (digits_bounds m) as [[Hd _] Hp]; [lia|].
      rewrite Hs. apply Z.div_le_lower_bound; [done|]. rewrite <- Z.pow_add_r by lia.
      replace (k - e + 52) with (Zdigits2 m - 1) by lia. done. }
    pose proof (round_near m1 (loc_of_shr_record mrs)) as Hr.
    apply (finish_unit _ k false); lia.
Qed.

(** ** Products *)

Lemma dmul_unit x y : unit_double x -> unit_double y -> unit_double (dmul x y).
Proof.
  destruct x as [[]|[]| |[] mx ex], y as [[]|[]| |[] my ey]; try done.
  intros (Hex & Hmx & Hnx & Hux) (Hey & Hmy & Hny & Huy). cbn [dmul SFmul xorb]. unfold dmul, SFmul. cbn [xorb].
  rewrite Pos2Z.inj_mul. set (mx' := Zpos mx) in *. set (my' := Zpos my) in *.
  assert (Hx0 : 0 < mx') by done. assert (Hy0 : 0 < my') by done. clearbody mx' my'.
  assert (Hupx : mx' <= 2 ^ (- ex) /\ (mx' = 2 ^ (- ex) -> ex = -52)).
  { destruct Hux as [Hux|[-> ->]]; [|done]. assert (2 ^ 53 <= 2 ^ (- ex)) by (apply Z.pow_le_mono_r; lia). lia. }
  assert (Hupy : my' <= 2 ^ (- ey)).
  { destruct Huy as [Huy|[-> ->]]; [|done]. assert (2 ^ 53 <= 2 ^ (- ey)) by (apply Z.pow_le_mono_r; lia). lia. }
  assert (Hpow : 2 ^ (- (ex + ey)) = 2 ^ (- ex) * 2 ^ (- ey)) by (rewrite <- Z.pow_add_r by lia; f_equal; lia).
  apply round_unit; [nia|lia| |rewrite Hpow; nia|done].
  rewrite fexp64. destruct (digits_bounds (mx' * my')) as [[_ Hd] Hp]; [nia|].
  destruct (decide (ex = -1074)); [lia|]. destruct (decide (ey = -1074)); [lia|].
  assert (Hlow : 2 ^ 104 <= mx' * my').
  { change (2 ^ 104) with (2 ^ 52 * 2 ^ 52). apply Z.mul_le_mono_nonneg; lia. }
  destruct (decide (Zdigits2 (mx' * my') <= 104)) as [Hle|]; [|lia]. exfalso.
  assert (2 ^ Zdigits2 (mx' * my') <= 2 ^ 104) by (apply Z.pow_le_mono_r; lia). lia.
Qed.

(** ** Integers and their quotients *)

Lemma pos_iter_xO m d : Zpos (Pos.iter xO m d) = Zpos m * 2 ^ Zpos d.
Proof.
  induction d as [|d IH] using Pos.peano_ind; [cbn; lia|].
  rewrite Pos.iter_succ, Pos2Z.inj_xO, IH, Pos2Z.inj_succ, Z.pow_succ_r by lia. lia.
Qed.

(** The representation of a positive integer below [2 ^ 53]. *)
Lemma double_of_int_pos n : 0 < n < 2 ^ 53 ->
  exists m e, double_of_int n = S754_finite false m e /\ 2 ^ 52 <= Zpos m < 2 ^ 53 /\ -52 <= e <= 0 /\ Zpos m = n * 2 ^ (- e).
Proof.
  intros Hn. destruct n as [|p|p]; [lia| |lia]. unfold double_of_int, binary_normalize, binary_round.
  destruct (digits_bounds (Zpos p)) as [[Hd1 Hd2] Hd0]; [lia|]. pose proof (digits_le (Zpos p) 53) as Hd53.
  change (Zpos (digits2_pos p)) with (Zdigits2 (Zpos p)). set (d := Zdigits2 (Zpos p)) in *. rewrite Z.add_0_r, fexp64, Z.max_l by lia.
  assert (Hal : exists m, shl_align p 0 (d - 53) = (m, d - 53) /\ Zpos m = Zpos p * 2 ^ (53 - d)).
  { unfold shl_align. destruct (d - 53 - 0) as [|q|q] eqn:Hq; [|lia|].
    - exists p. split; [f_equal; lia|]. replace (53 - d) with 0 by lia. lia.
    - exists (Pos.iter xO p q). split; [done|]. rewrite pos_iter_xO. do 2 f_equal. lia. }
  destruct Hal as (m & -> & Hm).
  assert (Hnorm : 2 ^ 52 <= Zpos m < 2 ^ 53).
  { rewrite Hm. replace (2 ^ 52) with (2 ^ (d - 1) * 2 ^ (53 - d)) by (rewrite <- Z.pow_add_r by lia; f_equal; lia).
    replace (2 ^ 53) with (2 ^ d * 2 ^ (53 - d)) by (rewrite <- Z.pow_add_r by lia; f_equal; lia).
    assert (0 < 2 ^ (53 - d)) by (apply Z.pow_pos_nonneg; lia). nia. }
  exists m, (d - 53). split; [|split; [done|split; [lia|rewrite Hm; do 2 f_equal; lia]]].
  unfold binary_round_aux. rewrite !shr_fexp_down by
    (cbn [shr_record_of_loc loc_of_shr_record round_nearest_even shr_m]; rewrite (digits_unique (Zpos m) 53), fexp64 by (lia || done); lia).
  cbn [shr_record_of_loc loc_of_shr_record round_nearest_even shr_m]. by rewrite (proj2 (Z.leb_le _ _)) by lia.
Qed.

Lemma ddiv_unit a b : 0 <= a <= b -> 0 < b < 2 ^ 53 -> unit_double (ddiv (double_of_int a) (double_of_int b)).
Proof.
  intros Hab Hb. destruct (double_of_int_pos b Hb) as (my & ey & -> & Hmy & Hey & Hvy).
  destruct (decide (a = 0)) as [->|Ha]; [done|].
  destruct (double_of_int_pos a) as (mx & ex & -> & Hmx & Hex & Hvx); [lia|].
  unfold ddiv, SFdiv, SFdiv_core_binary. cbn [xorb].
  rewrite !(digits_unique _ 53) by (lia || done). rewrite fexp64.
  set (X := Zpos mx) in *. set (Y := Zpos my) in *. assert (Hle : ex <= ey).
  { destruct (decide (ex <= ey)); [done|]. exfalso. 
    assert (H2 : 2 ^ Z.succ (- ex) <= 2 ^ (- ey)) by (apply Z.pow_le_mono_r; lia). rewrite Z.pow_succ_r in H2 by lia.
    assert (0 < 2 ^ (- ex)) by (apply Z.pow_pos_nonneg; lia).
    assert (a * (2 * 2 ^ (- ex)) <= b * 2 ^ (- ey)) by (apply Z.mul_le_mono_nonneg; lia). lia. }
  rewrite Z.max_l, Z.min_l by lia. replace (ex - ey - (53 + ex - (53 + ey) - 53)) with 53 by lia.
  replace (53 + ex - (53 + ey) - 53) with (ex - ey - 53) by lia. rewrite Z.shiftl_mul_pow2 by lia.
  destruct (Z.div_eucl (X * 2 ^ 53) Y) as [q r] eqn:Hq.
  pose proof (Z_div_mod (X * 2 ^ 53) Y) as Hdm. rewrite Hq in Hdm. destruct Hdm as [Heq Hr]; [lia|].
  assert (HXY : X <= Y * 2 ^ (ey - ex)).
  { rewrite Hvx, Hvy, <- Z.mul_assoc, <- Z.pow_add_r by lia. replace (- ey + (ey - ex)) with (- ex) by lia.
    apply Z.mul_le_mono_nonneg_r; [apply Z.pow_nonneg; lia|lia]. }
  clear Hvx Hvy. clearbody X Y. set (P := 2 ^ (ey - ex)) in *.
  assert (Hpow : 2 ^ (- (ex - ey - 53)) = P * 2 ^ 53) by (unfold P; rewrite <- Z.pow_add_r by lia; f_equal; lia).
  assert (Hq1 : 2 ^ 52 <= q) by nia.
  assert (Hq2 : Y * q + r <= Y * (P * 2 ^ 53)) by (rewrite <- Heq, Z.mul_assoc; apply Z.mul_le_mono_nonneg_r; lia).
  apply round_unit; [lia|lia| |rewrite Hpow; nia|rewrite Hpow].
  - rewrite fexp64. destruct (digits_bounds q) as [[_ Hd] Hp]; [lia|].
    destruct (decide (Zdigits2 q <= 52)) as [Hd52|]; [|lia]. exfalso.
    assert (2 ^ Zdigits2 q <= 2 ^ 52) by (apply Z.pow_le_mono_r; lia). lia.
  - intros ->. assert (r = 0) as -> by lia. unfold new_location, new_location_even, new_location_odd. by destruct (Z.even Y).
Qed.
