(* ===== verification/GwDefs.v ===== *)
(** The enumerations of the gateway: command types (commands/AtlasCommandType.h)
    and CoAP responses (coap/AtlasCoapResponse.h), and the firewall statistics. The
    enumerations live in a module because the gateway and the client use the same enumerator
    names. *)
From S2P Require Import Prelude Defs.

(** Byte strings are keys of the gateway's maps. *)
#[export] Instance byte_countable : Countable byte := inj_countable Byte.to_N Byte.of_N Byte.of_to_N.

Module GwType.

(** * commands/AtlasCommandType.h *)

Inductive AtlasCommandType : Set :=
  | ATLAS_CMD_REGISTER
  | ATLAS_CMD_KEEPALIVE
  | ATLAS_CMD_IDENTITY
  | ATLAS_CMD_IP_PORT
  | ATLAS_CMD_TELEMETRY_HOSTNAME
  | ATLAS_CMD_TELEMETRY_KERN_INFO
  | ATLAS_CMD_TELEMETRY_SYSINFO_UPTIME
  | ATLAS_CMD_TELEMETRY_SYSINFO_TOTALRAM
  | ATLAS_CMD_TELEMETRY_SYSINFO_FREERAM
  | ATLAS_CMD_TELEMETRY_SYSINFO_SHAREDRAM
  | ATLAS_CMD_TELEMETRY_SYSINFO_BUFFERRAM
  | ATLAS_CMD_TELEMETRY_SYSINFO_TOTALSWAP
  | ATLAS_CMD_TELEMETRY_SYSINFO_FREESWAP
  | ATLAS_CMD_TELEMETRY_SYSINFO_PROCS
  | ATLAS_CMD_TELEMETRY_SYSINFO_LOAD1
  | ATLAS_CMD_TELEMETRY_SYSINFO_LOAD5
  | ATLAS_CMD_TELEMETRY_SYSINFO_LOAD15
  | ATLAS_CMD_TELEMETRY_ALERT_EXT_PUSH_RATE
  | ATLAS_CMD_TELEMETRY_ALERT_INT_SCAN_RATE
  | ATLAS_CMD_TELEMETRY_ALERT_THRESHOLD
  | ATLAS_CMD_TELEMETRY_PACKETS_PER_MINUTE
  | ATLAS_CMD_TELEMETRY_PACKETS_AVG
  | ATLAS_CMD_GET_ALL_PUB_SUB_FIREWALL_RULES
  | ATLAS_CMD_PUB_SUB_INSTALL_FIREWALL_RULE
  | ATLAS_CMD_PUB_SUB_REMOVE_FIREWALL_RULE
  | ATLAS_CMD_PUB_SUB_GET_STAT_FIREWALL_RULE
  | ATLAS_CMD_PUB_SUB_PUT_STAT_FIREWALL_RULE
  | ATLAS_CMD_PUB_SUB_CLIENT_ID
  | ATLAS_CMD_PUB_SUB_MAX_QOS
  | ATLAS_CMD_PUB_SUB_PPM
  | ATLAS_CMD_PUB_SUB_MAX_PAYLOAD_LEN
  | ATLAS_CMD_PUB_SUB_PKT_DROP
  | ATLAS_CMD_PUB_SUB_PKT_PASS
  | ATLAS_CMD_PUB_SUB_TX_PKT_DROP
  | ATLAS_CMD_PUB_SUB_TX_PKT_PASS
  | ATLAS_CMD_DATA_PLANE_POLICY_MAX_QOS
  | ATLAS_CMD_DATA_PLANE_POLICY_PACKETS_PER_MINUTE
  | ATLAS_CMD_DATA_PLANE_POLICY_PACKETS_MAXLEN
  | ATLAS_CMD_FEATURE_REQUEST
  | ATLAS_CMD_FEEDBACK
  | ATLAS_CMD_FEEDBACK_IDENTITY
  | ATLAS_CMD_FEEDBACK_SENSOR_TYPE
  | ATLAS_CMD_FEEDBACK_SENSOR
  | ATLAS_CMD_FEEDBACK_RESPONSE_TIME.

Definition code (t : AtlasCommandType) : Z :=
  match t with
  | ATLAS_CMD_REGISTER => 0
  | ATLAS_CMD_KEEPALIVE => 1
  | ATLAS_CMD_IDENTITY => 2
  | ATLAS_CMD_IP_PORT => 3
  | ATLAS_CMD_TELEMETRY_HOSTNAME => 500
  | ATLAS_CMD_TELEMETRY_KERN_INFO => 501
  | ATLAS_CMD_TELEMETRY_SYSINFO_UPTIME => 502
  | ATLAS_CMD_TELEMETRY_SYSINFO_TOTALRAM => 503
  | ATLAS_CMD_TELEMETRY_SYSINFO_FREERAM => 504
  | ATLAS_CMD_TELEMETRY_SYSINFO_SHAREDRAM => 505
  | ATLAS_CMD_TELEMETRY_SYSINFO_BUFFERRAM => 506
  | ATLAS_CMD_TELEMETRY_SYSINFO_TOTALSWAP => 507
  | ATLAS_CMD_TELEMETRY_SYSINFO_FREESWAP => 508
  | ATLAS_CMD_TELEMETRY_SYSINFO_PROCS => 509
  | ATLAS_CMD_TELEMETRY_SYSINFO_LOAD1 => 510
  | ATLAS_CMD_TELEMETRY_SYSINFO_LOAD5 => 511
  | ATLAS_CMD_TELEMETRY_SYSINFO_LOAD15 => 512
  | ATLAS_CMD_TELEMETRY_ALERT_EXT_PUSH_RATE => 513
  | ATLAS_CMD_TELEMETRY_ALERT_INT_SCAN_RATE => 514
  | ATLAS_CMD_TELEMETRY_ALERT_THRESHOLD => 515
  | ATLAS_CMD_TELEMETRY_PACKETS_PER_MINUTE => 516
  | ATLAS_CMD_TELEMETRY_PACKETS_AVG => 517
  | ATLAS_CMD_GET_ALL_PUB_SUB_FIREWALL_RULES => 1000
  | ATLAS_CMD_PUB_SUB_INSTALL_FIREWALL_RULE => 1001
  | ATLAS_CMD_PUB_SUB_REMOVE_FIREWALL_RULE => 1002
  | ATLAS_CMD_PUB_SUB_GET_STAT_FIREWALL_RULE => 1003
  | ATLAS_CMD_PUB_SUB_PUT_STAT_FIREWALL_RULE => 1004
  | ATLAS_CMD_PUB_SUB_CLIENT_ID => 1005
  | ATLAS_CMD_PUB_SUB_MAX_QOS => 1006
  | ATLAS_CMD_PUB_SUB_PPM => 1007
  | ATLAS_CMD_PUB_SUB_MAX_PAYLOAD_LEN => 1008
  | ATLAS_CMD_PUB_SUB_PKT_DROP => 1009
  | ATLAS_CMD_PUB_SUB_PKT_PASS => 1010
  | ATLAS_CMD_PUB_SUB_TX_PKT_DROP => 1011
  | ATLAS_CMD_PUB_SUB_TX_PKT_PASS => 1012
  | ATLAS_CMD_DATA_PLANE_POLICY_MAX_QOS => 1100
  | ATLAS_CMD_DATA_PLANE_POLICY_PACKETS_PER_MINUTE => 1101
  | ATLAS_CMD_DATA_PLANE_POLICY_PACKETS_MAXLEN => 1102
  | ATLAS_CMD_FEATURE_REQUEST => 1500
  | ATLAS_CMD_FEEDBACK => 1501
  | ATLAS_CMD_FEEDBACK_IDENTITY => 1502
  | ATLAS_CMD_FEEDBACK_SENSOR_TYPE => 1503
  | ATLAS_CMD_FEEDBACK_SENSOR => 1504
  | ATLAS_CMD_FEEDBACK_RESPONSE_TIME => 1505
  end.

Lemma code_u16 t : is_u16 (code t).
Proof. unfold is_u16. by destruct t. Qed.

(** * coap/AtlasCoapResponse.h *)

Inductive AtlasCoapResponse : Set :=
  | ATLAS_COAP_RESP_OK
  | ATLAS_COAP_RESP_NOT_FOUND
  | ATLAS_COAP_RESP_NOT_ACCEPTABLE
  | ATLAS_COAP_RESP_TIMEOUT
  | ATLAS_COAP_RESP_RESET
  | ATLAS_COAP_RESP_UNKNOWN.

#[export] Instance AtlasCoapResponse_eq_dec : EqDecision AtlasCoapResponse.
Proof. solve_decision. Defined.

Definition response_code (r : AtlasCoapResponse) : Z :=
  match r with
  | ATLAS_COAP_RESP_OK => 200
  | ATLAS_COAP_RESP_NOT_FOUND => 404
  | ATLAS_COAP_RESP_NOT_ACCEPTABLE => 406
  | ATLAS_COAP_RESP_TIMEOUT => 407
  | ATLAS_COAP_RESP_RESET => 408
  | ATLAS_COAP_RESP_UNKNOWN => 409
  end.

End GwType.

(** statistics/AtlasFirewallStats.h *)
Record AtlasFirewallStats := mk_fwstats {
  fs_clientId : list byte;
  ruleDroppedPkts_ : Z;    (* uint32_t *)
  rulePassedPkts_ : Z;     (* uint32_t *)
  txDroppedPkts_ : Z;      (* uint32_t *)
  txPassedPkts_ : Z;       (* uint32_t *)
}.

Definition new_fwstats : AtlasFirewallStats := mk_fwstats [] 0 0 0 0.

(** The four [add...] methods at once: [+=] on [uint32_t]. *)
Definition fwstats_add (d p td tp : Z) (s : AtlasFirewallStats) : AtlasFirewallStats :=
  mk_fwstats (fs_clientId s) (u32 (ruleDroppedPkts_ s + d)) (u32 (rulePassedPkts_ s + p))
    (u32 (txDroppedPkts_ s + td)) (u32 (txPassedPkts_ s + tp)).
