(* ===== verification/GwBatch.v ===== *)
(** The gateway's command batches (commands/AtlasCommand.h,
    commands/AtlasCommandBatch.cpp), the C++ counterpart of Command.v: the same
    wire format, written and read by other code.

    An [AtlasCommand] holds a pointer to its value; here it is the list of the
    bytes readable through it, as in [Command.atlas_cmd]. A parsed command
    points into the batch's own copy of the received bytes, so its value runs to
    the end of that copy. Lengths other than the command's own are [size_t]. *)
From S2P Require Import Prelude Defs Command GwDefs.

(** * Data *)

Record AtlasCommand := mk_AtlasCommand {
  type_ : Z;                      (* uint16_t *)
  len_ : Z;                       (* uint16_t *)
  val_ : option (list byte);      (* const uint8_t * *)
}.

(** The constructor's parameters are [uint16_t]: what is passed is cut to 16
    bits. *)
Definition new_AtlasCommand (type len : Z) (val : option (list byte)) : AtlasCommand :=
  mk_AtlasCommand (u16 type) (u16 len) val.

Record AtlasCommandBatch := mk_AtlasCommandBatch {
  parsedCmdBuf_ : option (list byte);
  addedCmdBuf_ : option (list byte);
  parsedCmd_ : list AtlasCommand;
  addedCmd_ : list AtlasCommand;
}.

Definition new_AtlasCommandBatch : AtlasCommandBatch := mk_AtlasCommandBatch None None [] [].

Section Batch.
Context `{HostEndian}.

(** * Operations *)

Definition addCommand (cmd : AtlasCommand) (b : AtlasCommandBatch) : AtlasCommandBatch :=
  mk_AtlasCommandBatch (parsedCmdBuf_ b) (addedCmdBuf_ b) (parsedCmd_ b) (addedCmd_ b ++ [cmd]).

(** The sum of the first loop of [getSerializedAddedCommands]. *)
Fixpoint total_len (cmds : list AtlasCommand) (totalLen : Z) : Z :=
  match cmds with
  | [] => totalLen
  | cmd :: cmds => total_len cmds (totalLen + (2 * 2 + len_ cmd))
  end.

(** The second loop: [ptr] is the offset [ptr - addedCmdBuf_]. *)
Fixpoint serialize_loop (cmds : list AtlasCommand) (ptr : Z) (buf : list byte) : res (list byte) :=
  match cmds with
  | [] => Ok buf
  | cmd :: cmds =>
      (* Set type *)
      buf ← mem_store buf ptr (st16 (htons (type_ cmd)));
      let ptr := ptr + 2 in
      (* Set length *)
      buf ← mem_store buf ptr (st16 (htons (len_ cmd)));
      let ptr := ptr + 2 in
      (* Set value *)
      buf ← match val_ cmd with
            | Some v => bs ← mem_load v 0 (len_ cmd); mem_store buf ptr bs
            | None => Ok buf
            end;
      serialize_loop cmds (ptr + len_ cmd) buf
  end.

Definition getSerializedAddedCommands (b : AtlasCommandBatch)
  : res (option (list byte) * Z * AtlasCommandBatch) :=
  match addedCmd_ b with
  | [] => Ok (None, 0, b)
  | _ =>
      let totalLen := total_len (addedCmd_ b) 0 in
      buf ← serialize_loop (addedCmd_ b) 0 (replicate (Z.to_nat totalLen) x00);
      Ok (Some buf, totalLen,
          mk_AtlasCommandBatch (parsedCmdBuf_ b) (Some buf) (parsedCmd_ b) (addedCmd_ b))
  end.

(** [parseCommands]: [ptr] is the offset [ptr - parsedCmdBuf_]; a turn of the
    loop that goes on consumes at least the four header bytes. *)
Fixpoint parse_loop (fuel : nat) (buf : list byte) (ptr cmdLen : Z) (parsed : list AtlasCommand)
  : res (list AtlasCommand) :=
  match fuel with
  | O => Fault OutOfFuel
  | S fuel =>
      if decide (cmdLen > 0) then
        (* Get command type *)
        if decide (cmdLen < 2) then Ok parsed else
        raw ← mem_load buf ptr 2;
        let type := ntohs (ld16 raw) in
        let ptr := ptr + 2 in
        let cmdLen := cmdLen - 2 in
        (* Get command length *)
        if decide (cmdLen < 2) then Ok parsed else
        raw ← mem_load buf ptr 2;
        let len := ntohs (ld16 raw) in
        let ptr := ptr + 2 in
        let cmdLen := cmdLen - 2 in
        (* Get command value *)
        if decide (cmdLen < len) then Ok parsed else
        (* Save command *)
        let parsed := parsed ++ [new_AtlasCommand type len (Some (drop (Z.to_nat ptr) buf))] in
        parse_loop fuel buf (ptr + len) (cmdLen - len) parsed
      else Ok parsed
  end.

Definition parseCommands (cmdLen : Z) (b : AtlasCommandBatch) : res AtlasCommandBatch :=
  match parsedCmdBuf_ b with
  | Some buf =>
      parsed ← parse_loop (S (Z.to_nat cmdLen)) buf 0 cmdLen (parsedCmd_ b);
      Ok (mk_AtlasCommandBatch (Some buf) (addedCmdBuf_ b) parsed (addedCmd_ b))
  | None => Fault NullDeref
  end.

Definition setRawCommands (cmd : option (list byte)) (cmdLen : Z) (b : AtlasCommandBatch)
  : res AtlasCommandBatch :=
  match cmd with
  | None => Ok b
  | Some bytes =>
      if decide (cmdLen = 0) then Ok b else
      copy ← mem_load bytes 0 cmdLen;
      parseCommands cmdLen (mk_AtlasCommandBatch (Some copy) (addedCmdBuf_ b) [] (addedCmd_ b))
  end.

(** What every reader does: a fresh batch, [setRawCommands], then
    [getParsedCommands]. *)
Definition parsed_commands (cmd : option (list byte)) (cmdLen : Z) : res (list AtlasCommand) :=
  b ← setRawCommands cmd cmdLen new_AtlasCommandBatch; Ok (parsedCmd_ b).

(** What every writer does: a fresh batch, one [addCommand] per command, then
    [getSerializedAddedCommands]. *)
Definition serialized_commands (cmds : list AtlasCommand) : res (option (list byte) * Z) :=
  '(buf, len, _) ← getSerializedAddedCommands (foldl (fun b c => addCommand c b) new_AtlasCommandBatch cmds);
  Ok (buf, len).
End Batch.

(** * The loops over parsed commands *)

(** The bytes [getVal() .. getVal() + getLen()], as [std::string::assign] and
    [memcpy] read them. *)
Definition cmd_bytes (cmd : AtlasCommand) : res (list byte) :=
  match val_ cmd with
  | Some v => mem_load v 0 (len_ cmd)
  | None => if decide (len_ cmd = 0) then Ok [] else Fault NullDeref
  end.

(** [for (const AtlasCommand &cmd : cmds) body], and the same loop with a
    [return] inside it. *)
Fixpoint for_each {S} (body : S -> AtlasCommand -> res S) (cmds : list AtlasCommand) (s : S) : res S :=
  match cmds with
  | [] => Ok s
  | cmd :: cmds => s ← body s cmd; for_each body cmds s
  end.

Fixpoint for_return {S R} (body : S -> AtlasCommand -> res (S + R)) (cmds : list AtlasCommand) (s : S)
  : res (S + R) :=
  match cmds with
  | [] => Ok (inl s)
  | cmd :: cmds =>
      r ← body s cmd;
      match r with
      | inl s => for_return body cmds s
      | inr r => Ok (inr r)
      end
  end.

(** * Specification *)

(** The commands of a list, as the parser hands them out: each value pointer
    runs through the commands that follow to the end of the copy. *)
Fixpoint pointers (cs : list cmd) (rest : list byte) : list AtlasCommand :=
  match cs with
  | [] => []
  | (t, v) :: cs => mk_AtlasCommand t (blen v) (Some (v ++ encode cs ++ rest)) :: pointers cs rest
  end.

(** [rest] does not begin with a whole command. *)
Definition no_command (rest : list byte) : Prop :=
  forall c tail, wf_cmd c -> rest <> encode1 c ++ tail.

(** The loops on the list of commands itself. *)
Fixpoint fold_return {S R} (step : S -> cmd -> S + R) (cs : list cmd) (s : S) : S + R :=
  match cs with
  | [] => inl s
  | c :: cs => match step s c with inl s => fold_return step cs s | inr r => inr r end
  end.

(** A command whose fields hold [c] and whose value can be read in full. *)
Definition command_repr (g : AtlasCommand) (c : cmd) : Prop :=
  exists rest, g = mk_AtlasCommand c.1 (blen c.2) (Some (c.2 ++ rest)).

Section BatchFacts.
Context `{HostEndian}.

Lemma new_command_repr t v rest :
  wf_cmd (t, v) -> command_repr (new_AtlasCommand t (blen v) (Some (v ++ rest))) (t, v).
Proof.
  intros [Ht Hv]. cbn in *. exists rest. unfold new_AtlasCommand.
  rewrite !u16_small; [done| |done]. split; [apply blen_nonneg|done].
Qed.

(** ** Parsing *)

Lemma parse_zero fuel buf ptr parsed : parse_loop (S fuel) buf ptr 0 parsed = Ok parsed.
Proof. reflexivity. Qed.

(** One whole header: the value fits or the loop ends. *)
Lemma parse_header fuel pre t l tail parsed :
  is_u16 t -> is_u16 l ->
  parse_loop (S fuel) (pre ++ be16 t ++ be16 l ++ tail) (blen pre) (4 + blen tail) parsed =
  if decide (blen tail < l) then Ok parsed
  else parse_loop fuel (pre ++ be16 t ++ be16 l ++ tail) (blen pre + 4 + l) (blen tail - l)
         (parsed ++ [mk_AtlasCommand t l (Some tail)]).
Proof.
  intros Ht Hl. cbn [parse_loop].
  rewrite decide_True by blia. rewrite decide_False by blia.
  rewrite (mem_load_app pre (be16 t) (be16 l ++ tail) (blen pre) 2) by done. rewrite res_bind_ok, ntohs_ld16_be16 by done.
  rewrite decide_False by blia.
  rewrite (app_assoc pre (be16 t)). rewrite (mem_load_app (pre ++ be16 t) (be16 l) tail (blen pre + 2) 2) by blia.
  rewrite res_bind_ok, ntohs_ld16_be16 by done.
  replace (4 + blen tail - 2 - 2) with (blen tail) by lia. case_decide; [done|].
  f_equal; [lia|]. do 2 f_equal. unfold new_AtlasCommand. rewrite !u16_small by done.
  do 2 f_equal. replace (blen pre + 2 + 2) with (blen ((pre ++ be16 t) ++ be16 l)) by blia.
  rewrite (app_assoc (pre ++ be16 t)), to_nat_blen. apply drop_app_length.
Qed.

(** The loop returns the longest sequence of whole commands the bytes begin
    with, and drops what follows. *)
Lemma parse_loop_spec fuel pre bytes parsed :
  (Z.to_nat (blen bytes) < fuel)%nat ->
  exists cs rest, bytes = encode cs ++ rest /\ Forall wf_cmd cs /\ no_command rest /\
    parse_loop fuel (pre ++ bytes) (blen pre) (blen bytes) parsed = Ok (parsed ++ pointers cs rest).
Proof.
  revert pre bytes parsed. induction fuel as [|fuel IH]; intros pre bytes parsed Hfuel; [lia|].
  assert (Hstop : forall r, no_command bytes -> r = Ok parsed -> exists cs rest, bytes = encode cs ++ rest /\
    Forall wf_cmd cs /\ no_command rest /\ r = Ok (parsed ++ pointers cs rest)).
  { intros r Hno ->. exists [], bytes. cbn. by rewrite app_nil_r. }
  destruct (decide (blen bytes < 4)) as [Hshort|Hlong].
  { apply Hstop.
    - intros c tail _ Heq. apply (f_equal blen) in Heq. autorewrite with blen in Heq. blia.
    - cbn [parse_loop]. case_decide; [|done]. case_decide; [done|].
      destruct (mem_load_inside (pre ++ bytes) (blen pre) 2) as (raw & ->); [blia..|].
      rewrite res_bind_ok. by rewrite decide_True by lia. }
  destruct (header_split bytes) as (t & l & tail & Ht & Hl & ->); [lia|].
  replace (blen (be16 t ++ be16 l ++ tail)) with (4 + blen tail) by blia.
  rewrite parse_header by done. case_decide as Hfit.
  { apply Hstop; [|done]. intros c tail' Hc Heq.
    apply encode_header_inj in Heq as [-> ->]; auto. blia. }
  unfold is_u16 in Hl. set (v := take (Z.to_nat l) tail). set (r := drop (Z.to_nat l) tail).
  assert (Hv : blen v = l) by (unfold v, blen in *; rewrite length_take; lia).
  assert (Htail : tail = v ++ r) by (symmetry; apply take_drop).
  rewrite Htail in *.
  replace (pre ++ be16 t ++ be16 l ++ v ++ r) with ((pre ++ be16 t ++ be16 l ++ v) ++ r)
    by (by rewrite <- !app_assoc).
  replace (blen pre + 4 + l) with (blen (pre ++ be16 t ++ be16 l ++ v)) by blia.
  replace (blen (v ++ r) - l) with (blen r) by blia.
  destruct (IH (pre ++ be16 t ++ be16 l ++ v) r (parsed ++ [mk_AtlasCommand t l (Some (v ++ r))]))
    as (cs & rest & Hr & Hcs & Hno & Hp); [blia|].
  exists ((t, v) :: cs), rest. rewrite Hp. repeat split; auto.
  - rewrite Hr. cbn. unfold encode1. cbn. by rewrite Hv, <- !app_assoc.
  - constructor; [|done]. split; cbn; [done|lia].
  - f_equal. rewrite <- app_assoc. cbn. by rewrite Hv, Hr.
Qed.

Lemma no_command_nil : no_command [].
Proof. intros c tail _ Heq. by destruct c. Qed.

(** The decomposition is unique: the parser is a function of the bytes. *)
Lemma decomposition_unique cs cs' rest rest' :
  Forall wf_cmd cs -> Forall wf_cmd cs' -> no_command rest -> no_command rest' ->
  encode cs ++ rest = encode cs' ++ rest' -> cs = cs' /\ rest = rest'.
Proof.
  intros Hcs. revert cs'. induction Hcs as [|[t v] cs Hc _ IH]; intros cs' Hcs' Hno Hno' Heq.
  - destruct cs' as [|c' cs']; [done|]. apply Forall_cons in Hcs' as [Hc' _].
    cbn in Heq. rewrite <- app_assoc in Heq. by apply Hno in Heq.
  - destruct cs' as [|[t' v'] cs'].
    { cbn in Heq. rewrite <- app_assoc in Heq. symmetry in Heq. by apply Hno' in Heq. }
    apply Forall_cons in Hcs' as [Hc' Hcs']. cbn [encode] in Heq. rewrite <- !app_assoc in Heq.
    destruct Hc as [Ht Hv], Hc' as [Ht' Hv']. cbn in Ht, Hv, Ht', Hv'.
    unfold encode1 at 1 in Heq. cbn [fst snd] in Heq. rewrite <- !app_assoc in Heq.
    destruct (encode_header_inj t (blen v) (v ++ encode cs ++ rest) (t', v') (encode cs' ++ rest'))
      as [Hl Hvs]; [split; [apply blen_nonneg|done]|by split|done|].
    cbn in Hl, Hvs. unfold encode1 in Heq. cbn in Heq. rewrite <- !app_assoc in Heq.
    apply app_inj_1 in Heq as [Et _]; [|done]. apply (f_equal of_be16) in Et.
    rewrite !of_be16_be16 in Et by done.
    apply app_inj_1 in Hvs as [-> Hrest]; [|unfold blen in Hl; lia].
    apply IH in Hrest as [-> ->]; auto. by subst.
Qed.

Lemma parsed_commands_spec bytes :
  bytes <> [] ->
  exists cs rest, bytes = encode cs ++ rest /\ Forall wf_cmd cs /\ no_command rest /\
    parsed_commands (Some bytes) (blen bytes) = Ok (pointers cs rest).
Proof.
  intros Hne. unfold parsed_commands, setRawCommands.
  rewrite decide_False by (intros Hz%blen_0_inv; done).
  rewrite mem_load_all by done. rewrite res_bind_ok. unfold parseCommands. cbn [parsedCmdBuf_ parsedCmd_].
  destruct (parse_loop_spec (S (Z.to_nat (blen bytes))) [] bytes []) as (cs & rest & Hb & Hcs & Hno & Hp); [lia|].
  exists cs, rest. cbn [app] in Hp. rewrite blen_nil in Hp. rewrite Hp. done.
Qed.

Lemma parsed_commands_encode cs :
  Forall wf_cmd cs -> cs <> [] ->
  parsed_commands (Some (encode cs)) (blen (encode cs)) = Ok (pointers cs []).
Proof.
  intros Hcs Hne. destruct (parsed_commands_spec (encode cs)) as (cs' & rest & Heq & Hcs' & Hno & ->).
  { destruct cs as [|c cs]; [done|]. intros Hz%(f_equal blen). rewrite blen_encode_cons in Hz. blia. }
  rewrite <- (app_nil_r (encode cs)) in Heq.
  apply decomposition_unique in Heq as [-> ->]; auto using no_command_nil.
Qed.

Lemma parsed_commands_prefix v post : parsed_commands (Some (v ++ post)) (blen v) = parsed_commands (Some v) (blen v).
Proof.
  unfold parsed_commands, setRawCommands. case_decide; [done|].
  by rewrite mem_load_prefix, mem_load_all by done.
Qed.

(** ** Loops *)

(** A command the parser hands out for [c]. *)
Definition pointer_to (c : cmd) (g : AtlasCommand) : Prop :=
  exists post, g = mk_AtlasCommand c.1 (blen c.2) (Some (c.2 ++ post)).

Lemma cmd_bytes_pointer c g : pointer_to c g -> cmd_bytes g = Ok c.2.
Proof. intros (post & ->). unfold cmd_bytes. cbn [val_ len_]. by apply mem_load_prefix. Qed.

Lemma for_each_on {S} (P : cmd -> Prop) (body : S -> AtlasCommand -> res S) (step : S -> cmd -> S) cs rest s :
  (forall s c g, P c -> pointer_to c g -> body s g = Ok (step s c)) -> Forall P cs ->
  for_each body (pointers cs rest) s = Ok (foldl step s cs).
Proof.
  intros Hbody Hcs. revert s. induction Hcs as [|[t v] cs Hc _ IH]; intros s; [done|].
  cbn [pointers for_each foldl]. rewrite (Hbody s (t, v)) by (done || by eexists).
  rewrite res_bind_ok. apply IH.
Qed.

Lemma for_each_pointers {S} (body : S -> AtlasCommand -> res S) (step : S -> cmd -> S) cs rest s :
  (forall s c g, wf_cmd c -> pointer_to c g -> body s g = Ok (step s c)) -> Forall wf_cmd cs ->
  for_each body (pointers cs rest) s = Ok (foldl step s cs).
Proof. apply for_each_on. Qed.

Lemma for_return_pointers {S R} (body : S -> AtlasCommand -> res (S + R)) (step : S -> cmd -> S + R) cs rest s :
  (forall s c g, wf_cmd c -> pointer_to c g -> body s g = Ok (step s c)) -> Forall wf_cmd cs ->
  for_return body (pointers cs rest) s = Ok (fold_return step cs s).
Proof.
  intros Hbody Hcs. revert s. induction Hcs as [|[t v] cs Hc _ IH]; intros s; [done|].
  cbn [pointers for_return fold_return]. rewrite (Hbody s (t, v)) by (done || by eexists).
  rewrite res_bind_ok. destruct (step s (t, v)); [apply IH|done].
Qed.

Lemma fold_return_inl {S R} (step : S -> cmd -> S + R) (P : S -> Prop) cs s s' :
  (forall s c s', P s -> step s c = inl s' -> P s') -> P s -> fold_return step cs s = inl s' -> P s'.
Proof.
  intros Hstep. revert s. induction cs as [|c cs IH]; intros s Hs; cbn [fold_return]; [by intros [= <-]|].
  destruct (step s c) as [s1|r] eqn:Hc; [|done]. apply IH. by eapply Hstep.
Qed.

Lemma fold_return_inr {S R} (step : S -> cmd -> S + R) (Q : R -> Prop) cs s r :
  (forall s c r, step s c = inr r -> Q r) -> fold_return step cs s = inr r -> Q r.
Proof.
  intros Hstep. revert s. induction cs as [|c cs IH]; intros s; cbn [fold_return]; [done|].
  destruct (step s c) as [s1|r1] eqn:Hc; [apply IH|]. intros [= <-]. by eapply Hstep.
Qed.

(** ** Serialising *)

Lemma total_len_spec gs cs n : Forall2 command_repr gs cs -> total_len gs n = n + blen (encode cs).
Proof.
  intros Hg. revert n. induction Hg as [|g c gs cs (rest & ->) _ IH]; intros n; cbn [total_len].
  - rewrite blen_encode_nil. lia.
  - rewrite IH, blen_encode_cons. cbn. lia.
Qed.

Lemma serialize_loop_spec gs cs pre :
  Forall2 command_repr gs cs -> Forall wf_cmd cs ->
  serialize_loop gs (blen pre) (pre ++ replicate (length (encode cs)) x00) = Ok (pre ++ encode cs).
Proof.
  intros Hg. revert pre. induction Hg as [|g [t v] gs cs (rest & ->) _ IH]; intros pre Hwf; [done|].
  apply Forall_cons in Hwf as [[Ht Hv] Hwf]. cbn in Ht, Hv. cbn [serialize_loop type_ len_ val_ fst snd].
  rewrite !st16_htons. cbn [encode]. unfold encode1. cbn [fst snd].
  rewrite !length_app. change (length (be16 t)) with 2%nat. change (length (be16 (blen v))) with 2%nat.
  rewrite <- !Nat.add_assoc, !replicate_add.
  rewrite mem_store_app by blia. rewrite res_bind_ok.
  rewrite (app_assoc pre (be16 t)), mem_store_app by blia. rewrite res_bind_ok.
  rewrite mem_load_prefix by done. rewrite res_bind_ok.
  rewrite (app_assoc (pre ++ be16 t)), mem_store_app by (autorewrite with blen; unfold blen; lia).
  rewrite res_bind_ok.
  rewrite (app_assoc _ v).
  replace (blen pre + 2 + 2 + blen v) with (blen (((pre ++ be16 t) ++ be16 (blen v)) ++ v)) by blia.
  rewrite IH by done. f_equal. by rewrite <- !app_assoc.
Qed.

(** A command whose value is at least as long as it says can be serialised,
    whatever its fields are. *)
Definition readable (g : AtlasCommand) : Prop :=
  0 <= len_ g /\ match val_ g with Some v => len_ g <= blen v | None => True end.

Lemma new_command_readable t v rest : readable (new_AtlasCommand t (blen v) (Some (v ++ rest))).
Proof.
  split; cbn; [apply u16_range|]. rewrite blen_app. unfold u16. blen_pos. lia.
Qed.

Lemma mem_store_inside buf off bs :
  0 <= off -> off + blen bs <= blen buf -> exists buf', mem_store buf off bs = Ok buf' /\ blen buf' = blen buf.
Proof.
  intros Hoff Hle. unfold mem_store. destruct bs as [|b bs]; [eauto|]. rewrite decide_True by done.
  eexists. split; [done|]. unfold blen in *. rewrite !length_app, length_take, length_drop. lia.
Qed.

Lemma total_len_shift gs n : total_len gs n = n + total_len gs 0.
Proof.
  revert n. induction gs as [|g gs IH]; intros n; cbn [total_len]; [lia|].
  rewrite IH, (IH (0 + _)). lia.
Qed.

Lemma total_len_nonneg gs : Forall readable gs -> 0 <= total_len gs 0.
Proof.
  induction 1 as [|g gs [Hg _] _ IH]; cbn [total_len]; [lia|]. rewrite total_len_shift. lia.
Qed.

Lemma serialize_total gs ptr buf :
  Forall readable gs -> 0 <= ptr -> ptr + total_len gs 0 <= blen buf ->
  exists buf', serialize_loop gs ptr buf = Ok buf' /\ blen buf' = blen buf.
Proof.
  intros Hgs. revert ptr buf. induction Hgs as [|g gs [Hl Hv] Hgs IH]; intros ptr buf Hp Hle; [by eexists|].
  cbn [serialize_loop total_len] in *. rewrite total_len_shift in Hle. pose proof (total_len_nonneg gs Hgs).
  destruct (mem_store_inside buf ptr (st16 (htons (type_ g)))) as (b1 & -> & H1); [lia|blia|].
  rewrite res_bind_ok.
  destruct (mem_store_inside b1 (ptr + 2) (st16 (htons (len_ g)))) as (b2 & -> & H2); [lia|blia|].
  rewrite res_bind_ok.
  assert (exists b3, match val_ g with
      | Some v => bs ← mem_load v 0 (len_ g); mem_store b2 (ptr + 2 + 2) bs
      | None => Ok b2 end = Ok b3 /\ blen b3 = blen b2) as (b3 & -> & H3).
  { destruct (val_ g) as [v|]; [|by eexists].
    destruct (mem_load_inside v 0 (len_ g)) as (bs & Hbs); [lia..|].
    pose proof (mem_load_length _ _ _ _ Hbs Hl). rewrite Hbs, res_bind_ok. apply mem_store_inside; lia. }
  rewrite res_bind_ok. destruct (IH (ptr + 2 + 2 + len_ g) b3) as (b4 & -> & H4); [lia..|].
  exists b4. split; [done|]. lia.
Qed.

Lemma foldl_addCommand gs b :
  foldl (fun b c => addCommand c b) b gs =
  mk_AtlasCommandBatch (parsedCmdBuf_ b) (addedCmdBuf_ b) (parsedCmd_ b) (addedCmd_ b ++ gs).
Proof.
  revert b. induction gs as [|g gs IH]; intros b; cbn [foldl].
  - rewrite app_nil_r. by destruct b.
  - rewrite IH. cbn. by rewrite <- app_assoc.
Qed.

Lemma serialized_commands_spec gs cs :
  Forall2 command_repr gs cs -> Forall wf_cmd cs -> cs <> [] ->
  serialized_commands gs = Ok (Some (encode cs), blen (encode cs)).
Proof.
  intros Hg Hwf Hne. unfold serialized_commands. rewrite foldl_addCommand. cbn [parsedCmdBuf_ addedCmdBuf_ parsedCmd_ addedCmd_ new_AtlasCommandBatch app].
  unfold getSerializedAddedCommands. cbn [addedCmd_].
  rewrite (total_len_spec _ _ _ Hg), Z.add_0_l, to_nat_blen.
  pose proof (serialize_loop_spec gs cs [] Hg Hwf) as Hs. cbn [app] in Hs. rewrite blen_nil in Hs.
  destruct Hg; [done|]. rewrite Hs. done.
Qed.

Lemma serialized_total gs :
  Forall readable gs -> gs <> [] -> exists buf, serialized_commands gs = Ok (Some buf, blen buf).
Proof.
  intros Hgs Hne. unfold serialized_commands. rewrite foldl_addCommand.
  cbn [parsedCmdBuf_ addedCmdBuf_ parsedCmd_ addedCmd_ new_AtlasCommandBatch app].
  unfold getSerializedAddedCommands. cbn [addedCmd_]. pose proof (total_len_nonneg gs Hgs).
  destruct (serialize_total gs 0 (replicate (Z.to_nat (total_len gs 0)) x00)) as (buf & Hs & Hlen);
    [done|done|rewrite blen_replicate; lia|].
  rewrite blen_replicate in Hlen. exists buf. destruct gs; [done|]. rewrite Hs, res_bind_ok, res_bind_ok.
  do 2 f_equal. lia.
Qed.

(** The parser returns on every payload. *)
Lemma parsed_commands_total bytes :
  exists cs rest, Forall wf_cmd cs /\ parsed_commands (Some bytes) (blen bytes) = Ok (pointers cs rest).
Proof.
  destruct bytes as [|b bytes]; [exists [], []; done|].
  destruct (parsed_commands_spec (b :: bytes)) as (cs & rest & _ & Hcs & _ & Hp); [done|]. eauto.
Qed.
End BatchFacts.

(** * Theorems: the two codecs of the wire format *)

(** What a reader gets out of a parsed command. *)
Definition view (g : AtlasCommand) : cmd :=
  (type_ g, take (Z.to_nat (len_ g)) (default [] (val_ g))).

(** The commands a gateway reader gets out of a buffer. *)
Definition read_back `{HostEndian} (cmd : option (list byte)) (cmdLen : Z) : res (list Command.cmd) :=
  gs ← parsed_commands cmd cmdLen; Ok (List.map view gs).

(** A gateway writer's commands for a list. *)
Definition new_commands (cs : list cmd) : list AtlasCommand :=
  (fun c => new_AtlasCommand c.1 (blen c.2) (Some c.2)) <$> cs.

Lemma view_pointers cs rest : List.map view (pointers cs rest) = cs.
Proof.
  induction cs as [|[t v] cs IH]; [done|]. cbn [pointers List.map]. rewrite IH. f_equal.
  unfold view. cbn. by rewrite to_nat_blen, take_app_length.
Qed.

Lemma new_commands_repr cs : Forall wf_cmd cs -> Forall2 command_repr (new_commands cs) cs.
Proof.
  induction 1 as [|[t v] cs Hc _ IH]; [constructor|]. constructor; [|done].
  cbn. rewrite <- (app_nil_r v) at 2. by apply new_command_repr.
Qed.

Lemma read_back_encode `{HostEndian} cs :
  Forall wf_cmd cs -> cs <> [] -> read_back (Some (encode cs)) (blen (encode cs)) = Ok cs.
Proof.
  intros Hcs Hne. unfold read_back. rewrite parsed_commands_encode by done.
  by rewrite res_bind_ok, view_pointers.
Qed.

(** The client's receiver on the encoding of a list. *)
Lemma client_reads `{HostEndian} b cs :
  Forall wf_cmd cs -> cs <> [] -> blen (encode cs) < 65536 ->
  exists b', atlas_cmd_batch_set_raw (Some b) (Some (encode cs)) (blen (encode cs)) = Ok (ATLAS_OK, Some b') /\
    cmd_loop collect (Some b') [] = Ok cs.
Proof.
  intros Hcs Hne Hfit. exists (mk_batch (blen (encode cs)) (Some (encode cs))). split.
  - assert (Hpos : 0 < blen (encode cs) < 65536) by (destruct cs; [done | blia]).
    pose proof (set_raw_encode b cs [] Hcs Hpos) as Hs. by rewrite app_nil_r in Hs.
  - rewrite cmd_loop_fold by done. by rewrite fold_collect.
Qed.

(** C7: the two implementations of the wire format interoperate, whatever the
    byte orders of their hosts: a batch built by the client is read back command
    by command by the gateway, and a batch serialised by the gateway is accepted
    by the client's validator and read back command by command. *)
Theorem codecs_interoperate (client gateway : HostEndian) (cs : list cmd) :
  Forall wf_cmd cs -> cs <> [] -> blen (encode cs) < 65536 ->
  (exists b, @add_all client (Some atlas_cmd_batch_new) cs = Ok (Some b) /\
    let '(buf, len) := atlas_cmd_batch_get_buf (Some b) None 0 in
    @read_back gateway buf len = Ok cs) /\
  (exists buf len b', @serialized_commands gateway (new_commands cs) = Ok (buf, len) /\
    @atlas_cmd_batch_set_raw client (Some atlas_cmd_batch_new) buf len = Ok (ATLAS_OK, Some b') /\
    @cmd_loop client _ collect (Some b') [] = Ok cs).
Proof.
  intros Hcs Hne Hfit. split.
  - destruct (@add_all_ok client _ [] cs batch_repr_new Hcs Hfit) as (b & Hadd & Hl & Hb).
    exists b. split; [done|]. destruct b as [len [buf|]]; cbn in Hl, Hb; cbn [atlas_cmd_batch_get_buf buf_ length_]; subst.
    + by apply (@read_back_encode gateway).
    + by destruct cs as [|[t v] cs].
  - destruct (@client_reads client atlas_cmd_batch_new cs) as (b' & Hset & Hloop); auto.
    exists (Some (encode cs)), (blen (encode cs)), b'. split; [|done].
    apply (@serialized_commands_spec gateway); auto using new_commands_repr.
Qed.

Lemma codecs_interoperate_witness :
  (exists b, @add_all false (Some atlas_cmd_batch_new) [(2, [x41]); (1100, [x00; x01])] = Ok (Some b) /\
    let '(buf, len) := atlas_cmd_batch_get_buf (Some b) None 0 in
    @read_back true buf len = Ok [(2, [x41]); (1100, [x00; x01])]) /\
  (exists buf len b', @serialized_commands true (new_commands [(2, [x41]); (1100, [x00; x01])]) = Ok (buf, len) /\
    @atlas_cmd_batch_set_raw false (Some atlas_cmd_batch_new) buf len = Ok (ATLAS_OK, Some b') /\
    @cmd_loop false _ collect (Some b') [] = Ok [(2, [x41]); (1100, [x00; x01])]).
Proof.
  apply (codecs_interoperate false true [(2, [x41]); (1100, [x00; x01])]).
  - repeat constructor; done.
  - done.
  - done.
Defined.

(** The two readers agree on every buffer the client accepts and differ on
    the others: the gateway hands out the longest sequence of whole commands the
    bytes begin with and drops the rest without a complaint, and the client
    accepts exactly when nothing was dropped, and then sees the same commands. *)
Theorem readers_agree (client gateway : HostEndian) (b : cmd_batch) (bytes : list byte) :
  0 < blen bytes < 65536 ->
  exists cs rest st b',
    @read_back gateway (Some bytes) (blen bytes) = Ok cs /\
    bytes = encode cs ++ rest /\ no_command rest /\
    @atlas_cmd_batch_set_raw client (Some b) (Some bytes) (blen bytes) = Ok (st, Some b') /\
    (st = ATLAS_OK <-> rest = []) /\
    (st = ATLAS_OK -> @cmd_loop client _ collect (Some b') [] = Ok cs).
Proof.
  intros Hlen. destruct (@parsed_commands_spec gateway bytes) as (cs & rest & Hb & Hcs & Hno & Hp).
  { intros ->. rewrite blen_nil in Hlen. lia. }
  destruct (@set_raw_spec client b bytes [] Hlen) as (st & b' & Hset & _ & Hiff & Hb').
  rewrite app_nil_r in Hset. exists cs, rest, st, b'. unfold read_back. rewrite Hp, res_bind_ok, view_pointers.
  assert (Hrest : st = ATLAS_OK <-> rest = []).
  { rewrite Hiff. split.
    - intros (cs' & Hcs' & Heq). rewrite Hb, <- (app_nil_r (encode cs')) in Heq.
      by apply decomposition_unique in Heq as [_ ->]; auto using no_command_nil.
    - intros ->. exists cs. by rewrite app_nil_r in Hb. }
  repeat split; auto; [apply Hrest..|]. intros Hst.
  rewrite (proj1 Hrest Hst), app_nil_r in Hb. rewrite decide_True in Hb' by done. subst b' bytes.
  rewrite cmd_loop_fold by (auto; intros ->; rewrite blen_encode_nil in Hlen; lia).
  by rewrite fold_collect.
Qed.

(** A whole command followed by a header that announces more than there is. *)
Lemma readers_agree_witness :
  let bytes := [x00; x02; x00; x01; x41; x00; x03; x00; x09] in
  exists cs rest st b',
    @read_back true (Some bytes) (blen bytes) = Ok cs /\
    bytes = encode cs ++ rest /\ no_command rest /\
    @atlas_cmd_batch_set_raw false (Some atlas_cmd_batch_new) (Some bytes) (blen bytes) = Ok (st, Some b') /\
    (st = ATLAS_OK <-> rest = []) /\
    (st = ATLAS_OK -> @cmd_loop false _ collect (Some b') [] = Ok cs).
Proof. intros bytes. apply (readers_agree false true atlas_cmd_batch_new bytes). by unfold bytes. Defined.
