(* ===== verification/GwXfer.v ===== *)
(** The reassembly of commands from the stream socket between the gateway and
    its broker plug-in (commands/AtlasCommandXfer.cpp), used by
    [AtlasFilter::handleRead] and [AtlasPubSubAgent::handleRead].

    The owner passes [getReadBuffer] and [getRemainingLen] to
    [async_read_some], which stores between one and that many bytes there and
    then calls back with their number; the bytes that arrived in one such read
    are a chunk. *)
From S2P Require Import Prelude Defs Command GwDefs GwBatch.

(** * commands/AtlasCommandXferState.h, commands/AtlasCommandXfer.h *)

Inductive AtlasCommandXferState : Set :=
  | ATLAS_CMD_XFER_HEADER_STATE
  | ATLAS_CMD_XFER_PAYLOAD_STATE.

#[export] Instance AtlasCommandXferState_eq_dec : EqDecision AtlasCommandXferState.
Proof. solve_decision. Defined.

Definition ATLAS_PUB_SUB_AGENT_BUF_LEN : Z := 8192.
Definition ATLAS_CMD_HEADER_LEN : Z := 4.

Record AtlasCommandXfer := mk_xfer {
  data_ : list byte;                        (* uint8_t[8192] *)
  cmdXferState_ : AtlasCommandXferState;
  cmdLen_ : Z;                              (* size_t *)
  cmdRemainingLen_ : Z;                     (* size_t *)
}.

Definition size_t (z : Z) : Z := z mod 18446744073709551616.

#[global] Arguments size_t : simpl never.

Section Xfer.
Context `{HostEndian}.

(** * commands/AtlasCommandXfer.cpp *)

Definition xfer_init (x : AtlasCommandXfer) : AtlasCommandXfer :=
  mk_xfer (data_ x) ATLAS_CMD_XFER_HEADER_STATE 0 ATLAS_CMD_HEADER_LEN.

Definition handleArrivedData (bytesTransferred : Z) (x : AtlasCommandXfer) : res AtlasCommandXfer :=
  let cmdRemainingLen := size_t (cmdRemainingLen_ x - bytesTransferred) in
  let cmdLen := size_t (cmdLen_ x + bytesTransferred) in
  (* Command read FSM *)
  match cmdXferState_ x with
  | ATLAS_CMD_XFER_HEADER_STATE =>
      if decide (cmdRemainingLen = 0) then
        (* Read command length (skip type) *)
        len ← mem_load (data_ x) 2 2;
        (* Read payload now *)
        Ok (mk_xfer (data_ x) ATLAS_CMD_XFER_PAYLOAD_STATE cmdLen (ntohs (ld16 len)))
      else Ok (mk_xfer (data_ x) ATLAS_CMD_XFER_HEADER_STATE cmdLen cmdRemainingLen)
  | ATLAS_CMD_XFER_PAYLOAD_STATE =>
      Ok (mk_xfer (data_ x) ATLAS_CMD_XFER_PAYLOAD_STATE cmdLen cmdRemainingLen)
  end.

Definition isCmdAvailable (x : AtlasCommandXfer) : bool :=
  bool_decide (cmdXferState_ x = ATLAS_CMD_XFER_PAYLOAD_STATE /\ cmdRemainingLen_ x = 0).

(** One successful read: the chunk is stored at [getReadBuffer], then the body
    of [handleRead] runs. The result is the argument of [processCommand], if it
    is called. *)
Definition handleRead (chunk : list byte) (x : AtlasCommandXfer)
  : res (option (list byte) * AtlasCommandXfer) :=
  data ← mem_store (data_ x) (cmdLen_ x) chunk;
  x ← handleArrivedData (blen chunk) (mk_xfer data (cmdXferState_ x) (cmdLen_ x) (cmdRemainingLen_ x));
  if isCmdAvailable x then
    cmd ← mem_load (data_ x) 0 (cmdLen_ x);
    Ok (Some cmd, xfer_init x)
  else Ok (None, x).

(** The reads of a connection: the [i]-th one transfers at most [S n] bytes for
    the [i]-th [n] of [sizes], as many as remain and as the peer has sent. The
    result is the sequence of commands processed and what is left of the
    stream. *)
Fixpoint run_reads (sizes : list nat) (stream : list byte) (x : AtlasCommandXfer)
  : res (list (list byte) * list byte * AtlasCommandXfer) :=
  match sizes with
  | [] => Ok ([], stream, x)
  | n :: sizes =>
      match stream with
      | [] => Ok ([], [], x)
      | _ =>
          let chunk := take (S n `min` Z.to_nat (cmdRemainingLen_ x)) stream in
          '(cmd, x) ← handleRead chunk x;
          '(cmds, stream, x) ← run_reads sizes (drop (length chunk) stream) x;
          Ok (option_list cmd ++ cmds, stream, x)
      end
  end.

(** * Specification *)

(** Between two commands. *)
Definition xfer_idle (x : AtlasCommandXfer) : Prop :=
  blen (data_ x) = ATLAS_PUB_SUB_AGENT_BUF_LEN /\ xfer_init x = x.

(** In the middle of a command: [got] has arrived, [todo] has not. *)
Record xfer_mid (c : cmd) (got todo : list byte) (x : AtlasCommandXfer) : Prop := {
  mid_size : blen (data_ x) = ATLAS_PUB_SUB_AGENT_BUF_LEN;
  mid_split : got ++ todo = encode1 c;
  mid_todo : todo <> [];
  mid_got : exists rest, data_ x = got ++ rest;
  mid_len : cmdLen_ x = blen got;
  mid_state : if decide (blen got < 4)
              then cmdXferState_ x = ATLAS_CMD_XFER_HEADER_STATE /\ cmdRemainingLen_ x = 4 - blen got
              else cmdXferState_ x = ATLAS_CMD_XFER_PAYLOAD_STATE /\ cmdRemainingLen_ x = blen todo;
}.

Lemma encode1_not_nil c : encode1 c <> [].
Proof. by destruct c. Qed.

Lemma idle_mid c x : xfer_idle x -> xfer_mid c [] (encode1 c) x.
Proof.
  intros [Hsize Hinit]. split; auto using encode1_not_nil.
  - by exists (data_ x).
  - by rewrite <- Hinit.
  - rewrite <- Hinit. done.
Qed.

Lemma mid_remaining c got todo x :
  xfer_mid c got todo x -> 0 < cmdRemainingLen_ x <= blen todo.
Proof.
  intros [_ Hsplit Htodo _ _ Hst]. apply (f_equal blen) in Hsplit.
  autorewrite with blen in Hsplit. assert (blen todo <> 0) by (by intros ?%blen_0_inv).
  blen_pos. case_decide; destruct Hst as [_ ->]; lia.
Qed.

(** The length field of a command whose header has arrived. *)
Lemma header_length c got rest :
  wf_cmd c -> encode1 c = got ++ rest -> blen got = 4 ->
  exists data t, got = be16 t ++ be16 (blen c.2) /\ forall post,
    mem_load (got ++ post) 2 2 = Ok data /\ ntohs (ld16 data) = blen c.2.
Proof.
  intros [Ht Hv] Hsplit Hgot. unfold encode1 in Hsplit. rewrite app_assoc in Hsplit.
  apply app_inj_1 in Hsplit as [<- _]; [|unfold be16; cbn; unfold blen in Hgot; lia].
  exists (be16 (blen c.2)), c.1. split; [done|]. intros post. rewrite <- app_assoc. split.
  - by apply mem_load_app.
  - apply ntohs_ld16_be16. split; [apply blen_nonneg|done].
Qed.

(** One read in the middle of a command delivers it when it is complete and
    otherwise stays in the middle of it. *)
Lemma handleRead_mid c got chunk todo x :
  wf_cmd c -> blen (encode1 c) <= ATLAS_PUB_SUB_AGENT_BUF_LEN ->
  xfer_mid c got (chunk ++ todo) x -> chunk <> [] -> blen chunk <= cmdRemainingLen_ x ->
  exists x', handleRead chunk x = Ok (if decide (todo = []) then Some (encode1 c) else None, x') /\
    if decide (todo = []) then xfer_idle x' else xfer_mid c (got ++ chunk) todo x'.
Proof.
  intros Hc Hfit Hmid Hne Hle. pose proof (mid_remaining _ _ _ _ Hmid) as Hrem.
  destruct Hmid as [Hsize Hsplit _ (rest & Hdata) Hlen Hst].
  assert (Htot : blen got + blen chunk + blen todo = blen (encode1 c))
    by (rewrite <- Hsplit; blia).
  unfold ATLAS_PUB_SUB_AGENT_BUF_LEN in *.
  assert (Hroom : blen got + blen rest = 8192) by (rewrite <- Hsize, Hdata; blia).
  blen_pos. set (rest1 := take (length chunk) rest). set (rest2 := drop (length chunk) rest).
  assert (Hr1 : blen rest1 = blen chunk) by (unfold rest1, blen in *; rewrite length_take; lia).
  assert (Hrest : rest = rest1 ++ rest2) by (symmetry; apply take_drop).
  unfold handleRead. rewrite Hdata, Hrest, Hlen, mem_store_app by done.
  rewrite res_bind_ok. set (data := got ++ chunk ++ rest2).
  assert (Hsz : blen data = 8192) by (unfold data; rewrite Hrest in Hroom; blia).
  assert (Hpre : exists post, data = (got ++ chunk) ++ post) by (exists rest2; unfold data; by rewrite app_assoc).
  assert (Hsz1 : size_t (cmdRemainingLen_ x - blen chunk) = cmdRemainingLen_ x - blen chunk)
    by (unfold size_t; blia).
  assert (Hsz2 : size_t (blen got + blen chunk) = blen got + blen chunk) by (unfold size_t; blia).
  assert (Hdone : forall x', data_ x' = data -> cmdXferState_ x' = ATLAS_CMD_XFER_PAYLOAD_STATE ->
    cmdLen_ x' = blen got + blen chunk -> cmdRemainingLen_ x' = blen todo ->
    exists x'', (if isCmdAvailable x' then cmd ← mem_load (data_ x') 0 (cmdLen_ x'); Ok (Some cmd, xfer_init x')
                 else Ok (None, x')) =
      Ok (if decide (todo = []) then Some (encode1 c) else None, x'') /\
      if decide (todo = []) then xfer_idle x'' else 4 <= blen (got ++ chunk) -> xfer_mid c (got ++ chunk) todo x'').
  { intros x' Hd Hs Hl Hr. unfold isCmdAvailable. rewrite Hs, Hr.
    destruct (decide (todo = [])) as [->|Htodo].
    - rewrite bool_decide_true by done. exists (xfer_init x'). rewrite Hd, Hl. destruct Hpre as (post & ->).
      rewrite <- blen_app, mem_load_prefix by done. rewrite app_nil_r in Hsplit. rewrite Hsplit.
      split; [done|]. split; [|done]. by cbn; rewrite Hd.
    - rewrite bool_decide_false by (intros [_ ?%blen_0_inv]; done).
      exists x'. split; [done|]. intros Hge. split; auto.
      + by rewrite Hd.
      + by rewrite <- app_assoc.
      + rewrite Hd. done.
      + by rewrite blen_app.
      + rewrite decide_False by lia. by rewrite Hs, Hr. }
  unfold handleArrivedData. cbn [data_ cmdXferState_ cmdLen_ cmdRemainingLen_].
  rewrite Hsz1, Hsz2. destruct (decide (blen got < 4)) as [Hhd|Hhd]; destruct Hst as [-> Hrl].
  - destruct (decide (cmdRemainingLen_ x - blen chunk = 0)) as [Hz|Hnz].
    + rewrite app_assoc in Hsplit.
      destruct (header_length c (got ++ chunk) todo) as (raw & t & Hh & Hload); [done..|blia|].
      destruct Hpre as (post & Hp). destruct (Hload post) as [Hraw Hval]. rewrite Hp, Hraw.
      rewrite res_bind_ok, res_bind_ok, Hval. rewrite <- Hp.
      assert (Htd : blen todo = blen c.2) by (autorewrite with blen in Htot; lia).
      destruct (Hdone (mk_xfer data ATLAS_CMD_XFER_PAYLOAD_STATE (blen got + blen chunk) (blen c.2)))
        as (x'' & -> & Hx); [done..|]. exists x''. split; [done|]. case_decide; [done|]. apply Hx. blia.
    + rewrite res_bind_ok. assert (Htodo : todo <> []) by (intros ->; autorewrite with blen in Htot; blen_pos; lia).
      unfold isCmdAvailable. rewrite bool_decide_false by (intros [? _]; done).
      rewrite (decide_False (P := todo = [])) by done. eexists. split; [done|].
      rewrite decide_False by done. split; cbn [data_ cmdXferState_ cmdLen_ cmdRemainingLen_]; auto.
      * by rewrite <- app_assoc.
      * by rewrite blen_app.
      * rewrite decide_True by blia. split; [done|blia].
  - rewrite res_bind_ok.
    destruct (Hdone (mk_xfer data ATLAS_CMD_XFER_PAYLOAD_STATE (blen got + blen chunk)
      (cmdRemainingLen_ x - blen chunk))) as (x'' & -> & Hx); [done..| |].
    { cbn. rewrite Hrl. blia. }
    exists x''. split; [done|]. case_decide; [done|]. apply Hx. blia.
Qed.

Definition fits_buffer (c : cmd) : Prop :=
  wf_cmd c /\ blen (encode1 c) <= ATLAS_PUB_SUB_AGENT_BUF_LEN.

Lemma run_reads_end sizes x : run_reads sizes [] x = Ok ([], [], x).
Proof. by destruct sizes. Qed.

(** The chunk of a read in the middle of a command is a part of that command. *)
Lemma chunk_of_todo c got todo more x n :
  xfer_mid c got todo x ->
  exists chunk todo', todo = chunk ++ todo' /\ chunk <> [] /\ blen chunk <= cmdRemainingLen_ x /\
    take (S n `min` Z.to_nat (cmdRemainingLen_ x)) (todo ++ more) = chunk.
Proof.
  intros Hmid. pose proof (mid_remaining _ _ _ _ Hmid) as Hrem.
  set (k := (S n `min` Z.to_nat (cmdRemainingLen_ x))%nat).
  assert (Hk : (0 < k <= length todo)%nat) by (unfold blen in Hrem; lia).
  exists (take k todo), (drop k todo). rewrite take_drop, take_app_le by lia. repeat split.
  - intros Hz%(f_equal length). rewrite length_take in Hz. cbn [length] in Hz. lia.
  - unfold blen. rewrite length_take. lia.
Qed.

Lemma run_reads_mid sizes c cs got todo x :
  Forall fits_buffer (c :: cs) -> xfer_mid c got todo x ->
  exists n rest x', run_reads sizes (todo ++ encode cs) x = Ok (encode1 <$> take n (c :: cs), rest, x') /\
    ((length (todo ++ encode cs) <= length sizes)%nat -> n = length (c :: cs) /\ rest = [] /\ xfer_idle x').
Proof.
  revert c cs got todo x. induction sizes as [|m sizes IH]; intros c cs got todo x Hall Hmid.
  { exists 0%nat, (todo ++ encode cs), x. split; [done|]. rewrite length_app.
    pose proof (mid_todo _ _ _ _ Hmid). destruct todo; cbn; [done|lia]. }
  pose proof Hall as [[Hc Hfit] Hcs]%Forall_cons.
  destruct (chunk_of_todo c got todo (encode cs) x m Hmid) as (chunk & todo' & -> & Hne & Hle & Hchunk).
  cbn [run_reads]. rewrite Hchunk, <- app_assoc, drop_app_length.
  destruct (chunk ++ todo' ++ encode cs) as [|b0 l0] eqn:Hstream; [by destruct chunk|].
  destruct (handleRead_mid c got chunk todo' x Hc Hfit Hmid Hne Hle) as (x' & -> & Hx'). rewrite res_bind_ok.
  assert (Hlen : (0 < length chunk)%nat) by (destruct chunk; [done|cbn; lia]).
  apply (f_equal length) in Hstream. rewrite length_app in Hstream. cbn [length] in Hstream |- *.
  destruct (decide (todo' = [])) as [->|Htodo].
  - cbn [app] in *. destruct cs as [|c2 cs].
    + cbn [encode]. rewrite run_reads_end, res_bind_ok. exists 1%nat, [], x'. split; [done|]. auto.
    + destruct (IH c2 cs [] (encode1 c2) x' Hcs (idle_mid c2 x' Hx')) as (n & rest & x2 & Hrun & Hend).
      cbn [encode] in Hrun, Hend, Hstream |- *. rewrite Hrun, res_bind_ok. exists (S n), rest, x2. split; [done|].
      intros Hs. destruct Hend as (-> & -> & Hidle); [lia|]. done.
  - destruct (IH c cs (got ++ chunk) todo' x' Hall Hx') as (n & rest & x2 & -> & Hend).
    rewrite res_bind_ok. exists n, rest, x2. split; [done|]. intros Hs. apply Hend. lia.
Qed.
End Xfer.

(** * Theorems *)

(** C28: the reassembly does not depend on how the stream is cut: whatever number
    of bytes each read transfers, the commands handed to [processCommand] are
    the commands that were written, whole, one at a time and in order, and once
    there have been as many reads as bytes all of them have been. *)
Theorem stream_reassembled `{HostEndian} (sizes : list nat) (cs : list cmd) (x : AtlasCommandXfer) :
  Forall fits_buffer cs -> xfer_idle x ->
  exists n rest x', run_reads sizes (encode cs) x = Ok (encode1 <$> take n cs, rest, x') /\
    ((length (encode cs) <= length sizes)%nat -> n = length cs /\ rest = [] /\ xfer_idle x').
Proof.
  intros Hall Hidle. destruct cs as [|c cs].
  - exists 0%nat, [], x. cbn [encode]. by rewrite run_reads_end.
  - apply (run_reads_mid sizes c cs [] (encode1 c) x Hall (idle_mid c x Hidle)).
Qed.

Definition idle_xfer : AtlasCommandXfer :=
  mk_xfer (replicate (Z.to_nat 8192) xff) ATLAS_CMD_XFER_HEADER_STATE 0 4.

Lemma stream_reassembled_witness :
  exists n rest x', @run_reads true [2; 9; 0; 0; 0; 0; 0; 0; 0; 0; 0; 0]%nat
      (encode [(1002, [x41; x42]); (1000, [])]) idle_xfer =
    Ok (encode1 <$> take n [(1002, [x41; x42]); (1000, [])], rest, x') /\
    ((10 <= 12)%nat -> n = 2%nat /\ rest = [] /\ xfer_idle x').
Proof.
  apply (@stream_reassembled true [2; 9; 0; 0; 0; 0; 0; 0; 0; 0; 0; 0]%nat [(1002, [x41; x42]); (1000, [])] idle_xfer).
  - repeat constructor; done.
  - split; [|done]. unfold idle_xfer. cbn [data_]. by rewrite blen_replicate.
Defined.

(** The reassembly buffer is not protected: a header that announces more
    than the 8188 bytes left behind it is accepted, the next read is offered all
    the announced bytes, and one that transfers more than 8188 of them writes
    past the buffer. *)
Theorem stream_overflow `{HostEndian} (t l : Z) (chunk : list byte) (x : AtlasCommandXfer) :
  is_u16 t -> is_u16 l -> xfer_idle x -> 8188 < blen chunk <= l ->
  exists x', handleRead (be16 t ++ be16 l) x = Ok (None, x') /\ cmdRemainingLen_ x' = l /\
    handleRead chunk x' = Fault OutOfBounds.
Proof.
  intros Ht Hl [Hsize Hinit] Hbig. rewrite <- Hinit. unfold xfer_init, ATLAS_PUB_SUB_AGENT_BUF_LEN in *.
  destruct (data_ x) as [|b0 [|b1 [|b2 [|b3 rest]]]] eqn:Hd; [by rewrite ?blen_cons, blen_nil in Hsize..|].
  unfold handleRead at 1. cbn [data_ cmdLen_ cmdXferState_ cmdRemainingLen_].
  pose proof (mem_store_app [] [b0; b1; b2; b3] rest 0 (be16 t ++ be16 l) eq_refl eq_refl) as Hst.
  cbn [app] in Hst. rewrite Hst, res_bind_ok. unfold handleArrivedData. cbn [data_ cmdLen_ cmdXferState_ cmdRemainingLen_].
  rewrite decide_True by done. rewrite <- (app_assoc (be16 t)).
  rewrite (mem_load_app (be16 t) (be16 l) rest 2 2) by done. rewrite res_bind_ok, ntohs_ld16_be16 by done.
  rewrite res_bind_ok. unfold isCmdAvailable. cbn [cmdXferState_ cmdRemainingLen_].
  rewrite bool_decide_false by lia. eexists. split; [done|]. split; [done|].
  unfold handleRead. cbn [data_ cmdLen_].
  rewrite mem_store_oob; [done|intros ->; rewrite blen_nil in Hbig; lia|].
  change (size_t (0 + blen (be16 t ++ be16 l))) with 4. autorewrite with blen in *. lia.
Qed.

Lemma stream_overflow_witness :
  exists x', @handleRead true (be16 1001 ++ be16 9000) idle_xfer = Ok (None, x') /\ cmdRemainingLen_ x' = 9000 /\
    @handleRead true (replicate (Z.to_nat 9000) x41) x' = Fault OutOfBounds.
Proof.
  apply (@stream_overflow true).
  - done.
  - done.
  - split; [|done]. unfold idle_xfer. cbn [data_]. by rewrite blen_replicate.
  - rewrite blen_replicate. done.
Defined.
