(* ===== verification/GwFilter.v ===== *)
(** The packet filter of the broker plug-in
    (mosquitto_plugin/filter/AtlasPacketPolicer.cpp, AtlasPacketStats.h,
    AtlasFilter.cpp): one rule per destination client, a fixed-window rate
    limit, statistics, and the commands that install, remove and read rules.

    Every operation takes [mutex_] around its accesses to the two maps, so each
    is one step on the state. What [async_write] is given is appended to
    [sent_]. *)
From S2P Require Import Prelude Defs CLib Command GwDefs GwBatch GwXfer.
Import GwType.

(** * Data *)

(** AtlasPacketPolicer.h. The default constructor initialises nothing: a policer
    made by it has no representation here, and reading one is a fault. *)
Record AtlasPacketPolicer := mk_policer {
  windowPpm_ : Z;        (* uint32_t *)
  maxQos_ : Z;           (* uint8_t *)
  ppm_ : Z;              (* uint16_t *)
  maxPayloadLen_ : Z;    (* uint16_t *)
  statPktDrop_ : Z;      (* uint32_t *)
  statPktPass_ : Z;      (* uint32_t *)
}.

(** AtlasPacketStats.h *)
Record AtlasPacketStats := mk_stats {
  passedPkts_ : Z;       (* uint32_t *)
  droppedPkts_ : Z;      (* uint32_t *)
}.

(** AtlasPacket.h: the fields a filter reads (the user names, the topic and the
    payload are only carried). Client ids are C strings that may be NULL. *)
Record AtlasPacket := mk_packet {
  srcClientId_ : option (list byte);
  dstClientId_ : option (list byte);
  qos_ : Z;              (* uint8_t *)
  payloadLen_ : Z;       (* uint16_t *)
}.

(** AtlasFilter.h *)
Record AtlasFilter := mk_filter {
  rules_ : gmap (list byte) AtlasPacketPolicer;
  txPktStats_ : gmap (list byte) AtlasPacketStats;
  cmdXfer_ : AtlasCommandXfer;
  sent_ : list (list byte);
}.

Definition set_rules (r : gmap (list byte) AtlasPacketPolicer) (f : AtlasFilter) : AtlasFilter :=
  mk_filter r (txPktStats_ f) (cmdXfer_ f) (sent_ f).
Definition set_tx (s : gmap (list byte) AtlasPacketStats) (f : AtlasFilter) : AtlasFilter :=
  mk_filter (rules_ f) s (cmdXfer_ f) (sent_ f).
Definition set_xfer (x : AtlasCommandXfer) (f : AtlasFilter) : AtlasFilter :=
  mk_filter (rules_ f) (txPktStats_ f) x (sent_ f).
(** The bytes given to [async_write], as they are at the call: the buffer is a local
    batch's, which does not live until the write completes. *)
Definition filter_write (bytes : list byte) (f : AtlasFilter) : AtlasFilter :=
  mk_filter (rules_ f) (txPktStats_ f) (cmdXfer_ f) (sent_ f ++ [bytes]).

(** * AtlasPacketPolicer.cpp *)

(** The constructor's first parameter is a [uint8_t]. *)
Definition new_policer (maxQos ppm maxPayloadLen : Z) : AtlasPacketPolicer :=
  mk_policer 0 (u8 maxQos) (u16 ppm) (u16 maxPayloadLen) 0 0.

Definition policer_filter (pkt : AtlasPacket) (p : AtlasPacketPolicer) : bool * AtlasPacketPolicer :=
  (* Increment rate limit window counter *)
  let windowPpm := u32 (windowPpm_ p + 1) in
  let DROP := (false, mk_policer windowPpm (maxQos_ p) (ppm_ p) (maxPayloadLen_ p)
                        (u32 (statPktDrop_ p + 1)) (statPktPass_ p)) in
  if decide (qos_ pkt > maxQos_ p) then DROP else
  if decide (payloadLen_ pkt > maxPayloadLen_ p) then DROP else
  if decide (windowPpm > ppm_ p) then DROP else
  (* Accept packet *)
  (true, mk_policer windowPpm (maxQos_ p) (ppm_ p) (maxPayloadLen_ p)
           (statPktDrop_ p) (u32 (statPktPass_ p + 1))).

Definition rateLimitWindowStart (p : AtlasPacketPolicer) : AtlasPacketPolicer :=
  mk_policer 0 (maxQos_ p) (ppm_ p) (maxPayloadLen_ p) (statPktDrop_ p) (statPktPass_ p).

Definition policer_clear_stats (p : AtlasPacketPolicer) : AtlasPacketPolicer :=
  mk_policer (windowPpm_ p) (maxQos_ p) (ppm_ p) (maxPayloadLen_ p) 0 0.

(** * AtlasPacketStats.h *)

Definition new_stats : AtlasPacketStats := mk_stats 0 0.
Definition incPassedPkts (s : AtlasPacketStats) : AtlasPacketStats :=
  mk_stats (u32 (passedPkts_ s + 1)) (droppedPkts_ s).
Definition incDroppedPkts (s : AtlasPacketStats) : AtlasPacketStats :=
  mk_stats (passedPkts_ s) (u32 (droppedPkts_ s + 1)).

(** * AtlasFilter.cpp *)

(** The timer of the fixed window, when it expires without an error. *)
Definition timerHandler (f : AtlasFilter) : AtlasFilter :=
  set_rules (rateLimitWindowStart <$> rules_ f) f.

(** [AtlasFilter::filter]. [std::string] of a NULL pointer is undefined. *)
Definition filter_packet (pkt : AtlasPacket) (f : AtlasFilter) : res (bool * AtlasFilter) :=
  match dstClientId_ pkt with
  | None => Fault NullDeref
  | Some dstClientId =>
      (* If no rule is found for the destination client id, then packet can be processed *)
      let '(processPkt, rules) :=
        match rules_ f !! dstClientId with
        | None => (true, rules_ f)
        | Some p => let '(v, p) := policer_filter pkt p in (v, <[dstClientId := p]> (rules_ f))
        end in
      (* Increment TX statistics *)
      let tx :=
        match srcClientId_ pkt with
        | None => txPktStats_ f
        | Some src =>
            match txPktStats_ f !! src with
            | None => txPktStats_ f
            | Some s => <[src := if (processPkt : bool) then incPassedPkts s else incDroppedPkts s]> (txPktStats_ f)
            end
        end in
      Ok (processPkt, set_tx tx (set_rules rules f))
  end.

Section Filter.
Context `{HostEndian}.

Definition read_u16 (cmd : AtlasCommand) : res Z := raw ← cmd_bytes cmd; Ok (ntohs (ld16 raw)).

(** The client id of a command set: the last one given. *)
Definition client_id_body (clientId : list byte) (cmd : AtlasCommand) : res (list byte) :=
  if decide (type_ cmd = code ATLAS_CMD_PUB_SUB_CLIENT_ID) then cmd_bytes cmd else Ok clientId.

(** The command writes of [writeFirewallStats]: an inner batch inside one
    command of an outer batch. *)
Definition writeFirewallStats (clientId : list byte)
    (ruleDroppedPkts rulePassedPkts txDroppedPkts txPassedPkts : Z) (f : AtlasFilter) : res AtlasFilter :=
  '(inner, inner_len) ← serialized_commands
    [new_AtlasCommand (code ATLAS_CMD_PUB_SUB_CLIENT_ID) (blen clientId) (Some clientId);
     new_AtlasCommand (code ATLAS_CMD_PUB_SUB_PKT_DROP) 4 (Some (st32 (htonl ruleDroppedPkts)));
     new_AtlasCommand (code ATLAS_CMD_PUB_SUB_PKT_PASS) 4 (Some (st32 (htonl rulePassedPkts)));
     new_AtlasCommand (code ATLAS_CMD_PUB_SUB_TX_PKT_DROP) 4 (Some (st32 (htonl txDroppedPkts)));
     new_AtlasCommand (code ATLAS_CMD_PUB_SUB_TX_PKT_PASS) 4 (Some (st32 (htonl txPassedPkts)))];
  '(outer, outer_len) ← serialized_commands
    [new_AtlasCommand (code ATLAS_CMD_PUB_SUB_PUT_STAT_FIREWALL_RULE) inner_len inner];
  (* Write command to gateway *)
  bytes ← mem_load (default [] outer) 0 outer_len;
  Ok (filter_write bytes f).

(** [operator[]] of a missing client id adds a default policer, whose counters
    are then read uninitialised; a missing [AtlasPacketStats] is made of
    zeros. *)
Definition getFirewallRuleStats (cmdBuf : option (list byte)) (cmdLen : Z) (f : AtlasFilter) : res AtlasFilter :=
  cmds ← parsed_commands cmdBuf cmdLen;
  clientId ← for_each client_id_body cmds [];
  if decide (clientId = []) then Ok f else
  match rules_ f !! clientId with
  | None => Fault Uninitialised
  | Some p =>
      let tx := default new_stats (txPktStats_ f !! clientId) in
      let f' := set_tx (<[clientId := new_stats]> (txPktStats_ f))
                  (set_rules (<[clientId := policer_clear_stats p]> (rules_ f)) f) in
      writeFirewallStats clientId (statPktDrop_ p) (statPktPass_ p) (droppedPkts_ tx) (passedPkts_ tx) f'
  end.

Definition removeFirewallRule (cmdBuf : option (list byte)) (cmdLen : Z) (f : AtlasFilter) : res AtlasFilter :=
  cmds ← parsed_commands cmdBuf cmdLen;
  clientId ← for_each client_id_body cmds [];
  if decide (clientId = []) then Ok f else
  Ok (set_tx (delete clientId (txPktStats_ f)) (set_rules (delete clientId (rules_ f)) f)).

(** The local variables of [installFirewallRule]; an unset value is one whose
    [Found] flag is false. *)
Record rule_args := mk_rule_args {
  ra_clientId : list byte;
  ra_maxQos : option Z;
  ra_ppm : option Z;
  ra_maxPayloadLen : option Z;
}.

Definition install_body (a : rule_args) (cmd : AtlasCommand) : res rule_args :=
  if decide (type_ cmd = code ATLAS_CMD_PUB_SUB_CLIENT_ID) then
    v ← cmd_bytes cmd; Ok (mk_rule_args v (ra_maxQos a) (ra_ppm a) (ra_maxPayloadLen a))
  else if decide (type_ cmd = code ATLAS_CMD_PUB_SUB_MAX_QOS /\ len_ cmd = 2) then
    v ← read_u16 cmd; Ok (mk_rule_args (ra_clientId a) (Some v) (ra_ppm a) (ra_maxPayloadLen a))
  else if decide (type_ cmd = code ATLAS_CMD_PUB_SUB_PPM /\ len_ cmd = 2) then
    v ← read_u16 cmd; Ok (mk_rule_args (ra_clientId a) (ra_maxQos a) (Some v) (ra_maxPayloadLen a))
  else if decide (type_ cmd = code ATLAS_CMD_PUB_SUB_MAX_PAYLOAD_LEN /\ len_ cmd = 2) then
    v ← read_u16 cmd; Ok (mk_rule_args (ra_clientId a) (ra_maxQos a) (ra_ppm a) (Some v))
  else Ok a.

Definition installFirewallRule (cmdBuf : option (list byte)) (cmdLen : Z) (f : AtlasFilter) : res AtlasFilter :=
  cmds ← parsed_commands cmdBuf cmdLen;
  a ← for_each install_body cmds (mk_rule_args [] None None None);
  if decide (ra_clientId a = []) then Ok f else
  match ra_maxQos a, ra_ppm a, ra_maxPayloadLen a with
  | Some maxQos, Some ppm, Some maxPayloadLen =>
      (* Install firewall rule *)
      Ok (set_tx (<[ra_clientId a := new_stats]> (txPktStats_ f))
            (set_rules (<[ra_clientId a := new_policer maxQos ppm maxPayloadLen]> (rules_ f)) f))
  | _, _, _ => Ok f
  end.

Definition process_body (f : AtlasFilter) (cmd : AtlasCommand) : res AtlasFilter :=
  if decide (type_ cmd = code ATLAS_CMD_PUB_SUB_INSTALL_FIREWALL_RULE) then
    installFirewallRule (val_ cmd) (len_ cmd) f
  else if decide (type_ cmd = code ATLAS_CMD_PUB_SUB_REMOVE_FIREWALL_RULE) then
    removeFirewallRule (val_ cmd) (len_ cmd) f
  else if decide (type_ cmd = code ATLAS_CMD_PUB_SUB_GET_STAT_FIREWALL_RULE) then
    getFirewallRuleStats (val_ cmd) (len_ cmd) f
  else Ok f.

Definition filter_processCommand (cmdBuffer : option (list byte)) (cmdLen : Z) (f : AtlasFilter) : res AtlasFilter :=
  cmds ← parsed_commands cmdBuffer cmdLen;
  for_each process_body cmds f.

(** [gatewayConnect], when [connect] succeeds (it is retried every ten seconds
    until it does): the rules are dropped and asked for again. *)
Definition gatewayConnect (f : AtlasFilter) : res AtlasFilter :=
  let f := set_rules ∅ f in
  let f := set_xfer (xfer_init (cmdXfer_ f)) f in
  (* Get all firewall rules *)
  '(buf, len) ← serialized_commands [new_AtlasCommand (code ATLAS_CMD_GET_ALL_PUB_SUB_FIREWALL_RULES) 0 None];
  bytes ← mem_load (default [] buf) 0 len;
  Ok (filter_write bytes f).

(** [AtlasFilter::handleRead]: a chunk, or an error of the socket ([None]). *)
Definition filter_handleRead (chunk : option (list byte)) (f : AtlasFilter) : res AtlasFilter :=
  match chunk with
  | Some chunk =>
      '(cmd, x) ← handleRead chunk (cmdXfer_ f);
      let f := set_xfer x f in
      match cmd with
      | Some cmd => filter_processCommand (Some cmd) (blen cmd) f
      | None => Ok f
      end
  | None => gatewayConnect f
  end.
End Filter.

(** * The rate limit *)

(** A sequence of packets through one rule, and through the filter. *)
Fixpoint run_policer (pkts : list AtlasPacket) (p : AtlasPacketPolicer) : list bool * AtlasPacketPolicer :=
  match pkts with
  | [] => ([], p)
  | pkt :: pkts =>
      let '(v, p) := policer_filter pkt p in
      let '(vs, p) := run_policer pkts p in (v :: vs, p)
  end.

Fixpoint run_filter (pkts : list AtlasPacket) (f : AtlasFilter) : res (list bool * AtlasFilter) :=
  match pkts with
  | [] => Ok ([], f)
  | pkt :: pkts =>
      '(v, f) ← filter_packet pkt f;
      '(vs, f) ← run_filter pkts f;
      Ok (v :: vs, f)
  end.

(** Specification: the [i]-th packet of a window, counted from zero, passes when
    it respects the two maxima and fewer than [ppm] packets came before it,
    whether or not they passed. *)
Definition allowed (p : AtlasPacketPolicer) (i : Z) (pkt : AtlasPacket) : bool :=
  bool_decide (qos_ pkt <= maxQos_ p /\ payloadLen_ pkt <= maxPayloadLen_ p /\ i < ppm_ p).

Fixpoint window_verdicts (p : AtlasPacketPolicer) (i : Z) (pkts : list AtlasPacket) : list bool :=
  match pkts with
  | [] => []
  | pkt :: pkts => allowed p i pkt :: window_verdicts p (i + 1) pkts
  end.

Definition count (b : bool) (vs : list bool) : Z := Z.of_nat (length (base.filter (fun v => v = b) vs)).

Lemma count_cons b v vs : count b (v :: vs) = (if decide (v = b) then 1 else 0) + count b vs.
Proof. unfold count. rewrite filter_cons. case_decide; cbn [length]; lia. Qed.

(** A rule after [n] more packets of which [vs] are the verdicts. *)
Definition policer_after (vs : list bool) (p : AtlasPacketPolicer) : AtlasPacketPolicer :=
  mk_policer (windowPpm_ p + Z.of_nat (length vs)) (maxQos_ p) (ppm_ p) (maxPayloadLen_ p)
    (u32 (statPktDrop_ p + count false vs)) (u32 (statPktPass_ p + count true vs)).

Lemma u32_add x y : u32 (u32 x + y) = u32 (x + y).
Proof. unfold u32. lia. Qed.

Lemma policer_filter_spec pkt p :
  0 <= windowPpm_ p < 4294967295 -> is_u32 (statPktDrop_ p) -> is_u32 (statPktPass_ p) ->
  policer_filter pkt p = (allowed p (windowPpm_ p) pkt, policer_after [allowed p (windowPpm_ p) pkt] p).
Proof.
  intros Hw Hd Hp. unfold policer_filter, policer_after, allowed.
  replace (u32 (windowPpm_ p + 1)) with (windowPpm_ p + 1) by (unfold u32; lia).
  assert (Hz : forall x, is_u32 x -> u32 (x + 0) = x) by (unfold u32, is_u32; lia).
  assert (Hdrop : forall Q : Prop, ~ Q -> forall dec : Decision Q,
    (false, mk_policer (windowPpm_ p + 1) (maxQos_ p) (ppm_ p) (maxPayloadLen_ p) (u32 (statPktDrop_ p + 1)) (statPktPass_ p)) =
    (@bool_decide Q dec, mk_policer (windowPpm_ p + Z.of_nat (length [@bool_decide Q dec])) (maxQos_ p) (ppm_ p)
      (maxPayloadLen_ p) (u32 (statPktDrop_ p + count false [@bool_decide Q dec]))
      (u32 (statPktPass_ p + count true [@bool_decide Q dec])))).
  { intros Q HQ dec. rewrite bool_decide_false by done. rewrite !count_cons. cbn. unfold count. cbn.
    by rewrite Hz. }
  case_decide as H1; [apply Hdrop; lia|]. case_decide as H2; [apply Hdrop; lia|].
  case_decide as H3; [apply Hdrop; lia|]. rewrite bool_decide_true by lia.
  rewrite !count_cons. cbn. unfold count. cbn. by rewrite Hz.
Qed.

Lemma length_window_verdicts p i pkts : length (window_verdicts p i pkts) = length pkts.
Proof. revert i. induction pkts as [|pkt pkts IH]; intros i; cbn; [done|]. by rewrite IH. Qed.

Lemma window_verdicts_after vs p i pkts : window_verdicts (policer_after vs p) i pkts = window_verdicts p i pkts.
Proof. revert i. induction pkts as [|pkt pkts IH]; intros i; cbn; [done|]. by rewrite IH. Qed.

(** The rule implements the specification, as long as the 32-bit counter of the
    window does not wrap. *)
Lemma run_policer_spec pkts p :
  0 <= windowPpm_ p -> windowPpm_ p + Z.of_nat (length pkts) < 4294967296 ->
  is_u32 (statPktDrop_ p) -> is_u32 (statPktPass_ p) ->
  run_policer pkts p =
  (window_verdicts p (windowPpm_ p) pkts, policer_after (window_verdicts p (windowPpm_ p) pkts) p).
Proof.
  revert p. induction pkts as [|pkt pkts IH]; intros p Hw Hn Hd Hp.
  { cbn. unfold policer_after. cbn. unfold count. cbn. rewrite !Z.add_0_r.
    unfold is_u32, u32 in *. rewrite !Z.mod_small by done. by destruct p. }
  cbn [run_policer window_verdicts length] in *. rewrite policer_filter_spec by (auto; lia).
  set (v := allowed p (windowPpm_ p) pkt). rewrite IH.
  - rewrite window_verdicts_after. cbn [policer_after windowPpm_ length].
    change (Z.of_nat 1) with 1. f_equal. unfold policer_after. cbn [windowPpm_ maxQos_ ppm_ maxPayloadLen_ statPktDrop_ statPktPass_ length].
    rewrite !u32_add. f_equal; [lia|..]; f_equal; rewrite !count_cons; unfold count; cbn; lia.
  - cbn. lia.
  - cbn. lia.
  - apply u32_range.
  - apply u32_range.
Qed.

(** No more than [ppm] packets pass in a window. *)
Lemma window_count p i pkts :
  is_u16 (ppm_ p) -> 0 <= i -> count true (window_verdicts p i pkts) <= Z.max 0 (ppm_ p - i).
Proof.
  intros Hppm. revert i. induction pkts as [|pkt pkts IH]; intros i Hi; cbn [window_verdicts].
  { unfold count. cbn. lia. }
  rewrite count_cons. specialize (IH (i + 1) ltac:(lia)). unfold allowed. case_decide as Hv; [|lia].
  apply bool_decide_eq_true in Hv. lia.
Qed.

(** ** Isolation of the rules *)

Definition to_client (d : list byte) (pkt : AtlasPacket) : Prop := dstClientId_ pkt = Some d.

#[export] Instance to_client_dec d pkt : Decision (to_client d pkt) := decide_rel (=) _ _.

(** The verdicts on the packets for one client. *)
Fixpoint verdicts_for (d : list byte) (pkts : list AtlasPacket) (vs : list bool) : list bool :=
  match pkts, vs with
  | pkt :: pkts, v :: vs => if decide (to_client d pkt) then v :: verdicts_for d pkts vs else verdicts_for d pkts vs
  | _, _ => []
  end.

Definition addressed (pkt : AtlasPacket) : Prop := is_Some (dstClientId_ pkt).

(** What one packet does to the rule of [d]. *)
Lemma filter_packet_rule pkt f d :
  addressed pkt ->
  exists v f', filter_packet pkt f = Ok (v, f') /\
    if decide (to_client d pkt) then
      match rules_ f !! d with
      | Some p => (v, rules_ f' !! d) = (let '(v, p) := policer_filter pkt p in (v, Some p))
      | None => v = true /\ rules_ f' !! d = None
      end
    else rules_ f' !! d = rules_ f !! d.
Proof.
  intros [e He]. assert (Hto : to_client d pkt <-> e = d).
  { unfold to_client. rewrite He. split; [by intros [= ->]|by intros ->]. }
  unfold filter_packet. rewrite He. destruct (rules_ f !! e) as [p|] eqn:Hr.
  - destruct (policer_filter pkt p) as [v p'] eqn:Hp. eexists _, _. split; [done|]. cbn [rules_ set_tx set_rules].
    case_decide as Hd; rewrite Hto in Hd.
    + subst e. by rewrite Hr, Hp, lookup_insert_eq.
    + by rewrite lookup_insert_ne.
  - eexists _, _. split; [done|]. cbn [rules_ set_tx set_rules]. case_decide as Hd; [|done].
    apply Hto in Hd as ->. by rewrite Hr.
Qed.

(** Through the filter, the rule of a client sees the packets for that client and
    no others. *)
Lemma run_filter_rule pkts f d p :
  Forall addressed pkts -> rules_ f !! d = Some p ->
  exists vs f', run_filter pkts f = Ok (vs, f') /\ length vs = length pkts /\
    (verdicts_for d pkts vs, rules_ f' !! d) =
    (let '(us, p) := run_policer (base.filter (to_client d) pkts) p in (us, Some p)).
Proof.
  intros Hall. revert f p. induction Hall as [|pkt pkts Hpkt _ IH]; intros f p Hr.
  { exists [], f. cbn. by rewrite Hr. }
  destruct (filter_packet_rule pkt f d Hpkt) as (v & f1 & Hf & Hd). cbn [run_filter]. rewrite Hf, res_bind_ok.
  rewrite filter_cons. destruct (decide (to_client d pkt)) as [Hto|Hto].
  - rewrite Hr in Hd. destruct (policer_filter pkt p) as [w p1] eqn:Hp. injection Hd as -> Hr1.
    destruct (IH f1 p1 Hr1) as (vs & f2 & -> & Hlen & Hvs). rewrite res_bind_ok.
    exists (w :: vs), f2. split; [done|]. split; [by cbn; rewrite Hlen|].
    cbn [verdicts_for run_policer]. rewrite decide_True, Hp by done.
    destruct (run_policer _ p1) as [us p2]. by injection Hvs as -> ->.
  - rewrite Hr in Hd. destruct (IH f1 p Hd) as (vs & f2 & -> & Hlen & Hvs). rewrite res_bind_ok.
    exists (v :: vs), f2. split; [done|]. split; [by cbn; rewrite Hlen|].
    cbn [verdicts_for]. by rewrite decide_False.
Qed.

Definition policer_wf (p : AtlasPacketPolicer) : Prop :=
  is_u16 (ppm_ p) /\ is_u32 (statPktDrop_ p) /\ is_u32 (statPktPass_ p).

(** C3: in a window that begins with the timer, whatever traffic there is for other
    clients, a packet for a client with a rule passes exactly when its QoS and
    its length respect the rule and fewer than [ppm] packets for that client came
    before it in the window; at most [ppm] of them pass, and every one of them is
    counted once, as passed or as dropped. *)
Theorem rate_limit_enforced (f : AtlasFilter) (pkts : list AtlasPacket) (d : list byte) (p : AtlasPacketPolicer) :
  rules_ f !! d = Some p -> policer_wf p -> Forall addressed pkts -> Z.of_nat (length pkts) < 4294967296 ->
  exists vs f' p', run_filter pkts (timerHandler f) = Ok (vs, f') /\ length vs = length pkts /\
    verdicts_for d pkts vs = window_verdicts p 0 (base.filter (to_client d) pkts) /\
    count true (verdicts_for d pkts vs) <= ppm_ p /\
    rules_ f' !! d = Some p' /\
    statPktPass_ p' = u32 (statPktPass_ p + count true (verdicts_for d pkts vs)) /\
    statPktDrop_ p' = u32 (statPktDrop_ p + count false (verdicts_for d pkts vs)).
Proof.
  intros Hr (Hppm & Hd & Hp) Hall Hn.
  destruct (run_filter_rule pkts (timerHandler f) d (rateLimitWindowStart p)) as (vs & f' & Hrun & Hlen & Hvs);
    [done|by cbn; rewrite lookup_fmap, Hr|].
  pose proof (length_filter (to_client d) pkts) as Hle.
  rewrite run_policer_spec in Hvs by (try done; cbn; lia). cbn [rateLimitWindowStart windowPpm_] in Hvs.
  injection Hvs as Hverd Hrule.
  assert (Hwv : forall i l, window_verdicts (rateLimitWindowStart p) i l = window_verdicts p i l).
  { intros i l. revert i. induction l as [|pkt l IH]; intros i; cbn; [done|]. by rewrite IH. }
  rewrite Hwv in Hverd, Hrule. eexists vs, f', _. rewrite Hverd.
  repeat split; try done. pose proof (window_count p 0 (base.filter (to_client d) pkts) Hppm) as Hc.
  unfold is_u16 in Hppm. lia.
Qed.

Definition sample_packet (d : list byte) (qos len : Z) : AtlasPacket := mk_packet None (Some d) qos len.

Lemma rate_limit_enforced_witness :
  let a := cstr "a" in let b := cstr "b" in
  let p := new_policer 1 2 100 in
  let f := mk_filter {[ a := p ]} ∅ idle_xfer [] in
  let pkts := [sample_packet a 0 10; sample_packet b 2 10; sample_packet a 2 10; sample_packet a 1 10] in
  exists vs f' p', run_filter pkts (timerHandler f) = Ok (vs, f') /\ length vs = length pkts /\
    verdicts_for a pkts vs = window_verdicts p 0 (base.filter (to_client a) pkts) /\
    count true (verdicts_for a pkts vs) <= ppm_ p /\
    rules_ f' !! a = Some p' /\
    statPktPass_ p' = u32 (statPktPass_ p + count true (verdicts_for a pkts vs)) /\
    statPktDrop_ p' = u32 (statPktDrop_ p + count false (verdicts_for a pkts vs)).
Proof.
  intros a b p f pkts. apply (rate_limit_enforced f pkts a p).
  - done.
  - done.
  - repeat constructor; by eexists.
  - done.
Defined.
