(* ===== verification/GwBayes.v ===== *)
(** The reputation of a device: features with their weights and transactions
    (reputation_impl/AtlasDeviceFeature.h, AtlasDeviceFeatureManager.cpp), the
    naive Bayes score (reputation_impl/AtlasReputation_NaiveBayes.cpp) and the
    feedback the gateway computes itself (device/reputation_feedback/).

    An [int] that would exceed its range is a fault, and so is [operator[]] on a
    feature the network does not have: the C++ code indexes one past the end of
    the vector. Arithmetic on [double] is the one of Double.v. *)
From S2P Require Import Prelude Defs CLib Double GwDefs.

(** * reputation_impl/AtlasDeviceFeatureType.h

    Both enumerations are cast from integers read from messages or from the
    database, so they are kept as integers. *)

Definition ATLAS_DEVICE_FEATURE_SENSOR : Z := 0.
Definition ATLAS_DEVICE_FEATURE_RESP_TIME : Z := 1.
Definition ATLAS_FEATURE_VALID_PACKETS : Z := 1000.
Definition ATLAS_FEATURE_REGISTER_TIME : Z := 1001.
Definition ATLAS_FEATURE_KEEPALIVE_PACKETS : Z := 1002.

Definition ATLAS_NETWORK_SYSTEM : Z := 0.
Definition ATLAS_NETWORK_SENSOR_START : Z := 100.
Definition ATLAS_NETWORK_SENSOR_TEMPERATURE : Z := 101.
Definition ATLAS_NETWORK_SENSOR_MAX : Z := 102.

(** * Features and networks *)

Record AtlasDeviceFeature := mk_feature {
  featureType_ : Z;
  weight_ : double;
  successTrans_ : Z;        (* int *)
}.

Record AtlasDeviceFeatureManager := mk_manager {
  features_ : list AtlasDeviceFeature;
  totalSuccessTrans_ : Z;   (* int *)
  totalTrans_ : Z;          (* int *)
  reputationScore_ : double;
  feedbackThreshold_ : double;
}.

Definition new_manager : AtlasDeviceFeatureManager := mk_manager [] 0 0 d0 (tenths 8).

Definition set_features (f : list AtlasDeviceFeature) (m : AtlasDeviceFeatureManager) : AtlasDeviceFeatureManager :=
  mk_manager f (totalSuccessTrans_ m) (totalTrans_ m) (reputationScore_ m) (feedbackThreshold_ m).
Definition setTotalSuccessfulTransactions (n : Z) (m : AtlasDeviceFeatureManager) : AtlasDeviceFeatureManager :=
  mk_manager (features_ m) n (totalTrans_ m) (reputationScore_ m) (feedbackThreshold_ m).
Definition setTotalTransactions (n : Z) (m : AtlasDeviceFeatureManager) : AtlasDeviceFeatureManager :=
  mk_manager (features_ m) (totalSuccessTrans_ m) n (reputationScore_ m) (feedbackThreshold_ m).
Definition updateReputation (v : double) (m : AtlasDeviceFeatureManager) : AtlasDeviceFeatureManager :=
  mk_manager (features_ m) (totalSuccessTrans_ m) (totalTrans_ m) v (feedbackThreshold_ m).
Definition updateFeedbackThreshold (v : double) (m : AtlasDeviceFeatureManager) : AtlasDeviceFeatureManager :=
  mk_manager (features_ m) (totalSuccessTrans_ m) (totalTrans_ m) (reputationScore_ m) v.
Definition updateWeight (w : double) (f : AtlasDeviceFeature) : AtlasDeviceFeature :=
  mk_feature (featureType_ f) w (successTrans_ f).
Definition setSuccessfulTransactions (n : Z) (f : AtlasDeviceFeature) : AtlasDeviceFeature :=
  mk_feature (featureType_ f) (weight_ f) n.

Definition INT_MAX : Z := 2147483647.

(** [++] of an [int]. *)
Definition incr (n : Z) : res Z := if decide (n = INT_MAX) then Fault SignedOverflow else Ok (n + 1).

Definition updateTotalTransactions (m : AtlasDeviceFeatureManager) : res AtlasDeviceFeatureManager :=
  n ← incr (totalTrans_ m); Ok (setTotalTransactions n m).
Definition updateTotalSuccessfulTransactions (m : AtlasDeviceFeatureManager) : res AtlasDeviceFeatureManager :=
  n ← incr (totalSuccessTrans_ m); Ok (setTotalSuccessfulTransactions n m).
Definition updateSuccessfulTransactions (f : AtlasDeviceFeature) : res AtlasDeviceFeature :=
  n ← incr (successTrans_ f); Ok (setSuccessfulTransactions n f).

(** The features before the first one of a type: where both scans stop. *)
Fixpoint feature_pos (type : Z) (l : list AtlasDeviceFeature) : nat :=
  match l with
  | [] => 0
  | f :: l => if decide (featureType_ f = type) then 0 else S (feature_pos type l)
  end.

(** A new feature, or a new weight for one that is there. *)
Definition addFeature (type : Z) (featureWeight : double) (m : AtlasDeviceFeatureManager) : bool * AtlasDeviceFeatureManager :=
  let pos := feature_pos type (features_ m) in
  if decide (pos < length (features_ m))%nat then (false, set_features (alter (updateWeight featureWeight) pos (features_ m)) m)
  else (true, set_features (features_ m ++ [mk_feature type featureWeight 0]) m).

(** The scan counts from -1, so [index] is one less than the position it stops at. *)
Definition removeFeature (type : Z) (m : AtlasDeviceFeatureManager) : bool * AtlasDeviceFeatureManager :=
  match feature_pos type (features_ m) with
  | O => (false, m)
  | S index => (true, set_features (delete index (features_ m)) m)
  end.

(** [operator[]], read and written. *)
Definition feature_at (type : Z) (m : AtlasDeviceFeatureManager) : res AtlasDeviceFeature :=
  match features_ m !! feature_pos type (features_ m) with Some f => Ok f | None => Fault OutOfBounds end.
Definition update_feature (type : Z) (g : AtlasDeviceFeature -> res AtlasDeviceFeature)
    (m : AtlasDeviceFeatureManager) : res AtlasDeviceFeatureManager :=
  f ← feature_at type m;
  f' ← g f;
  Ok (set_features (<[feature_pos type (features_ m) := f']> (features_ m)) m).

(** * reputation_impl/AtlasReputation_NaiveBayes.cpp *)

Definition computeReputationForFeature (m : AtlasDeviceFeatureManager) (f : AtlasDeviceFeature) : double :=
  if decide (totalTrans_ m = 0 \/ totalSuccessTrans_ m = 0 \/ successTrans_ f = 0) then d0
  else ddiv (double_of_int (successTrans_ f)) (double_of_int (totalSuccessTrans_ m)).

(** [computeReputation(manager)]: the score of the counts as they are. *)
Definition computeScore (m : AtlasDeviceFeatureManager) : double * AtlasDeviceFeatureManager :=
  if decide (totalTrans_ m = 0) then (d0, m) else
  let repVal := foldl (fun repVal f => dmul repVal (computeReputationForFeature m f))
                  (ddiv (double_of_int (totalSuccessTrans_ m)) (double_of_int (totalTrans_ m))) (features_ m) in
  (repVal, updateReputation repVal m).

Fixpoint satisfaction (m : AtlasDeviceFeatureManager) (score : double) (matrix : list (Z * double)) : res double :=
  match matrix with
  | [] => Ok score
  | (type, value) :: matrix => f ← feature_at type m; satisfaction m (dadd score (dmul value (weight_ f))) matrix
  end.

Fixpoint count_features (m : AtlasDeviceFeatureManager) (matrix : list (Z * double)) : res AtlasDeviceFeatureManager :=
  match matrix with
  | [] => Ok m
  | (type, value) :: matrix =>
      f ← feature_at type m;
      m ← (if dge (dmul value (weight_ f)) (dmul (feedbackThreshold_ m) (weight_ f))
           then update_feature type updateSuccessfulTransactions m else Ok m);
      count_features m matrix
  end.

(** [computeReputation(manager, feedbackMatrix)]. *)
Definition computeReputation (m : AtlasDeviceFeatureManager) (matrix : list (Z * double))
  : res (double * AtlasDeviceFeatureManager) :=
  m ← updateTotalTransactions m;
  satisfactionScore ← satisfaction m d0 matrix;
  m ← (if dge satisfactionScore (feedbackThreshold_ m)
       then m ← updateTotalSuccessfulTransactions m; count_features m matrix else Ok m);
  Ok (computeScore m).

(** * device/reputation_feedback *)

Inductive IAtlasFeedback :=
  | AtlasRegistrationFeedback (samplePeriodSec prevRegIntervalSec : Z)
  | AtlasKeepaliveFeedback (sampleKeepalivePkts prevKeepalivePkts : Z)
  | AtlasPacketsFeedback (prevStats : AtlasFirewallStats).

Definition feedback_type (fb : IAtlasFeedback) : Z :=
  match fb with
  | AtlasRegistrationFeedback _ _ => ATLAS_FEATURE_REGISTER_TIME
  | AtlasKeepaliveFeedback _ _ => ATLAS_FEATURE_KEEPALIVE_PACKETS
  | AtlasPacketsFeedback _ => ATLAS_FEATURE_VALID_PACKETS
  end.

(** A share of what a sample period should have. *)
Definition sample_feedback (now prev sample : Z) : double := ddiv (double_of_int (now - prev)) (double_of_int sample).

(** [const int ATLAS_PACKETS_DEFAULT_FEEDBACK = 0.4] *)
Definition ATLAS_PACKETS_DEFAULT_FEEDBACK : Z := 0.

Definition packets_feedback (stats prevStats : AtlasFirewallStats) : double * AtlasFirewallStats :=
  let window now prev := if decide (now >= prev) then now - prev else now in
  let txDroppedPkts := window (txDroppedPkts_ stats) (txDroppedPkts_ prevStats) in
  let txPassedPkts := window (txPassedPkts_ stats) (txPassedPkts_ prevStats) in
  let sum := u32 (txDroppedPkts + txPassedPkts) in
  if decide (sum = 0) then (double_of_int ATLAS_PACKETS_DEFAULT_FEEDBACK, prevStats)
  else (ddiv (double_of_int txPassedPkts) (double_of_int sum), stats).

(** * Facts *)

(** The types and weights of a network, which feedback does not change. *)
Definition shape (m : AtlasDeviceFeatureManager) : list (Z * double) * double :=
  ((fun f => (featureType_ f, weight_ f)) <$> features_ m, feedbackThreshold_ m).

Definition has_feature (m : AtlasDeviceFeatureManager) (type : Z) : Prop := type ∈ (shape m).1.*1.

(** No feature has more successful transactions than the network, nor the network
    more than transactions. *)
Definition counts_ok (m : AtlasDeviceFeatureManager) : Prop :=
  Forall (fun f => 0 <= successTrans_ f <= totalSuccessTrans_ m) (features_ m) /\
  0 <= totalSuccessTrans_ m <= totalTrans_ m /\ totalTrans_ m <= INT_MAX.

Lemma has_feature_types m type : has_feature m type <-> type ∈ featureType_ <$> features_ m.
Proof. unfold has_feature, shape. cbn. by rewrite <- list_fmap_compose. Qed.

Lemma feature_pos_in type l : type ∈ featureType_ <$> l ->
  exists f, l !! feature_pos type l = Some f /\ featureType_ f = type.
Proof.
  induction l as [|f l IH]; cbn; [by intros ?%elem_of_nil|]. intros Hin. case_decide as Ht; [by exists f|].
  apply elem_of_cons in Hin as [Heq|Hin]; [congruence|]. by apply IH.
Qed.

Lemma feature_pos_length type l : (feature_pos type l < length l)%nat <-> type ∈ featureType_ <$> l.
Proof.
  split.
  - revert type. induction l as [|f l IH]; intros type; cbn; [lia|]. case_decide as Ht.
    + intros _. rewrite Ht. left.
    + intros Hlt. right. apply IH. lia.
  - intros (f & Hf & _)%feature_pos_in. by eapply lookup_lt_Some.
Qed.

Lemma feature_at_ok type m : has_feature m type -> exists f, feature_at type m = Ok f /\ featureType_ f = type /\ f ∈ features_ m.
Proof.
  rewrite has_feature_types. intros (f & Hf & Ht)%feature_pos_in. exists f. unfold feature_at. rewrite Hf.
  split; [done|]. split; [done|]. by eapply list_elem_of_lookup_2.
Qed.

Lemma satisfaction_ok m matrix : (forall t, t ∈ matrix.*1 -> has_feature m t) ->
  forall score, exists s, satisfaction m score matrix = Ok s.
Proof.
  induction matrix as [|[type value] matrix IH]; intros Hall score; cbn; [by eexists|].
  destruct (feature_at_ok type m) as (f & -> & _); [apply Hall; left|]. apply IH. intros t Ht. apply Hall. by right.
Qed.

(** What the counting loop keeps and what it needs: the features it has yet to
    count can be counted. *)
Lemma count_features_spec m matrix :
  NoDup matrix.*1 -> (forall t, t ∈ matrix.*1 -> has_feature m t) -> totalSuccessTrans_ m <= INT_MAX ->
  Forall (fun f => 0 <= successTrans_ f <= totalSuccessTrans_ m /\
                   (featureType_ f ∈ matrix.*1 -> successTrans_ f < totalSuccessTrans_ m)) (features_ m) ->
  exists l, count_features m matrix = Ok (set_features l m) /\ shape (set_features l m) = shape m /\
    Forall (fun f => 0 <= successTrans_ f <= totalSuccessTrans_ m) l.
Proof.
  revert m. induction matrix as [|[type value] matrix IH]; intros m Hnd Hall Hmax Hinv; cbn.
  { exists (features_ m). destruct m; cbn. split; [done|]. split; [done|]. eapply Forall_impl; [exact Hinv|]. by intros f [? _]. }
  apply NoDup_cons in Hnd as [Hnew Hnd]. cbn in Hnew.
  destruct (feature_at_ok type m) as (f & Hf & Ht & Hin); [apply Hall; left|]. rewrite Hf, res_bind_ok.
  assert (Hrest : forall m', shape m' = shape m -> totalSuccessTrans_ m' = totalSuccessTrans_ m ->
    (forall l, set_features l m' = set_features l m) ->
    Forall (fun f => 0 <= successTrans_ f <= totalSuccessTrans_ m' /\
                     (featureType_ f ∈ matrix.*1 -> successTrans_ f < totalSuccessTrans_ m')) (features_ m') ->
    exists l, count_features m' matrix = Ok (set_features l m) /\ shape (set_features l m) = shape m /\
      Forall (fun f => 0 <= successTrans_ f <= totalSuccessTrans_ m) l).
  { intros m' Hsh HS Hset Hinv'. destruct (IH m') as (l & Hl & Hshl & Hall'); [done| |lia|done|].
    - intros t Htm. unfold has_feature. rewrite Hsh. apply Hall. by right.
    - exists l. rewrite <- !Hset, <- HS, Hl, Hshl. done. }
  destruct (dge _ _).
  - unfold update_feature, updateSuccessfulTransactions, incr. rewrite Hf, res_bind_ok.
    rewrite Forall_forall in Hinv. destruct (Hinv f Hin) as [Hs Hlt]. specialize (Hlt ltac:(rewrite Ht; left)).
    rewrite decide_False by lia. rewrite !res_bind_ok. apply Hrest; [|done|done|].
    + unfold shape, set_features. cbn. f_equal. rewrite list_fmap_insert. cbn. apply list_insert_id.
      rewrite list_lookup_fmap. unfold feature_at in Hf. destruct (features_ m !! _) eqn:Hl; [|done]. by simplify_eq.
    + cbn. apply Forall_insert; [apply Forall_forall; intros f' Hf'|].
      * destruct (Hinv f' Hf') as [? Hlt']. split; [done|]. intros Htm. apply Hlt'. by right.
      * cbn. split; [lia|]. rewrite Ht. done.
  - rewrite res_bind_ok. apply Hrest; [done|done|done|]. eapply Forall_impl; [exact Hinv|]. intros f' [? Hlt'].
    split; [done|]. intros Htm. apply Hlt'. by right.
Qed.

Lemma feature_score_unit m f : counts_ok m -> f ∈ features_ m -> unit_double (computeReputationForFeature m f).
Proof.
  intros (Hs & HS & HT) Hf. unfold computeReputationForFeature, INT_MAX in *. case_decide as Hz; [done|].
  rewrite Forall_forall in Hs. specialize (Hs f Hf). apply ddiv_unit; lia.
Qed.

Lemma computeScore_unit m : counts_ok m -> unit_double (computeScore m).1.
Proof.
  intros Hm. unfold computeScore. case_decide as Hz; [done|]. cbn [fst].
  assert (Hstart : unit_double (ddiv (double_of_int (totalSuccessTrans_ m)) (double_of_int (totalTrans_ m)))).
  { destruct Hm as (_ & HS & HT). unfold INT_MAX in *. apply ddiv_unit; lia. }
  assert (Hsub : forall f, f ∈ features_ m -> unit_double (computeReputationForFeature m f)) by (intros; by apply feature_score_unit).
  revert Hstart Hsub. generalize (ddiv (double_of_int (totalSuccessTrans_ m)) (double_of_int (totalTrans_ m))).
  induction (features_ m) as [|f l IH]; intros v Hv Hsub; [done|]. cbn [foldl].
  apply IH; [apply dmul_unit; [done|apply Hsub; left]|]. intros f' Hf'. apply Hsub. by right.
Qed.

Lemma computeScore_keeps m : counts_ok m -> counts_ok (computeScore m).2 /\ shape (computeScore m).2 = shape m /\
  totalTrans_ (computeScore m).2 = totalTrans_ m /\ totalSuccessTrans_ (computeScore m).2 = totalSuccessTrans_ m.
Proof. intros Hm. unfold computeScore. by case_decide. Qed.

(** One round of feedback on a network whose counts are in order. *)
Lemma computeReputation_spec m matrix :
  counts_ok m -> totalTrans_ m < INT_MAX -> NoDup matrix.*1 -> (forall t, t ∈ matrix.*1 -> has_feature m t) ->
  exists s v m', satisfaction m d0 matrix = Ok s /\ computeReputation m matrix = Ok (v, m') /\
    unit_double v /\ reputationScore_ m' = v /\ counts_ok m' /\ shape m' = shape m /\ totalTrans_ m' = totalTrans_ m + 1 /\
    totalSuccessTrans_ m' = totalSuccessTrans_ m + (if dge s (feedbackThreshold_ m) then 1 else 0).
Proof.
  intros Hm Hmax Hnd Hall. pose proof Hm as (Hs & HS & HT). destruct (satisfaction_ok m matrix Hall d0) as (s & Hsat).
  assert (Hsat' : forall m', features_ m' = features_ m -> forall d, satisfaction m' d matrix = satisfaction m d matrix).
  { intros m' Hf. clear -Hf. induction matrix as [|[t v] matrix IH]; intros d; cbn; [done|]. unfold feature_at. rewrite Hf.
    destruct (features_ m !! _); cbn; [apply IH|done]. }
  assert (Hfin : forall m1, counts_ok m1 -> shape m1 = shape m -> totalTrans_ m1 = totalTrans_ m + 1 -> exists v m',
    Ok (computeScore m1) = Ok (v, m') /\ unit_double v /\ reputationScore_ m' = v /\ counts_ok m' /\ shape m' = shape m /\
    totalTrans_ m' = totalTrans_ m + 1 /\ totalSuccessTrans_ m' = totalSuccessTrans_ m1).
  { intros m1 Hm1 Hsh HT1. exists (computeScore m1).1, (computeScore m1).2. destruct (computeScore_keeps m1 Hm1) as (Hc & -> & -> & ->).
    split; [by destruct (computeScore m1)|]. split; [by apply computeScore_unit|].
    split; [unfold computeScore; rewrite decide_False by lia; done|]. auto. }
  unfold computeReputation, updateTotalTransactions, incr. rewrite decide_False, !res_bind_ok by lia.
  rewrite (Hsat' (setTotalTransactions _ m)), Hsat, res_bind_ok by done. cbn [feedbackThreshold_ setTotalTransactions]. exists s.
  destruct (dge s (feedbackThreshold_ m)).
  - unfold updateTotalSuccessfulTransactions, incr. cbn [totalSuccessTrans_ setTotalTransactions].
    rewrite decide_False, !res_bind_ok by lia.
    destruct (count_features_spec (setTotalSuccessfulTransactions (totalSuccessTrans_ m + 1) (setTotalTransactions (totalTrans_ m + 1) m)) matrix)
      as (l & -> & Hsh & Hl); [done|done|cbn; lia| |].
    { cbn. eapply Forall_impl; [exact Hs|]. cbn. intros f ?. lia. }
    rewrite res_bind_ok. edestruct Hfin as (v & m' & Heq & Hrest); [| | |exists v, m'; by rewrite Heq]; [|exact Hsh|done].
    split; [exact Hl|]. cbn. lia.
  - rewrite res_bind_ok, Z.add_0_r. edestruct Hfin as (v & m' & Heq & Hrest); [| | |exists v, m'; by rewrite Heq]; [|done|done].
    split; [exact Hs|]. cbn. lia.
Qed.

(** The network [initSystemReputation] sets up for a new device. *)
Definition system_features : list AtlasDeviceFeature :=
  [mk_feature ATLAS_FEATURE_REGISTER_TIME (tenths 4) 0;
   mk_feature ATLAS_FEATURE_KEEPALIVE_PACKETS (tenths 3) 0;
   mk_feature ATLAS_FEATURE_VALID_PACKETS (tenths 3) 0].

(** A device that is registered for the whole of a minute, sends every keep-alive
    but no packet: its satisfaction stays below the threshold of 0.8. *)
Lemma idle_below reg ka : 0 <= reg <= 60 -> 0 <= ka <= 3 ->
  dge (dadd (dadd (dadd d0 (dmul (sample_feedback reg 0 60) (tenths 4))) (dmul (sample_feedback ka 0 3) (tenths 3)))
         (dmul (double_of_int ATLAS_PACKETS_DEFAULT_FEEDBACK) (tenths 3))) (tenths 8) = false.
Proof.
  intros Hreg Hka.
  assert (Hall : forallb (fun reg => forallb (fun ka => negb
    (dge (dadd (dadd (dadd d0 (dmul (sample_feedback reg 0 60) (tenths 4))) (dmul (sample_feedback ka 0 3) (tenths 3)))
         (dmul (double_of_int ATLAS_PACKETS_DEFAULT_FEEDBACK) (tenths 3))) (tenths 8)))
    (Z.of_nat <$> seq 0 4)) (Z.of_nat <$> seq 0 61) = true) by (vm_compute; reflexivity).
  rewrite forallb_forall in Hall. specialize (Hall reg). rewrite forallb_forall in Hall.
  apply negb_true_iff. apply Hall.
  - apply list_elem_of_In. apply list_elem_of_fmap. exists (Z.to_nat reg). rewrite elem_of_seq. lia.
  - apply list_elem_of_In. apply list_elem_of_fmap. exists (Z.to_nat ka). rewrite elem_of_seq. lia.
Qed.

(** * Theorems *)

(** C34: A score is a number between 0 and 1, rounding included: from a network
    with counts in order, a round of feedback that names features of the network, each
    once, returns such a score, counts one transaction, and one successful
    transaction exactly when the weighted feedback reaches the threshold; the counts
    stay in order and the features keep their weights. *)
Theorem reputation_bounded (m : AtlasDeviceFeatureManager) (matrix : list (Z * double)) :
  counts_ok m -> totalTrans_ m < INT_MAX -> NoDup matrix.*1 -> (forall t, t ∈ matrix.*1 -> has_feature m t) ->
  exists s v m', satisfaction m d0 matrix = Ok s /\ computeReputation m matrix = Ok (v, m') /\
    dge v d0 = true /\ dge d1 v = true /\ reputationScore_ m' = v /\ counts_ok m' /\ shape m' = shape m /\
    totalTrans_ m' = totalTrans_ m + 1 /\
    totalSuccessTrans_ m' = totalSuccessTrans_ m + (if dge s (feedbackThreshold_ m) then 1 else 0).
Proof.
  intros Hm Hmax Hnd Hall. destruct (computeReputation_spec m matrix Hm Hmax Hnd Hall) as (s & v & m' & ? & ? & Hv & ?).
  apply unit_double_bounds in Hv as [? ?]. exists s, v, m'. tauto.
Qed.

(** A network with one good transaction out of three. *)
Definition sample_network : AtlasDeviceFeatureManager :=
  mk_manager [mk_feature ATLAS_FEATURE_REGISTER_TIME (tenths 4) 1; mk_feature ATLAS_FEATURE_KEEPALIVE_PACKETS (tenths 3) 0] 1 3 d0 (tenths 6).

Lemma reputation_bounded_witness :
  exists s v m', satisfaction sample_network d0 [(ATLAS_FEATURE_KEEPALIVE_PACKETS, d1); (ATLAS_FEATURE_REGISTER_TIME, tenths 9)] = Ok s /\
    computeReputation sample_network [(ATLAS_FEATURE_KEEPALIVE_PACKETS, d1); (ATLAS_FEATURE_REGISTER_TIME, tenths 9)] = Ok (v, m') /\
    dge v d0 = true /\ dge d1 v = true /\ reputationScore_ m' = v /\ counts_ok m' /\ shape m' = shape sample_network /\
    totalTrans_ m' = totalTrans_ sample_network + 1 /\
    totalSuccessTrans_ m' = totalSuccessTrans_ sample_network + (if dge s (feedbackThreshold_ sample_network) then 1 else 0).
Proof.
  apply (reputation_bounded sample_network [(ATLAS_FEATURE_KEEPALIVE_PACKETS, d1); (ATLAS_FEATURE_REGISTER_TIME, tenths 9)]).
  - split; [repeat constructor; cbn; lia|]. cbn. unfold INT_MAX. lia.
  - cbn. unfold INT_MAX. lia.
  - apply NoDup_cons. split; [intros ?%list_elem_of_singleton; done|apply NoDup_singleton].
  - intros t [->|[->|[]%elem_of_nil]%elem_of_cons]%elem_of_cons; apply has_feature_types; cbn; [right; left|left].
Defined.

(** [removeFeature] removes the feature before the one it is asked for, and refuses
    the first. *)
Theorem removeFeature_off_by_one (m : AtlasDeviceFeatureManager) (f g : AtlasDeviceFeature) (l : list AtlasDeviceFeature) :
  features_ m = f :: g :: l -> featureType_ f <> featureType_ g ->
  removeFeature (featureType_ f) m = (false, m) /\ removeFeature (featureType_ g) m = (true, set_features (g :: l) m).
Proof.
  intros Hm Hne. unfold removeFeature. rewrite Hm. cbn. by rewrite (decide_True (P := featureType_ f = _)), decide_False, decide_True.
Qed.

Lemma removeFeature_off_by_one_witness :
  removeFeature ATLAS_FEATURE_REGISTER_TIME sample_network = (false, sample_network) /\
  removeFeature ATLAS_FEATURE_KEEPALIVE_PACKETS sample_network =
    (true, set_features [mk_feature ATLAS_FEATURE_KEEPALIVE_PACKETS (tenths 3) 0] sample_network).
Proof.
  apply (removeFeature_off_by_one sample_network (mk_feature ATLAS_FEATURE_REGISTER_TIME (tenths 4) 1)
    (mk_feature ATLAS_FEATURE_KEEPALIVE_PACKETS (tenths 3) 0) []); done.
Defined.
