(* ===== verification/GwStore.v ===== *)
(** The gateway's local database (sql/AtlasSQLite.cpp) and what it stores: the
    keys of the devices, their firewall statistics (statistics/AtlasFirewallStats.h),
    the owner of the gateway and the commands for the devices
    (commands/AtlasCommandDevice.cpp). The tables of the reputation networks are
    not modelled.

    [sql_exec] says what the SQL texts of the file do to the tables. The engine
    that runs them is a parameter ([SqlEngine]): any of its calls can fail, a
    statement that fails changes nothing, a statement that does not has the
    effect of [sql_exec], and the rows of a SELECT come in any order, since none
    of the texts asks for one. *)
From S2P Require Import Prelude Defs CLib Command Double GwDefs GwBayes.

(** * Data *)

(** commands/AtlasCommandDevice.h; the client has constants of the same names. *)
Module DeviceType.
Inductive AtlasCommandDeviceType := ATLAS_CMD_DEVICE_RESTART | ATLAS_CMD_DEVICE_SHUTDOWN | ATLAS_CMD_DEVICE_UNKNOWN.

#[export] Instance AtlasCommandDeviceType_eq_dec : EqDecision AtlasCommandDeviceType.
Proof. solve_decision. Defined.

Definition device_type_code (t : AtlasCommandDeviceType) : Z :=
  match t with ATLAS_CMD_DEVICE_RESTART => 0 | ATLAS_CMD_DEVICE_SHUTDOWN => 1 | ATLAS_CMD_DEVICE_UNKNOWN => 2 end.
End DeviceType.

Record AtlasCommandDevice := mk_command_device {
  deviceIdentity_ : list byte;
  cd_sequenceNumber : Z;                     (* uint32_t *)
  commandTypeCloud_ : list byte;
  commandTypeDevice_ : DeviceType.AtlasCommandDeviceType;
  commandPayload_ : list byte;
  inProgress : bool;
}.

Import DeviceType.

#[export] Instance AtlasCommandDevice_eq_dec : EqDecision AtlasCommandDevice.
Proof. solve_decision. Defined.

Definition ATLAS_CMD_DEVICE_RESTART_CLOUD : list byte := cstr "ATLAS_CMD_CLIENT_DEVICE_RESTART".
Definition ATLAS_CMD_DEVICE_SHUTDOWN_CLOUD : list byte := cstr "ATLAS_CMD_CLIENT_DEVICE_SHUTDOWN".

Definition cloud_type (commandType : list byte) : AtlasCommandDeviceType :=
  if decide (commandType = ATLAS_CMD_DEVICE_RESTART_CLOUD) then ATLAS_CMD_DEVICE_RESTART
  else if decide (commandType = ATLAS_CMD_DEVICE_SHUTDOWN_CLOUD) then ATLAS_CMD_DEVICE_SHUTDOWN
  else ATLAS_CMD_DEVICE_UNKNOWN.

Definition new_AtlasCommandDevice (deviceIdentity : list byte) (sequenceNumber : Z)
    (commandType commandPayload : list byte) : AtlasCommandDevice :=
  mk_command_device deviceIdentity sequenceNumber commandType (cloud_type commandType) commandPayload false.

Definition setInProgress (b : bool) (c : AtlasCommandDevice) : AtlasCommandDevice :=
  mk_command_device (deviceIdentity_ c) (cd_sequenceNumber c) (commandTypeCloud_ c) (commandTypeDevice_ c)
    (commandPayload_ c) b.

(** * The tables *)

Record device_row := mk_device_row { dr_id : Z; dr_identity : list byte; dr_psk : list byte }.
#[export] Instance device_row_eq_dec : EqDecision device_row.
Proof. solve_decision. Defined.

Record stats_row := mk_stats_row { sr_deviceId : Z; sr_ruleDropped : Z; sr_rulePassed : Z; sr_txDropped : Z; sr_txPassed : Z }.
Record command_row := mk_command_row {
  cr_deviceId : Z;
  cr_sequenceNumber : Z;
  cr_commandType : list byte;
  cr_commandPayload : list byte;   (* TEXT NULL, but every INSERT binds a text *)
  cr_isExecuted : bool;
}.

(** [NaiveBayesNetwork] and [NaiveBayesFeature]. *)
Record network_row := mk_network_row { nr_id : Z; nr_deviceId : Z; nr_networkTypeId : Z; nr_totalTrans : Z; nr_totalSuccessTrans : Z }.
Record feature_row := mk_feature_row { fr_networkId : Z; fr_featureTypeId : Z; fr_successTrans : Z; fr_weight : double }.
Record BayesTables := mk_bayes {
  b_nextNetwork : Z;                         (* AUTOINCREMENT of NaiveBayesNetwork *)
  b_network : list network_row;
  b_feature : list feature_row;
}.

Record Tables := mk_tables {
  t_nextDevice : Z;                          (* AUTOINCREMENT of Device *)
  t_device : list device_row;
  t_stats : list stats_row;
  t_owner : list (list byte * list byte);    (* SecretKey, Identity *)
  t_maxSeq : list Z;                         (* GatewayMisc *)
  t_command : list command_row;
  t_bayes : BayesTables;
}.

(** The tables [SQL_CREATE_TABLES] makes. *)
Definition created_tables : Tables := mk_tables 1 [] [] [] [0] [] (mk_bayes 1 [] []).

Definition set_t_command (c : list command_row) (t : Tables) : Tables :=
  mk_tables (t_nextDevice t) (t_device t) (t_stats t) (t_owner t) (t_maxSeq t) c (t_bayes t).
Definition set_t_maxSeq (m : list Z) (t : Tables) : Tables :=
  mk_tables (t_nextDevice t) (t_device t) (t_stats t) (t_owner t) m (t_command t) (t_bayes t).
Definition set_t_owner (o : list (list byte * list byte)) (t : Tables) : Tables :=
  mk_tables (t_nextDevice t) (t_device t) (t_stats t) o (t_maxSeq t) (t_command t) (t_bayes t).
Definition set_t_stats (s : list stats_row) (t : Tables) : Tables :=
  mk_tables (t_nextDevice t) (t_device t) s (t_owner t) (t_maxSeq t) (t_command t) (t_bayes t).
Definition set_t_device (n : Z) (d : list device_row) (t : Tables) : Tables :=
  mk_tables n d (t_stats t) (t_owner t) (t_maxSeq t) (t_command t) (t_bayes t).
Definition set_t_bayes (b : BayesTables) (t : Tables) : Tables :=
  mk_tables (t_nextDevice t) (t_device t) (t_stats t) (t_owner t) (t_maxSeq t) (t_command t) b.

(** * The statements *)

Inductive sql_value := SqlNull | SqlInt (z : Z) | SqlReal (d : double) | SqlText (t : list byte).

Inductive sql_stmt :=
  | SQL_INSERT_STATS | SQL_UPDATE_STATS | SQL_GET_STATS | SQL_CHECK_STATS
  | SQL_INSERT_DEVICE | SQL_UPDATE_DEVICE | SQL_GET_ID_DEVICE | SQL_SELECT_DEVICE
  | SQL_INSERT_NETWORK | SQL_UPDATE_NETWORK | SQL_GET_ID_NETWORK | SQL_GET_NETWORK
  | SQL_INSERT_FEATURE | SQL_UPDATE_FEATURE | SQL_GET_FEATURE | SQL_CHECK_FEATURE
  | SQL_INSERT_OWNER | SQL_GET_OWNER
  | SQL_INSERT_DEVICE_COMMAND | SQL_CHECK_DEVICE_COMMAND_BY_SEQ_NO | SQL_CHECK_DEVICE_COMMAND_BY_IDENTITY
  | SQL_CHECK_DEVICE_COMMAND_EXECUTION_BY_SEQ_NO | SQL_MARK_AS_EXECUTED_DEVICE_COMMAND
  | SQL_GET_DEVICE_COMMAND_BY_IDENTITY | SQL_DELETE_DEVICE_COMMAND_BY_SEQ_NO
  | SQL_GET_MAX_SEQ_NO | SQL_UPDATE_MAX_SEQ_NO.

(** The devices with an identity, and the rows of another table that belong to them. *)
Definition devices_of (i : list byte) (t : Tables) : list device_row := base.filter (fun d => dr_identity d = i) (t_device t).
Definition owned {A} (id : A -> Z) (i : list byte) (t : Tables) (l : list A) : list A :=
  d ← devices_of i t; base.filter (fun a => id a = dr_id d) l.
Definition is_device_id (id : Z) (t : Tables) : Prop := id ∈ dr_id <$> t_device t.
#[export] Instance is_device_id_dec id t : Decision (is_device_id id t).
Proof. unfold is_device_id. apply _. Defined.

Definition command_columns (c : command_row) : list sql_value :=
  [SqlInt (cr_sequenceNumber c); SqlText (cr_commandType c); SqlText (cr_commandPayload c);
   SqlInt (if cr_isExecuted c then 1 else 0)].

Definition mark_row (seq : Z) (c : command_row) : command_row :=
  if decide (cr_sequenceNumber c = seq)
  then mk_command_row (cr_deviceId c) (cr_sequenceNumber c) (cr_commandType c) (cr_commandPayload c) true
  else c.

Definition update_stats_row (i : list byte) (t : Tables) (a b c d : Z) (s : stats_row) : stats_row :=
  if decide (sr_deviceId s ∈ dr_id <$> devices_of i t) then mk_stats_row (sr_deviceId s) a b c d else s.

(** The networks of a type of the devices with an identity, and their features. *)
Definition networks_of (i : list byte) (type : Z) (t : Tables) : list network_row :=
  base.filter (fun n => nr_networkTypeId n = type) (owned nr_deviceId i t (b_network (t_bayes t))).
Definition features_of (i : list byte) (type : Z) (t : Tables) : list feature_row :=
  n ← networks_of i type t; base.filter (fun f => fr_networkId f = nr_id n) (b_feature (t_bayes t)).

Definition add_network (dev type tot suc : Z) (b : BayesTables) : BayesTables :=
  mk_bayes (b_nextNetwork b + 1) (b_network b ++ [mk_network_row (b_nextNetwork b) dev type tot suc]) (b_feature b).
Definition add_feature_row (f : feature_row) (b : BayesTables) : BayesTables :=
  mk_bayes (b_nextNetwork b) (b_network b) (b_feature b ++ [f]).

Definition update_network_row (i : list byte) (type tot suc : Z) (t : Tables) (n : network_row) : network_row :=
  if decide (nr_deviceId n ∈ dr_id <$> devices_of i t /\ nr_networkTypeId n = type)
  then mk_network_row (nr_id n) (nr_deviceId n) (nr_networkTypeId n) tot suc else n.
Definition update_feature_row (i : list byte) (type feature st : Z) (t : Tables) (f : feature_row) : feature_row :=
  if decide (fr_networkId f ∈ nr_id <$> networks_of i type t /\ fr_featureTypeId f = feature)
  then mk_feature_row (fr_networkId f) (fr_featureTypeId f) st (fr_weight f) else f.

Definition feature_columns (f : feature_row) : list sql_value :=
  [SqlInt (fr_featureTypeId f); SqlReal (fr_weight f); SqlInt (fr_successTrans f)].

Definition one_per {A} (l : list A) : list (list sql_value) := (fun _ => [SqlInt 1]) <$> l.

(** The result rows and the new tables of a statement; [None] when a constraint
    (UNIQUE or FOREIGN KEY) does not hold. *)
Definition sql_exec (s : sql_stmt) (args : list sql_value) (t : Tables) : option (list (list sql_value) * Tables) :=
  match s, args with
  | SQL_GET_ID_DEVICE, [SqlText i] => Some ((fun d => [SqlInt (dr_id d)]) <$> devices_of i t, t)
  | SQL_SELECT_DEVICE, [SqlText i] => Some ((fun d => [SqlText (dr_psk d)]) <$> devices_of i t, t)
  | SQL_INSERT_DEVICE, [SqlText i; SqlText psk] =>
      if decide (devices_of i t = [])
      then Some ([], set_t_device (t_nextDevice t + 1) (t_device t ++ [mk_device_row (t_nextDevice t) i psk]) t)
      else None
  | SQL_UPDATE_DEVICE, [SqlText psk; SqlText i] =>
      Some ([], set_t_device (t_nextDevice t)
        ((fun d => if decide (dr_identity d = i) then mk_device_row (dr_id d) i psk else d) <$> t_device t) t)
  | SQL_CHECK_STATS, [SqlText i] => Some (one_per (owned sr_deviceId i t (t_stats t)), t)
  | SQL_GET_STATS, [SqlText i] =>
      Some ((fun s => [SqlInt (sr_ruleDropped s); SqlInt (sr_rulePassed s); SqlInt (sr_txDropped s); SqlInt (sr_txPassed s)]) <$>
        owned sr_deviceId i t (t_stats t), t)
  | SQL_INSERT_STATS, [SqlInt id; SqlInt a; SqlInt b; SqlInt c; SqlInt d] =>
      if decide (is_device_id id t) then Some ([], set_t_stats (t_stats t ++ [mk_stats_row id a b c d]) t) else None
  | SQL_UPDATE_STATS, [SqlInt a; SqlInt b; SqlInt c; SqlInt d; SqlText i] =>
      Some ([], set_t_stats (update_stats_row i t a b c d <$> t_stats t) t)
  | SQL_INSERT_NETWORK, [SqlInt id; SqlInt type; SqlInt tot; SqlInt suc] =>
      if decide (is_device_id id t) then Some ([], set_t_bayes (add_network id type tot suc (t_bayes t)) t) else None
  | SQL_UPDATE_NETWORK, [SqlInt tot; SqlInt suc; SqlText i; SqlInt type] =>
      Some ([], set_t_bayes (mk_bayes (b_nextNetwork (t_bayes t)) (update_network_row i type tot suc t <$> b_network (t_bayes t))
                               (b_feature (t_bayes t))) t)
  | SQL_GET_ID_NETWORK, [SqlText i; SqlInt type] => Some ((fun n => [SqlInt (nr_id n)]) <$> networks_of i type t, t)
  | SQL_GET_NETWORK, [SqlText i; SqlInt type] =>
      Some ((fun n => [SqlInt (nr_totalTrans n); SqlInt (nr_totalSuccessTrans n)]) <$> networks_of i type t, t)
  | SQL_INSERT_FEATURE, [SqlInt id; SqlInt feature; SqlInt st; SqlReal w] =>
      if decide (id ∈ nr_id <$> b_network (t_bayes t))
      then Some ([], set_t_bayes (add_feature_row (mk_feature_row id feature st w) (t_bayes t)) t) else None
  | SQL_UPDATE_FEATURE, [SqlInt st; SqlText i; SqlInt type; SqlInt feature] =>
      Some ([], set_t_bayes (mk_bayes (b_nextNetwork (t_bayes t)) (b_network (t_bayes t))
                               (update_feature_row i type feature st t <$> b_feature (t_bayes t))) t)
  | SQL_GET_FEATURE, [SqlText i; SqlInt type] => Some (feature_columns <$> features_of i type t, t)
  | SQL_CHECK_FEATURE, [SqlText i; SqlInt type] => Some (one_per (features_of i type t), t)
  | SQL_INSERT_OWNER, [SqlText key; SqlText i] => Some ([], set_t_owner (t_owner t ++ [(key, i)]) t)
  | SQL_GET_OWNER, [] => Some ((fun o => [SqlText o.1; SqlText o.2]) <$> t_owner t, t)
  | SQL_INSERT_DEVICE_COMMAND, [SqlInt id; SqlInt seq; SqlText ty; SqlText pl] =>
      if decide (is_device_id id t)
      then Some ([], set_t_command (t_command t ++ [mk_command_row id seq ty pl false]) t) else None
  | SQL_CHECK_DEVICE_COMMAND_BY_SEQ_NO, [SqlInt seq] =>
      Some (one_per (base.filter (fun c => cr_sequenceNumber c = seq) (t_command t)), t)
  | SQL_CHECK_DEVICE_COMMAND_BY_IDENTITY, [SqlText i] => Some (one_per (owned cr_deviceId i t (t_command t)), t)
  | SQL_CHECK_DEVICE_COMMAND_EXECUTION_BY_SEQ_NO, [SqlInt seq] =>
      Some (one_per (base.filter (fun c => cr_sequenceNumber c = seq /\ cr_isExecuted c = true) (t_command t)), t)
  | SQL_MARK_AS_EXECUTED_DEVICE_COMMAND, [SqlInt seq] => Some ([], set_t_command (mark_row seq <$> t_command t) t)
  | SQL_GET_DEVICE_COMMAND_BY_IDENTITY, [SqlText i] => Some (command_columns <$> owned cr_deviceId i t (t_command t), t)
  | SQL_DELETE_DEVICE_COMMAND_BY_SEQ_NO, [SqlInt seq] =>
      Some ([], set_t_command (base.filter (fun c => cr_sequenceNumber c <> seq) (t_command t)) t)
  | SQL_GET_MAX_SEQ_NO, [] => Some ((fun z => [SqlInt z]) <$> t_maxSeq t, t)
  | SQL_UPDATE_MAX_SEQ_NO, [SqlInt seq] => Some ([], set_t_maxSeq ((fun _ => seq) <$> t_maxSeq t) t)
  | _, _ => None
  end.

(** * The engine *)

(** What stepping a statement to its end gives: rows, then SQLITE_DONE or an error. *)
Record sql_result := mk_sql_result { sql_rows : list (list sql_value); sql_done : bool }.

Class SqlEngine (X : Type) := {
  (** [AtlasSQLite::isConnected_] *)
  isConnected : X -> bool;
  sqlite3_prepare : sql_stmt -> X -> bool * X;
  sqlite3_bind : sql_stmt -> list sql_value -> X -> bool * X;
  sqlite3_steps : sql_stmt -> list sql_value -> X -> sql_result * X;
  (** the conversions of [sqlite3_column_int], [_text] and [_double], and the first without a row *)
  sqlite3_text_int : list byte -> Z;
  sqlite3_real_int : double -> Z;
  sqlite3_no_row : Z;
  sqlite3_int_text : Z -> list byte;
  sqlite3_real_text : double -> list byte;
  sqlite3_text_double : list byte -> double;
  tables : X -> Tables;
  prepare_tables s x : tables (sqlite3_prepare s x).2 = tables x;
  bind_tables s args x : tables (sqlite3_bind s args x).2 = tables x;
  steps_tables s args x :
    let '(r, x') := sqlite3_steps s args x in
    if sql_done r
    then exists rows, sql_exec s args (tables x) = Some (rows, tables x') /\ sql_rows r ≡ₚ rows
    else tables x' = tables x /\ sql_rows r ⊆+ default [] (fst <$> sql_exec s args (tables x));
}.

(** The outcome of the first [sqlite3_step]. *)
Inductive sql_status := SQLITE_DONE | SQLITE_ROW (row : list sql_value) | SQLITE_ERROR.

Definition sql_step (r : sql_result) : sql_status :=
  match sql_rows r with row :: _ => SQLITE_ROW row | [] => if sql_done r then SQLITE_DONE else SQLITE_ERROR end.

(** An [int] from a [uint32_t]. *)
Definition s32 (z : Z) : Z := (z + 2147483648) mod 4294967296 - 2147483648.

Lemma u32_s32 z : is_u32 z -> u32 (s32 z) = z.
Proof. unfold is_u32, u32, s32. lia. Qed.
Lemma s32_inj a b : is_u32 a -> is_u32 b -> s32 a = s32 b -> a = b.
Proof. unfold is_u32, s32. lia. Qed.
Lemma s32_s32 z : s32 (s32 z) = s32 z.
Proof. unfold s32. lia. Qed.

(** * sql/AtlasSQLite.cpp *)

Section Store.
Context {X : Type} `{SqlEngine X}.

Definition column_int (row : list sql_value) (n : nat) : Z :=
  match row !! n with
  | Some (SqlInt z) => s32 z
  | Some (SqlReal d) => sqlite3_real_int d
  | Some (SqlText t) => sqlite3_text_int t
  | Some SqlNull | None => 0
  end.

Definition column_double (row : list sql_value) (n : nat) : double :=
  match row !! n with
  | Some (SqlInt z) => double_of_int z
  | Some (SqlReal d) => d
  | Some (SqlText t) => sqlite3_text_double t
  | Some SqlNull | None => d0
  end.

(** A [std::string] made of [sqlite3_column_text]: up to the first NUL. *)
Definition column_string (row : list sql_value) (n : nat) : res (list byte) :=
  match row !! n with
  | Some (SqlText t) => Ok (until_nul t)
  | Some (SqlInt z) => Ok (sqlite3_int_text z)
  | Some (SqlReal d) => Ok (sqlite3_real_text d)
  | Some SqlNull | None => Fault NullDeref
  end.

(** Binding and stepping a statement, and preparing it before; [None] when one of
    the first two fails. *)
Definition sql_bound (s : sql_stmt) (args : list sql_value) (x : X) : option sql_result * X :=
  let '(bound, x) := sqlite3_bind s args x in
  if bound then let '(r, x) := sqlite3_steps s args x in (Some r, x) else (None, x).
Definition sql_run (s : sql_stmt) (args : list sql_value) (x : X) : option sql_result * X :=
  let '(prepared, x) := sqlite3_prepare s x in
  if prepared then sql_bound s args x else (None, x).

Definition sql_query (s : sql_stmt) (args : list sql_value) (x : X) : option sql_result * X :=
  if isConnected x then sql_run s args x else (None, x).

(** The body of the functions that run one statement for its effect ([DONE] or
    [ROW] is success), and of those that test for a row. *)
Definition stepped (r : option sql_result) : bool :=
  match r with Some r => match sql_step r with SQLITE_ERROR => false | _ => true end | None => false end.
Definition has_row (r : option sql_result) : bool :=
  match r with Some r => match sql_step r with SQLITE_ROW _ => true | _ => false end | None => false end.
(** [sqlite3_step(stmt) == SQLITE_DONE] *)
Definition is_done (r : option sql_result) : bool :=
  match r with Some r => match sql_step r with SQLITE_DONE => true | _ => false end | None => false end.

Definition sql_do (s : sql_stmt) (args : list sql_value) (x : X) : bool * X :=
  let '(r, x) := sql_query s args x in (stepped r, x).
Definition sql_check (s : sql_stmt) (args : list sql_value) (x : X) : bool * X :=
  let '(r, x) := sql_query s args x in (has_row r, x).

(** The [deviceId] two functions read first: of no row when there is none. *)
Definition get_deviceId (identity : list byte) (x : X) : option Z * X :=
  let '(r, x) := sql_query SQL_GET_ID_DEVICE [SqlText identity] x in
  (match r with
   | Some r => match sql_step r with
               | SQLITE_ROW row => Some (column_int row 0)
               | SQLITE_DONE => Some sqlite3_no_row
               | SQLITE_ERROR => None
               end
   | None => None
   end, x).

Definition insertDevice (identity psk : list byte) (x : X) : bool * X :=
  let '(r, x) := sql_query SQL_GET_ID_DEVICE [SqlText identity] x in
  if stepped r then
    let '(r, x) := if has_row r then sql_run SQL_UPDATE_DEVICE [SqlText psk; SqlText identity] x
                   else sql_run SQL_INSERT_DEVICE [SqlText identity; SqlText psk] x in
    (is_done r, x)
  else (false, x).

Definition selectDevicePsk (identity : list byte) (x : X) : list byte * X :=
  let '(r, x) := sql_query SQL_SELECT_DEVICE [SqlText identity] x in
  (match r with
   | Some r => match sql_step r with
               | SQLITE_ROW row => match column_string row 0 with Ok t => t | Fault _ => [] end
               | _ => []
               end
   | None => []
   end, x).

Definition checkDeviceForStats (identity : list byte) : X -> bool * X := sql_check SQL_CHECK_STATS [SqlText identity].

Definition stats_args (s : AtlasFirewallStats) : list sql_value :=
  [SqlInt (s32 (ruleDroppedPkts_ s)); SqlInt (s32 (rulePassedPkts_ s));
   SqlInt (s32 (txDroppedPkts_ s)); SqlInt (s32 (txPassedPkts_ s))].

Definition insertStats (identity : list byte) (stats : AtlasFirewallStats) (x : X) : bool * X :=
  let '(id, x) := get_deviceId identity x in
  match id with
  | Some id => let '(r, x) := sql_run SQL_INSERT_STATS (SqlInt id :: stats_args stats) x in (is_done r, x)
  | None => (false, x)
  end.

(** [stats] is a reference: the function returns its new value. *)
Definition selectStats (identity : list byte) (stats : AtlasFirewallStats) (x : X) : (bool * AtlasFirewallStats) * X :=
  let '(r, x) := sql_query SQL_GET_STATS [SqlText identity] x in
  match r with
  | Some r =>
      match sql_step r with
      | SQLITE_ROW row =>
          ((true, fwstats_add (column_int row 0) (column_int row 1) (column_int row 2) (column_int row 3) stats), x)
      | SQLITE_DONE => ((true, stats), x)
      | SQLITE_ERROR => ((false, stats), x)
      end
  | None => ((false, stats), x)
  end.

Definition updateStats (identity : list byte) (stats : AtlasFirewallStats) : X -> bool * X :=
  sql_do SQL_UPDATE_STATS (stats_args stats ++ [SqlText identity]).

(** A statement prepared once and run for every item; the first failure ends it. *)
Fixpoint sql_each (s : sql_stmt) (rows : list (list sql_value)) (x : X) : bool * X :=
  match rows with
  | [] => (true, x)
  | args :: rows => let '(r, x) := sql_bound s args x in if stepped r then sql_each s rows x else (false, x)
  end.
Definition sql_loop (s : sql_stmt) (rows : list (list sql_value)) (x : X) : bool * X :=
  let '(prepared, x) := sqlite3_prepare s x in if prepared then sql_each s rows x else (false, x).

Definition insertNetwork (identity : list byte) (networkTypeId : Z) (m : AtlasDeviceFeatureManager) (x : X) : bool * X :=
  let '(id, x) := get_deviceId identity x in
  match id with
  | Some id =>
      let '(r, x) := sql_run SQL_INSERT_NETWORK
        [SqlInt id; SqlInt networkTypeId; SqlInt (totalTrans_ m); SqlInt (totalSuccessTrans_ m)] x in (is_done r, x)
  | None => (false, x)
  end.

Definition insertFeatures (identity : list byte) (networkTypeId : Z) (m : AtlasDeviceFeatureManager) (x : X) : bool * X :=
  let '(r, x) := sql_query SQL_GET_ID_NETWORK [SqlText identity; SqlInt networkTypeId] x in
  match r with
  | Some r =>
      match sql_step r with
      | SQLITE_ERROR => (false, x)
      | step =>
          let networkId := match step with SQLITE_ROW row => column_int row 0 | _ => sqlite3_no_row end in
          sql_loop SQL_INSERT_FEATURE
            ((fun f => [SqlInt networkId; SqlInt (featureType_ f); SqlInt (successTrans_ f); SqlReal (weight_ f)]) <$> features_ m) x
      end
  | None => (false, x)
  end.

Definition insertBayesParams (identity : list byte) (networkTypeId : Z) (m : AtlasDeviceFeatureManager) (x : X) : bool * X :=
  let '(b, x) := insertNetwork identity networkTypeId m x in
  if b then insertFeatures identity networkTypeId m x else (false, x).

(** The manager is a reference: these return its new value. *)
Definition selectNetwork (identity : list byte) (networkTypeId : Z) (m : AtlasDeviceFeatureManager) (x : X)
  : (bool * AtlasDeviceFeatureManager) * X :=
  let '(r, x) := sql_query SQL_GET_NETWORK [SqlText identity; SqlInt networkTypeId] x in
  match r with
  | Some r =>
      match sql_step r with
      | SQLITE_ROW row =>
          ((true, setTotalSuccessfulTransactions (column_int row 1) (setTotalTransactions (column_int row 0) m)), x)
      | SQLITE_DONE => ((true, m), x)
      | SQLITE_ERROR => ((false, m), x)
      end
  | None => ((false, m), x)
  end.

Definition load_feature (m : AtlasDeviceFeatureManager) (row : list sql_value) : res AtlasDeviceFeatureManager :=
  let m := (addFeature (column_int row 0) (column_double row 1) m).2 in
  update_feature (column_int row 0) (fun f => Ok (setSuccessfulTransactions (column_int row 2) f)) m.

Fixpoint load_features (m : AtlasDeviceFeatureManager) (rows : list (list sql_value)) : res AtlasDeviceFeatureManager :=
  match rows with [] => Ok m | row :: rows => m ← load_feature m row; load_features m rows end.

Definition selectFeatures (identity : list byte) (networkTypeId : Z) (m : AtlasDeviceFeatureManager) (x : X)
  : res (bool * AtlasDeviceFeatureManager) * X :=
  let '(r, x) := sql_query SQL_GET_FEATURE [SqlText identity; SqlInt networkTypeId] x in
  (match r with Some r => m ← load_features m (sql_rows r); Ok (sql_done r, m) | None => Ok (false, m) end, x).

Definition selectBayesParams (identity : list byte) (networkTypeId : Z) (m : AtlasDeviceFeatureManager) (x : X)
  : res (bool * AtlasDeviceFeatureManager) * X :=
  let '((b, m), x) := selectNetwork identity networkTypeId m x in
  if b then selectFeatures identity networkTypeId m x else (Ok (false, m), x).

Definition updateNetwork (identity : list byte) (networkTypeId : Z) (m : AtlasDeviceFeatureManager) : X -> bool * X :=
  sql_do SQL_UPDATE_NETWORK [SqlInt (totalTrans_ m); SqlInt (totalSuccessTrans_ m); SqlText identity; SqlInt networkTypeId].

Definition updateFeatures (identity : list byte) (networkTypeId : Z) (m : AtlasDeviceFeatureManager) (x : X) : bool * X :=
  if isConnected x then
    sql_loop SQL_UPDATE_FEATURE
      ((fun f => [SqlInt (successTrans_ f); SqlText identity; SqlInt networkTypeId; SqlInt (featureType_ f)]) <$> features_ m) x
  else (false, x).

Definition updateBayesParams (identity : list byte) (networkTypeId : Z) (m : AtlasDeviceFeatureManager) (x : X) : bool * X :=
  let '(b, x) := updateNetwork identity networkTypeId m x in
  if b then updateFeatures identity networkTypeId m x else (false, x).

Definition checkDeviceForFeatures (identity : list byte) (networkTypeId : Z) : X -> bool * X :=
  sql_check SQL_CHECK_FEATURE [SqlText identity; SqlInt networkTypeId].

Definition insertOwner (secretKey identity : list byte) : X -> bool * X :=
  sql_do SQL_INSERT_OWNER [SqlText secretKey; SqlText identity].

(** The two references the function assigns, when it succeeds. *)
Definition selectOwnerInfo (x : X) : res (option (list byte * list byte)) * X :=
  let '(r, x) := sql_query SQL_GET_OWNER [] x in
  (match r with
   | Some r => match sql_step r with
               | SQLITE_ROW row => secretKey ← column_string row 0; identity ← column_string row 1; Ok (Some (secretKey, identity))
               | _ => Ok None
               end
   | None => Ok None
   end, x).

Definition updateMaxSequenceNumber (sequenceNumber : Z) : X -> bool * X :=
  sql_do SQL_UPDATE_MAX_SEQ_NO [SqlInt (s32 sequenceNumber)].

Definition insertDeviceCommand (sequenceNumber : Z) (commandType commandPayload deviceIdentity : list byte) (x : X) : bool * X :=
  let '(id, x) := get_deviceId deviceIdentity x in
  match id with
  | Some id =>
      let '(r, x) := sql_run SQL_INSERT_DEVICE_COMMAND
        [SqlInt id; SqlInt (s32 sequenceNumber); SqlText commandType; SqlText commandPayload] x in
      if stepped r then updateMaxSequenceNumber sequenceNumber x else (false, x)
  | None => (false, x)
  end.

Definition checkDeviceCommandBySeqNo (sequenceNumber : Z) : X -> bool * X :=
  sql_check SQL_CHECK_DEVICE_COMMAND_BY_SEQ_NO [SqlInt (s32 sequenceNumber)].
Definition checkDeviceCommandByIdentity (identity : list byte) : X -> bool * X :=
  sql_check SQL_CHECK_DEVICE_COMMAND_BY_IDENTITY [SqlText identity].
Definition checkDeviceCommandForExecution (sequenceNumber : Z) : X -> bool * X :=
  sql_check SQL_CHECK_DEVICE_COMMAND_EXECUTION_BY_SEQ_NO [SqlInt (s32 sequenceNumber)].
Definition markExecutedDeviceCommand (sequenceNumber : Z) : X -> bool * X :=
  sql_do SQL_MARK_AS_EXECUTED_DEVICE_COMMAND [SqlInt (s32 sequenceNumber)].
Definition deleteDeviceCommand (sequenceNumber : Z) : X -> bool * X :=
  sql_do SQL_DELETE_DEVICE_COMMAND_BY_SEQ_NO [SqlInt (s32 sequenceNumber)].

(** The result and the number [AtlasApprove::setSequenceNumber] is called with, if it is. *)
Definition getMaxSequenceNumber (x : X) : (bool * option Z) * X :=
  let '(r, x) := sql_query SQL_GET_MAX_SEQ_NO [] x in
  (match r with
   | Some r => match sql_step r with
               | SQLITE_ROW row => (true, Some (u32 (column_int row 0)))
               | SQLITE_DONE => (true, None)
               | SQLITE_ERROR => (false, None)
               end
   | None => (false, None)
   end, x).

(** One row of [selectDeviceCommand]: the command and whether it was executed. *)
Definition row_command (identity : list byte) (row : list sql_value) : res (AtlasCommandDevice * bool) :=
  ty ← column_string row 1; pl ← column_string row 2;
  Ok (new_AtlasCommandDevice identity (u32 (column_int row 0)) ty pl, negb (bool_decide (column_int row 3 = 0))).
End Store.

(** * What the functions do to the tables *)

Section StoreFacts.
Context {X : Type} `{SqlEngine X}.

(** The result of a statement on tables [t] that become [t']. *)
Definition sql_outcome (s : sql_stmt) (args : list sql_value) (t : Tables) (r : option sql_result) (t' : Tables) : Prop :=
  match r with
  | None => t' = t
  | Some r =>
      if sql_done r then exists rows, sql_exec s args t = Some (rows, t') /\ sql_rows r ≡ₚ rows
      else t' = t /\ sql_rows r ⊆+ default [] (fst <$> sql_exec s args t)
  end.

Lemma sql_bound_outcome s args x r x' : sql_bound s args x = (r, x') -> sql_outcome s args (tables x) r (tables x').
Proof.
  unfold sql_bound. pose proof (bind_tables s args x) as Hb. destruct (sqlite3_bind s args x) as [[] x2]; cbn in Hb.
  - pose proof (steps_tables s args x2) as Hs. destruct (sqlite3_steps s args x2) as [r2 x3].
    intros [= <- <-]. cbn. rewrite <- Hb. exact Hs.
  - by intros [= <- <-].
Qed.

Lemma sql_run_outcome s args x r x' : sql_run s args x = (r, x') -> sql_outcome s args (tables x) r (tables x').
Proof.
  unfold sql_run. pose proof (prepare_tables s x) as Hp. destruct (sqlite3_prepare s x) as [[] x1]; cbn in Hp.
  - rewrite <- Hp. apply sql_bound_outcome.
  - by intros [= <- <-].
Qed.

Lemma sql_query_outcome s args x r x' : sql_query s args x = (r, x') -> sql_outcome s args (tables x) r (tables x').
Proof. unfold sql_query. destruct (isConnected x); [apply sql_run_outcome|]. by intros [= <- <-]. Qed.

(** Statements that return no rows, and those that change nothing. *)
Lemma effect_outcome s args t r t' :
  (forall rows t1, sql_exec s args t = Some (rows, t1) -> rows = []) ->
  sql_outcome s args t r t' ->
  stepped r = is_done r /\ if stepped r then sql_exec s args t = Some ([], t') else t' = t.
Proof.
  intros Hnil Ho. destruct r as [[rows dn]|]; [|done]. unfold stepped, is_done, sql_step, sql_outcome in *. cbn in *.
  destruct dn.
  - destruct Ho as (rows' & He & Hp). rewrite (Hnil _ _ He) in Hp. apply Permutation_nil_r in Hp. subst rows.
    by rewrite (Hnil _ _ He) in He.
  - destruct Ho as [-> Hsub]. assert (rows = []) as ->; [|done].
    destruct (sql_exec s args t) as [[rows' t1]|] eqn:He; cbn in Hsub; [rewrite (Hnil _ _ eq_refl) in Hsub|];
      by apply submseteq_nil_r in Hsub.
Qed.

Lemma query_outcome s args t rows r t' :
  sql_exec s args t = Some (rows, t) -> sql_outcome s args t r t' ->
  t' = t /\ match r with Some r => sql_rows r ⊆+ rows /\ (sql_done r = true -> sql_rows r ≡ₚ rows) | None => True end.
Proof.
  intros He Ho. destruct r as [[rows1 dn]|]; cbn in Ho |- *; [|done]. rewrite He in Ho. destruct dn.
  - destruct Ho as (rows' & [= <- <-] & Hp). split; [done|]. split; [by rewrite Hp|done].
  - destruct Ho as [-> Hsub]. by split.
Qed.

Lemma sql_do_spec s args x b x' :
  (forall rows t1, sql_exec s args (tables x) = Some (rows, t1) -> rows = []) ->
  sql_do s args x = (b, x') ->
  if b then sql_exec s args (tables x) = Some ([], tables x') else tables x' = tables x.
Proof.
  intros Hnil. unfold sql_do. destruct (sql_query s args x) as [r x1] eqn:Hq. intros [= <- <-].
  by apply (effect_outcome s args (tables x) r), sql_query_outcome.
Qed.

Lemma sql_check_spec s args rows x b x' :
  sql_exec s args (tables x) = Some (rows, tables x) -> sql_check s args x = (b, x') ->
  tables x' = tables x /\ (b = true -> rows <> []).
Proof.
  intros He. unfold sql_check. destruct (sql_query s args x) as [r x1] eqn:Hq. intros [= <- <-].
  apply sql_query_outcome in Hq. destruct (query_outcome s args _ rows r _ He Hq) as [-> Hr]. split; [done|].
  destruct r as [[[|row rows1] []]|]; cbn in *; try done; intros _ ->; destruct Hr as [Hsub _];
    by apply submseteq_nil_r in Hsub.
Qed.

(** An engine on which no call fails; a statement fails only on a constraint. *)
Definition sql_reliable : Prop := forall s args x rows t',
  sql_exec s args (tables x) = Some (rows, t') -> exists r x', sql_query s args x = (Some r, x') /\ sql_done r = true.

Lemma sql_check_reliable s args rows x :
  sql_reliable -> sql_exec s args (tables x) = Some (rows, tables x) -> (sql_check s args x).1 = false -> rows = [].
Proof.
  intros Hrel He Hc. destruct (Hrel _ _ _ _ _ He) as (r & x' & Hq & Hdone). unfold sql_check in Hc. rewrite Hq in Hc.
  apply sql_query_outcome in Hq. destruct (query_outcome _ _ _ _ _ _ He Hq) as [_ [_ Hp]]. specialize (Hp Hdone).
  unfold has_row, sql_step in Hc. cbn in Hc. destruct (sql_rows r); [by apply Permutation_nil_l in Hp|done].
Qed.

Ltac solve_effect :=
  let He := fresh "He" in intros ? ? He; cbn in He; repeat case_decide; congruence.

Lemma markExecuted_spec seq x b x' : markExecutedDeviceCommand seq x = (b, x') ->
  tables x' = if b then set_t_command (mark_row (s32 seq) <$> t_command (tables x)) (tables x) else tables x.
Proof. intros Hd. apply sql_do_spec in Hd; [|by solve_effect]. destruct b; cbn in Hd; congruence. Qed.

Lemma delete_spec seq x b x' : deleteDeviceCommand seq x = (b, x') ->
  tables x' = if b then set_t_command (base.filter (fun c => cr_sequenceNumber c <> s32 seq) (t_command (tables x))) (tables x)
              else tables x.
Proof. intros Hd. apply sql_do_spec in Hd; [|by solve_effect]. destruct b; cbn in Hd; congruence. Qed.

Lemma updateMax_spec seq x b x' : updateMaxSequenceNumber seq x = (b, x') ->
  tables x' = if b then set_t_maxSeq ((fun _ => s32 seq) <$> t_maxSeq (tables x)) (tables x) else tables x.
Proof. intros Hd. apply sql_do_spec in Hd; [|by solve_effect]. destruct b; cbn in Hd; congruence. Qed.

Lemma updateStats_spec i s x b x' : updateStats i s x = (b, x') ->
  exists rows, tables x' = set_t_stats rows (tables x).
Proof.
  intros Hd. apply sql_do_spec in Hd; [|by solve_effect]. destruct b; cbn in Hd.
  - injection Hd as <-. by eexists.
  - rewrite Hd. exists (t_stats (tables x)). by destruct (tables x).
Qed.

Lemma insertOwner_spec key i x b x' : insertOwner key i x = (b, x') ->
  tables x' = if b then set_t_owner (t_owner (tables x) ++ [(key, i)]) (tables x) else tables x.
Proof. intros Hd. apply sql_do_spec in Hd; [|by solve_effect]. destruct b; cbn in Hd; congruence. Qed.

(** ** Devices *)

(** [Device]: ids are 32-bit and unique, and so are identities. *)
Definition tables_ok (t : Tables) : Prop :=
  NoDup (dr_id <$> t_device t) /\ NoDup (dr_identity <$> t_device t) /\
  Forall (fun d => 0 < dr_id d < 2147483648) (t_device t).

Lemma filter_unique {A} (f : A -> list byte) (l : list A) a :
  NoDup (f <$> l) -> a ∈ l -> base.filter (fun b => f b = f a) l = [a].
Proof.
  induction l as [|b l IH]; intros Hnd Ha; [by apply not_elem_of_nil in Ha|].
  cbn in Hnd. apply NoDup_cons in Hnd as [Hb Hnd]. rewrite filter_cons. apply elem_of_cons in Ha as [->|Ha].
  - rewrite decide_True by done. f_equal. apply elem_of_nil_inv. intros c [Heq Hc]%list_elem_of_filter.
    apply Hb. rewrite <- Heq. by apply list_elem_of_fmap_2.
  - rewrite decide_False; [by apply IH|]. intros Heq. apply Hb. rewrite Heq. by apply list_elem_of_fmap_2.
Qed.

Lemma devices_of_unique t d : tables_ok t -> d ∈ t_device t -> devices_of (dr_identity d) t = [d].
Proof. intros (_ & Hnd & _) Hd. by apply filter_unique. Qed.

Lemma owned_unique {A} (id : A -> Z) t d (l : list A) :
  tables_ok t -> d ∈ t_device t -> owned id (dr_identity d) t l = base.filter (fun a => id a = dr_id d) l.
Proof. intros Ht Hd. unfold owned. rewrite devices_of_unique by done. cbn. by rewrite app_nil_r. Qed.

Lemma get_deviceId_spec i x id x' :
  get_deviceId i x = (id, x') -> tables x' = tables x /\
  forall z, id = Some z -> match devices_of i (tables x) with
    | [] => z = sqlite3_no_row
    | [d] => z = s32 (dr_id d)
    | _ => True
    end.
Proof.
  unfold get_deviceId. destruct (sql_query SQL_GET_ID_DEVICE [SqlText i] x) as [r x1] eqn:Hq. intros [= <- <-].
  apply sql_query_outcome in Hq. eapply query_outcome in Hq as [-> Hr]; [|reflexivity]. split; [done|].
  intros z Hz. destruct r as [[rows dn]|]; [|done]. cbn in Hr. destruct Hr as [Hsub Hdone]. unfold sql_step in Hz. cbn in Hz.
  destruct (devices_of i (tables x)) as [|d [|? ?]]; [..|done].
  - apply submseteq_nil_r in Hsub as ->. destruct dn; congruence.
  - destruct rows as [|row rows]; [destruct dn; [|done]; by apply Permutation_nil_l in Hdone|].
    assert (Hrow : row ∈ [[SqlInt (dr_id d)]]) by (eapply elem_of_submseteq; [by left|exact Hsub]).
    apply list_elem_of_singleton in Hrow as ->. injection Hz as <-. reflexivity.
Qed.

(** ** Functions that only touch the statistics, or nothing *)

Lemma set_t_stats_same t : set_t_stats (t_stats t) t = t.
Proof. by destruct t. Qed.

Lemma set_t_stats_again a b t : set_t_stats a (set_t_stats b t) = set_t_stats a t.
Proof. done. Qed.

Lemma selectDevicePsk_spec i x psk x' : selectDevicePsk i x = (psk, x') ->
  tables x' = tables x /\ (psk <> [] -> exists r, r ∈ devices_of i (tables x) /\ psk = until_nul (dr_psk r)).
Proof.
  unfold selectDevicePsk. destruct (sql_query SQL_SELECT_DEVICE [SqlText i] x) as [r x1] eqn:Hq. intros [= <- <-].
  apply sql_query_outcome in Hq. eapply query_outcome in Hq as [-> Hr]; [|reflexivity]. split; [done|].
  intros Hne. destruct r as [[[|row rows] dn]|]; [by destruct dn| |done]. destruct Hr as [Hsub _].
  assert (Hrow : row ∈ (fun d => [SqlText (dr_psk d)]) <$> devices_of i (tables x)) by (eapply elem_of_submseteq; [by left|exact Hsub]).
  apply list_elem_of_fmap in Hrow as (r & -> & Hr). by exists r.
Qed.

Lemma checkDeviceForStats_spec i x b x' : checkDeviceForStats i x = (b, x') -> tables x' = tables x.
Proof. intros Hc. by eapply sql_check_spec in Hc as [? _]. Qed.

Lemma checkDeviceCommandByIdentity_spec i x b x' : checkDeviceCommandByIdentity i x = (b, x') -> tables x' = tables x.
Proof. intros Hc. by eapply sql_check_spec in Hc as [? _]. Qed.

Lemma selectStats_spec i s x r x' : selectStats i s x = (r, x') -> tables x' = tables x.
Proof.
  unfold selectStats. destruct (sql_query SQL_GET_STATS [SqlText i] x) as [o x1] eqn:Hq.
  apply sql_query_outcome in Hq. eapply query_outcome in Hq as [Ht _]; [|reflexivity].
  intros Hr. repeat case_match; by injection Hr as <- <-.
Qed.

Lemma insertStats_spec i s x b x' : insertStats i s x = (b, x') -> exists rows, tables x' = set_t_stats rows (tables x).
Proof.
  unfold insertStats. destruct (get_deviceId i x) as [id x1] eqn:Hid. apply get_deviceId_spec in Hid as [<- _].
  destruct id as [id|]; [|intros [= <- <-]; eexists; symmetry; apply set_t_stats_same].
  destruct (sql_run SQL_INSERT_STATS (SqlInt id :: stats_args s) x1) as [r x2] eqn:Hr. intros [= <- <-].
  apply sql_run_outcome in Hr. apply effect_outcome in Hr as [_ Hr]; [|solve_effect]. destruct (stepped r).
  - cbn in Hr. case_decide; [|done]. injection Hr as <-. by eexists.
  - rewrite Hr. eexists. symmetry. apply set_t_stats_same.
Qed.

(** ** Commands *)

(** The command a row holds, as it comes back. *)
Definition row_cmd (i : list byte) (c : command_row) : AtlasCommandDevice :=
  new_AtlasCommandDevice i (u32 (s32 (cr_sequenceNumber c))) (until_nul (cr_commandType c)) (until_nul (cr_commandPayload c)).

Definition loaded (i : list byte) (executed : bool) (rows : list command_row) : list AtlasCommandDevice :=
  row_cmd i <$> base.filter (fun c => cr_isExecuted c = executed) rows.

Lemma submseteq_fmap_inv {A B} (f : A -> B) (l : list B) (m : list A) :
  l ⊆+ f <$> m -> exists l', l = f <$> l' /\ l' ⊆+ m.
Proof.
  intros [k Hk]%submseteq_Permutation. symmetry in Hk. apply Permutation_map_inv in Hk as (m' & Heq & Hm).
  symmetry in Heq. apply fmap_app_inv in Heq as (l1 & l2 & -> & -> & ->). exists l1. split; [done|].
  rewrite Hm. apply submseteq_inserts_r. done.
Qed.

(** The rows of [selectDeviceCommand]. *)
Lemma selected_rows i x r x' :
  sql_query SQL_GET_DEVICE_COMMAND_BY_IDENTITY [SqlText i] x = (r, x') ->
  tables x' = tables x /\
  forall r', r = Some r' -> exists rows, sql_rows r' = command_columns <$> rows /\
    rows ⊆+ owned cr_deviceId i (tables x) (t_command (tables x)) /\
    (sql_done r' = true -> rows ≡ₚ owned cr_deviceId i (tables x) (t_command (tables x))).
Proof.
  intros Hq%sql_query_outcome. eapply query_outcome in Hq as [Ht Hr]; [|reflexivity]. split; [done|].
  intros r' ->. destruct Hr as [Hsub Hdone]. apply submseteq_fmap_inv in Hsub as (rows & Hrows & Hsub).
  exists rows. split; [done|]. split; [done|]. intros Hd. apply submseteq_length_Permutation; [done|].
  specialize (Hdone Hd). rewrite Hrows in Hdone. apply Permutation_length in Hdone. rewrite !length_fmap in Hdone. lia.
Qed.

Definition add_command (d : device_row) (seq : Z) (ty pl : list byte) (t : Tables) : Tables :=
  set_t_command (t_command t ++ [mk_command_row (dr_id d) (s32 seq) ty pl false]) t.

(** An insertion for a known device: done, or without effect, or, when only its
    second statement fails, without a new maximum. *)
Lemma insertDeviceCommand_spec seq ty pl d x b x' :
  tables_ok (tables x) -> d ∈ t_device (tables x) ->
  insertDeviceCommand seq ty pl (dr_identity d) x = (b, x') ->
  let t1 := add_command d seq ty pl (tables x) in
  if b then tables x' = set_t_maxSeq ((fun _ => s32 seq) <$> t_maxSeq (tables x)) t1
  else tables x' = tables x \/ tables x' = t1.
Proof.
  intros Ht Hd. unfold insertDeviceCommand. destruct (get_deviceId (dr_identity d) x) as [id x1] eqn:Hid.
  apply get_deviceId_spec in Hid as [Hx1 Hid]. rewrite devices_of_unique in Hid by done.
  destruct id as [id|]; [|intros [= <- <-]; by left]. rewrite (Hid id eq_refl). clear Hid.
  assert (Hs : s32 (dr_id d) = dr_id d).
  { destruct Ht as (_ & _ & Hr). rewrite Forall_forall in Hr. specialize (Hr d Hd). unfold s32. lia. }
  rewrite Hs. set (args := [_; _; _; _]). destruct (sql_run SQL_INSERT_DEVICE_COMMAND args x1) as [r x2] eqn:Hr.
  apply sql_run_outcome in Hr. apply effect_outcome in Hr as [_ Hr]; [|solve_effect]. rewrite Hx1 in Hr.
  destruct (stepped r).
  - cbn in Hr. rewrite decide_True in Hr by (by apply list_elem_of_fmap_2). injection Hr as Hr.
    intros Hu. apply updateMax_spec in Hu. rewrite Hu, <- Hr. cbn. destruct b; [done|by right].
  - intros [= <- <-]. by left.
Qed.

(** The rows [selectDeviceCommand] reads are whole commands. *)
Lemma row_command_columns i c :
  row_command i (command_columns c) =
  Ok (row_cmd i c, cr_isExecuted c).
Proof. unfold row_command. cbn. by destruct (cr_isExecuted c). Qed.
End StoreFacts.

(** * An engine to run: the tables in memory; it never fails while it is connected *)

Definition mem_steps {X} (get : X -> Tables) (set : Tables -> X -> X) (s : sql_stmt) (args : list sql_value) (x : X)
  : sql_result * X :=
  match sql_exec s args (get x) with
  | Some (rows, t) => (mk_sql_result rows true, set t x)
  | None => (mk_sql_result [] false, x)
  end.

Definition mem_sql {X} (up : bool) (get : X -> Tables) (set : Tables -> X -> X) (Hset : forall t x, get (set t x) = t) : SqlEngine X.
Proof.
  refine {| isConnected := fun _ => up; sqlite3_prepare := fun _ x => (true, x); sqlite3_bind := fun _ _ x => (true, x);
            sqlite3_steps := mem_steps get set; sqlite3_text_int := fun _ => 0; sqlite3_real_int := fun _ => 0;
            sqlite3_no_row := 0; sqlite3_int_text := dec; sqlite3_real_text := to_string; sqlite3_text_double := fun _ => d0;
            tables := get |}; try done.
  intros s args x. unfold mem_steps. destruct (sql_exec s args (get x)) as [[rows t]|] eqn:He; cbn.
  - exists rows. by rewrite Hset.
  - split; [done|]. apply submseteq_nil_l.
Defined.

(** A clock beside such tables, for sample gateways: one device, with its key. *)
Definition one_device (i psk : list byte) : Tables := mk_tables 2 [mk_device_row 1 i psk] [] [] [0] [] (mk_bayes 1 [] []).

Definition clock_sql : SqlEngine (Z * Tables) :=
  mem_sql true snd (fun t x => (x.1, t)) (fun t x => eq_refl).

Lemma mem_reliable {X} (get : X -> Tables) set Hset : @sql_reliable X (mem_sql true get set Hset).
Proof.
  intros s args x rows t He. cbn in He. unfold sql_query, sql_run. cbn. unfold mem_steps. rewrite He. by eexists _, _.
Qed.
