(* ===== verification/GwNetStore.v ===== *)
(** The reputation networks in the database: what the statements of
    [AtlasSQLite::insertBayesParams], [updateBayesParams] and [selectBayesParams]
    do to the tables, and that a network written and read back is the same, up to
    the order of its features. *)
From S2P Require Import Prelude Defs CLib Command Double GwDefs GwBayes GwStore.

Section NetStore.
Context {X : Type} `{SqlEngine X}.

(** * Only the networks change *)

Lemma set_t_bayes_same t : set_t_bayes (t_bayes t) t = t.
Proof. by destruct t. Qed.

Lemma set_t_bayes_again a b t : set_t_bayes a (set_t_bayes b t) = set_t_bayes a t.
Proof. done. Qed.

(** Statements that return nothing and change at most the networks. *)
Definition network_stmt (s : sql_stmt) : Prop :=
  forall args t rows t', sql_exec s args t = Some (rows, t') -> rows = [] /\ exists b, t' = set_t_bayes b t.

Ltac network_stmt_tac :=
  let He := fresh "He" in intros args t rows t' He; cbn in He; repeat (case_match; try discriminate); simplify_eq;
  (split; [done|by eexists]).

Lemma insert_network_stmt : network_stmt SQL_INSERT_NETWORK.
Proof. network_stmt_tac. Qed.
Lemma update_network_stmt : network_stmt SQL_UPDATE_NETWORK.
Proof. network_stmt_tac. Qed.
Lemma insert_feature_stmt : network_stmt SQL_INSERT_FEATURE.
Proof. network_stmt_tac. Qed.
Lemma update_feature_stmt : network_stmt SQL_UPDATE_FEATURE.
Proof. network_stmt_tac. Qed.
#[local] Hint Resolve insert_network_stmt update_network_stmt insert_feature_stmt update_feature_stmt : core.

Lemma network_outcome s args t r t' : network_stmt s -> sql_outcome s args t r t' ->
  stepped r = is_done r /\ (if stepped r then sql_exec s args t = Some ([], t') else t' = t) /\ exists b, t' = set_t_bayes b t.
Proof.
  intros Hs Ho. apply effect_outcome in Ho as [Hd Ho]; [|by intros rows t1 [? _]%Hs]. split; [done|]. split; [done|].
  destruct (stepped r); [by apply Hs in Ho as [_ ?]|]. exists (t_bayes t). by rewrite set_t_bayes_same.
Qed.

(** The tables after a statement for every item. *)
Fixpoint exec_all (s : sql_stmt) (rows : list (list sql_value)) (t : Tables) : option Tables :=
  match rows with
  | [] => Some t
  | args :: rows => match sql_exec s args t with Some (_, t') => exec_all s rows t' | None => None end
  end.

Lemma sql_each_spec s rows x b x' : network_stmt s -> sql_each s rows x = (b, x') ->
  (b = true -> exec_all s rows (tables x) = Some (tables x')) /\ exists n, tables x' = set_t_bayes n (tables x).
Proof.
  intros Hs. revert x. induction rows as [|args rows IH]; intros x; cbn.
  { intros [= <- <-]. split; [done|]. exists (t_bayes (tables x)). by rewrite set_t_bayes_same. }
  destruct (sql_bound s args x) as [r x1] eqn:Hr. apply sql_bound_outcome in Hr.
  apply network_outcome in Hr as (_ & Hr & n & Hn); [|done]. destruct (stepped r).
  - intros Hrest. apply IH in Hrest as [Hall (n' & Hn')]. rewrite Hr. split; [done|]. exists n'. by rewrite Hn', Hn.
  - intros [= <- <-]. split; [done|]. by exists n.
Qed.

Lemma sql_loop_spec s rows x b x' : network_stmt s -> sql_loop s rows x = (b, x') ->
  (b = true -> exec_all s rows (tables x) = Some (tables x')) /\ exists n, tables x' = set_t_bayes n (tables x).
Proof.
  intros Hs. unfold sql_loop. pose proof (prepare_tables s x) as Hp. destruct (sqlite3_prepare s x) as [[] x1]; cbn in Hp.
  - rewrite <- Hp. by apply sql_each_spec.
  - intros [= <- <-]. split; [done|]. exists (t_bayes (tables x)). by rewrite set_t_bayes_same.
Qed.

Lemma checkDeviceForFeatures_spec i type x b x' : checkDeviceForFeatures i type x = (b, x') -> tables x' = tables x.
Proof. intros Hc. by eapply sql_check_spec in Hc as [? _]. Qed.

Lemma selectNetwork_spec i type m x r x' : selectNetwork i type m x = (r, x') ->
  tables x' = tables x /\ features_ r.2 = features_ m /\ feedbackThreshold_ r.2 = feedbackThreshold_ m /\
  (r.1 = true -> forall n, networks_of i type (tables x) = [n] ->
   totalTrans_ r.2 = s32 (nr_totalTrans n) /\ totalSuccessTrans_ r.2 = s32 (nr_totalSuccessTrans n)).
Proof.
  unfold selectNetwork. destruct (sql_query SQL_GET_NETWORK [SqlText i; SqlInt type] x) as [o x1] eqn:Hq.
  apply sql_query_outcome in Hq. eapply query_outcome in Hq as [Ht Ho]; [|reflexivity].
  intros Hr. destruct o as [[rows dn]|]; [|by injection Hr as <- <-]. cbn in Ho. destruct Ho as [Hsub Hp].
  unfold sql_step in Hr. cbn in Hr. destruct rows as [|row rows].
  - destruct dn; injection Hr as <- <-; cbn; (split; [done|split; [done|split; [done|]]]); [|done].
    intros _ n Hn. rewrite Hn in Hp. specialize (Hp eq_refl). by apply Permutation_nil_l in Hp.
  - injection Hr as <- <-. cbn. split; [done|split; [done|split; [done|]]]. intros _ n Hn. rewrite Hn in Hsub.
    assert (Hrow : row ∈ (fun n => [SqlInt (nr_totalTrans n); SqlInt (nr_totalSuccessTrans n)]) <$> [n])
      by (eapply elem_of_submseteq; [by left|exact Hsub]).
    by apply list_elem_of_singleton in Hrow as ->.
Qed.

(** * Loading features *)

Lemma types_updateWeight w (pos : nat) (l : list AtlasDeviceFeature) : featureType_ <$> alter (updateWeight w) pos l = featureType_ <$> l.
Proof. revert pos. induction l as [|f l IH]; intros [|pos]; cbn; f_equal; done. Qed.

Lemma load_feature_ok m row : exists l, load_feature m row = Ok (set_features l m).
Proof.
  unfold load_feature. set (type := column_int row 0). set (m1 := (addFeature type _ m).2).
  assert (Hin : type ∈ featureType_ <$> features_ m1 /\ forall l, set_features l m1 = set_features l m).
  { unfold m1, addFeature. case_decide as Hlt; cbn; (split; [|done]).
    - apply feature_pos_length in Hlt. by rewrite types_updateWeight.
    - rewrite fmap_app. apply elem_of_app. right. by apply list_elem_of_singleton. }
  destruct Hin as [(f & Hf & _)%feature_pos_in Hset]. unfold update_feature, feature_at. rewrite Hf.
  rewrite !res_bind_ok, Hset. by eexists.
Qed.

Lemma load_features_ok m rows : exists l, load_features m rows = Ok (set_features l m).
Proof.
  revert m. induction rows as [|row rows IH]; intros m; cbn; [exists (features_ m); by destruct m|].
  destruct (load_feature_ok m row) as (l & ->). rewrite res_bind_ok. destruct (IH (set_features l m)) as (l' & ->). by exists l'.
Qed.

(** The feature a row holds, as it comes back. *)
Definition row_feature (r : feature_row) : AtlasDeviceFeature :=
  mk_feature (s32 (fr_featureTypeId r)) (fr_weight r) (s32 (fr_successTrans r)).

Lemma feature_pos_last type l f : type ∉ featureType_ <$> l -> featureType_ f = type -> feature_pos type (l ++ [f]) = length l.
Proof.
  intros Hnew Ht. induction l as [|g l IH]; cbn; [by rewrite decide_True|].
  cbn in Hnew. apply not_elem_of_cons in Hnew as [Hne Hnew]. rewrite decide_False by congruence. by rewrite IH.
Qed.

Lemma load_feature_new m r : s32 (fr_featureTypeId r) ∉ featureType_ <$> features_ m ->
  load_feature m (feature_columns r) = Ok (set_features (features_ m ++ [row_feature r]) m).
Proof.
  intros Hnew. unfold load_feature. cbn [feature_columns column_int column_double lookup list_lookup].
  set (type := s32 (fr_featureTypeId r)) in *. unfold addFeature.
  rewrite decide_False by (by rewrite feature_pos_length). cbn [snd]. unfold update_feature, feature_at. cbn [features_ set_features].
  rewrite feature_pos_last by done. rewrite list_lookup_middle by done. rewrite !res_bind_ok. f_equal.
  unfold set_features. cbn. f_equal. rewrite insert_app_r_alt by done. by rewrite Nat.sub_diag.
Qed.

Lemma load_features_new m rows :
  NoDup ((featureType_ <$> features_ m) ++ ((fun r => s32 (fr_featureTypeId r)) <$> rows)) ->
  load_features m (feature_columns <$> rows) = Ok (set_features (features_ m ++ (row_feature <$> rows)) m).
Proof.
  revert m. induction rows as [|r rows IH]; intros m Hnd; cbn [fmap list_fmap load_features].
  { rewrite app_nil_r. by destruct m. }
  assert (Hnew : s32 (fr_featureTypeId r) ∉ featureType_ <$> features_ m).
  { apply NoDup_app in Hnd as (_ & Hd & _). intros Hin. apply (Hd _ Hin). left. }
  rewrite load_feature_new by done. rewrite res_bind_ok, IH.
  - cbn. by rewrite <- app_assoc.
  - cbn. rewrite fmap_app. cbn. by rewrite <- app_assoc.
Qed.

Lemma selectFeatures_spec i type m x r x' : selectFeatures i type m x = (r, x') ->
  tables x' = tables x /\ exists b l, r = Ok (b, set_features l m) /\
  (b = true -> features_ m = [] -> NoDup ((fun r => s32 (fr_featureTypeId r)) <$> features_of i type (tables x)) ->
   l ≡ₚ row_feature <$> features_of i type (tables x)).
Proof.
  unfold selectFeatures. destruct (sql_query SQL_GET_FEATURE [SqlText i; SqlInt type] x) as [o x1] eqn:Hq.
  apply sql_query_outcome in Hq. eapply query_outcome in Hq as [Ht Ho]; [|reflexivity]. intros [= <- <-]. split; [done|].
  destruct o as [[rows dn]|]; [|by exists false, (features_ m); destruct m]. cbn in Ho |- *. destruct Ho as [Hsub Hp].
  destruct (load_features_ok m rows) as (l & Hl). rewrite Hl. exists dn, l. split; [done|]. intros -> Hnil Hnd.
  specialize (Hp eq_refl). apply Permutation_map_inv in Hp as (frs & -> & Hperm).
  change (map feature_columns frs) with (feature_columns <$> frs) in Hl.
  rewrite load_features_new in Hl; [|rewrite Hnil; cbn; rewrite <- Hperm; done].
  injection Hl as Hl. rewrite Hnil in Hl. cbn in Hl. rewrite <- Hl. by rewrite Hperm.
Qed.

(** * A network in the tables *)

Definition stored_feature (r : feature_row) : AtlasDeviceFeature :=
  mk_feature (fr_featureTypeId r) (fr_weight r) (fr_successTrans r).

Definition net_stored (i : list byte) (type : Z) (m : AtlasDeviceFeatureManager) (t : Tables) : Prop :=
  exists n, networks_of i type t = [n] /\ nr_totalTrans n = totalTrans_ m /\
    nr_totalSuccessTrans n = totalSuccessTrans_ m /\ stored_feature <$> features_of i type t ≡ₚ features_ m.

(** [int] values, and features of different types. *)
Definition is_int (z : Z) : Prop := -2147483648 <= z <= INT_MAX.
Definition manager_wf (m : AtlasDeviceFeatureManager) : Prop :=
  NoDup (featureType_ <$> features_ m) /\ is_int (totalTrans_ m) /\ is_int (totalSuccessTrans_ m) /\
  Forall (fun f => is_int (featureType_ f) /\ is_int (successTrans_ f)) (features_ m).

Lemma s32_int z : is_int z -> s32 z = z.
Proof. unfold is_int, INT_MAX, s32. lia. Qed.

(** ** Reading *)

Lemma selectBayesParams_spec i type m x r x' : selectBayesParams i type m x = (r, x') ->
  tables x' = tables x /\ exists b m', r = Ok (b, m') /\ feedbackThreshold_ m' = feedbackThreshold_ m.
Proof.
  unfold selectBayesParams. destruct (selectNetwork i type m x) as [[b1 m1] x1] eqn:Hn.
  apply selectNetwork_spec in Hn as (Hx1 & Hf & Hth & _). cbn in Hf, Hth. destruct b1.
  - intros Hs. apply selectFeatures_spec in Hs as (Hx' & b & l & -> & _). split; [congruence|]. by eexists _, _.
  - intros [= <- <-]. split; [done|]. by eexists _, _.
Qed.

Lemma selectBayesParams_stored i type m m0 x m' x' :
  net_stored i type m (tables x) -> manager_wf m -> features_ m0 = [] ->
  selectBayesParams i type m0 x = (Ok (true, m'), x') ->
  totalTrans_ m' = totalTrans_ m /\ totalSuccessTrans_ m' = totalSuccessTrans_ m /\ features_ m' ≡ₚ features_ m /\
  feedbackThreshold_ m' = feedbackThreshold_ m0.
Proof.
  intros (n & Hn & Htt & Hts & Hfs) (Hnd & Hi1 & Hi2 & Hints) Hnil. unfold selectBayesParams.
  destruct (selectNetwork i type m0 x) as [[b1 m1] x1] eqn:Hsn. apply selectNetwork_spec in Hsn as (Hx1 & Hf & Hth & Hc).
  cbn in Hf, Hth, Hc. destruct b1; [|done]. destruct (Hc eq_refl n Hn) as [Hc1 Hc2].
  intros Hs. apply selectFeatures_spec in Hs as (_ & b & l & [= <- ->] & Hl). rewrite Hx1 in Hl.
  assert (Hrow : row_feature <$> features_of i type (tables x) = stored_feature <$> features_of i type (tables x)).
  { apply list_fmap_ext. intros k r Hr. unfold row_feature, stored_feature.
    assert (Hin : stored_feature r ∈ features_ m).
    { rewrite <- Hfs. apply list_elem_of_fmap_2. by eapply list_elem_of_lookup_2. }
    rewrite Forall_forall in Hints. destruct (Hints _ Hin) as [H1 H2]. by rewrite !s32_int by done. }
  cbn. rewrite Hc1, Hc2, Htt, Hts, !s32_int by done. split; [done|]. split; [done|]. split; [|done].
  rewrite Hl, Hrow; [done|done|congruence|].
  replace ((fun r => s32 (fr_featureTypeId r)) <$> features_of i type (tables x))
    with (featureType_ <$> (row_feature <$> features_of i type (tables x))) by (by rewrite <- list_fmap_compose).
  by rewrite Hrow, Hfs.
Qed.

(** ** Updating *)

(** A map that keeps what a filter tests. *)
Lemma filter_fmap_same {A} (P : A -> Prop) `{forall a, Decision (P a)} (g : A -> A) (l : list A) :
  (forall a, P (g a) <-> P a) -> base.filter P (g <$> l) = g <$> base.filter P l.
Proof.
  intros Hg. induction l as [|a l IH]; [done|]. cbn [fmap list_fmap]. rewrite !filter_cons.
  destruct (decide (P a)) as [HP|HP]; [rewrite decide_True by (by apply Hg)|rewrite decide_False by (by rewrite Hg)]; cbn; by rewrite IH.
Qed.

Lemma owned_fmap {A} (id : A -> Z) i t (g : A -> A) (l : list A) :
  (forall a, id (g a) = id a) -> owned id i t (g <$> l) = g <$> owned id i t l.
Proof.
  intros Hg. unfold owned. induction (devices_of i t) as [|d ds IH]; [done|]. cbn. rewrite fmap_app, IH. f_equal.
  apply filter_fmap_same. intros a. by rewrite Hg.
Qed.

Lemma update_network_row_keys i type tot suc t n : let n' := update_network_row i type tot suc t n in
  nr_id n' = nr_id n /\ nr_deviceId n' = nr_deviceId n /\ nr_networkTypeId n' = nr_networkTypeId n.
Proof. unfold update_network_row. by case_decide. Qed.

Lemma networks_of_update i type tot suc t b fs :
  networks_of i type (set_t_bayes (mk_bayes b (update_network_row i type tot suc t <$> b_network (t_bayes t)) fs) t)
  = update_network_row i type tot suc t <$> networks_of i type t.
Proof.
  unfold networks_of. cbn [t_bayes set_t_bayes b_network].
  change (owned nr_deviceId i (set_t_bayes _ t)) with (owned nr_deviceId i t).
  rewrite owned_fmap by (intros a; apply update_network_row_keys).
  apply filter_fmap_same. intros a. by rewrite (proj2 (proj2 (update_network_row_keys i type tot suc t a))).
Qed.

Lemma networks_of_in i type t n : n ∈ networks_of i type t ->
  nr_deviceId n ∈ dr_id <$> devices_of i t /\ nr_networkTypeId n = type.
Proof.
  unfold networks_of, owned. intros [Ht Hn]%list_elem_of_filter. split; [|done].
  apply list_elem_of_bind in Hn as (d & [Hd _]%list_elem_of_filter & Hin). rewrite Hd. by apply list_elem_of_fmap_2.
Qed.

(** One UPDATE per feature, on the rows of one network. *)
Definition set_success (nid : Z) (f : AtlasDeviceFeature) (r : feature_row) : feature_row :=
  if decide (fr_networkId r = nid /\ fr_featureTypeId r = featureType_ f)
  then mk_feature_row (fr_networkId r) (fr_featureTypeId r) (successTrans_ f) (fr_weight r) else r.

Definition feature_updates (i : list byte) (type : Z) (fs : list AtlasDeviceFeature) : list (list sql_value) :=
  (fun f => [SqlInt (successTrans_ f); SqlText i; SqlInt type; SqlInt (featureType_ f)]) <$> fs.

Lemma exec_updates i type fs t t' n : networks_of i type t = [n] ->
  exec_all SQL_UPDATE_FEATURE (feature_updates i type fs) t = Some t' ->
  networks_of i type t' = [n] /\
  features_of i type t' = (fun r => foldl (fun r f => set_success (nr_id n) f r) r fs) <$> features_of i type t.
Proof.
  revert t. induction fs as [|f fs IH]; intros t Hn; cbn.
  { intros [= <-]. split; [done|]. symmetry. apply list_fmap_id. }
  intros Hall. apply IH in Hall; [|done]. destruct Hall as [Hn' ->]. split; [done|].
  assert (Hf : features_of i type (set_t_bayes (mk_bayes (b_nextNetwork (t_bayes t)) (b_network (t_bayes t))
      (update_feature_row i type (featureType_ f) (successTrans_ f) t <$> b_feature (t_bayes t))) t)
    = set_success (nr_id n) f <$> features_of i type t).
  { unfold features_of. change (networks_of i type (set_t_bayes _ t)) with (networks_of i type t). rewrite Hn. cbn. rewrite !app_nil_r.
    rewrite <- filter_fmap_same; [|intros r; unfold set_success; by case_decide]. f_equal. apply list_fmap_ext. intros k r _.
    unfold update_feature_row, set_success. rewrite Hn. cbn. apply decide_ext. by rewrite list_elem_of_singleton. }
  rewrite Hf, <- list_fmap_compose. done.
Qed.

(** The same on features. *)
Definition recount (fs : list AtlasDeviceFeature) (g : AtlasDeviceFeature) : AtlasDeviceFeature :=
  foldl (fun g f => if decide (featureType_ g = featureType_ f) then setSuccessfulTransactions (successTrans_ f) g else g) g fs.

Lemma stored_recount nid fs r : fr_networkId r = nid ->
  stored_feature (foldl (fun r f => set_success nid f r) r fs) = recount fs (stored_feature r).
Proof.
  revert r. induction fs as [|f fs IH]; intros r Hr; [done|]. cbn [foldl recount]. unfold recount. cbn [foldl].
  rewrite IH by (unfold set_success; by case_decide). unfold recount. f_equal. unfold set_success, stored_feature. cbn.
  case_decide as Hd1; case_decide as Hd2; try done; naive_solver.
Qed.

Lemma recount_other fs g : featureType_ g ∉ featureType_ <$> fs -> recount fs g = g.
Proof.
  unfold recount. induction fs as [|f fs IH]; [done|]. cbn. intros [Hne Hnew]%not_elem_of_cons.
  rewrite decide_False by done. by apply IH.
Qed.

Lemma recount_in fs f g : NoDup (featureType_ <$> fs) -> f ∈ fs -> featureType_ g = featureType_ f ->
  recount fs g = setSuccessfulTransactions (successTrans_ f) g.
Proof.
  induction fs as [|f' fs IH]; intros Hnd Hf Ht; [by apply elem_of_nil in Hf|]. cbn in Hnd. apply NoDup_cons in Hnd as [Hnew Hnd].
  apply elem_of_cons in Hf as [<-|Hf].
  - unfold recount. cbn [foldl]. rewrite decide_True by done. apply recount_other. cbn. by rewrite Ht.
  - unfold recount. cbn [foldl]. rewrite decide_False; [by apply IH|]. intros Heq. apply Hnew. rewrite <- Heq, Ht.
    by apply list_elem_of_fmap_2.
Qed.

Lemma recount_all fs l k : NoDup (featureType_ <$> fs) -> k ⊆ fs ->
  (fun f => (featureType_ f, weight_ f)) <$> k = (fun f => (featureType_ f, weight_ f)) <$> l -> recount fs <$> l = k.
Proof.
  intros Hnd. revert l. induction k as [|f k IH]; intros [|g l] Hin Hsh; try done. cbn in Hsh. injection Hsh as Ht Hw Hsh.
  cbn. f_equal.
  - rewrite (recount_in _ f); [|done|apply Hin; left|done]. destruct f, g; cbn in *. by subst.
  - apply IH; [|done]. intros a Ha. apply Hin. by right.
Qed.

Lemma features_of_network i type t n r : networks_of i type t = [n] -> r ∈ features_of i type t -> fr_networkId r = nr_id n.
Proof. intros Hn. unfold features_of. rewrite Hn. cbn. rewrite app_nil_r. by intros [? _]%list_elem_of_filter. Qed.

Lemma updateBayesParams_only i type m x b x' : updateBayesParams i type m x = (b, x') -> exists n, tables x' = set_t_bayes n (tables x).
Proof.
  unfold updateBayesParams, updateNetwork, sql_do.
  destruct (sql_query SQL_UPDATE_NETWORK _ x) as [r x1] eqn:Hu. apply sql_query_outcome in Hu.
  apply network_outcome in Hu as (_ & _ & n1 & Hn1); [|done]. destruct (stepped r).
  - unfold updateFeatures. destruct (isConnected x1); [|intros [= <- <-]; by exists n1].
    intros (_ & n & Hn)%sql_loop_spec; [|done]. exists n. by rewrite Hn, Hn1.
  - intros [= <- <-]. by exists n1.
Qed.

Lemma updateBayesParams_stored i type m m' x x' :
  net_stored i type m (tables x) -> manager_wf m -> shape m' = shape m ->
  updateBayesParams i type m' x = (true, x') -> net_stored i type m' (tables x').
Proof.
  intros (n & Hn & Htt & Hts & Hfs) (Hnd & _) Hsh. apply (f_equal fst) in Hsh. cbn in Hsh. unfold updateBayesParams, updateNetwork, sql_do.
  destruct (sql_query SQL_UPDATE_NETWORK _ x) as [r x1] eqn:Hu. apply sql_query_outcome in Hu.
  apply network_outcome in Hu as (_ & Hu & _); [|done]. destruct (stepped r); [|done]. cbn in Hu. injection Hu as Hu.
  unfold updateFeatures. destruct (isConnected x1); [|done]. intros [Hl _]%sql_loop_spec; [|done]. specialize (Hl eq_refl).
  set (n' := update_network_row i type (totalTrans_ m') (totalSuccessTrans_ m') (tables x) n).
  assert (Hn1 : networks_of i type (tables x1) = [n']) by (rewrite <- Hu, networks_of_update, Hn; done).
  assert (Hid : nr_id n' = nr_id n) by apply update_network_row_keys.
  assert (Hf1 : features_of i type (tables x1) = features_of i type (tables x)).
  { unfold features_of. rewrite Hn1, Hn. cbn. by rewrite Hid, <- Hu. }
  destruct (exec_updates i type (features_ m') _ _ n' Hn1 Hl) as [Hn2 Hf2].
  destruct (networks_of_in i type (tables x) n) as [Hdev Hty]; [rewrite Hn; left|].
  exists n'. split; [done|]. unfold n', update_network_row. rewrite decide_True by done. split; [done|]. split; [done|].
  rewrite Hf2, Hf1, <- list_fmap_compose.
  rewrite (list_fmap_ext _ (recount (features_ m') ∘ stored_feature)).
  - rewrite list_fmap_compose, Hfs. rewrite (recount_all _ _ (features_ m')); [done| |done|done].
    apply (f_equal (fmap fst)) in Hsh. rewrite <- !list_fmap_compose in Hsh.
    change (featureType_ <$> features_ m' = featureType_ <$> features_ m) in Hsh. by rewrite Hsh.
  - intros k r0 Hr. cbn. apply stored_recount. rewrite Hid. apply (features_of_network i type (tables x)); [done|].
    by eapply list_elem_of_lookup_2.
Qed.

(** ** Inserting *)

(** Network ids below the next one, and in an [int]. *)
Definition bayes_ok (b : BayesTables) : Prop :=
  0 < b_nextNetwork b <= INT_MAX /\ Forall (fun n => nr_id n < b_nextNetwork b) (b_network b) /\
  Forall (fun f => fr_networkId f < b_nextNetwork b) (b_feature b).

Lemma insertNetwork_spec i type m x b x' : insertNetwork i type m x = (b, x') ->
  (exists n, tables x' = set_t_bayes n (tables x)) /\
  (b = true -> forall d, tables_ok (tables x) -> d ∈ t_device (tables x) -> dr_identity d = i ->
   tables x' = set_t_bayes (add_network (dr_id d) type (totalTrans_ m) (totalSuccessTrans_ m) (t_bayes (tables x))) (tables x)).
Proof.
  unfold insertNetwork. destruct (get_deviceId i x) as [id x1] eqn:Hid. apply get_deviceId_spec in Hid as [Hx1 Hid].
  destruct id as [id|].
  - destruct (sql_run SQL_INSERT_NETWORK _ x1) as [r x2] eqn:Hr. apply sql_run_outcome in Hr. rewrite Hx1 in Hr.
    apply network_outcome in Hr as (Hd & Hr & Hn); [|done]. intros [= <- <-]. split; [done|]. rewrite <- Hd.
    intros Hst d Ht Hdev <-. rewrite Hst in Hr. cbn in Hr. case_decide; [|done]. injection Hr as <-.
    specialize (Hid id eq_refl). rewrite devices_of_unique in Hid by done. rewrite Hid.
    destruct Ht as (_ & _ & Hrange). rewrite Forall_forall in Hrange. specialize (Hrange d Hdev).
    rewrite s32_int by (unfold is_int, INT_MAX; lia). done.
  - intros [= <- <-]. split; [|done]. exists (t_bayes (tables x)). by rewrite Hx1, set_t_bayes_same.
Qed.

Definition feature_inserts (nid : Z) (fs : list AtlasDeviceFeature) : list (list sql_value) :=
  (fun f => [SqlInt nid; SqlInt (featureType_ f); SqlInt (successTrans_ f); SqlReal (weight_ f)]) <$> fs.

Definition new_rows (nid : Z) (fs : list AtlasDeviceFeature) : list feature_row :=
  (fun f => mk_feature_row nid (featureType_ f) (successTrans_ f) (weight_ f)) <$> fs.

Lemma new_rows_stored nid fs : stored_feature <$> base.filter (fun f => fr_networkId f = nid) (new_rows nid fs) = fs.
Proof.
  unfold new_rows. induction fs as [|f fs IH]; [done|].
  cbn [fmap list_fmap]. rewrite filter_cons, decide_True by done. cbn [fmap list_fmap]. rewrite IH. by destruct f.
Qed.

Lemma exec_inserts nid fs t t' : exec_all SQL_INSERT_FEATURE (feature_inserts nid fs) t = Some t' ->
  t' = set_t_bayes (mk_bayes (b_nextNetwork (t_bayes t)) (b_network (t_bayes t)) (b_feature (t_bayes t) ++ new_rows nid fs)) t.
Proof.
  revert t. induction fs as [|f fs IH]; intros t; cbn.
  - intros [= <-]. rewrite app_nil_r. by destruct t as [? ? ? ? ? ? []].
  - case_decide; [|done]. intros Hall%IH. rewrite Hall. cbn. by rewrite <- app_assoc.
Qed.

Lemma insertFeatures_spec i type m x b x' : insertFeatures i type m x = (b, x') ->
  (exists n, tables x' = set_t_bayes n (tables x)) /\
  (b = true -> forall n, networks_of i type (tables x) = [n] -> is_int (nr_id n) ->
   tables x' = set_t_bayes (mk_bayes (b_nextNetwork (t_bayes (tables x))) (b_network (t_bayes (tables x)))
                 (b_feature (t_bayes (tables x)) ++ new_rows (nr_id n) (features_ m))) (tables x)).
Proof.
  unfold insertFeatures. destruct (sql_query SQL_GET_ID_NETWORK [SqlText i; SqlInt type] x) as [r x1] eqn:Hq.
  apply sql_query_outcome in Hq. eapply query_outcome in Hq as [Hx1 Hr]; [|reflexivity].
  assert (Hfail : forall b x', (false, x1) = (b, x') -> (exists n, tables x' = set_t_bayes n (tables x)) /\ (b = true -> False)).
  { intros ? ? [= <- <-]. split; [|done]. exists (t_bayes (tables x)). by rewrite Hx1, set_t_bayes_same. }
  destruct r as [[rows dn]|]; [|intros [? ?]%Hfail; naive_solver].
  destruct Hr as [Hsub Hp]. cbn in Hsub, Hp. unfold sql_step. cbn [sql_rows sql_done].
  destruct rows as [|row rows]; [destruct dn; [|intros [? ?]%Hfail; naive_solver]|].
  - intros [_ Hn]%sql_loop_spec; [|done]. rewrite Hx1 in Hn. split; [done|]. intros _ n Hone. rewrite Hone in Hp.
    specialize (Hp eq_refl). by apply Permutation_nil_l in Hp.
  - intros [Hall Hn]%sql_loop_spec; [|done]. rewrite Hx1 in *. split; [done|]. intros -> n Hone Hint. rewrite Hone in Hsub.
    assert (Hrow : row ∈ (fun n => [SqlInt (nr_id n)]) <$> [n]) by (eapply elem_of_submseteq; [by left|exact Hsub]).
    apply list_elem_of_singleton in Hrow as ->. specialize (Hall eq_refl). cbn [column_int lookup list_lookup] in Hall.
    rewrite s32_int in Hall by done. by apply (exec_inserts (nr_id n)).
Qed.

Lemma insertBayesParams_only i type m x b x' : insertBayesParams i type m x = (b, x') -> exists n, tables x' = set_t_bayes n (tables x).
Proof.
  unfold insertBayesParams. destruct (insertNetwork i type m x) as [[] x1] eqn:Hn; apply insertNetwork_spec in Hn as [(n1 & Hn1) _].
  - intros [(n & Hn) _]%insertFeatures_spec. exists n. by rewrite Hn, Hn1.
  - intros [= <- <-]. by exists n1.
Qed.

Lemma insertBayesParams_stored d type m x x' :
  tables_ok (tables x) -> bayes_ok (t_bayes (tables x)) -> d ∈ t_device (tables x) ->
  networks_of (dr_identity d) type (tables x) = [] ->
  insertBayesParams (dr_identity d) type m x = (true, x') -> net_stored (dr_identity d) type m (tables x').
Proof.
  intros Ht (Hnext & Hids & Hfids) Hd Hnone. unfold insertBayesParams.
  destruct (insertNetwork (dr_identity d) type m x) as [[] x1] eqn:Hn; [|done].
  apply insertNetwork_spec in Hn as [_ Hx1]. specialize (Hx1 eq_refl d Ht Hd eq_refl).
  set (n := mk_network_row (b_nextNetwork (t_bayes (tables x))) (dr_id d) type (totalTrans_ m) (totalSuccessTrans_ m)) in *.
  assert (Hn1 : forall fs, networks_of (dr_identity d) type (set_t_bayes (mk_bayes (b_nextNetwork (t_bayes (tables x)) + 1)
      (b_network (t_bayes (tables x)) ++ [n]) fs) (tables x)) = [n]).
  { intros fs. unfold networks_of in *. cbn [t_bayes set_t_bayes b_network].
    change (owned nr_deviceId (dr_identity d) (set_t_bayes _ (tables x))) with (owned nr_deviceId (dr_identity d) (tables x)).
    rewrite owned_unique in Hnone |- * by done. rewrite !filter_app, Hnone, app_nil_l.
    rewrite (filter_cons _ n), decide_True by done. by rewrite (filter_cons _ n), decide_True by done. }
  intros [_ Hx']%insertFeatures_spec. rewrite Hx1 in Hx'. unfold add_network in Hx'. fold n in Hx'.
  specialize (Hx' eq_refl n (Hn1 _)). rewrite Hx' by (unfold is_int; cbn; lia).
  exists n. cbn [t_bayes set_t_bayes b_nextNetwork b_network b_feature]. rewrite set_t_bayes_again. split; [apply Hn1|].
  split; [done|]. split; [done|]. unfold features_of. rewrite Hn1. cbn. rewrite app_nil_r, filter_app.
  assert (Hold : base.filter (fun f => fr_networkId f = b_nextNetwork (t_bayes (tables x))) (b_feature (t_bayes (tables x))) = []).
  { apply elem_of_nil_inv. intros f [Heq Hf]%list_elem_of_filter. rewrite Forall_forall in Hfids. specialize (Hfids f Hf). lia. }
  rewrite Hold, app_nil_l. by rewrite new_rows_stored.
Qed.
End NetStore.
