(* ===== verification/GwDevice.v ===== *)
(** The gateway's devices (device/AtlasDevice.cpp, device/AtlasDeviceManager.cpp),
    their firewall policies (policy/AtlasFirewallPolicy.cpp), telemetry features and alerts
    (telemetry/AtlasTelemetryInfo.cpp, AtlasAlert.cpp, AtlasPushAlert.cpp,
    AtlasThresholdAlert.cpp, AtlasAlertFactory.cpp) and the agent through which
    policies reach the broker plug-in (pubsub_agent/AtlasPubSubAgent.cpp).

    The gateway is a state-passing monad over [gateway]. What it sends is
    recorded in [gw_out]: JSON updates for the cloud as their key-value pairs,
    bytes for the plug-in, CoAP requests for the devices. The database engine, the
    clock and libcoap are parameters ([GwEnv]); so is the iteration order of
    [std::unordered_map] ([HashOrder]). *)
From S2P Require Import Prelude Defs CLib Command Double GwDefs GwBatch GwXfer GwFilter GwBayes GwStore.
Import GwType.

(** * Data *)

(** policy/AtlasFirewallPolicy.h *)
Record AtlasFirewallPolicy := mk_policy {
  fp_clientId : list byte;
  fp_qos : Z;              (* uint16_t *)
  fp_ppm : Z;              (* uint16_t *)
  fp_payloadLen : Z;       (* uint16_t *)
}.

(** telemetry/AtlasPushAlert.h, AtlasThresholdAlert.h *)
Inductive AtlasAlert :=
  | AtlasPushAlert (path : list byte) (pushRate : Z)
  | AtlasThresholdAlert (path : list byte) (scanRate : Z) (threshold : list byte).

Definition alert_path (a : AtlasAlert) : list byte :=
  match a with AtlasPushAlert p _ => p | AtlasThresholdAlert p _ _ => p end.

(** device/AtlasDevice.h. [kaCtr_] is not initialised by the constructor
    ([None]). The token of the last command request is not kept: nothing but the
    destructor reads it, and devices are never removed. [feedback_] is the entry of
    the device in the map [AtlasDeviceManager::feedback_]. *)
Record AtlasDevice := mk_device {
  identity_ : list byte;
  psk_ : list byte;
  ipPort_ : list byte;
  regTime_ : list byte;
  keepAliveTime_ : list byte;
  registered_ : bool;
  kaCtr_ : option Z;                                  (* uint8_t *)
  telemetryInfo_ : gmap (list byte) (list byte);
  pushAlerts_ : gmap (list byte) AtlasAlert;
  thresholdAlerts_ : gmap (list byte) AtlasAlert;
  policy_ : option AtlasFirewallPolicy;
  stats_ : AtlasFirewallStats;
  startRegTime_ : Z;
  regIntervalSec_ : Z;
  keepAlivePkts_ : Z;
  recvCmds_ : list AtlasCommandDevice;
  execCmds_ : list AtlasCommandDevice;
  deviceCmdTimeouts_ : Z;                             (* uint8_t *)
  deviceReputation_ : gmap Z AtlasDeviceFeatureManager;
  feedback_ : list IAtlasFeedback;
}.

(** ** The environment *)

Class HashOrder := {
  hash_order : forall {A : Type}, gmap (list byte) A -> list (list byte * A);
  hash_order_perm : forall {A : Type} (m : gmap (list byte) A), hash_order m ≡ₚ map_to_list m;
}.

Class GwEnv := {
  gext : Type;
  (** the database engine *)
  gext_sql :: SqlEngine gext;
  (** [second_clock::local_time] in seconds, and [to_simple_string] of it *)
  local_time : gext -> Z * gext;
  to_simple_string : Z -> list byte;
  (** [AtlasCoapClient::sendRequest] with a PUT: false when it throws [AtlasCoapException] *)
  sendRequest : list byte -> list byte -> gext -> bool * gext;
  local_time_tables x : tables (local_time x).2 = tables x;
  sendRequest_tables url payload x : tables (sendRequest url payload x).2 = tables x;
}.

(** No request to a device is refused when it is made: its address is a URI whose
    host resolves and libcoap has memory. A refusal is an exception that no caller
    catches. *)
Class Sends (E : GwEnv) : Prop := sends url payload x : (sendRequest url payload x).1 = true.

(** The calls that leave the gateway's own state. [GwCloud] is the call of
    [AtlasDeviceCloud::updateDevice] and no more: whether it is published, which needs
    a gateway registered at the cloud and a connection that takes it, is GwLink.v's.
    [GwAgent] is what [async_write] is given: the code passes it a buffer of a local
    batch, which is destroyed before the write completes, and the event stands for the
    bytes at the time of the call. *)
Inductive gw_event :=
  | GwCloud (identity : list byte) (fields : list (list byte * list byte))   (* updateDevice *)
  | GwAgent (bytes : list byte)                                             (* AtlasPubSubAgent::write *)
  | GwCoap (identity psk url payload : list byte)                           (* a PUT over DTLS *)
  | GwPublish (topic : list byte) (fields : list (list byte * list byte))   (* tryPublishMessage *)
  | GwCloudGateway (fields : list (list byte * list byte)).                 (* updateGateway *)

Record gateway `{GwEnv} := mk_gateway {
  devices_ : gmap (list byte) AtlasDevice;
  agent_connected : bool;                        (* connectedSocket_ != nullptr *)
  agent_xfer : AtlasCommandXfer;
  gw_out : list gw_event;
  gw_ext : gext;
  trustedDevices_ : gmap Z (list byte);
}.

(** The constructor of [AtlasDeviceManager]: no device is trusted yet. *)
Definition new_trusted : gmap Z (list byte) := {[ ATLAS_NETWORK_SENSOR_TEMPERATURE := [] ]}.

(** * The monad *)

Definition G `{GwEnv} (A : Type) : Type := gateway -> res (A * gateway).

#[export] Instance G_ret `{GwEnv} : MRet G := fun A a g => Ok (a, g).
#[export] Instance G_bind `{GwEnv} : MBind G := fun A B k m g =>
  match m g with Ok (a, g) => k a g | Fault f => Fault f end.

Section Monad.
Context `{E : GwEnv}.

Definition gget {A} (f : gateway -> A) : G A := fun g => Ok (f g, g).
Definition gmodify (f : gateway -> gateway) : G unit := fun g => Ok (tt, f g).
Definition glift {A} (r : res A) : G A := fun g => match r with Ok a => Ok (a, g) | Fault f => Fault f end.

Definition set_devices (m : gmap (list byte) AtlasDevice) (g : gateway) : gateway :=
  mk_gateway E m (agent_connected g) (agent_xfer g) (gw_out g) (gw_ext g) (trustedDevices_ g).
Definition set_agent (b : bool) (x : AtlasCommandXfer) (g : gateway) : gateway :=
  mk_gateway E (devices_ g) b x (gw_out g) (gw_ext g) (trustedDevices_ g).
Definition set_gw_out (o : list gw_event) (g : gateway) : gateway :=
  mk_gateway E (devices_ g) (agent_connected g) (agent_xfer g) o (gw_ext g) (trustedDevices_ g).
Definition set_gw_ext (x : gext) (g : gateway) : gateway :=
  mk_gateway E (devices_ g) (agent_connected g) (agent_xfer g) (gw_out g) x (trustedDevices_ g).
Definition set_trusted (m : gmap Z (list byte)) (g : gateway) : gateway :=
  mk_gateway E (devices_ g) (agent_connected g) (agent_xfer g) (gw_out g) (gw_ext g) m.

Definition gemit (e : gw_event) : G unit := gmodify (fun g => set_gw_out (gw_out g ++ [e]) g).
Definition gcall {A} (f : gext -> A * gext) : G A := fun g =>
  let '(a, x) := f (gw_ext g) in Ok (a, set_gw_ext x g).

(** A method of the device stored under a key: its [this] and its updates. *)
Definition this (k : list byte) : G AtlasDevice := fun g =>
  match devices_ g !! k with Some d => Ok (d, g) | None => Fault NullDeref end.
Definition update (k : list byte) (f : AtlasDevice -> AtlasDevice) : G unit :=
  gmodify (fun g => set_devices (alter f k (devices_ g)) g).

(** A loop over the items of a container. *)
Fixpoint gfor {A} (l : list A) (body : A -> G unit) : G unit :=
  match l with
  | [] => mret tt
  | a :: l => body a ≫= fun _ => gfor l body
  end.
End Monad.

(** * telemetry/AtlasTelemetryInfo.h: the names of the features *)

Definition TELEMETRY_HOSTNAME : list byte := cstr "hostname".
Definition TELEMETRY_KERN_INFO : list byte := cstr "kernelInfo".
Definition TELEMETRY_SYSINFO_UPTIME : list byte := cstr "sysinfoUptime".
Definition TELEMETRY_SYSINFO_TOTALRAM : list byte := cstr "sysinfoTotalram".
Definition TELEMETRY_SYSINFO_FREERAM : list byte := cstr "sysinfoFreeram".
Definition TELEMETRY_SYSINFO_SHAREDRAM : list byte := cstr "sysinfoSharedram".
Definition TELEMETRY_SYSINFO_BUFFERRAM : list byte := cstr "sysinfoBufferram".
Definition TELEMETRY_SYSINFO_TOTALSWAP : list byte := cstr "sysinfoTotalswap".
Definition TELEMETRY_SYSINFO_FREESWAP : list byte := cstr "sysinfoFreeswap".
Definition TELEMETRY_SYSINFO_PROCS : list byte := cstr "sysinfoProcs".
Definition TELEMETRY_SYSINFO_LOAD1 : list byte := cstr "sysinfoLoad1".
Definition TELEMETRY_SYSINFO_LOAD5 : list byte := cstr "sysinfoLoad5".
Definition TELEMETRY_SYSINFO_LOAD15 : list byte := cstr "sysinfoLoad15".
Definition TELEMETRY_PACKETS_INFO_PACKETS_PER_MINUTE : list byte := cstr "packetsPerMinute".
Definition TELEMETRY_PACKETS_INFO_PACKETS_AVG : list byte := cstr "packetsAvgLength".
Definition ATLAS_TELEMETRY_DEFAULT_VALUE : list byte := cstr "N/A".

Definition feature_names : list (list byte) :=
  [TELEMETRY_HOSTNAME;
   TELEMETRY_KERN_INFO;
   TELEMETRY_SYSINFO_UPTIME;
   TELEMETRY_SYSINFO_TOTALRAM;
   TELEMETRY_SYSINFO_FREERAM;
   TELEMETRY_SYSINFO_SHAREDRAM;
   TELEMETRY_SYSINFO_BUFFERRAM;
   TELEMETRY_SYSINFO_TOTALSWAP;
   TELEMETRY_SYSINFO_FREESWAP;
   TELEMETRY_SYSINFO_PROCS;
   TELEMETRY_SYSINFO_LOAD1;
   TELEMETRY_SYSINFO_LOAD5;
   TELEMETRY_SYSINFO_LOAD15;
   TELEMETRY_PACKETS_INFO_PACKETS_PER_MINUTE;
   TELEMETRY_PACKETS_INFO_PACKETS_AVG].

(** The constructor of [AtlasTelemetryInfo]: every feature with the default value. *)
Definition new_telemetryInfo : gmap (list byte) (list byte) :=
  list_to_map ((fun n => (n, ATLAS_TELEMETRY_DEFAULT_VALUE)) <$> feature_names).

Definition clearFeatures (m : gmap (list byte) (list byte)) : gmap (list byte) (list byte) :=
  (fun _ => ATLAS_TELEMETRY_DEFAULT_VALUE) <$> m.

(** * telemetry/AtlasAlertFactory.cpp *)

(** [getPushAlert] and [getThresholdAlert]: the chains of comparisons as tables. *)
Definition push_alert_table : list (list byte * AtlasAlert) :=
  [(TELEMETRY_SYSINFO_PROCS, AtlasPushAlert (cstr "client/telemetry/sysinfo/procs/alerts/push") 300);
   (TELEMETRY_SYSINFO_UPTIME, AtlasPushAlert (cstr "client/telemetry/sysinfo/uptime/alerts/push") 120);
   (TELEMETRY_SYSINFO_FREERAM, AtlasPushAlert (cstr "client/telemetry/sysinfo/freeram/alerts/push") 300);
   (TELEMETRY_SYSINFO_SHAREDRAM, AtlasPushAlert (cstr "client/telemetry/sysinfo/sharedram/alerts/push") 300);
   (TELEMETRY_SYSINFO_BUFFERRAM, AtlasPushAlert (cstr "client/telemetry/sysinfo/bufferram/alerts/push") 300);
   (TELEMETRY_SYSINFO_TOTALSWAP, AtlasPushAlert (cstr "client/telemetry/sysinfo/totalswap/alerts/push") 300);
   (TELEMETRY_SYSINFO_FREESWAP, AtlasPushAlert (cstr "client/telemetry/sysinfo/freeswap/alerts/push") 300);
   (TELEMETRY_SYSINFO_LOAD1, AtlasPushAlert (cstr "client/telemetry/sysinfo/load1/alerts/push") 120);
   (TELEMETRY_SYSINFO_LOAD5, AtlasPushAlert (cstr "client/telemetry/sysinfo/load5/alerts/push") 120);
   (TELEMETRY_SYSINFO_LOAD15, AtlasPushAlert (cstr "client/telemetry/sysinfo/load15/alerts/push") 120);
   (TELEMETRY_PACKETS_INFO_PACKETS_PER_MINUTE, AtlasPushAlert (cstr "client/telemetry/packets_info/packets_per_min/alerts/push") 60);
   (TELEMETRY_PACKETS_INFO_PACKETS_AVG, AtlasPushAlert (cstr "client/telemetry/packets_info/packets_avg/alerts/push") 60)].

Definition threshold_alert_table : list (list byte * AtlasAlert) :=
  [(TELEMETRY_SYSINFO_PROCS, AtlasThresholdAlert (cstr "client/telemetry/sysinfo/procs/alerts/threshold") 10 (cstr "1000"))].

(** The alerts [installDefaultAlerts] asks the factory for: all of both tables. *)
Definition defaultPushAlerts : gmap (list byte) AtlasAlert := list_to_map push_alert_table.
Definition defaultThresholdAlerts : gmap (list byte) AtlasAlert := list_to_map threshold_alert_table.

(** * device/AtlasDevice.cpp: construction and setters *)

Definition new_AtlasDevice (identity psk : list byte) : AtlasDevice :=
  mk_device identity psk [] [] [] false None new_telemetryInfo defaultPushAlerts defaultThresholdAlerts None
    (mk_fwstats identity 0 0 0 0) 0 0 0 [] [] 0 ∅ [].

Definition dev_set_ipPort (v : list byte) (d : AtlasDevice) : AtlasDevice :=
  mk_device (identity_ d) (psk_ d) v (regTime_ d) (keepAliveTime_ d) (registered_ d) (kaCtr_ d) (telemetryInfo_ d)
    (pushAlerts_ d) (thresholdAlerts_ d) (policy_ d) (stats_ d) (startRegTime_ d) (regIntervalSec_ d) (keepAlivePkts_ d)
    (recvCmds_ d) (execCmds_ d) (deviceCmdTimeouts_ d) (deviceReputation_ d) (feedback_ d).
Definition dev_set_policy (v : option AtlasFirewallPolicy) (d : AtlasDevice) : AtlasDevice :=
  mk_device (identity_ d) (psk_ d) (ipPort_ d) (regTime_ d) (keepAliveTime_ d) (registered_ d) (kaCtr_ d) (telemetryInfo_ d)
    (pushAlerts_ d) (thresholdAlerts_ d) v (stats_ d) (startRegTime_ d) (regIntervalSec_ d) (keepAlivePkts_ d)
    (recvCmds_ d) (execCmds_ d) (deviceCmdTimeouts_ d) (deviceReputation_ d) (feedback_ d).
Definition dev_set_stats (v : AtlasFirewallStats) (d : AtlasDevice) : AtlasDevice :=
  mk_device (identity_ d) (psk_ d) (ipPort_ d) (regTime_ d) (keepAliveTime_ d) (registered_ d) (kaCtr_ d) (telemetryInfo_ d)
    (pushAlerts_ d) (thresholdAlerts_ d) (policy_ d) v (startRegTime_ d) (regIntervalSec_ d) (keepAlivePkts_ d)
    (recvCmds_ d) (execCmds_ d) (deviceCmdTimeouts_ d) (deviceReputation_ d) (feedback_ d).
Definition dev_set_telemetry (v : gmap (list byte) (list byte)) (d : AtlasDevice) : AtlasDevice :=
  mk_device (identity_ d) (psk_ d) (ipPort_ d) (regTime_ d) (keepAliveTime_ d) (registered_ d) (kaCtr_ d) v
    (pushAlerts_ d) (thresholdAlerts_ d) (policy_ d) (stats_ d) (startRegTime_ d) (regIntervalSec_ d) (keepAlivePkts_ d)
    (recvCmds_ d) (execCmds_ d) (deviceCmdTimeouts_ d) (deviceReputation_ d) (feedback_ d).
Definition dev_set_kaCtr (v : option Z) (d : AtlasDevice) : AtlasDevice :=
  mk_device (identity_ d) (psk_ d) (ipPort_ d) (regTime_ d) (keepAliveTime_ d) (registered_ d) v (telemetryInfo_ d)
    (pushAlerts_ d) (thresholdAlerts_ d) (policy_ d) (stats_ d) (startRegTime_ d) (regIntervalSec_ d) (keepAlivePkts_ d)
    (recvCmds_ d) (execCmds_ d) (deviceCmdTimeouts_ d) (deviceReputation_ d) (feedback_ d).
Definition dev_register (now : Z) (text : list byte) (ctr : Z) (d : AtlasDevice) : AtlasDevice :=
  mk_device (identity_ d) (psk_ d) (ipPort_ d) text (keepAliveTime_ d) true (Some ctr) (clearFeatures (telemetryInfo_ d))
    (pushAlerts_ d) (thresholdAlerts_ d) (policy_ d) (stats_ d) now (regIntervalSec_ d) (keepAlivePkts_ d)
    (recvCmds_ d) (execCmds_ d) (deviceCmdTimeouts_ d) (deviceReputation_ d) (feedback_ d).
Definition dev_keepalive (text : list byte) (ctr : Z) (d : AtlasDevice) : AtlasDevice :=
  mk_device (identity_ d) (psk_ d) (ipPort_ d) (regTime_ d) text (registered_ d) (Some ctr) (telemetryInfo_ d)
    (pushAlerts_ d) (thresholdAlerts_ d) (policy_ d) (stats_ d) (startRegTime_ d) (regIntervalSec_ d) (keepAlivePkts_ d + 1)
    (recvCmds_ d) (execCmds_ d) (deviceCmdTimeouts_ d) (deviceReputation_ d) (feedback_ d).
Definition dev_unregister (interval : Z) (d : AtlasDevice) : AtlasDevice :=
  mk_device (identity_ d) (psk_ d) (ipPort_ d) (regTime_ d) (keepAliveTime_ d) false (kaCtr_ d) (telemetryInfo_ d)
    (pushAlerts_ d) (thresholdAlerts_ d) (policy_ d) (stats_ d) (startRegTime_ d) (regIntervalSec_ d + interval) (keepAlivePkts_ d)
    (recvCmds_ d) (execCmds_ d) (deviceCmdTimeouts_ d) (deviceReputation_ d) (feedback_ d).
Definition dev_set_cmds (recv exec : list AtlasCommandDevice) (timeouts : Z) (d : AtlasDevice) : AtlasDevice :=
  mk_device (identity_ d) (psk_ d) (ipPort_ d) (regTime_ d) (keepAliveTime_ d) (registered_ d) (kaCtr_ d) (telemetryInfo_ d)
    (pushAlerts_ d) (thresholdAlerts_ d) (policy_ d) (stats_ d) (startRegTime_ d) (regIntervalSec_ d) (keepAlivePkts_ d)
    recv exec timeouts (deviceReputation_ d) (feedback_ d).
Definition dev_set_rep (rep : gmap Z AtlasDeviceFeatureManager) (fb : list IAtlasFeedback) (d : AtlasDevice) : AtlasDevice :=
  mk_device (identity_ d) (psk_ d) (ipPort_ d) (regTime_ d) (keepAliveTime_ d) (registered_ d) (kaCtr_ d) (telemetryInfo_ d)
    (pushAlerts_ d) (thresholdAlerts_ d) (policy_ d) (stats_ d) (startRegTime_ d) (regIntervalSec_ d) (keepAlivePkts_ d)
    (recvCmds_ d) (execCmds_ d) (deviceCmdTimeouts_ d) rep fb.
Definition addRecvDeviceCommand (c : AtlasCommandDevice) (d : AtlasDevice) : AtlasDevice :=
  dev_set_cmds (recvCmds_ d ++ [c]) (execCmds_ d) (deviceCmdTimeouts_ d) d.
Definition addExecDeviceCommand (c : AtlasCommandDevice) (d : AtlasDevice) : AtlasDevice :=
  dev_set_cmds (recvCmds_ d) (execCmds_ d ++ [c]) (deviceCmdTimeouts_ d) d.

Section Device.
Context `{E : GwEnv} `{HO : HashOrder} `{HostEndian}.

Definition ATLAS_KEEP_ALIVE_COUNTER : Z := 4.
Definition ATLAS_COAPS_SCHEME : list byte := cstr "coaps://".

(** * JSON, as key-value pairs *)

Definition registerEventToJSON (d : AtlasDevice) : list (list byte * list byte) :=
  [(cstr "registered", if registered_ d then cstr "true" else cstr "false");
   (cstr "lastRegisterTime", regTime_ d)].
Definition keepaliveEventToJSON (d : AtlasDevice) : list (list byte * list byte) :=
  [(cstr "lastKeepAliveTime", keepAliveTime_ d)].
Definition ipPortToJSON (d : AtlasDevice) : list (list byte * list byte) :=
  [(cstr "ipPort", ipPort_ d)].
Definition telemetryInfo_toJSON (m : gmap (list byte) (list byte)) : list (list byte * list byte) :=
  hash_order m.
(** [getReputation]: [operator[]] of the map makes a new network when there is none;
    [getDevice] makes both, so the reads below find one. *)
Definition getReputation (netType : Z) (d : AtlasDevice) : AtlasDeviceFeatureManager :=
  default new_manager (deviceReputation_ d !! netType).
Definition hasReputation (netType : Z) (d : AtlasDevice) : bool := bool_decide (is_Some (deviceReputation_ d !! netType)).
Definition setReputation (netType : Z) (m : AtlasDeviceFeatureManager) (d : AtlasDevice) : AtlasDevice :=
  dev_set_rep (<[netType := m]> (deviceReputation_ d)) (feedback_ d) d.

Definition reputationToJSON (netType : Z) (d : AtlasDevice) : list (list byte * list byte) :=
  if decide (netType = ATLAS_NETWORK_SYSTEM) then
    [(cstr "systemReputation", to_string (reputationScore_ (getReputation netType d)))]
  else if decide (netType = ATLAS_NETWORK_SENSOR_TEMPERATURE) then
    [(cstr "temperatureReputation", to_string (reputationScore_ (getReputation netType d)))]
  else [].
Definition stats_toJSON (s : AtlasFirewallStats) : list (list byte * list byte) :=
  [(cstr "firewallRuleDroppedPkts", dec (ruleDroppedPkts_ s)); (cstr "firewallRulePassedPkts", dec (rulePassedPkts_ s));
   (cstr "firewallTxDroppedPkts", dec (txDroppedPkts_ s)); (cstr "firewallTxPassedPkts", dec (txPassedPkts_ s))].
Definition policy_toJSON (p : AtlasFirewallPolicy) : list (list byte * list byte) :=
  [(cstr "pubSubClientId", fp_clientId p); (cstr "firewallPolicyQos", dec (fp_qos p));
   (cstr "firewallPolicyPpm", dec (fp_ppm p)); (cstr "firewallPolicyPayloadLen", dec (fp_payloadLen p))].

Definition device_toJSON (d : AtlasDevice) : list (list byte * list byte) :=
  registerEventToJSON d ++ keepaliveEventToJSON d ++ ipPortToJSON d ++ telemetryInfo_toJSON (telemetryInfo_ d) ++
  reputationToJSON ATLAS_NETWORK_SYSTEM d ++ reputationToJSON ATLAS_NETWORK_SENSOR_TEMPERATURE d ++ stats_toJSON (stats_ d) ++
  match policy_ d with Some p => policy_toJSON p | None => [] end.

(** The call of cloud/AtlasDeviceCloud.cpp; GwLink.v has its body. *)
Definition updateDevice (identity : list byte) (fields : list (list byte * list byte)) : G unit :=
  gemit (GwCloud identity fields).

(** * pubsub_agent/AtlasPubSubAgent.cpp: the writers *)

(** The bytes given to [async_write], as they are at the call. *)
Definition agent_write (buf : option (list byte)) (bufLen : Z) : G unit :=
  match buf with
  | None => mret tt
  | Some bytes =>
      if decide (bufLen = 0) then mret tt else
      connected ← gget agent_connected;
      if (connected : bool) then bs ← glift (mem_load bytes 0 bufLen); gemit (GwAgent bs) else mret tt
  end.

(** One command whose value is a serialised inner batch. *)
Definition nested (type : AtlasCommandType) (inner : list AtlasCommand) : res (option (list byte) * Z) :=
  '(buf, len) ← serialized_commands inner;
  serialized_commands [new_AtlasCommand (code type) len buf].

Definition client_id_command (clientId : list byte) : AtlasCommand :=
  new_AtlasCommand (code ATLAS_CMD_PUB_SUB_CLIENT_ID) (blen clientId) (Some clientId).

Definition agent_getFirewallRuleStats (clientId : list byte) : G unit :=
  if decide (clientId = []) then mret tt else
  '(buf, len) ← glift (nested ATLAS_CMD_PUB_SUB_GET_STAT_FIREWALL_RULE [client_id_command clientId]);
  agent_write buf len.

Definition agent_removeFirewallRule (clientId : list byte) : G unit :=
  if decide (clientId = []) then mret tt else
  '(buf, len) ← glift (nested ATLAS_CMD_PUB_SUB_REMOVE_FIREWALL_RULE [client_id_command clientId]);
  agent_write buf len.

Definition agent_installFirewallRule (policy : option AtlasFirewallPolicy) : G unit :=
  match policy with
  | None => mret tt
  | Some p =>
      '(buf, len) ← glift (nested ATLAS_CMD_PUB_SUB_INSTALL_FIREWALL_RULE
        [client_id_command (fp_clientId p);
         new_AtlasCommand (code ATLAS_CMD_PUB_SUB_MAX_QOS) 2 (Some (st16 (htons (fp_qos p))));
         new_AtlasCommand (code ATLAS_CMD_PUB_SUB_PPM) 2 (Some (st16 (htons (fp_ppm p))));
         new_AtlasCommand (code ATLAS_CMD_PUB_SUB_MAX_PAYLOAD_LEN) 2 (Some (st16 (htons (fp_payloadLen p))))]);
      agent_write buf len
  end.

(** * telemetry/AtlasAlert.cpp and its subclasses *)

(** The batches of [AtlasPushAlert::pushCommand] and [AtlasThresholdAlert::pushCommand]. *)
Definition push_alert_commands (pushRate : Z) : list AtlasCommand :=
  [new_AtlasCommand (code ATLAS_CMD_TELEMETRY_ALERT_EXT_PUSH_RATE) 2 (Some (st16 (htons pushRate)))].

Definition threshold_alert_commands (scanRate : Z) (threshold : list byte) : list AtlasCommand :=
  [new_AtlasCommand (code ATLAS_CMD_TELEMETRY_ALERT_INT_SCAN_RATE) 2 (Some (st16 (htons scanRate)));
   new_AtlasCommand (code ATLAS_CMD_TELEMETRY_ALERT_THRESHOLD) (blen threshold) (Some threshold)].

(** The virtual call. *)
Definition alert_commands (a : AtlasAlert) : list AtlasCommand :=
  match a with
  | AtlasPushAlert _ rate => push_alert_commands rate
  | AtlasThresholdAlert _ rate threshold => threshold_alert_commands rate threshold
  end.

(** [AtlasAlert::push] for the device stored under [k]: nothing for one that is
    offline; otherwise a PUT. *)
Definition alert_push (k : list byte) (a : AtlasAlert) : G unit :=
  d ← this k;
  let url := ATLAS_COAPS_SCHEME ++ ipPort_ d ++ cstr "/" ++ alert_path a in
  if registered_ d then
    '(buf, len) ← glift (serialized_commands (alert_commands a));
    payload ← glift (mem_load (default [] buf) 0 len);
    sent ← gcall (sendRequest url payload);
    (* the catch clause is for [const char *], not for [AtlasCoapException] *)
    if (sent : bool) then gemit (GwCoap k (psk_ d) url payload) else glift (Fault Uncaught)
  else mret tt.

(** The answer to an alert: only a time-out is tried again. *)
Definition alert_respCallback (k : list byte) (a : AtlasAlert) (respStatus : AtlasCoapResponse) : G unit :=
  if decide (respStatus = ATLAS_COAP_RESP_OK) then mret tt else
  if decide (respStatus <> ATLAS_COAP_RESP_TIMEOUT) then mret tt else
  (* Try to push again the telemetry alert to device *)
  alert_push k a.

(** * device/AtlasDevice.cpp: the operations *)

Definition pushAlerts (k : list byte) : G unit :=
  d ← this k;
  gfor (hash_order (pushAlerts_ d)) (fun a => alert_push k a.2) ≫= fun _ =>
  gfor (hash_order (thresholdAlerts_ d)) (fun a => alert_push k a.2).

Definition uninstallPolicy (k : list byte) : G unit :=
  d ← this k;
  match policy_ d with
  | Some p =>
      (* Remove firewall rule from publish-subscribe broker *)
      agent_removeFirewallRule (fp_clientId p) ≫= fun _ =>
      update k (dev_set_policy None)
  | None => mret tt
  end.

Definition setIpPort (k ipPort : list byte) : G unit :=
  d ← this k;
  if decide (ipPort_ d = ipPort) then mret tt else
  update k (dev_set_ipPort ipPort) ≫= fun _ =>
  d ← this k; updateDevice (identity_ d) (ipPortToJSON d).

(** [AtlasFirewallPolicy::operator==]: the third test assigns, so the policy on
    the left may come out changed. *)
Definition policy_equal (a c : AtlasFirewallPolicy) : bool * AtlasFirewallPolicy :=
  if decide (fp_clientId a = fp_clientId c /\ fp_qos a = fp_qos c) then
    let a := mk_policy (fp_clientId a) (fp_qos a) (fp_ppm c) (fp_payloadLen a) in
    (bool_decide (fp_ppm c <> 0 /\ fp_payloadLen a = fp_payloadLen c), a)
  else (false, a).

Definition setPolicyInfo (k : list byte) (policy : option AtlasFirewallPolicy) : G unit :=
  match policy with
  | None => mret tt
  | Some p =>
      d ← this k;
      let '(same, old) :=
        match policy_ d with
        | None => (false, None)
        | Some q => let '(same, q) := policy_equal q p in (same, Some q)
        end in
      if (same : bool) then update k (dev_set_policy old) else
      update k (dev_set_policy (Some p)) ≫= fun _ =>
      updateDevice (identity_ d) (policy_toJSON p)
  end.

Definition registerNow (k : list byte) : G unit :=
  now ← gcall local_time;
  update k (dev_register now (to_simple_string now) ATLAS_KEEP_ALIVE_COUNTER) ≫= fun _ =>
  (* Update registration event to cloud *)
  d ← this k; updateDevice (identity_ d) (device_toJSON d).

Definition keepAliveNow (k : list byte) : G unit :=
  now ← gcall local_time;
  update k (dev_keepalive (to_simple_string now) ATLAS_KEEP_ALIVE_COUNTER) ≫= fun _ =>
  d ← this k; updateDevice (identity_ d) (keepaliveEventToJSON d).

Definition keepAliveExpired (k : list byte) : G unit :=
  d ← this k;
  match kaCtr_ d with
  | None => glift (Fault Uninitialised)
  | Some ctr =>
      if decide (ctr = 0) then mret tt else
      let ctr := u8 (ctr - 1) in
      update k (dev_set_kaCtr (Some ctr)) ≫= fun _ =>
      if decide (ctr = 0 /\ registered_ d = true) then
        now ← gcall local_time;
        update k (dev_unregister (now - startRegTime_ d)) ≫= fun _ =>
        uninstallPolicy k ≫= fun _ =>
        (* Update un-registration event to cloud *)
        d ← this k; updateDevice (identity_ d) (registerEventToJSON d)
      else mret tt
  end.

(** [operator[]] on the features adds an absent one with the empty string. *)
Definition setFeature (k featureType featureValue : list byte) : G unit :=
  if decide (featureType = []) then mret tt else
  d ← this k;
  let m := telemetryInfo_ d in
  let old := default [] (m !! featureType) in
  if decide (old = featureValue) then update k (dev_set_telemetry (<[featureType := old]> m)) else
  update k (dev_set_telemetry (<[featureType := featureValue]> m)) ≫= fun _ =>
  updateDevice (identity_ d) [(featureType, featureValue)].

Definition syncFirewallStatistics (k : list byte) : G unit :=
  d ← this k; updateDevice (identity_ d) (stats_toJSON (stats_ d)).
End Device.

(** * The operations as functions of one device

    [put k d evs x g]: the gateway [g] with [d] stored under [k], [evs] sent and
    the environment in state [x]. Every operation of a device maps such a state
    to such a state, so it leaves the other devices and the agent alone. *)

Section DeviceFacts.
Context `{E : GwEnv} `{SND : !Sends E} `{HO : HashOrder} `{HostEndian}.

Definition put (k : list byte) (d : AtlasDevice) (evs : list gw_event) (x : gext) (g : gateway) : gateway :=
  mk_gateway E (<[k := d]> (devices_ g)) (agent_connected g) (agent_xfer g) (gw_out g ++ evs) x (trustedDevices_ g).

Lemma put_intro k d g : devices_ g !! k = Some d -> g = put k d [] (gw_ext g) g.
Proof. intros Hd. unfold put. rewrite insert_id, app_nil_r by done. by destruct g. Qed.

Lemma G_bind_run {A B} (m : G A) (k : A -> G B) g a g' : m g = Ok (a, g') -> (m ≫= k) g = k a g'.
Proof. intros Hm. unfold mbind, G_bind. by rewrite Hm. Qed.

Lemma glift_run {A} (r : res A) a g : r = Ok a -> glift r g = Ok (a, g).
Proof. by intros ->. Qed.

Lemma this_put k d evs x g : this k (put k d evs x g) = Ok (d, put k d evs x g).
Proof. unfold this. cbn. by rewrite lookup_insert_eq. Qed.

Lemma update_put k f d evs x g : update k f (put k d evs x g) = Ok (tt, put k (f d) evs x g).
Proof.
  unfold update, gmodify, put, set_devices. cbn. do 3 f_equal.
  apply map_eq. intros j. destruct (decide (j = k)) as [->|Hj].
  - by rewrite lookup_alter_eq, !lookup_insert_eq.
  - by rewrite lookup_alter_ne, !lookup_insert_ne.
Qed.

Lemma gemit_put k e d evs x g : gemit e (put k d evs x g) = Ok (tt, put k d (evs ++ [e]) x g).
Proof. unfold gemit, gmodify, put, set_gw_out. cbn. by rewrite app_assoc. Qed.

Lemma gcall_put {A} (f : gext -> A * gext) k d evs x g :
  gcall f (put k d evs x g) = Ok ((f x).1, put k d evs (f x).2 g).
Proof. unfold gcall. cbn. by destruct (f x). Qed.

Ltac run_put :=
  repeat first
    [ erewrite G_bind_run by apply this_put
    | erewrite G_bind_run by apply update_put
    | erewrite G_bind_run by apply gemit_put
    | erewrite G_bind_run by apply gcall_put
    | erewrite G_bind_run by reflexivity ];
  cbn beta.

(** ** The agent *)

Lemma agent_write_put k bytes d evs x g :
  bytes <> [] ->
  agent_write (Some bytes) (blen bytes) (put k d evs x g) =
  Ok (tt, put k d (evs ++ if agent_connected g then [GwAgent bytes] else []) x g).
Proof.
  intros Hne. unfold agent_write. rewrite decide_False by (by intros ?%blen_0_inv).
  run_put. cbn [put agent_connected]. destruct (agent_connected g).
  - erewrite G_bind_run by (by apply glift_run, mem_load_all). apply gemit_put.
  - by rewrite app_nil_r.
Qed.

(** A command that carries a whole batch, when the batch fits 16 bits. *)
Lemma nested_spec type gs cs :
  Forall2 command_repr gs cs -> Forall wf_cmd cs -> cs <> [] -> blen (encode cs) < 65536 ->
  nested type gs = Ok (Some (encode [(code type, encode cs)]), blen (encode [(code type, encode cs)])).
Proof.
  intros Hg Hwf Hne Hfit. unfold nested. rewrite (serialized_commands_spec gs cs) by done.
  rewrite res_bind_ok. apply serialized_commands_spec; [|by repeat constructor; try apply code_u16|done].
  constructor; [|done]. rewrite <- (app_nil_r (encode cs)) at 2.
  apply new_command_repr. split; [apply code_u16|done].
Qed.

Lemma nested_total type gs :
  Forall readable gs -> gs <> [] -> exists buf, nested type gs = Ok (Some buf, blen buf) /\ buf <> [].
Proof.
  intros Hgs Hne. unfold nested. destruct (serialized_total gs Hgs Hne) as (inner & ->). rewrite res_bind_ok.
  pose proof (new_command_readable (code type) inner []) as Hr. rewrite app_nil_r in Hr.
  assert (Hall : Forall readable [new_AtlasCommand (code type) (blen inner) (Some inner)]) by auto.
  unfold serialized_commands. rewrite foldl_addCommand.
  cbn [parsedCmdBuf_ addedCmdBuf_ parsedCmd_ addedCmd_ new_AtlasCommandBatch app].
  unfold getSerializedAddedCommands. cbn [addedCmd_]. set (gs1 := [_]) in *.
  pose proof (total_len_nonneg gs1 Hall) as Hn.
  destruct (serialize_total gs1 0 (replicate (Z.to_nat (total_len gs1 0)) x00)) as (buf & -> & Hlen);
    [done|done|rewrite blen_replicate; lia|].
  rewrite blen_replicate in Hlen. rewrite res_bind_ok, res_bind_ok. exists buf. split; [do 2 f_equal; lia|].
  intros ->. rewrite blen_nil in Hlen. unfold gs1 in *. cbn in Hlen, Hn.
  pose proof (u16_range (blen inner)) as Hu. unfold is_u16 in Hu. lia.
Qed.

Definition rule_message (type : AtlasCommandType) (gs : list AtlasCommand) (connected : bool) (evs : list gw_event) : Prop :=
  exists buf len, nested type gs = Ok (Some buf, len) /\ evs = if connected then [GwAgent buf] else [].

Lemma nested_write k type gs d evs x g :
  Forall readable gs -> gs <> [] ->
  exists evs', (glift (nested type gs) ≫= fun '(buf, len) => agent_write buf len) (put k d evs x g) =
    Ok (tt, put k d (evs ++ evs') x g) /\ rule_message type gs (agent_connected g) evs'.
Proof.
  intros Hgs Hne. destruct (nested_total type gs Hgs Hne) as (buf & Hn & Hbuf).
  erewrite G_bind_run by (by apply glift_run). cbn beta iota. rewrite agent_write_put by done.
  eexists. split; [done|]. by eexists _, _.
Qed.

Lemma client_id_readable c : readable (client_id_command c).
Proof. rewrite <- (app_nil_r c). unfold client_id_command. rewrite app_nil_r at 1. apply new_command_readable. Qed.

Lemma u16_value_readable t z : readable (new_AtlasCommand t 2 (Some (st16 z))).
Proof. pose proof (new_command_readable t (st16 z) []) as Hr. by rewrite app_nil_r, blen_st16 in Hr. Qed.

Definition install_commands (p : AtlasFirewallPolicy) : list AtlasCommand :=
  [client_id_command (fp_clientId p);
   new_AtlasCommand (code ATLAS_CMD_PUB_SUB_MAX_QOS) 2 (Some (st16 (htons (fp_qos p))));
   new_AtlasCommand (code ATLAS_CMD_PUB_SUB_PPM) 2 (Some (st16 (htons (fp_ppm p))));
   new_AtlasCommand (code ATLAS_CMD_PUB_SUB_MAX_PAYLOAD_LEN) 2 (Some (st16 (htons (fp_payloadLen p))))].

Lemma install_put k p d evs x g :
  exists evs', agent_installFirewallRule (Some p) (put k d evs x g) = Ok (tt, put k d (evs ++ evs') x g) /\
    rule_message ATLAS_CMD_PUB_SUB_INSTALL_FIREWALL_RULE (install_commands p) (agent_connected g) evs'.
Proof.
  apply nested_write; [|done].
  repeat (apply Forall_cons; split); auto using u16_value_readable, client_id_readable.
Qed.

Lemma remove_put k c d evs x g :
  c <> [] ->
  exists evs', agent_removeFirewallRule c (put k d evs x g) = Ok (tt, put k d (evs ++ evs') x g) /\
    rule_message ATLAS_CMD_PUB_SUB_REMOVE_FIREWALL_RULE [client_id_command c] (agent_connected g) evs'.
Proof.
  intros Hc. unfold agent_removeFirewallRule. rewrite decide_False by done.
  apply nested_write; [|done]. constructor; [apply client_id_readable|constructor].
Qed.

(** ** Alerts *)

(** The request an alert of a registered device makes. *)
Definition alert_event (k : list byte) (d : AtlasDevice) (a : AtlasAlert) (e : gw_event) : Prop :=
  exists payload, serialized_commands (alert_commands a) = Ok (Some payload, blen payload) /\
    e = GwCoap k (psk_ d) (ATLAS_COAPS_SCHEME ++ ipPort_ d ++ cstr "/" ++ alert_path a) payload.

Lemma alert_commands_readable a : Forall readable (alert_commands a).
Proof.
  destruct a as [path rate|path rate threshold]; cbn; repeat (apply Forall_cons; split);
    auto using u16_value_readable.
  pose proof (new_command_readable (code ATLAS_CMD_TELEMETRY_ALERT_THRESHOLD) threshold []) as Hr.
  by rewrite app_nil_r in Hr.
Qed.

Lemma alert_push_put k a d evs x g :
  exists evs' x', alert_push k a (put k d evs x g) = Ok (tt, put k d (evs ++ evs') x' g) /\
    (evs' = [] \/ exists e, evs' = [e] /\ registered_ d = true /\ alert_event k d a e).
Proof.
  unfold alert_push. run_put. destruct (registered_ d) eqn:Hreg.
  - destruct (serialized_total (alert_commands a)) as (buf & Hs); [apply alert_commands_readable|by destruct a|].
    erewrite G_bind_run by (by apply glift_run). cbn beta iota.
    erewrite G_bind_run by (by apply glift_run, mem_load_all). run_put.
    change (default [] (Some buf)) with buf.
    destruct (sendRequest (ATLAS_COAPS_SCHEME ++ ipPort_ d ++ cstr "/" ++ alert_path a) buf x) as [sent x'] eqn:Hsent;
      cbn [fst snd].
    pose proof (sends (ATLAS_COAPS_SCHEME ++ ipPort_ d ++ cstr "/" ++ alert_path a) buf x) as Hok. rewrite Hsent in Hok.
    cbn in Hok. subst sent. rewrite gemit_put. eexists _, _. split; [done|]. right. eexists. split; [done|]. split; [done|].
    by exists buf.
  - exists [], x. rewrite app_nil_r. auto.
Qed.

(** The requests go out in the order of the container. *)
Lemma alerts_put k (l : list (list byte * AtlasAlert)) d evs x g :
  exists evs' x', gfor l (fun a => alert_push k a.2) (put k d evs x g) = Ok (tt, put k d (evs ++ evs') x' g) /\
    Forall (fun e => exists a, a ∈ l /\ registered_ d = true /\ alert_event k d a.2 e) evs'.
Proof.
  revert evs x. induction l as [|a l IH]; intros evs x; cbn [gfor].
  { exists [], x. by rewrite app_nil_r. }
  destruct (alert_push_put k a.2 d evs x g) as (e1 & x1 & Ha & He1). erewrite G_bind_run by exact Ha.
  destruct (IH (evs ++ e1) x1) as (e2 & x2 & -> & He2). exists (e1 ++ e2), x2. rewrite app_assoc. split; [done|].
  apply Forall_app. split.
  - destruct He1 as [->|(e & -> & Hreg & Hev)]; repeat constructor. exists a. split; [by left|done].
  - eapply Forall_impl; [exact He2|]. intros e (b & Hb & Hrest). exists b. split; [by right|done].
Qed.

Lemma pushAlerts_put k d evs x g :
  exists evs' x', pushAlerts k (put k d evs x g) = Ok (tt, put k d (evs ++ evs') x' g) /\
    Forall (fun e => exists t a, registered_ d = true /\ alert_event k d a e /\
      (pushAlerts_ d !! t = Some a \/ thresholdAlerts_ d !! t = Some a)) evs'.
Proof.
  unfold pushAlerts. run_put.
  destruct (alerts_put k (hash_order (pushAlerts_ d)) d evs x g) as (e1 & x1 & Ha & He1).
  erewrite G_bind_run by exact Ha.
  destruct (alerts_put k (hash_order (thresholdAlerts_ d)) d (evs ++ e1) x1 g) as (e2 & x2 & -> & He2).
  exists (e1 ++ e2), x2. rewrite app_assoc. split; [done|]. apply Forall_app. split.
  - eapply Forall_impl; [exact He1|]. intros e ([t a] & Hin & Hreg & Hev). exists t, a. split; [done|]. split; [done|].
    left. apply elem_of_map_to_list. by rewrite <- hash_order_perm.
  - eapply Forall_impl; [exact He2|]. intros e ([t a] & Hin & Hreg & Hev). exists t, a. split; [done|]. split; [done|].
    right. apply elem_of_map_to_list. by rewrite <- hash_order_perm.
Qed.

(** ** The operations of a device *)

Lemma setIpPort_put k v d evs x g :
  setIpPort k v (put k d evs x g) =
  Ok (tt, put k (dev_set_ipPort v d)
            (evs ++ if decide (ipPort_ d = v) then [] else [GwCloud (identity_ d) [(cstr "ipPort", v)]]) x g).
Proof.
  unfold setIpPort. run_put. case_decide as Hv.
  - rewrite app_nil_r. subst v. by destruct d.
  - run_put. unfold updateDevice. by rewrite gemit_put.
Qed.

Lemma registerNow_put k d evs x g :
  let '(now, x') := local_time x in
  let d' := dev_register now (to_simple_string now) ATLAS_KEEP_ALIVE_COUNTER d in
  registerNow k (put k d evs x g) =
  Ok (tt, put k d' (evs ++ [GwCloud (identity_ d) (device_toJSON d')]) x' g).
Proof.
  destruct (local_time x) as [now x'] eqn:Ht. unfold registerNow. run_put. rewrite Ht. cbn [fst snd].
  unfold updateDevice. by rewrite gemit_put.
Qed.

Lemma keepAliveNow_put k d evs x g :
  let '(now, x') := local_time x in
  let d' := dev_keepalive (to_simple_string now) ATLAS_KEEP_ALIVE_COUNTER d in
  keepAliveNow k (put k d evs x g) =
  Ok (tt, put k d' (evs ++ [GwCloud (identity_ d) [(cstr "lastKeepAliveTime", to_simple_string now)]]) x' g).
Proof.
  destruct (local_time x) as [now x'] eqn:Ht. unfold keepAliveNow. run_put. rewrite Ht. cbn [fst snd].
  unfold updateDevice. by rewrite gemit_put.
Qed.

(** What [setPolicyInfo] leaves behind is the new policy, whichever way the
    comparison goes; only the cloud's copy depends on it. *)
Definition policy_news (p : AtlasFirewallPolicy) (d : AtlasDevice) : bool :=
  match policy_ d with None => true | Some q => negb (policy_equal q p).1 end.

Lemma policy_equal_assigns q p : (policy_equal q p).1 = true -> (policy_equal q p).2 = p.
Proof.
  unfold policy_equal. case_decide as Hc; [|done]. cbn [fst snd]. intros Hb%bool_decide_eq_true.
  destruct q, p; cbn in *. destruct Hc, Hb. by subst.
Qed.

Lemma setPolicyInfo_put k p d evs x g :
  setPolicyInfo k (Some p) (put k d evs x g) =
  Ok (tt, put k (dev_set_policy (Some p) d)
            (evs ++ if policy_news p d then [GwCloud (identity_ d) (policy_toJSON p)] else []) x g).
Proof.
  unfold setPolicyInfo, policy_news. run_put. destruct (policy_ d) as [q|] eqn:Hq.
  - destruct (policy_equal q p) as [[] q'] eqn:He; cbn [fst negb].
    + rewrite update_put, app_nil_r. pose proof (policy_equal_assigns q p) as Ha. rewrite He in Ha.
      cbn in Ha. by rewrite Ha.
    + run_put. unfold updateDevice. by rewrite gemit_put.
  - run_put. unfold updateDevice. by rewrite gemit_put.
Qed.

Lemma setFeature_put k t v d evs x g :
  t <> [] ->
  setFeature k t v (put k d evs x g) =
  Ok (tt, put k (dev_set_telemetry (<[t := v]> (telemetryInfo_ d)) d)
            (evs ++ if decide (default [] (telemetryInfo_ d !! t) = v) then [] else [GwCloud (identity_ d) [(t, v)]]) x g).
Proof.
  intros Ht. unfold setFeature. rewrite decide_False by done. run_put. case_decide as Hv.
  - rewrite update_put, app_nil_r. by rewrite Hv.
  - run_put. unfold updateDevice. by rewrite gemit_put.
Qed.

(** The message that removes the rule of a policy, if there is one. *)
Definition removal (policy : option AtlasFirewallPolicy) (connected : bool) (evs : list gw_event) : Prop :=
  match policy with
  | Some p => if decide (fp_clientId p = []) then evs = [] else
      rule_message ATLAS_CMD_PUB_SUB_REMOVE_FIREWALL_RULE [client_id_command (fp_clientId p)] connected evs
  | None => evs = []
  end.

Lemma dev_set_policy_same d : dev_set_policy (policy_ d) d = d.
Proof. by destruct d. Qed.

Lemma uninstallPolicy_put k d evs x g :
  exists evs', uninstallPolicy k (put k d evs x g) = Ok (tt, put k (dev_set_policy None d) (evs ++ evs') x g) /\
    removal (policy_ d) (agent_connected g) evs'.
Proof.
  unfold uninstallPolicy, removal. run_put. destruct (policy_ d) as [p|] eqn:Hp.
  - case_decide as Hc.
    + exists []. split; [|done]. unfold agent_removeFirewallRule. rewrite decide_True by done. run_put.
      rewrite update_put. by rewrite app_nil_r.
    + destruct (remove_put k (fp_clientId p) d evs x g Hc) as (evs' & Hr & Hm).
      erewrite G_bind_run by exact Hr. rewrite update_put. by exists evs'.
  - exists []. rewrite app_nil_r, <- Hp, dev_set_policy_same. done.
Qed.

(** An expired period of a registered device. *)
Definition dev_expired (interval : Z) (d : AtlasDevice) : AtlasDevice :=
  dev_set_policy None (dev_unregister interval (dev_set_kaCtr (Some 0) d)).

Lemma keepAliveExpired_put k c d evs x g :
  kaCtr_ d = Some c -> registered_ d = true -> 0 < c < 256 ->
  exists d' evs' x', keepAliveExpired k (put k d evs x g) = Ok (tt, put k d' (evs ++ evs') x' g) /\
    if decide (c = 1) then
      exists rm, d' = dev_expired ((local_time x).1 - startRegTime_ d) d /\
        removal (policy_ d) (agent_connected g) rm /\
        evs' = rm ++ [GwCloud (identity_ d) (registerEventToJSON d')]
    else d' = dev_set_kaCtr (Some (c - 1)) d /\ evs' = [].
Proof.
  intros Hc Hreg Hr. unfold keepAliveExpired. run_put. rewrite Hc, decide_False by lia. run_put.
  rewrite Hreg. replace (u8 (c - 1)) with (c - 1) by (unfold u8; lia).
  destruct (decide (c = 1)) as [->|Hne].
  - rewrite decide_True by done. run_put.
    destruct (uninstallPolicy_put k (dev_unregister ((local_time x).1 - startRegTime_ d) (dev_set_kaCtr (Some (1 - 1)) d))
      evs (local_time x).2 g) as (rm & Hu & Hrm).
    erewrite G_bind_run by exact Hu. run_put. unfold updateDevice. rewrite gemit_put.
    eexists _, _, _. rewrite <- app_assoc. split; [done|]. by exists rm.
  - rewrite decide_False by lia. eexists _, [], x. rewrite app_nil_r. done.
Qed.
End DeviceFacts.

(** Execution of a chain of device operations on a [put] state. *)
Ltac grun :=
  repeat first
    [ erewrite G_bind_run by apply this_put
    | erewrite G_bind_run by apply update_put
    | erewrite G_bind_run by apply gemit_put
    | erewrite G_bind_run by apply gcall_put
    | erewrite G_bind_run by reflexivity ];
  cbn beta.
