(* ===== verification/GwServer.v ===== *)
(** The gateway's device manager (device/AtlasDeviceManager.cpp), the reading
    side of the plug-in agent (pubsub_agent/AtlasPubSubAgent.cpp) and the CoAP
    end-points devices talk to: registration and keep-alive
    (register/AtlasRegister.cpp), firewall policies (policy/AtlasPolicy.cpp) and
    telemetry (telemetry/AtlasTelemetry.cpp).

    An end-point is called with the identity DTLS authenticated ([pskIdentity],
    empty on plain UDP) and answers with a response code and possibly a payload. *)
From S2P Require Import Prelude Defs CLib Command Double GwDefs GwBatch GwXfer GwFilter GwBayes GwStore GwNetStore GwDevice.
Import GwType.

(** What an end-point answers. *)
Abbreviation response := (AtlasCoapResponse * option (list byte))%type.

Section Server.
Context `{E : GwEnv} `{SND : !Sends E} `{HO : HashOrder} `{HostEndian}.

(** * device/AtlasDeviceManager.cpp *)

(** Reputation weights and thresholds. *)
Definition ATLAS_VALID_PACKETS_WEIGHT : double := tenths 3.
Definition ATLAS_REGISTER_TIME_WEIGHT : double := tenths 4.
Definition ATLAS_KEEPALIVE_PACKETS_WEIGHT : double := tenths 3.
Definition ATLAS_SENSOR_WEIGHT : double := tenths 7.
Definition ATLAS_RESP_TIME_WEIGHT : double := tenths 3.
Definition ATLAS_SYSTEM_REPUTATION_THRESHOLD : double := tenths 8.
Definition ATLAS_DATA_REPUTATION_THRESHOLD : double := tenths 8.
Definition ATLAS_SYSTEM_REPUTATION_INTERVAL_MS : Z := 60000.
Definition ATLAS_KEEP_ALIVE_INTERVAL_MS : Z := 20000.

(** The common part of [initSystemReputation] and [initDataReputation]: the network
    of the database, or a new one with the given features. *)
Definition initReputation (k : list byte) (netType : Z) (threshold : double) (features : list (Z * double)) : G unit :=
  d ← this k;
  let rep := updateFeedbackThreshold threshold (getReputation netType d) in
  result ← gcall (checkDeviceForFeatures (identity_ d) netType);
  if (result : bool) then
    (* Get from db *)
    r ← gcall (selectBayesParams (identity_ d) netType rep);
    '(result, rep) ← glift r;
    update k (setReputation netType (if (result : bool) then (computeScore rep).2 else rep))
  else
    let rep := foldl (fun rep f => (addFeature f.1 f.2 rep).2) rep features in
    (* Insert into db *)
    _ ← gcall (insertBayesParams (identity_ d) netType rep);
    update k (setReputation netType rep).

Definition initSystemReputation (k : list byte) : G unit :=
  initReputation k ATLAS_NETWORK_SYSTEM ATLAS_SYSTEM_REPUTATION_THRESHOLD
    [(ATLAS_FEATURE_REGISTER_TIME, ATLAS_REGISTER_TIME_WEIGHT);
     (ATLAS_FEATURE_KEEPALIVE_PACKETS, ATLAS_KEEPALIVE_PACKETS_WEIGHT);
     (ATLAS_FEATURE_VALID_PACKETS, ATLAS_VALID_PACKETS_WEIGHT)] ≫= fun _ =>
  (* Add feedback for system reputation *)
  update k (fun d => dev_set_rep (deviceReputation_ d) (feedback_ d ++
    [AtlasRegistrationFeedback (ATLAS_SYSTEM_REPUTATION_INTERVAL_MS / 1000) 0;
     AtlasKeepaliveFeedback (ATLAS_SYSTEM_REPUTATION_INTERVAL_MS / ATLAS_KEEP_ALIVE_INTERVAL_MS) 0;
     AtlasPacketsFeedback new_fwstats]) d).

Definition initDataReputation (k : list byte) : G unit :=
  initReputation k ATLAS_NETWORK_SENSOR_TEMPERATURE ATLAS_DATA_REPUTATION_THRESHOLD
    [(ATLAS_DEVICE_FEATURE_SENSOR, ATLAS_SENSOR_WEIGHT);
     (ATLAS_DEVICE_FEATURE_RESP_TIME, ATLAS_RESP_TIME_WEIGHT)].

Definition initSystemStatistics (k : list byte) : G unit :=
  d ← this k;
  result ← gcall (checkDeviceForStats (identity_ d));
  if (result : bool) then
    (* select from db *)
    r ← gcall (selectStats (identity_ d) (stats_ d));
    update k (dev_set_stats r.2)
  else
    (* insert into db *)
    _ ← gcall (insertStats (identity_ d) (stats_ d)); mret tt.

(** [AtlasSQLite::selectDeviceCommand] on the device stored under [k]. *)
Definition selectDeviceCommand (k : list byte) : G bool :=
  d ← this k;
  r ← gcall (sql_query SQL_GET_DEVICE_COMMAND_BY_IDENTITY [SqlText (identity_ d)]);
  match r with
  | None => mret false
  | Some r =>
      gfor (sql_rows r) (fun row =>
        '(cmd, isExecuted) ← glift (row_command (identity_ d) row);
        update k (if (isExecuted : bool) then addExecDeviceCommand cmd else addRecvDeviceCommand cmd)) ≫= fun _ =>
      mret (sql_done r)
  end.

Definition initDeviceCommands (k : list byte) : G unit :=
  d ← this k;
  result ← gcall (checkDeviceCommandByIdentity (identity_ d));
  if (result : bool) then _ ← selectDeviceCommand k; mret tt else mret tt.

(** [getDevice]: whether there is such a device, created from the database when
    it is not there yet. *)
Definition getDevice (identity : list byte) : G bool :=
  devices ← gget devices_;
  if decide (is_Some (devices !! identity)) then mret true else
  psk ← gcall (selectDevicePsk identity);
  if decide (psk = []) then mret false else
  gmodify (fun g => set_devices (<[identity := new_AtlasDevice identity psk]> (devices_ g)) g) ≫= fun _ =>
  initSystemReputation identity ≫= fun _ =>
  initDataReputation identity ≫= fun _ =>
  initSystemStatistics identity ≫= fun _ =>
  initDeviceCommands identity ≫= fun _ => mret true.

(** The iteration visits the devices that are there when it begins; no callback
    adds or removes any. *)
Definition forEachDevice (cb : list byte -> G unit) : G unit :=
  devices ← gget devices_;
  gfor (hash_order devices) (fun kd => cb kd.1).

Definition installAllPolicies : G unit :=
  forEachDevice (fun k =>
    d ← this k;
    match policy_ d with Some p => agent_installFirewallRule (Some p) | None => mret tt end).

Definition firewallStatisticsAlarmCallback : G unit :=
  forEachDevice (fun k =>
    d ← this k;
    match policy_ d with Some p => agent_getFirewallRuleStats (fp_clientId p) | None => mret tt end).

Definition updateFirewallStats (s : AtlasFirewallStats) : G unit :=
  found ← getDevice (fs_clientId s);
  if (found : bool) then
    let k := fs_clientId s in
    update k (fun d => dev_set_stats (fwstats_add (ruleDroppedPkts_ s) (rulePassedPkts_ s)
                                        (txDroppedPkts_ s) (txPassedPkts_ s) (stats_ d)) d) ≫= fun _ =>
    d ← this k;
    _ ← gcall (updateStats (identity_ d) (stats_ d));
    syncFirewallStatistics k
  else mret tt.

(** * pubsub_agent/AtlasPubSubAgent.cpp: the reader *)

Record stat_args := mk_stat_args {
  sa_clientId : list byte;
  sa_ruleDropped : option Z;
  sa_rulePassed : option Z;
  sa_txDropped : option Z;
  sa_txPassed : option Z;
}.

Definition read_u32 (cmd : AtlasCommand) : res Z := raw ← cmd_bytes cmd; Ok (ntohl (ld32 raw)).

Definition stat_body (a : stat_args) (cmd : AtlasCommand) : res stat_args :=
  if decide (type_ cmd = code ATLAS_CMD_PUB_SUB_CLIENT_ID) then
    v ← cmd_bytes cmd; Ok (mk_stat_args v (sa_ruleDropped a) (sa_rulePassed a) (sa_txDropped a) (sa_txPassed a))
  else if decide (type_ cmd = code ATLAS_CMD_PUB_SUB_PKT_DROP /\ len_ cmd = 4) then
    v ← read_u32 cmd; Ok (mk_stat_args (sa_clientId a) (Some v) (sa_rulePassed a) (sa_txDropped a) (sa_txPassed a))
  else if decide (type_ cmd = code ATLAS_CMD_PUB_SUB_PKT_PASS /\ len_ cmd = 4) then
    v ← read_u32 cmd; Ok (mk_stat_args (sa_clientId a) (sa_ruleDropped a) (Some v) (sa_txDropped a) (sa_txPassed a))
  else if decide (type_ cmd = code ATLAS_CMD_PUB_SUB_TX_PKT_DROP /\ len_ cmd = 4) then
    v ← read_u32 cmd; Ok (mk_stat_args (sa_clientId a) (sa_ruleDropped a) (sa_rulePassed a) (Some v) (sa_txPassed a))
  else if decide (type_ cmd = code ATLAS_CMD_PUB_SUB_TX_PKT_PASS /\ len_ cmd = 4) then
    v ← read_u32 cmd; Ok (mk_stat_args (sa_clientId a) (sa_ruleDropped a) (sa_rulePassed a) (sa_txDropped a) (Some v))
  else Ok a.

Definition processFirewallRuleStat (cmdBuf : option (list byte)) (cmdLen : Z) : G unit :=
  match cmdBuf with
  | None => mret tt
  | Some _ =>
      if decide (cmdLen = 0) then mret tt else
      cmds ← glift (parsed_commands cmdBuf cmdLen);
      a ← glift (for_each stat_body cmds (mk_stat_args [] None None None None));
      if decide (sa_clientId a = []) then mret tt else
      match sa_ruleDropped a, sa_rulePassed a, sa_txDropped a, sa_txPassed a with
      | Some dr, Some ps, Some td, Some tp =>
          (* If at least one value is not zero, update the device firewall statistics *)
          if decide (dr <> 0 \/ ps <> 0 \/ td <> 0 \/ tp <> 0) then
            updateFirewallStats (fwstats_add dr ps td tp (mk_fwstats (sa_clientId a) 0 0 0 0))
          else mret tt
      | _, _, _, _ => mret tt
      end
  end.

Definition agent_command (cmd : AtlasCommand) : G unit :=
  if decide (type_ cmd = code ATLAS_CMD_GET_ALL_PUB_SUB_FIREWALL_RULES) then installAllPolicies
  else if decide (type_ cmd = code ATLAS_CMD_PUB_SUB_PUT_STAT_FIREWALL_RULE) then
    processFirewallRuleStat (val_ cmd) (len_ cmd)
  else mret tt.

Definition agent_processCommand (cmdBuffer : option (list byte)) (cmdLen : Z) : G unit :=
  cmds ← glift (parsed_commands cmdBuffer cmdLen);
  gfor cmds agent_command.

(** A successful read; after an error the agent stops reading. *)
Definition agent_handleRead (chunk : list byte) : G unit :=
  x ← gget agent_xfer;
  '(cmd, x) ← glift (handleRead chunk x);
  gmodify (fun g => set_agent (agent_connected g) x g) ≫= fun _ =>
  match cmd with
  | Some cmd => agent_processCommand (Some cmd) (blen cmd)
  | None => mret tt
  end.

(** A new connection of the plug-in. *)
Definition agent_handleAccept : G unit :=
  gmodify (fun g => set_agent true (xfer_init (agent_xfer g)) g).

(** * register/AtlasRegister.cpp *)

Definition NOT_ACCEPTABLE : response := (ATLAS_COAP_RESP_NOT_ACCEPTABLE, None).

Definition keepaliveAlarmCallback : G unit :=
  forEachDevice (fun k =>
    d ← this k;
    if registered_ d then keepAliveExpired k else mret tt).

(** The local variables of the two callbacks' loops. *)
Record reg_args := mk_reg_args {
  rg_identity : list byte;
  rg_ipPort : list byte;
  rg_token : option (list byte);
}.

Definition register_body (pskIdentity : list byte) (a : reg_args) (cmd : AtlasCommand) : res (reg_args + response) :=
  if decide (type_ cmd = code ATLAS_CMD_REGISTER) then
    if decide (len_ cmd = 0) then Ok (inr NOT_ACCEPTABLE) else
    v ← cmd_bytes cmd;
    if decide (pskIdentity = v) then Ok (inl (mk_reg_args v (rg_ipPort a) (rg_token a)))
    else Ok (inr NOT_ACCEPTABLE)
  else if decide (type_ cmd = code ATLAS_CMD_IP_PORT) then
    if decide (len_ cmd = 0) then Ok (inr NOT_ACCEPTABLE) else
    v ← cmd_bytes cmd; Ok (inl (mk_reg_args (rg_identity a) v (rg_token a)))
  else Ok (inl a).

Definition registerCallback (pskIdentity : list byte) (reqPayload : option (list byte)) (reqPayloadLen : Z) : G response :=
  cmds ← glift (parsed_commands reqPayload reqPayloadLen);
  match cmds with
  | [] => mret NOT_ACCEPTABLE
  | _ =>
      r ← glift (for_return (register_body pskIdentity) cmds (mk_reg_args [] [] None));
      match r with
      | inr resp => mret resp
      | inl a =>
          if decide (rg_identity a = [] \/ rg_ipPort a = []) then mret NOT_ACCEPTABLE else
          found ← getDevice (rg_identity a);
          if (found : bool) then
            let k := rg_identity a in
            registerNow k ≫= fun _ =>
            setIpPort k (rg_ipPort a) ≫= fun _ =>
            (* Install alerts on client device *)
            pushAlerts k ≫= fun _ => mret (ATLAS_COAP_RESP_OK, None)
          else mret NOT_ACCEPTABLE
      end
  end.

Definition keepalive_body (pskIdentity : list byte) (a : reg_args) (cmd : AtlasCommand) : res (reg_args + response) :=
  if decide (type_ cmd = code ATLAS_CMD_KEEPALIVE) then
    (* The keep-alive token must have two bytes length *)
    if decide (len_ cmd <> 2) then Ok (inr NOT_ACCEPTABLE) else
    v ← cmd_bytes cmd; Ok (inl (mk_reg_args (rg_identity a) (rg_ipPort a) (Some v)))
  else if decide (type_ cmd = code ATLAS_CMD_IDENTITY) then
    if decide (len_ cmd = 0) then Ok (inr NOT_ACCEPTABLE) else
    v ← cmd_bytes cmd;
    if decide (pskIdentity = v) then Ok (inl (mk_reg_args v (rg_ipPort a) (rg_token a)))
    else Ok (inr NOT_ACCEPTABLE)
  else if decide (type_ cmd = code ATLAS_CMD_IP_PORT) then
    if decide (len_ cmd = 0) then Ok (inr NOT_ACCEPTABLE) else
    v ← cmd_bytes cmd; Ok (inl (mk_reg_args (rg_identity a) v (rg_token a)))
  else Ok (inl a).

(** The guard the end-points for registered devices share. *)
Definition registered_device (pskIdentity : list byte) : G bool :=
  found ← getDevice pskIdentity;
  if (found : bool) then d ← this pskIdentity; mret (registered_ d) else mret false.

Definition keepaliveCallback (pskIdentity : list byte) (reqPayload : option (list byte)) (reqPayloadLen : Z) : G response :=
  ok ← registered_device pskIdentity;
  if (ok : bool) then
    cmds ← glift (parsed_commands reqPayload reqPayloadLen);
    match cmds with
    | [] => mret NOT_ACCEPTABLE
    | _ =>
        r ← glift (for_return (keepalive_body pskIdentity) cmds (mk_reg_args [] [] None));
        match r with
        | inr resp => mret resp
        | inl a =>
            match rg_token a with
            | Some token =>
                if decide (rg_identity a = [] \/ rg_ipPort a = []) then mret NOT_ACCEPTABLE else
                keepAliveNow pskIdentity ≫= fun _ =>
                setIpPort pskIdentity (rg_ipPort a) ≫= fun _ =>
                (* Echo keep-alive token *)
                mret (ATLAS_COAP_RESP_OK, Some token)
            | None => mret NOT_ACCEPTABLE
            end
        end
    end
  else mret NOT_ACCEPTABLE.

(** * policy/AtlasPolicy.cpp *)

Record policy_args := mk_policy_args {
  pa_qos : option Z;
  pa_ppm : option Z;
  pa_payloadLen : option Z;
}.

Definition firewall_body (a : policy_args) (cmd : AtlasCommand) : res (policy_args + response) :=
  if decide (type_ cmd = code ATLAS_CMD_DATA_PLANE_POLICY_MAX_QOS) then
    if decide (len_ cmd <> 2) then Ok (inr NOT_ACCEPTABLE) else
    v ← read_u16 cmd; Ok (inl (mk_policy_args (Some v) (pa_ppm a) (pa_payloadLen a)))
  else if decide (type_ cmd = code ATLAS_CMD_DATA_PLANE_POLICY_PACKETS_PER_MINUTE) then
    if decide (len_ cmd <> 2) then Ok (inr NOT_ACCEPTABLE) else
    v ← read_u16 cmd; Ok (inl (mk_policy_args (pa_qos a) (Some v) (pa_payloadLen a)))
  else if decide (type_ cmd = code ATLAS_CMD_DATA_PLANE_POLICY_PACKETS_MAXLEN) then
    if decide (len_ cmd <> 2) then Ok (inr NOT_ACCEPTABLE) else
    v ← read_u16 cmd; Ok (inl (mk_policy_args (pa_qos a) (pa_ppm a) (Some v)))
  else Ok (inl a).

Definition firewallPolicyCallback (pskIdentity : list byte) (reqPayload : option (list byte)) (reqPayloadLen : Z) : G response :=
  ok ← registered_device pskIdentity;
  if (ok : bool) then
    cmds ← glift (parsed_commands reqPayload reqPayloadLen);
    match cmds with
    | [] => mret NOT_ACCEPTABLE
    | _ =>
        r ← glift (for_return firewall_body cmds (mk_policy_args None None None));
        match r with
        | inr resp => mret resp
        | inl a =>
            match pa_qos a, pa_ppm a, pa_payloadLen a with
            | Some qos, Some ppm, Some payloadLen =>
                (* Set policy info in this device *)
                setPolicyInfo pskIdentity (Some (mk_policy pskIdentity qos ppm payloadLen)) ≫= fun _ =>
                (* Install firewall policy in mosquitto plug-in *)
                d ← this pskIdentity;
                agent_installFirewallRule (policy_ d) ≫= fun _ => mret (ATLAS_COAP_RESP_OK, None)
            | _, _, _ => mret NOT_ACCEPTABLE
            end
        end
    end
  else mret NOT_ACCEPTABLE.

(** * telemetry/AtlasTelemetry.cpp *)

(** The chain of tests of [getFeature]: the URI, the command and the feature.
    [path.c_str()] ends at the first NUL. *)
Definition feature_table : list (list byte * AtlasCommandType * list byte) :=
  [(cstr "gateway/telemetry/hostname", ATLAS_CMD_TELEMETRY_HOSTNAME, TELEMETRY_HOSTNAME);
   (cstr "gateway/telemetry/kernel_info", ATLAS_CMD_TELEMETRY_KERN_INFO, TELEMETRY_KERN_INFO);
   (cstr "gateway/telemetry/sysinfo/uptime", ATLAS_CMD_TELEMETRY_SYSINFO_UPTIME, TELEMETRY_SYSINFO_UPTIME);
   (cstr "gateway/telemetry/sysinfo/totalram", ATLAS_CMD_TELEMETRY_SYSINFO_TOTALRAM, TELEMETRY_SYSINFO_TOTALRAM);
   (cstr "gateway/telemetry/sysinfo/freeram", ATLAS_CMD_TELEMETRY_SYSINFO_FREERAM, TELEMETRY_SYSINFO_FREERAM);
   (cstr "gateway/telemetry/sysinfo/sharedram", ATLAS_CMD_TELEMETRY_SYSINFO_SHAREDRAM, TELEMETRY_SYSINFO_SHAREDRAM);
   (cstr "gateway/telemetry/sysinfo/bufferram", ATLAS_CMD_TELEMETRY_SYSINFO_BUFFERRAM, TELEMETRY_SYSINFO_BUFFERRAM);
   (cstr "gateway/telemetry/sysinfo/totalswap", ATLAS_CMD_TELEMETRY_SYSINFO_TOTALSWAP, TELEMETRY_SYSINFO_TOTALSWAP);
   (cstr "gateway/telemetry/sysinfo/freeswap", ATLAS_CMD_TELEMETRY_SYSINFO_FREESWAP, TELEMETRY_SYSINFO_FREESWAP);
   (cstr "gateway/telemetry/sysinfo/procs", ATLAS_CMD_TELEMETRY_SYSINFO_PROCS, TELEMETRY_SYSINFO_PROCS);
   (cstr "gateway/telemetry/sysinfo/load1", ATLAS_CMD_TELEMETRY_SYSINFO_LOAD1, TELEMETRY_SYSINFO_LOAD1);
   (cstr "gateway/telemetry/sysinfo/load5", ATLAS_CMD_TELEMETRY_SYSINFO_LOAD5, TELEMETRY_SYSINFO_LOAD5);
   (cstr "gateway/telemetry/sysinfo/load15", ATLAS_CMD_TELEMETRY_SYSINFO_LOAD15, TELEMETRY_SYSINFO_LOAD15);
   (cstr "gateway/telemetry/packets_per_minute", ATLAS_CMD_TELEMETRY_PACKETS_PER_MINUTE, TELEMETRY_PACKETS_INFO_PACKETS_PER_MINUTE);
   (cstr "gateway/telemetry/packets_avg", ATLAS_CMD_TELEMETRY_PACKETS_AVG, TELEMETRY_PACKETS_INFO_PACKETS_AVG)].

Fixpoint feature_chain (table : list (list byte * AtlasCommandType * list byte)) (path : list byte) (type : Z) : list byte :=
  match table with
  | [] => []
  | (uri, t, name) :: table =>
      if strstr (until_nul path) uri && bool_decide (type = code t) then name else feature_chain table path type
  end.

Definition getFeature (path : list byte) (cmd : AtlasCommand) : res (list byte * list byte) :=
  if decide (len_ cmd = 0) then Ok ([], []) else
  v ← cmd_bytes cmd; Ok (feature_chain feature_table path (type_ cmd), v).

(** The loop's variables: [identity] and [feature]. *)
Definition telemetry_body (path pskIdentity : list byte) (a : list byte * (list byte * list byte)) (cmd : AtlasCommand)
  : res (list byte * (list byte * list byte) + response) :=
  if decide (type_ cmd = code ATLAS_CMD_IDENTITY) then
    if decide (len_ cmd = 0) then Ok (inr NOT_ACCEPTABLE) else
    v ← cmd_bytes cmd;
    if decide (pskIdentity = v) then Ok (inl (v, a.2)) else Ok (inr NOT_ACCEPTABLE)
  else f ← getFeature path cmd; Ok (inl (a.1, f)).

Definition featureCallback (path pskIdentity : list byte) (reqPayload : option (list byte)) (reqPayloadLen : Z) : G response :=
  ok ← registered_device pskIdentity;
  if (ok : bool) then
    cmds ← glift (parsed_commands reqPayload reqPayloadLen);
    match cmds with
    | [] => mret NOT_ACCEPTABLE
    | _ =>
        r ← glift (for_return (telemetry_body path pskIdentity) cmds ([], ([], [])));
        match r with
        | inr resp => mret resp
        | inl (identity, (name, value)) =>
            if decide (identity = []) then mret NOT_ACCEPTABLE else
            if decide (name = [] \/ value = []) then mret NOT_ACCEPTABLE else
            (* Set device telemetry feature *)
            setFeature pskIdentity name value ≫= fun _ => mret (ATLAS_COAP_RESP_OK, None)
        end
    end
  else mret NOT_ACCEPTABLE.
End Server.

(** * Facts *)

Section ServerFacts.
Context `{E : GwEnv} `{SND : !Sends E} `{HO : HashOrder} `{HostEndian}.

(** A device as [getDevice] creates it. *)
Definition fresh_device (k : list byte) (d : AtlasDevice) : Prop :=
  exists psk rep fb s recv exec, psk <> [] /\
    d = dev_set_cmds recv exec 0 (dev_set_stats s (dev_set_rep rep fb (new_AtlasDevice k psk))).

Lemma put_put k d1 d2 e1 e2 x1 x2 g : put k d2 e2 x2 (put k d1 e1 x1 g) = put k d2 (e1 ++ e2) x2 g.
Proof. unfold put. cbn. by rewrite insert_insert_eq, app_assoc. Qed.

(** The gateway knows the device: it is there or the database has a key for it. *)
Definition known (i : list byte) (g : gateway) : Prop :=
  is_Some (devices_ g !! i) \/ (selectDevicePsk i (gw_ext g)).1 <> [].

(** Loading commands appends them to the queues of the device. *)
Lemma load_rows k i rows d evs x g :
  gfor (command_columns <$> rows) (fun row =>
    '(cmd, isExecuted) ← glift (row_command i row);
    update k (if (isExecuted : bool) then addExecDeviceCommand cmd else addRecvDeviceCommand cmd)) (put k d evs x g) =
  Ok (tt, put k (dev_set_cmds (recvCmds_ d ++ loaded i false rows) (execCmds_ d ++ loaded i true rows)
                   (deviceCmdTimeouts_ d) d) evs x g).
Proof.
  revert d. induction rows as [|c rows IH]; intros d; cbn [fmap list_fmap gfor].
  { unfold loaded. cbn. rewrite !app_nil_r. by destruct d. }
  rewrite row_command_columns. unfold mbind at 1, G_bind at 1. erewrite G_bind_run by reflexivity. cbv iota beta.
  rewrite update_put, IH. unfold loaded. rewrite !filter_cons. destruct (cr_isExecuted c) eqn:Hc; cbn.
  - rewrite (decide_False (P := true = false)), (decide_True (P := true = true)) by done. cbn. by rewrite <- app_assoc.
  - rewrite (decide_False (P := false = true)), (decide_True (P := false = false)) by done. cbn. by rewrite <- app_assoc.
Qed.

Lemma initDeviceCommands_put k d evs x g :
  exists rows x', rows ⊆+ owned cr_deviceId (identity_ d) (tables x) (t_command (tables x)) /\
    (sql_reliable -> rows ≡ₚ owned cr_deviceId (identity_ d) (tables x) (t_command (tables x))) /\ tables x' = tables x /\
    initDeviceCommands k (put k d evs x g) =
    Ok (tt, put k (dev_set_cmds (recvCmds_ d ++ loaded (identity_ d) false rows)
                     (execCmds_ d ++ loaded (identity_ d) true rows) (deviceCmdTimeouts_ d) d) evs x' g).
Proof.
  assert (Hnone : dev_set_cmds (recvCmds_ d ++ loaded (identity_ d) false []) (execCmds_ d ++ loaded (identity_ d) true [])
                    (deviceCmdTimeouts_ d) d = d).
  { unfold loaded. cbn. rewrite !app_nil_r. by destruct d. }
  unfold initDeviceCommands. grun. pose proof (fun R : sql_reliable => sql_check_reliable SQL_CHECK_DEVICE_COMMAND_BY_IDENTITY
    [SqlText (identity_ d)] _ x R eq_refl) as Hrel. unfold checkDeviceCommandByIdentity.
  destruct (sql_check SQL_CHECK_DEVICE_COMMAND_BY_IDENTITY [SqlText (identity_ d)] x) as [found x1] eqn:Hc.
  apply checkDeviceCommandByIdentity_spec in Hc. cbn [fst snd] in *. destruct found.
  - unfold selectDeviceCommand, mbind at 1, G_bind at 1. grun. pose proof (fun R : sql_reliable => R
      SQL_GET_DEVICE_COMMAND_BY_IDENTITY [SqlText (identity_ d)] x1 _ _ eq_refl) as Hrel2.
    destruct (sql_query SQL_GET_DEVICE_COMMAND_BY_IDENTITY [SqlText (identity_ d)] x1) as [r x2] eqn:Hq.
    apply selected_rows in Hq as [Hx2 Hrows]. cbn [fst snd]. destruct r as [r|].
    + destruct (Hrows r eq_refl) as (rows & -> & Hsub & Hdone). exists rows, x2. rewrite <- Hc. split; [done|]. split.
      { intros R. apply Hdone. by destruct (Hrel2 R) as (r' & x' & [= <- _] & ?). }
      split; [done|]. erewrite G_bind_run by apply load_rows. done.
    + exists [], x2. split; [apply submseteq_nil_l|]. split; [|split; [congruence|by rewrite Hnone]].
      intros R. by destruct (Hrel2 R) as (r' & x' & ? & _).
  - exists [], x1. split; [apply submseteq_nil_l|]. split; [|split; [done|by rewrite Hnone]].
    intros R. specialize (Hrel R eq_refl). by apply fmap_nil_inv in Hrel as ->.
Qed.

Lemma addFeatures_threshold fs m :
  feedbackThreshold_ (foldl (fun rep (f : Z * double) => (addFeature f.1 f.2 rep).2) m fs) = feedbackThreshold_ m.
Proof. revert m. induction fs as [|f fs IH]; intros m; [done|]. cbn [foldl]. rewrite IH. unfold addFeature. by case_decide. Qed.

(** The networks a device has once [getDevice] made it. *)
Lemma initReputation_put k netType threshold features d evs x g :
  exists m x', initReputation k netType threshold features (put k d evs x g) = Ok (tt, put k (setReputation netType m d) evs x' g) /\
    feedbackThreshold_ m = threshold /\ exists n, tables x' = set_t_bayes n (tables x).
Proof.
  unfold initReputation. grun. destruct (checkDeviceForFeatures (identity_ d) netType x) as [found x1] eqn:Hc.
  apply checkDeviceForFeatures_spec in Hc. cbn [fst snd]. destruct found; grun.
  - destruct (selectBayesParams _ _ _ x1) as [r x2] eqn:Hs. apply selectBayesParams_spec in Hs as (Hx2 & b & m & -> & Hth).
    cbn [fst snd]. grun. cbv iota beta. rewrite update_put. eexists _, x2. split; [done|].
    split; [|exists (t_bayes (tables x)); by rewrite Hx2, Hc, set_t_bayes_same].
    destruct b; [|done]. unfold computeScore. by case_decide.
  - destruct (insertBayesParams _ _ _ x1) as [b x2] eqn:Hi. apply insertBayesParams_only in Hi as (n & Hn).
    cbn [fst snd]. rewrite update_put. eexists _, x2. split; [done|]. split; [|exists n; by rewrite Hn, Hc].
    by rewrite addFeatures_threshold.
Qed.

Lemma initSystemReputation_put k d evs x g :
  exists rep fb x', initSystemReputation k (put k d evs x g) = Ok (tt, put k (dev_set_rep rep fb d) evs x' g) /\
    exists n, tables x' = set_t_bayes n (tables x).
Proof.
  unfold initSystemReputation. edestruct initReputation_put as (m & x' & Hr & _ & Hn). erewrite G_bind_run by exact Hr.
  rewrite update_put. by eexists _, _, x'.
Qed.

Lemma initDataReputation_put k d evs x g :
  exists rep fb x', initDataReputation k (put k d evs x g) = Ok (tt, put k (dev_set_rep rep fb d) evs x' g) /\
    exists n, tables x' = set_t_bayes n (tables x).
Proof.
  unfold initDataReputation. edestruct initReputation_put as (m & x' & -> & _ & Hn). by eexists _, _, x'.
Qed.

Lemma initSystemStatistics_put k d evs x g :
  exists s rows x', tables x' = set_t_stats rows (tables x) /\
    initSystemStatistics k (put k d evs x g) = Ok (tt, put k (dev_set_stats s d) evs x' g).
Proof.
  unfold initSystemStatistics. grun. destruct (checkDeviceForStats (identity_ d) x) as [found x1] eqn:Hc.
  apply checkDeviceForStats_spec in Hc. cbn [fst snd]. destruct found; grun.
  - destruct (selectStats (identity_ d) (stats_ d) x1) as [[b s] x2] eqn:Hs. apply selectStats_spec in Hs.
    rewrite update_put. cbn [fst snd]. exists s, (t_stats (tables x)), x2. split; [|done]. by rewrite set_t_stats_same, Hs.
  - destruct (insertStats (identity_ d) (stats_ d) x1) as [b x2] eqn:Hs. apply insertStats_spec in Hs as (rows & Hs).
    cbn [fst snd]. exists (stats_ d), rows, x2. split; [congruence|]. by destruct d.
Qed.

(** A device [getDevice] has just created from tables [t]. *)
Definition created_device (t : Tables) (k : list byte) (d : AtlasDevice) : Prop :=
  exists psk rep fb s rows, psk <> [] /\ (exists r, r ∈ devices_of k t /\ psk = until_nul (dr_psk r)) /\ rows ⊆+ owned cr_deviceId k t (t_command t) /\
    (sql_reliable -> rows ≡ₚ owned cr_deviceId k t (t_command t)) /\
    d = dev_set_cmds (loaded k false rows) (loaded k true rows) 0 (dev_set_stats s (dev_set_rep rep fb (new_AtlasDevice k psk))).

Lemma created_fresh t k d : created_device t k d -> fresh_device k d.
Proof. intros (psk & rep & fb & s & rows & Hne & _ & _ & _ & ->). by eexists _, _, _, _, _, _. Qed.

Lemma getDevice_cases k g :
  (exists x, getDevice k g = Ok (false, set_gw_ext x g) /\ ~ known k g /\ tables x = tables (gw_ext g)) \/
  (exists d x, getDevice k g = Ok (true, put k d [] x g) /\ known k g /\
     ((devices_ g !! k = Some d /\ x = gw_ext g) \/
      (devices_ g !! k = None /\ created_device (tables (gw_ext g)) k d /\
       exists rows n, tables x = set_t_stats rows (set_t_bayes n (tables (gw_ext g)))))).
Proof.
  unfold getDevice, known. grun. destruct (devices_ g !! k) as [d|] eqn:Hd.
  - right. exists d, (gw_ext g). rewrite decide_True by done. split; [|auto].
    by rewrite <- (put_intro k d g) by done.
  - rewrite decide_False by (by intros [? ?]).
    destruct (selectDevicePsk k (gw_ext g)) as [psk x] eqn:Hpsk.
    erewrite G_bind_run by (unfold gcall; by rewrite Hpsk). cbn [fst].
    apply selectDevicePsk_spec in Hpsk as [Hx Hdev]. case_decide as Hne.
    { left. exists x. split; [done|]. split; [|done]. by intros [[? ?]|?]. }
    right. erewrite G_bind_run by reflexivity. set (d0 := new_AtlasDevice k psk).
    assert (Hg : set_devices (<[k := d0]> (devices_ (set_gw_ext x g))) (set_gw_ext x g) = put k d0 [] x g).
    { unfold put, set_devices, set_gw_ext. cbn. by rewrite app_nil_r. }
    rewrite Hg. destruct (initSystemReputation_put k d0 [] x g) as (rep1 & fb1 & x3 & Hr1 & n1 & Hn1).
    erewrite G_bind_run by exact Hr1.
    destruct (initDataReputation_put k (dev_set_rep rep1 fb1 d0) [] x3 g) as (rep & fb & x4 & Hr2 & n & Hn).
    erewrite G_bind_run by exact Hr2. change (dev_set_rep rep fb (dev_set_rep rep1 fb1 d0)) with (dev_set_rep rep fb d0).
    destruct (initSystemStatistics_put k (dev_set_rep rep fb d0) [] x4 g) as (s & srows & x1 & Hx1 & Hs).
    erewrite G_bind_run by exact Hs.
    destruct (initDeviceCommands_put k (dev_set_stats s (dev_set_rep rep fb d0)) [] x1 g) as (rows & x2 & Hsub & Hrel & Hx2 & Hc).
    erewrite G_bind_run by exact Hc. rewrite Hx1, Hn, Hn1, Hx in Hsub, Hrel. eexists _, x2. split; [done|]. split; [by right|].
    right. split; [done|]. split; [|exists srows, n; by rewrite Hx2, Hx1, Hn, Hn1, Hx]. exists psk, rep, fb, s, rows. auto.
Qed.

Lemma getDevice_spec k g :
  (exists x, getDevice k g = Ok (false, set_gw_ext x g) /\ ~ known k g) \/
  (exists d x, getDevice k g = Ok (true, put k d [] x g) /\ known k g /\
     (devices_ g !! k = Some d \/ (devices_ g !! k = None /\ fresh_device k d))).
Proof.
  destruct (getDevice_cases k g) as [(x & Hget & Hk & _)|(d & x & Hget & Hk & Hd)]; [left; eauto|right].
  exists d, x. split; [done|]. split; [done|]. destruct Hd as [[? _]|(? & ?%created_fresh & _)]; auto.
Qed.

(** A device that is already there. *)
Lemma getDevice_run k d g : devices_ g !! k = Some d -> getDevice k g = Ok (true, g).
Proof. intros Hd. unfold getDevice. grun. by rewrite decide_True by (by exists d). Qed.

Lemma registered_device_run k d g :
  devices_ g !! k = Some d -> registered_device k g = Ok (registered_ d, g).
Proof.
  intros Hd. unfold registered_device. erewrite G_bind_run by (by apply getDevice_run with d). cbv iota.
  erewrite G_bind_run; [|unfold this; by rewrite Hd]. done.
Qed.

(** ** The loops of the end-points on lists of commands *)

Definition register_step (i : list byte) (a : reg_args) (c : cmd) : reg_args + response :=
  if decide (c.1 = code ATLAS_CMD_REGISTER) then
    if decide (c.2 = []) then inr NOT_ACCEPTABLE
    else if decide (i = c.2) then inl (mk_reg_args c.2 (rg_ipPort a) (rg_token a)) else inr NOT_ACCEPTABLE
  else if decide (c.1 = code ATLAS_CMD_IP_PORT) then
    if decide (c.2 = []) then inr NOT_ACCEPTABLE else inl (mk_reg_args (rg_identity a) c.2 (rg_token a))
  else inl a.

Definition keepalive_step (i : list byte) (a : reg_args) (c : cmd) : reg_args + response :=
  if decide (c.1 = code ATLAS_CMD_KEEPALIVE) then
    if decide (blen c.2 <> 2) then inr NOT_ACCEPTABLE else inl (mk_reg_args (rg_identity a) (rg_ipPort a) (Some c.2))
  else if decide (c.1 = code ATLAS_CMD_IDENTITY) then
    if decide (c.2 = []) then inr NOT_ACCEPTABLE
    else if decide (i = c.2) then inl (mk_reg_args c.2 (rg_ipPort a) (rg_token a)) else inr NOT_ACCEPTABLE
  else if decide (c.1 = code ATLAS_CMD_IP_PORT) then
    if decide (c.2 = []) then inr NOT_ACCEPTABLE else inl (mk_reg_args (rg_identity a) c.2 (rg_token a))
  else inl a.

Definition firewall_step (a : policy_args) (c : cmd) : policy_args + response :=
  if decide (c.1 = code ATLAS_CMD_DATA_PLANE_POLICY_MAX_QOS) then
    if decide (blen c.2 <> 2) then inr NOT_ACCEPTABLE else inl (mk_policy_args (Some (of_be16 c.2)) (pa_ppm a) (pa_payloadLen a))
  else if decide (c.1 = code ATLAS_CMD_DATA_PLANE_POLICY_PACKETS_PER_MINUTE) then
    if decide (blen c.2 <> 2) then inr NOT_ACCEPTABLE else inl (mk_policy_args (pa_qos a) (Some (of_be16 c.2)) (pa_payloadLen a))
  else if decide (c.1 = code ATLAS_CMD_DATA_PLANE_POLICY_PACKETS_MAXLEN) then
    if decide (blen c.2 <> 2) then inr NOT_ACCEPTABLE else inl (mk_policy_args (pa_qos a) (pa_ppm a) (Some (of_be16 c.2)))
  else inl a.

Definition telemetry_step (path i : list byte) (a : list byte * (list byte * list byte)) (c : cmd)
  : list byte * (list byte * list byte) + response :=
  if decide (c.1 = code ATLAS_CMD_IDENTITY) then
    if decide (c.2 = []) then inr NOT_ACCEPTABLE
    else if decide (i = c.2) then inl (c.2, a.2) else inr NOT_ACCEPTABLE
  else inl (a.1, if decide (c.2 = []) then ([], []) else (feature_chain feature_table path c.1, c.2)).

Lemma blen_zero_iff (v : list byte) : blen v = 0 <-> v = [].
Proof. split; [apply blen_0_inv|by intros ->]. Qed.

Lemma decide_len0 {A} (v : list byte) (a b : A) :
  (if decide (blen v = 0) then a else b) = (if decide (v = []) then a else b).
Proof. apply decide_ext, blen_zero_iff. Qed.

Lemma read_u16_pointer c g : pointer_to c g -> blen c.2 = 2 -> read_u16 g = Ok (of_be16 c.2).
Proof.
  intros Hp Hl. unfold read_u16. rewrite (cmd_bytes_pointer c) by done. rewrite res_bind_ok.
  destruct c as [t [|a [|b [|? ?]]]]; cbn in Hl; try (autorewrite with blen in Hl; blen_pos; lia).
  cbn [snd]. by rewrite ntohs_ld16.
Qed.

Ltac pointer_fields Hp :=
  let post := fresh "post" in
  pose proof (cmd_bytes_pointer _ _ Hp); destruct Hp as (post & ->); cbn [type_ len_ val_] in *;
  rewrite ?decide_len0.

Lemma register_body_step i a c g : wf_cmd c -> pointer_to c g -> register_body i a g = Ok (register_step i a c).
Proof.
  intros _ Hp. unfold register_body, register_step. pointer_fields Hp.
  repeat case_decide; try done; rewrite H0, res_bind_ok; try done; repeat case_decide; congruence.
Qed.

Lemma keepalive_body_step i a c g : wf_cmd c -> pointer_to c g -> keepalive_body i a g = Ok (keepalive_step i a c).
Proof.
  intros _ Hp. unfold keepalive_body, keepalive_step. pointer_fields Hp.
  repeat case_decide; try done; rewrite H0, res_bind_ok; try done; repeat case_decide; congruence.
Qed.

Lemma firewall_body_step a c g : wf_cmd c -> pointer_to c g -> firewall_body a g = Ok (firewall_step a c).
Proof.
  intros _ Hp. pose proof (read_u16_pointer c g Hp) as Hr. unfold firewall_body, firewall_step.
  destruct Hp as (post & ->). cbn [type_ len_] in *.
  repeat case_decide; try done; rewrite Hr, res_bind_ok by lia; done.
Qed.

Lemma telemetry_body_step path i a c g :
  wf_cmd c -> pointer_to c g -> telemetry_body path i a g = Ok (telemetry_step path i a c).
Proof.
  intros _ Hp. unfold telemetry_body, telemetry_step, getFeature. pointer_fields Hp.
  repeat case_decide; try done; rewrite H0, ?res_bind_ok; try done; repeat case_decide; congruence.
Qed.

(** ** The invariant of the devices *)

(** A device is stored under its identity; while it is registered its counter is
    between one and four; it has a policy only while it is registered, and the
    policy is its own. *)
Definition device_wf (k : list byte) (d : AtlasDevice) : Prop :=
  identity_ d = k /\
  (registered_ d = true -> exists c, kaCtr_ d = Some c /\ 0 < c <= ATLAS_KEEP_ALIVE_COUNTER) /\
  (forall p, policy_ d = Some p -> registered_ d = true /\ fp_clientId p = k /\
     is_u16 (fp_qos p) /\ is_u16 (fp_ppm p) /\ is_u16 (fp_payloadLen p)).

Definition gw_wf (g : gateway) : Prop := map_Forall device_wf (devices_ g).

(** What the gateway sends about one device. *)
Definition concerns (k : list byte) (e : gw_event) : Prop :=
  match e with
  | GwCloud i _ => i = k
  | GwCoap i _ _ _ => i = k
  | GwAgent _ => True
  | GwPublish _ _ | GwCloudGateway _ => False
  end.

Lemma fresh_wf k d : fresh_device k d -> device_wf k d.
Proof. intros (psk & rep & fb & s & recv & exec & _ & ->). by repeat split. Qed.

Lemma gw_wf_put k d evs x g : gw_wf g -> device_wf k d -> gw_wf (put k d evs x g).
Proof. intros Hg Hd. by apply map_Forall_insert_2. Qed.

Lemma found_wf k d g : gw_wf g -> devices_ g !! k = Some d \/ (devices_ g !! k = None /\ fresh_device k d) -> device_wf k d.
Proof. intros Hg [Hd|[_ Hd]]; [by apply Hg in Hd|by apply fresh_wf]. Qed.

(** The outcome of a request of [k]. *)
Definition answered (k : list byte) (g : gateway) (r : response) (g' : gateway) : Prop :=
  gw_wf g' /\ agent_connected g' = agent_connected g /\ agent_xfer g' = agent_xfer g /\
  (forall j, j <> k -> devices_ g' !! j = devices_ g !! j) /\
  exists evs, gw_out g' = gw_out g ++ evs /\ Forall (concerns k) evs /\ (r.1 <> ATLAS_COAP_RESP_OK -> evs = []).

Lemma answered_ext k g x : gw_wf g -> answered k g NOT_ACCEPTABLE (set_gw_ext x g).
Proof. intros Hg. do 4 (split; [done|]). exists []. by rewrite app_nil_r. Qed.

Lemma answered_self k g : gw_wf g -> answered k g NOT_ACCEPTABLE g.
Proof. intros Hg. do 4 (split; [done|]). exists []. by rewrite app_nil_r. Qed.

Lemma answered_put k d evs x g r :
  gw_wf g -> device_wf k d -> Forall (concerns k) evs -> (r.1 <> ATLAS_COAP_RESP_OK -> evs = []) ->
  answered k g r (put k d evs x g).
Proof.
  intros Hg Hd Hevs Hr. split; [by apply gw_wf_put|]. do 2 (split; [done|]). split; [|by exists evs].
  intros j Hj. cbn. by rewrite lookup_insert_ne.
Qed.

Definition returns_answered (k : list byte) (m : G response) (g : gateway) : Prop :=
  exists r g', m g = Ok (r, g') /\ answered k g r g'.

(** The part of the end-points that only reads: rejections leave the device as
    [getDevice] left it. *)
Lemma rejected_put k d x g :
  gw_wf g -> device_wf k d -> exists r g', Ok (NOT_ACCEPTABLE, put k d [] x g) = Ok (r, g') /\ answered k g r g'.
Proof. intros Hg Hd. eexists _, _. split; [done|]. by apply answered_put. Qed.

Lemma alert_concerns k d evs :
  Forall (fun e => exists t a, registered_ d = true /\ alert_event k d a e /\
      (pushAlerts_ d !! t = Some a \/ thresholdAlerts_ d !! t = Some a)) evs -> Forall (concerns k) evs.
Proof. intros He. eapply Forall_impl; [exact He|]. by intros e (t & a & _ & (payload & _ & ->) & _). Qed.

Lemma rule_concerns k type gs c evs : rule_message type gs c evs -> Forall (concerns k) evs.
Proof. intros (buf & len & _ & ->). destruct c; by repeat constructor. Qed.

(** The registration proper. *)
Lemma register_run k v d evs x g :
  identity_ d = k ->
  let '(now, _) := local_time x in
  exists evs' x', (registerNow k ≫= fun _ => setIpPort k v ≫= fun _ => pushAlerts k ≫= fun _ =>
      mret (ATLAS_COAP_RESP_OK, @None (list byte))) (put k d evs x g) =
    Ok ((ATLAS_COAP_RESP_OK, @None (list byte)),
        put k (dev_set_ipPort v (dev_register now (to_simple_string now) ATLAS_KEEP_ALIVE_COUNTER d)) (evs ++ evs') x' g) /\
    Forall (concerns k) evs'.
Proof.
  intros Hid. destruct (local_time x) as [now x1] eqn:Ht.
  pose proof (registerNow_put k d evs x g) as Hreg. rewrite Ht in Hreg. cbn zeta in Hreg.
  erewrite G_bind_run by exact Hreg. erewrite G_bind_run by apply setIpPort_put.
  match goal with |- context [put k ?dd ?ee x1 g] => destruct (pushAlerts_put k dd ee x1 g) as (e3 & x3 & Hp & He3) end.
  erewrite G_bind_run by exact Hp. eexists _, x3. rewrite <- !app_assoc. split; [done|].
  repeat (apply Forall_app; split).
  - by repeat constructor.
  - case_decide; by repeat constructor.
  - by apply alert_concerns in He3.
Qed.

Lemma dev_register_wf k now text v d : identity_ d = k -> device_wf k d ->
  device_wf k (dev_set_ipPort v (dev_register now text ATLAS_KEEP_ALIVE_COUNTER d)).
Proof.
  intros Hid (_ & _ & Hp). split; [done|]. split; [intros _; by exists 4|].
  intros p Hpol. split; [done|]. by destruct (Hp p Hpol).
Qed.

Lemma register_answered i bytes g : gw_wf g -> returns_answered i (registerCallback i (Some bytes) (blen bytes)) g.
Proof.
  intros Hg. unfold returns_answered, registerCallback.
  destruct (parsed_commands_total bytes) as (cs & rest & Hcs & Hp). erewrite G_bind_run by (by apply glift_run).
  destruct (pointers cs rest) as [|p0 ps] eqn:Hps.
  { eexists _, _. split; [done|]. by apply answered_self. }
  rewrite <- Hps. erewrite G_bind_run by (apply glift_run, for_return_pointers; auto using register_body_step).
  destruct (fold_return (register_step i) cs (mk_reg_args [] [] None)) as [a|r] eqn:Hf.
  - assert (Ha : rg_identity a = [] \/ rg_identity a = i).
    { eapply (fold_return_inl (register_step i) (fun a => rg_identity a = [] \/ rg_identity a = i)
        cs (mk_reg_args [] [] None)); [|by left|exact Hf].
      intros s c s' Hs. unfold register_step. repeat case_decide; intros [= <-]; cbn; auto. }
    case_decide as Hempty.
    { eexists _, _. split; [done|]. by apply answered_self. }
    destruct Ha as [Ha|Ha]; [tauto|]. rewrite Ha.
    destruct (getDevice_spec i g) as [(x & Hget & Hnone)|(d & x & Hget & _ & Hd)]; erewrite G_bind_run by exact Hget.
    { eexists _, _. split; [done|]. by apply answered_ext. }
    pose proof (found_wf _ _ _ Hg Hd) as Hwf. pose proof (register_run i (rg_ipPort a) d [] x g (proj1 Hwf)) as Hrun.
    destruct (local_time x) as [now x1]. destruct Hrun as (evs & x2 & -> & Hevs).
    eexists _, _. split; [done|]. apply answered_put; [done| |done|done].
    by apply dev_register_wf; [apply Hwf|].
  - assert (r = NOT_ACCEPTABLE) as ->.
    { eapply (fold_return_inr (register_step i) (fun r => r = NOT_ACCEPTABLE)); [|exact Hf].
      intros s c r' . unfold register_step. repeat case_decide; by intros [= <-]. }
    eexists _, _. split; [done|]. by apply answered_self.
Qed.

(** ** The end-points for registered devices *)

Lemma registered_device_spec k g :
  gw_wf g ->
  (exists x, registered_device k g = Ok (false, set_gw_ext x g)) \/
  (exists d x, registered_device k g = Ok (registered_ d, put k d [] x g) /\ device_wf k d /\
     (registered_ d = true -> devices_ g !! k = Some d)).
Proof.
  intros Hg. unfold registered_device.
  destruct (getDevice_spec k g) as [(x & Hget & _)|(d & x & Hget & _ & Hd)]; [left|right].
  - exists x. by erewrite G_bind_run by exact Hget.
  - exists d, x. erewrite G_bind_run by exact Hget. split; [by grun|]. split; [by eapply found_wf|].
    destruct Hd as [Hd|[_ (psk & rep & fb & s & recv & exec & _ & ->)]]; [done|discriminate].
Qed.

(** The common shape of the three: the guard, the loop over the commands with
    its early answers, and what is done with what the loop found. *)
Definition end_point_shell {S} (i bytes : list byte) (body : S -> AtlasCommand -> res (S + response)) (s0 : S)
    (kont : S -> G response) : G response :=
  ok ← registered_device i;
  if (ok : bool) then
    cmds ← glift (parsed_commands (Some bytes) (blen bytes));
    match cmds with
    | [] => mret NOT_ACCEPTABLE
    | _ => r ← glift (for_return body cmds s0); match r with inr resp => mret resp | inl a => kont a end
    end
  else mret NOT_ACCEPTABLE.

Lemma shell_answered {S} i bytes (body : S -> AtlasCommand -> res (S + response)) (step : S -> cmd -> S + response) s0 kont g :
  gw_wf g ->
  (forall s c g, wf_cmd c -> pointer_to c g -> body s g = Ok (step s c)) ->
  (forall s c r, step s c = inr r -> r = NOT_ACCEPTABLE) ->
  (forall cs a d x, fold_return step cs s0 = inl a -> device_wf i d -> registered_ d = true ->
     exists r g', kont a (put i d [] x g) = Ok (r, g') /\ answered i g r g') ->
  returns_answered i (end_point_shell i bytes body s0 kont) g.
Proof.
  intros Hg Hbody Hstep Hkont. unfold returns_answered, end_point_shell.
  destruct (registered_device_spec i g Hg) as [(x & Hr)|(d & x & Hr & Hwf & _)]; erewrite G_bind_run by exact Hr.
  { eexists _, _. split; [done|]. by apply answered_ext. }
  destruct (registered_ d) eqn:Hreg; [|by apply rejected_put].
  destruct (parsed_commands_total bytes) as (cs & rest & Hcs & Hp). erewrite G_bind_run by (by apply glift_run).
  destruct (pointers cs rest) as [|p0 ps] eqn:Hps; [by apply rejected_put|].
  rewrite <- Hps. erewrite G_bind_run by (apply glift_run, for_return_pointers; eauto).
  destruct (fold_return step cs s0) as [a|r] eqn:Hf; [by eapply Hkont|].
  rewrite (fold_return_inr step (fun r => r = NOT_ACCEPTABLE) cs s0 r Hstep Hf). by apply rejected_put.
Qed.

Lemma keepalive_run k v d evs x g :
  identity_ d = k ->
  let '(now, _) := local_time x in
  exists evs' x', (keepAliveNow k ≫= fun _ => setIpPort k v) (put k d evs x g) =
    Ok (tt, put k (dev_set_ipPort v (dev_keepalive (to_simple_string now) ATLAS_KEEP_ALIVE_COUNTER d)) (evs ++ evs') x' g) /\
    Forall (concerns k) evs'.
Proof.
  intros Hid. destruct (local_time x) as [now x1] eqn:Ht.
  pose proof (keepAliveNow_put k d evs x g) as Hka. rewrite Ht in Hka. cbn zeta in Hka.
  erewrite G_bind_run by exact Hka. rewrite setIpPort_put. eexists _, x1. rewrite <- app_assoc. split; [done|].
  apply Forall_app. split; [by repeat constructor|]. case_decide; by repeat constructor.
Qed.

Lemma keepalive_answered i bytes g : gw_wf g -> returns_answered i (keepaliveCallback i (Some bytes) (blen bytes)) g.
Proof.
  intros Hg. apply (shell_answered i bytes (keepalive_body i) (keepalive_step i) (mk_reg_args [] [] None)
    (fun a => match rg_token a with
      | Some token =>
          if decide (rg_identity a = [] \/ rg_ipPort a = []) then mret NOT_ACCEPTABLE else
          keepAliveNow i ≫= fun _ => setIpPort i (rg_ipPort a) ≫= fun _ => mret (ATLAS_COAP_RESP_OK, Some token)
      | None => mret NOT_ACCEPTABLE
      end)); auto using keepalive_body_step.
  - intros s c r. unfold keepalive_step. repeat case_decide; by intros [= <-].
  - intros cs a d x Hf Hwf Hreg. destruct (rg_token a) as [token|]; [|by apply rejected_put].
    case_decide; [by apply rejected_put|].
    pose proof (keepalive_run i (rg_ipPort a) d [] x g (proj1 Hwf)) as Hrun.
    destruct (local_time x) as [now x1]. destruct Hrun as (evs & x2 & Hrun & Hevs).
    unfold mbind at 1, G_bind at 1 in Hrun. unfold mbind at 1, G_bind at 1.
    destruct (keepAliveNow i (put i d [] x g)) as [[u g1]|]; [|discriminate].
    erewrite G_bind_run by exact Hrun. eexists _, _. split; [done|]. apply answered_put; auto; [|done].
    destruct Hwf as (Hid & _ & Hp). split; [done|]. split; [intros _; by exists 4|]. intros p Hpol. by apply Hp.
Qed.

Lemma firewall_step_u16 a c s : firewall_step a c = inl s ->
  (forall z, pa_qos a = Some z \/ pa_ppm a = Some z \/ pa_payloadLen a = Some z -> is_u16 z) ->
  (forall z, pa_qos s = Some z \/ pa_ppm s = Some z \/ pa_payloadLen s = Some z -> is_u16 z).
Proof.
  unfold firewall_step. repeat case_decide; intros [= <-] Ha z; cbn; auto;
    intros [Hz|[Hz|Hz]]; first [injection Hz as <-; apply of_be16_range | by apply Ha; auto].
Qed.

Lemma policy_answered i bytes g : gw_wf g -> returns_answered i (firewallPolicyCallback i (Some bytes) (blen bytes)) g.
Proof.
  intros Hg. apply (shell_answered i bytes firewall_body firewall_step (mk_policy_args None None None)
    (fun a => match pa_qos a, pa_ppm a, pa_payloadLen a with
      | Some qos, Some ppm, Some payloadLen =>
          setPolicyInfo i (Some (mk_policy i qos ppm payloadLen)) ≫= fun _ =>
          d ← this i;
          agent_installFirewallRule (policy_ d) ≫= fun _ => mret (ATLAS_COAP_RESP_OK, None)
      | _, _, _ => mret NOT_ACCEPTABLE
      end)); auto using firewall_body_step.
  - intros s c r. unfold firewall_step. repeat case_decide; by intros [= <-].
  - intros cs a d x Hf Hwf Hreg.
    assert (Hu : forall z, pa_qos a = Some z \/ pa_ppm a = Some z \/ pa_payloadLen a = Some z -> is_u16 z).
    { eapply (fold_return_inl firewall_step (fun a => forall z, pa_qos a = Some z \/ pa_ppm a = Some z \/ pa_payloadLen a = Some z -> is_u16 z)
        cs (mk_policy_args None None None)); [|by intros z [|[|]]|exact Hf].
      intros s c s' Hs Hstep. by eapply firewall_step_u16. }
    destruct (pa_qos a) as [qos|], (pa_ppm a) as [ppm|], (pa_payloadLen a) as [plen|]; try by apply rejected_put.
    erewrite G_bind_run by apply setPolicyInfo_put. grun. cbn [policy_ dev_set_policy].
    match goal with |- context [put i ?dd ?ee x g] => destruct (install_put i (mk_policy i qos ppm plen) dd ee x g) as (evs & Hi & Hm) end.
    erewrite G_bind_run by exact Hi. eexists _, _. split; [done|].
    destruct Hwf as (Hid & Hctr & _). apply answered_put; [done| | |done].
    + split; [done|]. split; [done|]. intros p [= <-]. cbn. repeat split; try done; apply Hu; auto.
    + apply Forall_app. split; [|by eapply rule_concerns]. cbn [app]. destruct (policy_news _ _); by repeat constructor.
Qed.

Lemma telemetry_answered path i bytes g :
  gw_wf g -> returns_answered i (featureCallback path i (Some bytes) (blen bytes)) g.
Proof.
  intros Hg. apply (shell_answered i bytes (telemetry_body path i) (telemetry_step path i) ([], ([], []))
    (fun a => let '(identity, (name, value)) := a in
       if decide (identity = []) then mret NOT_ACCEPTABLE else
       if decide (name = [] \/ value = []) then mret NOT_ACCEPTABLE else
       setFeature i name value ≫= fun _ => mret (ATLAS_COAP_RESP_OK, None))); auto using telemetry_body_step.
  - intros s c r. unfold telemetry_step. repeat case_decide; by intros [= <-].
  - intros cs [identity [name value]] d x Hf Hwf Hreg. case_decide; [by apply rejected_put|].
    case_decide as Hn; [by apply rejected_put|].
    erewrite G_bind_run by (apply setFeature_put; tauto). eexists _, _. split; [done|].
    destruct Hwf as (Hid & Hctr & Hp). apply answered_put; [done|done| |done].
    cbn [app]. case_decide; by repeat constructor.
Qed.
(** * Visits of all devices *)

(** One turn of a callback of [forEachDevice] on the device it is for. *)
Definition visits (P : list byte -> AtlasDevice -> Prop)
    (R : bool -> list byte -> AtlasDevice -> AtlasDevice -> list gw_event -> Prop) (cb : list byte -> G unit) : Prop :=
  forall k d evs x g, P k d ->
    exists d' evs' x', cb k (put k d evs x g) = Ok (tt, put k d' (evs ++ evs') x' g) /\ R (agent_connected g) k d d' evs'.

(** What the turns left behind: every device as its own turn left it, and the
    messages of the turns in their order. *)
Definition visited (R : bool -> list byte -> AtlasDevice -> AtlasDevice -> list gw_event -> Prop)
    (l : list (list byte * AtlasDevice)) (g g' : gateway) : Prop :=
  agent_connected g' = agent_connected g /\ (agent_xfer g' = agent_xfer g /\ trustedDevices_ g' = trustedDevices_ g) /\
  (forall k, k ∉ l.*1 -> devices_ g' !! k = devices_ g !! k) /\
  exists evss, gw_out g' = gw_out g ++ concat evss /\
    Forall2 (fun kd evs => exists d', devices_ g' !! kd.1 = Some d' /\ R (agent_connected g) kd.1 kd.2 d' evs) l evss.

Lemma gfor_visits P R cb l g :
  visits P R cb -> NoDup l.*1 ->
  Forall (fun kd => devices_ g !! kd.1 = Some kd.2 /\ P kd.1 kd.2) l ->
  exists g', gfor l (fun kd => cb kd.1) g = Ok (tt, g') /\ visited R l g g'.
Proof.
  intros Hcb. revert g. induction l as [|[k d] l IH]; intros g Hnd Hl; cbn [gfor].
  { exists g. split; [done|]. repeat split; try done. exists []. by rewrite app_nil_r. }
  apply NoDup_cons in Hnd as [Hk Hnd]. apply Forall_cons in Hl as [[Hd HP] Hl]. cbn in Hk, Hd, HP.
  destruct (Hcb k d [] (gw_ext g) g HP) as (d' & evs & x & Hrun & HR). rewrite <- put_intro in Hrun by done.
  erewrite G_bind_run by exact Hrun. cbn [app].
  destruct (IH (put k d' evs x g)) as (g' & Hg' & Hc & Hx & Hsame & evss & Hout & Hevs); [done| |].
  { rewrite Forall_forall in Hl |- *. intros [j e] Hj. destruct (Hl (j, e) Hj) as [He HPe]. split; [|done].
    cbn. rewrite lookup_insert_ne; [done|]. intros ->. apply Hk. by apply (list_elem_of_fmap_2 fst l (j, e)). }
  exists g'. split; [done|]. cbn in Hc, Hx, Hout. do 2 (split; [done|]). split.
  - intros j Hj. apply not_elem_of_cons in Hj as [Hjk Hj]. rewrite (Hsame j Hj). cbn. by rewrite lookup_insert_ne.
  - exists (evs :: evss). split; [by rewrite Hout, <- app_assoc|]. constructor; [|done].
    exists d'. split; [|done]. cbn [fst]. rewrite (Hsame k Hk). cbn. by rewrite lookup_insert_eq.
Qed.

Lemma forEachDevice_visits P R cb g :
  visits P R cb -> map_Forall P (devices_ g) ->
  exists g', forEachDevice cb g = Ok (tt, g') /\ visited R (hash_order (devices_ g)) g g'.
Proof.
  intros Hcb HP. unfold forEachDevice. grun. apply (gfor_visits P); [done|..].
  - rewrite hash_order_perm. apply NoDup_fst_map_to_list.
  - rewrite hash_order_perm. apply Forall_forall. intros [k d] Hin. apply elem_of_map_to_list in Hin. split; [done|].
    by apply HP.
Qed.

(** Read off for one key. *)
Lemma visited_lookup R g g' k :
  visited R (hash_order (devices_ g)) g g' ->
  match devices_ g !! k with
  | Some d => exists d' evs, devices_ g' !! k = Some d' /\ R (agent_connected g) k d d' evs /\ evs ⊆ gw_out g'
  | None => devices_ g' !! k = None
  end.
Proof.
  intros (_ & _ & Hsame & evss & Hout & Hevs). destruct (devices_ g !! k) as [d|] eqn:Hd.
  - assert (Hin : (k, d) ∈ hash_order (devices_ g)) by (rewrite hash_order_perm; by apply elem_of_map_to_list).
    apply list_elem_of_lookup_1 in Hin as [n Hn]. destruct (Forall2_lookup_l _ _ _ _ _ Hevs Hn) as (evs & He & d' & Hd' & HR).
    exists d', evs. split; [done|]. split; [done|]. rewrite Hout. intros e Hin. apply elem_of_app. right.
    apply list_elem_of_In, in_concat. exists evs. split; apply list_elem_of_In; [|done]. by eapply list_elem_of_lookup_2.
  - rewrite Hsame; [done|]. rewrite hash_order_perm. intros [[j e] [-> Hin]]%list_elem_of_fmap.
    apply elem_of_map_to_list in Hin. cbn in Hd. by rewrite Hin in Hd.
Qed.

Lemma visited_wf R g g' :
  visited R (hash_order (devices_ g)) g g' ->
  (forall c k d d' evs, device_wf k d -> R c k d d' evs -> device_wf k d') -> gw_wf g -> gw_wf g'.
Proof.
  intros Hv HR Hg k d' Hd'. pose proof (visited_lookup R g g' k Hv) as Hk. destruct (devices_ g !! k) as [d|] eqn:Hd.
  - destruct Hk as (e & evs & He & Hr & _). rewrite Hd' in He. injection He as <-. eapply HR; [|done]. by apply Hg.
  - by rewrite Hk in Hd'.
Qed.

(** * Operations that keep an invariant of the gateway *)

Definition gpreserves {A} (I : gateway -> Prop) (m : G A) : Prop :=
  forall g a g', I g -> m g = Ok (a, g') -> I g'.

Lemma pres_ret {A} I (a : A) : gpreserves I (mret a).
Proof. by intros g b g' Hg [= <- <-]. Qed.

Lemma pres_bind {A B} I (m : G A) (f : A -> G B) : gpreserves I m -> (forall a, gpreserves I (f a)) -> gpreserves I (m ≫= f).
Proof.
  intros Hm Hf g b g' Hg. unfold mbind, G_bind. destruct (m g) as [[a g1]|] eqn:Hr; [|done]. apply (Hf a g1), (Hm g a g1 Hg Hr).
Qed.

Lemma pres_gget {A} I (f : gateway -> A) : gpreserves I (gget f).
Proof. by intros g b g' Hg [= <- <-]. Qed.

Lemma pres_glift {A} I (r : res A) : gpreserves I (glift r).
Proof. intros g b g' Hg. unfold glift. destruct r; [|done]. by intros [= <- <-]. Qed.

Lemma pres_this I k : gpreserves I (this k).
Proof. intros g b g' Hg. unfold this. destruct (devices_ g !! k); [|done]. by intros [= <- <-]. Qed.

Lemma pres_gfor {A} I (l : list A) (body : A -> G unit) : (forall a, gpreserves I (body a)) -> gpreserves I (gfor l body).
Proof. intros Hb. induction l as [|a l IH]; cbn [gfor]; [apply pres_ret|]. by apply pres_bind. Qed.

(** The well-formedness of the devices is kept by sending, by the environment, by the
    order of trust and by changes of a device that are local to it. *)
Lemma wf_gemit e : gpreserves gw_wf (gemit e).
Proof. by intros g a g' Hg [= <- <-]. Qed.
Lemma wf_gcall {A} (f : gext -> A * gext) : gpreserves gw_wf (gcall f).
Proof. intros g a g' Hg. unfold gcall. destruct (f (gw_ext g)). by intros [= <- <-]. Qed.
Lemma wf_trusted f : gpreserves gw_wf (gmodify (fun g => set_trusted (f g) g)).
Proof. by intros g a g' Hg [= <- <-]. Qed.
Lemma wf_update k f : (forall d, device_wf k d -> device_wf k (f d)) -> gpreserves gw_wf (update k f).
Proof.
  intros Hf g a g' Hg [= <- <-] j d Hj. cbn in Hj. rewrite lookup_alter_Some in Hj.
  destruct Hj as [[-> (d0 & Hd0 & ->)]|[_ Hj]]; [|by apply Hg]. by apply Hf, Hg.
Qed.
End ServerFacts.

#[export] Hint Resolve pres_ret pres_gget pres_glift pres_this : pres.
