(* ===== verification/GwReputation.v ===== *)
(** The reputation of devices at work: the periodic computation of the system
    reputation and the order of trust (device/AtlasDeviceManager.cpp), and the two
    CoAP end-points for requests and feedback
    (reputation/AtlasFeatureReputation.cpp). *)
From S2P Require Import Prelude Defs CLib Command Double GwDefs GwBatch GwXfer GwFilter GwBayes GwStore GwNetStore GwDevice GwServer.
Import GwType.

(** Weights of the two networks in the global score. *)
Definition ATLAS_SYSTEM_REPUTATION_WEIGHT : double := tenths 7.
Definition ATLAS_DATA_REPUTATION_WEIGHT : double := tenths 3.

Section Reputation.
Context `{E : GwEnv} `{HO : HashOrder} `{HostEndian}.

(** * device/AtlasDevice.cpp *)

Definition getRegInterval (k : list byte) : G Z :=
  d ← this k;
  (* If device is registered, then compute the registration time until now *)
  if registered_ d then now ← gcall local_time; mret (regIntervalSec_ d + (now - startRegTime_ d))
  else mret (regIntervalSec_ d).

Definition syncReputation (k : list byte) (netType : Z) : G unit :=
  d ← this k;
  if decide (netType = ATLAS_NETWORK_SYSTEM \/ netType = ATLAS_NETWORK_SENSOR_TEMPERATURE)
  then updateDevice (identity_ d) (reputationToJSON netType d) else mret tt.

(** * device/reputation_feedback: [getFeedback], with the new state of the element *)

Definition getFeedback (k : list byte) (fb : IAtlasFeedback) : G (double * IAtlasFeedback) :=
  match fb with
  | AtlasRegistrationFeedback samplePeriodSec prev =>
      regIntervalSec ← getRegInterval k;
      mret (sample_feedback regIntervalSec prev samplePeriodSec, AtlasRegistrationFeedback samplePeriodSec regIntervalSec)
  | AtlasKeepaliveFeedback sampleKeepalivePkts prev =>
      d ← this k;
      mret (sample_feedback (keepAlivePkts_ d) prev sampleKeepalivePkts,
            AtlasKeepaliveFeedback sampleKeepalivePkts (keepAlivePkts_ d))
  | AtlasPacketsFeedback prevStats =>
      d ← this k;
      let '(value, prevStats) := packets_feedback (stats_ d) prevStats in mret (value, AtlasPacketsFeedback prevStats)
  end.

Fixpoint getFeedbacks (k : list byte) (fbs : list IAtlasFeedback) : G (list (Z * double) * list IAtlasFeedback) :=
  match fbs with
  | [] => mret ([], [])
  | fb :: fbs =>
      '(value, fb') ← getFeedback k fb;
      '(matrix, fbs) ← getFeedbacks k fbs;
      mret ((feedback_type fb, value) :: matrix, fb' :: fbs)
  end.

(** * device/AtlasDeviceManager.cpp *)

Definition getTrustedDevice (networkType : Z) : G (list byte) :=
  trusted ← gget trustedDevices_; mret (default [] (trusted !! networkType)).

(** The global score of a device. *)
Definition globalScore (networkType : Z) (d : AtlasDevice) : double :=
  dadd (dmul (reputationScore_ (getReputation ATLAS_NETWORK_SYSTEM d)) ATLAS_SYSTEM_REPUTATION_WEIGHT)
       (dmul (reputationScore_ (getReputation networkType d)) ATLAS_DATA_REPUTATION_WEIGHT).

(** The visit of one device: [repValMax] and [mostTrusted]. *)
Definition order_visit (networkType : Z) (best : double * list byte) (kd : list byte * AtlasDevice) : double * list byte :=
  let '(_, d) := kd in
  if hasReputation networkType d then
    let repVal := globalScore networkType d in
    if dgt repVal best.1 then (repVal, identity_ d) else best
  else best.

Definition updateReputationOrder (networkType : Z) : G unit :=
  devices ← gget devices_;
  let '(_, mostTrusted) := foldl (order_visit networkType) (d0, []) (hash_order devices) in
  gmodify (fun g => set_trusted (<[networkType := mostTrusted]> (trustedDevices_ g)) g).

Definition subAlarmCallback (k : list byte) : G unit :=
  d ← this k;
  (* Parse each system reputation feedback element and get feedback for device *)
  '(feedbackMatrix, fbs) ← getFeedbacks k (feedback_ d);
  update k (fun d => dev_set_rep (deviceReputation_ d) fbs d) ≫= fun _ =>
  (* Compute system reputation using naive-bayes *)
  d ← this k;
  '(_, rep) ← glift (computeReputation (getReputation ATLAS_NETWORK_SYSTEM d) feedbackMatrix);
  update k (setReputation ATLAS_NETWORK_SYSTEM rep) ≫= fun _ =>
  syncReputation k ATLAS_NETWORK_SYSTEM ≫= fun _ =>
  (* Update into db *)
  _ ← gcall (updateBayesParams (identity_ d) ATLAS_NETWORK_SYSTEM rep); mret tt.

(** Every pass of the second loop writes the entry it is for, so its order does not matter. *)
Definition sysRepAlarmCallback : G unit :=
  forEachDevice subAlarmCallback ≫= fun _ =>
  (* After the system reputation is changed, update the reputation order *)
  trusted ← gget trustedDevices_;
  gfor (map_to_list trusted).*1 updateReputationOrder.

Definition updateDataReputation (identity : list byte) (networkType : Z) (feedbackMatrix : list (Z * double)) : G unit :=
  devices ← gget devices_;
  match devices !! identity with
  | None => mret tt
  | Some device =>
      if decide (networkType <= ATLAS_NETWORK_SENSOR_START \/ networkType >= ATLAS_NETWORK_SENSOR_MAX) then mret tt else
      if decide (feedbackMatrix = []) then mret tt else
      if negb (hasReputation networkType device) then mret tt else
      (* Compute data reputation using naive-bayes *)
      '(_, rep) ← glift (computeReputation (getReputation networkType device) feedbackMatrix);
      update identity (setReputation networkType rep) ≫= fun _ =>
      syncReputation identity networkType ≫= fun _ =>
      (* Update into db *)
      gcall (updateBayesParams (identity_ device) networkType rep) ≫= fun _ =>
      (* Update sensor reputation order *)
      updateReputationOrder networkType
  end.

(** * reputation/AtlasFeatureReputation.cpp *)

(** The variables of the loop of [requestReputationCallback]. *)
Record feature_args := mk_feature_args { fa_identity : list byte; fa_sensorType : option Z }.

Definition request_body (pskIdentity : list byte) (a : feature_args) (cmd : AtlasCommand) : res (feature_args + response) :=
  if decide (type_ cmd = code ATLAS_CMD_IDENTITY) then
    if decide (len_ cmd = 0) then Ok (inr NOT_ACCEPTABLE) else
    v ← cmd_bytes cmd;
    if decide (pskIdentity = v) then Ok (inl (mk_feature_args v (fa_sensorType a))) else Ok (inr NOT_ACCEPTABLE)
  else if decide (type_ cmd = code ATLAS_CMD_FEATURE_REQUEST) then
    if decide (len_ cmd <> 2) then Ok (inr NOT_ACCEPTABLE) else
    v ← read_u16 cmd; Ok (inl (mk_feature_args (fa_identity a) (Some v)))
  else Ok (inl a).

Definition requestReputationCallback (pskIdentity : list byte) (reqPayload : option (list byte)) (reqPayloadLen : Z) : G response :=
  ok ← registered_device pskIdentity;
  if (ok : bool) then
    cmds ← glift (parsed_commands reqPayload reqPayloadLen);
    match cmds with
    | [] => mret NOT_ACCEPTABLE
    | _ =>
        r ← glift (for_return (request_body pskIdentity) cmds (mk_feature_args [] None));
        match r with
        | inr resp => mret resp
        | inl a =>
            if decide (fa_identity a = []) then mret NOT_ACCEPTABLE else
            match fa_sensorType a with
            | None => mret NOT_ACCEPTABLE
            | Some sensorType =>
                mostTrusted ← getTrustedDevice sensorType;
                if decide (mostTrusted = [] \/ mostTrusted = fa_identity a) then mret NOT_ACCEPTABLE else
                (* Add feature command *)
                '(buf, len) ← glift (serialized_commands
                  [new_AtlasCommand (code ATLAS_CMD_FEATURE_REQUEST) (blen mostTrusted) (Some mostTrusted)]);
                payload ← glift (mem_load (default [] buf) 0 len);
                mret (ATLAS_COAP_RESP_OK, Some payload)
            end
        end
    end
  else mret NOT_ACCEPTABLE.

(** The variables of the loops of [feedbackReputationCallback]; [tmp] is not
    initialised at first. *)
Record feedback_args := mk_feedback_args {
  rf_identity : list byte;
  rf_feedbackIdentity : list byte;
  rf_sensorType : option Z;
  rf_sensorScore : bool;
  rf_respTimeScore : bool;
  rf_tmp : option Z;
  rf_matrix : list (Z * double);
}.

(** [memcpy(&tmp, val, len)] into the [uint16_t]: the length is the one of the message. *)
Definition memcpy_tmp (tmp : option Z) (cmd : AtlasCommand) : res Z :=
  raw ← cmd_bytes cmd;
  match raw, tmp with
  | [a; b], _ => Ok (ld16 [a; b])
  | [a], Some z => Ok (ld16 (a :: drop 1 (st16 z)))
  | [], Some z => Ok z
  | [], None | [_], None => Fault Uninitialised
  | _ :: _ :: _ :: _, _ => Fault OutOfBounds
  end.

Definition feedback_inner (a : feedback_args) (cmd : AtlasCommand) : res feedback_args :=
  if decide (type_ cmd = code ATLAS_CMD_FEEDBACK_IDENTITY) then
    v ← cmd_bytes cmd;
    Ok (mk_feedback_args (rf_identity a) v (rf_sensorType a) (rf_sensorScore a) (rf_respTimeScore a) (rf_tmp a) (rf_matrix a))
  else if decide (type_ cmd = code ATLAS_CMD_FEEDBACK_SENSOR_TYPE) then
    raw ← memcpy_tmp (rf_tmp a) cmd;
    let tmp := ntohs raw in
    Ok (mk_feedback_args (rf_identity a) (rf_feedbackIdentity a) (Some tmp) (rf_sensorScore a) (rf_respTimeScore a)
          (Some tmp) (rf_matrix a))
  else if decide (type_ cmd = code ATLAS_CMD_FEEDBACK_SENSOR) then
    raw ← memcpy_tmp (rf_tmp a) cmd;
    let tmp := ntohs raw in
    let value := ddiv (double_of_int tmp) (double_of_int 100) in
    Ok (mk_feedback_args (rf_identity a) (rf_feedbackIdentity a) (rf_sensorType a) true (rf_respTimeScore a)
          (Some tmp) (rf_matrix a ++ [(ATLAS_DEVICE_FEATURE_SENSOR, value)]))
  else if decide (type_ cmd = code ATLAS_CMD_FEEDBACK_RESPONSE_TIME) then
    raw ← memcpy_tmp (rf_tmp a) cmd;
    let tmp := ntohs raw in
    let value := ddiv (double_of_int tmp) (double_of_int 100) in
    Ok (mk_feedback_args (rf_identity a) (rf_feedbackIdentity a) (rf_sensorType a) (rf_sensorScore a) true
          (Some tmp) (rf_matrix a ++ [(ATLAS_DEVICE_FEATURE_RESP_TIME, value)]))
  else Ok a.

Definition feedback_body (pskIdentity : list byte) (a : feedback_args) (cmd : AtlasCommand) : res (feedback_args + response) :=
  if decide (type_ cmd = code ATLAS_CMD_IDENTITY) then
    if decide (len_ cmd = 0) then Ok (inr NOT_ACCEPTABLE) else
    v ← cmd_bytes cmd;
    if decide (pskIdentity = v) then
      Ok (inl (mk_feedback_args v (rf_feedbackIdentity a) (rf_sensorType a) (rf_sensorScore a) (rf_respTimeScore a)
                 (rf_tmp a) (rf_matrix a)))
    else Ok (inr NOT_ACCEPTABLE)
  else if decide (type_ cmd = code ATLAS_CMD_FEEDBACK) then
    (* Parse feedback command *)
    if decide (len_ cmd = 0) then Ok (inr NOT_ACCEPTABLE) else
    cmds ← parsed_commands (val_ cmd) (len_ cmd);
    a ← for_each feedback_inner cmds a;
    Ok (inl a)
  else Ok (inl a).

Definition feedbackReputationCallback (pskIdentity : list byte) (reqPayload : option (list byte)) (reqPayloadLen : Z) : G response :=
  ok ← registered_device pskIdentity;
  if (ok : bool) then
    cmds ← glift (parsed_commands reqPayload reqPayloadLen);
    match cmds with
    | [] => mret NOT_ACCEPTABLE
    | _ =>
        r ← glift (for_return (feedback_body pskIdentity) cmds (mk_feedback_args [] [] None false false None []));
        match r with
        | inr resp => mret resp
        | inl a =>
            if decide (rf_identity a = [] \/ rf_feedbackIdentity a = []) then mret NOT_ACCEPTABLE else
            match rf_sensorType a with
            | None => mret NOT_ACCEPTABLE
            | Some sensorType =>
                if negb (rf_sensorScore a) || negb (rf_respTimeScore a) then mret NOT_ACCEPTABLE else
                updateDataReputation (rf_feedbackIdentity a) sensorType (rf_matrix a) ≫= fun _ =>
                mret (ATLAS_COAP_RESP_OK, None)
            end
        end
    end
  else mret NOT_ACCEPTABLE.
End Reputation.

(** * The request end-point answers *)

Section RequestFacts.
Context `{E : GwEnv} `{HO : HashOrder} `{HostEndian}.

Definition request_step (i : list byte) (a : feature_args) (c : cmd) : feature_args + response :=
  if decide (c.1 = code ATLAS_CMD_IDENTITY) then
    if decide (c.2 = []) then inr NOT_ACCEPTABLE
    else if decide (i = c.2) then inl (mk_feature_args c.2 (fa_sensorType a)) else inr NOT_ACCEPTABLE
  else if decide (c.1 = code ATLAS_CMD_FEATURE_REQUEST) then
    if decide (blen c.2 <> 2) then inr NOT_ACCEPTABLE else inl (mk_feature_args (fa_identity a) (Some (of_be16 c.2)))
  else inl a.

Lemma request_body_step i a c p : wf_cmd c -> pointer_to c p -> request_body i a p = Ok (request_step i a c).
Proof.
  intros _ Hp. pose proof (read_u16_pointer c p Hp) as Hr. pose proof (cmd_bytes_pointer _ _ Hp) as Hb.
  unfold request_body, request_step. destruct Hp as (post & ->). cbn [type_ len_ val_] in *. rewrite decide_len0, Hb. cbn [mbind res_bind].
  repeat case_decide; try done; try congruence. by rewrite Hr, res_bind_ok by lia.
Qed.

(** The reply of the end-point: one command with the identity of the trusted device. *)
Definition reply_commands (mostTrusted : list byte) : list AtlasCommand :=
  [new_AtlasCommand (code ATLAS_CMD_FEATURE_REQUEST) (blen mostTrusted) (Some mostTrusted)].

Lemma reply_total mostTrusted : exists payload, serialized_commands (reply_commands mostTrusted) = Ok (Some payload, blen payload).
Proof.
  apply serialized_total; [|done]. constructor; [|constructor].
  pose proof (new_command_readable (code ATLAS_CMD_FEATURE_REQUEST) mostTrusted []) as Hr. by rewrite app_nil_r in Hr.
Qed.

Lemma reputation_answered i bytes g : gw_wf g -> returns_answered i (requestReputationCallback i (Some bytes) (blen bytes)) g.
Proof.
  intros Hg. eapply (shell_answered i bytes (request_body i) (request_step i) (mk_feature_args [] None)); auto using request_body_step.
  - intros s c r. unfold request_step. repeat case_decide; by intros [= <-].
  - intros cs a d x Hf Hwf Hreg. case_decide; [by apply rejected_put|].
    destruct (fa_sensorType a) as [sensorType|]; [|by apply rejected_put]. unfold getTrustedDevice. grun.
    case_decide; [by apply rejected_put|]. destruct (reply_total (default [] (trustedDevices_ (put i d [] x g) !! sensorType))) as (buf & Hs).
    erewrite G_bind_run by (apply glift_run; exact Hs). cbn beta iota.
    erewrite G_bind_run by (by apply glift_run, mem_load_all). eexists _, _. split; [done|]. by apply answered_put.
Qed.
End RequestFacts.

(** * The order of trust *)

Section Trust.
Context `{E : GwEnv} `{HO : HashOrder} `{HostEndian}.

(** The identity the order of trust of a network comes to. *)
Definition mostTrusted_of (networkType : Z) (devices : gmap (list byte) AtlasDevice) : list byte :=
  (foldl (order_visit networkType) (d0, []) (hash_order devices)).2.

(** [t] names nobody and no device scores above zero, or a device no other
    scores above. *)
Definition best_device (networkType : Z) (devices : gmap (list byte) AtlasDevice) (t : list byte) : Prop :=
  (t = [] /\ forall k d, devices !! k = Some d -> hasReputation networkType d = true -> dgt (globalScore networkType d) d0 = false) \/
  exists k d, devices !! k = Some d /\ identity_ d = t /\ hasReputation networkType d = true /\
    dgt (globalScore networkType d) d0 = true /\
    forall j e, devices !! j = Some e -> hasReputation networkType e = true ->
      dgt (globalScore networkType e) (globalScore networkType d) = false.

(** What the visits so far have found. *)
Definition order_found (nt : Z) (l : list (list byte * AtlasDevice)) (best : double * list byte) : Prop :=
  (forall kd, kd ∈ l -> hasReputation nt kd.2 = true -> dgt (globalScore nt kd.2) best.1 = false) /\
  (best = (d0, []) \/ exists kd, kd ∈ l /\ best = (globalScore nt kd.2, identity_ kd.2) /\ hasReputation nt kd.2 = true /\
     dgt best.1 d0 = true).

Lemma order_visit_found nt l best kd : order_found nt l best -> order_found nt (l ++ [kd]) (order_visit nt best kd).
Proof.
  intros [Hmax Hbest]. destruct kd as [k d]. unfold order_visit.
  assert (Hold : (best = (d0, []) \/ (exists kd, kd ∈ l /\ best = (globalScore nt kd.2, identity_ kd.2) /\
    hasReputation nt kd.2 = true /\ dgt best.1 d0 = true)) -> best = (d0, []) \/ (exists kd, kd ∈ l ++ [(k, d)] /\
    best = (globalScore nt kd.2, identity_ kd.2) /\ hasReputation nt kd.2 = true /\ dgt best.1 d0 = true)).
  { intros [->|(kd & Hin & Hkd)]; [by left|right]. exists kd. rewrite elem_of_app. auto. }
  destruct (hasReputation nt d) eqn:Hh; [destruct (dgt (globalScore nt d) best.1) eqn:Hgt|]; cbn [fst snd].
  - split.
    + intros e [Hin|Heq%list_elem_of_singleton]%elem_of_app He; cbn [fst]; [|subst e; apply dgt_irrefl].
      destruct (dgt (globalScore nt e.2) (globalScore nt d)) eqn:Hx; [|done].
      rewrite <- (Hmax e Hin He). symmetry. by eapply dgt_trans.
    + right. exists (k, d). rewrite elem_of_app, list_elem_of_singleton. cbn. split; [by right|]. split; [done|]. split; [done|].
      destruct Hbest as [->|(kd & _ & _ & _ & Hpos)]; [done|]. by eapply dgt_trans.
  - split; [|by apply Hold]. intros e [Hin|Heq%list_elem_of_singleton]%elem_of_app He; [by apply Hmax|by subst e].
  - split; [|by apply Hold]. intros e [Hin|Heq%list_elem_of_singleton]%elem_of_app He; [by apply Hmax|]. subst e. cbn in He. congruence.
Qed.

Lemma order_found_fold nt l : order_found nt l (foldl (order_visit nt) (d0, []) l).
Proof.
  induction l as [|kd l IH] using rev_ind; [|rewrite foldl_app; by apply order_visit_found].
  split; [by intros kd ?%elem_of_nil|by left].
Qed.

Lemma mostTrusted_best nt devices : best_device nt devices (mostTrusted_of nt devices).
Proof.
  unfold mostTrusted_of. destruct (order_found_fold nt (hash_order devices)) as [Hmax Hbest].
  assert (Hin : forall k d, devices !! k = Some d <-> (k, d) ∈ hash_order devices).
  { intros k d. rewrite hash_order_perm. by rewrite elem_of_map_to_list. }
  destruct Hbest as [Hb|([k d] & Hkd & Hb & Hh & Hpos)]; rewrite Hb in *; cbn [fst snd] in *.
  - left. split; [done|]. intros k d Hd%Hin Hh. by apply (Hmax (k, d)).
  - right. exists k, d. split; [by apply Hin|]. do 3 (split; [done|]). intros j e He%Hin Hhe. by apply (Hmax (j, e)).
Qed.

Lemma updateReputationOrder_run nt g :
  updateReputationOrder nt g = Ok (tt, set_trusted (<[nt := mostTrusted_of nt (devices_ g)]> (trustedDevices_ g)) g).
Proof.
  unfold updateReputationOrder, mostTrusted_of. grun. by destruct (foldl (order_visit nt) (d0, []) (hash_order (devices_ g))).
Qed.

(** The loop over the networks. *)
Definition reorder (nts : list Z) (devices : gmap (list byte) AtlasDevice) (trusted : gmap Z (list byte)) : gmap Z (list byte) :=
  foldl (fun m nt => <[nt := mostTrusted_of nt devices]> m) trusted nts.

Lemma reorder_run nts g : gfor nts updateReputationOrder g = Ok (tt, set_trusted (reorder nts (devices_ g) (trustedDevices_ g)) g).
Proof.
  revert g. induction nts as [|nt nts IH]; intros g; cbn [gfor]; [by destruct g|].
  erewrite G_bind_run by apply updateReputationOrder_run. rewrite IH. done.
Qed.

Lemma reorder_lookup nts devices trusted nt :
  reorder nts devices trusted !! nt = if decide (nt ∈ nts) then Some (mostTrusted_of nt devices) else trusted !! nt.
Proof.
  unfold reorder. induction nts as [|n nts IH] using rev_ind; [by rewrite decide_False by apply not_elem_of_nil|].
  rewrite foldl_app. cbn [foldl]. destruct (decide (n = nt)) as [->|Hne].
  - rewrite lookup_insert_eq, decide_True; [done|]. rewrite elem_of_app, list_elem_of_singleton. by right.
  - rewrite lookup_insert_ne, IH by done. apply decide_ext. rewrite elem_of_app, list_elem_of_singleton. naive_solver.
Qed.
End Trust.

(** * A round of the system reputation *)

Section Round.
Context `{E : GwEnv} `{HO : HashOrder} `{HostEndian}.

(** The state of the feedback of a device: what it was at the last round. *)
Definition feedback_state (interval pkts : Z) (stats : AtlasFirewallStats) : list IAtlasFeedback :=
  [AtlasRegistrationFeedback 60 interval; AtlasKeepaliveFeedback 3 pkts; AtlasPacketsFeedback stats].

(** The features and weights of the system network, and its threshold. *)
Definition system_shape : list (Z * double) * double := ((fun f => (featureType_ f, weight_ f)) <$> system_features, tenths 8).

(** A device whose system reputation can be computed. *)
Definition rep_ready (k : list byte) (d : AtlasDevice) : Prop :=
  identity_ d = k /\ (exists i p s, feedback_ d = feedback_state i p s) /\
  exists m, deviceReputation_ d !! ATLAS_NETWORK_SYSTEM = Some m /\ shape m = system_shape /\ counts_ok m /\ totalTrans_ m < INT_MAX.

(** The feedback of one round. *)
Definition round_matrix (interval prev_interval pkts prev_pkts : Z) (stats prev_stats : AtlasFirewallStats) : list (Z * double) :=
  [(ATLAS_FEATURE_REGISTER_TIME, sample_feedback interval prev_interval 60);
   (ATLAS_FEATURE_KEEPALIVE_PACKETS, sample_feedback pkts prev_pkts 3);
   (ATLAS_FEATURE_VALID_PACKETS, (packets_feedback stats prev_stats).1)].

(** What a round does to a device: [interval] is the time it has been registered. *)
Definition round_turn (c : bool) (k : list byte) (d d' : AtlasDevice) (evs : list gw_event) : Prop :=
  exists m i p s interval v m',
    deviceReputation_ d !! ATLAS_NETWORK_SYSTEM = Some m /\ feedback_ d = feedback_state i p s /\
    computeReputation m (round_matrix interval i (keepAlivePkts_ d) p (stats_ d) s) = Ok (v, m') /\
    d' = dev_set_rep (<[ATLAS_NETWORK_SYSTEM := m']> (deviceReputation_ d))
           (feedback_state interval (keepAlivePkts_ d) (packets_feedback (stats_ d) s).2) d /\
    (registered_ d = false -> interval = regIntervalSec_ d) /\
    evs = [GwCloud k [(cstr "systemReputation", to_string (reputationScore_ m'))]].

Lemma round_matrix_ok m i p s interval pkts stats : shape m = system_shape ->
  let matrix := round_matrix interval i pkts p stats s in
  NoDup matrix.*1 /\ forall t, t ∈ matrix.*1 -> has_feature m t.
Proof.
  intros Hsh. cbn. split.
  - apply (bool_decide_unpack (NoDup [ATLAS_FEATURE_REGISTER_TIME; ATLAS_FEATURE_KEEPALIVE_PACKETS; ATLAS_FEATURE_VALID_PACKETS])).
    by vm_compute.
  - intros t Ht. unfold has_feature. by rewrite Hsh.
Qed.

Lemma getRegInterval_put k d evs x g :
  exists interval x', getRegInterval k (put k d evs x g) = Ok (interval, put k d evs x' g) /\
    (registered_ d = false -> interval = regIntervalSec_ d).
Proof.
  unfold getRegInterval. grun. destruct (registered_ d); [|by eexists _, x].
  erewrite G_bind_run by apply gcall_put. by eexists _, _.
Qed.

Lemma getFeedbacks_put k i p s d evs x g :
  exists interval x', getFeedbacks k (feedback_state i p s) (put k d evs x g) =
    Ok ((round_matrix interval i (keepAlivePkts_ d) p (stats_ d) s,
         feedback_state interval (keepAlivePkts_ d) (packets_feedback (stats_ d) s).2), put k d evs x' g) /\
    (registered_ d = false -> interval = regIntervalSec_ d).
Proof.
  destruct (getRegInterval_put k d evs x g) as (interval & x' & Hr & Hi). exists interval, x'. split; [|done].
  unfold feedback_state at 1. cbn [getFeedbacks getFeedback feedback_type].
  unfold mbind, G_bind. rewrite Hr. cbn. rewrite this_put. cbn. rewrite this_put.
  unfold round_matrix, feedback_state. by destruct (packets_feedback (stats_ d) s).
Qed.

Lemma round_visits : visits rep_ready round_turn subAlarmCallback.
Proof.
  intros k d evs x g (Hid & (i & p & s & Hfb) & m & Hm & Hsh & Hc & Hmax).
  unfold subAlarmCallback. grun. rewrite Hfb.
  destruct (getFeedbacks_put k i p s d evs x g) as (interval & x1 & Hfs & Hreg). erewrite G_bind_run by exact Hfs. cbv iota beta.
  destruct (round_matrix_ok m i p s interval (keepAlivePkts_ d) (stats_ d) Hsh) as [Hnd Hall].
  destruct (computeReputation_spec m _ Hc Hmax Hnd Hall) as (s' & v & m' & _ & Hrep & _ & Hv & _).
  grun. erewrite G_bind_run.
  2:{ apply glift_run. unfold getReputation. cbn [deviceReputation_ dev_set_rep]. rewrite Hm. exact Hrep. }
  cbv iota beta. grun. unfold syncReputation. erewrite G_bind_run.
  2:{ grun. rewrite decide_True by by left. apply gemit_put. }
  erewrite G_bind_run by apply gcall_put. eexists _, _, _. split; [done|].
  exists m, i, p, s, interval, v, m'. do 5 (split; [done|]). change (identity_ _) with (identity_ d). rewrite Hid.
  unfold reputationToJSON, getReputation. rewrite decide_True by done. cbn [deviceReputation_ setReputation dev_set_rep].
  by rewrite lookup_insert_eq.
Qed.

(** The whole round. *)
Lemma sysRep_run g : map_Forall rep_ready (devices_ g) ->
  exists g1, visited round_turn (hash_order (devices_ g)) g g1 /\
    sysRepAlarmCallback g = Ok (tt, set_trusted (reorder (map_to_list (trustedDevices_ g)).*1 (devices_ g1) (trustedDevices_ g)) g1).
Proof.
  intros Hg. destruct (forEachDevice_visits rep_ready round_turn subAlarmCallback g round_visits Hg) as (g1 & Hrun & Hv).
  exists g1. split; [done|]. unfold sysRepAlarmCallback. erewrite G_bind_run by exact Hrun. grun. rewrite reorder_run.
  by destruct Hv as (_ & [_ ->] & _).
Qed.

(** Every network of the order of trust has its best device. *)
Lemma reordered devices trusted nt :
  match reorder (map_to_list trusted).*1 devices trusted !! nt with
  | Some t => is_Some (trusted !! nt) /\ best_device nt devices t
  | None => trusted !! nt = None
  end.
Proof.
  rewrite reorder_lookup. case_decide as Hin.
  - apply list_elem_of_fmap in Hin as ([n t] & -> & Hin%elem_of_map_to_list). split; [by exists t|apply mostTrusted_best].
  - destruct (trusted !! nt) as [t|] eqn:Ht; [|done]. destruct Hin. apply list_elem_of_fmap. exists (nt, t).
    by rewrite elem_of_map_to_list.
Qed.

(** A round leaves a device ready for the next one, until the counter is full. *)
Lemma round_ready c k d d' evs : rep_ready k d -> round_turn c k d d' evs ->
  identity_ d' = k /\ (exists i p s, feedback_ d' = feedback_state i p s) /\
  exists m m' v, deviceReputation_ d !! ATLAS_NETWORK_SYSTEM = Some m /\ deviceReputation_ d' !! ATLAS_NETWORK_SYSTEM = Some m' /\
    reputationScore_ m' = v /\ unit_double v /\ shape m' = system_shape /\ counts_ok m' /\ totalTrans_ m' = totalTrans_ m + 1.
Proof.
  intros (Hid & _ & m0 & Hm0 & Hsh & Hc & Hmax) (m & i & p & s & interval & v & m' & Hm & Hfb & Hrep & -> & _ & _).
  rewrite Hm0 in Hm. injection Hm as <-. split; [done|]. split; [by eexists _, _, _|].
  destruct (round_matrix_ok m0 i p s interval (keepAlivePkts_ d) (stats_ d) Hsh) as [Hnd Hall].
  destruct (computeReputation_spec m0 _ Hc Hmax Hnd Hall) as (s' & v' & m1 & _ & Hrep' & Hu & Hv & Hc' & Hsh' & Ht & _).
  rewrite Hrep in Hrep'. injection Hrep' as <- <-. exists m0, m', v. cbn. rewrite lookup_insert_eq.
  do 4 (split; [done|]). split; [congruence|]. done.
Qed.
End Round.

(** * Feedback *)

Section Feedback.
Context `{E : GwEnv} `{HO : HashOrder} `{HostEndian}.

(** The guards of [updateDataReputation]. *)
Definition data_feedback (nt : Z) (matrix : list (Z * double)) (d : AtlasDevice) : Prop :=
  ATLAS_NETWORK_SENSOR_START < nt < ATLAS_NETWORK_SENSOR_MAX /\ matrix <> [] /\ hasReputation nt d = true.

(** Feedback on a device that passes them, and any other. *)
Lemma updateDataReputation_run k nt matrix d v m g :
  devices_ g !! k = Some d -> data_feedback nt matrix d -> computeReputation (getReputation nt d) matrix = Ok (v, m) ->
  exists x, let g1 := put k (setReputation nt m d) [GwCloud (identity_ d) (reputationToJSON nt (setReputation nt m d))] x g in
    updateDataReputation k nt matrix g = Ok (tt, set_trusted (<[nt := mostTrusted_of nt (devices_ g1)]> (trustedDevices_ g)) g1).
Proof.
  intros Hd (Hnt & Hne & Hh) Hrep. unfold updateDataReputation. grun. rewrite Hd, decide_False, decide_False, Hh by (done || lia).
  cbn [negb]. erewrite G_bind_run by (apply glift_run; exact Hrep). cbv iota beta.
  pose proof (update_put k (setReputation nt m) d [] (gw_ext g) g) as Hu. rewrite <- put_intro in Hu by done.
  erewrite G_bind_run by exact Hu. unfold syncReputation. erewrite G_bind_run.
  2:{ grun. rewrite decide_True; [apply gemit_put|]. right. unfold ATLAS_NETWORK_SENSOR_START, ATLAS_NETWORK_SENSOR_MAX in Hnt.
      unfold ATLAS_NETWORK_SENSOR_TEMPERATURE. lia. }
  erewrite G_bind_run by apply gcall_put. eexists. rewrite updateReputationOrder_run. done.
Qed.

Lemma updateDataReputation_other k nt matrix g :
  (forall d, devices_ g !! k = Some d -> ~ data_feedback nt matrix d) -> updateDataReputation k nt matrix g = Ok (tt, g).
Proof.
  intros Hno. unfold updateDataReputation. grun. destruct (devices_ g !! k) as [d|]; [|done].
  case_decide; [done|]. case_decide; [done|]. destruct (hasReputation nt d) eqn:Hh; [|done].
  destruct (Hno d eq_refl). split; [lia|done].
Qed.

(** ** Well-formedness *)

Ltac wf_step :=
  match goal with
  | |- gpreserves _ (_ ≫= _) => apply pres_bind; [|intros ?]
  | |- gpreserves _ (gfor _ _) => apply pres_gfor; intros ?
  | |- gpreserves _ (gemit _) => apply wf_gemit
  | |- gpreserves _ (gcall _) => apply wf_gcall
  | |- gpreserves _ (update _ _) => apply wf_update; by intros ? ?
  | |- gpreserves _ (gmodify _) => apply wf_trusted
  | |- gpreserves _ (if ?b then _ else _) => destruct b
  | |- gpreserves _ (match ?e with _ => _ end) => destruct e
  | |- gpreserves _ _ => progress auto with pres nocore
  end.

Lemma wf_order nt : gpreserves gw_wf (updateReputationOrder nt).
Proof. unfold updateReputationOrder. repeat wf_step. Qed.
Lemma wf_sync k nt : gpreserves gw_wf (syncReputation k nt).
Proof. unfold syncReputation, updateDevice. repeat wf_step. Qed.
Lemma wf_getDevice k : gpreserves gw_wf (getDevice k).
Proof.
  intros g a g' Hg Hr. destruct (getDevice_spec k g) as [(x & Hget & _)|(d & x & Hget & _ & Hd)];
    rewrite Hget in Hr; injection Hr as <- <-; [done|]. by apply gw_wf_put, found_wf with g.
Qed.
Lemma wf_getFeedbacks k fbs : gpreserves gw_wf (getFeedbacks k fbs).
Proof. induction fbs as [|[] fbs IH]; cbn [getFeedbacks getFeedback]; unfold getRegInterval; repeat wf_step. Qed.
#[local] Hint Resolve wf_order wf_sync wf_getDevice wf_getFeedbacks : pres.

Lemma wf_updateDataReputation k nt matrix : gpreserves gw_wf (updateDataReputation k nt matrix).
Proof. unfold updateDataReputation. repeat wf_step. Qed.
#[local] Hint Resolve wf_updateDataReputation : pres.

(** A round and feedback keep the devices well formed, whenever they return. *)
Lemma wf_sysRep : gpreserves gw_wf sysRepAlarmCallback.
Proof. unfold sysRepAlarmCallback, forEachDevice, subAlarmCallback. repeat wf_step. Qed.
Lemma wf_feedback i p l : gpreserves gw_wf (feedbackReputationCallback i p l).
Proof. unfold feedbackReputationCallback, registered_device. repeat wf_step. Qed.
End Feedback.
