(* ===== verification/GwLifecycle.v ===== *)
(** The life of the gateway: its inputs (requests of devices, their
    answers to alerts, messages and connections of the plug-in, the three periodic
    alarms) as one handler, the states they lead to, and what holds in all of
    them; the expiry of devices that stop sending keep-alives; which registrations
    are accepted. *)
From S2P Require Import Prelude Defs CLib Command GwDefs GwBatch GwXfer GwFilter GwBayes GwStore GwDevice GwServer GwReputation.
Import GwType.

Section Lifecycle.
Context `{E : GwEnv} `{SND : !Sends E} `{HO : HashOrder} `{HostEndian}.

(** * Inputs *)

Inductive gw_input :=
  | InRegister (pskIdentity payload : list byte)
  | InKeepalive (pskIdentity payload : list byte)
  | InPolicy (pskIdentity payload : list byte)
  | InTelemetry (path pskIdentity payload : list byte)
  | InReputation (pskIdentity payload : list byte)
  | InFeedback (pskIdentity payload : list byte)
  | InReputationAlarm
  | InKeepaliveAlarm
  | InStatsAlarm
  | InAccept
  | InAlertResponse (k : list byte) (a : AtlasAlert) (respStatus : AtlasCoapResponse)
  | InRead (chunk : list byte).

Definition quietly (m : G unit) : G (option response) := m ≫= fun _ => mret None.

Definition handle (i : gw_input) : G (option response) :=
  match i with
  | InRegister i p => r ← registerCallback i (Some p) (blen p); mret (Some r)
  | InKeepalive i p => r ← keepaliveCallback i (Some p) (blen p); mret (Some r)
  | InPolicy i p => r ← firewallPolicyCallback i (Some p) (blen p); mret (Some r)
  | InTelemetry path i p => r ← featureCallback path i (Some p) (blen p); mret (Some r)
  | InReputation i p => r ← requestReputationCallback i (Some p) (blen p); mret (Some r)
  | InFeedback i p => r ← feedbackReputationCallback i (Some p) (blen p); mret (Some r)
  | InReputationAlarm => quietly sysRepAlarmCallback
  | InKeepaliveAlarm => quietly keepaliveAlarmCallback
  | InStatsAlarm => quietly firewallStatisticsAlarmCallback
  | InAccept => quietly agent_handleAccept
  | InAlertResponse k a resp => quietly (alert_respCallback k a resp)
  | InRead chunk => quietly (agent_handleRead chunk)
  end.

(** The states a sequence of inputs leads to. *)
Inductive gw_run : gateway -> list gw_input -> gateway -> Prop :=
  | gw_run_nil g : gw_run g [] g
  | gw_run_cons g i r g1 ins g2 : handle i g = Ok (r, g1) -> gw_run g1 ins g2 -> gw_run g (i :: ins) g2.

(** * The three visits of all devices *)

(** A keep-alive period of one device. *)
Definition alarm_turn (c : bool) (k : list byte) (d d' : AtlasDevice) (evs : list gw_event) : Prop :=
  if registered_ d then
    if decide (kaCtr_ d = Some 1) then
      exists interval rm, d' = dev_expired interval d /\ removal (policy_ d) c rm /\
        evs = rm ++ [GwCloud k (registerEventToJSON d')]
    else exists n, kaCtr_ d = Some n /\ d' = dev_set_kaCtr (Some (n - 1)) d /\ evs = []
  else d' = d /\ evs = [].

Lemma alarm_visits : visits device_wf alarm_turn
  (fun k => d ← this k; if registered_ d then keepAliveExpired k else mret tt).
Proof.
  intros k d evs x g (Hid & Hctr & _). grun. unfold alarm_turn. destruct (registered_ d) eqn:Hreg.
  - destruct (Hctr eq_refl) as (n & Hn & Hrange). unfold ATLAS_KEEP_ALIVE_COUNTER in Hrange.
    destruct (keepAliveExpired_put k n d evs x g) as (d' & evs' & x' & Hrun & Hres); [done|done|lia|].
    exists d', evs', x'. split; [done|]. rewrite Hn. destruct (decide (n = 1)) as [->|Hne].
    + destruct Hres as (rm & Hd' & Hrm & ->). rewrite decide_True by done. eexists _, rm. rewrite Hid. eauto.
    + rewrite decide_False by congruence. eauto.
  - exists d, [], x. rewrite app_nil_r. auto.
Qed.

(** The messages about a device that has a policy; the device does not change. *)
Definition policy_turn (msg : bool -> AtlasFirewallPolicy -> list gw_event -> Prop)
    (c : bool) (k : list byte) (d d' : AtlasDevice) (evs : list gw_event) : Prop :=
  d' = d /\ match policy_ d with Some p => msg c p evs | None => evs = [] end.

Definition install_message (c : bool) (p : AtlasFirewallPolicy) : list gw_event -> Prop :=
  rule_message ATLAS_CMD_PUB_SUB_INSTALL_FIREWALL_RULE (install_commands p) c.

Definition stat_message (c : bool) (p : AtlasFirewallPolicy) (evs : list gw_event) : Prop :=
  if decide (fp_clientId p = []) then evs = [] else
  rule_message ATLAS_CMD_PUB_SUB_GET_STAT_FIREWALL_RULE [client_id_command (fp_clientId p)] c evs.

Lemma policy_visits P msg (send : AtlasFirewallPolicy -> G unit) :
  (forall k p d evs x g, exists evs', send p (put k d evs x g) = Ok (tt, put k d (evs ++ evs') x g) /\
     msg (agent_connected g) p evs') ->
  visits P (policy_turn msg) (fun k => d ← this k; match policy_ d with Some p => send p | None => mret tt end).
Proof.
  intros Hsend k d evs x g _. grun. unfold policy_turn. destruct (policy_ d) as [p|].
  - destruct (Hsend k p d evs x g) as (evs' & Hrun & Hm). exists d, evs', x. auto.
  - exists d, [], x. rewrite app_nil_r. auto.
Qed.

Lemma install_visits P : visits P (policy_turn install_message)
  (fun k => d ← this k; match policy_ d with Some p => agent_installFirewallRule (Some p) | None => mret tt end).
Proof. apply (policy_visits P install_message). intros k p d evs x g. apply install_put. Qed.

Lemma stat_put k p d evs x g :
  exists evs', agent_getFirewallRuleStats (fp_clientId p) (put k d evs x g) = Ok (tt, put k d (evs ++ evs') x g) /\
    stat_message (agent_connected g) p evs'.
Proof.
  unfold agent_getFirewallRuleStats, stat_message. case_decide as Hc.
  - exists []. by rewrite app_nil_r.
  - apply nested_write; [|done]. constructor; [apply client_id_readable|constructor].
Qed.

Lemma stat_visits P : visits P (policy_turn stat_message)
  (fun k => d ← this k; match policy_ d with Some p => agent_getFirewallRuleStats (fp_clientId p) | None => mret tt end).
Proof. apply (policy_visits P stat_message). intros k p d evs x g. apply stat_put. Qed.

Lemma alarm_turn_wf c k d d' evs : device_wf k d -> alarm_turn c k d d' evs -> device_wf k d'.
Proof.
  intros Hd Hturn. unfold alarm_turn in Hturn. destruct (registered_ d) eqn:Hreg; [|by destruct Hturn as [-> _]].
  pose proof Hd as (Hid & Hctr & Hp). destruct (Hctr Hreg) as (n & Hn & Hrange).
  case_decide as H1.
  - destruct Hturn as (interval & rm & -> & _). by repeat split.
  - destruct Hturn as (m & Hm & -> & _). rewrite Hn in Hm. injection Hm as <-.
    split; [done|]. split; [|done]. intros _. exists (n - 1). split; [done|].
    assert (n <> 1) by congruence. lia.
Qed.

Lemma policy_turn_wf msg c k d d' evs : device_wf k d -> policy_turn msg c k d d' evs -> device_wf k d'.
Proof. by intros Hd [-> _]. Qed.

(** * The invariant *)

(** An operation that returns and keeps the invariant of the devices. *)
Definition keeps {A} (m : G A) : Prop := forall g, gw_wf g -> exists a g', m g = Ok (a, g') /\ gw_wf g'.

Lemma keeps_ret {A} (a : A) : keeps (mret a).
Proof. intros g Hg. by eexists _, _. Qed.

Lemma keeps_bind {A B} (m : G A) (f : A -> G B) : keeps m -> (forall a, keeps (f a)) -> keeps (m ≫= f).
Proof.
  intros Hm Hf g Hg. destruct (Hm g Hg) as (a & g1 & Hrun & Hg1). erewrite G_bind_run by exact Hrun. by apply Hf.
Qed.

Lemma keeps_gfor {A} (l : list A) (body : A -> G unit) : (forall a, a ∈ l -> keeps (body a)) -> keeps (gfor l body).
Proof.
  induction l as [|a l IH]; intros Hb; cbn [gfor]; [apply keeps_ret|].
  apply keeps_bind; [apply Hb; by left|]. intros _. apply IH. intros b Hin. apply Hb. by right.
Qed.

Lemma keeps_visit P R cb :
  visits P R cb -> (forall k d, device_wf k d -> P k d) ->
  (forall c k d d' evs, device_wf k d -> R c k d d' evs -> device_wf k d') -> keeps (forEachDevice cb).
Proof.
  intros Hcb HP HR g Hg. destruct (forEachDevice_visits P R cb g Hcb) as (g' & Hrun & Hv).
  { intros k d Hd. by apply HP, Hg. }
  exists tt, g'. split; [done|]. by eapply visited_wf.
Qed.

Lemma keeps_answered k m : (forall g, gw_wf g -> returns_answered k m g) -> keeps m.
Proof. intros Hm g Hg. destruct (Hm g Hg) as (r & g' & Hrun & Hwf & _). eauto. Qed.

Lemma keeps_updateFirewallStats s : keeps (updateFirewallStats s).
Proof.
  intros g Hg. unfold updateFirewallStats. set (k := fs_clientId s).
  destruct (getDevice_spec k g) as [(x & Hget & _)|(d & x & Hget & _ & Hd)]; erewrite G_bind_run by exact Hget.
  { by eexists _, _. }
  cbv iota zeta. unfold syncFirewallStatistics, updateDevice. grun.
  rewrite gemit_put. eexists _, _. split; [done|]. apply gw_wf_put; [done|].
  destruct (found_wf k d g Hg Hd) as (Hid & Hctr & Hp). by split.
Qed.

Definition stat_step (a : stat_args) (c : cmd) : stat_args :=
  if decide (c.1 = code ATLAS_CMD_PUB_SUB_CLIENT_ID) then
    mk_stat_args c.2 (sa_ruleDropped a) (sa_rulePassed a) (sa_txDropped a) (sa_txPassed a)
  else if decide (c.1 = code ATLAS_CMD_PUB_SUB_PKT_DROP /\ blen c.2 = 4) then
    mk_stat_args (sa_clientId a) (Some (ntohl (ld32 c.2))) (sa_rulePassed a) (sa_txDropped a) (sa_txPassed a)
  else if decide (c.1 = code ATLAS_CMD_PUB_SUB_PKT_PASS /\ blen c.2 = 4) then
    mk_stat_args (sa_clientId a) (sa_ruleDropped a) (Some (ntohl (ld32 c.2))) (sa_txDropped a) (sa_txPassed a)
  else if decide (c.1 = code ATLAS_CMD_PUB_SUB_TX_PKT_DROP /\ blen c.2 = 4) then
    mk_stat_args (sa_clientId a) (sa_ruleDropped a) (sa_rulePassed a) (Some (ntohl (ld32 c.2))) (sa_txPassed a)
  else if decide (c.1 = code ATLAS_CMD_PUB_SUB_TX_PKT_PASS /\ blen c.2 = 4) then
    mk_stat_args (sa_clientId a) (sa_ruleDropped a) (sa_rulePassed a) (sa_txDropped a) (Some (ntohl (ld32 c.2)))
  else a.

Lemma stat_body_step a c g : wf_cmd c -> pointer_to c g -> stat_body a g = Ok (stat_step a c).
Proof.
  intros _ Hp. unfold stat_body, stat_step, read_u32. rewrite (cmd_bytes_pointer c) by done.
  destruct Hp as (post & ->). cbn [type_ len_]. by repeat case_decide.
Qed.

Lemma keeps_glift {A B} (r : res A) a (f : A -> G B) : r = Ok a -> keeps (f a) -> keeps (glift r ≫= f).
Proof. intros -> Hf g Hg. erewrite G_bind_run by reflexivity. by apply Hf. Qed.

Lemma keeps_processFirewallRuleStat v post : keeps (processFirewallRuleStat (Some (v ++ post)) (blen v)).
Proof.
  unfold processFirewallRuleStat. case_decide; [apply keeps_ret|]. rewrite parsed_commands_prefix.
  destruct (parsed_commands_total v) as (cs & rest & Hcs & Hp). eapply keeps_glift; [exact Hp|].
  eapply keeps_glift; [apply for_each_pointers; auto using stat_body_step|].
  case_decide; [apply keeps_ret|]. repeat case_match; try apply keeps_ret. apply keeps_updateFirewallStats.
Qed.

Lemma keeps_agent_command c p : pointer_to c p -> keeps (agent_command p).
Proof.
  intros (post & ->). unfold agent_command. cbn [type_ val_ len_]. case_decide.
  - eapply keeps_visit; [apply (install_visits device_wf)|done|apply policy_turn_wf].
  - case_decide; [apply keeps_processFirewallRuleStat|apply keeps_ret].
Qed.

Lemma pointers_pointer cs rest p : p ∈ pointers cs rest -> exists c, pointer_to c p.
Proof.
  induction cs as [|[t v] cs IH]; cbn [pointers]; [by intros ?%not_elem_of_nil|].
  intros [->|Hin]%elem_of_cons; [|by apply IH]. exists (t, v). by eexists.
Qed.

Lemma keeps_agent_processCommand bytes : keeps (agent_processCommand (Some bytes) (blen bytes)).
Proof.
  unfold agent_processCommand. destruct (parsed_commands_total bytes) as (cs & rest & Hcs & Hp).
  eapply keeps_glift; [exact Hp|]. apply keeps_gfor. intros p (c & Hc)%pointers_pointer. by eapply keeps_agent_command.
Qed.

(** An input that can be handled: a read the buffer of the agent has room for, the
    time-out of an alert of a device that is there, a round of the reputation when
    every device has its network, feedback the end-point can read. *)
Definition readable_input (i : gw_input) (g : gateway) : Prop :=
  match i with
  | InRead chunk => exists r, handleRead chunk (agent_xfer g) = Ok r
  | InAlertResponse k _ resp => resp = ATLAS_COAP_RESP_TIMEOUT -> is_Some (devices_ g !! k)
  | InReputationAlarm => map_Forall rep_ready (devices_ g)
  | InFeedback i p => exists r, feedbackReputationCallback i (Some p) (blen p) g = Ok r
  | _ => True
  end.

Lemma keeps_agent_read chunk g :
  gw_wf g -> (exists r, handleRead chunk (agent_xfer g) = Ok r) ->
  exists g', agent_handleRead chunk g = Ok (tt, g') /\ gw_wf g'.
Proof.
  intros Hg ([o x] & Hr). unfold agent_handleRead. grun.
  erewrite G_bind_run by (by apply glift_run). cbv iota. erewrite G_bind_run by reflexivity.
  destruct o as [c|]; [|by eexists].
  destruct (keeps_agent_processCommand c (set_agent (agent_connected g) x g) Hg) as ([] & g' & -> & Hg'). eauto.
Qed.

Lemma keeps_alert_response k a resp g :
  gw_wf g -> (resp = ATLAS_COAP_RESP_TIMEOUT -> is_Some (devices_ g !! k)) ->
  exists g', alert_respCallback k a resp g = Ok (tt, g') /\ gw_wf g'.
Proof.
  intros Hg Hk. unfold alert_respCallback. case_decide; [by exists g|]. case_decide as Ht; [by exists g|].
  destruct (Hk Ht) as [d Hd].
  destruct (alert_push_put k a d [] (gw_ext g) g) as (evs & x & Hrun & _). rewrite <- put_intro in Hrun by done.
  rewrite Hrun. eexists. split; [done|]. apply gw_wf_put; [done|]. by apply Hg.
Qed.

Lemma keeps_quiet {A B} (m : G A) (f : A -> B) : keeps m -> keeps (m ≫= fun a => mret (f a)).
Proof. intros Hm. apply keeps_bind; [done|]. intros a. apply keeps_ret. Qed.

Lemma handle_keeps i g : gw_wf g -> readable_input i g -> exists r g', handle i g = Ok (r, g') /\ gw_wf g'.
Proof.
  intros Hg Hi. destruct i as [i p|i p|i p|path i p|i p|i p| | | | |k a resp|chunk]; cbn [handle].
  - apply keeps_quiet; [|done]. eapply keeps_answered, register_answered.
  - apply keeps_quiet; [|done]. eapply keeps_answered, keepalive_answered.
  - apply keeps_quiet; [|done]. eapply keeps_answered, policy_answered.
  - apply keeps_quiet; [|done]. eapply keeps_answered, telemetry_answered.
  - apply keeps_quiet; [|done]. eapply keeps_answered, reputation_answered.
  - destruct Hi as ([r g'] & Hrun). erewrite G_bind_run by exact Hrun. eexists _, _. split; [done|].
    by apply (wf_feedback _ _ _ _ _ _ Hg Hrun).
  - destruct (sysRep_run g Hi) as (g1 & _ & Hrun). unfold quietly. erewrite G_bind_run by exact Hrun. eexists _, _. split; [done|].
    by apply (wf_sysRep _ _ _ Hg Hrun).
  - apply keeps_quiet; [|done]. eapply keeps_visit; [apply alarm_visits|done|apply alarm_turn_wf].
  - apply keeps_quiet; [|done]. eapply keeps_visit; [apply (stat_visits device_wf)|done|apply policy_turn_wf].
  - by eexists _, _.
  - destruct (keeps_alert_response k a resp g Hg Hi) as (g' & Hrun & Hg'). unfold quietly.
    erewrite G_bind_run by exact Hrun. by eexists _, _.
  - destruct (keeps_agent_read chunk g Hg Hi) as (g' & Hrun & Hg'). unfold quietly.
    erewrite G_bind_run by exact Hrun. by eexists _, _.
Qed.

(** An input that is handled keeps the devices well formed. *)
Lemma handled_wf i : gpreserves gw_wf (handle i).
Proof.
  intros g r g' Hg Hrun.
  assert (Hready : readable_input i g -> gw_wf g').
  { intros Hi. destruct (handle_keeps i g Hg Hi) as (r' & g1 & Hrun' & Hg1). rewrite Hrun in Hrun'. by injection Hrun' as _ ->. }
  destruct i as [| | | | | | | | | |k a resp|chunk]; try (by apply Hready); cbn [handle readable_input] in *; unfold quietly in Hrun.
  - revert Hrun. apply (pres_bind gw_wf _ _ (wf_feedback _ _ _)); [intros; apply pres_ret|done].
  - revert Hrun. apply (pres_bind gw_wf _ _ wf_sysRep); [intros; apply pres_ret|done].
  - apply Hready. intros ->. unfold alert_respCallback in Hrun. rewrite decide_False in Hrun by done.
    rewrite decide_False in Hrun by auto. unfold alert_push, this, mbind, G_bind in Hrun.
    by destruct (devices_ g !! k).
  - apply Hready. destruct (handleRead chunk (agent_xfer g)) as [o|f] eqn:Hr; [by exists o|].
    unfold agent_handleRead, mbind, G_bind, gget, glift in Hrun. by rewrite Hr in Hrun.
Qed.

Lemma run_keeps g ins g' : gw_run g ins g' -> gw_wf g -> gw_wf g'.
Proof. induction 1 as [|g i r g1 ins g2 Hrun _ IH]; [done|]. intros Hg. apply IH. by eapply handled_wf. Qed.

(** * Expiry *)

(** [n] keep-alive periods without a keep-alive. *)
Fixpoint alarms (n : nat) : G unit :=
  match n with
  | O => mret tt
  | S n => keepaliveAlarmCallback ≫= fun _ => alarms n
  end.

Lemma alarm_run g :
  gw_wf g -> exists g', keepaliveAlarmCallback g = Ok (tt, g') /\ gw_wf g' /\
    visited alarm_turn (hash_order (devices_ g)) g g'.
Proof.
  intros Hg. destruct (forEachDevice_visits device_wf alarm_turn _ g alarm_visits Hg) as (g' & Hrun & Hv).
  exists g'. split; [done|]. split; [|done]. eapply visited_wf; [done|apply alarm_turn_wf|done].
Qed.

Lemma visited_out R l g g' : visited R l g g' -> gw_out g ⊆ gw_out g' /\ agent_connected g' = agent_connected g.
Proof. intros (Hc & _ & _ & evss & -> & _). split; [|done]. intros e He. apply elem_of_app. by left. Qed.

(** A device that is not registered any more stays as it is. *)
Lemma alarms_unregistered n g k d :
  gw_wf g -> devices_ g !! k = Some d -> registered_ d = false ->
  exists g', alarms n g = Ok (tt, g') /\ gw_wf g' /\ devices_ g' !! k = Some d /\ gw_out g ⊆ gw_out g'.
Proof.
  revert g. induction n as [|n IH]; intros g Hg Hd Hreg; [by exists g|]. cbn [alarms].
  destruct (alarm_run g Hg) as (g1 & Hrun & Hg1 & Hv). erewrite G_bind_run by exact Hrun.
  pose proof (visited_lookup _ _ _ k Hv) as Hk. rewrite Hd in Hk. destruct Hk as (d1 & evs & Hd1 & Hturn & _).
  unfold alarm_turn in Hturn. rewrite Hreg in Hturn. destruct Hturn as [-> _].
  destruct (IH g1 Hg1 Hd1 Hreg) as (g' & Hrun' & Hg' & Hd' & Hsub). exists g'. do 3 (split; [done|]).
  etrans; [apply (visited_out _ _ _ _ Hv)|done].
Qed.

(** What is left of a registration after [n] periods. *)
Definition after_periods (n : nat) (c : Z) (k : list byte) (d d' : AtlasDevice) (g g' : gateway) : Prop :=
  if decide (Z.of_nat n < c) then
    registered_ d' = true /\ kaCtr_ d' = Some (c - Z.of_nat n) /\ policy_ d' = policy_ d
  else
    registered_ d' = false /\ policy_ d' = None /\
    GwCloud k [(cstr "registered", cstr "false"); (cstr "lastRegisterTime", regTime_ d)] ∈ gw_out g' /\
    exists rm, removal (policy_ d) (agent_connected g) rm /\ rm ⊆ gw_out g'.

Lemma alarms_registered n g k d c :
  gw_wf g -> devices_ g !! k = Some d -> registered_ d = true -> kaCtr_ d = Some c ->
  exists g' d', alarms n g = Ok (tt, g') /\ gw_wf g' /\ devices_ g' !! k = Some d' /\ after_periods n c k d d' g g'.
Proof.
  unfold after_periods. revert g d c. induction n as [|n IH]; intros g d c Hg Hd Hreg Hc;
    destruct (proj1 (proj2 (Hg k d Hd)) Hreg) as (c' & Hc' & Hpos); rewrite Hc in Hc'; injection Hc' as <-.
  { exists g, d. rewrite decide_True by lia. rewrite Z.sub_0_r. auto 6. }
  cbn [alarms]. destruct (alarm_run g Hg) as (g1 & Hrun & Hg1 & Hv). erewrite G_bind_run by exact Hrun.
  pose proof (visited_lookup _ _ _ k Hv) as Hk. rewrite Hd in Hk. destruct Hk as (d1 & evs & Hd1 & Hturn & Hevs).
  destruct (visited_out _ _ _ _ Hv) as [_ Hconn]. unfold alarm_turn in Hturn. rewrite Hreg, Hc in Hturn.
  destruct (decide (Some c = Some 1)) as [[= ->]|Hne].
  - destruct Hturn as (interval & rm & -> & Hrm & ->).
    destruct (alarms_unregistered n g1 k _ Hg1 Hd1 eq_refl) as (g' & Hrun' & Hg' & Hd' & Hsub).
    exists g'. eexists. split; [done|]. split; [done|]. split; [done|]. rewrite decide_False by lia.
    repeat split; auto.
    + apply Hsub, Hevs, elem_of_app. right. by left.
    + exists rm. split; [done|]. intros e He. apply Hsub, Hevs, elem_of_app. by left.
  - destruct Hturn as (m & [= <-] & -> & _).
    destruct (IH g1 (dev_set_kaCtr (Some (c - 1)) d) (c - 1)) as (g' & d' & Hrun' & Hg' & Hd' & Hres); [done..|].
    exists g', d'. split; [done|]. split; [done|]. split; [done|]. rewrite Hconn in Hres.
    destruct (decide (Z.of_nat n < c - 1)) as [Hlt|Hge].
    + rewrite decide_True by lia. replace (c - Z.of_nat (S n)) with (c - 1 - Z.of_nat n) by lia. done.
    + by rewrite decide_False by lia.
Qed.
End Lifecycle.

(** * A gateway to run

    A database with one device and a clock that ticks when it is read. *)

Definition key_order : HashOrder.
Proof. refine {| hash_order := fun A m => map_to_list m |}. done. Defined.

Definition dev : list byte := cstr "dev".

Definition sim_gw : GwEnv := {|
  gext := Z * Tables;
  gext_sql := clock_sql;
  local_time x := (x.1, (x.1 + 1, x.2));
  to_simple_string z := dec z;
  sendRequest _ _ x := (true, x);
  local_time_tables _ := eq_refl;
  sendRequest_tables _ _ _ := eq_refl;
|}.

#[export] Instance sim_sends : Sends sim_gw.
Proof. done. Qed.

Definition empty_gw : gateway := mk_gateway sim_gw ∅ true idle_xfer [] (0, one_device dev (cstr "secret")) new_trusted.

Lemma empty_wf : gw_wf empty_gw.
Proof. apply map_Forall_empty. Qed.

(** A device with a policy that has just sent a keep-alive. *)
Definition policy_dev : AtlasDevice :=
  dev_set_policy (Some (mk_policy dev 1 60 100)) (dev_register 0 (dec 0) ATLAS_KEEP_ALIVE_COUNTER (new_AtlasDevice dev (cstr "secret"))).

Definition policy_gw : gateway := mk_gateway sim_gw {[ dev := policy_dev ]} true idle_xfer [] (1, one_device dev (cstr "secret")) new_trusted.

Lemma policy_gw_wf : gw_wf policy_gw.
Proof.
  apply map_Forall_singleton. split; [done|]. split; [intros _; by exists 4|].
  intros p [= <-]. by repeat split.
Qed.

(** * Theorems *)

(** C4: whatever requests, plug-in messages, connections and alarms a gateway has
    gone through, every device is stored under its own identity, a registered
    one has between one and four keep-alive periods left, and only registered
    ones have a policy, their own and within 16 bits; and there every further
    input is handled to its end: no null pointer, no uninitialised counter, no
    read outside a buffer, as long as no request to a device is refused when it is
    made ([Sends]). The exceptions: a plug-in message too long for the
    reassembly buffer; feedback the end-point cannot read; a round of the
    reputation while a device lacks a feature or has a full counter; and the
    time-out of an alert of a device that is not there, which cannot happen:
    devices are never removed. *)
Theorem gateway_safe `{E : GwEnv} `{!Sends E} `{HO : HashOrder} `{HostEndian} (g : gateway) (ins : list gw_input) (g' : gateway) :
  gw_wf g -> gw_run g ins g' ->
  gw_wf g' /\ forall i, readable_input i g' -> exists r g'', handle i g' = Ok (r, g'').
Proof.
  intros Hg Hrun. pose proof (run_keeps _ _ _ Hrun Hg) as Hg'. split; [done|].
  intros i Hi. destruct (handle_keeps i g' Hg' Hi) as (r & g2 & Hh & _). eauto.
Qed.

Lemma gateway_safe_witness :
  exists g', @gw_run sim_gw key_order true empty_gw [InKeepalive dev [x01]; InStatsAlarm] g' /\
    gw_wf g' /\ forall i, @readable_input sim_gw key_order true i g' -> exists r g'', @handle sim_gw key_order true i g' = Ok (r, g'').
Proof.
  assert (Hrun : exists g', @gw_run sim_gw key_order true empty_gw [InKeepalive dev [x01]; InStatsAlarm] g').
  { destruct (@handle_keeps sim_gw sim_sends key_order true (InKeepalive dev [x01]) empty_gw empty_wf I) as (r1 & g1 & H1 & Hg1).
    destruct (@handle_keeps sim_gw sim_sends key_order true InStatsAlarm g1 Hg1 I) as (r2 & g2 & H2 & _).
    exists g2. econstructor; [exact H1|]. econstructor; [exact H2|]. constructor. }
  destruct Hrun as [g' Hrun]. exists g'. split; [exact Hrun|].
  apply (gateway_safe empty_gw [InKeepalive dev [x01]; InStatsAlarm] g' empty_wf Hrun).
Defined.

(** C32: a registered device that sends no keep-alives stays registered, with its
    policy, for exactly as many periods as its counter says; with the last of
    them it is unregistered, its policy is gone, the plug-in has been told to
    remove its rule and the cloud that it is not registered. *)
Theorem keepalive_expiry `{E : GwEnv} `{HO : HashOrder} `{HostEndian} (n : nat) (g : gateway) (k : list byte)
    (d : AtlasDevice) (c : Z) :
  gw_wf g -> devices_ g !! k = Some d -> registered_ d = true -> kaCtr_ d = Some c ->
  exists g' d', alarms n g = Ok (tt, g') /\ gw_wf g' /\ devices_ g' !! k = Some d' /\
    if decide (Z.of_nat n < c) then
      registered_ d' = true /\ kaCtr_ d' = Some (c - Z.of_nat n) /\ policy_ d' = policy_ d
    else
      registered_ d' = false /\ policy_ d' = None /\
      GwCloud k [(cstr "registered", cstr "false"); (cstr "lastRegisterTime", regTime_ d)] ∈ gw_out g' /\
      exists rm, removal (policy_ d) (agent_connected g) rm /\ rm ⊆ gw_out g'.
Proof. apply alarms_registered. Qed.

Lemma keepalive_expiry_witness :
  exists g' d', @alarms sim_gw key_order true 5 policy_gw = Ok (tt, g') /\ gw_wf g' /\ devices_ g' !! dev = Some d' /\
    if decide (Z.of_nat 5 < 4) then
      registered_ d' = true /\ kaCtr_ d' = Some (4 - Z.of_nat 5) /\ policy_ d' = policy_ policy_dev
    else
      registered_ d' = false /\ policy_ d' = None /\
      GwCloud dev [(cstr "registered", cstr "false"); (cstr "lastRegisterTime", regTime_ policy_dev)] ∈ gw_out g' /\
      exists rm, @removal true (policy_ policy_dev) (agent_connected policy_gw) rm /\ rm ⊆ gw_out g'.
Proof.
  apply (@keepalive_expiry sim_gw key_order true 5 policy_gw dev policy_dev 4).
  - apply policy_gw_wf.
  - reflexivity.
  - reflexivity.
  - reflexivity.
Defined.

(** The identity DTLS authenticated for a request. *)
Definition request_of (i : gw_input) : option (list byte) :=
  match i with
  | InRegister k _ | InKeepalive k _ | InPolicy k _ | InTelemetry _ k _ | InReputation k _ => Some k
  | _ => None
  end.

Lemma request_answered `{E : GwEnv} `{!Sends E} `{HO : HashOrder} `{HostEndian} i k g :
  request_of i = Some k -> gw_wf g ->
  exists r g', handle i g = Ok (Some r, g') /\ answered k g r g'.
Proof.
  intros Hk Hg.
  assert (Hm : forall m, returns_answered k m g ->
    exists r g', (r ← m; mret (Some r)) g = Ok (Some r, g') /\ answered k g r g').
  { intros m (r & g' & Hrun & Ha). erewrite G_bind_run by exact Hrun. eauto. }
  destruct i; try discriminate; injection Hk as <-; apply Hm;
    auto using register_answered, keepalive_answered, policy_answered, telemetry_answered, reputation_answered.
Qed.

(** A request, with any payload, affects the device DTLS authenticated and no
    other: the gateway answers, every other device and the agent's buffer stay
    as they are, what is sent to the cloud and to devices is about that device,
    and a request that is not accepted sends nothing at all (when no request to a
    device is refused as it is made, [Sends]). *)
Theorem requests_isolated `{E : GwEnv} `{!Sends E} `{HO : HashOrder} `{HostEndian} (i : gw_input) (k : list byte) (g : gateway) :
  request_of i = Some k -> gw_wf g ->
  exists r g', handle i g = Ok (Some r, g') /\
    (forall j, j <> k -> devices_ g' !! j = devices_ g !! j) /\
    agent_connected g' = agent_connected g /\ agent_xfer g' = agent_xfer g /\
    exists evs, gw_out g' = gw_out g ++ evs /\ Forall (concerns k) evs /\ (r.1 <> ATLAS_COAP_RESP_OK -> evs = []).
Proof.
  intros Hk Hg. destruct (request_answered i k g Hk Hg) as (r & g' & Hrun & _ & Hc & Hx & Hj & Hevs).
  exists r, g'. auto.
Qed.

Lemma requests_isolated_witness :
  exists r g', @handle sim_gw key_order true (InPolicy dev [x04; x4c; x00; x01; x05]) policy_gw = Ok (Some r, g') /\
    (forall j, j <> dev -> devices_ g' !! j = devices_ policy_gw !! j) /\
    agent_connected g' = agent_connected policy_gw /\ agent_xfer g' = agent_xfer policy_gw /\
    exists evs, gw_out g' = gw_out policy_gw ++ evs /\ Forall (concerns dev) evs /\ (r.1 <> ATLAS_COAP_RESP_OK -> evs = []).
Proof.
  apply (@requests_isolated sim_gw sim_sends key_order true).
  - reflexivity.
  - apply policy_gw_wf.
Defined.

(** ** Which registrations are accepted *)

Section Registration.
Context `{E : GwEnv} `{SND : !Sends E} `{HO : HashOrder} `{HostEndian}.

(** A message that registers [i] at [ipPort]: every registration in it is of
    [i], there is one, no address is empty and [ipPort] is the last one. *)
Definition registers (i ipPort : list byte) (cs : list cmd) : Prop :=
  i <> [] /\
  (forall v, (code ATLAS_CMD_REGISTER, v) ∈ cs -> v = i) /\
  (exists v, (code ATLAS_CMD_REGISTER, v) ∈ cs) /\
  (forall v, (code ATLAS_CMD_IP_PORT, v) ∈ cs -> v <> []) /\
  last (base.filter (fun c : cmd => c.1 = code ATLAS_CMD_IP_PORT) cs) = Some (code ATLAS_CMD_IP_PORT, ipPort).

(** The loop on a message: it stops at the first command that is not acceptable
    and otherwise ends with the identity and the last address. *)
Definition acceptable (i : list byte) (c : cmd) : Prop :=
  (c.1 = code ATLAS_CMD_REGISTER -> c.2 <> [] /\ c.2 = i) /\ (c.1 = code ATLAS_CMD_IP_PORT -> c.2 <> []).

Definition last_of (t : AtlasCommandType) (cs : list cmd) (v : list byte) : list byte :=
  default v (snd <$> last (base.filter (fun c : cmd => c.1 = code t) cs)).

Lemma last_of_cons t c cs v :
  last_of t (c :: cs) v = last_of t cs (if decide (c.1 = code t) then c.2 else v).
Proof.
  unfold last_of. rewrite filter_cons. case_decide; [|done]. rewrite last_cons. by destruct (last _).
Qed.

#[local] Instance acceptable_dec i c : Decision (acceptable i c).
Proof. unfold acceptable. apply _. Defined.

Lemma register_fold i cs a :
  fold_return (register_step i) cs a =
  if decide (Forall (acceptable i) cs)
  then inl (mk_reg_args (last_of ATLAS_CMD_REGISTER cs (rg_identity a)) (last_of ATLAS_CMD_IP_PORT cs (rg_ipPort a)) (rg_token a))
  else inr NOT_ACCEPTABLE.
Proof.
  revert a. induction cs as [|[t v] cs IH]; intros a; cbn [fold_return]; [by destruct a|].
  rewrite !last_of_cons. unfold register_step. cbn [fst snd].
  destruct (decide (acceptable i (t, v))) as [Hok|Hno].
  - rewrite (decide_ext (Forall (acceptable i) ((t, v) :: cs)) (Forall (acceptable i) cs))
      by (rewrite Forall_cons; tauto).
    destruct Hok as [H1 H2]. cbn [fst snd] in H1, H2.
    destruct (decide (t = code ATLAS_CMD_REGISTER)) as [->|Ht].
    + destruct (H1 eq_refl) as [Hne ->]. rewrite decide_False, decide_True by done. by rewrite IH.
    + destruct (decide (t = code ATLAS_CMD_IP_PORT)) as [->|Ht']; [rewrite decide_False by auto|]; by rewrite IH.
  - rewrite (decide_False (P := Forall _ _)) by (by intros [? _]%Forall_cons).
    unfold acceptable in Hno. cbn [fst snd] in Hno.
    repeat case_decide; try done; exfalso; apply Hno; split; intros; subst; try done; congruence.
Qed.

Lemma last_of_elem t cs c : last (base.filter (fun c : cmd => c.1 = code t) cs) = Some c -> c.1 = code t /\ c ∈ cs.
Proof. intros Hc%last_Some_elem_of. by apply list_elem_of_filter in Hc. Qed.

Lemma registers_iff i p cs :
  registers i p cs <->
  Forall (acceptable i) cs /\ last_of ATLAS_CMD_REGISTER cs [] = i /\ i <> [] /\
  last_of ATLAS_CMD_IP_PORT cs [] = p /\ p <> [].
Proof.
  unfold registers, last_of. split.
  - intros (Hi & Hall & (v & Hv) & Hport & Hlast). rewrite Hlast.
    destruct (last (base.filter (fun c : cmd => c.1 = code ATLAS_CMD_REGISTER) cs)) as [[t w]|] eqn:Hr.
    + apply last_of_elem in Hr as [Ht Hin]. cbn in Ht. subst t. cbn. rewrite (Hall w Hin). split_and!; auto.
      * apply Forall_forall. intros [t u] Hu. split; cbn; intros ->; [|by apply Hport]. by rewrite (Hall u Hu).
      * apply (Hport p). by apply last_of_elem in Hlast as [_ Hlast].
    + apply last_None in Hr. exfalso. apply (not_elem_of_nil (code ATLAS_CMD_REGISTER, v)). rewrite <- Hr.
      by apply list_elem_of_filter.
  - intros (Hall & Hr & Hi & Hp & Hne). rewrite Forall_forall in Hall. split_and!; auto.
    + intros v Hv. by apply (Hall _ Hv).
    + destruct (last (base.filter (fun c : cmd => c.1 = code ATLAS_CMD_REGISTER) cs)) as [[t w]|] eqn:Hl; [|cbn in Hr; congruence].
      apply last_of_elem in Hl as [Ht Hin]. cbn in Ht. subst t. by exists w.
    + intros v Hv. by apply (Hall _ Hv).
    + destruct (last (base.filter (fun c : cmd => c.1 = code ATLAS_CMD_IP_PORT) cs)) as [[t w]|] eqn:Hl; [|cbn in Hp; congruence].
      apply last_of_elem in Hl as [Ht Hin]. cbn in Ht, Hp. by subst.
Qed.

(** The callback on a message. *)
Lemma register_outcome i cs g :
  Forall wf_cmd cs -> cs <> [] -> gw_wf g ->
  exists r g', registerCallback i (Some (encode cs)) (blen (encode cs)) g = Ok (r, g') /\
    ((r = NOT_ACCEPTABLE /\ devices_ g' = devices_ g /\ gw_out g' = gw_out g /\
      ~ (known i g /\ exists p, registers i p cs)) \/
     (r = (ATLAS_COAP_RESP_OK, None) /\ known i g /\ exists p now text d, registers i p cs /\
      (devices_ g !! i = Some d \/ (devices_ g !! i = None /\ fresh_device i d)) /\
      devices_ g' = <[i := dev_set_ipPort p (dev_register now text ATLAS_KEEP_ALIVE_COUNTER d)]> (devices_ g))).
Proof.
  intros Hcs Hne Hg. unfold registerCallback.
  erewrite G_bind_run by (by apply glift_run, parsed_commands_encode).
  destruct (pointers cs []) as [|p0 ps] eqn:Hps; [by destruct cs as [|[]]|]. rewrite <- Hps.
  erewrite G_bind_run by (apply glift_run, for_return_pointers; auto using register_body_step).
  rewrite register_fold. cbn [rg_identity rg_ipPort rg_token].
  assert (Hrej : forall g1, devices_ g1 = devices_ g -> gw_out g1 = gw_out g -> ~ (known i g /\ exists p, registers i p cs) ->
    exists r g', Ok (NOT_ACCEPTABLE, g1) = Ok (r, g') /\
      ((r = NOT_ACCEPTABLE /\ devices_ g' = devices_ g /\ gw_out g' = gw_out g /\
        ~ (known i g /\ exists p, registers i p cs)) \/
       (r = (ATLAS_COAP_RESP_OK, None) /\ known i g /\ exists p now text d, registers i p cs /\
        (devices_ g !! i = Some d \/ (devices_ g !! i = None /\ fresh_device i d)) /\
        devices_ g' = <[i := dev_set_ipPort p (dev_register now text ATLAS_KEEP_ALIVE_COUNTER d)]> (devices_ g)))).
  { intros g1 Hd1 Ho1 Hno. eexists _, _. split; [done|]. left. auto. }
  case_decide as Hall.
  - cbn [rg_identity rg_ipPort rg_token]. case_decide as Hempty.
    { apply Hrej; [done..|]. intros [_ (p & Hp)]. apply registers_iff in Hp.
      destruct Hp as (_ & Hi & Hi' & Hp & Hp'). destruct Hempty; congruence. }
    apply Decidable.not_or in Hempty as [Hi Hp].
    assert (Hid : last_of ATLAS_CMD_REGISTER cs [] = i).
    { unfold last_of in *. destruct (last (base.filter (fun c : cmd => c.1 = code ATLAS_CMD_REGISTER) cs)) as [c|] eqn:Hl; [|done].
      apply last_of_elem in Hl as [Ht Hin]. rewrite Forall_forall in Hall. by apply (Hall c Hin). }
    rewrite Hid in *.
    destruct (getDevice_spec i g) as [(x & Hget & Hunk)|(d & x & Hget & Hk & Hd)]; erewrite G_bind_run by exact Hget.
    { apply Hrej; [done..|]. tauto. }
    pose proof (register_run i (last_of ATLAS_CMD_IP_PORT cs []) d [] x g (proj1 (found_wf i d g Hg Hd))) as Hrun.
    destruct (local_time x) as [now x1]. destruct Hrun as (evs & x2 & Hrun & _). rewrite Hrun.
    eexists _, _. split; [done|]. right. split; [done|]. split; [done|].
    eexists _, _, _, d. split; [|split; [exact Hd|reflexivity]]. apply registers_iff. auto.
  - apply Hrej; [done..|]. intros [_ (p & Hp)]. by apply registers_iff in Hp as [? _].
Qed.
End Registration.

(** A registration is accepted exactly when the gateway knows the
    authenticated identity and the message is a registration of that identity
    with an address; the device is then registered at the last address of the
    message with four keep-alive periods, whatever state it was in. A
    registration that is not accepted changes no device and sends nothing. (No
    request to a device is refused as it is made, [Sends].) *)
Theorem registration_accepted_iff `{E : GwEnv} `{!Sends E} `{HO : HashOrder} `{HostEndian} (i : list byte) (cs : list cmd) (g : gateway) :
  Forall wf_cmd cs -> cs <> [] -> gw_wf g ->
  exists r g', registerCallback i (Some (encode cs)) (blen (encode cs)) g = Ok (r, g') /\
    (r.1 = ATLAS_COAP_RESP_OK <-> known i g /\ exists p, registers i p cs) /\
    (forall p, known i g -> registers i p cs -> exists d, devices_ g' !! i = Some d /\
       registered_ d = true /\ kaCtr_ d = Some 4 /\ ipPort_ d = p) /\
    (r.1 <> ATLAS_COAP_RESP_OK -> devices_ g' = devices_ g /\ gw_out g' = gw_out g).
Proof.
  intros Hcs Hne Hg. destruct (register_outcome i cs g Hcs Hne Hg) as (r & g' & Hrun & Hres).
  exists r, g'. split; [done|]. destruct Hres as [(-> & Hd & Ho & Hno)|(-> & Hk & p & now & text & d & Hp & _ & Hd)].
  - split; [by split|]. split; [|done]. intros p Hk Hp. exfalso. eauto.
  - split; [split; [eauto|done]|]. split; [|done]. intros q _ Hq. rewrite Hd, lookup_insert_eq. eexists. split; [done|].
    split; [done|]. split; [done|]. apply registers_iff in Hp as (_ & _ & _ & <- & _).
    by apply registers_iff in Hq as (_ & _ & _ & <- & _).
Qed.

Lemma registration_accepted_iff_witness :
  let cs := [(0, dev); (3, cstr "10.0.0.2:10001")] in
  exists r g', @registerCallback sim_gw key_order true dev (Some (encode cs)) (blen (encode cs)) empty_gw = Ok (r, g') /\
    (r.1 = ATLAS_COAP_RESP_OK <-> known dev empty_gw /\ exists p, registers dev p cs) /\
    (forall p, known dev empty_gw -> registers dev p cs -> exists d, devices_ g' !! dev = Some d /\
       registered_ d = true /\ kaCtr_ d = Some 4 /\ ipPort_ d = p) /\
    (r.1 <> ATLAS_COAP_RESP_OK -> devices_ g' = devices_ empty_gw /\ gw_out g' = gw_out empty_gw).
Proof.
  intros cs. apply (@registration_accepted_iff sim_gw sim_sends key_order true dev cs empty_gw).
  - repeat constructor; done.
  - done.
  - apply empty_wf.
Defined.

(** ** A refused address *)

Section Refused.
Context `{E : GwEnv} `{HO : HashOrder} `{HostEndian}.

(** [sendRequest] throws for every path at an address. *)
Definition refused (ipPort : list byte) : Prop :=
  forall path payload x, (sendRequest (ATLAS_COAPS_SCHEME ++ ipPort ++ cstr "/" ++ path) payload x).1 = false.

Lemma alert_push_refused k a d evs x g :
  registered_ d = true -> refused (ipPort_ d) -> alert_push k a (put k d evs x g) = Fault Uncaught.
Proof.
  intros Hreg Href. unfold alert_push. grun. rewrite Hreg.
  destruct (serialized_total (alert_commands a)) as (buf & Hs); [apply alert_commands_readable|by destruct a|].
  erewrite G_bind_run by (by apply glift_run). cbn beta iota.
  erewrite G_bind_run by (by apply glift_run, mem_load_all). grun.
  change (default [] (Some buf)) with buf. by rewrite Href.
Qed.

Lemma pushAlerts_refused k d evs x g :
  registered_ d = true -> refused (ipPort_ d) -> pushAlerts_ d <> ∅ -> pushAlerts k (put k d evs x g) = Fault Uncaught.
Proof.
  intros Hreg Href Hne. unfold pushAlerts. grun.
  destruct (hash_order (pushAlerts_ d)) as [|a l] eqn:Hl.
  - exfalso. apply Hne, map_to_list_empty_iff, Permutation_nil_r. by rewrite <-hash_order_perm, Hl.
  - cbn [gfor]. unfold mbind, G_bind. by rewrite alert_push_refused.
Qed.
End Refused.

(** C39: A device that registers at an address for which no request can be made takes the
    gateway down: the alerts pushed to it make [sendRequest] throw an
    [AtlasCoapException], and the callers catch [const char *] only. *)
Theorem refused_address_kills `{E : GwEnv} `{HO : HashOrder} `{HostEndian}
    (i ipPort : list byte) (cs : list cmd) (d : AtlasDevice) (g : gateway) :
  Forall wf_cmd cs -> registers i ipPort cs -> devices_ g !! i = Some d -> pushAlerts_ d <> ∅ -> refused ipPort ->
  registerCallback i (Some (encode cs)) (blen (encode cs)) g = Fault Uncaught.
Proof.
  intros Hcs Hr Hd Hal Href. pose proof Hr as (Hall & Hid & Hi & Hp & Hpne)%registers_iff. unfold registerCallback.
  assert (cs <> []) as Hne by (intros ->; by destruct Hr as (_ & _ & (v & []%not_elem_of_nil) & _)).
  erewrite G_bind_run by (by apply glift_run, parsed_commands_encode).
  destruct (pointers cs []) as [|p0 ps] eqn:Hps; [by destruct cs as [|[]]|].
  rewrite <- Hps. erewrite G_bind_run by (apply glift_run, for_return_pointers; auto using register_body_step).
  rewrite register_fold, decide_True by done. cbn [rg_identity rg_ipPort rg_token]. rewrite Hid, Hp.
  rewrite decide_False by tauto.
  assert (getDevice i g = Ok (true, g)) as Hget by by eapply getDevice_run.
  erewrite G_bind_run by exact Hget. rewrite (put_intro i d g Hd).
  pose proof (registerNow_put i d [] (gw_ext g) g) as Hreg. destruct (local_time (gw_ext g)) as [now x1]. cbn zeta in Hreg.
  erewrite G_bind_run by exact Hreg. erewrite G_bind_run by apply setIpPort_put.
  unfold mbind at 1, G_bind at 1. by rewrite pushAlerts_refused.
Qed.

(** A gateway on which the host [nowhere] does not resolve. *)
Definition nowhere_gw : GwEnv := {|
  gext := Z * Tables;
  gext_sql := clock_sql;
  local_time x := (x.1, (x.1 + 1, x.2));
  to_simple_string z := dec z;
  sendRequest url _ x := (negb (bool_decide (take 16 url = cstr "coaps://nowhere/")), x);
  local_time_tables _ := eq_refl;
  sendRequest_tables _ _ _ := eq_refl;
|}.

Definition nowhere_gateway : gateway :=
  mk_gateway nowhere_gw {[ dev := policy_dev ]} true idle_xfer [] (1, one_device dev (cstr "secret")) new_trusted.

Lemma refused_address_kills_witness :
  let cs := [(0, dev); (3, cstr "nowhere")] in
  @registerCallback nowhere_gw key_order true dev (Some (encode cs)) (blen (encode cs)) nowhere_gateway = Fault Uncaught.
Proof.
  intros cs. apply (@refused_address_kills nowhere_gw key_order true dev (cstr "nowhere") cs policy_dev).
  - repeat constructor; done.
  - apply registers_iff. split; [|done]. repeat constructor; done.
  - reflexivity.
  - intros Heq. apply (f_equal size) in Heq. vm_compute in Heq. discriminate Heq.
  - intros path payload x. reflexivity.
Defined.
