(* ===== verification/GwTrust.v ===== *)
(** What the reputation of devices amounts to: a round of the system reputation
    scores every device and leaves the best one trusted; feedback reaches the network
    of the device it is about; requests are answered with the trusted device; counts
    survive in the database. And what feedback can do that it should not: write past
    a 16-bit variable, or push a score above 1. *)
From S2P Require Import Prelude Defs CLib Command Double GwDefs GwBatch GwXfer GwFilter GwBayes GwStore GwNetStore GwDevice GwServer GwReputation GwLifecycle.
Import GwType.

(** * The feedback message *)

Section FeedbackMessage.
Context `{E : GwEnv} `{HO : HashOrder} `{HostEndian}.

(** The commands [memcpy] copies into [tmp]. *)
Definition copied : list Z :=
  [code ATLAS_CMD_FEEDBACK_SENSOR_TYPE; code ATLAS_CMD_FEEDBACK_SENSOR; code ATLAS_CMD_FEEDBACK_RESPONSE_TIME].

(** A copied value that fits [tmp] exactly. *)
Definition copy_fits (c : cmd) : Prop := c.1 ∈ copied -> blen c.2 = 2.

Definition score (v : list byte) : double := ddiv (double_of_int (of_be16 v)) (double_of_int 100).

Definition inner_step (a : feedback_args) (c : cmd) : feedback_args :=
  if decide (c.1 = code ATLAS_CMD_FEEDBACK_IDENTITY) then
    mk_feedback_args (rf_identity a) c.2 (rf_sensorType a) (rf_sensorScore a) (rf_respTimeScore a) (rf_tmp a) (rf_matrix a)
  else if decide (c.1 = code ATLAS_CMD_FEEDBACK_SENSOR_TYPE) then
    mk_feedback_args (rf_identity a) (rf_feedbackIdentity a) (Some (of_be16 c.2)) (rf_sensorScore a) (rf_respTimeScore a)
      (Some (of_be16 c.2)) (rf_matrix a)
  else if decide (c.1 = code ATLAS_CMD_FEEDBACK_SENSOR) then
    mk_feedback_args (rf_identity a) (rf_feedbackIdentity a) (rf_sensorType a) true (rf_respTimeScore a)
      (Some (of_be16 c.2)) (rf_matrix a ++ [(ATLAS_DEVICE_FEATURE_SENSOR, score c.2)])
  else if decide (c.1 = code ATLAS_CMD_FEEDBACK_RESPONSE_TIME) then
    mk_feedback_args (rf_identity a) (rf_feedbackIdentity a) (rf_sensorType a) (rf_sensorScore a) true
      (Some (of_be16 c.2)) (rf_matrix a ++ [(ATLAS_DEVICE_FEATURE_RESP_TIME, score c.2)])
  else a.

Lemma memcpy_fits tmp c p : pointer_to c p -> blen c.2 = 2 -> memcpy_tmp tmp p = Ok (ld16 c.2) /\ ntohs (ld16 c.2) = of_be16 c.2.
Proof.
  intros Hp Hl. unfold memcpy_tmp. rewrite (cmd_bytes_pointer c), res_bind_ok by done.
  destruct c as [t [|a [|b [|? ?]]]]; cbn in Hl; try (autorewrite with blen in Hl; blen_pos; lia).
  cbn [snd]. split; [done|apply ntohs_ld16].
Qed.

Lemma feedback_inner_step a c p : copy_fits c -> pointer_to c p -> feedback_inner a p = Ok (inner_step a c).
Proof.
  intros Hfit Hp. unfold feedback_inner, inner_step. rewrite (cmd_bytes_pointer c), res_bind_ok by done.
  assert (Ht : type_ p = c.1) by (by destruct Hp as (post & ->)). rewrite Ht.
  assert (Hc : c.1 ∈ copied -> memcpy_tmp (rf_tmp a) p = Ok (ld16 c.2) /\ ntohs (ld16 c.2) = of_be16 c.2).
  { intros Hin. apply memcpy_fits; [done|by apply Hfit]. }
  unfold score. case_decide; [done|].
  do 3 (case_decide as Hd; [destruct Hc as [-> Hn]; [rewrite Hd; unfold copied; set_solver|rewrite res_bind_ok; cbn zeta; by rewrite Hn]|clear Hd]).
  done.
Qed.

Lemma feedback_inner_identity l a a' : for_each feedback_inner l a = Ok a' -> rf_identity a' = rf_identity a.
Proof.
  revert a. induction l as [|p l IH]; intros a; cbn [for_each]; [by intros [= <-]|].
  destruct (feedback_inner a p) as [a1|] eqn:Hp; [|done]. rewrite res_bind_ok. intros Hl%IH. rewrite Hl. clear -Hp. revert Hp.
  unfold feedback_inner. destruct (cmd_bytes p); cbn [mbind res_bind]; destruct (memcpy_tmp (rf_tmp a) p);
    cbn [mbind res_bind]; repeat case_decide; by intros [= <-].
Qed.

(** The message of a device [i]. *)
Definition feedback_message (i : list byte) (inner : list cmd) : list cmd :=
  [(code ATLAS_CMD_IDENTITY, i); (code ATLAS_CMD_FEEDBACK, encode inner)].

Definition no_feedback : feedback_args := mk_feedback_args [] [] None false false None [].

Lemma feedback_body_identity i a p : i <> [] -> pointer_to (code ATLAS_CMD_IDENTITY, i) p ->
  feedback_body i a p = Ok (inl (mk_feedback_args i (rf_feedbackIdentity a) (rf_sensorType a) (rf_sensorScore a)
    (rf_respTimeScore a) (rf_tmp a) (rf_matrix a))).
Proof.
  intros Hi Hp. unfold feedback_body. rewrite (cmd_bytes_pointer _ _ Hp). destruct Hp as (post & ->). cbn [type_ len_ fst snd].
  rewrite decide_True by done. rewrite decide_False by (by intros ?%blen_zero_iff). cbn [mbind res_bind]. by rewrite decide_True.
Qed.

Lemma feedback_body_inner i a inner p : inner <> [] -> Forall wf_cmd inner -> pointer_to (code ATLAS_CMD_FEEDBACK, encode inner) p ->
  feedback_body i a p = (a ← for_each feedback_inner (pointers inner []) a; Ok (inl a)).
Proof.
  intros Hne Hwf (post & ->). unfold feedback_body. cbn [type_ len_ val_ fst snd]. rewrite decide_False, decide_True by done.
  rewrite decide_False.
  - by rewrite parsed_commands_prefix, parsed_commands_encode, res_bind_ok.
  - destruct inner as [|c inner]; [done|]. rewrite blen_encode_cons. pose proof (blen_nonneg c.2). pose proof (blen_nonneg (encode inner)). lia.
Qed.

(** What the end-point makes of the message of a registered device. *)
Lemma feedback_run i d inner g :
  devices_ g !! i = Some d -> registered_ d = true -> i <> [] -> inner <> [] ->
  Forall wf_cmd inner -> Forall wf_cmd (feedback_message i inner) ->
  let msg := encode (feedback_message i inner) in
  feedbackReputationCallback i (Some msg) (blen msg) g =
  match for_each feedback_inner (pointers inner []) (mk_feedback_args i [] None false false None []) with
  | Fault f => Fault f
  | Ok a =>
      if decide (rf_feedbackIdentity a = []) then Ok (NOT_ACCEPTABLE, g) else
      match rf_sensorType a with
      | None => Ok (NOT_ACCEPTABLE, g)
      | Some t => if negb (rf_sensorScore a) || negb (rf_respTimeScore a) then Ok (NOT_ACCEPTABLE, g)
                  else (updateDataReputation (rf_feedbackIdentity a) t (rf_matrix a) ≫= fun _ => mret (ATLAS_COAP_RESP_OK, None)) g
      end
  end.
Proof.
  intros Hd Hreg Hi Hne Hwf Hmsg msg. unfold feedbackReputationCallback.
  erewrite G_bind_run by (by apply registered_device_run). rewrite Hreg.
  erewrite G_bind_run by (apply glift_run, parsed_commands_encode; done).
  cbn [feedback_message pointers for_return].
  rewrite (feedback_body_identity i) by (done || by eexists). rewrite res_bind_ok.
  rewrite (feedback_body_inner i _ inner) by (done || by eexists).
  cbn [rf_feedbackIdentity rf_sensorType rf_sensorScore rf_respTimeScore rf_tmp rf_matrix].
  destruct (for_each feedback_inner (pointers inner []) _) as [a|f] eqn:Ha; [|done].
  apply feedback_inner_identity in Ha. cbn in Ha. cbn [mbind res_bind]. erewrite G_bind_run by reflexivity.
  cbv iota. rewrite Ha. destruct (decide (rf_feedbackIdentity a = [])) as [Hf|Hf].
  - by rewrite decide_True by by right.
  - rewrite decide_False by tauto. destruct (rf_sensorType a); [|done]. by destruct (_ || _).
Qed.

(** The scores of one device on another. *)
Definition rating (j : list byte) (nt a b : Z) : list cmd :=
  [(code ATLAS_CMD_FEEDBACK_IDENTITY, j); (code ATLAS_CMD_FEEDBACK_SENSOR_TYPE, be16 nt);
   (code ATLAS_CMD_FEEDBACK_SENSOR, be16 a); (code ATLAS_CMD_FEEDBACK_RESPONSE_TIME, be16 b)].

Definition percent (a : Z) : double := ddiv (double_of_int a) (double_of_int 100).

Definition rating_matrix (a b : Z) : list (Z * double) :=
  [(ATLAS_DEVICE_FEATURE_SENSOR, percent a); (ATLAS_DEVICE_FEATURE_RESP_TIME, percent b)].

Lemma rating_fits j nt a b : Forall copy_fits (rating j nt a b).
Proof. repeat (apply Forall_cons; split); [|done|done|done|by apply Forall_nil]. unfold copy_fits, copied. cbn [fst]. vm_compute. intros Hin. exfalso. revert Hin. set_solver. Qed.

Lemma rating_wf j nt a b : blen j < 65536 -> Forall wf_cmd (rating j nt a b).
Proof. intros Hj. repeat (apply Forall_cons; split); try done; split; done. Qed.

Lemma rating_message_wf i j nt a b : blen i < 65536 -> blen j < 65000 -> Forall wf_cmd (feedback_message i (rating j nt a b)).
Proof.
  intros Hi Hj. repeat (apply Forall_cons; split); [|split; [done|]|by apply Forall_nil]; [done|].
  unfold rating. cbn [snd]. rewrite !blen_encode_cons, blen_encode_nil. cbn [snd]. rewrite !blen_be16. lia.
Qed.

Lemma rating_fold i j nt a b : is_u16 nt -> is_u16 a -> is_u16 b ->
  foldl inner_step (mk_feedback_args i [] None false false None []) (rating j nt a b) =
  mk_feedback_args i j (Some nt) true true (Some b) (rating_matrix a b).
Proof.
  intros Hnt Ha Hb. unfold rating_matrix, percent. rewrite <- (of_be16_be16 nt Hnt) at 2. rewrite <- (of_be16_be16 a Ha) at 2.
  rewrite <- (of_be16_be16 b Hb) at 2 3. reflexivity.
Qed.

(** The scores reach the device manager. *)
Lemma rating_run i d j nt a b g :
  devices_ g !! i = Some d -> registered_ d = true -> i <> [] -> j <> [] -> blen i < 65536 -> blen j < 65000 ->
  is_u16 nt -> is_u16 a -> is_u16 b ->
  let msg := encode (feedback_message i (rating j nt a b)) in
  feedbackReputationCallback i (Some msg) (blen msg) g =
  (updateDataReputation j nt (rating_matrix a b) ≫= fun _ => mret (ATLAS_COAP_RESP_OK, None)) g.
Proof.
  intros Hd Hreg Hi Hj Hli Hlj Hnt Ha Hb msg. unfold msg.
  rewrite (feedback_run i d) by (done || by apply rating_message_wf || (apply rating_wf; lia)).
  rewrite (for_each_on copy_fits feedback_inner inner_step) by (auto using feedback_inner_step || apply rating_fits).
  rewrite rating_fold by done. cbn [rf_feedbackIdentity rf_sensorType rf_sensorScore rf_respTimeScore rf_matrix negb orb].
  by rewrite decide_False.
Qed.

(** A copied value longer than [tmp], after others that fit. *)
Lemma overflow_run pre t v post a : Forall copy_fits pre -> t ∈ copied -> 2 < blen v ->
  for_each feedback_inner (pointers (pre ++ (t, v) :: post) []) a = Fault OutOfBounds.
Proof.
  intros Hpre Ht Hv. revert a. induction Hpre as [|[t' v'] pre Hfit _ IH]; intros a.
  - cbn [app pointers for_each]. set (p := mk_AtlasCommand _ _ _).
    assert (Hm : forall tmp, memcpy_tmp tmp p = Fault OutOfBounds).
    { intros tmp. unfold memcpy_tmp. rewrite (cmd_bytes_pointer (t, v)), res_bind_ok by by eexists. cbn [snd].
      destruct v as [|x [|y [|z v]]]; [| | |done]; autorewrite with blen in Hv; lia. }
    unfold feedback_inner. rewrite !Hm. cbn [type_ p].
    unfold copied in Ht. rewrite !elem_of_cons, elem_of_nil in Ht.
    destruct Ht as [->|[->|[->|[]]]]; repeat case_decide; done.
  - cbn [app pointers for_each]. rewrite (feedback_inner_step a (t', v')) by (done || by eexists). rewrite res_bind_ok. apply IH.
Qed.

(** A rating that repeats the sensor score. *)
Definition inflated (j : list byte) (nt a b : Z) : list cmd :=
  [(code ATLAS_CMD_FEEDBACK_IDENTITY, j); (code ATLAS_CMD_FEEDBACK_SENSOR_TYPE, be16 nt);
   (code ATLAS_CMD_FEEDBACK_SENSOR, be16 a); (code ATLAS_CMD_FEEDBACK_SENSOR, be16 a);
   (code ATLAS_CMD_FEEDBACK_RESPONSE_TIME, be16 b)].

Definition inflated_matrix (a b : Z) : list (Z * double) :=
  [(ATLAS_DEVICE_FEATURE_SENSOR, percent a); (ATLAS_DEVICE_FEATURE_SENSOR, percent a); (ATLAS_DEVICE_FEATURE_RESP_TIME, percent b)].

Lemma inflated_fits j nt a b : Forall copy_fits (inflated j nt a b).
Proof.
  pose proof (rating_fits j nt a b) as Hr. unfold rating, inflated in *.
  do 3 (apply Forall_cons in Hr as [? Hr]). by repeat (apply Forall_cons; split).
Qed.

Lemma inflated_wf i j nt a b : blen i < 65536 -> blen j < 65000 ->
  Forall wf_cmd (inflated j nt a b) /\ Forall wf_cmd (feedback_message i (inflated j nt a b)).
Proof.
  intros Hi Hj. split; [repeat (apply Forall_cons; split); try done; split; [done|cbn; lia]|].
  repeat (apply Forall_cons; split); [|split; [done|]|by apply Forall_nil]; [done|].
  unfold inflated. cbn [snd]. rewrite !blen_encode_cons, blen_encode_nil. cbn [snd]. rewrite !blen_be16. lia.
Qed.

Lemma inflated_run i d j a b g :
  devices_ g !! i = Some d -> registered_ d = true -> i <> [] -> j <> [] -> blen i < 65536 -> blen j < 65000 ->
  is_u16 a -> is_u16 b ->
  let msg := encode (feedback_message i (inflated j ATLAS_NETWORK_SENSOR_TEMPERATURE a b)) in
  feedbackReputationCallback i (Some msg) (blen msg) g =
  (updateDataReputation j ATLAS_NETWORK_SENSOR_TEMPERATURE (inflated_matrix a b) ≫= fun _ => mret (ATLAS_COAP_RESP_OK, None)) g.
Proof.
  intros Hd Hreg Hi Hj Hli Hlj Ha Hb msg. unfold msg.
  destruct (inflated_wf i j ATLAS_NETWORK_SENSOR_TEMPERATURE a b Hli Hlj) as [Hw1 Hw2].
  rewrite (feedback_run i d) by done.
  rewrite (for_each_on copy_fits feedback_inner inner_step) by (auto using feedback_inner_step || apply inflated_fits).
  change (foldl inner_step (mk_feedback_args i [] None false false None []) (inflated j ATLAS_NETWORK_SENSOR_TEMPERATURE a b))
    with (mk_feedback_args i j (Some (of_be16 (be16 ATLAS_NETWORK_SENSOR_TEMPERATURE))) true true (Some (of_be16 (be16 b)))
      (inflated_matrix (of_be16 (be16 a)) (of_be16 (be16 b)))).
  rewrite !of_be16_be16 by done. cbn [rf_feedbackIdentity rf_sensorType rf_sensorScore rf_respTimeScore rf_matrix negb orb].
  by rewrite decide_False.
Qed.

(** The request for the trusted device of a network. *)
Definition trust_request (i : list byte) (nt : Z) : list cmd :=
  [(code ATLAS_CMD_IDENTITY, i); (code ATLAS_CMD_FEATURE_REQUEST, be16 nt)].

Lemma reply_encode t : blen t < 65536 ->
  serialized_commands (reply_commands t) = Ok (Some (encode [(code ATLAS_CMD_FEATURE_REQUEST, t)]), blen (encode [(code ATLAS_CMD_FEATURE_REQUEST, t)])).
Proof.
  intros Ht. apply serialized_commands_spec; [|by repeat constructor|done]. constructor; [|done].
  rewrite <- (app_nil_r t) at 2. by apply new_command_repr.
Qed.

Lemma request_run i d nt g :
  devices_ g !! i = Some d -> registered_ d = true -> i <> [] -> blen i < 65536 -> is_u16 nt ->
  let msg := encode (trust_request i nt) in
  let t := default [] (trustedDevices_ g !! nt) in
  blen t < 65536 ->
  requestReputationCallback i (Some msg) (blen msg) g =
  Ok (if decide (t = [] \/ t = i) then NOT_ACCEPTABLE else (ATLAS_COAP_RESP_OK, Some (encode [(code ATLAS_CMD_FEATURE_REQUEST, t)])), g).
Proof.
  intros Hd Hreg Hi Hli Hnt msg t Ht. unfold requestReputationCallback, msg.
  erewrite G_bind_run by (by apply registered_device_run). rewrite Hreg.
  assert (Hwf : Forall wf_cmd (trust_request i nt)) by (repeat (apply Forall_cons; split); done).
  erewrite G_bind_run by (apply glift_run, parsed_commands_encode; done). cbn [pointers trust_request].
  change (mk_AtlasCommand _ _ _ :: _) with (pointers (trust_request i nt) []).
  erewrite G_bind_run by (apply glift_run, (for_return_pointers _ (request_step i)); auto using request_body_step).
  assert (Hf : fold_return (request_step i) (trust_request i nt) (mk_feature_args [] None) = inl (mk_feature_args i (Some nt))).
  { unfold trust_request. cbn [fold_return]. unfold request_step at 1. cbn [fst snd].
    rewrite decide_True, decide_False, decide_True by done. unfold request_step. cbn [fst snd].
    rewrite decide_False, decide_True, decide_False by (done || rewrite blen_be16; lia). by rewrite of_be16_be16. }
  rewrite Hf. cbn [fa_identity fa_sensorType]. rewrite decide_False by done. unfold getTrustedDevice. grun. fold t.
  case_decide; [done|]. erewrite G_bind_run by (apply glift_run; by apply reply_encode). cbv iota.
  by erewrite G_bind_run by (by apply glift_run, mem_load_all).
Qed.
End FeedbackMessage.

(** * Theorems *)

(** C13: A round of the system reputation, from any state in which every device has its
    network and its feedback, goes through all devices: each one has one
    transaction more, a score between 0 and 1 that the cloud is told, counts in
    order, and nothing else of it changes; no device comes or goes; and in every
    network of the order of trust the device named is one that no other scores
    above, or nobody when no score is above 0. *)
Theorem reputation_round `{E : GwEnv} `{HO : HashOrder} `{HostEndian} (g : gateway) :
  map_Forall rep_ready (devices_ g) ->
  exists g', sysRepAlarmCallback g = Ok (tt, g') /\
    (forall k, match devices_ g !! k with
      | None => devices_ g' !! k = None
      | Some d => exists m m' fb, deviceReputation_ d !! ATLAS_NETWORK_SYSTEM = Some m /\
          devices_ g' !! k = Some (dev_set_rep (<[ATLAS_NETWORK_SYSTEM := m']> (deviceReputation_ d)) fb d) /\
          totalTrans_ m' = totalTrans_ m + 1 /\ counts_ok m' /\ shape m' = shape m /\
          dge (reputationScore_ m') d0 = true /\ dge d1 (reputationScore_ m') = true /\
          GwCloud k [(cstr "systemReputation", to_string (reputationScore_ m'))] ∈ gw_out g'
      end) /\
    (forall nt, match trustedDevices_ g' !! nt with
      | None => trustedDevices_ g !! nt = None
      | Some t => is_Some (trustedDevices_ g !! nt) /\ best_device nt (devices_ g') t
      end).
Proof.
  intros Hg. destruct (sysRep_run g Hg) as (g1 & Hv & Hrun). eexists. split; [exact Hrun|]. cbn. split; [|intros nt; apply reordered].
  intros k. pose proof (visited_lookup round_turn g g1 k Hv) as Hk. destruct (devices_ g !! k) as [d|] eqn:Hd; [|done].
  destruct Hk as (d' & evs & Hd' & Hturn & Hevs).
  destruct (round_ready _ _ _ _ _ (Hg k d Hd) Hturn) as (_ & _ & m & m' & v & Hm & Hm' & Hv' & Hu & Hsh & Hc & Ht).
  destruct (Hg k d Hd) as (_ & _ & m0 & Hm0 & Hsh0 & _).
  destruct Hturn as (m1 & i & p & s & interval & v1 & m1' & Hm1 & _ & _ & -> & _ & ->).
  cbn in Hm'. rewrite lookup_insert_eq in Hm'. injection Hm' as ->. exists m, m'. eexists. split; [done|]. split; [done|].
  split; [done|]. split; [done|]. split; [congruence|]. rewrite Hv'. apply unit_double_bounds in Hu as [? ?].
  rewrite <- Hv' at 3. split; [done|]. split; [done|]. apply Hevs. left.
Qed.

(** A registered device with fresh networks. *)
Definition fresh_system : AtlasDeviceFeatureManager := mk_manager system_features 0 0 d0 (tenths 8).
Definition fresh_data : AtlasDeviceFeatureManager :=
  mk_manager [mk_feature ATLAS_DEVICE_FEATURE_SENSOR (tenths 7) 0; mk_feature ATLAS_DEVICE_FEATURE_RESP_TIME (tenths 3) 0] 0 0 d0 (tenths 8).

Definition rated_dev : AtlasDevice :=
  dev_set_rep (<[ATLAS_NETWORK_SENSOR_TEMPERATURE := fresh_data]> {[ ATLAS_NETWORK_SYSTEM := fresh_system ]})
    (feedback_state 0 0 new_fwstats) policy_dev.

Definition rated_gw : gateway :=
  mk_gateway sim_gw {[ dev := rated_dev ]} true idle_xfer [] (30, one_device dev (cstr "secret")) new_trusted.

Lemma rated_ready : map_Forall rep_ready (devices_ rated_gw).
Proof.
  apply map_Forall_singleton. split; [reflexivity|]. split; [exists 0, 0, new_fwstats; reflexivity|]. exists fresh_system.
  split; [reflexivity|]. split; [reflexivity|]. split; [|cbn; unfold INT_MAX; lia].
  split; [repeat constructor; cbn; lia|]. cbn. unfold INT_MAX. lia.
Qed.

Lemma reputation_round_witness :
  exists g', @sysRepAlarmCallback sim_gw key_order rated_gw = Ok (tt, g') /\
    (forall k, match devices_ rated_gw !! k with
      | None => devices_ g' !! k = None
      | Some d => exists m m' fb, deviceReputation_ d !! ATLAS_NETWORK_SYSTEM = Some m /\
          devices_ g' !! k = Some (dev_set_rep (<[ATLAS_NETWORK_SYSTEM := m']> (deviceReputation_ d)) fb d) /\
          totalTrans_ m' = totalTrans_ m + 1 /\ counts_ok m' /\ shape m' = shape m /\
          dge (reputationScore_ m') d0 = true /\ dge d1 (reputationScore_ m') = true /\
          GwCloud k [(cstr "systemReputation", to_string (reputationScore_ m'))] ∈ gw_out g'
      end) /\
    (forall nt, match trustedDevices_ g' !! nt with
      | None => trustedDevices_ rated_gw !! nt = None
      | Some t => is_Some (trustedDevices_ rated_gw !! nt) /\ best_device nt (devices_ g') t
      end).
Proof. apply (@reputation_round sim_gw key_order true rated_gw). apply rated_ready. Defined.

Lemma Ok_inj {A} (a b : A) : Ok a = Ok b -> a = b.
Proof. by intros [=]. Qed.

(** The satisfaction of the system network. *)
Lemma system_satisfaction m a b c : shape m = system_shape ->
  feedbackThreshold_ m = tenths 8 /\
  satisfaction m d0 [(ATLAS_FEATURE_REGISTER_TIME, a); (ATLAS_FEATURE_KEEPALIVE_PACKETS, b); (ATLAS_FEATURE_VALID_PACKETS, c)] =
  Ok (dadd (dadd (dadd d0 (dmul a (tenths 4))) (dmul b (tenths 3))) (dmul c (tenths 3))).
Proof.
  intros Hsh. unfold shape, system_shape in Hsh. cbn [system_features fmap list_fmap featureType_ weight_] in Hsh.
  injection Hsh as Hfs Hth. split; [done|].
  destruct m as [[|[t1 w1 s1] [|[t2 w2 s2] [|[t3 w3 s3] [|f fs]]]] ts tt sc th]; cbn in Hfs; try discriminate.
  injection Hfs as -> -> -> -> -> ->. cbn [satisfaction]. unfold feature_at. cbn [features_].
  unfold feature_pos. cbn [featureType_]. repeat (first [rewrite decide_True by done|rewrite decide_False by done]; cbn [lookup list_lookup]; rewrite ?res_bind_ok).
  done.
Qed.

(** A device that has sent no packets since the last round cannot succeed in this
    one: although it was registered throughout the minute and sent every keep-alive,
    the default for packets is 0 ([const int] of 0.4) and its satisfaction stays
    below the threshold, so its successes stay as they were. *)
Theorem idle_never_succeeds `{E : GwEnv} `{HO : HashOrder} `{HostEndian} (g : gateway) (k : list byte) (d : AtlasDevice)
    (i p : Z) (s : AtlasFirewallStats) (m : AtlasDeviceFeatureManager) :
  map_Forall rep_ready (devices_ g) -> devices_ g !! k = Some d ->
  feedback_ d = feedback_state i p s -> deviceReputation_ d !! ATLAS_NETWORK_SYSTEM = Some m ->
  txPassedPkts_ (stats_ d) = txPassedPkts_ s -> txDroppedPkts_ (stats_ d) = txDroppedPkts_ s ->
  exists g' d' i' p' s' m', sysRepAlarmCallback g = Ok (tt, g') /\ devices_ g' !! k = Some d' /\
    feedback_ d' = feedback_state i' p' s' /\ deviceReputation_ d' !! ATLAS_NETWORK_SYSTEM = Some m' /\
    totalTrans_ m' = totalTrans_ m + 1 /\
    (0 <= i' - i <= 60 -> 0 <= p' - p <= 3 -> totalSuccessTrans_ m' = totalSuccessTrans_ m).
Proof.
  intros Hg Hd Hfb Hm Hp1 Hp2. destruct (sysRep_run g Hg) as (g1 & Hv & Hrun).
  pose proof (visited_lookup round_turn g g1 k Hv) as Hk. rewrite Hd in Hk.
  destruct Hk as (d' & evs & Hd' & (m1 & i1 & p1 & s1 & interval & v & m' & Hm1 & Hfb1 & Hrep & -> & _) & _).
  rewrite Hm in Hm1. injection Hm1 as <-. rewrite Hfb in Hfb1. injection Hfb1 as <- <- <-.
  eexists _, _, interval, (keepAlivePkts_ d), _, m'. split; [exact Hrun|]. split; [exact Hd'|].
  split; [reflexivity|]. split; [apply lookup_insert_eq|].
  destruct (Hg k d Hd) as (_ & _ & m0 & Hm0 & Hsh & Hc & Hmax). rewrite Hm in Hm0. injection Hm0 as <-.
  destruct (round_matrix_ok m i p s interval (keepAlivePkts_ d) (stats_ d) Hsh) as [Hnd Hall].
  destruct (computeReputation_spec m _ Hc Hmax Hnd Hall) as (sat & v1 & m1 & Hsat & Hrep' & _ & _ & _ & _ & Ht & Hsucc).
  rewrite Hrep in Hrep'. injection Hrep' as <- <-. split; [done|]. intros Hi Hka. rewrite Hsucc.
  assert (Hidle : (packets_feedback (stats_ d) s).1 = double_of_int ATLAS_PACKETS_DEFAULT_FEEDBACK).
  { unfold packets_feedback. rewrite Hp1, Hp2. do 2 (rewrite (decide_True (P := _ >= _)) by lia). by rewrite !Z.sub_diag. }
  unfold round_matrix in Hsat. rewrite Hidle in Hsat. edestruct system_satisfaction as [Hth Hs]; [exact Hsh|].
  rewrite Hs in Hsat. apply Ok_inj in Hsat as <-. rewrite Hth. unfold sample_feedback.
  pose proof (idle_below (interval - i) (keepAlivePkts_ d - p) Hi Hka) as Hb. unfold sample_feedback in Hb.
  rewrite !Z.sub_0_r in Hb. rewrite Hb. lia.
Qed.

Lemma idle_never_succeeds_witness :
  exists g' d' i' p' s' m', @sysRepAlarmCallback sim_gw key_order rated_gw = Ok (tt, g') /\ devices_ g' !! dev = Some d' /\
    feedback_ d' = feedback_state i' p' s' /\ deviceReputation_ d' !! ATLAS_NETWORK_SYSTEM = Some m' /\
    totalTrans_ m' = totalTrans_ fresh_system + 1 /\
    (0 <= i' - 0 <= 60 -> 0 <= p' - 0 <= 3 -> totalSuccessTrans_ m' = totalSuccessTrans_ fresh_system).
Proof.
  apply (@idle_never_succeeds sim_gw key_order true rated_gw dev rated_dev 0 0 new_fwstats fresh_system).
  - apply rated_ready.
  - reflexivity.
  - reflexivity.
  - reflexivity.
  - reflexivity.
  - reflexivity.
Defined.

(** Scores a registered device sends about another reach the temperature network of
    that device: the request is accepted, the network has one transaction more, a
    score between 0 and 1 and counts in order, no other device changes, and the
    order of trust names the best device again. *)
Theorem feedback_counted `{E : GwEnv} `{HO : HashOrder} `{HostEndian} (g : gateway) (i j : list byte) (d e : AtlasDevice)
    (a b : Z) (m : AtlasDeviceFeatureManager) :
  devices_ g !! i = Some d -> registered_ d = true -> i <> [] -> blen i < 65536 ->
  devices_ g !! j = Some e -> j <> [] -> blen j < 65000 -> is_u16 a -> is_u16 b ->
  deviceReputation_ e !! ATLAS_NETWORK_SENSOR_TEMPERATURE = Some m -> counts_ok m -> totalTrans_ m < INT_MAX ->
  has_feature m ATLAS_DEVICE_FEATURE_SENSOR -> has_feature m ATLAS_DEVICE_FEATURE_RESP_TIME ->
  let msg := encode (feedback_message i (rating j ATLAS_NETWORK_SENSOR_TEMPERATURE a b)) in
  exists v m' t g', feedbackReputationCallback i (Some msg) (blen msg) g = Ok ((ATLAS_COAP_RESP_OK, None), g') /\
    computeReputation m (rating_matrix a b) = Ok (v, m') /\ totalTrans_ m' = totalTrans_ m + 1 /\ counts_ok m' /\
    reputationScore_ m' = v /\ dge v d0 = true /\ dge d1 v = true /\
    devices_ g' = <[j := setReputation ATLAS_NETWORK_SENSOR_TEMPERATURE m' e]> (devices_ g) /\
    trustedDevices_ g' !! ATLAS_NETWORK_SENSOR_TEMPERATURE = Some t /\
    best_device ATLAS_NETWORK_SENSOR_TEMPERATURE (devices_ g') t.
Proof.
  intros Hd Hreg Hi Hli He Hj Hlj Ha Hb Hm Hc Hmax Hf1 Hf2 msg. unfold msg. rewrite (rating_run i d) by done.
  assert (Hnd : NoDup (rating_matrix a b).*1).
  { apply NoDup_cons. split; [intros ?%list_elem_of_singleton; done|apply NoDup_singleton]. }
  destruct (computeReputation_spec m (rating_matrix a b) Hc Hmax Hnd) as (s & v & m' & _ & Hrep & Hu & Hv & Hc' & _ & Ht & _).
  { intros t. cbn [rating_matrix fmap list_fmap fst]. rewrite !elem_of_cons. intros [->|[->|[]%elem_of_nil]]; done. }
  destruct (updateDataReputation_run j ATLAS_NETWORK_SENSOR_TEMPERATURE (rating_matrix a b) e v m' g) as (x & Hrun); [done| |by unfold getReputation; rewrite Hm|].
  { split; [done|]. split; [done|]. unfold hasReputation. rewrite Hm. by apply bool_decide_eq_true. }
  erewrite G_bind_run by exact Hrun. eexists v, m', _, _. split; [done|]. apply unit_double_bounds in Hu as [? ?].
  do 6 (split; [done|]). split; [done|]. split; [cbn; apply lookup_insert_eq|]. apply mostTrusted_best.
Qed.

Lemma feedback_counted_witness :
  let msg := encode (feedback_message dev (rating dev ATLAS_NETWORK_SENSOR_TEMPERATURE 90 80)) in
  exists v m' t g', @feedbackReputationCallback sim_gw key_order true dev (Some msg) (blen msg) rated_gw = Ok ((ATLAS_COAP_RESP_OK, None), g') /\
    computeReputation fresh_data (rating_matrix 90 80) = Ok (v, m') /\ totalTrans_ m' = totalTrans_ fresh_data + 1 /\ counts_ok m' /\
    reputationScore_ m' = v /\ dge v d0 = true /\ dge d1 v = true /\
    devices_ g' = <[dev := setReputation ATLAS_NETWORK_SENSOR_TEMPERATURE m' rated_dev]> (devices_ rated_gw) /\
    trustedDevices_ g' !! ATLAS_NETWORK_SENSOR_TEMPERATURE = Some t /\
    best_device ATLAS_NETWORK_SENSOR_TEMPERATURE (devices_ g') t.
Proof.
  apply (@feedback_counted sim_gw key_order true rated_gw dev dev rated_dev rated_dev 90 80 fresh_data).
  - reflexivity.
  - reflexivity.
  - discriminate.
  - vm_compute. reflexivity.
  - reflexivity.
  - discriminate.
  - vm_compute. reflexivity.
  - unfold is_u16. lia.
  - unfold is_u16. lia.
  - reflexivity.
  - split; [repeat constructor; cbn; lia|]. cbn. unfold INT_MAX. lia.
  - cbn. unfold INT_MAX. lia.
  - apply has_feature_types. left.
  - apply has_feature_types. right. left.
Defined.

(** Feedback with a value longer than the 16-bit variable it is copied to writes
    past that variable, whatever comes before and after it. *)
Theorem feedback_overflow `{E : GwEnv} `{HO : HashOrder} `{HostEndian} (g : gateway) (i : list byte) (d : AtlasDevice)
    (pre post : list cmd) (t : Z) (v : list byte) :
  devices_ g !! i = Some d -> registered_ d = true -> i <> [] ->
  Forall copy_fits pre -> t ∈ copied -> 2 < blen v ->
  Forall wf_cmd (pre ++ (t, v) :: post) -> Forall wf_cmd (feedback_message i (pre ++ (t, v) :: post)) ->
  let msg := encode (feedback_message i (pre ++ (t, v) :: post)) in
  feedbackReputationCallback i (Some msg) (blen msg) g = Fault OutOfBounds.
Proof.
  intros Hd Hreg Hi Hpre Ht Hv Hwf Hmsg msg. unfold msg.
  rewrite (feedback_run i d) by (done || by intros [_ ?]%app_eq_nil). by rewrite overflow_run.
Qed.

Lemma feedback_overflow_witness :
  let msg := encode (feedback_message dev ([] ++ (code ATLAS_CMD_FEEDBACK_SENSOR, [x00; x5a; x01]) :: [])) in
  @feedbackReputationCallback sim_gw key_order true dev (Some msg) (blen msg) rated_gw = Fault OutOfBounds.
Proof.
  apply (@feedback_overflow sim_gw key_order true rated_gw dev rated_dev [] [] (code ATLAS_CMD_FEEDBACK_SENSOR) [x00; x5a; x01]).
  - reflexivity.
  - reflexivity.
  - discriminate.
  - apply Forall_nil. exact I.
  - right. left.
  - vm_compute. reflexivity.
  - repeat constructor; done.
  - repeat constructor; done.
Defined.

(** A device can push a score above 1, its own included: repeating the sensor score
    in one message counts it as often for the feature as it is repeated, but once
    for the network. With a fresh network one message is enough for a score of 2. *)
Theorem feedback_inflated `{E : GwEnv} `{HO : HashOrder} `{HostEndian} (g : gateway) (i : list byte) (d : AtlasDevice) :
  devices_ g !! i = Some d -> registered_ d = true -> i <> [] -> blen i < 65000 ->
  deviceReputation_ d !! ATLAS_NETWORK_SENSOR_TEMPERATURE = Some fresh_data ->
  let msg := encode (feedback_message i (inflated i ATLAS_NETWORK_SENSOR_TEMPERATURE 100 100)) in
  exists m' g', feedbackReputationCallback i (Some msg) (blen msg) g = Ok ((ATLAS_COAP_RESP_OK, None), g') /\
    devices_ g' !! i = Some (setReputation ATLAS_NETWORK_SENSOR_TEMPERATURE m' d) /\
    reputationScore_ m' = double_of_int 2 /\ dgt (reputationScore_ m') d1 = true.
Proof.
  intros Hd Hreg Hi Hli Hm msg. unfold msg. rewrite (inflated_run i d) by (done || lia).
  assert (Hrep : exists m', computeReputation fresh_data (inflated_matrix 100 100) = Ok (double_of_int 2, m') /\
    reputationScore_ m' = double_of_int 2) by (eexists; split; vm_compute; reflexivity).
  destruct Hrep as (m' & Hrep & Hs).
  destruct (updateDataReputation_run i ATLAS_NETWORK_SENSOR_TEMPERATURE (inflated_matrix 100 100) d (double_of_int 2) m' g) as (x & Hrun);
    [exact Hd| |unfold getReputation; rewrite Hm; exact Hrep|].
  { split; [split; reflexivity|]. split; [discriminate|]. unfold hasReputation. rewrite Hm. apply bool_decide_eq_true. by eexists. }
  erewrite G_bind_run by exact Hrun. eexists m', _. split; [reflexivity|]. split; [cbn; apply lookup_insert_eq|].
  rewrite Hs. split; [reflexivity|]. vm_compute. reflexivity.
Qed.

Lemma feedback_inflated_witness :
  let msg := encode (feedback_message dev (inflated dev ATLAS_NETWORK_SENSOR_TEMPERATURE 100 100)) in
  exists m' g', @feedbackReputationCallback sim_gw key_order true dev (Some msg) (blen msg) rated_gw = Ok ((ATLAS_COAP_RESP_OK, None), g') /\
    devices_ g' !! dev = Some (setReputation ATLAS_NETWORK_SENSOR_TEMPERATURE m' rated_dev) /\
    reputationScore_ m' = double_of_int 2 /\ dgt (reputationScore_ m') d1 = true.
Proof.
  apply (@feedback_inflated sim_gw key_order true rated_gw dev rated_dev).
  - reflexivity.
  - reflexivity.
  - discriminate.
  - vm_compute. reflexivity.
  - reflexivity.
Defined.

(** C36: What the database keeps of a network: inserted when a device is new, updated
    after every transaction, and read back when the gateway starts again, it has
    the same counts and the same features. *)
Theorem reputation_persists `{E : GwEnv} (r : device_row) (type : Z) (m m' m0 m2 : AtlasDeviceFeatureManager) (x x1 x2 x3 : gext) :
  tables_ok (tables x) -> bayes_ok (t_bayes (tables x)) -> r ∈ t_device (tables x) ->
  networks_of (dr_identity r) type (tables x) = [] ->
  manager_wf m -> manager_wf m' -> shape m' = shape m -> features_ m0 = [] ->
  insertBayesParams (dr_identity r) type m x = (true, x1) ->
  updateBayesParams (dr_identity r) type m' x1 = (true, x2) ->
  selectBayesParams (dr_identity r) type m0 x2 = (Ok (true, m2), x3) ->
  totalTrans_ m2 = totalTrans_ m' /\ totalSuccessTrans_ m2 = totalSuccessTrans_ m' /\ features_ m2 ≡ₚ features_ m' /\
  feedbackThreshold_ m2 = feedbackThreshold_ m0.
Proof.
  intros Ht Hb Hr Hnone Hm Hm' Hsh H0 Hins Hupd Hsel. eapply selectBayesParams_stored; [|exact Hm'|exact H0|exact Hsel].
  eapply updateBayesParams_stored; [|exact Hm|exact Hsh|exact Hupd]. by eapply insertBayesParams_stored.
Qed.

(** A network after one good transaction. *)
Definition counted_data : AtlasDeviceFeatureManager :=
  mk_manager [mk_feature ATLAS_DEVICE_FEATURE_SENSOR (tenths 7) 1; mk_feature ATLAS_DEVICE_FEATURE_RESP_TIME (tenths 3) 1] 1 1 d1 (tenths 8).

Lemma reputation_persists_witness :
  let x : @gext sim_gw := (0, one_device dev (cstr "secret")) in
  let x1 := (@insertBayesParams _ (@gext_sql sim_gw) dev ATLAS_NETWORK_SENSOR_TEMPERATURE fresh_data x).2 in
  let x2 := (@updateBayesParams _ (@gext_sql sim_gw) dev ATLAS_NETWORK_SENSOR_TEMPERATURE counted_data x1).2 in
  exists m2 x3, @selectBayesParams _ (@gext_sql sim_gw) dev ATLAS_NETWORK_SENSOR_TEMPERATURE new_manager x2 = (Ok (true, m2), x3) /\
    totalTrans_ m2 = totalTrans_ counted_data /\ totalSuccessTrans_ m2 = totalSuccessTrans_ counted_data /\
    features_ m2 ≡ₚ features_ counted_data /\ feedbackThreshold_ m2 = feedbackThreshold_ new_manager.
Proof.
  intros x x1 x2.
  assert (Hsel : exists m2 x3, @selectBayesParams _ (@gext_sql sim_gw) dev ATLAS_NETWORK_SENSOR_TEMPERATURE new_manager x2 = (Ok (true, m2), x3))
    by (eexists _, _; vm_compute; reflexivity).
  destruct Hsel as (m2 & x3 & Hsel). exists m2, x3. split; [exact Hsel|].
  apply (@reputation_persists sim_gw (mk_device_row 1 dev (cstr "secret")) ATLAS_NETWORK_SENSOR_TEMPERATURE fresh_data counted_data new_manager m2 x x1 x2 x3).
  - split; [|split]; cbn.
    + apply NoDup_singleton.
    + apply NoDup_singleton.
    + repeat constructor; cbn; lia.
  - split; [|split; apply Forall_nil; exact I]. cbn. unfold INT_MAX. lia.
  - left.
  - reflexivity.
  - split; [|split; [|split]]; [|unfold is_int, INT_MAX; cbn; lia|unfold is_int, INT_MAX; cbn; lia|].
    + apply NoDup_cons. split; [intros ?%list_elem_of_singleton; discriminate|apply NoDup_singleton].
    + unfold is_int, INT_MAX. do 2 (apply Forall_cons; split; [vm_compute; repeat split; discriminate|]). apply Forall_nil. exact I.
  - split; [|split; [|split]]; [|unfold is_int, INT_MAX; cbn; lia|unfold is_int, INT_MAX; cbn; lia|].
    + apply NoDup_cons. split; [intros ?%list_elem_of_singleton; discriminate|apply NoDup_singleton].
    + unfold is_int, INT_MAX. do 2 (apply Forall_cons; split; [vm_compute; repeat split; discriminate|]). apply Forall_nil. exact I.
  - reflexivity.
  - reflexivity.
  - vm_compute. reflexivity.
  - vm_compute. reflexivity.
  - exact Hsel.
Defined.
