(* ===== verification/GwApprove.v ===== *)
(** The gateway's side of the cloud: commands for devices
    (claim_approve/AtlasApprove.cpp, the command queues of device/AtlasDevice.cpp),
    the claiming of the gateway by an owner (claim_approve/AtlasClaim.cpp,
    device/AtlasGateway.cpp) and the dispatch of the cloud's messages
    (cloud/AtlasCloudCmdParser.cpp, cloud/AtlasRegisterCloud.cpp).

    A command travels cloud, database, queue [recvCmds_] of its device, device,
    queue [execCmds_], cloud. The operations of a device are in the monad [G] of
    the gateway; those of the singletons are in [C], over [control]. JsonCpp, the
    MQTT client library, boost's base64 iterators, OpenSSL's HMAC and
    [std::shuffle] are parameters ([CloudEnv]). A JSON object to be published is
    recorded as its leaves. *)
From S2P Require Import Prelude Defs CLib Command GwDefs GwBatch GwXfer GwFilter GwBayes GwStore GwNetStore GwDevice GwServer GwReputation GwLifecycle.
Import GwType.

(** * The environment *)

Class CloudEnv `{GwEnv} := {
  (** [Json::Value]; what throws is [Fault Uncaught] *)
  Value : Type;
  json_parse : list byte -> Value;
  json_member : Value -> list byte -> res Value;
  asString : Value -> res (list byte);
  asUInt : Value -> res Z;
  asUInt_range v z : asUInt v = Ok z -> is_u32 z;
  (** boost's iterators on a text without '=': [None] when they throw *)
  from_base64 : list byte -> option (list byte);
  HMAC_sha512 : list byte -> list byte -> list byte;
  (** the MQTT client: [publish] may throw ([false]) *)
  mqtt_connTok : gext -> bool;
  mqtt_is_connected : gext -> bool;
  mqtt_publish : list byte -> list (list byte * list byte) -> gext -> bool * gext;
  (** [std::shuffle] of a string *)
  shuffle : list byte -> gext -> list byte * gext;
  (** [AtlasIdentity] *)
  gateway_identity : list byte;
  gateway_psk : list byte;
  mqtt_publish_tables topic fields x : tables (mqtt_publish topic fields x).2 = tables x;
  shuffle_tables s x : tables (shuffle s x).2 = tables x;
}.

(** * State *)

(** claim_approve/AtlasApprove.h; an alarm is whether it is started. *)
Record AtlasApprove := mk_approve {
  pushCommandAlarm_ : bool;
  statusACKAlarm_ : bool;
  sequenceNumber_ : Z;        (* uint32_t *)
  msgACKScheduled_ : bool;
  counterACK_ : Z;            (* uint8_t *)
}.

(** device/AtlasGateway.h *)
Record AtlasGateway := mk_owner {
  claimed_ : bool;
  ownerSecretKey_ : list byte;
  ownerIdentity_ : list byte;
}.

(** claim_approve/AtlasClaim.h *)
Record AtlasClaim := mk_claim {
  shortCode_ : list byte;
  shortCodeAlarm_ : bool;
}.

Record control `{GwEnv} := mk_control {
  ct_gw : gateway;
  ct_approve : AtlasApprove;
  ct_owner : AtlasGateway;
  ct_claim : AtlasClaim;
  cloud_registered : bool;    (* AtlasRegisterCloud::registered_ *)
}.

(** * The monad *)

Definition C `{GwEnv} (A : Type) : Type := control -> res (A * control).

#[export] Instance C_ret `{GwEnv} : MRet C := fun A a c => Ok (a, c).
#[export] Instance C_bind `{GwEnv} : MBind C := fun A B k m c =>
  match m c with Ok (a, c) => k a c | Fault f => Fault f end.

Section ControlMonad.
Context `{E : GwEnv}.

Definition set_ct_gw (g : gateway) (c : control) : control :=
  mk_control E g (ct_approve c) (ct_owner c) (ct_claim c) (cloud_registered c).
Definition set_approve (a : AtlasApprove) (c : control) : control :=
  mk_control E (ct_gw c) a (ct_owner c) (ct_claim c) (cloud_registered c).
Definition set_owner (o : AtlasGateway) (c : control) : control :=
  mk_control E (ct_gw c) (ct_approve c) o (ct_claim c) (cloud_registered c).
Definition set_claim (k : AtlasClaim) (c : control) : control :=
  mk_control E (ct_gw c) (ct_approve c) (ct_owner c) k (cloud_registered c).
Definition set_cloud_registered (b : bool) (c : control) : control :=
  mk_control E (ct_gw c) (ct_approve c) (ct_owner c) (ct_claim c) b.

Definition clift {A} (r : res A) : C A := fun c => match r with Ok a => Ok (a, c) | Fault f => Fault f end.
Definition cget {A} (f : control -> A) : C A := fun c => Ok (f c, c).
Definition cmodify (f : control -> control) : C unit := fun c => Ok (tt, f c).
Definition on_gw {A} (m : G A) : C A := fun c =>
  match m (ct_gw c) with Ok (a, g) => Ok (a, set_ct_gw g c) | Fault f => Fault f end.

Definition approve_seq (seq : Z) (a : AtlasApprove) : AtlasApprove :=
  mk_approve (pushCommandAlarm_ a) (statusACKAlarm_ a) seq (msgACKScheduled_ a) (counterACK_ a).
Definition approve_ack (alarm scheduled : bool) (counter : Z) (a : AtlasApprove) : AtlasApprove :=
  mk_approve (pushCommandAlarm_ a) alarm (sequenceNumber_ a) scheduled counter.
Definition approve_push (alarm : bool) (a : AtlasApprove) : AtlasApprove :=
  mk_approve alarm (statusACKAlarm_ a) (sequenceNumber_ a) (msgACKScheduled_ a) (counterACK_ a).
Definition modify_approve (f : AtlasApprove -> AtlasApprove) : C unit :=
  cmodify (fun c => set_approve (f (ct_approve c)) c).
End ControlMonad.

Definition ATLAS_TO_CLOUD_TOPIC : list byte := cstr "-to-cloud".
Definition ATLAS_CMD_TYPE_JSON_KEY : list byte := cstr "commandType".
Definition ATLAS_CMD_PAYLOAD_JSON_KEY : list byte := cstr "commandPayload".
Definition ATLAS_CMD_PAYLOAD_CLIENT_JSON_KEY : list byte := cstr "clientIdentity".
Definition ATLAS_CMD_PAYLOAD_TYPE_JSON_KEY : list byte := cstr "type".
Definition ATLAS_CMD_PAYLOAD_PAYLOAD_JSON_KEY : list byte := cstr "payload".
Definition ATLAS_CMD_PAYLOAD_SEQ_JSON_KEY : list byte := cstr "seqNo".
Definition ATLAS_CMD_PAYLOAD_SIGNATURE_JSON_KEY : list byte := cstr "signature".
Definition ATLAS_CMD_GATEWAY_CLIENT_ACK : list byte := cstr "ATLAS_CMD_GATEWAY_CLIENT_ACK".
Definition ATLAS_CMD_GATEWAY_CLIENT_DONE : list byte := cstr "ATLAS_CMD_GATEWAY_CLIENT_DONE".
Definition ATLAS_PUSH_APPROVED_COMMAND : list byte := cstr "client/approved/command/push".
Definition ATLAS_PUSH_COMMAND_RETRY_NO : Z := 3.
Definition ATLAS_STATUS_COMMAND_RETRY_NO : Z := 3.

Section Approve.
Context `{E : GwEnv} `{CE : !CloudEnv} `{HO : HashOrder} `{HostEndian}.

(** * mqtt_client/AtlasMqttClient.cpp *)

Definition tryPublishMessage (topic : list byte) (fields : list (list byte * list byte)) : G bool :=
  x ← gget gw_ext;
  if mqtt_connTok x then
    if mqtt_is_connected x then
      sent ← gcall (mqtt_publish topic fields);
      if (sent : bool) then gemit (GwPublish topic fields) ≫= fun _ => mret true else mret false
    else mret false
  else mret false.

Definition publish_to_cloud (fields : list (list byte * list byte)) : G bool :=
  tryPublishMessage (gateway_psk ++ ATLAS_TO_CLOUD_TOPIC) fields.

(** * Commands of a device (device/AtlasDevice.cpp) *)

(** [execCmds_.front()]: undefined on an empty list. *)
Definition getExecutedCommand (d : AtlasDevice) : res AtlasCommandDevice :=
  match execCmds_ d with c :: _ => Ok c | [] => Fault OutOfBounds end.

Definition removeExecutedCommand (d : AtlasDevice) : AtlasDevice :=
  dev_set_cmds (recvCmds_ d) (tail (execCmds_ d)) (deviceCmdTimeouts_ d) d.
Definition pop_recv (d : AtlasDevice) : AtlasDevice :=
  dev_set_cmds (tail (recvCmds_ d)) (execCmds_ d) (deviceCmdTimeouts_ d) d.
Definition front_in_progress (b : bool) (d : AtlasDevice) : AtlasDevice :=
  dev_set_cmds (match recvCmds_ d with c :: l => setInProgress b c :: l | [] => [] end)
    (execCmds_ d) (deviceCmdTimeouts_ d) d.
Definition set_timeouts (n : Z) (d : AtlasDevice) : AtlasDevice :=
  dev_set_cmds (recvCmds_ d) (execCmds_ d) n d.

(** The DONE message for the first executed command of a device. *)
Definition done_fields (c : AtlasCommandDevice) (deviceIdentity : list byte) : list (list byte * list byte) :=
  [(ATLAS_CMD_TYPE_JSON_KEY, ATLAS_CMD_GATEWAY_CLIENT_DONE);
   (ATLAS_CMD_PAYLOAD_SEQ_JSON_KEY, dec (cd_sequenceNumber c));
   (ATLAS_CMD_PAYLOAD_CLIENT_JSON_KEY, deviceIdentity)].

Definition responseCommandDONE (deviceIdentity : list byte) : G bool :=
  found ← getDevice deviceIdentity;
  if (found : bool) then
    d ← this deviceIdentity;
    cmdDevice ← glift (getExecutedCommand d);
    publish_to_cloud (done_fields cmdDevice deviceIdentity)
  else mret false.

Definition markCommandAsDone (k : list byte) : G unit :=
  d ← this k;
  match recvCmds_ d with
  | [] => mret tt
  | cmdDevice :: _ =>
      result ← gcall (markExecutedDeviceCommand (cd_sequenceNumber cmdDevice));
      if (result : bool) then
        (* Transfer the device command from recv to the end of exec container *)
        update k (addExecDeviceCommand cmdDevice) ≫= fun _ =>
        (* Send command DONE status to cloud back-end *)
        responseCommandDONE (identity_ d) ≫= fun _ =>
        update k pop_recv
      else mret tt
  end.

(** [getCommandPayloadLength] is a [uint16_t], [getCommandPayload] of an empty
    payload is NULL. *)
Definition device_command (c : AtlasCommandDevice) : AtlasCommand :=
  if decide (commandPayload_ c = []) then new_AtlasCommand (DeviceType.device_type_code (commandTypeDevice_ c)) 0 None
  else new_AtlasCommand (DeviceType.device_type_code (commandTypeDevice_ c)) (u16 (blen (commandPayload_ c)))
         (Some (commandPayload_ c)).

Definition pushCommand (k : list byte) : G unit :=
  d ← this k;
  match recvCmds_ d with
  | [] => mret tt
  | cmdDevice :: _ =>
      if registered_ d then
        if inProgress cmdDevice then mret tt else
        let url := ATLAS_COAPS_SCHEME ++ ipPort_ d ++ cstr "/" ++ ATLAS_PUSH_APPROVED_COMMAND in
        '(buf, len) ← glift (serialized_commands [device_command cmdDevice]);
        payload ← glift (mem_load (default [] buf) 0 len);
        sent ← gcall (sendRequest url payload);
        if (sent : bool) then
          gemit (GwCoap k (psk_ d) url payload) ≫= fun _ => update k (front_in_progress true)
        else glift (Fault Uncaught)     (* the catch clause is for [const char *] *)
      else mret tt
  end.

Definition deviceCmdRespCallback (k : list byte) (respStatus : AtlasCoapResponse) : G unit :=
  d ← this k;
  match recvCmds_ d with
  | [] => mret tt
  | _ =>
      if decide (respStatus = ATLAS_COAP_RESP_OK) then
        (* Reset number of timeouts *)
        update k (set_timeouts 0) ≫= fun _ =>
        (* Mark command as DONE (executed by the client) *)
        markCommandAsDone k ≫= fun _ =>
        (* Drain the recv container *)
        pushCommand k
      else if decide (respStatus = ATLAS_COAP_RESP_TIMEOUT) then
        update k (front_in_progress false) ≫= fun _ =>
        if decide (deviceCmdTimeouts_ d = ATLAS_PUSH_COMMAND_RETRY_NO) then update k (set_timeouts 0) else
        update k (set_timeouts (u8 (deviceCmdTimeouts_ d + 1))) ≫= fun _ =>
        (* Try to push again the command to device *)
        pushCommand k
      else
        (* If client processed this request and returned an error *)
        update k (set_timeouts 0) ≫= fun _ => update k (front_in_progress false)
  end.

(** * claim_approve/AtlasApprove.cpp *)

(** [payload[key].asString()] and [payload[key].asUInt()] *)
Definition json_string (payload : Value) (key : list byte) : res (list byte) := v ← json_member payload key; asString v.
Definition json_uint (payload : Value) (key : list byte) : res Z := v ← json_member payload key; asUInt v.

Definition alarmCallback : G unit :=
  forEachDevice (fun k =>
    (* Event for sending device commands to client *)
    pushCommand k ≫= fun _ =>
    (* Event for sending DONE notification for executed device commands to cloud *)
    d ← this k;
    match execCmds_ d with
    | cmd :: _ => _ ← responseCommandDONE (deviceIdentity_ cmd); mret tt
    | [] => mret tt
    end).

Definition ack_fields (seq : Z) : list (list byte * list byte) :=
  [(ATLAS_CMD_TYPE_JSON_KEY, ATLAS_CMD_GATEWAY_CLIENT_ACK); (ATLAS_CMD_PAYLOAD_SEQ_JSON_KEY, dec seq)].

(** What a failed ACK does to the alarm and the counter. *)
Definition ack_failed (a : AtlasApprove) : AtlasApprove :=
  let a := if msgACKScheduled_ a then a else approve_ack true true (counterACK_ a) a in
  let a := if decide (counterACK_ a = ATLAS_STATUS_COMMAND_RETRY_NO) then approve_ack false false 0 a else a in
  approve_ack (statusACKAlarm_ a) (msgACKScheduled_ a) (u8 (counterACK_ a + 1)) a.

Definition responseCommandACK : C bool :=
  a ← cget ct_approve;
  delivered ← on_gw (publish_to_cloud (ack_fields (sequenceNumber_ a)));
  (* If message is not delivered, then schedule an ACK message *)
  if (delivered : bool) then mret true else modify_approve ack_failed ≫= fun _ => mret false.

Definition statusACKCallback : C unit :=
  result ← responseCommandACK;
  if (result : bool) then modify_approve (approve_ack false false 0) else mret tt.

Definition approve_start : C unit :=
  modify_approve (approve_seq 0) ≫= fun _ =>
  '(result, seq) ← on_gw (gcall getMaxSequenceNumber);
  match seq with Some z => modify_approve (approve_seq z) | None => mret tt end ≫= fun _ =>
  modify_approve (approve_push true).

Definition approve_stop : C unit := modify_approve (approve_push false).

Definition handleOldCommand (payload : Value) : C bool :=
  seq ← clift (json_uint payload ATLAS_CMD_PAYLOAD_SEQ_JSON_KEY);
  result ← on_gw (gcall (checkDeviceCommandBySeqNo seq));
  if (result : bool) then
    modify_approve (approve_seq seq) ≫= fun _ =>
    executed ← on_gw (gcall (checkDeviceCommandForExecution seq));
    if (executed : bool) then
      client ← clift (json_string payload ATLAS_CMD_PAYLOAD_CLIENT_JSON_KEY);
      on_gw (responseCommandDONE client)
    else responseCommandACK
  else mret false.

(** utils/AtlasUtils.cpp: [Ok None] is an exception; erasing more bytes than
    there are is undefined. *)
Definition base64_decode (input : list byte) : res (option (list byte)) :=
  let pad := length (base.filter (fun b => b = x3d) input) in
  match from_base64 ((fun b => if decide (b = x3d) then x41 else b) <$> input) with
  | None => Ok None
  | Some ret => if decide (pad <= length ret)%nat then Ok (Some (take (length ret - pad) ret)) else Fault OutOfBounds
  end.

(** The text the owner signs. *)
Definition signed_text (payload : Value) : res (list byte) :=
  client ← json_string payload ATLAS_CMD_PAYLOAD_CLIENT_JSON_KEY;
  type ← json_string payload ATLAS_CMD_PAYLOAD_TYPE_JSON_KEY;
  pl ← json_string payload ATLAS_CMD_PAYLOAD_PAYLOAD_JSON_KEY;
  seq ← json_string payload ATLAS_CMD_PAYLOAD_SEQ_JSON_KEY;
  Ok (gateway_identity ++ client ++ type ++ pl ++ seq).

Definition validateCommandSignature (ownerSecretKey : list byte) (payload : Value) : res bool :=
  key ← base64_decode ownerSecretKey;
  match key with
  | None => Fault Uncaught
  | Some key =>
      text ← signed_text payload;
      let hmacResult := HMAC_sha512 key text in
      (* everything in the try block that throws is caught *)
      match json_string payload ATLAS_CMD_PAYLOAD_SIGNATURE_JSON_KEY with
      | Ok s =>
          commandSignature ← base64_decode s;
          match commandSignature with
          | None => Ok false
          | Some commandSignature => Ok (bool_decide (hmacResult = commandSignature))
          end
      | Fault Uncaught => Ok false
      | Fault f => Fault f
      end
  end.

(** The second half of [handleClientCommand], for a new command. *)
Definition queue_command (payload : Value) (client type : list byte) (seq : Z) : C bool :=
  found ← on_gw (getDevice client);
  if negb found then mret false else
  pl ← clift (json_string payload ATLAS_CMD_PAYLOAD_PAYLOAD_JSON_KEY);
  (* Save command into the database *)
  result ← on_gw (gcall (insertDeviceCommand seq type pl client));
  if negb result then mret false else
  (* Insert command into received device commands container (list) *)
  on_gw (update client (addRecvDeviceCommand (new_AtlasCommandDevice client seq type pl))) ≫= fun _ =>
  modify_approve (approve_seq seq) ≫= fun _ =>
  result ← responseCommandACK;
  if negb result then mret false else
  (* Send the device command to client as soon as I received it *)
  on_gw (pushCommand client) ≫= fun _ => mret true.

Definition handleClientCommand (payload : Value) : C bool :=
  (* Sanity checks *)
  seqNo ← clift (json_string payload ATLAS_CMD_PAYLOAD_SEQ_JSON_KEY);
  if decide (seqNo = []) then mret false else
  client ← clift (json_string payload ATLAS_CMD_PAYLOAD_CLIENT_JSON_KEY);
  if decide (client = []) then mret false else
  type ← clift (json_string payload ATLAS_CMD_PAYLOAD_TYPE_JSON_KEY);
  if decide (type = []) then mret false else
  owner ← cget ct_owner;
  valid ← (if claimed_ owner then clift (validateCommandSignature (ownerSecretKey_ owner) payload) else mret true);
  if negb valid then mret false else
  (* Handle commands with an old sequence number *)
  seq ← clift (json_uint payload ATLAS_CMD_PAYLOAD_SEQ_JSON_KEY);
  a ← cget ct_approve;
  if decide (seq <= sequenceNumber_ a) then handleOldCommand payload else
  queue_command payload client type seq.

Definition handleCommandDoneAck (payload : Value) : G unit :=
  client ← glift (json_string payload ATLAS_CMD_PAYLOAD_CLIENT_JSON_KEY);
  found ← getDevice client;
  if negb found then mret tt else
  d ← this client;
  match execCmds_ d with
  | [] => mret tt
  | cmd :: _ =>
      seq ← glift (json_uint payload ATLAS_CMD_PAYLOAD_SEQ_JSON_KEY);
      if decide (cd_sequenceNumber cmd <> seq) then mret tt else
      result ← gcall (deleteDeviceCommand (cd_sequenceNumber cmd));
      if negb result then mret tt else
      update client removeExecutedCommand ≫= fun _ =>
      (* send additional commands in the done list (drain list)! *)
      _ ← responseCommandDONE (identity_ d); mret tt
  end.
End Approve.

(** * Claiming and the cloud's messages *)

Definition ATLAS_CLAIM_SHORT_CODE_ALPHABET : list byte := cstr "0123456789ABCDEFGHIJKLMNOPQRSTUVWXYZabcdefghijklmnopqrstuvwxyz".
Definition ATLAS_CLAIM_SHORT_CODE_LEN : nat := 6.
Definition ATLAS_CLAIM_SHORT_CODE_JSON_KEY : list byte := cstr "shortCode".
Definition ATLAS_CLAIM_SECRET_KEY_JSON_KEY : list byte := cstr "secretKey".
Definition ATLAS_CLAIM_OWNER_IDENTITY_JSON_KEY : list byte := cstr "ownerIdentity".
Definition ATLAS_CLAIM_ERR_ALREADY_CLAIMED : list byte := cstr "Gateway is already claimed by an owner!".
Definition ATLAS_CLAIM_ERR_EMPTY_PAYLOAD : list byte := cstr "Rejecting claim request because payload is empty".
Definition ATLAS_CLAIM_ERR_SHORT_CODE : list byte := cstr "Rejecting claim request because the short code is invalid!".
Definition ATLAS_CLAIM_ERR_EMPTY_SECRET_KEY : list byte := cstr "Empty claim secret key".
Definition ATLAS_CLAIM_ERR_EMPTY_IDENTITY : list byte := cstr "Empty owner identity".
Definition ATLAS_CLAIM_ERR_DATABASE : list byte := cstr "Cannot save owner information into the database".
Definition ATLAS_CMD_GATEWAY_GET_ALL_DEVICES : list byte := cstr "ATLAS_CMD_GATEWAY_GET_ALL_DEVICES".
Definition ATLAS_CMD_GATEWAY_REGISTER_REQUEST : list byte := cstr "ATLAS_CMD_GATEWAY_REGISTER_REQUEST".
Definition ATLAS_CMD_GATEWAY_CLIENT : list byte := cstr "ATLAS_CMD_GATEWAY_CLIENT".
Definition ATLAS_CMD_GATEWAY_ACK_FOR_DONE_COMMAND : list byte := cstr "ATLAS_CMD_GATEWAY_CLIENT_DONE_ACK".
Definition ATLAS_CMD_GATEWAY_REGISTER : list byte := cstr "ATLAS_CMD_GATEWAY_REGISTER".
Definition ATLAS_CMD_GATEWAY_KEEPALIVE : list byte := cstr "ATLAS_CMD_GATEWAY_KEEPALIVE".

Section Claim.
Context `{E : GwEnv} `{CE : !CloudEnv} `{HO : HashOrder} `{HostEndian}.

(** ** device/AtlasGateway.cpp *)

Definition new_AtlasGateway (x : gext) : res AtlasGateway * gext :=
  let '(r, x) := selectOwnerInfo x in
  (o ← r;
   match o with
   | Some (secretKey, identity) =>
       Ok (mk_owner (bool_decide (secretKey <> [] /\ identity <> [])) secretKey identity)
   | None => Ok (mk_owner false [] [])
   end, x).

Definition ownerToJSON (o : AtlasGateway) : list (list byte * list byte) := [(cstr "owner", ownerIdentity_ o)].

Definition claimGateway (ownerIdentity ownerSecretKey : list byte) : C bool :=
  (* Save owner secret key and identity into the database *)
  result ← on_gw (gcall (insertOwner ownerSecretKey ownerIdentity));
  if negb result then mret false else
  (* Mark the gateway as claimed *)
  let o := mk_owner true ownerSecretKey ownerIdentity in
  cmodify (set_owner o) ≫= fun _ =>
  (* Update claim information on the cloud *)
  on_gw (gemit (GwCloudGateway (ownerToJSON o))) ≫= fun _ => mret true.

(** ** claim_approve/AtlasClaim.cpp *)

Definition generateShortCode (x : gext) : list byte * gext :=
  let '(str, x) := shuffle ATLAS_CLAIM_SHORT_CODE_ALPHABET x in (take ATLAS_CLAIM_SHORT_CODE_LEN str, x).

(** Without the callback registration at the HTTP server. *)
Definition claim_start : C unit :=
  o ← cget ct_owner;
  if claimed_ o then mret tt else
  code ← on_gw (gcall generateShortCode); cmodify (set_claim (mk_claim code true)).

Definition claim_alarmCallback : C unit :=
  code ← on_gw (gcall generateShortCode);
  cmodify (fun c => set_claim (mk_claim code (shortCodeAlarm_ (ct_claim c))) c).

(** The HTTP status and its text; on success the text is a JSON object with the identity. *)
Definition handleClaimReq (payload : list byte) : C (Z * list byte) :=
  o ← cget ct_owner;
  if claimed_ o then mret (401, ATLAS_CLAIM_ERR_ALREADY_CLAIMED) else
  if decide (payload = []) then mret (401, ATLAS_CLAIM_ERR_EMPTY_PAYLOAD) else
  let obj := json_parse payload in
  code ← clift (json_string obj ATLAS_CLAIM_SHORT_CODE_JSON_KEY);
  k ← cget ct_claim;
  if decide (code <> shortCode_ k) then mret (401, ATLAS_CLAIM_ERR_SHORT_CODE) else
  secretKey ← clift (json_string obj ATLAS_CLAIM_SECRET_KEY_JSON_KEY);
  if decide (secretKey = []) then mret (500, ATLAS_CLAIM_ERR_EMPTY_SECRET_KEY) else
  identity ← clift (json_string obj ATLAS_CLAIM_OWNER_IDENTITY_JSON_KEY);
  if decide (identity = []) then mret (500, ATLAS_CLAIM_ERR_EMPTY_IDENTITY) else
  (* Claim gateway device *)
  result ← claimGateway identity secretKey;
  if negb result then mret (500, ATLAS_CLAIM_ERR_DATABASE) else
  cmodify (fun c => set_claim (mk_claim (shortCode_ (ct_claim c)) false) c) ≫= fun _ =>
  mret (200, gateway_identity).

(** ** cloud/AtlasDeviceCloud.cpp, AtlasRegisterCloud.cpp, AtlasCloudCmdParser.cpp *)

Definition allDevicesUpdate : G unit :=
  forEachDevice (fun k => d ← this k; updateDevice (identity_ d) (device_toJSON d)).

Definition gatewayFullUpdate : C unit :=
  o ← cget ct_owner; on_gw (gemit (GwCloudGateway (ownerToJSON o))).

Definition sendRegisterCmd : C unit :=
  delivered ← on_gw (publish_to_cloud [(ATLAS_CMD_TYPE_JSON_KEY, ATLAS_CMD_GATEWAY_REGISTER)]);
  if (delivered : bool) then
    cmodify (set_cloud_registered true) ≫= fun _ =>
    on_gw allDevicesUpdate ≫= fun _ => gatewayFullUpdate
  else mret tt.

Definition sendKeepaliveCmd : C unit :=
  _ ← on_gw (publish_to_cloud [(ATLAS_CMD_TYPE_JSON_KEY, ATLAS_CMD_GATEWAY_KEEPALIVE)]); mret tt.

Definition cloud_keepaliveAlarmCb : C unit :=
  r ← cget cloud_registered; if (r : bool) then sendKeepaliveCmd else sendRegisterCmd.
Definition cloud_onConnect : C unit :=
  r ← cget cloud_registered; if (r : bool) then mret tt else sendRegisterCmd.
Definition cloud_onDisconnect : C unit := cmodify (set_cloud_registered false).

Definition parseCmd (cmd : list byte) : C unit :=
  let obj := json_parse cmd in
  type ← clift (json_string obj ATLAS_CMD_TYPE_JSON_KEY);
  if decide (type = ATLAS_CMD_GATEWAY_GET_ALL_DEVICES) then on_gw allDevicesUpdate
  else if decide (type = ATLAS_CMD_GATEWAY_REGISTER_REQUEST) then sendRegisterCmd
  else if decide (type = ATLAS_CMD_GATEWAY_CLIENT) then
    payload ← clift (json_member obj ATLAS_CMD_PAYLOAD_JSON_KEY); _ ← handleClientCommand payload; mret tt
  else if decide (type = ATLAS_CMD_GATEWAY_ACK_FOR_DONE_COMMAND) then
    payload ← clift (json_member obj ATLAS_CMD_PAYLOAD_JSON_KEY); on_gw (handleCommandDoneAck payload)
  else mret tt.
End Claim.
