(* ===== verification/GwCommands.v ===== *)
(** What holds of the commands for devices in every state of the gateway: the
    queues in memory agree with the database, only the first command of a queue
    is on its way, and what becomes of a command from the cloud's message to the
    request to the device. *)
From S2P Require Import Prelude Defs CLib Command GwDefs GwBatch GwXfer GwFilter GwBayes GwStore GwNetStore GwDevice GwServer GwReputation GwLifecycle GwApprove.
Import GwType.

(** * The stored form of a command *)

(** A command as it would come back from the database: not in progress, and its
    texts up to the first NUL. *)
Definition norm (c : AtlasCommandDevice) : AtlasCommandDevice :=
  new_AtlasCommandDevice (deviceIdentity_ c) (cd_sequenceNumber c) (until_nul (commandTypeCloud_ c)) (until_nul (commandPayload_ c)).

Lemma u32_s32_mod z : u32 (s32 z) = u32 z.
Proof. unfold u32, s32. lia. Qed.

Lemma norm_row_cmd i r : norm (row_cmd i r) = row_cmd i r.
Proof. unfold norm, row_cmd. cbn. by rewrite !until_nul_idem. Qed.

Lemma norm_in_progress b c : norm (setInProgress b c) = norm c.
Proof. done. Qed.

(** The rows of a device. *)
Definition rows_of (r : device_row) (t : Tables) : list command_row :=
  base.filter (fun c => cr_deviceId c = dr_id r) (t_command t).

(** ** Queues *)

(** Only the first command is on its way, the retries are bounded, and every
    command is for this device. *)
Definition queue_wf (k : list byte) (d : AtlasDevice) : Prop :=
  Forall (fun c => inProgress c = false) (tail (recvCmds_ d)) /\
  0 <= deviceCmdTimeouts_ d <= ATLAS_PUSH_COMMAND_RETRY_NO /\
  Forall (fun c => deviceIdentity_ c = k /\ is_u32 (cd_sequenceNumber c)) (recvCmds_ d ++ execCmds_ d).

(** Every queued command is in the database, with the right mark. *)
Definition stored (t : Tables) (k : list byte) (d : AtlasDevice) : Prop :=
  identity_ d = k /\ queue_wf k d /\
  exists r, r ∈ t_device t /\ dr_identity r = k /\
    norm <$> recvCmds_ d ⊆+ loaded k false (rows_of r t) /\
    norm <$> execCmds_ d ⊆+ loaded k true (rows_of r t).

(** Sequence numbers in the database are unique and not above [n]. *)
Definition rows_ok (n : Z) (t : Tables) : Prop :=
  NoDup (cr_sequenceNumber <$> t_command t) /\
  Forall (fun c => exists q, cr_sequenceNumber c = s32 q /\ 0 <= q <= n) (t_command t).

Definition cmd_inv `{GwEnv} (n : Z) (g : gateway) : Prop :=
  is_u32 n /\ tables_ok (tables (gw_ext g)) /\ rows_ok n (tables (gw_ext g)) /\
  map_Forall (stored (tables (gw_ext g))) (devices_ g).

(** Tables that only differ in what the invariant does not read. *)
Definition same_commands (t t' : Tables) : Prop :=
  t_device t' = t_device t /\ t_command t' = t_command t /\ t_owner t' = t_owner t.

Lemma stored_same t t' k d : same_commands t t' -> stored t k d -> stored t' k d.
Proof. intros (Hd & Hc & _) (Hi & Hq & r & Hr & Hk & H1 & H2). unfold stored, rows_of. rewrite Hd, Hc. eauto 10. Qed.

(** Devices with the same identity, key and queues. *)
Definition same_queues (d d' : AtlasDevice) : Prop :=
  identity_ d' = identity_ d /\ recvCmds_ d' = recvCmds_ d /\ execCmds_ d' = execCmds_ d /\
  deviceCmdTimeouts_ d' = deviceCmdTimeouts_ d /\ psk_ d' = psk_ d.

Lemma stored_queues t k d d' : same_queues d d' -> stored t k d -> stored t k d'.
Proof.
  intros (Hi & Hr & He & Ht & _) Hs. unfold stored, queue_wf in *. by rewrite Hi, Hr, He, Ht.
Qed.

(** * Operations that keep an invariant of the gateway *)

Section Preserves.
Context `{E : GwEnv} `{SND : !Sends E} `{HO : HashOrder} `{HostEndian}.

Lemma pres_gemit n e : gpreserves (cmd_inv n) (gemit e).
Proof. by intros g b g' Hg [= <- <-]. Qed.

Lemma cmd_inv_ext n x g : same_commands (tables (gw_ext g)) (tables x) -> cmd_inv n g -> cmd_inv n (set_gw_ext x g).
Proof.
  intros Hs (Hn & Ht & Hr & Hd). pose proof Hs as (Hs1 & Hs2 & _). split; [done|].
  unfold tables_ok, rows_ok in *. cbn. rewrite Hs1, Hs2. split; [done|]. split; [done|].
  intros k d Hk. eapply stored_same; [done|]. by apply Hd.
Qed.

Lemma pres_gcall {A} n (f : gext -> A * gext) :
  (forall x, same_commands (tables x) (tables (f x).2)) -> gpreserves (cmd_inv n) (gcall f).
Proof.
  intros Hf g a g' Hg. unfold gcall. specialize (Hf (gw_ext g)). destruct (f (gw_ext g)) as [b x]. intros [= <- <-].
  by apply cmd_inv_ext.
Qed.

Lemma pres_update n k f : (forall d, same_queues d (f d)) -> gpreserves (cmd_inv n) (update k f).
Proof.
  intros Hf g a g' (Hn & Ht & Hr & Hd) [= <- <-]. split; [done|]. split; [done|]. split; [done|].
  intros j d Hj. cbn in Hj. rewrite lookup_alter_Some in Hj. destruct Hj as [[-> (d0 & Hd0 & ->)]|[_ Hj]].
  - eapply stored_queues; [apply Hf|]. by apply Hd.
  - by apply Hd.
Qed.

Lemma pres_set_agent n b x : gpreserves (cmd_inv n) (gmodify (fun g => set_agent (b g) (x g) g)).
Proof. by intros g a g' Hg [= <- <-]. Qed.
End Preserves.

(** An invariant that messages, the statistics, the agent, the loading of
    devices and changes of a device outside its key and its queues do not touch. *)
Class GwInv `{E : GwEnv} `{HO : HashOrder} (I : gateway -> Prop) := {
  inv_gemit e : gpreserves I (gemit e);
  inv_gcall {A} (f : gext -> A * gext) : (forall x, same_commands (tables x) (tables (f x).2)) -> gpreserves I (gcall f);
  inv_update k f : (forall d, same_queues d (f d)) -> gpreserves I (update k f);
  inv_agent b x : gpreserves I (gmodify (fun g => set_agent (b g) (x g) g));
  inv_trusted f : gpreserves I (gmodify (fun g => set_trusted (f g) g));
  inv_getDevice i : gpreserves I (getDevice i);
}.

(** ** The operations of GwDevice and GwServer *)

Section GatewayPreserves.
Context `{E : GwEnv} `{SND : !Sends E} `{HO : HashOrder} `{HostEndian}.

Lemma same_commands_refl t : same_commands t t.
Proof. done. Qed.

Lemma loaded_submseteq i b rows rows' : rows ⊆+ rows' -> loaded i b rows ⊆+ loaded i b rows'.
Proof.
  intros Hsub. unfold loaded. apply fmap_submseteq. apply submseteq_Permutation in Hsub as [k ->].
  rewrite filter_app. by apply submseteq_inserts_r.
Qed.

Lemma norm_loaded i b rows : norm <$> loaded i b rows = loaded i b rows.
Proof. unfold loaded. rewrite <- list_fmap_compose. apply list_fmap_ext. intros ? ? _. apply norm_row_cmd. Qed.

Lemma created_stored t k d : tables_ok t -> created_device t k d -> stored t k d.
Proof.
  intros Ht (psk & rep & fb & s & rows & _ & (r & Hr & _) & Hrows & _ & ->).
  apply list_elem_of_filter in Hr as [<- Hr].
  rewrite owned_unique in Hrows by done. split; [done|]. split.
  - assert (Hcs : forall b, Forall (fun c => inProgress c = false /\ deviceIdentity_ c = dr_identity r /\ is_u32 (cd_sequenceNumber c))
      (loaded (dr_identity r) b rows)).
    { intros b. apply Forall_fmap, Forall_true. intros c. split; [done|]. split; [done|]. apply u32_range. }
    split; cbn; [|split; [done|]].
    + apply Forall_tail. eapply Forall_impl; [apply Hcs|]. by intros c [? _].
    + apply Forall_app. split; (eapply Forall_impl; [apply Hcs|]; by intros c [_ ?]).
  - exists r. cbn. rewrite !norm_loaded. auto using loaded_submseteq.
Qed.

Lemma same_stats_inv n g k d x rows b :
  cmd_inv n g -> created_device (tables (gw_ext g)) k d ->
  tables x = set_t_stats rows (set_t_bayes b (tables (gw_ext g))) ->
  cmd_inv n (put k d [] x g).
Proof.
  intros (Hn & Ht & Hr & Hd) Hc Hx. assert (Hs : same_commands (tables (gw_ext g)) (tables x)) by by rewrite Hx.
  split; [done|]. cbn. rewrite Hx. split; [done|]. split; [done|]. rewrite <- Hx.
  apply map_Forall_insert_2; [|intros j e Hj]; (eapply stored_same; [done|]).
  - by apply created_stored.
  - by apply Hd.
Qed.

Lemma pres_getDevice n i : gpreserves (cmd_inv n) (getDevice i).
Proof.
  intros g a g' Hg Hr. destruct (getDevice_cases i g) as [(x & Hget & _ & Hx)|(d & x & Hget & _ & Hd)];
    rewrite Hget in Hr; injection Hr as <- <-.
  - apply cmd_inv_ext; [|done]. by rewrite Hx.
  - destruct Hd as [[Hd ->]|(_ & Hc & rows & b & Hx)].
    + by rewrite <- put_intro.
    + by eapply same_stats_inv.
Qed.

#[export] Instance cmd_inv_GwInv n : GwInv (cmd_inv n).
Proof.
  constructor; intros.
  - apply pres_gemit.
  - by apply pres_gcall.
  - by apply pres_update.
  - apply pres_set_agent.
  - by intros g a g' Hg [= <- <-].
  - apply pres_getDevice.
Qed.
End GatewayPreserves.




(** Decomposes a body into its calls, resolving those with lemmas in [pres]. *)
Ltac pres_step :=
  match goal with
  | |- gpreserves _ (mret _) => apply pres_ret
  | |- gpreserves _ (_ ≫= _) => apply pres_bind; [|intros ?]
  | |- gpreserves _ (gfor _ _) => apply pres_gfor; intros ?
  | |- gpreserves _ (gemit _) => apply inv_gemit
  | |- gpreserves _ (getDevice _) => apply inv_getDevice
  | |- gpreserves _ (gmodify _) => apply inv_agent || apply inv_trusted
  | |- gpreserves _ (gcall _) => apply inv_gcall; intros ?; auto with pres nocore
  | |- gpreserves _ (update _ _) => apply inv_update; intros ?; done
  | |- gpreserves _ (if ?b then _ else _) => destruct b
  | |- gpreserves _ (match ?e with _ => _ end) => destruct e
  | |- gpreserves _ _ => progress auto with pres nocore
  end.
Ltac pres_tac := repeat pres_step.

Section GatewayInputs.
Context `{E : GwEnv} `{SND : !Sends E} `{HO : HashOrder} `{HostEndian}.
Context (I : gateway -> Prop) `{HI : !GwInv I}.

Lemma local_time_same x : same_commands (tables x) (tables (local_time x).2).
Proof. by rewrite local_time_tables. Qed.
Lemma sendRequest_same u p x : same_commands (tables x) (tables (sendRequest u p x).2).
Proof. by rewrite sendRequest_tables. Qed.
Lemma updateStats_same i s x : same_commands (tables x) (tables (updateStats i s x).2).
Proof. destruct (updateStats i s x) as [b x'] eqn:Hu. apply updateStats_spec in Hu as [rows Hx]. cbn. by rewrite Hx. Qed.
#[local] Hint Resolve local_time_same sendRequest_same updateStats_same : pres.

Lemma pres_alert_push k a : gpreserves I (alert_push k a).
Proof. unfold alert_push. pres_tac. Qed.

Lemma pres_agent_write b l : gpreserves I (agent_write b l).
Proof. unfold agent_write. pres_tac. Qed.

Lemma pres_updateDevice i f : gpreserves I (updateDevice i f).
Proof. unfold updateDevice. pres_tac. Qed.
#[local] Hint Resolve pres_alert_push pres_agent_write pres_updateDevice : pres.

Lemma pres_install p : gpreserves I (agent_installFirewallRule p).
Proof. unfold agent_installFirewallRule. pres_tac. Qed.
Lemma pres_remove p : gpreserves I (agent_removeFirewallRule p).
Proof. unfold agent_removeFirewallRule. pres_tac. Qed.
Lemma pres_stat p : gpreserves I (agent_getFirewallRuleStats p).
Proof. unfold agent_getFirewallRuleStats. pres_tac. Qed.
Lemma pres_setIpPort k v : gpreserves I (setIpPort k v).
Proof. unfold setIpPort. pres_tac. Qed.
Lemma pres_setPolicyInfo k v : gpreserves I (setPolicyInfo k v).
Proof. unfold setPolicyInfo. pres_tac. Qed.
Lemma pres_setFeature k a v : gpreserves I (setFeature k a v).
Proof. unfold setFeature. pres_tac. Qed.
Lemma pres_registerNow k : gpreserves I (registerNow k).
Proof. unfold registerNow. pres_tac. Qed.
Lemma pres_keepAliveNow k : gpreserves I (keepAliveNow k).
Proof. unfold keepAliveNow. pres_tac. Qed.
Lemma pres_pushAlerts k : gpreserves I (pushAlerts k).
Proof. unfold pushAlerts. pres_tac. Qed.
#[local] Hint Resolve pres_install pres_remove pres_stat pres_setIpPort pres_setPolicyInfo pres_setFeature
  pres_registerNow pres_keepAliveNow pres_pushAlerts : pres.

Lemma pres_registered_device k : gpreserves I (registered_device k).
Proof. unfold registered_device. pres_tac. Qed.
Lemma pres_uninstallPolicy k : gpreserves I (uninstallPolicy k).
Proof. unfold uninstallPolicy. pres_tac. Qed.
Lemma pres_updateFirewallStats s : gpreserves I (updateFirewallStats s).
Proof. unfold updateFirewallStats, syncFirewallStatistics. pres_tac. Qed.
Lemma pres_forEachDevice cb : (forall k, gpreserves I (cb k)) -> gpreserves I (forEachDevice cb).
Proof. intros Hcb. unfold forEachDevice. pres_tac. Qed.
#[local] Hint Resolve pres_registered_device pres_uninstallPolicy pres_updateFirewallStats pres_forEachDevice : pres.

Lemma pres_keepAliveExpired k : gpreserves I (keepAliveExpired k).
Proof. unfold keepAliveExpired. pres_tac. Qed.
#[local] Hint Resolve pres_keepAliveExpired : pres.

Lemma updateBayesParams_same i t m x : same_commands (tables x) (tables (updateBayesParams i t m x).2).
Proof. destruct (updateBayesParams i t m x) as [b x'] eqn:Hu. apply updateBayesParams_only in Hu as [n Hx]. cbn. by rewrite Hx. Qed.
#[local] Hint Resolve updateBayesParams_same : pres.
Lemma pres_order nt : gpreserves I (updateReputationOrder nt).
Proof. unfold updateReputationOrder. pres_tac. Qed.
Lemma pres_sync k nt : gpreserves I (syncReputation k nt).
Proof. unfold syncReputation. pres_tac. Qed.
Lemma pres_getFeedbacks k fbs : gpreserves I (getFeedbacks k fbs).
Proof. induction fbs as [|[] fbs IH]; cbn [getFeedbacks getFeedback]; unfold getRegInterval; pres_tac. Qed.
#[local] Hint Resolve pres_order pres_sync pres_getFeedbacks : pres.
Lemma pres_subAlarm k : gpreserves I (subAlarmCallback k).
Proof. unfold subAlarmCallback. pres_tac. Qed.
Lemma pres_updateData k nt matrix : gpreserves I (updateDataReputation k nt matrix).
Proof. unfold updateDataReputation. pres_tac. Qed.
#[local] Hint Resolve pres_subAlarm pres_updateData : pres.

Lemma pres_agent_command c : gpreserves I (agent_command c).
Proof.
  unfold agent_command, installAllPolicies, processFirewallRuleStat. pres_tac.
  apply pres_forEachDevice. intros k. pres_tac.
Qed.
#[local] Hint Resolve pres_agent_command : pres.

(** No request, alarm or message of the plug-in touches the commands. *)
Lemma pres_handle i : gpreserves I (handle i).
Proof.
  destruct i; cbn [handle]; unfold quietly.
  - unfold registerCallback. pres_tac.
  - unfold keepaliveCallback. pres_tac.
  - unfold firewallPolicyCallback. pres_tac.
  - unfold featureCallback. pres_tac.
  - unfold requestReputationCallback, getTrustedDevice. pres_tac.
  - unfold feedbackReputationCallback. pres_tac.
  - unfold sysRepAlarmCallback. pres_tac.
  - unfold keepaliveAlarmCallback. pres_tac. apply pres_forEachDevice. intros k. pres_tac.
  - unfold firewallStatisticsAlarmCallback. pres_tac. apply pres_forEachDevice. intros k. pres_tac.
  - pres_tac. apply inv_agent.
  - unfold alert_respCallback. pres_tac.
  - unfold agent_handleRead, agent_processCommand. pres_tac.
Qed.
End GatewayInputs.

#[export] Hint Resolve local_time_same sendRequest_same : pres.

(** * The rows of a command *)

Section Rows.

(** A queued command has exactly one row. *)
Lemma find_row n t r k b c :
  is_u32 n -> rows_ok n t -> norm c ∈ loaded k b (rows_of r t) ->
  exists l1 row l2, t_command t = l1 ++ row :: l2 /\ cr_deviceId row = dr_id r /\ cr_isExecuted row = b /\
    row_cmd k row = norm c /\ cr_sequenceNumber row = s32 (cd_sequenceNumber c) /\
    Forall (fun a => cr_sequenceNumber a <> s32 (cd_sequenceNumber c)) (l1 ++ l2).
Proof.
  intros Hn [Hnd Hq] Hin. unfold loaded, rows_of in Hin. apply list_elem_of_fmap in Hin as (row & Hrow & Hin).
  apply list_elem_of_filter in Hin as [Hb Hin]. apply list_elem_of_filter in Hin as [Hid Hin].
  rewrite Forall_forall in Hq. destruct (Hq row Hin) as (q & Hs & Hle).
  assert (Hseq : cr_sequenceNumber row = s32 (cd_sequenceNumber c)).
  { assert (Hc : cd_sequenceNumber (norm c) = cd_sequenceNumber (row_cmd k row)) by by rewrite Hrow.
    cbn in Hc. rewrite Hc, Hs, s32_s32, u32_s32; [done|]. unfold is_u32 in *. lia. }
  apply list_elem_of_split in Hin as (l1 & l2 & Hl). exists l1, row, l2.
  rewrite Hl, fmap_app, fmap_cons in Hnd. repeat split; auto. rewrite <- Hseq.
  apply NoDup_app in Hnd as (_ & Hd & [Hd2 _]%NoDup_cons). apply Forall_app. split; apply Forall_forall; intros a Ha Heq.
  - apply (Hd (cr_sequenceNumber a)); [by apply list_elem_of_fmap_2|]. rewrite Heq. by left.
  - apply Hd2. rewrite <- Heq. by apply list_elem_of_fmap_2.
Qed.

Lemma mark_others seq l : Forall (fun a => cr_sequenceNumber a <> seq) l -> mark_row seq <$> l = l.
Proof. induction 1 as [|a l Ha _ IH]; cbn; [done|]. unfold mark_row at 1. by rewrite decide_False, IH. Qed.

Lemma filter_others seq l :
  Forall (fun a => cr_sequenceNumber a <> seq) l -> base.filter (fun a => cr_sequenceNumber a <> seq) l = l.
Proof. intros Hl. induction Hl as [|a l Ha _ IH]; [done|]. by rewrite filter_cons_True, IH. Qed.

(** The rows of a device with one row in the middle. *)
Definition filter_id (id : Z) : list command_row -> list command_row := base.filter (fun c => cr_deviceId c = id).

Lemma loaded_insert k b id l1 row l2 :
  loaded k b (filter_id id (l1 ++ row :: l2)) ≡ₚ
  (if decide (cr_deviceId row = id /\ cr_isExecuted row = b) then [row_cmd k row] else []) ++
  loaded k b (filter_id id (l1 ++ l2)).
Proof.
  unfold loaded, filter_id. rewrite !filter_app, filter_cons.
  destruct (decide (cr_deviceId row = id)) as [Hid|Hid].
  - rewrite filter_cons. destruct (decide (cr_isExecuted row = b)) as [Hb|Hb].
    + rewrite decide_True by done. rewrite !fmap_app, fmap_cons. cbn. by rewrite Permutation_middle.
    + by rewrite decide_False by tauto.
  - by rewrite decide_False by tauto.
Qed.

(** Marking the row of [c] moves it from the one list to the other. *)
Lemma mark_loaded n t r k c :
  is_u32 n -> rows_ok n t -> norm c ∈ loaded k false (rows_of r t) ->
  let t' := set_t_command (mark_row (s32 (cd_sequenceNumber c)) <$> t_command t) t in
  rows_ok n t' /\
  loaded k false (rows_of r t) ≡ₚ norm c :: loaded k false (rows_of r t') /\
  loaded k true (rows_of r t') ≡ₚ norm c :: loaded k true (rows_of r t) /\
  forall j r' b, dr_id r' <> dr_id r -> loaded j b (rows_of r' t') ≡ₚ loaded j b (rows_of r' t).
Proof.
  intros Hn Hok Hin t'. destruct (find_row n t r k false c Hn Hok Hin) as (l1 & row & l2 & Hl & Hid & Hb & Hcmd & Hseq & Hoth).
  apply Forall_app in Hoth as [Ho1 Ho2]. set (row' := mk_command_row (cr_deviceId row) (cr_sequenceNumber row) (cr_commandType row)
    (cr_commandPayload row) true).
  assert (Hl' : t_command t' = l1 ++ row' :: l2).
  { unfold t'. cbn. rewrite Hl, fmap_app, fmap_cons, !mark_others by done. f_equal. f_equal. unfold mark_row.
    by rewrite decide_True by done. }
  assert (Hcmd' : row_cmd k row' = norm c) by done.
  unfold rows_of. change (base.filter (fun c0 => cr_deviceId c0 = ?i) ?l) with (filter_id i l). rewrite Hl, Hl'.
  split; [|split; [|split]].
  - destruct Hok as [Hnd Hq]. split.
    + rewrite Hl', fmap_app, fmap_cons. by rewrite Hl, fmap_app, fmap_cons in Hnd.
    + rewrite Hl'. rewrite Hl in Hq. rewrite Forall_app, Forall_cons in Hq |- *. done.
  - rewrite !(loaded_insert k false). rewrite decide_True, decide_False by (cbn; naive_solver). by rewrite Hcmd.
  - rewrite !(loaded_insert k true). rewrite decide_True, decide_False by (cbn; naive_solver congruence). by rewrite Hcmd'.
  - intros j r' b Hne. rewrite !(loaded_insert j b). rewrite !decide_False by (cbn; naive_solver congruence). done.
Qed.

(** Deleting the row of [c] takes it off the list of executed commands. *)
Lemma delete_loaded n t r k c :
  is_u32 n -> rows_ok n t -> norm c ∈ loaded k true (rows_of r t) ->
  let t' := set_t_command (base.filter (fun a => cr_sequenceNumber a <> s32 (cd_sequenceNumber c)) (t_command t)) t in
  rows_ok n t' /\
  loaded k true (rows_of r t) ≡ₚ norm c :: loaded k true (rows_of r t') /\
  loaded k false (rows_of r t') ≡ₚ loaded k false (rows_of r t) /\
  forall j r' b, dr_id r' <> dr_id r -> loaded j b (rows_of r' t') ≡ₚ loaded j b (rows_of r' t).
Proof.
  intros Hn Hok Hin t'. destruct (find_row n t r k true c Hn Hok Hin) as (l1 & row & l2 & Hl & Hid & Hb & Hcmd & Hseq & Hoth).
  apply Forall_app in Hoth as [Ho1 Ho2].
  assert (Hl' : t_command t' = l1 ++ l2).
  { unfold t'. cbn. rewrite Hl, filter_app, filter_cons_False, !filter_others by naive_solver. done. }
  unfold rows_of. change (base.filter (fun c0 => cr_deviceId c0 = ?i) ?l) with (filter_id i l). rewrite Hl, Hl'.
  split; [|split; [|split]].
  - destruct Hok as [Hnd Hq]. split.
    + rewrite Hl', fmap_app. rewrite Hl, fmap_app, fmap_cons in Hnd.
      rewrite <- Permutation_middle in Hnd. by apply NoDup_cons in Hnd as [_ Hnd].
    + rewrite Hl'. rewrite Hl in Hq. rewrite Forall_app, Forall_cons in Hq. apply Forall_app. tauto.
  - rewrite !(loaded_insert k true). rewrite decide_True by done. by rewrite Hcmd.
  - rewrite !(loaded_insert k false). by rewrite decide_False by naive_solver congruence.
  - intros j r' b Hne. rewrite !(loaded_insert j b). by rewrite !decide_False by naive_solver congruence.
Qed.

(** A new command. *)
Lemma add_loaded n t r k c :
  rows_ok n t -> is_u32 (cd_sequenceNumber c) -> n < cd_sequenceNumber c -> 0 <= n -> deviceIdentity_ c = k ->
  let t' := add_command r (cd_sequenceNumber c) (commandTypeCloud_ c) (commandPayload_ c) t in
  rows_ok (cd_sequenceNumber c) t' /\
  loaded k false (rows_of r t') = loaded k false (rows_of r t) ++ [norm c] /\
  loaded k true (rows_of r t') = loaded k true (rows_of r t) /\
  forall j r' b, dr_id r' <> dr_id r -> loaded j b (rows_of r' t') = loaded j b (rows_of r' t).
Proof.
  intros [Hnd Hq] Hu Hlt Hn Hk t'. unfold rows_of, loaded, t'. cbn [add_command t_command set_t_command]. split; [|split; [|split]].
  - split; cbn.
    + rewrite fmap_app. apply NoDup_app. split; [done|]. split; [|apply NoDup_singleton].
      intros s Hs Hs'. apply list_elem_of_singleton in Hs' as ->. apply list_elem_of_fmap in Hs as (row & Hrow & Hin).
      rewrite Forall_forall in Hq. destruct (Hq row Hin) as (q & Heq & Hle). cbn in Hrow. rewrite Heq in Hrow.
      apply s32_inj in Hrow; unfold is_u32 in *; lia.
    + apply Forall_app. split; [|repeat constructor; exists (cd_sequenceNumber c); split; [done|unfold is_u32 in *; lia]].
      eapply Forall_impl; [exact Hq|]. intros row (q & Heq & Hle). exists q. split; [done|lia].
  - rewrite !filter_app, filter_cons_True, filter_nil by done. rewrite filter_cons_True, filter_nil by done.
    rewrite fmap_app. cbn. f_equal. f_equal. unfold row_cmd, norm. cbn. rewrite s32_s32, u32_s32 by done. by rewrite Hk.
  - rewrite !filter_app, filter_cons_True, filter_nil by done. rewrite filter_cons_False, filter_nil by done. by rewrite app_nil_r.
  - intros j r' b Hne. rewrite !filter_app, filter_cons_False, filter_nil by (cbn; congruence). by rewrite app_nil_r.
Qed.
End Rows.

(** * The operations on the queues *)

Section Runs.
Context `{E : GwEnv} `{SND : !Sends E} `{CE : !CloudEnv} `{HO : HashOrder} `{HostEndian}.

Lemma tryPublish_put topic fields k d evs x g :
  exists (b : bool) x', tryPublishMessage topic fields (put k d evs x g) =
    Ok (b, put k d (evs ++ if b then [GwPublish topic fields] else []) x' g) /\ tables x' = tables x.
Proof.
  unfold tryPublishMessage. grun. cbn [put gw_ext]. destruct (mqtt_connTok x); [|exists false, x; by rewrite app_nil_r].
  destruct (mqtt_is_connected x); [|exists false, x; by rewrite app_nil_r]. grun.
  pose proof (mqtt_publish_tables topic fields x) as Ht. destruct (mqtt_publish topic fields x) as [[] x']; cbn [fst snd] in *.
  - grun. by exists true, x'.
  - exists false, x'. by rewrite app_nil_r.
Qed.

Definition to_cloud : list byte := gateway_psk ++ ATLAS_TO_CLOUD_TOPIC.

(** With an executed command the device's DONE message is that of its first one. *)
Lemma responseDONE_put k c l d evs x g :
  execCmds_ d = c :: l ->
  exists (b : bool) x', responseCommandDONE k (put k d evs x g) =
    Ok (b, put k d (evs ++ if b then [GwPublish to_cloud (done_fields c k)] else []) x' g) /\ tables x' = tables x.
Proof.
  intros Hc. unfold responseCommandDONE.
  erewrite G_bind_run by (apply getDevice_run with d; cbn; apply lookup_insert_eq). cbv iota. grun.
  erewrite G_bind_run by (apply glift_run; unfold getExecutedCommand; by rewrite Hc). apply tryPublish_put.
Qed.

Definition to_exec (c : AtlasCommandDevice) (d : AtlasDevice) : AtlasDevice := pop_recv (addExecDeviceCommand c d).

Lemma markCommandAsDone_put k c l d evs x g :
  identity_ d = k -> recvCmds_ d = c :: l ->
  exists (b : bool) evs' x', markCommandAsDone k (put k d evs x g) =
      Ok (tt, put k (if b then to_exec c d else d) (evs ++ evs') x' g) /\
    tables x' = (if b : bool then set_t_command (mark_row (s32 (cd_sequenceNumber c)) <$> t_command (tables x)) (tables x)
                 else tables x) /\
    b = (markExecutedDeviceCommand (cd_sequenceNumber c) x).1 /\
    (evs' = [] \/ (b = true /\ exists c0, head (execCmds_ d ++ [c]) = Some c0 /\ evs' = [GwPublish to_cloud (done_fields c0 k)])).
Proof.
  intros Hk Hc. unfold markCommandAsDone. grun. rewrite Hc. grun.
  destruct (markExecutedDeviceCommand (cd_sequenceNumber c) x) as [[] x1] eqn:Hm; apply markExecuted_spec in Hm; cbn [fst snd].
  - grun. rewrite Hk. destruct (execCmds_ d ++ [c]) as [|c0 l0] eqn:Hl; [by destruct (execCmds_ d)|].
    destruct (responseDONE_put k c0 l0 (addExecDeviceCommand c d) evs x1 g) as (b & x2 & Hr & Hx2); [done|].
    erewrite G_bind_run by exact Hr. rewrite update_put. eexists true, _, x2. split; [done|]. split; [congruence|].
    split; [done|]. destruct b; [|by left]. right. split; [done|]. by exists c0.
  - exists false, [], x1. rewrite app_nil_r. auto.
Qed.

(** The bytes of the request for a command. *)
Lemma device_command_readable c : readable (device_command c).
Proof.
  unfold device_command. case_decide; [by split|]. rewrite <- (app_nil_r (commandPayload_ c)) at 2.
  unfold readable. cbn. rewrite app_nil_r. split; [apply u16_range|]. unfold u16. blen_pos. lia.
Qed.

Lemma device_command_bytes c :
  blen (commandPayload_ c) < 65536 ->
  serialized_commands [device_command c] =
  Ok (Some (encode [(DeviceType.device_type_code (commandTypeDevice_ c), commandPayload_ c)]),
      blen (encode [(DeviceType.device_type_code (commandTypeDevice_ c), commandPayload_ c)])).
Proof.
  intros Hl. assert (Ht : is_u16 (DeviceType.device_type_code (commandTypeDevice_ c))) by (by destruct (commandTypeDevice_ c)).
  unfold device_command. case_decide as He.
  - rewrite He. by destruct (commandTypeDevice_ c), H.
  - apply serialized_commands_spec; [|by constructor|done]. constructor; [|constructor].
    rewrite u16_small by (split; [apply blen_nonneg|done]). rewrite <- (app_nil_r (commandPayload_ c)) at 2.
    by apply new_command_repr.
Qed.

(** Where commands are pushed to. *)
Definition push_url (d : AtlasDevice) : list byte :=
  ATLAS_COAPS_SCHEME ++ ipPort_ d ++ cstr "/" ++ ATLAS_PUSH_APPROVED_COMMAND.

(** Whether there is something to push. *)
Definition pushable (d : AtlasDevice) : option AtlasCommandDevice :=
  match recvCmds_ d with c :: _ => if registered_ d && negb (inProgress c) then Some c else None | [] => None end.

Lemma pushCommand_put k d evs x g :
  exists d' evs' x', pushCommand k (put k d evs x g) = Ok (tt, put k d' (evs ++ evs') x' g) /\ tables x' = tables x /\
    match pushable d with
    | Some c => exists payload, serialized_commands [device_command c] = Ok (Some payload, blen payload) /\
        evs' = [GwCoap k (psk_ d) (push_url d) payload] /\ d' = front_in_progress true d
    | None => evs' = [] /\ d' = d
    end.
Proof.
  assert (Hnone : Ok (tt, put k d evs x g) = Ok (tt, put k d (evs ++ []) x g)) by by rewrite app_nil_r.
  unfold pushCommand, pushable. grun. destruct (recvCmds_ d) as [|c l] eqn:Hc; [by exists d, [], x|].
  destruct (registered_ d); cbn [andb]; [|by exists d, [], x]. destruct (inProgress c); cbn [negb]; [by exists d, [], x|].
  destruct (serialized_total [device_command c]) as (buf & Hs); [repeat constructor; apply device_command_readable|done|].
  erewrite G_bind_run by (by apply glift_run). cbn beta iota.
  erewrite G_bind_run by (by apply glift_run, mem_load_all). grun. change (default [] (Some buf)) with buf.
  fold (push_url d). pose proof (sendRequest_tables (push_url d) buf x) as Ht.
  pose proof (sends (push_url d) buf x) as Hok.
  destruct (sendRequest (push_url d) buf x) as [sent x1]; cbn [fst snd] in *. subst sent.
  grun. rewrite update_put. eexists _, _, x1. split; [done|]. split; [done|]. by exists buf.
Qed.
End Runs.

(** * The invariant through the operations on the queues *)

Section QueueSteps.
Context `{E : GwEnv} `{SND : !Sends E} `{CE : !CloudEnv} `{HO : HashOrder} `{HostEndian}.

Lemma cmd_inv_put n k d evs x g :
  cmd_inv n (put k d evs x g) <->
  is_u32 n /\ tables_ok (tables x) /\ rows_ok n (tables x) /\ stored (tables x) k d /\
  forall j e, j <> k -> devices_ g !! j = Some e -> stored (tables x) j e.
Proof.
  unfold cmd_inv. cbn. split; intros (Hn & Ht & Hr & Hd); (split; [done|]; split; [done|]; split; [done|]).
  - split; [apply Hd, lookup_insert_eq|]. intros j e Hj He. apply Hd. by rewrite lookup_insert_ne.
  - destruct Hd as [Hk Hd]. intros j e. destruct (decide (j = k)) as [->|Hj].
    + by rewrite lookup_insert_eq; intros [= <-].
    + rewrite lookup_insert_ne by done. by apply Hd.
Qed.

Lemma unique_ids t r r' : tables_ok t -> r ∈ t_device t -> r' ∈ t_device t -> dr_identity r <> dr_identity r' -> dr_id r' <> dr_id r.
Proof.
  intros (Hnd & _) Hr Hr' Hne Heq. apply list_elem_of_lookup_1 in Hr as [i Hi]. apply list_elem_of_lookup_1 in Hr' as [j Hj].
  assert (i = j) as ->.
  { eapply NoDup_lookup; [exact Hnd|..]; rewrite list_lookup_fmap; [by rewrite Hi|rewrite Hj; cbn; by rewrite Heq]. }
  congruence.
Qed.

(** Other devices do not notice a change of the rows of one. *)
Lemma stored_other t t' r j e :
  tables_ok t -> r ∈ t_device t -> t_device t' = t_device t -> dr_identity r <> j ->
  (forall i r' b, dr_id r' <> dr_id r -> loaded i b (rows_of r' t') ≡ₚ loaded i b (rows_of r' t)) ->
  stored t j e -> stored t' j e.
Proof.
  intros Ht Hr Hd Hne Hsame (Hi & Hq & r' & Hr' & Hj & H1 & H2). split; [done|]. split; [done|]. exists r'.
  rewrite Hd. split; [done|]. split; [done|]. rewrite !Hsame by (apply (unique_ids t); auto; congruence). done.
Qed.

Lemma stored_front t k b d : stored t k d -> stored t k (front_in_progress b d).
Proof.
  intros (Hi & (Hp & Ht & Hf) & r & Hr & Hk & H1 & H2). split; [done|]. unfold queue_wf, front_in_progress. cbn.
  destruct (recvCmds_ d) as [|c l]; [|split]; eauto 10. split; [done|]. split; [done|].
  cbn in Hf |- *. apply Forall_cons in Hf as [Hc Hf]. by constructor.
Qed.

Lemma stored_timeouts t k z d : 0 <= z <= ATLAS_PUSH_COMMAND_RETRY_NO -> stored t k d -> stored t k (set_timeouts z d).
Proof. intros Hz (Hi & (Hp & _ & Hf) & Hr). by split. Qed.

Lemma mark_step n k c l d evs evs' x x' g :
  recvCmds_ d = c :: l ->
  tables x' = set_t_command (mark_row (s32 (cd_sequenceNumber c)) <$> t_command (tables x)) (tables x) ->
  cmd_inv n (put k d evs x g) -> cmd_inv n (put k (to_exec c d) evs' x' g).
Proof.
  intros Hc Hx (Hn & Ht & Hrows & (Hi & (Hp & Htm & Hf) & r & Hr & Hk & H1 & H2) & Hoth)%cmd_inv_put.
  rewrite Hc in *. cbn in H1.
  assert (Hin : norm c ∈ loaded k false (rows_of r (tables x))) by (eapply elem_of_submseteq; [by left|exact H1]).
  destruct (mark_loaded n (tables x) r k c Hn Hrows Hin) as (Hrows' & HF & HT & Hsame). rewrite <- Hx in *.
  apply cmd_inv_put. split; [done|]. split; [by rewrite Hx|]. split; [done|]. split.
  - split; [done|]. split.
    + split; [|split; [done|]]; cbn; rewrite Hc; cbn; [by apply Forall_tail|].
      rewrite app_assoc, Forall_app. cbn in Hf. apply Forall_cons in Hf as [Hc1 Hf]. by split; [|constructor].
    + exists r. rewrite Hx at 1. split; [done|]. split; [done|]. cbn. rewrite Hc, fmap_app. cbn. split.
      * rewrite HF in H1. by apply (submseteq_app_inv_l _ _ [norm c]) in H1.
      * rewrite HT, Permutation_app_comm. by apply submseteq_skip.
  - intros j e Hj He. eapply (stored_other (tables x)); eauto; [by rewrite Hx|congruence].
Qed.

Lemma delete_step n k c l d evs evs' x x' g :
  execCmds_ d = c :: l ->
  tables x' = set_t_command (base.filter (fun a => cr_sequenceNumber a <> s32 (cd_sequenceNumber c)) (t_command (tables x))) (tables x) ->
  cmd_inv n (put k d evs x g) -> cmd_inv n (put k (removeExecutedCommand d) evs' x' g).
Proof.
  intros Hc Hx (Hn & Ht & Hrows & (Hi & (Hp & Htm & Hf) & r & Hr & Hk & H1 & H2) & Hoth)%cmd_inv_put.
  rewrite Hc in *. cbn in H2.
  assert (Hin : norm c ∈ loaded k true (rows_of r (tables x))) by (eapply elem_of_submseteq; [by left|exact H2]).
  destruct (delete_loaded n (tables x) r k c Hn Hrows Hin) as (Hrows' & HT & HF & Hsame). rewrite <- Hx in *.
  apply cmd_inv_put. split; [done|]. split; [by rewrite Hx|]. split; [done|]. split.
  - split; [done|]. split.
    + split; [done|split; [done|]]; cbn. rewrite Hc. cbn. apply Forall_app in Hf as [Hf1 Hf2]. apply Forall_app. split; [done|].
      by apply Forall_cons in Hf2 as [_ Hf2].
    + exists r. rewrite Hx at 1. split; [done|]. split; [done|]. cbn. rewrite Hc. cbn. split.
      * by rewrite HF.
      * rewrite HT in H2. by apply (submseteq_app_inv_l _ _ [norm c]) in H2.
  - intros j e Hj He. eapply (stored_other (tables x)); eauto; [by rewrite Hx|congruence].
Qed.

Lemma add_step n m k c r d evs evs' x x' g :
  is_u32 (cd_sequenceNumber c) -> n < cd_sequenceNumber c -> deviceIdentity_ c = k -> inProgress c = false ->
  r ∈ t_device (tables x) -> dr_identity r = k ->
  tables x' = set_t_maxSeq m (add_command r (cd_sequenceNumber c) (commandTypeCloud_ c) (commandPayload_ c) (tables x)) ->
  cmd_inv n (put k d evs x g) -> cmd_inv (cd_sequenceNumber c) (put k (addRecvDeviceCommand c d) evs' x' g).
Proof.
  intros Hu Hlt Hck Hcp Hr Hk Hx (Hn & Ht & Hrows & (Hi & (Hp & Htm & Hf) & r' & Hr' & Hk' & H1 & H2) & Hoth)%cmd_inv_put.
  assert (r' = r) as ->.
  { destruct (decide (r' = r)) as [|Hne]; [done|]. exfalso.
    pose proof (devices_of_unique _ r Ht Hr) as Ho. assert (Hin : r' ∈ devices_of (dr_identity r) (tables x)).
    { apply list_elem_of_filter. split; [congruence|done]. }
    rewrite Ho in Hin. by apply list_elem_of_singleton in Hin. }
  destruct (add_loaded n (tables x) r k c Hrows Hu Hlt) as (Hrows' & HF & HT & Hsame); [unfold is_u32 in Hn; lia|done|].
  set (t1 := add_command r _ _ _ _) in *.
  assert (Hro : forall q, rows_of q (tables x') = rows_of q t1) by (intros q; by rewrite Hx).
  apply cmd_inv_put. split; [done|]. rewrite Hx at 1 2. split; [done|]. split; [exact Hrows'|]. split.
  - split; [done|]. split.
    + split; [|split; [done|]]; cbn.
      * destruct (recvCmds_ d); cbn in *; [done|]. apply Forall_app. split; [done|]. by constructor.
      * rewrite <- app_assoc, Forall_app. apply Forall_app in Hf as [Hf1 Hf2]. split; [done|]. by constructor.
    + exists r. rewrite Hx at 1. split; [done|]. split; [done|]. rewrite !Hro, HF, HT. cbn. rewrite fmap_app. cbn.
      split; [by apply submseteq_skips_r|done].
  - intros j e Hj He. eapply (stored_other (tables x)); eauto; [by rewrite Hx|congruence|].
    intros i r'' b Hid. by rewrite Hro, Hsame.
Qed.
End QueueSteps.

(** * The handlers of the cloud's messages *)

Section ControlRuns.
Context `{E : GwEnv} `{SND : !Sends E} `{CE : !CloudEnv} `{HO : HashOrder} `{HostEndian}.

Lemma C_bind_run {A B} (m : C A) (f : A -> C B) c a c' : m c = Ok (a, c') -> (m ≫= f) c = f a c'.
Proof. intros Hm. unfold mbind, C_bind. by rewrite Hm. Qed.

Lemma on_gw_run {A} (m : G A) a g' c : m (ct_gw c) = Ok (a, g') -> on_gw m c = Ok (a, set_ct_gw g' c).
Proof. intros Hm. unfold on_gw. by rewrite Hm. Qed.

Lemma clift_run {A} (r : res A) a c : r = Ok a -> clift r c = Ok (a, c).
Proof. by intros ->. Qed.

Lemma clift_inv {A} (r : res A) c a c' : clift r c = Ok (a, c') -> r = Ok a /\ c' = c.
Proof. unfold clift. destruct r; [|done]. by intros [= <- <-]. Qed.

Lemma C_bind_inv {A B} (m : C A) (f : A -> C B) c b c' :
  (m ≫= f) c = Ok (b, c') -> exists a c1, m c = Ok (a, c1) /\ f a c1 = Ok (b, c').
Proof. unfold mbind, C_bind. destruct (m c) as [[a c1]|]; [|done]. eauto. Qed.

Lemma ack_put k d evs x g c :
  ct_gw c = put k d evs x g ->
  exists (b : bool) x', responseCommandACK c =
    Ok (b, set_approve (if b then ct_approve c else ack_failed (ct_approve c))
             (set_ct_gw (put k d (evs ++ if b then [GwPublish to_cloud (ack_fields (sequenceNumber_ (ct_approve c)))] else []) x' g) c)) /\
    tables x' = tables x.
Proof.
  intros Hg. unfold responseCommandACK. erewrite C_bind_run by reflexivity.
  destruct (tryPublish_put to_cloud (ack_fields (sequenceNumber_ (ct_approve c))) k d evs x g) as (b & x' & Hr & Hx).
  rewrite <- Hg in Hr. erewrite C_bind_run by (apply on_gw_run; exact Hr). exists b, x'. split; [|done].
  destruct b; [by destruct c|reflexivity].
Qed.

(** A new command for a known device, once it is in the database: queued,
    acknowledged, and pushed if the acknowledgement could be sent. *)
Lemma queue_known payload client type seq pl d x x2 g c :
  ct_gw c = g -> getDevice client g = Ok (true, put client d [] x g) ->
  json_string payload ATLAS_CMD_PAYLOAD_PAYLOAD_JSON_KEY = Ok pl ->
  insertDeviceCommand seq type pl client x = (true, x2) ->
  let cmd := new_AtlasCommandDevice client seq type pl in
  let d1 := addRecvDeviceCommand cmd d in
  exists (acked : bool) d' evs x3 a', queue_command payload client type seq c =
      Ok (acked, set_approve a' (set_ct_gw (put client d' evs x3 g) c)) /\
    tables x3 = tables x2 /\ sequenceNumber_ a' = seq /\ (d' = d1 \/ d' = front_in_progress true d1) /\
    if acked then exists evs', evs = GwPublish to_cloud (ack_fields seq) :: evs' /\
      match pushable d1 with
      | Some c0 => exists bytes, serialized_commands [device_command c0] = Ok (Some bytes, blen bytes) /\
          evs' = [GwCoap client (psk_ d) (push_url d1) bytes] /\ d' = front_in_progress true d1
      | None => evs' = [] /\ d' = d1
      end
    else evs = [] /\ d' = d1.
Proof.
  intros Hg Hget Hpl Hins cmd d1. unfold queue_command.
  erewrite C_bind_run by (apply on_gw_run; rewrite Hg; exact Hget). cbn [negb].
  erewrite C_bind_run by (by apply clift_run). erewrite C_bind_run by (apply on_gw_run; apply gcall_put). rewrite Hins. cbn [fst snd negb].
  erewrite C_bind_run by (apply on_gw_run; apply update_put). erewrite C_bind_run by reflexivity.
  set (c2 := set_approve _ _). destruct (ack_put client d1 [] x2 g c2) as (b & x3 & Hack & Hx3); [by subst g|].
  erewrite C_bind_run by exact Hack. destruct b; cbn [negb].
  - destruct (pushCommand_put client d1 [GwPublish to_cloud (ack_fields seq)] x3 g) as (d' & evs' & x4 & Hp & Hx4 & Hres).
    erewrite C_bind_run by (apply on_gw_run; exact Hp).
    eexists true, d', _, x4, (approve_seq seq (ct_approve c)). split; [by destruct c|]. split; [congruence|]. split; [done|].
    split; [destruct (pushable d1); [destruct Hres as (? & _ & Hres)|]; naive_solver|].
    exists evs'. split; [done|]. exact Hres.
  - eexists false, d1, [], x3, (ack_failed (approve_seq seq (ct_approve c))). split; [by destruct c|]. split; [done|].
    split; [|auto]. unfold ack_failed. by destruct (ct_approve c) as [? ? ? [] ?]; cbn; case_decide.
Qed.
End ControlRuns.

Section ControlPreserves.
Context `{E : GwEnv} `{SND : !Sends E} `{CE : !CloudEnv} `{HO : HashOrder} `{HostEndian}.

Lemma pres_update_stored n k f : (forall t d, stored t k d -> stored t k (f d)) -> gpreserves (cmd_inv n) (update k f).
Proof.
  intros Hf g a g' (Hn & Ht & Hr & Hd) [= <- <-]. split; [done|]. split; [done|]. split; [done|].
  intros j d Hj. cbn in Hj. rewrite lookup_alter_Some in Hj. destruct Hj as [[-> (d0 & Hd0 & ->)]|[_ Hj]].
  - by apply Hf, Hd.
  - by apply Hd.
Qed.

Lemma pres_front n k b : gpreserves (cmd_inv n) (update k (front_in_progress b)).
Proof. apply pres_update_stored. intros t d. apply stored_front. Qed.

Lemma pres_timeouts n k z : 0 <= z <= ATLAS_PUSH_COMMAND_RETRY_NO -> gpreserves (cmd_inv n) (update k (set_timeouts z)).
Proof. intros Hz. apply pres_update_stored. intros t d. by apply stored_timeouts. Qed.
#[local] Hint Resolve pres_front pres_timeouts : pres.

(** Reading a device gives one the invariant holds of. *)
Lemma pres_this_bind {B} n k (f : AtlasDevice -> G B) :
  (forall t d, stored t k d -> gpreserves (cmd_inv n) (f d)) -> gpreserves (cmd_inv n) (this k ≫= f).
Proof.
  intros Hf g a g' Hg. unfold mbind, G_bind, this. destruct (devices_ g !! k) as [d|] eqn:Hd; [|done].
  apply (Hf (tables (gw_ext g)) d); [|done]. by apply Hg.
Qed.

Lemma publish_same topic fields x : same_commands (tables x) (tables (mqtt_publish topic fields x).2).
Proof. by rewrite mqtt_publish_tables. Qed.
#[local] Hint Resolve publish_same : pres.

Lemma pres_publish n topic fields : gpreserves (cmd_inv n) (tryPublishMessage topic fields).
Proof. unfold tryPublishMessage. pres_tac. Qed.
#[local] Hint Resolve pres_publish : pres.

Lemma pres_DONE n i : gpreserves (cmd_inv n) (responseCommandDONE i).
Proof. unfold responseCommandDONE, publish_to_cloud. pres_tac. Qed.
#[local] Hint Resolve pres_DONE : pres.

Lemma pres_pushCommand n k : gpreserves (cmd_inv n) (pushCommand k).
Proof. unfold pushCommand. pres_tac. Qed.
#[local] Hint Resolve pres_pushCommand : pres.

Lemma pres_alarmCallback n : gpreserves (cmd_inv n) alarmCallback.
Proof. unfold alarmCallback. apply pres_forEachDevice. intros k. pres_tac. Qed.

Lemma pres_markCommandAsDone n k : gpreserves (cmd_inv n) (markCommandAsDone k).
Proof.
  intros g a g' Hg Hrun. destruct (devices_ g !! k) as [d|] eqn:Hd.
  - rewrite (put_intro k d g Hd) in Hg, Hrun. destruct (recvCmds_ d) as [|c l] eqn:Hc.
    + revert Hrun. unfold markCommandAsDone. grun. rewrite Hc. by intros [= _ <-].
    + assert (Hid : identity_ d = k) by by apply cmd_inv_put in Hg as (_ & _ & _ & [? _] & _).
      destruct (markCommandAsDone_put k c l d [] (gw_ext g) g Hid Hc) as (b & evs & x & Hm & Hx & _). rewrite Hm in Hrun.
      injection Hrun as _ <-. destruct b; [by eapply mark_step|]. apply cmd_inv_put in Hg. apply cmd_inv_put. by rewrite Hx.
  - revert Hrun. unfold markCommandAsDone, mbind, G_bind, this. by rewrite Hd.
Qed.
#[local] Hint Resolve pres_markCommandAsDone : pres.

Lemma pres_deviceCmdRespCallback n k resp : gpreserves (cmd_inv n) (deviceCmdRespCallback k resp).
Proof.
  unfold deviceCmdRespCallback. apply pres_this_bind. intros t d (_ & (_ & Ht & _) & _).
  assert (H0 : 0 <= 0 <= ATLAS_PUSH_COMMAND_RETRY_NO) by done.
  pres_tac. apply pres_timeouts. unfold ATLAS_PUSH_COMMAND_RETRY_NO, u8 in *. lia.
Qed.

Lemma pres_handleCommandDoneAck n payload : gpreserves (cmd_inv n) (handleCommandDoneAck payload).
Proof.
  unfold handleCommandDoneAck. apply pres_bind; [pres_tac|]. intros client. apply pres_bind; [pres_tac|]. intros found.
  destruct (negb found); [pres_tac|]. intros g a g' Hg Hrun. destruct (devices_ g !! client) as [d|] eqn:Hd.
  2:{ revert Hrun. unfold mbind, G_bind, this. by rewrite Hd. }
  rewrite (put_intro client d g Hd) in Hg, Hrun. revert Hrun. grun. destruct (execCmds_ d) as [|c l] eqn:Hc; [by intros [= _ <-]|].
  destruct (json_uint payload ATLAS_CMD_PAYLOAD_SEQ_JSON_KEY) as [seq|]; [|done]. grun.
  case_decide; [by intros [= _ <-]|]. grun.
  destruct (deleteDeviceCommand (cd_sequenceNumber c) (gw_ext g)) as [[] x] eqn:Hdel; apply delete_spec in Hdel; cbn [fst snd negb].
  - grun. intros Hrun.
    assert (Hg2 : cmd_inv n (put client (removeExecutedCommand d) [] x g)) by (by eapply delete_step).
    revert Hrun. apply (pres_bind (cmd_inv n) (responseCommandDONE (identity_ d)) (fun _ => mret tt)); [pres_tac|intros _; pres_tac|done].
  - intros [= _ <-]. apply cmd_inv_put in Hg. apply cmd_inv_put. by rewrite Hdel.
Qed.

(** ** Control *)

Definition ct_inv (c : control) : Prop := cmd_inv (sequenceNumber_ (ct_approve c)) (ct_gw c).

Definition cpres {A} (m : C A) : Prop := forall c a c', ct_inv c -> m c = Ok (a, c') -> ct_inv c'.

Lemma cpres_ret {A} (a : A) : cpres (mret a).
Proof. by intros c b c' Hc [= <- <-]. Qed.

Lemma cpres_bind {A B} (m : C A) (f : A -> C B) : cpres m -> (forall a, cpres (f a)) -> cpres (m ≫= f).
Proof. intros Hm Hf c b c' Hc (a & c1 & H1 & H2)%C_bind_inv. eapply Hf; [|done]. by eapply Hm. Qed.

Lemma cpres_clift {A} (r : res A) : cpres (clift r).
Proof. intros c b c' Hc. unfold clift. destruct r; [|done]. by intros [= <- <-]. Qed.

Lemma cpres_cget {A} (f : control -> A) : cpres (cget f).
Proof. by intros c b c' Hc [= <- <-]. Qed.

Lemma cpres_on_gw {A} (m : G A) : (forall n, gpreserves (cmd_inv n) m) -> cpres (on_gw m).
Proof.
  intros Hm c b c' Hc. unfold on_gw. destruct (m (ct_gw c)) as [[a g]|] eqn:Hr; [|done]. intros [= <- <-].
  by eapply (Hm _ (ct_gw c)).
Qed.

Lemma cpres_modify f : (forall c, ct_gw (f c) = ct_gw c /\ sequenceNumber_ (ct_approve (f c)) = sequenceNumber_ (ct_approve c)) ->
  cpres (cmodify f).
Proof. intros Hf c b c' Hc [= <- <-]. unfold ct_inv. by destruct (Hf c) as [-> ->]. Qed.

Lemma ack_failed_seq a : sequenceNumber_ (ack_failed a) = sequenceNumber_ a.
Proof. unfold ack_failed. by destruct a as [? ? ? [] ?]; cbn; case_decide. Qed.

Lemma cpres_ack : cpres responseCommandACK.
Proof.
  unfold responseCommandACK. apply cpres_bind; [apply cpres_cget|]. intros a.
  apply cpres_bind; [apply cpres_on_gw; intros n; apply pres_publish|]. intros []; [apply cpres_ret|].
  apply cpres_bind; [|intros _; apply cpres_ret]. apply cpres_modify. intros c. split; [done|]. apply ack_failed_seq.
Qed.
End ControlPreserves.

(** * The inputs of the gateway with its cloud side *)

Section CommandRuns.
Context `{E : GwEnv} `{SND : !Sends E} `{CE : !CloudEnv} `{HO : HashOrder} `{HostEndian}.

Inductive ct_input :=
  | CtCloud (cmd : list byte)                                       (* a message of the cloud *)
  | CtResponse (k : list byte) (respStatus : AtlasCoapResponse)     (* the answer to a pushed command *)
  | CtPushAlarm
  | CtAckAlarm
  | CtClaim (payload : list byte)
  | CtClaimAlarm
  | CtCloudConnect
  | CtCloudDisconnect
  | CtCloudAlarm
  | CtGateway (i : gw_input).

Definition ct_handle (i : ct_input) : C unit :=
  match i with
  | CtCloud cmd => parseCmd cmd
  | CtResponse k resp => on_gw (deviceCmdRespCallback k resp)
  | CtPushAlarm => on_gw alarmCallback
  | CtAckAlarm => statusACKCallback
  | CtClaim payload => _ ← handleClaimReq payload; mret tt
  | CtClaimAlarm => claim_alarmCallback
  | CtCloudConnect => cloud_onConnect
  | CtCloudDisconnect => cloud_onDisconnect
  | CtCloudAlarm => cloud_keepaliveAlarmCb
  | CtGateway i => _ ← on_gw (handle i); mret tt
  end.

(** A resent command is the last one, or one the database no longer has. *)
Definition in_order (seq : Z) (c : control) : Prop :=
  seq < sequenceNumber_ (ct_approve c) ->
  Forall (fun r => cr_sequenceNumber r <> s32 seq) (t_command (tables (gw_ext (ct_gw c)))).

Definition orderly (i : ct_input) (c : control) : Prop :=
  match i with
  | CtCloud cmd => forall p seq, json_member (json_parse cmd) ATLAS_CMD_PAYLOAD_JSON_KEY = Ok p ->
      json_uint p ATLAS_CMD_PAYLOAD_SEQ_JSON_KEY = Ok seq -> in_order seq c
  | _ => True
  end.

Inductive ct_run : control -> list ct_input -> control -> Prop :=
  | ct_run_nil c : ct_run c [] c
  | ct_run_cons c i c1 ins c2 : orderly i c -> ct_handle i c = Ok (tt, c1) -> ct_run c1 ins c2 -> ct_run c (i :: ins) c2.

(** The two statements of an insertion do not fail apart. *)
Definition insert_atomic : Prop := forall seq ty pl i x,
  (insertDeviceCommand seq ty pl i x).1 = false -> tables (insertDeviceCommand seq ty pl i x).2 = tables x.

Lemma checkExec_same seq x : same_commands (tables x) (tables (checkDeviceCommandForExecution seq x).2).
Proof.
  destruct (checkDeviceCommandForExecution seq x) as [b x'] eqn:Hx. eapply sql_check_spec in Hx as [Ht _]; [|reflexivity].
  cbn. by rewrite Ht.
Qed.

Lemma old_inv payload seq c b c' :
  json_uint payload ATLAS_CMD_PAYLOAD_SEQ_JSON_KEY = Ok seq -> seq <= sequenceNumber_ (ct_approve c) -> in_order seq c ->
  ct_inv c -> handleOldCommand payload c = Ok (b, c') -> ct_inv c'.
Proof.
  intros Hseq Hle Hord Hc. unfold handleOldCommand. erewrite C_bind_run by (by apply clift_run).
  destruct (checkDeviceCommandBySeqNo seq (gw_ext (ct_gw c))) as [found x] eqn:Hf.
  erewrite C_bind_run by (apply on_gw_run; unfold gcall; by rewrite Hf). eapply sql_check_spec in Hf as [Hx Hrows]; [|reflexivity].
  assert (Hc1 : ct_inv (set_ct_gw (set_gw_ext x (ct_gw c)) c)) by (apply cmd_inv_ext; [by rewrite Hx|done]).
  destruct found; [|by intros [= _ <-]]. erewrite C_bind_run by reflexivity.
  assert (seq = sequenceNumber_ (ct_approve c)) as Heq.
  { destruct (decide (seq < sequenceNumber_ (ct_approve c))) as [Hlt|]; [|lia]. exfalso. apply (Hrows eq_refl).
    specialize (Hord Hlt). rewrite Forall_forall in Hord.
    assert (base.filter (fun r => cr_sequenceNumber r = s32 seq) (t_command (tables (gw_ext (ct_gw c)))) = []) as ->; [|done].
    apply elem_of_nil_inv. intros r [Hr Hin]%list_elem_of_filter. by apply (Hord r Hin). }
  match goal with |- ?m ?c2 = _ -> _ => assert (Hm : cpres m); [|apply Hm] end.
  - apply cpres_bind; [apply cpres_on_gw; intros n; apply pres_gcall, checkExec_same|]. intros []; [|apply cpres_ack].
    apply cpres_bind; [apply cpres_clift|]. intros client. apply cpres_on_gw. intros n. apply pres_DONE.
  - unfold ct_inv. cbn. rewrite Heq. exact Hc1.
Qed.

Lemma queue_inv payload client type seq c b c' :
  insert_atomic -> json_uint payload ATLAS_CMD_PAYLOAD_SEQ_JSON_KEY = Ok seq -> sequenceNumber_ (ct_approve c) < seq ->
  ct_inv c -> queue_command payload client type seq c = Ok (b, c') -> ct_inv c'.
Proof.
  intros Hatom Hseq Hlt Hc Hrun.
  assert (Hu : is_u32 seq).
  { unfold json_uint in Hseq. apply res_bind_inv in Hseq as (v & _ & Hv). by eapply asUInt_range. }
  destruct (getDevice client (ct_gw c)) as [[found g1]|] eqn:Hget.
  2:{ revert Hrun. unfold queue_command, mbind, C_bind, on_gw. by rewrite Hget. }
  pose proof (pres_getDevice _ _ _ _ _ Hc Hget) as Hg1.
  destruct (getDevice_cases client (ct_gw c)) as [(x & Hr & _)|(d & x & Hr & _)]; rewrite Hget in Hr; injection Hr as -> ->.
  { revert Hrun. unfold queue_command. erewrite C_bind_run by (by apply on_gw_run). by intros [= _ <-]. }
  destruct (json_string payload ATLAS_CMD_PAYLOAD_PAYLOAD_JSON_KEY) as [pl|f] eqn:Hpl.
  2:{ revert Hrun. unfold queue_command. erewrite C_bind_run by (by apply on_gw_run). cbn [negb]. rewrite Hpl. done. }
  pose proof Hg1 as (_ & Ht & _ & (Hid & _ & r & Hdev & Hrid & _) & _)%cmd_inv_put.
  destruct (insertDeviceCommand seq type pl client x) as [[] x2] eqn:Hins.
  - destruct (queue_known payload client type seq pl d x x2 _ c eq_refl Hget Hpl Hins)
      as (acked & d' & evs & x3 & a' & Hq & Hx3 & Ha & Hd' & _).
    rewrite Hrun in Hq. injection Hq as _ ->. unfold ct_inv. cbn. rewrite Ha.
    pose proof (insertDeviceCommand_spec seq type pl r x true x2 Ht Hdev) as Hspec. rewrite Hrid in Hspec. specialize (Hspec Hins).
    cbn in Hspec. rewrite <- Hx3 in Hspec.
    assert (Hadd : cmd_inv seq (put client (addRecvDeviceCommand (new_AtlasCommandDevice client seq type pl) d) evs x3 (ct_gw c))).
    { exact (add_step _ _ client (new_AtlasCommandDevice client seq type pl) r d [] evs x x3 (ct_gw c)
        Hu Hlt eq_refl eq_refl Hdev Hrid Hspec Hg1). }
    destruct Hd' as [->| ->]; [done|]. apply cmd_inv_put in Hadd as (? & ? & ? & ? & ?). apply cmd_inv_put.
    split_and!; try done. by apply stored_front.
  - pose proof (Hatom seq type pl client x) as Hat. rewrite Hins in Hat. specialize (Hat eq_refl). cbn in Hat.
    revert Hrun. unfold queue_command. erewrite C_bind_run by (by apply on_gw_run). cbn [negb].
    erewrite C_bind_run by (by apply clift_run). erewrite C_bind_run by (apply on_gw_run; apply gcall_put). rewrite Hins.
    intros [= _ <-]. apply cmd_inv_put in Hg1. apply cmd_inv_put. cbn. by rewrite Hat.
Qed.

(** The guards of a command: it is refused without a trace, or it is complete,
    signed if the gateway has an owner, and old or new. *)
Lemma client_command_cases payload c b c' :
  handleClientCommand payload c = Ok (b, c') ->
  (b = false /\ c' = c) \/
  exists seq client type,
    json_uint payload ATLAS_CMD_PAYLOAD_SEQ_JSON_KEY = Ok seq /\
    json_string payload ATLAS_CMD_PAYLOAD_CLIENT_JSON_KEY = Ok client /\
    json_string payload ATLAS_CMD_PAYLOAD_TYPE_JSON_KEY = Ok type /\
    (claimed_ (ct_owner c) = true -> validateCommandSignature (ownerSecretKey_ (ct_owner c)) payload = Ok true) /\
    if decide (seq <= sequenceNumber_ (ct_approve c)) then handleOldCommand payload c = Ok (b, c')
    else queue_command payload client type seq c = Ok (b, c').
Proof.
  intros Hrun. unfold handleClientCommand in Hrun.
  apply C_bind_inv in Hrun as (seqNo & c1 & [_ ->]%clift_inv & Hrun).
  case_decide; [left; by injection Hrun as <- <-|].
  apply C_bind_inv in Hrun as (client & c1 & [Hclient ->]%clift_inv & Hrun).
  case_decide; [left; by injection Hrun as <- <-|].
  apply C_bind_inv in Hrun as (type & c1 & [Htype ->]%clift_inv & Hrun).
  case_decide; [left; by injection Hrun as <- <-|]. erewrite C_bind_run in Hrun by reflexivity.
  apply C_bind_inv in Hrun as (valid & c1 & Hv & Hrun).
  assert (c1 = c /\ (claimed_ (ct_owner c) = true -> validateCommandSignature (ownerSecretKey_ (ct_owner c)) payload = Ok valid)) as [-> Hsig].
  { destruct (claimed_ (ct_owner c)); [|by injection Hv as _ <-].
    by apply clift_inv in Hv as [-> ->]. }
  destruct valid; [|left; by injection Hrun as <- <-]. cbn [negb] in Hrun.
  apply C_bind_inv in Hrun as (seq & c1 & [Hseq ->]%clift_inv & Hrun).
  erewrite C_bind_run in Hrun by reflexivity. right. exists seq, client, type. case_decide; auto.
Qed.

Lemma client_inv payload c b c' :
  insert_atomic -> (forall seq, json_uint payload ATLAS_CMD_PAYLOAD_SEQ_JSON_KEY = Ok seq -> in_order seq c) ->
  ct_inv c -> handleClientCommand payload c = Ok (b, c') -> ct_inv c'.
Proof.
  intros Hatom Hord Hc [[_ ->]|(seq & client & type & Hseq & _ & _ & _ & Hrun)]%client_command_cases; [done|].
  case_decide; [by eapply old_inv; eauto|]. eapply queue_inv; eauto. lia.
Qed.
End CommandRuns.
