(* ===== verification/GwControl.v ===== *)
(** The theorems on the gateway's cloud side: commands for devices are stored,
    queued in order, executed one at a time and survive a restart; old and forged
    commands change nothing; an owner, once there, stays. And where the code does
    not do what it means to: a resent command makes the gateway accept the ones
    after it again, and the confirmation of the last executed command reads from
    an empty list. *)
From S2P Require Import Prelude Defs CLib Command GwDefs GwBatch GwXfer GwFilter GwBayes GwStore GwNetStore GwDevice GwServer GwReputation GwLifecycle GwApprove GwCommands.
Import GwType.

(** * Every input keeps the invariant *)

Section Inputs.
Context `{E : GwEnv} `{SND : !Sends E} `{CE : !CloudEnv} `{HO : HashOrder} `{HostEndian}.

Lemma insertOwner_cmd_inv n key i : gpreserves (cmd_inv n) (gcall (insertOwner key i)).
Proof.
  intros g a g' Hg. unfold gcall. destruct (insertOwner key i (gw_ext g)) as [b x] eqn:Hx. apply insertOwner_spec in Hx.
  intros [= _ <-]. destruct Hg as (Hn & Ht & Hr & Hd). unfold cmd_inv. cbn.
  assert (Hs : t_device (tables x) = t_device (tables (gw_ext g)) /\ t_command (tables x) = t_command (tables (gw_ext g)))
    by (rewrite Hx; by destruct b). destruct Hs as [Hs1 Hs2].
  unfold tables_ok, rows_ok, stored, rows_of in *. rewrite Hs1, Hs2. done.
Qed.

Lemma shortCode_same x : same_commands (tables x) (tables (generateShortCode x).2).
Proof.
  unfold generateShortCode. pose proof (shuffle_tables ATLAS_CLAIM_SHORT_CODE_ALPHABET x) as Hs.
  destruct (shuffle ATLAS_CLAIM_SHORT_CODE_ALPHABET x) as [s x']. cbn in *. by rewrite Hs.
Qed.

Lemma pres_allDevicesUpdate (I : gateway -> Prop) `{!GwInv I} : gpreserves I allDevicesUpdate.
Proof. unfold allDevicesUpdate. apply pres_forEachDevice. intros k. unfold updateDevice. pres_tac. Qed.

Ltac cpres_step :=
  match goal with
  | |- cpres (mret _) => apply cpres_ret
  | |- cpres (_ ≫= _) => apply cpres_bind; [|intros ?]
  | |- cpres (clift _) => apply cpres_clift
  | |- cpres (cget _) => apply cpres_cget
  | |- cpres (cmodify _) => by apply cpres_modify
  | |- cpres (modify_approve _) => by apply cpres_modify
  | |- cpres (on_gw (gcall (insertOwner _ _))) => apply cpres_on_gw; intros ?; apply insertOwner_cmd_inv
  | |- cpres (on_gw _) => apply cpres_on_gw; intros ?; pres_tac
  | |- cpres (if ?b then _ else _) => destruct b
  | |- cpres responseCommandACK => apply cpres_ack
  end.

Lemma cpres_claim payload : cpres (handleClaimReq payload).
Proof. unfold handleClaimReq, claimGateway. cbv zeta. repeat cpres_step. Qed.

Lemma cpres_sendRegisterCmd : cpres sendRegisterCmd.
Proof. unfold sendRegisterCmd, gatewayFullUpdate. repeat cpres_step; [apply pres_publish|]. apply (pres_allDevicesUpdate _). Qed.

Lemma handle_inv i c c' : insert_atomic -> orderly i c -> ct_inv c -> ct_handle i c = Ok (tt, c') -> ct_inv c'.
Proof.
  intros Hatom Hord Hc. assert (Hp : forall m : C unit, cpres m -> m c = Ok (tt, c') -> ct_inv c') by (intros m Hm; by apply Hm).
  destruct i; cbn [ct_handle]; [|apply Hp..].
  - unfold parseCmd. intros (type & c1 & [_ ->]%clift_inv & Hrun)%C_bind_inv. repeat case_decide.
    + revert Hrun. apply Hp, cpres_on_gw. intros n. apply (pres_allDevicesUpdate _).
    + revert Hrun. apply Hp, cpres_sendRegisterCmd.
    + apply C_bind_inv in Hrun as (p & c1 & [Hm ->]%clift_inv & Hrun). apply C_bind_inv in Hrun as (b & c1 & Hrun & [= <-]).
      eapply client_inv; eauto.
    + apply C_bind_inv in Hrun as (p & c1 & [_ ->]%clift_inv & Hrun). revert Hrun. apply Hp, cpres_on_gw.
      intros n. apply pres_handleCommandDoneAck.
    + by injection Hrun as <-.
  - apply cpres_on_gw. intros n. apply pres_deviceCmdRespCallback.
  - apply cpres_on_gw. intros n. apply pres_alarmCallback.
  - unfold statusACKCallback. repeat cpres_step.
  - apply cpres_bind; [apply cpres_claim|]. intros r. apply cpres_ret.
  - unfold claim_alarmCallback. repeat cpres_step. apply shortCode_same.
  - unfold cloud_onConnect. repeat cpres_step. apply cpres_sendRegisterCmd.
  - unfold cloud_onDisconnect. repeat cpres_step.
  - unfold cloud_keepaliveAlarmCb, sendKeepaliveCmd. repeat cpres_step; [apply pres_publish|apply cpres_sendRegisterCmd].
  - apply cpres_bind; [|intros r; apply cpres_ret]. apply cpres_on_gw. intros n. apply (pres_handle _).
Qed.

Lemma run_inv c ins c' : insert_atomic -> ct_inv c -> ct_run c ins c' -> ct_inv c'.
Proof. intros Hatom Hc Hrun. induction Hrun as [|c i c1 ins c2 Hord Hh _ IH]; [done|]. by eapply IH, handle_inv. Qed.
End Inputs.

(** * The inputs that always return *)

Section Total.
Context `{E : GwEnv} `{SND : !Sends E} `{CE : !CloudEnv} `{HO : HashOrder} `{HostEndian}.

Lemma push_returns k d evs x g :
  exists d' evs' x', pushCommand k (put k d evs x g) = Ok (tt, put k d' (evs ++ evs') x' g) /\
    (d' = d \/ d' = front_in_progress true d).
Proof.
  destruct (pushCommand_put k d evs x g) as (d' & evs' & x' & Hrun & _ & Hres). exists d', evs', x'. split; [done|].
  destruct (pushable d); [destruct Hres as (bytes & _ & Hres)|]; naive_solver.
Qed.

Lemma response_returns k resp d evs x g :
  identity_ d = k -> exists d' evs' x', deviceCmdRespCallback k resp (put k d evs x g) = Ok (tt, put k d' (evs ++ evs') x' g).
Proof.
  intros Hid. unfold deviceCmdRespCallback. grun. destruct (recvCmds_ d) as [|c l] eqn:Hc.
  { exists d, [], x. by rewrite app_nil_r. }
  case_decide; [|case_decide].
  - grun. destruct (markCommandAsDone_put k c l (set_timeouts 0 d) evs x g Hid Hc) as (b & e1 & x1 & Hm & _).
    erewrite G_bind_run by exact Hm.
    destruct (push_returns k (if b then to_exec c (set_timeouts 0 d) else set_timeouts 0 d) (evs ++ e1) x1 g)
      as (d' & e2 & x2 & -> & _). rewrite <- app_assoc. eauto.
  - grun. case_decide.
    + rewrite update_put. eexists _, [], x. by rewrite app_nil_r.
    + grun. destruct (push_returns k (set_timeouts (u8 (deviceCmdTimeouts_ d + 1)) (front_in_progress false d)) evs x g)
        as (d' & e2 & x2 & -> & _). eauto.
  - grun. rewrite update_put. eexists _, [], x. by rewrite app_nil_r.
Qed.

(** The alarm visits every device: it pushes and repeats the DONE message. *)
Lemma push_alarm_returns n g : cmd_inv n g -> exists g', alarmCallback g = Ok (tt, g').
Proof.
  intros (_ & _ & _ & Hd). unfold alarmCallback.
  match goal with |- context [forEachDevice ?cb] =>
    destruct (forEachDevice_visits queue_wf (fun _ _ _ _ _ => True) cb g) as (g' & Hrun & _) end; [|..|by exists g'].
  - intros k d evs x g1 (_ & _ & Hq). destruct (push_returns k d evs x g1) as (d' & e1 & x1 & Hp & Hd').
    erewrite G_bind_run by exact Hp. grun. destruct (execCmds_ d') as [|c l] eqn:Hc; [by eexists _, _, _|].
    assert (deviceIdentity_ c = k) as ->.
    { assert (Hc' : execCmds_ d = c :: l) by (by destruct Hd' as [->| ->]). rewrite Hc' in Hq.
      apply Forall_app in Hq as [_ [[? _] _]%Forall_cons]. done. }
    destruct (responseDONE_put k c l d' (evs ++ e1) x1 g1 Hc) as (b & x2 & Hr & _). erewrite G_bind_run by exact Hr.
    eexists _, _, x2. rewrite <- app_assoc. done.
  - intros k d Hk. by apply Hd.
Qed.

Lemma publish_returns topic fields g : exists b g', tryPublishMessage topic fields g = Ok (b, g').
Proof.
  unfold tryPublishMessage. grun. destruct (mqtt_connTok (gw_ext g)); [|eauto]. destruct (mqtt_is_connected (gw_ext g)); [|eauto].
  unfold mbind, G_bind, gcall. destruct (mqtt_publish topic fields (gw_ext g)) as [[] x]; cbn; eauto.
Qed.

Lemma ack_alarm_returns c : exists c', statusACKCallback c = Ok (tt, c').
Proof.
  unfold statusACKCallback, responseCommandACK. unfold mbind at 1, C_bind at 1. erewrite C_bind_run by reflexivity.
  unfold publish_to_cloud. destruct (publish_returns (gateway_psk ++ ATLAS_TO_CLOUD_TOPIC)
    (ack_fields (sequenceNumber_ (ct_approve c))) (ct_gw c)) as (b & g' & Hr).
  erewrite C_bind_run by (apply on_gw_run; exact Hr). destruct b; cbn; eauto.
Qed.

(** An input that is no message of the cloud and, if it answers a command, is for a
    device that is there. *)
Definition local_input (i : ct_input) (c : control) : Prop :=
  match i with
  | CtResponse k _ => is_Some (devices_ (ct_gw c) !! k)
  | CtPushAlarm | CtAckAlarm => True
  | _ => False
  end.

Lemma local_returns i c : ct_inv c -> local_input i c -> exists c', ct_handle i c = Ok (tt, c').
Proof.
  intros Hc Hi. destruct i; try done; cbn [ct_handle].
  - destruct Hi as [d Hd]. assert (Hid : identity_ d = k) by (by apply Hc in Hd as [? _]).
    destruct (response_returns k respStatus d [] (gw_ext (ct_gw c)) (ct_gw c) Hid) as (d' & evs & x & Hr).
    rewrite <- put_intro in Hr by done. eexists. by apply on_gw_run.
  - destruct (push_alarm_returns _ _ Hc) as (g' & Hr). eexists. by apply on_gw_run.
  - apply ack_alarm_returns.
Qed.
End Total.

(** * What old and forged commands leave alone *)

Section Quiet.
Context `{E : GwEnv} `{SND : !Sends E} `{CE : !CloudEnv} `{HO : HashOrder} `{HostEndian}.

Definition is_publish (e : gw_event) : Prop := match e with GwPublish _ _ => True | _ => False end.

(** From [g0] on, no command was stored, queued or sent to a device. *)
Definition quiet (g0 g : gateway) : Prop :=
  t_command (tables (gw_ext g)) = t_command (tables (gw_ext g0)) /\
  (forall k d, devices_ g0 !! k = Some d -> devices_ g !! k = Some d) /\
  exists evs, gw_out g = gw_out g0 ++ evs /\ Forall is_publish evs.

Lemma quiet_refl g : quiet g g.
Proof. split; [done|]. split; [done|]. exists []. by rewrite app_nil_r. Qed.

Lemma quiet_gcall {A} g0 (f : gext -> A * gext) :
  (forall x, same_commands (tables x) (tables (f x).2)) -> gpreserves (quiet g0) (gcall f).
Proof.
  intros Hf g a g' (Ht & Hd & He). unfold gcall. specialize (Hf (gw_ext g)). destruct (f (gw_ext g)) as [b x].
  intros [= _ <-]. destruct Hf as (_ & Hf & _). split; [cbn in *; congruence|]. done.
Qed.

Lemma quiet_publish g0 topic fields : gpreserves (quiet g0) (gemit (GwPublish topic fields)).
Proof.
  intros g a g' (Ht & Hd & evs & He & Hp) [= _ <-]. split; [done|]. split; [done|]. exists (evs ++ [GwPublish topic fields]).
  split; [cbn; by rewrite He, app_assoc|]. apply Forall_app. split; [done|]. by constructor.
Qed.

Lemma quiet_getDevice g0 i : gpreserves (quiet g0) (getDevice i).
Proof.
  intros g a g' (Ht & Hd & evs & He & Hp) Hr. destruct (getDevice_cases i g) as [(x & Hget & _ & Hx)|(d & x & Hget & _ & Hc)];
    rewrite Hget in Hr; injection Hr as _ <-.
  - split; [cbn; by rewrite Hx|]. split; [done|]. by exists evs.
  - split; [|split].
    + cbn. destruct Hc as [[_ ->]|(_ & _ & rows & b & ->)]; done.
    + intros k e Hk. cbn. destruct (decide (k = i)) as [->|Hne]; [|rewrite lookup_insert_ne by done; by apply Hd].
      rewrite lookup_insert_eq. apply Hd in Hk. destruct Hc as [[Hc _]|[Hc _]]; congruence.
    + exists evs. cbn. by rewrite app_nil_r.
Qed.

Lemma quiet_tryPublish g0 topic fields : gpreserves (quiet g0) (tryPublishMessage topic fields).
Proof.
  unfold tryPublishMessage. apply pres_bind; [apply pres_gget|]. intros x. destruct (mqtt_connTok x); [|apply pres_ret].
  destruct (mqtt_is_connected x); [|apply pres_ret].
  apply pres_bind; [apply quiet_gcall; intros y; by rewrite mqtt_publish_tables|]. intros []; [|apply pres_ret].
  apply pres_bind; [apply quiet_publish|]. intros _. apply pres_ret.
Qed.

Lemma quiet_DONE g0 i : gpreserves (quiet g0) (responseCommandDONE i).
Proof.
  unfold responseCommandDONE, publish_to_cloud. apply pres_bind; [apply quiet_getDevice|]. intros []; [|apply pres_ret].
  apply pres_bind; [apply pres_this|]. intros d. apply pres_bind; [apply pres_glift|]. intros c. apply quiet_tryPublish.
Qed.

Lemma old_quiet payload c b c' :
  handleOldCommand payload c = Ok (b, c') -> quiet (ct_gw c) (ct_gw c') /\ ct_owner c' = ct_owner c.
Proof.
  assert (Hon : forall {A} (m : G A) c1 a c2, gpreserves (quiet (ct_gw c)) m -> quiet (ct_gw c) (ct_gw c1) ->
    on_gw m c1 = Ok (a, c2) -> quiet (ct_gw c) (ct_gw c2) /\ ct_owner c2 = ct_owner c1).
  { intros A m c1 a c2 Hm Hq. unfold on_gw. destruct (m (ct_gw c1)) as [[a' g]|] eqn:Hr; [|done]. intros [= _ <-].
    split; [|done]. by eapply (Hm _ a' g). }
  assert (Hcheck : forall s args rows x, sql_exec s args (tables x) = Some (rows, tables x) ->
    same_commands (tables x) (tables (sql_check s args x).2)).
  { intros s args rows x He. destruct (sql_check s args x) as [f x'] eqn:Hs.
    destruct (sql_check_spec s args rows x f x' He Hs) as [Hx _]. cbn. by rewrite Hx. }
  unfold handleOldCommand. intros (seq & c1 & [_ ->]%clift_inv & Hrun)%C_bind_inv.
  apply C_bind_inv in Hrun as (found & c2 & Hf & Hrun).
  apply Hon in Hf as [Hq2 Ho2]; [|apply quiet_gcall; intros x; by eapply Hcheck|apply quiet_refl].
  destruct found; [|by injection Hrun as <- <-]. erewrite C_bind_run in Hrun by reflexivity.
  apply C_bind_inv in Hrun as (executed & c3 & Hx & Hrun).
  apply Hon in Hx as [Hq3 Ho3]; [|apply quiet_gcall; intros x; by eapply Hcheck|exact Hq2]. cbn in Ho3. destruct executed.
  - apply C_bind_inv in Hrun as (client & c4 & [_ ->]%clift_inv & Hrun).
    apply Hon in Hrun as [? ?]; [|apply quiet_DONE|done]. split; [done|congruence].
  - unfold responseCommandACK in Hrun. erewrite C_bind_run in Hrun by reflexivity.
    apply C_bind_inv in Hrun as (d & c4 & Hp & Hrun). apply Hon in Hp as [Hq4 Ho4]; [|apply quiet_tryPublish|done].
    destruct d; cbn in Hrun; injection Hrun as <- <-; (split; [done|cbn; congruence]).
Qed.
End Quiet.

(** * A cloud to run

    Messages are numbered by their length: the one of [n] bytes carries command
    [n] for the sample device. The key of the owner is its own HMAC. *)

Inductive sim_json := JNull | JNum (z : Z) | JText (s : list byte) | JObj (fields : list (list byte * sim_json)).

Definition sim_member (v : sim_json) (key : list byte) : res sim_json :=
  match v with
  | JObj fields => Ok (default JNull (snd <$> List.find (fun f => bool_decide (f.1 = key)) fields))
  | JNull => Ok JNull
  | _ => Fault Uncaught
  end.
Definition sim_string (v : sim_json) : res (list byte) :=
  match v with JText s => Ok s | JNum z => Ok (dec z) | JNull => Ok [] | JObj _ => Fault Uncaught end.
Definition sim_uint (v : sim_json) : res Z :=
  match v with JNum z => if decide (0 <= z < 4294967296) then Ok z else Fault Uncaught | JNull => Ok 0 | _ => Fault Uncaught end.

Definition sim_payload (seq : Z) : sim_json :=
  JObj [(ATLAS_CMD_PAYLOAD_SEQ_JSON_KEY, JNum seq); (ATLAS_CMD_PAYLOAD_CLIENT_JSON_KEY, JText dev);
        (ATLAS_CMD_PAYLOAD_TYPE_JSON_KEY, JText ATLAS_CMD_DEVICE_RESTART_CLOUD)].
Definition sim_message (seq : Z) : sim_json :=
  JObj [(ATLAS_CMD_TYPE_JSON_KEY, JText ATLAS_CMD_GATEWAY_CLIENT); (ATLAS_CMD_PAYLOAD_JSON_KEY, sim_payload seq);
        (ATLAS_CLAIM_SHORT_CODE_JSON_KEY, JText (cstr "012345")); (ATLAS_CLAIM_SECRET_KEY_JSON_KEY, JText (cstr "key"));
        (ATLAS_CLAIM_OWNER_IDENTITY_JSON_KEY, JText (cstr "owner"))].

Definition sim_cloud : @CloudEnv sim_gw.
Proof.
  refine (Build_CloudEnv sim_gw sim_json (fun bs => sim_message (blen bs)) sim_member sim_string sim_uint _
    Some (fun key text => key) (fun _ => true) (fun _ => true) (fun _ _ x => (true, x)) (fun s x => (s, x))
    (cstr "gw") (cstr "psk") _ _); [|done|done].
  intros [|z|s|f] n; cbn; try discriminate; [by intros [= <-]|]. case_decide; [|discriminate]. by intros [= <-].
Defined.

Definition sim_start (g : @gateway sim_gw) : @control sim_gw :=
  mk_control sim_gw g (mk_approve true false 0 false 0) (mk_owner false [] []) (mk_claim (cstr "012345") true) true.

Lemma clock_tables : tables_ok (one_device dev (cstr "secret")).
Proof. repeat split; cbn; repeat constructor; try apply not_elem_of_nil; done. Qed.

Lemma start_inv : ct_inv (sim_start empty_gw).
Proof.
  split; [done|]. split; [apply clock_tables|]. split; [by repeat constructor|]. apply map_Forall_empty.
Qed.

Lemma clock_insert_atomic : @insert_atomic sim_gw.
Proof.
  intros seq ty pl i x. unfold insertDeviceCommand, get_deviceId, sql_query, sql_run, updateMaxSequenceNumber, sql_do, sql_query, sql_run.
  cbn. unfold mem_steps. cbn. destruct (devices_of i x.2) as [|d l]; cbn; case_decide; cbn; done.
Qed.

(** The result of a run that is known to return. *)
Definition is_ok {A} (r : res A) : bool := match r with Ok _ => true | Fault _ => false end.
Definition the {A} (r : res A) (default : A) : A := match r with Ok a => a | Fault _ => default end.

Lemma the_ok {A} (r : res A) d : is_ok r = true -> r = Ok (the r d).
Proof. by destruct r. Qed.

(** The sample gateway after the command of one message, and after an alarm. *)
Definition one_command : @control sim_gw :=
  (the (@ct_handle sim_gw sim_cloud key_order true (CtCloud [x00]) (sim_start empty_gw)) (tt, sim_start empty_gw)).2.
Definition pushed_command : @control sim_gw :=
  (the (@ct_handle sim_gw sim_cloud key_order true CtPushAlarm one_command) (tt, one_command)).2.

Lemma handle_the i c c0 : is_ok (@ct_handle sim_gw sim_cloud key_order true i c) = true ->
  @ct_handle sim_gw sim_cloud key_order true i c =
  Ok (tt, (the (@ct_handle sim_gw sim_cloud key_order true i c) (tt, c0)).2).
Proof. intros Hok. rewrite (the_ok _ (tt, c0) Hok) at 1. by destruct (the _ _) as [[] ?]. Qed.

Lemma one_command_ok :
  @ct_handle sim_gw sim_cloud key_order true (CtCloud [x00]) (sim_start empty_gw) = Ok (tt, one_command).
Proof. apply (handle_the (CtCloud [x00]) (sim_start empty_gw) (sim_start empty_gw)). vm_compute. reflexivity. Qed.

Lemma pushed_command_ok : @ct_handle sim_gw sim_cloud key_order true CtPushAlarm one_command = Ok (tt, pushed_command).
Proof. apply (handle_the CtPushAlarm one_command one_command). vm_compute. reflexivity. Qed.

Lemma one_command_orderly : @orderly sim_gw sim_cloud (CtCloud [x00]) (sim_start empty_gw).
Proof. intros p seq [= <-] [= <-] Hlt. vm_compute in Hlt. discriminate Hlt. Qed.

Lemma one_command_run : @ct_run sim_gw sim_cloud key_order true (sim_start empty_gw) [CtCloud [x00]; CtPushAlarm] pushed_command.
Proof.
  apply (ct_run_cons _ _ one_command); [apply one_command_orderly|apply one_command_ok|].
  apply (ct_run_cons _ _ pushed_command); [exact I|apply pushed_command_ok|apply ct_run_nil].
Qed.

Lemma one_command_inv : ct_inv one_command.
Proof.
  apply (@handle_inv sim_gw sim_sends sim_cloud key_order true (CtCloud [x00]) (sim_start empty_gw));
    [apply clock_insert_atomic|apply one_command_orderly|apply start_inv|apply one_command_ok].
Qed.

(** * Theorems *)

(** C9: Whatever messages of the cloud, answers of devices, alarms, claims and
    requests the gateway has gone through, with any failures of the database:
    every queued command is in the database with the right mark, sequence numbers
    there are unique and not above the gateway's, only the first command of a
    queue is on its way and its retries are bounded. In all these states the
    answers of devices and the two alarms of the module are handled to their end.
    The cloud resends at most its last command, the two statements of an
    insertion do not fail apart, and no request to a device is refused as it is made
    ([Sends]). *)
Theorem commands_durable `{E : GwEnv} `{!Sends E} `{CE : !CloudEnv} `{HO : HashOrder} `{HostEndian}
    (c : control) (ins : list ct_input) (c' : control) :
  insert_atomic -> ct_inv c -> ct_run c ins c' ->
  ct_inv c' /\ forall i, local_input i c' -> exists c'', ct_handle i c' = Ok (tt, c'').
Proof.
  intros Hatom Hc Hrun. pose proof (run_inv _ _ _ Hatom Hc Hrun) as Hc'. split; [done|].
  intros i Hi. by apply local_returns.
Qed.

Lemma commands_durable_witness :
  ct_inv pushed_command /\
  forall i, local_input i pushed_command -> exists c'', @ct_handle sim_gw sim_cloud key_order true i pushed_command = Ok (tt, c'').
Proof.
  apply (@commands_durable sim_gw sim_sends sim_cloud key_order true (sim_start empty_gw) [CtCloud [x00]; CtPushAlarm] pushed_command).
  - apply clock_insert_atomic.
  - apply start_inv.
  - apply one_command_run.
Defined.

(** The state of a gateway that was stopped and started: the database is what is left. *)
Definition restarted `{E : GwEnv} (g : gateway) : gateway := mk_gateway E ∅ false idle_xfer [] (gw_ext g) new_trusted.

(** C29: No queued command is lost when the gateway is stopped and started: as soon as
    the device is looked up again its queues are back from the database, with
    every command that was waiting and every one that was executed but not yet
    confirmed, none of them marked as on its way (texts are cut at a NUL). The
    database answers, and has a key for the device. *)
Theorem commands_survive_restart `{E : GwEnv} `{HO : HashOrder}
    (n : Z) (g : gateway) (k : list byte) (d : AtlasDevice) :
  cmd_inv n g -> devices_ g !! k = Some d -> sql_reliable -> known k (restarted g) ->
  exists g' d', getDevice k (restarted g) = Ok (true, g') /\ devices_ g' !! k = Some d' /\
    norm <$> recvCmds_ d ⊆+ recvCmds_ d' /\ norm <$> execCmds_ d ⊆+ execCmds_ d' /\
    Forall (fun c => inProgress c = false) (recvCmds_ d') /\ cmd_inv n g'.
Proof.
  intros (Hn & Ht & Hrows & Hd) Hk Hrel Hkn. destruct (Hd k d Hk) as (_ & _ & r & Hr & Hrk & H1 & H2).
  destruct (getDevice_cases k (restarted g)) as [(x & _ & Hno & _)|(d' & x & Hget & _ & Hd')]; [done|].
  assert (Hg' : cmd_inv n (put k d' [] x (restarted g))).
  { eapply pres_getDevice; [|exact Hget]. split; [done|]. split; [done|]. split; [done|]. apply map_Forall_empty. }
  destruct Hd' as [[Hd' _]|(_ & (psk & rep & fb & s & rows & _ & _ & _ & Hall & ->) & _)]; [done|]. specialize (Hall Hrel).
  rewrite <- Hrk, owned_unique in Hall by done.
  eexists _, _. split; [exact Hget|]. split; [apply lookup_insert_eq|]. cbn.
  assert (Hload : forall b, loaded k b rows ≡ₚ loaded k b (rows_of r (tables (gw_ext g)))).
  { intros b. unfold loaded, rows_of. cbn in Hall. by rewrite Hall. }
  split; [by rewrite Hload|]. split; [by rewrite Hload|]. split; [|done]. unfold loaded. by apply Forall_fmap, Forall_true.
Qed.

Definition queued_dev : AtlasDevice := default policy_dev (devices_ (ct_gw one_command) !! dev).

Lemma queued_dev_there : devices_ (ct_gw one_command) !! dev = Some queued_dev.
Proof.
  assert (Hs : bool_decide (is_Some (devices_ (ct_gw one_command) !! dev)) = true) by (vm_compute; reflexivity).
  apply bool_decide_eq_true in Hs as [d Hd]. unfold queued_dev. by rewrite Hd.
Qed.

Lemma commands_survive_restart_witness :
  length (recvCmds_ queued_dev) = 1%nat /\
  exists g' d', @getDevice sim_gw dev (restarted (ct_gw one_command)) = Ok (true, g') /\ devices_ g' !! dev = Some d' /\
    norm <$> recvCmds_ queued_dev ⊆+ recvCmds_ d' /\ norm <$> execCmds_ queued_dev ⊆+ execCmds_ d' /\
    Forall (fun c => inProgress c = false) (recvCmds_ d') /\ cmd_inv (sequenceNumber_ (ct_approve one_command)) g'.
Proof.
  split; [vm_compute; reflexivity|].
  apply (@commands_survive_restart sim_gw key_order (sequenceNumber_ (ct_approve one_command)) (ct_gw one_command) dev queued_dev).
  - apply one_command_inv.
  - apply queued_dev_there.
  - apply mem_reliable.
  - right. vm_compute. discriminate.
Defined.







(** * Confirmations *)

Section Confirm.
Context `{E : GwEnv} `{SND : !Sends E} `{CE : !CloudEnv} `{HO : HashOrder} `{HostEndian}.

Lemma done_ack_put payload k cmd l d evs x g :
  json_string payload ATLAS_CMD_PAYLOAD_CLIENT_JSON_KEY = Ok k ->
  json_uint payload ATLAS_CMD_PAYLOAD_SEQ_JSON_KEY = Ok (cd_sequenceNumber cmd) ->
  identity_ d = k -> execCmds_ d = cmd :: l -> (deleteDeviceCommand (cd_sequenceNumber cmd) x).1 = true ->
  match l with
  | [] => handleCommandDoneAck payload (put k d evs x g) = Fault OutOfBounds
  | next :: _ => exists (b : bool) x', handleCommandDoneAck payload (put k d evs x g) =
      Ok (tt, put k (removeExecutedCommand d) (evs ++ if b then [GwPublish to_cloud (done_fields next k)] else []) x' g) /\
      t_command (tables x') = base.filter (fun a => cr_sequenceNumber a <> s32 (cd_sequenceNumber cmd)) (t_command (tables x))
  end.
Proof.
  intros Hk Hs Hid Hc Hdel. unfold handleCommandDoneAck. erewrite G_bind_run by (by apply glift_run).
  erewrite G_bind_run by (apply getDevice_run with d; apply lookup_insert_eq). cbn [negb]. grun. rewrite Hc.
  erewrite G_bind_run by (by apply glift_run). rewrite decide_False by (intros Hne; by apply Hne). grun.
  destruct (deleteDeviceCommand (cd_sequenceNumber cmd) x) as [b x1] eqn:Hx. cbn [fst snd] in *. subst b.
  apply delete_spec in Hx. cbn [negb]. grun. rewrite Hid. destruct l as [|next l].
  - unfold responseCommandDONE, mbind, G_bind. rewrite (getDevice_run k (removeExecutedCommand d)) by apply lookup_insert_eq.
    rewrite this_put. unfold glift, getExecutedCommand, removeExecutedCommand. cbn. by rewrite Hc.
  - destruct (responseDONE_put k next l (removeExecutedCommand d) evs x1 g) as (b & x' & Hr & Hx').
    { cbn. by rewrite Hc. }
    exists b, x'. erewrite G_bind_run by exact Hr. split; [done|]. by rewrite Hx', Hx.
Qed.

(** A resent command, old but still in the database, becomes the last one. *)
Lemma resent_number payload seq c b c' :
  sql_reliable -> json_uint payload ATLAS_CMD_PAYLOAD_SEQ_JSON_KEY = Ok seq ->
  s32 seq ∈ cr_sequenceNumber <$> t_command (tables (gw_ext (ct_gw c))) ->
  handleOldCommand payload c = Ok (b, c') -> sequenceNumber_ (ct_approve c') = seq /\ ct_owner c' = ct_owner c.
Proof.
  intros Hrel Hseq Hin Hrun. split; [|by apply old_quiet in Hrun as [_ ?]]. revert Hrun. unfold handleOldCommand.
  erewrite C_bind_run by (by apply clift_run).
  pose proof (sql_check_reliable SQL_CHECK_DEVICE_COMMAND_BY_SEQ_NO [SqlInt (s32 seq)] _ (gw_ext (ct_gw c)) Hrel eq_refl) as Hfound.
  unfold checkDeviceCommandBySeqNo. destruct (sql_check _ _ (gw_ext (ct_gw c))) as [found x] eqn:Hf.
  erewrite C_bind_run by (apply on_gw_run; unfold gcall; by rewrite Hf). destruct found.
  2:{ exfalso. specialize (Hfound eq_refl). apply fmap_nil_inv in Hfound.
      apply list_elem_of_fmap in Hin as (row & Hrow & Hin). apply (not_elem_of_nil row). rewrite <- Hfound.
      apply list_elem_of_filter. split; [done|]. exact Hin. }
  erewrite C_bind_run by reflexivity. set (c2 := set_approve _ _).
  assert (Hon : forall {A} (m : G A) c3 a c4, on_gw m c3 = Ok (a, c4) -> sequenceNumber_ (ct_approve c4) = sequenceNumber_ (ct_approve c3)).
  { intros A m c3 a c4. unfold on_gw. destruct (m (ct_gw c3)) as [[]|]; [|done]. by intros [= _ <-]. }
  intros (executed & c3 & Hx & Hrun)%C_bind_inv. apply Hon in Hx. destruct executed.
  - apply C_bind_inv in Hrun as (client & c4 & [_ ->]%clift_inv & Hrun). apply Hon in Hrun. by rewrite Hrun, Hx.
  - unfold responseCommandACK in Hrun. erewrite C_bind_run in Hrun by reflexivity.
    apply C_bind_inv in Hrun as (delivered & c4 & Hp & Hrun). apply Hon in Hp.
    destruct delivered; injection Hrun as _ <-; [|cbn [ct_approve set_approve]; rewrite ack_failed_seq];
      (etransitivity; [exact Hp|exact Hx]).
Qed.
End Confirm.

(** When the cloud confirms the first executed command of a device, it is taken
    off the queue and out of the database and the next one is reported. But when
    it was the only one, the gateway goes on to read the first element of the
    now empty list: undefined behaviour, in the ordinary course of every command. *)
Theorem done_ack_drains `{E : GwEnv} `{CE : !CloudEnv} `{HO : HashOrder} `{HostEndian}
    (payload : Value) (k : list byte) (cmd : AtlasCommandDevice) (l : list AtlasCommandDevice) (d : AtlasDevice) (g : gateway) :
  json_string payload ATLAS_CMD_PAYLOAD_CLIENT_JSON_KEY = Ok k ->
  json_uint payload ATLAS_CMD_PAYLOAD_SEQ_JSON_KEY = Ok (cd_sequenceNumber cmd) ->
  devices_ g !! k = Some d -> identity_ d = k -> execCmds_ d = cmd :: l ->
  (deleteDeviceCommand (cd_sequenceNumber cmd) (gw_ext g)).1 = true ->
  match l with
  | [] => handleCommandDoneAck payload g = Fault OutOfBounds
  | next :: _ => exists g' d', handleCommandDoneAck payload g = Ok (tt, g') /\ devices_ g' !! k = Some d' /\ execCmds_ d' = l /\
      (forall row, row ∈ t_command (tables (gw_ext g')) <->
         row ∈ t_command (tables (gw_ext g)) /\ cr_sequenceNumber row <> s32 (cd_sequenceNumber cmd)) /\
      (gw_out g' = gw_out g \/ gw_out g' = gw_out g ++ [GwPublish to_cloud (done_fields next k)])
  end.
Proof.
  intros Hk Hs Hd Hid Hc Hdel. pose proof (done_ack_put payload k cmd l d [] (gw_ext g) g Hk Hs Hid Hc Hdel) as Hrun.
  rewrite <- put_intro in Hrun by done. destruct l as [|next l]; [done|]. destruct Hrun as (b & x & Hrun & Hx).
  eexists _, _. split; [exact Hrun|]. split; [apply lookup_insert_eq|]. split; [cbn; by rewrite Hc|]. split.
  - intros row. cbn. rewrite Hx, list_elem_of_filter. tauto.
  - cbn. destruct b; [by right|left]. apply app_nil_r.
Qed.

(** The sample device with one or two executed commands. *)
Definition executed_cmd (seq : Z) : AtlasCommandDevice := new_AtlasCommandDevice dev seq ATLAS_CMD_DEVICE_RESTART_CLOUD [].
Definition executed_gw (seqs : list Z) : @gateway sim_gw :=
  mk_gateway sim_gw {[ dev := dev_set_cmds [] (executed_cmd <$> seqs) 0 policy_dev ]} true idle_xfer [] (1, one_device dev (cstr "secret")) new_trusted.

Lemma done_ack_drains_witness :
  @handleCommandDoneAck sim_gw sim_cloud (sim_payload 1) (executed_gw [1]) = Fault OutOfBounds /\
  exists g' d', @handleCommandDoneAck sim_gw sim_cloud (sim_payload 1) (executed_gw [1; 2]) = Ok (tt, g') /\
    devices_ g' !! dev = Some d' /\ execCmds_ d' = [executed_cmd 2] /\
    (forall row, row ∈ t_command (tables (gw_ext g')) <->
       row ∈ t_command (tables (gw_ext (executed_gw [1; 2]))) /\ cr_sequenceNumber row <> s32 1) /\
    (gw_out g' = [] \/ gw_out g' = [GwPublish (@to_cloud sim_gw sim_cloud) (done_fields (executed_cmd 2) dev)]).
Proof.
  split.
  - apply (@done_ack_drains sim_gw sim_cloud key_order true (sim_payload 1) dev (executed_cmd 1) []
      (dev_set_cmds [] (executed_cmd <$> [1]) 0 policy_dev) (executed_gw [1])); reflexivity.
  - apply (@done_ack_drains sim_gw sim_cloud key_order true (sim_payload 1) dev (executed_cmd 1) [executed_cmd 2]
      (dev_set_cmds [] (executed_cmd <$> [1; 2]) 0 policy_dev) (executed_gw [1; 2])); reflexivity.
Defined.

(** A command resent while later ones are known makes it the last one: the later
    ones count as new when they are resent too, and are stored and queued a
    second time, to be executed twice. *)
Theorem resend_reopens_window `{E : GwEnv} `{CE : !CloudEnv} `{HO : HashOrder} `{HostEndian}
    (p1 p2 : Value) (seq1 seq2 : Z) (no2 client2 type2 : list byte) (c c1 : control) :
  sql_reliable -> claimed_ (ct_owner c) = false ->
  json_uint p1 ATLAS_CMD_PAYLOAD_SEQ_JSON_KEY = Ok seq1 -> json_uint p2 ATLAS_CMD_PAYLOAD_SEQ_JSON_KEY = Ok seq2 ->
  json_string p2 ATLAS_CMD_PAYLOAD_SEQ_JSON_KEY = Ok no2 -> no2 <> [] ->
  json_string p2 ATLAS_CMD_PAYLOAD_CLIENT_JSON_KEY = Ok client2 -> client2 <> [] ->
  json_string p2 ATLAS_CMD_PAYLOAD_TYPE_JSON_KEY = Ok type2 -> type2 <> [] ->
  seq1 < seq2 <= sequenceNumber_ (ct_approve c) ->
  s32 seq1 ∈ cr_sequenceNumber <$> t_command (tables (gw_ext (ct_gw c))) ->
  handleClientCommand p1 c = Ok (true, c1) ->
  handleClientCommand p2 c1 = queue_command p2 client2 type2 seq2 c1.
Proof.
  intros Hrel Hun H1 H2 Hno Hno' Hc Hc' Ht Ht' Hlt Hin Hrun.
  apply client_command_cases in Hrun as [[? _]|(q & ? & ? & Hq & _ & _ & _ & Hrun)]; [done|].
  rewrite H1 in Hq. injection Hq as <-. rewrite decide_True in Hrun by lia.
  destruct (resent_number p1 seq1 c true c1 Hrel H1 Hin Hrun) as [Hnum Hown].
  unfold handleClientCommand.
  erewrite C_bind_run by (by apply clift_run). rewrite decide_False by done.
  erewrite C_bind_run by (by apply clift_run). rewrite decide_False by done.
  erewrite C_bind_run by (by apply clift_run). rewrite decide_False by done.
  erewrite C_bind_run by reflexivity. rewrite Hown, Hun. erewrite C_bind_run by reflexivity. cbn [negb].
  erewrite C_bind_run by (by apply clift_run). erewrite C_bind_run by reflexivity. by rewrite decide_False by lia.
Qed.

(** The sample gateway: commands 1 and 2, 1 again, 2 again. *)
Definition client_command (seq : Z) (c : control) : control :=
  (the (@handleClientCommand sim_gw sim_cloud true (sim_payload seq) c) (false, c)).2.
Definition two_commands : control := client_command 2 (client_command 1 (sim_start empty_gw)).
Definition queued_numbers (c : @control sim_gw) : list Z :=
  match devices_ (ct_gw c) !! dev with Some d => cd_sequenceNumber <$> recvCmds_ d | None => [] end.

Lemma command_true seq c :
  match @handleClientCommand sim_gw sim_cloud true (sim_payload seq) c with Ok (b, _) => b | Fault _ => false end = true ->
  @handleClientCommand sim_gw sim_cloud true (sim_payload seq) c = Ok (true, client_command seq c).
Proof.
  unfold client_command. destruct (@handleClientCommand sim_gw sim_cloud true (sim_payload seq) c) as [[[] c']|f];
    intros Hb; [reflexivity|discriminate Hb..].
Qed.

Lemma resend_reopens_window_witness :
  @handleClientCommand sim_gw sim_cloud true (sim_payload 2) (client_command 1 two_commands) =
  @queue_command sim_gw sim_cloud true (sim_payload 2) dev ATLAS_CMD_DEVICE_RESTART_CLOUD 2 (client_command 1 two_commands) /\
  queued_numbers two_commands = [1; 2] /\ queued_numbers (client_command 2 two_commands) = [1; 2] /\
  queued_numbers (client_command 2 (client_command 1 two_commands)) = [1; 2; 2].
Proof.
  split; [|repeat split; vm_compute; reflexivity].
  apply (@resend_reopens_window sim_gw sim_cloud key_order true (sim_payload 1) (sim_payload 2) 1 2 (dec 2) dev
    ATLAS_CMD_DEVICE_RESTART_CLOUD two_commands (client_command 1 two_commands)).
  - apply mem_reliable.
  - vm_compute. reflexivity.
  - reflexivity.
  - reflexivity.
  - reflexivity.
  - discriminate.
  - reflexivity.
  - discriminate.
  - reflexivity.
  - discriminate.
  - split; vm_compute; [reflexivity|discriminate].
  - vm_compute. by left.
  - apply command_true. vm_compute. reflexivity.
Defined.

(** * A database that does not answer *)

(** When the device has executed a command and the database cannot record it, the
    command stays the first of its queue and stays marked as on its way: from then
    on neither the alarm nor a new command sends anything to the device. *)
Theorem mark_failure_wedges `{E : GwEnv} `{CE : !CloudEnv} `{HO : HashOrder} `{HostEndian}
    (k : list byte) (cmd : AtlasCommandDevice) (l : list AtlasCommandDevice) (d : AtlasDevice) (g : gateway) :
  devices_ g !! k = Some d -> identity_ d = k -> recvCmds_ d = cmd :: l -> inProgress cmd = true ->
  (markExecutedDeviceCommand (cd_sequenceNumber cmd) (gw_ext g)).1 = false ->
  exists g' d', deviceCmdRespCallback k ATLAS_COAP_RESP_OK g = Ok (tt, g') /\
    gw_out g' = gw_out g /\ devices_ g' !! k = Some d' /\ recvCmds_ d' = cmd :: l /\ execCmds_ d' = execCmds_ d /\
    forall new evs x, pushCommand k (put k (dev_set_cmds (recvCmds_ d' ++ new) (execCmds_ d') 0 d') evs x g') =
                      Ok (tt, put k (dev_set_cmds (recvCmds_ d' ++ new) (execCmds_ d') 0 d') evs x g').
Proof.
  intros Hd Hid Hc Hp Hm.
  assert (Hstuck : forall d' evs' x' g' l', recvCmds_ d' = cmd :: l' -> pushCommand k (put k d' evs' x' g') = Ok (tt, put k d' evs' x' g')).
  { intros d' evs' x' g' l' Hd'. unfold pushCommand. grun. rewrite Hd'. by destruct (registered_ d'); rewrite ?Hp. }
  destruct (markCommandAsDone_put k cmd l (set_timeouts 0 d) [] (gw_ext g) g Hid Hc) as (b & evs & x & Hr & _ & Hb & Hev).
  rewrite Hm in Hb. subst b. destruct Hev as [->|[? _]]; [|done].
  assert (Hrun : deviceCmdRespCallback k ATLAS_COAP_RESP_OK (put k d [] (gw_ext g) g) = Ok (tt, put k (set_timeouts 0 d) [] x g)).
  { unfold deviceCmdRespCallback. grun. rewrite Hc, decide_True by done. grun. erewrite G_bind_run by exact Hr.
    by apply (Hstuck _ _ _ _ l). }
  rewrite <- put_intro in Hrun by done. eexists _, _. split; [exact Hrun|]. split; [cbn; apply app_nil_r|].
  split; [apply lookup_insert_eq|]. split; [done|]. split; [done|]. intros new evs' x'. apply (Hstuck _ _ _ _ (l ++ new)).
  cbn. by rewrite Hc.
Qed.

(** The sample gateway with a database that is not connected, and a command on its way. *)
Definition down_gw : GwEnv := {|
  gext := Z * Tables;
  gext_sql := mem_sql false snd (fun t x => (x.1, t)) (fun t x => eq_refl);
  local_time x := (x.1, (x.1 + 1, x.2));
  to_simple_string z := dec z;
  sendRequest _ _ x := (true, x);
  local_time_tables _ := eq_refl;
  sendRequest_tables _ _ _ := eq_refl;
|}.

Definition down_cloud : @CloudEnv down_gw.
Proof.
  refine (Build_CloudEnv down_gw sim_json (fun bs => sim_message (blen bs)) sim_member sim_string sim_uint
    (@asUInt_range sim_gw sim_cloud) Some (fun key text => key) (fun _ => true) (fun _ => true) (fun _ _ x => (true, x))
    (fun s x => (s, x)) (cstr "gw") (cstr "psk") _ _); done.
Defined.

Definition busy_dev : AtlasDevice := dev_set_cmds [setInProgress true (executed_cmd 1)] [] 0 policy_dev.
Definition busy_gateway : @gateway down_gw :=
  mk_gateway down_gw {[ dev := busy_dev ]} true idle_xfer [] (1, one_device dev (cstr "secret")) new_trusted.

Lemma mark_failure_wedges_witness :
  exists g' d', @deviceCmdRespCallback down_gw down_cloud true dev ATLAS_COAP_RESP_OK busy_gateway = Ok (tt, g') /\
    gw_out g' = [] /\ devices_ g' !! dev = Some d' /\ recvCmds_ d' = [setInProgress true (executed_cmd 1)] /\ execCmds_ d' = [] /\
    forall new evs x, @pushCommand down_gw true dev (put dev (dev_set_cmds (recvCmds_ d' ++ new) (execCmds_ d') 0 d') evs x g') =
                      Ok (tt, put dev (dev_set_cmds (recvCmds_ d' ++ new) (execCmds_ d') 0 d') evs x g').
Proof.
  apply (@mark_failure_wedges down_gw down_cloud key_order true dev (setInProgress true (executed_cmd 1)) [] busy_dev busy_gateway);
    reflexivity.
Defined.
