(* ===== verification/GwClaim.v ===== *)
(** The owner of the gateway (device/AtlasGateway.cpp, claim_approve/AtlasClaim.cpp):
    who can become it, and that it stays, in memory and in the database. *)
From S2P Require Import Prelude Defs CLib Command GwDefs GwBatch GwXfer GwFilter GwBayes GwStore GwNetStore GwDevice GwServer GwReputation GwLifecycle GwApprove GwCommands GwControl.
Import GwType.

(** * What keeps the owner *)

Section Owner.
Context `{E : GwEnv} `{CE : !CloudEnv} `{HO : HashOrder} `{HostEndian}.

Definition owner_inv (o : list (list byte * list byte)) (g : gateway) : Prop := t_owner (tables (gw_ext g)) = o.

Lemma owner_gcall {A} o (f : gext -> A * gext) :
  (forall x, t_owner (tables (f x).2) = t_owner (tables x)) -> gpreserves (owner_inv o) (gcall f).
Proof.
  intros Hf g a g' Hg. unfold gcall. specialize (Hf (gw_ext g)). destruct (f (gw_ext g)) as [b x]. intros [= _ <-].
  unfold owner_inv in *. cbn in *. congruence.
Qed.

Lemma owner_update o k f : gpreserves (owner_inv o) (update k f).
Proof. by intros g a g' Hg [= _ <-]. Qed.

#[local] Instance owner_GwInv o : GwInv (owner_inv o).
Proof.
  constructor.
  - by intros e g a g' Hg [= _ <-].
  - intros A f Hf. apply owner_gcall. intros x. apply Hf.
  - intros k f _. apply owner_update.
  - by intros b x g a g' Hg [= _ <-].
  - by intros f g a g' Hg [= _ <-].
  - intros i g a g' Hg Hr. destruct (getDevice_cases i g) as [(x & Hget & _ & Hx)|(d & x & Hget & _ & Hc)];
      rewrite Hget in Hr; injection Hr as _ <-; unfold owner_inv in *; cbn.
    + by rewrite Hx.
    + destruct Hc as [[_ ->]|(_ & _ & rows & b & ->)]; done.
Qed.

Lemma owner_mark seq x : t_owner (tables (markExecutedDeviceCommand seq x).2) = t_owner (tables x).
Proof. destruct (markExecutedDeviceCommand seq x) as [[] x'] eqn:Hx; apply markExecuted_spec in Hx; cbn; by rewrite Hx. Qed.
Lemma owner_delete seq x : t_owner (tables (deleteDeviceCommand seq x).2) = t_owner (tables x).
Proof. destruct (deleteDeviceCommand seq x) as [[] x'] eqn:Hx; apply delete_spec in Hx; cbn; by rewrite Hx. Qed.

(** An insertion touches the commands and the last number only. *)
Lemma owner_insert seq ty pl i x : t_owner (tables (insertDeviceCommand seq ty pl i x).2) = t_owner (tables x).
Proof.
  unfold insertDeviceCommand. destruct (get_deviceId i x) as [id x1] eqn:Hid. apply get_deviceId_spec in Hid as [<- _].
  destruct id as [id|]; [|done]. destruct (sql_run _ _ x1) as [r x2] eqn:Hr. apply sql_run_outcome in Hr.
  apply effect_outcome in Hr as [_ Hr]; [|intros ? ? He; cbn in He; case_decide; congruence]. destruct (stepped r).
  - cbn in Hr. case_decide; [|done]. injection Hr as Hr. destruct (updateMaxSequenceNumber seq x2) as [[] x3] eqn:Hu;
      apply updateMax_spec in Hu; cbn; by rewrite Hu, <- Hr.
  - cbn. by rewrite Hr.
Qed.

Lemma owner_check s args rows x :
  sql_exec s args (tables x) = Some (rows, tables x) -> t_owner (tables (sql_check s args x).2) = t_owner (tables x).
Proof.
  intros He. destruct (sql_check s args x) as [b x'] eqn:Hs. destruct (sql_check_spec _ _ _ _ _ _ He Hs) as [Hx _].
  cbn. by rewrite Hx.
Qed.

Lemma owner_publish topic fields x : t_owner (tables (mqtt_publish topic fields x).2) = t_owner (tables x).
Proof. by rewrite mqtt_publish_tables. Qed.
Lemma owner_send u p x : t_owner (tables (sendRequest u p x).2) = t_owner (tables x).
Proof. by rewrite sendRequest_tables. Qed.
Lemma owner_code x : t_owner (tables (generateShortCode x).2) = t_owner (tables x).
Proof. apply shortCode_same. Qed.

#[local] Hint Resolve owner_mark owner_delete owner_insert owner_publish owner_send owner_code : owner.

Ltac owner_tac :=
  repeat match goal with
  | |- gpreserves _ (gcall (checkDeviceCommandBySeqNo _)) => apply owner_gcall; intros ?; by eapply owner_check
  | |- gpreserves _ (gcall (checkDeviceCommandForExecution _)) => apply owner_gcall; intros ?; by eapply owner_check
  | |- gpreserves _ (gcall _) => apply owner_gcall; solve [auto with owner]
  | |- gpreserves _ (update _ _) => apply owner_update
  | |- gpreserves _ (forEachDevice _) => apply (pres_forEachDevice _); intros ?
  | |- _ => pres_step
  end.

Lemma owner_tryPublish o topic fields : gpreserves (owner_inv o) (tryPublishMessage topic fields).
Proof. unfold tryPublishMessage. owner_tac. Qed.
#[local] Hint Resolve owner_tryPublish : pres.

Lemma owner_DONE o i : gpreserves (owner_inv o) (responseCommandDONE i).
Proof. unfold responseCommandDONE, publish_to_cloud. owner_tac. Qed.
Lemma owner_push o k : gpreserves (owner_inv o) (pushCommand k).
Proof. unfold pushCommand. owner_tac. Qed.
#[local] Hint Resolve owner_DONE owner_push : pres.
Lemma owner_markDone o k : gpreserves (owner_inv o) (markCommandAsDone k).
Proof. unfold markCommandAsDone. owner_tac. Qed.
#[local] Hint Resolve owner_markDone : pres.
Lemma owner_response o k resp : gpreserves (owner_inv o) (deviceCmdRespCallback k resp).
Proof. unfold deviceCmdRespCallback. owner_tac. Qed.
Lemma owner_alarm o : gpreserves (owner_inv o) alarmCallback.
Proof. unfold alarmCallback. owner_tac. Qed.
Lemma owner_doneAck o p : gpreserves (owner_inv o) (handleCommandDoneAck p).
Proof. unfold handleCommandDoneAck. owner_tac. Qed.
Lemma owner_allDevices o : gpreserves (owner_inv o) allDevicesUpdate.
Proof. apply (pres_allDevicesUpdate _). Qed.
Lemma owner_handle o i : gpreserves (owner_inv o) (handle i).
Proof. apply (pres_handle _). Qed.
#[local] Hint Resolve owner_response owner_alarm owner_doneAck owner_allDevices owner_handle : pres.

(** ** Control *)

(** The owner in memory and in the database. *)
Definition owner_kept (c c' : control) : Prop :=
  ct_owner c' = ct_owner c /\ t_owner (tables (gw_ext (ct_gw c'))) = t_owner (tables (gw_ext (ct_gw c))).

Definition keeps_owner {A} (m : C A) : Prop := forall c a c', m c = Ok (a, c') -> owner_kept c c'.

Lemma ko_bind {A B} (m : C A) (f : A -> C B) : keeps_owner m -> (forall a, keeps_owner (f a)) -> keeps_owner (m ≫= f).
Proof.
  intros Hm Hf c b c' (a & c1 & H1 & H2)%C_bind_inv. apply Hm in H1 as [? ?]. apply Hf in H2 as [? ?]. split; congruence.
Qed.
Lemma ko_ret {A} (a : A) : keeps_owner (mret a).
Proof. by intros c b c' [= _ <-]. Qed.
Lemma ko_clift {A} (r : res A) : keeps_owner (clift r).
Proof. by intros c b c' [_ ->]%clift_inv. Qed.
Lemma ko_cget {A} (f : control -> A) : keeps_owner (cget f).
Proof. by intros c b c' [= _ <-]. Qed.
Lemma ko_cmodify f : (forall c, ct_gw (f c) = ct_gw c /\ ct_owner (f c) = ct_owner c) -> keeps_owner (cmodify f).
Proof. intros Hf c b c' [= _ <-]. destruct (Hf c) as [H1 H2]. split; congruence. Qed.
Lemma ko_on_gw {A} (m : G A) : (forall o, gpreserves (owner_inv o) m) -> keeps_owner (on_gw m).
Proof.
  intros Hm c b c'. unfold on_gw. destruct (m (ct_gw c)) as [[a g]|] eqn:Hr; [|done]. intros [= _ <-]. split; [done|].
  by eapply (Hm _ (ct_gw c) a g).
Qed.

Ltac ko_tac :=
  repeat match goal with
  | |- keeps_owner (mret _) => apply ko_ret
  | |- keeps_owner (_ ≫= _) => apply ko_bind; [|intros ?]
  | |- keeps_owner (clift _) => apply ko_clift
  | |- keeps_owner (cget _) => apply ko_cget
  | |- keeps_owner (cmodify _) => by apply ko_cmodify
  | |- keeps_owner (modify_approve _) => by apply ko_cmodify
  | |- keeps_owner (on_gw _) => apply ko_on_gw; intros ?; unfold publish_to_cloud; owner_tac
  | |- keeps_owner (if ?b then _ else _) => destruct b
  | |- keeps_owner (match ?e with _ => _ end) => destruct e
  end.

Lemma ko_ack : keeps_owner responseCommandACK.
Proof. unfold responseCommandACK. ko_tac. Qed.
Lemma ko_old p : keeps_owner (handleOldCommand p).
Proof. unfold handleOldCommand. ko_tac. apply ko_ack. Qed.
Lemma ko_client p : keeps_owner (handleClientCommand p).
Proof. unfold handleClientCommand, queue_command. ko_tac; [apply ko_old|apply ko_ack]. Qed.
Lemma ko_register : keeps_owner sendRegisterCmd.
Proof. unfold sendRegisterCmd, gatewayFullUpdate. ko_tac. Qed.

(** A claim that is answered: refused without a change, or the first one, with
    the right code. *)
Lemma claim_cases payload c r c' :
  handleClaimReq payload c = Ok (r, c') ->
  (owner_kept c c' /\ r.1 <> 200) \/
  (claimed_ (ct_owner c) = false /\ payload <> [] /\
   json_string (json_parse payload) ATLAS_CLAIM_SHORT_CODE_JSON_KEY = Ok (shortCode_ (ct_claim c)) /\
   exists key i, key <> [] /\ i <> [] /\ r = (200, gateway_identity) /\ ct_owner c' = mk_owner true key i /\
     json_string (json_parse payload) ATLAS_CLAIM_SECRET_KEY_JSON_KEY = Ok key /\
     json_string (json_parse payload) ATLAS_CLAIM_OWNER_IDENTITY_JSON_KEY = Ok i /\
     t_owner (tables (gw_ext (ct_gw c'))) = t_owner (tables (gw_ext (ct_gw c))) ++ [(key, i)]).
Proof.
  unfold handleClaimReq. erewrite C_bind_run by reflexivity. destruct (claimed_ (ct_owner c)) eqn:Hcl; [intros [= <- <-]; by left|].
  case_decide as Hp; [intros [= <- <-]; by left|]. cbv zeta.
  intros (code & c1 & [Hcode ->]%clift_inv & Hrun)%C_bind_inv. erewrite C_bind_run in Hrun by reflexivity.
  destruct (decide (code <> shortCode_ (ct_claim c))) as [Hne|Heq]; [injection Hrun as <- <-; by left|].
  apply dec_stable in Heq as ->.
  apply C_bind_inv in Hrun as (key & c1 & [Hkey ->]%clift_inv & Hrun). case_decide as Hk; [injection Hrun as <- <-; by left|].
  apply C_bind_inv in Hrun as (i & c1 & [Hi ->]%clift_inv & Hrun). case_decide as Hi'; [injection Hrun as <- <-; by left|].
  unfold claimGateway in Hrun. apply C_bind_inv in Hrun as (ok & c2 & Hins & Hrun).
  unfold mbind at 1, C_bind at 1, on_gw, gcall in Hins. destruct (insertOwner key i (gw_ext (ct_gw c))) as [b x] eqn:Hx.
  apply insertOwner_spec in Hx. destruct b; cbn in Hins; injection Hins as <- <-; cbn in Hrun; injection Hrun as <- <-.
  - right. split; [done|]. split; [done|]. split; [done|]. exists key, i. cbn. rewrite Hx. auto 10.
  - left. split; [|done]. split; [done|]. cbn. by rewrite Hx.
Qed.

(** Only a claim of a gateway without an owner, with the current code, changes it. *)
Lemma handle_owner i c c' :
  ct_handle i c = Ok (tt, c') ->
  owner_kept c c' \/
  exists payload, i = CtClaim payload /\ claimed_ (ct_owner c) = false /\
    json_string (json_parse payload) ATLAS_CLAIM_SHORT_CODE_JSON_KEY = Ok (shortCode_ (ct_claim c)) /\
    claimed_ (ct_owner c') = true.
Proof.
  assert (Hkeep : forall m : C unit, keeps_owner m -> m c = Ok (tt, c') -> owner_kept c c' \/
    exists payload, i = CtClaim payload /\ claimed_ (ct_owner c) = false /\
      json_string (json_parse payload) ATLAS_CLAIM_SHORT_CODE_JSON_KEY = Ok (shortCode_ (ct_claim c)) /\
      claimed_ (ct_owner c') = true) by (intros m Hm Hr; left; by eapply Hm).
  destruct i as [cmd|k resp| | |payload| | | | |i]; cbn [ct_handle].
  - apply Hkeep. unfold parseCmd. cbv zeta. ko_tac; [apply ko_register|apply ko_client].
  - apply Hkeep. ko_tac.
  - apply Hkeep. ko_tac.
  - apply Hkeep. unfold statusACKCallback. ko_tac. apply ko_ack.
  - intros (r & c1 & Hr & [= <-])%C_bind_inv. apply claim_cases in Hr as [[Hk _]|(Hcl & _ & Hcode & key & i & _ & _ & _ & Ho & _)].
    + by left.
    + right. exists payload. by rewrite Ho.
  - apply Hkeep. unfold claim_alarmCallback. ko_tac.
  - apply Hkeep. unfold cloud_onConnect. ko_tac. apply ko_register.
  - apply Hkeep. unfold cloud_onDisconnect. ko_tac.
  - apply Hkeep. unfold cloud_keepaliveAlarmCb, sendKeepaliveCmd. ko_tac. apply ko_register.
  - apply Hkeep. ko_tac.
Qed.

Lemma run_owner c ins c' : claimed_ (ct_owner c) = true -> ct_run c ins c' -> owner_kept c c'.
Proof.
  intros Hcl Hrun. induction Hrun as [|c i c1 ins c2 _ Hh _ IH]; [done|].
  apply handle_owner in Hh as [[Ho Ht]|(p & _ & Hno & _)]; [|congruence].
  destruct IH as [Ho' Ht']; [congruence|]. split; congruence.
Qed.

(** Reading the owner back. *)
Lemma owner_read key i x :
  sql_reliable -> t_owner (tables x) = [(key, i)] -> key <> [] -> i <> [] -> x00 ∉ key -> x00 ∉ i ->
  (new_AtlasGateway x).1 = Ok (mk_owner true key i).
Proof.
  intros Hrel Ht Hk Hi Hkn Hin. unfold new_AtlasGateway, selectOwnerInfo.
  destruct (Hrel SQL_GET_OWNER [] x _ _ eq_refl) as (r & x' & Hq & Hdone). rewrite Hq.
  apply sql_query_outcome in Hq. eapply query_outcome in Hq as [_ [_ Hp]]; [|reflexivity]. specialize (Hp Hdone).
  rewrite Ht in Hp. cbn in Hp. apply Permutation_singleton_r in Hp. unfold sql_step. rewrite Hp. cbn.
  rewrite !until_nul_id by done. by rewrite bool_decide_eq_true_2 by done.
Qed.
End Owner.

(** * Theorems *)

(** C31: The owner changes in one way only, in whatever state and whatever the input:
    a claim, of a gateway that has none, with the code the gateway shows at that
    moment; then it has one. *)
Theorem owner_needs_code `{E : GwEnv} `{CE : !CloudEnv} `{HO : HashOrder} `{HostEndian}
    (i : ct_input) (c c' : control) :
  ct_handle i c = Ok (tt, c') -> ct_owner c' <> ct_owner c ->
  exists payload, i = CtClaim payload /\ claimed_ (ct_owner c) = false /\
    json_string (json_parse payload) ATLAS_CLAIM_SHORT_CODE_JSON_KEY = Ok (shortCode_ (ct_claim c)) /\
    claimed_ (ct_owner c') = true.
Proof. by intros [[? _]|?]%handle_owner Hne. Qed.

Definition claimed_gw : @control sim_gw :=
  (the (@ct_handle sim_gw sim_cloud key_order true (CtClaim [x00]) (sim_start empty_gw)) (tt, sim_start empty_gw)).2.

Lemma owner_needs_code_witness :
  exists payload, CtClaim [x00] = CtClaim payload /\ claimed_ (ct_owner (sim_start empty_gw)) = false /\
    @json_string sim_gw sim_cloud (json_parse payload) ATLAS_CLAIM_SHORT_CODE_JSON_KEY =
      Ok (shortCode_ (ct_claim (sim_start empty_gw))) /\
    claimed_ (ct_owner claimed_gw) = true.
Proof.
  apply (@owner_needs_code sim_gw sim_cloud key_order true (CtClaim [x00]) (sim_start empty_gw) claimed_gw).
  - apply (handle_the (CtClaim [x00]) (sim_start empty_gw) (sim_start empty_gw)). vm_compute. reflexivity.
  - intros Heq. apply (f_equal claimed_) in Heq. vm_compute in Heq. discriminate Heq.
Defined.

(** C30: A successful claim lasts: whatever comes after it, the owner is the one of
    the claim, no later claim is accepted, and a gateway started on the database
    finds the same owner in it (texts without NUL; the database answers). *)
Theorem claim_permanent `{E : GwEnv} `{CE : !CloudEnv} `{HO : HashOrder} `{HostEndian}
    (payload text : list byte) (c c' : control) (ins : list ct_input) (c'' : control) :
  handleClaimReq payload c = Ok ((200, text), c') -> ct_run c' ins c'' ->
  ct_owner c'' = ct_owner c' /\ claimed_ (ct_owner c'') = true /\
  (forall p, handleClaimReq p c'' = Ok ((401, ATLAS_CLAIM_ERR_ALREADY_CLAIMED), c'')) /\
  (sql_reliable -> t_owner (tables (gw_ext (ct_gw c))) = [] ->
   x00 ∉ ownerSecretKey_ (ct_owner c') -> x00 ∉ ownerIdentity_ (ct_owner c') ->
   (new_AtlasGateway (gw_ext (ct_gw c''))).1 = Ok (ct_owner c')).
Proof.
  intros Hclaim Hrun. apply claim_cases in Hclaim as [[_ Hr]|(_ & _ & _ & key & i & Hk & Hi & _ & Ho & _ & _ & Ht)]; [done|].
  assert (Hcl : claimed_ (ct_owner c') = true) by by rewrite Ho. destruct (run_owner _ _ _ Hcl Hrun) as [Ho'' Ht''].
  split; [done|]. split; [congruence|]. split.
  - intros p. unfold handleClaimReq. erewrite C_bind_run by reflexivity. by rewrite Ho'', Hcl.
  - intros Hrel Hnil Hkn Hin. rewrite Ho in *. apply owner_read; try done. by rewrite Ht'', Ht, Hnil.
Qed.

Lemma claim_the t p c c0 :
  match @handleClaimReq sim_gw sim_cloud p c with Ok (r, _) => bool_decide (r = t) | Fault _ => false end = true ->
  @handleClaimReq sim_gw sim_cloud p c =
  Ok (t, (the (@ct_handle sim_gw sim_cloud key_order true (CtClaim p) c) (tt, c0)).2).
Proof.
  destruct (handleClaimReq p c) as [[r c']|f] eqn:Hc; [|done]. intros ->%bool_decide_eq_true.
  unfold ct_handle. by erewrite C_bind_run by exact Hc.
Qed.

Lemma claim_permanent_witness :
  ct_owner claimed_gw = ct_owner claimed_gw /\ claimed_ (ct_owner claimed_gw) = true /\
  (forall p, @handleClaimReq sim_gw sim_cloud p claimed_gw = Ok ((401, ATLAS_CLAIM_ERR_ALREADY_CLAIMED), claimed_gw)) /\
  (@sql_reliable (Z * Tables) clock_sql -> t_owner (tables (gw_ext (ct_gw (sim_start empty_gw)))) = [] ->
   x00 ∉ ownerSecretKey_ (ct_owner claimed_gw) -> x00 ∉ ownerIdentity_ (ct_owner claimed_gw) ->
   (@new_AtlasGateway sim_gw (gw_ext (ct_gw claimed_gw))).1 = Ok (ct_owner claimed_gw)).
Proof.
  apply (@claim_permanent sim_gw sim_cloud key_order true [x00] (cstr "gw") (sim_start empty_gw) claimed_gw [] claimed_gw).
  - apply (claim_the (200, cstr "gw") [x00] (sim_start empty_gw) (sim_start empty_gw)). vm_compute. reflexivity.
  - apply ct_run_nil.
Defined.
