(* ===== verification/GwPlugin.v ===== *)
(** The gateway and its broker plug-in together: the messages of
    pubsub_agent/AtlasPubSubAgent.cpp read by mosquitto_plugin/filter/AtlasFilter.cpp
    and the other way round, and the policies that lead to them. *)
From S2P Require Import Prelude Defs CLib Command GwDefs GwBatch GwXfer GwFilter GwStore GwDevice GwServer GwLifecycle.
Import GwType.

(** * The messages *)

(** The commands inside an installation, and the rule it leads to. *)
Definition install_cmds (p : AtlasFirewallPolicy) : list cmd :=
  [(code ATLAS_CMD_PUB_SUB_CLIENT_ID, fp_clientId p);
   (code ATLAS_CMD_PUB_SUB_MAX_QOS, be16 (fp_qos p));
   (code ATLAS_CMD_PUB_SUB_PPM, be16 (fp_ppm p));
   (code ATLAS_CMD_PUB_SUB_MAX_PAYLOAD_LEN, be16 (fp_payloadLen p))].

Definition install_rule (p : AtlasFirewallPolicy) : AtlasPacketPolicer :=
  new_policer (fp_qos p) (fp_ppm p) (fp_payloadLen p).

(** A command that holds a list of commands. *)
Definition carry (t : AtlasCommandType) (cs : list cmd) : list byte := encode [(code t, encode cs)].

(** Short enough for every message about it to fit the reassembly buffers. *)
Definition short_id (k : list byte) : Prop := k <> [] /\ blen k <= 8000.

Definition policy_u16 (p : AtlasFirewallPolicy) : Prop :=
  is_u16 (fp_qos p) /\ is_u16 (fp_ppm p) /\ is_u16 (fp_payloadLen p).

Section Plugin.
Context `{HostEndian}.

Lemma short_wf t k : short_id k -> wf_cmd (code t, k).
Proof. intros [_ Hk]. split; [apply code_u16|cbn; lia]. Qed.

Lemma be16_wf t z : wf_cmd (code t, be16 z).
Proof. split; [apply code_u16|]. cbn. rewrite blen_be16. lia. Qed.

Lemma be32_wf t z : wf_cmd (code t, be32 z).
Proof. split; [apply code_u16|]. cbn. rewrite blen_be32. lia. Qed.

Lemma install_cmds_wf p : short_id (fp_clientId p) -> Forall wf_cmd (install_cmds p).
Proof. intros Hp. repeat (apply Forall_cons; split); auto using short_wf, be16_wf. Qed.

Lemma blen_install_cmds p : blen (encode (install_cmds p)) = 22 + blen (fp_clientId p).
Proof. unfold install_cmds. rewrite !blen_encode_cons, blen_encode_nil. cbn [snd]. rewrite !blen_be16. lia. Qed.

(** What a writer's command holds. *)
Lemma command_holds t v : wf_cmd (code t, v) -> command_repr (new_AtlasCommand (code t) (blen v) (Some v)) (code t, v).
Proof. intros Hv. rewrite <- (app_nil_r v) at 2. by apply new_command_repr. Qed.

Lemma command_holds_u16 t z : command_repr (new_AtlasCommand (code t) 2 (Some (st16 (htons z)))) (code t, be16 z).
Proof. rewrite st16_htons. rewrite <- (blen_be16 z) at 1. apply command_holds, be16_wf. Qed.

Lemma install_commands_hold p : short_id (fp_clientId p) -> Forall2 command_repr (install_commands p) (install_cmds p).
Proof.
  intros Hp. repeat (apply Forall2_cons; split); auto using command_holds_u16.
  by apply command_holds, short_wf.
Qed.

Lemma install_bytes p :
  short_id (fp_clientId p) ->
  nested ATLAS_CMD_PUB_SUB_INSTALL_FIREWALL_RULE (install_commands p) =
  Ok (Some (carry ATLAS_CMD_PUB_SUB_INSTALL_FIREWALL_RULE (install_cmds p)),
      blen (carry ATLAS_CMD_PUB_SUB_INSTALL_FIREWALL_RULE (install_cmds p))).
Proof.
  intros Hp. apply nested_spec; auto using install_commands_hold, install_cmds_wf.
  rewrite blen_install_cmds. destruct Hp. lia.
Qed.

Lemma client_id_bytes t k :
  short_id k ->
  nested t [client_id_command k] =
  Ok (Some (carry t [(code ATLAS_CMD_PUB_SUB_CLIENT_ID, k)]), blen (carry t [(code ATLAS_CMD_PUB_SUB_CLIENT_ID, k)])).
Proof.
  intros Hk. apply nested_spec.
  - constructor; [|done]. by apply command_holds, short_wf.
  - repeat constructor; [apply code_u16|]. destruct Hk. cbn. lia.
  - done.
  - rewrite blen_encode_cons, blen_encode_nil. destruct Hk. cbn [snd]. lia.
Qed.

(** * The filter *)

Definition install_step (a : rule_args) (c : cmd) : rule_args :=
  if decide (c.1 = code ATLAS_CMD_PUB_SUB_CLIENT_ID) then
    mk_rule_args c.2 (ra_maxQos a) (ra_ppm a) (ra_maxPayloadLen a)
  else if decide (c.1 = code ATLAS_CMD_PUB_SUB_MAX_QOS /\ blen c.2 = 2) then
    mk_rule_args (ra_clientId a) (Some (of_be16 c.2)) (ra_ppm a) (ra_maxPayloadLen a)
  else if decide (c.1 = code ATLAS_CMD_PUB_SUB_PPM /\ blen c.2 = 2) then
    mk_rule_args (ra_clientId a) (ra_maxQos a) (Some (of_be16 c.2)) (ra_maxPayloadLen a)
  else if decide (c.1 = code ATLAS_CMD_PUB_SUB_MAX_PAYLOAD_LEN /\ blen c.2 = 2) then
    mk_rule_args (ra_clientId a) (ra_maxQos a) (ra_ppm a) (Some (of_be16 c.2))
  else a.

Lemma install_body_step a c g : wf_cmd c -> pointer_to c g -> install_body a g = Ok (install_step a c).
Proof.
  intros _ Hp. pose proof (read_u16_pointer c g Hp) as Hr. unfold install_body, install_step.
  rewrite (cmd_bytes_pointer c) by done. destruct Hp as (post & ->). cbn [type_ len_] in *.
  repeat case_decide; try done; rewrite Hr, res_bind_ok by tauto; done.
Qed.

Definition client_id_step (k : list byte) (c : cmd) : list byte :=
  if decide (c.1 = code ATLAS_CMD_PUB_SUB_CLIENT_ID) then c.2 else k.

Lemma client_id_body_step k c g : wf_cmd c -> pointer_to c g -> client_id_body k g = Ok (client_id_step k c).
Proof.
  intros _ Hp. unfold client_id_body, client_id_step. rewrite (cmd_bytes_pointer c) by done.
  destruct Hp as (post & ->). cbn [type_]. by case_decide.
Qed.

(** A message of one command that holds commands. *)
Lemma process_carry t cs f :
  Forall wf_cmd cs -> blen (encode cs) < 65536 ->
  filter_processCommand (Some (carry t cs)) (blen (carry t cs)) f =
  process_body f (mk_AtlasCommand (code t) (blen (encode cs)) (Some (encode cs))).
Proof.
  intros Hcs Hfit. unfold filter_processCommand, carry.
  rewrite parsed_commands_encode; [|by repeat constructor; try apply code_u16|done].
  rewrite res_bind_ok. cbn [pointers encode app for_each]. rewrite app_nil_r.
  by destruct (process_body f _).
Qed.

(** The commands inside it. *)
Lemma carried cs : Forall wf_cmd cs -> cs <> [] -> parsed_commands (Some (encode cs)) (blen (encode cs)) = Ok (pointers cs []).
Proof. apply parsed_commands_encode. Qed.

Lemma process_install p f :
  short_id (fp_clientId p) -> policy_u16 p ->
  let m := carry ATLAS_CMD_PUB_SUB_INSTALL_FIREWALL_RULE (install_cmds p) in
  filter_processCommand (Some m) (blen m) f =
  Ok (set_tx (<[fp_clientId p := new_stats]> (txPktStats_ f))
        (set_rules (<[fp_clientId p := install_rule p]> (rules_ f)) f)).
Proof.
  intros Hp (Hq & Hppm & Hl) m. unfold m. rewrite process_carry; [|by apply install_cmds_wf|].
  2: { rewrite blen_install_cmds. destruct Hp. lia. }
  unfold process_body. cbn [type_ val_ len_]. rewrite decide_True by done. unfold installFirewallRule.
  rewrite carried by (done || by apply install_cmds_wf). rewrite res_bind_ok.
  rewrite (for_each_pointers install_body install_step) by (auto using install_body_step, install_cmds_wf).
  rewrite res_bind_ok. unfold install_cmds. cbn [foldl].
  assert (Hs : foldl install_step (mk_rule_args [] None None None) (install_cmds p) =
    mk_rule_args (fp_clientId p) (Some (fp_qos p)) (Some (fp_ppm p)) (Some (fp_payloadLen p))).
  { unfold install_cmds, install_step. cbn. by rewrite !of_be16_be16. }
  unfold install_cmds in Hs. cbn [foldl] in Hs. rewrite Hs. cbn [ra_clientId ra_maxQos ra_ppm ra_maxPayloadLen].
  by rewrite decide_False by apply Hp.
Qed.

(** The two messages that hold a client id only. *)
Lemma client_id_read k {A} (f : list byte -> res A) :
  short_id k ->
  (cmds ← parsed_commands (Some (encode [(code ATLAS_CMD_PUB_SUB_CLIENT_ID, k)]))
            (blen (encode [(code ATLAS_CMD_PUB_SUB_CLIENT_ID, k)]));
   clientId ← for_each client_id_body cmds []; f clientId) = f k.
Proof.
  intros Hk. assert (Hwf : Forall wf_cmd [(code ATLAS_CMD_PUB_SUB_CLIENT_ID, k)]) by (constructor; [by apply short_wf|done]).
  rewrite carried by done. rewrite res_bind_ok.
  rewrite (for_each_pointers client_id_body client_id_step) by auto using client_id_body_step.
  rewrite res_bind_ok. cbn [foldl]. unfold client_id_step. cbn [fst snd]. by rewrite decide_True.
Qed.

Lemma client_id_fits k : short_id k -> blen (encode [(code ATLAS_CMD_PUB_SUB_CLIENT_ID, k)]) < 65536.
Proof. intros [_ Hk]. rewrite blen_encode_cons, blen_encode_nil. cbn [snd]. lia. Qed.

Lemma client_id_wf k : short_id k -> Forall wf_cmd [(code ATLAS_CMD_PUB_SUB_CLIENT_ID, k)].
Proof. intros Hk. constructor; [by apply short_wf|done]. Qed.

Lemma process_remove k f :
  short_id k ->
  let m := carry ATLAS_CMD_PUB_SUB_REMOVE_FIREWALL_RULE [(code ATLAS_CMD_PUB_SUB_CLIENT_ID, k)] in
  filter_processCommand (Some m) (blen m) f =
  Ok (set_tx (delete k (txPktStats_ f)) (set_rules (delete k (rules_ f)) f)).
Proof.
  intros Hk m. unfold m. rewrite process_carry by auto using client_id_wf, client_id_fits.
  unfold process_body. cbn [type_ val_ len_]. rewrite decide_False by done. rewrite decide_True by done.
  unfold removeFirewallRule. rewrite client_id_read by done. by rewrite decide_False by apply Hk.
Qed.

(** The statistics message. *)
Definition stat_cmds (k : list byte) (dr ps td tp : Z) : list cmd :=
  [(code ATLAS_CMD_PUB_SUB_CLIENT_ID, k);
   (code ATLAS_CMD_PUB_SUB_PKT_DROP, be32 dr);
   (code ATLAS_CMD_PUB_SUB_PKT_PASS, be32 ps);
   (code ATLAS_CMD_PUB_SUB_TX_PKT_DROP, be32 td);
   (code ATLAS_CMD_PUB_SUB_TX_PKT_PASS, be32 tp)].

Lemma stat_cmds_wf k dr ps td tp : short_id k -> Forall wf_cmd (stat_cmds k dr ps td tp).
Proof. intros Hk. repeat (apply Forall_cons; split); auto using short_wf, be32_wf. Qed.

Lemma blen_stat_cmds k dr ps td tp : blen (encode (stat_cmds k dr ps td tp)) = 36 + blen k.
Proof. unfold stat_cmds. rewrite !blen_encode_cons, blen_encode_nil. cbn [snd]. rewrite !blen_be32. lia. Qed.

Lemma command_holds_u32 t z : command_repr (new_AtlasCommand (code t) 4 (Some (st32 (htonl z)))) (code t, be32 z).
Proof. rewrite st32_htonl. rewrite <- (blen_be32 z) at 1. apply command_holds, be32_wf. Qed.

Lemma writeFirewallStats_run k dr ps td tp f :
  short_id k ->
  writeFirewallStats k dr ps td tp f =
  Ok (filter_write (carry ATLAS_CMD_PUB_SUB_PUT_STAT_FIREWALL_RULE (stat_cmds k dr ps td tp)) f).
Proof.
  intros Hk. unfold writeFirewallStats.
  rewrite (serialized_commands_spec _ (stat_cmds k dr ps td tp)).
  - rewrite res_bind_ok. cbn beta iota.
    assert (Hwf : wf_cmd (code ATLAS_CMD_PUB_SUB_PUT_STAT_FIREWALL_RULE, encode (stat_cmds k dr ps td tp))).
    { split; [apply code_u16|]. cbn [snd]. rewrite blen_stat_cmds. destruct Hk. lia. }
    rewrite (serialized_commands_spec _ [(code ATLAS_CMD_PUB_SUB_PUT_STAT_FIREWALL_RULE, encode (stat_cmds k dr ps td tp))]);
      [|constructor; [by apply command_holds|done]|by constructor|done].
    rewrite res_bind_ok. cbn beta iota. cbn [default]. rewrite mem_load_all by done. done.
  - repeat (apply Forall2_cons; split); auto using command_holds_u32. by apply command_holds, short_wf.
  - by apply stat_cmds_wf.
  - done.
Qed.

Lemma process_get_stat k f p :
  short_id k -> rules_ f !! k = Some p ->
  let m := carry ATLAS_CMD_PUB_SUB_GET_STAT_FIREWALL_RULE [(code ATLAS_CMD_PUB_SUB_CLIENT_ID, k)] in
  let tx := default new_stats (txPktStats_ f !! k) in
  filter_processCommand (Some m) (blen m) f =
  Ok (filter_write (carry ATLAS_CMD_PUB_SUB_PUT_STAT_FIREWALL_RULE
        (stat_cmds k (statPktDrop_ p) (statPktPass_ p) (droppedPkts_ tx) (passedPkts_ tx)))
      (set_tx (<[k := new_stats]> (txPktStats_ f)) (set_rules (<[k := policer_clear_stats p]> (rules_ f)) f))).
Proof.
  intros Hk Hp m tx. unfold m. rewrite process_carry by auto using client_id_wf, client_id_fits.
  unfold process_body. cbn [type_ val_ len_]. rewrite decide_False by done. rewrite decide_False by done.
  rewrite decide_True by done. unfold getFirewallRuleStats. rewrite client_id_read by done.
  rewrite decide_False by apply Hk. rewrite Hp. by rewrite writeFirewallStats_run.
Qed.

(** * The messages of a visit, read by the filter *)

Fixpoint filter_messages (msgs : list (list byte)) (f : AtlasFilter) : res AtlasFilter :=
  match msgs with
  | [] => Ok f
  | m :: msgs => f ← filter_processCommand (Some m) (blen m) f; filter_messages msgs f
  end.

(** The rule a device should have. *)
Definition rule_for (d : AtlasDevice) : option AtlasPacketPolicer := install_rule <$> policy_ d.

Definition device_ok (kd : list byte * AtlasDevice) : Prop :=
  short_id kd.1 /\ match policy_ kd.2 with Some p => fp_clientId p = kd.1 /\ policy_u16 p | None => True end.

Lemma install_messages `{E : GwEnv} l evss g' :
  NoDup l.*1 -> Forall device_ok l ->
  Forall2 (fun kd evs => exists d', devices_ g' !! kd.1 = Some d' /\
    policy_turn install_message true kd.1 kd.2 d' evs) l evss ->
  exists msgs, concat evss = GwAgent <$> msgs /\ forall f, exists f', filter_messages msgs f = Ok f' /\
    cmdXfer_ f' = cmdXfer_ f /\ sent_ f' = sent_ f /\
    forall k, rules_ f' !! k = match list_to_map (M := gmap _ _) l !! k with
                               | Some d => match rule_for d with Some r => Some r | None => rules_ f !! k end
                               | None => rules_ f !! k
                               end.
Proof.
  intros Hnd Hok Hall. revert Hnd Hok. induction Hall as [|[k d] evs l evss (d' & Hd' & -> & Hmsg) _ IH]; intros Hnd Hok.
  { exists []. split; [done|]. intros f. by exists f. }
  apply NoDup_cons in Hnd as [Hk Hnd]. apply Forall_cons in Hok as [[Hshort Hpol] Hok]. cbn in Hk, Hshort, Hpol, Hmsg.
  destruct (IH Hnd Hok) as (msgs & Hm & Hf).
  assert (Hlk : list_to_map (M := gmap (list byte) AtlasDevice) l !! k = None) by (by apply not_elem_of_list_to_map_1).
  destruct (policy_ d) as [p|] eqn:Hp.
  - destruct Hpol as [Hid Hu]. destruct Hmsg as (buf & len & Hn & ->). subst k. rewrite install_bytes in Hn by done.
    injection Hn as <- <-. exists (carry ATLAS_CMD_PUB_SUB_INSTALL_FIREWALL_RULE (install_cmds p) :: msgs).
    split; [cbn [concat app]; by rewrite Hm|]. intros f. cbn [filter_messages].
    rewrite process_install by done. rewrite res_bind_ok.
    match goal with |- context [filter_messages msgs ?f1] => destruct (Hf f1) as (f' & -> & Hx & Hs & Hr) end.
    exists f'. split; [done|]. split; [done|]. split; [done|]. intros j. rewrite Hr, list_to_map_cons.
    cbn [rules_ set_tx set_rules]. destruct (decide (j = fp_clientId p)) as [->|Hj].
    + rewrite Hlk, !lookup_insert_eq. unfold rule_for. by rewrite Hp.
    + by rewrite !lookup_insert_ne.
  - subst evs. exists msgs. split; [done|]. intros f. destruct (Hf f) as (f' & Hrun & Hx & Hs & Hr).
    exists f'. split; [done|]. split; [done|]. split; [done|]. intros j. rewrite Hr, list_to_map_cons.
    destruct (decide (j = k)) as [->|Hj].
    + rewrite Hlk, !lookup_insert_eq. unfold rule_for. by rewrite Hp.
    + by rewrite !lookup_insert_ne.
Qed.
End Plugin.

Section Exchange.
Context `{E : GwEnv} `{HO : HashOrder} `{he : HostEndian}.

(** What the filter asks for when it connects. *)
Definition get_all : list byte := encode [(code ATLAS_CMD_GET_ALL_PUB_SUB_FIREWALL_RULES, [])].

Lemma gatewayConnect_run f :
  gatewayConnect f = Ok (filter_write get_all (set_xfer (xfer_init (cmdXfer_ f)) (set_rules ∅ f))).
Proof.
  unfold gatewayConnect.
  assert (serialized_commands [new_AtlasCommand (code ATLAS_CMD_GET_ALL_PUB_SUB_FIREWALL_RULES) 0 None] =
    Ok (Some get_all, 4)) as -> by (by destruct he).
  done.
Qed.

(** A message of one command, read by the agent. *)
Lemma agent_single t v g :
  wf_cmd (code t, v) ->
  agent_processCommand (Some (encode [(code t, v)])) (blen (encode [(code t, v)])) g =
  agent_command (mk_AtlasCommand (code t) (blen v) (Some v)) g.
Proof.
  intros Hv. unfold agent_processCommand.
  erewrite G_bind_run by (apply glift_run, parsed_commands_encode; [by constructor|done]).
  cbn [pointers gfor encode]. rewrite app_nil_r. unfold mbind, G_bind, mret, G_ret.
  by destruct (agent_command _ g) as [[[] g']|].
Qed.

Definition short_ids (g : gateway) : Prop := forall k, is_Some (devices_ g !! k) -> short_id k.

Lemma wf_device_ok g : gw_wf g -> short_ids g -> Forall device_ok (hash_order (devices_ g)).
Proof.
  intros Hg Hs. rewrite hash_order_perm. apply Forall_forall. intros [k d] Hin%elem_of_map_to_list. split; cbn.
  - apply Hs. by exists d.
  - destruct (Hg k d Hin) as (_ & _ & Hp). destruct (policy_ d) as [p|]; [|done].
    by destruct (Hp p eq_refl) as (_ & ? & ? & ? & ?).
Qed.

Lemma hash_order_map (m : gmap (list byte) AtlasDevice) : list_to_map (hash_order m) = m.
Proof.
  rewrite <- (list_to_map_to_list m) at 2. apply list_to_map_proper; [|apply hash_order_perm].
  rewrite hash_order_perm. apply NoDup_fst_map_to_list.
Qed.

Lemma unchanged_visit msg g g' :
  visited (policy_turn msg) (hash_order (devices_ g)) g g' -> devices_ g' = devices_ g.
Proof.
  intros Hv. apply map_eq. intros k. pose proof (visited_lookup _ _ _ k Hv) as Hk.
  destruct (devices_ g !! k) as [d|]; [|done]. by destruct Hk as (d' & evs & -> & [-> _] & _).
Qed.
End Exchange.

(** C6: after the plug-in has connected, it and the gateway agree: the request it
    sends makes the gateway send one installation per device that has a policy,
    and when the filter has read those messages it has exactly the rules of the
    gateway's policies, each for its device, and no others, whatever rules it had
    before. *)
Theorem reconnect_resync `{E : GwEnv} `{HO : HashOrder} `{HostEndian} (g : gateway) (f : AtlasFilter) :
  gw_wf g -> short_ids g -> agent_connected g = true ->
  exists f0 req g' msgs f',
    gatewayConnect f = Ok f0 /\ sent_ f0 = sent_ f ++ [req] /\
    agent_processCommand (Some req) (blen req) g = Ok (tt, g') /\
    devices_ g' = devices_ g /\ gw_out g' = gw_out g ++ (GwAgent <$> msgs) /\
    filter_messages msgs f0 = Ok f' /\
    forall k, rules_ f' !! k = devices_ g !! k ≫= rule_for.
Proof.
  intros Hg Hs Hc.
  destruct (forEachDevice_visits device_wf (policy_turn install_message) _ g (install_visits device_wf) Hg) as (g' & Hrun & Hv).
  pose proof Hv as (_ & _ & _ & evss & Hout & Hevs). rewrite Hc in Hevs.
  destruct (install_messages (hash_order (devices_ g)) evss g') as (msgs & Hm & Hf);
    [rewrite hash_order_perm; apply NoDup_fst_map_to_list|by apply wf_device_ok|done|].
  rewrite gatewayConnect_run. set (f0 := filter_write _ _). destruct (Hf f0) as (f' & Hrun' & _ & _ & Hr).
  exists f0, get_all, g', msgs, f'. split; [done|]. split; [done|]. split.
  { unfold get_all. rewrite agent_single by done. exact Hrun. }
  split; [by eapply unchanged_visit|]. split; [by rewrite Hout, Hm|]. split; [done|].
  intros k. rewrite Hr, hash_order_map. unfold f0. cbn. rewrite lookup_empty.
  destruct (devices_ g !! k) as [d|]; [|done]. cbn. by destruct (rule_for d).
Qed.

Lemma policy_gw_short : short_ids policy_gw.
Proof. intros k [d Hd]. unfold policy_gw in Hd. cbn [devices_] in Hd. by apply lookup_singleton_Some in Hd as [<- _]. Qed.

Lemma reconnect_resync_witness :
  let f := mk_filter {[ cstr "old" := new_policer 0 1 1 ]} ∅ idle_xfer [] in
  exists f0 req g' msgs f',
    @gatewayConnect true f = Ok f0 /\ sent_ f0 = sent_ f ++ [req] /\
    @agent_processCommand sim_gw key_order true (Some req) (blen req) policy_gw = Ok (tt, g') /\
    devices_ g' = devices_ policy_gw /\ gw_out g' = gw_out policy_gw ++ (GwAgent <$> msgs) /\
    @filter_messages true msgs f0 = Ok f' /\
    forall k, rules_ f' !! k = devices_ policy_gw !! k ≫= rule_for.
Proof.
  intros f. apply (@reconnect_resync sim_gw key_order true policy_gw f).
  - apply policy_gw_wf.
  - apply policy_gw_short.
  - reflexivity.
Defined.

(** ** Statistics *)

Section Statistics.
Context `{E : GwEnv} `{HO : HashOrder} `{he : HostEndian}.

Lemma updateFirewallStats_run s d g :
  devices_ g !! fs_clientId s = Some d ->
  let d' := dev_set_stats (fwstats_add (ruleDroppedPkts_ s) (rulePassedPkts_ s) (txDroppedPkts_ s) (txPassedPkts_ s) (stats_ d)) d in
  updateFirewallStats s g =
  Ok (tt, put (fs_clientId s) d' [GwCloud (identity_ d) (stats_toJSON (stats_ d'))]
            (updateStats (identity_ d) (stats_ d') (gw_ext g)).2 g).
Proof.
  intros Hd d'. unfold updateFirewallStats. set (k := fs_clientId s) in *.
  erewrite G_bind_run by (by apply getDevice_run with d). rewrite (put_intro k d g) at 1 by done. cbv iota zeta. unfold syncFirewallStatistics, updateDevice. grun. fold d'.
  by rewrite gemit_put.
Qed.

Lemma stat_fold k dr ps td tp :
  is_u32 dr -> is_u32 ps -> is_u32 td -> is_u32 tp ->
  foldl stat_step (mk_stat_args [] None None None None) (stat_cmds k dr ps td tp) =
  mk_stat_args k (Some dr) (Some ps) (Some td) (Some tp).
Proof.
  intros Hdr Hps Htd Htp.
  assert (Hfour : forall t z a, is_u32 z -> stat_step a (code t, be32 z) =
    match t with
    | ATLAS_CMD_PUB_SUB_PKT_DROP => mk_stat_args (sa_clientId a) (Some z) (sa_rulePassed a) (sa_txDropped a) (sa_txPassed a)
    | ATLAS_CMD_PUB_SUB_PKT_PASS => mk_stat_args (sa_clientId a) (sa_ruleDropped a) (Some z) (sa_txDropped a) (sa_txPassed a)
    | ATLAS_CMD_PUB_SUB_TX_PKT_DROP => mk_stat_args (sa_clientId a) (sa_ruleDropped a) (sa_rulePassed a) (Some z) (sa_txPassed a)
    | ATLAS_CMD_PUB_SUB_TX_PKT_PASS => mk_stat_args (sa_clientId a) (sa_ruleDropped a) (sa_rulePassed a) (sa_txDropped a) (Some z)
    | _ => stat_step a (code t, be32 z)
    end).
  { intros t z a Hz. unfold stat_step. cbn [fst snd]. rewrite blen_be32, ntohl_ld32_be32 by done. by destruct t. }
  unfold stat_cmds. cbn [foldl]. rewrite !Hfour by done. done.
Qed.

(** The counters a message carries, when there is anything to report. *)
Definition counted (dr ps td tp : Z) (d : AtlasDevice) : AtlasDevice :=
  if decide (dr <> 0 \/ ps <> 0 \/ td <> 0 \/ tp <> 0) then dev_set_stats (fwstats_add dr ps td tp (stats_ d)) d else d.

Lemma process_put_stat k dr ps td tp d g :
  short_id k -> is_u32 dr -> is_u32 ps -> is_u32 td -> is_u32 tp -> devices_ g !! k = Some d ->
  let m := carry ATLAS_CMD_PUB_SUB_PUT_STAT_FIREWALL_RULE (stat_cmds k dr ps td tp) in
  exists g', agent_processCommand (Some m) (blen m) g = Ok (tt, g') /\
    devices_ g' = <[k := counted dr ps td tp d]> (devices_ g).
Proof.
  intros Hk Hdr Hps Htd Htp Hd m. unfold m, carry. rewrite agent_single.
  2: { split; [apply code_u16|]. cbn [snd]. rewrite blen_stat_cmds. destruct Hk. lia. }
  unfold agent_command. cbn [type_ val_ len_]. rewrite decide_False by done. rewrite decide_True by done.
  unfold processFirewallRuleStat. rewrite decide_False by (rewrite blen_stat_cmds; blen_pos; lia).
  erewrite G_bind_run by (apply glift_run, carried; [by apply stat_cmds_wf|done]).
  erewrite G_bind_run by (apply glift_run, (for_each_pointers stat_body stat_step); [apply stat_body_step|by apply stat_cmds_wf]).
  rewrite stat_fold by done. cbn [sa_clientId sa_ruleDropped sa_rulePassed sa_txDropped sa_txPassed].
  rewrite decide_False by apply Hk. unfold counted. case_decide as Hnz.
  - rewrite (updateFirewallStats_run _ d) by done. eexists. split; [done|]. cbn.
    unfold is_u32, u32 in *. by rewrite !Z.mod_small by lia.
  - eexists. split; [done|]. by rewrite insert_id.
Qed.
End Statistics.

Definition stats_u32 (s : AtlasPacketStats) : Prop := is_u32 (passedPkts_ s) /\ is_u32 (droppedPkts_ s).

(** C27: collecting the statistics of a device moves them: the gateway's request
    makes the filter send the four counters it has for the device and set them to
    zero, and when the gateway has read that message the device's totals have
    grown by exactly those numbers, modulo the 32 bits of a total. Nothing is
    lost, counted twice or attributed to another device. *)
Theorem statistics_collected `{E : GwEnv} `{HO : HashOrder} `{HostEndian}
    (k : list byte) (g : gateway) (d : AtlasDevice) (f : AtlasFilter) (p : AtlasPacketPolicer) :
  short_id k -> agent_connected g = true -> devices_ g !! k = Some d ->
  rules_ f !! k = Some p -> policer_wf p -> map_Forall (fun _ => stats_u32) (txPktStats_ f) ->
  let tx := default new_stats (txPktStats_ f !! k) in
  exists g1 ask f' answer g',
    agent_getFirewallRuleStats k g = Ok (tt, g1) /\ gw_out g1 = gw_out g ++ [GwAgent ask] /\
    filter_processCommand (Some ask) (blen ask) f = Ok f' /\ sent_ f' = sent_ f ++ [answer] /\
    rules_ f' = <[k := policer_clear_stats p]> (rules_ f) /\ txPktStats_ f' = <[k := new_stats]> (txPktStats_ f) /\
    agent_processCommand (Some answer) (blen answer) g1 = Ok (tt, g') /\
    devices_ g' = <[k := counted (statPktDrop_ p) (statPktPass_ p) (droppedPkts_ tx) (passedPkts_ tx) d]> (devices_ g).
Proof.
  intros Hk Hc Hd Hp (_ & Hdr & Hps) Htx tx.
  assert (stats_u32 tx) as [Htp Htd].
  { unfold tx. destruct (txPktStats_ f !! k) as [s|] eqn:Hs; [by apply (Htx k)|done]. }
  set (ask := carry ATLAS_CMD_PUB_SUB_GET_STAT_FIREWALL_RULE [(code ATLAS_CMD_PUB_SUB_CLIENT_ID, k)]).
  set (g1 := put k d [GwAgent ask] (gw_ext g) g).
  destruct (process_put_stat k (statPktDrop_ p) (statPktPass_ p) (droppedPkts_ tx) (passedPkts_ tx) d g1)
    as (g' & Hg' & Hd'); [done..|by cbn; rewrite lookup_insert_eq|].
  eexists g1, ask, _, _, g'. split; [|split; [done|]; split; [by apply process_get_stat|]; repeat (split; [done|])].
  - unfold agent_getFirewallRuleStats. rewrite decide_False by apply Hk.
    erewrite G_bind_run by (by apply glift_run, client_id_bytes). cbv iota beta.
    rewrite (put_intro k d g) at 1 by done. rewrite agent_write_put by done. by rewrite Hc.
  - rewrite Hd'. cbn. by rewrite insert_insert_eq.
Qed.

Lemma statistics_collected_witness :
  let p := mk_policer 3 1 60 100 2 5 in
  let f := mk_filter {[ dev := p ]} {[ dev := mk_stats 7 1 ]} idle_xfer [] in
  let tx := default new_stats (txPktStats_ f !! dev) in
  exists g1 ask f' answer g',
    @agent_getFirewallRuleStats sim_gw true dev policy_gw = Ok (tt, g1) /\ gw_out g1 = gw_out policy_gw ++ [GwAgent ask] /\
    @filter_processCommand true (Some ask) (blen ask) f = Ok f' /\ sent_ f' = sent_ f ++ [answer] /\
    rules_ f' = <[dev := policer_clear_stats p]> (rules_ f) /\ txPktStats_ f' = <[dev := new_stats]> (txPktStats_ f) /\
    @agent_processCommand sim_gw key_order true (Some answer) (blen answer) g1 = Ok (tt, g') /\
    devices_ g' = <[dev := counted (statPktDrop_ p) (statPktPass_ p) (droppedPkts_ tx) (passedPkts_ tx) policy_dev]>
                    (devices_ policy_gw).
Proof.
  intros p f. apply (@statistics_collected sim_gw key_order true dev policy_gw policy_dev f p).
  - done.
  - reflexivity.
  - reflexivity.
  - reflexivity.
  - done.
  - by apply map_Forall_singleton.
Defined.

(** The filter trusts the gateway to ask only for rules it has: a request for
    the statistics of a client without a rule makes the filter read a policer
    whose counters were never initialised. *)
Theorem statistics_unknown_client `{HostEndian} (k : list byte) (f : AtlasFilter) :
  short_id k -> rules_ f !! k = None ->
  let ask := carry ATLAS_CMD_PUB_SUB_GET_STAT_FIREWALL_RULE [(code ATLAS_CMD_PUB_SUB_CLIENT_ID, k)] in
  filter_processCommand (Some ask) (blen ask) f = Fault Uninitialised.
Proof.
  intros Hk Hr ask. unfold ask. rewrite process_carry by auto using client_id_wf, client_id_fits.
  unfold process_body. cbn [type_ val_ len_]. rewrite decide_False by done. rewrite decide_False by done.
  rewrite decide_True by done. unfold getFirewallRuleStats. rewrite client_id_read by done.
  rewrite decide_False by apply Hk. by rewrite Hr.
Qed.

Lemma statistics_unknown_client_witness :
  @filter_processCommand true
    (Some (carry ATLAS_CMD_PUB_SUB_GET_STAT_FIREWALL_RULE [(code ATLAS_CMD_PUB_SUB_CLIENT_ID, dev)]))
    (blen (carry ATLAS_CMD_PUB_SUB_GET_STAT_FIREWALL_RULE [(code ATLAS_CMD_PUB_SUB_CLIENT_ID, dev)]))
    (mk_filter ∅ ∅ idle_xfer []) = Fault Uninitialised.
Proof.
  apply (@statistics_unknown_client true dev (mk_filter ∅ ∅ idle_xfer [])).
  - done.
  - reflexivity.
Defined.

(** ** Policies *)

Section Policies.
Context `{E : GwEnv} `{HO : HashOrder} `{he : HostEndian}.

(** A policy request. *)
Definition policy_request (qos ppm payloadLen : Z) : list cmd :=
  [(code ATLAS_CMD_DATA_PLANE_POLICY_MAX_QOS, be16 qos);
   (code ATLAS_CMD_DATA_PLANE_POLICY_PACKETS_PER_MINUTE, be16 ppm);
   (code ATLAS_CMD_DATA_PLANE_POLICY_PACKETS_MAXLEN, be16 payloadLen)].

Lemma policy_request_wf q p l : Forall wf_cmd (policy_request q p l).
Proof. repeat (apply Forall_cons; split); auto using be16_wf. Qed.

Lemma firewall_fold q p l :
  is_u16 q -> is_u16 p -> is_u16 l ->
  fold_return firewall_step (policy_request q p l) (mk_policy_args None None None) =
  inl (mk_policy_args (Some q) (Some p) (Some l)).
Proof.
  intros Hq Hp Hl. rewrite <- (of_be16_be16 q Hq) at 2. rewrite <- (of_be16_be16 p Hp) at 2.
  rewrite <- (of_be16_be16 l Hl) at 2. reflexivity.
Qed.

Lemma policy_outcome k d p g :
  devices_ g !! k = Some d -> registered_ d = true -> fp_clientId p = k -> policy_u16 p -> short_id k ->
  let req := encode (policy_request (fp_qos p) (fp_ppm p) (fp_payloadLen p)) in
  firewallPolicyCallback k (Some req) (blen req) g =
  Ok ((ATLAS_COAP_RESP_OK, None),
      put k (dev_set_policy (Some p) d)
        ((if policy_news p d then [GwCloud (identity_ d) (policy_toJSON p)] else []) ++
         (if agent_connected g then [GwAgent (carry ATLAS_CMD_PUB_SUB_INSTALL_FIREWALL_RULE (install_cmds p))] else []))
        (gw_ext g) g).
Proof.
  intros Hd Hreg Hid (Hq & Hp & Hl) Hk req. unfold firewallPolicyCallback.
  erewrite G_bind_run by (by apply registered_device_run). rewrite Hreg. unfold req.
  erewrite G_bind_run by (apply glift_run, carried; [apply policy_request_wf|done]).
  destruct (pointers _ []) as [|p0 ps] eqn:Hps; [done|]. rewrite <- Hps.
  erewrite G_bind_run by (apply glift_run, (for_return_pointers firewall_body firewall_step);
    [apply firewall_body_step|apply policy_request_wf]).
  rewrite firewall_fold by done. cbn [pa_qos pa_ppm pa_payloadLen].
  assert (mk_policy k (fp_qos p) (fp_ppm p) (fp_payloadLen p) = p) as -> by (subst k; by destruct p).
  rewrite (put_intro k d g) at 1 by done. erewrite G_bind_run by apply setPolicyInfo_put. grun.
  cbn [policy_ dev_set_policy]. subst k.
  match goal with |- context [put _ ?dd ?ee (gw_ext g) g] =>
    destruct (install_put (fp_clientId p) p dd ee (gw_ext g) g) as (evs & Hi & buf & len & Hn & ->) end.
  erewrite G_bind_run by exact Hi. rewrite install_bytes in Hn by done. injection Hn as <- <-. done.
Qed.
End Policies.

(** A policy that differs from the device's current one in its rate only is
    accepted, stored and sent to the plug-in, but the cloud is not told: the
    comparison of two policies assigns the rate instead of comparing it, so the
    two are found equal. *)
Theorem rate_change_not_reported `{E : GwEnv} `{HostEndian}
    (k : list byte) (d : AtlasDevice) (q ppm ppm' l : Z) (g : gateway) :
  devices_ g !! k = Some d -> registered_ d = true -> short_id k -> is_u16 q -> is_u16 ppm' -> is_u16 l ->
  policy_ d = Some (mk_policy k q ppm l) -> ppm' <> ppm -> ppm' <> 0 ->
  let req := encode (policy_request q ppm' l) in
  exists g', firewallPolicyCallback k (Some req) (blen req) g = Ok ((ATLAS_COAP_RESP_OK, None), g') /\
    devices_ g' !! k = Some (dev_set_policy (Some (mk_policy k q ppm' l)) d) /\
    gw_out g' = gw_out g ++
      if agent_connected g
      then [GwAgent (carry ATLAS_CMD_PUB_SUB_INSTALL_FIREWALL_RULE (install_cmds (mk_policy k q ppm' l)))] else [].
Proof.
  intros Hd Hreg Hk Hq Hp Hl Hpol Hne Hnz req.
  pose proof (policy_outcome k d (mk_policy k q ppm' l) g Hd Hreg eq_refl (conj Hq (conj Hp Hl)) Hk) as Hrun.
  cbn zeta in Hrun. assert (Hnews : policy_news (mk_policy k q ppm' l) d = false).
  { unfold policy_news, policy_equal. rewrite Hpol. rewrite decide_True by done. cbn [fst fp_ppm fp_payloadLen].
    by rewrite bool_decide_true. }
  rewrite Hnews in Hrun. eexists. split; [exact Hrun|]. split; [|done]. cbn. by rewrite lookup_insert_eq.
Qed.

Lemma rate_change_not_reported_witness :
  exists g', @firewallPolicyCallback sim_gw true dev (Some (encode (policy_request 1 5 100)))
      (blen (encode (policy_request 1 5 100))) policy_gw = Ok ((ATLAS_COAP_RESP_OK, None), g') /\
    devices_ g' !! dev = Some (dev_set_policy (Some (mk_policy dev 1 5 100)) policy_dev) /\
    gw_out g' = gw_out policy_gw ++
      if agent_connected policy_gw
      then [GwAgent (carry ATLAS_CMD_PUB_SUB_INSTALL_FIREWALL_RULE (install_cmds (mk_policy dev 1 5 100)))] else [].
Proof.
  apply (@rate_change_not_reported sim_gw true dev policy_dev 1 60 5 100 policy_gw); done.
Defined.
