(* ===== verification/System.v ===== *)
(** The client and the gateway together: the messages the client sends
    (register/atlas_register.c, data_plane_connector/atlas_data_plane_connector.c)
    handed to the gateway's end-points (register/AtlasRegister.cpp,
    policy/AtlasPolicy.cpp), their answers handed back to the client, and the
    policies followed on to the broker plug-in.

    The two sides have their own byte orders and their own environments. What
    carries a request from one to the other is CoAP over DTLS: the gateway sees
    the payload the client sent under the identity the client authenticated with,
    and the client's callback sees the answer. *)
From S2P Require Import Prelude Defs CLib State SimEnv Config Command Sched Alarm Safety CoapClient Identity AlertUtils DataPlane AtlasLib Payload Telemetry Register CoapServer Endpoints.
From S2P Require Import GwDefs GwBatch GwXfer GwFilter GwStore GwDevice GwServer GwLifecycle GwPlugin.

(** * Registration *)

Section Registration.
Context `{GE : GwEnv} `{HO : HashOrder} `{gwe : HostEndian}.

Lemma wire_encode cs : wire cs = encode ((fun c => (cmd_code c.1, c.2)) <$> cs).
Proof. reflexivity. Qed.

(** What the client sends to register is a registration for the gateway. *)
Lemma client_registers i v :
  i <> [] -> v <> [] ->
  registers i v ((fun c => (cmd_code c.1, c.2)) <$> [(ATLAS_CMD_REGISTER, i); (ATLAS_CMD_IP_PORT, v)]).
Proof.
  intros Hi Hv. apply registers_iff. split; [|done].
  repeat (apply Forall_cons; split); try done; split; done.
Qed.

(** The gateway on a keep-alive of a registered device. *)
Lemma keepalive_fold i tok v :
  i <> [] -> v <> [] -> blen tok = 2 ->
  fold_return (keepalive_step i)
    ((fun c => (cmd_code c.1, c.2)) <$> [(ATLAS_CMD_IDENTITY, i); (ATLAS_CMD_KEEPALIVE, tok); (ATLAS_CMD_IP_PORT, v)])
    (mk_reg_args [] [] None) = inl (mk_reg_args i v (Some tok)).
Proof.
  intros Hi Hv Htok. cbn [fmap list_fmap fst snd fold_return].
  assert (keepalive_step i (mk_reg_args [] [] None) (cmd_code ATLAS_CMD_IDENTITY, i) = inl (mk_reg_args i [] None)) as ->.
  { unfold keepalive_step. cbn [fst snd]. rewrite decide_False by done. rewrite decide_True by done.
    rewrite decide_False by done. by rewrite decide_True. }
  assert (keepalive_step i (mk_reg_args i [] None) (cmd_code ATLAS_CMD_KEEPALIVE, tok) = inl (mk_reg_args i [] (Some tok))) as ->.
  { unfold keepalive_step. cbn [fst snd]. rewrite decide_True by done. by rewrite decide_False by auto. }
  unfold keepalive_step. cbn [fst snd]. rewrite decide_False by done. rewrite decide_False by done.
  rewrite decide_True by done. by rewrite decide_False.
Qed.

Lemma keepalive_outcome i tok v d g :
  devices_ g !! i = Some d -> registered_ d = true -> identity_ d = i ->
  i <> [] -> v <> [] -> blen tok = 2 -> blen i <= 64 -> blen v <= 21 ->
  let req := wire [(ATLAS_CMD_IDENTITY, i); (ATLAS_CMD_KEEPALIVE, tok); (ATLAS_CMD_IP_PORT, v)] in
  exists evs x text, keepaliveCallback i (Some req) (blen req) g =
    Ok ((GwType.ATLAS_COAP_RESP_OK, Some tok), put i (dev_set_ipPort v (dev_keepalive text 4 d)) evs x g).
Proof.
  intros Hd Hreg Hid Hi Hv Htok Hli Hlv req. unfold keepaliveCallback.
  erewrite G_bind_run by (by apply registered_device_run). rewrite Hreg. unfold req, wire.
  assert (Hwf : Forall wf_cmd ((fun c => (cmd_code c.1, c.2)) <$>
    [(ATLAS_CMD_IDENTITY, i); (ATLAS_CMD_KEEPALIVE, tok); (ATLAS_CMD_IP_PORT, v)])).
  { apply wire_wf. autorewrite with blen. lia. }
  erewrite G_bind_run by (apply glift_run, carried; [exact Hwf|done]).
  destruct (pointers _ []) as [|p0 ps] eqn:Hps; [done|]. rewrite <- Hps.
  erewrite G_bind_run by (apply glift_run, (for_return_pointers (keepalive_body i) (keepalive_step i));
    [apply keepalive_body_step|exact Hwf]).
  rewrite keepalive_fold by done. cbn [rg_token rg_identity rg_ipPort]. rewrite decide_False by tauto.
  pose proof (keepalive_run i v d [] (gw_ext g) g Hid) as Hrun. rewrite <- put_intro in Hrun by done.
  destruct (local_time (gw_ext g)) as [now x1]. destruct Hrun as (evs & x2 & Hrun & _).
  unfold mbind at 1, G_bind at 1 in Hrun. unfold mbind at 1, G_bind at 1.
  destruct (keepAliveNow i g) as [[u g1]|]; [|discriminate]. erewrite G_bind_run by exact Hrun.
  by eexists _, _, _.
Qed.
End Registration.

(** C12: a registration reaches its goal across the two programs: when the client
    registers, either no message goes out or the one that does makes a gateway
    that knows the device answer with success and hold it registered, at the
    client's address and with four keep-alive periods, whatever the byte orders of
    the two hosts. (The gateway's own requests to the device are not refused as they
    are made, [Sends].) *)
Theorem registration_end_to_end `{E : Env} `{!EnvLaws E} (client_endian : HostEndian)
    `{GE : GwEnv} `{!Sends GE} `{HO : HashOrder} (gateway_endian : HostEndian)
    (c c1 : client) (hostname port ipPort : list byte) (st : atlas_status) (g : gateway) :
  let i := id_identity (cl_ids c) in
  gateway_set c hostname port -> i <> [] -> blen i <= ATLAS_IDENTITY_LEN ->
  atlas_cfg_get_local_ipPort c = Ok ((st, ipPort), c1) -> ipPort <> [] ->
  gw_wf g -> known i g ->
  @send_register_command E client_endian c = Fault Uninitialised \/
  exists c', @send_register_command E client_endian c = Ok (tt, c') /\
    (cl_out c' = cl_out c \/
     exists session payload,
       cl_out c' = cl_out c ++ [EvCoapSend session ATLAS_COAP_METHOD_POST (cl_token c)
         (gateway_uri hostname port ATLAS_CLIENT_REGISTER_COAP_PATH) payload] /\
       exists g' d, @registerCallback GE HO gateway_endian i (Some payload) (blen payload) g =
           Ok ((GwType.ATLAS_COAP_RESP_OK, None), g') /\
         devices_ g' !! i = Some d /\ registered_ d = true /\ kaCtr_ d = Some 4 /\ ipPort_ d = ipPort).
Proof.
  intros i Hgw Hi Hli Hip Hne Hg Hk.
  destruct (@register_posts E _ client_endian c c1 hostname port ipPort st Hgw Hli Hip) as [Hf|(c' & Hrun & Hs)]; [by left|right].
  exists c'. split; [done|]. destruct Hs as [Hs|[session Hs]]; [by left|right]. eexists session, _. split; [exact Hs|].
  destruct (local_ipPort_run _ _ _ _ Hip) as [Hlip _]. unfold ATLAS_IDENTITY_LEN in Hli.
  set (cs := (fun x => (cmd_code x.1, x.2)) <$> [(ATLAS_CMD_REGISTER, i); (ATLAS_CMD_IP_PORT, ipPort)]).
  assert (Hwf : Forall wf_cmd cs) by (apply wire_wf; autorewrite with blen; fold i in Hli; lia).
  destruct (@register_outcome GE _ HO gateway_endian i cs g Hwf ltac:(done) Hg) as (r & g' & Hreg & Hres).
  destruct Hres as [(_ & _ & _ & Hno)|(-> & _ & p & now & text & d & Hp & _ & Hd)].
  { exfalso. apply Hno. split; [done|]. exists ipPort. by apply client_registers. }
  exists g'. rewrite Hd, lookup_insert_eq. eexists. split; [exact Hreg|]. split; [done|]. split; [done|]. split; [done|].
  apply registers_iff in Hp as (_ & _ & _ & <- & _). done.
Qed.

(** The client of the samples, and a gateway whose database has its key. *)
Definition node : list byte := cstr "node-1".

Definition node_gw : GwEnv := {|
  gext := Z * Tables;
  gext_sql := clock_sql;
  local_time x := (x.1, (x.1 + 1, x.2));
  to_simple_string z := dec z;
  sendRequest _ _ x := (true, x);
  local_time_tables _ := eq_refl;
  sendRequest_tables _ _ _ := eq_refl;
|}.

#[export] Instance node_sends : Sends node_gw.
Proof. done. Qed.

Definition node_dev : AtlasDevice :=
  dev_register 0 (dec 0) 1 (new_AtlasDevice node (cstr "secret")).

Definition node_gateway (m : gmap (list byte) AtlasDevice) : @gateway node_gw := mk_gateway node_gw m true idle_xfer [] (0, one_device node (cstr "secret")) new_trusted.

Lemma node_gateway_wf : gw_wf (node_gateway {[ node := node_dev ]}).
Proof. apply map_Forall_singleton. split; [done|]. split; [intros _; by exists 1|done]. Qed.

Lemma registration_end_to_end_witness :
  let c := reg_client reg_idle in
  let i := id_identity (cl_ids c) in
  @send_register_command sim_env true c = Fault Uninitialised \/
  exists c', @send_register_command sim_env true c = Ok (tt, c') /\
    (cl_out c' = cl_out c \/
     exists session payload,
       cl_out c' = cl_out c ++ [EvCoapSend session ATLAS_COAP_METHOD_POST (cl_token c)
         (gateway_uri (cstr "gw") (cstr "10100") ATLAS_CLIENT_REGISTER_COAP_PATH) payload] /\
       exists g' d, @registerCallback node_gw key_order false i (Some payload) (blen payload) (node_gateway ∅) =
           Ok ((GwType.ATLAS_COAP_RESP_OK, None), g') /\
         devices_ g' !! i = Some d /\ registered_ d = true /\ kaCtr_ d = Some 4 /\ ipPort_ d = cstr "10.0.0.7:10001").
Proof.
  intros c. apply (@registration_end_to_end sim_env sim_laws true node_gw node_sends key_order false c c (cstr "gw") (cstr "10100")
    (cstr "10.0.0.7:10001") ATLAS_OK (node_gateway ∅)).
  - apply reg_client_gateway.
  - done.
  - done.
  - apply reg_client_ipPort.
  - done.
  - apply map_Forall_empty.
  - by right.
Defined.

(** * Keep-alive *)

(** Sending a keep-alive advances the token and changes nothing else of the
    registration state. *)
Lemma keepalive_token `{E : Env} `{!EnvLaws E} `{HostEndian} c c' :
  send_keepalive_command c = Ok (tt, c') ->
  cl_reg c' = reg_set_token (u16 (ka_token (cl_reg c) + 1)) (cl_reg c).
Proof.
  unfold send_keepalive_command. rewrite (M_bind_run _ _ _ _ _ eq_refl). intros Hrun.
  apply M_bind_inv in Hrun as ([st ipPort] & c1 & Hip & Hrun). destruct (local_ipPort_run _ _ _ _ Hip) as (_ & x & ->).
  apply M_bind_inv in Hrun as ([] & c2 & [= <-] & Hrun).
  match type of Hrun with ?m ?c2 = _ =>
    assert (Hp : preserves cl_reg m) by
      (unfold atlas_cfg_coap_get_uri; repeat first [preserves_step | apply preserves_request; reflexivity]) end.
  by rewrite (Hp _ _ _ Hrun).
Qed.

(** C11: a keep-alive keeps the registration alive on both sides: when the message
    goes out, a gateway where the device is registered answers with success and
    the two token bytes, whatever its own byte order, gives the device its four
    periods back and records the client's current address; and that answer
    restores the client's own count. *)
Theorem keepalive_end_to_end `{E : Env} `{!EnvLaws E} (client_endian : HostEndian)
    `{GE : GwEnv} (gateway_endian : HostEndian)
    (c c1 : client) (hostname port ipPort : list byte) (st : atlas_status) (g : gateway) (d : AtlasDevice) :
  let i := id_identity (cl_ids c) in
  gateway_set c hostname port -> i <> [] -> blen i <= ATLAS_IDENTITY_LEN ->
  atlas_cfg_get_local_ipPort c = Ok ((st, ipPort), c1) -> ipPort <> [] ->
  gw_wf g -> devices_ g !! i = Some d -> registered_ d = true ->
  @send_keepalive_command E client_endian c = Fault Uninitialised \/
  exists c', @send_keepalive_command E client_endian c = Ok (tt, c') /\
    (cl_out c' = cl_out c \/
     exists session payload,
       cl_out c' = cl_out c ++ [EvCoapSend session ATLAS_COAP_METHOD_PUT (cl_token c)
         (gateway_uri hostname port ATLAS_CLIENT_KEEPALIVE_COAP_PATH) payload] /\
       exists g' echo d', @keepaliveCallback GE gateway_endian i (Some payload) (blen payload) g =
           Ok ((GwType.ATLAS_COAP_RESP_OK, Some echo), g') /\
         devices_ g' !! i = Some d' /\ registered_ d' = true /\ kaCtr_ d' = Some 4 /\ ipPort_ d' = ipPort /\
         @keepalive_callback E client_endian ATLAS_COAP_RESP_OK (Some echo) c' =
           Ok (tt, set_reg (reg_set_count ATLAS_CLIENT_KEEPALIVE_COUNT (cl_reg c')) c')).
Proof.
  intros i Hgw Hi Hli Hip Hne Hg Hd Hreg.
  destruct (@keepalive_posts E _ client_endian c c1 hostname port ipPort st Hgw Hli Hip) as [Hf|(c' & Hrun & Hs)]; [by left|right].
  exists c'. split; [done|]. destruct Hs as [Hs|[session Hs]]; [by left|right]. eexists session, _. split; [exact Hs|].
  destruct (local_ipPort_run _ _ _ _ Hip) as [Hlip _].
  set (token := u16 (ka_token (cl_reg c) + 1)). set (tok := @st16 client_endian token).
  destruct (@keepalive_outcome GE gateway_endian i tok ipPort d g) as (evs & x & text & Hka); try done.
  { by destruct (Hg i d Hd). }
  { apply blen_st16. }
  eexists _, tok, _. split; [exact Hka|]. split; [apply lookup_insert_eq|]. do 3 (split; [done|]).
  rewrite keepalive_echo_run; rewrite (@keepalive_token E _ client_endian _ _ Hrun); cbn [ka_token reg_set_token].
  - rewrite decide_True; [done|]. unfold tok. by rewrite take_ge by (by rewrite length_st16).
  - apply u16_range.
Qed.

Lemma keepalive_end_to_end_witness :
  let c := reg_client (mk_reg true 7 1 9) in
  let i := id_identity (cl_ids c) in
  let g := node_gateway {[ node := node_dev ]} in
  @send_keepalive_command sim_env true c = Fault Uninitialised \/
  exists c', @send_keepalive_command sim_env true c = Ok (tt, c') /\
    (cl_out c' = cl_out c \/
     exists session payload,
       cl_out c' = cl_out c ++ [EvCoapSend session ATLAS_COAP_METHOD_PUT (cl_token c)
         (gateway_uri (cstr "gw") (cstr "10100") ATLAS_CLIENT_KEEPALIVE_COAP_PATH) payload] /\
       exists g' echo d', @keepaliveCallback node_gw false i (Some payload) (blen payload) g =
           Ok ((GwType.ATLAS_COAP_RESP_OK, Some echo), g') /\
         devices_ g' !! i = Some d' /\ registered_ d' = true /\ kaCtr_ d' = Some 4 /\
         ipPort_ d' = cstr "10.0.0.7:10001" /\
         @keepalive_callback sim_env true ATLAS_COAP_RESP_OK (Some echo) c' =
           Ok (tt, set_reg (reg_set_count ATLAS_CLIENT_KEEPALIVE_COUNT (cl_reg c')) c')).
Proof.
  intros c i g. apply (@keepalive_end_to_end sim_env sim_laws true node_gw false c c (cstr "gw") (cstr "10100")
    (cstr "10.0.0.7:10001") ATLAS_OK g node_dev).
  - apply reg_client_gateway.
  - done.
  - done.
  - apply reg_client_ipPort.
  - done.
  - apply node_gateway_wf.
  - reflexivity.
  - reflexivity.
Defined.

(** * Policies *)

(** The policy the connector holds. *)
Definition connector_policy `{E : Env} (c : client) : AtlasFirewallPolicy :=
  mk_policy (id_identity (cl_ids c)) (policy_qos (cl_dp c)) (policy_packets_per_min (cl_dp c)) (policy_packets_maxlen (cl_dp c)).

(** C5: a policy reaches the broker: when the client sends the policy it holds, a
    gateway where the device is registered accepts and stores it and sends the
    plug-in a message which, when the filter reads it, puts a fresh rule with
    those limits (the maximum QoS cut to eight bits) in place for that client
    and leaves the rules of all others alone. *)
Theorem policy_reaches_filter `{E : Env} `{!EnvLaws E} (client_endian : HostEndian)
    `{GE : GwEnv} (gateway_endian : HostEndian)
    (c : client) (hostname port : list byte) (g : gateway) (d : AtlasDevice) (f : AtlasFilter) :
  let i := id_identity (cl_ids c) in
  let p := connector_policy c in
  gateway_set c hostname port -> active_policy (cl_dp c) = true -> policy_u16 p -> short_id i ->
  devices_ g !! i = Some d -> registered_ d = true -> agent_connected g = true ->
  @send_policy_command E client_endian c = Fault Uninitialised \/
  exists c', @send_policy_command E client_endian c = Ok (tt, c') /\
    (cl_out c' = cl_out c \/
     exists session payload,
       cl_out c' = cl_out c ++ [EvCoapSend session ATLAS_COAP_METHOD_PUT (cl_token c)
         (gateway_uri hostname port ATLAS_CLIENT_POLICY_COAP_PATH) payload] /\
       exists g' evs msg f', @firewallPolicyCallback GE gateway_endian i (Some payload) (blen payload) g =
           Ok ((GwType.ATLAS_COAP_RESP_OK, None), g') /\
         devices_ g' !! i = Some (dev_set_policy (Some p) d) /\ gw_out g' = gw_out g ++ evs ++ [GwAgent msg] /\
         @filter_processCommand gateway_endian (Some msg) (blen msg) f = Ok f' /\
         rules_ f' = <[i := mk_policer 0 (u8 (policy_qos (cl_dp c))) (policy_packets_per_min (cl_dp c))
                              (policy_packets_maxlen (cl_dp c)) 0 0]> (rules_ f)).
Proof.
  intros i p Hgw Ha Hp Hi Hd Hreg Hc.
  destruct (@send_policy_run E _ client_endian c hostname port Hgw Ha) as [Hf|(c' & Hrun & _ & Hs)]; [by left|right].
  exists c'. split; [done|]. destruct Hs as [Hs|[session Hs]]; [by left|right]. eexists session, _. split; [exact Hs|].
  pose proof (@policy_outcome GE gateway_endian i d p g Hd Hreg eq_refl Hp Hi) as Hout. cbn zeta in Hout. rewrite Hc in Hout.
  eexists _, _, _, _. split; [exact Hout|]. split; [apply lookup_insert_eq|]. split; [done|].
  split; [by apply process_install|]. cbn [rules_ set_tx set_rules].
  destruct Hp as (_ & Hppm & Hlen). cbn in Hppm, Hlen. unfold install_rule, new_policer. cbn [fp_qos fp_ppm fp_payloadLen p connector_policy].
  by rewrite !u16_small.
Qed.

Lemma policy_reaches_filter_witness :
  let c := set_dp (mk_dp (-1) 1 60 256 true 0 0) (reg_client (mk_reg true 7 1 9)) in
  let i := id_identity (cl_ids c) in
  let p := connector_policy c in
  let g := node_gateway {[ node := node_dev ]} in
  let f := mk_filter ∅ ∅ idle_xfer [] in
  @send_policy_command sim_env true c = Fault Uninitialised \/
  exists c', @send_policy_command sim_env true c = Ok (tt, c') /\
    (cl_out c' = cl_out c \/
     exists session payload,
       cl_out c' = cl_out c ++ [EvCoapSend session ATLAS_COAP_METHOD_PUT (cl_token c)
         (gateway_uri (cstr "gw") (cstr "10100") ATLAS_CLIENT_POLICY_COAP_PATH) payload] /\
       exists g' evs msg f', @firewallPolicyCallback node_gw false i (Some payload) (blen payload) g =
           Ok ((GwType.ATLAS_COAP_RESP_OK, None), g') /\
         devices_ g' !! i = Some (dev_set_policy (Some p) node_dev) /\ gw_out g' = gw_out g ++ evs ++ [GwAgent msg] /\
         @filter_processCommand false (Some msg) (blen msg) f = Ok f' /\
         rules_ f' = <[i := mk_policer 0 1 60 256 0 0]> (rules_ f)).
Proof.
  intros c i p g f. apply (@policy_reaches_filter sim_env sim_laws true node_gw false c (cstr "gw") (cstr "10100") g node_dev f).
  - apply reg_client_gateway.
  - reflexivity.
  - done.
  - done.
  - reflexivity.
  - reflexivity.
  - reflexivity.
Defined.

(** * Telemetry *)

(** The name under which the gateway keeps what a payload callback reports. *)
Definition feature_name (cb : payload_cb) : list byte :=
  match cb with
  | pl_hostname => TELEMETRY_HOSTNAME
  | pl_kern_info => TELEMETRY_KERN_INFO
  | pl_uptime => TELEMETRY_SYSINFO_UPTIME
  | pl_totalram => TELEMETRY_SYSINFO_TOTALRAM
  | pl_freeram => TELEMETRY_SYSINFO_FREERAM
  | pl_sharedram => TELEMETRY_SYSINFO_SHAREDRAM
  | pl_bufferram => TELEMETRY_SYSINFO_BUFFERRAM
  | pl_totalswap => TELEMETRY_SYSINFO_TOTALSWAP
  | pl_freeswap => TELEMETRY_SYSINFO_FREESWAP
  | pl_procs => TELEMETRY_SYSINFO_PROCS
  | pl_load1 => TELEMETRY_SYSINFO_LOAD1
  | pl_load5 => TELEMETRY_SYSINFO_LOAD5
  | pl_load15 => TELEMETRY_SYSINFO_LOAD15
  | pl_packets_per_minute => TELEMETRY_PACKETS_INFO_PACKETS_PER_MINUTE
  | pl_packets_avg => TELEMETRY_PACKETS_INFO_PACKETS_AVG
  end.

(** The command a callback reports with. *)
Definition feature_type (cb : payload_cb) : atlas_cmd_type :=
  match cb with
  | pl_hostname => ATLAS_CMD_TELEMETRY_HOSTNAME
  | pl_kern_info => ATLAS_CMD_TELEMETRY_KERN_INFO
  | pl_uptime => ATLAS_CMD_TELEMETRY_SYSINFO_UPTIME
  | pl_totalram => ATLAS_CMD_TELEMETRY_SYSINFO_TOTALRAM
  | pl_freeram => ATLAS_CMD_TELEMETRY_SYSINFO_FREERAM
  | pl_sharedram => ATLAS_CMD_TELEMETRY_SYSINFO_SHAREDRAM
  | pl_bufferram => ATLAS_CMD_TELEMETRY_SYSINFO_BUFFERRAM
  | pl_totalswap => ATLAS_CMD_TELEMETRY_SYSINFO_TOTALSWAP
  | pl_freeswap => ATLAS_CMD_TELEMETRY_SYSINFO_FREESWAP
  | pl_procs => ATLAS_CMD_TELEMETRY_SYSINFO_PROCS
  | pl_load1 => ATLAS_CMD_TELEMETRY_SYSINFO_LOAD1
  | pl_load5 => ATLAS_CMD_TELEMETRY_SYSINFO_LOAD5
  | pl_load15 => ATLAS_CMD_TELEMETRY_SYSINFO_LOAD15
  | pl_packets_per_minute => ATLAS_CMD_TELEMETRY_PACKETS_PER_MINUTE
  | pl_packets_avg => ATLAS_CMD_TELEMETRY_PACKETS_AVG
  end.

Lemma reading_type `{E : Env} cb thr c r : reading cb thr c = Some r -> r.1 = feature_type cb.
Proof.
  unfold reading. intros Hr. destruct cb, thr; cbn in Hr |- *; try discriminate;
    repeat (case_match; try discriminate); simplify_option_eq; done.
Qed.

(** The paths and commands of all installed features, as the gateway reads them. *)
Lemma features_named :
  Forall (fun f => feature_chain feature_table (tl_uri_path f) (cmd_code (feature_type (tl_payload_cb f))) =
                   feature_name (tl_payload_cb f) /\
                   feature_name (tl_payload_cb f) <> [] /\
                   cmd_code (feature_type (tl_payload_cb f)) <> GwType.code GwType.ATLAS_CMD_IDENTITY /\
                   strlen (tl_uri_path f) <= 112) installed_features.
Proof. repeat (apply Forall_cons; split; [by vm_compute|]). done. Qed.

(** A feature as set-up installs it, whatever alarms it has by now. *)
Definition same_feature (f f0 : telemetry) : Prop :=
  tl_uri_path f = tl_uri_path f0 /\ tl_payload_cb f = tl_payload_cb f0.

Section TelemetryFacts.
Context `{GE : GwEnv} `{gwe : HostEndian}.

Lemma telemetry_outcome path i t v name d g :
  devices_ g !! i = Some d -> registered_ d = true -> i <> [] -> v <> [] -> name <> [] ->
  wf_cmd (GwType.code GwType.ATLAS_CMD_IDENTITY, i) -> wf_cmd (t, v) -> t <> GwType.code GwType.ATLAS_CMD_IDENTITY ->
  feature_chain feature_table path t = name ->
  let req := encode [(GwType.code GwType.ATLAS_CMD_IDENTITY, i); (t, v)] in
  featureCallback path i (Some req) (blen req) g =
  Ok ((GwType.ATLAS_COAP_RESP_OK, None),
      put i (dev_set_telemetry (<[name := v]> (telemetryInfo_ d)) d)
        (if decide (default [] (telemetryInfo_ d !! name) = v) then [] else [GwCloud (identity_ d) [(name, v)]])
        (gw_ext g) g).
Proof.
  intros Hd Hreg Hi Hv Hname Hwi Hwv Ht Hchain req. unfold featureCallback.
  erewrite G_bind_run by (by apply registered_device_run). rewrite Hreg. unfold req.
  assert (Hwf : Forall wf_cmd [(GwType.code GwType.ATLAS_CMD_IDENTITY, i); (t, v)]) by auto.
  erewrite G_bind_run by (apply glift_run, carried; [exact Hwf|done]).
  destruct (pointers _ []) as [|p0 ps] eqn:Hps; [done|]. rewrite <- Hps.
  erewrite G_bind_run by (apply glift_run, (for_return_pointers (telemetry_body path i) (telemetry_step path i));
    [apply telemetry_body_step|exact Hwf]).
  assert (fold_return (telemetry_step path i) [(GwType.code GwType.ATLAS_CMD_IDENTITY, i); (t, v)] ([], ([], [])) =
    inl (i, (name, v))) as ->.
  { cbn [fold_return]. unfold telemetry_step. cbn [fst snd]. rewrite decide_True by done.
    rewrite decide_False by done. rewrite decide_True by done. rewrite decide_False by done.
    rewrite decide_False by done. by rewrite Hchain. }
  rewrite decide_False by done. rewrite decide_False by tauto.
  rewrite (put_intro i d g) at 1 by done. by erewrite G_bind_run by (by apply setFeature_put).
Qed.
End TelemetryFacts.

(** C25: what a feature reads on the device is what the gateway stores for it: for
    each of the fifteen features the client installs, when a push of a reading
    goes out, a gateway where the device is registered answers with success and
    keeps the reading, byte for byte, under the name of that feature and no
    other, and tells the cloud exactly when it changed. *)
Theorem telemetry_end_to_end `{E : Env} `{!EnvLaws E} (client_endian : HostEndian)
    `{GE : GwEnv} (gateway_endian : HostEndian)
    (f : telemetry) (use_threshold : bool) (c : client) (t : atlas_cmd_type) (v : list byte)
    (hostname port : list byte) (g : gateway) (d : AtlasDevice) :
  let i := id_identity (cl_ids c) in
  let name := feature_name (tl_payload_cb f) in
  (exists f0, same_feature f f0 /\ f0 ∈ installed_features) -> registered (cl_reg c) = true -> reading (tl_payload_cb f) use_threshold c = Some (t, v) ->
  v <> [] -> blen v < 65536 -> gateway_set c hostname port -> i <> [] -> blen i <= ATLAS_IDENTITY_LEN ->
  devices_ g !! i = Some d -> registered_ d = true ->
  @atlas_telemetry_push E client_endian f use_threshold c = Fault Uninitialised \/
  exists c', @atlas_telemetry_push E client_endian f use_threshold c = Ok (tt, c') /\
    (cl_out c' = cl_out c \/
     exists session payload,
       cl_out c' = cl_out c ++ [EvCoapSend session ATLAS_COAP_METHOD_PUT (cl_token c)
         (gateway_uri hostname port (tl_uri_path f)) payload] /\
       exists g', @featureCallback GE gateway_endian (tl_uri_path f) i (Some payload) (blen payload) g =
           Ok ((GwType.ATLAS_COAP_RESP_OK, None), g') /\
         devices_ g' !! i = Some (dev_set_telemetry (<[name := v]> (telemetryInfo_ d)) d) /\
         gw_out g' = gw_out g ++
           if decide (default [] (telemetryInfo_ d !! name) = v) then [] else [GwCloud (identity_ d) [(name, v)]]).
Proof.
  intros i name (f0 & [Hp Hcb] & Hf) Hcreg Hread Hv Hlv Hgw Hi Hli Hd Hreg.
  destruct (proj1 (Forall_forall _ _) features_named f0 Hf) as (Hchain & Hname & Hid & Hpath).
  rewrite <- Hp in Hchain, Hpath. rewrite <- Hcb in Hchain, Hname, Hid.
  pose proof (reading_type _ _ _ _ Hread) as Ht. cbn [fst] in Ht.
  pose proof (@telemetry_push_run E _ client_endian f use_threshold c hostname port Hgw Hli Hpath) as Hpush.
  rewrite Hcreg, Hread in Hpush. destruct Hpush as [Hfault|(c' & Hrun & Hs)]; [by left|right].
  exists c'. split; [done|]. destruct Hs as [Hs|[session Hs]]; [by left|right]. eexists session, _. split; [exact Hs|].
  unfold ATLAS_IDENTITY_LEN in Hli.
  rewrite <- Ht in Hchain, Hid.
  pose proof (@telemetry_outcome GE gateway_endian (tl_uri_path f) i (cmd_code t) v name d g) as Hout.
  eexists. split; [apply Hout; try done|].
  - split; [done|]. cbn [snd]. fold i in Hli. lia.
  - split; [apply cmd_code_u16|done].
  - split; [apply lookup_insert_eq|done].
Qed.

Lemma telemetry_end_to_end_witness :
  let c := pushing_client in
  let f := uptime_feature 5 in
  let g := node_gateway {[ node := node_dev ]} in
  @atlas_telemetry_push sim_env true f false c = Fault Uninitialised \/
  exists c', @atlas_telemetry_push sim_env true f false c = Ok (tt, c') /\
    (cl_out c' = cl_out c \/
     exists session payload,
       cl_out c' = cl_out c ++ [EvCoapSend session ATLAS_COAP_METHOD_PUT (cl_token c)
         (gateway_uri (cstr "gw") (cstr "10100") (tl_uri_path f)) payload] /\
       exists g', @featureCallback node_gw false (tl_uri_path f) node (Some payload) (blen payload) g =
           Ok ((GwType.ATLAS_COAP_RESP_OK, None), g') /\
         devices_ g' !! node = Some (dev_set_telemetry (<[TELEMETRY_SYSINFO_UPTIME := cstr "60"]> (telemetryInfo_ node_dev)) node_dev) /\
         gw_out g' = gw_out g ++
           if decide (default [] (telemetryInfo_ node_dev !! TELEMETRY_SYSINFO_UPTIME) = cstr "60") then []
           else [GwCloud (identity_ node_dev) [(TELEMETRY_SYSINFO_UPTIME, cstr "60")]]).
Proof.
  intros c f g. apply (@telemetry_end_to_end sim_env sim_laws true node_gw false f false c
    ATLAS_CMD_TELEMETRY_SYSINFO_UPTIME (cstr "60") (cstr "gw") (cstr "10100") g node_dev).
  - exists (mk_telemetry ATLAS_SYSINFO_UPTIME_PATH pl_uptime (-1) (-1)). split; [done|]. right. right. by left.
  - reflexivity.
  - reflexivity.
  - done.
  - done.
  - by split.
  - done.
  - done.
  - reflexivity.
  - reflexivity.
Defined.

(** * Alerts *)

(** The table of the end-point a push alert is sent to. *)
Definition alert_table (path : list byte) : list (list byte * list byte) :=
  if decide (path ∈ sysinfo_push_table.*1) then sysinfo_push_table else packets_push_table.

(** Every push alert of the gateway's factory names an end-point of the client
    that configures the feature the alert is for. *)
Lemma alerts_named :
  Forall (fun a => match a.2 with
    | AtlasPushAlert path rate => 0 < rate < 65536 /\
        Exists (fun f => strcmp_chain (alert_table path) path = Some (tl_uri_path f) /\
                         feature_name (tl_payload_cb f) = a.1) installed_features
    | AtlasThresholdAlert _ _ _ => False
    end) push_alert_table.
Proof.
  repeat (apply Forall_cons; split; [split; [done|];
    repeat first [apply Exists_cons; left; split; [by vm_compute|by vm_compute] | apply Exists_cons; right]|]).
  done.
Qed.

Lemma installed_paths_nodup : NoDup (tl_uri_path <$> installed_features).
Proof. eval_decide. Qed.

Lemma feature_split (l fs : list telemetry) f0 :
  Forall2 same_feature l fs -> NoDup (tl_uri_path <$> fs) -> f0 ∈ fs ->
  exists l1 p l2, l = l1 ++ p :: l2 /\ same_feature p f0 /\ Forall (fun f => tl_uri_path f <> tl_uri_path f0) l1.
Proof.
  induction 1 as [|f f1 l fs Hs Hl IH]; intros Hnd Hin; [by apply not_elem_of_nil in Hin|].
  cbn in Hnd. apply NoDup_cons in Hnd as [Hnot Hnd]. apply elem_of_cons in Hin as [->|Hin].
  - exists [], f, l. auto.
  - destruct (IH Hnd Hin) as (l1 & p & l2 & -> & Hp & Hl1). exists (f :: l1), p, l2. split; [done|]. split; [done|].
    constructor; [|done]. destruct Hs as [-> _]. intros Heq. apply Hnot. rewrite Heq. by apply list_elem_of_fmap_2.
Qed.

(** Every push alert the gateway sends a newly registered device is understood:
    the client answers it with success and from then on pushes exactly the
    feature the gateway meant, on a new periodic alarm that replaces the one it
    had. *)
Theorem alerts_arm_features `{E : Env} `{!EnvLaws E} (client_endian gateway_endian : HostEndian)
    (name path : list byte) (rate : Z) (c : client) :
  (name, AtlasPushAlert path rate) ∈ push_alert_table ->
  Forall2 same_feature (cl_features c) installed_features -> NoDup (al_id <$> cl_alarms c) ->
  exists payload l1 p l2 id c',
    @serialized_commands gateway_endian (@alert_commands gateway_endian (AtlasPushAlert path rate)) =
      Ok (Some payload, blen payload) /\
    @push_alert E client_endian (alert_table path) path (Some payload) c = Ok ((ATLAS_COAP_RESP_OK, None), c') /\
    cl_features c = l1 ++ p :: l2 /\ feature_name (tl_payload_cb p) = name /\
    cl_features c' = l1 ++ tl_set_push id p :: l2 /\
    rearmed (tl_push_id p) id cb_push_alert_alarm_cb (cl_alarms c) (cl_alarms c').
Proof.
  intros Ha Hfs Hnd. destruct (proj1 (Forall_forall _ _) alerts_named _ Ha) as [Hrate (f0 & Hin & Hchain & Hname)%Exists_exists].
  cbn [fst] in Hname. destruct (feature_split _ _ f0 Hfs installed_paths_nodup Hin) as (l1 & p & l2 & Hl & [Hpath Hcb] & Hl1).
  set (cs := [(cmd_code ATLAS_CMD_TELEMETRY_ALERT_EXT_PUSH_RATE, be16 rate)]).
  assert (Hcs : Forall wf_cmd cs) by (constructor; [split; [apply cmd_code_u16|by cbn; rewrite blen_be16]|done]).
  destruct (@push_alert_run E _ client_endian (alert_table path) path (tl_uri_path f0) cs rate c l1 l2 p)
    as (id & c' & Hrun & Hf & Hre); auto; try lia.
  { unfold cs. rewrite blen_encode_cons, blen_encode_nil. cbn [snd]. rewrite blen_be16. lia. }
  { unfold cs. cbn [first_rate]. rewrite decide_True by (by rewrite blen_be16). by rewrite of_be16_be16 by (unfold is_u16; lia). }
  exists (encode cs), l1, p, l2, id, c'. split; [|by rewrite Hcb].
  apply (@serialized_commands_spec gateway_endian); [|done|done]. constructor; [|done]. apply command_holds_u16.
Qed.

Lemma alerts_arm_features_witness :
  exists payload l1 p l2 id c',
    @serialized_commands true (@alert_commands true (AtlasPushAlert ATLAS_PUSH_ALERT_SYSINFO_UPTIME_PATH 120)) =
      Ok (Some payload, blen payload) /\
    @push_alert sim_env false (alert_table ATLAS_PUSH_ALERT_SYSINFO_UPTIME_PATH) ATLAS_PUSH_ALERT_SYSINFO_UPTIME_PATH
      (Some payload) alert_client = Ok ((ATLAS_COAP_RESP_OK, None), c') /\
    cl_features alert_client = l1 ++ p :: l2 /\ feature_name (tl_payload_cb p) = TELEMETRY_SYSINFO_UPTIME /\
    cl_features c' = l1 ++ tl_set_push id p :: l2 /\
    rearmed (tl_push_id p) id cb_push_alert_alarm_cb (cl_alarms alert_client) (cl_alarms c').
Proof.
  apply (@alerts_arm_features sim_env sim_laws false true TELEMETRY_SYSINFO_UPTIME ATLAS_PUSH_ALERT_SYSINFO_UPTIME_PATH
    120 alert_client).
  - right. by left.
  - repeat constructor; done.
  - eval_decide.
Defined.
