(* ===== verification/Trust.v ===== *)
(** Reputation across the system: the request of an application for the most
    trusted device, and its feedback on a device, from the application library
    (application/libatlasclient, data_plane) through the client's connector
    (data_plane_connector/atlas_data_plane_connector.c) to the gateway's end-points
    (reputation/AtlasFeatureReputation.cpp), and the answer back. *)
From S2P Require Import Prelude Defs CLib State SimEnv Config Command Sched Alarm Safety CoapClient Identity AlertUtils DataPlane AtlasLib Payload Telemetry Register CoapServer Endpoints.
From S2P Require Import Double GwDefs GwBatch GwXfer GwFilter GwBayes GwStore GwDevice GwServer GwReputation GwLifecycle GwTrust GwPlugin System.

Section Forward.
Context {E : Env} `{!EnvLaws E} `{HostEndian}.

(** The connector's request for an application. *)
Definition connector_request (uri : list byte) (cs : list (atlas_cmd_type * list byte)) (cb : coap_cb) : M atlas_status :=
  atlas_coap_client_request (Some uri) ATLAS_COAP_METHOD_PUT (Some (wire cs)) ATLAS_CLIENT_FEATURE_TIMEOUT_MS (Some cb).

(** [m], run in [c], reads from the application, which leaves the world as [x], and makes
    exactly this request: it ends in the state the request ends in, the message is out if
    the CoAP client takes the request and nothing is if it refuses; it faults only when
    the CoAP client does. *)
Definition forwards (m : M unit) (x : ext) (uri : list byte) (cs : list (atlas_cmd_type * list byte)) (cb : coap_cb) (c : client) : Prop :=
  match connector_request uri cs cb (set_ext x c) with
  | Ok (st, c') => m c = Ok (tt, c') /\
      if decide (st = ATLAS_OK)
      then exists session, cl_out c' = cl_out c ++ [EvCoapSend session ATLAS_COAP_METHOD_PUT (cl_token c) uri (wire cs)]
      else cl_out c' = cl_out c
  | Fault f => m c = Fault f
  end.

Lemma forwards_run m x uri cs cb c :
  m c = match connector_request uri cs cb (set_ext x c) with Ok (_, c') => Ok (tt, c') | Fault f => Fault f end ->
  forwards m x uri cs cb c.
Proof.
  intros Hm. unfold forwards, connector_request in *.
  destruct (request_cases (Some uri) ATLAS_COAP_METHOD_PUT (Some (wire cs)) ATLAS_CLIENT_FEATURE_TIMEOUT_MS (Some cb) (set_ext x c))
    as [(st & t & x' & Hst & _ & Hr)|[(u & k & x' & fd & id & ctx & s & [= <-] & _ & _ & _ & _ & _ & _ & Hr)|Hr]];
    rewrite Hr in Hm |- *; [..|done]; (split; [done|]).
  - by rewrite decide_False.
  - rewrite decide_True by done. by exists s.
Qed.

(** What the connector forwards: its identity and the bytes of the application. *)
Lemma forward_run t path v rest cb c hostname port :
  gateway_set c hostname port -> blen (id_identity (cl_ids c)) + blen v < 65000 -> strlen path <= 112 ->
  forward_request t path (v ++ rest) (blen v) cb c =
  match connector_request (gateway_uri hostname port path) [(ATLAS_CMD_IDENTITY, id_identity (cl_ids c)); (t, v)] cb c with
  | Ok (_, c') => Ok (tt, c') | Fault f => Fault f
  end.
Proof.
  intros Hg Hlen Hpath. set (i := id_identity (cl_ids c)) in *.
  destruct (add_cmd_ok atlas_cmd_batch_new [] ATLAS_CMD_IDENTITY i [] batch_repr_new) as (b1 & H1 & Hb1).
  { cbn [app]. rewrite blen_encode_cons, blen_encode_nil. cbn [snd]. blen_pos. lia. }
  destruct (add_cmd_ok b1 _ t v rest Hb1) as (b2 & H2 & Hb2).
  { cbn [app]. rewrite !blen_encode_cons, blen_encode_nil. cbn [snd]. lia. }
  rewrite app_nil_r in H1. rewrite u16_small in H2 by (unfold is_u16; blen_pos; lia).
  set (mb := b ← add_cmd (Some atlas_cmd_batch_new) ATLAS_CMD_IDENTITY i;
             atlas_cmd_batch_add b (cmd_code t) (blen v) (Some (v ++ rest))).
  assert (Hmb : exists b, mb = Ok b /\ batch_bytes b = Some (wire [(ATLAS_CMD_IDENTITY, i); (t, v)])).
  { exists (Some b2). unfold mb, add_cmd. rewrite H1, res_bind_ok, H2. split; [done|]. by apply (batch_bytes_repr b2 _ Hb2). }
  assert (Hf : forward_request t path (v ++ rest) (blen v) cb c = send_batch mb ATLAS_COAP_METHOD_PUT path ATLAS_CLIENT_FEATURE_TIMEOUT_MS cb c).
  { unfold forward_request, send_batch, mb, atlas_identity_get, add_cmd. rewrite (M_bind_run _ _ _ _ _ eq_refl). fold i.
    unfold mbind at 1 4, M_bind at 1 4, lift at 1 3. rewrite H1, res_bind_ok. unfold mbind at 1 3, M_bind at 1 3, lift. by rewrite H2. }
  rewrite Hf. by apply send_batch_run.
Qed.

(** The connector hands one command to the application. *)
Lemma write_run t v rest c : blen v < 65000 ->
  exists x, (b ← lift (atlas_cmd_batch_add (Some atlas_cmd_batch_new) (cmd_code t) (blen v) (Some (v ++ rest)));
             write_to_data_plane b) c =
    Ok (tt, set_out (cl_out c ++ [EvWrite (connected_socket (cl_dp c)) (wire [(t, v)])]) (set_ext x c)).
Proof.
  intros Hv. destruct (add_cmd_ok atlas_cmd_batch_new [] t v rest batch_repr_new) as (b & Hadd & Hb).
  { cbn [app]. rewrite blen_encode_cons, blen_encode_nil. cbn [snd]. lia. }
  rewrite u16_small in Hadd by (unfold is_u16; blen_pos; lia).
  rewrite (M_bind_run (lift _) _ _ (Some b) c) by (unfold lift; by rewrite Hadd).
  unfold write_to_data_plane. rewrite (M_bind_run _ _ _ _ _ eq_refl), (batch_bytes_repr b _ Hb) by done.
  change (default [] (Some _)) with (wire [(t, v)]). unfold mbind, M_bind, call.
  destruct (sock_write (connected_socket (cl_dp c)) (wire [(t, v)]) (cl_ext c)) as [n x]. by exists x.
Qed.

(** The answer to a request with one command, handed on to the application. *)
Lemma reputation_callback_run t c : blen t < 65000 ->
  exists x, feature_reputation_callback ATLAS_COAP_RESP_OK (Some (wire [(ATLAS_CMD_DATA_PLANE_FEATURE_REPUTATION, t)])) c =
    Ok (tt, set_out (cl_out c ++ [EvWrite (connected_socket (cl_dp c)) (wire [(ATLAS_CMD_DATA_PLANE_FEATURE_REPUTATION, t)])]) (set_ext x c)).
Proof.
  intros Ht. destruct (write_run ATLAS_CMD_DATA_PLANE_FEATURE_REPUTATION t [] c Ht) as (x & Hw). exists x.
  set (cs := [(ATLAS_CMD_DATA_PLANE_FEATURE_REPUTATION, t)]) in *.
  assert (Hlen : blen (wire cs) = 4 + blen t) by (unfold cs; rewrite blen_wire_cons, blen_wire_nil; lia).
  unfold feature_reputation_callback. rewrite decide_False by auto. change (default [] (Some (wire cs))) with (wire cs).
  rewrite u16_small by (unfold is_u16; blen_pos; lia).
  unfold atlas_reputation_resp_parse. rewrite decide_False by (blen_pos; lia).
  pose proof (set_raw_encode atlas_cmd_batch_new _ [] (wire_wf cs ltac:(lia)) ltac:(unfold wire in *; blen_pos; lia)) as Hs.
  rewrite app_nil_r in Hs. fold (wire cs) in Hs. rewrite Hs.
  unfold mbind at 1, M_bind at 1. rewrite (M_bind_run (lift (Ok _)) _ _ _ _ eq_refl). cbv beta iota. rewrite decide_False by auto.
  assert (Hl : cmd_loop_M reputation_body (Some (mk_batch (blen (wire cs)) (Some (wire cs)))) c =
    Ok (tt, set_out (cl_out c ++ [EvWrite (connected_socket (cl_dp c)) (wire cs)]) (set_ext x c))).
  { unfold cmd_loop_M, wire. rewrite cmd_loop_fold by (done || apply wire_wf; lia). fold (wire cs).
    cbn [cs fmap list_fmap fold_cmds fst snd encode]. unfold reputation_body at 1. cbn [cmd_type cmd_length cmd_value].
    rewrite decide_True by done. rewrite Hw. done. }
  by rewrite (M_bind_run _ _ _ _ _ Hl).
Qed.

(** The request of an application, read by the connector. *)
Lemma request_forwarded fd nt x c hostname port :
  gateway_set c hostname port -> blen (id_identity (cl_ids c)) <= ATLAS_IDENTITY_LEN ->
  sock_read fd ATLAS_CLIENT_DATA_PLANE_BUFFER_LEN (cl_ext c) = (Some (wire [(ATLAS_CMD_DATA_PLANE_FEATURE_REPUTATION, be16 nt)]), x) ->
  forwards (atlas_data_plane_read_cb fd) x (gateway_uri hostname port ATLAS_CLIENT_FEATURE_COAP_PATH)
    [(ATLAS_CMD_IDENTITY, id_identity (cl_ids c)); (ATLAS_CMD_DATA_PLANE_FEATURE_REPUTATION, be16 nt)] cb_feature_reputation_callback c.
Proof.
  intros Hg Hi Hread. unfold ATLAS_IDENTITY_LEN in Hi.
  pose proof (forward_run ATLAS_CMD_DATA_PLANE_FEATURE_REPUTATION ATLAS_CLIENT_FEATURE_COAP_PATH (be16 nt) [] cb_feature_reputation_callback
    (set_ext x c) hostname port Hg ltac:(rewrite blen_be16; cbn; lia) ltac:(done)) as Hp.
  assert (Hrun : atlas_data_plane_read_cb fd c = forward_request ATLAS_CMD_DATA_PLANE_FEATURE_REPUTATION ATLAS_CLIENT_FEATURE_COAP_PATH
    (be16 nt ++ []) (blen (be16 nt)) cb_feature_reputation_callback (set_ext x c)).
  { rewrite (read_cb_run fd [(ATLAS_CMD_DATA_PLANE_FEATURE_REPUTATION, be16 nt)] x c)
      by (done || (rewrite blen_wire_cons, blen_wire_nil, blen_be16; lia)).
    cbn [fmap list_fmap fold_cmds fst snd encode]. unfold read_body at 1. cbn [cmd_type cmd_length cmd_value].
    do 3 (rewrite decide_False by done). rewrite decide_True by done.
    unfold atlas_feature_reputation_handle. rewrite decide_False by (rewrite blen_be16; lia).
    by destruct (forward_request _ _ _ _ _ _) as [[[] ?]|]. }
  apply forwards_run. rewrite Hrun. exact Hp.
Qed.

(** And its feedback. *)
Lemma feedback_forwarded fd v x c hostname port :
  gateway_set c hostname port -> blen (id_identity (cl_ids c)) <= ATLAS_IDENTITY_LEN -> 0 < blen v < 4000 ->
  sock_read fd ATLAS_CLIENT_DATA_PLANE_BUFFER_LEN (cl_ext c) = (Some (wire [(ATLAS_CMD_DATA_PLANE_FEEDBACK, v)]), x) ->
  forwards (atlas_data_plane_read_cb fd) x (gateway_uri hostname port ATLAS_CLIENT_FEEDBACK_COAP_PATH)
    [(ATLAS_CMD_IDENTITY, id_identity (cl_ids c)); (ATLAS_CMD_DATA_PLANE_FEEDBACK, v)] cb_feedback_callback c.
Proof.
  intros Hg Hi Hv Hread. unfold ATLAS_IDENTITY_LEN in Hi.
  pose proof (forward_run ATLAS_CMD_DATA_PLANE_FEEDBACK ATLAS_CLIENT_FEEDBACK_COAP_PATH v [] cb_feedback_callback
    (set_ext x c) hostname port Hg ltac:(cbn; lia) ltac:(done)) as Hp.
  assert (Hrun : atlas_data_plane_read_cb fd c = forward_request ATLAS_CMD_DATA_PLANE_FEEDBACK ATLAS_CLIENT_FEEDBACK_COAP_PATH
    (v ++ []) (blen v) cb_feedback_callback (set_ext x c)).
  { rewrite (read_cb_run fd [(ATLAS_CMD_DATA_PLANE_FEEDBACK, v)] x c) by (done || (rewrite blen_wire_cons, blen_wire_nil; lia)).
    cbn [fmap list_fmap fold_cmds fst snd encode]. unfold read_body at 1. cbn [cmd_type cmd_length cmd_value].
    do 4 (rewrite decide_False by done). rewrite decide_True by done.
    unfold atlas_feature_feedback_handle. rewrite decide_False by lia.
    by destruct (forward_request _ _ _ _ _ _) as [[[] ?]|]. }
  apply forwards_run. rewrite Hrun. exact Hp.
Qed.

Lemma forwards_taken m x uri cs cb c :
  forwards m x uri cs cb c ->
  match connector_request uri cs cb (set_ext x c) with Ok (st, _) => bool_decide (st = ATLAS_OK) | Fault _ => false end = true ->
  exists c' session, m c = Ok (tt, c') /\
    cl_out c' = cl_out c ++ [EvCoapSend session ATLAS_COAP_METHOD_PUT (cl_token c) uri (wire cs)].
Proof.
  unfold forwards. destruct (connector_request uri cs cb (set_ext x c)) as [[st c']|f]; [|done].
  intros [Hm Hs] Hst%bool_decide_eq_true. rewrite decide_True in Hs by done. destruct Hs as [session Hs]. by exists c', session.
Qed.
End Forward.

(** The rating a library sends for its application, on the wire. *)
Definition library_rating (f : atlas_feedback) : list (atlas_cmd_type * list byte) :=
  [(ATLAS_CMD_DATA_PLANE_FEEDBACK_IDENTITY, until_nul (fb_identity f));
   (ATLAS_CMD_DATA_PLANE_FEEDBACK_SENSOR_TYPE, be16 (u16 (fb_sensor_type f)));
   (ATLAS_CMD_DATA_PLANE_FEEDBACK_SENSOR, be16 (fb_sensor_score f));
   (ATLAS_CMD_DATA_PLANE_FEEDBACK_RESPONSE_TIME, be16 (fb_time_score f))].

Lemma blen_library_rating f : blen (wire (library_rating f)) = 22 + blen (until_nul (fb_identity f)).
Proof. unfold library_rating. rewrite !blen_wire_cons, blen_wire_nil, !blen_be16. lia. Qed.

Lemma feedback_batch_wire `{HostEndian} f : blen (until_nul (fb_identity f)) < 2000 ->
  exists b, feedback_batch f = Ok b /\ batch_bytes b = Some (wire [(ATLAS_CMD_DATA_PLANE_FEEDBACK, wire (library_rating f))]).
Proof.
  intros Hf. pose proof (blen_library_rating f) as Hlen.
  destruct (add_cmds_wire (library_rating f)) as (b & Hrun & _); [done|lia|].
  destruct (nested_wire ATLAS_CMD_DATA_PLANE_FEEDBACK (library_rating f) b) as (b' & Hn & Hb); [done|lia|done|].
  exists b'. split; [|done]. rewrite <- Hn. unfold library_rating in Hrun. cbn [add_cmds] in Hrun.
  unfold feedback_batch. rewrite !st16_htons.
  destruct (add_cmd (Some atlas_cmd_batch_new) _ _) as [b1|]; [|done]. rewrite res_bind_ok in Hrun |- *.
  destruct (add_cmd b1 _ _) as [b2|]; [|done]. rewrite res_bind_ok in Hrun |- *.
  destruct (add_cmd b2 _ _) as [b3|]; [|done]. rewrite res_bind_ok in Hrun |- *.
  destruct (add_cmd b3 _ _) as [b4|]; [|done]. by injection Hrun as ->.
Qed.

(** The library: what it asks for, and what it makes of the answer. *)
Lemma reputation_request_run `{LE : LibEnv} `{HostEndian} nt t ident s x1 x2 :
  is_u16 nt -> blen t < 2000 ->
  let req := wire [(ATLAS_CMD_DATA_PLANE_FEATURE_REPUTATION, be16 nt)] in
  let reply := wire [(ATLAS_CMD_DATA_PLANE_FEATURE_REPUTATION, t)] in
  lib_write (lb_fd s) req (lb_ext s) = (blen req, x1) ->
  lib_read (lb_fd s) ATLAS_CLIENT_DATA_PLANE_BUFFER_LEN x1 = (Some reply, x2) ->
  atlas_reputation_request nt ident s = Ok ((ATLAS_OK, Some t), lset_ext x2 s).
Proof.
  intros Hnt Ht req reply Hw Hr. unfold atlas_reputation_request.
  destruct (add_cmds_wire [(ATLAS_CMD_DATA_PLANE_FEATURE_REPUTATION, be16 nt)]) as (b & Hb & Hbytes);
    [done|rewrite blen_wire_cons, blen_wire_nil, blen_be16; lia|].
  cbn [add_cmds] in Hb. rewrite (u16_small nt), st16_htons by done.
  destruct (add_cmd (Some atlas_cmd_batch_new) ATLAS_CMD_DATA_PLANE_FEATURE_REPUTATION (be16 nt)) as [b'|] eqn:Hadd; [|done].
  rewrite res_bind_ok in Hb. injection Hb as ->. rewrite (L_bind_run _ _ _ _ _ eq_refl), Hbytes.
  change (default [] (Some _)) with req. cbv zeta.
  assert (Hws : write_to_socket req s = Ok (blen req, lset_ext x1 s)).
  { unfold write_to_socket. rewrite (L_bind_run _ _ _ _ _ eq_refl). unfold lcall. by rewrite Hw. }
  rewrite (L_bind_run _ _ _ _ _ Hws), decide_False by auto. rewrite (L_bind_run _ _ _ _ _ eq_refl).
  assert (Hrs : lcall (lib_read (lb_fd (lset_ext x1 s)) ATLAS_CLIENT_DATA_PLANE_BUFFER_LEN) (lset_ext x1 s) = Ok (Some reply, lset_ext x2 s)).
  { unfold lcall. cbn [lb_fd lb_ext lset_ext]. by rewrite Hr. }
  rewrite (L_bind_run _ _ _ _ _ Hrs). change (default [] (Some reply)) with reply. cbv zeta.
  set (cs := [(ATLAS_CMD_DATA_PLANE_FEATURE_REPUTATION, t)]) in *.
  assert (Hlen : blen reply = 4 + blen t) by (unfold reply, cs; rewrite blen_wire_cons, blen_wire_nil; lia).
  rewrite decide_False by (blen_pos; lia). rewrite u16_small by (unfold is_u16; blen_pos; lia).
  pose proof (set_raw_encode atlas_cmd_batch_new _ [] (wire_wf cs ltac:(unfold reply in Hlen; lia))
    ltac:(unfold reply, wire in *; blen_pos; lia)) as Hs.
  rewrite app_nil_r in Hs. fold (wire cs) in Hs. unfold reply. rewrite Hs.
  rewrite (L_bind_run _ _ _ _ _ eq_refl). cbv beta iota. rewrite decide_False by auto.
  assert (Hl : cmd_loop reputation_reply_body (Some (mk_batch (blen (wire cs)) (Some (wire cs)))) (ATLAS_OK, ident) = Ok (ATLAS_OK, Some t)).
  { unfold wire. rewrite cmd_loop_fold by (done || (apply wire_wf; unfold reply in Hlen; lia)).
    cbn [cs fmap list_fmap fold_cmds fst snd encode]. unfold reputation_reply_body at 1. cbn [cmd_type cmd_length cmd_value].
    rewrite decide_True by done. by rewrite app_nil_r, mem_load_all by done. }
  unfold llift. by rewrite Hl.
Qed.

(** * Theorems *)

(** C26: A request for the most trusted device of a network goes all the way and back.
    When the connector reads what the application's library writes, it requests from the
    gateway's end-point, with exactly the client's identity and the application's bytes:
    the message is sent if the CoAP client takes the request, and only a refusal or a
    fault of the CoAP client keeps it from going out. A gateway where the device is
    registered answers these bytes with the trusted device, or refuses when there is none
    or it is the asking device itself. In whatever state the client gets this answer, the
    connector writes to the application's socket bytes from which the library returns
    exactly the identity of the trusted device. *)
Theorem trust_end_to_end `{E : Env} `{!EnvLaws E} `{LE : LibEnv} (client_endian : HostEndian)
    `{GE : GwEnv} `{HO : HashOrder} (gateway_endian : HostEndian)
    (c : client) (fd nt : Z) (x : ext) (hostname port : list byte) (g : gateway) (d : AtlasDevice)
    (ident : option (list byte)) (s : lib_state) (x1 x2 : lext) :
  let i := id_identity (cl_ids c) in
  let t := default [] (trustedDevices_ g !! nt) in
  let req := wire [(ATLAS_CMD_DATA_PLANE_FEATURE_REPUTATION, be16 nt)] in
  let forwarded := [(ATLAS_CMD_IDENTITY, i); (ATLAS_CMD_DATA_PLANE_FEATURE_REPUTATION, be16 nt)] in
  gateway_set c hostname port -> i <> [] -> blen i <= ATLAS_IDENTITY_LEN -> is_u16 nt -> blen t < 2000 ->
  sock_read fd ATLAS_CLIENT_DATA_PLANE_BUFFER_LEN (cl_ext c) = (Some req, x) ->
  devices_ g !! i = Some d -> registered_ d = true ->
  lib_write (lb_fd s) req (lb_ext s) = (blen req, x1) ->
  forwards (@atlas_data_plane_read_cb E client_endian fd) x (gateway_uri hostname port ATLAS_CLIENT_FEATURE_COAP_PATH)
    forwarded cb_feature_reputation_callback c /\
  exists r, @requestReputationCallback GE gateway_endian i (Some (wire forwarded)) (blen (wire forwarded)) g = Ok (r, g) /\
    if decide (t = [] \/ t = i) then r = NOT_ACCEPTABLE else
    exists reply, r = (GwType.ATLAS_COAP_RESP_OK, Some reply) /\
      forall c', exists x' data, @feature_reputation_callback E client_endian ATLAS_COAP_RESP_OK (Some reply) c' =
          Ok (tt, set_out (cl_out c' ++ [EvWrite (connected_socket (cl_dp c')) data]) (set_ext x' c')) /\
        (lib_read (lb_fd s) ATLAS_CLIENT_DATA_PLANE_BUFFER_LEN x1 = (Some data, x2) ->
         @atlas_reputation_request LE client_endian nt ident s = Ok ((ATLAS_OK, Some t), lset_ext x2 s)).
Proof.
  intros i t req forwarded Hgw Hi Hli Hnt Ht Hread Hd Hreg Hw.
  split; [by apply (@request_forwarded E _ client_endian fd nt x c hostname port Hgw Hli Hread)|].
  unfold ATLAS_IDENTITY_LEN in Hli.
  pose proof (@request_run GE gateway_endian i d nt g Hd Hreg Hi ltac:(lia) Hnt ltac:(fold t; lia)) as Hr.
  eexists. split; [exact Hr|]. fold t. destruct (decide (t = [] \/ t = i)) as [Hdec|Hdec]; [reflexivity|].
  eexists. split; [done|]. intros c'. destruct (@reputation_callback_run E client_endian t c' ltac:(lia)) as (x' & Hcb).
  eexists x', _. split; [exact Hcb|]. intros Hlr. by apply (@reputation_request_run LE client_endian nt t ident s x1 x2).
Qed.

(** A client whose application asks for temperature, an application whose socket takes
    the request and holds the answer, and a gateway that trusts another device. *)
Definition asking_client : @client sim_env :=
  set_ext (mk_sim (sim_open sim0) [] [Some (wire [(ATLAS_CMD_DATA_PLANE_FEATURE_REPUTATION, be16 101)])] [] [] true [])
    (reg_client (mk_reg true 7 1 9)).

Definition asking_lib : LibEnv := {|
  lext := list (list byte);
  lib_close := fun _ x => x;
  lib_socket := fun x => (5, x);
  lib_connect := fun _ x => (0, x);
  lib_write := fun _ data x => (blen data, x ++ [data]);
  lib_read := fun _ _ x => (Some (wire [(ATLAS_CMD_DATA_PLANE_FEATURE_REPUTATION, cstr "peer")]), x);
|}.

Definition asking_app : @lib_state asking_lib := @mk_lib asking_lib 5 0 0 0 (mk_info 1 60 256) [].

Definition trusting_gateway : @gateway node_gw :=
  set_trusted {[ ATLAS_NETWORK_SENSOR_TEMPERATURE := cstr "peer" ]} (node_gateway {[ node := node_dev ]}).

(** Its request is taken, and goes out. *)
Lemma trust_end_to_end_witness :
  let c := asking_client in
  let g := trusting_gateway in
  let x1 := [wire [(ATLAS_CMD_DATA_PLANE_FEATURE_REPUTATION, be16 101)]] in
  let payload := wire [(ATLAS_CMD_IDENTITY, node); (ATLAS_CMD_DATA_PLANE_FEATURE_REPUTATION, be16 101)] in
  (exists c' session, @atlas_data_plane_read_cb sim_env true 5 c = Ok (tt, c') /\
     cl_out c' = cl_out c ++ [EvCoapSend session ATLAS_COAP_METHOD_PUT (cl_token c)
       (gateway_uri (cstr "gw") (cstr "10100") ATLAS_CLIENT_FEATURE_COAP_PATH) payload]) /\
  exists reply, @requestReputationCallback node_gw false node (Some payload) (blen payload) g = Ok ((GwType.ATLAS_COAP_RESP_OK, Some reply), g) /\
    forall c', exists x' data, @feature_reputation_callback sim_env true ATLAS_COAP_RESP_OK (Some reply) c' =
        Ok (tt, set_out (cl_out c' ++ [EvWrite (connected_socket (cl_dp c')) data]) (set_ext x' c')) /\
      (@lib_read asking_lib 5 ATLAS_CLIENT_DATA_PLANE_BUFFER_LEN x1 = (Some data, x1) ->
       @atlas_reputation_request asking_lib true 101 None asking_app = Ok ((ATLAS_OK, Some (cstr "peer")), lset_ext (x1 : @lext asking_lib) asking_app)).
Proof.
  intros c g x1 payload. destruct (@trust_end_to_end sim_env sim_laws asking_lib true node_gw key_order false c 5 101
    (@sock_read sim_env 5 ATLAS_CLIENT_DATA_PLANE_BUFFER_LEN (cl_ext c)).2 (cstr "gw") (cstr "10100") g node_dev None asking_app x1 x1)
    as [Hf (r & Hr & Ha)].
  - by split.
  - discriminate.
  - discriminate.
  - unfold is_u16. lia.
  - reflexivity.
  - reflexivity.
  - reflexivity.
  - reflexivity.
  - reflexivity.
  - split.
    + apply (forwards_taken _ _ _ _ _ _ Hf). vm_compute. reflexivity.
    + destruct Ha as (reply & -> & Hc). exists reply. split; [exact Hr|exact Hc].
Defined.

(** C33: The feedback of an application reaches the reputation of the device it names. When
    the connector reads what the library writes for it, it requests from the gateway's
    end-point with exactly the client's identity and the rating: the message is sent if
    the CoAP client takes the request, and only a refusal or a fault of the CoAP client
    keeps it from going out. A gateway where the client's device is registered accepts
    these bytes and hands exactly that device, sensor type and pair of scores, each
    divided by 100, to the device manager. *)
Theorem feedback_end_to_end `{E : Env} `{!EnvLaws E} (client_endian : HostEndian)
    `{GE : GwEnv} `{HO : HashOrder} (gateway_endian : HostEndian)
    (c : client) (fd : Z) (x : ext) (hostname port : list byte) (g : gateway) (d : AtlasDevice)
    (f : atlas_feedback) (b : option cmd_batch) :
  let i := id_identity (cl_ids c) in
  let j := until_nul (fb_identity f) in
  let forwarded := [(ATLAS_CMD_IDENTITY, i); (ATLAS_CMD_DATA_PLANE_FEEDBACK, wire (library_rating f))] in
  gateway_set c hostname port -> i <> [] -> blen i <= ATLAS_IDENTITY_LEN -> j <> [] -> blen j < 2000 ->
  is_u16 (fb_sensor_score f) -> is_u16 (fb_time_score f) ->
  @feedback_batch client_endian f = Ok b ->
  sock_read fd ATLAS_CLIENT_DATA_PLANE_BUFFER_LEN (cl_ext c) = (batch_bytes b, x) ->
  devices_ g !! i = Some d -> registered_ d = true ->
  forwards (@atlas_data_plane_read_cb E client_endian fd) x (gateway_uri hostname port ATLAS_CLIENT_FEEDBACK_COAP_PATH)
    forwarded cb_feedback_callback c /\
  @feedbackReputationCallback GE HO gateway_endian i (Some (wire forwarded)) (blen (wire forwarded)) g =
    (updateDataReputation j (u16 (fb_sensor_type f)) (rating_matrix (fb_sensor_score f) (fb_time_score f)) ≫= fun _ =>
     mret (GwType.ATLAS_COAP_RESP_OK, None)) g.
Proof.
  intros i j forwarded Hgw Hi Hli Hj Hlj Ha Hb Hbatch Hread Hd Hreg.
  destruct (@feedback_batch_wire client_endian f Hlj) as (b' & Hbatch' & Hbytes). rewrite Hbatch in Hbatch'. injection Hbatch' as <-.
  rewrite Hbytes in Hread. pose proof (blen_library_rating f) as Hlen. fold j in Hlen. split.
  { by apply (@feedback_forwarded E _ client_endian fd (wire (library_rating f)) x c hostname port Hgw Hli ltac:(blen_pos; lia) Hread). }
  unfold ATLAS_IDENTITY_LEN in Hli. fold i in Hli.
  apply (@rating_run GE HO gateway_endian i d j (u16 (fb_sensor_type f)) (fb_sensor_score f) (fb_time_score f) g); try done; [lia|lia|apply u16_range].
Qed.

Definition node_feedback : atlas_feedback := mk_feedback (cstr "peer") 101 90 80.

Definition node_feedback_batch : option cmd_batch := match @feedback_batch true node_feedback with Ok b => b | Fault _ => None end.

Lemma feedback_end_to_end_witness :
  let c := set_ext (mk_sim (sim_open sim0) [] [batch_bytes node_feedback_batch] [] [] true []) (reg_client (mk_reg true 7 1 9)) in
  let g := trusting_gateway in
  let payload := wire [(ATLAS_CMD_IDENTITY, node); (ATLAS_CMD_DATA_PLANE_FEEDBACK, wire (library_rating node_feedback))] in
  (exists c' session, @atlas_data_plane_read_cb sim_env true 5 c = Ok (tt, c') /\
     cl_out c' = cl_out c ++ [EvCoapSend session ATLAS_COAP_METHOD_PUT (cl_token c)
       (gateway_uri (cstr "gw") (cstr "10100") ATLAS_CLIENT_FEEDBACK_COAP_PATH) payload]) /\
  @feedbackReputationCallback node_gw key_order false node (Some payload) (blen payload) g =
    (@updateDataReputation node_gw key_order (cstr "peer") (u16 101) (rating_matrix 90 80) ≫= fun _ =>
     mret (GwType.ATLAS_COAP_RESP_OK, None)) g.
Proof.
  intros c g payload. destruct (@feedback_end_to_end sim_env sim_laws true node_gw key_order false c 5
    (@sock_read sim_env 5 ATLAS_CLIENT_DATA_PLANE_BUFFER_LEN (cl_ext c)).2 (cstr "gw") (cstr "10100") g node_dev node_feedback node_feedback_batch)
    as [Hf Hr].
  - by split.
  - discriminate.
  - discriminate.
  - discriminate.
  - reflexivity.
  - unfold is_u16. cbn. lia.
  - unfold is_u16. cbn. lia.
  - vm_compute. reflexivity.
  - vm_compute. reflexivity.
  - reflexivity.
  - reflexivity.
  - split; [|exact Hr]. apply (forwards_taken _ _ _ _ _ _ Hf). vm_compute. reflexivity.
Defined.
