(* ===== verification/GwIo.v ===== *)
(** The event loop of the gateway: alarms (alarm/AtlasAlarm.cpp) and descriptors
    (scheduler/AtlasScheduler.cpp, AtlasSchedulerFdEntry.cpp) on a Boost.Asio
    [io_service] that one thread runs.

    Asio is given by what its documentation says. An asynchronous operation is
    outstanding until it completes; its handler is then queued with an error code and
    called later. Cancelling a timer completes its outstanding waits with
    [operation_aborted], but a wait that has completed already stays queued as
    successful. Cancelling a descriptor aborts every read whose handler has not been
    called. A handler is bound to the raw [this] of the object that made it, which may
    be gone by the time it is called: an access to it is then a use after free, a
    fault of the model. An [std::shared_ptr] to a timer is the number of its control
    block, which no other timer ever has; the address of a destroyed alarm may be
    reused.

    The handlers end with the call of the user's callback, so they are functions
    that return the callback to call; what callbacks do are further steps. *)
From S2P Require Import Prelude.

Inductive error_code : Set := success | operation_aborted | other_error.

#[export] Instance error_code_eq_dec : EqDecision error_code.
Proof. solve_decision. Defined.

(** The bound completion handlers: [timerHandler] with its [this] and its
    [weak_ptr], [handleFdEvent] with its [this]. *)
Inductive handler : Set :=
  | TimerHandler (this timerPtr : Z)
  | FdHandler (this : Z).

Section Io.
Context {C : Type}.      (* what the [std::function<void()>] of the callers hold *)

(** alarm/AtlasAlarm.h *)
Record AtlasAlarm := mk_AtlasAlarm {
  name_ : list byte;
  periodMs_ : Z;             (* uint32_t *)
  once_ : bool;
  callback_ : option C;
  timer_ : option Z;         (* the control block *)
  started_ : bool;
}.

(** scheduler/AtlasSchedulerFdEntry.h *)
Record AtlasSchedulerFdEntry := mk_FdEntry {
  fd_ : Z;
  fd_callback_ : C;
}.

(** The objects by their addresses, the timers with their expiry in milliseconds, the
    outstanding waits (alarm, timer) and reads, and the completed operations. *)
Record io := mk_io {
  io_now : Z;
  io_alarms : gmap Z AtlasAlarm;
  io_timers : gmap Z Z;
  io_next : Z;
  io_waits : list (Z * Z);
  io_queue : list (handler * error_code);
  io_entries : gmap Z AtlasSchedulerFdEntry;
  entries_ : gmap Z Z;
  io_reads : list Z;
}.

Definition io_init : io := mk_io 0 ∅ ∅ 0 [] [] ∅ ∅ [].

Definition set_alarm (a : Z) (al : AtlasAlarm) (s : io) : io :=
  mk_io (io_now s) (<[a := al]> (io_alarms s)) (io_timers s) (io_next s) (io_waits s) (io_queue s)
    (io_entries s) (entries_ s) (io_reads s).
Definition del_alarm (a : Z) (s : io) : io :=
  mk_io (io_now s) (delete a (io_alarms s)) (io_timers s) (io_next s) (io_waits s) (io_queue s)
    (io_entries s) (entries_ s) (io_reads s).
Definition alarm_set_timer (t : option Z) (b : bool) (al : AtlasAlarm) : AtlasAlarm :=
  mk_AtlasAlarm (name_ al) (periodMs_ al) (once_ al) (callback_ al) t b.

(** * Asio *)

(** A new [deadline_timer] that expires after [ms], under the next number. *)
Definition new_timer (ms : Z) (s : io) : io :=
  mk_io (io_now s) (io_alarms s) (<[io_next s := io_now s + ms]> (io_timers s)) (io_next s + 1) (io_waits s) (io_queue s)
    (io_entries s) (entries_ s) (io_reads s).

Definition async_wait (t a : Z) (s : io) : io :=
  mk_io (io_now s) (io_alarms s) (io_timers s) (io_next s) (io_waits s ++ [(a, t)]) (io_queue s)
    (io_entries s) (entries_ s) (io_reads s).

Definition waits_on (t : Z) (w : Z * Z) : Prop := w.2 = t.
#[export] Instance waits_on_dec t w : Decision (waits_on t w) := decide (w.2 = t).

(** [deadline_timer::cancel] *)
Definition timer_cancel (t : Z) (s : io) : io :=
  mk_io (io_now s) (io_alarms s) (io_timers s) (io_next s) (filter (fun w => ~ waits_on t w) (io_waits s))
    (io_queue s ++ ((fun w => (TimerHandler w.1 w.2, operation_aborted)) <$> filter (waits_on t) (io_waits s)))
    (io_entries s) (entries_ s) (io_reads s).

(** [deadline_timer::expires_at] sets the expiry and cancels what waits for the old one. *)
Definition expires_at (t e : Z) (s : io) : io :=
  let s := timer_cancel t s in
  mk_io (io_now s) (io_alarms s) (<[t := e]> (io_timers s)) (io_next s) (io_waits s) (io_queue s)
    (io_entries s) (entries_ s) (io_reads s).

(** The last [shared_ptr] goes: the timer is cancelled and destroyed. *)
Definition timer_reset (t : option Z) (s : io) : io :=
  match t with
  | None => s
  | Some t =>
      let s := timer_cancel t s in
      mk_io (io_now s) (io_alarms s) (delete t (io_timers s)) (io_next s) (io_waits s) (io_queue s)
        (io_entries s) (entries_ s) (io_reads s)
  end.

(** * alarm/AtlasAlarm.cpp *)

Definition alarm_this (a : Z) (s : io) : res AtlasAlarm :=
  match io_alarms s !! a with Some al => Ok al | None => Fault UseAfterFree end.

(** The constructor, at a free address [a]. *)
Definition new_AtlasAlarm (a : Z) (name : list byte) (periodMs : Z) (once : bool) (callback : option C) (s : io) : io :=
  set_alarm a (mk_AtlasAlarm name periodMs once callback None false) s.

Definition alarm_start (a : Z) (s : io) : res io :=
  al ← alarm_this a s;
  (* If timer is already started, there is nothing to do *)
  if started_ al then Ok s else
  let t := io_next s in
  let s := timer_reset (timer_ al) (new_timer (periodMs_ al) s) in
  (* Start timer now *)
  Ok (set_alarm a (alarm_set_timer (Some t) true al) (async_wait t a s)).

Definition alarm_cancel (a : Z) (s : io) : res io :=
  al ← alarm_this a s;
  if started_ al then
    match timer_ al with
    | None => Fault NullDeref
    | Some t => Ok (set_alarm a (alarm_set_timer None false al) (timer_reset (Some t) (timer_cancel t s)))
    end
  else Ok s.

(** [~AtlasAlarm]; its member [timer_] goes with it. *)
Definition alarm_destroy (a : Z) (s : io) : res io :=
  s ← alarm_cancel a s;
  al ← alarm_this a s;
  Ok (del_alarm a (timer_reset (timer_ al) s)).

(** [timerHandler], and the callback it ends with. *)
Definition timerHandler (ec : error_code) (this timerPtr : Z) (s : io) : res (io * option C) :=
  (* If an error occured *)
  if decide (ec <> success) then Ok (s, None) else
  match io_timers s !! timerPtr with
  | None => Ok (s, None)                     (* the weak_ptr does not lock *)
  | Some _ =>
      al ← alarm_this this s;
      (* Start timer again *)
      s ← (if negb (once_ al) then
             match timer_ al with
             | None => Fault NullDeref
             | Some t =>
                 match io_timers s !! t with
                 | None => Fault UseAfterFree
                 | Some e => Ok (async_wait timerPtr this (expires_at timerPtr (e + periodMs_ al) s))
                 end
             end
           else alarm_cancel this s);
      Ok (s, callback_ al)
  end.

(** * scheduler/AtlasSchedulerFdEntry.cpp *)

Definition async_read_some (a : Z) (s : io) : io :=
  mk_io (io_now s) (io_alarms s) (io_timers s) (io_next s) (io_waits s) (io_queue s)
    (io_entries s) (entries_ s) (io_reads s ++ [a]).

Definition set_entries (m : gmap Z AtlasSchedulerFdEntry) (e : gmap Z Z) (s : io) : io :=
  mk_io (io_now s) (io_alarms s) (io_timers s) (io_next s) (io_waits s) (io_queue s) m e (io_reads s).

(** [handleFdEvent], and the callback it ends with. *)
Definition handleFdEvent (ec : error_code) (this : Z) (s : io) : res (io * option C) :=
  if decide (ec = success) then
    match io_entries s !! this with
    | None => Fault UseAfterFree
    | Some e => Ok (async_read_some this s, Some (fd_callback_ e))     (* Schedule another read *)
    end
  else Ok (s, None).

(** The reactor watches a descriptor once: [assign] throws when there is an entry. *)
Definition fd_registered (fd : Z) (s : io) : bool :=
  bool_decide (map_Exists (fun _ e => fd_ e = fd) (io_entries s)).

(** The constructor, at a free address [a]. *)
Definition new_FdEntry (a fd : Z) (cb : C) (s : io) : res io :=
  if fd_registered fd s then Fault Uncaught else
  Ok (async_read_some a (set_entries (<[a := mk_FdEntry fd cb]> (io_entries s)) (entries_ s) s)).

(** [~AtlasSchedulerFdEntry]: outstanding reads complete with [operation_aborted]. *)
Definition FdEntry_destroy (a : Z) (s : io) : io :=
  mk_io (io_now s) (io_alarms s) (io_timers s) (io_next s) (io_waits s)
    (io_queue s ++ ((fun r => (FdHandler r, operation_aborted)) <$> filter (fun r => r = a) (io_reads s)))
    (delete a (io_entries s)) (entries_ s) (filter (fun r => r <> a) (io_reads s)).

(** * scheduler/AtlasScheduler.cpp *)

(** [unique_ptr] assignment destroys the entry that was there. *)
Definition addFdEntry (a fd : Z) (cb : C) (s : io) : res io :=
  s ← new_FdEntry a fd cb s;
  let s' := set_entries (io_entries s) (<[fd := a]> (entries_ s)) s in
  Ok (match entries_ s !! fd with Some old => FdEntry_destroy old s' | None => s' end).

Definition delFdEntry (fd : Z) (s : io) : io :=
  match entries_ s !! fd with
  | None => s
  | Some a => let s := FdEntry_destroy a s in set_entries (io_entries s) (delete fd (entries_ s)) s
  end.

(** * The loop *)

Definition set_ops (now : Z) (waits : list (Z * Z)) (queue : list (handler * error_code)) (reads : list Z) (s : io) : io :=
  mk_io now (io_alarms s) (io_timers s) (io_next s) waits queue (io_entries s) (entries_ s) reads.

Definition run_handler (h : handler) (ec : error_code) (s : io) : res (io * option C) :=
  match h with
  | TimerHandler this timerPtr => timerHandler ec this timerPtr s
  | FdHandler this => handleFdEvent ec this s
  end.

(** What happens to the loop: calls of the modules, and the turns of
    [io_service::run], which completes waits, calls queued handlers and calls the
    handler of a readable descriptor. *)
Inductive act :=
  | ANew (a : Z) (name : list byte) (periodMs : Z) (once : bool) (callback : option C)
  | AStart (a : Z)
  | ACancel (a : Z)
  | ADestroy (a : Z)
  | AAddFd (a fd : Z) (cb : C)
  | ADelFd (fd : Z)
  | ATime (ms : Z)
  | AExpire (n : nat)
  | ARun (n : nat)
  | AReady (n : nat).

(** Modules use alarms they own and allocate at free addresses; a wait completes
    when its timer has expired. *)
Definition enabled (x : act) (s : io) : Prop :=
  match x with
  | ANew a _ _ _ _ => io_alarms s !! a = None
  | AStart a | ACancel a | ADestroy a => is_Some (io_alarms s !! a)
  | AAddFd a fd _ => io_entries s !! a = None /\ fd_registered fd s = false
  | ADelFd _ => True
  | ATime ms => 0 <= ms
  | AExpire n => exists a t e, io_waits s !! n = Some (a, t) /\ io_timers s !! t = Some e /\ e <= io_now s
  | ARun n => is_Some (io_queue s !! n)
  | AReady n => is_Some (io_reads s !! n)
  end.

Definition without_cb (r : res io) : res (io * option C) := s ← r; Ok (s, None).

Definition perform (x : act) (s : io) : res (io * option C) :=
  match x with
  | ANew a name p once cb => Ok (new_AtlasAlarm a name p once cb s, None)
  | AStart a => without_cb (alarm_start a s)
  | ACancel a => without_cb (alarm_cancel a s)
  | ADestroy a => without_cb (alarm_destroy a s)
  | AAddFd a fd cb => without_cb (addFdEntry a fd cb s)
  | ADelFd fd => Ok (delFdEntry fd s, None)
  | ATime ms => Ok (set_ops (io_now s + ms) (io_waits s) (io_queue s) (io_reads s) s, None)
  | AExpire n =>
      match io_waits s !! n with
      | Some (a, t) =>
          Ok (set_ops (io_now s) (delete n (io_waits s)) (io_queue s ++ [(TimerHandler a t, success)]) (io_reads s) s, None)
      | None => Ok (s, None)
      end
  | ARun n =>
      match io_queue s !! n with
      | Some (h, ec) => run_handler h ec (set_ops (io_now s) (io_waits s) (delete n (io_queue s)) (io_reads s) s)
      | None => Ok (s, None)
      end
  | AReady n =>
      match io_reads s !! n with
      | Some a => handleFdEvent success a (set_ops (io_now s) (io_waits s) (io_queue s) (delete n (io_reads s)) s)
      | None => Ok (s, None)
      end
  end.

(** The alarm whose callback a turn of the loop calls. *)
Definition fires (x : act) (s : io) : option Z :=
  match x with
  | ARun n =>
      match io_queue s !! n with
      | Some (TimerHandler a t, success) => io_timers s !! t ≫= fun _ => Some a
      | _ => None
      end
  | _ => None
  end.

(** The runs of the loop, with the alarms that fire. *)
Inductive io_run : io -> list (act * option Z) -> io -> Prop :=
  | io_run_nil s : io_run s [] s
  | io_run_snoc s tr s1 x r s2 :
      io_run s tr s1 -> enabled x s1 -> perform x s1 = Ok (s2, r) -> io_run s (tr ++ [(x, fires x s1)]) s2.
End Io.
Arguments io : clear implicits.
Arguments act : clear implicits.
Arguments AtlasAlarm : clear implicits.
Arguments AtlasSchedulerFdEntry : clear implicits.

(** * The invariant *)

Section IoInv.
Context {C : Type}.
Implicit Types (s : io C) (al : AtlasAlarm C).

(** A wait that has completed and whose handler has not been called. *)
Definition completed (q : handler * error_code) : option (Z * Z) :=
  match q with (TimerHandler a t, success) => Some (a, t) | _ => None end.

(** The waits whose handler may still act. *)
Definition due s : list (Z * Z) := omap completed (io_queue s).
Definition pend s : list (Z * Z) := io_waits s ++ due s.

(** The alarms and their timers. An alarm is started exactly when it has a timer;
    every live timer but [x] has exactly one wait, made by the alarm that owns it;
    a completed wait is not early. *)
Record timer_inv (x : option Z) (s : io C) : Prop := {
  inv_alarm a al : io_alarms s !! a = Some al ->
    if started_ al then exists t, timer_ al = Some t /\ is_Some (io_timers s !! t) else timer_ al = None;
  inv_inj a1 a2 al1 al2 t : io_alarms s !! a1 = Some al1 -> io_alarms s !! a2 = Some al2 ->
    timer_ al1 = Some t -> timer_ al2 = Some t -> a1 = a2;
  inv_nodup : NoDup (pend s).*2;
  inv_live t : is_Some (io_timers s !! t) -> t < io_next s /\ (Some t <> x -> exists a, (a, t) ∈ pend s);
  inv_exempt t a : x = Some t -> (a, t) ∉ pend s;
  inv_bound a t : (a, t) ∈ pend s -> t < io_next s;
  inv_this a t : (a, t) ∈ pend s -> is_Some (io_timers s !! t) ->
    exists al, io_alarms s !! a = Some al /\ timer_ al = Some t;
  inv_due a t e : (a, t) ∈ due s -> io_timers s !! t = Some e -> e <= io_now s;
}.

(** The descriptors: every entry has one outstanding read, an aborted one does
    nothing, and [entries_] lists them by descriptor. *)
Record fd_inv (s : io C) : Prop := {
  inv_reads_nodup : NoDup (io_reads s);
  inv_reads a : a ∈ io_reads s <-> is_Some (io_entries s !! a);
  inv_fdq a ec : (FdHandler a, ec) ∈ io_queue s -> ec <> success;
  inv_entries fd a : entries_ s !! fd = Some a <-> exists e, io_entries s !! a = Some e /\ fd_ e = fd;
}.

Definition io_inv s : Prop := timer_inv None s /\ fd_inv s.

Lemma due_elem s a t : (a, t) ∈ due s <-> (TimerHandler a t, success) ∈ io_queue s.
Proof.
  unfold due. rewrite list_elem_of_omap. split; [|by exists (TimerHandler a t, success)].
  by intros ([[] []] & Hin & [= <- <-]).
Qed.

Lemma completed_aborted {A} (f : A -> handler) l :
  omap completed ((fun w => (f w, operation_aborted)) <$> l) = [].
Proof. induction l as [|w l IH]; [done|]. cbn. destruct (f w); exact IH. Qed.

Lemma due_cancel t s : due (timer_cancel t s) = due s.
Proof. unfold due. cbn. by rewrite omap_app, completed_aborted, app_nil_r. Qed.

Lemma pend_cancel t s : pend (timer_cancel t s) = filter (fun w => ~ waits_on t w) (io_waits s) ++ due s.
Proof. unfold pend. by rewrite due_cancel. Qed.

Lemma pend_cancel_elem t a t' s : (a, t') ∈ pend (timer_cancel t s) -> (a, t') ∈ pend s.
Proof.
  rewrite pend_cancel. unfold pend. rewrite !elem_of_app, list_elem_of_filter. tauto.
Qed.

Lemma pend_cancel_other t a t' s : t' <> t -> (a, t') ∈ pend s -> (a, t') ∈ pend (timer_cancel t s).
Proof.
  intros Hn. rewrite pend_cancel. unfold pend. rewrite !elem_of_app, list_elem_of_filter. unfold waits_on. cbn. tauto.
Qed.

Lemma pend_cancel_nodup t s : NoDup (pend s).*2 -> NoDup (pend (timer_cancel t s)).*2.
Proof.
  intros Hn. eapply sublist_NoDup; [exact Hn|]. apply fmap_sublist. rewrite pend_cancel.
  apply sublist_app; [apply sublist_filter|done].
Qed.

Lemma timer_cancel_idemp t s : timer_cancel t (timer_cancel t s) = timer_cancel t s.
Proof.
  unfold timer_cancel. cbn. f_equal.
  - by apply list_filter_filter_l.
  - assert (filter (waits_on t) (filter (fun w => ~ waits_on t w) (io_waits s)) = []) as ->; [|by rewrite app_nil_r].
    destruct (filter _ (filter _ _)) as [|w l] eqn:E; [done|].
    assert (w ∈ w :: l) as Hw by left. rewrite <-E, !list_elem_of_filter in Hw. tauto.
Qed.

Lemma timer_reset_cancel t s : timer_reset (Some t) (timer_cancel t s) = timer_reset (Some t) s.
Proof. unfold timer_reset. by rewrite timer_cancel_idemp. Qed.

(** The owner of a timer lets go of it. *)
Lemma release_inv x s a al t :
  timer_inv x s -> io_alarms s !! a = Some al -> timer_ al = Some t -> x = None \/ x = Some t ->
  timer_inv None (set_alarm a (alarm_set_timer None false al) (timer_reset (Some t) s)).
Proof.
  intros H Ha Ht Hx. split; cbn.
  - intros a' al'. rewrite lookup_insert_Some. intros [[<- <-]|[Hn Ha']]; [done|].
    pose proof (inv_alarm _ _ H _ _ Ha') as Hs. destruct (started_ al'); [|done].
    destruct Hs as (t' & Ht' & Hl). exists t'. split; [done|].
    rewrite lookup_delete_ne; [done|]. intros <-. apply Hn. by eapply (inv_inj _ _ H).
  - intros a1 a2 al1 al2 t'. rewrite !lookup_insert_Some.
    intros [[<- <-]|[Hn1 H1]] [[<- <-]|[Hn2 H2]] T1 T2; try discriminate. by eapply (inv_inj _ _ H).
  - apply pend_cancel_nodup, (inv_nodup _ _ H).
  - intros t' Hl. rewrite lookup_delete_is_Some in Hl. destruct Hl as [Hn Hl].
    destruct (inv_live _ _ H _ Hl) as [Hb Hp]. split; [done|]. intros _.
    destruct Hp as [a' Hp]; [destruct Hx; congruence|]. exists a'. by apply pend_cancel_other.
  - done.
  - intros a' t' Hp. exact (inv_bound _ _ H a' t' (pend_cancel_elem t _ _ _ Hp)).
  - intros a' t' Hp Hl. rewrite lookup_delete_is_Some in Hl. destruct Hl as [Hn Hl].
    destruct (inv_this _ _ H a' t') as (al' & Ha' & Ht'); [exact (pend_cancel_elem t _ _ _ Hp)|done|].
    exists al'. split; [|done]. rewrite lookup_insert_ne; [done|]. intros <-. congruence.
  - intros a' t' e Hd. rewrite lookup_delete_Some. intros [_ Hl]. 
    eapply (inv_due _ _ H); [|exact Hl]. by rewrite <-(due_cancel t).
Qed.

(** A handler leaves the queue: its timer, if it lives, is without a wait. *)
Lemma dequeue_inv s n a t :
  timer_inv None s -> io_queue s !! n = Some (TimerHandler a t, success) ->
  timer_inv (Some t) (set_ops (io_now s) (io_waits s) (delete n (io_queue s)) (io_reads s) s).
Proof.
  intros H Hq. set (s0 := set_ops _ _ _ _ s).
  assert (due s ≡ₚ (a, t) :: due s0) as Hd.
  { unfold due. cbn. by rewrite (delete_Permutation _ _ _ Hq) at 1. }
  assert (pend s ≡ₚ (a, t) :: pend s0) as Hp.
  { unfold pend. rewrite Hd. cbn. by rewrite Permutation_middle. }
  assert (forall w, w ∈ pend s0 -> w ∈ pend s) as Hin by (intros w Hw; rewrite Hp; by right).
  pose proof (inv_nodup _ _ H) as Hnd. rewrite Hp in Hnd. apply NoDup_cons in Hnd as [Hnew Hnd].
  split; try (exact (inv_alarm _ _ H)); try (exact (inv_inj _ _ H)); try done.
  - intros t' Hl. destruct (inv_live _ _ H t' Hl) as [Hb Hex]. split; [done|]. intros Hne.
    destruct Hex as [a' Ha']; [done|]. exists a'. rewrite Hp, elem_of_cons in Ha'. destruct Ha' as [[= -> ->]|]; done.
  - intros t' a' [= <-] Ha'. apply Hnew, list_elem_of_fmap. by exists (a', t).
  - intros a' t' Ha'. by eapply (inv_bound _ _ H), Hin.
  - intros a' t' Ha'. by apply (inv_this _ _ H), Hin.
  - intros a' t' e Ha'. apply (inv_due _ _ H a'). rewrite Hd. by right.
Qed.

Lemma dead_inv s t : timer_inv (Some t) s -> io_timers s !! t = None -> timer_inv None s.
Proof.
  intros [] Hd. split; try done.
  intros t' Hl. destruct (inv_live0 t' Hl) as [Hb Hex]. split; [done|]. intros _. apply Hex. intros [= ->].
  rewrite Hd in Hl. by destruct Hl.
Qed.

(** A periodic alarm waits again. *)
Lemma rearm_inv s a al t e :
  timer_inv (Some t) s -> io_alarms s !! a = Some al -> timer_ al = Some t -> is_Some (io_timers s !! t) ->
  timer_inv None (async_wait t a (expires_at t e s)).
Proof.
  intros H Ha Ht Hl.
  assert (pend (async_wait t a (expires_at t e s)) ≡ₚ (a, t) :: pend (timer_cancel t s)) as Hp.
  { rewrite pend_cancel. unfold pend, due. cbn. rewrite omap_app, completed_aborted, app_nil_r. fold (due s).
    rewrite <-app_assoc. cbn. by rewrite <-Permutation_middle. }
  split; cbn.
  - intros a' al' Ha'. pose proof (inv_alarm _ _ H _ _ Ha') as Hs. destruct (started_ al'); [|done].
    destruct Hs as (t' & Ht' & Hl'). exists t'. split; [done|]. apply lookup_insert_is_Some'. tauto.
  - exact (inv_inj _ _ H).
  - rewrite Hp. cbn. apply NoDup_cons. split; [|apply pend_cancel_nodup, (inv_nodup _ _ H)].
    rewrite list_elem_of_fmap. intros ([a' t'] & -> & Hin). cbn in *.
    exact (inv_exempt _ _ H _ a' eq_refl (pend_cancel_elem _ _ _ _ Hin)).
  - intros t' Hl'. apply lookup_insert_is_Some in Hl' as [<-|[Hn Hl']].
    + split; [apply (inv_live _ _ H _ Hl)|]. intros _. exists a. rewrite Hp. by left.
    + destruct (inv_live _ _ H _ Hl') as [Hb Hex]. split; [done|]. intros _. destruct Hex as [a' Ha']; [congruence|].
      exists a'. rewrite Hp. right. by apply pend_cancel_other.
  - done.
  - intros a' t'. rewrite Hp, elem_of_cons. intros [[= -> ->]|Hin]; [apply (inv_live _ _ H _ Hl)|].
    exact (inv_bound _ _ H a' t' (pend_cancel_elem t _ _ _ Hin)).
  - intros a' t'. rewrite Hp, elem_of_cons. intros [[= -> ->]|Hin] Hl'; [by exists al|].
    apply (inv_this _ _ H); [exact (pend_cancel_elem t _ _ _ Hin)|]. apply lookup_insert_is_Some in Hl' as [<-|[_ ?]]; done.
  - intros a' t' e' Hd Hl'. assert ((a', t') ∈ due s) as Hd' by (rewrite <-(due_cancel t); exact Hd). clear Hd.
    apply lookup_insert_Some in Hl' as [[<- <-]|[Hn Hl']]; [|by eapply (inv_due _ _ H)].
    exfalso. eapply (inv_exempt _ _ H); [done|]. apply elem_of_app. by right.
Qed.

(** * Every step is safe *)

Lemma alarm_started_inv s a al :
  timer_inv None s -> io_alarms s !! a = Some al -> started_ al = false ->
  timer_inv None (set_alarm a (alarm_set_timer (Some (io_next s)) true al) (async_wait (io_next s) a (new_timer (periodMs_ al) s))).
Proof.
  intros H Ha Hst.
  assert (io_timers s !! io_next s = None) as Hnew.
  { destruct (io_timers s !! io_next s) eqn:E; [|done]. destruct (inv_live _ _ H (io_next s)); [by eexists|lia]. }
  assert (pend (set_alarm a (alarm_set_timer (Some (io_next s)) true al) (async_wait (io_next s) a (new_timer (periodMs_ al) s)))
          ≡ₚ (a, io_next s) :: pend s) as Hp.
  { unfold pend. cbn. rewrite <-app_assoc. cbn. by rewrite <-Permutation_middle. }
  split; cbn.
  - intros a' al'. rewrite lookup_insert_Some. intros [[<- <-]|[Hn Ha']]; cbn.
    + exists (io_next s). split; [done|]. rewrite lookup_insert_eq. by eexists.
    + pose proof (inv_alarm _ _ H _ _ Ha') as Hs. destruct (started_ al'); [|done].
      destruct Hs as (t' & Ht' & Hl'). exists t'. split; [done|]. apply lookup_insert_is_Some'. tauto.
  - assert (forall a' al' , io_alarms s !! a' = Some al' -> timer_ al' <> Some (io_next s)) as Hfr.
    { intros a' al' Ha' Ht'. pose proof (inv_alarm _ _ H _ _ Ha') as Hs. destruct (started_ al'); [|congruence].
      destruct Hs as (t' & Ht'' & Hl'). simplify_eq. rewrite Hnew in Hl'. by destruct Hl'. }
    intros a1 a2 al1 al2 t'. rewrite !lookup_insert_Some.
    intros [[<- <-]|[Hn1 H1]] [[<- <-]|[Hn2 H2]] T1 T2; cbn in *; simplify_eq; try done.
    + by eapply Hfr in H2.
    + by eapply Hfr in H1.
    + by eapply (inv_inj _ _ H).
  - rewrite Hp. cbn. apply NoDup_cons. split; [|apply (inv_nodup _ _ H)].
    rewrite list_elem_of_fmap. intros ([a' t'] & Heq & Hin). apply (inv_bound _ _ H) in Hin. cbn in Heq. lia.
  - intros t' Hl'. apply lookup_insert_is_Some in Hl' as [<-|[Hn Hl']].
    + split; [lia|]. intros _. exists a. rewrite Hp. by left.
    + destruct (inv_live _ _ H _ Hl') as [Hb Hex]. split; [lia|]. intros _. destruct Hex as [a' Ha']; [done|].
      exists a'. rewrite Hp. by right.
  - done.
  - intros a' t'. rewrite Hp, elem_of_cons. intros [[= -> ->]|Hin]; [lia|]. apply (inv_bound _ _ H) in Hin. lia.
  - intros a' t'. rewrite Hp, elem_of_cons. intros [[= -> ->]|Hin] Hl'.
    + rewrite lookup_insert_eq. eauto.
    + pose proof (inv_bound _ _ H _ _ Hin). apply lookup_insert_is_Some in Hl' as [<-|[_ Hl']]; [lia|].
      destruct (inv_this _ _ H _ _ Hin Hl') as (al' & Ha' & Ht'). exists al'. split; [|done].
      rewrite lookup_insert_ne; [done|]. intros <-. pose proof (inv_alarm _ _ H _ _ Ha). rewrite Hst in *. congruence.
  - intros a' t' e' Hd Hl'.
    assert (t' < io_next s) by (apply (inv_bound _ _ H a'), elem_of_app; right; exact Hd).
    rewrite lookup_insert_ne in Hl' by lia. by eapply (inv_due _ _ H).
Qed.

(** A step that moves waits around, or touches no alarm at all. *)
Lemma timer_inv_frame s s' :
  timer_inv None s ->
  io_alarms s' = io_alarms s -> io_timers s' = io_timers s -> io_next s' = io_next s -> pend s' ≡ₚ pend s ->
  (forall a t e, (a, t) ∈ due s' -> io_timers s !! t = Some e -> e <= io_now s') -> timer_inv None s'.
Proof.
  intros H Ha Ht Hx Hp Hd. split; rewrite ?Ha, ?Ht, ?Hx; try done.
  - exact (inv_alarm _ _ H).
  - exact (inv_inj _ _ H).
  - rewrite Hp. exact (inv_nodup _ _ H).
  - intros t Hl. setoid_rewrite Hp. exact (inv_live _ _ H t Hl).
  - intros a t. rewrite Hp. exact (inv_bound _ _ H a t).
  - intros a t. rewrite Hp. exact (inv_this _ _ H a t).
Qed.

Lemma new_inv s a name p once cb :
  timer_inv None s -> io_alarms s !! a = None -> timer_inv None (new_AtlasAlarm a name p once cb s).
Proof.
  intros H Ha. split; cbn; try done.
  - intros a' al'. rewrite lookup_insert_Some. intros [[<- <-]|[Hn Ha']]; [done|]. exact (inv_alarm _ _ H _ _ Ha').
  - intros a1 a2 al1 al2 t. rewrite !lookup_insert_Some.
    intros [[<- <-]|[Hn1 H1]] [[<- <-]|[Hn2 H2]] T1 T2; try discriminate. by eapply (inv_inj _ _ H).
  - exact (inv_nodup _ _ H).
  - exact (inv_live _ _ H).
  - exact (inv_bound _ _ H).
  - intros a' t Hp Hl. destruct (inv_this _ _ H a' t Hp Hl) as (al & Hal & Ht). exists al.
    rewrite lookup_insert_ne by congruence. done.
  - exact (inv_due _ _ H).
Qed.

Lemma del_inv s a al :
  timer_inv None s -> io_alarms s !! a = Some al -> timer_ al = None -> timer_inv None (del_alarm a s).
Proof.
  intros H Ha Ht. split; cbn; try done.
  - intros a' al'. rewrite lookup_delete_Some. intros [_ Ha']. exact (inv_alarm _ _ H _ _ Ha').
  - intros a1 a2 al1 al2 t. rewrite !lookup_delete_Some. intros [_ H1] [_ H2]. exact (inv_inj _ _ H _ _ _ _ _ H1 H2).
  - exact (inv_nodup _ _ H).
  - exact (inv_live _ _ H).
  - exact (inv_bound _ _ H).
  - intros a' t Hp Hl. destruct (inv_this _ _ H a' t Hp Hl) as (al' & Hal & Ht'). exists al'.
    rewrite lookup_delete_ne by congruence. done.
  - exact (inv_due _ _ H).
Qed.

(** * What the alarms are: one deadline each *)

Record abs_alarm := mk_abs {
  ab_period : Z;
  ab_once : bool;
  ab_callback : option C;
  ab_deadline : option Z;
}.

Definition abs_of s al : abs_alarm :=
  mk_abs (periodMs_ al) (once_ al) (callback_ al) (t ← timer_ al; io_timers s !! t).
Definition abs s : gmap Z abs_alarm := abs_of s <$> io_alarms s.

Definition set_deadline (d : option Z) (v : abs_alarm) : abs_alarm :=
  mk_abs (ab_period v) (ab_once v) (ab_callback v) d.
Definition arm (now : Z) (v : abs_alarm) : abs_alarm :=
  match ab_deadline v with Some _ => v | None => set_deadline (Some (now + ab_period v)) v end.

(** The alarm service: starting sets the deadline of an idle alarm, cancelling
    clears it, and only an armed alarm whose deadline has come fires, which moves the
    deadline by exactly one period or, once, clears it. *)
Inductive alarm_step (now : Z) (m : gmap Z abs_alarm) : act C -> option Z -> option C -> gmap Z abs_alarm -> Prop :=
  | abs_new a name p once cb :
      alarm_step now m (ANew a name p once cb) None None (<[a := mk_abs p once cb None]> m)
  | abs_start a : alarm_step now m (AStart a) None None (alter (arm now) a m)
  | abs_cancel a : alarm_step now m (ACancel a) None None (alter (set_deadline None) a m)
  | abs_destroy a : alarm_step now m (ADestroy a) None None (delete a m)
  | abs_fire n a v e :
      m !! a = Some v -> ab_deadline v = Some e -> e <= now ->
      alarm_step now m (ARun n) (Some a) (ab_callback v)
        (<[a := set_deadline (if ab_once v then None else Some (e + ab_period v)) v]> m)
  | abs_quiet x :
      match x with AAddFd _ _ _ | ADelFd _ | ATime _ | AExpire _ | ARun _ => True | _ => False end ->
      alarm_step now m x None None m
  | abs_ready n r : alarm_step now m (AReady n) None r m.

(** A step that touches one alarm and no timer of another. *)
Lemma abs_update s s' a al :
  io_alarms s' = <[a := al]> (io_alarms s) ->
  (forall a' al' t, a' <> a -> io_alarms s !! a' = Some al' -> timer_ al' = Some t -> io_timers s' !! t = io_timers s !! t) ->
  abs s' = <[a := abs_of s' al]> (abs s).
Proof.
  intros Ha Ht. unfold abs. rewrite Ha, fmap_insert. apply map_eq. intros a'.
  destruct (decide (a' = a)) as [->|Hn]; [by rewrite !lookup_insert_eq|].
  rewrite !lookup_insert_ne, !lookup_fmap by done. destruct (io_alarms s !! a') as [al'|] eqn:E; [|done]. cbn. f_equal.
  unfold abs_of. f_equal. destruct (timer_ al') as [t|] eqn:Et; [|done]. cbn. by eapply Ht.
Qed.

Lemma abs_same s s' : io_alarms s' = io_alarms s -> io_timers s' = io_timers s -> abs s' = abs s.
Proof. intros Ha Ht. unfold abs, abs_of. by rewrite Ha, Ht. Qed.

(** The timers of other alarms are other timers. *)
Lemma other_timer x s a al t a' al' t' :
  timer_inv x s -> io_alarms s !! a = Some al -> timer_ al = Some t ->
  a' <> a -> io_alarms s !! a' = Some al' -> timer_ al' = Some t' -> t <> t'.
Proof. intros H Ha Ht Hn Ha' Ht' <-. apply Hn. by eapply (inv_inj _ _ H). Qed.
End IoInv.

Section IoSteps.
Context {C : Type}.
Implicit Types (s : io C) (al : AtlasAlarm C).

Lemma alter_found {A} (f : A -> A) (m : gmap Z A) i v : m !! i = Some v -> alter f i m = <[i := f v]> m.
Proof.
  intros Hi. apply map_eq. intros j. destruct (decide (i = j)) as [<-|Hn].
  - by rewrite lookup_alter_eq, Hi, lookup_insert_eq.
  - by rewrite lookup_alter_ne, lookup_insert_ne.
Qed.

Lemma abs_lookup s a al : io_alarms s !! a = Some al -> abs s !! a = Some (abs_of s al).
Proof. intros Ha. unfold abs. by rewrite lookup_fmap, Ha. Qed.

(** What the alarms leave of the descriptors. *)
Definition fd_same s s' : Prop :=
  io_entries s' = io_entries s /\ entries_ s' = entries_ s /\ io_reads s' = io_reads s /\
  forall a ec, (FdHandler a, ec) ∈ io_queue s' -> (FdHandler a, ec) ∈ io_queue s.

Lemma fd_inv_same s s' : fd_inv s -> fd_same s s' -> fd_inv s'.
Proof.
  intros H (He & Hm & Hr & Hq). split; rewrite ?He, ?Hm, ?Hr.
  - exact (inv_reads_nodup _ H).
  - exact (inv_reads _ H).
  - intros a ec Hin. by eapply (inv_fdq _ H), Hq.
  - exact (inv_entries _ H).
Qed.

Lemma fd_same_refl s : fd_same s s.
Proof. by repeat split. Qed.

Lemma fd_same_cancel t s : fd_same s (timer_cancel t s).
Proof.
  repeat split; try done. intros a ec. cbn. rewrite elem_of_app, list_elem_of_fmap. intros [|(? & ? & ?)]; done.
Qed.

Lemma fd_same_dequeue n s : fd_same s (set_ops (io_now s) (io_waits s) (delete n (io_queue s)) (io_reads s) s).
Proof. repeat split; try done. intros a ec. cbn. apply list_elem_of_delete_inv. Qed.

(** [cancel] on a live alarm. *)
Lemma cancel_run x s a al :
  timer_inv x s -> io_alarms s !! a = Some al -> x = None \/ (exists t, x = Some t /\ timer_ al = Some t) ->
  exists s', alarm_cancel a s = Ok s' /\ timer_inv None s' /\ fd_same s s' /\ io_now s' = io_now s /\
    io_alarms s' = <[a := alarm_set_timer None false al]> (io_alarms s) /\
    abs s' = alter (set_deadline None) a (abs s).
Proof.
  intros H Ha Hx. unfold alarm_cancel, alarm_this. rewrite Ha, res_bind_ok.
  pose proof (inv_alarm _ _ H _ _ Ha) as Hs. destruct (started_ al) eqn:Est.
  - destruct Hs as (t & Ht & Hl). rewrite Ht. eexists. split; [done|].
    rewrite (timer_reset_cancel t).
    split; [eapply (release_inv x); try done; destruct Hx as [|(? & ? & ?)]; [by left|right; congruence]|].
    split; [by apply (fd_same_cancel t)|]. do 2 (split; [done|]).
    erewrite abs_update with (s := s); [|done|].
    + by rewrite (alter_found _ _ _ _ (abs_lookup _ _ _ Ha)).
    + intros a' al' t' Hn Ha' Ht'. cbn. rewrite lookup_delete_ne; [done|]. exact (other_timer _ _ _ _ _ _ _ _ H Ha Ht Hn Ha' Ht').
  - destruct Hx as [->|(t & _ & ?)]; [|congruence].
    assert (alarm_set_timer None false al = al) as Hid by (destruct al; cbn in *; by subst).
    exists s. do 2 (split; [done|]). split; [apply fd_same_refl|]. split; [done|].
    rewrite Hid, insert_id by done. split; [done|].
    symmetry. apply map_eq. intros a'. destruct (decide (a' = a)) as [->|Hn]; [|by rewrite lookup_alter_ne].
    rewrite lookup_alter_eq. unfold abs. rewrite lookup_fmap, Ha. cbn. unfold abs_of, set_deadline. cbn. by rewrite Hs.
Qed.

(** [timerHandler] of a wait that has just left the queue: it does nothing when the
    timer is gone, and otherwise [this] is the alarm that owns the timer. *)
Lemma timerHandler_run s0 n a t :
  timer_inv None s0 -> io_queue s0 !! n = Some (TimerHandler a t, success) ->
  let s := set_ops (io_now s0) (io_waits s0) (delete n (io_queue s0)) (io_reads s0) s0 in
  exists s' r, timerHandler success a t s = Ok (s', r) /\ timer_inv None s' /\ fd_same s s' /\ io_now s' = io_now s0 /\
    ((io_timers s0 !! t = None /\ r = None /\ s' = s) \/
     (exists al e, io_alarms s0 !! a = Some al /\ timer_ al = Some t /\ io_timers s0 !! t = Some e /\ e <= io_now s0 /\
        r = callback_ al /\
        abs s' = <[a := set_deadline (if once_ al then None else Some (e + periodMs_ al)) (abs_of s0 al)]> (abs s0))).
Proof.
  intros H Hq s. pose proof (dequeue_inv _ _ _ _ H Hq) as Hd. fold s in Hd.
  unfold timerHandler. rewrite decide_False by tauto. change (io_timers s) with (io_timers s0).
  destruct (io_timers s0 !! t) as [e|] eqn:Et.
  2: { exists s, None. repeat (split; [done || apply fd_same_refl || by eapply dead_inv|]). by left. }
  assert ((a, t) ∈ due s0) as Hdue by (apply due_elem; by eapply list_elem_of_lookup_2).
  destruct (inv_this _ _ H a t) as (al & Ha & Ht); [apply elem_of_app; by right|by eexists|].
  unfold alarm_this. change (io_alarms s) with (io_alarms s0). rewrite Ha, res_bind_ok.
  assert (abs s = abs s0) as Habs by by apply abs_same.
  destruct (once_ al) eqn:Eo; cbn [negb].
  - destruct (cancel_run (Some t) s a al) as (s' & -> & Hi & Hf & Hn & Hal & Hab); [done..|right; by exists t|].
    exists s', (callback_ al). split; [done|]. split; [done|]. split; [done|]. split; [done|]. right. exists al, e.
    rewrite Hab, Habs. rewrite (alter_found _ _ _ _ (abs_lookup _ _ _ Ha)).
    split; [done|]. split; [done|]. split; [done|]. split; [by eapply (inv_due _ _ H)|]. split; [done|]. by rewrite Eo.
  - rewrite Ht, Et. eexists _, (callback_ al). split; [done|].
    split; [eapply rearm_inv; try done; by eexists|]. split; [exact (fd_same_cancel t s)|]. split; [done|]. right. exists al, e.
    split; [done|]. split; [done|]. split; [done|]. split; [by eapply (inv_due _ _ H)|]. split; [done|].
    erewrite abs_update with (s := s0) (al := al).
    + unfold abs_of, set_deadline. rewrite Ht. cbn. rewrite lookup_insert_eq, Eo. done.
    + cbn. by rewrite insert_id.
    + intros a' al' t' Hn Ha' Ht'. cbn. rewrite lookup_insert_ne; [done|]. exact (other_timer _ _ _ _ _ _ _ _ H Ha Ht Hn Ha' Ht').
Qed.

(** [start] on a live alarm. *)
Lemma start_run s a al :
  timer_inv None s -> io_alarms s !! a = Some al ->
  exists s', alarm_start a s = Ok s' /\ timer_inv None s' /\ fd_same s s' /\
    abs s' = alter (arm (io_now s)) a (abs s).
Proof.
  intros H Ha. unfold alarm_start, alarm_this. rewrite Ha, res_bind_ok.
  rewrite (alter_found _ _ _ _ (abs_lookup _ _ _ Ha)).
  pose proof (inv_alarm _ _ H _ _ Ha) as Hs. destruct (started_ al) eqn:Est.
  - destruct Hs as (t & Ht & [e Hl]). exists s. split; [done|]. split; [done|]. split; [apply fd_same_refl|].
    unfold arm, abs_of at 1. rewrite Ht. cbn. rewrite Hl. by rewrite insert_id by by apply abs_lookup.
  - rewrite Hs. cbn [timer_reset]. eexists. split; [done|]. split; [by apply alarm_started_inv|].
    split; [by repeat split|].
    erewrite abs_update with (s := s); [|done|].
    + unfold abs_of, arm. rewrite Hs. cbn. by rewrite lookup_insert_eq.
    + intros a' al' t' Hn Ha' Ht'. cbn. rewrite lookup_insert_ne; [done|]. intros <-.
      pose proof (inv_alarm _ _ H _ _ Ha') as Hs'. destruct (started_ al'); [|congruence].
      destruct Hs' as (t & Ht & Hl). simplify_eq. destruct (inv_live _ _ H _ Hl). lia.
Qed.

(** The destructor. *)
Lemma destroy_run s a al :
  timer_inv None s -> io_alarms s !! a = Some al ->
  exists s', alarm_destroy a s = Ok s' /\ timer_inv None s' /\ fd_same s s' /\ abs s' = delete a (abs s).
Proof.
  intros H Ha. destruct (cancel_run None s a al) as (s1 & Hc & Hi & Hf & Hn & Hal & Hab); [done..|by left|].
  assert (io_alarms s1 !! a = Some (alarm_set_timer None false al)) as Ha1 by (by rewrite Hal, lookup_insert_eq).
  unfold alarm_destroy. rewrite Hc, res_bind_ok. unfold alarm_this. rewrite Ha1, res_bind_ok. cbn [alarm_set_timer timer_ timer_reset].
  eexists. split; [done|]. split; [by eapply del_inv|]. split; [exact Hf|].
  unfold abs at 1. cbn. rewrite fmap_delete. change (_ <$> io_alarms s1) with (abs s1).
  rewrite Hab, (alter_found _ _ _ _ (abs_lookup _ _ _ Ha)). by rewrite delete_insert_eq.
Qed.
End IoSteps.

Section IoSafe.
Context {C : Type}.
Implicit Types (s : io C).

(** What the descriptors leave of the alarms. *)
Definition timer_same s s' : Prop :=
  io_alarms s' = io_alarms s /\ io_timers s' = io_timers s /\ io_next s' = io_next s /\ io_waits s' = io_waits s /\
  due s' = due s /\ io_now s' = io_now s.

Lemma timer_inv_same s s' : timer_inv None s -> timer_same s s' -> timer_inv None s' /\ abs s' = abs s.
Proof.
  intros H (Ha & Ht & Hx & Hw & Hd & Hn). split; [|by apply abs_same].
  apply (timer_inv_frame s); try done.
  - unfold pend. by rewrite Hw, Hd.
  - intros a t e. rewrite Hd, Hn. exact (inv_due _ _ H a t e).
Qed.

Lemma fd_registered_false fd s : fd_registered fd s = false -> forall a e, io_entries s !! a = Some e -> fd_ e <> fd.
Proof.
  unfold fd_registered. rewrite bool_decide_eq_false. intros Hn a e He Hf. apply Hn. by exists a, e.
Qed.

Lemma addFdEntry_run a fd cb s :
  fd_inv s -> io_entries s !! a = None -> fd_registered fd s = false ->
  exists s', addFdEntry a fd cb s = Ok s' /\ fd_inv s' /\ timer_same s s' /\
    entries_ s' = <[fd := a]> (entries_ s) /\ io_entries s' = <[a := mk_FdEntry fd cb]> (io_entries s).
Proof.
  intros H Ha Hr. unfold addFdEntry, new_FdEntry. rewrite Hr, res_bind_ok.
  pose proof (fd_registered_false _ _ Hr) as Hf.
  assert (entries_ s !! fd = None) as Hnone.
  { destruct (entries_ s !! fd) as [b|] eqn:E; [|done]. apply (inv_entries _ H) in E as (e & He & <-). by eapply Hf in He. }
  cbn. rewrite Hnone. eexists. split; [done|]. split; [|by repeat split].
  split; cbn.
  - apply NoDup_app. split; [exact (inv_reads_nodup _ H)|]. split; [|apply NoDup_singleton].
    intros b Hb ->%list_elem_of_singleton. apply (inv_reads _ H) in Hb. rewrite Ha in Hb. by destruct Hb.
  - intros b. rewrite elem_of_app, list_elem_of_singleton, lookup_insert_is_Some', (inv_reads _ H).
    split; intros [|]; auto.
  - exact (inv_fdq _ H).
  - intros fd' b. rewrite lookup_insert_Some, (inv_entries _ H). setoid_rewrite lookup_insert_Some. split.
    + intros [[<- <-]|[Hn (e & He & Hfd)]]; [by exists (mk_FdEntry fd cb); auto|].
      exists e. split; [|done]. right. split; [congruence|done].
    + intros (e & [[<- <-]|[Hn He]] & Hfd); [by left|]. right. split; [|by exists e]. intros <-. by eapply Hf in He.
Qed.

Lemma FdEntry_destroy_due a s : due (FdEntry_destroy a s) = due s.
Proof. unfold due. cbn. by rewrite omap_app, completed_aborted, app_nil_r. Qed.

Lemma delFdEntry_run fd s :
  fd_inv s -> fd_inv (delFdEntry fd s) /\ timer_same s (delFdEntry fd s) /\ entries_ (delFdEntry fd s) = delete fd (entries_ s).
Proof.
  intros H. unfold delFdEntry. destruct (entries_ s !! fd) as [a|] eqn:E.
  2: { split; [done|]. split; [by repeat split|]. by rewrite delete_id. }
  split; [|split; [|done]; repeat split; apply FdEntry_destroy_due].
  pose proof (proj1 (inv_entries _ H fd a) E) as (e & He & Hfd).
  split; cbn.
  - apply NoDup_filter, (inv_reads_nodup _ H).
  - intros b. rewrite list_elem_of_filter, lookup_delete_is_Some, (inv_reads _ H). naive_solver.
  - intros b ec. rewrite elem_of_app, list_elem_of_fmap. intros [Hq|(r & [= -> ->] & _)]; [|done]. by eapply (inv_fdq _ H).
  - intros fd' b. rewrite lookup_delete_Some, (inv_entries _ H). setoid_rewrite lookup_delete_Some. split.
    + intros [Hn (e' & He' & Hfd')]. exists e'. split; [|done]. split; [|done]. intros ->. congruence.
    + intros (e' & [Hn He'] & Hfd'). split; [|by exists e'].
      intros <-. apply Hn. assert (entries_ s !! fd = Some b) as Eb.
      { apply (inv_entries _ H). exists e'. split; congruence. }
      congruence.
Qed.

Lemma ready_run n a s :
  fd_inv s -> io_reads s !! n = Some a ->
  exists s' e, io_entries s !! a = Some e /\
    handleFdEvent success a (set_ops (io_now s) (io_waits s) (io_queue s) (delete n (io_reads s)) s) = Ok (s', Some (fd_callback_ e)) /\
    fd_inv s' /\ timer_same s s'.
Proof.
  intros H Hn.
  assert (is_Some (io_entries s !! a)) as [e He] by (apply (inv_reads _ H); by eapply list_elem_of_lookup_2).
  assert (delete n (io_reads s) ++ [a] ≡ₚ io_reads s) as Hp.
  { rewrite (delete_Permutation _ _ _ Hn) at 2. by rewrite <-Permutation_cons_append. }
  eexists _, e. split; [done|]. unfold handleFdEvent. rewrite decide_True by done. cbn. rewrite He.
  split; [done|]. split; [|by repeat split]. split; cbn.
  - rewrite Hp. exact (inv_reads_nodup _ H).
  - intros b. rewrite Hp. exact (inv_reads _ H b).
  - exact (inv_fdq _ H).
  - exact (inv_entries _ H).
Qed.

(** An aborted handler leaves the queue and does nothing. *)
Lemma aborted_run n h ec s :
  io_inv s -> io_queue s !! n = Some (h, ec) -> ec <> success ->
  let s' := set_ops (io_now s) (io_waits s) (delete n (io_queue s)) (io_reads s) s in
  run_handler h ec s' = Ok (s', None) /\ io_inv s' /\ abs s' = abs s.
Proof.
  intros [Ht Hf] Hq Hec s'. split; [|split].
  - destruct h; cbn; unfold timerHandler, handleFdEvent; by case_decide.
  - assert (due s' ≡ₚ due s) as Hd.
    { unfold due. cbn. rewrite (delete_Permutation _ _ _ Hq) at 2. cbn. by destruct h, ec. }
    split; [|by eapply fd_inv_same, fd_same_dequeue].
    apply (timer_inv_frame s); try done.
    + unfold pend. by rewrite Hd.
    + intros a t e. rewrite Hd. exact (inv_due _ _ Ht a t e).
  - by apply abs_same.
Qed.

Lemma expire_run n a t e s :
  timer_inv None s -> io_waits s !! n = Some (a, t) -> io_timers s !! t = Some e -> e <= io_now s ->
  timer_inv None (set_ops (io_now s) (delete n (io_waits s)) (io_queue s ++ [(TimerHandler a t, success)]) (io_reads s) s).
Proof.
  intros H Hn Ht He. set (s' := set_ops _ _ _ _ _).
  assert (due s' = due s ++ [(a, t)]) as Hd by (unfold due; cbn; by rewrite omap_app).
  apply (timer_inv_frame s); try done.
  - unfold pend. rewrite Hd. cbn. rewrite (delete_Permutation _ _ _ Hn) at 2.
    rewrite app_assoc, <-Permutation_cons_append. done.
  - intros a' t' e'. rewrite Hd, elem_of_app, list_elem_of_singleton. intros [Hin|[= -> ->]] Ht'.
    + exact (inv_due _ _ H a' t' e' Hin Ht').
    + by simplify_eq.
Qed.

Lemma fd_same_expire n a t s :
  fd_same s (set_ops (io_now s) (delete n (io_waits s)) (io_queue s ++ [(TimerHandler a t, success)]) (io_reads s) s).
Proof.
  repeat split; try done. intros b ec. cbn. rewrite elem_of_app, list_elem_of_singleton. by intros [|].
Qed.

Lemma time_inv ms s :
  0 <= ms -> timer_inv None s -> timer_inv None (set_ops (io_now s + ms) (io_waits s) (io_queue s) (io_reads s) s).
Proof.
  intros Hms H. apply (timer_inv_frame s); try done. intros a t e Hd Ht. cbn.
  pose proof (inv_due _ _ H a t e Hd Ht). lia.
Qed.
End IoSafe.

(** * The theorems *)

Section IoTheorems.
Context {C : Type}.
Implicit Types (s : io C).

(** Every enabled step of a state that satisfies the invariant succeeds, keeps the
    invariant and is a step of the alarm service. *)
Lemma step_run x s :
  io_inv s -> enabled x s ->
  exists s' r, perform x s = Ok (s', r) /\ io_inv s' /\ alarm_step (io_now s) (abs s) x (fires x s) r (abs s').
Proof.
  intros [Ht Hf] He. destruct x as [a name p once cb|a|a|a|a fd cb|fd|ms|n|n|n]; cbn [enabled] in He; cbn [perform fires].
  - eexists _, None. split; [done|]. split; [split; [by apply new_inv|apply (fd_inv_same s); [done|by repeat split]]|].
    unfold abs at 2. cbn. rewrite fmap_insert. apply abs_new.
  - destruct He as [al Ha]. destruct (start_run s a al Ht Ha) as (s' & Hs & Hi & Hfs & Hab).
    exists s', None. rewrite Hs. split; [done|]. split; [split; [done|by eapply fd_inv_same]|]. rewrite Hab. constructor.
  - destruct He as [al Ha]. destruct (cancel_run None s a al) as (s' & Hs & Hi & Hfs & _ & _ & Hab); [done..|by left|].
    exists s', None. rewrite Hs. split; [done|]. split; [split; [done|by eapply fd_inv_same]|]. rewrite Hab. constructor.
  - destruct He as [al Ha]. destruct (destroy_run s a al Ht Ha) as (s' & Hs & Hi & Hfs & Hab).
    exists s', None. rewrite Hs. split; [done|]. split; [split; [done|by eapply fd_inv_same]|]. rewrite Hab. constructor.
  - destruct He as [Ha Hr]. destruct (addFdEntry_run a fd cb s Hf Ha Hr) as (s' & Hs & Hi & Hts & _).
    destruct (timer_inv_same s s' Ht Hts) as [Hti Hab].
    exists s', None. rewrite Hs. split; [done|]. split; [done|]. rewrite Hab. by constructor.
  - destruct (delFdEntry_run fd s Hf) as (Hi & Hts & _). destruct (timer_inv_same _ _ Ht Hts) as [Hti Hab].
    eexists _, None. split; [done|]. split; [done|]. rewrite Hab. by constructor.
  - eexists _, None. split; [done|]. split; [split; [by apply time_inv|apply (fd_inv_same s); [done|by repeat split]]|].
    by apply (abs_quiet _ (abs s)).
  - destruct He as (a & t & e & Hn & Het & Hle). rewrite Hn. eexists _, None. split; [done|].
    split; [split; [by eapply expire_run|by eapply fd_inv_same, fd_same_expire]|].
    by apply (abs_quiet _ (abs s)).
  - destruct He as [[h ec] Hq]. rewrite Hq. destruct (decide (ec = success)) as [->|Hec].
    2: { destruct (aborted_run n h ec s (conj Ht Hf) Hq Hec) as (Hr & Hi & Hab). eexists _, None.
         split; [exact Hr|]. split; [done|]. rewrite Hab. destruct h, ec; try done; by constructor. }
    destruct h as [a t|a].
    2: { exfalso. eapply (inv_fdq _ Hf a success); [by eapply list_elem_of_lookup_2|done]. }
    destruct (timerHandler_run s n a t Ht Hq) as (s' & r & Hs & Hi & Hfs & Hnow & Hcase).
    exists s', r. split; [exact Hs|].
    split; [split; [done|eapply fd_inv_same; [by eapply fd_inv_same, fd_same_dequeue|exact Hfs]]|].
    destruct Hcase as [(Hd0 & -> & ->)|(al & e & Ha & Hta & Het & Hle & -> & ->)]; [rewrite Hd0|rewrite Het; cbn].
    + by apply (abs_quiet _ (abs s)).
    + change (callback_ al) with (ab_callback (abs_of s al)).
      apply (abs_fire _ _ n a (abs_of s al) e); [by apply abs_lookup| |done].
      cbn. by rewrite Hta.
  - destruct He as [a Ha]. rewrite Ha. destruct (ready_run n a s Hf Ha) as (s' & e & _ & Hs & Hi & Hts).
    destruct (timer_inv_same _ _ Ht Hts) as [Hti Hab]. exists s', (Some (fd_callback_ e)). split; [exact Hs|]. split; [done|].
    rewrite Hab. constructor.
Qed.

Lemma io_init_inv : io_inv (C := C) io_init.
Proof.
  split; split; cbn; intros *; rewrite ?lookup_empty; try done; try constructor; try set_solver.
Qed.

(** Time does not go back. *)
Lemma cancel_now a s s' : alarm_cancel a s = Ok s' -> io_now s' = io_now s.
Proof. unfold alarm_cancel. intros (al & _ & H)%res_bind_inv. repeat case_match; by simplify_eq. Qed.

Lemma perform_now x s s' r : enabled x s -> perform x s = Ok (s', r) -> io_now s <= io_now s'.
Proof.
  intros He. destruct x; cbn [perform enabled] in *; unfold without_cb; intros H;
    repeat match goal with
    | H : (_ ≫= _) = Ok _ |- _ => apply res_bind_inv in H as (? & ? & ?)
    | H : alarm_cancel _ _ = Ok _ |- _ => apply cancel_now in H
    | H : alarm_start _ _ = Ok _ |- _ => unfold alarm_start in H
    | H : alarm_destroy _ _ = Ok _ |- _ => unfold alarm_destroy in H
    | H : addFdEntry _ _ _ _ = Ok _ |- _ => unfold addFdEntry, new_FdEntry in H
    | H : run_handler _ _ _ = Ok _ |- _ => unfold run_handler, timerHandler, handleFdEvent in H
    | H : handleFdEvent _ _ _ = Ok _ |- _ => unfold handleFdEvent in H
    | |- context [delFdEntry] => unfold delFdEntry
    | _ => case_match
    | _ => progress simplify_eq
    end; unfold timer_reset in *; repeat case_match; cbn in *; lia.
Qed.

(** Only the calls of the scheduler change its entries. *)
Lemma cancel_entries a s s' : alarm_cancel a s = Ok s' -> io_entries s' = io_entries s.
Proof. unfold alarm_cancel. intros (al & _ & H)%res_bind_inv. repeat case_match; by simplify_eq. Qed.

Lemma run_entries n s s' r : perform (ARun n) s = Ok (s', r) -> io_entries s' = io_entries s.
Proof.
  cbn [perform]. intros H.
  repeat match goal with
    | H : (_ ≫= _) = Ok _ |- _ => apply res_bind_inv in H as (? & ? & ?)
    | H : alarm_cancel _ _ = Ok _ |- _ => apply cancel_entries in H
    | H : run_handler _ _ _ = Ok _ |- _ => unfold run_handler, timerHandler, handleFdEvent in H
    | _ => case_match
    | _ => progress simplify_eq
    end; done.
Qed.

Lemma io_run_inv s tr s' : io_run s tr s' -> io_inv s -> io_inv s'.
Proof.
  induction 1 as [|s tr s1 x r s2 _ IH Hen Hp]; [done|]. intros Hi.
  destruct (step_run x s1 (IH Hi) Hen) as (s' & r' & Hp' & Hi' & _). rewrite Hp in Hp'. by injection Hp' as <- <-.
Qed.

Lemma io_run_app s tr s1 x r s2 tr2 :
  io_run s tr s1 -> enabled x s1 -> perform x s1 = Ok (s2, r) -> tr2 = tr ++ [(x, fires x s1)] -> io_run s tr2 s2.
Proof. intros H1 He Hp ->. by eapply io_run_snoc. Qed.

(** The wait of an armed alarm is outstanding or its handler is queued. *)
Lemma armed_pending s a v e :
  io_inv s -> abs s !! a = Some v -> ab_deadline v = Some e ->
  exists t, io_timers s !! t = Some e /\ (a, t) ∈ pend s.
Proof.
  intros [H _] Hv Hd. unfold abs in Hv. rewrite lookup_fmap in Hv.
  destruct (io_alarms s !! a) as [al|] eqn:Ha; [|done]. cbn in Hv. simplify_eq. cbn in Hd.
  destruct (timer_ al) as [t|] eqn:Ht; [|done]. cbn in Hd. exists t. split; [done|].
  destruct (inv_live _ _ H t) as [_ [a' Hp]]; [by eexists|done|].
  destruct (inv_this _ _ H a' t Hp) as (al' & Ha' & Ht'); [by eexists|].
  by rewrite (inv_inj _ _ H _ _ _ _ _ Ha Ha' Ht Ht').
Qed.

(** An alarm whose deadline has come fires in the next turns of the loop. *)
Lemma fires_next s a v e :
  io_inv s -> abs s !! a = Some v -> ab_deadline v = Some e -> e <= io_now s ->
  exists tr n s', io_run s (tr ++ [(ARun n, Some a)]) s' /\ (tr = [] \/ exists m, tr = [(AExpire m, None)]).
Proof.
  intros Hi Hv Hd He. destruct (armed_pending s a v e Hi Hv Hd) as (t & Ht & Hp).
  apply elem_of_app in Hp as [[m Hm]%list_elem_of_lookup|[n Hn]%due_elem%list_elem_of_lookup].
  - assert (enabled (AExpire m) s) as Hen by by exists a, t, e.
    destruct (step_run _ s Hi Hen) as (s1 & r & Hs & Hi1 & _). pose proof Hs as Hq. cbn in Hq. rewrite Hm in Hq.
    injection Hq as <- <-. set (s1 := set_ops _ _ _ _ _) in *.
    assert (io_queue s1 !! length (io_queue s) = Some (TimerHandler a t, success)) as Hlast.
    { cbn. by rewrite lookup_app_r, Nat.sub_diag by done. }
    destruct (step_run (ARun (length (io_queue s))) s1 Hi1) as (s2 & r2 & Hs2 & _ & _); [by eexists|].
    exists [(AExpire m, None)], (length (io_queue s)), s2. split; [|by right; exists m].
    eapply (io_run_app s _ s1 (ARun (length (io_queue s)))); [eapply (io_run_app s [] s); [exact (io_run_nil s)|exact Hen|exact Hs|reflexivity]|exact (mk_is_Some _ _ Hlast)|exact Hs2|].
    cbn [app]. do 2 f_equal. unfold fires. rewrite Hlast. change (io_timers s1) with (io_timers s). by rewrite Ht.
  - destruct (step_run (ARun n) s Hi) as (s2 & r2 & Hs2 & _ & _); [by eexists|].
    exists [], n, s2. split; [|by left]. eapply (io_run_app s [] s (ARun n)); [exact (io_run_nil s)|exact (mk_is_Some _ _ Hn)|exact Hs2|].
    cbn. rewrite Hn, Ht. done.
Qed.

(** The calls that end the series of an alarm. *)
Definition stops (a : Z) (x : act C) : Prop :=
  match x with ACancel b | ADestroy b => b = a | _ => False end.

(** How often an alarm fires in a run. *)
Definition fired (a : Z) (tr : list (act C * option Z)) : Z :=
  Z.of_nat (length (filter (fun xf => xf.2 = Some a) tr)).

Lemma fired_snoc a tr x f : fired a (tr ++ [(x, f)]) = fired a tr + if decide (f = Some a) then 1 else 0.
Proof.
  unfold fired. rewrite filter_app, length_app, filter_cons, filter_nil. cbn. case_decide; cbn; lia.
Qed.

(** One step of the service as the series of a periodic alarm sees it. *)
Lemma alarm_step_series now m x f r m' a v d :
  alarm_step now m x f r m' -> m !! a = Some v -> ab_once v = false -> ab_deadline v = Some d ->
  ~ stops a x -> (forall name p once cb, x <> ANew a name p once cb) ->
  let k := if decide (f = Some a) then 1 else 0 in
  m' !! a = Some (set_deadline (Some (d + k * ab_period v)) v) /\ (k = 1 -> d <= now).
Proof.
  intros Hst Hv Ho Hd Hn Hnew k.
  assert (set_deadline (Some (d + 0 * ab_period v)) v = v) as H0.
  { unfold set_deadline. rewrite Z.add_0_r, <-Hd. by destruct v. }
  inversion Hst; subst; subst k; cbn [stops] in *; try (rewrite decide_False by done; rewrite H0; split; [|done]).
  - rewrite lookup_insert_ne; [done|]. intros ->. by eapply Hnew.
  - destruct (decide (a0 = a)) as [->|Hne]; [|by rewrite lookup_alter_ne].
    rewrite lookup_alter_eq, Hv. cbn. unfold arm. by rewrite Hd.
  - by rewrite lookup_alter_ne.
  - by rewrite lookup_delete_ne.
  - destruct (decide (a0 = a)) as [->|Hne].
    + simplify_eq. rewrite decide_True by done. rewrite lookup_insert_eq, Ho, Z.mul_1_l. done.
    + rewrite decide_False by congruence. rewrite H0, lookup_insert_ne by done. done.
  - done.
  - done.
Qed.

Lemma series s tr s' a v e :
  io_run s tr s' -> io_inv s -> abs s !! a = Some v -> ab_once v = false -> ab_deadline v = Some e ->
  Forall (fun xf => ~ stops a xf.1) tr ->
  abs s' !! a = Some (set_deadline (Some (e + fired a tr * ab_period v)) v) /\
  (0 < fired a tr -> e + (fired a tr - 1) * ab_period v <= io_now s').
Proof.
  intros Hr Hi Hv Ho He. induction Hr as [s|s tr s1 x r s2 Hr IH Hen Hp]; intros Hall.
  { cbn. rewrite Z.add_0_r, <-He. split; [|by unfold fired; cbn]. rewrite Hv. by destruct v. }
  apply Forall_app in Hall as [Hall [Hx _]%Forall_cons]. destruct (IH Hi Hv Hall) as [Hv1 Hlate].
  pose proof (io_run_inv _ _ _ Hr Hi) as Hi1.
  destruct (step_run x s1 Hi1 Hen) as (s' & r' & Hp' & _ & Hst). rewrite Hp in Hp'. injection Hp' as <- <-.
  pose proof (perform_now _ _ _ _ Hen Hp) as Hnow.
  destruct (alarm_step_series _ _ _ _ _ _ a _ _ Hst Hv1 Ho eq_refl Hx) as [Hv2 Hk].
  { intros name p once cb ->. cbn in Hen. unfold abs in Hv1. rewrite lookup_fmap, Hen in Hv1. done. }
  rewrite fired_snoc. rewrite Hv2. cbn in Hk |- *. case_decide; split.
  - unfold set_deadline. cbn. do 3 f_equal. lia.
  - intros _. specialize (Hk eq_refl). lia.
  - unfold set_deadline. cbn. do 3 f_equal. lia.
  - rewrite Z.add_0_r. intros Hpos. specialize (Hlate Hpos). lia.
Qed.

(** C22: Alarms are memory safe and do what they are for. From the start of the
    gateway, whatever the modules and the loop do, every step that may happen next
    returns: no handler that is still queued touches an alarm or a descriptor entry that was
    destroyed in the meantime, although the handlers are bound to raw pointers. And
    the step is one of a service with one deadline per alarm: only an alarm that is
    started and whose deadline has come calls its callback, a cancelled or destroyed
    alarm does not, a one-shot alarm fires once. *)
Theorem alarms_refine tr s x :
  io_run (C := C) io_init tr s -> enabled x s ->
  exists s' r, perform x s = Ok (s', r) /\ alarm_step (io_now s) (abs s) x (fires x s) r (abs s').
Proof.
  intros Hr He. destruct (step_run x s) as (s' & r & Hs & _ & Ha); [by eapply io_run_inv, io_init_inv|done|]. eauto.
Qed.

(** A periodic alarm keeps its pace. However late the loop runs it, after [k]
    callbacks its deadline is the first one plus exactly [k] periods, each callback
    was called at or after its own deadline, and once the deadline has come the
    callback is at most two turns of the loop away, so none is skipped. *)
Theorem alarm_punctual tr0 s tr s' a v e :
  io_run (C := C) io_init tr0 s -> abs s !! a = Some v -> ab_once v = false -> ab_deadline v = Some e ->
  io_run s tr s' -> Forall (fun xf => ~ stops a xf.1) tr ->
  let k := fired a tr in
  abs s' !! a = Some (set_deadline (Some (e + k * ab_period v)) v) /\
  (0 < k -> e + (k - 1) * ab_period v <= io_now s') /\
  (e + k * ab_period v <= io_now s' ->
   exists tr' n s'', io_run s' (tr' ++ [(ARun n, Some a)]) s'' /\ (tr' = [] \/ exists m, tr' = [(AExpire m, None)])).
Proof.
  intros H0 Hv Ho He Hr Hall. pose proof (io_run_inv _ _ _ H0 io_init_inv) as Hi.
  destruct (series s tr s' a v e) as [Hv' Hlate]; [done..|]. split; [exact Hv'|]. split; [exact Hlate|].
  intros Hdue. eapply fires_next; [by eapply io_run_inv|exact Hv'|done|exact Hdue].
Qed.
End IoTheorems.

(** * Runs by evaluation *)

Section IoExec.
Context {C : Type}.

Fixpoint perform_all (xs : list (act C)) (s : io C) : res (list (act C * option Z) * io C) :=
  match xs with
  | [] => Ok ([], s)
  | x :: xs =>
      r ← perform x s;
      r2 ← perform_all xs r.1;
      Ok ((x, fires x s) :: r2.1, r2.2)
  end.

Fixpoint all_enabled (xs : list (act C)) (s : io C) : Prop :=
  match xs with
  | [] => True
  | x :: xs => enabled x s /\ match perform x s with Ok (s1, _) => all_enabled xs s1 | Fault _ => False end
  end.

Lemma io_run_cons (s : io C) x r s1 tr s2 :
  enabled x s -> perform x s = Ok (s1, r) -> io_run s1 tr s2 -> io_run s ((x, fires x s) :: tr) s2.
Proof.
  intros He Hp. induction 1 as [|s1 tr s2 y r' s3 _ IH Hen Hp'].
  - exact (io_run_snoc s [] s x r _ (io_run_nil s) He Hp).
  - rewrite app_comm_cons. eapply io_run_snoc; eauto.
Qed.

Lemma io_run_exec xs (s : io C) tr s' : all_enabled xs s -> perform_all xs s = Ok (tr, s') -> io_run s tr s'.
Proof.
  revert s tr. induction xs as [|x xs IH]; cbn; intros s tr.
  - intros _ [= <- <-]. constructor.
  - intros [He Hall]. destruct (perform x s) as [[s1 r]|] eqn:Hp; [|done]. cbn.
    destruct (perform_all xs s1) as [[tr1 s2]|] eqn:Hx; [|done]. cbn. intros [= <- <-].
    eapply io_run_cons; eauto.
Qed.
End IoExec.

(** A periodic alarm at address 1 that has been started, and the same after its
    first callback, which came 30 ms late. *)
Definition ticking : list (act Z) := [ANew 1 [] 100 false (Some 7); AStart 1].
Definition ticked : list (act Z) := [ATime 130; AExpire 0; ARun 0].
Definition dropped : list (act Z) := ticking ++ [ATime 130; AExpire 0; ADestroy 1].
Definition state_after (xs : list (act Z)) : io Z :=
  match perform_all xs io_init with Ok (_, s) => s | Fault _ => io_init end.
Definition trace_from (s : io Z) (xs : list (act Z)) : list (act Z * option Z) :=
  match perform_all xs s with Ok (tr, _) => tr | Fault _ => [] end.

(** The handler of an alarm destroyed after its wait completed is called. *)
Lemma alarms_refine_witness :
  exists s' r, perform (ARun 0) (state_after dropped) = Ok (s', r) /\ r = None.
Proof.
  destruct (alarms_refine (trace_from io_init dropped) (state_after dropped) (ARun 0)) as (s' & r & H & _).
  - eapply (io_run_exec dropped); [|vm_compute; reflexivity].
    vm_compute. repeat split; eauto; try (intros [=]); try discriminate. do 3 eexists. repeat split; discriminate.
  - vm_compute. eauto.
  - exists s', r. split; [exact H|]. revert H. vm_compute. intros [= _ <-]. reflexivity.
Defined.

Lemma alarm_punctual_witness :
  ab_deadline <$> abs (state_after (ticking ++ ticked)) !! 1 = Some (Some 200).
Proof.
  destruct (alarm_punctual (trace_from io_init ticking) (state_after ticking)
      (trace_from (state_after ticking) ticked)
      (state_after (ticking ++ ticked)) 1 (mk_abs 100 false (Some 7) (Some 100)) 100) as (H & _).
  - apply (io_run_exec ticking); [vm_compute; repeat split; eauto|vm_compute; reflexivity].
  - vm_compute. reflexivity.
  - reflexivity.
  - reflexivity.
  - apply (io_run_exec ticked); [|vm_compute; reflexivity].
    vm_compute. repeat split; eauto; try discriminate. do 3 eexists. repeat split; discriminate.
  - vm_compute. repeat constructor; intros [].
  - rewrite H. vm_compute. reflexivity.
Defined.
