(* ===== verification/GwCoap.v ===== *)
(** The gateway's CoAP client (coap/AtlasCoapClient.cpp, coap/AtlasCoapRequest.h):
    one libcoap context per request, a time-out alarm and a descriptor entry for each
    in the event loop of GwIo.v, and the user's callback, which a response or the
    time-out calls.

    libcoap and [getaddrinfo] are those of [Env], with the laws of [EnvLaws]; what the
    gateway uses in addition is [CoapHost]. Contexts and sessions are pointers. The
    user's callbacks are any code that calls the client again: a function from the
    answer and the state to the calls it makes. [cc_log] records what is sent and
    which callbacks are called. *)
From S2P Require Import Prelude Defs CLib State SimEnv CoapClient GwDefs GwIo.
Import GwType.

(** Options and allocation: the options [coap_split_path] and [coap_split_query]
    write into a buffer of 128 bytes, and an address that is not one of the given. *)
Class CoapHost (E : Env) := {
  coap_split_path : list byte -> list (list byte);
  coap_split_query : list byte -> list (list byte);
  new_address : gset Z -> ext -> Z;
}.

Inductive coap_option : Type :=
  | COAP_OPTION_URI_PATH (value : list byte)
  | COAP_OPTION_URI_QUERY (value : list byte).

(** The callbacks the client binds, and those of other modules. *)
Inductive io_cb : Set :=
  | cb_alarmCallback (ctx fd : Z)
  | cb_scheduleCallback (ctx fd : Z)
  | cb_other (n : Z).

#[export] Instance io_cb_eq_dec : EqDecision io_cb.
Proof. solve_decision. Defined.

Section GwCoap.
Context {E : Env} {CH : CoapHost E} `{HostEndian} {U : Type}.

(** coap/AtlasCoapRequest.h; the default constructor leaves the token unset. *)
Record AtlasCoapRequest := mk_AtlasCoapRequest {
  context_ : option Z;
  session_ : option Z;
  req_callback_ : option U;
  req_token_ : option Z;
}.
Definition default_AtlasCoapRequest : AtlasCoapRequest := mk_AtlasCoapRequest None None None None.

Inductive cc_event : Type :=
  | CcSend (ctx session : Z) (method : atlas_coap_method) (token : Z) (options : list coap_option) (payload : list byte)
  | CcRst (session : Z)
  | CcCallback (ctx : Z) (resp : AtlasCoapResponse) (payload : option (list byte))
  | CcCancel (ctx : Z).       (* [cancelRequest] of a request that is there *)

Record coap_client := mk_coap_client {
  cc_io : io io_cb;
  requests_ : gmap Z AtlasCoapRequest;
  timeouts_ : gmap Z Z;
  token_ : Z;
  dtlsIdentity_ : list byte;
  dtlsKey_ : list byte;
  cc_ext : ext;
  cc_log : list cc_event;
}.

Definition set_io (s : io io_cb) (c : coap_client) : coap_client :=
  mk_coap_client s (requests_ c) (timeouts_ c) (token_ c) (dtlsIdentity_ c) (dtlsKey_ c) (cc_ext c) (cc_log c).
Definition set_requests (m : gmap Z AtlasCoapRequest) (c : coap_client) : coap_client :=
  mk_coap_client (cc_io c) m (timeouts_ c) (token_ c) (dtlsIdentity_ c) (dtlsKey_ c) (cc_ext c) (cc_log c).
Definition set_timeouts_ (m : gmap Z Z) (c : coap_client) : coap_client :=
  mk_coap_client (cc_io c) (requests_ c) m (token_ c) (dtlsIdentity_ c) (dtlsKey_ c) (cc_ext c) (cc_log c).
Definition set_token_ (t : Z) (c : coap_client) : coap_client :=
  mk_coap_client (cc_io c) (requests_ c) (timeouts_ c) t (dtlsIdentity_ c) (dtlsKey_ c) (cc_ext c) (cc_log c).
Definition set_dtls_ (identity psk : list byte) (c : coap_client) : coap_client :=
  mk_coap_client (cc_io c) (requests_ c) (timeouts_ c) (token_ c) identity psk (cc_ext c) (cc_log c).
Definition set_cc_ext (x : ext) (c : coap_client) : coap_client :=
  mk_coap_client (cc_io c) (requests_ c) (timeouts_ c) (token_ c) (dtlsIdentity_ c) (dtlsKey_ c) x (cc_log c).
Definition set_log (l : list cc_event) (c : coap_client) : coap_client :=
  mk_coap_client (cc_io c) (requests_ c) (timeouts_ c) (token_ c) (dtlsIdentity_ c) (dtlsKey_ c) (cc_ext c) l.

(** * The monad *)

Definition K (A : Type) : Type := coap_client -> res (A * coap_client).

#[global] Instance K_ret : MRet K := fun A a c => Ok (a, c).
#[global] Instance K_bind : MBind K := fun A B k m c =>
  match m c with Ok (a, c) => k a c | Fault f => Fault f end.

Definition kget {A} (f : coap_client -> A) : K A := fun c => Ok (f c, c).
Definition kmodify (f : coap_client -> coap_client) : K unit := fun c => Ok (tt, f c).
Definition kfail {A} (f : fault) : K A := fun _ => Fault f.
Definition kcall {A} (f : ext -> A * ext) : K A := fun c =>
  let '(a, x) := f (cc_ext c) in Ok (a, set_cc_ext x c).
Definition klog (e : cc_event) : K unit := kmodify (fun c => set_log (cc_log c ++ [e]) c).

(** An operation of the event loop, and one that ends with a callback. *)
Definition kio (f : io io_cb -> res (io io_cb)) : K unit := fun c =>
  s ← f (cc_io c); Ok (tt, set_io s c).
Definition kturn (f : io io_cb -> res (io io_cb * option io_cb)) : K (option io_cb) := fun c =>
  r ← f (cc_io c); Ok (r.2, set_io r.1 c).

Fixpoint kfor {A} (l : list A) (body : A -> K unit) : K unit :=
  match l with
  | [] => mret tt
  | a :: l => _ ← body a; kfor l body
  end.

(** * Requests *)

Definition getToken : K Z :=
  t ← kget token_; _ ← kmodify (set_token_ (u32 (t + 1))); mret t.

(** [len] stays unassigned when no address is IPv4 or IPv6. *)
Definition resolveAddress (hostname : list byte) : K Z :=
  status ← kcall (getaddrinfo hostname);
  match status with
  | None => mret (-1)
  | Some res => match first_inet res with Some len => mret len | None => kfail Uninitialised end
  end.

(** Over DTLS the session gets the identity and the key of [setDtlsInfo]. *)
Definition getSession (ctx : Z) (dtls : bool) : K (option Z) := kcall (coap_new_client_session ctx dtls).

Definition validateToken (received : coap_pdu) (token : Z) : bool :=
  bool_decide (blen (pdu_token received) = 4) && bool_decide (pdu_token received = st32 token).

(** The loop on the query advances [bufTmp] but adds the option at [buf], the first. *)
Definition uri_options (u : coap_uri_t) : list coap_option :=
  (if decide (cu_path u = []) then [] else COAP_OPTION_URI_PATH <$> coap_split_path (cu_path u)) ++
  (if decide (cu_query u = []) then [] else
     match coap_split_query (cu_query u) with
     | [] => []
     | buf :: rest => (fun _ => COAP_OPTION_URI_QUERY buf) <$> buf :: rest
     end).

(** [timeouts_.erase]: the alarm goes with its [unique_ptr]. *)
Definition erase_timeout (ctx : Z) : K unit :=
  t ← kget timeouts_;
  match t !! ctx with
  | None => mret tt
  | Some a => _ ← kmodify (set_timeouts_ (delete ctx t)); kio (alarm_destroy a)
  end.
Definition erase_request (ctx : Z) : K unit := kmodify (fun c => set_requests (delete ctx (requests_ c)) c).

(** false when it throws *)
Definition addRequest (ctx session token timeout : Z) (callback : U) : K bool :=
  x ← kget cc_ext;
  let fd := coap_context_get_coap_fd ctx x in
  if decide (fd < 0) then mret false else
  (* Set alarm for the request *)
  s ← kget cc_io;
  let a := new_address (dom (io_alarms s)) x in
  _ ← kio (fun s => Ok (new_AtlasAlarm a (cstr "AtlasCoapClient") timeout true (Some (cb_alarmCallback ctx fd)) s));
  _ ← erase_timeout ctx;
  _ ← kmodify (fun c => set_timeouts_ (<[ctx := a]> (timeouts_ c)) c);
  _ ← kio (alarm_start a);
  (* Add CoAP request file descriptor to the scheduler *)
  _ ← kmodify (fun c => set_requests (<[ctx := mk_AtlasCoapRequest (Some ctx) (Some session) (Some callback) (Some token)]> (requests_ c)) c);
  s ← kget cc_io;
  _ ← kio (addFdEntry (new_address (dom (io_entries s)) x) fd (cb_scheduleCallback ctx fd));
  mret true.

(** The catch clause of [sendRequest]: [None] is the [AtlasCoapException]. *)
Definition send_failed (session ctx : option Z) : K (option Z) :=
  _ ← match session with Some s => kcall (fun x => (tt, coap_session_release s x)) | None => mret tt end;
  _ ← match ctx with Some ctx => kcall (fun x => (tt, coap_free_context ctx x)) | None => mret tt end;
  mret None.

(** The token of the request, which is its context, or [None] when it throws. *)
Definition sendRequest (uri : list byte) (method : atlas_coap_method) (reqPayload : option (list byte))
    (timeout : Z) (callback : U) : K (option Z) :=
  match coap_split_uri uri with
  | None => send_failed None None
  | Some coapUri =>
      (* Resolve CoAP hostname *)
      res ← resolveAddress (cu_host coapUri);
      if decide (res < 0) then send_failed None None else
      (* Context init *)
      octx ← kcall coap_new_context;
      match octx with
      | None => send_failed None None
      | Some ctx =>
          (* Get session *)
          osession ← getSession ctx (cu_coaps coapUri);
          match osession with
          | None => send_failed None (Some ctx)
          | Some session =>
              (* Create request PDU *)
              reqPdu ← kcall (coap_new_pdu session);
              if negb reqPdu then send_failed (Some session) (Some ctx) else
              (* Add token *)
              token ← getToken;
              added ← kcall (coap_add_token token);
              if negb added then send_failed (Some session) (Some ctx) else
              (* Add request *)
              ok ← addRequest ctx session token timeout callback;
              if negb ok then send_failed (Some session) (Some ctx) else
              (* Send request *)
              _ ← klog (CcSend ctx session method token (uri_options coapUri) (default [] reqPayload));
              mret (Some ctx)
          end
      end
  end.

Definition cancelRequest (context : option Z) : K unit :=
  match context with
  | None => mret tt
  | Some ctx =>
      t ← kget timeouts_;
      _ ← (if decide (is_Some (t !! ctx)) then klog (CcCancel ctx) else mret tt);
      _ ← erase_request ctx;
      erase_timeout ctx
  end.

Definition setDtlsInfo (identity psk : list byte) : K unit := kmodify (set_dtls_ identity psk).

(** What a module may call, in a callback or elsewhere. *)
Inductive call : Type :=
  | CallSend (uri : list byte) (method : atlas_coap_method) (reqPayload : option (list byte)) (timeout : Z) (callback : U)
  | CallCancel (context : option Z)
  | CallDtls (identity psk : list byte).

Definition do_call (k : call) : K unit :=
  match k with
  | CallSend uri method payload timeout cb => _ ← sendRequest uri method payload timeout cb; mret tt
  | CallCancel context => cancelRequest context
  | CallDtls identity psk => setDtlsInfo identity psk
  end.

(** The calls the callbacks of the modules make. *)
Context (user : U -> AtlasCoapResponse -> option (list byte) -> coap_client -> list call).

(** * Answers *)

(** [requests_[ctx]]: a default request is added when there is none. *)
Definition request_at (ctx : Z) : K AtlasCoapRequest :=
  m ← kget requests_;
  match m !! ctx with
  | Some r => mret r
  | None => _ ← kmodify (set_requests (<[ctx := default_AtlasCoapRequest]> m)); mret default_AtlasCoapRequest
  end.

(** [req.getCallback()(...)]: an empty [std::function] throws. *)
Definition call_back (ctx : Z) (req : AtlasCoapRequest) (resp : AtlasCoapResponse) (payload : option (list byte)) : K unit :=
  match req_callback_ req with
  | None => kfail Uncaught
  | Some u => _ ← klog (CcCallback ctx resp payload); calls ← kget (user u resp payload); kfor calls do_call
  end.

(** What the callback is told of a response. *)
Definition received_response (received : coap_pdu) : AtlasCoapResponse * option (list byte) :=
  if decide (pdu_type received = MSG_RST) then (ATLAS_COAP_RESP_RESET, None)
  else if decide (COAP_RESPONSE_CLASS (pdu_code received) = 2) then (ATLAS_COAP_RESP_OK, pdu_data received)
  else if decide (COAP_RESPONSE_CLASS (pdu_code received) = 4) then (ATLAS_COAP_RESP_NOT_FOUND, None)
  else (ATLAS_COAP_RESP_UNKNOWN, None).

Definition messageProcess (ctx : Z) (received : coap_pdu) : K unit :=
  req ← request_at ctx;
  if decide (context_ req <> Some ctx \/ session_ req <> Some (pdu_session received)) then mret tt else
  match req_token_ req with
  | None => kfail Uninitialised
  | Some token =>
      (* Validate token *)
      if negb (validateToken received token) then
        if bool_decide (pdu_type received = MSG_CON \/ pdu_type received = MSG_NON) && negb (pdu_sent received)
        then klog (CcRst (pdu_session received)) else mret tt
      else
        (let '(resp, payload) := received_response received in
        _ ← call_back ctx req resp payload;
        (* If callback is executed, then delete the requests and cancel the timeout *)
        _ ← erase_request ctx;
        erase_timeout ctx)
  end.

(** libcoap gives the received messages to the response handler one by one. *)
Definition scheduleCallback (ctx fd : Z) : K unit :=
  pdus ← kcall (coap_io_process ctx);
  _ ← kfor pdus (messageProcess ctx);
  (* Cancel scheduling entry if the requests does not exist anymore *)
  req ← request_at ctx;
  if decide (context_ req <> Some ctx) then kio (fun s => Ok (delFdEntry fd s)) else mret tt.

Definition alarmCallback (ctx coapFd : Z) : K unit :=
  req ← request_at ctx;
  _ ← (if decide (context_ req = Some ctx) then
         _ ← call_back ctx req ATLAS_COAP_RESP_TIMEOUT None;
         (* Cancel scheduler for client CoAP file descriptor *)
         _ ← kio (fun s => Ok (delFdEntry coapFd s));
         erase_request ctx
       else mret tt);
  erase_timeout ctx.

(** * The loop *)

(** Calls from elsewhere, alarms of other modules, and the turns of the loop. *)
Inductive cc_act :=
  | CcCall (k : call)
  | CcNew (a : Z) (name : list byte) (periodMs : Z) (once : bool) (n : Z)
  | CcStart (a : Z)
  | CcStop (a : Z)
  | CcDelete (a : Z)
  | CcTime (ms : Z)
  | CcExpire (n : nat)
  | CcRun (n : nat)
  | CcReady (n : nat).

Definition foreign (a : Z) (c : coap_client) : Prop :=
  exists v, abs (cc_io c) !! a = Some v /\
    match ab_callback v with Some (cb_alarmCallback _ _) => False | _ => True end.

Definition cc_enabled (x : cc_act) (c : coap_client) : Prop :=
  match x with
  | CcCall _ => True
  | CcNew a _ _ _ _ => io_alarms (cc_io c) !! a = None
  | CcStart a | CcStop a | CcDelete a => foreign a c
  | CcTime ms => 0 <= ms
  | CcExpire n => enabled (AExpire n) (cc_io c)
  | CcRun n => enabled (ARun n) (cc_io c)
  | CcReady n => enabled (AReady n) (cc_io c)
  end.

Definition run_cb (cb : option io_cb) : K unit :=
  match cb with
  | Some (cb_alarmCallback ctx fd) => alarmCallback ctx fd
  | Some (cb_scheduleCallback ctx fd) => scheduleCallback ctx fd
  | Some (cb_other _) | None => mret tt
  end.

Definition cc_perform (x : cc_act) : K unit :=
  match x with
  | CcCall k => do_call k
  | CcNew a name p once n => kio (fun s => Ok (new_AtlasAlarm a name p once (Some (cb_other n)) s))
  | CcStart a => kio (alarm_start a)
  | CcStop a => kio (alarm_cancel a)
  | CcDelete a => kio (alarm_destroy a)
  | CcTime ms => cb ← kturn (perform (ATime ms)); run_cb cb
  | CcExpire n => cb ← kturn (perform (AExpire n)); run_cb cb
  | CcRun n => cb ← kturn (perform (ARun n)); run_cb cb
  | CcReady n => cb ← kturn (perform (AReady n)); run_cb cb
  end.

Inductive cc_run : coap_client -> list cc_act -> coap_client -> Prop :=
  | cc_run_nil c : cc_run c [] c
  | cc_run_snoc c xs c1 x c2 :
      cc_run c xs c1 -> cc_enabled x c1 -> cc_perform x c1 = Ok (tt, c2) -> cc_run c (xs ++ [x]) c2.

Definition cc_boot (x : ext) : coap_client := mk_coap_client io_init ∅ ∅ 0 [] [] x [].
End GwCoap.
Arguments coap_client {E} U.
Arguments cc_event : clear implicits.

(** * Laws *)

(** What the theorems rely on: an allocator returns free addresses; the descriptor of
    a context is its own as long as the context lives; names resolve to IPv4 or IPv6
    addresses. *)
Class CoapHostLaws (E : Env) {EL : EnvLaws E} (CH : CoapHost E) := {
  new_address_fresh X x : new_address X x ∉ X;
  ctx_fds : ext -> gmap Z Z;
  ctx_fd ctx x : ctx ∈ ctxs x -> coap_context_get_coap_fd ctx x = default (-1) (ctx_fds x !! ctx);
  ctx_fds_inj x c1 c2 fd : ctx_fds x !! c1 = Some fd -> ctx_fds x !! c2 = Some fd -> c1 = c2;
  fds_kept (x x' : ext) : Prop := forall c, c ∈ ctxs x -> c ∈ ctxs x' -> ctx_fds x' !! c = ctx_fds x !! c;
  getaddrinfo_fds h x : fds_kept x (getaddrinfo h x).2;
  new_context_fds x : fds_kept x (coap_new_context x).2;
  new_session_fds ctx d x : fds_kept x (coap_new_client_session ctx d x).2;
  new_pdu_fds s x : fds_kept x (coap_new_pdu s x).2;
  add_token_fds t x : fds_kept x (coap_add_token t x).2;
  session_release_fds s x : fds_kept x (coap_session_release s x);
  free_context_fds ctx x : fds_kept x (coap_free_context ctx x);
  io_process_fds ctx x : fds_kept x (coap_io_process ctx x).2;
  resolves_inet h x l : (getaddrinfo h x).1 = Some l -> first_inet l <> None;
}.

Section GwCoapInv.
Context {E : Env} {EL : EnvLaws E} {CH : CoapHost E} {CL : CoapHostLaws E CH} `{HostEndian} {U : Type}.
Implicit Types (c : coap_client U).

(** Contexts come and stay, with their descriptors. *)
Definition ext_le (x x' : ext) : Prop :=
  ctxs x ⊆ ctxs x' /\ forall ctx, ctx ∈ ctxs x -> ctx_fds x' !! ctx = ctx_fds x !! ctx.

Lemma ext_le_refl x : ext_le x x.
Proof. by split. Qed.
Lemma ext_le_trans x y z : ext_le x y -> ext_le y z -> ext_le x z.
Proof.
  intros [H1 F1] [H2 F2]. split; [set_solver|]. intros ctx Hc. rewrite F2 by set_solver. by apply F1.
Qed.
Lemma ext_le_framed x x' : framed x x' -> fds_kept x x' -> ext_le x x'.
Proof. intros [_ Hc] Hk. split; [by rewrite Hc|]. intros ctx Hin. apply Hk; [done|by rewrite Hc]. Qed.

(** A context that was created after [x] is freed. *)
Lemma ext_le_free x x' ctx : ext_le x x' -> ctx ∉ ctxs x -> ext_le x (coap_free_context ctx x').
Proof.
  intros [Hc Hk] Hn. destruct (coap_free_context_law ctx x') as [_ Hf]. split; [rewrite Hf; set_solver|].
  intros k Hin. rewrite <-Hk by done. apply free_context_fds; [set_solver|rewrite Hf; set_solver].
Qed.

(** ** The history of one request *)

Abbreviation answer := (AtlasCoapResponse * option (list byte))%type.

Inductive hkind : Type :=
  | HSend
  | HCallback (r : answer)
  | HCancel.

Definition event_of (ctx : Z) (e : cc_event) : option hkind :=
  match e with
  | CcSend k _ _ _ _ _ => if decide (k = ctx) then Some HSend else None
  | CcCallback k resp payload => if decide (k = ctx) then Some (HCallback (resp, payload)) else None
  | CcCancel k => if decide (k = ctx) then Some HCancel else None
  | CcRst _ => None
  end.
Definition history (ctx : Z) c : list hkind := omap (event_of ctx) (cc_log c).

(** A request that is over, or was never made. *)
Definition closed (h : list hkind) : Prop :=
  h = [] \/ h = [HSend; HCancel] \/ exists r, h = [HSend; HCallback r] \/ h = [HSend; HCallback r; HCancel].

(** ** The invariant *)

Definition listening (ctx fd : Z) (s : io io_cb) : Prop :=
  exists b, io_entries s !! b = Some (mk_FdEntry fd (cb_scheduleCallback ctx fd)).

(** A request is in both maps; its alarm calls its time-out and is armed, and its
    descriptor is watched, unless it is [y], whose time-out is being handled. *)
Record cc_core (y : option Z) c : Prop := {
  co_io : io_inv (cc_io c);
  co_req ctx r : requests_ c !! ctx = Some r ->
    r = default_AtlasCoapRequest \/
    (context_ r = Some ctx /\ is_Some (session_ r) /\ is_Some (req_callback_ r) /\ is_Some (req_token_ r) /\
     is_Some (timeouts_ c !! ctx));
  co_timeout ctx a : timeouts_ c !! ctx = Some a ->
    exists r fd p d, requests_ c !! ctx = Some r /\ context_ r = Some ctx /\
      abs (cc_io c) !! a = Some (mk_abs p true (Some (cb_alarmCallback ctx fd)) d) /\
      ctx ∈ ctxs (cc_ext c) /\ ctx_fds (cc_ext c) !! ctx = Some fd /\
      (y <> Some ctx -> is_Some d /\ listening ctx fd (cc_io c));
  co_alarm a v : abs (cc_io c) !! a = Some v ->
    match ab_callback v with
    | Some (cb_alarmCallback ctx _) => timeouts_ c !! ctx = Some a
    | Some (cb_scheduleCallback _ _) => False
    | _ => True
    end;
  co_entry b e : io_entries (cc_io c) !! b = Some e ->
    exists ctx, fd_callback_ e = cb_scheduleCallback ctx (fd_ e) /\
      ctx ∈ ctxs (cc_ext c) /\ ctx_fds (cc_ext c) !! ctx = Some (fd_ e);
}.

(** A pending request has been sent and nothing else, except [z], whose callback is
    running; a request that is not pending is over. *)
Definition log_ok (z : option (Z * answer)) c : Prop :=
  (forall k r, z = Some (k, r) -> k ∈ ctxs (cc_ext c) /\
     history k c = [HSend; HCallback r] ++ if timeouts_ c !! k then [] else [HCancel]) /\
  forall ctx, (history ctx c <> [] -> ctx ∈ ctxs (cc_ext c)) /\
    match timeouts_ c !! ctx with
    | Some _ => fst <$> z <> Some ctx -> history ctx c = [HSend]
    | None => closed (history ctx c)
    end.

Definition cc_inv (y : option Z) (z : option (Z * answer)) c : Prop := cc_core y c /\ log_ok z c.

(** An operation that returns and keeps the invariant. *)
Definition kok (y : option Z) (z : option (Z * answer)) {A} (m : K A) : Prop :=
  forall c, cc_inv y z c -> exists a c', m c = Ok (a, c') /\ cc_inv y z c' /\ ext_le (cc_ext c) (cc_ext c').

Lemma K_bind_run {A B} (m : K A) (k : A -> K B) c a c' : m c = Ok (a, c') -> (m ≫= k) c = k a c'.
Proof. intros Hm. unfold mbind, K_bind. by rewrite Hm. Qed.

Lemma kok_ret y z {A} (a : A) : kok y z (mret a : K (U := U) A).
Proof. intros c Hc. exists a, c. split; [done|]. split; [done|apply ext_le_refl]. Qed.

Lemma kok_bind y z {A B} (m : K (U := U) A) (k : A -> K B) : kok y z m -> (forall a, kok y z (k a)) -> kok y z (m ≫= k).
Proof.
  intros Hm Hk c Hc. destruct (Hm c Hc) as (a & c1 & Hr & Hc1 & He1). rewrite (K_bind_run _ _ _ _ _ Hr).
  destruct (Hk a c1 Hc1) as (b & c2 & Hr2 & Hc2 & He2). exists b, c2. split; [done|]. split; [done|]. by eapply ext_le_trans.
Qed.

Lemma kok_for y z {A} (l : list A) (body : A -> K (U := U) unit) : (forall a, kok y z (body a)) -> kok y z (kfor l body).
Proof. intros Hb. induction l as [|a l IH]; [apply kok_ret|]. cbn. apply kok_bind; auto. Qed.

(** ** Frames *)

Lemma cc_inv_ext y z c x' : cc_inv y z c -> ext_le (cc_ext c) x' -> cc_inv y z (set_cc_ext x' c).
Proof.
  intros [Hc Hl] [Hin Hk]. split.
  - split; cbn; try apply Hc.
    + intros ctx a Ha. destruct (co_timeout _ _ Hc ctx a Ha) as (r & fd & p & d & Hr & Hcx & Hab & Hlive & Hfd & Hy).
      exists r, fd, p, d. rewrite Hk by done. set_solver.
    + intros b e Hb. destruct (co_entry _ _ Hc b e Hb) as (ctx & Hcb & Hlive & Hfd). exists ctx. rewrite Hk by done. set_solver.
  - destruct Hl as [Hz Hl]. split; [intros k r Hzk; destruct (Hz k r Hzk); split; [by apply Hin|done]|].
    intros ctx. destruct (Hl ctx) as [H1 H2]. split; [|exact H2]. cbn. intros Hh. apply Hin, H1, Hh.
Qed.

(** The alarms of other modules may change, those of the client and the entries not. *)
Lemma cc_core_io y c s' :
  cc_core y c -> io_inv s' -> io_entries s' = io_entries (cc_io c) ->
  (forall a v ctx fd, ab_callback v = Some (cb_alarmCallback ctx fd) -> abs (cc_io c) !! a = Some v <-> abs s' !! a = Some v) ->
  (forall a v ctx fd, abs s' !! a = Some v -> ab_callback v <> Some (cb_scheduleCallback ctx fd)) ->
  cc_core y (set_io s' c).
Proof.
  intros Hc Hi He Ha Hs. split; cbn; try done; try apply Hc.
  - intros ctx a Hta. destruct (co_timeout _ _ Hc ctx a Hta) as (r & fd & p & d & Hr & Hcx & Hab & Hlive & Hfd & Hy).
    exists r, fd, p, d. rewrite <-(Ha a _ ctx fd) by done. unfold listening in *. rewrite He. done.
  - intros a v Hv. destruct (ab_callback v) as [[ctx fd|ctx fd|n]|] eqn:Hcb; try done.
    + pose proof (co_alarm _ _ Hc a v (proj2 (Ha a v ctx fd Hcb) Hv)) as Hal. by rewrite Hcb in Hal.
    + by eapply Hs.
  - rewrite He. apply Hc.
Qed.

Lemma history_snoc ctx c e : history ctx (set_log (cc_log c ++ [e]) c) = history ctx c ++ option_list (event_of ctx e).
Proof. unfold history. cbn. rewrite omap_app. cbn. by destruct (event_of ctx e). Qed.

Lemma cc_core_log y c l : cc_core y c -> cc_core y (set_log l c).
Proof. intros Hc. split; apply Hc. Qed.

Lemma cc_core_weaken y c : cc_core None c -> cc_core y c.
Proof.
  intros Hc. split; try apply Hc. intros ctx a Ha.
  destruct (co_timeout _ _ Hc ctx a Ha) as (r & fd & p & d & Hr & Hcx & Hab & Hlive & Hfd & Hy).
  exists r, fd, p, d. by repeat (split; [done|]); intros _; apply Hy.
Qed.

(** ** Forgetting a request *)

Definition forgets (y : option Z) (ctx : Z) c c' : Prop :=
  cc_core y c' /\ cc_core (if decide (y = Some ctx) then None else y) c' /\
  timeouts_ c' = delete ctx (timeouts_ c) /\ cc_log c' = cc_log c /\ cc_ext c' = cc_ext c.

Lemma erased_core y ctx c :
  cc_core y c -> timeouts_ c !! ctx = None ->
  forgets y ctx c (set_requests (delete ctx (requests_ c)) c).
Proof.
  intros Hc Hn.
  assert (forall y', (y' = y \/ y = Some ctx) -> cc_core y' (set_requests (delete ctx (requests_ c)) c)) as Hcore.
  { intros y' Hy'. split; cbn; try apply Hc.
    - intros k r. rewrite lookup_delete_Some. intros [_ Hr]. by apply (co_req _ _ Hc).
    - intros k a Ha. destruct (co_timeout _ _ Hc k a Ha) as (r & fd & p & d & Hr & Hrest & Hab & Hlive & Hfd & Hy).
      exists r, fd, p, d. rewrite lookup_delete_ne by congruence. repeat (split; [done|]).
      intros Hne. apply Hy. destruct Hy'; congruence. }
  split; [by apply Hcore; left|]. split; [|cbn; rewrite delete_id by done; done].
  apply Hcore. case_decide; auto.
Qed.

Lemma erase_run y ctx c :
  cc_core y c ->
  exists c', erase_timeout ctx (set_requests (delete ctx (requests_ c)) c) = Ok (tt, c') /\ forgets y ctx c c'.
Proof.
  intros Hc. unfold erase_timeout. rewrite (K_bind_run _ _ _ _ _ eq_refl). cbn [timeouts_ set_requests].
  destruct (timeouts_ c !! ctx) as [a|] eqn:Ha.
  2: { eexists. split; [done|]. by apply erased_core. }
  rewrite (K_bind_run _ _ _ _ _ eq_refl). unfold kio. cbn [cc_io set_timeouts_ set_requests].
  destruct (co_timeout _ _ Hc ctx a Ha) as (r & fd & p & d & Hr & Hcx & Hab & Hlive & Hfd & Hy).
  pose proof (co_io _ _ Hc) as [Hti Hfi].
  unfold abs in Hab. rewrite lookup_fmap in Hab. destruct (io_alarms (cc_io c) !! a) as [al|] eqn:Hal; [|done].
  destruct (destroy_run (cc_io c) a al Hti Hal) as (s' & -> & Hi' & Hfs & Habs). cbn.
  eexists. split; [done|].
  assert (forall y', (y' = y \/ y = Some ctx) -> cc_core y' (set_io s' (set_timeouts_ (delete ctx (timeouts_ c))
      (set_requests (delete ctx (requests_ c)) c)))) as Hcore.
  { intros y' Hy'. split; cbn.
    - split; [done|by eapply fd_inv_same].
    - intros k q. rewrite lookup_delete_Some. intros [Hne Hq]. rewrite lookup_delete_ne by done. by apply (co_req _ _ Hc).
    - intros k b. rewrite lookup_delete_Some. intros [Hne Hb].
      destruct (co_timeout _ _ Hc k b Hb) as (r' & fd' & p' & d' & Hr' & Hcx' & Hab' & Hlive' & Hfd' & Hy2).
      exists r', fd', p', d'. rewrite lookup_delete_ne by done. rewrite Habs, lookup_delete_ne.
      + repeat (split; [done|]). intros Hn. unfold listening. rewrite (proj1 Hfs). apply Hy2. destruct Hy'; congruence.
      + intros ->. apply Hne. pose proof (co_alarm _ _ Hc _ _ Hab') as Hbk. cbn in Hbk.
        cbn in Hab. rewrite (abs_lookup _ _ _ Hal) in Hab'. congruence.
    - intros b v. rewrite Habs, lookup_delete_Some. intros [Hne Hv]. pose proof (co_alarm _ _ Hc b v Hv) as Hb.
      destruct (ab_callback v) as [[k fd'|k fd'|n]|]; try done. rewrite lookup_delete_ne; [done|]. intros <-. congruence.
    - rewrite (proj1 Hfs). apply Hc. }
  split; [by apply Hcore; left|]. split; [|done]. apply Hcore. case_decide; auto.
Qed.

(** ** Sending *)

Lemma new_alarm_run (s : io io_cb) a name p once cb :
  timer_inv None s -> io_alarms s !! a = None ->
  timer_inv None (new_AtlasAlarm a name p once cb s) /\
  abs (new_AtlasAlarm a name p once cb s) = <[a := mk_abs p once cb None]> (abs s).
Proof. intros Ht Ha. split; [by apply new_inv|]. unfold abs. cbn. by rewrite fmap_insert. Qed.

(** The request, its alarm and its entry, for a context that has none. *)
Lemma addRequest_run y c ctx session token timeout cb :
  cc_core y c -> ctx ∈ ctxs (cc_ext c) -> timeouts_ c !! ctx = None ->
  (forall b e, io_entries (cc_io c) !! b = Some e -> fd_callback_ e <> cb_scheduleCallback ctx (fd_ e)) ->
  addRequest ctx session token timeout cb c = Ok (false, c) \/
  exists a c', addRequest ctx session token timeout cb c = Ok (true, c') /\ cc_core y c' /\
    timeouts_ c' = <[ctx := a]> (timeouts_ c) /\ cc_log c' = cc_log c /\ cc_ext c' = cc_ext c.
Proof.
  intros Hc Hlive Hnone Hno. unfold addRequest. rewrite (K_bind_run _ _ _ _ _ eq_refl).
  rewrite (ctx_fd ctx _ Hlive). destruct (ctx_fds (cc_ext c) !! ctx) as [fd|] eqn:Hfd; cbn [default option_fmap]; [|by left].
  case_decide as Hneg; [by left|right]. rewrite (K_bind_run _ _ _ _ _ eq_refl).
  set (a := new_address _ _).
  pose proof (co_io _ _ Hc) as [Ht Hf].
  assert (io_alarms (cc_io c) !! a = None) as Ha by (apply not_elem_of_dom, new_address_fresh).
  destruct (new_alarm_run (cc_io c) a (cstr "AtlasCoapClient") timeout true (Some (cb_alarmCallback ctx fd)) Ht Ha) as [Ht1 Hab1].
  set (s1 := new_AtlasAlarm _ _ _ _ _ _) in *.
  rewrite (K_bind_run _ _ c tt (set_io s1 c) eq_refl).
  assert (erase_timeout ctx (set_io s1 c) = Ok (tt, set_io s1 c)) as Her.
  { unfold erase_timeout. rewrite (K_bind_run _ _ _ _ _ eq_refl). cbn. by rewrite Hnone. }
  rewrite (K_bind_run _ _ _ _ _ Her). rewrite (K_bind_run _ _ _ _ _ eq_refl).
  destruct (start_run s1 a (mk_AtlasAlarm (cstr "AtlasCoapClient") timeout true (Some (cb_alarmCallback ctx fd)) None false) Ht1)
    as (s2 & Hst & Ht2 & Hfs2 & Hab2); [apply lookup_insert_eq|].
  set (c2 := set_timeouts_ _ _).
  rewrite (K_bind_run _ _ c2 tt (set_io s2 c2)) by (unfold kio; cbn; by rewrite Hst).
  rewrite (K_bind_run _ _ _ _ _ eq_refl), (K_bind_run _ _ _ _ _ eq_refl). cbn [cc_io set_requests set_io].
  assert (fd_inv s2) as Hf2 by (eapply (fd_inv_same (cc_io c)); [done|]; destruct Hfs2 as (? & ? & ? & ?); by repeat split).
  destruct Hfs2 as (Hen2 & _). change (io_entries s1) with (io_entries (cc_io c)) in Hen2.
  assert (fd_registered fd s2 = false) as Hreg.
  { apply bool_decide_eq_false. intros (b & e & He & Hfe). rewrite Hen2 in He.
    destruct (co_entry _ _ Hc b e He) as (k & Hcb & _ & Hk). rewrite Hfe in Hk.
    apply (Hno b e He). by rewrite Hcb, (ctx_fds_inj _ _ _ _ Hk Hfd). }
  set (b := new_address _ _).
  assert (io_entries s2 !! b = None) as Hb by (apply not_elem_of_dom, new_address_fresh).
  destruct (addFdEntry_run b fd (cb_scheduleCallback ctx fd) s2 Hf2 Hb Hreg) as (s3 & Hadd & Hf3 & Hts & _ & Hen3).
  destruct (timer_inv_same _ _ Ht2 Hts) as [Ht3 Hab3].
  assert (abs s3 = <[a := mk_abs timeout true (Some (cb_alarmCallback ctx fd)) (Some (io_now s1 + timeout))]> (abs (cc_io c))) as Hab.
  { rewrite Hab3, Hab2, Hab1. rewrite (alter_found _ _ _ _ (lookup_insert_eq _ _ _)). by rewrite insert_insert_eq. }
  rewrite Hen2 in Hen3, Hb.
  set (c3 := set_requests _ _).
  rewrite (K_bind_run _ _ c3 tt (set_io s3 c3)) by (unfold kio; cbn; by rewrite Hadd).
  exists a. eexists. split; [done|]. split; [|done].
  assert (abs (cc_io c) !! a = None) as Hanew by (unfold abs; by rewrite lookup_fmap, Ha).
  split; cbn.
  - done.
  - intros k r. rewrite lookup_insert_Some. intros [[<- <-]|[Hn Hr]].
    + right. cbn. rewrite lookup_insert_eq. by repeat split; eexists.
    + destruct (co_req _ _ Hc k r Hr) as [|(? & ? & ? & ? & ?)]; [by left|right]. rewrite lookup_insert_ne by done. done.
  - intros k a'. rewrite lookup_insert_Some. intros [[<- <-]|[Hn Hk]].
    + eexists _, fd, timeout, _. rewrite Hab, !lookup_insert_eq. do 5 (split; [done|]). intros _.
      split; [by eexists|]. exists b. by rewrite Hen3, lookup_insert_eq.
    + destruct (co_timeout _ _ Hc k a' Hk) as (r & fd' & p & d & Hr & Hcx & Habk & Hl & Hfk & Hy).
      exists r, fd', p, d. rewrite Hab, !lookup_insert_ne by (congruence || (intros <-; congruence)).
      do 5 (split; [done|]). intros Hne. destruct (Hy Hne) as [Hd (b' & Hb')]. split; [done|].
      exists b'. rewrite Hen3, lookup_insert_ne; [done|]. intros <-. congruence.
  - intros a' v. rewrite Hab, lookup_insert_Some. intros [[<- <-]|[Hn Hv]]; [cbn; apply lookup_insert_eq|].
    pose proof (co_alarm _ _ Hc a' v Hv) as Hal. destruct (ab_callback v) as [[k fd'|k fd'|n]|]; try done.
    rewrite lookup_insert_ne; [done|]. intros <-. congruence.
  - intros b' e. rewrite Hen3, lookup_insert_Some. intros [[<- <-]|[Hn He]]; [by exists ctx|]. by apply (co_entry _ _ Hc b').
Qed.

Lemma cc_inv_token y z c t : cc_inv y z c -> cc_inv y z (set_token_ t c).
Proof. intros [Hc Hl]. split; [split; apply Hc|exact Hl]. Qed.

Lemma send_failed_run x0 session octx c :
  ext_le x0 (cc_ext c) -> (forall ctx, octx = Some ctx -> ctx ∉ ctxs x0) ->
  exists x', send_failed session octx c = Ok (None, set_cc_ext x' c) /\ ext_le x0 x'.
Proof.
  intros Hle Hn. unfold send_failed.
  assert (exists x1, (match session with Some s => kcall (fun x => (tt, coap_session_release s x)) | None => mret tt end) c =
      Ok (tt, set_cc_ext x1 c) /\ ext_le x0 x1) as (x1 & H1 & Hle1).
  { destruct session as [s|]; [exists (coap_session_release s (cc_ext c))|exists (cc_ext c)]; (split; [by destruct c|]); [|done].
    eapply ext_le_trans; [exact Hle|]. apply ext_le_framed; [apply coap_session_release_law|apply session_release_fds]. }
  rewrite (K_bind_run _ _ _ _ _ H1).
  destruct octx as [ctx|]; [|by exists x1]. eexists. split; [done|]. apply ext_le_free; auto.
Qed.

(** The state of a client after the calls of [sendRequest] that fail. *)
Definition retoken (t : Z) (x' : ext) c : coap_client U := set_cc_ext x' (set_token_ t c).

Lemma send_fails y z c t x1 session octx :
  cc_inv y z c -> ext_le (cc_ext c) x1 -> (forall ctx, octx = Some ctx -> ctx ∉ ctxs (cc_ext c)) ->
  exists r c', send_failed session octx (retoken t x1 c) = Ok (r, c') /\ cc_inv y z c' /\ ext_le (cc_ext c) (cc_ext c').
Proof.
  intros Hc Hle Hn. destruct (send_failed_run (cc_ext c) session octx (retoken t x1 c) Hle Hn) as (x2 & Hr & Hle2).
  exists None, (set_cc_ext x2 (retoken t x1 c)). split; [done|]. split; [|done].
  apply (cc_inv_ext y z (set_token_ t c)); [by apply cc_inv_token|done].
Qed.

(** The request is sent. *)
Lemma sent_log y z c c' ctx a session method token opts payload :
  cc_inv y z c -> ctx ∉ ctxs (cc_ext c) -> ext_le (cc_ext c) (cc_ext c') -> ctx ∈ ctxs (cc_ext c') ->
  cc_core y c' -> timeouts_ c' = <[ctx := a]> (timeouts_ c) -> cc_log c' = cc_log c ->
  cc_inv y z (set_log (cc_log c' ++ [CcSend ctx session method token opts payload]) c').
Proof.
  intros [_ [Hz Hl]] Hnew [Hle _] Hlive Hcore Ht Hlog. split; [by apply cc_core_log|].
  assert (forall k, history k c' = history k c) as Hh by (intros k; unfold history; by rewrite Hlog).
  split.
  { intros k r Hk. destruct (Hz k r Hk) as [Hin Hhk]. split; [by apply Hle|]. assert (ctx <> k) as Hne by congruence.
    rewrite history_snoc, Hh. cbn [timeouts_ set_log event_of]. rewrite decide_False by done. rewrite app_nil_r, Ht, lookup_insert_ne by done. done. }
  intros k. rewrite history_snoc, Hh. cbn [cc_ext timeouts_ set_log event_of].
  destruct (Hl k) as [Hin Hk]. rewrite Ht. destruct (decide (ctx = k)) as [<-|Hctx]; cbn [option_list].
  - split; [done|]. rewrite lookup_insert_eq. intros _.
    assert (history ctx c = []) as ->; [|done]. destruct (history ctx c); [done|]. exfalso. by apply Hnew, Hin.
  - rewrite app_nil_r, lookup_insert_ne by done. split; [|exact Hk]. intros Hne. by apply Hle, Hin.
Qed.

Lemma kcall_run {A} (f : ext -> A * ext) t x c : kcall f (retoken t x c) = Ok ((f x).1, retoken t (f x).2 c).
Proof. unfold kcall. cbn. by destruct (f x). Qed.

(** The calls of libcoap up to the token; [t] is the token before. *)
Lemma send_request_pdu y z c t x2 ctx dtls method opts payload timeout cb :
  cc_inv y z c -> ext_le (cc_ext c) x2 -> ctx ∉ ctxs (cc_ext c) -> ctx ∈ ctxs x2 ->
  exists r c', (osession ← getSession ctx dtls;
    match osession with
    | None => send_failed None (Some ctx)
    | Some session =>
        reqPdu ← kcall (coap_new_pdu session);
        if negb reqPdu then send_failed (Some session) (Some ctx) else
        token ← getToken;
        added ← kcall (coap_add_token token);
        if negb added then send_failed (Some session) (Some ctx) else
        ok ← addRequest ctx session token timeout cb;
        if negb ok then send_failed (Some session) (Some ctx) else
        _ ← klog (CcSend ctx session method token opts payload);
        mret (Some ctx)
    end) (retoken t x2 c) = Ok (r, c') /\ cc_inv y z c' /\ ext_le (cc_ext c) (cc_ext c').
Proof.
  intros Hc Hx2 Hnew Hlive. unfold getSession.
  assert (forall x3, framed x2 x3 -> fds_kept x2 x3 -> ext_le (cc_ext c) x3 /\ ctx ∈ ctxs x3) as H23.
  { intros x3 Hfr Hk. split; [by eapply ext_le_trans, ext_le_framed|]. destruct Hfr as [_ ->]. done. }
  rewrite (K_bind_run _ _ _ _ _ (kcall_run _ _ _ _)).
  destruct (H23 _ (coap_new_client_session_law ctx dtls x2) (new_session_fds ctx dtls x2)) as [Hx3 Hlive3]. clear H23.
  destruct (coap_new_client_session ctx dtls x2) as [[session|] x3]; cbn [fst snd] in *; [|apply send_fails; [done..|by intros ? [= <-]]].
  rewrite (K_bind_run _ _ _ _ _ (kcall_run _ _ _ _)).
  pose proof (ext_le_trans _ _ _ Hx3 (ext_le_framed _ _ (coap_new_pdu_law session x3) (new_pdu_fds session x3))) as Hx4.
  pose proof (proj2 (coap_new_pdu_law session x3)) as Hctx4.
  destruct (coap_new_pdu session x3) as [[] x4]; cbn [fst snd negb] in *; [|apply send_fails; [done..|by intros ? [= <-]]].
  assert (getToken (retoken t x4 c) = Ok (t, retoken (u32 (t + 1)) x4 c)) as Htok by done.
  rewrite (K_bind_run _ _ _ _ _ Htok). rewrite (K_bind_run _ _ _ _ _ (kcall_run _ _ _ _)).
  pose proof (ext_le_trans _ _ _ Hx4 (ext_le_framed _ _ (coap_add_token_law t x4) (add_token_fds t x4))) as Hx5.
  pose proof (proj2 (coap_add_token_law t x4)) as Hctx5.
  destruct (coap_add_token t x4) as [[] x5]; cbn [fst snd negb] in *; [|apply send_fails; [done..|by intros ? [= <-]]].
  assert (cc_inv y z (retoken (u32 (t + 1)) x5 c)) as Hc5 by (apply cc_inv_ext; [by apply cc_inv_token|done]).
  destruct (addRequest_run y (retoken (u32 (t + 1)) x5 c) ctx session t timeout cb) as [Hadd|(a & c' & Hadd & Hcore & Ht & Hlog & Hext)].
  - apply Hc5.
  - cbn. rewrite Hctx5, Hctx4. done.
  - cbn. destruct (timeouts_ c !! ctx) as [a|] eqn:Ha; [|done]. exfalso. apply Hnew.
    by destruct (co_timeout _ _ (proj1 Hc) ctx a Ha) as (? & ? & ? & ? & _ & _ & _ & ? & _).
  - intros b e Hb Heq. cbn in Hb. destruct (co_entry _ _ (proj1 Hc) b e Hb) as (k & Hk & Hin & _). congruence.
  - rewrite (K_bind_run _ _ _ _ _ Hadd). cbn [negb]. apply send_fails; [done..|by intros ? [= <-]].
  - rewrite (K_bind_run _ _ _ _ _ Hadd). cbn [negb]. rewrite (K_bind_run _ _ _ _ _ eq_refl).
    eexists _, _. split; [done|]. cbn in Ht, Hlog, Hext.
    split; [|cbn; by rewrite Hext]. apply (sent_log y z c c' ctx a); rewrite ?Hext; try done. by rewrite Hctx5, Hctx4.
Qed.

Lemma sendRequest_kok y z uri method payload timeout cb : kok y z (sendRequest (U := U) uri method payload timeout cb).
Proof.
  intros c Hc. unfold sendRequest. pose proof (ext_le_refl (cc_ext c)) as Hx0.
  assert (c = retoken (token_ c) (cc_ext c) c) as Hself by by destruct c.
  destruct (coap_split_uri uri) as [u|]; [|].
  2: { pose proof (send_fails y z c (token_ c) (cc_ext c) None None Hc Hx0) as Hf. rewrite <-Hself in Hf. by apply Hf. }
  (* Resolve *)
  pose proof (ext_le_framed _ _ (getaddrinfo_law (cu_host u) (cc_ext c)) (getaddrinfo_fds (cu_host u) (cc_ext c))) as Hx1.
  assert (exists n, resolveAddress (cu_host u) c = Ok (n, retoken (token_ c) (getaddrinfo (cu_host u) (cc_ext c)).2 c)) as [n Hres].
  { unfold resolveAddress. pose proof (resolves_inet (cu_host u) (cc_ext c)) as Hr.
    destruct (getaddrinfo (cu_host u) (cc_ext c)) as [o x1] eqn:Hg.
    rewrite (K_bind_run _ _ c o (retoken (token_ c) x1 c)) by (unfold kcall; rewrite Hg; by destruct c).
    destruct o as [l|]; [|by eexists]. destruct (first_inet l) as [len|] eqn:Hi; [by eexists|]. by eapply Hr in Hi. }
  rewrite (K_bind_run _ _ _ _ _ Hres). set (x1 := (getaddrinfo _ _).2) in *.
  case_decide; [by apply send_fails|].
  (* Context *)
  rewrite (K_bind_run _ _ _ _ _ (kcall_run _ _ _ _)).
  pose proof (coap_new_context_law x1) as [_ Hctx]. pose proof (new_context_fds x1) as Hfds.
  destruct (coap_new_context x1) as [octx x2] eqn:Hnc. cbn [fst snd] in *.
  assert (ext_le x1 x2) as H12.
  { destruct octx as [ctx|]; [destruct Hctx as [_ Hctx]|]; (split; [rewrite Hctx; set_solver|]); intros k Hk; apply Hfds; rewrite ?Hctx; set_solver. }
  pose proof (ext_le_trans _ _ _ Hx1 H12) as Hx2. destruct octx as [ctx|]; [|by apply send_fails].
  destruct Hctx as [Hnew1 Hctx2].
  apply (send_request_pdu y z c); [done|done| |rewrite Hctx2; set_solver]. intros Hin. by apply Hnew1, Hx1.
Qed.

Lemma cancelRequest_kok y z octx : kok y z (cancelRequest (U := U) octx).
Proof.
  intros c [Hc Hl]. destruct octx as [ctx|]; [|by apply kok_ret]. unfold cancelRequest.
  rewrite (K_bind_run _ _ _ _ _ eq_refl).
  set (e := if decide (is_Some (timeouts_ c !! ctx)) then [CcCancel ctx] else []).
  assert ((if decide (is_Some (timeouts_ c !! ctx)) then klog (CcCancel ctx) else mret tt) c = Ok (tt, set_log (cc_log c ++ e) c)) as He.
  { subst e. case_decide; [done|]. rewrite app_nil_r. by destruct c. }
  rewrite (K_bind_run _ _ _ _ _ He), (K_bind_run _ _ _ _ _ eq_refl).
  destruct (erase_run y ctx (set_log (cc_log c ++ e) c)) as (c' & Her & Hy & _ & Ht & Hlog & Hext); [by apply cc_core_log|].
  exists tt, c'. split; [exact Her|]. cbn in Ht, Hlog, Hext. split; [|rewrite Hext; apply ext_le_refl].
  split; [done|]. destruct Hl as [Hz Hl].
  assert (forall k, history k c' = history k c ++ omap (event_of k) e) as Hh by (intros k; unfold history; by rewrite Hlog, omap_app).
  assert (forall k, k <> ctx -> omap (event_of k) e = []) as Hnil.
  { intros k Hne. subst e. case_decide; cbn; [by rewrite decide_False|done]. }
  assert (omap (event_of ctx) e = if timeouts_ c !! ctx then [HCancel] else []) as Hev.
  { subst e. destruct (timeouts_ c !! ctx) as [a|]; case_decide as Hd; cbn; try done.
    - by rewrite decide_True.
    - exfalso. apply Hd. by eexists. }
  split.
  - intros k r Hk. destruct (Hz k r Hk) as [Hin Hhk]. rewrite Hext, Ht, Hh, Hhk. split; [done|].
    destruct (decide (k = ctx)) as [->|Hne]; [|by rewrite Hnil, app_nil_r, lookup_delete_ne by done].
    rewrite Hev, lookup_delete_eq. by destruct (timeouts_ c !! ctx).
  - intros k. rewrite Hext, Ht, Hh. destruct (Hl k) as [Hin Hk].
    destruct (decide (k = ctx)) as [->|Hne]; [|by rewrite Hnil, app_nil_r, lookup_delete_ne by done].
    rewrite Hev, lookup_delete_eq. destruct (timeouts_ c !! ctx) as [a|] eqn:Ha; [|by rewrite app_nil_r].
    destruct (decide (fst <$> z = Some ctx)) as [Hzc|Hzc].
    + destruct z as [[k r]|]; [|done]. injection Hzc as ->. destruct (Hz ctx r eq_refl) as [Hlive Hhk].
      rewrite Ha in Hhk. split; [done|]. rewrite Hhk. right. right. exists r. by right.
    + rewrite (Hk Hzc) in Hin |- *. split; [by intros _; apply Hin|]. right. by left.
Qed.

Lemma do_call_kok y z (k : call (U := U)) : kok y z (do_call k).
Proof.
  destruct k as [uri method payload timeout cb|octx|identity psk]; cbn.
  - apply kok_bind; [apply sendRequest_kok|intros; apply kok_ret].
  - apply cancelRequest_kok.
  - intros c Hc. eexists _, _. split; [done|]. split; [|apply ext_le_refl]. destruct Hc as [Hc Hl]. split; [split; apply Hc|exact Hl].
Qed.

(** ** Answers *)

Context (user : U -> AtlasCoapResponse -> option (list byte) -> coap_client U -> list (call (U := U))).

Lemma request_at_run y z ctx c :
  cc_inv y z c ->
  exists r c', request_at ctx c = Ok (r, c') /\ cc_inv y z c' /\ requests_ c' !! ctx = Some r /\
    (requests_ c !! ctx = Some r \/ requests_ c !! ctx = None /\ r = default_AtlasCoapRequest) /\
    cc_log c' = cc_log c /\ cc_ext c' = cc_ext c /\ timeouts_ c' = timeouts_ c.
Proof.
  intros [Hc Hl]. unfold request_at. rewrite (K_bind_run _ _ _ _ _ eq_refl).
  destruct (requests_ c !! ctx) as [r|] eqn:Hr; [exists r, c; split; [done|]; split; [done|]; auto 6|].
  rewrite (K_bind_run _ _ _ _ _ eq_refl). eexists _, _. split; [done|]. split; [|cbn; rewrite lookup_insert_eq; auto 7].
  split; [|exact Hl]. split; cbn; try apply Hc.
  - intros k q. rewrite lookup_insert_Some. intros [[<- <-]|[_ Hq]]; [by left|by apply (co_req _ _ Hc)].
  - intros k a Ha. destruct (co_timeout _ _ Hc k a Ha) as (q & fd & p & d & Hq & Hrest). exists q, fd, p, d.
    rewrite lookup_insert_ne by congruence. done.
Qed.

(** The callback of a pending request, whatever it calls. *)
Lemma call_back_run y ctx req resp payload c :
  cc_inv y None c -> is_Some (timeouts_ c !! ctx) -> is_Some (req_callback_ req) ->
  exists c', call_back user ctx req resp payload c = Ok (tt, c') /\
    cc_inv y (Some (ctx, (resp, payload))) c' /\ ext_le (cc_ext c) (cc_ext c').
Proof.
  intros [Hc [_ Hl]] [a Ha] [u Hu]. unfold call_back. rewrite Hu. rewrite (K_bind_run _ _ _ _ _ eq_refl), (K_bind_run _ _ _ _ _ eq_refl).
  set (c1 := set_log _ c).
  assert (cc_inv y (Some (ctx, (resp, payload))) c1) as Hc1.
  { split; [by apply cc_core_log|]. destruct (Hl ctx) as [Hin Hh]. rewrite Ha in Hh. specialize (Hh ltac:(done)).
    assert (ctx ∈ ctxs (cc_ext c)) as Hlive by (apply Hin; by rewrite Hh).
    assert (history ctx c1 = [HSend; HCallback (resp, payload)]) as Hh1.
    { unfold c1. rewrite history_snoc, Hh. cbn. by rewrite decide_True. }
    split; [intros k r [= <- <-]; split; [done|]; rewrite Hh1; cbn; by rewrite Ha|].
    intros k. destruct (Hl k) as [Hink Hk]. destruct (decide (ctx = k)) as [<-|Hne].
    - split; [done|]. cbn. rewrite Ha. by intros [].
    - assert (history k c1 = history k c) as ->.
      2: { split; [exact Hink|]. change (timeouts_ c1) with (timeouts_ c). destruct (timeouts_ c !! k); [|done]. intros _. by apply Hk. }
      unfold c1. rewrite history_snoc. cbn. rewrite decide_False by done. apply app_nil_r. }
  destruct (kok_for y _ (user u resp payload c1) do_call (do_call_kok _ _) c1 Hc1) as ([] & c' & Hrest). by exists c'.
Qed.

(** The history of a request whose callback was called with [r]. *)
Definition answered_with (ctx : Z) (r : answer) c : Prop :=
  history ctx c = [HSend; HCallback r] \/ history ctx c = [HSend; HCallback r; HCancel].

(** The end of a request whose callback was called. *)
Lemma finish_run y ctx r c :
  cc_inv y (Some (ctx, r)) c ->
  exists c', erase_timeout ctx (set_requests (delete ctx (requests_ c)) c) = Ok (tt, c') /\
    cc_inv (if decide (y = Some ctx) then None else y) None c' /\ cc_ext c' = cc_ext c /\ timeouts_ c' !! ctx = None /\
    answered_with ctx r c'.
Proof.
  intros [Hc [Hz Hl]]. destruct (erase_run y ctx c Hc) as (c' & Her & _ & Hc' & Ht & Hlog & Hext).
  assert (forall k, history k c' = history k c) as Hh by (intros k; unfold history; by rewrite Hlog).
  destruct (Hz ctx r eq_refl) as [_ Hhc].
  assert (answered_with ctx r c') as Hans by (unfold answered_with; rewrite Hh, Hhc; destruct (timeouts_ c !! ctx); cbn; auto).
  exists c'. split; [done|]. split; [|split; [done|split; [by rewrite Ht, lookup_delete_eq|done]]]. split; [done|]. split; [done|].
  intros k. rewrite Hext, Ht. destruct (Hl k) as [Hin Hk]. rewrite Hh. split; [done|].
  destruct (decide (ctx = k)) as [<-|Hne].
  - rewrite lookup_delete_eq. right. right. exists r. unfold answered_with in Hans. by rewrite Hh in Hans.
  - rewrite lookup_delete_ne by done. destruct (timeouts_ c !! k); [|done]. intros _. apply Hk. cbn. congruence.
Qed.

(** A message of the right session with the right token ends the request, others
    change no history. *)
Definition matches (ctx : Z) (pdu : coap_pdu) c : Prop :=
  exists r tok, requests_ c !! ctx = Some r /\ context_ r = Some ctx /\ session_ r = Some (pdu_session pdu) /\
    req_token_ r = Some tok /\ validateToken pdu tok = true.

Lemma messageProcess_run ctx pdu c :
  cc_inv None None c ->
  exists c', messageProcess user ctx pdu c = Ok (tt, c') /\ cc_inv None None c' /\ ext_le (cc_ext c) (cc_ext c') /\
    ((matches ctx pdu c /\ answered_with ctx (received_response pdu) c') \/
     (~ matches ctx pdu c /\ forall k, history k c' = history k c)).
Proof.
  intros Hc. unfold messageProcess.
  destruct (request_at_run None None ctx c Hc) as (r & c1 & Hr & Hc1 & Hreq & Hwas & Hlog1 & He & _). rewrite (K_bind_run _ _ _ _ _ Hr).
  rewrite <-He.
  assert (forall k, history k c1 = history k c) as Hh1 by (intros k; unfold history; by rewrite Hlog1).
  assert (forall q, requests_ c !! ctx = Some q -> q = r) as Hq by (intros q Hq; destruct Hwas as [?|[? _]]; congruence).
  case_decide as Hm.
  { exists c1. split; [done|]. split; [done|]. split; [apply ext_le_refl|]. right. split; [|done].
    intros (q & tok & Hq' & Hcx & Hs & _). apply Hq in Hq' as ->. tauto. }
  apply Decidable.not_or in Hm as [Hcx%dec_stable Hs%dec_stable].
  destruct (co_req _ _ (proj1 Hc1) ctx r Hreq) as [->|(_ & _ & Hcb & [tok Htok] & Hto)]; [done|]. rewrite Htok.
  destruct (validateToken pdu tok) eqn:Hval; cbn [negb].
  2: { assert (~ matches ctx pdu c) as Hnot by (intros (q & t & Hq' & _ & _ & Ht & Hv); apply Hq in Hq' as ->; congruence).
       case_match; [|exists c1; split; [done|]; split; [done|]; split; [apply ext_le_refl|by right]].
       eexists. split; [done|]. destruct Hc1 as [Hcore [Hz Hl]].
       assert (forall k, history k (set_log (cc_log c1 ++ [CcRst (pdu_session pdu)]) c1) = history k c1) as Hh2.
       { intros k. rewrite history_snoc. apply app_nil_r. }
       split; [split; [by apply cc_core_log|]; split; [done|]; intros k; rewrite Hh2; apply Hl|].
       split; [apply ext_le_refl|]. right. split; [done|]. intros k. by rewrite Hh2. }
  assert (matches ctx pdu c) as Hmatch.
  { exists r, tok. split; [|done]. destruct Hwas as [Hw|[_ ->]]; [done|discriminate]. }
  destruct (received_response pdu) as [resp payload] eqn:Hresp.
  assert (exists c2, call_back user ctx r resp payload c1 = Ok (tt, c2) /\
      cc_inv None (Some (ctx, (resp, payload))) c2 /\ ext_le (cc_ext c1) (cc_ext c2)) as (c2 & Hcall & Hc2 & He2).
  { by apply call_back_run. }
  rewrite (K_bind_run _ _ _ _ _ Hcall), (K_bind_run _ _ _ _ _ eq_refl).
  destruct (finish_run None ctx _ c2 Hc2) as (c3 & Hf & Hc3 & He3 & _ & Hans). exists c3. rewrite He3.
  split; [exact Hf|]. split; [exact Hc3|]. split; [exact He2|]. by left.
Qed.

Lemma messageProcess_kok ctx pdu : kok None None (messageProcess user ctx pdu).
Proof. intros c Hc. destruct (messageProcess_run ctx pdu c Hc) as (c' & Hr & Hc' & He & _). by exists tt, c'. Qed.

(** An entry that no request needs goes. *)
Lemma del_entry y z ctx fd c :
  cc_inv y z c -> ctx ∈ ctxs (cc_ext c) -> ctx_fds (cc_ext c) !! ctx = Some fd ->
  timeouts_ c !! ctx = None \/ y = Some ctx -> cc_inv y z (set_io (delFdEntry fd (cc_io c)) c).
Proof.
  intros [Hc Hl] Hlive Hfd Hno. split; [|exact Hl].
  destruct (co_io _ _ Hc) as [Ht Hf]. destruct (delFdEntry_run fd (cc_io c) Hf) as (Hf' & Hts & _).
  destruct (timer_inv_same _ _ Ht Hts) as [Ht' Hab].
  assert (forall b e, io_entries (delFdEntry fd (cc_io c)) !! b = Some e <-> io_entries (cc_io c) !! b = Some e /\ fd_ e <> fd) as Hen.
  { intros b e. unfold delFdEntry. destruct (entries_ (cc_io c) !! fd) as [b0|] eqn:Hb0; cbn.
    - rewrite lookup_delete_Some. split.
      + intros [Hne He]. split; [done|]. intros Hfe. apply Hne.
        assert (entries_ (cc_io c) !! fd = Some b) by (apply (inv_entries _ Hf); by exists e). congruence.
      + intros [He Hne]. split; [|done]. intros <-. apply (inv_entries _ Hf) in Hb0 as (e' & He' & Hfe'). congruence.
    - split; [|by intros []]. intros He. split; [done|]. intros Hfe.
      assert (entries_ (cc_io c) !! fd = Some b) by (apply (inv_entries _ Hf); by exists e). congruence. }
  split; cbn; rewrite ?Hab; try apply Hc; try done.
  - intros k a Ha. destruct (co_timeout _ _ Hc k a Ha) as (r & fd' & p & d & Hr & Hcx & Habk & Hl' & Hfk & Hy).
    exists r, fd', p, d. do 5 (split; [done|]). intros Hne. destruct (Hy Hne) as [Hd (b & Hb)]. split; [done|]. exists b. apply Hen.
    split; [done|]. cbn. intros <-. pose proof (ctx_fds_inj _ _ _ _ Hfk Hfd) as ->. destruct Hno; congruence.
  - intros b e [He _]%Hen. by apply (co_entry _ _ Hc b).
Qed.

Lemma scheduleCallback_run ctx fd c :
  cc_inv None None c -> ctx ∈ ctxs (cc_ext c) -> ctx_fds (cc_ext c) !! ctx = Some fd ->
  exists c', scheduleCallback user ctx fd c = Ok (tt, c') /\ cc_inv None None c'.
Proof.
  intros Hc Hlive Hfd. unfold scheduleCallback.
  assert (kcall (coap_io_process ctx) c = Ok ((coap_io_process ctx (cc_ext c)).1, set_cc_ext (coap_io_process ctx (cc_ext c)).2 c)) as Hio.
  { unfold kcall. by destruct (coap_io_process ctx (cc_ext c)). }
  rewrite (K_bind_run _ _ _ _ _ Hio).
  pose proof (ext_le_framed _ _ (coap_io_process_law ctx (cc_ext c)) (io_process_fds ctx (cc_ext c))) as Hx1.
  assert (cc_inv None None (set_cc_ext (coap_io_process ctx (cc_ext c)).2 c)) as Hc1 by by apply cc_inv_ext.
  destruct (kok_for None None (coap_io_process ctx (cc_ext c)).1 _ (messageProcess_kok ctx) _ Hc1) as ([] & c2 & Hm & Hc2 & Hx2).
  rewrite (K_bind_run _ _ _ _ _ Hm).
  destruct (request_at_run None None ctx c2 Hc2) as (r & c3 & Hr & Hc3 & Hreq & _ & _ & He3 & _). rewrite (K_bind_run _ _ _ _ _ Hr).
  case_decide as Hcx; [|by exists c3]. eexists. split; [done|].
  destruct (ext_le_trans _ _ _ Hx1 Hx2) as [Hin Hk]. apply (del_entry _ _ ctx); rewrite ?He3; [done|by apply Hin|by rewrite Hk|].
  left. destruct (timeouts_ c3 !! ctx) as [a|] eqn:Ha; [|done].
  destruct (co_timeout _ _ (proj1 Hc3) ctx a Ha) as (r' & _ & _ & _ & Hr' & Hcx' & _). congruence.
Qed.

Lemma alarmCallback_run ctx fd c :
  cc_inv (Some ctx) None c -> is_Some (timeouts_ c !! ctx) -> ctx ∈ ctxs (cc_ext c) -> ctx_fds (cc_ext c) !! ctx = Some fd ->
  exists c', alarmCallback user ctx fd c = Ok (tt, c') /\ cc_inv None None c' /\ answered_with ctx (ATLAS_COAP_RESP_TIMEOUT, None) c'.
Proof.
  intros Hc [a Ha] Hlive Hfd. unfold alarmCallback.
  destruct (request_at_run _ _ ctx c Hc) as (r & c1 & Hr & Hc1 & Hreq & _ & _ & He & Ht). rewrite (K_bind_run _ _ _ _ _ Hr).
  rewrite <-Ht in Ha. rewrite <-He in Hlive, Hfd.
  destruct (co_timeout _ _ (proj1 Hc1) ctx a Ha) as (r' & _ & _ & _ & Hr' & Hcx & _). assert (r' = r) as -> by congruence.
  destruct (co_req _ _ (proj1 Hc1) ctx r Hreq) as [->|(_ & _ & Hcb & _ & _)]; [done|].
  destruct (call_back_run (Some ctx) ctx r ATLAS_COAP_RESP_TIMEOUT None c1) as (c2 & Hcall & Hc2 & [Hin Hk]); [done|by eexists|done|].
  rewrite decide_True by done.
  assert (forall c3, (_ ← call_back user ctx r ATLAS_COAP_RESP_TIMEOUT None; _ ← kio (fun s => Ok (delFdEntry fd s)); erase_request ctx) c1 =
    Ok (tt, c3) <-> c3 = set_requests (delete ctx (requests_ c2)) (set_io (delFdEntry fd (cc_io c2)) c2)) as Hrun.
  { intros c3. rewrite (K_bind_run _ _ _ _ _ Hcall), (K_bind_run _ _ _ _ _ eq_refl). split; [by intros [= <-]|by intros ->]. }
  rewrite (K_bind_run _ _ _ _ _ (proj2 (Hrun _) eq_refl)).
  destruct (finish_run (Some ctx) ctx (ATLAS_COAP_RESP_TIMEOUT, None) (set_io (delFdEntry fd (cc_io c2)) c2)) as (c4 & Hf & Hc4 & _ & _ & Hans).
  { apply (del_entry _ _ ctx); [done|by apply Hin|by rewrite Hk|by right]. }
  rewrite decide_True in Hc4 by done. by exists c4.
Qed.

(** ** The loop *)

Lemma no_schedule c a v ctx fd : cc_core None c -> abs (cc_io c) !! a = Some v -> ab_callback v <> Some (cb_scheduleCallback ctx fd).
Proof. intros Hc Hv Hcb. pose proof (co_alarm _ _ Hc a v Hv) as Ha. by rewrite Hcb in Ha. Qed.

Lemma foreign_callback c a v :
  cc_core None c -> abs (cc_io c) !! a = Some v ->
  match ab_callback v with Some (cb_alarmCallback _ _) => False | _ => True end ->
  match ab_callback v with Some (cb_alarmCallback _ _) | Some (cb_scheduleCallback _ _) => False | _ => True end.
Proof. intros Hc Hv. pose proof (co_alarm _ _ Hc a v Hv) as Ha. by destruct (ab_callback v) as [[]|]. Qed.

(** A step that changes one alarm of another module, keeping its callback. *)
Lemma foreign_step c s' a v o :
  cc_core None c -> io_inv s' -> io_entries s' = io_entries (cc_io c) ->
  (abs (cc_io c) !! a = None \/ abs (cc_io c) !! a = Some v) -> 
  match ab_callback v with Some (cb_alarmCallback _ _) | Some (cb_scheduleCallback _ _) => False | _ => True end ->
  abs s' = partial_alter (fun _ => o) a (abs (cc_io c)) -> (forall v', o = Some v' -> ab_callback v' = ab_callback v) ->
  cc_core None (set_io s' c).
Proof.
  intros Hc Hi He Ha Hcb Hab Ho. apply cc_core_io; try done.
  - intros b w ctx fd Hw. rewrite Hab. destruct (decide (b = a)) as [->|Hne]; [|by rewrite lookup_partial_alter_ne].
    rewrite lookup_partial_alter_eq. split.
    + intros Hb. destruct Ha as [Ha|Ha]; [congruence|]. assert (w = v) as -> by congruence. by rewrite Hw in Hcb.
    + intros Hb. specialize (Ho _ Hb). rewrite Hw in Ho. by rewrite <-Ho in Hcb.
  - intros b w ctx fd. rewrite Hab. destruct (decide (b = a)) as [->|Hne].
    + rewrite lookup_partial_alter_eq. intros Hb Hw. specialize (Ho _ Hb). rewrite Hw in Ho. by rewrite <-Ho in Hcb.
    + rewrite lookup_partial_alter_ne by done. by apply no_schedule.
Qed.

Lemma quiet_step c s' :
  cc_core None c -> io_inv s' -> io_entries s' = io_entries (cc_io c) -> abs s' = abs (cc_io c) -> cc_core None (set_io s' c).
Proof.
  intros Hc Hi He Hab. apply cc_core_io; try done; intros a v ctx fd; rewrite Hab; [done|]. by apply no_schedule.
Qed.

(** A queued handler is called: nothing, the alarm of another module, or the time-out of
    a pending request. *)
Lemma run_cases n c :
  cc_inv None None c -> enabled (ARun n) (cc_io c) ->
  exists s' r, perform (ARun n) (cc_io c) = Ok (s', r) /\
    ((cc_inv None None (set_io s' c) /\ match r with Some (cb_alarmCallback _ _) | Some (cb_scheduleCallback _ _) => False | _ => True end) \/
     exists ctx fd, r = Some (cb_alarmCallback ctx fd) /\ cc_inv (Some ctx) None (set_io s' c) /\ is_Some (timeouts_ c !! ctx) /\
       ctx ∈ ctxs (cc_ext c) /\ ctx_fds (cc_ext c) !! ctx = Some fd).
Proof.
  intros [Hc Hl] Hen. destruct (step_run (ARun n) (cc_io c) (co_io _ _ Hc) Hen) as (s' & r & Hp & Hi & Hst).
  exists s', r. split; [done|]. pose proof (run_entries _ _ _ _ Hp) as He.
  inversion Hst as [| | | |m a v e Hv Hd Hle Hx Hf Hr Hab|x Hx Heq Hf Hr Hab|]; subst.
  2: { left. split; [split; [by apply quiet_step|exact Hl]|done]. }
  symmetry in Hab. pose proof (co_alarm _ _ Hc a v Hv) as Hal.
  destruct (ab_callback v) as [[ctx fd|ctx fd|k]|] eqn:Hcb; [right|done|left|left].
  2-3: (split; [split; [eapply (foreign_step c s' a v); [done|done|done|by right|by rewrite Hcb|exact Hab|by intros ? [= <-]]|exact Hl]|done]).
  exists ctx, fd. split; [done|].
  destruct (co_timeout _ _ Hc ctx a Hal) as (q & fd' & p & d & Hq & Hcx & Hv' & Hlive & Hfd & Hy).
  rewrite Hv in Hv'. injection Hv' as ->. cbn in Hcb, Hd, Hab. injection Hcb as <-. subst d.
  split; [|split; [by eexists|done]]. split; [|exact Hl].
  split; cbn; try done; try apply Hc.
  - intros k b Hk. destruct (co_timeout _ _ Hc k b Hk) as (q' & fd2 & p' & d' & Hq' & Hcx' & Hv' & Hlive' & Hfd' & Hy').
    destruct (decide (k = ctx)) as [->|Hne].
    + assert (b = a) as -> by congruence. exists q', fd', p, None. rewrite Hab, lookup_insert_eq.
      do 5 (split; [done|]). by intros [].
    + exists q', fd2, p', d'. rewrite Hab, lookup_insert_ne.
      * do 5 (split; [done|]). intros _. unfold listening. rewrite He. by apply Hy'.
      * intros <-. rewrite Hv in Hv'. congruence.
  - intros b w. rewrite Hab, lookup_insert_Some. intros [[<- <-]|[Hne Hw]]; [exact Hal|by apply (co_alarm _ _ Hc)].
  - rewrite He. apply Hc.
Qed.

Lemma kturn_run f c s' r : f (cc_io c) = Ok (s', r) -> kturn f c = Ok (r, set_io s' c).
Proof. intros Hf. unfold kturn. by rewrite Hf. Qed.
Lemma kio_run f c s' : f (cc_io c) = Ok s' -> kio f c = Ok (tt, set_io s' c).
Proof. intros Hf. unfold kio. by rewrite Hf. Qed.

Lemma alarm_of c a v : abs (cc_io c) !! a = Some v -> exists al, io_alarms (cc_io c) !! a = Some al /\ v = abs_of (cc_io c) al.
Proof. unfold abs. rewrite lookup_fmap. destruct (io_alarms (cc_io c) !! a) as [al|]; [|done]. intros [= <-]. by exists al. Qed.

Lemma perform_inv x c :
  cc_inv None None c -> cc_enabled x c -> exists c', cc_perform user x c = Ok (tt, c') /\ cc_inv None None c'.
Proof.
  intros Hi He. pose proof Hi as [Hc Hl]. pose proof (co_io _ _ Hc) as [Ht Hf]. destruct x as [k|a name p once m|a|a|a|ms|n|n|n]; cbn [cc_enabled cc_perform] in *.
  - destruct (do_call_kok None None k c Hi) as ([] & c' & Hr & Hc' & _). by exists c'.
  - erewrite kio_run by reflexivity. eexists. split; [done|]. split; [|exact Hl].
    destruct (new_alarm_run (cc_io c) a name p once (Some (cb_other m)) Ht He) as [Ht' Hab].
    eapply (foreign_step c _ a (mk_abs p once (Some (cb_other m)) None)); [done| |done| |done|exact Hab|by intros ? [= <-]].
    + split; [done|]. apply (fd_inv_same (cc_io c)); [done|by repeat split].
    + left. unfold abs. by rewrite lookup_fmap, He.
  - destruct He as (v & Hv & Hcb). destruct (alarm_of c a v Hv) as (al & Hal & Heq).
    destruct (start_run (cc_io c) a al Ht Hal) as (s' & Hs & Hi' & Hfs & Hab). erewrite kio_run by exact Hs. eexists. split; [done|].
    split; [|exact Hl]. rewrite (alter_found _ _ _ v) in Hab by done.
    eapply (foreign_step c s' a v); [done|split; [done|by eapply fd_inv_same]|apply Hfs|by right|by eapply foreign_callback|exact Hab|].
    intros ? [= <-]. unfold arm. by destruct (ab_deadline v).
  - destruct He as (v & Hv & Hcb). destruct (alarm_of c a v Hv) as (al & Hal & Heq).
    destruct (cancel_run None (cc_io c) a al) as (s' & Hs & Hi' & Hfs & _ & _ & Hab); [done..|by left|].
    erewrite kio_run by exact Hs. eexists. split; [done|].
    split; [|exact Hl]. rewrite (alter_found _ _ _ v) in Hab by done.
    eapply (foreign_step c s' a v); [done|split; [done|by eapply fd_inv_same]|apply Hfs|by right|by eapply foreign_callback|exact Hab|by intros ? [= <-]].
  - destruct He as (v & Hv & Hcb). destruct (alarm_of c a v Hv) as (al & Hal & Heq).
    destruct (destroy_run (cc_io c) a al Ht Hal) as (s' & Hs & Hi' & Hfs & Hab). erewrite kio_run by exact Hs. eexists. split; [done|].
    split; [|exact Hl].
    eapply (foreign_step c s' a v None); [done|split; [done|by eapply fd_inv_same]|apply Hfs|by right|by eapply foreign_callback|exact Hab|done].
  - rewrite (K_bind_run _ _ _ _ _ (kturn_run _ _ _ _ eq_refl)). eexists. split; [done|]. split; [|exact Hl].
    apply quiet_step; [done| |done|done].
    split; [by apply time_inv|]. apply (fd_inv_same (cc_io c)); [done|by repeat split].
  - destruct He as (a & t & e & Hn & Hte & Hle).
    erewrite K_bind_run; [|apply kturn_run; cbn; by rewrite Hn]. eexists. split; [done|]. split; [|exact Hl].
    apply quiet_step; [done| |done|done]. split; [by eapply expire_run|by eapply fd_inv_same, fd_same_expire].
  - destruct (run_cases n c Hi He) as (s' & r & Hp & Hcase). rewrite (K_bind_run _ _ _ _ _ (kturn_run _ _ _ _ Hp)).
    destruct Hcase as [[Hc' Hr]|(ctx & fd & -> & Hc' & Hto & Hlive & Hfd)].
    + destruct r as [[]|]; try done; by eexists.
    + destruct (alarmCallback_run ctx fd (set_io s' c)) as (c' & Hrun & Hc2 & _); [done..|]. by exists c'.
  - destruct He as [a Ha]. destruct (ready_run n a (cc_io c) Hf Ha) as (s' & e & Hent & Hs & Hi' & Hts).
    destruct (timer_inv_same _ _ Ht Hts) as [Hti Hab].
    assert (perform (AReady n) (cc_io c) = Ok (s', Some (fd_callback_ e))) as Hp by (cbn [perform]; by rewrite Ha).
    rewrite (K_bind_run _ _ _ _ _ (kturn_run _ _ _ _ Hp)).
    destruct (co_entry _ _ Hc a e Hent) as (ctx & -> & Hlive & Hfd). cbn.
    apply scheduleCallback_run; [|done|done]. split; [|exact Hl]. apply quiet_step; [done|done| |done].
    revert Hs. unfold handleFdEvent. rewrite decide_True by done. cbn. rewrite Hent. by intros [= <-].
Qed.

Lemma client_boot_inv x : cc_inv None None (cc_boot (U := U) x).
Proof.
  split; [split|split]; cbn; try done.
  - apply io_init_inv.
  - intros ctx. split; [done|]. cbn. by left.
Qed.

Lemma cc_run_inv c xs c' : cc_run user c xs c' -> cc_inv None None c -> cc_inv None None c'.
Proof.
  induction 1 as [|c xs c1 x c2 _ IH Hen Hp]; [done|]. intros Hi.
  destruct (perform_inv x c1 (IH Hi) Hen) as (c' & Hp' & Hi'). rewrite Hp in Hp'. by injection Hp' as <-.
Qed.

(** The time-out of a pending request fires. *)
Lemma timeout_run n a ctx c :
  cc_inv None None c -> timeouts_ c !! ctx = Some a -> enabled (ARun n) (cc_io c) -> fires (ARun n) (cc_io c) = Some a ->
  exists c', cc_perform user (CcRun n) c = Ok (tt, c') /\ answered_with ctx (ATLAS_COAP_RESP_TIMEOUT, None) c'.
Proof.
  intros Hi Ha Hen Hf. pose proof Hi as [Hc _].
  destruct (co_timeout _ _ Hc ctx a Ha) as (q & fd & p & d & _ & _ & Hv & _).
  destruct (step_run (ARun n) (cc_io c) (co_io _ _ Hc) Hen) as (s' & r & Hp & _ & Hst). rewrite Hf in Hst.
  inversion Hst as [| | | |m a' v e Hv' Hd Hle Hx Hf' Hr Hab| |]; subst. rewrite Hv in Hv'. injection Hv' as <-. cbn [ab_callback] in Hp.
  destruct (run_cases n c Hi Hen) as (s2 & r & Hp2 & Hcase). rewrite Hp in Hp2. injection Hp2 as <- <-.
  destruct Hcase as [[_ []]|(ctx' & fd' & [= <- <-] & Hc' & Hto & Hlive & Hfd)].
  cbn [cc_perform]. rewrite (K_bind_run _ _ _ _ _ (kturn_run _ _ _ _ Hp)).
  destruct (alarmCallback_run ctx fd (set_io s' c)) as (c' & Hrun & _ & Hans); [done..|]. by exists c'.
Qed.

Lemma cc_run_step c x c' : cc_enabled x c -> cc_perform user x c = Ok (tt, c') -> cc_run user c [x] c'.
Proof. intros He Hp. by apply (cc_run_snoc user c [] c); [apply cc_run_nil| |]. Qed.

Lemma timeout_next ctx a p fd e c :
  cc_inv None None c -> timeouts_ c !! ctx = Some a ->
  abs (cc_io c) !! a = Some (mk_abs p true (Some (cb_alarmCallback ctx fd)) (Some e)) -> e <= io_now (cc_io c) ->
  exists xs c', cc_run user c xs c' /\ (length xs <= 2)%nat /\ answered_with ctx (ATLAS_COAP_RESP_TIMEOUT, None) c'.
Proof.
  intros Hi Ha Hab He. pose proof Hi as [Hc _].
  destruct (armed_pending _ _ _ _ (co_io _ _ Hc) Hab eq_refl) as (t & Ht & Hp).
  apply elem_of_app in Hp as [[m Hm]%list_elem_of_lookup|[n Hn]%due_elem%list_elem_of_lookup].
  - assert (cc_enabled (CcExpire m) c) as Hen by by exists a, t, e.
    destruct (perform_inv (CcExpire m) c Hi Hen) as (c1 & Hp1 & Hi1).
    pose proof Hp1 as Hq. cbn [cc_perform] in Hq. erewrite K_bind_run in Hq by (apply kturn_run; cbn; by rewrite Hm).
    injection Hq as <-. set (c1 := set_io _ c) in *. set (n := length (io_queue (cc_io c))).
    assert (io_queue (cc_io c1) !! n = Some (TimerHandler a t, success)) as Hlast.
    { cbn. unfold n. by rewrite lookup_app_r, Nat.sub_diag by done. }
    destruct (timeout_run n a ctx c1 Hi1 Ha) as (c2 & Hp2 & Hans).
    + exact (mk_is_Some _ _ Hlast).
    + unfold fires. rewrite Hlast. cbn. by rewrite Ht.
    + exists ([CcExpire m] ++ [CcRun n]), c2. split; [|by split].
      eapply cc_run_snoc; [by apply cc_run_step|exact (mk_is_Some _ _ Hlast)|exact Hp2].
  - destruct (timeout_run n a ctx c Hi Ha) as (c2 & Hp2 & Hans).
    + exact (mk_is_Some _ _ Hn).
    + unfold fires. rewrite Hn. by rewrite Ht.
    + exists [CcRun n], c2. split; [|split; [cbn; lia|done]]. apply cc_run_step; [exact (mk_is_Some _ _ Hn)|done].
Qed.

(** * Theorems *)

(** C23: Every request is answered once. Whatever modules call, also from within
    callbacks, whatever arrives and however the loop orders its work, every step of the
    client returns, and the history of each context is one of five: never used;
    sent and cancelled; sent and answered, and possibly cancelled by its own callback; or sent
    only, and then its time-out is armed and its descriptor watched. So no callback
    is called twice, none after its request was cancelled, and none is
    forgotten. *)
Theorem requests_answered_once (x0 : ext) (xs : list (cc_act (U := U))) c :
  cc_run user (cc_boot x0) xs c ->
  (forall x, cc_enabled x c -> exists c', cc_perform user x c = Ok (tt, c')) /\
  forall ctx, closed (history ctx c) \/
    (history ctx c = [HSend] /\ exists a fd p e, timeouts_ c !! ctx = Some a /\
       abs (cc_io c) !! a = Some (mk_abs p true (Some (cb_alarmCallback ctx fd)) (Some e)) /\ listening ctx fd (cc_io c)).
Proof.
  intros Hr. pose proof (cc_run_inv _ _ _ Hr (client_boot_inv x0)) as Hi. split.
  - intros x Hx. destruct (perform_inv x c Hi Hx) as (c' & Hp & _). by exists c'.
  - intros ctx. destruct Hi as [Hc [_ Hl]]. destruct (Hl ctx) as [_ Hh].
    destruct (timeouts_ c !! ctx) as [a|] eqn:Ha; [right|by left]. split; [by apply Hh|].
    destruct (co_timeout _ _ Hc ctx a Ha) as (q & fd & p & d & _ & _ & Hv & _ & _ & Hy).
    destruct (Hy ltac:(done)) as [[e ->] Hls]. by exists a, fd, p, e.
Qed.

(** C24: A request that is not answered times out: once its deadline has come, at
    most two turns of the loop later its callback has been called with
    [ATLAS_COAP_RESP_TIMEOUT]. *)
Theorem request_times_out (x0 : ext) (xs : list (cc_act (U := U))) c ctx :
  cc_run user (cc_boot x0) xs c -> history ctx c = [HSend] ->
  exists a v e, timeouts_ c !! ctx = Some a /\ abs (cc_io c) !! a = Some v /\ ab_deadline v = Some e /\
    (e <= io_now (cc_io c) ->
     exists xs' c', cc_run user c xs' c' /\ (length xs' <= 2)%nat /\ answered_with ctx (ATLAS_COAP_RESP_TIMEOUT, None) c').
Proof.
  intros Hr Hh. pose proof (cc_run_inv _ _ _ Hr (client_boot_inv x0)) as Hi. pose proof Hi as [Hc [_ Hl]].
  destruct (Hl ctx) as [_ Hk]. destruct (timeouts_ c !! ctx) as [a|] eqn:Ha.
  - destruct (co_timeout _ _ Hc ctx a Ha) as (q & fd & p & d & _ & _ & Hv & _ & _ & Hy).
    destruct (Hy ltac:(done)) as [[e ->] Hls]. eexists a, _, e. do 3 (split; [done|]). by apply (timeout_next ctx a p fd e).
  - exfalso. rewrite Hh in Hk. by destruct Hk as [|[|(r & [|])]].
Qed.

(** An answer reaches the request it is for: a message that arrives on the context of
    a pending request, in its session and with its token, calls its callback with
    what the message says, and any other message leaves all histories alone. *)
Theorem response_delivered (x0 : ext) (xs : list (cc_act (U := U))) c ctx pdu :
  cc_run user (cc_boot x0) xs c ->
  exists c', messageProcess user ctx pdu c = Ok (tt, c') /\
    ((matches ctx pdu c /\ answered_with ctx (received_response pdu) c') \/
     (~ matches ctx pdu c /\ forall k, history k c' = history k c)).
Proof.
  intros Hr. destruct (messageProcess_run ctx pdu c (cc_run_inv _ _ _ Hr (client_boot_inv x0))) as (c' & Hp & _ & _ & Hcase). by exists c'.
Qed.
End GwCoapInv.

(** * A concrete host *)

(** The parts of a text between separators. *)
Fixpoint split_at (sep : byte) (l : list byte) : list (list byte) :=
  match l with
  | [] => [[]]
  | b :: l =>
      if decide (b = sep) then [] :: split_at sep l
      else match split_at sep l with w :: ws => (b :: w) :: ws | [] => [[b]] end
  end.

#[export] Instance sim_host : CoapHost sim_env := {|
  coap_split_path := split_at x2f;
  coap_split_query := split_at x26;
  new_address X _ := fresh X;
|}.

Definition sim_ctx_fds (x : sim) : gmap Z Z := set_to_map (fun c => (c, c)) (sim_contexts (sim_open x)).

Lemma sim_ctx_fds_lookup x c fd : sim_ctx_fds x !! c = Some fd <-> c ∈ sim_contexts (sim_open x) /\ fd = c.
Proof.
  unfold sim_ctx_fds. rewrite lookup_set_to_map by (intros ? ? _ _ Heq; cbn in Heq; by rewrite Heq). split.
  - intros (k & Hk & [= <- <-]). done.
  - intros [Hc ->]. by exists c.
Qed.

Lemma sim_fds_kept (x x' : sim) c :
  c ∈ sim_contexts (sim_open x) -> c ∈ sim_contexts (sim_open x') -> sim_ctx_fds x' !! c = sim_ctx_fds x !! c.
Proof. intros H1 H2. transitivity (Some c); [|symmetry]; by apply sim_ctx_fds_lookup. Qed.

#[export] Instance sim_host_laws : CoapHostLaws sim_env sim_host.
Proof.
  refine {| ctx_fds := sim_ctx_fds : @ext sim_env -> _ |}; try (intros; apply sim_fds_kept; assumption).
  - intros X x. apply is_fresh.
  - intros ctx x Hc. cbn. by rewrite (proj2 (sim_ctx_fds_lookup x ctx ctx)).
  - intros x c1 c2 fd [_ ->]%sim_ctx_fds_lookup [_ ->]%sim_ctx_fds_lookup. done.
  - intros h x l. cbn. destruct (sim_resolves x); [|done]. by intros [= <-].
Qed.

(** Runs by evaluation. *)
Section Exec.
Context {E : Env} {CH : CoapHost E} `{HostEndian} {U : Type}.
Context (user : U -> AtlasCoapResponse -> option (list byte) -> coap_client U -> list (call (U := U))).

Fixpoint cc_perform_all (xs : list (cc_act (U := U))) : K (U := U) unit :=
  match xs with
  | [] => mret tt
  | x :: xs => _ ← cc_perform user x; cc_perform_all xs
  end.

Fixpoint cc_all_enabled (xs : list (cc_act (U := U))) (c : coap_client U) : Prop :=
  match xs with
  | [] => True
  | x :: xs => cc_enabled x c /\ match cc_perform user x c with Ok (_, c1) => cc_all_enabled xs c1 | Fault _ => False end
  end.

Lemma cc_run_cons c x c1 xs c2 :
  cc_enabled x c -> cc_perform user x c = Ok (tt, c1) -> cc_run user c1 xs c2 -> cc_run user c (x :: xs) c2.
Proof.
  intros He Hp. induction 1 as [c1|c1 xs c2 y c3 _ IH Hen Hp'].
  - exact (cc_run_snoc user c [] c x _ (cc_run_nil user c) He Hp).
  - rewrite app_comm_cons. eapply cc_run_snoc; eauto.
Qed.

Lemma cc_run_exec xs c c' : cc_all_enabled xs c -> cc_perform_all xs c = Ok (tt, c') -> cc_run user c xs c'.
Proof.
  revert c. induction xs as [|x xs IH]; cbn; intros c.
  - intros _ [= <-]. constructor.
  - intros [He Hall]. unfold mbind, K_bind. destruct (cc_perform user x c) as [[[] c1]|] eqn:Hp; [|done].
    intros Hx. eapply cc_run_cons; eauto.
Qed.
End Exec.

(** A module whose callback sends the request again when it timed out. *)
Definition resend : list byte := cstr "coaps://dev:10001/alerts".
Definition retrying (u : Z) (resp : AtlasCoapResponse) (payload : option (list byte)) (c : coap_client Z) : list (call (U := Z)) :=
  if decide (resp = ATLAS_COAP_RESP_TIMEOUT) then [CallSend resend ATLAS_COAP_METHOD_PUT None 4000 u] else [].

#[local] Instance gw_le : HostEndian := true.

Definition sent_one : list (cc_act (U := Z)) := [CcCall (CallSend resend ATLAS_COAP_METHOD_PUT (Some [x01]) 4000 7)].
Definition after_acts (xs : list (cc_act (U := Z))) : coap_client Z :=
  match cc_perform_all retrying xs (cc_boot (U := Z) sim0) with Ok (_, c) => c | Fault _ => cc_boot (U := Z) sim0 end.

Lemma sent_one_run : cc_run retrying (cc_boot (U := Z) sim0) sent_one (after_acts sent_one).
Proof. apply cc_run_exec; [vm_compute; eauto|vm_compute; reflexivity]. Qed.

Definition retried : list (cc_act (U := Z)) := sent_one ++ [CcTime 4100; CcExpire 0; CcRun 0].

Lemma retried_run : cc_run retrying (cc_boot (U := Z) sim0) retried (after_acts retried).
Proof.
  apply cc_run_exec; [|vm_compute; reflexivity]. vm_compute. repeat split; eauto; try discriminate.
  do 3 eexists. repeat split; discriminate.
Qed.

(** After the time-out: the first request is answered, the second is pending. *)
Lemma requests_answered_once_witness :
  history 3 (after_acts retried) = [HSend; HCallback (ATLAS_COAP_RESP_TIMEOUT, None)] /\
  history 4 (after_acts retried) = [HSend] /\
  forall x, cc_enabled x (after_acts retried) -> exists c', cc_perform retrying x (after_acts retried) = Ok (tt, c').
Proof.
  split; [vm_compute; reflexivity|]. split; [vm_compute; reflexivity|].
  apply (requests_answered_once retrying sim0 retried (after_acts retried) retried_run).
Defined.

Lemma request_times_out_witness :
  exists a v e, timeouts_ (after_acts sent_one) !! 3 = Some a /\ abs (cc_io (after_acts sent_one)) !! a = Some v /\
    ab_deadline v = Some e /\
    (e <= io_now (cc_io (after_acts sent_one)) ->
     exists xs' c', cc_run retrying (after_acts sent_one) xs' c' /\ (length xs' <= 2)%nat /\
       answered_with 3 (ATLAS_COAP_RESP_TIMEOUT, None) c').
Proof.
  apply (request_times_out retrying sim0 sent_one (after_acts sent_one) 3 sent_one_run). vm_compute. reflexivity.
Defined.

Definition good_answer : coap_pdu := mk_pdu 3 true MSG_ACK [x00; x00; x00; x00] 69 (Some [x2a]).

Lemma response_delivered_witness :
  exists c', messageProcess retrying 3 good_answer (after_acts sent_one) = Ok (tt, c') /\
    answered_with 3 (ATLAS_COAP_RESP_OK, Some [x2a]) c'.
Proof.
  destruct (response_delivered retrying sim0 sent_one (after_acts sent_one) 3 good_answer sent_one_run) as (c' & Hr & [[_ Ha]|[Hn _]]).
  - exists c'. split; [exact Hr|exact Ha].
  - exfalso. apply Hn. eexists _, _. repeat split; vm_compute; reflexivity.
Defined.

(** The second parameter of a query is lost: the first is sent twice. *)
Example query_first_repeated :
  uri_options (mk_coap_uri true (cstr "dev") 10001 [] (cstr "a=1&b=2")) =
  [COAP_OPTION_URI_QUERY (cstr "a=1"); COAP_OPTION_URI_QUERY (cstr "a=1")].
Proof. vm_compute. reflexivity. Qed.
