(* ===== verification/GwCoapServer.v ===== *)
(** The gateway's CoAP server (coap/AtlasCoapServer.cpp, coap/AtlasCoapResource.h) and
    the modules that add their end-points to it: the start of register/, policy/,
    reputation/ and the constructor of telemetry/.

    libcoap is that of [Env]. Its own part in a request is documented: it looks the
    path of the request up among the resources of the context and calls the handler
    that is registered for the method; it answers requests for other paths and
    methods itself. In a DTLS handshake it asks [verifyIdentity] for the key of the
    identity the peer names, and the handshake succeeds when the peer has that key;
    the session then carries both. *)
From S2P Require Import Prelude Defs CLib State SimEnv Command CoapServer GwDefs GwBatch GwXfer GwFilter GwBayes GwStore GwNetStore GwDevice GwServer GwReputation GwLifecycle GwApprove GwCommands GwIo GwCoap.
Import GwType.

(** The methods the modules bind into a [resource_callback_t]. *)
Inductive endpoint : Set :=
  | EpRegister      (* AtlasRegister::registerCallback *)
  | EpKeepalive     (* AtlasRegister::keepaliveCallback *)
  | EpPolicy        (* AtlasPolicy::firewallPolicyCallback *)
  | EpFeature       (* AtlasTelemetry::featureCallback *)
  | EpReputation    (* AtlasFeatureReputation::requestReputationCallback *)
  | EpFeedback.     (* AtlasFeatureReputation::feedbackReputationCallback *)

(** coap/AtlasCoapResource.h *)
Record AtlasCoapResource := mk_resource {
  uri_ : list byte;
  method_ : atlas_coap_method;
  res_callback_ : option endpoint;
}.
Definition default_AtlasCoapResource : AtlasCoapResource := mk_resource [] ATLAS_COAP_METHOD_GET None.

(** What the server registers with libcoap for a path. *)
Inductive lib_handler : Set :=
  | getHandler
  | postHandler
  | putHandler
  | deleteHandler
  | getDefaultIndexHandler.

Record lib_resource := mk_lib_resource {
  lr_method : atlas_coap_method;
  lr_handler : lib_handler;
}.

(** A request: [rq_has_path] is false when libcoap has no memory for the copy of the
    path that [coap_get_uri_path] makes. *)
Record gw_request := mk_gw_request {
  rq_method : atlas_coap_method;
  rq_path : list byte;
  rq_has_path : bool;
  rq_payload : option (list byte);
}.

(** What goes back: code and payload an end-point gave, the index page, a response
    whose code no handler has set, or what libcoap answers on its own. *)
Inductive gw_answer :=
  | AnsCode (code : Z) (payload : list byte)
  | AnsIndex (text : list byte)
  | AnsUnset
  | AnsNotFound
  | AnsNotAllowed.

Definition DEFAULT_INDEX : list byte := cstr "ATLAS CoAP gateway".

(** * The resources of the modules *)

Definition ATLAS_REGISTER_URI : list byte := cstr "gateway/register".
Definition ATLAS_KEEPALIVE_URI : list byte := cstr "gateway/keepalive".
Definition ATLAS_FIREWALLPOLICY_URI : list byte := cstr "gateway/policy".
Definition ATLAS_FEATURE_RECEIVE_URI : list byte := cstr "gateway/reputation/feature".
Definition ATLAS_FEEDBACK_RECEIVE_URI : list byte := cstr "gateway/reputation/feedback".

Definition registerResource_ : AtlasCoapResource := mk_resource ATLAS_REGISTER_URI ATLAS_COAP_METHOD_POST (Some EpRegister).
Definition keepAliveResource_ : AtlasCoapResource := mk_resource ATLAS_KEEPALIVE_URI ATLAS_COAP_METHOD_PUT (Some EpKeepalive).
Definition firewallPolicyResource_ : AtlasCoapResource := mk_resource ATLAS_FIREWALLPOLICY_URI ATLAS_COAP_METHOD_PUT (Some EpPolicy).
Definition featureReputationResource_ : AtlasCoapResource :=
  mk_resource ATLAS_FEATURE_RECEIVE_URI ATLAS_COAP_METHOD_PUT (Some EpReputation).
Definition receiveFeedbackResource_ : AtlasCoapResource :=
  mk_resource ATLAS_FEEDBACK_RECEIVE_URI ATLAS_COAP_METHOD_PUT (Some EpFeedback).

(** The fifteen resources of [AtlasTelemetry], in the order of [feature_table]. *)
Definition telemetry_resources : list AtlasCoapResource :=
  (fun f => mk_resource f.1.1 ATLAS_COAP_METHOD_PUT (Some EpFeature)) <$> feature_table.

Section GwCoapServer.
Context {V : Env} {CH : CoapHost V} `{GE : GwEnv} `{HO : HashOrder} `{HostEndian}.

(** * State *)

Record coap_server := mk_server {
  ctx_ : option Z;
  resources_ : gmap (list byte) AtlasCoapResource;
  identityPsk_ : option (list byte);
  sv_lib : gmap (list byte) lib_resource;             (* the resources of the context in libcoap *)
  sv_sessions : gmap Z (list byte * list byte);       (* established DTLS sessions: identity and key *)
  sv_gw : gateway;
  sv_io : io unit;
  sv_ext : ext;
}.

Definition set_sv_ctx (o : option Z) (s : coap_server) : coap_server :=
  mk_server o (resources_ s) (identityPsk_ s) (sv_lib s) (sv_sessions s) (sv_gw s) (sv_io s) (sv_ext s).
Definition set_resources (m : gmap (list byte) AtlasCoapResource) (s : coap_server) : coap_server :=
  mk_server (ctx_ s) m (identityPsk_ s) (sv_lib s) (sv_sessions s) (sv_gw s) (sv_io s) (sv_ext s).
Definition set_identityPsk (k : option (list byte)) (s : coap_server) : coap_server :=
  mk_server (ctx_ s) (resources_ s) k (sv_lib s) (sv_sessions s) (sv_gw s) (sv_io s) (sv_ext s).
Definition set_lib (l : gmap (list byte) lib_resource) (s : coap_server) : coap_server :=
  mk_server (ctx_ s) (resources_ s) (identityPsk_ s) l (sv_sessions s) (sv_gw s) (sv_io s) (sv_ext s).
Definition set_sessions (m : gmap Z (list byte * list byte)) (s : coap_server) : coap_server :=
  mk_server (ctx_ s) (resources_ s) (identityPsk_ s) (sv_lib s) m (sv_gw s) (sv_io s) (sv_ext s).
Definition set_sv_gw (g : gateway) (s : coap_server) : coap_server :=
  mk_server (ctx_ s) (resources_ s) (identityPsk_ s) (sv_lib s) (sv_sessions s) g (sv_io s) (sv_ext s).
Definition set_sv_io (i : io unit) (s : coap_server) : coap_server :=
  mk_server (ctx_ s) (resources_ s) (identityPsk_ s) (sv_lib s) (sv_sessions s) (sv_gw s) i (sv_ext s).
Definition set_sv_ext (x : ext) (s : coap_server) : coap_server :=
  mk_server (ctx_ s) (resources_ s) (identityPsk_ s) (sv_lib s) (sv_sessions s) (sv_gw s) (sv_io s) x.

Definition Sv (A : Type) : Type := coap_server -> res (A * coap_server).

#[global] Instance Sv_ret : MRet Sv := fun A a s => Ok (a, s).
#[global] Instance Sv_bind : MBind Sv := fun A B k m s =>
  match m s with Ok (a, s) => k a s | Fault f => Fault f end.

Definition sget {A} (f : coap_server -> A) : Sv A := fun s => Ok (f s, s).
Definition smodify (f : coap_server -> coap_server) : Sv unit := fun s => Ok (tt, f s).
Definition sfail {A} (f : fault) : Sv A := fun _ => Fault f.
Definition scall {A} (f : ext -> A * ext) : Sv A := fun s =>
  let '(a, x) := f (sv_ext s) in Ok (a, set_sv_ext x s).
Definition scall_ (f : ext -> ext) : Sv unit := smodify (fun s => set_sv_ext (f (sv_ext s)) s).
Definition sgw {A} (m : G A) : Sv A := fun s =>
  match m (sv_gw s) with Ok (a, g) => Ok (a, set_sv_gw g s) | Fault f => Fault f end.
Definition sio (f : io unit -> res (io unit)) : Sv unit := fun s => i ← f (sv_io s); Ok (tt, set_sv_io i s).

(** * Requests *)

(** [coapResource.getCallback()(...)] *)
Definition call_endpoint (ep : endpoint) (path identity : list byte) (reqPayload : option (list byte)) (reqPayloadLen : Z) : G response :=
  match ep with
  | EpRegister => registerCallback identity reqPayload reqPayloadLen
  | EpKeepalive => keepaliveCallback identity reqPayload reqPayloadLen
  | EpPolicy => firewallPolicyCallback identity reqPayload reqPayloadLen
  | EpFeature => featureCallback path identity reqPayload reqPayloadLen
  | EpReputation => requestReputationCallback identity reqPayload reqPayloadLen
  | EpFeedback => feedbackReputationCallback identity reqPayload reqPayloadLen
  end.

(** [this->resources_[uriPath]]: a default resource is added when there is none. *)
Definition resource_at (uriPath : list byte) : Sv AtlasCoapResource :=
  m ← sget resources_;
  match m !! uriPath with
  | Some r => mret r
  | None => _ ← smodify (set_resources (<[uriPath := default_AtlasCoapResource]> m)); mret default_AtlasCoapResource
  end.

(** The session is [None] when the transport is plain UDP. No end-point reads the
    key or the method it is given. *)
Definition incomingHandler (session : option (list byte * list byte)) (request : gw_request) (method : atlas_coap_method)
    : Sv gw_answer :=
  (* Assign CoAP PSK identity if the transport is DTLS *)
  let identity := match session with Some (i, _) => i | None => [] end in
  (* Get request payload if any *)
  let reqPayload := rq_payload request in
  let reqPayloadLen := match reqPayload with Some p => blen p | None => 0 end in
  if negb (rq_has_path request) then mret AnsUnset else
  let uriPath := until_nul (rq_path request) in
  coapResource ← resource_at uriPath;
  match res_callback_ coapResource with
  | None => mret AnsUnset
  | Some callback =>
      '(respCode, respPayload) ← sgw (call_endpoint callback uriPath identity reqPayload reqPayloadLen);
      (* Add payload if required *)
      mret (AnsCode (COAP_RESPONSE_CODE (response_code respCode))
              (if decide (respCode = ATLAS_COAP_RESP_OK) then default [] respPayload else []))
  end.

(** The handlers libcoap calls. *)
Definition run_lib_handler (h : lib_handler) (session : option (list byte * list byte)) (request : gw_request) : Sv gw_answer :=
  match h with
  | getHandler => incomingHandler session request ATLAS_COAP_METHOD_GET
  | postHandler => incomingHandler session request ATLAS_COAP_METHOD_POST
  | putHandler => incomingHandler session request ATLAS_COAP_METHOD_PUT
  | deleteHandler => incomingHandler session request ATLAS_COAP_METHOD_DELETE
  | getDefaultIndexHandler => mret (AnsIndex DEFAULT_INDEX)
  end.

(** [schedulerCallback] for one request: libcoap's dispatch. *)
Definition serve (session : option (list byte * list byte)) (request : gw_request) : Sv gw_answer :=
  l ← sget sv_lib;
  match l !! rq_path request with
  | None => mret AnsNotFound
  | Some r => if decide (lr_method r = rq_method request) then run_lib_handler (lr_handler r) session request else mret AnsNotAllowed
  end.

(** * DTLS *)

Definition getPskForIdentity (identityVal : list byte) : Sv (option (list byte)) :=
  device ← sgw (getDevice identityVal);
  if negb device then mret None else
  d ← sgw (this identityVal);
  _ ← smodify (set_identityPsk (Some (psk_ d)));
  mret (Some (psk_ d)).

Definition verifyIdentity (identity : list byte) : Sv (option (list byte)) := getPskForIdentity identity.

(** A handshake of a peer that names an identity and has a key. *)
Definition handshake (sid : Z) (identity key : list byte) : Sv bool :=
  psk ← verifyIdentity identity;
  if decide (psk = Some key) then
    _ ← smodify (fun s => set_sessions (<[sid := (identity, key)]> (sv_sessions s)) s); mret true
  else mret false.

(** * Start *)

Definition setDtlsPsk (ctx : Z) : Sv unit :=
  if coap_dtls_is_supported then mret tt else sfail Uncaught.

Definition getContext (port mode : Z) : Sv (option Z) :=
  octx ← scall coap_new_context;
  match octx with
  | None => mret None
  | Some ctx =>
      (* Set DTLS PSK *)
      _ ← (if ATLAS_COAP_SERVER_IS_DTLS mode then setDtlsPsk ctx else mret tt);
      let ports := if ATLAS_COAP_SERVER_IS_UDP mode && ATLAS_COAP_SERVER_IS_DTLS mode then u16 (port + 1) else port in
      let error (ep eps : option Z) : Sv (option Z) :=
        _ ← scall_ (coap_free_endpoint ep); _ ← scall_ (coap_free_endpoint eps); _ ← scall_ (coap_free_context ctx); mret None in
      ep ← (if ATLAS_COAP_SERVER_IS_UDP mode then scall (coap_new_endpoint ctx port false) else mret None);
      if ATLAS_COAP_SERVER_IS_UDP mode && bool_decide (ep = None) then error ep None else
      eps ← (if ATLAS_COAP_SERVER_IS_DTLS mode then scall (coap_new_endpoint ctx ports true) else mret None);
      if ATLAS_COAP_SERVER_IS_DTLS mode && bool_decide (eps = None) then error ep eps else
      mret (Some ctx)
  end.

(** The result of [coap_resource_init] is not checked; the context has no resources
    before. *)
Definition initDefaultResources (ctx : Z) : Sv unit :=
  resource ← scall (coap_resource_init []);
  match resource with
  | None => sfail NullDeref
  | Some _ => smodify (set_lib {[ [] := mk_lib_resource ATLAS_COAP_METHOD_GET getDefaultIndexHandler ]})
  end.

(** Every failure is an [AtlasCoapException] that [main] does not catch. *)
Definition start (port mode : Z) : Sv unit :=
  if decide (port = 0) then sfail Uncaught else
  (* Get CoAP context *)
  octx ← getContext port mode;
  _ ← smodify (set_sv_ctx octx);
  match octx with
  | None => sfail Uncaught
  | Some ctx =>
      (* Init default resources *)
      _ ← initDefaultResources ctx;
      x ← sget sv_ext;
      let fd := coap_context_get_coap_fd ctx x in
      if decide (fd = -1) then sfail Uncaught else
      (* Schedule CoAP server *)
      i ← sget sv_io;
      sio (addFdEntry (new_address (dom (io_entries i)) x) fd tt)
  end.

Definition handler_of (m : atlas_coap_method) : lib_handler :=
  match m with
  | ATLAS_COAP_METHOD_GET => getHandler
  | ATLAS_COAP_METHOD_POST => postHandler
  | ATLAS_COAP_METHOD_PUT => putHandler
  | ATLAS_COAP_METHOD_DELETE => deleteHandler
  end.

(** [coap_add_resource] replaces a resource with the same path. *)
Definition addResource (resource : AtlasCoapResource) : Sv unit :=
  c ← sget ctx_;
  match c with
  | None => sfail Uncaught
  | Some _ =>
      coapResource ← scall (coap_resource_init (uri_ resource));
      match coapResource with
      | None => sfail Uncaught
      | Some _ =>
          _ ← smodify (fun s => set_lib (<[uri_ resource := mk_lib_resource (method_ resource) (handler_of (method_ resource))]> (sv_lib s)) s);
          smodify (fun s => set_resources (<[uri_ resource := resource]> (resources_ s)) s)
      end
  end.

(** libcoap keeps the resource. *)
Definition delResource (resource : AtlasCoapResource) : Sv unit :=
  smodify (fun s => set_resources (delete (uri_ resource) (resources_ s)) s).

Fixpoint sfor {A} (l : list A) (body : A -> Sv unit) : Sv unit :=
  match l with
  | [] => mret tt
  | a :: l => _ ← body a; sfor l body
  end.

Definition telemetry_start : Sv unit := sfor telemetry_resources addResource.
Definition policy_start : Sv unit := addResource firewallPolicyResource_.
Definition policy_stop : Sv unit := delResource firewallPolicyResource_.
Definition register_start : Sv unit := _ ← addResource registerResource_; addResource keepAliveResource_.
Definition register_stop : Sv unit := _ ← delResource registerResource_; delResource keepAliveResource_.
Definition reputation_start : Sv unit := _ ← addResource featureReputationResource_; addResource receiveFeedbackResource_.
Definition reputation_stop : Sv unit := _ ← delResource featureReputationResource_; delResource receiveFeedbackResource_.

(** The order of [main]; the device manager, whose member [telemetry_] is, is made by
    the start of the claim module. *)
Definition main_start (coapPort : Z) : Sv unit :=
  _ ← start coapPort ATLAS_COAP_SERVER_MODE_DTLS_PSK;
  _ ← telemetry_start;
  _ ← policy_start;
  _ ← register_start;
  reputation_start.
Definition main_stop : Sv unit := _ ← reputation_stop; _ ← policy_stop; register_stop.

Definition new_server (g : gateway) (x : ext) : coap_server := mk_server None ∅ None ∅ ∅ g io_init x.
End GwCoapServer.
Arguments coap_server {V GE}.

(** * What is served, from outside *)

Definition all_resources : list AtlasCoapResource :=
  telemetry_resources ++
  [firewallPolicyResource_; registerResource_; keepAliveResource_; featureReputationResource_; receiveFeedbackResource_].

(** The end-point of a request, if any. *)
Definition route (rq : gw_request) : option endpoint :=
  r ← List.find (fun r => bool_decide (uri_ r = rq_path rq)) all_resources;
  if decide (method_ r = rq_method rq) then res_callback_ r else None.

(** The input of the gateway it stands for. *)
Definition input_of (ep : endpoint) (path identity payload : list byte) : gw_input :=
  match ep with
  | EpRegister => InRegister identity payload
  | EpKeepalive => InKeepalive identity payload
  | EpPolicy => InPolicy identity payload
  | EpFeature => InTelemetry path identity payload
  | EpReputation => InReputation identity payload
  | EpFeedback => InFeedback identity payload
  end.

(** The response to what an end-point returned. *)
Definition respond (r : response) : gw_answer :=
  AnsCode (COAP_RESPONSE_CODE (response_code r.1)) (if decide (r.1 = ATLAS_COAP_RESP_OK) then default [] r.2 else []).

(** The end-points do not answer these. *)
Definition unrouted (a : gw_answer) : Prop :=
  match a with AnsCode _ _ => False | _ => True end.

Section ServerRuns.
Context {V : Env} {CH : CoapHost V} `{GE : GwEnv} `{HO : HashOrder} `{HostEndian}.
Implicit Types (s : coap_server).

Lemma Sv_bind_run {A B} (m : Sv A) (k : A -> Sv B) s a s' : m s = Ok (a, s') -> (m ≫= k) s = k a s'.
Proof. intros Hm. unfold mbind, Sv_bind. by rewrite Hm. Qed.
Lemma Sv_bind_inv {A B} (m : Sv A) (k : A -> Sv B) s b s' :
  (m ≫= k) s = Ok (b, s') -> exists a s1, m s = Ok (a, s1) /\ k a s1 = Ok (b, s').
Proof. unfold mbind, Sv_bind. destruct (m s) as [[a s1]|]; [eauto|done]. Qed.

(** ** The state after the start *)

Definition add_lib (l : gmap (list byte) lib_resource) (r : AtlasCoapResource) : gmap (list byte) lib_resource :=
  <[uri_ r := mk_lib_resource (method_ r) (handler_of (method_ r))]> l.
Definition add_res (m : gmap (list byte) AtlasCoapResource) (r : AtlasCoapResource) : gmap (list byte) AtlasCoapResource :=
  <[uri_ r := r]> m.
Definition index_lib : gmap (list byte) lib_resource := {[ [] := mk_lib_resource ATLAS_COAP_METHOD_GET getDefaultIndexHandler ]}.

(** The tables once the resources [l] have been added to those of [s]. *)
Definition added (l : list AtlasCoapResource) s s' : Prop :=
  sv_lib s' = foldl add_lib (sv_lib s) l /\ resources_ s' = foldl add_res (resources_ s) l /\
  sv_gw s' = sv_gw s /\ sv_sessions s' = sv_sessions s.

Lemma added_trans l1 l2 s s1 s2 : added l1 s s1 -> added l2 s1 s2 -> added (l1 ++ l2) s s2.
Proof. intros (L1 & R1 & G1 & S1) (L2 & R2 & G2 & S2). unfold added. rewrite !foldl_app. repeat split; congruence. Qed.

Lemma scall_inv {A} (f : ext -> A * ext) s a s' : scall f s = Ok (a, s') -> s' = set_sv_ext (f (sv_ext s)).2 s.
Proof. unfold scall. destruct (f (sv_ext s)) as [b x]. by intros [= _ <-]. Qed.

Lemma addResource_added r s s' : addResource r s = Ok (tt, s') -> added [r] s s'.
Proof.
  unfold addResource. rewrite (Sv_bind_run _ _ _ _ _ eq_refl). destruct (ctx_ s); [|done].
  intros (o & s1 & ->%scall_inv & Hr)%Sv_bind_inv. destruct o; [|done]. by injection Hr as <-.
Qed.

Lemma sfor_added l s s' : sfor l addResource s = Ok (tt, s') -> added l s s'.
Proof.
  revert s. induction l as [|r l IH]; intros s; [by intros [= <-]|].
  intros ([] & s1 & H1%addResource_added & H2%IH)%Sv_bind_inv. by apply (added_trans [r] l s s1).
Qed.

Definition serving s : Prop :=
  sv_lib s = foldl add_lib index_lib all_resources /\ resources_ s = foldl add_res ∅ all_resources.

Lemma getContext_frame port mode s o s' : getContext port mode s = Ok (o, s') -> exists x, s' = set_sv_ext x s.
Proof.
  unfold getContext, setDtlsPsk. intros (octx & s1 & ->%scall_inv & Hr)%Sv_bind_inv.
  destruct octx as [ctx|]; [|injection Hr as _ <-; eauto].
  assert (Hc : forall b (f : ext -> option Z * ext) t a t', (if b : bool then scall f else mret None) t = Ok (a, t') -> exists x, t' = set_sv_ext x t).
  { intros [] f t a t'; [intros ->%scall_inv; eauto|]. intros [= _ <-]. exists (sv_ext t). by destruct t. }
  apply Sv_bind_inv in Hr as ([] & s1 & Hd & Hr). assert (s1 = set_sv_ext (coap_new_context (sv_ext s)).2 s) as ->.
  { destruct (ATLAS_COAP_SERVER_IS_DTLS mode); [destruct coap_dtls_is_supported; [|done]|]; by injection Hd as <-. }
  cbv zeta in Hr. apply Sv_bind_inv in Hr as (ep & s2 & (x2 & ->)%Hc & Hr).
  destruct (_ && bool_decide (ep = None)); [injection Hr as _ <-; by eexists|].
  apply Sv_bind_inv in Hr as (eps & s3 & (x3 & ->)%Hc & Hr).
  destruct (_ && bool_decide (eps = None)); injection Hr as _ <-; by eexists.
Qed.

Lemma start_serving port g x s :
  main_start port (new_server g x) = Ok (tt, s) -> serving s /\ sv_gw s = g /\ sv_sessions s = ∅.
Proof.
  unfold main_start. intros ([] & s1 & Hs & Hrest)%Sv_bind_inv.
  assert (sv_lib s1 = index_lib /\ resources_ s1 = ∅ /\ sv_gw s1 = g /\ sv_sessions s1 = ∅) as (L1 & R1 & G1 & S1).
  { unfold start in Hs. case_decide; [done|]. apply Sv_bind_inv in Hs as (o & s2 & (x2 & ->)%getContext_frame & Hs).
    rewrite (Sv_bind_run _ _ _ _ _ eq_refl) in Hs. destruct o as [ctx|]; [|done].
    unfold initDefaultResources in Hs. apply Sv_bind_inv in Hs as ([] & s3 & Hi & Hs).
    apply Sv_bind_inv in Hi as (o & s4 & ->%scall_inv & Hi). destruct o; [|done]. injection Hi as <-.
    rewrite (Sv_bind_run _ _ _ _ _ eq_refl) in Hs. cbv zeta in Hs. case_decide; [done|].
    rewrite (Sv_bind_run _ _ _ _ _ eq_refl) in Hs. unfold sio in Hs.
    destruct (addFdEntry _ _ _ _); [|done]. by injection Hs as <-. }
  unfold telemetry_start, policy_start, register_start, reputation_start in Hrest.
  repeat (apply Sv_bind_inv in Hrest as ([] & ? & ?%sfor_added & Hrest)
    || apply Sv_bind_inv in Hrest as ([] & ? & ?%addResource_added & Hrest)).
  apply Sv_bind_inv in Hrest as ([] & s4 & Hreg & Hrest).
  apply Sv_bind_inv in Hreg as ([] & s5 & ?%addResource_added & ?%addResource_added).
  apply Sv_bind_inv in Hrest as ([] & s6 & ?%addResource_added & ?%addResource_added).
  assert (added all_resources s1 s) as (L & R & G & Se).
  { unfold all_resources. change [firewallPolicyResource_; registerResource_; keepAliveResource_; featureReputationResource_; receiveFeedbackResource_]
      with ([firewallPolicyResource_] ++ [registerResource_] ++ [keepAliveResource_] ++ [featureReputationResource_] ++ [receiveFeedbackResource_]).
    repeat (eapply added_trans; [eassumption|]). eassumption. }
  split; [split; congruence|]. split; congruence.
Qed.

(** ** Look-ups *)

Lemma foldl_add_lookup {A} (f : AtlasCoapResource -> A) (l : list AtlasCoapResource) (m : gmap (list byte) A) (p : list byte) :
  NoDup (uri_ <$> l) ->
  foldl (fun m r => <[uri_ r := f r]> m) m l !! p =
  match List.find (fun r => bool_decide (uri_ r = p)) l with Some r => Some (f r) | None => m !! p end.
Proof.
  revert m. induction l as [|r l IH]; intros m; [done|]. cbn. intros [Hn Hd]%NoDup_cons. rewrite IH by done.
  destruct (List.find (fun r => bool_decide (uri_ r = p)) l) as [q|] eqn:Hq; case_bool_decide as Hp; try done.
  - apply List.find_some in Hq as [Hin Hu%bool_decide_eq_true]. exfalso. apply Hn. rewrite Hp, <- Hu.
    apply list_elem_of_fmap. exists q. split; [done|]. by apply list_elem_of_In.
  - by rewrite Hp, lookup_insert_eq.
  - by rewrite lookup_insert_ne.
Qed.

Lemma all_resources_nodup : NoDup (uri_ <$> all_resources).
Proof. apply (bool_decide_unpack _). by vm_compute. Qed.

(** Paths without NUL, none of them empty, and every resource has a callback. *)
Lemma all_resources_paths :
  Forall (fun r => until_nul (uri_ r) = uri_ r /\ uri_ r <> [] /\ is_Some (res_callback_ r)) all_resources.
Proof. apply (bool_decide_unpack _). by vm_compute. Qed.

(** A request without a payload is one with an empty payload. *)
Lemma no_payload ep path i : call_endpoint ep path i None 0 = call_endpoint ep path i (Some []) 0.
Proof. by destruct ep. Qed.

Lemma handle_endpoint ep path i payload g :
  handle (input_of ep path i payload) g =
  match call_endpoint ep path i (Some payload) (blen payload) g with Ok (r, g') => Ok (Some r, g') | Fault f => Fault f end.
Proof. by destruct ep. Qed.

(** The server between libcoap and the modules: what a request does. *)
Definition served (i : list byte) (rq : gw_request) s : res (gw_answer * coap_server) :=
  match route rq with
  | Some ep =>
      if rq_has_path rq then
        match handle (input_of ep (rq_path rq) i (default [] (rq_payload rq))) (sv_gw s) with
        | Ok (Some r, g) => Ok (respond r, set_sv_gw g s)
        | Ok (None, g) => Ok (AnsUnset, set_sv_gw g s)
        | Fault f => Fault f
        end
      else Ok (AnsUnset, s)
  | None =>
      Ok (if decide (rq_path rq = []) then
            if decide (rq_method rq = ATLAS_COAP_METHOD_GET) then AnsIndex DEFAULT_INDEX else AnsNotAllowed
          else if decide (rq_path rq ∈ uri_ <$> all_resources) then AnsNotAllowed else AnsNotFound, s)
  end.

Lemma run_lib_handler_of m session rq s : run_lib_handler (handler_of m) session rq s = incomingHandler session rq m s.
Proof. by destruct m. Qed.

Lemma serve_served i k rq s : serving s -> serve (Some (i, k)) rq s = served i rq s.
Proof.
  intros [HL HR]. unfold serve, served, route. rewrite (Sv_bind_run _ _ _ _ _ eq_refl), HL.
  unfold add_lib. rewrite (foldl_add_lookup (fun r => mk_lib_resource (method_ r) (handler_of (method_ r)))) by apply all_resources_nodup.
  destruct (List.find _ all_resources) as [r|] eqn:Hf; cbn [mbind option_bind].
  - pose proof Hf as [Hin Hu%bool_decide_eq_true]%List.find_some.
    pose proof (proj1 (Forall_forall _ _) all_resources_paths r ltac:(by apply list_elem_of_In)) as (Hnul & Hne & [ep Hep]).
    rewrite Hu in Hnul, Hne. cbn [lr_method lr_handler]. destruct (decide (method_ r = rq_method rq)) as [Hm|Hm].
    + rewrite Hep, run_lib_handler_of. unfold incomingHandler. destruct (rq_has_path rq); [|done]. cbn [negb].
      unfold resource_at. rewrite Hnul. rewrite (Sv_bind_run _ _ s r s).
      2: { rewrite (Sv_bind_run _ _ _ _ _ eq_refl), HR. unfold add_res.
        rewrite (foldl_add_lookup (fun r => r)) by apply all_resources_nodup. by rewrite Hf. }
      rewrite Hep, handle_endpoint. unfold mbind at 1, Sv_bind at 1, sgw.
      assert (Hp : call_endpoint ep (rq_path rq) i (rq_payload rq) (match rq_payload rq with Some p => blen p | None => 0 end) =
        call_endpoint ep (rq_path rq) i (Some (default [] (rq_payload rq))) (blen (default [] (rq_payload rq)))).
      { destruct (rq_payload rq); [done|]. cbn [default]. apply no_payload. }
      rewrite Hp. destruct (call_endpoint _ _ _ _ _ _) as [[[c p] g]|]; done.
    + rewrite decide_False by done. rewrite decide_True; [done|]. apply list_elem_of_fmap. exists r.
      split; [done|]. by apply list_elem_of_In.
  - unfold index_lib. destruct (decide (rq_path rq = [])) as [->|Hne].
    + rewrite lookup_singleton_eq. cbn [lr_method lr_handler]. destruct (decide (rq_method rq = ATLAS_COAP_METHOD_GET)) as [->|Hm].
      * by rewrite decide_True.
      * by rewrite decide_False by congruence.
    + rewrite lookup_singleton_ne by done. rewrite decide_False; [done|].
      intros (r & Hr & Hin%list_elem_of_In)%list_elem_of_fmap. apply (List.find_none _ _ Hf) in Hin.
      by rewrite bool_decide_eq_false in Hin.
Qed.

(** ** Runs *)

(** Handshakes, requests and ends of sessions, and what else reaches the gateway. *)
Inductive sv_act :=
  | SvHandshake (sid : Z) (identity key : list byte)
  | SvRequest (sid : Z) (rq : gw_request)
  | SvClose (sid : Z)
  | SvInput (i : gw_input).

Definition sv_perform (x : sv_act) : Sv (option gw_answer) :=
  match x with
  | SvHandshake sid i k => _ ← handshake sid i k; mret None
  | SvRequest sid rq =>
      m ← sget sv_sessions;
      match m !! sid with
      | Some session => a ← serve (Some session) rq; mret (Some a)
      | None => mret None        (* no such session: the record is dropped *)
      end
  | SvClose sid => _ ← smodify (fun s => set_sessions (delete sid (sv_sessions s)) s); mret None
  | SvInput i => _ ← sgw (handle i); mret None
  end.

Inductive sv_run : coap_server -> list sv_act -> coap_server -> Prop :=
  | sv_run_nil s : sv_run s [] s
  | sv_run_cons s x a s1 xs s2 : sv_perform x s = Ok (a, s1) -> sv_run s1 xs s2 -> sv_run s (x :: xs) s2.

(** ** Keys *)

(** Every device has the key the database has for it, and it is not empty. *)
Definition has_key (t : Tables) (i : list byte) (d : AtlasDevice) : Prop :=
  identity_ d = i /\ psk_ d <> [] /\ exists r, r ∈ devices_of i t /\ psk_ d = until_nul (dr_psk r).

(** The database lists the same devices as [t], every device has its key, and the
    devices of [ss] are there. *)
Definition keyed (t : Tables) (ss : gmap Z (list byte * list byte)) (g : gateway) : Prop :=
  t_device (tables (gw_ext g)) = t_device t /\ map_Forall (has_key t) (devices_ g) /\
  map_Forall (fun _ ik => exists d, devices_ g !! ik.1 = Some d /\ psk_ d = ik.2) ss.

Lemma keyed_put t ss k d x g :
  keyed t ss g -> t_device (tables x) = t_device t -> has_key t k d ->
  (forall d0, devices_ g !! k = Some d0 -> psk_ d = psk_ d0) -> keyed t ss (put k d [] x g).
Proof.
  intros (_ & Hk & Hs) Hx Hd Hsame. split; [exact Hx|]. split; [by apply map_Forall_insert_2|].
  intros sid ik Hsid. destruct (Hs sid ik Hsid) as (d0 & Hd0 & Hp). cbn.
  destruct (decide (k = ik.1)) as [->|Hne]; [rewrite lookup_insert_eq|rewrite lookup_insert_ne by done; eauto].
  exists d. split; [done|]. rewrite <- Hp. by apply Hsame.
Qed.

#[local] Instance keyed_GwInv t ss : GwInv (keyed t ss).
Proof.
  constructor.
  - by intros e g a g' Hg [= _ <-].
  - intros A f Hf g a g' (Ht & Hk & Hs). unfold gcall. specialize (Hf (gw_ext g)). destruct (f (gw_ext g)) as [b x].
    intros [= _ <-]. split; [|done]. cbn in *. destruct Hf as [Hf _]. congruence.
  - intros k f Hf g a g' (Ht & Hk & Hs) [= _ <-]. split; [done|]. split.
    + intros j d Hj. cbn in Hj. rewrite lookup_alter_Some in Hj. destruct Hj as [[-> (d0 & Hd0 & ->)]|[_ Hj]]; [|by apply Hk].
      apply Hk in Hd0 as (Hi & Hne & r & Hr & Hp). destruct (Hf d0) as (Hi' & _ & _ & _ & Hp').
      unfold has_key. rewrite Hi', Hp'. eauto.
    + intros sid ik Hsid. destruct (Hs sid ik Hsid) as (d0 & Hd0 & Hp). cbn.
      destruct (decide (k = ik.1)) as [->|Hne]; [rewrite lookup_alter_eq, Hd0|rewrite lookup_alter_ne by done; eauto].
      exists (f d0). split; [done|]. by destruct (Hf d0) as (_ & _ & _ & _ & ->).
  - by intros b x g a g' Hg [= _ <-].
  - by intros f g a g' Hg [= _ <-].
  - intros i g a g' Hg Hr. destruct (getDevice_cases i g) as [(x & Hget & _ & Hx)|(d & x & Hget & _ & Hc)];
      rewrite Hget in Hr; injection Hr as _ <-.
    + destruct Hg as (Ht & Hk & Hs). split; [cbn; congruence|]. done.
    + pose proof Hg as (Ht & Hk & _). destruct Hc as [[Hd ->]|(Hn & Hnew & rows & n & Hx)].
      * apply keyed_put; [done..|by apply Hk|congruence].
      * apply keyed_put; [done|by rewrite Hx| |congruence]. destruct Hnew as (psk & rep & fb & st & cs & Hne & (r & Hr & Hp) & _ & _ & ->).
        split; [done|]. split; [done|]. exists r. split; [|done]. unfold devices_of in *. by rewrite <- Ht.
Qed.

Definition sv_inv (t : Tables) s : Prop := serving s /\ keyed t (sv_sessions s) (sv_gw s).

Lemma sgw_inv {A} (m : G A) s a s' : sgw m s = Ok (a, s') -> exists g, m (sv_gw s) = Ok (a, g) /\ s' = set_sv_gw g s.
Proof. unfold sgw. destruct (m (sv_gw s)) as [[b g]|]; [|done]. intros [= <- <-]. eauto. Qed.

(** A handshake looks the device up, and adds the session when the keys agree. *)
Lemma handshake_cases sid i k s b s' :
  handshake sid i k s = Ok (b, s') ->
  exists found g, getDevice i (sv_gw s) = Ok (found, g) /\ sv_gw s' = g /\
    sv_lib s' = sv_lib s /\ resources_ s' = resources_ s /\
    (sv_sessions s' = sv_sessions s \/
     (sv_sessions s' = <[sid := (i, k)]> (sv_sessions s) /\ exists d, devices_ g !! i = Some d /\ psk_ d = k)).
Proof.
  unfold handshake, verifyIdentity, getPskForIdentity. intros (psk & s1 & Hv & Hr)%Sv_bind_inv.
  apply Sv_bind_inv in Hv as (found & s2 & (g & Hg & ->)%sgw_inv & Hv). exists found, g. split; [done|].
  destruct found; cbn [negb] in Hv.
  - apply Sv_bind_inv in Hv as (d & s2 & (g' & Hd & ->)%sgw_inv & Hv). cbn in Hd. unfold this in Hd.
    destruct (devices_ g !! i) as [d'|] eqn:Hdev; [|done]. injection Hd as -> <-. injection Hv as <- <-.
    case_decide as Hk; injection Hr as _ <-; cbn; (do 3 (split; [done|])); [right|by left].
    split; [done|]. exists d. split; [done|congruence].
  - injection Hv as <- <-. case_decide; [done|]. injection Hr as _ <-. cbn. auto.
Qed.

(** For the gateway, a handshake is a keep-alive it rejects. *)
Lemma handshake_input i g found g' :
  getDevice i g = Ok (found, g') -> handle (InKeepalive i []) g = Ok (Some NOT_ACCEPTABLE, g').
Proof.
  intros Hg. cbn [handle]. unfold keepaliveCallback.
  assert (Hd : exists b, registered_device i g = Ok (b, g')).
  { unfold registered_device. erewrite G_bind_run by exact Hg. destruct found; [|eauto].
    destruct (getDevice_cases i g) as [(x & Hget & _)|(d & x & Hget & _)]; rewrite Hget in Hg; [done|].
    injection Hg as <-. exists (registered_ d). grun. done. }
  destruct Hd as [b Hd]. unfold mbind at 1, G_bind at 1. erewrite G_bind_run by exact Hd. by destruct b.
Qed.

(** ** The inputs of the gateway behind the server *)

(** [i] comes from elsewhere, is a handshake, or a request in a session that was
    established with the key the database [t] has for its device. *)
Definition justified (t : Tables) (xs : list sv_act) (i : gw_input) : Prop :=
  SvInput i ∈ xs \/
  (exists sid id key, SvHandshake sid id key ∈ xs /\ i = InKeepalive id []) \/
  (exists sid rq ep id key r, SvRequest sid rq ∈ xs /\ SvHandshake sid id key ∈ xs /\ route rq = Some ep /\
     i = input_of ep (rq_path rq) id (default [] (rq_payload rq)) /\
     r ∈ devices_of id t /\ key = until_nul (dr_psk r) /\ key <> []).

Lemma justified_mono t xs ys i : xs ⊆ ys -> justified t xs i -> justified t ys i.
Proof.
  intros Hs [Hi|[(sid & id & key & Hi & ->)|(sid & rq & ep & id & key & r & Hq & Hh & Hrest)]].
  - left. auto.
  - right; left. eauto 6.
  - right; right. exists sid, rq, ep, id, key, r. auto.
Qed.

Definition sessions_of (xs : list sv_act) s : Prop :=
  map_Forall (fun sid ik => SvHandshake sid ik.1 ik.2 ∈ xs) (sv_sessions s).

Lemma perform_refines t xs x s a s' :
  sv_inv t s -> sessions_of xs s -> sv_perform x s = Ok (a, s') ->
  sv_inv t s' /\ sessions_of (xs ++ [x]) s' /\
  exists ins, gw_run (sv_gw s) ins (sv_gw s') /\ Forall (justified t (xs ++ [x])) ins.
Proof.
  intros [Hs Hk] Hss. assert (Hin : x ∈ xs ++ [x]) by (apply elem_of_app; right; by left).
  assert (Hss' : map_Forall (fun sid ik => SvHandshake sid ik.1 ik.2 ∈ xs ++ [x]) (sv_sessions s)).
  { eapply map_Forall_impl; [exact Hss|]. intros. apply elem_of_app. by left. }
  assert (Hone : forall i r g, handle i (sv_gw s) = Ok (r, g) -> gw_run (sv_gw s) [i] g).
  { intros i r g Hr. eapply gw_run_cons; [exact Hr|constructor]. }
  destruct x as [sid i k|sid rq|sid|i]; cbn [sv_perform]; intros Hp.
  - apply Sv_bind_inv in Hp as (b & s1 & (found & g & Hg & <- & HL & HR & Hses)%handshake_cases & [= _ <-]).
    pose proof (inv_getDevice _ _ _ _ Hk Hg) as Hk'. split; [|split].
    + split; [by split; [rewrite HL|rewrite HR]; apply Hs|]. destruct Hses as [->|(-> & d & Hd & Hp)]; [done|].
      destruct Hk' as (Ht & Hd' & Hm). split; [done|]. split; [done|]. apply map_Forall_insert_2; [by exists d|done].
    + unfold sessions_of. destruct Hses as [->|(-> & _)]; [done|]. by apply map_Forall_insert_2.
    + exists [InKeepalive i []]. split; [eapply Hone, handshake_input, Hg|]. constructor; [|constructor]. right; left. eauto 6.
  - rewrite (Sv_bind_run _ _ _ _ _ eq_refl) in Hp. destruct (sv_sessions s !! sid) as [[i k]|] eqn:Hsid.
    2: { injection Hp as _ <-. split; [done|]. split; [done|]. exists []. split; constructor. }
    apply Sv_bind_inv in Hp as (b & s1 & Hsv & [= _ <-]). rewrite (serve_served i k rq s Hs) in Hsv. unfold served in Hsv.
    destruct (route rq) as [ep|] eqn:Hroute; [|injection Hsv as _ <-; split; [done|]; split; [done|]; exists []; split; constructor].
    destruct (rq_has_path rq); [|injection Hsv as _ <-; split; [done|]; split; [done|]; exists []; split; constructor].
    destruct (handle _ (sv_gw s)) as [[r g]|] eqn:Hh; [|done].
    assert (s1 = set_sv_gw g s) as -> by (destruct r; by injection Hsv). split; [split; [done|]|split; [done|]].
    + by eapply (pres_handle _).
    + eexists. split; [eapply Hone, Hh|]. constructor; [|constructor]. right; right.
      destruct (proj2 (proj2 Hk) sid _ Hsid) as (d & Hd & Hp). cbn in Hd, Hp.
      destruct (proj1 (proj2 Hk) i d Hd) as (_ & Hne & row & Hrow & Hpr).
      exists sid, rq, ep, i, k, row. split; [done|]. split; [by apply (Hss' sid _ Hsid)|]. split; [done|]. split; [done|].
      split; [done|]. split; congruence.
  - injection Hp as _ <-. split; [split; [done|]|split].
    + destruct Hk as (Ht & Hd & Hm). split; [done|]. split; [done|]. by apply map_Forall_delete.
    + by apply map_Forall_delete.
    + exists []. split; constructor.
  - apply Sv_bind_inv in Hp as (r & s1 & (g & Hh & ->)%sgw_inv & [= _ <-]). split; [split; [done|by eapply (pres_handle _)]|].
    split; [done|]. exists [i]. split; [by eapply Hone|]. constructor; [by left|constructor].
Qed.

Lemma run_refines t xs0 s xs s' :
  sv_run s xs s' -> sv_inv t s -> sessions_of xs0 s ->
  sv_inv t s' /\ exists ins, gw_run (sv_gw s) ins (sv_gw s') /\ Forall (justified t (xs0 ++ xs)) ins.
Proof.
  intros Hrun. revert xs0. induction Hrun as [s|s x a s1 xs s2 Hp Hrun IH]; intros xs0 Hi Hss.
  - split; [done|]. exists []. split; constructor.
  - destruct (perform_refines t xs0 x s a s1 Hi Hss Hp) as (Hi1 & Hss1 & ins1 & Hr1 & Hj1).
    destruct (IH (xs0 ++ [x]) Hi1 Hss1) as (Hi2 & ins2 & Hr2 & Hj2). rewrite <- app_assoc in Hj2. split; [done|].
    exists (ins1 ++ ins2). split.
    + clear -Hr1 Hr2. induction Hr1 as [|? ? ? ? ? ? Hh _ IH]; [done|]. eapply gw_run_cons; [exact Hh|]. auto.
    + apply Forall_app. split; [|done]. eapply Forall_impl; [exact Hj1|]. intros i. apply justified_mono.
      intros y [Hy|Hy]%elem_of_app; apply elem_of_app; [by left|right]. apply list_elem_of_singleton in Hy as ->. by left.
Qed.

Lemma booted_inv port g x s :
  devices_ g = ∅ -> main_start port (new_server g x) = Ok (tt, s) ->
  sv_inv (tables (gw_ext g)) s /\ sessions_of [] s /\ sv_gw s = g.
Proof.
  intros He (Hs & Hg & Hss)%start_serving. unfold sv_inv, keyed, sessions_of. rewrite Hg, He, Hss.
  split; [split; [done|]; split; [done|]; split|split; [|done]]; apply map_Forall_empty.
Qed.

(** ** Theorems *)

(** C15: The gateway acts for whom it should. Whatever handshakes, requests and other
    events the server of a gateway goes through from its start, the gateway behind
    it goes through a run of its inputs, so that all that is proved of such runs
    holds for it; and every one of these inputs that is a device's request was sent
    to the path and with the method of its end-point, in a session whose peer had
    the key that the database has for this device, which is not empty. *)
Theorem server_refines (port : Z) (g : gateway) (x : ext) s0 (xs : list sv_act) s :
  devices_ g = ∅ -> main_start port (new_server g x) = Ok (tt, s0) -> sv_run s0 xs s ->
  exists ins, gw_run g ins (sv_gw s) /\ Forall (justified (tables (gw_ext g)) xs) ins.
Proof.
  intros He Hb Hrun. destruct (booted_inv port g x s0 He Hb) as (Hi & Hss & <-).
  by destruct (run_refines _ [] s0 xs s Hrun Hi Hss) as (_ & ins & Hr & Hj); eauto.
Qed.

(** C16: Requests are routed. In every state of a started server, a request in a session
    of device [i] does exactly what the input of the gateway for its path and method
    does, and the answer has the code of the response and its payload only on
    success; any other request leaves the state alone and gets the index page or
    libcoap's own answer. As long as no request of the gateway to a device is refused as
    it is made ([Sends]: a refusal is an exception that nothing catches), the gateway
    answers them all, feedback aside, whose values may be unreadable, and only device
    [i] changes. *)
Theorem requests_routed (port : Z) (g : gateway) (x : ext) s0 (xs : list sv_act) s (i k : list byte) (rq : gw_request) :
  devices_ g = ∅ -> main_start port (new_server g x) = Ok (tt, s0) -> sv_run s0 xs s ->
  serve (Some (i, k)) rq s = served i rq s /\
  (Sends GE -> route rq <> Some EpFeedback -> exists a s', serve (Some (i, k)) rq s = Ok (a, s') /\
     forall j, j <> i -> devices_ (sv_gw s') !! j = devices_ (sv_gw s) !! j).
Proof.
  intros He Hb Hrun. destruct (booted_inv port g x s0 He Hb) as (Hi & Hss & Hg0).
  destruct (run_refines _ [] s0 xs s Hrun Hi Hss) as ([Hs _] & ins & Hr & _).
  rewrite (serve_served i k rq s Hs). split; [done|]. intros SND Hfb. unfold served.
  assert (Hwf : gw_wf (sv_gw s)).
  { eapply run_keeps; [exact Hr|]. rewrite Hg0. unfold gw_wf. rewrite He. apply map_Forall_empty. }
  destruct (route rq) as [ep|]; [|eauto]. destruct (rq_has_path rq); [|eauto].
  destruct (@request_answered GE SND HO _ (input_of ep (rq_path rq) i (default [] (rq_payload rq))) i (sv_gw s)) as (r & g' & -> & Ha).
  { by destruct ep. }
  { done. }
  eexists _, _. split; [done|]. apply Ha.
Qed.
End ServerRuns.

(** * A run *)

Section Sample.
#[local] Instance sample_le : HostEndian := true.

Fixpoint sv_all (xs : list sv_act) (s : coap_server (V := sim_env) (GE := sim_gw)) : res coap_server :=
  match xs with
  | [] => Ok s
  | x :: xs => match @sv_perform sim_env sim_gw key_order true x s with Ok (_, s) => sv_all xs s | Fault f => Fault f end
  end.

Lemma sv_all_run xs s s' : sv_all xs s = Ok s' -> @sv_run sim_env sim_gw key_order true s xs s'.
Proof.
  revert s. induction xs as [|x xs IH]; intros s; cbn [sv_all]; [intros [= <-]; constructor|].
  destruct (sv_perform x s) as [[a s1]|] eqn:Hp; [|done]. intros Hr. eapply sv_run_cons; [exact Hp|]. by apply IH.
Qed.

(** The device registers, after a peer with another key was turned away. *)
Definition sample_rq : gw_request :=
  mk_gw_request ATLAS_COAP_METHOD_POST ATLAS_REGISTER_URI true
    (Some (encode [(code ATLAS_CMD_REGISTER, dev); (code ATLAS_CMD_IP_PORT, cstr "10.0.0.2:10001")])).
Definition sample_acts : list sv_act :=
  [SvHandshake 1 dev (cstr "guess"); SvRequest 1 sample_rq; SvHandshake 2 dev (cstr "secret"); SvRequest 2 sample_rq].

Definition started : res (unit * coap_server) := @main_start sim_env sim_host sim_gw 5684 (new_server empty_gw sim0).
Definition sample_start : coap_server := match started with Ok (_, s) => s | Fault _ => new_server empty_gw sim0 end.
Definition sample_end : coap_server := match sv_all sample_acts sample_start with Ok s => s | Fault _ => sample_start end.

Definition returned {A} (r : res A) : bool := match r with Ok _ => true | Fault _ => false end.

Lemma started_ok : @main_start sim_env sim_host sim_gw 5684 (new_server empty_gw sim0) = Ok (tt, sample_start).
Proof.
  assert (Hr : returned started = true) by (vm_compute; reflexivity). unfold sample_start. fold started.
  destruct started as [[[] s]|]; [reflexivity|discriminate Hr].
Qed.
Lemma sample_run : @sv_run sim_env sim_gw key_order true sample_start sample_acts sample_end.
Proof.
  apply sv_all_run. assert (Hr : returned (sv_all sample_acts sample_start) = true) by (vm_compute; reflexivity).
  unfold sample_end. destruct (sv_all sample_acts sample_start) as [s|]; [reflexivity|discriminate Hr].
Qed.

(** The registration of the second session is in effect. *)
Example sample_registered : registered_ <$> devices_ (sv_gw sample_end) !! dev = Some true /\ sv_sessions sample_end !! 1 = None /\ sv_sessions sample_end !! 2 = Some (dev, cstr "secret").
Proof. vm_compute. auto. Qed.

Lemma server_refines_witness :
  exists ins, @gw_run sim_gw key_order true empty_gw ins (sv_gw sample_end) /\
    Forall (justified (tables (gw_ext empty_gw)) sample_acts) ins.
Proof. apply (server_refines (V := sim_env) 5684 empty_gw sim0 sample_start sample_acts sample_end eq_refl started_ok sample_run). Defined.

Lemma requests_routed_witness :
  @serve sim_env sim_gw key_order true (Some (dev, cstr "secret")) sample_rq sample_end =
    @served sim_env sim_gw key_order true dev sample_rq sample_end /\
  (route sample_rq <> Some EpFeedback -> exists a s',
     @serve sim_env sim_gw key_order true (Some (dev, cstr "secret")) sample_rq sample_end = Ok (a, s') /\
     forall j, j <> dev -> devices_ (sv_gw s') !! j = devices_ (sv_gw sample_end) !! j).
Proof.
  destruct (requests_routed (V := sim_env) 5684 empty_gw sim0 sample_start sample_acts sample_end dev (cstr "secret") sample_rq
    eq_refl started_ok sample_run) as [Hserved Hanswer]. split; [exact Hserved|exact (Hanswer sim_sends)].
Defined.
End Sample.
