(* ===== verification/GwLink.v ===== *)
(** The gateway's connection to the cloud: the MQTT client with its reconnects
    (mqtt_client/AtlasMqttClient.cpp, AtlasMqttClient_callback.cpp), the registration
    to the cloud (cloud/AtlasRegisterCloud.cpp), the subscription to its commands
    (cloud/AtlasCloudCmdParser.cpp) and the updates about devices with their full
    synchronisation (cloud/AtlasDeviceCloud.cpp), over the alarms of GwIo.v.

    The Paho client is given by its documentation: [connect] starts an attempt, or
    throws; an attempt ends with [on_success] or [on_failure], a connection with
    [connection_lost]. These are called on Paho's own thread and post the rest of
    their work to the event loop, where posted handlers run in order. Messages are
    the texts the code builds. What the devices and the gateway have to tell
    ([toJSON]) is an input, which other modules change at any time. *)
From S2P Require Import Prelude Defs CLib Command GwDefs GwBatch GwXfer GwFilter GwBayes GwStore GwNetStore GwDevice GwServer GwReputation GwLifecycle GwApprove GwIo.

Class MqttEnv := {
  mext : Type;
  (** false when it throws *)
  mqtt_new_client : mext -> bool * mext;
  mqtt_connect : mext -> bool * mext;
  mqtt_publish_text : list byte -> list byte -> mext -> bool * mext;
  mqtt_subscribe : list byte -> mext -> bool * mext;
  (** [commandType] of a message of the cloud *)
  command_type : list byte -> list byte;
  (** [AtlasIdentity::getPsk] *)
  identity_psk : list byte;
}.

(** Where the client is. *)
Inductive paho : Set := PIdle | PConnecting | PConnected.

#[export] Instance paho_eq_dec : EqDecision paho.
Proof. solve_decision. Defined.

(** Callbacks of the three alarms, and the two connection listeners. *)
Inductive link_cb : Set := cb_keepaliveAlarmCb | cb_syncAlarmCallback | cb_reconnectCallback.
Inductive listener : Set := LRegisterCloud | LCmdParser.

#[export] Instance listener_eq_dec : EqDecision listener.
Proof. solve_decision. Defined.

(** Handlers posted to the [io_service]. *)
Inductive posted : Type :=
  | PostLost
  | PostFailure
  | PostSuccess
  | PostMessage (msg : list byte).

Inductive link_event : Type :=
  | LkConnect
  | LkPublish (topic message : list byte)
  | LkSubscribe (topic : list byte).

(** The addresses of the alarms: members of the singletons and of the callback. *)
Definition kaAlarm_ : Z := 1.
Definition syncAlarm_ : Z := 2.
Definition alarm_ : Z := 3.

Definition ATLAS_KEEPALIVE_CLOUD_INTERVAL_MS : Z := 60000.
Definition ATLAS_SYNC_TIMER_INTERVAL_MS : Z := 10000.
Definition ATLAS_MQTT_RECONNECT_INTERVAL_MS : Z := 5000.
Definition ATLAS_TO_GATEWAY_TOPIC : list byte := cstr "-to-gateway".
Definition ATLAS_CMD_GATEWAY_INFO_UPDATE : list byte := cstr "ATLAS_CMD_GATEWAY_INFO_UPDATE".
Definition ATLAS_CMD_GATEWAY_CLIENT_INFO_UPDATE : list byte := cstr "ATLAS_CMD_GATEWAY_CLIENT_INFO_UPDATE".
Definition ATLAS_CMD_IDENTITY_JSON_KEY : list byte := cstr "identity".

(** * The texts *)

Definition quoted (s : list byte) : list byte := x22 :: s ++ [x22].
Definition newline : list byte := [x0a].

Definition typed_header (type : list byte) : list byte :=
  cstr "{" ++ newline ++ quoted ATLAS_CMD_TYPE_JSON_KEY ++ cstr ": " ++ quoted type.

Definition simple_text (type : list byte) : list byte := typed_header type ++ newline ++ cstr "}".

Definition payload_header (type : list byte) : list byte :=
  typed_header type ++ cstr "," ++ newline ++ quoted ATLAS_CMD_PAYLOAD_JSON_KEY ++ cstr ": " ++ newline ++ cstr "{" ++ newline.

Definition gateway_text (jsonInfo : list byte) : list byte :=
  payload_header ATLAS_CMD_GATEWAY_INFO_UPDATE ++ jsonInfo ++ newline ++ cstr "}" ++ newline ++ cstr "}".

Definition device_text (identity jsonInfo : list byte) : list byte :=
  payload_header ATLAS_CMD_GATEWAY_CLIENT_INFO_UPDATE ++
  quoted ATLAS_CMD_IDENTITY_JSON_KEY ++ cstr ": " ++ quoted identity ++ cstr "," ++
  newline ++ jsonInfo ++ newline ++ cstr "}" ++ newline ++ cstr "}".

Section GwLink.
Context {E : MqttEnv}.

(** * State *)

Record link := mk_link {
  lk_io : io link_cb;
  lk_client : option paho;               (* AtlasMqttClient::client_ and cb_, made together *)
  lk_connTok : bool;                     (* connTok_ is set *)
  lk_connCb : list listener;             (* AtlasMqttClient_callback::connCb_ *)
  lk_posted : list posted;
  lk_registered : bool;                  (* AtlasRegisterCloud::registered_ *)
  lk_connected : bool;                   (* AtlasCloudCmdParser::connected_ *)
  lk_syncScheduled : bool;               (* AtlasDeviceCloud::syncScheduled_ *)
  lk_devices : list (list byte * list byte);     (* the devices with their toJSON, in the order of the map *)
  lk_gateway : list byte;                (* AtlasGateway::toJSON *)
  lk_out : list link_event;
  lk_ext : mext;
}.

Definition set_lk_io (s : io link_cb) (l : link) : link :=
  mk_link s (lk_client l) (lk_connTok l) (lk_connCb l) (lk_posted l) (lk_registered l) (lk_connected l)
    (lk_syncScheduled l) (lk_devices l) (lk_gateway l) (lk_out l) (lk_ext l).
Definition set_paho (p : option paho) (l : link) : link :=
  mk_link (lk_io l) p (lk_connTok l) (lk_connCb l) (lk_posted l) (lk_registered l) (lk_connected l)
    (lk_syncScheduled l) (lk_devices l) (lk_gateway l) (lk_out l) (lk_ext l).
Definition set_connTok (b : bool) (l : link) : link :=
  mk_link (lk_io l) (lk_client l) b (lk_connCb l) (lk_posted l) (lk_registered l) (lk_connected l)
    (lk_syncScheduled l) (lk_devices l) (lk_gateway l) (lk_out l) (lk_ext l).
Definition set_connCb (c : list listener) (l : link) : link :=
  mk_link (lk_io l) (lk_client l) (lk_connTok l) c (lk_posted l) (lk_registered l) (lk_connected l)
    (lk_syncScheduled l) (lk_devices l) (lk_gateway l) (lk_out l) (lk_ext l).
Definition set_posted (p : list posted) (l : link) : link :=
  mk_link (lk_io l) (lk_client l) (lk_connTok l) (lk_connCb l) p (lk_registered l) (lk_connected l)
    (lk_syncScheduled l) (lk_devices l) (lk_gateway l) (lk_out l) (lk_ext l).
Definition set_lk_registered (b : bool) (l : link) : link :=
  mk_link (lk_io l) (lk_client l) (lk_connTok l) (lk_connCb l) (lk_posted l) b (lk_connected l)
    (lk_syncScheduled l) (lk_devices l) (lk_gateway l) (lk_out l) (lk_ext l).
Definition set_lk_connected (b : bool) (l : link) : link :=
  mk_link (lk_io l) (lk_client l) (lk_connTok l) (lk_connCb l) (lk_posted l) (lk_registered l) b
    (lk_syncScheduled l) (lk_devices l) (lk_gateway l) (lk_out l) (lk_ext l).
Definition set_syncScheduled (b : bool) (l : link) : link :=
  mk_link (lk_io l) (lk_client l) (lk_connTok l) (lk_connCb l) (lk_posted l) (lk_registered l) (lk_connected l)
    b (lk_devices l) (lk_gateway l) (lk_out l) (lk_ext l).
Definition set_world (ds : list (list byte * list byte)) (g : list byte) (l : link) : link :=
  mk_link (lk_io l) (lk_client l) (lk_connTok l) (lk_connCb l) (lk_posted l) (lk_registered l) (lk_connected l)
    (lk_syncScheduled l) ds g (lk_out l) (lk_ext l).
Definition set_lk_out (o : list link_event) (l : link) : link :=
  mk_link (lk_io l) (lk_client l) (lk_connTok l) (lk_connCb l) (lk_posted l) (lk_registered l) (lk_connected l)
    (lk_syncScheduled l) (lk_devices l) (lk_gateway l) o (lk_ext l).
Definition set_lk_ext (x : mext) (l : link) : link :=
  mk_link (lk_io l) (lk_client l) (lk_connTok l) (lk_connCb l) (lk_posted l) (lk_registered l) (lk_connected l)
    (lk_syncScheduled l) (lk_devices l) (lk_gateway l) (lk_out l) x.

Definition W (A : Type) : Type := link -> res (A * link).

#[global] Instance W_ret : MRet W := fun A a l => Ok (a, l).
#[global] Instance W_bind : MBind W := fun A B k m l =>
  match m l with Ok (a, l) => k a l | Fault f => Fault f end.

Definition wget {A} (f : link -> A) : W A := fun l => Ok (f l, l).
Definition wmodify (f : link -> link) : W unit := fun l => Ok (tt, f l).
Definition wfail {A} (f : fault) : W A := fun _ => Fault f.
Definition wcall {A} (f : mext -> A * mext) : W A := fun l =>
  let '(a, x) := f (lk_ext l) in Ok (a, set_lk_ext x l).
Definition wlog (e : link_event) : W unit := wmodify (fun l => set_lk_out (lk_out l ++ [e]) l).
Definition wio (f : io link_cb -> res (io link_cb)) : W unit := fun l => s ← f (lk_io l); Ok (tt, set_lk_io s l).
Fixpoint wfor {A} (xs : list A) (body : A -> W unit) : W unit :=
  match xs with [] => mret tt | a :: xs => _ ← body a; wfor xs body end.

(** * mqtt_client/AtlasMqttClient.cpp *)

(** [client_->is_connected()] *)
Definition is_connected : W bool :=
  c ← wget lk_client;
  match c with
  | None => wfail NullDeref
  | Some p => mret (bool_decide (p = PConnected))
  end.

(** [client_->connect(...)]: an attempt begins, or an exception. *)
Definition paho_connect : W bool :=
  ok ← wcall mqtt_connect;
  if (ok : bool) then _ ← wmodify (set_paho (Some PConnecting)); _ ← wlog LkConnect; mret true else mret false.

Definition connect : W unit :=
  ok ← paho_connect;
  if (ok : bool) then wmodify (set_connTok true) else mret tt.

(** The constructor of the callback makes its alarm. *)
Definition initConnection : W bool :=
  c ← wget lk_client;
  match c with
  | Some _ => mret true
  | None =>
      (* Creating the async_client *)
      ok ← wcall mqtt_new_client;
      if negb ok then mret false else
      (* Create callback *)
      _ ← wmodify (set_paho (Some PIdle));
      _ ← wio (fun s => Ok (new_AtlasAlarm alarm_ (cstr "AtlasMqttClientReconnect") ATLAS_MQTT_RECONNECT_INTERVAL_MS true
                              (Some cb_reconnectCallback) s));
      (* Try to establish a connection *)
      _ ← connect;
      mret true
  end.

(** The log message of the first branch asks the client for its name. *)
Definition tryPublishMessage (topic message : list byte) : W bool :=
  tok ← wget lk_connTok;
  connected ← is_connected;
  if negb tok then mret false else
  if negb connected then mret false else
  ok ← wcall (mqtt_publish_text topic message);
  if (ok : bool) then _ ← wlog (LkPublish topic message); mret true else mret false.

Definition subscribeTopic (topic : list byte) : W bool :=
  connected ← is_connected;
  if negb connected then mret false else
  ok ← wcall (mqtt_subscribe topic);
  if (ok : bool) then _ ← wlog (LkSubscribe topic); mret true else mret false.

Definition addConnectionCb (connCb : listener) : W unit :=
  c ← wget lk_client;
  match c with
  | None => mret tt
  | Some _ => wmodify (fun l => set_connCb (lk_connCb l ++ [connCb]) l)
  end.

(** [erase] of the first occurrence *)
Fixpoint erase_first (c : listener) (cs : list listener) : list listener :=
  match cs with
  | [] => []
  | d :: cs => if decide (d = c) then cs else d :: erase_first c cs
  end.
Definition removeConnectionCb (connCb : listener) : W unit :=
  c ← wget lk_client;
  match c with
  | None => mret tt
  | Some _ => wmodify (fun l => set_connCb (erase_first connCb (lk_connCb l)) l)
  end.

Definition publish_text (message : list byte) : W bool := tryPublishMessage (identity_psk ++ ATLAS_TO_CLOUD_TOPIC) message.

(** * cloud/AtlasDeviceCloud.cpp *)

(** If message is not delivered, then schedule a full cloud sync *)
Definition schedule_sync : W unit :=
  scheduled ← wget lk_syncScheduled;
  if (scheduled : bool) then mret tt else
  _ ← wio (alarm_start syncAlarm_);
  wmodify (set_syncScheduled true).

Definition updateGateway (jsonInfo : list byte) : W unit :=
  registered ← wget lk_registered;
  if negb registered then mret tt else
  delivered ← publish_text (gateway_text jsonInfo);
  if (delivered : bool) then mret tt else schedule_sync.

Definition updateDevice (identity jsonInfo : list byte) : W unit :=
  registered ← wget lk_registered;
  if negb registered then mret tt else
  delivered ← publish_text (device_text identity jsonInfo);
  if (delivered : bool) then mret tt else schedule_sync.

Definition allDevicesUpdate : W unit :=
  ds ← wget lk_devices;
  wfor ds (fun d => updateDevice d.1 d.2).

Definition gatewayFullUpdate : W unit :=
  g ← wget lk_gateway;
  updateGateway g.

Definition syncAlarmCallback : W unit :=
  _ ← wmodify (set_syncScheduled false);
  _ ← allDevicesUpdate;
  gatewayFullUpdate.

(** * cloud/AtlasRegisterCloud.cpp *)

Definition sendRegisterCmd : W unit :=
  delivered ← publish_text (simple_text ATLAS_CMD_GATEWAY_REGISTER);
  if (delivered : bool) then
    _ ← wmodify (set_lk_registered true);
    _ ← allDevicesUpdate;
    gatewayFullUpdate
  else mret tt.

Definition sendKeepaliveCmd : W unit :=
  _ ← publish_text (simple_text ATLAS_CMD_GATEWAY_KEEPALIVE); mret tt.

Definition keepaliveAlarmCb : W unit :=
  registered ← wget lk_registered;
  if negb registered then sendRegisterCmd else sendKeepaliveCmd.

Definition registerCloud_start : W unit := _ ← wio (alarm_start kaAlarm_); addConnectionCb LRegisterCloud.
Definition registerCloud_stop : W unit := _ ← removeConnectionCb LRegisterCloud; wio (alarm_cancel kaAlarm_).

(** * cloud/AtlasCloudCmdParser.cpp *)

Definition cmdParser_start : W unit := addConnectionCb LCmdParser.
Definition cmdParser_stop : W unit := removeConnectionCb LCmdParser.

(** The commands for devices go to AtlasApprove (GwApprove.v). *)
Definition parseCmd (cmd : list byte) : W unit :=
  if decide (command_type cmd = ATLAS_CMD_GATEWAY_GET_ALL_DEVICES) then allDevicesUpdate
  else if decide (command_type cmd = ATLAS_CMD_GATEWAY_REGISTER_REQUEST) then sendRegisterCmd
  else mret tt.

(** The listeners: [IAtlasMqttState]. *)
Definition onConnect (c : listener) : W unit :=
  match c with
  | LRegisterCloud =>
      registered ← wget lk_registered;
      if negb registered then sendRegisterCmd else mret tt
  | LCmdParser =>
      connected ← wget lk_connected;
      if negb connected then
        ok ← subscribeTopic (identity_psk ++ ATLAS_TO_GATEWAY_TOPIC);
        wmodify (set_lk_connected ok)
      else mret tt
  end.

Definition onDisconnect (c : listener) : W unit :=
  match c with
  | LRegisterCloud => wmodify (set_lk_registered false)
  | LCmdParser => wmodify (set_lk_connected false)
  end.

(** * mqtt_client/AtlasMqttClient_callback.cpp *)

Definition post (p : posted) : W unit := wmodify (fun l => set_posted (lk_posted l ++ [p]) l).

Definition connection_lost : W unit := post PostLost.
Definition on_failure : W unit := post PostFailure.
Definition on_success : W unit := post PostSuccess.
Definition message_arrived (msg : list byte) : W unit := post (PostMessage msg).

(** [alarmCallback] *)
Definition reconnectCallback : W unit := _ ← paho_connect; mret tt.

(** What the posted handlers do. *)
Definition run_posted (p : posted) : W unit :=
  match p with
  | PostLost | PostFailure =>
      cs ← wget lk_connCb;
      _ ← wfor cs onDisconnect;
      wio (alarm_start alarm_)
  | PostSuccess => cs ← wget lk_connCb; wfor cs onConnect
  | PostMessage msg => parseCmd msg
  end.

(** * The loop *)

Inductive lk_act :=
  | LkUpdateDevice (identity jsonInfo : list byte)     (* calls of other modules *)
  | LkUpdateGateway (jsonInfo : list byte)
  | LkSend (topic message : list byte)
  | LkWorld (devices : list (list byte * list byte)) (gateway : list byte)
  | LkSuccess                                           (* what Paho does *)
  | LkFailure
  | LkLost
  | LkMessage (msg : list byte)
  | LkPost                                              (* the turns of the loop *)
  | LkTime (ms : Z)
  | LkExpire (n : nat)
  | LkRun (n : nat).

Definition lk_enabled (x : lk_act) (l : link) : Prop :=
  match x with
  | LkUpdateDevice _ _ | LkUpdateGateway _ | LkSend _ _ | LkWorld _ _ => True
  | LkSuccess | LkFailure => lk_client l = Some PConnecting
  | LkLost | LkMessage _ => lk_client l = Some PConnected
  | LkPost => lk_posted l <> []
  | LkTime ms => 0 <= ms
  | LkExpire n => enabled (AExpire n) (lk_io l)
  | LkRun n => enabled (ARun n) (lk_io l)
  end.

Definition run_link_cb (cb : option link_cb) : W unit :=
  match cb with
  | Some cb_keepaliveAlarmCb => keepaliveAlarmCb
  | Some cb_syncAlarmCallback => syncAlarmCallback
  | Some cb_reconnectCallback => reconnectCallback
  | None => mret tt
  end.

Definition turn (x : act link_cb) : W unit := fun l =>
  r ← perform x (lk_io l);
  run_link_cb r.2 (set_lk_io r.1 l).

Definition lk_perform (x : lk_act) : W unit :=
  match x with
  | LkUpdateDevice i j => updateDevice i j
  | LkUpdateGateway j => updateGateway j
  | LkSend t m => _ ← tryPublishMessage t m; mret tt
  | LkWorld ds g => wmodify (set_world ds g)
  | LkSuccess => _ ← wmodify (set_paho (Some PConnected)); on_success
  | LkFailure => _ ← wmodify (set_paho (Some PIdle)); on_failure
  | LkLost => _ ← wmodify (set_paho (Some PIdle)); connection_lost
  | LkMessage msg => message_arrived msg
  | LkPost =>
      ps ← wget lk_posted;
      match ps with
      | [] => mret tt
      | p :: ps => _ ← wmodify (set_posted ps); run_posted p
      end
  | LkTime ms => turn (ATime ms)
  | LkExpire n => turn (AExpire n)
  | LkRun n => turn (ARun n)
  end.

Inductive lk_run : link -> list lk_act -> link -> Prop :=
  | lk_run_nil l : lk_run l [] l
  | lk_run_snoc l xs l1 x l2 :
      lk_run l xs l1 -> lk_enabled x l1 -> lk_perform x l1 = Ok (tt, l2) -> lk_run l (xs ++ [x]) l2.

(** The singletons before [main] connects. *)
Definition new_link (x : mext) : link :=
  mk_link (new_AtlasAlarm syncAlarm_ (cstr "AtlasDeviceCloudSync") ATLAS_SYNC_TIMER_INTERVAL_MS false (Some cb_syncAlarmCallback)
            (new_AtlasAlarm kaAlarm_ (cstr "AtlasRegisterCloud") ATLAS_KEEPALIVE_CLOUD_INTERVAL_MS false (Some cb_keepaliveAlarmCb) io_init))
    None false [] [] false false false [] [] [] x.

(** The part of [main] before the loop runs; [false] is its exit. *)
Definition main_connect : W bool :=
  ok ← initConnection;
  if negb ok then mret false else
  _ ← registerCloud_start;
  _ ← cmdParser_start;
  mret true.
End GwLink.

(** * What holds of the link *)

Section LinkInv.
Context {E : MqttEnv}.
Implicit Types (l : link).

(** ** The alarms *)

(** The three alarms with their deadlines. *)
Definition deck (d1 d2 d3 : option Z) : gmap Z abs_alarm :=
  <[kaAlarm_ := mk_abs ATLAS_KEEPALIVE_CLOUD_INTERVAL_MS false (Some cb_keepaliveAlarmCb) d1]>
  (<[syncAlarm_ := mk_abs ATLAS_SYNC_TIMER_INTERVAL_MS false (Some cb_syncAlarmCallback) d2]>
  {[ alarm_ := mk_abs ATLAS_MQTT_RECONNECT_INTERVAL_MS true (Some cb_reconnectCallback) d3 ]}).

Definition dl (a : Z) l : option Z := v ← abs (lk_io l) !! a; ab_deadline v.
Definition now l : Z := io_now (lk_io l).
Definition decked l : Prop := io_inv (lk_io l) /\ abs (lk_io l) = deck (dl kaAlarm_ l) (dl syncAlarm_ l) (dl alarm_ l).

Lemma decked_intro l d1 d2 d3 :
  io_inv (lk_io l) -> abs (lk_io l) = deck d1 d2 d3 ->
  decked l /\ dl kaAlarm_ l = d1 /\ dl syncAlarm_ l = d2 /\ dl alarm_ l = d3.
Proof.
  intros Hi Ha. assert (H1 : dl kaAlarm_ l = d1) by (unfold dl; by rewrite Ha).
  assert (H2 : dl syncAlarm_ l = d2) by (unfold dl; by rewrite Ha).
  assert (H3 : dl alarm_ l = d3) by (unfold dl; by rewrite Ha). split; [|done]. split; [done|]. by rewrite H1, H2, H3.
Qed.

Definition armed_at (n p : Z) (d : option Z) : option Z := Some (default (n + p) d).

Lemma alarm_start_now a (s s' : io link_cb) : alarm_start a s = Ok s' -> io_now s' = io_now s.
Proof.
  unfold alarm_start. intros (al & _ & H)%res_bind_inv. destruct (started_ al); injection H as <-; [done|].
  unfold timer_reset. by destruct (timer_ al).
Qed.

(** Starting an alarm of the link. *)
Lemma wio_start a l :
  decked l -> a = syncAlarm_ \/ a = alarm_ ->
  exists s, wio (alarm_start a) l = Ok (tt, set_lk_io s l) /\ decked (set_lk_io s l) /\ io_now s = now l /\
    dl kaAlarm_ (set_lk_io s l) = dl kaAlarm_ l /\
    dl syncAlarm_ (set_lk_io s l) =
      (if decide (a = syncAlarm_) then armed_at (now l) ATLAS_SYNC_TIMER_INTERVAL_MS (dl syncAlarm_ l) else dl syncAlarm_ l) /\
    dl alarm_ (set_lk_io s l) =
      (if decide (a = alarm_) then armed_at (now l) ATLAS_MQTT_RECONNECT_INTERVAL_MS (dl alarm_ l) else dl alarm_ l).
Proof.
  intros [Hi Hd] Ha. pose proof Hi as [Ht Hf].
  assert (Hal : exists al, io_alarms (lk_io l) !! a = Some al).
  { assert (is_Some (abs (lk_io l) !! a)) as [v Hv] by (rewrite Hd; destruct Ha as [-> | ->]; by eexists).
    unfold abs in Hv. rewrite lookup_fmap in Hv. destruct (io_alarms (lk_io l) !! a); [eauto|done]. }
  destruct Hal as [al Hal]. destruct (start_run (lk_io l) a al Ht Hal) as (s & Hs & Hi' & Hfs & Habs).
  exists s. unfold wio. rewrite Hs, res_bind_ok. split; [done|].
  assert (Hi2 : io_inv (lk_io (set_lk_io s l))) by (split; [exact Hi'|by eapply fd_inv_same]).
  rewrite Hd in Habs. destruct Ha as [-> | ->].
  - destruct (decked_intro (set_lk_io s l) (dl kaAlarm_ l) (armed_at (now l) ATLAS_SYNC_TIMER_INTERVAL_MS (dl syncAlarm_ l)) (dl alarm_ l))
      as (? & H1 & H2 & H3); [done| |split; [done|]; split; [by eapply alarm_start_now|done]].
    cbn. rewrite Habs. unfold now, arm. by destruct (dl syncAlarm_ l); vm_compute.
  - destruct (decked_intro (set_lk_io s l) (dl kaAlarm_ l) (dl syncAlarm_ l) (armed_at (now l) ATLAS_MQTT_RECONNECT_INTERVAL_MS (dl alarm_ l)))
      as (? & H1 & H2 & H3); [done| |split; [done|]; split; [by eapply alarm_start_now|done]].
    cbn. rewrite Habs. unfold now, arm. by destruct (dl alarm_ l); vm_compute.
Qed.

(** ** Operations that only talk to the cloud *)

(** Nothing but messages, the flags they set, and the alarm of the synchronisation. *)
Record talks l l' : Prop := {
  tk_deck : decked l';
  tk_now : now l' = now l;
  tk_ka : dl kaAlarm_ l' = dl kaAlarm_ l;
  tk_alarm : dl alarm_ l' = dl alarm_ l;
  tk_sync : dl syncAlarm_ l' = dl syncAlarm_ l \/ dl syncAlarm_ l' = armed_at (now l) ATLAS_SYNC_TIMER_INTERVAL_MS (dl syncAlarm_ l);
  tk_scheduled : (lk_syncScheduled l = true -> dl syncAlarm_ l <> None) -> lk_syncScheduled l' = true -> dl syncAlarm_ l' <> None;
  tk_client : lk_client l' = lk_client l /\ lk_connTok l' = lk_connTok l /\ lk_connCb l' = lk_connCb l /\ lk_posted l' = lk_posted l /\
    lk_devices l' = lk_devices l /\ lk_gateway l' = lk_gateway l;
  tk_registered : lk_registered l' = lk_registered l \/ (lk_registered l' = true /\ lk_client l = Some PConnected);
  tk_connected : lk_connected l' = lk_connected l \/ (lk_connected l' = true /\ lk_client l = Some PConnected);
  tk_out : exists evs, lk_out l' = lk_out l ++ evs /\ Forall (fun e => e <> LkConnect) evs /\ (lk_client l <> Some PConnected -> evs = []);
}.

Definition usable l : Prop := decked l /\ is_Some (lk_client l).

Lemma talks_usable l l' : usable l -> talks l l' -> usable l'.
Proof. intros [_ Hc] Ht. split; [apply Ht|]. destruct (tk_client _ _ Ht) as [-> _]. done. Qed.

Lemma talks_refl l : decked l -> talks l l.
Proof. intros Hd. split; try done; auto. exists []. rewrite app_nil_r. done. Qed.

Lemma talks_trans l1 l2 l3 : talks l1 l2 -> talks l2 l3 -> talks l1 l3.
Proof.
  intros [? N1 K1 A1 S1 C1 F1 R1 Q1 (e1 & O1 & P1 & B1)] [? N2 K2 A2 S2 C2 F2 R2 Q2 (e2 & O2 & P2 & B2)].
  destruct F1 as (F1 & F1b & F1c & F1d & F1e & F1f), F2 as (F2 & F2b & F2c & F2d & F2e & F2f). split; try congruence; auto.
  - rewrite N1 in S2. destruct S1 as [S1|S1], S2 as [S2|S2]; rewrite S1 in S2; auto.
  - repeat split; congruence.
  - rewrite F1 in R2. destruct R1 as [R1|[R1 ?]], R2 as [R2|[R2 ?]]; auto; [left|right]; [congruence|split; [congruence|done]].
  - rewrite F1 in Q2. destruct Q1 as [Q1|[Q1 ?]], Q2 as [Q2|[Q2 ?]]; auto; [left|right]; [congruence|split; [congruence|done]].
  - exists (e1 ++ e2). rewrite O2, O1, app_assoc. split; [done|]. split; [by apply Forall_app|].
    intros Hn. rewrite B1, B2 by congruence. done.
Qed.

(** An operation that returns and only talks; [Q] says what it returns. *)
Definition wok {A} (m : W A) (Q : link -> A -> link -> Prop) : Prop :=
  forall l, usable l -> exists a l', m l = Ok (a, l') /\ talks l l' /\ Q l a l'.

Abbreviation anything := (fun _ _ _ => True).

Lemma W_bind_run {A B} (m : W A) (k : A -> W B) l a l' : m l = Ok (a, l') -> (m ≫= k) l = k a l'.
Proof. intros Hm. unfold mbind, W_bind. by rewrite Hm. Qed.

Lemma wok_ret {A} (a : A) : wok (mret a) anything.
Proof. intros l [Hd _]. exists a, l. split; [done|]. split; [by apply talks_refl|done]. Qed.

Lemma wok_bind {A B} (m : W A) (k : A -> W B) Q : wok m Q -> (forall a, wok (k a) anything) -> wok (m ≫= k) anything.
Proof.
  intros Hm Hk l Hl. destruct (Hm l Hl) as (a & l1 & Hr & Ht & _). rewrite (W_bind_run _ _ _ _ _ Hr).
  destruct (Hk a l1 (talks_usable _ _ Hl Ht)) as (b & l2 & Hr2 & Ht2 & _). exists b, l2. split; [done|]. split; [|done].
  by eapply talks_trans.
Qed.

Lemma wok_get {A} (f : link -> A) : wok (wget f) anything.
Proof. intros l [Hd _]. exists (f l), l. split; [done|]. split; [by apply talks_refl|done]. Qed.

Lemma wok_for {A} (xs : list A) body : (forall a, wok (body a) anything) -> wok (wfor xs body) anything.
Proof. intros Hb. induction xs as [|a xs IH]; [apply wok_ret|]. cbn. by eapply wok_bind. Qed.

Lemma wok_if {A} (b : bool) (m1 m2 : W A) : wok m1 anything -> wok m2 anything -> wok (if b then m1 else m2) anything.
Proof. by destruct b. Qed.

(** A message is accepted only on a connection. *)
Lemma wok_publish topic message : wok (tryPublishMessage topic message) (fun l b _ =>
  (b = true -> lk_client l = Some PConnected) /\
  (lk_connTok l = true -> lk_client l = Some PConnected -> (forall t m x, (mqtt_publish_text t m x).1 = true) -> b = true)).
Proof.
  intros l Hl. pose proof Hl as [Hd [p Hp]]. unfold tryPublishMessage, is_connected. rewrite (W_bind_run _ _ _ _ _ eq_refl).
  assert (Hc : (c ← wget lk_client; match c with None => wfail NullDeref | Some p => mret (bool_decide (p = PConnected)) end) l =
    Ok (bool_decide (p = PConnected), l)) by (rewrite (W_bind_run _ _ _ _ _ eq_refl); by rewrite Hp).
  rewrite (W_bind_run _ _ _ _ _ Hc). clear Hc.
  assert (Hno : exists l', Ok (false, l) = Ok (false, l') /\ talks l l') by (exists l; split; [done|by apply talks_refl]).
  destruct Hno as (l0 & [= <-] & Hrefl).
  destruct (lk_connTok l) eqn:Htok; cbn [negb]; [|exists false, l; split; [done|]; split; [done|]; by split].
  rewrite Hp. case_bool_decide as Hpc; cbn [negb]; [|exists false, l; split; [done|]; split; [done|]; split; congruence].
  subst p. unfold mbind, W_bind, wcall. destruct (mqtt_publish_text topic message (lk_ext l)) as [b x] eqn:Hpub. destruct b.
  - eexists true, _. split; [done|]. split; [|done]. split; cbn; try done; auto. exists [LkPublish topic message].
    split; [done|]. split; [by constructor|]. congruence.
  - eexists false, _. split; [done|]. split; [split; cbn; try done; auto|].
    + exists []. rewrite app_nil_r. done.
    + split; [done|]. intros _ _ Hr. specialize (Hr topic message (lk_ext l)). by rewrite Hpub in Hr.
Qed.

Lemma wok_schedule_sync : wok schedule_sync anything.
Proof.
  intros l [Hd Hc]. unfold schedule_sync. rewrite (W_bind_run _ _ _ _ _ eq_refl).
  destruct (lk_syncScheduled l) eqn:Hs; [exists tt, l; split; [done|]; split; [by apply talks_refl|done]|].
  destruct (wio_start syncAlarm_ l Hd) as (s & Hr & Hd' & Hn & H1 & H2 & H3); [by left|].
  rewrite (W_bind_run _ _ _ _ _ Hr). eexists tt, _. split; [done|]. split; [|done].
  rewrite decide_True in H2 by done. rewrite decide_False in H3 by done.
  split; try done; auto.
  - intros _ _. change (dl syncAlarm_ (set_lk_io s l) <> None). by rewrite H2.
  - exists []. rewrite app_nil_r. done.
Qed.

Ltac wok_tac :=
  repeat match goal with
  | |- wok (mret _) _ => apply wok_ret
  | |- wok (wget _) _ => apply wok_get
  | |- wok (_ ≫= _) _ => eapply wok_bind; [|intros ?]
  | |- wok (if _ then _ else _) _ => apply wok_if
  | |- wok (wfor _ _) _ => apply wok_for; intros ?
  | |- wok (publish_text _) _ => apply wok_publish
  | |- wok (tryPublishMessage _ _) _ => apply wok_publish
  | |- wok schedule_sync _ => apply wok_schedule_sync
  end.

Lemma wok_updateGateway j : wok (updateGateway j) anything.
Proof. unfold updateGateway. wok_tac. Qed.
Lemma wok_updateDevice i j : wok (updateDevice i j) anything.
Proof. unfold updateDevice. wok_tac. Qed.
Lemma wok_all : wok allDevicesUpdate anything.
Proof. unfold allDevicesUpdate. wok_tac. apply wok_updateDevice. Qed.
Lemma wok_full : wok gatewayFullUpdate anything.
Proof. unfold gatewayFullUpdate. wok_tac. apply wok_updateGateway. Qed.

(** The rest of a full synchronisation. *)
Lemma wok_sync : wok (_ ← allDevicesUpdate; gatewayFullUpdate) anything.
Proof. eapply wok_bind; [apply wok_all|]. intros _. apply wok_full. Qed.

Lemma wok_syncAlarm : wok syncAlarmCallback anything.
Proof.
  intros l [Hd Hc]. unfold syncAlarmCallback. rewrite (W_bind_run _ _ _ _ _ eq_refl).
  destruct (wok_sync (set_syncScheduled false l)) as (a & l' & Hr & Ht & _); [by split|]. exists a, l'. split; [done|]. split; [|done].
  destruct Ht as [D N K A S C F R Q O]. by split; try done; auto.
Qed.

(** A registration is set by a delivered message only. *)
Lemma wok_register : wok sendRegisterCmd (fun l _ l' =>
  lk_connTok l = true -> lk_client l = Some PConnected -> (forall t m x, (mqtt_publish_text t m x).1 = true) -> lk_registered l' = true).
Proof.
  intros l Hl. unfold sendRegisterCmd, publish_text.
  destruct (wok_publish (identity_psk ++ ATLAS_TO_CLOUD_TOPIC) (simple_text ATLAS_CMD_GATEWAY_REGISTER) l Hl) as (b & l1 & Hr & Ht & Hb & Hrel).
  rewrite (W_bind_run _ _ _ _ _ Hr). destruct b.
  - specialize (Hb eq_refl). pose proof (talks_usable _ _ Hl Ht) as Hl1.
    rewrite (W_bind_run _ _ _ _ _ eq_refl). destruct (wok_sync (set_lk_registered true l1)) as (a & l2 & Hr2 & Ht2 & _); [done|].
    exists a, l2. split; [exact Hr2|]. assert (Hreg : lk_registered l2 = true).
    { destruct (tk_registered _ _ Ht2) as [-> |[-> _]]; done. }
    split; [|done]. eapply talks_trans; [|exact Ht2]. eapply talks_trans; [exact Ht|].
    destruct (tk_client _ _ Ht) as (Hcl & _). destruct Hl1 as [Hd1 _]. split; cbn; try done; auto.
    + right. split; [done|]. congruence.
    + exists []. rewrite app_nil_r. done.
  - exists tt, l1. split; [done|]. split; [done|]. intros H1 H2 H3. by specialize (Hrel H1 H2 H3).
Qed.

Lemma wok_keepalive : wok keepaliveAlarmCb anything.
Proof.
  unfold keepaliveAlarmCb, sendKeepaliveCmd. eapply wok_bind; [apply wok_get|]. intros r. apply wok_if; [|wok_tac].
  intros l Hl. destruct (wok_register l Hl) as (a & l' & ? & ? & _). eauto.
Qed.

(** Neither publishing nor subscribing is refused on a connection. *)
Definition reliable : Prop :=
  (forall t m x, (mqtt_publish_text t m x).1 = true) /\ (forall t x, (mqtt_subscribe t x).1 = true).

Lemma wok_subscribe topic : wok (subscribeTopic topic) (fun l b _ =>
  (b = true -> lk_client l = Some PConnected) /\ (lk_client l = Some PConnected -> reliable -> b = true)).
Proof.
  intros l Hl. pose proof Hl as [Hd [p Hp]]. unfold subscribeTopic, is_connected.
  assert (Hc : (c ← wget lk_client; match c with None => wfail NullDeref | Some p => mret (bool_decide (p = PConnected)) end) l =
    Ok (bool_decide (p = PConnected), l)) by (rewrite (W_bind_run _ _ _ _ _ eq_refl); by rewrite Hp).
  rewrite (W_bind_run _ _ _ _ _ Hc). clear Hc. pose proof (talks_refl l Hd) as Hrefl.
  rewrite Hp. case_bool_decide as Hpc; cbn [negb]; [|exists false, l; split; [done|]; split; [done|]; split; congruence].
  subst p. unfold mbind, W_bind, wcall. destruct (mqtt_subscribe topic (lk_ext l)) as [b x] eqn:Hsub. destruct b.
  - eexists true, _. split; [done|]. split; [|done]. split; cbn; try done; auto. exists [LkSubscribe topic].
    split; [done|]. split; [by constructor|]. congruence.
  - eexists false, _. split; [done|]. split; [split; cbn; try done; auto|].
    + exists []. rewrite app_nil_r. done.
    + split; [done|]. intros _ [_ Hr]. specialize (Hr topic (lk_ext l)). by rewrite Hsub in Hr.
Qed.

Lemma wok_onConnect c : wok (onConnect c) (fun l _ l' =>
  lk_connTok l = true -> lk_client l = Some PConnected -> reliable ->
  match c with LRegisterCloud => lk_registered l' = true | LCmdParser => lk_connected l' = true end).
Proof.
  intros l Hl. destruct c; unfold onConnect; rewrite (W_bind_run _ _ _ _ _ eq_refl).
  - destruct (lk_registered l) eqn:Hr; cbn [negb]; [exists tt, l; split; [done|]; split; [by apply talks_refl, Hl|done]|].
    destruct (wok_register l Hl) as (a & l' & Hrun & Ht & Hq). exists a, l'. split; [done|]. split; [done|]. intros H1 H2 [H3 _]. auto.
  - destruct (lk_connected l) eqn:Hc; cbn [negb]; [exists tt, l; split; [done|]; split; [by apply talks_refl, Hl|done]|].
    destruct (wok_subscribe (identity_psk ++ ATLAS_TO_GATEWAY_TOPIC) l Hl) as (b & l1 & Hr & Ht & Hb & Hrel).
    rewrite (W_bind_run _ _ _ _ _ Hr). eexists tt, _. split; [done|]. split; [|cbn; intros _ H1 H2; by apply Hrel].
    eapply talks_trans; [exact Ht|]. destruct (tk_client _ _ Ht) as (Hcl & _). destruct (talks_usable _ _ Hl Ht) as [Hd1 _].
    split; cbn; try done; auto.
    + destruct b; [right; split; [done|]; rewrite Hcl; by apply Hb|left].
      destruct (tk_connected _ _ Ht) as [Hc1|[Hc1 Hpc]]; [congruence|]. exfalso. clear -Hr Hc Hc1. revert Hr.
      unfold subscribeTopic, is_connected, mbind, W_bind, wget, wcall, wlog, wmodify, mret, W_ret.
      destruct (lk_client l); cbn; [|done]. repeat case_match; cbn; intros; simplify_eq; cbn in *; congruence.
    + exists []. rewrite app_nil_r. done.
Qed.

(** A flag that is set stays set while the link talks. *)
Lemma talks_flags l l' : talks l l' ->
  (lk_registered l = true -> lk_registered l' = true) /\ (lk_connected l = true -> lk_connected l' = true).
Proof. intros Ht. split; [destruct (tk_registered _ _ Ht) as [-> |[-> _]]|destruct (tk_connected _ _ Ht) as [-> |[-> _]]]; done. Qed.

Lemma wok_parseCmd m : wok (parseCmd m) anything.
Proof.
  unfold parseCmd. repeat case_decide; [apply wok_all| |apply wok_ret].
  intros l Hl. destruct (wok_register l Hl) as (a & l' & ? & ? & _). eauto.
Qed.

(** ** The invariant *)

Definition is_loss (p : posted) : bool := match p with PostLost | PostFailure => true | _ => false end.
Definition losses l : nat := length (base.filter (fun p => is_loss p = true) (lk_posted l)).
Definition on_line (p : option paho) : nat := match p with Some PConnecting | Some PConnected => 1 | _ => 0 end.
Definition armed (d : option Z) : nat := match d with Some _ => 1 | None => 0 end.

(** What keeps the link going: a connection or an attempt, a loss that is posted, or
    the alarm that reconnects. *)
Definition tokens l : nat := (on_line (lk_client l) + losses l + armed (dl alarm_ l))%nat.

Record link_inv l : Prop := {
  li_usable : usable l;
  li_listeners : lk_connCb l = [LRegisterCloud; LCmdParser];
  li_ka : dl kaAlarm_ l <> None;
  li_scheduled : lk_syncScheduled l = true -> dl syncAlarm_ l <> None;
  li_tokens : (tokens l <= 1)%nat;
  li_connects : (forall x, (mqtt_connect x).1 = true) -> tokens l = 1%nat /\ lk_connTok l = true;
  li_connTok : lk_connTok l = false -> tokens l = 0%nat;
  li_alarm e : dl alarm_ l = Some e -> e <= now l + ATLAS_MQTT_RECONNECT_INTERVAL_MS;
  li_sync e : dl syncAlarm_ l = Some e -> e <= now l + ATLAS_SYNC_TIMER_INTERVAL_MS;
  li_flags : lk_registered l = true \/ lk_connected l = true -> lk_client l = Some PConnected \/ losses l <> 0%nat;
  li_reliable : reliable -> lk_client l = Some PConnected ->
    PostSuccess ∈ lk_posted l \/ (lk_registered l = true /\ lk_connected l = true);
}.

(** Talking keeps the invariant. *)
Lemma talks_inv l l' : link_inv l -> talks l l' -> link_inv l'.
Proof.
  intros [U Ls Ka Sc T Cn Ct Al Sy Fl Re] Ht. pose proof (talks_usable _ _ U Ht) as U'. pose proof (talks_flags _ _ Ht) as [Fr Fc].
  destruct Ht as [D N K A S C F R Q _]. destruct F as (F1 & F2 & F3 & F4 & F5 & F6).
  assert (Hl : losses l' = losses l) by (unfold losses; by rewrite F4).
  assert (Htok : tokens l' = tokens l) by (unfold tokens; by rewrite F1, Hl, A).
  split; rewrite ?Htok, ?F1, ?F2, ?F3, ?F4, ?K, ?A, ?N, ?Hl; try done; auto.
  - intros e He. destruct S as [S|S]; rewrite S in He; [auto|]. unfold armed_at in He.
    destruct (dl syncAlarm_ l) as [e'|] eqn:Hs; injection He as <-; [by apply Sy|cbn; lia].
  - intros [Hf|Hf]; [destruct R as [R|[_ R]]|destruct Q as [Q|[_ Q]]]; try (by left); apply Fl; [left|right]; congruence.
  - intros Hrel Hpc. destruct (Re Hrel Hpc) as [?|[? ?]]; [by left|right; auto].
Qed.

Lemma wok_inv {A} (m : W A) Q l : wok m Q -> link_inv l -> exists a l', m l = Ok (a, l') /\ link_inv l' /\ talks l l' /\ Q l a l'.
Proof.
  intros Hm Hi. destruct (Hm l (li_usable _ Hi)) as (a & l' & Hr & Ht & Hq). exists a, l'. split; [done|].
  split; [by eapply talks_inv|done].
Qed.

(** ** Posted handlers *)

Lemma losses_cons p ps l : lk_posted l = p :: ps -> losses l = ((if is_loss p then 1 else 0) + length (base.filter (fun p => is_loss p = true) ps))%nat.
Proof. intros Hp. unfold losses. rewrite Hp, filter_cons. destruct (is_loss p); by case_decide. Qed.

Lemma losses_post p l : losses (set_posted (lk_posted l ++ [p]) l) = (losses l + if is_loss p then 1 else 0)%nat.
Proof. unfold losses. cbn. rewrite filter_app, length_app, filter_cons, filter_nil. by destruct (is_loss p); case_decide. Qed.

(** A loss: both listeners are told and the alarm is armed. *)
Lemma loss_run p ps l :
  link_inv l -> lk_posted l = p :: ps -> is_loss p = true ->
  exists l', lk_perform LkPost l = Ok (tt, l') /\ link_inv l' /\ now l' = now l /\
    dl alarm_ l' = Some (now l + ATLAS_MQTT_RECONNECT_INTERVAL_MS) /\ lk_client l' = lk_client l /\ lk_posted l' = ps /\
    dl syncAlarm_ l' = dl syncAlarm_ l.
Proof.
  intros Hi Hp Hloss. pose proof Hi as [U Ls Ka Sc T Cn Ct Al Sy Fl Re]. destruct U as [Hd [q Hq]].
  pose proof (losses_cons p ps l Hp) as Hlo. rewrite Hloss in Hlo.
  assert (Hon : on_line (lk_client l) = 0%nat /\ dl alarm_ l = None /\ length (base.filter (fun p => is_loss p = true) ps) = 0%nat).
  { unfold tokens in T. destruct (dl alarm_ l); cbn in T; [exfalso|split; [|split; [done|]]]; lia. }
  destruct Hon as (Hon & Ha & Hps).
  cbn [lk_perform]. rewrite (W_bind_run _ _ _ _ _ eq_refl), Hp, (W_bind_run _ _ _ _ _ eq_refl).
  set (l1 := set_lk_connected false (set_lk_registered false (set_posted ps l))).
  assert (Hr : run_posted p (set_posted ps l) = wio (alarm_start alarm_) l1).
  { destruct p; try done; unfold run_posted; rewrite (W_bind_run _ _ _ _ _ eq_refl); cbn [lk_connCb set_posted]; by rewrite Ls. }
  rewrite Hr. destruct (wio_start alarm_ l1 Hd) as (s & Hs & Hd' & Hn & H1 & H2 & H3); [by right|].
  rewrite decide_False in H2 by done. rewrite decide_True in H3 by done. change (dl alarm_ l1) with (dl alarm_ l) in H3.
  rewrite Ha in H3. change (now l1) with (now l) in Hn, H3. eexists. split; [exact Hs|].
  assert (Htok : tokens (set_lk_io s l1) = 1%nat).
  { unfold tokens. rewrite H3. cbn. unfold losses. cbn. rewrite Hps. lia. }
  split; [|done]. split; rewrite ?Htok; try done; auto.
  - by rewrite H1.
  - intros Hsc. rewrite H2. by apply Sc.
  - intros Hc. split; [done|]. by apply Cn.
  - intros Hf. specialize (Ct Hf). unfold tokens in Ct. lia.
  - intros e. rewrite H3. unfold armed_at, now. cbn. intros [= <-]. rewrite Hn. unfold now. lia.
  - intros e. rewrite H2. unfold now at 1. cbn. rewrite Hn. apply Sy.
  - intros [?|?]; done.
  - intros _ Hc. exfalso. cbn in Hc. by rewrite Hc in Hon.
Qed.

(** A success or a message: the link talks. *)
Lemma other_run p ps l :
  link_inv l -> lk_posted l = p :: ps -> is_loss p = false ->
  exists l', lk_perform LkPost l = Ok (tt, l') /\ link_inv l' /\ talks (set_posted ps l) l'.
Proof.
  intros Hi Hp Hloss. pose proof Hi as [U Ls Ka Sc T Cn Ct Al Sy Fl Re].
  pose proof (losses_cons p ps l Hp) as Hlo. rewrite Hloss in Hlo. set (l1 := set_posted ps l).
  assert (Htok : tokens l1 = tokens l) by (unfold tokens, losses in *; cbn in *; by rewrite Hlo).
  assert (U1 : usable l1) by exact U.
  cbn [lk_perform]. rewrite (W_bind_run _ _ _ _ _ eq_refl), Hp, (W_bind_run _ _ _ _ _ eq_refl). fold l1.
  assert (Hrun : exists l', run_posted p l1 = Ok (tt, l') /\ talks l1 l' /\
    (p = PostSuccess -> lk_connTok l = true -> lk_client l = Some PConnected -> reliable -> lk_registered l' = true /\ lk_connected l' = true)).
  { destruct p as [| | |msg]; try done; unfold run_posted.
    - rewrite (W_bind_run _ _ _ _ _ eq_refl). change (lk_connCb l1) with (lk_connCb l). rewrite Ls. cbn [wfor].
      destruct (wok_onConnect LRegisterCloud l1 U1) as ([] & l2 & Hr2 & Ht2 & Hq2).
      rewrite (W_bind_run _ _ _ _ _ Hr2). destruct (wok_onConnect LCmdParser l2 (talks_usable _ _ U1 Ht2)) as ([] & l3 & Hr3 & Ht3 & Hq3).
      rewrite (W_bind_run _ _ _ _ _ Hr3). exists l3. split; [done|]. split; [by eapply talks_trans|].
      intros _ H1 H2 H3. destruct (tk_client _ _ Ht2) as (Hc & Hk & _). split.
      + apply (proj1 (talks_flags _ _ Ht3)). by apply Hq2.
      + apply Hq3; [rewrite Hk|rewrite Hc|]; done.
    - destruct (wok_parseCmd msg l1 U1) as ([] & l2 & Hr2 & Ht2 & _). by exists l2. }
  destruct Hrun as (l' & Hr & Ht & Hq). exists l'. split; [exact Hr|]. split; [|done].
  (* the invariant of [l1], up to the flags the success is to set *)
  destruct (tk_client _ _ Ht) as (F1 & F2 & F3 & F4 & _). pose proof (talks_flags _ _ Ht) as [Fr Fc].
  assert (Hlo' : losses l' = losses l) by (unfold losses in *; rewrite F4; cbn; by rewrite Hlo).
  assert (Htok' : tokens l' = tokens l) by (rewrite <- Htok; unfold tokens; rewrite F1, (tk_alarm _ _ Ht); unfold losses; by rewrite F4).
  assert (Hpos : lk_posted l' = ps) by by rewrite F4.
  split; rewrite ?Htok', ?F1, ?F2, ?F3, ?Hpos, ?Hlo', ?(tk_ka _ _ Ht), ?(tk_alarm _ _ Ht), ?(tk_now _ _ Ht); try done.
  - by eapply talks_usable.
  - by apply (tk_scheduled _ _ Ht).
  - intros e He. destruct (tk_sync _ _ Ht) as [S|S]; rewrite S in He; [by apply Sy|]. unfold armed_at in He.
    change (dl syncAlarm_ l1) with (dl syncAlarm_ l) in He.
    destruct (dl syncAlarm_ l) as [e'|] eqn:Hs; injection He as <-; [by apply Sy|cbn; lia].
  - intros [Hf|Hf]; [destruct (tk_registered _ _ Ht) as [R|[_ R]]|destruct (tk_connected _ _ Ht) as [R|[_ R]]];
      try (by left); apply Fl; [left|right]; rewrite Hf in R; symmetry; exact R.
  - intros Hrel Hpc. change (lk_client l1) with (lk_client l) in Hpc. destruct (Re Hrel Hpc) as [Hin|[? ?]]; [|right; auto].
    rewrite Hp in Hin. apply elem_of_cons in Hin as [<-|Hin]; [|by left]. right. apply Hq; try done.
    destruct (lk_connTok l) eqn:Htk; [done|]. specialize (Ct eq_refl). unfold tokens in Ct. rewrite Hpc in Ct. cbn in Ct. lia.
Qed.

(** ** Turns of the loop *)

Definition loop_turn (x : act link_cb) : Prop := match x with ATime _ | AExpire _ | ARun _ => True | _ => False end.

(** The deadlines after a turn that calls [r]. *)
Definition moved (r : option link_cb) l l' : Prop :=
  match r with
  | None => dl kaAlarm_ l' = dl kaAlarm_ l /\ dl syncAlarm_ l' = dl syncAlarm_ l /\ dl alarm_ l' = dl alarm_ l
  | Some cb_keepaliveAlarmCb =>
      is_Some (dl kaAlarm_ l') /\ dl syncAlarm_ l' = dl syncAlarm_ l /\ dl alarm_ l' = dl alarm_ l
  | Some cb_syncAlarmCallback =>
      dl kaAlarm_ l' = dl kaAlarm_ l /\
      (exists e, dl syncAlarm_ l = Some e /\ e <= now l /\ dl syncAlarm_ l' = Some (e + ATLAS_SYNC_TIMER_INTERVAL_MS)) /\
      dl alarm_ l' = dl alarm_ l
  | Some cb_reconnectCallback =>
      dl kaAlarm_ l' = dl kaAlarm_ l /\ dl syncAlarm_ l' = dl syncAlarm_ l /\
      (exists e, dl alarm_ l = Some e /\ e <= now l) /\ dl alarm_ l' = None
  end.

Lemma deck_lookup d1 d2 d3 a v : deck d1 d2 d3 !! a = Some v ->
  (a = kaAlarm_ /\ v = mk_abs ATLAS_KEEPALIVE_CLOUD_INTERVAL_MS false (Some cb_keepaliveAlarmCb) d1) \/
  (a = syncAlarm_ /\ v = mk_abs ATLAS_SYNC_TIMER_INTERVAL_MS false (Some cb_syncAlarmCallback) d2) \/
  (a = alarm_ /\ v = mk_abs ATLAS_MQTT_RECONNECT_INTERVAL_MS true (Some cb_reconnectCallback) d3).
Proof. unfold deck. rewrite !lookup_insert_Some, lookup_singleton_Some. naive_solver. Qed.

Lemma alarm_step_turn t m x f r m' :
  alarm_step (C := link_cb) t m x f r m' -> loop_turn x ->
  (f = None /\ r = None /\ m' = m) \/
  (exists a v e, f = Some a /\ r = ab_callback v /\ m !! a = Some v /\ ab_deadline v = Some e /\ e <= t /\
     m' = <[a := set_deadline (if ab_once v then None else Some (e + ab_period v)) v]> m).
Proof. intros [] Hx; try done; [right|by left]. eauto 10. Qed.

(** Only the passing of time moves the clock. *)
Definition elapsed (x : act link_cb) : Z := match x with ATime ms => ms | _ => 0 end.

Lemma turn_now x (s s' : io link_cb) r : loop_turn x -> perform x s = Ok (s', r) -> io_now s' = io_now s + elapsed x.
Proof.
  destruct x; intros []; cbn [perform elapsed]; rewrite ?Z.add_0_r; intros H;
    repeat match goal with
    | H : (_ ≫= _) = Ok _ |- _ => apply res_bind_inv in H as (? & ? & ?)
    | H : alarm_cancel _ _ = Ok _ |- _ => apply cancel_now in H
    | H : run_handler _ _ _ = Ok _ |- _ => unfold run_handler, timerHandler, handleFdEvent in H
    | _ => case_match
    | _ => progress simplify_eq
    end; done.
Qed.

Lemma io_turn x l :
  decked l -> loop_turn x -> enabled x (lk_io l) ->
  exists s r, perform x (lk_io l) = Ok (s, r) /\ now l <= io_now s /\ decked (set_lk_io s l) /\ moved r l (set_lk_io s l) /\
    (fires x (lk_io l) = Some alarm_ -> r = Some cb_reconnectCallback) /\
    (fires x (lk_io l) = Some syncAlarm_ -> r = Some cb_syncAlarmCallback).
Proof.
  intros [Hi Hd] Hx He. destruct (step_run x (lk_io l) Hi He) as (s & r & Hp & Hi' & Hst).
  exists s, r. split; [done|]. split; [by eapply perform_now|]. rewrite Hd in Hst.
  apply alarm_step_turn in Hst as [(-> & -> & Hm)|(a & v & e & -> & -> & Hv & Hdl & Hle & Hm)]; [| |done].
  { destruct (decked_intro (set_lk_io s l) (dl kaAlarm_ l) (dl syncAlarm_ l) (dl alarm_ l)) as (? & H1 & H2 & H3); [done..|].
    split; [done|]. split; [done|]. by split. }
  assert (Hdeck : forall d1 d2 d3, <[a := set_deadline (if ab_once v then None else Some (e + ab_period v)) v]>
      (deck (dl kaAlarm_ l) (dl syncAlarm_ l) (dl alarm_ l)) = deck d1 d2 d3 ->
    decked (set_lk_io s l) /\ dl kaAlarm_ (set_lk_io s l) = d1 /\ dl syncAlarm_ (set_lk_io s l) = d2 /\ dl alarm_ (set_lk_io s l) = d3).
  { intros d1 d2 d3 Heq. apply decked_intro; [done|]. cbn. by rewrite Hm. }
  apply deck_lookup in Hv as [[-> ->]|[[-> ->]|[-> ->]]]; cbn in Hdl, Hdeck |- *.
  - destruct (Hdeck (Some (e + ATLAS_KEEPALIVE_CLOUD_INTERVAL_MS)) (dl syncAlarm_ l) (dl alarm_ l)) as (? & H1 & H2 & H3); [by vm_compute|].
    split; [done|]. split; [|done]. rewrite H1. split; [by eexists|done].
  - destruct (Hdeck (dl kaAlarm_ l) (Some (e + ATLAS_SYNC_TIMER_INTERVAL_MS)) (dl alarm_ l)) as (? & H1 & H2 & H3); [by vm_compute|].
    split; [done|]. split; [|done]. split; [done|]. split; [|done]. by exists e.
  - destruct (Hdeck (dl kaAlarm_ l) (dl syncAlarm_ l) None) as (? & H1 & H2 & H3); [by vm_compute|].
    split; [done|]. split; [|done]. split; [done|]. split; [done|]. split; [by exists e|done].
Qed.

(** ** Every step *)

Definition strict : Prop := forall x, (mqtt_connect x).1 = true.

(** What every step keeps: time goes on; once the synchronisation is armed it stays so;
    and a link that nothing keeps going stays silent. *)
Record kept l l' : Prop := {
  kp_now : now l <= now l';
  kp_sync : dl syncAlarm_ l <> None -> dl syncAlarm_ l' <> None;
  kp_dead : tokens l = 0%nat -> tokens l' = 0%nat /\ lk_out l' = lk_out l;
}.

Lemma kept_trans l1 l2 l3 : kept l1 l2 -> kept l2 l3 -> kept l1 l3.
Proof.
  intros [N1 S1 D1] [N2 S2 D2]. split; [lia|auto|]. intros Ht. destruct (D1 Ht) as [Ht2 <-]. by apply D2.
Qed.

Lemma talks_tokens l l' : talks l l' -> tokens l' = tokens l.
Proof.
  intros Ht. destruct (tk_client _ _ Ht) as (F1 & _ & _ & F4 & _). unfold tokens, losses. by rewrite F1, F4, (tk_alarm _ _ Ht).
Qed.

Lemma talks_kept l l' : talks l l' -> kept l l'.
Proof.
  intros Ht. split; [rewrite (tk_now _ _ Ht); lia| |].
  - intros Hn. destruct (tk_sync _ _ Ht) as [-> | ->]; [done|]. by destruct (dl syncAlarm_ l).
  - intros H0. rewrite (talks_tokens _ _ Ht). split; [done|]. destruct (tk_out _ _ Ht) as (evs & -> & _ & Hevs).
    rewrite Hevs; [apply app_nil_r|]. intros Hp. unfold tokens in H0. by rewrite Hp in H0.
Qed.

(** An attempt to reconnect, when the alarm has fired. *)
Lemma reconnect_run l :
  exists l', reconnectCallback l = Ok (tt, l') /\
    (((mqtt_connect (lk_ext l)).1 = true /\ lk_client l' = Some PConnecting /\ lk_out l' = lk_out l ++ [LkConnect]) \/
     ((mqtt_connect (lk_ext l)).1 = false /\ lk_client l' = lk_client l /\ lk_out l' = lk_out l)) /\
    lk_io l' = lk_io l /\ lk_connTok l' = lk_connTok l /\ lk_connCb l' = lk_connCb l /\ lk_posted l' = lk_posted l /\
    lk_registered l' = lk_registered l /\ lk_connected l' = lk_connected l /\ lk_syncScheduled l' = lk_syncScheduled l.
Proof.
  unfold reconnectCallback, paho_connect, mbind, W_bind, wcall, wmodify, wlog.
  destruct (mqtt_connect (lk_ext l)) as [[] x]; cbn; eexists; (split; [done|]); cbn; (split; [|done]); [by left|by right].
Qed.

(** A turn that does not concern the reconnection leaves the invariant. *)
Lemma moved_inv r s l :
  link_inv l -> now l <= io_now s -> decked (set_lk_io s l) -> moved r l (set_lk_io s l) -> r <> Some cb_reconnectCallback ->
  link_inv (set_lk_io s l) /\ kept l (set_lk_io s l).
Proof.
  intros [U Ls Ka Sc T Cn Ct Al Sy Fl Re] Hn Hd Hm Hr. set (l1 := set_lk_io s l) in *. change (io_now s) with (now l1) in Hn.
  assert (A : dl alarm_ l1 = dl alarm_ l) by (destruct r as [[]|]; [apply Hm..|done|apply Hm]).
  assert (Tk : tokens l1 = tokens l) by (unfold tokens; by rewrite A).
  assert (Hs : dl syncAlarm_ l1 = dl syncAlarm_ l \/
    exists e, dl syncAlarm_ l = Some e /\ e <= now l /\ dl syncAlarm_ l1 = Some (e + ATLAS_SYNC_TIMER_INTERVAL_MS)).
  { destruct r as [[]|]; cbn in Hm; [left; apply Hm|right; apply Hm|left; apply Hm|left; apply Hm]. }
  assert (Hs2 : dl syncAlarm_ l <> None -> dl syncAlarm_ l1 <> None) by (destruct Hs as [-> |(e & _ & _ & ->)]; done).
  split; [|by split; [| |rewrite Tk]]. split; rewrite ?Tk, ?A; try done; auto.
  - by split; [|apply U].
  - destruct r as [[]|]; cbn in Hm; try done; destruct Hm as (K & _); [by destruct K as [? ->]|by rewrite K..].
  - intros e He1. apply Al in He1. lia.
  - intros e He1. destruct Hs as [Hs|(e0 & _ & Hle & Hs)]; rewrite Hs in He1; [apply Sy in He1; lia|]. injection He1 as <-. lia.
Qed.

(** The turn that fires the alarm of the reconnection. *)
Lemma reconnect_inv s l :
  link_inv l -> now l <= io_now s -> decked (set_lk_io s l) -> moved (Some cb_reconnectCallback) l (set_lk_io s l) ->
  exists l', reconnectCallback (set_lk_io s l) = Ok (tt, l') /\ link_inv l' /\ kept l l' /\ now l' = io_now s /\
    (((mqtt_connect (lk_ext l)).1 = true /\ lk_client l' = Some PConnecting) \/
     ((mqtt_connect (lk_ext l)).1 = false /\ tokens l' = 0%nat)).
Proof.
  intros [U Ls Ka Sc T Cn Ct Al Sy Fl Re] Hn Hd (K & S & (e & Ha & Hle) & A). set (l1 := set_lk_io s l) in *.
  change (io_now s) with (now l1) in Hn.
  assert (Htok : tokens l = 1%nat /\ on_line (lk_client l) = 0%nat /\ losses l = 0%nat).
  { assert (Heq : tokens l = (on_line (lk_client l) + losses l + 1)%nat) by (unfold tokens; by rewrite Ha). lia. }
  destruct Htok as (T0 & On & Lo).
  destruct (reconnect_run l1) as (l2 & Hr & Hc & Eio & Etok & Ecb & Epo & Ereg & Econ & Esc). exists l2. split; [exact Hr|].
  change (lk_ext l1) with (lk_ext l) in Hc. change (lk_client l1) with (lk_client l) in Hc.
  assert (Hdl : forall a, dl a l2 = dl a l1) by (intros a; unfold dl; by rewrite Eio).
  assert (Hnow : now l2 = now l1) by (unfold now; by rewrite Eio).
  assert (Hlos : losses l2 = 0%nat) by (unfold losses; by rewrite Epo).
  assert (Hcl : usable l2 /\ lk_client l2 <> Some PConnected).
  { split; [split; [split; [rewrite Eio; apply Hd|rewrite Eio, !Hdl; apply Hd]|]|].
    - destruct Hc as [(_ & -> & _)|(_ & -> & _)]; [by eexists|apply U].
    - destruct Hc as [(_ & -> & _)|(_ & -> & _)]; [done|]. intros Hq. by rewrite Hq in On. }
  destruct Hcl as [U2 Hnp].
  assert (Htok2 : tokens l2 = if (mqtt_connect (lk_ext l)).1 then 1%nat else 0%nat).
  { unfold tokens. rewrite Hlos, Hdl, A. destruct Hc as [(-> & -> & _)|(-> & -> & _)]; [done|]. by rewrite On. }
  split; [|split; [|split]].
  - split; rewrite ?Hdl, ?Hnow, ?Etok, ?Ecb, ?Esc, ?Ereg, ?Econ, ?Hlos; try done; auto.
    + by rewrite K.
    + rewrite S. exact Sc.
    + rewrite Htok2. destruct (mqtt_connect (lk_ext l)).1; lia.
    + intros Hst. rewrite Htok2, (Hst (lk_ext l)). split; [done|]. by apply Cn.
    + intros Hf0. exfalso. specialize (Ct Hf0). lia.
    + intros e0. by rewrite A.
    + intros e0. rewrite S. intros He0. apply Sy in He0. lia.
    + intros Hfl. exfalso. destruct (Fl Hfl) as [Hq|Hq]; [by rewrite Hq in On|done].
  - split; [lia|by rewrite Hdl, S|]. lia.
  - exact Hnow.
  - destruct Hc as [(Hc & Hc' & _)|(Hc & _)]; [left; done|right]. split; [done|]. by rewrite Htok2, Hc.
Qed.

Lemma turn_inv x l :
  link_inv l -> loop_turn x -> enabled x (lk_io l) ->
  exists l', turn x l = Ok (tt, l') /\ link_inv l' /\ kept l l' /\ now l' = now l + elapsed x /\
    (fires x (lk_io l) = Some alarm_ ->
       ((mqtt_connect (lk_ext l)).1 = true /\ lk_client l' = Some PConnecting) \/
       ((mqtt_connect (lk_ext l)).1 = false /\ tokens l' = 0%nat)).
Proof.
  intros Hi Hx He. destruct (io_turn x l (proj1 (li_usable _ Hi)) Hx He) as (s & r & Hp & Hn & Hd & Hm & Hf & _).
  pose proof (turn_now _ _ _ _ Hx Hp) as Hnow. unfold turn. rewrite Hp, res_bind_ok. cbn [fst snd].
  assert (Htalk : forall m : W unit, wok m anything -> r <> Some cb_reconnectCallback ->
    exists l', m (set_lk_io s l) = Ok (tt, l') /\ link_inv l' /\ kept l l' /\ now l' = now l + elapsed x /\
      (fires x (lk_io l) = Some alarm_ -> False)).
  { intros m Hm' Hr. destruct (moved_inv r s l Hi Hn Hd Hm Hr) as [Hi1 Hk1].
    destruct (wok_inv _ _ _ Hm' Hi1) as ([] & l2 & Hrun & Hi2 & Ht & _). exists l2. split; [done|]. split; [done|].
    split; [eapply kept_trans; [exact Hk1|by apply talks_kept]|]. split; [rewrite (tk_now _ _ Ht); exact Hnow|]. intros Hf'. by specialize (Hf Hf'). }
  destruct r as [[]|]; cbn [run_link_cb].
  - destruct (Htalk _ wok_keepalive) as (l' & ? & ? & ? & ? & Hno); [done|]. exists l'. repeat (split; [done|]). tauto.
  - destruct (Htalk _ wok_syncAlarm) as (l' & ? & ? & ? & ? & Hno); [done|]. exists l'. repeat (split; [done|]). tauto.
  - destruct (reconnect_inv s l Hi Hn Hd Hm) as (l' & ? & ? & ? & Hn' & Hc). exists l'. split; [done|]. split; [done|]. split; [done|]. split; [|done].
    rewrite Hn'. exact Hnow.
  - destruct (Htalk _ (wok_ret tt)) as (l' & ? & ? & ? & ? & Hno); [done|]. exists l'. repeat (split; [done|]). tauto.
Qed.

(** What Paho reports is posted. *)
Lemma post_inv q p l :
  link_inv l ->
  (is_loss p = true /\ on_line (lk_client l) = 1%nat /\ q = Some PIdle) \/
  (p = PostSuccess /\ lk_client l = Some PConnecting /\ q = Some PConnected) \/
  (is_loss p = false /\ q = lk_client l) ->
  link_inv (set_posted (lk_posted l ++ [p]) (set_paho q l)).
Proof.
  intros [U Ls Ka Sc T Cn Ct Al Sy Fl Re] Hc. set (l' := set_posted _ _).
  assert (Hlos : losses l' = (losses l + if is_loss p then 1 else 0)%nat) by apply (losses_post p (set_paho q l)).
  assert (Htok : tokens l' = tokens l).
  { unfold tokens. rewrite Hlos. change (lk_client l') with q. change (dl alarm_ l') with (dl alarm_ l).
    destruct Hc as [(-> & -> & ->)|[(-> & -> & ->)|(-> & ->)]]; cbn; lia. }
  split; rewrite ?Htok; try done.
  - split; [apply U|]. change (lk_client l') with q. destruct Hc as [(_ & _ & ->)|[(_ & _ & ->)|(_ & ->)]]; [by eexists..|apply U].
  - intros Hf. rewrite Hlos. change (lk_client l') with q. destruct Hc as [(-> & _ & _)|[(-> & Hcl & ->)|(-> & ->)]].
    + right. lia.
    + by left.
    + cbn. rewrite Nat.add_0_r. by apply Fl.
  - intros Hr Hq. change (lk_client l') with q in Hq. change (lk_posted l') with (lk_posted l ++ [p]).
    destruct Hc as [(_ & _ & ->)|[(-> & _ & _)|(_ & ->)]]; [done|left; apply elem_of_app; right; by left|].
    destruct (Re Hr Hq) as [Hin|?]; [left; apply elem_of_app; by left|by right].
Qed.

(** Every step that may happen returns and keeps the invariant. *)
Lemma perform_link x l :
  link_inv l -> lk_enabled x l -> exists l', lk_perform x l = Ok (tt, l') /\ link_inv l' /\ kept l l'.
Proof.
  intros Hi He.
  assert (Htalk : forall m : W unit, wok m anything -> exists l', m l = Ok (tt, l') /\ link_inv l' /\ kept l l').
  { intros m Hm. destruct (wok_inv _ _ _ Hm Hi) as ([] & l' & ? & ? & ?%talks_kept & _). by exists l'. }
  assert (Hturn : forall y, loop_turn y -> enabled y (lk_io l) -> exists l', turn y l = Ok (tt, l') /\ link_inv l' /\ kept l l').
  { intros y Hy He'. destruct (turn_inv y l Hi Hy He') as (l' & ? & ? & ? & _). by exists l'. }
  assert (Hsame : lk_client l = Some PConnected -> set_paho (lk_client l) l = l) by (intros _; by destruct l).
  assert (Hk : forall q p, on_line (lk_client l) = 1%nat -> kept l (set_posted (lk_posted l ++ [p]) (set_paho q l))).
  { intros q p Hon. split; [reflexivity|done|]. unfold tokens. lia. }
  destruct x; cbn [lk_perform lk_enabled] in *.
  - apply Htalk, wok_updateDevice.
  - apply Htalk, wok_updateGateway.
  - apply Htalk. eapply wok_bind; [apply wok_publish|]. intros ?. apply wok_ret.
  - eexists. split; [done|]. split; [destruct Hi; split; done|by split].
  - eexists. split; [done|]. split; [|apply Hk; by rewrite He]. apply (post_inv (Some PConnected) PostSuccess l Hi). right; left. done.
  - eexists. split; [done|]. split; [|apply Hk; by rewrite He]. apply (post_inv (Some PIdle) PostFailure l Hi). left. by rewrite He.
  - eexists. split; [done|]. split; [|apply Hk; by rewrite He]. apply (post_inv (Some PIdle) PostLost l Hi). left. by rewrite He.
  - eexists. split; [done|]. split; [|rewrite <- (Hsame He) at 2; apply Hk; by rewrite He].
    pose proof (post_inv (lk_client l) (PostMessage msg) l Hi ltac:(by right; right)) as Hp. by rewrite Hsame in Hp.
  - destruct (lk_posted l) as [|p ps] eqn:Hp; [done|]. destruct (is_loss p) eqn:Hloss.
    + destruct (loss_run p ps l Hi Hp Hloss) as (l' & Hr & Hi' & Hn & _ & _ & _ & Hs). exists l'.
      split; [exact Hr|]. split; [done|].
      pose proof (losses_cons p ps l Hp) as Hlo. rewrite Hloss in Hlo. split; [lia|by rewrite Hs|]. unfold tokens. lia.
    + destruct (other_run p ps l Hi Hp Hloss) as (l' & Hr & Hi' & Ht). exists l'. split; [exact Hr|]. split; [done|].
      pose proof (losses_cons p ps l Hp) as Hlo. rewrite Hloss in Hlo.
      assert (Htok : tokens (set_posted ps l) = tokens l) by (unfold tokens; by rewrite Hlo).
      destruct (talks_kept _ _ Ht) as [N2 S2 D2]. split; [exact N2|exact S2|]. rewrite <- Htok. exact D2.
  - by apply Hturn.
  - by apply Hturn.
  - by apply Hturn.
Qed.

(** ** The start *)

(** The alarms of [main_connect]: all are made, the keep-alive is started. *)
Definition made_alarms (x : mext) : io link_cb :=
  new_AtlasAlarm alarm_ (cstr "AtlasMqttClientReconnect") ATLAS_MQTT_RECONNECT_INTERVAL_MS true
    (Some cb_reconnectCallback) (lk_io (new_link x)).

Lemma boot_io x : exists s, alarm_start kaAlarm_ (made_alarms x) = Ok s /\
  io_inv s /\ abs s = deck (Some ATLAS_KEEPALIVE_CLOUD_INTERVAL_MS) None None /\ io_now s = 0.
Proof.
  set (s3 := made_alarms x).
  assert (Hi : io_inv s3).
  { assert (Hnew : forall (s : io link_cb) a name p once cb, io_inv s -> io_alarms s !! a = None -> io_inv (new_AtlasAlarm a name p once cb s)).
    { intros s a name p once cb Hi Ha. destruct (step_run (ANew a name p once cb) s Hi Ha) as (s' & r & [= <- _] & Hi' & _). done. }
    apply Hnew; [|done]. apply Hnew; [|done]. apply Hnew; [apply io_init_inv|done]. }
  destruct (start_run s3 kaAlarm_ (mk_AtlasAlarm (cstr "AtlasRegisterCloud") ATLAS_KEEPALIVE_CLOUD_INTERVAL_MS false (Some cb_keepaliveAlarmCb) None false))
    as (s & Hs & Ht & Hf & Hab); [apply Hi|done|]. exists s. split; [done|]. split; [split; [done|by eapply fd_inv_same; [apply Hi|]]|].
  split; [rewrite Hab; by vm_compute|]. by rewrite (alarm_start_now _ _ _ Hs).
Qed.

Lemma link_boot_inv (s : io link_cb) (ok : bool) out ext ext0 :
  io_inv s -> abs s = deck (Some ATLAS_KEEPALIVE_CLOUD_INTERVAL_MS) None None -> io_now s = 0 -> (mqtt_connect ext0).1 = ok ->
  link_inv (mk_link s (Some (if ok then PConnecting else PIdle)) ok [LRegisterCloud; LCmdParser] [] false false false [] [] out ext).
Proof.
  intros Hi Hab Hn Hok. set (l := mk_link _ _ _ _ _ _ _ _ _ _ _ _).
  destruct (decked_intro l (Some ATLAS_KEEPALIVE_CLOUD_INTERVAL_MS) None None Hi Hab) as (Hd & H1 & H2 & H3).
  assert (Htok : tokens l = if ok then 1%nat else 0%nat) by (unfold tokens; rewrite H3; by destruct ok).
  split; rewrite ?Htok, ?H1, ?H2, ?H3; try done.
  - destruct ok; lia.
  - intros Hst. specialize (Hst ext0). rewrite Hok in Hst. by rewrite Hst.
  - cbn. by intros ->.
  - by intros [?|?].
  - by destruct ok.
Qed.

(** What [connect] does, from any state. *)
Lemma connect_run l :
  let ok := (mqtt_connect (lk_ext l)).1 in
  exists out ext, connect l = Ok (tt,
    mk_link (lk_io l) (if ok then Some PConnecting else lk_client l) (ok || lk_connTok l) (lk_connCb l) (lk_posted l)
      (lk_registered l) (lk_connected l) (lk_syncScheduled l) (lk_devices l) (lk_gateway l) out ext).
Proof.
  destruct l. unfold connect, paho_connect, mbind, W_bind, wcall, wmodify, wlog. cbn.
  destruct (mqtt_connect lk_ext0) as [[] x]; cbn; eauto.
Qed.

Lemma boot_link x l : main_connect (new_link x) = Ok (true, l) -> link_inv l.
Proof.
  destruct (boot_io x) as (s & Hs & Hi & Hab & Hn). unfold main_connect, initConnection.
  intros Hrun. unfold mbind at 1, W_bind at 1 in Hrun. rewrite (W_bind_run _ _ _ _ _ eq_refl) in Hrun.
  cbn [lk_client new_link] in Hrun. unfold mbind at 1, W_bind at 1, wcall in Hrun. cbn [lk_ext new_link] in Hrun.
  destruct (mqtt_new_client x) as [[] x1]; [|done]. cbn [negb] in Hrun.
  rewrite (W_bind_run _ _ _ _ _ eq_refl), (W_bind_run _ _ _ _ _ eq_refl) in Hrun.
  set (l1 := set_lk_io _ _) in Hrun. destruct (connect_run l1) as (out & ext & Hc).
  change (lk_ext l1) with x1 in Hc. rewrite (W_bind_run _ _ _ _ _ Hc) in Hrun. cbn [mret W_ret negb] in Hrun.
  set (ok := (mqtt_connect x1).1) in *. set (l2 := mk_link _ _ _ _ _ _ _ _ _ _ _ _) in Hrun.
  unfold registerCloud_start, cmdParser_start, addConnectionCb in Hrun.
  assert (Hka : wio (alarm_start kaAlarm_) l2 = Ok (tt, set_lk_io s l2)) 
    by (unfold wio; change (lk_io l2) with (made_alarms x); by rewrite Hs).
  assert (Hadd : forall c l0, is_Some (lk_client l0) ->
    (c0 ← wget lk_client; match c0 with None => mret tt | Some _ => wmodify (fun l => set_connCb (lk_connCb l ++ [c]) l) end) l0 =
    Ok (tt, set_connCb (lk_connCb l0 ++ [c]) l0)).
  { intros c l0 [q Hq]. rewrite (W_bind_run _ _ _ _ _ eq_refl). by rewrite Hq. }
  assert (Hcl : is_Some (lk_client l2)) by (unfold l2; destruct ok; by eexists).
  erewrite W_bind_run in Hrun; [|rewrite (W_bind_run _ _ _ _ _ Hka); by apply Hadd].
  erewrite W_bind_run in Hrun; [|by apply Hadd]. injection Hrun as <-.
  pose proof (link_boot_inv s ok out ext x1 Hi Hab Hn eq_refl) as Hb. clearbody ok. by destruct ok.
Qed.

(** ** Runs *)

Lemma run_link l xs l' : lk_run l xs l' -> link_inv l -> link_inv l' /\ kept l l'.
Proof.
  induction 1 as [|l xs l1 x l2 _ IH Hen Hp]; [intros Hi; split; [done|]; split; [lia|done|done]|]. intros Hi.
  destruct (IH Hi) as [Hi1 Hk1]. destruct (perform_link x l1 Hi1 Hen) as (l' & Hp' & Hi' & Hk'). rewrite Hp in Hp'. injection Hp' as <-.
  split; [done|]. by eapply kept_trans.
Qed.

Lemma run_one l x l' : lk_enabled x l -> lk_perform x l = Ok (tt, l') -> lk_run l [x] l'.
Proof. intros He Hp. by apply (lk_run_snoc l [] l); [apply lk_run_nil| |]. Qed.

Lemma run_app l xs l1 ys l2 : lk_run l xs l1 -> lk_run l1 ys l2 -> lk_run l (xs ++ ys) l2.
Proof.
  intros H1 H2. induction H2 as [|l1 ys l2 y l3 _ IH He Hp]; [by rewrite app_nil_r|].
  rewrite app_assoc. eapply lk_run_snoc; eauto.
Qed.

(** The handlers up to a posted loss run, and the reconnection is armed. *)
Lemma drain l :
  link_inv l -> losses l <> 0%nat ->
  exists ys l', lk_run l ys l' /\ now l' = now l /\ dl alarm_ l' = Some (now l + ATLAS_MQTT_RECONNECT_INTERVAL_MS).
Proof.
  remember (lk_posted l) as ps eqn:Hps. revert l Hps. induction ps as [|p ps IH]; intros l Hps Hi Hlos.
  { exfalso. apply Hlos. unfold losses. by rewrite <- Hps. }
  assert (Hen : lk_enabled LkPost l) by (cbn; by rewrite <- Hps). destruct (is_loss p) eqn:Hp.
  - destruct (loss_run p ps l Hi (eq_sym Hps) Hp) as (l' & Hr & _ & Hn & Ha & _). exists [LkPost], l'. split; [by apply run_one|done].
  - destruct (other_run p ps l Hi (eq_sym Hps) Hp) as (l1 & Hr & Hi1 & Ht).
    destruct (tk_client _ _ Ht) as (_ & _ & _ & Hpo & _). pose proof (losses_cons p ps l (eq_sym Hps)) as Hlo. rewrite Hp in Hlo.
    destruct (IH l1) as (ys & l2 & Hrun & Hn & Ha); [by rewrite Hpo|done|unfold losses; rewrite Hpo; cbn; lia|].
    exists ([LkPost] ++ ys), l2. pose proof (tk_now _ _ Ht) as Hn1. change (now (set_posted ps l)) with (now l) in Hn1.
    split; [eapply run_app; [by apply run_one|done]|]. rewrite Ha, Hn, Hn1. done.
Qed.

(** An armed alarm of the reconnection fires once its time has come. *)
Lemma fire_reconnect l e :
  link_inv l -> dl alarm_ l = Some e -> e <= now l ->
  exists ys l', lk_run l ys l' /\ (length ys <= 2)%nat /\ now l' = now l /\
    (((mqtt_connect (lk_ext l)).1 = true /\ lk_client l' = Some PConnecting) \/
     ((mqtt_connect (lk_ext l)).1 = false /\ tokens l' = 0%nat)).
Proof.
  intros Hi Ha He. pose proof (li_usable _ Hi) as [[Hio Hd] _].
  unfold dl in Ha. destruct (abs (lk_io l) !! alarm_) as [v|] eqn:Hv; [|done]. cbn in Ha.
  destruct (armed_pending _ _ _ _ Hio Hv Ha) as (t & Ht & Hp).
  apply elem_of_app in Hp as [[m Hm]%list_elem_of_lookup|[n Hn]%due_elem%list_elem_of_lookup].
  - assert (lk_enabled (LkExpire m) l) as Hen by by exists alarm_, t, e.
    destruct (perform_link (LkExpire m) l Hi Hen) as (l1 & Hp1 & Hi1 & _).
    pose proof Hp1 as Hq. cbn [lk_perform] in Hq. unfold turn in Hq. cbn [perform] in Hq. rewrite Hm in Hq. rewrite res_bind_ok in Hq.
    injection Hq as <-. set (l1 := set_lk_io _ l) in *. set (n := length (io_queue (lk_io l))).
    assert (io_queue (lk_io l1) !! n = Some (TimerHandler alarm_ t, success)) as Hlast.
    { cbn. unfold n. by rewrite lookup_app_r, Nat.sub_diag by done. }
    destruct (turn_inv (ARun n) l1 Hi1 I (mk_is_Some _ _ Hlast)) as (l2 & Hp2 & _ & _ & Hnow & Hf).
    exists ([LkExpire m] ++ [LkRun n]), l2. split; [|split; [done|split; [rewrite Hnow; apply Z.add_0_r|]]].
    + eapply run_app; [by apply run_one|]. apply run_one; [exact (mk_is_Some _ _ Hlast)|exact Hp2].
    + apply Hf. unfold fires. rewrite Hlast. change (io_timers (lk_io l1)) with (io_timers (lk_io l)). by rewrite Ht.
  - destruct (turn_inv (ARun n) l Hi I (mk_is_Some _ _ Hn)) as (l2 & Hp2 & _ & _ & Hnow & Hf).
    exists [LkRun n], l2. split; [apply run_one; [exact (mk_is_Some _ _ Hn)|exact Hp2]|]. split; [cbn; lia|]. split; [cbn in Hnow; lia|].
    apply Hf. unfold fires. rewrite Hn. by rewrite Ht.
Qed.

Lemma wait_run l ms : link_inv l -> 0 <= ms ->
  exists l', lk_run l [LkTime ms] l' /\ link_inv l' /\ now l' = now l + ms /\ dl alarm_ l' = dl alarm_ l /\ lk_ext l' = lk_ext l.
Proof.
  intros Hi Hms. destruct (perform_link (LkTime ms) l Hi Hms) as (l' & Hp & Hi' & _). exists l'. split; [by apply run_one|].
  split; [done|]. cbn in Hp. by injection Hp as <-.
Qed.

(** ** A full synchronisation *)

(** [l] after the messages [evs]. *)
Definition said (evs : list link_event) (x : mext) l : link := set_lk_ext x (set_lk_out (lk_out l ++ evs) l).
Definition to_cloud (message : list byte) : link_event := LkPublish (identity_psk ++ ATLAS_TO_CLOUD_TOPIC) message.
Definition device_updates (ds : list (list byte * list byte)) : list link_event := (fun d => to_cloud (device_text d.1 d.2)) <$> ds.
Definition full_update l : list link_event := device_updates (lk_devices l) ++ [to_cloud (gateway_text (lk_gateway l))].

Lemma publish_said message evs x l :
  (forall t m y, (mqtt_publish_text t m y).1 = true) -> lk_connTok l = true -> lk_client l = Some PConnected ->
  exists x', publish_text message (said evs x l) = Ok (true, said (evs ++ [to_cloud message]) x' l).
Proof.
  intros Hr Ht Hc. unfold publish_text, tryPublishMessage, is_connected. rewrite (W_bind_run _ _ _ _ _ eq_refl).
  change (lk_connTok (said evs x l)) with (lk_connTok l). rewrite Ht.
  assert (Hcon : (c ← wget lk_client; match c with None => wfail NullDeref | Some p => mret (bool_decide (p = PConnected)) end) (said evs x l) =
    Ok (true, said evs x l)).
  { rewrite (W_bind_run _ _ _ _ _ eq_refl). change (lk_client (said evs x l)) with (lk_client l). by rewrite Hc. }
  rewrite (W_bind_run _ _ _ _ _ Hcon). cbn [negb]. unfold mbind, W_bind, wcall. change (lk_ext (said evs x l)) with x.
  specialize (Hr (identity_psk ++ ATLAS_TO_CLOUD_TOPIC) message x). destruct (mqtt_publish_text _ message x) as [b x']. cbn in Hr. subst b.
  exists x'. unfold said. cbn. by rewrite app_assoc.
Qed.

Section Reliable.
Context (l : link) (Hr : forall t m y, (mqtt_publish_text t m y).1 = true) (Ht : lk_connTok l = true)
  (Hc : lk_client l = Some PConnected) (Hreg : lk_registered l = true).

Lemma update_said i j evs x : exists x', updateDevice i j (said evs x l) = Ok (tt, said (evs ++ [to_cloud (device_text i j)]) x' l).
Proof using Hr Ht Hc Hreg.
  unfold updateDevice. rewrite (W_bind_run _ _ _ _ _ eq_refl). change (lk_registered (said evs x l)) with (lk_registered l). rewrite Hreg.
  destruct (publish_said (device_text i j) evs x l Hr Ht Hc) as (x' & Hp). exists x'. cbn [negb]. by rewrite (W_bind_run _ _ _ _ _ Hp).
Qed.

Lemma all_said ds evs x : exists x', wfor ds (fun d => updateDevice d.1 d.2) (said evs x l) = Ok (tt, said (evs ++ device_updates ds) x' l).
Proof using Hr Ht Hc Hreg.
  revert evs x. induction ds as [|d ds IH]; intros evs x; [exists x; by rewrite app_nil_r|]. cbn [wfor].
  destruct (update_said d.1 d.2 evs x) as (x1 & Hu). rewrite (W_bind_run _ _ _ _ _ Hu).
  destruct (IH (evs ++ [to_cloud (device_text d.1 d.2)]) x1) as (x2 & ->). exists x2. by rewrite <- app_assoc.
Qed.

Lemma sync_said evs x : exists x', (_ ← allDevicesUpdate; gatewayFullUpdate) (said evs x l) = Ok (tt, said (evs ++ full_update l) x' l).
Proof using Hr Ht Hc Hreg.
  destruct (all_said (lk_devices l) evs x) as (x1 & Ha). erewrite W_bind_run by exact Ha.
  unfold gatewayFullUpdate. rewrite (W_bind_run _ _ _ _ _ eq_refl). unfold updateGateway. rewrite (W_bind_run _ _ _ _ _ eq_refl).
  change (lk_registered (said _ x1 l)) with (lk_registered l). rewrite Hreg. cbn [negb]. change (lk_gateway (said _ x1 l)) with (lk_gateway l).
  destruct (publish_said (gateway_text (lk_gateway l)) (evs ++ device_updates (lk_devices l)) x1 l Hr Ht Hc) as (x2 & Hp).
  exists x2. rewrite (W_bind_run _ _ _ _ _ Hp). unfold full_update. by rewrite app_assoc.
Qed.
End Reliable.

(** ** Theorems *)

(** C19: The link to the cloud recovers. From a start of the gateway on, as long as the
    MQTT library does not refuse the attempts themselves, whenever the gateway is not
    connected a new attempt is under way or made within five seconds, by turns of
    the loop that all return, whatever happened before. *)
Theorem cloud_link_recovers (x : mext) l0 (xs : list lk_act) l :
  strict -> main_connect (new_link x) = Ok (true, l0) -> lk_run l0 xs l -> lk_client l <> Some PConnected ->
  exists ys l', lk_run l ys l' /\ lk_client l' = Some PConnecting /\ now l' <= now l + ATLAS_MQTT_RECONNECT_INTERVAL_MS.
Proof.
  intros Hst Hb Hrun Hnc. destruct (run_link _ _ _ Hrun (boot_link _ _ Hb)) as [Hi _].
  destruct (li_connects _ Hi Hst) as [Htok _]. destruct (li_usable _ Hi) as [_ [q Hq]].
  destruct (decide (q = PConnecting)) as [->|Hqc].
  { exists [], l. split; [constructor|]. split; [done|]. unfold ATLAS_MQTT_RECONNECT_INTERVAL_MS. lia. }
  assert (Hon : on_line (lk_client l) = 0%nat) by (rewrite Hq in *; by destruct q).
  assert (Harm : exists ys l1 e, lk_run l ys l1 /\ now l1 = now l /\ dl alarm_ l1 = Some e /\ e <= now l + ATLAS_MQTT_RECONNECT_INTERVAL_MS).
  { destruct (decide (losses l = 0%nat)) as [Hl|Hl].
    - unfold tokens in Htok. destruct (dl alarm_ l) as [e|] eqn:Ha; cbn in Htok; [|lia].
      exists [], l, e. split; [constructor|]. split; [done|]. split; [done|]. by apply (li_alarm _ Hi).
    - destruct (drain l Hi Hl) as (ys & l1 & Hr & Hn & Ha). exists ys, l1. eexists. split; [done|]. split; [done|]. split; [exact Ha|done]. }
  destruct Harm as (ys & l1 & e & Hr1 & Hn1 & Ha1 & He1). destruct (run_link _ _ _ Hr1 Hi) as [Hi1 _].
  destruct (wait_run l1 (Z.max 0 (e - now l1)) Hi1) as (l2 & Hr2 & Hi2 & Hn2 & Ha2 & _); [lia|].
  destruct (fire_reconnect l2 e Hi2) as (zs & l3 & Hr3 & _ & Hn3 & Hc); [congruence|lia|].
  destruct Hc as [[_ Hc]|[Hc _]]; [|by rewrite Hst in Hc].
  exists (ys ++ [LkTime (Z.max 0 (e - now l1))] ++ zs), l3. split; [by eapply run_app; [done|]; eapply run_app|]. split; [done|].
  unfold ATLAS_MQTT_RECONNECT_INTERVAL_MS in *. lia.
Qed.

(** C20: Being registered means being connected. In every state of the link every step that
    may happen next returns; the gateway counts as registered and as subscribed only
    on a connection, or while the handler that will tell of its loss is queued; and
    when publishing is not refused, a connected gateway with no handler left to run
    is both. *)
Theorem cloud_registered_connected (x : mext) l0 (xs : list lk_act) l :
  main_connect (new_link x) = Ok (true, l0) -> lk_run l0 xs l ->
  (forall a, lk_enabled a l -> exists l', lk_perform a l = Ok (tt, l')) /\
  (lk_registered l = true \/ lk_connected l = true ->
     lk_client l = Some PConnected \/ PostLost ∈ lk_posted l \/ PostFailure ∈ lk_posted l) /\
  (reliable -> lk_client l = Some PConnected -> lk_posted l = [] -> lk_registered l = true /\ lk_connected l = true).
Proof.
  intros Hb Hrun. destruct (run_link _ _ _ Hrun (boot_link _ _ Hb)) as [Hi _]. split; [|split].
  - intros a Ha. destruct (perform_link a l Hi Ha) as (l' & Hp & _). by exists l'.
  - intros Hf. destruct (li_flags _ Hi Hf) as [Hc|Hl]; [by left|right]. unfold losses in Hl.
    destruct (base.filter (fun p => is_loss p = true) (lk_posted l)) as [|p ps] eqn:Hps; [done|].
    assert (Hp : p ∈ base.filter (fun p => is_loss p = true) (lk_posted l)) by (rewrite Hps; by left).
    apply list_elem_of_filter in Hp as [Hp Hin]. destruct p; try done; auto.
  - intros Hr Hc Hp. destruct (li_reliable _ Hi Hr Hc) as [Hin|?]; [|done]. rewrite Hp in Hin. by apply not_elem_of_nil in Hin.
Qed.

(** C21: Registration brings the cloud up to date: on a connection on which publishing is
    not refused, registering sends the registration, then what every device and the
    gateway have to tell, in this order and nothing else; and so does the alarm of
    the full synchronisation once the gateway is registered. *)
Theorem registration_synchronises (x : mext) l0 (xs : list lk_act) l :
  main_connect (new_link x) = Ok (true, l0) -> lk_run l0 xs l -> reliable -> lk_client l = Some PConnected ->
  (exists l', sendRegisterCmd l = Ok (tt, l') /\ lk_registered l' = true /\
     lk_out l' = lk_out l ++ to_cloud (simple_text ATLAS_CMD_GATEWAY_REGISTER) :: full_update l) /\
  (lk_registered l = true -> exists l', syncAlarmCallback l = Ok (tt, l') /\ lk_out l' = lk_out l ++ full_update l).
Proof.
  intros Hb Hrun [Hp _] Hc. destruct (run_link _ _ _ Hrun (boot_link _ _ Hb)) as [Hi _].
  assert (Htok : lk_connTok l = true).
  { destruct (lk_connTok l) eqn:Ht; [done|]. apply (li_connTok _ Hi) in Ht. unfold tokens in Ht. rewrite Hc in Ht. cbn in Ht. lia. }
  assert (Hnil : forall m : link, said [] (lk_ext m) m = m) by (intros []; unfold said; cbn; by rewrite app_nil_r). split.
  - destruct (publish_said (simple_text ATLAS_CMD_GATEWAY_REGISTER) [] (lk_ext l) l Hp Htok Hc) as (x1 & Hpub). rewrite Hnil in Hpub.
    unfold sendRegisterCmd. rewrite (W_bind_run _ _ _ _ _ Hpub), (W_bind_run _ _ _ _ _ eq_refl).
    set (l1 := set_lk_registered true (said _ x1 l)).
    destruct (sync_said l1 Hp Htok Hc eq_refl [] (lk_ext l1)) as (x2 & Hs). rewrite Hnil in Hs. eexists. split; [exact Hs|].
    split; [done|]. cbn. by rewrite <- app_assoc.
  - intros Hreg. unfold syncAlarmCallback. rewrite (W_bind_run _ _ _ _ _ eq_refl). set (l1 := set_syncScheduled false l).
    destruct (sync_said l1 Hp Htok Hc Hreg [] (lk_ext l1)) as (x2 & Hs). rewrite Hnil in Hs. eexists. by split; [exact Hs|].
Qed.

(** C40: One exception and the link is gone. The alarm of the reconnection fires once, and
    the handler of the exception that [connect] may throw does not start it again:
    when its attempt is refused, the gateway never again connects or sends anything
    to the cloud, whatever happens. *)
Theorem reconnect_gives_up (x : mext) l0 (xs : list lk_act) l (e : Z) :
  main_connect (new_link x) = Ok (true, l0) -> lk_run l0 xs l ->
  dl alarm_ l = Some e -> e <= now l -> (mqtt_connect (lk_ext l)).1 = false ->
  exists ys l', lk_run l ys l' /\ (length ys <= 2)%nat /\
    forall zs l'', lk_run l' zs l'' -> lk_client l'' = Some PIdle /\ dl alarm_ l'' = None /\ lk_out l'' = lk_out l'.
Proof.
  intros Hb Hrun Ha He Hc. destruct (run_link _ _ _ Hrun (boot_link _ _ Hb)) as [Hi _].
  destruct (fire_reconnect l e Hi Ha He) as (ys & l1 & Hr & Hlen & _ & Hcase). exists ys, l1. split; [done|]. split; [done|].
  intros zs l2 Hz. destruct Hcase as [[Hc' _]|[_ Ht]]; [congruence|]. destruct (run_link _ _ _ Hr Hi) as [Hi1 _].
  destruct (run_link _ _ _ Hz Hi1) as [Hi2 Hk]. destruct (kp_dead _ _ Hk Ht) as [Ht2 Ho]. split; [|split; [|done]].
  - destruct (li_usable _ Hi2) as [_ [q Hq]]. unfold tokens in Ht2. rewrite Hq in Ht2 |- *. by destruct q.
  - unfold tokens in Ht2. destruct (dl alarm_ l2); cbn in Ht2; [lia|done].
Qed.

(** The full synchronisation never stops: its alarm is periodic and nothing cancels
    it, so after the first message that could not be delivered the gateway sends the
    state of all devices every ten seconds for ever. *)
Theorem sync_never_stops (x : mext) l0 (xs ys : list lk_act) l l' :
  main_connect (new_link x) = Ok (true, l0) -> lk_run l0 xs l -> dl syncAlarm_ l <> None -> lk_run l ys l' ->
  exists e, dl syncAlarm_ l' = Some e /\ e <= now l' + ATLAS_SYNC_TIMER_INTERVAL_MS.
Proof.
  intros Hb Hrun Hs Hy. destruct (run_link _ _ _ Hrun (boot_link _ _ Hb)) as [Hi _]. destruct (run_link _ _ _ Hy Hi) as [Hi' Hk].
  destruct (dl syncAlarm_ l') as [e|] eqn:He; [|by apply (kp_sync _ _ Hk) in Hs]. exists e. split; [done|]. by apply (li_sync _ Hi').
Qed.
End LinkInv.

(** * Two brokers *)

(** One that accepts everything, and one that refuses what it is told to: the calls of
    [connect] and of [publish] consume one answer each. *)
Definition good_broker : MqttEnv := {|
  mext := unit;
  mqtt_new_client x := (true, x);
  mqtt_connect x := (true, x);
  mqtt_publish_text _ _ x := (true, x);
  mqtt_subscribe _ x := (true, x);
  command_type m := m;
  identity_psk := cstr "psk";
|}.

Definition next_answer (x : list bool) : bool * list bool := match x with [] => (true, []) | b :: x => (b, x) end.
Definition moody_broker : MqttEnv := {|
  mext := list bool;
  mqtt_new_client x := (true, x);
  mqtt_connect x := next_answer x;
  mqtt_publish_text _ _ x := next_answer x;
  mqtt_subscribe _ x := (true, x);
  command_type m := m;
  identity_psk := cstr "psk";
|}.

Section LinkExamples.
Context {E : MqttEnv}.

Fixpoint lk_all (xs : list lk_act) (l : link) : res link :=
  match xs with
  | [] => Ok l
  | x :: xs => match lk_perform x l with Ok (_, l) => lk_all xs l | Fault f => Fault f end
  end.
Fixpoint lk_all_enabled (xs : list lk_act) (l : link) : Prop :=
  match xs with
  | [] => True
  | x :: xs => lk_enabled x l /\ match lk_perform x l with Ok (_, l) => lk_all_enabled xs l | Fault _ => False end
  end.

Lemma lk_all_run xs l l' : lk_all_enabled xs l -> lk_all xs l = Ok l' -> lk_run l xs l'.
Proof.
  revert l. induction xs as [|x xs IH]; intros l; cbn [lk_all lk_all_enabled].
  { intros _ [= <-]. constructor. }
  intros [He Hrest]. destruct (lk_perform x l) as [[[] l1]|] eqn:Hp; [|done]. intros Hr.
  apply (run_app l [x] l1 xs l'); [by apply run_one|]. by apply IH.
Qed.

Definition booted (x : mext) : link := match main_connect (new_link x) with Ok (_, l) => l | Fault _ => new_link x end.
Definition link_after (xs : list lk_act) (l : link) : link := match lk_all xs l with Ok l' => l' | Fault _ => l end.

Lemma booted_ok x : match main_connect (new_link x) with Ok (b, _) => b | Fault _ => false end = true ->
  main_connect (new_link x) = Ok (true, booted x).
Proof. unfold booted. destruct (main_connect (new_link x)) as [[[] l]|]; done. Qed.

Lemma link_after_run xs l : lk_all_enabled xs l -> lk_run l xs (link_after xs l).
Proof.
  intros He. apply lk_all_run; [done|]. unfold link_after.
  assert (Hok : exists l', lk_all xs l = Ok l') by (revert l He; induction xs as [|x xs IH]; intros l; cbn; [by eexists|];
    intros [_ Hr]; destruct (lk_perform x l) as [[u l1]|]; [by apply IH|done]).
  by destruct Hok as [l' ->].
Qed.
End LinkExamples.

Definition dropped_acts : list lk_act := [LkSuccess; LkPost; LkLost].
Definition up_acts : list lk_act := [LkWorld [(dev, cstr "a")] (cstr "b"); LkSuccess; LkPost].
Definition refused_acts : list lk_act := [LkFailure; LkPost; LkTime 5000].
Definition undelivered_acts : list lk_act := [LkSuccess; LkPost; LkUpdateDevice dev (cstr "a")].

Definition gx : @mext good_broker := tt.

Lemma good_boot : main_connect (new_link gx) = Ok (true, booted gx).
Proof. apply booted_ok. vm_compute. reflexivity. Qed.
Lemma dropped_run : lk_run (booted gx) dropped_acts (link_after dropped_acts (booted gx)).
Proof. apply link_after_run. vm_compute. repeat split; discriminate. Qed.
Lemma up_run : lk_run (booted gx) up_acts (link_after up_acts (booted gx)).
Proof. apply link_after_run. vm_compute. repeat split; discriminate. Qed.
Lemma good_reliable : @reliable good_broker.
Proof. by split. Qed.

Lemma cloud_link_recovers_witness :
  exists ys l', lk_run (link_after dropped_acts (booted gx)) ys l' /\ lk_client l' = Some PConnecting /\
    now l' <= now (link_after dropped_acts (booted gx)) + ATLAS_MQTT_RECONNECT_INTERVAL_MS.
Proof.
  apply (cloud_link_recovers gx (booted gx) dropped_acts); [intros []; reflexivity|apply good_boot|apply dropped_run|].
  vm_compute. discriminate.
Defined.

Lemma cloud_registered_connected_witness :
  (forall a, lk_enabled a (link_after up_acts (booted gx)) -> exists l', lk_perform a (link_after up_acts (booted gx)) = Ok (tt, l')) /\
  lk_registered (link_after up_acts (booted gx)) = true /\ lk_connected (link_after up_acts (booted gx)) = true.
Proof.
  destruct (cloud_registered_connected gx (booted gx) up_acts (link_after up_acts (booted gx)) good_boot up_run) as (H1 & _ & H3).
  split; [exact H1|]. apply H3; [apply good_reliable|vm_compute; reflexivity|vm_compute; reflexivity].
Defined.

Lemma registration_synchronises_witness :
  exists l', syncAlarmCallback (link_after up_acts (booted gx)) = Ok (tt, l') /\
    lk_out l' = lk_out (link_after up_acts (booted gx)) ++ full_update (link_after up_acts (booted gx)).
Proof.
  apply (registration_synchronises gx (booted gx) up_acts (link_after up_acts (booted gx)) good_boot up_run good_reliable);
    vm_compute; reflexivity.
Defined.


(* a broker library that refuses the second connection attempt, and one that refuses the fourth call made to it *)
Definition refusing : @mext moody_broker := [true; false].
Definition undelivering : @mext moody_broker := [true; true; true; false].

Lemma refused_boot : main_connect (new_link refusing) = Ok (true, booted refusing).
Proof. apply booted_ok. vm_compute. reflexivity. Qed.
Lemma refused_run : lk_run (booted refusing) refused_acts (link_after refused_acts (booted refusing)).
Proof. apply link_after_run. vm_compute. repeat split; discriminate. Qed.

Lemma reconnect_gives_up_witness :
  exists ys l', lk_run (link_after refused_acts (booted refusing)) ys l' /\ (length ys <= 2)%nat /\
    forall zs l'', lk_run l' zs l'' -> lk_client l'' = Some PIdle /\ dl alarm_ l'' = None /\ lk_out l'' = lk_out l'.
Proof.
  apply (reconnect_gives_up refusing (booted refusing) refused_acts (link_after refused_acts (booted refusing)) 5000
    refused_boot refused_run); vm_compute; [reflexivity|discriminate|reflexivity].
Defined.

Lemma undelivered_boot : main_connect (new_link undelivering) = Ok (true, booted undelivering).
Proof. apply booted_ok. vm_compute. reflexivity. Qed.
Lemma undelivered_run :
  lk_run (booted undelivering) undelivered_acts (link_after undelivered_acts (booted undelivering)).
Proof. apply link_after_run. vm_compute. repeat split; discriminate. Qed.

Lemma sync_never_stops_witness :
  exists e, dl syncAlarm_ (link_after undelivered_acts (booted undelivering)) = Some e /\
    e <= now (link_after undelivered_acts (booted undelivering)) + ATLAS_SYNC_TIMER_INTERVAL_MS.
Proof.
  apply (sync_never_stops undelivering (booted undelivering) undelivered_acts []
    (link_after undelivered_acts (booted undelivering)) _ undelivered_boot undelivered_run); [vm_compute; discriminate|constructor].
Defined.
