(* ===== verification/GwBroker.v ===== *)
(** The broker plug-in as Mosquitto runs it: the entry point that inspects a packet
    (mosquitto_plugin/AtlasMosquittoPlugin.cpp) and everything that may happen to
    its filter (GwFilter.v): packets, the timer of the window, data from the gateway
    and the loss of that connection, in any order. *)
From S2P Require Import Prelude Defs CLib Command GwDefs GwBatch GwXfer GwFilter.
Import GwType.

(** The two results of an inspection. *)
Inductive mosq_err : Set := MOSQ_ERR_SUCCESS | MOSQ_ERR_PKT_DROP.

(** The user names, the topic and the payload are carried by the packet and read by
    no filter. *)
Definition mosquitto_auth_pkt_inspect (src_client_id dst_client_id : option (list byte)) (qos payload_len : Z) (f : AtlasFilter)
  : res (mosq_err * AtlasFilter) :=
  let pkt := mk_packet src_client_id dst_client_id (u8 qos) (u16 payload_len) in
  '(pass, f) ← filter_packet pkt f;
  Ok (if (pass : bool) then MOSQ_ERR_SUCCESS else MOSQ_ERR_PKT_DROP, f).

(** The constructor; the bytes of the reassembly buffer are whatever they are. *)
Definition new_AtlasFilter (data : list byte) : AtlasFilter :=
  mk_filter ∅ ∅ (xfer_init (mk_xfer data ATLAS_CMD_XFER_HEADER_STATE 0 0)) [].

(** * Runs *)

Inductive plugin_act :=
  | PInspect (src_client_id dst_client_id : option (list byte)) (qos payload_len : Z)
  | PTimer
  | PRead (chunk : list byte)       (* [async_read_some] gives some bytes, no more than asked for *)
  | PError.                         (* or fails *)

Section Broker.
Context `{HostEndian}.

Definition plugin_enabled (x : plugin_act) (f : AtlasFilter) : Prop :=
  match x with
  | PRead chunk => 0 < blen chunk <= cmdRemainingLen_ (cmdXfer_ f)
  | _ => True
  end.

Definition plugin_perform (x : plugin_act) (f : AtlasFilter) : res AtlasFilter :=
  match x with
  | PInspect src dst qos len => '(_, f) ← mosquitto_auth_pkt_inspect src dst qos len f; Ok f
  | PTimer => Ok (timerHandler f)
  | PRead chunk => filter_handleRead (Some chunk) f
  | PError => filter_handleRead None f
  end.

Inductive plugin_run : AtlasFilter -> list plugin_act -> AtlasFilter -> Prop :=
  | plugin_nil f : plugin_run f [] f
  | plugin_snoc f xs f1 x f2 :
      plugin_run f xs f1 -> plugin_enabled x f1 -> plugin_perform x f1 = Ok f2 -> plugin_run f (xs ++ [x]) f2.

(** * Types *)

Definition policer_typed (k : list byte) (p : AtlasPacketPolicer) : Prop :=
  k <> [] /\ is_u32 (windowPpm_ p) /\ is_u8 (maxQos_ p) /\ is_u16 (ppm_ p) /\ is_u16 (maxPayloadLen_ p) /\
  is_u32 (statPktDrop_ p) /\ is_u32 (statPktPass_ p).

Definition stats_typed (k : list byte) (s : AtlasPacketStats) : Prop :=
  k <> [] /\ is_u32 (passedPkts_ s) /\ is_u32 (droppedPkts_ s).

(** Something is always left to read, and no more than one command. *)
Definition xfer_typed (x : AtlasCommandXfer) : Prop :=
  blen (data_ x) = ATLAS_PUB_SUB_AGENT_BUF_LEN /\ 0 <= cmdLen_ x /\ 0 < cmdRemainingLen_ x /\
  match cmdXferState_ x with
  | ATLAS_CMD_XFER_HEADER_STATE => cmdLen_ x + cmdRemainingLen_ x = ATLAS_CMD_HEADER_LEN
  | ATLAS_CMD_XFER_PAYLOAD_STATE => cmdLen_ x + cmdRemainingLen_ x < ATLAS_CMD_HEADER_LEN + 65536
  end.

Record filter_typed (f : AtlasFilter) : Prop := {
  ft_rules : map_Forall policer_typed (rules_ f);
  ft_stats : map_Forall stats_typed (txPktStats_ f);
  ft_counted : dom (rules_ f) ⊆ dom (txPktStats_ f);
  ft_xfer : xfer_typed (cmdXfer_ f);
}.

(** ** Every operation keeps them *)

Lemma new_typed data : blen data = ATLAS_PUB_SUB_AGENT_BUF_LEN -> filter_typed (new_AtlasFilter data).
Proof.
  intros Hd. split; [apply map_Forall_empty..|cbn; set_solver|]. split; [done|]. unfold ATLAS_CMD_HEADER_LEN. cbn. split; [done|]. split; [done|]. done.
Qed.

Lemma policer_filter_typed k pkt p : policer_typed k p -> policer_typed k (policer_filter pkt p).2.
Proof.
  intros (Hk & Hw & Hq & Hp & Hl & Hd & Hs). unfold policer_filter.
  repeat case_decide; cbn; split_and!; try done; apply u32_range.
Qed.

Lemma stats_inc_typed k (b : bool) s : stats_typed k s -> stats_typed k (if b then incPassedPkts s else incDroppedPkts s).
Proof. intros (Hk & Hp & Hd). destruct b; cbn; split_and!; try done; apply u32_range. Qed.

Lemma filter_packet_typed pkt f v f' : filter_typed f -> filter_packet pkt f = Ok (v, f') -> filter_typed f'.
Proof.
  intros Hf Hrun. unfold filter_packet in Hrun. destruct (dstClientId_ pkt) as [dst|]; [|done].
  set (r := match rules_ f !! dst with None => _ | Some p => _ end) in Hrun.
  assert (Hr : map_Forall policer_typed r.2 /\ dom r.2 = dom (rules_ f)).
  { unfold r. destruct (rules_ f !! dst) as [p|] eqn:Hp; [|by split; [apply Hf|]].
    pose proof (policer_filter_typed dst pkt p (ft_rules _ Hf _ _ Hp)) as Ht.
    destruct (policer_filter pkt p) as [w p']. cbn in Ht |- *. split; [by apply map_Forall_insert_2; [|apply Hf]|].
    rewrite dom_insert_lookup_L; [done|by eauto]. }
  destruct r as [w rules]. cbn in Hr. injection Hrun as _ <-. destruct Hr as [Hr Hdom].
  split; cbn; [done| | |apply Hf].
  - destruct (srcClientId_ pkt) as [src|]; [|apply Hf]. destruct (txPktStats_ f !! src) as [s|] eqn:Hs; [|apply Hf].
    apply map_Forall_insert_2; [|apply Hf]. apply stats_inc_typed. by apply (ft_stats _ Hf).
  - rewrite Hdom. destruct (srcClientId_ pkt) as [src|]; [|apply Hf].
    destruct (txPktStats_ f !! src) as [s|] eqn:Hs; [|apply Hf]. rewrite dom_insert_lookup_L; [apply Hf|by eauto].
Qed.

Lemma timer_typed f : filter_typed f -> filter_typed (timerHandler f).
Proof.
  intros Hf. split; cbn; [|apply Hf| |apply Hf].
  - apply map_Forall_fmap. intros k p Hp. destruct (ft_rules _ Hf _ _ Hp) as (?&?&?&?&?&?&?). by split_and!.
  - rewrite dom_fmap_L. apply Hf.
Qed.

(** A rule or a counter that is put in for a client. *)
Lemma put_typed k p s f :
  policer_typed k p -> stats_typed k s -> filter_typed f ->
  filter_typed (set_tx (<[k := s]> (txPktStats_ f)) (set_rules (<[k := p]> (rules_ f)) f)).
Proof.
  intros Hp Hs Hf. split; cbn; [by apply map_Forall_insert_2; [|apply Hf]..| |apply Hf].
  pose proof (ft_counted _ Hf). rewrite !dom_insert_L. set_solver.
Qed.

Lemma write_typed bytes f : filter_typed f -> filter_typed (filter_write bytes f).
Proof. intros []. by split. Qed.

Lemma new_stats_typed k : k <> [] -> stats_typed k new_stats.
Proof. intros Hk. unfold stats_typed, is_u32. cbn. split; [done|]. lia. Qed.

Lemma install_typed buf len f f' : filter_typed f -> installFirewallRule buf len f = Ok f' -> filter_typed f'.
Proof.
  intros Hf Hrun. unfold installFirewallRule in Hrun. apply res_bind_inv in Hrun as (cmds & _ & Hrun).
  apply res_bind_inv in Hrun as (a & _ & Hrun). case_decide as Hk; [by injection Hrun as <-|].
  destruct (ra_maxQos a) as [q|], (ra_ppm a) as [r|], (ra_maxPayloadLen a) as [l|]; injection Hrun as <-; try done.
  apply put_typed; [|by apply new_stats_typed|done]. split_and!; cbn; try done; auto using u8_range, u16_range.
Qed.

Lemma remove_typed buf len f f' : filter_typed f -> removeFirewallRule buf len f = Ok f' -> filter_typed f'.
Proof.
  intros Hf Hrun. unfold removeFirewallRule in Hrun. apply res_bind_inv in Hrun as (cmds & _ & Hrun).
  apply res_bind_inv in Hrun as (k & _ & Hrun). case_decide as Hk; injection Hrun as <-; [done|].
  split; cbn; [by apply map_Forall_delete, Hf..| |apply Hf]. pose proof (ft_counted _ Hf). rewrite !dom_delete_L. set_solver.
Qed.

Lemma write_stats_typed k a b c d f f' : filter_typed f -> writeFirewallStats k a b c d f = Ok f' -> filter_typed f'.
Proof.
  intros Hf Hrun. unfold writeFirewallStats in Hrun. apply res_bind_inv in Hrun as ([inner ilen] & _ & Hrun).
  apply res_bind_inv in Hrun as ([outer olen] & _ & Hrun). apply res_bind_inv in Hrun as (bytes & _ & Hrun).
  injection Hrun as <-. by apply write_typed.
Qed.

Lemma get_stats_typed buf len f f' : filter_typed f -> getFirewallRuleStats buf len f = Ok f' -> filter_typed f'.
Proof.
  intros Hf Hrun. unfold getFirewallRuleStats in Hrun. apply res_bind_inv in Hrun as (cmds & _ & Hrun).
  apply res_bind_inv in Hrun as (k & _ & Hrun). case_decide as Hk; [by injection Hrun as <-|].
  destruct (rules_ f !! k) as [p|] eqn:Hp; [|done]. revert Hrun. apply write_stats_typed.
  destruct (ft_rules _ Hf _ _ Hp) as (?&?&?&?&?&_). apply put_typed; [|by apply new_stats_typed|done]. by split_and!.
Qed.

Lemma for_each_keeps {A} (P : A -> Prop) (body : A -> AtlasCommand -> res A) cmds a a' :
  (forall a c a', P a -> body a c = Ok a' -> P a') -> P a -> for_each body cmds a = Ok a' -> P a'.
Proof.
  intros Hbody. revert a. induction cmds as [|c cmds IH]; intros a Ha Hrun; [by injection Hrun as <-|].
  cbn in Hrun. apply res_bind_inv in Hrun as (a1 & H1 & Hrun). eauto.
Qed.

Lemma process_typed buf len f f' : filter_typed f -> filter_processCommand buf len f = Ok f' -> filter_typed f'.
Proof.
  intros Hf Hrun. unfold filter_processCommand in Hrun. apply res_bind_inv in Hrun as (cmds & _ & Hrun).
  revert Hf Hrun. apply for_each_keeps. intros g c g' Hg. unfold process_body.
  repeat case_decide; [by apply install_typed|by apply remove_typed|by apply get_stats_typed|by intros [= <-]].
Qed.

Lemma init_typed x : blen (data_ x) = ATLAS_PUB_SUB_AGENT_BUF_LEN -> xfer_typed (xfer_init x).
Proof. intros Hx. by split; [|split; [|split]]. Qed.

Lemma store_length buf off bs buf' : mem_store buf off bs = Ok buf' -> blen buf' = blen buf.
Proof.
  unfold mem_store. destruct bs as [|b bs]; [by intros [= <-]|]. case_decide as Hin; intros [= <-].
  unfold blen in *. rewrite length_app, length_take. cbn [app length] in *. rewrite length_app, length_drop. lia.
Qed.

Lemma handleRead_typed chunk x cmd x' :
  xfer_typed x -> 0 < blen chunk <= cmdRemainingLen_ x -> handleRead chunk x = Ok (cmd, x') -> xfer_typed x'.
Proof.
  intros (Hlen & H0 & Hrem & Hst) Hc Hrun. unfold handleRead in Hrun. apply res_bind_inv in Hrun as (data & Hs & Hrun).
  apply store_length in Hs. apply res_bind_inv in Hrun as (x1 & Ha & Hrun).
  assert (Hx1 : blen (data_ x1) = ATLAS_PUB_SUB_AGENT_BUF_LEN /\ (isCmdAvailable x1 = false -> xfer_typed x1)).
  { unfold handleArrivedData in Ha. cbn in Ha.
    assert (Hsz : forall z, 0 <= z < 131072 -> size_t z = z) by (intros z Hz; unfold size_t; apply Z.mod_small; lia).
    destruct (cmdXferState_ x).
    - unfold ATLAS_CMD_HEADER_LEN in *. rewrite !Hsz in Ha by lia. case_decide as Hz.
      + apply res_bind_inv in Ha as (len & _ & Ha). injection Ha as <-. cbn. split; [congruence|]. unfold isCmdAvailable.
        intros Hav%bool_decide_eq_false. cbn in Hav. pose proof (ld16_range (be16 (ld16 len)) : is_u16 (ntohs (ld16 len))) as Hr. unfold is_u16 in Hr.
        assert (ntohs (ld16 len) <> 0) by tauto. unfold xfer_typed, ATLAS_CMD_HEADER_LEN. cbn. split; [congruence|]. lia.
      + injection Ha as <-. cbn. split; [congruence|]. intros _. unfold xfer_typed, ATLAS_CMD_HEADER_LEN. cbn. split; [congruence|]. lia.
    - unfold ATLAS_CMD_HEADER_LEN in *. rewrite !Hsz in Ha by lia. injection Ha as <-. cbn. split; [congruence|]. unfold isCmdAvailable.
      intros Hav%bool_decide_eq_false. cbn in Hav.
      assert (cmdRemainingLen_ x - blen chunk <> 0) by tauto. unfold xfer_typed, ATLAS_CMD_HEADER_LEN. cbn. split; [congruence|]. lia. }
  destruct Hx1 as [Hd Hx1]. destruct (isCmdAvailable x1).
  - apply res_bind_inv in Hrun as (c & _ & Hrun). injection Hrun as _ <-. by apply init_typed.
  - injection Hrun as _ <-. by apply Hx1.
Qed.

Lemma connect_typed f f' : filter_typed f -> gatewayConnect f = Ok f' -> filter_typed f'.
Proof.
  intros Hf Hrun. unfold gatewayConnect in Hrun. apply res_bind_inv in Hrun as ([buf len] & _ & Hrun).
  apply res_bind_inv in Hrun as (bytes & _ & Hrun). injection Hrun as <-. apply write_typed.
  split; cbn; [apply map_Forall_empty|apply Hf|set_solver|]. by apply init_typed, Hf.
Qed.

Lemma perform_typed x f f' : filter_typed f -> plugin_enabled x f -> plugin_perform x f = Ok f' -> filter_typed f'.
Proof.
  intros Hf He Hrun. destruct x as [src dst qos len| |chunk|]; unfold plugin_perform, filter_handleRead in Hrun.
  - apply res_bind_inv in Hrun as ([r f1] & H1 & Hrun). injection Hrun as <-. unfold mosquitto_auth_pkt_inspect in H1.
    apply res_bind_inv in H1 as ([v f2] & H2 & H1). injection H1 as _ <-. by eapply filter_packet_typed.
  - injection Hrun as <-. by apply timer_typed.
  - unfold plugin_enabled in He. apply res_bind_inv in Hrun as ([cmd x] & Hr & Hrun). apply (handleRead_typed _ _ _ _ (ft_xfer _ Hf) He) in Hr.
    assert (Hx : filter_typed (set_xfer x f)) by (split; [apply Hf..|exact Hr]).
    destruct cmd as [cmd|]; [by eapply process_typed|by injection Hrun as <-].
  - by eapply connect_typed.
Qed.

Lemma run_typed f xs f' : filter_typed f -> plugin_run f xs f' -> filter_typed f'.
Proof.
  intros Hf Hrun. induction Hrun as [|f xs f1 x f2 Hrun IH He Hp]; [done|]. exact (perform_typed _ _ _ (IH Hf) He Hp).
Qed.

(** ** Theorems *)

(** What the rule of a client says of a packet. *)
Definition refused (qos payload_len : Z) (p : AtlasPacketPolicer) : Prop :=
  maxQos_ p < qos \/ maxPayloadLen_ p < payload_len \/ ppm_ p < u32 (windowPpm_ p + 1).

Lemma policer_verdict pkt p : (policer_filter pkt p).1 = false <-> refused (qos_ pkt) (payloadLen_ pkt) p.
Proof. unfold policer_filter, refused. repeat case_decide; cbn; intuition (lia || congruence). Qed.

(** C18: The plug-in's state stays well-typed, and packets are always judged. Whatever
    packets, timers, bytes of the gateway and losses of the connection a plug-in has
    gone through, every number it holds is in the range of its C type, rules and
    counters are kept for non-empty client ids only, a client with a rule has
    counters, and the next read of the connection asks for at least one byte; and an
    inspection of a packet with a destination returns, and drops the packet exactly
    when its destination has a rule and the packet exceeds the QoS, the length or the
    rate of this rule. *)
Theorem plugin_typed (data : list byte) (xs : list plugin_act) (f : AtlasFilter) :
  blen data = ATLAS_PUB_SUB_AGENT_BUF_LEN -> plugin_run (new_AtlasFilter data) xs f ->
  filter_typed f /\
  forall src dst qos len, is_u8 qos -> is_u16 len ->
    exists r f', mosquitto_auth_pkt_inspect src (Some dst) qos len f = Ok (r, f') /\ filter_typed f' /\
      (r = MOSQ_ERR_PKT_DROP <-> exists p, rules_ f !! dst = Some p /\ refused qos len p).
Proof.
  intros Hd Hrun. assert (Hf : filter_typed f) by (eapply run_typed; [by apply new_typed|done]). split; [done|].
  intros src dst qos len Hq Hl. unfold mosquitto_auth_pkt_inspect.
  replace (u8 qos) with qos by (unfold u8, is_u8 in *; lia). replace (u16 len) with len by (unfold u16, is_u16 in *; lia).
  destruct (filter_packet _ f) as [[v f']|] eqn:Hp; [|unfold filter_packet in Hp; cbn in Hp; by destruct (match rules_ f !! dst with None => _ | Some _ => _ end)].
  eexists _, _. split; [by rewrite res_bind_ok|]. split; [by eapply filter_packet_typed|].
  unfold filter_packet in Hp. cbn [dstClientId_] in Hp. destruct (rules_ f !! dst) as [p|] eqn:Hr.
  - pose proof (policer_verdict (mk_packet src (Some dst) qos len) p) as Hv. destruct (policer_filter _ p) as [w p'].
    injection Hp as <- <-. cbn in Hv. destruct w; split; try done; intros Hx.
    + destruct Hx as (q & [= <-] & Hx). by apply Hv in Hx.
    + exists p. split; [done|]. by apply Hv.
  - injection Hp as <- <-. split; [done|]. by intros (p & ? & _).
Qed.
End Broker.

(** * A run *)

Section Sample.
#[local] Instance sample_endian : HostEndian := true.

(** A gateway that installs a rule of one packet per minute for the client "a", by a
    message of one command in two pieces. *)
Definition sample_install : list byte :=
  encode [(code ATLAS_CMD_PUB_SUB_INSTALL_FIREWALL_RULE,
    encode [(code ATLAS_CMD_PUB_SUB_CLIENT_ID, cstr "a"); (code ATLAS_CMD_PUB_SUB_MAX_QOS, be16 1);
            (code ATLAS_CMD_PUB_SUB_PPM, be16 1); (code ATLAS_CMD_PUB_SUB_MAX_PAYLOAD_LEN, be16 10)])].

Definition sample_packet : plugin_act := PInspect (Some (cstr "b")) (Some (cstr "a")) 1 5.
Definition sample_plugin_acts : list plugin_act :=
  [PError; PRead (take 4 sample_install); PRead (drop 4 sample_install); sample_packet; PTimer; sample_packet].

Fixpoint plugin_all (xs : list plugin_act) (f : AtlasFilter) : res AtlasFilter :=
  match xs with
  | [] => Ok f
  | x :: xs => f ← plugin_perform x f; plugin_all xs f
  end.
Fixpoint all_enabled (xs : list plugin_act) (f : AtlasFilter) : Prop :=
  match xs with
  | [] => True
  | x :: xs => plugin_enabled x f /\ match plugin_perform x f with Ok f => all_enabled xs f | Fault _ => False end
  end.

Lemma plugin_trans f xs f1 ys f2 : plugin_run f xs f1 -> plugin_run f1 ys f2 -> plugin_run f (xs ++ ys) f2.
Proof.
  intros H1 H2. induction H2 as [|f1 ys g x g' Hr IH He Hp]; [by rewrite app_nil_r|].
  rewrite app_assoc. by eapply plugin_snoc; [apply IH| |].
Qed.

Lemma plugin_all_run xs f f' : all_enabled xs f -> plugin_all xs f = Ok f' -> plugin_run f xs f'.
Proof.
  revert f. induction xs as [|x xs IH]; intros f; cbn [plugin_all all_enabled]; [intros _ [= <-]; constructor|].
  intros [He Hrest] Hr. apply res_bind_inv in Hr as (f1 & Hp & Hr). rewrite Hp in Hrest.
  apply (plugin_trans f [x] f1 xs f'); [|by apply IH]. apply (plugin_snoc f [] f x f1); [constructor|done|done].
Qed.

Definition sample_buffer : list byte := replicate 8192 x00.
Definition sample_plugin : AtlasFilter :=
  match plugin_all sample_plugin_acts (new_AtlasFilter sample_buffer) with Ok f => f | Fault _ => new_AtlasFilter [] end.

Lemma sample_plugin_ok :
  match plugin_all sample_plugin_acts (new_AtlasFilter sample_buffer) with Ok _ => True | Fault _ => False end ->
  plugin_all sample_plugin_acts (new_AtlasFilter sample_buffer) = Ok sample_plugin.
Proof. unfold sample_plugin. by destruct (plugin_all _ _). Qed.

Lemma sample_plugin_run : plugin_run (new_AtlasFilter sample_buffer) sample_plugin_acts sample_plugin.
Proof. apply plugin_all_run; [|apply sample_plugin_ok]; vm_compute; repeat split; discriminate. Qed.

(** The second packet of the window is dropped. *)
Lemma plugin_typed_witness :
  filter_typed sample_plugin /\
  exists r f', mosquitto_auth_pkt_inspect (Some (cstr "b")) (Some (cstr "a")) 1 5 sample_plugin = Ok (r, f') /\ r = MOSQ_ERR_PKT_DROP.
Proof.
  destruct (plugin_typed sample_buffer sample_plugin_acts sample_plugin) as [Hf H]; [vm_compute; reflexivity|exact sample_plugin_run|].
  split; [exact Hf|]. destruct (H (Some (cstr "b")) (cstr "a") 1 5) as (r & f' & Hi & _ & Hd); [split; vm_compute; congruence..|].
  exists r, f'. split; [exact Hi|]. apply Hd. destruct (rules_ sample_plugin !! cstr "a") as [p|] eqn:Hp; [|vm_compute in Hp; discriminate].
  exists p. split; [reflexivity|]. vm_compute in Hp. injection Hp as <-. right; right. vm_compute. reflexivity.
Defined.
End Sample.
