(* ===== verification/GwIdentity.v ===== *)
(** The gateway's identity and pre-shared key (identity/AtlasIdentity.cpp): read from
    two files, or generated and stored there the first time. The key is also the
    prefix of the gateway's MQTT topics.

    The file streams, the permissions, libuuid and OpenSSL are parameters
    ([IdentityEnv]); [FileStreams] says what they do to the files. *)
From S2P Require Import Prelude Defs CLib.

Definition ATLAS_IDENTITY_FILE : string := "atlas_gateway.identity".
Definition ATLAS_PSK_FILE : string := "atlas_gateway.psk".
Definition ATLAS_IDENTITY_LEN : Z := 64.
Definition ATLAS_PSK_LEN : Z := 64.

Class IdentityEnv := {
  fext : Type;
  (** an input stream: what the file holds, [None] when it cannot be opened *)
  stream_read : string -> fext -> option (list byte) * fext;
  (** an output stream that truncates; [false] when it is not open *)
  stream_create : string -> fext -> bool * fext;
  stream_write : string -> list byte -> fext -> fext;
  (** [fs::permissions]; [false] when it throws *)
  set_permissions : string -> fext -> bool * fext;
  remove_file : string -> fext -> fext;
  (** [uuid_generate] and [uuid_unparse_lower] *)
  uuid_text : fext -> list byte * fext;
  (** [RAND_bytes]: [None] when it does not return 1 *)
  rand_bytes : Z -> fext -> option (list byte) * fext;
  BIO_base64 : list byte -> list byte;
}.

(** '+' and '/' have a role in MQTT topics. *)
Definition sanitize (b : byte) : byte := if decide (b = x2b \/ b = x2f) then x41 else b.

Section GwIdentity.
Context `{E : IdentityEnv}.

Record AtlasIdentity := mk_identity {
  identity_ : list byte;
  psk_ : list byte;
  id_ext : fext;
}.

Definition set_id_ext (x : fext) (s : AtlasIdentity) : AtlasIdentity := mk_identity (identity_ s) (psk_ s) x.

(** [fd.open(file, ... | trunc)] and [fs::permissions] *)
Definition open_new (file : string) (s : AtlasIdentity) : res (bool * AtlasIdentity) :=
  let '(is_open, x) := stream_create file (id_ext s) in
  if negb is_open then Ok (false, set_id_ext x s) else
  let '(set, x) := set_permissions file x in
  if (set : bool) then Ok (true, set_id_ext x s) else Fault Uncaught.

Definition generateIdentity (s : AtlasIdentity) : res (bool * AtlasIdentity) :=
  '(is_open, s) ← open_new ATLAS_IDENTITY_FILE s;
  if negb is_open then Ok (false, s) else
  (* Generate identity *)
  let '(uuid, x) := uuid_text (id_ext s) in
  let identity := until_nul uuid in
  Ok (true, mk_identity identity (psk_ s) (stream_write ATLAS_IDENTITY_FILE identity x)).

(** The encoding, cut at the size of the output and sanitized. *)
Definition to_base64 (in_ : list byte) (out_len : Z) : list byte :=
  sanitize <$> take (Z.to_nat out_len) (BIO_base64 in_).

Definition generatePsk (s : AtlasIdentity) : res (bool * AtlasIdentity) :=
  '(is_open, s) ← open_new ATLAS_PSK_FILE s;
  if negb is_open then Ok (false, s) else
  (* Generate PSK *)
  let '(rand, x) := rand_bytes (ATLAS_PSK_LEN / 2) (id_ext s) in
  match rand with
  | None => Ok (false, set_id_ext x s)
  | Some bytes =>
      let psk := until_nul (to_base64 bytes ATLAS_PSK_LEN) in
      Ok (true, mk_identity (identity_ s) psk (stream_write ATLAS_PSK_FILE psk x))
  end.

(** The label ERR. *)
Definition identity_ERR (s : AtlasIdentity) : res (bool * AtlasIdentity) :=
  Ok (false, set_id_ext (remove_file ATLAS_PSK_FILE (remove_file ATLAS_IDENTITY_FILE (id_ext s))) s).

(** [int len = fd.tellg()], after the whole file was read, is its size. *)
Definition initIdentity (s : AtlasIdentity) : res (bool * AtlasIdentity) :=
  (* Get identity *)
  let '(contents, x) := stream_read ATLAS_IDENTITY_FILE (id_ext s) in
  let s := set_id_ext x s in
  '(ok, s) ← match contents with
    | None => generateIdentity s
    | Some bytes => Ok (bool_decide (0 < i32 (blen bytes)), mk_identity bytes (psk_ s) (id_ext s))
    end;
  if negb ok then identity_ERR s else
  (* Get PSK *)
  let '(contents, x) := stream_read ATLAS_PSK_FILE (id_ext s) in
  let s := set_id_ext x s in
  '(ok, s) ← match contents with
    | None => generatePsk s
    | Some bytes => Ok (bool_decide (0 < i32 (blen bytes)), mk_identity (identity_ s) bytes (id_ext s))
    end;
  if negb ok then identity_ERR s else Ok (true, s).
End GwIdentity.

(** * Theorems *)

(** What the files hold, and how the calls act on them. A write may fail, at its start or
    after some bytes, and nobody is told: the program does not look at the state of the
    stream. A UUID is a text; the Base64 encoding of 32 bytes is one of 44 characters. *)
Class FileStreams (E : IdentityEnv) := {
  stored_files : fext -> gmap string (list byte);
  stream_read_files p x :
    (stream_read p x).1 = stored_files x !! p /\ stored_files (stream_read p x).2 = stored_files x;
  stream_create_files p x :
    stored_files (stream_create p x).2 = if (stream_create p x).1 then <[p := []]> (stored_files x) else stored_files x;
  stream_write_files p d x :
    exists w, w `prefix_of` d /\ stored_files (stream_write p d x) = <[p := default [] (stored_files x !! p) ++ w]> (stored_files x);
  set_permissions_files p x : stored_files (set_permissions p x).2 = stored_files x;
  uuid_text_files x : stored_files (uuid_text x).2 = stored_files x;
  uuid_text_size x : 0 < blen (until_nul (uuid_text x).1) <= ATLAS_IDENTITY_LEN;
  rand_bytes_files n x : stored_files (rand_bytes n x).2 = stored_files x;
  rand_bytes_size n x bytes : 0 <= n -> (rand_bytes n x).1 = Some bytes -> blen bytes = n;
  base64_size bs : blen bs = 32 -> blen (BIO_base64 bs) = 44 /\ x00 ∉ BIO_base64 bs;
}.

Section GwIdentityFacts.
Context `{E : IdentityEnv} `{!FileStreams E}.
Implicit Types s : AtlasIdentity.

Definition ids s : list byte * list byte := (identity_ s, psk_ s).
Definition on_disk s : gmap string (list byte) := stored_files (id_ext s).

(** Every write reaches the file: no full disk, no error of the device. *)
Definition writes_complete : Prop := forall p d x,
  stored_files (stream_write p d x) = <[p := default [] (stored_files x !! p) ++ d]> (stored_files x).

(** The file [p] holds [w] of the [v] the process uses; a start can read it unless it is empty. *)
Definition holds s (p : string) (v w : list byte) : Prop :=
  on_disk s !! p = Some w /\ w `prefix_of` v /\ v <> [] /\ (w <> [] -> 0 < i32 (blen w)) /\ (writes_complete -> w = v).

Lemma i32_small z : 0 < z <= 64 -> 0 < i32 z.
Proof. unfold i32. lia. Qed.

Lemma open_new_ok p s s' :
  open_new p s = Ok (true, s') -> ids s' = ids s /\ on_disk s' = <[p := []]> (on_disk s).
Proof.
  unfold open_new, on_disk. pose proof (stream_create_files p (id_ext s)) as Hc.
  destruct (stream_create p (id_ext s)) as [[] x]; [|done]. cbn in Hc |- *. pose proof (set_permissions_files p x) as Hp.
  destruct (set_permissions p x) as [[] x']; [|done]. intros [= <-]. cbn in Hp |- *. by rewrite Hp, Hc.
Qed.

(** A new file of at most 64 bytes. *)
Lemma write_new p d x s :
  stored_files x !! p = Some [] -> 0 < blen d <= 64 -> id_ext s = stream_write p d x ->
  (exists w, holds s p d w) /\ forall q, q <> p -> on_disk s !! q = stored_files x !! q.
Proof.
  intros Hnew Hd Hs. destruct (stream_write_files p d x) as (w & Hw & Hx). unfold holds, on_disk. rewrite Hs, Hx, Hnew. split.
  - exists w. rewrite lookup_insert_eq. split; [done|]. split; [done|]. split; [intros ->; by destruct Hd as [Hd%Z.lt_irrefl _]|]. split.
    + intros Hne. apply i32_small. apply prefix_length in Hw. unfold blen in *. destruct w; [done|]. cbn in *. lia.
    + intros Hall. pose proof (Hall p d x) as Heq. rewrite Hx, Hnew in Heq. apply (f_equal (fun m => m !! p)) in Heq.
      rewrite !lookup_insert_eq in Heq. by injection Heq.
  - intros q Hq. by rewrite lookup_insert_ne.
Qed.

Lemma generateIdentity_ok s s' :
  generateIdentity s = Ok (true, s') ->
  (exists i, holds s' ATLAS_IDENTITY_FILE (identity_ s') i) /\ psk_ s' = psk_ s /\
  forall p, p <> ATLAS_IDENTITY_FILE -> on_disk s' !! p = on_disk s !! p.
Proof.
  unfold generateIdentity. intros Hrun. apply res_bind_inv in Hrun as ([[] s1] & Ho & Hrun); [|done].
  apply open_new_ok in Ho as [[= Hi Hk] Hd]. cbn [negb] in Hrun. pose proof (uuid_text_files (id_ext s1)) as Hf.
  pose proof (uuid_text_size (id_ext s1)) as Hs. destruct (uuid_text (id_ext s1)) as [uuid x]. injection Hrun as <-.
  cbn in Hf, Hs. unfold on_disk in Hd.
  destruct (write_new ATLAS_IDENTITY_FILE (until_nul uuid) x (mk_identity (until_nul uuid) (psk_ s1) (stream_write ATLAS_IDENTITY_FILE (until_nul uuid) x)))
    as [Hw Ho]; [by rewrite Hf, Hd, lookup_insert_eq|done|done|].
  split; [exact Hw|]. split; [done|]. intros p Hp. rewrite Ho by done. by rewrite Hf, Hd, lookup_insert_ne.
Qed.

Definition topic_safe (b : byte) : Prop := b <> x2b /\ b <> x2f.

Lemma sanitize_safe b : topic_safe (sanitize b).
Proof. unfold sanitize, topic_safe. case_decide; [by split|tauto]. Qed.

Lemma sanitize_nul b : sanitize b = x00 -> b = x00.
Proof. unfold sanitize. case_decide; done. Qed.

Lemma generatePsk_ok s s' :
  generatePsk s = Ok (true, s') ->
  (exists k, holds s' ATLAS_PSK_FILE (psk_ s') k) /\ identity_ s' = identity_ s /\ Forall topic_safe (psk_ s') /\ blen (psk_ s') = 44 /\
  forall p, p <> ATLAS_PSK_FILE -> on_disk s' !! p = on_disk s !! p.
Proof.
  unfold generatePsk. intros Hrun. apply res_bind_inv in Hrun as ([[] s1] & Ho & Hrun); [|done].
  apply open_new_ok in Ho as [[= Hi Hk] Hd]. cbn [negb] in Hrun. pose proof (rand_bytes_files (ATLAS_PSK_LEN / 2) (id_ext s1)) as Hf.
  pose proof (rand_bytes_size (ATLAS_PSK_LEN / 2) (id_ext s1)) as Hs. destruct (rand_bytes _ (id_ext s1)) as [[bytes|] x]; [|done].
  injection Hrun as <-. cbn in Hf, Hs. specialize (Hs bytes ltac:(done) eq_refl). destruct (base64_size bytes Hs) as [Hlen Hnul].
  assert (Ht : to_base64 bytes ATLAS_PSK_LEN = sanitize <$> BIO_base64 bytes).
  { unfold to_base64, ATLAS_PSK_LEN. rewrite take_ge; [done|]. unfold blen in Hlen. lia. }
  assert (Hu : until_nul (to_base64 bytes ATLAS_PSK_LEN) = sanitize <$> BIO_base64 bytes).
  { rewrite Ht. apply until_nul_id. intros (b & Hb%symmetry & Hin)%list_elem_of_fmap. by apply sanitize_nul in Hb as ->. }
  assert (Hb : blen (sanitize <$> BIO_base64 bytes) = 44) by (unfold blen in *; by rewrite length_fmap).
  cbn [identity_ psk_ id_ext]. rewrite Hu. unfold on_disk in Hd.
  set (psk := sanitize <$> BIO_base64 bytes) in *.
  destruct (write_new ATLAS_PSK_FILE psk x (mk_identity (identity_ s1) psk (stream_write ATLAS_PSK_FILE psk x)))
    as [Hw Ho]; [by rewrite Hf, Hd, lookup_insert_eq|lia|done|].
  split; [exact Hw|]. split; [done|]. split; [|split; [done|]].
  - apply Forall_fmap, Forall_forall. intros b _. apply sanitize_safe.
  - intros p Hp. rewrite Ho by done. by rewrite Hf, Hd, lookup_insert_ne.
Qed.

(** The two halves of [initIdentity], once their file was looked for. *)
Lemma read_step p s : exists x, stream_read p (id_ext s) = (on_disk s !! p, x) /\ on_disk (set_id_ext x s) = on_disk s.
Proof.
  destruct (stream_read_files p (id_ext s)) as [H1 H2]. destruct (stream_read p (id_ext s)) as [c x]. cbn in H1, H2.
  exists x. by subst c.
Qed.

(** A file that was found is what the process uses. *)
Lemma holds_found s p v : on_disk s !! p = Some v -> 0 < i32 (blen v) -> holds s p v v.
Proof. intros Hv Hl. do 2 (split; [done|]). split; [intros ->; by apply (Z.lt_irrefl 0)|]. done. Qed.

Lemma holds_same s s' p v w : on_disk s' !! p = on_disk s !! p -> holds s p v w -> holds s' p v w.
Proof. unfold holds. by intros ->. Qed.

(** A successful start leaves both files, with what the process uses or the beginning of
    what it has generated. *)
Lemma init_stored s s' :
  initIdentity s = Ok (true, s') ->
  (exists i, holds s' ATLAS_IDENTITY_FILE (identity_ s') i /\ (is_Some (on_disk s !! ATLAS_IDENTITY_FILE) -> i = identity_ s')) /\
  (exists k, holds s' ATLAS_PSK_FILE (psk_ s') k /\ (is_Some (on_disk s !! ATLAS_PSK_FILE) -> k = psk_ s')) /\
  (on_disk s !! ATLAS_PSK_FILE = None -> Forall topic_safe (psk_ s') /\ blen (psk_ s') = 44).
Proof.
  unfold initIdentity. destruct (read_step ATLAS_IDENTITY_FILE s) as (x & -> & Hx). intros Hrun.
  apply res_bind_inv in Hrun as ([[] s1] & H1 & Hrun); [|done]. cbn [negb] in Hrun.
  assert (Hid : (exists i, holds s1 ATLAS_IDENTITY_FILE (identity_ s1) i /\ (is_Some (on_disk s !! ATLAS_IDENTITY_FILE) -> i = identity_ s1)) /\
    forall p, p <> ATLAS_IDENTITY_FILE -> on_disk s1 !! p = on_disk s !! p).
  { destruct (on_disk s !! ATLAS_IDENTITY_FILE) as [bytes|] eqn:Hb.
    - injection H1 as Hl%bool_decide_eq_true <-. assert (Hsame : forall p, on_disk (mk_identity bytes (psk_ (set_id_ext x s)) (id_ext (set_id_ext x s))) !! p = on_disk s !! p).
      { intros p. by rewrite <- Hx. }
      split; [|done]. exists bytes. split; [|done]. apply holds_found; [by rewrite Hsame|done].
    - apply generateIdentity_ok in H1 as ((i & Hi) & _ & Ho). split; [exists i; split; [done|by intros []]|]. intros p Hp. by rewrite Ho, Hx. }
  destruct Hid as [(i & Hi & Hfound) Ho1]. destruct (read_step ATLAS_PSK_FILE s1) as (y & Hr & Hy). rewrite Hr in Hrun.
  apply res_bind_inv in Hrun as ([[] s2] & H2 & Hrun); [|done]. cbn [negb] in Hrun. injection Hrun as <-.
  rewrite <- (Ho1 ATLAS_PSK_FILE) by done. destruct (on_disk s1 !! ATLAS_PSK_FILE) as [bytes|] eqn:Hb.
  - injection H2 as Hl%bool_decide_eq_true <-.
    assert (Hsame : forall p, on_disk (mk_identity (identity_ (set_id_ext y s1)) bytes (id_ext (set_id_ext y s1))) !! p = on_disk s1 !! p).
    { intros p. by rewrite <- Hy. }
    split; [exists i; split; [by eapply holds_same; [apply Hsame|]|done]|]. split; [|done]. exists bytes. split; [|done].
    apply holds_found; [by rewrite Hsame|done].
  - apply generatePsk_ok in H2 as ((k & Hk) & Hids & Hsafe & H44 & Ho2). cbn in Hids. rewrite Hids.
    split; [exists i; split; [eapply holds_same; [|exact Hi]; by rewrite Ho2, Hy|done]|].
    split; [exists k; split; [done|by intros []]|done].
Qed.

(** A start with both files in place reads them; when one of them is empty it fails and
    removes both. *)
Definition removes_both s s' : Prop :=
  exists x, stored_files x = on_disk s /\ id_ext s' = remove_file ATLAS_PSK_FILE (remove_file ATLAS_IDENTITY_FILE x).

Lemma init_reads s i k :
  on_disk s !! ATLAS_IDENTITY_FILE = Some i -> (i <> [] -> 0 < i32 (blen i)) ->
  on_disk s !! ATLAS_PSK_FILE = Some k -> (k <> [] -> 0 < i32 (blen k)) ->
  exists s', if decide (i = [] \/ k = []) then initIdentity s = Ok (false, s') /\ removes_both s s'
    else initIdentity s = Ok (true, s') /\ ids s' = (i, k) /\ on_disk s' = on_disk s.
Proof.
  intros Hi Hli Hk Hlk. unfold initIdentity. destruct (read_step ATLAS_IDENTITY_FILE s) as (x & -> & Hx). rewrite Hi, res_bind_ok.
  destruct (decide (i = [])) as [->|Hni].
  { eexists. rewrite decide_True by auto. split; [reflexivity|]. by exists x. }
  rewrite bool_decide_true by auto. cbn [negb psk_ id_ext set_id_ext].
  set (s1 := mk_identity i (psk_ s) x). assert (H1 : on_disk s1 = on_disk s) by exact Hx.
  destruct (read_step ATLAS_PSK_FILE s1) as (y & Hr & Hy). change (stream_read ATLAS_PSK_FILE x) with (stream_read ATLAS_PSK_FILE (id_ext s1)).
  rewrite Hr, H1, Hk, res_bind_ok. destruct (decide (k = [])) as [->|Hnk].
  { eexists. rewrite decide_True by auto. split; [reflexivity|]. exists y. split; [|done]. by rewrite <- H1, <- Hy. }
  rewrite bool_decide_true by auto. cbn [negb]. eexists. rewrite decide_False by tauto. split; [done|]. split; [done|]. by rewrite <- H1, <- Hy.
Qed.

(** C35: The gateway keeps its identity and its key, as long as what it writes reaches the
    files. Whatever the first start found (both files, one of them or none), if it
    succeeded and every write was complete ([writes_complete]) then a start on the same
    files succeeds too, has the same identity and key, and leaves the files as they are.
    In general, since the program does not look whether a write has failed, a file that
    was found holds what the process uses and one that was generated some beginning [i]
    or [k] of it: the next start uses these beginnings, and if one of them is empty, as
    on a full disk, it fails and removes both files, a good one too. A key that was
    generated has 44 characters, none of them '+' or '/', which have a role in MQTT
    topics. *)
Theorem gateway_identity_persists s s1 s0 :
  initIdentity s = Ok (true, s1) -> on_disk s0 = on_disk s1 ->
  (writes_complete -> exists s2, initIdentity s0 = Ok (true, s2) /\ ids s2 = ids s1 /\ on_disk s2 = on_disk s1) /\
  (exists i k s2, i `prefix_of` identity_ s1 /\ k `prefix_of` psk_ s1 /\
     (is_Some (on_disk s !! ATLAS_IDENTITY_FILE) -> i = identity_ s1) /\ (is_Some (on_disk s !! ATLAS_PSK_FILE) -> k = psk_ s1) /\
     on_disk s1 !! ATLAS_IDENTITY_FILE = Some i /\ on_disk s1 !! ATLAS_PSK_FILE = Some k /\
     if decide (i = [] \/ k = []) then initIdentity s0 = Ok (false, s2) /\ removes_both s0 s2
     else initIdentity s0 = Ok (true, s2) /\ ids s2 = (i, k) /\ on_disk s2 = on_disk s1) /\
  (on_disk s !! ATLAS_PSK_FILE = None -> Forall topic_safe (psk_ s1) /\ blen (psk_ s1) = 44).
Proof.
  intros Hrun Hd. apply init_stored in Hrun as ((i & (Hi & Hpi & Hni & Hli & Hci) & Hfi) & (k & (Hk & Hpk & Hnk & Hlk & Hck) & Hfk) & Hnew).
  destruct (init_reads s0 i k) as (s2 & Hs2); [by rewrite Hd|done|by rewrite Hd|done|]. rewrite Hd in Hs2.
  split; [|split; [|done]].
  - intros Hall. rewrite <- (Hci Hall) in Hni. rewrite <- (Hck Hall) in Hnk. rewrite decide_False in Hs2 by tauto.
    exists s2. destruct Hs2 as (? & -> & ?). unfold ids. by rewrite <- (Hci Hall), <- (Hck Hall).
  - by exists i, k, s2.
Qed.
End GwIdentityFacts.

(** * A file system *)

Definition sample_uuid : list byte := cstr "1b4e28ba-2fa1-11d2-883f-0016d3cca427".

(** With a [full] disk nothing is written. *)
Definition files_env (full : bool) : IdentityEnv := {|
  fext := gmap string (list byte);
  stream_read p x := (x !! p, x);
  stream_create p x := (true, <[p := []]> x);
  stream_write p d x := <[p := default [] (x !! p) ++ if full then [] else d]> x;
  set_permissions _ x := (true, x);
  remove_file p x := delete p x;
  uuid_text x := (sample_uuid, x);
  rand_bytes n x := (Some (replicate (Z.to_nat n) x2f), x);
  BIO_base64 _ := replicate 44 x2f;
|}.

#[local] Program Instance files_laws full : FileStreams (files_env full) := {| stored_files := fun x : @fext (files_env full) => x |}.
Next Obligation. done. Qed.
Next Obligation. done. Qed.
Next Obligation. intros full p d x. exists (if full then [] else d). split; [|done]. destruct full; [apply prefix_nil|done]. Qed.
Next Obligation. done. Qed.
Next Obligation. done. Qed.
Next Obligation. intros full x. vm_compute. split; congruence. Qed.
Next Obligation. done. Qed.
Next Obligation. intros full n x bytes Hn [= <-]. unfold blen. rewrite length_replicate. lia. Qed.
Next Obligation. intros full bs _. split; [done|]. cbn [BIO_base64 files_env]. intros (?%eq_sym & _)%elem_of_replicate. done. Qed.

Definition fresh_identity full (files : gmap string (list byte)) : @AtlasIdentity (files_env full) := @mk_identity (files_env full) [] [] files.
Definition first_start full : @AtlasIdentity (files_env full) :=
  match @initIdentity (files_env full) (fresh_identity full ∅) with Ok (_, s) => s | Fault _ => fresh_identity full ∅ end.

(** With room on the disk, and on a full one. *)
Lemma gateway_identity_persists_witness :
  (exists s2, @initIdentity (files_env false) (fresh_identity false (id_ext (first_start false))) = Ok (true, s2) /\ ids s2 = ids (first_start false)) /\
  psk_ (first_start false) = replicate 44 x41 /\
  exists s2, @initIdentity (files_env true) (fresh_identity true (id_ext (first_start true))) = Ok (false, s2).
Proof.
  pose proof (fun full => @gateway_identity_persists (files_env full) (files_laws full) (fresh_identity full ∅) (first_start full)
    (fresh_identity full (id_ext (first_start full)))) as H.
  split; [|split; [vm_compute; reflexivity|]].
  - destruct (H false) as [Hall _]; [vm_compute; reflexivity|reflexivity|]. destruct Hall as (s2 & Hr & Hi & _); [intros p d x; reflexivity|].
    exists s2. split; [exact Hr|exact Hi].
  - destruct (H true) as [_ [(i & k & s2 & _ & _ & _ & _ & Hi & _ & Hs2) _]]; [vm_compute; reflexivity|reflexivity|].
    exists s2. vm_compute in Hi. injection Hi as <-. destruct (decide _) as [|Hne]; [apply Hs2|]. destruct Hne. left. reflexivity.
Defined.
