(* ===== verification/GwHttp.v ===== *)
(** The gateway's HTTP server (http/AtlasHttpServer.cpp, AtlasHttpCallback.h,
    AtlasHttpResponse.h) and the claim requests it receives for
    claim_approve/AtlasClaim.cpp.

    The server has a thread of its own: requests and pieces of their bodies arrive on
    it; what they ask for is posted to the event loop of the gateway and the answer
    is posted back. Each handler is one step, and the two queues keep their order. A
    request and its answer live as long as their HTTP/2 stream, named here by a
    number. Which registered handler a request reaches is nghttp2's choice
    ([http_match]): the index page, the handler of the claims, or none of them when the
    library answers itself. *)
From S2P Require Import Prelude Defs CLib Command GwDefs GwBatch GwXfer GwFilter GwBayes GwStore GwNetStore GwDevice GwServer GwReputation GwLifecycle GwApprove GwCommands GwControl.
Import GwType.

(** http/AtlasHttpMethod.h *)
Inductive AtlasHttpMethod : Set := ATLAS_HTTP_GET | ATLAS_HTTP_POST | ATLAS_HTTP_PUT | ATLAS_HTTP_DEL.

#[export] Instance http_method_eq_dec : EqDecision AtlasHttpMethod.
Proof. solve_decision. Defined.

(** http/AtlasHttpResponse.h *)
Record AtlasHttpResponse := mk_http_response {
  statusCode_ : Z;
  respPayload_ : option (list byte);
}.

Definition ATLAS_CLAIM_REQUEST_PATH : list byte := cstr "/gateway/claim".

Definition INDEX : list byte := cstr "/".
Definition INDEX_PAYLOAD : list byte := cstr "ATLAS Gateway internal HTTP2 server!".

(** nghttp2's asio server. A pattern is a fixed path, or a subtree when it ends in a
    slash; the library's choice for a path and a method is one of the registered
    patterns, or none when it answers itself (a redirection, say). *)
Class HttpEnv := {
  (** [handle] accepts a pattern besides those registered *)
  http_handle : list (list byte) -> list byte -> bool;
  http_match : list (list byte) -> list byte -> list byte -> option (list byte);
  (** the key and the certificate can be read, the port can be listened on *)
  http_tls_files : list byte -> list byte -> bool;
  http_listen : Z -> bool;
  http_match_registered ps path method p : http_match ps path method = Some p -> p ∈ ps;
  http_match_fixed ps path method p : http_match ps path method = Some p -> last p <> Some x2f -> path = p;
}.

(** The functions given to [handle]. *)
Inductive http_route : Set := RouteIndex | RouteRequest.

Section GwHttp.
Context `{E : GwEnv} `{CE : !CloudEnv} `{HO : HashOrder} `{HostEndian} `{HE : HttpEnv}.

Definition AtlasHttpHandler : Type := AtlasHttpMethod -> list byte -> list byte -> C AtlasHttpResponse.

(** http/AtlasHttpCallback.h *)
Record AtlasHttpCallback := mk_http_callback {
  hc_method : AtlasHttpMethod;
  hc_path : list byte;
  hc_handler : option AtlasHttpHandler;
}.

(** What a handler of the data of a request, or its task on the event loop, has captured. *)
Record capture := mk_capture {
  cp_method : AtlasHttpMethod;
  cp_callback : AtlasHttpCallback;
  cp_res : Z;
}.

(** [routes_]: what nghttp2 was given by [handle]. [streams_]: the open ones, with their
    handler of data if there is one. The calls of [write_head] and [end] are in two logs:
    [early_] those of the handlers themselves, on the server's thread as the request
    arrives, [answers_] those posted back from the event loop. *)
Record http_server := mk_http {
  routes_ : list (list byte * http_route);
  callbacks_ : gmap (list byte) AtlasHttpCallback;
  streams_ : gmap Z (option capture);
  tasks_ : list (capture * list byte);              (* posted to AtlasScheduler's service *)
  replies_ : list (Z * AtlasHttpResponse);          (* posted to the server's service *)
  early_ : list (Z * AtlasHttpResponse);
  answers_ : list (Z * AtlasHttpResponse);
  hs_ct : control;
}.

Definition set_routes (r : list (list byte * http_route)) (s : http_server) : http_server :=
  mk_http r (callbacks_ s) (streams_ s) (tasks_ s) (replies_ s) (early_ s) (answers_ s) (hs_ct s).
Definition set_callbacks (m : gmap (list byte) AtlasHttpCallback) (s : http_server) : http_server :=
  mk_http (routes_ s) m (streams_ s) (tasks_ s) (replies_ s) (early_ s) (answers_ s) (hs_ct s).
Definition set_streams (m : gmap Z (option capture)) (s : http_server) : http_server :=
  mk_http (routes_ s) (callbacks_ s) m (tasks_ s) (replies_ s) (early_ s) (answers_ s) (hs_ct s).
Definition set_tasks (t : list (capture * list byte)) (s : http_server) : http_server :=
  mk_http (routes_ s) (callbacks_ s) (streams_ s) t (replies_ s) (early_ s) (answers_ s) (hs_ct s).
Definition set_replies (r : list (Z * AtlasHttpResponse)) (s : http_server) : http_server :=
  mk_http (routes_ s) (callbacks_ s) (streams_ s) (tasks_ s) r (early_ s) (answers_ s) (hs_ct s).
Definition set_hs_ct (c : control) (s : http_server) : http_server :=
  mk_http (routes_ s) (callbacks_ s) (streams_ s) (tasks_ s) (replies_ s) (early_ s) (answers_ s) c.
Definition write_early (sid : Z) (r : AtlasHttpResponse) (s : http_server) : http_server :=
  mk_http (routes_ s) (callbacks_ s) (streams_ s) (tasks_ s) (replies_ s) (early_ s ++ [(sid, r)]) (answers_ s) (hs_ct s).
Definition write_answer (sid : Z) (r : AtlasHttpResponse) (s : http_server) : http_server :=
  mk_http (routes_ s) (callbacks_ s) (streams_ s) (tasks_ s) (replies_ s) (early_ s) (answers_ s ++ [(sid, r)]) (hs_ct s).
Definition patterns (s : http_server) : list (list byte) := (routes_ s).*1.

(** * http/AtlasHttpServer.cpp *)

(** [server_.handle] *)
Definition server_handle (pattern : list byte) (route : http_route) (s : http_server) : bool * http_server :=
  if http_handle (patterns s) pattern then (true, set_routes (routes_ s ++ [(pattern, route)]) s) else (false, s).

Definition addCallback (httpCallback : AtlasHttpCallback) (s : http_server) : bool * http_server :=
  let '(ret, s) := server_handle (hc_path httpCallback) RouteRequest s in
  if (ret : bool) then (ret, set_callbacks (<[hc_path httpCallback := httpCallback]> (callbacks_ s)) s) else (ret, s).

(** [AtlasHttpServer::start]: a file that cannot be read throws; whether the index
    handler is accepted is not looked at. *)
Definition http_start (certFile privKeyFile : list byte) (port : Z) (s : http_server) : res (bool * http_server) :=
  if negb (http_tls_files certFile privKeyFile) then Fault Uncaught else
  (* Install default index handler *)
  let '(_, s) := server_handle INDEX RouteIndex s in
  Ok (http_listen port, s).

(** The index handler. *)
Definition index_request (sid : Z) (s : http_server) : http_server :=
  write_early sid (mk_http_response 200 (Some INDEX_PAYLOAD)) s.

Definition http_method (m : list byte) : option AtlasHttpMethod :=
  if decide (m = cstr "GET") then Some ATLAS_HTTP_GET
  else if decide (m = cstr "POST") then Some ATLAS_HTTP_POST
  else if decide (m = cstr "PUT") then Some ATLAS_HTTP_PUT
  else if decide (m = cstr "DELETE") then Some ATLAS_HTTP_DEL
  else None.

(** The early answers are written on the server's thread. *)
Definition handleRequest (sid : Z) (path method : list byte) (s : http_server) : http_server :=
  let not_found := write_early sid (mk_http_response 404 None) s in
  match callbacks_ s !! path with
  | None => not_found
  | Some callback =>
      match http_method method with
      | None => not_found
      | Some m =>
          if decide (m <> hc_method callback) then not_found else
          match hc_handler callback with
          | None => not_found
          | Some _ => set_streams (<[sid := Some (mk_capture m callback sid)]> (streams_ s)) s
          end
      end
  end.

(** nghttp2 calls the function registered for the pattern it has chosen. *)
Definition route_request (sid : Z) (path method : list byte) (s : http_server) : http_server :=
  match http_match (patterns s) path method with
  | None => s
  | Some p =>
      match List.find (fun r => bool_decide (r.1 = p)) (routes_ s) with
      | Some (_, RouteIndex) => index_request sid s
      | Some (_, RouteRequest) => handleRequest sid path method s
      | None => s
      end
  end.

(** The handler given to [on_data]; the end of the body is a piece of no bytes. *)
Definition on_data (c : capture) (data : list byte) (s : http_server) : http_server :=
  if decide (data = []) then s else set_tasks (tasks_ s ++ [(c, data)]) s.

(** Execute high layer application callback; its answer is posted back. An empty
    [std::function] throws. *)
Definition run_task (c : capture) (reqPayload : list byte) (s : http_server) : res http_server :=
  match hc_handler (cp_callback c) with
  | None => Fault Uncaught
  | Some h =>
      '(httpResp, ct) ← h (cp_method c) (hc_path (cp_callback c)) reqPayload (hs_ct s);
      Ok (set_hs_ct ct (set_replies (replies_ s ++ [(cp_res c, httpResp)]) s))
  end.

(** The answer is written through the reference [res] of the request. *)
Definition run_reply (sid : Z) (r : AtlasHttpResponse) (s : http_server) : res http_server :=
  match streams_ s !! sid with
  | None => Fault UseAfterFree
  | Some _ => Ok (write_answer sid r s)
  end.

(** * claim_approve/AtlasClaim.cpp *)

Definition claim_handler : AtlasHttpHandler := fun method path payload =>
  '(status, text) ← handleClaimReq payload;
  mret (mk_http_response status (Some text)).

Definition claimCallback_ : AtlasHttpCallback :=
  mk_http_callback ATLAS_HTTP_POST ATLAS_CLAIM_REQUEST_PATH (Some claim_handler).

(** [AtlasClaim::start]: the short code, and the callback. *)
Definition claim_serve (s : http_server) : res (bool * http_server) :=
  '(_, ct) ← claim_start (hs_ct s);
  Ok (addCallback claimCallback_ (set_hs_ct ct s)).

Definition new_http (c : control) : http_server := mk_http [] ∅ ∅ [] [] [] [] c.

(** * Runs

    AtlasMain.cpp registers the claims, starts the approval of commands and the server. *)

Definition http_main (certFile privKeyFile : list byte) (port : Z) (c : control) : res (bool * http_server) :=
  '(ok, s) ← claim_serve (new_http c);
  if negb ok then Ok (false, s) else
  '(_, ct) ← approve_start (hs_ct s);
  http_start certFile privKeyFile port (set_hs_ct ct s).


Inductive http_act :=
  | HRequest (sid : Z) (path method : list byte)    (* the server's thread *)
  | HData (sid : Z) (data : list byte)
  | HClose (sid : Z)
  | HReply
  | HTask                                           (* the event loop *)
  | HOther (i : ct_input).

Definition http_enabled (x : http_act) (s : http_server) : Prop :=
  match x with
  | HRequest sid _ _ => streams_ s !! sid = None
  | HData sid _ => exists c, streams_ s !! sid = Some (Some c)
  | HClose sid => is_Some (streams_ s !! sid)
  | HReply => replies_ s <> []
  | HTask => tasks_ s <> []
  | HOther i => (forall p, i <> CtClaim p) /\ orderly i (hs_ct s)
  end.

Definition http_perform (x : http_act) (s : http_server) : res http_server :=
  match x with
  | HRequest sid path method => Ok (route_request sid path method (set_streams (<[sid := None]> (streams_ s)) s))
  | HData sid data =>
      match streams_ s !! sid with
      | Some (Some c) => Ok (on_data c data s)
      | _ => Ok s
      end
  | HClose sid => Ok (set_streams (delete sid (streams_ s)) s)
  | HReply => match replies_ s with [] => Ok s | (sid, r) :: rs => run_reply sid r (set_replies rs s) end
  | HTask => match tasks_ s with [] => Ok s | (c, p) :: ts => run_task c p (set_tasks ts s) end
  | HOther i => '(_, ct) ← ct_handle i (hs_ct s); Ok (set_hs_ct ct s)
  end.

Inductive http_run : http_server -> list http_act -> http_server -> Prop :=
  | http_nil s : http_run s [] s
  | http_snoc s xs s1 x s2 :
      http_run s xs s1 -> http_enabled x s1 -> http_perform x s1 = Ok s2 -> http_run s (xs ++ [x]) s2.
End GwHttp.

(** * Specification *)

Section HttpRuns.
Context `{E : GwEnv} `{CE : !CloudEnv} `{HO : HashOrder} `{HostEndian} `{HE : HttpEnv}.
Implicit Types s : http_server.

(** The pieces of bodies that arrive, in order, with their streams. *)
Definition piece (x : http_act) : option (Z * list byte) :=
  match x with HData sid data => if decide (data = []) then None else Some (sid, data) | _ => None end.
Definition pieces (xs : list http_act) : list (Z * list byte) := omap piece xs.

(** The claims among the inputs of a run of the gateway, and how it answers them. *)
Definition claim_of (i : ct_input) : option (list byte) := match i with CtClaim p => Some p | _ => None end.
Fixpoint claim_answers (ins : list ct_input) (c : control) : list AtlasHttpResponse :=
  match ins with
  | [] => []
  | i :: ins =>
      match i with
      | CtClaim p => match handleClaimReq p c with Ok ((st, text), _) => [mk_http_response st (Some text)] | Fault _ => [] end
      | _ => []
      end ++
      match ct_handle i c with Ok (_, c) => claim_answers ins c | Fault _ => [] end
  end.

Lemma ct_run_snoc c ins c1 i c2 : ct_run c ins c1 -> orderly i c1 -> ct_handle i c1 = Ok (tt, c2) -> ct_run c (ins ++ [i]) c2.
Proof.
  intros Hrun Ho Hh. induction Hrun as [c|c j c' ins c1 Hj Hc Hrun IH]; [by eapply ct_run_cons; [..|constructor]|].
  eapply ct_run_cons; eauto.
Qed.

Lemma claim_answers_snoc c ins c1 i : ct_run c ins c1 -> claim_answers (ins ++ [i]) c = claim_answers ins c ++ claim_answers [i] c1.
Proof.
  intros Hrun. induction Hrun as [c|c j c' ins c1 Hj Hc Hrun IH]; [done|]. cbn [app claim_answers]. rewrite Hc, IH.
  by rewrite app_assoc.
Qed.

Lemma claim_answers_other i c : (forall p, i <> CtClaim p) -> claim_answers [i] c = [].
Proof. intros Hi. cbn. destruct i; try (by destruct (ct_handle _ c) as [[]|]). by edestruct Hi. Qed.

Lemma claim_answers_claim p c st text c' :
  handleClaimReq p c = Ok ((st, text), c') ->
  ct_handle (CtClaim p) c = Ok (tt, c') /\ claim_answers [CtClaim p] c = [mk_http_response st (Some text)].
Proof.
  intros Hc. assert (Hh : ct_handle (CtClaim p) c = Ok (tt, c')) by (cbn; unfold mbind, C_bind; by rewrite Hc).
  split; [done|]. cbn [claim_answers]. by rewrite Hh, Hc.
Qed.

Lemma answers_length c ins c' : ct_run c ins c' -> length (claim_answers ins c) = length (omap claim_of ins).
Proof.
  intros Hrun. induction Hrun as [c|c i c1 ins c' Ho Hc Hrun IH]; [done|]. cbn [claim_answers]. rewrite Hc, length_app, IH.
  destruct i; try done. cbn in Hc |- *. apply C_bind_inv in Hc as ([st text] & c2 & -> & _). done.
Qed.

(** The state of the server after [xs], and what the gateway behind it has gone through. *)
Record http_inv (c0 : control) (xs : list http_act) (ins : list ct_input) s : Prop := {
  hi_routes : exists l, routes_ s = (ATLAS_CLAIM_REQUEST_PATH, RouteRequest) :: l /\ l ⊆ [(INDEX, RouteIndex)];
  hi_callbacks : callbacks_ s = {[ATLAS_CLAIM_REQUEST_PATH := claimCallback_]};
  hi_streams sid c : streams_ s !! sid = Some (Some c) ->
    c = mk_capture ATLAS_HTTP_POST claimCallback_ sid /\ HRequest sid ATLAS_CLAIM_REQUEST_PATH (cstr "POST") ∈ xs;
  hi_origin : Forall (fun q => HRequest q.1 ATLAS_CLAIM_REQUEST_PATH (cstr "POST") ∈ xs) (pieces xs);
  hi_control : ct_run c0 ins (hs_ct s);
  hi_tasks : exists done waiting, pieces xs = done ++ waiting /\
    tasks_ s = (fun q => (mk_capture ATLAS_HTTP_POST claimCallback_ q.1, q.2)) <$> waiting /\
    omap claim_of ins = done.*2 /\
    answers_ s ++ replies_ s = zip done.*1 (claim_answers ins c0);
}.

Lemma inv_mono c0 xs x ins s : piece x = None -> http_inv c0 xs ins s -> http_inv c0 (xs ++ [x]) ins s.
Proof.
  intros Hx [Hrt Hcb Hst Hor Hct Ht]. assert (Hp : pieces (xs ++ [x]) = pieces xs).
  { unfold pieces. rewrite omap_app. cbn. rewrite Hx. apply app_nil_r. }
  split; [done|done| | |done|by rewrite Hp].
  - intros sid c Hs. destruct (Hst sid c Hs) as [-> Hin]. split; [done|]. apply elem_of_app. by left.
  - rewrite Hp. eapply Forall_impl; [exact Hor|]. intros q Hq. apply elem_of_app. by left.
Qed.

Lemma http_method_post m : http_method m = Some ATLAS_HTTP_POST -> m = cstr "POST".
Proof. unfold http_method. repeat case_decide; congruence. Qed.

(** What a request does that reaches the handler of the claims: with POST it waits for its
    body, with another method it is answered at once. *)
Lemma http_request_cases sid method s :
  callbacks_ s = {[ATLAS_CLAIM_REQUEST_PATH := claimCallback_]} ->
  handleRequest sid ATLAS_CLAIM_REQUEST_PATH method s =
  if decide (method = cstr "POST")
  then set_streams (<[sid := Some (mk_capture ATLAS_HTTP_POST claimCallback_ sid)]> (streams_ s)) s
  else write_early sid (mk_http_response 404 None) s.
Proof.
  intros Hcb. unfold handleRequest. rewrite Hcb, lookup_singleton_eq. destruct (http_method method) as [m|] eqn:Hm; cbv zeta.
  - cbn [hc_method hc_handler claimCallback_]. destruct (decide (m = ATLAS_HTTP_POST)) as [->|Hne].
    + apply http_method_post in Hm as ->. rewrite decide_False by auto. by rewrite decide_True.
    + rewrite decide_True by done. rewrite decide_False; [done|]. intros ->. apply Hne. vm_compute in Hm. congruence.
  - rewrite decide_False; [done|]. by intros ->.
Qed.

Lemma http_route_cases sid path method s l :
  callbacks_ s = {[ATLAS_CLAIM_REQUEST_PATH := claimCallback_]} ->
  routes_ s = (ATLAS_CLAIM_REQUEST_PATH, RouteRequest) :: l -> l ⊆ [(INDEX, RouteIndex)] ->
  route_request sid path method s =
  match http_match (patterns s) path method with
  | None => s
  | Some p =>
      if decide (p = ATLAS_CLAIM_REQUEST_PATH) then
        if decide (method = cstr "POST")
        then set_streams (<[sid := Some (mk_capture ATLAS_HTTP_POST claimCallback_ sid)]> (streams_ s)) s
        else write_early sid (mk_http_response 404 None) s
      else write_early sid (mk_http_response 200 (Some INDEX_PAYLOAD)) s
  end /\
  (http_match (patterns s) path method = Some ATLAS_CLAIM_REQUEST_PATH -> path = ATLAS_CLAIM_REQUEST_PATH).
Proof.
  intros Hcb Hr Hl. assert (Hfix : http_match (patterns s) path method = Some ATLAS_CLAIM_REQUEST_PATH -> path = ATLAS_CLAIM_REQUEST_PATH).
  { intros Hm. by eapply http_match_fixed. }
  split; [|done]. unfold route_request. destruct (http_match (patterns s) path method) as [p|] eqn:Hm; [|done].
  apply http_match_registered in Hm. unfold patterns in Hm. rewrite Hr in Hm |- *. cbn [List.find fst].
  destruct (decide (p = ATLAS_CLAIM_REQUEST_PATH)) as [->|Hne].
  - rewrite bool_decide_true by done. rewrite (Hfix eq_refl). by apply http_request_cases.
  - rewrite bool_decide_false by done. cbn in Hm. apply elem_of_cons in Hm as [->|([? ?] & -> & Hin)%list_elem_of_fmap]; [done|].
    destruct (List.find _ l) as [[q route]|] eqn:Hf.
    + apply List.find_some in Hf as [Hq%list_elem_of_In _]. apply Hl, list_elem_of_singleton in Hq. by injection Hq as -> ->.
    + apply list_elem_of_In in Hin. pose proof (List.find_none _ _ Hf _ Hin) as Hc. by apply bool_decide_eq_false in Hc.
Qed.

Lemma perform_http c0 xs ins x s s' :
  http_inv c0 xs ins s -> http_enabled x s -> http_perform x s = Ok s' -> exists ins', http_inv c0 (xs ++ [x]) ins' s'.
Proof.
  intros Hi He Hp. destruct x as [sid path method|sid data|sid| | |i]; cbn [http_perform] in Hp.
  - injection Hp as <-. exists ins. destruct (inv_mono c0 xs (HRequest sid path method) ins s eq_refl Hi) as [Hrt Hcb Hst Hor Hct Ht].
    set (s1 := set_streams (<[sid := None]> (streams_ s)) s).
    assert (Hst1 : forall sid' c, streams_ s1 !! sid' = Some (Some c) -> c = mk_capture ATLAS_HTTP_POST claimCallback_ sid' /\
      HRequest sid' ATLAS_CLAIM_REQUEST_PATH (cstr "POST") ∈ xs ++ [HRequest sid path method]).
    { cbn. intros sid' c [[_ Hno]|[_ Hs]]%lookup_insert_Some; [done|by apply Hst]. }
    destruct Hrt as (l & Hr & Hl). destruct (http_route_cases sid path method s1 l Hcb Hr Hl) as [-> Hpath].
    assert (Hs1 : http_inv c0 (xs ++ [HRequest sid path method]) ins s1) by (split; [by exists l|done..]).
    destruct (http_match (patterns s1) path method) as [p|]; [|done]. case_decide as Hd; [|by destruct Hs1; split].
    rewrite Hd in Hpath. rewrite (Hpath eq_refl) in *. case_decide as Hpost; [|by destruct Hs1; split].
    destruct Hs1 as [? ? _ ? ? ?]. split; [done|done| |done|done|done]. cbn.
    intros sid' c [[<- [= <-]]|[_ Hs]]%lookup_insert_Some; [|by apply Hst1]. split; [done|].
    apply elem_of_app. right. apply list_elem_of_singleton. by rewrite Hpost.
  - destruct He as [c Hs]. rewrite Hs in Hp. injection Hp as <-. exists ins. unfold on_data. case_decide as Hd.
    { apply inv_mono; [|done]. cbn. by rewrite decide_True. }
    destruct Hi as [Hrt Hcb Hst Hor Hct (dn & wt & Hpc & Htk & Hcl & Han)]. destruct (Hst _ _ Hs) as [-> Hin].
    assert (Hpx : pieces (xs ++ [HData sid data]) = pieces xs ++ [(sid, data)]).
    { unfold pieces. rewrite omap_app. cbn. by rewrite decide_False. }
    split; [done|done| | |done|]; cbn.
    + intros sid' c Hs'. destruct (Hst _ _ Hs') as [-> Hin']. split; [done|]. apply elem_of_app. by left.
    + rewrite Hpx. apply Forall_app. split; [eapply Forall_impl; [exact Hor|]|apply Forall_singleton]; intros; apply elem_of_app; by left.
    + exists dn, (wt ++ [(sid, data)]). rewrite Hpx, Hpc, <- app_assoc, Htk, fmap_app. done.
  - injection Hp as <-. exists ins. destruct (inv_mono c0 xs (HClose sid) ins s eq_refl Hi) as [Hrt Hcb Hst Hor Hct Ht].
    split; [done|done| |done|done|done]. cbn. intros sid' c [_ Hs]%lookup_delete_Some. by apply Hst.
  - exists ins. destruct (inv_mono c0 xs HReply ins s eq_refl Hi) as [Hrt Hcb Hst Hor Hct Ht].
    destruct (replies_ s) as [|[sid r] rs] eqn:Hr; [done|]. unfold run_reply in Hp. destruct (streams_ _ !! sid); [|done].
    injection Hp as <-. split; [done|done|done|done|done|].
    destruct Ht as (dn & wt & Hpc & Htk & Hcl & Han). exists dn, wt.
    split; [done|]. split; [done|]. split; [done|]. rewrite <- Han. cbn. by rewrite <- app_assoc.
  - destruct (inv_mono c0 xs HTask ins s eq_refl Hi) as [Hrt Hcb Hst Hor Hct (dn & wt & Hpc & Htk & Hcl & Han)].
    destruct wt as [|[sid p] wt]; rewrite Htk in Hp; [by unfold http_enabled in He|]. cbn in Hp.
    apply res_bind_inv in Hp as ([resp ct] & Hh & Hp). injection Hp as <-.
    apply C_bind_inv in Hh as ([st text] & c1 & Hcr & [= <- <-]).
    destruct (claim_answers_claim _ _ _ _ _ Hcr) as [Hh Ha]. exists (ins ++ [CtClaim p]). split; [done|done|done|done| |]; cbn.
    + by eapply ct_run_snoc.
    + exists (dn ++ [(sid, p)]), wt. split; [by rewrite <- app_assoc|]. split; [done|].
      split; [by rewrite omap_app, Hcl, fmap_app|].
      rewrite (claim_answers_snoc _ _ _ _ Hct), Ha, app_assoc, Han, fmap_app.
      rewrite zip_with_app; [done|]. rewrite (answers_length _ _ _ Hct), Hcl. by rewrite !length_fmap.
  - destruct (inv_mono c0 xs (HOther i) ins s eq_refl Hi) as [Hrt Hcb Hst Hor Hct (dn & wt & Hpc & Htk & Hcl & Han)].
    destruct He as [Hno Ho]. apply res_bind_inv in Hp as ([[] ct] & Hh & Hp). injection Hp as <-. exists (ins ++ [i]).
    split; [done|done|done|done| |]; cbn; [by eapply ct_run_snoc|]. exists dn, wt. split; [done|]. split; [done|].
    rewrite (claim_answers_snoc _ _ _ _ Hct), (claim_answers_other i _ Hno), app_nil_r, omap_app. cbn.
    split; [|done]. rewrite Hcl. destruct i; cbn; rewrite ?app_nil_r; try done. by edestruct Hno.
Qed.

Lemma run_http c0 xs0 ins0 s xs s' :
  http_inv c0 xs0 ins0 s -> http_run s xs s' -> exists ins, http_inv c0 (xs0 ++ xs) ins s'.
Proof.
  intros Hi Hrun. induction Hrun as [s|s xs s1 x s2 Hrun IH He Hp]; [rewrite app_nil_r; by exists ins0|].
  destruct (IH Hi) as (ins & Hi1). rewrite app_assoc. by eapply perform_http.
Qed.

Lemma main_inv cert key port c0 s0 : http_main cert key port c0 = Ok (true, s0) -> http_inv (hs_ct s0) [] [] s0.
Proof.
  unfold http_main, claim_serve. intros ([ok s1] & ([[] ct] & _ & Hs)%res_bind_inv & Hrun)%res_bind_inv.
  unfold addCallback, server_handle in Hs. cbn [hc_path claimCallback_] in Hs.
  destruct (http_handle _ _); injection Hs as <- <-; cbn [negb] in Hrun; [|by injection Hrun].
  apply res_bind_inv in Hrun as ([[] ct'] & _ & Hrun). unfold http_start in Hrun.
  destruct (http_tls_files _ _); [|done]. cbn [negb] in Hrun. unfold server_handle in Hrun.
  destruct (http_handle _ _); injection Hrun as _ <-;
    (split; cbn; [eexists; split; [reflexivity|set_solver]|done|done|by constructor|by constructor|by exists [], []]).
Qed.

(** ** Theorems *)

(** C17: Only claims get through, and each gets its answer. Once AtlasMain.cpp has
    registered the claims and started the server, whatever requests, pieces of bodies
    and closed streams it sees, between whatever else the gateway goes through, the
    gateway behind it goes through a run of its inputs in which the claims are the
    pieces of bodies so far executed, each once and in the order of arrival; these came
    on streams that asked for the path of the claim with POST; and the answers posted
    back, written or still queued, are those of the claims, in order and each for its
    own stream. A request that nghttp2 gives to the handler of the claims asks for their
    path: with POST it waits for its body, with another method it is answered 404 at
    once. One that it gives to the other handler is answered with the index page at
    once, and one it answers itself reaches neither; none of these touches the
    gateway. *)
Theorem http_claims (certFile privKeyFile : list byte) (port : Z) (c0 : control) s0 (xs : list http_act) s :
  http_main certFile privKeyFile port c0 = Ok (true, s0) -> http_run s0 xs s ->
  (exists ins executed waiting, ct_run (hs_ct s0) ins (hs_ct s) /\ pieces xs = executed ++ waiting /\
     omap claim_of ins = executed.*2 /\ (tasks_ s).*2 = waiting.*2 /\
     answers_ s ++ replies_ s = zip executed.*1 (claim_answers ins (hs_ct s0))) /\
  Forall (fun q => HRequest q.1 ATLAS_CLAIM_REQUEST_PATH (cstr "POST") ∈ xs) (pieces xs) /\
  forall sid path method,
    let opened := set_streams (<[sid := None]> (streams_ s)) s in
    http_perform (HRequest sid path method) s = Ok
      match http_match (patterns s) path method with
      | None => opened
      | Some p =>
          if decide (p = ATLAS_CLAIM_REQUEST_PATH) then
            if decide (method = cstr "POST")
            then set_streams (<[sid := Some (mk_capture ATLAS_HTTP_POST claimCallback_ sid)]> (streams_ opened)) opened
            else write_early sid (mk_http_response 404 None) opened
          else write_early sid (mk_http_response 200 (Some INDEX_PAYLOAD)) opened
      end /\
    (http_match (patterns s) path method = Some ATLAS_CLAIM_REQUEST_PATH -> path = ATLAS_CLAIM_REQUEST_PATH).
Proof.
  intros Hb Hrun. destruct (run_http _ [] [] s0 xs s (main_inv _ _ _ _ _ Hb) Hrun)
    as (ins & [(l & Hr & Hl) Hcb Hst Hor Hct (dn & wt & Hpc & Htk & Hcl & Han)]).
  cbn [app] in *. split; [|split; [done|]].
  - exists ins, dn, wt. split; [done|]. split; [done|]. split; [done|]. split; [|done].
    rewrite Htk, <- list_fmap_compose. by apply list_fmap_ext.
  - intros sid path method.
    destruct (http_route_cases sid path method (set_streams (<[sid := None]> (streams_ s)) s) l Hcb Hr Hl) as [Heq Hp].
    split; [cbn [http_perform]; by rewrite Heq|exact Hp].
Qed.

(** An answer may outlive its request: it is written through a reference into the
    stream, so a client that closes the stream between its request and the answer
    makes the server use freed memory. *)
Lemma http_client_gone sid r rs s :
  replies_ s = (sid, r) :: rs -> streams_ s !! sid = None -> http_perform HReply s = Fault UseAfterFree.
Proof. intros Hr Hs. cbn. rewrite Hr. unfold run_reply. cbn. by rewrite Hs. Qed.

(** A request without a body is never answered. *)
Lemma http_empty_unanswered sid c s : streams_ s !! sid = Some (Some c) -> http_perform (HData sid []) s = Ok s.
Proof. intros Hs. cbn. by rewrite Hs. Qed.
End HttpRuns.

(** * A run *)

(** A router: a fixed path, and the index page for the others. *)
Definition sim_match (ps : list (list byte)) (path method : list byte) : option (list byte) :=
  if decide (path ∈ ps) then Some path else if decide (INDEX ∈ ps) then Some INDEX else None.

#[local] Instance sim_http : HttpEnv.
Proof.
  refine {| http_handle ps p := bool_decide (p <> [] /\ p ∉ ps); http_match := sim_match;
    http_tls_files _ _ := true; http_listen _ := true |}; unfold sim_match; intros ps path method p.
  - repeat case_decide; naive_solver.
  - case_decide; [naive_solver|]. case_decide; [|done]. by intros [= <-].
Defined.

Definition sample_http_acts : list http_act :=
  [HRequest 1 ATLAS_CLAIM_REQUEST_PATH (cstr "POST"); HRequest 3 (cstr "/x") (cstr "GET");
   HRequest 5 ATLAS_CLAIM_REQUEST_PATH (cstr "GET"); HData 1 [x00]; HData 1 [];
   HTask; HReply; HClose 1].

Section SampleRun.
Context `{E : GwEnv} `{CE : !CloudEnv} `{HO : HashOrder} `{HostEndian} `{HE : HttpEnv}.

Fixpoint http_all (xs : list http_act) (s : http_server) : res http_server :=
  match xs with
  | [] => Ok s
  | x :: xs => s ← http_perform x s; http_all xs s
  end.
Fixpoint http_all_enabled (xs : list http_act) (s : http_server) : Prop :=
  match xs with
  | [] => True
  | x :: xs => http_enabled x s /\ match http_perform x s with Ok s => http_all_enabled xs s | Fault _ => False end
  end.

(** The same as a test, for runs without other inputs. *)
Definition http_may (x : http_act) (s : http_server) : bool :=
  match x with
  | HRequest sid _ _ => match streams_ s !! sid with None => true | Some _ => false end
  | HData sid _ => match streams_ s !! sid with Some (Some _) => true | _ => false end
  | HClose sid => match streams_ s !! sid with Some _ => true | None => false end
  | HReply => match replies_ s with [] => false | _ => true end
  | HTask => match tasks_ s with [] => false | _ => true end
  | HOther _ => false
  end.
Fixpoint http_all_may (xs : list http_act) (s : http_server) : bool :=
  match xs with
  | [] => true
  | x :: xs => http_may x s && match http_perform x s with Ok s => http_all_may xs s | Fault _ => false end
  end.

Lemma http_may_enabled x s : http_may x s = true -> http_enabled x s.
Proof.
  destruct x as [sid p m|sid d|sid| | |i]; cbn; [by destruct (streams_ s !! sid)| |by destruct (streams_ s !! sid); [eexists|]
    |by destruct (replies_ s)|by destruct (tasks_ s)|done].
  destruct (streams_ s !! sid) as [[c|]|]; [by exists c|done|done].
Qed.

Lemma http_all_may_enabled xs s : http_all_may xs s = true -> http_all_enabled xs s.
Proof.
  revert s. induction xs as [|x xs IH]; intros s; [done|]. cbn [http_all_may http_all_enabled].
  intros [Hm Hr]%andb_true_iff. split; [by apply http_may_enabled|]. destruct (http_perform x s); [by apply IH|done].
Qed.

Lemma http_trans s xs s1 ys s2 : http_run s xs s1 -> http_run s1 ys s2 -> http_run s (xs ++ ys) s2.
Proof.
  intros H1 H2. induction H2 as [|s1 ys s2 y s3 Hr IH He Hp]; [by rewrite app_nil_r|].
  rewrite app_assoc. by eapply http_snoc; [apply IH| |].
Qed.

Definition http_after (xs : list http_act) (s : http_server) : http_server :=
  match http_all xs s with Ok s => s | Fault _ => s end.

Lemma http_after_run xs s : http_all_enabled xs s -> http_run s xs (http_after xs s).
Proof.
  unfold http_after. revert s. induction xs as [|x xs IH]; intros s; [constructor|]. cbn [http_all_enabled http_all].
  intros [He Hrest]. destruct (http_perform x s) as [s1|] eqn:Hp; [|done]. rewrite res_bind_ok.
  specialize (IH s1 Hrest). assert (Hs : exists s2, http_all xs s1 = Ok s2).
  { clear -Hrest. revert s1 Hrest. induction xs as [|x xs IH]; intros s; [by eexists|]. cbn. intros [_ Hr].
    destruct (http_perform x s) as [s1|]; [|done]. by apply IH. }
  destruct Hs as (s2 & Hs2). rewrite Hs2 in IH |- *. apply (http_trans s [x] s1 xs s2); [|done].
  apply (http_snoc s [] s x s1); [constructor|done|done].
Qed.
End SampleRun.

Definition http_boot : res (bool * @http_server sim_gw) :=
  @http_main sim_gw sim_cloud sim_http [] [] 443 (sim_start empty_gw).
Definition http_ready : @http_server sim_gw := match http_boot with Ok (_, s) => s | Fault _ => new_http (sim_start empty_gw) end.
Lemma http_ready_ok : http_boot = Ok (true, http_ready).
Proof.
  unfold http_ready. assert (Hok : match http_boot with Ok (b, _) => b | Fault _ => false end = true) by (vm_compute; reflexivity).
  by destruct http_boot as [[[] s]|].
Qed.

Definition http_sample : @http_server sim_gw := @http_after sim_gw sim_cloud key_order true sim_http sample_http_acts http_ready.

Lemma http_sample_run : @http_run sim_gw sim_cloud key_order true sim_http http_ready sample_http_acts http_sample.
Proof.
  apply http_after_run, http_all_may_enabled. vm_compute. reflexivity.
Qed.

(** The claim of the sample run succeeds; the request for another path got the index
    page, the claim without POST a 404. *)
Lemma http_claims_witness :
  (exists ins, @ct_run sim_gw sim_cloud key_order true (hs_ct http_ready) ins (hs_ct http_sample) /\ omap claim_of ins = [[x00]]) /\
  claimed_ (ct_owner (hs_ct http_sample)) = true /\
  answers_ http_sample ++ replies_ http_sample = [(1, mk_http_response 200 (Some (cstr "gw")))] /\
  early_ http_sample = [(3, mk_http_response 200 (Some INDEX_PAYLOAD)); (5, mk_http_response 404 None)].
Proof.
  destruct (@http_claims sim_gw sim_cloud key_order true sim_http [] [] 443 (sim_start empty_gw) http_ready
    sample_http_acts http_sample http_ready_ok http_sample_run) as [(ins & dn & wt & Hr & Hp & Hc & Ht & _) _].
  split; [|repeat split; vm_compute; reflexivity].
  exists ins. split; [exact Hr|]. assert (Hw : (tasks_ http_sample).*2 = []) by (vm_compute; reflexivity).
  rewrite Hw in Ht. destruct wt as [|q wt]; [|discriminate Ht]. rewrite app_nil_r in Hp. rewrite Hc, <- Hp. reflexivity.
Defined.
