(* ===== verification/Approved.v ===== *)
(** Approved commands across the system: from the queue of the gateway
    (device/AtlasDevice.cpp) to the end-point of the client that schedules them
    (commands_execute/), the alarm that runs them, and the answer back, as the CoAP
    layers of the two programs carry it. *)
From S2P Require Import Prelude Defs CLib State SimEnv CoapClient GwDefs GwIo GwCoap Config Command Sched Alarm Safety CoapClient DataPlane CoapServer CommandExecute Payload Telemetry Register AtlasLib Identity Endpoints Client.
From S2P Require Import GwDefs GwBatch GwXfer GwFilter GwBayes GwStore GwNetStore GwDevice GwServer GwReputation GwLifecycle GwApprove GwCommands GwControl.






Section Client.
Context {E : Env} `{!EnvLaws E} `{HostEndian}.




End Client.

Section Gateway.
Context `{GE : GwEnv} `{SND : !Sends GE} `{CE : !CloudEnv} `{HostEndian}.



End Gateway.


(** * Theorems *)


(** * A restart *)



